(* ===== verification/_CoqProject ===== *)
-Q . S2P
Prelude.v
State.v
Boot.v
Spinlock.v
Str.v
Kalloc.v
Cprintf.v
Vm.v
Pgtable.v
Sched.v
Sema.v
Sleeplock.v
Bio.v
Ide.v
Log.v
Fs.v
Fsview.v
Content.v
File.v
Waiting.v
Pipe.v
Kthread.v
Exec.v
Syscall.v
Console.v
Tty.v
Platform.v
Fileio.v
Dir.v
Mkfs.v
Trap.v
Asm.v
Bootmain.v
Main.v
Ulib.v
Grep.v
Wc.v
User.v
Progs.v
Shell.v
Umalloc.v
Uthread.v
