(* ===== verification/Prelude.v ===== *)
(** * A verification development for xv6 with kernel and user threads

    The program is a small Unix-like operating system for the x86: a
    multiprocessor kernel with processes, kernel threads that share an address
    space, counting semaphores, a crash-safe file system and pipes, together
    with its boot loader, the builder of its disk image, a user library with a
    user-level thread package, a shell and a set of user programs.  The
    development translates the C sources, and the assembly routines, into
    executable definitions with the names of the source, and proves what the
    parts promise to each other.

    ** The method

    A C function is a function from a state to a result ([res], below): it
    returns a value and a new state, sleeps for ever, panics, does something
    undefined ([Fault]) or loops for ever ([Diverge]).  [M S] is the monad of
    such functions; kernel code lives in [K], the monad over [world] (State.v).
    Integers are [Z], wrapped to their width where the source wraps ([u8],
    [u16], [u32], [s32]); memory is a function from addresses to bytes;
    pointers into a kernel table are indices, an index outside the table is a
    [Fault].

    Concurrency.  A definition describes what one thread does on one
    processor.  Where the source lets others run (a spin lock that is taken, the
    context switch in [sched], the wait for another processor) the model applies
    the next element of [w_others], an arbitrary function on the kernel's state.
    The theorems quantify over these functions and restrict them only by what the
    held locks guarantee, so that they cover every interleaving at those points.

    Loops.  A loop whose length the source bounds is an iteration ([each_],
    [for_]); a loop that waits for others takes a turn per element of
    [w_others]; any other loop ([loop_]) takes fuel, chosen at its definition
    with the reason why it is enough, and a theorem about a function with fuel
    shows that it returns.  [Diverge] is also the result when the answers fixed
    for a device are used up.

    ** The parts and their files

    - Prelude.v: the monad, its loops, weakest preconditions and the tactics
      ([krun], [kcall], [zb]), machine integers, lemmas on lists.
    - State.v, Boot.v: the structures of the headers and the global variables of
      the kernel, grouped by owner: hardware and locks ([hwstate]), process,
      thread-stack and semaphore tables ([ptstate]), memory ([kmstate]), buffer
      cache, disk and log ([bcstate]), file system ([fsstate]), console
      ([cnstate]); the image the loader leaves.
    - Spinlock.v (spinlock.c), Sleeplock.v (sleeplock.c), Sched.v (proc.c: table
      entries, [sched], [sleep], [wakeup], [scheduler]), Sema.v (proc.c: the
      semaphores), Waiting.v (sleeping on a condition under a lock, shared by
      Pipe.v and Tty.v), Kthread.v (proc.c: [fork], [exit], [wait] and the kernel
      threads).
    - Str.v (string.c), Kalloc.v (kalloc.c), Vm.v (vm.c), Pgtable.v (what page
      tables mean).
    - Bio.v (bio.c, memide.c), Ide.v (ide.c), Log.v (log.c), Fs.v (fs.c),
      Fsview.v and Content.v (the file system's operations on the view of the
      blocks), File.v (file.c, pipe.c), Pipe.v, Fileio.v (files through the log
      to the disk), Dir.v (directories, path names and the references of the
      inode cache), Mkfs.v (mkfs.c).
    - Exec.v (exec.c), Syscall.v (syscall.c, sysproc.c, sysfile.c), Cprintf.v and
      Console.v (console.c, kbd.c, uart.c), Tty.v (the terminal), Platform.v
      (mp.c, lapic.c, ioapic.c, picirq.c, uart.c, the ports of kbd.c and
      [consoleintr], which calls them with the console locked), Trap.v
      (trap.c), Asm.v (swtch.S, trapasm.S, vectors.pl, usys.S, initcode.S,
      entry.S, entryother.S), Bootmain.v (bootmain.c), Main.v (main.c).
    - Ulib.v, User.v (ulib.c, printf.c), Umalloc.v (umalloc.c), Uthread.v
      (uthread.c), Grep.v, Wc.v, Progs.v, Shell.v (the programs).  A run of a
      user program is a function of what the kernel answers to its calls
      ([U], User.v).

    Components meet at interfaces: the buffer cache is written against
    [DiskDriver], which memide.c and ide.c implement; the file system against
    [ConsoleDev], which console.c implements; ide.c against the ports of
    [IdeController]; devices of the platform against a trace of accesses and a
    list of answers.

    ** What the theorems show

    - Crash safety: [commit] and recovery are atomic on disk whatever write the
      machine stops at (Log.v), and [filewrite] leaves every prefix of its chunks
      or all of them, with every other file as it was (Fileio.v); what is written
      is read back.  The image mkfs builds is a file system in the sense of these
      theorems (Mkfs.v), unless the root directory fills its blocks.
    - Names: [dirlink] enters a name that [dirlookup] finds, [namei] and
      [nameiparent] walk the tree that is on disk and give back every reference
      but the one they return (Dir.v).
    - The buffer cache returns the current contents of a block, and nothing
      changes a block but a write to it (Bio.v).
    - Semaphores: in every interleaving the waits that went through never exceed
      the initial count and the signals; no wakeup is lost while the queue is not
      full and the count, an [int], does not overflow; and what happens when the
      queue is full (Sema.v).  A step of the others may not touch the semaphore,
      wake its sleepers or change the length of the process table.
    - Locks exclude and restore the interrupt flag (Spinlock.v); allocation of
      table entries (Sched.v); the clock interrupt preempts (Trap.v).
    - Memory: the page allocator is a stack of pages (Kalloc.v); [mappages] and
      [copyout] against the address translation (Pgtable.v); the user's
      [malloc] and [free] keep blocks apart and merged (Umalloc.v).
    - Streams: pipes are first-in first-out byte queues, and no reader or writer
      is left asleep by the other side (Pipe.v); the console's buffer implements
      a terminal, from scan codes to [read], control-P and its listing of the
      processes included (Tty.v, Platform.v, Trap.v).
    - Machine level: a trap is invisible to user code but for [eax], [swtch]
      comes back with the registers it must preserve (Asm.v), the interrupt
      table admits only system calls from user code (Trap.v), the I/O APIC
      delivers what is enabled, the BIOS tables are read completely
      (Platform.v), the boot loader places the kernel (Bootmain.v), other
      processors reach [mpenter] (Main.v).
    - Programs: the matcher of grep is its specification and grep prints the
      matching lines (Grep.v), the shell's parser ends on every line and reads
      back what is printed (Shell.v), the user-level scheduler is fair
      (Uthread.v).
    - Where the code does not do what it means to, a theorem says what it does:
      the lost thread of a full semaphore queue, the semaphore count that wraps
      around, the semaphore index that is
      checked against the wrong table, the log reservation that is one block
      short, the hole of mkfs, the endless loop of [mpinit], the line grep
      forgets.

    ** Bounds and fuel

    The recursion of the shell's parser takes fuel above the length of the
    line, that of the user-level scheduler a round of its table, [mpinit] 8193
    turns (a table has 65535 bytes and an entry at least 8), the walks of the
    allocator's ring the number of its blocks, the loops of [bootmain] the
    sectors of a segment; each is shown to be enough where it is used.  The
    kernel's [scheduler] never ends in the source: it is modelled for any number
    of rounds.

    ** Not modelled

    - The 16-bit code of bootasm.S and of the start of entryother.S, and the
      linker script: real mode and linking are outside the model.
    - Caches, the order of memory accesses between processors and the time
      devices take: others run only at the points above.
    - The text [panic] prints and the call stacks locks record for debugging.
    - usertests.c, kernelthreadtests.c and userthreadtests.c: test drivers,
      sequences of system calls compared with expected output.  forktest.c and
      stressfs.c are in Progs.v.
    - Page faults in user mode beyond the kill of the process: user code other
      than the programs above is not executed by the model. *)

From stdpp Require Import prelude list gmap strings.
From Stdlib Require Import ZArith Lia.

#[global] Open Scope Z_scope.
#[global] Set Default Goal Selector "!".
#[global] Unset Asymmetric Patterns.

(** ** Results of a C function and the monad of stateful code

    Running a C function in a machine state either returns a value and a
    new state, goes to sleep for ever (the thread has called [swtch] and
    no one switches back to it), calls [panic], does something the C
    standard or the hardware does not define (a null or wild pointer, an
    index outside an array), or loops for ever. *)

Inductive res (S A : Type) : Type :=
| Ok (a : A) (s : S)
| Asleep (s : S)
| Panic (msg : string)
| Fault (why : string)
| Diverge.
Arguments Ok {S A} a s.
Arguments Asleep {S A} s.
Arguments Panic {S A} msg.
Arguments Fault {S A} why.
Arguments Diverge {S A}.

Definition M (S A : Type) : Type := S -> res S A.

Declare Scope c_scope.
Delimit Scope c_scope with c.

Section Monad.
Context {S : Type}.

Definition ret {A} (a : A) : M S A := fun s => Ok a s.

Definition bind {A B} (m : M S A) (f : A -> M S B) : M S B :=
  fun s => match m s with
           | Ok a s' => f a s'
           | Asleep s' => Asleep s'
           | Panic x => Panic x
           | Fault x => Fault x
           | Diverge => Diverge
           end.

Definition gets {A} (f : S -> A) : M S A := fun s => Ok (f s) s.
Definition upd (f : S -> S) : M S unit := fun s => Ok tt (f s).
Definition panic {A} (msg : string) : M S A := fun _ => Panic msg.
Definition fault {A} (why : string) : M S A := fun _ => Fault why.
Definition when (b : bool) (m : M S unit) : M S unit :=
  if b then m else ret tt.

(** [for(i = start; i < start + n; i++) body] where the body may leave the
    function (or jump out of the loop) with a value. *)
Fixpoint for_ {R} (n : nat) (i : nat) (body : nat -> M S (option R))
    : M S (option R) :=
  match n with
  | O => ret None
  | Datatypes.S n' =>
      bind (body i) (fun r =>
        match r with
        | Some _ => ret r
        | None => for_ n' (Datatypes.S i) body
        end)
  end.

(** The same loop when the body always falls through. *)
Fixpoint each_ (n : nat) (i : nat) (body : nat -> M S unit) : M S unit :=
  match n with
  | O => ret tt
  | Datatypes.S n' =>
      bind (body i) (fun _ => each_ n' (Datatypes.S i) body)
  end.

(** [for(;;)] with loop variables [a], left with [inr r]; at most [fuel]
    iterations are run. *)
Fixpoint loop_ {A R} (fuel : nat) (body : A -> M S (A + R)) (a : A) : M S R :=
  match fuel with
  | O => fun _ => Diverge
  | Datatypes.S n =>
      bind (body a) (fun x =>
        match x with
        | inl a' => loop_ n body a'
        | inr r => ret r
        end)
  end.

(** The same with room for [2 ^ n] iterations: the bound of a loop over
    addresses, without counting it out in unary. *)
Fixpoint loop2_ {A R} (n : nat) (body : A -> M S (A + R)) (a : A) : M S (A + R) :=
  match n with
  | O => body a
  | Datatypes.S n' =>
      bind (loop2_ n' body a) (fun x =>
        match x with
        | inl a' => loop2_ n' body a'
        | inr r => ret (inr r)
        end)
  end.

(** Total correctness: [m] returns normally from [s], with a value and a
    state that satisfy [Q]. *)
Definition wp {A} (m : M S A) (Q : A -> S -> Prop) (s : S) : Prop :=
  match m s with Ok a s' => Q a s' | _ => False end.

End Monad.

#[global] Notation "x <- m ;; k" := (bind m%c (fun x => k%c))
  (at level 100, m at next level, right associativity) : c_scope.
#[global] Notation "'let!' p := m 'in' k" := (bind m%c (fun p => k%c))
  (at level 10, p pattern, m at level 100, k at level 200) : c_scope.
#[global] Notation "m ;; k" := (bind m%c (fun _ => k%c))
  (at level 100, k at level 200, right associativity) : c_scope.
#[global] Notation "x |> f" := (f x)
  (at level 50, left associativity, only parsing).

(** ** Reasoning about the monad *)

Section WpLemmas.
Context {S A : Type}.
Implicit Types (m : M S A) (s : S).

Lemma bind_ok {B} m (f : A -> M S B) s a s' :
  m s = Ok a s' -> bind m f s = f a s'.
Proof. intros H. unfold bind. by rewrite H. Qed.

Lemma bind_ret {B} (a : A) (f : A -> M S B) s : bind (ret a) f s = f a s.
Proof. done. Qed.

Lemma bind_gets {B} (g : S -> A) (f : A -> M S B) s :
  bind (gets g) f s = f (g s) s.
Proof. done. Qed.

Lemma bind_upd {B} (g : S -> S) (f : unit -> M S B) s :
  bind (upd g) f s = f tt (g s).
Proof. done. Qed.

Lemma bind_assoc {B C} m (f : A -> M S B) (g : B -> M S C) s :
  bind (bind m f) g s = bind m (fun a => bind (f a) g) s.
Proof. unfold bind. by destruct (m s). Qed.

Lemma bind_ext {B} m (f g : A -> M S B) s :
  (forall a s', f a s' = g a s') -> bind m f s = bind m g s.
Proof. intros H. unfold bind. by destruct (m s). Qed.

Lemma wp_bind {B} m (f : A -> M S B) Q s :
  wp (bind m f) Q s <-> wp m (fun a s' => wp (f a) Q s') s.
Proof. unfold wp, bind. by destruct (m s). Qed.

Lemma wp_ret (a : A) (Q : A -> S -> Prop) s : wp (ret a) Q s <-> Q a s.
Proof. done. Qed.

Lemma wp_gets (f : S -> A) Q s : wp (gets f) Q s <-> Q (f s) s.
Proof. done. Qed.

Lemma wp_upd (f : S -> S) Q s : wp (upd f) Q s <-> Q tt (f s).
Proof. done. Qed.

Lemma wp_ok m Q s a s' : m s = Ok a s' -> wp m Q s <-> Q a s'.
Proof. intros H. unfold wp. by rewrite H. Qed.

Lemma wp_inv m Q s : wp m Q s -> exists a s', m s = Ok a s' /\ Q a s'.
Proof. unfold wp. destruct (m s); naive_solver. Qed.

Lemma wp_mono m (Q Q' : A -> S -> Prop) s :
  wp m Q s -> (forall a s', Q a s' -> Q' a s') -> wp m Q' s.
Proof. unfold wp. destruct (m s); naive_solver. Qed.

End WpLemmas.

Section WpLoops.
Context {S : Type}.
Implicit Types (s : S).

(** A loop that never exits early runs its body on every index; [Inv] is
    the loop invariant. *)
Lemma wp_each (n : nat) (Inv : nat -> S -> Prop) (body : nat -> M S unit) i s :
  Inv i s ->
  (forall j s', (i <= j < i + n)%nat -> Inv j s' ->
     wp (body j) (fun _ s'' => Inv (Datatypes.S j) s'') s') ->
  wp (each_ n i body) (fun _ s' => Inv (i + n)%nat s') s.
Proof.
  revert i s. induction n as [|n IH]; intros i s H0 Hstep.
  - simpl. rewrite Nat.add_0_r. done.
  - cbn [each_]. apply wp_bind. eapply wp_mono.
    { apply (Hstep i s); [lia|done]. }
    intros [] s' Hi. replace (i + Datatypes.S n)%nat with (Datatypes.S i + n)%nat by lia.
    apply IH; [done|]. intros j s'' Hj. apply Hstep. lia.
Qed.

(** The loop with an early exit: [Inv] holds as long as it runs, and [Q]
    describes the value and the state with which it is left. *)
Lemma wp_for {R} (n : nat) (Inv : nat -> S -> Prop) (Q : R -> S -> Prop)
    (body : nat -> M S (option R)) i s :
  Inv i s ->
  (forall j s', (i <= j < i + n)%nat -> Inv j s' ->
     wp (body j) (fun r s'' => match r with
                               | None => Inv (Datatypes.S j) s''
                               | Some x => Q x s''
                               end) s') ->
  wp (for_ n i body) (fun r s' => match r with
                                  | None => Inv (i + n)%nat s'
                                  | Some x => Q x s'
                                  end) s.
Proof.
  revert i s. induction n as [|n IH]; intros i s H0 Hstep.
  - simpl. rewrite Nat.add_0_r. done.
  - cbn [for_]. apply wp_bind. eapply wp_mono.
    { apply (Hstep i s); [lia|done]. }
    intros [x|] s' Hi; [done|].
    replace (i + Datatypes.S n)%nat with (Datatypes.S i + n)%nat by lia.
    apply IH; [done|]. intros j s'' Hj. apply Hstep. lia.
Qed.

End WpLoops.

(** Pure searches: the shape of the loops that look for a table entry. *)
Fixpoint find_from {A} (P : A -> bool) (i : nat) (l : list A) : option nat :=
  match l with
  | [] => None
  | x :: l' => if P x then Some i else find_from P (S i) l'
  end.

Abbreviation find_idx P l := (find_from P 0 l).

Lemma find_from_Some {A} (P : A -> bool) l i k :
  find_from P i l = Some k ->
  (i <= k)%nat /\ (exists x, l !! (k - i)%nat = Some x /\ P x = true) /\
  (forall j x, (j < k - i)%nat -> l !! j = Some x -> P x = false).
Proof.
  revert i. induction l as [|x l IH]; intros i; simpl; [done|].
  destruct (P x) eqn:HP.
  - intros [= <-]. split; [lia|]. rewrite Nat.sub_diag. split; [by exists x|]. lia.
  - intros (Hle & (y & Hy & HPy) & Hmin)%IH.
    split; [lia|]. split.
    + exists y. replace (k - i)%nat with (S (k - S i)) by lia. done.
    + intros [|j] z Hj Hz; simpl in Hz; [by simplify_eq|].
      apply (Hmin j); [lia|done].
Qed.

Lemma find_from_None {A} (P : A -> bool) l i :
  find_from P i l = None <-> (forall x, x ∈ l -> P x = false).
Proof.
  revert i. induction l as [|x l IH]; intros i; simpl; [set_solver|].
  destruct (P x) eqn:HP.
  - split; [done|]. intros H. specialize (H x). rewrite H in HP; [done|set_solver].
  - rewrite IH. set_solver.
Qed.

Lemma find_from_first {A} (P : A -> bool) l i k x :
  l !! k = Some x -> P x = true ->
  (forall j y, (j < k)%nat -> l !! j = Some y -> P y = false) ->
  find_from P i l = Some (i + k)%nat.
Proof.
  revert i k. induction l as [|y l IH]; intros i k Hx HP Hm; [done|].
  cbn [find_from]. destruct k as [|k]; cbn in Hx.
  - simplify_eq. rewrite HP, Nat.add_0_r. done.
  - rewrite (Hm 0%nat y) by (done || lia). rewrite (IH (S i) k); [f_equal; lia|done|done|].
    intros j z Hj Hz. apply (Hm (S j)); [lia|done].
Qed.
Lemma find_first {A} (P : A -> bool) l k x :
  l !! k = Some x -> P x = true ->
  (forall j y, (j < k)%nat -> l !! j = Some y -> P y = false) ->
  find_idx P l = Some k.
Proof. apply find_from_first. Qed.

(** A loop that looks for the first entry of a table satisfying [P]. *)
Lemma for_find {S A} (P : A -> bool) (l : list A) n i
    (body : nat -> M S (option nat)) s :
  n = length l ->
  (forall j x, l !! j = Some x ->
     body (i + j)%nat s = Ok (if P x then Some (i + j)%nat else None) s) ->
  for_ n i body s = Ok (find_from P i l) s.
Proof.
  intros ->. revert i. induction l as [|x l IH]; intros i Hb; [done|].
  cbn [for_ length find_from].
  pose proof (Hb 0%nat x eq_refl) as H0. rewrite Nat.add_0_r in H0.
  erewrite bind_ok by exact H0. destruct (P x); [done|].
  apply IH. intros j y Hj. replace (Datatypes.S i + j)%nat with (i + Datatypes.S j)%nat by lia.
  by apply Hb.
Qed.

(** A loop that updates every entry of a table; [st] is the state as a function
    of the table. *)
Lemma each_table {S A} (st : list A -> S) (f : A -> A) (body : nat -> M S unit) l1 l2 :
  (forall l j x, l !! j = Some x -> body j (st l) = Ok tt (st (alter f j l))) ->
  each_ (length l2) (length l1) body (st (l1 ++ l2)) = Ok tt (st (l1 ++ (f <$> l2))).
Proof.
  intros Hb. revert l1. induction l2 as [|x l2 IH]; intros l1; [done|].
  cbn [each_ length fmap list_fmap].
  erewrite bind_ok by (apply (Hb _ _ x), list_lookup_middle; done).
  rewrite alter_app_r_alt, Nat.sub_diag by lia. cbn.
  specialize (IH (l1 ++ [f x])). rewrite length_app, <- !app_assoc in IH. cbn in IH.
  by rewrite Nat.add_1_r in IH.
Qed.

(** The update of the entries [P] holds of. *)
Definition map_if {A} (P : A -> bool) (f : A -> A) (x : A) : A := if P x then f x else x.

Lemma alter_map_if {A} (P : A -> bool) f (l : list A) i x :
  l !! i = Some x -> alter (map_if P f) i l = if P x then alter f i l else l.
Proof.
  intros Hx. unfold map_if. destruct (P x) eqn:E.
  - apply list_alter_ext; [|done]. intros y Hy. simplify_eq. by rewrite E.
  - rewrite <- (list_alter_id id l i) at 2; [|done]. apply list_alter_ext; [|done].
    intros y Hy. simplify_eq. by rewrite E.
Qed.

(** ** Functions updated at a point *)

Definition fn_upd {A B} `{EqDecision A} (a : A) (b : B) (f : A -> B) : A -> B :=
  fun x => if decide (x = a) then b else f x.

Lemma fn_upd_eq {A B} `{EqDecision A} (a : A) (b : B) f : fn_upd a b f a = b.
Proof. unfold fn_upd. by rewrite decide_True. Qed.
Lemma fn_upd_ne {A B} `{EqDecision A} (a a' : A) (b : B) f :
  a' <> a -> fn_upd a b f a' = f a'.
Proof. intros H. unfold fn_upd. by rewrite decide_False. Qed.

(** ** Machine integers *)

Definition W32 : Z := 4294967296.
Definition u32 (x : Z) : Z := x mod W32.
Definition u8 (x : Z) : Z := x mod 256.
Definition u16 (x : Z) : Z := x mod 65536.
(** The value of a 32-bit pattern read as a C [int]. *)
Definition s32 (x : Z) : Z := (x + 2147483648) mod W32 - 2147483648.
Definition s16 (x : Z) : Z := (x + 32768) mod 65536 - 32768.

Lemma u32_range x : 0 <= u32 x < W32.
Proof. apply Z.mod_pos_bound. done. Qed.
Lemma u32_small x : 0 <= x < W32 -> u32 x = x.
Proof. apply Z.mod_small. Qed.
Lemma u8_range x : 0 <= u8 x < 256.
Proof. by apply Z.mod_pos_bound. Qed.
Lemma u8_small x : 0 <= x < 256 -> u8 x = x.
Proof. apply Z.mod_small. Qed.
Lemma s32_small x : -2147483648 <= x < 2147483648 -> s32 x = x.
Proof. intros H. unfold s32. rewrite Z.mod_small; unfold W32; lia. Qed.

Create HintDb cint.
Create Rewrite HintDb cint.
#[export] Hint Resolve u32_range u8_range : cint.
#[export] Hint Rewrite u32_small u8_small s32_small using lia : cint.

(** Rounding with a mask: [x & ~(2^k - 1)]. *)
Lemma land_ones_mod x k : 0 <= k -> Z.land x (2 ^ k - 1) = x mod 2 ^ k.
Proof. intros H. rewrite <- Z.land_ones by done. by rewrite Z.ones_equiv. Qed.

Lemma land_not_ones x k : 0 <= k ->
  Z.land x (Z.lnot (2 ^ k - 1)) = x - x mod 2 ^ k.
Proof.
  intros H. rewrite <- Z.ldiff_land.
  replace (2 ^ k - 1) with (Z.ones k) by (rewrite Z.ones_equiv; lia).
  rewrite Z.ldiff_ones_r by done. rewrite Z.shiftl_mul_pow2, Z.shiftr_div_pow2 by done.
  pose proof (Z.div_mod x (2 ^ k)). specialize (H0 ltac:(apply Z.pow_nonzero; lia)). lia.
Qed.


(** Booleans of a C condition to propositions. *)
Ltac zb := repeat match goal with
  | H : _ && _ = true |- _ => apply andb_true_iff in H as [? ?]
  | H : (_ =? _) = true |- _ => apply Z.eqb_eq in H
  | H : (_ =? _) = false |- _ => apply Z.eqb_neq in H
  | H : (_ <? _) = true |- _ => apply Z.ltb_lt in H
  | H : (_ <? _) = false |- _ => apply Z.ltb_ge in H
  | H : (_ <=? _) = true |- _ => apply Z.leb_le in H
  | H : (_ <=? _) = false |- _ => apply Z.leb_gt in H
  end.
