(* ===== verification/State.v ===== *)
(** * The state of the kernel

    The C structures of the headers ([proc.h], [spinlock.h], [sleeplock.h],
    [buf.h], [file.h], [fs.h], [mmu.h], [x86.h]) as records with one setter
    per field, the global variables of the kernel grouped by the file that
    owns them, and the monad [K] of kernel code.

    Pointers into a kernel table are indices ([option nat], [None] for 0);
    pointers to memory handed out by [kalloc] are 32-bit addresses.  The
    address of a lock or of a sleep channel is a value of [lockid] or
    [chan], one constructor per variable whose address the code takes. *)

From stdpp Require Import prelude list gmap strings.
From Stdlib Require Import ZArith Lia.
From S2P Require Import Prelude.

(** ** param.h, memlayout.h, mmu.h, fs.h *)

Definition NPROC : nat := 128.
Definition KSTACKSIZE : Z := 4096.
Definition NCPU : nat := 8.
Definition NOFILE : nat := 16.
Definition NFILE : nat := 100.
Definition NINODE : nat := 50.
Definition NDEV : Z := 10.
Definition ROOTDEV : Z := 1.
Definition MAXARG : Z := 32.
Definition MAXOPBLOCKS : Z := 10.
Definition LOGSIZE : Z := MAXOPBLOCKS * 3.
Definition NBUF : nat := 30.
Definition FSSIZE : Z := 1000.
Definition MAXQ : Z := 7.
Definition KT_TABLESIZE : nat := 64.

Definition EXTMEM : Z := 0x100000.
Definition PHYSTOP : Z := 0xE000000.
Definition DEVSPACE : Z := 0xFE000000.
Definition KERNBASE : Z := 0x80000000.
Definition KERNLINK : Z := KERNBASE + EXTMEM.
Definition V2P (a : Z) : Z := u32 (a - KERNBASE).
Definition P2V (a : Z) : Z := u32 (a + KERNBASE).

Definition FL_IF : Z := 0x200.
Definition SEG_KCODE : Z := 1.
Definition SEG_KDATA : Z := 2.
Definition SEG_UCODE : Z := 3.
Definition SEG_UDATA : Z := 4.
Definition SEG_TSS : Z := 5.
Definition DPL_USER : Z := 3.
Definition STA_X : Z := 0x8.
Definition STA_W : Z := 0x2.
Definition STA_R : Z := 0x2.
Definition STS_T32A : Z := 0x9.
Definition PGSIZE : Z := 4096.
Definition NPDENTRIES : nat := 1024.
Definition PTXSHIFT : Z := 12.
Definition PDXSHIFT : Z := 22.
Definition PDX (va : Z) : Z := Z.land (Z.shiftr va PDXSHIFT) 0x3FF.
Definition PTX (va : Z) : Z := Z.land (Z.shiftr va PTXSHIFT) 0x3FF.
Definition PGADDR (d t o : Z) : Z :=
  u32 (Z.lor (Z.lor (Z.shiftl d PDXSHIFT) (Z.shiftl t PTXSHIFT)) o).
Definition PGROUNDUP (sz : Z) : Z :=
  Z.land (u32 (sz + PGSIZE - 1)) (Z.lnot (PGSIZE - 1)).
Definition PGROUNDDOWN (a : Z) : Z := Z.land a (Z.lnot (PGSIZE - 1)).
Definition PTE_P : Z := 0x001.
Definition PTE_W : Z := 0x002.
Definition PTE_U : Z := 0x004.
Definition PTE_ADDR (pte : Z) : Z := Z.land pte (Z.lnot 0xFFF).
Definition PTE_FLAGS (pte : Z) : Z := Z.land pte 0xFFF.
Definition STACKBOTTOM : Z := PGROUNDDOWN (KERNBASE - 4).

Definition ROOTINO : Z := 1.
Definition BSIZE : Z := 512.
Definition NDIRECT : Z := 12.
Definition NINDIRECT : Z := BSIZE / 4.
Definition MAXFILE : Z := NDIRECT + NINDIRECT.
Definition DIRSIZ : Z := 14.
Definition T_DIR : Z := 1.
Definition T_FILE : Z := 2.
Definition T_DEV : Z := 3.
Definition B_VALID : Z := 0x2.
Definition B_DIRTY : Z := 0x4.
Definition CONSOLE : Z := 1.
Definition PIPESIZE : Z := 512.

(** ** Addresses of locks and sleep channels *)

Inductive lockid :=
| LPtable | LSltable | LSemtable | LSem (i : nat) | LKmem | LTicks
| LBcache | LBuf (i : nat) | LIde | LLog | LIcache | LInode (i : nat)
| LFtable | LPipe (a : Z) | LCons.
#[export] Instance lockid_eq_dec : EqDecision lockid.
Proof. solve_decision. Defined.

Inductive chan :=
| ChNull | ChProc (i : nat) | ChPsl (i : nat) | ChTicks
| ChSleep (lk : lockid) | ChBuf (i : nat) | ChLog
| ChPipeR (a : Z) | ChPipeW (a : Z) | ChInput.
#[export] Instance chan_eq_dec : EqDecision chan.
Proof. solve_decision. Defined.

(** ** spinlock.h, sleeplock.h *)

Record spinlock := mk_spinlock {
  l_locked : Z; (* is the lock held? *)
  l_name : string;
  l_cpu : option nat; (* the cpu holding the lock *)
}.

Definition set_l_locked (v : Z) (x : spinlock) : spinlock :=
  mk_spinlock v x.(l_name) x.(l_cpu).
Definition set_l_name (v : string) (x : spinlock) : spinlock :=
  mk_spinlock x.(l_locked) v x.(l_cpu).
Definition set_l_cpu (v : option nat) (x : spinlock) : spinlock :=
  mk_spinlock x.(l_locked) x.(l_name) v.


Record sleeplock := mk_sleeplock {
  sl_locked : Z;
  sl_name : string;
  sl_pid : Z; (* process holding lock *)
}.

Definition set_sl_locked (v : Z) (x : sleeplock) : sleeplock :=
  mk_sleeplock v x.(sl_name) x.(sl_pid).
Definition set_sl_name (v : string) (x : sleeplock) : sleeplock :=
  mk_sleeplock x.(sl_locked) v x.(sl_pid).
Definition set_sl_pid (v : Z) (x : sleeplock) : sleeplock :=
  mk_sleeplock x.(sl_locked) x.(sl_name) v.


(** ** mmu.h: segment descriptors and the task state segment *)

Record segdesc := mk_segdesc {
  sd_lim_15_0 : Z;
  sd_base_15_0 : Z;
  sd_base_23_16 : Z;
  sd_type : Z;
  sd_s : Z;
  sd_dpl : Z;
  sd_p : Z;
  sd_lim_19_16 : Z;
  sd_avl : Z;
  sd_rsv1 : Z;
  sd_db : Z;
  sd_g : Z;
  sd_base_31_24 : Z;
}.

Definition set_sd_lim_15_0 (v : Z) (x : segdesc) : segdesc :=
  mk_segdesc v x.(sd_base_15_0) x.(sd_base_23_16) x.(sd_type) x.(sd_s)
    x.(sd_dpl) x.(sd_p) x.(sd_lim_19_16) x.(sd_avl) x.(sd_rsv1) x.(sd_db)
    x.(sd_g) x.(sd_base_31_24).
Definition set_sd_base_15_0 (v : Z) (x : segdesc) : segdesc :=
  mk_segdesc x.(sd_lim_15_0) v x.(sd_base_23_16) x.(sd_type) x.(sd_s)
    x.(sd_dpl) x.(sd_p) x.(sd_lim_19_16) x.(sd_avl) x.(sd_rsv1) x.(sd_db)
    x.(sd_g) x.(sd_base_31_24).
Definition set_sd_base_23_16 (v : Z) (x : segdesc) : segdesc :=
  mk_segdesc x.(sd_lim_15_0) x.(sd_base_15_0) v x.(sd_type) x.(sd_s)
    x.(sd_dpl) x.(sd_p) x.(sd_lim_19_16) x.(sd_avl) x.(sd_rsv1) x.(sd_db)
    x.(sd_g) x.(sd_base_31_24).
Definition set_sd_type (v : Z) (x : segdesc) : segdesc :=
  mk_segdesc x.(sd_lim_15_0) x.(sd_base_15_0) x.(sd_base_23_16) v x.(sd_s)
    x.(sd_dpl) x.(sd_p) x.(sd_lim_19_16) x.(sd_avl) x.(sd_rsv1) x.(sd_db)
    x.(sd_g) x.(sd_base_31_24).
Definition set_sd_s (v : Z) (x : segdesc) : segdesc :=
  mk_segdesc x.(sd_lim_15_0) x.(sd_base_15_0) x.(sd_base_23_16) x.(sd_type) v
    x.(sd_dpl) x.(sd_p) x.(sd_lim_19_16) x.(sd_avl) x.(sd_rsv1) x.(sd_db)
    x.(sd_g) x.(sd_base_31_24).
Definition set_sd_dpl (v : Z) (x : segdesc) : segdesc :=
  mk_segdesc x.(sd_lim_15_0) x.(sd_base_15_0) x.(sd_base_23_16) x.(sd_type)
    x.(sd_s) v x.(sd_p) x.(sd_lim_19_16) x.(sd_avl) x.(sd_rsv1) x.(sd_db)
    x.(sd_g) x.(sd_base_31_24).
Definition set_sd_p (v : Z) (x : segdesc) : segdesc :=
  mk_segdesc x.(sd_lim_15_0) x.(sd_base_15_0) x.(sd_base_23_16) x.(sd_type)
    x.(sd_s) x.(sd_dpl) v x.(sd_lim_19_16) x.(sd_avl) x.(sd_rsv1) x.(sd_db)
    x.(sd_g) x.(sd_base_31_24).
Definition set_sd_lim_19_16 (v : Z) (x : segdesc) : segdesc :=
  mk_segdesc x.(sd_lim_15_0) x.(sd_base_15_0) x.(sd_base_23_16) x.(sd_type)
    x.(sd_s) x.(sd_dpl) x.(sd_p) v x.(sd_avl) x.(sd_rsv1) x.(sd_db) x.(sd_g)
    x.(sd_base_31_24).
Definition set_sd_avl (v : Z) (x : segdesc) : segdesc :=
  mk_segdesc x.(sd_lim_15_0) x.(sd_base_15_0) x.(sd_base_23_16) x.(sd_type)
    x.(sd_s) x.(sd_dpl) x.(sd_p) x.(sd_lim_19_16) v x.(sd_rsv1) x.(sd_db)
    x.(sd_g) x.(sd_base_31_24).
Definition set_sd_rsv1 (v : Z) (x : segdesc) : segdesc :=
  mk_segdesc x.(sd_lim_15_0) x.(sd_base_15_0) x.(sd_base_23_16) x.(sd_type)
    x.(sd_s) x.(sd_dpl) x.(sd_p) x.(sd_lim_19_16) x.(sd_avl) v x.(sd_db)
    x.(sd_g) x.(sd_base_31_24).
Definition set_sd_db (v : Z) (x : segdesc) : segdesc :=
  mk_segdesc x.(sd_lim_15_0) x.(sd_base_15_0) x.(sd_base_23_16) x.(sd_type)
    x.(sd_s) x.(sd_dpl) x.(sd_p) x.(sd_lim_19_16) x.(sd_avl) x.(sd_rsv1) v
    x.(sd_g) x.(sd_base_31_24).
Definition set_sd_g (v : Z) (x : segdesc) : segdesc :=
  mk_segdesc x.(sd_lim_15_0) x.(sd_base_15_0) x.(sd_base_23_16) x.(sd_type)
    x.(sd_s) x.(sd_dpl) x.(sd_p) x.(sd_lim_19_16) x.(sd_avl) x.(sd_rsv1)
    x.(sd_db) v x.(sd_base_31_24).
Definition set_sd_base_31_24 (v : Z) (x : segdesc) : segdesc :=
  mk_segdesc x.(sd_lim_15_0) x.(sd_base_15_0) x.(sd_base_23_16) x.(sd_type)
    x.(sd_s) x.(sd_dpl) x.(sd_p) x.(sd_lim_19_16) x.(sd_avl) x.(sd_rsv1)
    x.(sd_db) x.(sd_g) v.


Record taskstate := mk_taskstate {
  ts_esp0 : Z;
  ts_ss0 : Z;
  ts_iomb : Z;
}.

Definition set_ts_esp0 (v : Z) (x : taskstate) : taskstate :=
  mk_taskstate v x.(ts_ss0) x.(ts_iomb).
Definition set_ts_ss0 (v : Z) (x : taskstate) : taskstate :=
  mk_taskstate x.(ts_esp0) v x.(ts_iomb).
Definition set_ts_iomb (v : Z) (x : taskstate) : taskstate :=
  mk_taskstate x.(ts_esp0) x.(ts_ss0) v.


(** ** proc.h *)

Record cpu := mk_cpu {
  c_apicid : Z;
  c_ts : taskstate;
  c_gdt : list segdesc;
  c_started : Z;
  c_ncli : Z; (* depth of pushcli nesting *)
  c_intena : Z; (* were interrupts enabled before pushcli? *)
  c_proc : option nat; (* the process running on this cpu or null *)
}.

Definition set_c_apicid (v : Z) (x : cpu) : cpu :=
  mk_cpu v x.(c_ts) x.(c_gdt) x.(c_started) x.(c_ncli) x.(c_intena) x.(c_proc).
Definition set_c_ts (v : taskstate) (x : cpu) : cpu :=
  mk_cpu x.(c_apicid) v x.(c_gdt) x.(c_started) x.(c_ncli) x.(c_intena)
    x.(c_proc).
Definition set_c_gdt (v : list segdesc) (x : cpu) : cpu :=
  mk_cpu x.(c_apicid) x.(c_ts) v x.(c_started) x.(c_ncli) x.(c_intena)
    x.(c_proc).
Definition set_c_started (v : Z) (x : cpu) : cpu :=
  mk_cpu x.(c_apicid) x.(c_ts) x.(c_gdt) v x.(c_ncli) x.(c_intena) x.(c_proc).
Definition set_c_ncli (v : Z) (x : cpu) : cpu :=
  mk_cpu x.(c_apicid) x.(c_ts) x.(c_gdt) x.(c_started) v x.(c_intena)
    x.(c_proc).
Definition set_c_intena (v : Z) (x : cpu) : cpu :=
  mk_cpu x.(c_apicid) x.(c_ts) x.(c_gdt) x.(c_started) x.(c_ncli) v x.(c_proc).
Definition set_c_proc (v : option nat) (x : cpu) : cpu :=
  mk_cpu x.(c_apicid) x.(c_ts) x.(c_gdt) x.(c_started) x.(c_ncli) x.(c_intena)
    v.


Record context := mk_context {
  x_edi : Z;
  x_esi : Z;
  x_ebx : Z;
  x_ebp : Z;
  x_eip : Z;
}.

Definition set_x_edi (v : Z) (x : context) : context :=
  mk_context v x.(x_esi) x.(x_ebx) x.(x_ebp) x.(x_eip).
Definition set_x_esi (v : Z) (x : context) : context :=
  mk_context x.(x_edi) v x.(x_ebx) x.(x_ebp) x.(x_eip).
Definition set_x_ebx (v : Z) (x : context) : context :=
  mk_context x.(x_edi) x.(x_esi) v x.(x_ebp) x.(x_eip).
Definition set_x_ebp (v : Z) (x : context) : context :=
  mk_context x.(x_edi) x.(x_esi) x.(x_ebx) v x.(x_eip).
Definition set_x_eip (v : Z) (x : context) : context :=
  mk_context x.(x_edi) x.(x_esi) x.(x_ebx) x.(x_ebp) v.


Record trapframe := mk_trapframe {
  t_edi : Z;
  t_esi : Z;
  t_ebp : Z;
  t_oesp : Z;
  t_ebx : Z;
  t_edx : Z;
  t_ecx : Z;
  t_eax : Z;
  t_gs : Z;
  t_fs : Z;
  t_es : Z;
  t_ds : Z;
  t_trapno : Z;
  t_err : Z;
  t_eip : Z;
  t_cs : Z;
  t_eflags : Z;
  t_esp : Z;
  t_ss : Z;
}.

Definition set_t_edi (v : Z) (x : trapframe) : trapframe :=
  mk_trapframe v x.(t_esi) x.(t_ebp) x.(t_oesp) x.(t_ebx) x.(t_edx) x.(t_ecx)
    x.(t_eax) x.(t_gs) x.(t_fs) x.(t_es) x.(t_ds) x.(t_trapno) x.(t_err)
    x.(t_eip) x.(t_cs) x.(t_eflags) x.(t_esp) x.(t_ss).
Definition set_t_esi (v : Z) (x : trapframe) : trapframe :=
  mk_trapframe x.(t_edi) v x.(t_ebp) x.(t_oesp) x.(t_ebx) x.(t_edx) x.(t_ecx)
    x.(t_eax) x.(t_gs) x.(t_fs) x.(t_es) x.(t_ds) x.(t_trapno) x.(t_err)
    x.(t_eip) x.(t_cs) x.(t_eflags) x.(t_esp) x.(t_ss).
Definition set_t_ebp (v : Z) (x : trapframe) : trapframe :=
  mk_trapframe x.(t_edi) x.(t_esi) v x.(t_oesp) x.(t_ebx) x.(t_edx) x.(t_ecx)
    x.(t_eax) x.(t_gs) x.(t_fs) x.(t_es) x.(t_ds) x.(t_trapno) x.(t_err)
    x.(t_eip) x.(t_cs) x.(t_eflags) x.(t_esp) x.(t_ss).
Definition set_t_oesp (v : Z) (x : trapframe) : trapframe :=
  mk_trapframe x.(t_edi) x.(t_esi) x.(t_ebp) v x.(t_ebx) x.(t_edx) x.(t_ecx)
    x.(t_eax) x.(t_gs) x.(t_fs) x.(t_es) x.(t_ds) x.(t_trapno) x.(t_err)
    x.(t_eip) x.(t_cs) x.(t_eflags) x.(t_esp) x.(t_ss).
Definition set_t_ebx (v : Z) (x : trapframe) : trapframe :=
  mk_trapframe x.(t_edi) x.(t_esi) x.(t_ebp) x.(t_oesp) v x.(t_edx) x.(t_ecx)
    x.(t_eax) x.(t_gs) x.(t_fs) x.(t_es) x.(t_ds) x.(t_trapno) x.(t_err)
    x.(t_eip) x.(t_cs) x.(t_eflags) x.(t_esp) x.(t_ss).
Definition set_t_edx (v : Z) (x : trapframe) : trapframe :=
  mk_trapframe x.(t_edi) x.(t_esi) x.(t_ebp) x.(t_oesp) x.(t_ebx) v x.(t_ecx)
    x.(t_eax) x.(t_gs) x.(t_fs) x.(t_es) x.(t_ds) x.(t_trapno) x.(t_err)
    x.(t_eip) x.(t_cs) x.(t_eflags) x.(t_esp) x.(t_ss).
Definition set_t_ecx (v : Z) (x : trapframe) : trapframe :=
  mk_trapframe x.(t_edi) x.(t_esi) x.(t_ebp) x.(t_oesp) x.(t_ebx) x.(t_edx) v
    x.(t_eax) x.(t_gs) x.(t_fs) x.(t_es) x.(t_ds) x.(t_trapno) x.(t_err)
    x.(t_eip) x.(t_cs) x.(t_eflags) x.(t_esp) x.(t_ss).
Definition set_t_eax (v : Z) (x : trapframe) : trapframe :=
  mk_trapframe x.(t_edi) x.(t_esi) x.(t_ebp) x.(t_oesp) x.(t_ebx) x.(t_edx)
    x.(t_ecx) v x.(t_gs) x.(t_fs) x.(t_es) x.(t_ds) x.(t_trapno) x.(t_err)
    x.(t_eip) x.(t_cs) x.(t_eflags) x.(t_esp) x.(t_ss).
Definition set_t_gs (v : Z) (x : trapframe) : trapframe :=
  mk_trapframe x.(t_edi) x.(t_esi) x.(t_ebp) x.(t_oesp) x.(t_ebx) x.(t_edx)
    x.(t_ecx) x.(t_eax) v x.(t_fs) x.(t_es) x.(t_ds) x.(t_trapno) x.(t_err)
    x.(t_eip) x.(t_cs) x.(t_eflags) x.(t_esp) x.(t_ss).
Definition set_t_fs (v : Z) (x : trapframe) : trapframe :=
  mk_trapframe x.(t_edi) x.(t_esi) x.(t_ebp) x.(t_oesp) x.(t_ebx) x.(t_edx)
    x.(t_ecx) x.(t_eax) x.(t_gs) v x.(t_es) x.(t_ds) x.(t_trapno) x.(t_err)
    x.(t_eip) x.(t_cs) x.(t_eflags) x.(t_esp) x.(t_ss).
Definition set_t_es (v : Z) (x : trapframe) : trapframe :=
  mk_trapframe x.(t_edi) x.(t_esi) x.(t_ebp) x.(t_oesp) x.(t_ebx) x.(t_edx)
    x.(t_ecx) x.(t_eax) x.(t_gs) x.(t_fs) v x.(t_ds) x.(t_trapno) x.(t_err)
    x.(t_eip) x.(t_cs) x.(t_eflags) x.(t_esp) x.(t_ss).
Definition set_t_ds (v : Z) (x : trapframe) : trapframe :=
  mk_trapframe x.(t_edi) x.(t_esi) x.(t_ebp) x.(t_oesp) x.(t_ebx) x.(t_edx)
    x.(t_ecx) x.(t_eax) x.(t_gs) x.(t_fs) x.(t_es) v x.(t_trapno) x.(t_err)
    x.(t_eip) x.(t_cs) x.(t_eflags) x.(t_esp) x.(t_ss).
Definition set_t_trapno (v : Z) (x : trapframe) : trapframe :=
  mk_trapframe x.(t_edi) x.(t_esi) x.(t_ebp) x.(t_oesp) x.(t_ebx) x.(t_edx)
    x.(t_ecx) x.(t_eax) x.(t_gs) x.(t_fs) x.(t_es) x.(t_ds) v x.(t_err)
    x.(t_eip) x.(t_cs) x.(t_eflags) x.(t_esp) x.(t_ss).
Definition set_t_err (v : Z) (x : trapframe) : trapframe :=
  mk_trapframe x.(t_edi) x.(t_esi) x.(t_ebp) x.(t_oesp) x.(t_ebx) x.(t_edx)
    x.(t_ecx) x.(t_eax) x.(t_gs) x.(t_fs) x.(t_es) x.(t_ds) x.(t_trapno) v
    x.(t_eip) x.(t_cs) x.(t_eflags) x.(t_esp) x.(t_ss).
Definition set_t_eip (v : Z) (x : trapframe) : trapframe :=
  mk_trapframe x.(t_edi) x.(t_esi) x.(t_ebp) x.(t_oesp) x.(t_ebx) x.(t_edx)
    x.(t_ecx) x.(t_eax) x.(t_gs) x.(t_fs) x.(t_es) x.(t_ds) x.(t_trapno)
    x.(t_err) v x.(t_cs) x.(t_eflags) x.(t_esp) x.(t_ss).
Definition set_t_cs (v : Z) (x : trapframe) : trapframe :=
  mk_trapframe x.(t_edi) x.(t_esi) x.(t_ebp) x.(t_oesp) x.(t_ebx) x.(t_edx)
    x.(t_ecx) x.(t_eax) x.(t_gs) x.(t_fs) x.(t_es) x.(t_ds) x.(t_trapno)
    x.(t_err) x.(t_eip) v x.(t_eflags) x.(t_esp) x.(t_ss).
Definition set_t_eflags (v : Z) (x : trapframe) : trapframe :=
  mk_trapframe x.(t_edi) x.(t_esi) x.(t_ebp) x.(t_oesp) x.(t_ebx) x.(t_edx)
    x.(t_ecx) x.(t_eax) x.(t_gs) x.(t_fs) x.(t_es) x.(t_ds) x.(t_trapno)
    x.(t_err) x.(t_eip) x.(t_cs) v x.(t_esp) x.(t_ss).
Definition set_t_esp (v : Z) (x : trapframe) : trapframe :=
  mk_trapframe x.(t_edi) x.(t_esi) x.(t_ebp) x.(t_oesp) x.(t_ebx) x.(t_edx)
    x.(t_ecx) x.(t_eax) x.(t_gs) x.(t_fs) x.(t_es) x.(t_ds) x.(t_trapno)
    x.(t_err) x.(t_eip) x.(t_cs) x.(t_eflags) v x.(t_ss).
Definition set_t_ss (v : Z) (x : trapframe) : trapframe :=
  mk_trapframe x.(t_edi) x.(t_esi) x.(t_ebp) x.(t_oesp) x.(t_ebx) x.(t_edx)
    x.(t_ecx) x.(t_eax) x.(t_gs) x.(t_fs) x.(t_es) x.(t_ds) x.(t_trapno)
    x.(t_err) x.(t_eip) x.(t_cs) x.(t_eflags) x.(t_esp) v.


Inductive procstate :=
| UNUSED | EMBRYO | SLEEPING | RUNNABLE | RUNNING | ZOMBIE | SEM_SLEEPING.
#[export] Instance procstate_eq_dec : EqDecision procstate.
Proof. solve_decision. Defined.

(** Per-process list of user stacks. *)
Record psl := mk_psl {
  s_stackz : list Z;
  s_thread_count : Z;
  s_state : procstate;
}.

Definition set_s_stackz (v : list Z) (x : psl) : psl :=
  mk_psl v x.(s_thread_count) x.(s_state).
Definition set_s_thread_count (v : Z) (x : psl) : psl :=
  mk_psl x.(s_stackz) v x.(s_state).
Definition set_s_state (v : procstate) (x : psl) : psl :=
  mk_psl x.(s_stackz) x.(s_thread_count) v.


(** Per-thread state.  The trap frame and the saved context live at the top
    of the kernel stack in C: [p_tf] and [p_context] are their contents,
    [p_tfp] and [p_contextp] their addresses. *)
Record proc := mk_proc {
  p_sz : Z;
  p_pgdir : Z;
  p_kstack : Z;
  p_state : procstate;
  p_pid : Z;
  p_parent : option nat;
  p_tfp : Z;
  p_tf : trapframe;
  p_contextp : Z;
  p_context : context;
  p_chan : chan;
  p_killed : Z;
  p_ofile : list (option nat);
  p_cwd : option nat;
  p_name : list Z;
  p_tid : Z;
  p_pthread : option nat;
  p_psl : option nat;
  p_slindex : Z;
  p_startTime : Z;
  p_waitTime : Z;
  p_lastWait : Z;
}.

Definition set_p_sz (v : Z) (x : proc) : proc :=
  mk_proc v x.(p_pgdir) x.(p_kstack) x.(p_state) x.(p_pid) x.(p_parent)
    x.(p_tfp) x.(p_tf) x.(p_contextp) x.(p_context) x.(p_chan) x.(p_killed)
    x.(p_ofile) x.(p_cwd) x.(p_name) x.(p_tid) x.(p_pthread) x.(p_psl)
    x.(p_slindex) x.(p_startTime) x.(p_waitTime) x.(p_lastWait).
Definition set_p_pgdir (v : Z) (x : proc) : proc :=
  mk_proc x.(p_sz) v x.(p_kstack) x.(p_state) x.(p_pid) x.(p_parent) x.(p_tfp)
    x.(p_tf) x.(p_contextp) x.(p_context) x.(p_chan) x.(p_killed) x.(p_ofile)
    x.(p_cwd) x.(p_name) x.(p_tid) x.(p_pthread) x.(p_psl) x.(p_slindex)
    x.(p_startTime) x.(p_waitTime) x.(p_lastWait).
Definition set_p_kstack (v : Z) (x : proc) : proc :=
  mk_proc x.(p_sz) x.(p_pgdir) v x.(p_state) x.(p_pid) x.(p_parent) x.(p_tfp)
    x.(p_tf) x.(p_contextp) x.(p_context) x.(p_chan) x.(p_killed) x.(p_ofile)
    x.(p_cwd) x.(p_name) x.(p_tid) x.(p_pthread) x.(p_psl) x.(p_slindex)
    x.(p_startTime) x.(p_waitTime) x.(p_lastWait).
Definition set_p_state (v : procstate) (x : proc) : proc :=
  mk_proc x.(p_sz) x.(p_pgdir) x.(p_kstack) v x.(p_pid) x.(p_parent) x.(p_tfp)
    x.(p_tf) x.(p_contextp) x.(p_context) x.(p_chan) x.(p_killed) x.(p_ofile)
    x.(p_cwd) x.(p_name) x.(p_tid) x.(p_pthread) x.(p_psl) x.(p_slindex)
    x.(p_startTime) x.(p_waitTime) x.(p_lastWait).
Definition set_p_pid (v : Z) (x : proc) : proc :=
  mk_proc x.(p_sz) x.(p_pgdir) x.(p_kstack) x.(p_state) v x.(p_parent)
    x.(p_tfp) x.(p_tf) x.(p_contextp) x.(p_context) x.(p_chan) x.(p_killed)
    x.(p_ofile) x.(p_cwd) x.(p_name) x.(p_tid) x.(p_pthread) x.(p_psl)
    x.(p_slindex) x.(p_startTime) x.(p_waitTime) x.(p_lastWait).
Definition set_p_parent (v : option nat) (x : proc) : proc :=
  mk_proc x.(p_sz) x.(p_pgdir) x.(p_kstack) x.(p_state) x.(p_pid) v x.(p_tfp)
    x.(p_tf) x.(p_contextp) x.(p_context) x.(p_chan) x.(p_killed) x.(p_ofile)
    x.(p_cwd) x.(p_name) x.(p_tid) x.(p_pthread) x.(p_psl) x.(p_slindex)
    x.(p_startTime) x.(p_waitTime) x.(p_lastWait).
Definition set_p_tfp (v : Z) (x : proc) : proc :=
  mk_proc x.(p_sz) x.(p_pgdir) x.(p_kstack) x.(p_state) x.(p_pid) x.(p_parent)
    v x.(p_tf) x.(p_contextp) x.(p_context) x.(p_chan) x.(p_killed)
    x.(p_ofile) x.(p_cwd) x.(p_name) x.(p_tid) x.(p_pthread) x.(p_psl)
    x.(p_slindex) x.(p_startTime) x.(p_waitTime) x.(p_lastWait).
Definition set_p_tf (v : trapframe) (x : proc) : proc :=
  mk_proc x.(p_sz) x.(p_pgdir) x.(p_kstack) x.(p_state) x.(p_pid) x.(p_parent)
    x.(p_tfp) v x.(p_contextp) x.(p_context) x.(p_chan) x.(p_killed)
    x.(p_ofile) x.(p_cwd) x.(p_name) x.(p_tid) x.(p_pthread) x.(p_psl)
    x.(p_slindex) x.(p_startTime) x.(p_waitTime) x.(p_lastWait).
Definition set_p_contextp (v : Z) (x : proc) : proc :=
  mk_proc x.(p_sz) x.(p_pgdir) x.(p_kstack) x.(p_state) x.(p_pid) x.(p_parent)
    x.(p_tfp) x.(p_tf) v x.(p_context) x.(p_chan) x.(p_killed) x.(p_ofile)
    x.(p_cwd) x.(p_name) x.(p_tid) x.(p_pthread) x.(p_psl) x.(p_slindex)
    x.(p_startTime) x.(p_waitTime) x.(p_lastWait).
Definition set_p_context (v : context) (x : proc) : proc :=
  mk_proc x.(p_sz) x.(p_pgdir) x.(p_kstack) x.(p_state) x.(p_pid) x.(p_parent)
    x.(p_tfp) x.(p_tf) x.(p_contextp) v x.(p_chan) x.(p_killed) x.(p_ofile)
    x.(p_cwd) x.(p_name) x.(p_tid) x.(p_pthread) x.(p_psl) x.(p_slindex)
    x.(p_startTime) x.(p_waitTime) x.(p_lastWait).
Definition set_p_chan (v : chan) (x : proc) : proc :=
  mk_proc x.(p_sz) x.(p_pgdir) x.(p_kstack) x.(p_state) x.(p_pid) x.(p_parent)
    x.(p_tfp) x.(p_tf) x.(p_contextp) x.(p_context) v x.(p_killed) x.(p_ofile)
    x.(p_cwd) x.(p_name) x.(p_tid) x.(p_pthread) x.(p_psl) x.(p_slindex)
    x.(p_startTime) x.(p_waitTime) x.(p_lastWait).
Definition set_p_killed (v : Z) (x : proc) : proc :=
  mk_proc x.(p_sz) x.(p_pgdir) x.(p_kstack) x.(p_state) x.(p_pid) x.(p_parent)
    x.(p_tfp) x.(p_tf) x.(p_contextp) x.(p_context) x.(p_chan) v x.(p_ofile)
    x.(p_cwd) x.(p_name) x.(p_tid) x.(p_pthread) x.(p_psl) x.(p_slindex)
    x.(p_startTime) x.(p_waitTime) x.(p_lastWait).
Definition set_p_ofile (v : list (option nat)) (x : proc) : proc :=
  mk_proc x.(p_sz) x.(p_pgdir) x.(p_kstack) x.(p_state) x.(p_pid) x.(p_parent)
    x.(p_tfp) x.(p_tf) x.(p_contextp) x.(p_context) x.(p_chan) x.(p_killed) v
    x.(p_cwd) x.(p_name) x.(p_tid) x.(p_pthread) x.(p_psl) x.(p_slindex)
    x.(p_startTime) x.(p_waitTime) x.(p_lastWait).
Definition set_p_cwd (v : option nat) (x : proc) : proc :=
  mk_proc x.(p_sz) x.(p_pgdir) x.(p_kstack) x.(p_state) x.(p_pid) x.(p_parent)
    x.(p_tfp) x.(p_tf) x.(p_contextp) x.(p_context) x.(p_chan) x.(p_killed)
    x.(p_ofile) v x.(p_name) x.(p_tid) x.(p_pthread) x.(p_psl) x.(p_slindex)
    x.(p_startTime) x.(p_waitTime) x.(p_lastWait).
Definition set_p_name (v : list Z) (x : proc) : proc :=
  mk_proc x.(p_sz) x.(p_pgdir) x.(p_kstack) x.(p_state) x.(p_pid) x.(p_parent)
    x.(p_tfp) x.(p_tf) x.(p_contextp) x.(p_context) x.(p_chan) x.(p_killed)
    x.(p_ofile) x.(p_cwd) v x.(p_tid) x.(p_pthread) x.(p_psl) x.(p_slindex)
    x.(p_startTime) x.(p_waitTime) x.(p_lastWait).
Definition set_p_tid (v : Z) (x : proc) : proc :=
  mk_proc x.(p_sz) x.(p_pgdir) x.(p_kstack) x.(p_state) x.(p_pid) x.(p_parent)
    x.(p_tfp) x.(p_tf) x.(p_contextp) x.(p_context) x.(p_chan) x.(p_killed)
    x.(p_ofile) x.(p_cwd) x.(p_name) v x.(p_pthread) x.(p_psl) x.(p_slindex)
    x.(p_startTime) x.(p_waitTime) x.(p_lastWait).
Definition set_p_pthread (v : option nat) (x : proc) : proc :=
  mk_proc x.(p_sz) x.(p_pgdir) x.(p_kstack) x.(p_state) x.(p_pid) x.(p_parent)
    x.(p_tfp) x.(p_tf) x.(p_contextp) x.(p_context) x.(p_chan) x.(p_killed)
    x.(p_ofile) x.(p_cwd) x.(p_name) x.(p_tid) v x.(p_psl) x.(p_slindex)
    x.(p_startTime) x.(p_waitTime) x.(p_lastWait).
Definition set_p_psl (v : option nat) (x : proc) : proc :=
  mk_proc x.(p_sz) x.(p_pgdir) x.(p_kstack) x.(p_state) x.(p_pid) x.(p_parent)
    x.(p_tfp) x.(p_tf) x.(p_contextp) x.(p_context) x.(p_chan) x.(p_killed)
    x.(p_ofile) x.(p_cwd) x.(p_name) x.(p_tid) x.(p_pthread) v x.(p_slindex)
    x.(p_startTime) x.(p_waitTime) x.(p_lastWait).
Definition set_p_slindex (v : Z) (x : proc) : proc :=
  mk_proc x.(p_sz) x.(p_pgdir) x.(p_kstack) x.(p_state) x.(p_pid) x.(p_parent)
    x.(p_tfp) x.(p_tf) x.(p_contextp) x.(p_context) x.(p_chan) x.(p_killed)
    x.(p_ofile) x.(p_cwd) x.(p_name) x.(p_tid) x.(p_pthread) x.(p_psl) v
    x.(p_startTime) x.(p_waitTime) x.(p_lastWait).
Definition set_p_startTime (v : Z) (x : proc) : proc :=
  mk_proc x.(p_sz) x.(p_pgdir) x.(p_kstack) x.(p_state) x.(p_pid) x.(p_parent)
    x.(p_tfp) x.(p_tf) x.(p_contextp) x.(p_context) x.(p_chan) x.(p_killed)
    x.(p_ofile) x.(p_cwd) x.(p_name) x.(p_tid) x.(p_pthread) x.(p_psl)
    x.(p_slindex) v x.(p_waitTime) x.(p_lastWait).
Definition set_p_waitTime (v : Z) (x : proc) : proc :=
  mk_proc x.(p_sz) x.(p_pgdir) x.(p_kstack) x.(p_state) x.(p_pid) x.(p_parent)
    x.(p_tfp) x.(p_tf) x.(p_contextp) x.(p_context) x.(p_chan) x.(p_killed)
    x.(p_ofile) x.(p_cwd) x.(p_name) x.(p_tid) x.(p_pthread) x.(p_psl)
    x.(p_slindex) x.(p_startTime) v x.(p_lastWait).
Definition set_p_lastWait (v : Z) (x : proc) : proc :=
  mk_proc x.(p_sz) x.(p_pgdir) x.(p_kstack) x.(p_state) x.(p_pid) x.(p_parent)
    x.(p_tfp) x.(p_tf) x.(p_contextp) x.(p_context) x.(p_chan) x.(p_killed)
    x.(p_ofile) x.(p_cwd) x.(p_name) x.(p_tid) x.(p_pthread) x.(p_psl)
    x.(p_slindex) x.(p_startTime) x.(p_waitTime) v.


(** ** proc.c: the queue and the semaphores *)

Record queue := mk_queue {
  q_q : list (option nat);
  q_front : Z;
  q_back : Z;
  q_count : Z;
}.

Definition set_q_q (v : list (option nat)) (x : queue) : queue :=
  mk_queue v x.(q_front) x.(q_back) x.(q_count).
Definition set_q_front (v : Z) (x : queue) : queue :=
  mk_queue x.(q_q) v x.(q_back) x.(q_count).
Definition set_q_back (v : Z) (x : queue) : queue :=
  mk_queue x.(q_q) x.(q_front) v x.(q_count).
Definition set_q_count (v : Z) (x : queue) : queue :=
  mk_queue x.(q_q) x.(q_front) x.(q_back) v.


Record semaphore := mk_semaphore {
  sem_queue : queue;
  sem_count : Z;
  sem_state : procstate;
}.

Definition set_sem_queue (v : queue) (x : semaphore) : semaphore :=
  mk_semaphore v x.(sem_count) x.(sem_state).
Definition set_sem_count (v : Z) (x : semaphore) : semaphore :=
  mk_semaphore x.(sem_queue) v x.(sem_state).
Definition set_sem_state (v : procstate) (x : semaphore) : semaphore :=
  mk_semaphore x.(sem_queue) x.(sem_count) v.


(** ** buf.h, log.c, fs.h, file.h *)

(** Entry [NBUF] of the buffer array is [bcache.head]. *)
Record buf := mk_buf {
  b_flags : Z;
  b_dev : Z;
  b_blockno : Z;
  b_lock : sleeplock;
  b_refcnt : Z;
  b_prev : nat;
  b_next : nat;
  b_qnext : option nat;
  b_data : list Z;
}.

Definition set_b_flags (v : Z) (x : buf) : buf :=
  mk_buf v x.(b_dev) x.(b_blockno) x.(b_lock) x.(b_refcnt) x.(b_prev)
    x.(b_next) x.(b_qnext) x.(b_data).
Definition set_b_dev (v : Z) (x : buf) : buf :=
  mk_buf x.(b_flags) v x.(b_blockno) x.(b_lock) x.(b_refcnt) x.(b_prev)
    x.(b_next) x.(b_qnext) x.(b_data).
Definition set_b_blockno (v : Z) (x : buf) : buf :=
  mk_buf x.(b_flags) x.(b_dev) v x.(b_lock) x.(b_refcnt) x.(b_prev) x.(b_next)
    x.(b_qnext) x.(b_data).
Definition set_b_lock (v : sleeplock) (x : buf) : buf :=
  mk_buf x.(b_flags) x.(b_dev) x.(b_blockno) v x.(b_refcnt) x.(b_prev)
    x.(b_next) x.(b_qnext) x.(b_data).
Definition set_b_refcnt (v : Z) (x : buf) : buf :=
  mk_buf x.(b_flags) x.(b_dev) x.(b_blockno) x.(b_lock) v x.(b_prev)
    x.(b_next) x.(b_qnext) x.(b_data).
Definition set_b_prev (v : nat) (x : buf) : buf :=
  mk_buf x.(b_flags) x.(b_dev) x.(b_blockno) x.(b_lock) x.(b_refcnt) v
    x.(b_next) x.(b_qnext) x.(b_data).
Definition set_b_next (v : nat) (x : buf) : buf :=
  mk_buf x.(b_flags) x.(b_dev) x.(b_blockno) x.(b_lock) x.(b_refcnt)
    x.(b_prev) v x.(b_qnext) x.(b_data).
Definition set_b_qnext (v : option nat) (x : buf) : buf :=
  mk_buf x.(b_flags) x.(b_dev) x.(b_blockno) x.(b_lock) x.(b_refcnt)
    x.(b_prev) x.(b_next) v x.(b_data).
Definition set_b_data (v : list Z) (x : buf) : buf :=
  mk_buf x.(b_flags) x.(b_dev) x.(b_blockno) x.(b_lock) x.(b_refcnt)
    x.(b_prev) x.(b_next) x.(b_qnext) v.


Record log_t := mk_log {
  lg_start : Z;
  lg_size : Z;
  lg_outstanding : Z; (* how many FS sys calls are executing *)
  lg_committing : Z;
  lg_dev : Z;
  lg_n : Z; (* lh.n *)
  lg_block : list Z; (* lh.block *)
}.

Definition set_lg_start (v : Z) (x : log_t) : log_t :=
  mk_log v x.(lg_size) x.(lg_outstanding) x.(lg_committing) x.(lg_dev)
    x.(lg_n) x.(lg_block).
Definition set_lg_size (v : Z) (x : log_t) : log_t :=
  mk_log x.(lg_start) v x.(lg_outstanding) x.(lg_committing) x.(lg_dev)
    x.(lg_n) x.(lg_block).
Definition set_lg_outstanding (v : Z) (x : log_t) : log_t :=
  mk_log x.(lg_start) x.(lg_size) v x.(lg_committing) x.(lg_dev) x.(lg_n)
    x.(lg_block).
Definition set_lg_committing (v : Z) (x : log_t) : log_t :=
  mk_log x.(lg_start) x.(lg_size) x.(lg_outstanding) v x.(lg_dev) x.(lg_n)
    x.(lg_block).
Definition set_lg_dev (v : Z) (x : log_t) : log_t :=
  mk_log x.(lg_start) x.(lg_size) x.(lg_outstanding) x.(lg_committing) v
    x.(lg_n) x.(lg_block).
Definition set_lg_n (v : Z) (x : log_t) : log_t :=
  mk_log x.(lg_start) x.(lg_size) x.(lg_outstanding) x.(lg_committing)
    x.(lg_dev) v x.(lg_block).
Definition set_lg_block (v : list Z) (x : log_t) : log_t :=
  mk_log x.(lg_start) x.(lg_size) x.(lg_outstanding) x.(lg_committing)
    x.(lg_dev) x.(lg_n) v.


Record superblock := mk_superblock {
  sb_size : Z;
  sb_nblocks : Z;
  sb_ninodes : Z;
  sb_nlog : Z;
  sb_logstart : Z;
  sb_inodestart : Z;
  sb_bmapstart : Z;
}.

Definition set_sb_size (v : Z) (x : superblock) : superblock :=
  mk_superblock v x.(sb_nblocks) x.(sb_ninodes) x.(sb_nlog) x.(sb_logstart)
    x.(sb_inodestart) x.(sb_bmapstart).
Definition set_sb_nblocks (v : Z) (x : superblock) : superblock :=
  mk_superblock x.(sb_size) v x.(sb_ninodes) x.(sb_nlog) x.(sb_logstart)
    x.(sb_inodestart) x.(sb_bmapstart).
Definition set_sb_ninodes (v : Z) (x : superblock) : superblock :=
  mk_superblock x.(sb_size) x.(sb_nblocks) v x.(sb_nlog) x.(sb_logstart)
    x.(sb_inodestart) x.(sb_bmapstart).
Definition set_sb_nlog (v : Z) (x : superblock) : superblock :=
  mk_superblock x.(sb_size) x.(sb_nblocks) x.(sb_ninodes) v x.(sb_logstart)
    x.(sb_inodestart) x.(sb_bmapstart).
Definition set_sb_logstart (v : Z) (x : superblock) : superblock :=
  mk_superblock x.(sb_size) x.(sb_nblocks) x.(sb_ninodes) x.(sb_nlog) v
    x.(sb_inodestart) x.(sb_bmapstart).
Definition set_sb_inodestart (v : Z) (x : superblock) : superblock :=
  mk_superblock x.(sb_size) x.(sb_nblocks) x.(sb_ninodes) x.(sb_nlog)
    x.(sb_logstart) v x.(sb_bmapstart).
Definition set_sb_bmapstart (v : Z) (x : superblock) : superblock :=
  mk_superblock x.(sb_size) x.(sb_nblocks) x.(sb_ninodes) x.(sb_nlog)
    x.(sb_logstart) x.(sb_inodestart) v.


Record inode := mk_inode {
  i_dev : Z;
  i_inum : Z;
  i_ref : Z;
  i_lock : sleeplock;
  i_valid : Z;
  i_type : Z;
  i_major : Z;
  i_minor : Z;
  i_nlink : Z;
  i_size : Z;
  i_addrs : list Z;
}.

Definition set_i_dev (v : Z) (x : inode) : inode :=
  mk_inode v x.(i_inum) x.(i_ref) x.(i_lock) x.(i_valid) x.(i_type)
    x.(i_major) x.(i_minor) x.(i_nlink) x.(i_size) x.(i_addrs).
Definition set_i_inum (v : Z) (x : inode) : inode :=
  mk_inode x.(i_dev) v x.(i_ref) x.(i_lock) x.(i_valid) x.(i_type) x.(i_major)
    x.(i_minor) x.(i_nlink) x.(i_size) x.(i_addrs).
Definition set_i_ref (v : Z) (x : inode) : inode :=
  mk_inode x.(i_dev) x.(i_inum) v x.(i_lock) x.(i_valid) x.(i_type)
    x.(i_major) x.(i_minor) x.(i_nlink) x.(i_size) x.(i_addrs).
Definition set_i_lock (v : sleeplock) (x : inode) : inode :=
  mk_inode x.(i_dev) x.(i_inum) x.(i_ref) v x.(i_valid) x.(i_type) x.(i_major)
    x.(i_minor) x.(i_nlink) x.(i_size) x.(i_addrs).
Definition set_i_valid (v : Z) (x : inode) : inode :=
  mk_inode x.(i_dev) x.(i_inum) x.(i_ref) x.(i_lock) v x.(i_type) x.(i_major)
    x.(i_minor) x.(i_nlink) x.(i_size) x.(i_addrs).
Definition set_i_type (v : Z) (x : inode) : inode :=
  mk_inode x.(i_dev) x.(i_inum) x.(i_ref) x.(i_lock) x.(i_valid) v x.(i_major)
    x.(i_minor) x.(i_nlink) x.(i_size) x.(i_addrs).
Definition set_i_major (v : Z) (x : inode) : inode :=
  mk_inode x.(i_dev) x.(i_inum) x.(i_ref) x.(i_lock) x.(i_valid) x.(i_type) v
    x.(i_minor) x.(i_nlink) x.(i_size) x.(i_addrs).
Definition set_i_minor (v : Z) (x : inode) : inode :=
  mk_inode x.(i_dev) x.(i_inum) x.(i_ref) x.(i_lock) x.(i_valid) x.(i_type)
    x.(i_major) v x.(i_nlink) x.(i_size) x.(i_addrs).
Definition set_i_nlink (v : Z) (x : inode) : inode :=
  mk_inode x.(i_dev) x.(i_inum) x.(i_ref) x.(i_lock) x.(i_valid) x.(i_type)
    x.(i_major) x.(i_minor) v x.(i_size) x.(i_addrs).
Definition set_i_size (v : Z) (x : inode) : inode :=
  mk_inode x.(i_dev) x.(i_inum) x.(i_ref) x.(i_lock) x.(i_valid) x.(i_type)
    x.(i_major) x.(i_minor) x.(i_nlink) v x.(i_addrs).
Definition set_i_addrs (v : list Z) (x : inode) : inode :=
  mk_inode x.(i_dev) x.(i_inum) x.(i_ref) x.(i_lock) x.(i_valid) x.(i_type)
    x.(i_major) x.(i_minor) x.(i_nlink) x.(i_size) v.


Inductive filetype := FD_NONE | FD_PIPE | FD_INODE.
#[export] Instance filetype_eq_dec : EqDecision filetype.
Proof. solve_decision. Defined.

Record file := mk_file {
  f_type : filetype;
  f_ref : Z;
  f_readable : Z;
  f_writable : Z;
  f_pipe : Z;
  f_ip : option nat;
  f_off : Z;
}.

Definition set_f_type (v : filetype) (x : file) : file :=
  mk_file v x.(f_ref) x.(f_readable) x.(f_writable) x.(f_pipe) x.(f_ip)
    x.(f_off).
Definition set_f_ref (v : Z) (x : file) : file :=
  mk_file x.(f_type) v x.(f_readable) x.(f_writable) x.(f_pipe) x.(f_ip)
    x.(f_off).
Definition set_f_readable (v : Z) (x : file) : file :=
  mk_file x.(f_type) x.(f_ref) v x.(f_writable) x.(f_pipe) x.(f_ip) x.(f_off).
Definition set_f_writable (v : Z) (x : file) : file :=
  mk_file x.(f_type) x.(f_ref) x.(f_readable) v x.(f_pipe) x.(f_ip) x.(f_off).
Definition set_f_pipe (v : Z) (x : file) : file :=
  mk_file x.(f_type) x.(f_ref) x.(f_readable) x.(f_writable) v x.(f_ip)
    x.(f_off).
Definition set_f_ip (v : option nat) (x : file) : file :=
  mk_file x.(f_type) x.(f_ref) x.(f_readable) x.(f_writable) x.(f_pipe) v
    x.(f_off).
Definition set_f_off (v : Z) (x : file) : file :=
  mk_file x.(f_type) x.(f_ref) x.(f_readable) x.(f_writable) x.(f_pipe)
    x.(f_ip) v.


Record pipe := mk_pipe {
  pi_data : list Z;
  pi_nread : Z;
  pi_nwrite : Z;
  pi_readopen : Z;
  pi_writeopen : Z;
}.

Definition set_pi_data (v : list Z) (x : pipe) : pipe :=
  mk_pipe v x.(pi_nread) x.(pi_nwrite) x.(pi_readopen) x.(pi_writeopen).
Definition set_pi_nread (v : Z) (x : pipe) : pipe :=
  mk_pipe x.(pi_data) v x.(pi_nwrite) x.(pi_readopen) x.(pi_writeopen).
Definition set_pi_nwrite (v : Z) (x : pipe) : pipe :=
  mk_pipe x.(pi_data) x.(pi_nread) v x.(pi_readopen) x.(pi_writeopen).
Definition set_pi_readopen (v : Z) (x : pipe) : pipe :=
  mk_pipe x.(pi_data) x.(pi_nread) x.(pi_nwrite) v x.(pi_writeopen).
Definition set_pi_writeopen (v : Z) (x : pipe) : pipe :=
  mk_pipe x.(pi_data) x.(pi_nread) x.(pi_nwrite) x.(pi_readopen) v.


(** ** The global variables, by the file that owns them *)

(** The processors and the spin locks. *)
Record hwstate := mk_hw {
  hw_cpus : list cpu;
  hw_ncpu : nat;
  hw_lapicid : Z; (* what lapicid() returns on the executing cpu *)
  hw_eflags : Z; (* EFLAGS of the executing cpu *)
  hw_cr3 : Z;
  hw_tr : Z;
  hw_locks : lockid -> spinlock;
}.

Definition set_hw_cpus (v : list cpu) (x : hwstate) : hwstate :=
  mk_hw v x.(hw_ncpu) x.(hw_lapicid) x.(hw_eflags) x.(hw_cr3) x.(hw_tr)
    x.(hw_locks).
Definition set_hw_ncpu (v : nat) (x : hwstate) : hwstate :=
  mk_hw x.(hw_cpus) v x.(hw_lapicid) x.(hw_eflags) x.(hw_cr3) x.(hw_tr)
    x.(hw_locks).
Definition set_hw_lapicid (v : Z) (x : hwstate) : hwstate :=
  mk_hw x.(hw_cpus) x.(hw_ncpu) v x.(hw_eflags) x.(hw_cr3) x.(hw_tr)
    x.(hw_locks).
Definition set_hw_eflags (v : Z) (x : hwstate) : hwstate :=
  mk_hw x.(hw_cpus) x.(hw_ncpu) x.(hw_lapicid) v x.(hw_cr3) x.(hw_tr)
    x.(hw_locks).
Definition set_hw_cr3 (v : Z) (x : hwstate) : hwstate :=
  mk_hw x.(hw_cpus) x.(hw_ncpu) x.(hw_lapicid) x.(hw_eflags) v x.(hw_tr)
    x.(hw_locks).
Definition set_hw_tr (v : Z) (x : hwstate) : hwstate :=
  mk_hw x.(hw_cpus) x.(hw_ncpu) x.(hw_lapicid) x.(hw_eflags) x.(hw_cr3) v
    x.(hw_locks).
Definition set_hw_locks (v : lockid -> spinlock) (x : hwstate) : hwstate :=
  mk_hw x.(hw_cpus) x.(hw_ncpu) x.(hw_lapicid) x.(hw_eflags) x.(hw_cr3)
    x.(hw_tr) v.


(** proc.c and the tick counter of trap.c. *)
Record ptstate := mk_pt {
  pt_proc : list proc;
  pt_nextpid : Z;
  pt_initproc : option nat;
  pt_psl : list psl;
  pt_sem : list semaphore;
  pt_ticks : Z;
  pt_first : bool;
}.

Definition set_pt_proc (v : list proc) (x : ptstate) : ptstate :=
  mk_pt v x.(pt_nextpid) x.(pt_initproc) x.(pt_psl) x.(pt_sem) x.(pt_ticks)
    x.(pt_first).
Definition set_pt_nextpid (v : Z) (x : ptstate) : ptstate :=
  mk_pt x.(pt_proc) v x.(pt_initproc) x.(pt_psl) x.(pt_sem) x.(pt_ticks)
    x.(pt_first).
Definition set_pt_initproc (v : option nat) (x : ptstate) : ptstate :=
  mk_pt x.(pt_proc) x.(pt_nextpid) v x.(pt_psl) x.(pt_sem) x.(pt_ticks)
    x.(pt_first).
Definition set_pt_psl (v : list psl) (x : ptstate) : ptstate :=
  mk_pt x.(pt_proc) x.(pt_nextpid) x.(pt_initproc) v x.(pt_sem) x.(pt_ticks)
    x.(pt_first).
Definition set_pt_sem (v : list semaphore) (x : ptstate) : ptstate :=
  mk_pt x.(pt_proc) x.(pt_nextpid) x.(pt_initproc) x.(pt_psl) v x.(pt_ticks)
    x.(pt_first).
Definition set_pt_ticks (v : Z) (x : ptstate) : ptstate :=
  mk_pt x.(pt_proc) x.(pt_nextpid) x.(pt_initproc) x.(pt_psl) x.(pt_sem) v
    x.(pt_first).
Definition set_pt_first (v : bool) (x : ptstate) : ptstate :=
  mk_pt x.(pt_proc) x.(pt_nextpid) x.(pt_initproc) x.(pt_psl) x.(pt_sem)
    x.(pt_ticks) v.


(** kalloc.c and vm.c; [km_mem] is the memory the kernel addresses, by byte.
    The fields after [km_kpgdir] and [km_end], [km_data] are addresses the
    linker chooses: the symbols of kernel.ld, the code of [trapret] and
    [forkret], and the task state segment of each [struct cpu]. *)
Record kmstate := mk_km {
  km_mem : Z -> Z;
  km_freelist : Z;
  km_use_lock : bool;
  km_end : Z;
  km_data : Z;
  km_kpgdir : Z;
  km_trapret : Z;
  km_forkret : Z;
  km_ts : nat -> Z;
}.

Definition set_km_mem (v : Z -> Z) (x : kmstate) : kmstate :=
  mk_km v x.(km_freelist) x.(km_use_lock) x.(km_end) x.(km_data) x.(km_kpgdir)
    x.(km_trapret) x.(km_forkret) x.(km_ts).
Definition set_km_freelist (v : Z) (x : kmstate) : kmstate :=
  mk_km x.(km_mem) v x.(km_use_lock) x.(km_end) x.(km_data) x.(km_kpgdir)
    x.(km_trapret) x.(km_forkret) x.(km_ts).
Definition set_km_use_lock (v : bool) (x : kmstate) : kmstate :=
  mk_km x.(km_mem) x.(km_freelist) v x.(km_end) x.(km_data) x.(km_kpgdir)
    x.(km_trapret) x.(km_forkret) x.(km_ts).
Definition set_km_end (v : Z) (x : kmstate) : kmstate :=
  mk_km x.(km_mem) x.(km_freelist) x.(km_use_lock) v x.(km_data) x.(km_kpgdir)
    x.(km_trapret) x.(km_forkret) x.(km_ts).
Definition set_km_data (v : Z) (x : kmstate) : kmstate :=
  mk_km x.(km_mem) x.(km_freelist) x.(km_use_lock) x.(km_end) v x.(km_kpgdir)
    x.(km_trapret) x.(km_forkret) x.(km_ts).
Definition set_km_kpgdir (v : Z) (x : kmstate) : kmstate :=
  mk_km x.(km_mem) x.(km_freelist) x.(km_use_lock) x.(km_end) x.(km_data) v
    x.(km_trapret) x.(km_forkret) x.(km_ts).
Definition set_km_trapret (v : Z) (x : kmstate) : kmstate :=
  mk_km x.(km_mem) x.(km_freelist) x.(km_use_lock) x.(km_end) x.(km_data)
    x.(km_kpgdir) v x.(km_forkret) x.(km_ts).
Definition set_km_forkret (v : Z) (x : kmstate) : kmstate :=
  mk_km x.(km_mem) x.(km_freelist) x.(km_use_lock) x.(km_end) x.(km_data)
    x.(km_kpgdir) x.(km_trapret) v x.(km_ts).
Definition set_km_ts (v : nat -> Z) (x : kmstate) : kmstate :=
  mk_km x.(km_mem) x.(km_freelist) x.(km_use_lock) x.(km_end) x.(km_data)
    x.(km_kpgdir) x.(km_trapret) x.(km_forkret) v.


(** bio.c, the disk behind it and log.c.  [bc_hist] records the contents of
    the disk before each block write, newest first: the states a crash can
    leave behind. *)
Record bcstate := mk_bc {
  bc_buf : list buf;
  bc_disk : list (list Z);
  bc_hist : list (list (list Z));
  bc_idequeue : option nat; (* ide.c *)
  bc_havedisk1 : bool;
  bc_log : log_t;
}.

Definition set_bc_buf (v : list buf) (x : bcstate) : bcstate :=
  mk_bc v x.(bc_disk) x.(bc_hist) x.(bc_idequeue) x.(bc_havedisk1) x.(bc_log).
Definition set_bc_disk (v : list (list Z)) (x : bcstate) : bcstate :=
  mk_bc x.(bc_buf) v x.(bc_hist) x.(bc_idequeue) x.(bc_havedisk1) x.(bc_log).
Definition set_bc_hist (v : list (list (list Z))) (x : bcstate) : bcstate :=
  mk_bc x.(bc_buf) x.(bc_disk) v x.(bc_idequeue) x.(bc_havedisk1) x.(bc_log).
Definition set_bc_idequeue (v : option nat) (x : bcstate) : bcstate :=
  mk_bc x.(bc_buf) x.(bc_disk) x.(bc_hist) v x.(bc_havedisk1) x.(bc_log).
Definition set_bc_havedisk1 (v : bool) (x : bcstate) : bcstate :=
  mk_bc x.(bc_buf) x.(bc_disk) x.(bc_hist) x.(bc_idequeue) v x.(bc_log).
Definition set_bc_log (v : log_t) (x : bcstate) : bcstate :=
  mk_bc x.(bc_buf) x.(bc_disk) x.(bc_hist) x.(bc_idequeue) x.(bc_havedisk1) v.


(** fs.c, file.c, pipe.c. *)
Record fsstate := mk_fs {
  fs_sb : superblock;
  fs_inode : list inode;
  fs_file : list file;
  fs_pipe : gmap Z pipe;
  fs_devsw : list bool; (* devsw[i].read and .write are the console's *)
}.

Definition set_fs_sb (v : superblock) (x : fsstate) : fsstate :=
  mk_fs v x.(fs_inode) x.(fs_file) x.(fs_pipe) x.(fs_devsw).
Definition set_fs_inode (v : list inode) (x : fsstate) : fsstate :=
  mk_fs x.(fs_sb) v x.(fs_file) x.(fs_pipe) x.(fs_devsw).
Definition set_fs_file (v : list file) (x : fsstate) : fsstate :=
  mk_fs x.(fs_sb) x.(fs_inode) v x.(fs_pipe) x.(fs_devsw).
Definition set_fs_pipe (v : gmap Z pipe) (x : fsstate) : fsstate :=
  mk_fs x.(fs_sb) x.(fs_inode) x.(fs_file) v x.(fs_devsw).
Definition set_fs_devsw (v : list bool) (x : fsstate) : fsstate :=
  mk_fs x.(fs_sb) x.(fs_inode) x.(fs_file) x.(fs_pipe) v.


(** console.c and uart.c. *)
Record cnstate := mk_cn {
  cn_locking : bool;
  cn_panicked : bool;
  cn_uart : bool;
  cn_out : list Z; (* bytes sent to the serial port *)
  cn_crt : list Z;
  cn_pos : Z;
  cn_buf : list Z;
  cn_r : Z;
  cn_w : Z;
  cn_e : Z;
}.

Definition set_cn_locking (v : bool) (x : cnstate) : cnstate :=
  mk_cn v x.(cn_panicked) x.(cn_uart) x.(cn_out) x.(cn_crt) x.(cn_pos)
    x.(cn_buf) x.(cn_r) x.(cn_w) x.(cn_e).
Definition set_cn_panicked (v : bool) (x : cnstate) : cnstate :=
  mk_cn x.(cn_locking) v x.(cn_uart) x.(cn_out) x.(cn_crt) x.(cn_pos)
    x.(cn_buf) x.(cn_r) x.(cn_w) x.(cn_e).
Definition set_cn_uart (v : bool) (x : cnstate) : cnstate :=
  mk_cn x.(cn_locking) x.(cn_panicked) v x.(cn_out) x.(cn_crt) x.(cn_pos)
    x.(cn_buf) x.(cn_r) x.(cn_w) x.(cn_e).
Definition set_cn_out (v : list Z) (x : cnstate) : cnstate :=
  mk_cn x.(cn_locking) x.(cn_panicked) x.(cn_uart) v x.(cn_crt) x.(cn_pos)
    x.(cn_buf) x.(cn_r) x.(cn_w) x.(cn_e).
Definition set_cn_crt (v : list Z) (x : cnstate) : cnstate :=
  mk_cn x.(cn_locking) x.(cn_panicked) x.(cn_uart) x.(cn_out) v x.(cn_pos)
    x.(cn_buf) x.(cn_r) x.(cn_w) x.(cn_e).
Definition set_cn_pos (v : Z) (x : cnstate) : cnstate :=
  mk_cn x.(cn_locking) x.(cn_panicked) x.(cn_uart) x.(cn_out) x.(cn_crt) v
    x.(cn_buf) x.(cn_r) x.(cn_w) x.(cn_e).
Definition set_cn_buf (v : list Z) (x : cnstate) : cnstate :=
  mk_cn x.(cn_locking) x.(cn_panicked) x.(cn_uart) x.(cn_out) x.(cn_crt)
    x.(cn_pos) v x.(cn_r) x.(cn_w) x.(cn_e).
Definition set_cn_r (v : Z) (x : cnstate) : cnstate :=
  mk_cn x.(cn_locking) x.(cn_panicked) x.(cn_uart) x.(cn_out) x.(cn_crt)
    x.(cn_pos) x.(cn_buf) v x.(cn_w) x.(cn_e).
Definition set_cn_w (v : Z) (x : cnstate) : cnstate :=
  mk_cn x.(cn_locking) x.(cn_panicked) x.(cn_uart) x.(cn_out) x.(cn_crt)
    x.(cn_pos) x.(cn_buf) x.(cn_r) v x.(cn_e).
Definition set_cn_e (v : Z) (x : cnstate) : cnstate :=
  mk_cn x.(cn_locking) x.(cn_panicked) x.(cn_uart) x.(cn_out) x.(cn_crt)
    x.(cn_pos) x.(cn_buf) x.(cn_r) x.(cn_w) v.


#[local] Set Primitive Projections.
Record kstate := mk_k {
  k_hw : hwstate;
  k_pt : ptstate;
  k_km : kmstate;
  k_bc : bcstate;
  k_fs : fsstate;
  k_cn : cnstate;
}.

Definition set_k_hw (v : hwstate) (x : kstate) : kstate :=
  mk_k v x.(k_pt) x.(k_km) x.(k_bc) x.(k_fs) x.(k_cn).
Definition set_k_pt (v : ptstate) (x : kstate) : kstate :=
  mk_k x.(k_hw) v x.(k_km) x.(k_bc) x.(k_fs) x.(k_cn).
Definition set_k_km (v : kmstate) (x : kstate) : kstate :=
  mk_k x.(k_hw) x.(k_pt) v x.(k_bc) x.(k_fs) x.(k_cn).
Definition set_k_bc (v : bcstate) (x : kstate) : kstate :=
  mk_k x.(k_hw) x.(k_pt) x.(k_km) v x.(k_fs) x.(k_cn).
Definition set_k_fs (v : fsstate) (x : kstate) : kstate :=
  mk_k x.(k_hw) x.(k_pt) x.(k_km) x.(k_bc) v x.(k_cn).
Definition set_k_cn (v : cnstate) (x : kstate) : kstate :=
  mk_k x.(k_hw) x.(k_pt) x.(k_km) x.(k_bc) x.(k_fs) v.

#[local] Unset Primitive Projections.

(** ** The kernel monad

    [w_others] is what the rest of the machine does while the running
    thread waits: each element is the effect of everything that happens
    between a call of [swtch] and the moment the scheduler switches back to
    the thread, or between two turns of a spinning loop.  Code that never
    waits ignores it; theorems about waiting code constrain it. *)
Record world := mk_world {
  w_k : kstate;
  w_others : list (kstate -> kstate);
}.

Definition set_w_k (v : kstate) (x : world) : world :=
  mk_world v x.(w_others).
Definition set_w_others (v : list (kstate -> kstate)) (x : world) : world :=
  mk_world x.(w_k) v.


Definition K := M world.

Definition getk {A} (f : kstate -> A) : K A := gets (fun w => f (w_k w)).
Definition updk (f : kstate -> kstate) : K unit :=
  upd (fun w => set_w_k (f (w_k w)) w).

Definition gethw {A} (f : hwstate -> A) : K A := getk (fun k => f (k_hw k)).
Definition getpt {A} (f : ptstate -> A) : K A := getk (fun k => f (k_pt k)).
Definition getkm {A} (f : kmstate -> A) : K A := getk (fun k => f (k_km k)).
Definition getbc {A} (f : bcstate -> A) : K A := getk (fun k => f (k_bc k)).
Definition getfs {A} (f : fsstate -> A) : K A := getk (fun k => f (k_fs k)).
Definition getcn {A} (f : cnstate -> A) : K A := getk (fun k => f (k_cn k)).
Definition updhw (f : hwstate -> hwstate) : K unit :=
  updk (fun k => set_k_hw (f (k_hw k)) k).
Definition updpt (f : ptstate -> ptstate) : K unit :=
  updk (fun k => set_k_pt (f (k_pt k)) k).
Definition updkm (f : kmstate -> kmstate) : K unit :=
  updk (fun k => set_k_km (f (k_km k)) k).
Definition updbc (f : bcstate -> bcstate) : K unit :=
  updk (fun k => set_k_bc (f (k_bc k)) k).
Definition updfs (f : fsstate -> fsstate) : K unit :=
  updk (fun k => set_k_fs (f (k_fs k)) k).
Definition updcn (f : cnstate -> cnstate) : K unit :=
  updk (fun k => set_k_cn (f (k_cn k)) k).

(** Reading a table entry: outside the table the C code is undefined. *)
Definition at_ {A} (what : string) (l : list A) (i : nat) : K A :=
  match l !! i with Some x => ret x | None => fault what end.

(** Entries of the kernel's tables. *)
Definition getp (i : nat) : K proc :=
  bind (getpt pt_proc) (fun l => at_ "ptable.proc" l i).
Definition updp (i : nat) (f : proc -> proc) : K unit :=
  updpt (fun t => set_pt_proc (alter f i (pt_proc t)) t).
Definition getsl (i : nat) : K psl :=
  bind (getpt pt_psl) (fun l => at_ "sltable.psl" l i).
Definition updsl (i : nat) (f : psl -> psl) : K unit :=
  updpt (fun t => set_pt_psl (alter f i (pt_psl t)) t).
Definition getsem (i : nat) : K semaphore :=
  bind (getpt pt_sem) (fun l => at_ "semtable.sem" l i).
Definition updsem (i : nat) (f : semaphore -> semaphore) : K unit :=
  updpt (fun t => set_pt_sem (alter f i (pt_sem t)) t).
Definition getb (i : nat) : K buf :=
  bind (getbc bc_buf) (fun l => at_ "bcache.buf" l i).
Definition updb (i : nat) (f : buf -> buf) : K unit :=
  updbc (fun t => set_bc_buf (alter f i (bc_buf t)) t).
Definition geti (i : nat) : K inode :=
  bind (getfs fs_inode) (fun l => at_ "icache.inode" l i).
Definition updi (i : nat) (f : inode -> inode) : K unit :=
  updfs (fun t => set_fs_inode (alter f i (fs_inode t)) t).
Definition getf (i : nat) : K file :=
  bind (getfs fs_file) (fun l => at_ "ftable.file" l i).
Definition updf (i : nat) (f : file -> file) : K unit :=
  updfs (fun t => set_fs_file (alter f i (fs_file t)) t).

(** Following a pointer into a table. *)
Definition deref (what : string) (p : option nat) : K nat :=
  match p with Some i => ret i | None => fault what end.

(** The moment others run: the next element of [w_others] is applied. *)
Definition others_run (stop : world -> res world unit) : K unit :=
  fun w => match w_others w with
           | [] => stop w
           | f :: fs => Ok tt (mk_world (f (w_k w)) fs)
           end.

(** A loop each turn of which waits for the others at least once. *)
Definition wait_loop {A R} (body : A -> K (A + R)) (a : A) : K R :=
  fun w => loop_ (S (length (w_others w))) body a w.

(** ** The state spelled out

    Equations about kernel code are stated on a state given by its
    components, so that what a function leaves alone shows in the
    statement. *)
Abbreviation W hw pt km bc fs cn o := (mk_world (mk_k hw pt km bc fs cn) o).

Create Rewrite HintDb krun.

Section Krun.
Context {A B : Type} (hw : hwstate) (pt : ptstate) (km : kmstate)
  (bc : bcstate) (fs : fsstate) (cn : cnstate) (o : list (kstate -> kstate)).

Lemma bind_gethw (g : hwstate -> A) (f : A -> K B) :
  bind (gethw g) f (W hw pt km bc fs cn o) = f (g hw) (W hw pt km bc fs cn o).
Proof. done. Qed.
Lemma bind_getpt (g : ptstate -> A) (f : A -> K B) :
  bind (getpt g) f (W hw pt km bc fs cn o) = f (g pt) (W hw pt km bc fs cn o).
Proof. done. Qed.
Lemma bind_getkm (g : kmstate -> A) (f : A -> K B) :
  bind (getkm g) f (W hw pt km bc fs cn o) = f (g km) (W hw pt km bc fs cn o).
Proof. done. Qed.
Lemma bind_getbc (g : bcstate -> A) (f : A -> K B) :
  bind (getbc g) f (W hw pt km bc fs cn o) = f (g bc) (W hw pt km bc fs cn o).
Proof. done. Qed.
Lemma bind_getfs (g : fsstate -> A) (f : A -> K B) :
  bind (getfs g) f (W hw pt km bc fs cn o) = f (g fs) (W hw pt km bc fs cn o).
Proof. done. Qed.
Lemma bind_getcn (g : cnstate -> A) (f : A -> K B) :
  bind (getcn g) f (W hw pt km bc fs cn o) = f (g cn) (W hw pt km bc fs cn o).
Proof. done. Qed.
Lemma bind_updhw (g : hwstate -> hwstate) (f : unit -> K B) :
  bind (updhw g) f (W hw pt km bc fs cn o) = f tt (W (g hw) pt km bc fs cn o).
Proof. done. Qed.
Lemma bind_updpt (g : ptstate -> ptstate) (f : unit -> K B) :
  bind (updpt g) f (W hw pt km bc fs cn o) = f tt (W hw (g pt) km bc fs cn o).
Proof. done. Qed.
Lemma bind_updkm (g : kmstate -> kmstate) (f : unit -> K B) :
  bind (updkm g) f (W hw pt km bc fs cn o) = f tt (W hw pt (g km) bc fs cn o).
Proof. done. Qed.
Lemma bind_updbc (g : bcstate -> bcstate) (f : unit -> K B) :
  bind (updbc g) f (W hw pt km bc fs cn o) = f tt (W hw pt km (g bc) fs cn o).
Proof. done. Qed.
Lemma bind_updfs (g : fsstate -> fsstate) (f : unit -> K B) :
  bind (updfs g) f (W hw pt km bc fs cn o) = f tt (W hw pt km bc (g fs) cn o).
Proof. done. Qed.
Lemma bind_updcn (g : cnstate -> cnstate) (f : unit -> K B) :
  bind (updcn g) f (W hw pt km bc fs cn o) = f tt (W hw pt km bc fs (g cn) o).
Proof. done. Qed.
Lemma updhw_W (g : hwstate -> hwstate) :
  updhw g (W hw pt km bc fs cn o) = Ok tt (W (g hw) pt km bc fs cn o).
Proof. done. Qed.
Lemma gethw_W (g : hwstate -> A) :
  gethw g (W hw pt km bc fs cn o) = Ok (g hw) (W hw pt km bc fs cn o).
Proof. done. Qed.
Lemma updpt_W (g : ptstate -> ptstate) :
  updpt g (W hw pt km bc fs cn o) = Ok tt (W hw (g pt) km bc fs cn o).
Proof. done. Qed.
Lemma getpt_W (g : ptstate -> A) :
  getpt g (W hw pt km bc fs cn o) = Ok (g pt) (W hw pt km bc fs cn o).
Proof. done. Qed.
Lemma updkm_W (g : kmstate -> kmstate) :
  updkm g (W hw pt km bc fs cn o) = Ok tt (W hw pt (g km) bc fs cn o).
Proof. done. Qed.
Lemma getkm_W (g : kmstate -> A) :
  getkm g (W hw pt km bc fs cn o) = Ok (g km) (W hw pt km bc fs cn o).
Proof. done. Qed.
Lemma updbc_W (g : bcstate -> bcstate) :
  updbc g (W hw pt km bc fs cn o) = Ok tt (W hw pt km (g bc) fs cn o).
Proof. done. Qed.
Lemma getbc_W (g : bcstate -> A) :
  getbc g (W hw pt km bc fs cn o) = Ok (g bc) (W hw pt km bc fs cn o).
Proof. done. Qed.
Lemma updfs_W (g : fsstate -> fsstate) :
  updfs g (W hw pt km bc fs cn o) = Ok tt (W hw pt km bc (g fs) cn o).
Proof. done. Qed.
Lemma getfs_W (g : fsstate -> A) :
  getfs g (W hw pt km bc fs cn o) = Ok (g fs) (W hw pt km bc fs cn o).
Proof. done. Qed.
Lemma updcn_W (g : cnstate -> cnstate) :
  updcn g (W hw pt km bc fs cn o) = Ok tt (W hw pt km bc fs (g cn) o).
Proof. done. Qed.
Lemma getcn_W (g : cnstate -> A) :
  getcn g (W hw pt km bc fs cn o) = Ok (g cn) (W hw pt km bc fs cn o).
Proof. done. Qed.
Lemma bind_at what (l : list A) i x (f : A -> K B) w :
  l !! i = Some x -> bind (at_ what l i) f w = f x w.
Proof. intros H. unfold at_. by rewrite H. Qed.
End Krun.

#[export] Hint Rewrite @bind_ret @bind_assoc @bind_gethw @bind_getpt @bind_getkm
  @bind_getbc @bind_getfs @bind_getcn @bind_updhw @bind_updpt @bind_updkm
  @bind_updbc @bind_updfs @bind_updcn : krun.
#[export] Hint Rewrite @updhw_W @gethw_W @updpt_W @getpt_W
  @updkm_W @getkm_W @updbc_W @getbc_W
  @updfs_W @getfs_W @updcn_W @getcn_W : krun.
#[export] Hint Rewrite @bind_at using eassumption : krun.

(** Compute projections of updated records, and nothing else. *)
Ltac ksimpl :=
  cbn [ l_locked set_l_locked l_name set_l_name l_cpu set_l_cpu sl_locked
    set_sl_locked sl_name set_sl_name sl_pid set_sl_pid sd_lim_15_0
    set_sd_lim_15_0 sd_base_15_0 set_sd_base_15_0 sd_base_23_16
    set_sd_base_23_16 sd_type set_sd_type sd_s set_sd_s sd_dpl set_sd_dpl sd_p
    set_sd_p sd_lim_19_16 set_sd_lim_19_16 sd_avl set_sd_avl sd_rsv1
    set_sd_rsv1 sd_db set_sd_db sd_g set_sd_g sd_base_31_24 set_sd_base_31_24
    ts_esp0 set_ts_esp0 ts_ss0 set_ts_ss0 ts_iomb set_ts_iomb c_apicid
    set_c_apicid c_ts set_c_ts c_gdt set_c_gdt c_started set_c_started c_ncli
    set_c_ncli c_intena set_c_intena c_proc set_c_proc x_edi set_x_edi x_esi
    set_x_esi x_ebx set_x_ebx x_ebp set_x_ebp x_eip set_x_eip t_edi set_t_edi
    t_esi set_t_esi t_ebp set_t_ebp t_oesp set_t_oesp t_ebx set_t_ebx t_edx
    set_t_edx t_ecx set_t_ecx t_eax set_t_eax t_gs set_t_gs t_fs set_t_fs t_es
    set_t_es t_ds set_t_ds t_trapno set_t_trapno t_err set_t_err t_eip
    set_t_eip t_cs set_t_cs t_eflags set_t_eflags t_esp set_t_esp t_ss
    set_t_ss s_stackz set_s_stackz s_thread_count set_s_thread_count s_state
    set_s_state p_sz set_p_sz p_pgdir set_p_pgdir p_kstack set_p_kstack
    p_state set_p_state p_pid set_p_pid p_parent set_p_parent p_tfp set_p_tfp
    p_tf set_p_tf p_contextp set_p_contextp p_context set_p_context p_chan
    set_p_chan p_killed set_p_killed p_ofile set_p_ofile p_cwd set_p_cwd
    p_name set_p_name p_tid set_p_tid p_pthread set_p_pthread p_psl set_p_psl
    p_slindex set_p_slindex p_startTime set_p_startTime p_waitTime
    set_p_waitTime p_lastWait set_p_lastWait q_q set_q_q q_front set_q_front
    q_back set_q_back q_count set_q_count sem_queue set_sem_queue sem_count
    set_sem_count sem_state set_sem_state b_flags set_b_flags b_dev set_b_dev
    b_blockno set_b_blockno b_lock set_b_lock b_refcnt set_b_refcnt b_prev
    set_b_prev b_next set_b_next b_qnext set_b_qnext b_data set_b_data
    lg_start set_lg_start lg_size set_lg_size lg_outstanding
    set_lg_outstanding lg_committing set_lg_committing lg_dev set_lg_dev lg_n
    set_lg_n lg_block set_lg_block sb_size set_sb_size sb_nblocks
    set_sb_nblocks sb_ninodes set_sb_ninodes sb_nlog set_sb_nlog sb_logstart
    set_sb_logstart sb_inodestart set_sb_inodestart sb_bmapstart
    set_sb_bmapstart i_dev set_i_dev i_inum set_i_inum i_ref set_i_ref i_lock
    set_i_lock i_valid set_i_valid i_type set_i_type i_major set_i_major
    i_minor set_i_minor i_nlink set_i_nlink i_size set_i_size i_addrs
    set_i_addrs f_type set_f_type f_ref set_f_ref f_readable set_f_readable
    f_writable set_f_writable f_pipe set_f_pipe f_ip set_f_ip f_off set_f_off
    pi_data set_pi_data pi_nread set_pi_nread pi_nwrite set_pi_nwrite
    pi_readopen set_pi_readopen pi_writeopen set_pi_writeopen hw_cpus
    set_hw_cpus hw_ncpu set_hw_ncpu hw_lapicid set_hw_lapicid hw_eflags
    set_hw_eflags hw_cr3 set_hw_cr3 hw_tr set_hw_tr hw_locks set_hw_locks
    pt_proc set_pt_proc pt_nextpid set_pt_nextpid pt_initproc set_pt_initproc
    pt_psl set_pt_psl pt_sem set_pt_sem pt_ticks set_pt_ticks pt_first
    set_pt_first km_mem set_km_mem km_freelist set_km_freelist km_use_lock
    set_km_use_lock km_end set_km_end km_data set_km_data km_kpgdir
    set_km_kpgdir km_trapret set_km_trapret km_forkret set_km_forkret km_ts
    set_km_ts bc_buf set_bc_buf bc_disk set_bc_disk bc_hist set_bc_hist
    bc_idequeue set_bc_idequeue bc_havedisk1 set_bc_havedisk1 bc_log
    set_bc_log fs_sb set_fs_sb fs_inode set_fs_inode fs_file set_fs_file
    fs_pipe set_fs_pipe fs_devsw set_fs_devsw cn_locking set_cn_locking
    cn_panicked set_cn_panicked cn_uart set_cn_uart cn_out set_cn_out cn_crt
    set_cn_crt cn_pos set_cn_pos cn_buf set_cn_buf cn_r set_cn_r cn_w set_cn_w
    cn_e set_cn_e k_hw set_k_hw k_pt set_k_pt k_km set_k_km k_bc set_k_bc k_fs
    set_k_fs k_cn set_k_cn w_k set_w_k w_others set_w_others].
Tactic Notation "ksimpl" "in" hyp(H) :=
  cbn [ l_locked set_l_locked l_name set_l_name l_cpu set_l_cpu sl_locked
    set_sl_locked sl_name set_sl_name sl_pid set_sl_pid sd_lim_15_0
    set_sd_lim_15_0 sd_base_15_0 set_sd_base_15_0 sd_base_23_16
    set_sd_base_23_16 sd_type set_sd_type sd_s set_sd_s sd_dpl set_sd_dpl sd_p
    set_sd_p sd_lim_19_16 set_sd_lim_19_16 sd_avl set_sd_avl sd_rsv1
    set_sd_rsv1 sd_db set_sd_db sd_g set_sd_g sd_base_31_24 set_sd_base_31_24
    ts_esp0 set_ts_esp0 ts_ss0 set_ts_ss0 ts_iomb set_ts_iomb c_apicid
    set_c_apicid c_ts set_c_ts c_gdt set_c_gdt c_started set_c_started c_ncli
    set_c_ncli c_intena set_c_intena c_proc set_c_proc x_edi set_x_edi x_esi
    set_x_esi x_ebx set_x_ebx x_ebp set_x_ebp x_eip set_x_eip t_edi set_t_edi
    t_esi set_t_esi t_ebp set_t_ebp t_oesp set_t_oesp t_ebx set_t_ebx t_edx
    set_t_edx t_ecx set_t_ecx t_eax set_t_eax t_gs set_t_gs t_fs set_t_fs t_es
    set_t_es t_ds set_t_ds t_trapno set_t_trapno t_err set_t_err t_eip
    set_t_eip t_cs set_t_cs t_eflags set_t_eflags t_esp set_t_esp t_ss
    set_t_ss s_stackz set_s_stackz s_thread_count set_s_thread_count s_state
    set_s_state p_sz set_p_sz p_pgdir set_p_pgdir p_kstack set_p_kstack
    p_state set_p_state p_pid set_p_pid p_parent set_p_parent p_tfp set_p_tfp
    p_tf set_p_tf p_contextp set_p_contextp p_context set_p_context p_chan
    set_p_chan p_killed set_p_killed p_ofile set_p_ofile p_cwd set_p_cwd
    p_name set_p_name p_tid set_p_tid p_pthread set_p_pthread p_psl set_p_psl
    p_slindex set_p_slindex p_startTime set_p_startTime p_waitTime
    set_p_waitTime p_lastWait set_p_lastWait q_q set_q_q q_front set_q_front
    q_back set_q_back q_count set_q_count sem_queue set_sem_queue sem_count
    set_sem_count sem_state set_sem_state b_flags set_b_flags b_dev set_b_dev
    b_blockno set_b_blockno b_lock set_b_lock b_refcnt set_b_refcnt b_prev
    set_b_prev b_next set_b_next b_qnext set_b_qnext b_data set_b_data
    lg_start set_lg_start lg_size set_lg_size lg_outstanding
    set_lg_outstanding lg_committing set_lg_committing lg_dev set_lg_dev lg_n
    set_lg_n lg_block set_lg_block sb_size set_sb_size sb_nblocks
    set_sb_nblocks sb_ninodes set_sb_ninodes sb_nlog set_sb_nlog sb_logstart
    set_sb_logstart sb_inodestart set_sb_inodestart sb_bmapstart
    set_sb_bmapstart i_dev set_i_dev i_inum set_i_inum i_ref set_i_ref i_lock
    set_i_lock i_valid set_i_valid i_type set_i_type i_major set_i_major
    i_minor set_i_minor i_nlink set_i_nlink i_size set_i_size i_addrs
    set_i_addrs f_type set_f_type f_ref set_f_ref f_readable set_f_readable
    f_writable set_f_writable f_pipe set_f_pipe f_ip set_f_ip f_off set_f_off
    pi_data set_pi_data pi_nread set_pi_nread pi_nwrite set_pi_nwrite
    pi_readopen set_pi_readopen pi_writeopen set_pi_writeopen hw_cpus
    set_hw_cpus hw_ncpu set_hw_ncpu hw_lapicid set_hw_lapicid hw_eflags
    set_hw_eflags hw_cr3 set_hw_cr3 hw_tr set_hw_tr hw_locks set_hw_locks
    pt_proc set_pt_proc pt_nextpid set_pt_nextpid pt_initproc set_pt_initproc
    pt_psl set_pt_psl pt_sem set_pt_sem pt_ticks set_pt_ticks pt_first
    set_pt_first km_mem set_km_mem km_freelist set_km_freelist km_use_lock
    set_km_use_lock km_end set_km_end km_data set_km_data km_kpgdir
    set_km_kpgdir km_trapret set_km_trapret km_forkret set_km_forkret km_ts
    set_km_ts bc_buf set_bc_buf bc_disk set_bc_disk bc_hist set_bc_hist
    bc_idequeue set_bc_idequeue bc_havedisk1 set_bc_havedisk1 bc_log
    set_bc_log fs_sb set_fs_sb fs_inode set_fs_inode fs_file set_fs_file
    fs_pipe set_fs_pipe fs_devsw set_fs_devsw cn_locking set_cn_locking
    cn_panicked set_cn_panicked cn_uart set_cn_uart cn_out set_cn_out cn_crt
    set_cn_crt cn_pos set_cn_pos cn_buf set_cn_buf cn_r set_cn_r cn_w set_cn_w
    cn_e set_cn_e k_hw set_k_hw k_pt set_k_pt k_km set_k_km k_bc set_k_bc k_fs
    set_k_fs k_cn set_k_cn w_k set_w_k w_others set_w_others] in H.

(** One round of symbolic execution. *)
Ltac krun := autorewrite with krun; cbn beta iota; ksimpl.

(** Run the first call with the equation [H] about it. *)
Tactic Notation "kcall" uconstr(H) :=
  erewrite bind_ok; [| eapply H].
Tactic Notation "kcall" uconstr(H) "by" tactic3(t) :=
  erewrite bind_ok; [| eapply H; t].

Section Tables.
Context (hw : hwstate) (pt : ptstate) (km : kmstate)
  (bc : bcstate) (fs : fsstate) (cn : cnstate) (o : list (kstate -> kstate)).

Lemma getp_ok i x :
  pt_proc pt !! i = Some x ->
  getp i (W hw pt km bc fs cn o) = Ok x (W hw pt km bc fs cn o).
Proof. intros H. unfold getp. krun. unfold at_. by rewrite H. Qed.
Lemma getsl_ok i x :
  pt_psl pt !! i = Some x ->
  getsl i (W hw pt km bc fs cn o) = Ok x (W hw pt km bc fs cn o).
Proof. intros H. unfold getsl. krun. unfold at_. by rewrite H. Qed.
Lemma getsem_ok i x :
  pt_sem pt !! i = Some x ->
  getsem i (W hw pt km bc fs cn o) = Ok x (W hw pt km bc fs cn o).
Proof. intros H. unfold getsem. krun. unfold at_. by rewrite H. Qed.
Lemma getb_ok i x :
  bc_buf bc !! i = Some x ->
  getb i (W hw pt km bc fs cn o) = Ok x (W hw pt km bc fs cn o).
Proof. intros H. unfold getb. krun. unfold at_. by rewrite H. Qed.
Lemma geti_ok i x :
  fs_inode fs !! i = Some x ->
  geti i (W hw pt km bc fs cn o) = Ok x (W hw pt km bc fs cn o).
Proof. intros H. unfold geti. krun. unfold at_. by rewrite H. Qed.
Lemma getf_ok i x :
  fs_file fs !! i = Some x ->
  getf i (W hw pt km bc fs cn o) = Ok x (W hw pt km bc fs cn o).
Proof. intros H. unfold getf. krun. unfold at_. by rewrite H. Qed.
End Tables.

Lemma alter_alter_lookup {A} (f g : A -> A) (l : list A) i x :
  l !! i = Some x ->
  alter f i (alter g i l) = alter (fun _ => f (g x)) i l.
Proof.
  intros H. rewrite list_alter_alter_eq. apply list_alter_ext; [|done].
  intros y Hy. by simplify_eq.
Qed.
