(* ===== verification/Boot.v ===== *)
(** * The memory image the loader leaves

    The static variables of the kernel as C initialises them: zero, but for
    the ones with an initialiser.  The examples of the development run the
    kernel's code on states built from this image. *)

From stdpp Require Import prelude list gmap strings.
From Stdlib Require Import ZArith Lia.
From S2P Require Import Prelude State.

Definition zlock : spinlock := mk_spinlock 0 "" None.
Definition zsleeplock : sleeplock := mk_sleeplock 0 "" 0.
Definition zsegdesc : segdesc := mk_segdesc 0 0 0 0 0 0 0 0 0 0 0 0 0.
Definition zcpu : cpu :=
  mk_cpu 0 (mk_taskstate 0 0 0) (replicate 6 zsegdesc) 0 0 0 None.
Definition zcontext : context := mk_context 0 0 0 0 0.
Definition ztrapframe : trapframe :=
  mk_trapframe 0 0 0 0 0 0 0 0 0 0 0 0 0 0 0 0 0 0 0.
Definition zproc : proc :=
  mk_proc 0 0 0 UNUSED 0 None 0 ztrapframe 0 zcontext ChNull 0
    (replicate NOFILE None) None (replicate 16 0) 0 None None 0 0 0 0.
Definition zpsl : psl := mk_psl (replicate 8 0) 0 UNUSED.
Definition zqueue : queue := mk_queue (replicate (Z.to_nat MAXQ) None) 0 0 0.
Definition zsem : semaphore := mk_semaphore zqueue 0 UNUSED.
Definition zbuf : buf :=
  mk_buf 0 0 0 zsleeplock 0 0 0 None (replicate 512 0).
Definition zlog : log_t := mk_log 0 0 0 0 0 0 (replicate 30 0).
Definition zinode : inode :=
  mk_inode 0 0 0 zsleeplock 0 0 0 0 0 0 (replicate 13 0).
Definition zfile : file := mk_file FD_NONE 0 0 0 0 None 0.

(** One processor, interrupts enabled. *)
Definition hw0 : hwstate :=
  mk_hw (replicate NCPU zcpu) 1 0 FL_IF 0 0 (fun _ => zlock).
Definition pt0 : ptstate :=
  mk_pt (replicate NPROC zproc) 1 None (replicate KT_TABLESIZE zpsl)
    (replicate KT_TABLESIZE zsem) 0 true.
Definition km0 : kmstate :=
  mk_km (fun _ => 0) 0 false 0x80114000 0x80108000 0 0 0 (fun _ => 0).
Definition bc0 : bcstate := mk_bc (replicate (S NBUF) zbuf) [] [] None false zlog.
Definition fs0 : fsstate :=
  mk_fs (mk_superblock 0 0 0 0 0 0 0) (replicate NINODE zinode)
    (replicate NFILE zfile) ∅ (replicate 10 false).
Definition cn0 : cnstate :=
  mk_cn false false false [] (replicate 2000 0) 0 (replicate 128 0) 0 0 0.

(** Thread 0 runs on processor 0. *)
Definition hw_run : hwstate :=
  set_hw_cpus (alter (set_c_proc (Some 0%nat)) 0%nat (hw_cpus hw0)) hw0.
Definition proc_run : proc :=
  zproc |> set_p_state RUNNING |> set_p_pid 1 |> set_p_tid 1.
Definition pt_run : ptstate :=
  set_pt_proc (alter (fun _ => proc_run) 0%nat (pt_proc pt0)) pt0.
Definition c_run : cpu := set_c_proc (Some 0%nat) zcpu.
