(* ===== verification/Spinlock.v ===== *)
(** * Spin locks and the current processor

    [spinlock.c] in full (the call stack kept in [lk->pcs] for debugging
    apart: [getcallerpcs] is a function of the memory), and [mycpu],
    [cpuid] and [myproc] of [proc.c], on which it depends.  The section
    after the definitions gives the effect of each operation as an equation
    on the hardware state, for the other components to rewrite with. *)

From stdpp Require Import prelude list gmap strings.
From Stdlib Require Import ZArith Lia FunctionalExtensionality.
From S2P Require Import Prelude State Boot.
#[local] Open Scope c_scope.

(** ** x86.h *)

Definition readeflags : K Z := gethw hw_eflags.
Definition cli : K unit :=
  updhw (fun h => set_hw_eflags (Z.ldiff (hw_eflags h) FL_IF) h).
Definition sti : K unit :=
  updhw (fun h => set_hw_eflags (Z.lor (hw_eflags h) FL_IF) h).

(** ** proc.c: the executing processor *)

(** The local APIC's identifier is read from the hardware. *)
Definition lapicid : K Z := gethw hw_lapicid.

Definition mycpu : K nat :=
  e <- readeflags ;;
  if negb (Z.land e FL_IF =? 0)
  then panic "mycpu called with interrupts enabled"
  else
    apicid <- lapicid ;;
    n <- gethw hw_ncpu ;;
    r <- for_ n 0 (fun i =>
           cs <- gethw hw_cpus ;;
           c <- at_ "cpus" cs i ;;
           ret (if c_apicid c =? apicid then Some i else None)) ;;
    match r with
    | Some i => ret i
    | None => panic "unknown apicid"
    end.

Definition cpuid : K nat := mycpu.

Definition getcpu (i : nat) : K cpu :=
  cs <- gethw hw_cpus ;; at_ "cpus" cs i.
Definition updcpu (i : nat) (f : cpu -> cpu) : K unit :=
  updhw (fun h => set_hw_cpus (alter f i (hw_cpus h)) h).

(** ** spinlock.c *)

Definition getlock (lk : lockid) : K spinlock := gethw (fun h => hw_locks h lk).
Definition setlock (lk : lockid) (l : spinlock) : K unit :=
  updhw (fun h => set_hw_locks (fn_upd lk l (hw_locks h)) h).

Definition initlock (lk : lockid) (name : string) : K unit :=
  setlock lk (mk_spinlock 0 name None).

Definition pushcli : K unit :=
  eflags <- readeflags ;;
  cli ;;
  i <- mycpu ;;
  c <- getcpu i ;;
  (if c_ncli c =? 0
   then i <- mycpu ;; updcpu i (set_c_intena (Z.land eflags FL_IF))
   else ret tt) ;;
  i <- mycpu ;;
  updcpu i (fun c => set_c_ncli (c_ncli c + 1) c).

Definition popcli : K unit :=
  e <- readeflags ;;
  if negb (Z.land e FL_IF =? 0) then panic "popcli - interruptible" else
  i <- mycpu ;;
  updcpu i (fun c => set_c_ncli (c_ncli c - 1) c) ;;
  c <- getcpu i ;;
  if c_ncli c <? 0 then panic "popcli" else
  i <- mycpu ;;
  c <- getcpu i ;;
  (if (c_ncli c =? 0) && negb (c_intena c =? 0) then sti else ret tt).

(** Check whether this cpu is holding the lock. *)
Definition holding (lk : lockid) : K bool :=
  pushcli ;;
  l <- getlock lk ;;
  r <- (if l_locked l =? 0 then ret false
        else i <- mycpu ;; ret (bool_decide (l_cpu l = Some i))) ;;
  popcli ;;
  ret r.

(** [xchg(&lk->locked, 1)]: the previous value, atomically replaced by 1. *)
Definition xchg_locked (lk : lockid) : K Z :=
  l <- getlock lk ;;
  setlock lk (set_l_locked 1 l) ;;
  ret (l_locked l).

Definition acquire (lk : lockid) : K unit :=
  pushcli ;;
  h <- holding lk ;;
  if (h : bool) then panic "acquire" else
  (* while(xchg(&lk->locked, 1) != 0) ; *)
  wait_loop (fun _ : unit =>
    old <- xchg_locked lk ;;
    if negb (old =? 0)
    then others_run (fun _ => Diverge) ;; ret (inl tt)
    else ret (inr tt)) tt ;;
  i <- mycpu ;;
  l <- getlock lk ;;
  setlock lk (set_l_cpu (Some i) l).

Definition release (lk : lockid) : K unit :=
  h <- holding lk ;;
  if negb h then panic "release" else
  l <- getlock lk ;;
  setlock lk (set_l_cpu None l) ;;
  l <- getlock lk ;;
  setlock lk (set_l_locked 0 l) ;;
  popcli.

(** The saved return addresses found by following the chain of frame
    pointers from the argument [v]; [load a] is the word at address [a]. *)
Fixpoint pcs_from (load : Z -> Z) (n : nat) (ebp : Z) : list Z :=
  match n with
  | O => []
  | S n' =>
      if (ebp =? 0) || (ebp <? KERNBASE) || (ebp =? 0xffffffff)
      then replicate n 0
      else load (u32 (ebp + 4)) :: pcs_from load n' (load ebp)
  end.
Definition getcallerpcs (load : Z -> Z) (v : Z) : list Z :=
  pcs_from load 10 (u32 (v - 8)).

(** ** proc.c *)

Definition myproc : K (option nat) :=
  pushcli ;;
  c <- mycpu ;;
  cp <- getcpu c ;;
  popcli ;;
  ret (c_proc cp).

(** ** Equations *)

(** The executing processor is [cpus[i]], whose contents are [c]. *)
Definition cpu_here (hw : hwstate) (i : nat) (c : cpu) : Prop :=
  (hw_ncpu hw <= length (hw_cpus hw))%nat /\
  find_idx (fun c => c_apicid c =? hw_lapicid hw)
    (take (hw_ncpu hw) (hw_cpus hw)) = Some i /\
  hw_cpus hw !! i = Some c.

Definition irq_off (hw : hwstate) : Prop := Z.land (hw_eflags hw) FL_IF = 0.

Lemma find_from_alter {A} (P : A -> bool) (f : A -> A) l i k :
  (forall x, P (f x) = P x) ->
  find_from P k (alter f i l) = find_from P k l.
Proof.
  intros Hf. revert i k. induction l as [|x l IH]; intros [|i] k; simpl; [done..| |].
  - by rewrite Hf.
  - unfold alter in IH. by rewrite IH.
Qed.

Lemma take_alter {A} (f : A -> A) n i (l : list A) :
  take n (alter f i l) = alter f i (take n l).
Proof.
  revert n i. induction l as [|x l IH]; intros [|n] [|i]; simpl; try done.
  f_equal. apply IH.
Qed.

Lemma cpu_here_alter hw i c f :
  (forall c, c_apicid (f c) = c_apicid c) ->
  cpu_here hw i c ->
  cpu_here (set_hw_cpus (alter f i (hw_cpus hw)) hw) i (f c).
Proof.
  intros Hf (Hn & Hi & Hc). unfold cpu_here. cbn. rewrite length_alter. split; [done|].
  split; [|by rewrite list_lookup_alter_eq, Hc].
  rewrite take_alter, find_from_alter; [done|]. intros x. by rewrite Hf.
Qed.

Lemma cpu_here_eflags hw i c e :
  cpu_here (set_hw_eflags e hw) i c <-> cpu_here hw i c.
Proof. done. Qed.
Lemma cpu_here_locks hw i c l :
  cpu_here (set_hw_locks l hw) i c <-> cpu_here hw i c.
Proof. done. Qed.

(** The three effects of lock code on the processor: [pushcli], [popcli],
    and what a matched pair of them leaves behind (the saved interrupt
    flag of a processor that was not holding any lock). *)
Definition hw_push (i : nat) (hw : hwstate) : hwstate :=
  let e := hw_eflags hw in
  hw |> set_hw_eflags (Z.ldiff e FL_IF)
     |> set_hw_cpus (alter (fun c =>
          c |> set_c_intena (if c_ncli c =? 0 then Z.land e FL_IF else c_intena c)
            |> set_c_ncli (c_ncli c + 1)) i (hw_cpus hw)).

Definition hw_pop (i : nat) (c : cpu) (hw : hwstate) : hwstate :=
  hw |> set_hw_eflags (if (c_ncli c =? 1) && negb (c_intena c =? 0)
                       then Z.lor (hw_eflags hw) FL_IF else hw_eflags hw)
     |> set_hw_cpus (alter (fun c => set_c_ncli (c_ncli c - 1) c) i (hw_cpus hw)).

Definition touch (i : nat) (hw : hwstate) : hwstate :=
  set_hw_cpus (alter (fun c =>
    set_c_intena (if c_ncli c =? 0 then Z.land (hw_eflags hw) FL_IF
                  else c_intena c) c) i (hw_cpus hw)) hw.

(** The executing processor is consistent: inside a critical section its
    interrupts are off. *)
Definition here (hw : hwstate) (i : nat) (c : cpu) : Prop :=
  cpu_here hw i c /\ 0 <= c_ncli c /\ (0 < c_ncli c -> irq_off hw).

Definition pushed (hw : hwstate) (c : cpu) : cpu :=
  c |> set_c_intena (if c_ncli c =? 0 then Z.land (hw_eflags hw) FL_IF
                     else c_intena c)
    |> set_c_ncli (c_ncli c + 1).

Definition touched (hw : hwstate) (c : cpu) : cpu :=
  set_c_intena (if c_ncli c =? 0 then Z.land (hw_eflags hw) FL_IF
                else c_intena c) c.

Lemma ldiff_irq_off e : Z.land (Z.ldiff e FL_IF) FL_IF = 0.
Proof. apply Z.land_ldiff. Qed.

Lemma here_push hw i c : here hw i c -> here (hw_push i hw) i (pushed hw c).
Proof.
  intros (Hc & Hn & Ho). unfold here, irq_off. split.
  - apply (cpu_here_alter (set_hw_eflags _ hw)); [|done]. by intros [].
  - cbn. split; [lia|]. intros _. apply ldiff_irq_off.
Qed.

Lemma here_touch hw i c : here hw i c -> here (touch i hw) i (touched hw c).
Proof.
  intros (Hc & Hn & Ho). split; [|done].
  apply cpu_here_alter; [|done]. by intros [].
Qed.

Lemma here_locks hw i c l : here (set_hw_locks l hw) i c <-> here hw i c.
Proof. done. Qed.

Lemma set_cpus_id hw f i c :
  hw_cpus hw !! i = Some c -> f c = c ->
  set_hw_cpus (alter f i (hw_cpus hw)) hw = hw.
Proof.
  intros Hi Hf. destruct hw as [cs ??????]; cbn in *. unfold set_hw_cpus; cbn. f_equal.
  rewrite <- (list_alter_id id cs i) at 2; [|done].
  apply list_alter_ext; [|done]. intros x Hx. by simplify_eq.
Qed.

Lemma touch_id hw i c : here hw i c -> 0 < c_ncli c -> touch i hw = hw.
Proof.
  intros ((_ & _ & Hc) & Hn & Ho) Hpos. eapply set_cpus_id; [done|].
  destruct (Z.eqb_spec (c_ncli c) 0); [lia|]. by destruct c.
Qed.

Lemma touch_touch hw i : touch i (touch i hw) = touch i hw.
Proof.
  unfold touch at 1. cbn. unfold touch, set_hw_cpus. cbn. f_equal.
  rewrite list_alter_alter_eq. apply list_alter_ext; [|done].
  intros c _. unfold compose. destruct c; cbn. by destruct (_ =? _).
Qed.

Lemma land_FL_IF e : Z.land e FL_IF = if Z.testbit e 9 then FL_IF else 0.
Proof.
  change FL_IF with (2 ^ 9). apply Z.bits_inj'. intros n Hn.
  rewrite Z.land_spec, Z.pow2_bits_eqb by lia.
  destruct (Z.eqb_spec 9 n) as [<-|Hne].
  - destruct (Z.testbit e 9); [by rewrite Z.pow2_bits_eqb|].
    by rewrite Z.bits_0.
  - rewrite andb_false_r. destruct (Z.testbit e 9).
    + rewrite Z.pow2_bits_eqb by lia. destruct (Z.eqb_spec 9 n); [lia|done].
    + by rewrite Z.bits_0.
Qed.

(** Clearing a flag that is off, and setting it again when it was on. *)
Lemma ldiff_off e : Z.land e FL_IF = 0 -> Z.ldiff e FL_IF = e.
Proof.
  intros H. pose proof (Z.add_nocarry_lxor (Z.ldiff e FL_IF) (Z.land e FL_IF)) as E.
  rewrite Z.ldiff_land in *. apply Z.bits_inj'. intros n Hn.
  apply (f_equal (fun z => Z.testbit z n)) in H.
  rewrite Z.land_spec, Z.bits_0 in H. rewrite Z.land_spec, Z.lnot_spec by done.
  destruct (Z.testbit e n), (Z.testbit FL_IF n); done.
Qed.

Lemma lor_ldiff_on e : Z.land e FL_IF <> 0 -> Z.lor (Z.ldiff e FL_IF) FL_IF = e.
Proof.
  rewrite land_FL_IF. destruct (Z.testbit e 9) eqn:E; [intros _|done].
  change FL_IF with (2 ^ 9). apply Z.bits_inj'. intros n Hn.
  rewrite Z.lor_spec, Z.ldiff_spec, Z.pow2_bits_eqb by lia.
  destruct (Z.eqb_spec 9 n) as [<-|Hne]; [by rewrite E|].
  by rewrite andb_true_r, orb_false_r.
Qed.

Lemma hw_pop_push hw i c :
  here hw i c -> hw_pop i (pushed hw c) (hw_push i hw) = touch i hw.
Proof.
  intros (Hc & Hn & Ho).
  assert (hw_eflags (hw_pop i (pushed hw c) (hw_push i hw)) = hw_eflags hw) as He.
  { cbn. destruct (Z.eqb_spec (c_ncli c + 1) 1) as [E|E].
    - replace (c_ncli c) with 0 by lia. cbn.
      destruct (Z.eqb_spec (Z.land (hw_eflags hw) FL_IF) 0); cbn;
        [by apply ldiff_off|by apply lor_ldiff_on].
    - cbn. apply ldiff_off, Ho. lia. }
  destruct hw; cbn in He. unfold hw_pop, touch, set_hw_eflags, set_hw_cpus; cbn.
  rewrite He. f_equal. rewrite list_alter_alter_eq. apply list_alter_ext; [|done].
  intros x _. unfold compose. destruct x; cbn. unfold set_c_ncli, set_c_intena; cbn.
  f_equal. lia.
Qed.

(** The state of the machine with one more lock held. *)
Definition hw_acquire (lk : lockid) (i : nat) (hw : hwstate) : hwstate :=
  set_hw_locks (fn_upd lk (mk_spinlock 1 (l_name (hw_locks hw lk)) (Some i))
                  (hw_locks hw)) (hw_push i hw).

Definition lock_free (hw : hwstate) (lk : lockid) : Prop :=
  l_locked (hw_locks hw lk) = 0 /\ l_cpu (hw_locks hw lk) = None.

Definition lock_mine (hw : hwstate) (lk : lockid) (i : nat) : Prop :=
  l_locked (hw_locks hw lk) = 1 /\ l_cpu (hw_locks hw lk) = Some i.


Lemma here_acquire hw lk i c :
  here hw i c -> here (hw_acquire lk i hw) i (pushed hw c).
Proof. intros H. by apply here_push. Qed.

Lemma lock_free_other hw lk lk' i :
  lk' <> lk -> lock_free (hw_acquire lk i hw) lk' <-> lock_free hw lk'.
Proof. intros H. unfold lock_free. cbn. by rewrite fn_upd_ne. Qed.

Lemma lock_mine_acquire hw lk i : lock_mine (hw_acquire lk i hw) lk i.
Proof. unfold lock_mine. cbn. by rewrite fn_upd_eq. Qed.

(** Leaving the outer of two nested sections: the inner one, and the flag the
    outer one saved, remain. *)
Lemma hw_pop_inner hw lk i c :
  here hw i c ->
  hw_pop i (pushed (hw_push i hw) (pushed hw c)) (hw_acquire lk i (hw_push i hw)) =
  hw_acquire lk i hw.
Proof.
  intros ((_ & _ & Hc) & Hn & Ho). unfold hw_pop, hw_acquire, hw_push. cbn.
  destruct (Z.eqb_spec (c_ncli c + 1 + 1) 1); [lia|]. cbn.
  destruct hw as [cs nc lap e cr tr lks]; cbn in *.
  unfold set_hw_locks, set_hw_cpus, set_hw_eflags; cbn. f_equal.
  - rewrite !list_alter_alter_eq. apply list_alter_ext; [|done].
    intros x Hx. simplify_eq. unfold compose. destruct c as [? ? ? ? ncli ? ?]; cbn in *.
    destruct (Z.eqb_spec (ncli + 1) 0); [lia|].
    unfold set_c_ncli, set_c_intena; cbn. f_equal. lia.
  - apply ldiff_off, ldiff_irq_off.
Qed.

Section Equations.
Context (pt : ptstate) (km : kmstate) (bc : bcstate) (fs : fsstate)
  (cn : cnstate) (o : list (kstate -> kstate)).
Implicit Types (hw : hwstate) (c : cpu).

Lemma mycpu_ok hw i c :
  cpu_here hw i c -> irq_off hw ->
  mycpu (W hw pt km bc fs cn o) = Ok i (W hw pt km bc fs cn o).
Proof.
  intros (Hn & Hi & _) Hoff. unfold mycpu, readeflags, lapicid. krun.
  unfold irq_off in Hoff. rewrite Hoff. cbn [negb Z.eqb]. krun.
  erewrite bind_ok; [|apply (for_find (fun c => c_apicid c =? hw_lapicid hw)
    (take (hw_ncpu hw) (hw_cpus hw)))].
  - by rewrite Hi.
  - rewrite length_take. lia.
  - intros j x Hx. krun. apply lookup_take_Some in Hx as [Hx _]. cbn.
    erewrite bind_at by exact Hx. by destruct (_ =? _).
Qed.

Lemma getcpu_ok hw i c :
  hw_cpus hw !! i = Some c ->
  getcpu i (W hw pt km bc fs cn o) = Ok c (W hw pt km bc fs cn o).
Proof. intros H. unfold getcpu. krun. unfold at_. by rewrite H. Qed.

Lemma pushcli_ok hw i c :
  cpu_here hw i c ->
  pushcli (W hw pt km bc fs cn o) = Ok tt (W (hw_push i hw) pt km bc fs cn o).
Proof.
  intros Hc. unfold pushcli, readeflags, cli. krun.
  set (hw1 := set_hw_eflags _ hw).
  assert (irq_off hw1) as H1 by apply ldiff_irq_off.
  assert (cpu_here hw1 i c) as Hc1 by done.
  kcall mycpu_ok by done. kcall getcpu_ok by apply Hc1.
  destruct (c_ncli c =? 0) eqn:E; krun.
  - kcall mycpu_ok by done. unfold updcpu. krun.
    kcall mycpu_ok by (done || by apply cpu_here_alter).
    unfold hw_push. krun. rewrite list_alter_alter_eq.
    erewrite (list_alter_ext _ _ _ _ i); [done| |done].
    intros x Hx. destruct Hc as (_ & _ & Hc). cbn in Hx. simplify_eq.
    cbn. by rewrite E.
  - kcall mycpu_ok by done. unfold hw_push, updcpu. krun.
    erewrite (list_alter_ext _ _ _ _ i); [done| |done].
    intros x Hx. destruct Hc as (_ & _ & Hc). cbn in Hx. simplify_eq.
    rewrite E. by destruct c.
Qed.

Lemma popcli_ok hw i c :
  cpu_here hw i c -> irq_off hw -> 0 < c_ncli c ->
  popcli (W hw pt km bc fs cn o) = Ok tt (W (hw_pop i c hw) pt km bc fs cn o).
Proof.
  intros Hc Ho Hn. unfold popcli, readeflags. krun. pose proof Ho as Ho'.
  unfold irq_off in Ho'. rewrite Ho'. cbn [negb Z.eqb].
  kcall mycpu_ok by done. unfold updcpu. krun.
  assert (cpu_here (set_hw_cpus (alter (fun c => set_c_ncli (c_ncli c - 1) c) i
            (hw_cpus hw)) hw) i (set_c_ncli (c_ncli c - 1) c)) as Hc'
    by (by apply (cpu_here_alter hw i c (fun c => set_c_ncli (c_ncli c - 1) c))).
  kcall getcpu_ok by apply Hc'. cbn [c_ncli set_c_ncli].
  destruct (Z.ltb_spec (c_ncli c - 1) 0); [lia|].
  kcall mycpu_ok by done. kcall getcpu_ok by apply Hc'. cbn [c_ncli set_c_ncli c_intena].
  unfold hw_pop, sti. replace (c_ncli c - 1 =? 0) with (c_ncli c =? 1) by lia.
  destruct (_ && _); krun; [done|]. by destruct hw.
Qed.

Lemma holding_ok hw i c lk :
  here hw i c ->
  holding lk (W hw pt km bc fs cn o) =
  Ok (negb (l_locked (hw_locks hw lk) =? 0) &&
      bool_decide (l_cpu (hw_locks hw lk) = Some i))
     (W (touch i hw) pt km bc fs cn o).
Proof.
  intros Hh. unfold holding. kcall pushcli_ok by apply Hh.
  destruct (here_push hw i c Hh) as (Hc & Hn & Ho).
  assert (0 < c_ncli (pushed hw c)) as Hp by (destruct Hh as (_ & ? & _); cbn; lia).
  unfold getlock. krun. change (hw_locks (hw_push i hw)) with (hw_locks hw).
  destruct (l_locked (hw_locks hw lk) =? 0); cbn [negb andb]; krun.
  - kcall popcli_ok by (done || by apply Ho). by rewrite hw_pop_push.
  - kcall mycpu_ok by (done || by apply Ho). krun.
    kcall popcli_ok by (done || by apply Ho). by rewrite hw_pop_push.
Qed.

Lemma acquire_ok hw i c lk :
  here hw i c -> l_locked (hw_locks hw lk) = 0 ->
  acquire lk (W hw pt km bc fs cn o) =
  Ok tt (W (hw_acquire lk i hw) pt km bc fs cn o).
Proof.
  intros Hh Hl. unfold acquire. kcall pushcli_ok by apply Hh.
  pose proof (here_push hw i c Hh) as Hp.
  assert (0 < c_ncli (pushed hw c)) as Hn by (destruct Hh as (_ & ? & _); cbn; lia).
  kcall holding_ok by done. rewrite (touch_id _ _ _ Hp Hn).
  change (hw_locks (hw_push i hw)) with (hw_locks hw). rewrite Hl. cbn [Z.eqb negb andb].
  unfold wait_loop. erewrite bind_ok.
  2: { cbn [loop_]. unfold xchg_locked, getlock, setlock. krun. change (hw_locks (hw_push i hw)) with (hw_locks hw).
       rewrite Hl. cbn. krun. done. }
  destruct Hp as (Hc & _ & Ho).
  kcall mycpu_ok by (done || by apply Ho). unfold getlock, setlock. krun.
  unfold hw_acquire. rewrite fn_upd_eq. do 3 f_equal.
  destruct hw; unfold set_hw_locks, hw_push, set_hw_cpus, set_hw_eflags; cbn. f_equal.
  apply functional_extensionality. intros l. unfold fn_upd. by destruct (decide _).
Qed.

Lemma release_ok hw i c lk :
  here hw i c -> 0 < c_ncli c -> lock_mine hw lk i ->
  release lk (W hw pt km bc fs cn o) =
  Ok tt (W (hw_pop i c (set_hw_locks
    (fn_upd lk (mk_spinlock 0 (l_name (hw_locks hw lk)) None) (hw_locks hw)) hw))
    pt km bc fs cn o).
Proof.
  intros Hh Hn [Hl Hcpu]. unfold release. kcall holding_ok by done.
  rewrite (touch_id _ _ _ Hh Hn), Hl, Hcpu, bool_decide_eq_true_2 by done. cbn [Z.eqb negb andb].
  unfold getlock, setlock. krun.
  set (hw' := set_hw_locks _ _).
  assert (hw' = set_hw_locks (fn_upd lk (mk_spinlock 0 (l_name (hw_locks hw lk)) None)
                  (hw_locks hw)) hw) as ->.
  { unfold hw', set_hw_locks; cbn. f_equal. apply functional_extensionality. intros l.
    rewrite fn_upd_eq. unfold fn_upd. by destruct (decide _). }
  destruct Hh as (? & ? & Ho). apply popcli_ok; [done|exact (Ho Hn)|done].
Qed.

Lemma fn_upd_self {A B} `{EqDecision A} (a : A) (b b' : B) f :
  f a = b -> fn_upd a b (fn_upd a b' f) = f.
Proof.
  intros H. apply functional_extensionality. intros x. unfold fn_upd.
  destruct (decide _); congruence.
Qed.

(** Leaving a critical section entered in state [hw]. *)
Lemma release_acquired hw i c lk :
  here hw i c -> lock_free hw lk ->
  release lk (W (hw_acquire lk i hw) pt km bc fs cn o) =
  Ok tt (W (touch i hw) pt km bc fs cn o).
Proof.
  intros Hh [Hl Hc]. erewrite release_ok.
  - do 2 f_equal. rewrite <- (hw_pop_push hw i c Hh). do 2 f_equal.
    unfold hw_acquire, set_hw_locks. cbn. unfold hw_push. cbn.
    unfold set_hw_cpus, set_hw_eflags; cbn. f_equal. rewrite fn_upd_eq. cbn.
    apply fn_upd_self. destruct (hw_locks hw lk); cbn in *. by subst.
  - by apply here_acquire.
  - destruct Hh as (_ & ? & _). cbn. lia.
  - apply lock_mine_acquire.
Qed.

(** Freeing the outer of two locks leaves the inner one taken. *)
Lemma free_outer hw i lk lk' :
  lock_free hw lk -> lk <> lk' ->
  let hw2 := hw_acquire lk' i (hw_acquire lk i hw) in
  set_hw_locks (fn_upd lk (mk_spinlock 0 (l_name (hw_locks hw2 lk)) None) (hw_locks hw2)) hw2 =
  hw_acquire lk' i (hw_push i hw).
Proof.
  intros [Hl Hc] Hne hw2. unfold hw_acquire at 1.
  transitivity (set_hw_locks (fn_upd lk (mk_spinlock 0 (l_name (hw_locks hw2 lk)) None) (hw_locks hw2))
    (hw_push i (hw_push i hw))); [reflexivity|].
  f_equal. apply functional_extensionality. intros x. cbn [hw2 hw_acquire hw_locks set_hw_locks].
  rewrite (fn_upd_ne lk' lk), fn_upd_eq by done. cbn [l_name]. unfold fn_upd at 1.
  destruct (decide (x = lk)) as [->|Hx].
  - rewrite fn_upd_ne by done. cbn. destruct (hw_locks hw lk); cbn in *. by subst.
  - unfold fn_upd. destruct (decide (x = lk')) as [->|]; [|by rewrite decide_False].
    by rewrite decide_False.
Qed.

(** Leaving the outer of two critical sections first, as [sleep] does. *)
Lemma release_outer hw i c lk lk' :
  here hw i c -> lock_free hw lk -> lk <> lk' ->
  release lk (W (hw_acquire lk' i (hw_acquire lk i hw)) pt km bc fs cn o) =
  Ok tt (W (hw_acquire lk' i hw) pt km bc fs cn o).
Proof.
  intros Hh [Hl Hc] Hne. pose proof (here_acquire _ lk _ _ Hh) as H1.
  pose proof (here_acquire _ lk' _ _ H1) as H2.
  pose proof (proj1 (proj2 Hh)) as Hn.
  erewrite release_ok; [|exact H2|cbn; lia|].
  2: { unfold lock_mine. cbn. rewrite fn_upd_ne, fn_upd_eq; done. }
  do 2 f_equal. rewrite <- (hw_pop_inner hw lk' i c Hh).
  rewrite <- (free_outer hw i lk lk') by done. reflexivity.
Qed.

Lemma myproc_ok hw i c :
  here hw i c ->
  myproc (W hw pt km bc fs cn o) =
  Ok (c_proc c) (W (touch i hw) pt km bc fs cn o).
Proof.
  intros Hh. unfold myproc. kcall pushcli_ok by apply Hh.
  destruct (here_push hw i c Hh) as (Hc & Hn & Ho).
  assert (0 < c_ncli (pushed hw c)) as Hp by (destruct Hh as (_ & ? & _); cbn; lia).
  kcall mycpu_ok by (done || by apply Ho). kcall getcpu_ok by apply Hc.
  kcall popcli_ok by (done || by apply Ho). by rewrite hw_pop_push.
Qed.
End Equations.

(** ** Waiting for a lock *)

(** The lock word after a failed [xchg]. *)
Definition spun (lk : lockid) (k : kstate) : kstate :=
  set_k_hw (set_hw_locks (fn_upd lk (set_l_locked 1 (hw_locks (k_hw k) lk))
                            (hw_locks (k_hw k))) (k_hw k)) k.

(** Processor [i] spins on [lk] while the others do [fs], one after each failed
    attempt, and finds the lock free in state [k']. *)
Inductive spins (lk : lockid) (i : nat) (c : cpu)
    : list (kstate -> kstate) -> kstate -> kstate -> Prop :=
| spins_now k :
    here (k_hw k) i c -> l_locked (hw_locks (k_hw k) lk) = 0 ->
    spins lk i c [] k k
| spins_more k f fs k' :
    here (k_hw k) i c -> l_locked (hw_locks (k_hw k) lk) <> 0 ->
    spins lk i c fs (f (spun lk k)) k' -> spins lk i c (f :: fs) k k'.

Definition spin_body (lk : lockid) (_ : unit) : K (unit + unit) :=
  old <- xchg_locked lk ;;
  if negb (old =? 0)
  then others_run (fun _ => Diverge) ;; ret (inl tt)
  else ret (inr tt).

Lemma spin_loop lk i c fs k k' o n :
  spins lk i c fs k k' -> (length fs < n)%nat ->
  here (k_hw k') i c /\ l_locked (hw_locks (k_hw k') lk) = 0 /\
  loop_ n (spin_body lk) tt (mk_world k (fs ++ o)) = Ok tt (mk_world (spun lk k') o).
Proof.
  intros H. revert n. induction H as [k Hh Hl|k f fs k' Hh Hl _ IH]; intros [|n] Hn;
    cbn [length] in Hn; try lia; destruct k as [hw pt km bc fs' cn].
  - split; [done|]. split; [done|]. cbn [loop_ app]. unfold spin_body, xchg_locked, getlock, setlock.
    krun. cbn in Hl. rewrite Hl. done.
  - destruct (IH n) as (H1 & H2 & H3); [lia|]. split; [done|]. split; [done|].
    cbn [loop_ app]. unfold spin_body, xchg_locked, getlock, setlock. krun.
    cbn in Hl. destruct (Z.eqb_spec (l_locked (hw_locks hw lk)) 0); [done|]. cbn [negb].
    exact H3.
Qed.

(** ** Properties *)

(** C22: a critical section.  Entering a free lock makes the processor its
    holder with interrupts off; leaving it gives the lock back and restores
    the interrupt flag the processor had before, at every nesting depth. *)
Theorem critical_section pt km bc fs cn o hw i c lk :
  here hw i c -> lock_free hw lk ->
  exists hw1 hw2,
    acquire lk (W hw pt km bc fs cn o) = Ok tt (W hw1 pt km bc fs cn o) /\
    lock_mine hw1 lk i /\ irq_off hw1 /\ here hw1 i (pushed hw c) /\
    release lk (W hw1 pt km bc fs cn o) = Ok tt (W hw2 pt km bc fs cn o) /\
    hw_eflags hw2 = hw_eflags hw /\ hw_locks hw2 = hw_locks hw /\
    here hw2 i (touched hw c).
Proof.
  intros Hh Hf. exists (hw_acquire lk i hw), (touch i hw).
  split; [eapply acquire_ok; [done|apply Hf]|]. split; [apply lock_mine_acquire|].
  pose proof (here_acquire hw lk i c Hh) as Ha.
  split; [apply Ha; destruct Hh as (_ & ? & _); cbn; lia|]. split; [done|].
  split; [by eapply release_acquired|]. split; [done|]. split; [done|].
  by apply here_touch.
Qed.

(** [acquire] waits.  As long as another processor holds the lock it
    spins; once the others have brought the machine to a state where the lock
    is free, it takes the lock, and nothing else of that state changes. *)
Theorem acquire_spins hw pt km bc fs cn i c lk others k' o :
  here hw i c -> l_cpu (hw_locks hw lk) <> Some i ->
  spins lk i (pushed hw c) others (mk_k (hw_push i hw) pt km bc fs cn) k' ->
  acquire lk (W hw pt km bc fs cn (others ++ o)) =
  Ok tt (mk_world (set_k_hw (set_hw_locks
    (fn_upd lk (mk_spinlock 1 (l_name (hw_locks (k_hw k') lk)) (Some i))
       (hw_locks (k_hw k'))) (k_hw k')) k') o).
Proof.
  intros Hh Hc Hs. unfold acquire. kcall pushcli_ok by apply Hh.
  pose proof (here_push hw i c Hh) as Hp.
  kcall holding_ok by done. rewrite (touch_id _ _ _ Hp) by (destruct Hh as (_ & ? & _); cbn; lia).
  change (hw_locks (hw_push i hw)) with (hw_locks hw).
  rewrite (bool_decide_eq_false_2 (l_cpu _ = _)) by done. rewrite andb_false_r.
  destruct (spin_loop lk i _ others _ k' o (S (length (others ++ o))) Hs) as (Hh' & Hl & Hrun).
  { rewrite length_app. lia. }
  unfold wait_loop. cbn [w_others]. erewrite bind_ok by exact Hrun.
  destruct k' as [hw' pt' km' bc' fs' cn']. unfold spun. cbn [k_hw set_k_hw k_pt k_km k_bc k_fs k_cn].
  assert (irq_off hw') as Hoff by (apply Hh'; destruct Hh as (_ & ? & _); cbn; lia).
  kcall mycpu_ok by (exact Hoff || apply Hh').
  unfold getlock, setlock. krun. do 2 f_equal. unfold set_k_hw, set_hw_locks. cbn.
  f_equal. f_equal. apply functional_extensionality. intros l. unfold fn_upd.
  by destruct (decide (l = lk)), (decide (lk = lk)).
Qed.

(** Locks are not recursive and only their holder releases them: a
    second [acquire] by the holder panics, and so does [release] by a
    processor that does not hold the lock. *)
Theorem lock_misuse_panics pt km bc fs cn o hw i c lk :
  here hw i c ->
  (lock_mine hw lk i -> acquire lk (W hw pt km bc fs cn o) = Panic "acquire") /\
  (l_locked (hw_locks hw lk) = 0 \/ l_cpu (hw_locks hw lk) <> Some i ->
   release lk (W hw pt km bc fs cn o) = Panic "release").
Proof.
  intros Hh. split.
  - intros [Hl Hc]. unfold acquire. kcall pushcli_ok by apply Hh.
    kcall holding_ok by (by apply here_push). change (hw_locks (hw_push i hw)) with (hw_locks hw).
    by rewrite Hl, Hc, bool_decide_eq_true_2.
  - intros H. unfold release. kcall holding_ok by done.
    destruct H as [->|H]; [done|]. by rewrite (bool_decide_eq_false_2 _ H), andb_false_r.
Qed.

(** ** The properties at work *)

Lemma here_run : here hw_run 0 c_run.
Proof. split; [|done]. split_and!; try done. vm_compute. lia. Qed.

Lemma critical_section_witness :
  exists hw1 hw2,
    acquire LTicks (W hw_run pt0 km0 bc0 fs0 cn0 []) = Ok tt (W hw1 pt0 km0 bc0 fs0 cn0 []) /\
    release LTicks (W hw1 pt0 km0 bc0 fs0 cn0 []) = Ok tt (W hw2 pt0 km0 bc0 fs0 cn0 []) /\
    hw_eflags hw2 = FL_IF.
Proof.
  destruct (critical_section pt0 km0 bc0 fs0 cn0 [] hw_run 0 c_run LTicks here_run)
    as (hw1 & hw2 & E1 & _ & _ & _ & E2 & E3 & _); [done|].
  exists hw1, hw2. split; [exact E1|]. split; [exact E2|exact E3].
Defined.

(** Processor 1 holds the lock and lets go of it on its first turn. *)
Definition hw_busy : hwstate :=
  set_hw_locks (fn_upd LTicks (mk_spinlock 1 "time" (Some 1%nat)) (hw_locks hw_run)) hw_run.
Definition let_go (k : kstate) : kstate :=
  set_k_hw (set_hw_locks (fn_upd LTicks (mk_spinlock 0 "time" None) (hw_locks (k_hw k)))
    (k_hw k)) k.

Lemma acquire_spins_witness :
  exists k, acquire LTicks (W hw_busy pt0 km0 bc0 fs0 cn0 [let_go]) = Ok tt (mk_world k []).
Proof.
  eexists. eapply (acquire_spins hw_busy pt0 km0 bc0 fs0 cn0 0 c_run LTicks [let_go]).
  - exact here_run.
  - cbn. discriminate.
  - eapply spins_more; [apply (here_push hw_busy 0 c_run here_run)|discriminate|].
    apply spins_now; [apply (here_push hw_busy 0 c_run here_run)|reflexivity].
Defined.

Lemma lock_misuse_panics_witness :
  release LTicks (W hw_run pt0 km0 bc0 fs0 cn0 []) = Panic "release".
Proof.
  apply (lock_misuse_panics pt0 km0 bc0 fs0 cn0 [] hw_run 0 c_run LTicks here_run).
  left. reflexivity.
Defined.
