(* ===== verification/Str.v ===== *)
(** * The memory and string routines of the kernel

    [string.c].  The routines that move memory work on the byte-addressed
    memory [mem]; the routines on C strings take a string argument as the
    function from an offset to the byte found there, and return the bytes
    they leave in their destination. *)

From stdpp Require Import prelude list.
From Stdlib Require Import ZArith Lia.
From S2P Require Import Prelude.

Definition mem := Z -> Z.

(** ** Bytes and little-endian words *)

Definition store8 (m : mem) (a v : Z) : mem := fn_upd a (u8 v) m.

Definition load32 (m : mem) (a : Z) : Z :=
  m a + 2 ^ 8 * m (a + 1) + 2 ^ 16 * m (a + 2) + 2 ^ 24 * m (a + 3).

Definition store32 (m : mem) (a v : Z) : mem :=
  store8 (store8 (store8 (store8 m a v) (a + 1) (Z.shiftr v 8))
    (a + 2) (Z.shiftr v 16)) (a + 3) (Z.shiftr v 24).

(** [rep stosb] and [rep stosl] of x86.h. *)
Fixpoint stosb (m : mem) (addr data : Z) (cnt : nat) : mem :=
  match cnt with
  | O => m
  | S n => stosb (store8 m addr data) (addr + 1) data n
  end.

Fixpoint stosl (m : mem) (addr data : Z) (cnt : nat) : mem :=
  match cnt with
  | O => m
  | S n => stosl (store32 m addr data) (addr + 4) data n
  end.

(** ** string.c *)

Definition memset (m : mem) (dst c n : Z) : mem :=
  if (Z.rem (s32 dst) 4 =? 0) && (n mod 4 =? 0) then
    let c := Z.land c 0xFF in
    stosl m dst
      (Z.lor (Z.lor (Z.lor (Z.shiftl c 24) (Z.shiftl c 16)) (Z.shiftl c 8)) c)
      (Z.to_nat (n / 4))
  else stosb m dst c (Z.to_nat n).

Fixpoint memcmp (m : mem) (s1 s2 : Z) (n : nat) : Z :=
  match n with
  | O => 0
  | S n' => if m s1 =? m s2 then memcmp m (s1 + 1) (s2 + 1) n'
            else m s1 - m s2
  end.

(** [while(n-- > 0) *d++ = *s++;] *)
Fixpoint copy_fwd (m : mem) (d s : Z) (n : nat) : mem :=
  match n with
  | O => m
  | S n' => copy_fwd (fn_upd d (m s) m) (d + 1) (s + 1) n'
  end.

(** [while(n-- > 0) *--d = *--s;] *)
Fixpoint copy_bwd (m : mem) (d s : Z) (n : nat) : mem :=
  match n with
  | O => m
  | S n' => copy_bwd (fn_upd (d - 1) (m (s - 1)) m) (d - 1) (s - 1) n'
  end.

Definition memmove (m : mem) (dst src n : Z) : mem :=
  if (src <? dst) && (dst <? src + n)
  then copy_bwd m (dst + n) (src + n) (Z.to_nat n)
  else copy_fwd m dst src (Z.to_nat n).

Definition memcpy (m : mem) (dst src n : Z) : mem := memmove m dst src n.

(** A C string argument: the byte at each offset. *)
Definition cstr := nat -> Z.
Definition from (l : list Z) : cstr := fun i => default 0 (l !! i).
Definition skip (k : nat) (p : cstr) : cstr := fun i => p (k + i)%nat.

Fixpoint strncmp (p q : cstr) (n : nat) : Z :=
  match n with
  | O => 0
  | S n' => if negb (p 0%nat =? 0) && (p 0%nat =? q 0%nat)
            then strncmp (skip 1 p) (skip 1 q) n'
            else u8 (p 0%nat) - u8 (q 0%nat)
  end.

(** The [n] bytes [strncpy] stores. *)
Fixpoint strncpy (t : cstr) (n : nat) : list Z :=
  match n with
  | O => []
  | S n' => if t 0%nat =? 0 then 0 :: replicate n' 0
            else t 0%nat :: strncpy (skip 1 t) n'
  end.

(** The bytes [safestrcpy(s, t, n)] stores from the start of [s]; the rest
    of [s] keeps its contents. *)
Fixpoint safestrcpy_bytes (t : cstr) (n : nat) : list Z :=
  match n with
  | O => []
  | S O => [0]
  | S n' => if t 0%nat =? 0 then [0; 0]
            else t 0%nat :: safestrcpy_bytes (skip 1 t) n'
  end.

Definition safestrcpy (s : list Z) (t : cstr) (n : nat) : list Z :=
  let b := safestrcpy_bytes t n in b ++ drop (length b) s.

(** [for(n = 0; s[n]; n++) ;] looking at [fuel] bytes at most. *)
Fixpoint strlen (s : cstr) (fuel : nat) : option nat :=
  match fuel with
  | O => None
  | S f => if s 0%nat =? 0 then Some O
           else S <$> strlen (skip 1 s) f
  end.

(** ** Structures in byte arrays

    The buffers of the kernel are byte arrays; the code overlays structures on
    them.  [sub_] reads and [splice] writes a range of bytes, [le32] and
    [enc32], [le16] and [enc16] are the fields' encodings. *)

Definition sub_ (off len : nat) (l : list Z) : list Z := take len (drop off l).
Definition splice (off : nat) (bs l : list Z) : list Z :=
  take off l ++ bs ++ drop (off + length bs) l.

Definition enc32 (v : Z) : list Z :=
  [u8 v; u8 (Z.shiftr v 8); u8 (Z.shiftr v 16); u8 (Z.shiftr v 24)].
Definition le32 (off : nat) (l : list Z) : Z := load32 (fun a => from l (Z.to_nat a)) (Z.of_nat off).
Definition enc16 (v : Z) : list Z := [u8 v; u8 (Z.shiftr v 8)].
Definition le16 (off : nat) (l : list Z) : Z := from l off + 2 ^ 8 * from l (S off).

(** ** Loads and stores *)

Lemma store8_eq m a v : store8 m a v a = u8 v.
Proof. apply fn_upd_eq. Qed.
Lemma store8_ne m a v b : b <> a -> store8 m a v b = m b.
Proof. apply fn_upd_ne. Qed.

Lemma store32_byte m a v b :
  store32 m a v b =
  if decide (a <= b < a + 4) then u8 (Z.shiftr v (8 * (b - a))) else m b.
Proof.
  unfold store32. destruct (decide (a <= b < a + 4)) as [H|H].
  - assert (b = a \/ b = a + 1 \/ b = a + 2 \/ b = a + 3) as [->|[->|[->| ->]]] by lia;
    rewrite ?store8_eq, ?store8_ne, ?store8_eq by lia; repeat f_equal; try lia.
    by rewrite Z.sub_diag, Z.shiftr_0_r.
  - rewrite !store8_ne by lia. done.
Qed.

Lemma load32_store32_eq m a v : 0 <= v < W32 -> load32 (store32 m a v) a = v.
Proof.
  intros Hv. unfold load32, W32 in *. rewrite !store32_byte, !decide_True by lia.
  replace (8 * (a - a)) with 0 by lia. replace (8 * (a + 1 - a)) with 8 by lia.
  replace (8 * (a + 2 - a)) with 16 by lia. replace (8 * (a + 3 - a)) with 24 by lia.
  rewrite !Z.shiftr_div_pow2 by lia. unfold u8.
  change (2 ^ 0) with 1. change (2 ^ 8) with 256. change (2 ^ 16) with 65536.
  change (2 ^ 24) with 16777216. rewrite Z.div_1_r.
  Z.div_mod_to_equations. lia.
Qed.

Lemma load32_ext m m' a :
  (forall b, a <= b < a + 4 -> m b = m' b) -> load32 m a = load32 m' a.
Proof. intros H. unfold load32. rewrite !H by lia. done. Qed.

Lemma load32_store32_ne m a v b :
  b + 4 <= a \/ a + 4 <= b -> load32 (store32 m a v) b = load32 m b.
Proof.
  intros H. apply load32_ext. intros x Hx. rewrite store32_byte, decide_False; [done|lia].
Qed.

(** Fields of structures: what is written is read back, and other bytes stay. *)
Lemma length_splice off bs l :
  (off + length bs <= length l)%nat -> length (splice off bs l) = length l.
Proof. intros H. unfold splice. rewrite !length_app, length_take, length_drop. lia. Qed.

Lemma from_splice off bs l i :
  (off + length bs <= length l)%nat ->
  from (splice off bs l) i =
  if decide (off <= i < off + length bs)%nat then from bs (i - off)%nat else from l i.
Proof.
  intros H. unfold from, splice.
  destruct (decide (i < off)%nat) as [H1|H1].
  - rewrite decide_False by lia. rewrite lookup_app_l by (rewrite length_take; lia).
    by rewrite lookup_take_lt.
  - rewrite lookup_app_r by (rewrite length_take; lia). rewrite length_take.
    replace (i - off `min` length l)%nat with (i - off)%nat by lia.
    destruct (decide _) as [H2|H2].
    + rewrite lookup_app_l by lia. done.
    + rewrite lookup_app_r by lia. rewrite lookup_drop. do 2 f_equal. lia.
Qed.

Lemma le32_bytes off l :
  le32 off l = from l off + 2 ^ 8 * from l (off + 1)%nat + 2 ^ 16 * from l (off + 2)%nat +
               2 ^ 24 * from l (off + 3)%nat.
Proof.
  unfold le32, load32. rewrite Nat2Z.id.
  replace (Z.to_nat (Z.of_nat off + 1)) with (off + 1)%nat by lia.
  replace (Z.to_nat (Z.of_nat off + 2)) with (off + 2)%nat by lia.
  by replace (Z.to_nat (Z.of_nat off + 3)) with (off + 3)%nat by lia.
Qed.

Lemma le32_splice_eq off v l :
  (off + 4 <= length l)%nat -> le32 off (splice off (enc32 v) l) = u32 v.
Proof.
  intros H. rewrite le32_bytes, !from_splice by (cbn [length enc32]; lia).
  rewrite !decide_True by (cbn [length enc32]; lia).
  replace (off - off)%nat with 0%nat by lia. replace (off + 1 - off)%nat with 1%nat by lia.
  replace (off + 2 - off)%nat with 2%nat by lia. replace (off + 3 - off)%nat with 3%nat by lia.
  cbn [from lookup list_lookup enc32 default from_option id].
  rewrite !Z.shiftr_div_pow2 by lia. unfold u8, u32, W32.
  change (2 ^ 8) with 256. change (2 ^ 16) with 65536. change (2 ^ 24) with 16777216.
  Z.div_mod_to_equations. lia.
Qed.

Lemma le32_splice_ne off off' bs l :
  (off + length bs <= length l)%nat -> (off' + 4 <= off \/ off + length bs <= off')%nat ->
  le32 off' (splice off bs l) = le32 off' l.
Proof.
  intros H Hd. rewrite !le32_bytes, !from_splice by done. by rewrite !decide_False by lia.
Qed.

Lemma s32_u32 v : -2147483648 <= v < 2147483648 -> s32 (u32 v) = v.
Proof. intros H. unfold s32, u32, W32. Z.div_mod_to_equations. lia. Qed.

(** A field of what was written. *)
Lemma from_in_splice off bs l i :
  (off + length bs <= length l)%nat -> (i < length bs)%nat -> from (splice off bs l) (off + i)%nat = from bs i.
Proof. intros H Hi. rewrite from_splice, decide_True by lia. f_equal. lia. Qed.

Lemma le32_in_splice off bs l i :
  (off + length bs <= length l)%nat -> (i + 4 <= length bs)%nat -> le32 (off + i)%nat (splice off bs l) = le32 i bs.
Proof.
  intros H Hi. rewrite !le32_bytes, <- !Nat.add_assoc. by rewrite !from_in_splice by lia.
Qed.

Lemma le16_in_splice off bs l i :
  (off + length bs <= length l)%nat -> (i + 2 <= length bs)%nat -> le16 (off + i)%nat (splice off bs l) = le16 i bs.
Proof.
  intros H Hi. unfold le16. rewrite <- Nat.add_succ_r. by rewrite !from_in_splice by lia.
Qed.

Lemma from_app_r (l1 l2 : list Z) i : from (l1 ++ l2) (length l1 + i)%nat = from l2 i.
Proof. unfold from. rewrite lookup_app_r by lia. do 2 f_equal. lia. Qed.

Lemma le32_app_r l1 l2 i : le32 (length l1 + i)%nat (l1 ++ l2) = le32 i l2.
Proof. rewrite !le32_bytes, <- !Nat.add_assoc. by rewrite !from_app_r. Qed.

Lemma le32_enc v l : 0 <= v < W32 -> le32 0 (enc32 v ++ l) = v.
Proof.
  intros Hv. rewrite le32_bytes. cbn [from app enc32 lookup list_lookup Nat.add default from_option id].
  rewrite !Z.shiftr_div_pow2 by lia. unfold u8, W32 in *.
  change (2 ^ 8) with 256. change (2 ^ 16) with 65536. change (2 ^ 24) with 16777216.
  Z.div_mod_to_equations. lia.
Qed.

Lemma le16_enc v l : -32768 <= v < 32768 -> s16 (le16 0 (enc16 v ++ l)) = v.
Proof.
  intros Hv. unfold le16. cbn [from app enc16 lookup list_lookup default from_option id].
  rewrite !Z.shiftr_div_pow2 by lia. unfold u8, s16.
  change (2 ^ 8) with 256. Z.div_mod_to_equations. lia.
Qed.

(** The [i]-th word of an array. *)
Lemma le32_array (l : list Z) i x :
  Forall (fun a => 0 <= a < W32) l -> l !! i = Some x -> le32 (4 * i)%nat (mjoin (enc32 <$> l)) = x.
Proof.
  revert i. induction l as [|a l IH]; intros i Hl Hi; [done|]. apply Forall_cons in Hl as [Ha Hl].
  cbn [fmap list_fmap mjoin list_join]. destruct i as [|i]; cbn in Hi.
  - simplify_eq. by apply le32_enc.
  - replace (4 * S i)%nat with (length (enc32 a) + 4 * i)%nat by (cbn [length enc32]; lia).
    rewrite le32_app_r. by apply IH.
Qed.

Lemma length_array (l : list Z) : length (mjoin (enc32 <$> l)) = (4 * length l)%nat.
Proof.
  induction l as [|a l IH]; [done|]. change (mjoin (enc32 <$> a :: l)) with (enc32 a ++ mjoin (enc32 <$> l)).
  rewrite length_app, IH. cbn [length enc32]. lia.
Qed.

(** Every cell holds a byte. *)
Definition bytes_ok (m : mem) : Prop := forall a, 0 <= m a < 256.

Lemma load32_range m a : bytes_ok m -> 0 <= load32 m a < W32.
Proof.
  intros H. unfold load32, W32. pose proof (H a). pose proof (H (a + 1)).
  pose proof (H (a + 2)). pose proof (H (a + 3)). lia.
Qed.

Lemma bytes_ok_store8 m a v : bytes_ok m -> bytes_ok (store8 m a v).
Proof.
  intros H b. unfold store8, fn_upd. destruct (decide _); [apply u8_range|apply H].
Qed.
Lemma bytes_ok_store32 m a v : bytes_ok m -> bytes_ok (store32 m a v).
Proof. intros H. unfold store32. by repeat apply bytes_ok_store8. Qed.

Lemma stosb_byte m addr data cnt b :
  stosb m addr data cnt b =
  if decide (addr <= b < addr + Z.of_nat cnt) then u8 data else m b.
Proof.
  revert m addr. induction cnt as [|n IH]; intros m addr; cbn [stosb].
  - rewrite decide_False by lia. done.
  - rewrite IH. unfold store8, fn_upd.
    repeat destruct (decide _); try lia; done.
Qed.

Lemma stosl_byte m addr data cnt b :
  stosl m addr data cnt b =
  if decide (addr <= b < addr + 4 * Z.of_nat cnt)
  then u8 (Z.shiftr data (8 * ((b - addr) mod 4))) else m b.
Proof.
  revert m addr. induction cnt as [|n IH]; intros m addr; cbn [stosl].
  - rewrite decide_False by lia. done.
  - rewrite IH, store32_byte.
    destruct (decide (addr + 4 <= b < addr + 4 + 4 * Z.of_nat n)).
    + rewrite decide_True by lia.
      replace (b - addr) with (b - (addr + 4) + 1 * 4) by lia.
      by rewrite Z.mod_add by lia.
    + destruct (decide (addr <= b < addr + 4)).
      * rewrite decide_True by lia. by rewrite (Z.mod_small (b - addr)) by lia.
      * rewrite decide_False by lia. done.
Qed.

(** The word that repeats a byte four times has that byte everywhere. *)
Lemma u8_shiftr_word c k :
  0 <= c < 256 -> 0 <= k < 4 ->
  u8 (Z.shiftr (Z.lor (Z.lor (Z.lor (Z.shiftl c 24) (Z.shiftl c 16))
                 (Z.shiftl c 8)) c) (8 * k)) = c.
Proof.
  intros Hc Hk.
  assert (Hhi : forall n, 8 <= n -> Z.testbit c n = false).
  { intros n Hn. destruct (Z.eq_dec c 0) as [->|]; [apply Z.bits_0|].
    apply Z.bits_above_log2; [lia|]. apply Z.log2_lt_pow2; [lia|].
    apply Z.lt_le_trans with (2 ^ 8); [lia|]. apply Z.pow_le_mono_r; lia. }
  unfold u8. change 256 with (2 ^ 8). apply Z.bits_inj'. intros n Hn.
  destruct (Z.lt_ge_cases n 8) as [Hlt|Hge].
  2: { rewrite Z.mod_pow2_bits_high by lia. symmetry. by apply Hhi. }
  rewrite Z.mod_pow2_bits_low by lia. rewrite Z.shiftr_spec by lia.
  rewrite !Z.lor_spec, !Z.shiftl_spec by lia.
  assert (k = 0 \/ k = 1 \/ k = 2 \/ k = 3) as [->|[->|[->| ->]]] by lia;
  repeat match goal with |- context [Z.testbit c ?e] =>
    lazymatch e with n => fail | _ =>
      first [ rewrite (Z.testbit_neg_r c e) by lia
            | rewrite (Hhi e) by lia
            | replace e with n by lia ] end end;
  by rewrite ?orb_false_r, ?orb_false_l.
Qed.

Lemma copy_fwd_byte m d s n a :
  d <= s \/ s + Z.of_nat n <= d ->
  copy_fwd m d s n a =
  if decide (d <= a < d + Z.of_nat n) then m (s + (a - d)) else m a.
Proof.
  revert m d s. induction n as [|n IH]; intros m d s Hd; cbn [copy_fwd].
  - rewrite decide_False by lia. done.
  - rewrite IH by lia. destruct (decide (d + 1 <= a < d + 1 + Z.of_nat n)).
    + rewrite fn_upd_ne, decide_True by lia. f_equal. lia.
    + unfold fn_upd. destruct (decide (a = d)) as [->|].
      * rewrite decide_True by lia. f_equal. lia.
      * rewrite decide_False by lia. done.
Qed.

Lemma copy_bwd_byte m d s n a :
  s <= d ->
  copy_bwd m d s n a =
  if decide (d - Z.of_nat n <= a < d) then m (s - (d - a)) else m a.
Proof.
  revert m d s. induction n as [|n IH]; intros m d s Hd; cbn [copy_bwd].
  - rewrite decide_False by lia. done.
  - rewrite IH by lia. destruct (decide (d - 1 - Z.of_nat n <= a < d - 1)).
    + rewrite fn_upd_ne, decide_True by lia. f_equal. lia.
    + unfold fn_upd. destruct (decide (a = d - 1)) as [->|].
      * rewrite decide_True by lia. f_equal. lia.
      * rewrite decide_False by lia. done.
Qed.

(** ** What the routines do *)

(** [memset] fills exactly the range it is given, whichever of its two
    loops it takes (by words when the destination and the length are
    multiples of four, by bytes otherwise). *)
Lemma memset_byte m dst c n a :
  0 <= n ->
  memset m dst c n a = if decide (dst <= a < dst + n) then u8 c else m a.
Proof.
  intros Hn. unfold memset. destruct (_ && _) eqn:E.
  - apply andb_true_iff in E as [_ E]. apply Z.eqb_eq in E.
    rewrite stosl_byte. rewrite Z2Nat.id by (apply Z.div_pos; lia).
    replace (4 * (n / 4)) with n by (Z.div_mod_to_equations; lia).
    destruct (decide _); [|done].
    replace (Z.land c 0xFF) with (u8 c) by (symmetry; apply (land_ones_mod c 8); lia).
    rewrite u8_shiftr_word; [done|apply u8_range|apply Z.mod_pos_bound; lia].
  - rewrite stosb_byte, Z2Nat.id by lia. done.
Qed.

Lemma memmove_byte m dst src n a :
  0 <= n ->
  memmove m dst src n a =
  if decide (dst <= a < dst + n) then m (src + (a - dst)) else m a.
Proof.
  intros Hn. unfold memmove. destruct (_ && _) eqn:E.
  - zb. rewrite copy_bwd_byte, Z2Nat.id by lia.
    replace (dst + n - n) with dst by lia. destruct (decide _); [|done]. f_equal. lia.
  - rewrite copy_fwd_byte, Z2Nat.id by
      (apply andb_false_iff in E as [E|E]; zb; lia). done.
Qed.

Lemma bytes_ok_memset m d c n : 0 <= n -> bytes_ok m -> bytes_ok (memset m d c n).
Proof.
  intros Hn H a. rewrite memset_byte by done. destruct (decide _); [apply u8_range|apply H].
Qed.
Lemma bytes_ok_memmove m d s n : 0 <= n -> bytes_ok m -> bytes_ok (memmove m d s n).
Proof. intros Hn H a. rewrite memmove_byte by done. destruct (decide _); apply H. Qed.

(** A word of a range cleared by [memset]. *)
Lemma load32_memset m dst c n a :
  0 <= n -> dst <= a -> a + 4 <= dst + n ->
  load32 (memset m dst c n) a = u8 c * 16843009.
Proof.
  intros. unfold load32. rewrite !memset_byte, !decide_True by lia. lia.
Qed.

Lemma load32_memset_ne m dst c n a :
  0 <= n -> a + 4 <= dst \/ dst + n <= a ->
  load32 (memset m dst c n) a = load32 m a.
Proof.
  intros Hn H. apply load32_ext. intros b Hb. rewrite memset_byte, decide_False by lia. done.
Qed.

(** ** C strings *)

Definition chars_ok (p : cstr) : Prop := forall i, 0 <= p i < 256.

Lemma chars_ok_skip k p : chars_ok p -> chars_ok (skip k p).
Proof. intros H i. apply H. Qed.

(** Two strings agree on their first [n] bytes, up to and including the
    first NUL. *)
Definition agree (p q : cstr) (n : nat) : Prop :=
  forall i, (i < n)%nat -> (forall j, (j < i)%nat -> p j <> 0) -> p i = q i.

Lemma strncmp_zero p q n :
  chars_ok p -> chars_ok q -> strncmp p q n = 0 <-> agree p q n.
Proof.
  revert p q. induction n as [|n IH]; intros p q Hp Hq; cbn [strncmp].
  { split; [|done]. intros _ i Hi. lia. }
  pose proof (Hp 0%nat). pose proof (Hq 0%nat).
  destruct (Z.eqb_spec (p 0%nat) (q 0%nat)) as [E|E].
  - destruct (Z.eqb_spec (p 0%nat) 0) as [E0|E0]; cbn [negb andb].
    + rewrite E. split; [|lia]. intros _ [|i] Hi Hj; [done|].
      exfalso. by apply (Hj 0%nat); [lia|].
    + rewrite IH by by apply chars_ok_skip. split.
      * intros Ha [|i] Hi Hj; [done|]. apply (Ha i); [lia|].
        intros j Hji. apply Hj. lia.
      * intros Ha i Hi Hj. apply (Ha (S i)); [lia|].
        intros [|j] Hji; [done|]. apply Hj. lia.
  - rewrite andb_false_r. rewrite !u8_small by done. split; [lia|].
    intros Ha. exfalso. apply E. apply Ha; [lia|]. lia.
Qed.

Lemma length_strncpy t n : length (strncpy t n) = n.
Proof.
  revert t. induction n as [|n IH]; intros t; cbn [strncpy]; [done|].
  destruct (_ =? _); cbn [length]; [by rewrite length_replicate|by rewrite IH].
Qed.

(** Byte [i] of the result: the byte of the source, or NUL once the source
    has ended. *)
Lemma strncpy_byte t n i :
  (i < n)%nat ->
  ((forall j, (j <= i)%nat -> t j <> 0) /\ strncpy t n !! i = Some (t i)) \/
  ((exists j, (j <= i)%nat /\ t j = 0) /\ strncpy t n !! i = Some 0).
Proof.
  revert t i. induction n as [|n IH]; intros t i Hi; [lia|]. cbn [strncpy].
  destruct (Z.eqb_spec (t 0%nat) 0) as [E|E].
  - right. split; [exists 0%nat; split; [lia|done]|].
    destruct i as [|i]; [done|]. apply lookup_replicate_2. lia.
  - destruct i as [|i].
    + left. split; [|done]. intros j Hj. by replace j with 0%nat by lia.
    + destruct (IH (skip 1 t) i ltac:(lia)) as [[H1 H2]|[(j & Hj & H1) H2]].
      * left. split; [|done]. intros [|j] Hj; [done|]. apply (H1 j). lia.
      * right. split; [|done]. exists (S j). split; [lia|done].
Qed.

Lemma safestrcpy_bytes_length t n : (length (safestrcpy_bytes t n) <= n)%nat.
Proof.
  revert t. induction n as [|n IH]; intros t; [done|]. cbn [safestrcpy_bytes].
  destruct n; [done|]. destruct (_ =? _); cbn [length]; [lia|].
  specialize (IH (skip 1 t)). cbn [safestrcpy_bytes] in *. lia.
Qed.

Lemma from_lookup l i : (i < length l)%nat -> l !! i = Some (from l i).
Proof.
  intros H. unfold from. destruct (l !! i) eqn:E; [done|].
  apply lookup_ge_None in E. lia.
Qed.

(** The bytes of [strncpy], read back as a string. *)
Lemma from_strncpy t n i :
  (i < n)%nat ->
  ((forall j, (j <= i)%nat -> t j <> 0) /\ from (strncpy t n) i = t i) \/
  ((exists j, (j <= i)%nat /\ t j = 0) /\ from (strncpy t n) i = 0).
Proof.
  intros Hi. unfold from. destruct (strncpy_byte t n i Hi) as [[H ->]|[H ->]]; auto.
Qed.

Lemma agree_strncpy p t n : agree p (from (strncpy t n)) n <-> agree p t n.
Proof.
  split; intros H i Hi Hj.
  - destruct (from_strncpy t n i Hi) as [[_ <-]|[(j & Hji & Ej) Ei]]; [by apply H|].
    destruct (decide (j = i)) as [->|]; [by rewrite (H i), Ei, Ej|].
    exfalso. apply (Hj j); [lia|]. rewrite (H j) by (lia || (intros; apply Hj; lia)).
    destruct (from_strncpy t n j) as [[_ ->]|[_ ->]]; [lia|done|done].
  - destruct (from_strncpy t n i Hi) as [[_ ->]|[(j & Hji & Ej) ->]]; [by apply H|].
    destruct (decide (j = i)) as [->|]; [rewrite <- Ej; by apply H|].
    exfalso. apply (Hj j); [lia|]. rewrite <- Ej. apply H; [lia|]. intros; apply Hj; lia.
Qed.

(** [safestrcpy] stores a prefix of the source, without NULs, and then a
    NUL. *)
Lemma safestrcpy_prefix t n :
  exists k, (k < S n)%nat /\ (forall j, (j < k)%nat -> t j <> 0) /\
    take (S k) (safestrcpy_bytes t (S n)) = (t <$> seq 0 k) ++ [0] /\
    (k = n \/ t k = 0).
Proof.
  revert t. induction n as [|n IH]; intros t.
  { exists 0%nat. split_and!; try done; [lia|lia|by left]. }
  change (safestrcpy_bytes t (S (S n))) with
    (if t 0%nat =? 0 then [0; 0] else t 0%nat :: safestrcpy_bytes (skip 1 t) (S n)).
  destruct (Z.eqb_spec (t 0%nat) 0) as [E|E].
  { exists 0%nat. split_and!; try done; [lia|lia|by right]. }
  destruct (IH (skip 1 t)) as (k & Hk & Hn & Ht & Hl). exists (S k).
  split; [lia|]. split.
  { intros [|j] Hj; [done|]. apply (Hn j). lia. }
  split.
  - cbn [take]. rewrite Ht. cbn [seq]. rewrite fmap_cons, <- fmap_S_seq, <- list_fmap_compose. done.
  - destruct Hl as [->|Hl]; [by left|by right].
Qed.

(** ** Properties *)

(** [memset] sets exactly the bytes of its range, on both of its paths,
    and [memmove] copies exactly its range, as the source was before the call,
    also when source and destination overlap. *)
Theorem memset_memmove_exact m dst src c n a :
  0 <= n ->
  memset m dst c n a = (if decide (dst <= a < dst + n) then u8 c else m a) /\
  memmove m dst src n a = (if decide (dst <= a < dst + n) then m (src + (a - dst)) else m a).
Proof. intros Hn. split; [by apply memset_byte|by apply memmove_byte]. Qed.

(** Names survive a directory entry.  A name stored with [strncpy] in a
    field of [n] bytes is found again by [strncmp] exactly under the names that
    agree with it up to their NUL or to [n] bytes; in particular under
    itself. *)
Theorem strncmp_strncpy p t n :
  chars_ok p -> chars_ok t ->
  (strncmp p (from (strncpy t n)) n = 0 <-> agree p t n) /\
  strncmp t (from (strncpy t n)) n = 0.
Proof.
  intros Hp Ht.
  assert (chars_ok (from (strncpy t n))) as Hc.
  { intros i. destruct (decide (i < n)%nat).
    - destruct (from_strncpy t n i) as [[_ ->]|[_ ->]]; [done|apply Ht|lia].
    - unfold from. rewrite lookup_ge_None_2 by (rewrite length_strncpy; lia). cbn. lia. }
  rewrite !strncmp_zero, !agree_strncpy by done. split; [done|]. by intros i _ _.
Qed.

(** [safestrcpy] always terminates the string within [n] bytes: the
    result is the longest prefix of the source that leaves room for the NUL,
    followed by a NUL, and no byte beyond [n] is written. *)
Theorem safestrcpy_terminates s t n :
  (S n <= length s)%nat ->
  exists k, (k <= n)%nat /\ (k = n \/ t k = 0) /\ (forall j, (j < k)%nat -> t j <> 0) /\
    take (S k) (safestrcpy s t (S n)) = (t <$> seq 0 k) ++ [0] /\
    drop (S n) (safestrcpy s t (S n)) = drop (S n) s /\
    length (safestrcpy s t (S n)) = length s.
Proof.
  intros Hs. destruct (safestrcpy_prefix t n) as (k & Hk & Hn & Ht & Hl).
  pose proof (safestrcpy_bytes_length t (S n)) as Hlen.
  assert (S k <= length (safestrcpy_bytes t (S n)))%nat as Hkl.
  { apply (f_equal length) in Ht. rewrite length_take, length_app, length_fmap, length_seq in Ht.
    change (length [0]) with 1%nat in Ht. lia. }
  exists k. split; [lia|]. split; [done|]. split; [done|]. unfold safestrcpy. split.
  - by rewrite take_app_le by done.
  - rewrite drop_app_ge by done. rewrite drop_drop. rewrite length_app, length_drop.
    split; [|lia]. f_equal. lia.
Qed.

Lemma memset_memmove_exact_witness :
  memset (fun a => a) 10 7 4 13 = 7 /\ memmove (fun a => a) 10 8 4 13 = 11.
Proof. apply (memset_memmove_exact (fun a => a) 10 8 7 4 13); lia. Defined.

Lemma strncmp_strncpy_witness :
  strncmp (from [97; 98]) (from (strncpy (from [97; 98]) 14)) 14 = 0.
Proof.
  assert (chars_ok (from [97; 98])) as H.
  { intros [|[|i]]; vm_compute; [split; [discriminate|reflexivity]..|].
    destruct i; vm_compute; (split; [discriminate|reflexivity]). }
  apply (strncmp_strncpy (from [97; 98]) (from [97; 98]) 14 H H).
Defined.

Lemma safestrcpy_terminates_witness :
  exists k, (k <= 3)%nat /\ take (S k) (safestrcpy (replicate 6 9) (from [97; 98]) 4)
    = (from [97; 98] <$> seq 0 k) ++ [0].
Proof.
  destruct (safestrcpy_terminates (replicate 6 9) (from [97; 98]) 3) as (k & Hk & _ & _ & E & _).
  - cbn. lia.
  - exists k. split; [exact Hk|exact E].
Defined.
