(* ===== verification/Kalloc.v ===== *)
(** * The physical page allocator

    [kalloc.c]: the free pages form a list linked through their own first
    words, in the byte-addressed memory [km_mem].  The theorems relate the
    linked list to a Rocq list of distinct, aligned page addresses: the
    allocator is a stack of pages. *)

From stdpp Require Import prelude list gmap strings.
From Stdlib Require Import ZArith Lia.
From S2P Require Import Prelude State Boot Spinlock Str.
#[local] Open Scope c_scope.

(** ** Memory accesses of the kernel *)

Definition load_word (a : Z) : K Z := getkm (fun km => load32 (km_mem km) a).
Definition store_word (a v : Z) : K unit :=
  updkm (fun km => set_km_mem (store32 (km_mem km) a v) km).
Definition k_memset (d c n : Z) : K unit :=
  updkm (fun km => set_km_mem (memset (km_mem km) d c n) km).
Definition k_memmove (d s n : Z) : K unit :=
  updkm (fun km => set_km_mem (memmove (km_mem km) d s n) km).

(** ** kalloc.c *)

(** Free the page of physical memory pointed at by [v]. *)
Definition kfree (v : Z) : K unit :=
  e <- getkm km_end ;;
  if negb (v mod PGSIZE =? 0) || (v <? e) || (PHYSTOP <=? V2P v)
  then panic "kfree" else
  k_memset v 1 PGSIZE ;;
  ul <- getkm km_use_lock ;;
  when ul (acquire LKmem) ;;
  fl <- getkm km_freelist ;;
  store_word v fl ;;
  updkm (set_km_freelist v) ;;
  ul <- getkm km_use_lock ;;
  when ul (release LKmem).

(** Allocate one page; 0 if the memory cannot be allocated. *)
Definition kalloc : K Z :=
  ul <- getkm km_use_lock ;;
  when ul (acquire LKmem) ;;
  r <- getkm km_freelist ;;
  (if negb (r =? 0)
   then n <- load_word r ;; updkm (set_km_freelist n)
   else ret tt) ;;
  ul <- getkm km_use_lock ;;
  when ul (release LKmem) ;;
  ret r.

(** The loop frees the pages between [p] and [vend]; it takes as many turns
    as whole pages fit. *)
Definition freerange (vstart vend : Z) : K unit :=
  let p := PGROUNDUP vstart in
  loop_ (S (Z.to_nat ((vend - p) / PGSIZE))) (fun p =>
    if p + PGSIZE <=? vend
    then kfree p ;; ret (inl (p + PGSIZE))
    else ret (inr tt)) p.

Definition kinit1 (vstart vend : Z) : K unit :=
  initlock LKmem "kmem" ;;
  updkm (set_km_use_lock false) ;;
  freerange vstart vend.

Definition kinit2 (vstart vend : Z) : K unit :=
  freerange vstart vend ;;
  updkm (set_km_use_lock true).

(** ** The free list as a stack of pages *)

(** The list of pages linked from [h]. *)
Fixpoint linked (m : mem) (h : Z) (l : list Z) : Prop :=
  match l with
  | [] => h = 0
  | p :: l' => h = p /\ linked m (load32 m p) l'
  end.

(** A page [kfree] accepts. *)
Definition page_ok (km : kmstate) (p : Z) : Prop :=
  p mod PGSIZE = 0 /\ km_end km <= p /\ V2P p < PHYSTOP /\ KERNBASE < p < W32.

(** The allocator holds exactly the free pages [l], last freed first. *)
Record kmem_inv (km : kmstate) (l : list Z) : Prop := {
  ki_linked : linked (km_mem km) (km_freelist km) l;
  ki_nodup : NoDup l;
  ki_pages : Forall (page_ok km) l;
  ki_bytes : bytes_ok (km_mem km);
}.

Lemma PGSIZE_val : PGSIZE = 4096. Proof. done. Qed.

Lemma page_disjoint p q :
  p mod PGSIZE = 0 -> q mod PGSIZE = 0 -> p <> q ->
  p + PGSIZE <= q \/ q + PGSIZE <= p.
Proof. unfold PGSIZE. intros. Z.div_mod_to_equations. lia. Qed.

Lemma linked_ext m m' h l :
  (forall p, p ∈ l -> load32 m p = load32 m' p) ->
  linked m h l -> linked m' h l.
Proof.
  revert h. induction l as [|p l IH]; intros h Hm; cbn [linked]; [done|].
  intros [-> Hl]. split; [done|]. rewrite <- Hm by set_solver.
  apply IH; [set_solver|done].
Qed.

(** What a routine that takes the allocator's lock when [b] is set leaves
    of the processor's state. *)
Definition lk_touch (b : bool) (i : nat) (hw : hwstate) : hwstate :=
  if b then touch i hw else hw.

Lemma lk_touch_idem b i hw : lk_touch b i (lk_touch b i hw) = lk_touch b i hw.
Proof. destruct b; [apply touch_touch|done]. Qed.

Definition lk_touched (b : bool) (hw : hwstate) (c : cpu) : cpu :=
  if b then touched hw c else c.

Lemma here_lk_touch b i hw c :
  here hw i c -> here (lk_touch b i hw) i (lk_touched b hw c).
Proof. destruct b; [apply here_touch|done]. Qed.

Lemma locks_lk_touch b i hw : hw_locks (lk_touch b i hw) = hw_locks hw.
Proof. by destruct b. Qed.

(** The allocator can be entered: its lock is free if it is used. *)
Definition kmem_ready (hw : hwstate) (km : kmstate) : Prop :=
  km_use_lock km = true -> lock_free hw LKmem.

Section Equations.
Context (pt : ptstate) (bc : bcstate) (fs : fsstate)
  (cn : cnstate) (o : list (kstate -> kstate)).

Lemma when_acquire hw km i c (b : bool) lk :
  here hw i c -> (b = true -> lock_free hw lk) ->
  when b (acquire lk) (W hw pt km bc fs cn o) =
  Ok tt (W (if b then hw_acquire lk i hw else hw) pt km bc fs cn o).
Proof.
  intros Hh Hf. destruct b; [|done]. eapply acquire_ok; [done|by apply Hf].
Qed.

Lemma when_release hw km i c (b : bool) lk :
  here hw i c -> (b = true -> lock_free hw lk) ->
  when b (release lk) (W (if b then hw_acquire lk i hw else hw) pt km bc fs cn o) =
  Ok tt (W (lk_touch b i hw) pt km bc fs cn o).
Proof.
  intros Hh Hf. destruct b; [|done]. eapply release_acquired; [done|by apply Hf].
Qed.

Lemma kalloc_eq hw km i c :
  here hw i c -> kmem_ready hw km ->
  kalloc (W hw pt km bc fs cn o) =
  Ok (km_freelist km)
     (W (lk_touch (km_use_lock km) i hw) pt
        (if km_freelist km =? 0 then km
         else set_km_freelist (load32 (km_mem km) (km_freelist km)) km)
        bc fs cn o).
Proof.
  intros Hh Hr. unfold kalloc, load_word. krun.
  kcall when_acquire by (done || apply Hh). krun.
  destruct (km_freelist km =? 0); cbn [negb]; krun.
  - kcall when_release by (done || apply Hh). done.
  - kcall when_release by (done || apply Hh). done.
Qed.

(** The memory after [kfree(v)]: junk in the page, and the link. *)
Definition freed (km : kmstate) (v : Z) : kmstate :=
  km |> set_km_mem (store32 (memset (km_mem km) v 1 PGSIZE) v (km_freelist km))
     |> set_km_freelist v.

Lemma kfree_eq hw km i c v :
  here hw i c -> kmem_ready hw km -> page_ok km v ->
  kfree v (W hw pt km bc fs cn o) =
  Ok tt (W (lk_touch (km_use_lock km) i hw) pt (freed km v) bc fs cn o).
Proof.
  intros Hh Hr (Ha & He & Hp & Hk). unfold kfree, store_word, k_memset. krun.
  rewrite Ha. destruct (Z.ltb_spec v (km_end km)); [lia|].
  destruct (Z.leb_spec PHYSTOP (V2P v)); [lia|]. cbn [Z.eqb negb orb]. krun.
  kcall when_acquire by (done || apply Hh). krun.
  erewrite when_release by (done || apply Hh). done.
Qed.
End Equations.

Lemma page_pos km v : page_ok km v -> 0 < v.
Proof. intros (_ & _ & _ & H). unfold KERNBASE in H. lia. Qed.

Lemma kmem_inv_alloc km p l :
  kmem_inv km (p :: l) ->
  km_freelist km = p /\ page_ok km p /\ p ∉ l /\
  kmem_inv (set_km_freelist (load32 (km_mem km) p) km) l.
Proof.
  intros [[Hp Hl] Hn Hf Hb]. apply NoDup_cons in Hn as [Hn Hn'].
  inversion Hf as [|?? Hp1 Hf' Heq]; subst. split; [done|]. split; [done|].
  split; [done|]. by constructor.
Qed.

Lemma freed_byte km v a :
  km_mem (freed km v) a =
  if decide (v <= a < v + 4) then u8 (Z.shiftr (km_freelist km) (8 * (a - v)))
  else if decide (v <= a < v + PGSIZE) then 1 else km_mem km a.
Proof.
  cbn. rewrite store32_byte. destruct (decide _); [done|].
  rewrite memset_byte by done. done.
Qed.

Lemma linked_head m h l km :
  linked m h l -> Forall (page_ok km) l -> 0 <= h < W32.
Proof.
  destruct l as [|p l]; cbn [linked]; [by intros ->|].
  intros [-> _] Hf. inversion Hf as [|?? (_ & _ & _ & H) _]; subst.
  unfold KERNBASE in H. lia.
Qed.

Lemma kmem_inv_free km v l :
  kmem_inv km l -> page_ok km v -> v ∉ l -> kmem_inv (freed km v) (v :: l).
Proof.
  intros [Hl Hn Hf Hb] Hv Hnin.
  assert (Hh : 0 <= km_freelist km < W32) by (by eapply linked_head).
  constructor.
  - cbn [linked]. split; [done|]. cbn [km_mem freed set_km_mem set_km_freelist].
    rewrite load32_store32_eq by done.
    eapply linked_ext; [|done]. intros p Hp.
    rewrite Forall_forall in Hf. pose proof (Hf p Hp) as (Hp1 & _).
    destruct Hv as (Hv & _). assert (p <> v) as Hne by (intros ->; done).
    pose proof (page_disjoint p v Hp1 Hv Hne) as Hd. rewrite PGSIZE_val in Hd.
    rewrite load32_store32_ne, load32_memset_ne by (rewrite ?PGSIZE_val; lia). done.
  - by apply NoDup_cons.
  - by constructor.
  - cbn. apply bytes_ok_store32, bytes_ok_memset; done.
Qed.

(** The allocator's state after the page [ks] was taken from it. *)
Definition km_pop (km : kmstate) (ks : Z) : kmstate :=
  set_km_freelist (load32 (km_mem km) ks) km.

(** Writing into a page that is in use does not disturb the free list. *)
Lemma kmem_inv_store km l p a v :
  kmem_inv km l -> p mod PGSIZE = 0 -> p ∉ l -> p <= a -> a + 4 <= p + PGSIZE ->
  kmem_inv (set_km_mem (store32 (km_mem km) a v) km) l.
Proof.
  intros [Hl Hn Hf Hb] Hp Hnin Ha1 Ha2. constructor; [|done|done|by apply bytes_ok_store32].
  eapply linked_ext; [|exact Hl]. intros q Hq. rewrite Forall_forall in Hf.
  pose proof (Hf q Hq) as (Hq1 & _).
  destruct (page_disjoint p q Hp Hq1) as [Hd|Hd]; [intros ->; done| |];
    rewrite PGSIZE_val in *; cbn; by rewrite load32_store32_ne by lia.
Qed.

Lemma kmem_inv_memset km l p c :
  kmem_inv km l -> p mod PGSIZE = 0 -> p ∉ l ->
  kmem_inv (set_km_mem (memset (km_mem km) p c PGSIZE) km) l.
Proof.
  intros [Hl Hn Hf Hb] Hp Hnin. constructor; [|done|done|by apply bytes_ok_memset].
  eapply linked_ext; [|exact Hl]. intros q Hq. rewrite Forall_forall in Hf.
  pose proof (Hf q Hq) as (Hq1 & _).
  destruct (page_disjoint p q Hp Hq1) as [Hd|Hd]; [intros ->; done| |];
    rewrite PGSIZE_val in *; cbn; by rewrite load32_memset_ne by lia.
Qed.

(** Words of other pages are untouched by [kfree]. *)
Lemma freed_load32 km v a :
  a + 4 <= v \/ v + PGSIZE <= a -> load32 (km_mem (freed km v)) a = load32 (km_mem km) a.
Proof.
  intros H. cbn. rewrite PGSIZE_val in *.
  rewrite load32_store32_ne, load32_memset_ne by (rewrite ?PGSIZE_val; lia). done.
Qed.

(** ** Initialisation: the pages of a range *)

Fixpoint pages_up (p : Z) (n : nat) : list Z :=
  match n with O => [] | S n' => p :: pages_up (p + PGSIZE) n' end.

Lemma pages_up_elem p n q :
  q ∈ pages_up p n <-> exists k, (k < n)%nat /\ q = p + Z.of_nat k * PGSIZE.
Proof.
  revert p. induction n as [|n IH]; intros p; cbn [pages_up].
  - split; [set_solver|]. intros (k & Hk & _). lia.
  - rewrite elem_of_cons, IH. split.
    + intros [->|(k & Hk & ->)]; [exists 0%nat; split; lia|exists (S k); split; lia].
    + intros ([|k] & Hk & ->); [left; lia|right; exists k; split; lia].
Qed.

Section Init.
Context (pt : ptstate) (bc : bcstate) (fs : fsstate)
  (cn : cnstate) (o : list (kstate -> kstate)).

(** The loop of [freerange] from page [p], when [n] whole pages fit. *)
Lemma free_loop hw km i c l p vend n :
  here hw i c -> kmem_ready hw km -> kmem_inv km l ->
  n = Z.to_nat ((vend - p) / PGSIZE) -> p <= vend ->
  Forall (page_ok km) (pages_up p n) -> (forall q, q ∈ pages_up p n -> q ∉ l) ->
  exists hw' km',
    loop_ (S n) (fun p =>
      if p + PGSIZE <=? vend then kfree p ;; ret (inl (p + PGSIZE))
      else ret (inr tt)) p (W hw pt km bc fs cn o) =
      Ok tt (W hw' pt km' bc fs cn o) /\
    kmem_inv km' (reverse (pages_up p n) ++ l) /\
    hw' = (if decide (n = O) then hw else lk_touch (km_use_lock km) i hw) /\
    km_use_lock km' = km_use_lock km /\ km_end km' = km_end km.
Proof.
  revert hw km c l p. induction n as [|n IH]; intros hw km c l p Hh Hr Hi Hn Hle Hp Hd.
  - exists hw, km. cbn [loop_]. unfold PGSIZE in *.
    destruct (Z.leb_spec (p + 4096) vend).
    { exfalso. apply (f_equal Z.of_nat) in Hn. rewrite Z2Nat.id in Hn;
      Z.div_mod_to_equations; lia. }
    by krun.
  - change (pages_up p (S n)) with (p :: pages_up (p + PGSIZE) n) in *.
    inversion Hp as [|?? Hp1 Hp2]; subst.
    assert (p + PGSIZE <= vend) as Hfit.
    { unfold PGSIZE in *. apply (f_equal Z.of_nat) in Hn. rewrite Z2Nat.id in Hn;
      Z.div_mod_to_equations; lia. }
    assert (n = Z.to_nat ((vend - (p + PGSIZE)) / PGSIZE)) as Hn'.
    { unfold PGSIZE in *. apply (f_equal Z.of_nat) in Hn. rewrite Z2Nat.id in Hn;
      Z.div_mod_to_equations; lia. }
    cbn [loop_]. destruct (Z.leb_spec (p + PGSIZE) vend); [|lia]. krun.
    kcall kfree_eq by done. krun.
    assert (p ∉ l) as Hnp by (apply Hd; set_solver).
    assert (p ∉ pages_up (p + PGSIZE) n) as Hnp'.
    { rewrite pages_up_elem. intros (k & _ & Hk). unfold PGSIZE in Hk. lia. }
    destruct (IH (lk_touch (km_use_lock km) i hw) (freed km p)
      (lk_touched (km_use_lock km) hw c) (p :: l) (p + PGSIZE))
      as (hw' & km' & Hrun & Hinv & Hhw & Hul & He).
    { by apply here_lk_touch. }
    { unfold kmem_ready, lock_free. by rewrite locks_lk_touch. }
    { by apply kmem_inv_free. }
    { done. }
    { lia. }
    { done. }
    { intros q Hq Hin. apply elem_of_cons in Hin as [->|Hin]; [done|].
      revert Hin. apply Hd. set_solver. }
    exists hw', km'. split; [exact Hrun|]. split.
    { rewrite reverse_cons. rewrite <- app_assoc. exact Hinv. }
    split; [|done]. rewrite Hhw. cbn. destruct (decide _); [done|].
    by rewrite lk_touch_idem.
Qed.
End Init.

(** ** Properties *)

(** Every page from [PGROUNDUP vstart] that fits below [vend]. *)
Definition range_pages (vstart vend : Z) : list Z :=
  pages_up (PGROUNDUP vstart) (Z.to_nat ((vend - PGROUNDUP vstart) / PGSIZE)).

(** C6: the allocator refines a stack of pages.  [kalloc] takes the page freed
    last, or returns 0 exactly when there is none, and touches neither memory
    nor the other free pages; the page it returns is aligned, lies in physical
    memory above the kernel, and is not free any more. *)
Theorem kalloc_refines pt bc fs cn o hw km i c l :
  here hw i c -> kmem_ready hw km -> kmem_inv km l ->
  exists km',
    kalloc (W hw pt km bc fs cn o) =
      Ok (default 0 (head l)) (W (lk_touch (km_use_lock km) i hw) pt km' bc fs cn o) /\
    kmem_inv km' (tail l) /\ km_mem km' = km_mem km /\
    forall p, head l = Some p -> page_ok km p /\ p <> 0 /\ p ∉ tail l.
Proof.
  intros Hh Hr Hi. erewrite kalloc_eq by done. destruct l as [|p l].
  - exists km. pose proof (ki_linked _ _ Hi) as E. cbn in E. rewrite E. done.
  - destruct (kmem_inv_alloc _ _ _ Hi) as (-> & Hp & Hn & Hi').
    pose proof (page_pos _ _ Hp). destruct (Z.eqb_spec p 0); [lia|].
    eexists. split; [done|]. split; [done|]. split; [done|].
    intros q [= <-]. split; [done|]. split; [lia|done].
Qed.

(** C21: [kfree] of a page that is not free pushes it: the free pages are the
    page and the ones before, every byte of other pages is unchanged, and the
    freed page holds junk after its link. *)
Theorem kfree_refines pt bc fs cn o hw km i c l v :
  here hw i c -> kmem_ready hw km -> kmem_inv km l -> page_ok km v -> v ∉ l ->
  exists km',
    kfree v (W hw pt km bc fs cn o) =
      Ok tt (W (lk_touch (km_use_lock km) i hw) pt km' bc fs cn o) /\
    kmem_inv km' (v :: l) /\
    (forall a, ~ v <= a < v + PGSIZE -> km_mem km' a = km_mem km a) /\
    (forall a, v + 4 <= a < v + PGSIZE -> km_mem km' a = 1).
Proof.
  intros Hh Hr Hi Hv Hn. exists (freed km v). split; [by eapply kfree_eq|].
  split; [by apply kmem_inv_free|]. split; intros a Ha; rewrite freed_byte.
  - unfold PGSIZE in *. destruct (decide _); [lia|]. by destruct (decide _); [lia|].
  - destruct (decide _); [lia|]. by destruct (decide _); [|lia].
Qed.

(** [kfree] panics on an address that is not page aligned, lies below the
    end of the kernel or beyond physical memory, whatever the state. *)
Theorem kfree_bad_address v w :
  v mod PGSIZE <> 0 \/ v < km_end (k_km (w_k w)) \/ PHYSTOP <= V2P v ->
  kfree v w = Panic "kfree".
Proof.
  intros H. unfold kfree, getkm, getk. rewrite bind_gets.
  destruct (Z.eqb_spec (v mod PGSIZE) 0), (Z.ltb_spec v (km_end (k_km (w_k w)))),
    (Z.leb_spec PHYSTOP (V2P v)); cbn; (done || lia).
Qed.

(** [freerange] makes exactly the whole pages between its two addresses
    free: afterwards the allocator holds them, highest first, on top of the
    pages it had. *)
Theorem freerange_frees pt bc fs cn o hw km i c l vstart vend :
  here hw i c -> kmem_ready hw km -> kmem_inv km l ->
  PGROUNDUP vstart <= vend ->
  Forall (page_ok km) (range_pages vstart vend) ->
  (forall q, q ∈ range_pages vstart vend -> q ∉ l) ->
  exists hw' km',
    freerange vstart vend (W hw pt km bc fs cn o) = Ok tt (W hw' pt km' bc fs cn o) /\
    kmem_inv km' (reverse (range_pages vstart vend) ++ l).
Proof.
  intros Hh Hr Hi Hle Hp Hd.
  destruct (free_loop pt bc fs cn o hw km i c l (PGROUNDUP vstart) vend _ Hh Hr Hi
    eq_refl Hle Hp Hd) as (hw' & km' & Hrun & Hinv & _).
  exists hw', km'. split; [|done]. exact Hrun.
Qed.

(** ** The properties at work *)

Definition page_a : Z := 0x80115000.
Definition page_b : Z := 0x80116000.
Definition km_one : kmstate := freed km0 page_a.

Lemma km0_inv : kmem_inv km0 [].
Proof. constructor; try done. constructor. Qed.
Lemma page_a_ok : page_ok km0 page_a.
Proof. split_and!; vm_compute; done. Qed.
Lemma page_b_ok : page_ok km_one page_b.
Proof. split_and!; vm_compute; done. Qed.
Lemma km_one_inv : kmem_inv km_one [page_a].
Proof. apply kmem_inv_free; [apply km0_inv|apply page_a_ok|set_solver]. Qed.
Lemma ready_run km : kmem_ready hw_run km.
Proof. done. Qed.

Lemma kalloc_refines_witness :
  exists km', kalloc (W hw_run pt0 km_one bc0 fs0 cn0 []) =
    Ok page_a (W hw_run pt0 km' bc0 fs0 cn0 []) /\ kmem_inv km' [].
Proof.
  destruct (kalloc_refines pt0 bc0 fs0 cn0 [] hw_run km_one 0 c_run [page_a]
    here_run (ready_run _) km_one_inv) as (km' & E & Hi & _).
  exists km'. split; [exact E|exact Hi].
Defined.

Lemma kfree_refines_witness :
  exists km', kfree page_b (W hw_run pt0 km_one bc0 fs0 cn0 []) =
    Ok tt (W hw_run pt0 km' bc0 fs0 cn0 []) /\ kmem_inv km' [page_b; page_a].
Proof.
  destruct (kfree_refines pt0 bc0 fs0 cn0 [] hw_run km_one 0 c_run [page_a] page_b
    here_run (ready_run _) km_one_inv page_b_ok) as (km' & E & Hi & _).
  { vm_compute. intros H. inversion H as [|? ? ? H']. inversion H'. }
  exists km'. split; [exact E|exact Hi].
Defined.

Lemma kfree_bad_address_witness :
  kfree 0x80115004 (W hw_run pt0 km0 bc0 fs0 cn0 []) = Panic "kfree".
Proof. apply kfree_bad_address. left. vm_compute. discriminate. Defined.

Lemma freerange_frees_witness :
  exists hw' km', freerange 0x80114001 0x80117000 (W hw_run pt0 km0 bc0 fs0 cn0 []) =
    Ok tt (W hw' pt0 km' bc0 fs0 cn0 []) /\ kmem_inv km' [page_b; page_a].
Proof.
  apply (freerange_frees pt0 bc0 fs0 cn0 [] hw_run km0 0 c_run [] 0x80114001 0x80117000
    here_run (ready_run _) km0_inv).
  - vm_compute. discriminate.
  - change (range_pages _ _) with [page_a; page_b].
    repeat constructor; (apply page_a_ok || apply page_b_ok).
  - intros q _ H. inversion H.
Defined.
