(* ===== verification/Cprintf.v ===== *)
(** * Console output

    The output half of [console.c] ([printint], [cprintf], [cgaputc],
    [consputc]) and [uartputc] of [uart.c].  The serial port is the list of
    bytes sent to it, the CGA text memory a list of 16-bit cells and the
    hardware cursor its position. *)

From stdpp Require Import prelude list gmap strings.
From Stdlib Require Import ZArith Lia Ascii.
From S2P Require Import Prelude State Spinlock.
#[local] Open Scope c_scope.

(** The bytes of a string literal. *)
Definition s2b (s : string) : list Z :=
  map (fun c => Z.of_nat (Ascii.nat_of_ascii c)) (String.list_ascii_of_string s).

Definition BACKSPACE : Z := 0x100.

(** ** uart.c *)

Definition uartputc (c : Z) : K unit :=
  u <- getcn cn_uart ;;
  when u (updcn (fun s => set_cn_out (cn_out s ++ [u8 c]) s)).

(** ** console.c *)

Definition crt_set (pos v : Z) : K unit :=
  crt <- getcn cn_crt ;;
  if (0 <=? pos) && (pos <? Z.of_nat (length crt))
  then updcn (set_cn_crt (<[Z.to_nat pos := v]> crt))
  else fault "crt".

(** Scroll up by one line: rows 1 to 23 move up, the rest is cleared from
    the new cursor position to the end of row 23. *)
Definition crt_scroll (pos : Z) (crt : list Z) : list Z :=
  let crt1 := take 1840 (drop 80 crt) ++ drop 1840 crt in
  take (Z.to_nat pos) crt1 ++ replicate (Z.to_nat (1920 - pos)) 0
    ++ drop 1920 crt1.

Definition cgaputc (c : Z) : K unit :=
  pos <- getcn cn_pos ;;
  pos <- (if c =? 10 then ret (pos + (80 - pos mod 80))
          else if c =? BACKSPACE then ret (if 0 <? pos then pos - 1 else pos)
          else crt_set pos (Z.lor (Z.land c 0xff) 0x0700) ;; ret (pos + 1)) ;;
  if (pos <? 0) || (25 * 80 <? pos) then panic "pos under/overflow" else
  pos <- (if 24 <=? pos / 80
          then updcn (fun s => set_cn_crt (crt_scroll (pos - 80) (cn_crt s)) s) ;;
               ret (pos - 80)
          else ret pos) ;;
  updcn (set_cn_pos pos) ;;
  crt_set pos (Z.lor 32 0x0700).

Definition consputc (c : Z) : K unit :=
  p <- getcn cn_panicked ;;
  if (p : bool) then cli ;; (fun _ => Diverge) else
  (if c =? BACKSPACE then uartputc 8 ;; uartputc 32 ;; uartputc 8
   else uartputc c) ;;
  cgaputc c.

(** The digits of [x] in [base], last digit first; ten digits suffice for a
    32-bit number in base 10 or more. *)
Fixpoint digits_rev (fuel : nat) (tbl : list Z) (x base : Z) : list Z :=
  match fuel with
  | O => []
  | S f => default 0 (tbl !! Z.to_nat (x mod base)) ::
           (if x / base =? 0 then [] else digits_rev f tbl (x / base) base)
  end.

Definition digits : list Z := s2b "0123456789abcdef".

(** The characters [printint] prints. *)
Definition printint_chars (xx base : Z) (sign : bool) : list Z :=
  let neg := sign && (xx <? 0) in
  let x := if neg then u32 (- xx) else u32 xx in
  let buf := digits_rev 16 digits x base in
  reverse (if neg then buf ++ [45] else buf).

Fixpoint consputs (l : list Z) : K unit :=
  match l with [] => ret tt | c :: l' => consputc c ;; consputs l' end.

Definition printint (xx base : Z) (sign : bool) : K unit :=
  consputs (printint_chars xx base sign).

(** A variable argument: an integer, or a pointer to a string. *)
Inductive arg := AInt (v : Z) | AStr (s : option (list Z)).

Fixpoint cprintf_loop (fuel : nat) (fmt : list Z) (args : list arg) : K unit :=
  match fuel with
  | O => ret tt
  | S fuel =>
    match fmt with
    | [] => ret tt
    | c :: fmt =>
      if negb (c =? 37) then consputc c ;; cprintf_loop fuel fmt args else
      match fmt with
      | [] => ret tt
      | c :: fmt =>
        if c =? 100 then
          match args with
          | AInt v :: args => printint (s32 v) 10 true ;; cprintf_loop fuel fmt args
          | _ => fault "cprintf: argument"
          end
        else if (c =? 120) || (c =? 112) then
          match args with
          | AInt v :: args => printint (s32 v) 16 false ;; cprintf_loop fuel fmt args
          | _ => fault "cprintf: argument"
          end
        else if c =? 115 then
          match args with
          | AStr s :: args =>
              consputs (default (s2b "(null)") s) ;; cprintf_loop fuel fmt args
          | _ => fault "cprintf: argument"
          end
        else if c =? 37 then consputc 37 ;; cprintf_loop fuel fmt args
        else consputc 37 ;; consputc c ;; cprintf_loop fuel fmt args
      end
    end
  end.

(** Print to the console; only understands %d, %x, %p, %s. *)
Definition cprintf (fmt : list Z) (args : list arg) : K unit :=
  locking <- getcn cn_locking ;;
  when locking (acquire LCons) ;;
  cprintf_loop (S (length fmt)) fmt args ;;
  when locking (release LCons).

Definition nl : list Z := [10].
