(* ===== verification/Vm.v ===== *)
(** * Virtual memory

    [vm.c]: page directories and page tables are pages of the memory
    [km_mem], their entries 32-bit words at [base + 4 * index].  [loaduvm],
    which reads a file, is with [exec]. *)

From stdpp Require Import prelude list gmap strings.
From Stdlib Require Import ZArith Lia.
From S2P Require Import Prelude State Spinlock Str Kalloc Cprintf.
#[local] Open Scope c_scope.

(** ** Segments *)

Definition SEG (type base lim dpl : Z) : segdesc :=
  mk_segdesc (Z.land (Z.shiftr lim 12) 0xffff) (Z.land base 0xffff)
    (Z.land (Z.shiftr base 16) 0xff) type 1 dpl 1 (Z.shiftr lim 28) 0 0 1 1
    (Z.shiftr base 24).
Definition SEG16 (type base lim dpl : Z) : segdesc :=
  mk_segdesc (Z.land lim 0xffff) (Z.land base 0xffff)
    (Z.land (Z.shiftr base 16) 0xff) type 1 dpl 1 (Z.shiftr lim 16) 0 0 1 0
    (Z.shiftr base 24).

Definition set_gdt (c : nat) (n : Z) (s : segdesc) : K unit :=
  updcpu c (fun c => set_c_gdt (<[Z.to_nat n := s]> (c_gdt c)) c).

(** Set up a processor's kernel segment descriptors. *)
Definition seginit : K unit :=
  c <- cpuid ;;
  set_gdt c SEG_KCODE (SEG (Z.lor STA_X STA_R) 0 0xffffffff 0) ;;
  set_gdt c SEG_KDATA (SEG STA_W 0 0xffffffff 0) ;;
  set_gdt c SEG_UCODE (SEG (Z.lor STA_X STA_R) 0 0xffffffff DPL_USER) ;;
  set_gdt c SEG_UDATA (SEG STA_W 0 0xffffffff DPL_USER).

(** ** Walking and filling page tables *)

(** The address of the PTE for [va]; 0 if there is none and none can be
    made. *)
Definition walkpgdir (pgdir va : Z) (alloc : bool) : K Z :=
  let pde := pgdir + 4 * PDX va in
  v <- load_word pde ;;
  if negb (Z.land v PTE_P =? 0) then
    ret (P2V (PTE_ADDR v) + 4 * PTX va)
  else if negb alloc then ret 0 else
    pgtab <- kalloc ;;
    if pgtab =? 0 then ret 0 else
    k_memset pgtab 0 PGSIZE ;;
    store_word pde (Z.lor (Z.lor (Z.lor (V2P pgtab) PTE_P) PTE_W) PTE_U) ;;
    ret (pgtab + 4 * PTX va).

(** One turn of the loop of [mappages]. *)
Definition map_step (pgdir perm last : Z) (x : Z * Z) : K (Z * Z + Z) :=
  let '(a, pa) := x in
  pte <- walkpgdir pgdir a true ;;
  if pte =? 0 then ret (inr (-1)) else
  v <- load_word pte ;;
  if negb (Z.land v PTE_P =? 0) then panic "remap" else
  store_word pte (Z.lor (Z.lor pa perm) PTE_P) ;;
  if a =? last then ret (inr 0)
  else ret (inl (u32 (a + PGSIZE), u32 (pa + PGSIZE))).

(** Create PTEs for the pages of [va, va + size), which refer to physical
    addresses starting at [pa].  The loop visits each page once, so it takes
    as many turns as there are pages from the first to the last. *)
Definition mappages (pgdir va size pa perm : Z) : K Z :=
  let a := PGROUNDDOWN va in
  let last := PGROUNDDOWN (u32 (va + size - 1)) in
  loop_ (S (Z.to_nat (u32 (last - a) / PGSIZE)))
    (map_step pgdir perm last) (a, pa).

(** ** Growing and shrinking user memory *)

Definition dealloc_step (pgdir oldsz : Z) (a : Z) : K (Z + unit) :=
  if negb (a <? oldsz) then ret (inr tt) else
  pte <- walkpgdir pgdir a false ;;
  if pte =? 0 then
    ret (inl (u32 (u32 (PGADDR (PDX a + 1) 0 0 - PGSIZE) + PGSIZE)))
  else
    v <- load_word pte ;;
    (if negb (Z.land v PTE_P =? 0) then
       let pa := PTE_ADDR v in
       if pa =? 0 then panic "kfree" else
       kfree (P2V pa) ;; store_word pte 0
     else ret tt) ;;
    ret (inl (u32 (a + PGSIZE))).

(** Deallocate user pages to bring the process size from [oldsz] to
    [newsz]. *)
Definition deallocuvm (pgdir oldsz newsz : Z) : K Z :=
  if oldsz <=? newsz then ret oldsz else
  let a := PGROUNDUP newsz in
  loop_ (S (Z.to_nat ((oldsz - a + PGSIZE - 1) / PGSIZE)))
    (dealloc_step pgdir oldsz) a ;;
  ret newsz.

(** Free a page table and all the physical memory in the user part. *)
Definition freevm (pgdir : Z) : K unit :=
  if pgdir =? 0 then panic "freevm: no pgdir" else
  deallocuvm pgdir KERNBASE 0 ;;
  each_ NPDENTRIES 0 (fun i =>
    v <- load_word (pgdir + 4 * Z.of_nat i) ;;
    if negb (Z.land v PTE_P =? 0) then kfree (P2V (PTE_ADDR v)) else ret tt) ;;
  kfree pgdir.

Definition alloc_step (pgdir oldsz newsz : Z) (a : Z) : K (Z + Z) :=
  if negb (a <? newsz) then ret (inr newsz) else
  m <- kalloc ;;
  if m =? 0 then
    cprintf (s2b "allocuvm out of memory" ++ nl) [] ;;
    deallocuvm pgdir newsz oldsz ;;
    ret (inr 0)
  else
    k_memset m 0 PGSIZE ;;
    r <- mappages pgdir a PGSIZE (V2P m) (Z.lor PTE_W PTE_U) ;;
    if r <? 0 then
      cprintf (s2b "allocuvm out of memory (2)" ++ nl) [] ;;
      deallocuvm pgdir newsz oldsz ;;
      kfree m ;;
      ret (inr 0)
    else ret (inl (u32 (a + PGSIZE))).

(** Allocate page tables and physical memory to grow a process from
    [oldsz] to [newsz]; the new size, or 0 on error. *)
Definition allocuvm (pgdir oldsz newsz : Z) : K Z :=
  if KERNBASE <=? newsz then ret 0 else
  if newsz <? oldsz then ret oldsz else
  let a := PGROUNDUP oldsz in
  loop_ (S (Z.to_nat ((newsz - a + PGSIZE - 1) / PGSIZE)))
    (alloc_step pgdir oldsz newsz) a.

(** ** Kernel mappings *)

(** virt, phys_start, phys_end, perm; [data] is a symbol of kernel.ld. *)
Definition kmap (data : Z) : list (Z * Z * Z * Z) :=
  [ (KERNBASE, 0, EXTMEM, PTE_W);
    (KERNLINK, V2P KERNLINK, V2P data, 0);
    (data, V2P data, PHYSTOP, PTE_W);
    (DEVSPACE, DEVSPACE, 0, PTE_W) ].

(** Set up the kernel part of a page table. *)
Definition setupkvm : K Z :=
  pgdir <- kalloc ;;
  if pgdir =? 0 then ret 0 else
  k_memset pgdir 0 PGSIZE ;;
  if DEVSPACE <? P2V PHYSTOP then panic "PHYSTOP too high" else
  data <- getkm km_data ;;
  r <- for_ (length (kmap data)) 0 (fun k =>
    e <- at_ "kmap" (kmap data) k ;;
    let '(virt, phys_start, phys_end, perm) := e in
    r <- mappages pgdir virt (u32 (phys_end - phys_start)) phys_start perm ;;
    if r <? 0 then freevm pgdir ;; ret (Some 0) else ret None) ;;
  match r with Some z => ret z | None => ret pgdir end.

Definition lcr3 (v : Z) : K unit := updhw (set_hw_cr3 v).

Definition switchkvm : K unit :=
  kp <- getkm km_kpgdir ;; lcr3 (V2P kp).

Definition kvmalloc : K unit :=
  p <- setupkvm ;;
  updkm (set_km_kpgdir p) ;;
  switchkvm.

(** Switch TSS and page table to correspond to process [p]. *)
Definition switchuvm (p : option nat) : K unit :=
  match p with
  | None => panic "switchuvm: no process"
  | Some pi =>
    p <- getp pi ;;
    if p_kstack p =? 0 then panic "switchuvm: no kstack" else
    if p_pgdir p =? 0 then panic "switchuvm: no pgdir" else
    pushcli ;;
    i <- mycpu ;;
    ts_addr <- getkm km_ts ;;
    set_gdt i SEG_TSS
      (set_sd_s 0 (SEG16 STS_T32A (ts_addr i) (104 - 1) 0)) ;;
    updcpu i (fun c => set_c_ts (c_ts c |> set_ts_ss0 (SEG_KDATA * 8)
                |> set_ts_esp0 (u32 (p_kstack p + KSTACKSIZE))
                |> set_ts_iomb 0xFFFF) c) ;;
    updhw (set_hw_tr (SEG_TSS * 8)) ;;
    lcr3 (V2P (p_pgdir p)) ;;
    popcli
  end.

(** ** User pages *)

(** The bytes [l] are stored from address [a] on. *)
Fixpoint store_bytes (m : mem) (a : Z) (l : list Z) : mem :=
  match l with
  | [] => m
  | b :: l' => store_bytes (store8 m a b) (a + 1) l'
  end.
Definition k_write (a : Z) (l : list Z) : K unit :=
  updkm (fun km => set_km_mem (store_bytes (km_mem km) a l) km).

(** Load the initcode into address 0 of [pgdir]. *)
Definition inituvm (pgdir : Z) (init : list Z) : K unit :=
  if PGSIZE <=? Z.of_nat (length init) then panic "inituvm: more than a page" else
  m <- kalloc ;;
  k_memset m 0 PGSIZE ;;
  mappages pgdir 0 PGSIZE (V2P m) (Z.lor PTE_W PTE_U) ;;
  k_write m init.

(** Clear PTE_U on a page. *)
Definition clearpteu (pgdir uva : Z) : K unit :=
  pte <- walkpgdir pgdir uva false ;;
  if pte =? 0 then panic "clearpteu" else
  v <- load_word pte ;;
  store_word pte (Z.ldiff v PTE_U).

(** Copying one page of [copyuvm]: [src] in the parent's table, [dst] in
    the child's; [true] if memory ran out. *)
Definition copy_page (pgdir d src dst : Z) (free_on_fail : bool) : K bool :=
  pte <- walkpgdir pgdir src false ;;
  if pte =? 0 then panic "copyuvm: pte should exist" else
  v <- load_word pte ;;
  if Z.land v PTE_P =? 0 then panic "copyuvm: page not present" else
  let pa := PTE_ADDR v in
  let flags := PTE_FLAGS v in
  m <- kalloc ;;
  if m =? 0 then ret true else
  k_memmove m (P2V pa) PGSIZE ;;
  r <- mappages d dst PGSIZE (V2P m) flags ;;
  if r <? 0 then when free_on_fail (kfree m) ;; ret true
  else ret false.

(** Given a parent's page table, create a copy of it for a child, with the
    user stack number [slindex] as the child's first stack. *)
Definition copyuvm (pgdir sz slindex : Z) : K Z :=
  d <- setupkvm ;;
  if d =? 0 then ret 0 else
  bad <- loop_ (S (Z.to_nat ((sz + PGSIZE - 1) / PGSIZE))) (fun i =>
    if negb (i <? sz) then ret (inr false) else
    bad <- copy_page pgdir d i i true ;;
    if (bad : bool) then ret (inr true) else ret (inl (u32 (i + PGSIZE)))) 0 ;;
  bad <- (if (bad : bool) then ret true
          else copy_page pgdir d (u32 (STACKBOTTOM - slindex * 2 * PGSIZE - PGSIZE))
                 (STACKBOTTOM - PGSIZE) false) ;;
  if (bad : bool) then freevm d ;; ret 0 else ret d.

(** Map a user virtual address to a kernel address. *)
Definition uva2ka (pgdir uva : Z) : K Z :=
  pte <- walkpgdir pgdir uva false ;;
  if pte =? 0 then fault "uva2ka: null pte" else
  v <- load_word pte ;;
  if Z.land v PTE_P =? 0 then ret 0 else
  if Z.land v PTE_U =? 0 then ret 0 else
  ret (P2V (PTE_ADDR v)).

(** Copy the bytes [buf] to user address [va] in page table [pgdir]. *)
Definition copyout (pgdir va : Z) (buf : list Z) : K Z :=
  loop_ (S (length buf)) (fun '(va, buf) =>
    match buf with
    | [] => ret (inr 0)
    | _ =>
      let va0 := PGROUNDDOWN va in
      pa0 <- uva2ka pgdir va0 ;;
      if pa0 =? 0 then ret (inr (-1)) else
      let n := Z.min (PGSIZE - (va - va0)) (Z.of_nat (length buf)) in
      k_write (pa0 + (va - va0)) (take (Z.to_nat n) buf) ;;
      ret (inl (u32 (va0 + PGSIZE), drop (Z.to_nat n) buf))
    end) (va, buf).
