(* ===== verification/Pgtable.v ===== *)
(** * Page tables as address translation

    What the page tables of [vm.c] mean: [pte_of m pgdir va] is the entry the
    hardware finds for [va].  The theorems say what [walkpgdir], [mappages] and
    [copyout] do to this translation, to the pages the allocator holds and to
    the rest of memory. *)

From stdpp Require Import prelude list gmap strings.
From Stdlib Require Import ZArith Lia.
From S2P Require Import Prelude State Boot Spinlock Str Kalloc Cprintf Vm.
#[local] Open Scope c_scope.

(** ** The arithmetic of entries and addresses *)

Lemma PDX_div va : PDX va = (va / 4194304) mod 1024.
Proof.
  unfold PDX, PDXSHIFT. rewrite Z.shiftr_div_pow2 by lia.
  change 0x3FF with (2 ^ 10 - 1). by rewrite land_ones_mod by lia.
Qed.
Lemma PTX_div va : PTX va = (va / 4096) mod 1024.
Proof.
  unfold PTX, PTXSHIFT. rewrite Z.shiftr_div_pow2 by lia.
  change 0x3FF with (2 ^ 10 - 1). by rewrite land_ones_mod by lia.
Qed.
Lemma PDX_range va : 0 <= PDX va < 1024.
Proof. rewrite PDX_div. by apply Z.mod_pos_bound. Qed.
Lemma PTX_range va : 0 <= PTX va < 1024.
Proof. rewrite PTX_div. by apply Z.mod_pos_bound. Qed.

Lemma PGROUNDDOWN_mod a : PGROUNDDOWN a = a - a mod PGSIZE.
Proof. unfold PGROUNDDOWN. change PGSIZE with (2 ^ 12). by apply land_not_ones. Qed.
Lemma PTE_ADDR_mod e : PTE_ADDR e = e - e mod PGSIZE.
Proof. unfold PTE_ADDR. change 0xFFF with (2 ^ 12 - 1). by apply land_not_ones. Qed.

(** Two addresses have the same directory and table index exactly when they
    are on the same page. *)
Lemma same_page a b :
  0 <= a < W32 -> 0 <= b < W32 ->
  PDX a = PDX b /\ PTX a = PTX b <-> a / PGSIZE = b / PGSIZE.
Proof.
  unfold W32, PGSIZE. intros Ha Hb. rewrite !PDX_div, !PTX_div.
  split; [|intros E; split; Z.div_mod_to_equations; lia].
  intros [E1 E2]. Z.div_mod_to_equations. lia.
Qed.

(** An aligned address and flags do not overlap. *)
Lemma lor_flags pa f : pa mod PGSIZE = 0 -> 0 <= f < PGSIZE -> Z.lor pa f = pa + f.
Proof.
  intros Hp Hf. assert (Z.land pa f = 0) as H.
  { rewrite <- (Z.mod_small f PGSIZE Hf). change PGSIZE with (2 ^ 12) in *.
    rewrite <- Z.land_ones by lia. rewrite (Z.land_comm f), Z.land_assoc, Z.land_ones, Hp by lia.
    apply Z.land_0_l. }
  rewrite <- Z.lxor_lor by done. symmetry. by apply Z.add_nocarry_lxor.
Qed.

Definition present (e : Z) : bool := negb (Z.land e PTE_P =? 0).

Lemma present_odd e : present e = Z.odd e.
Proof.
  unfold present, PTE_P. change 1 with (Z.ones 1). rewrite Z.land_ones by lia.
  change (2 ^ 1) with 2. rewrite Zmod_odd. by destruct (Z.odd e).
Qed.

(** The entry for the frame [pa] with flags [perm]. *)
Definition entry (pa perm : Z) : Z := Z.lor (Z.lor pa perm) PTE_P.

Lemma lor_P_range f : 0 <= f < PGSIZE -> 0 <= Z.lor f PTE_P < PGSIZE.
Proof.
  intros H. change PGSIZE with (2 ^ 12) in *.
  assert (0 <= Z.lor f PTE_P) as Hn by (apply Z.lor_nonneg; unfold PTE_P; lia).
  split; [done|]. destruct (Z.eq_dec f 0) as [->|]; [done|].
  apply Z.log2_lt_pow2.
  - assert (Z.lor f PTE_P <> 0); [|lia]. intros E. apply Z.lor_eq_0_iff in E. lia.
  - rewrite Z.log2_lor by (unfold PTE_P; lia). apply Z.max_lub_lt; [apply Z.log2_lt_pow2; lia|done].
Qed.

Lemma entry_sum pa perm :
  pa mod PGSIZE = 0 -> 0 <= perm < PGSIZE -> entry pa perm = pa + Z.lor perm PTE_P.
Proof.
  intros Hp Hf. unfold entry. rewrite <- Z.lor_assoc. apply lor_flags; [done|].
  by apply lor_P_range.
Qed.

Lemma entry_present pa perm : present (entry pa perm) = true.
Proof.
  rewrite present_odd. unfold entry. rewrite <- Z.bit0_odd, Z.lor_spec. by rewrite orb_true_r.
Qed.

Lemma entry_addr pa perm :
  pa mod PGSIZE = 0 -> 0 <= perm < PGSIZE -> PTE_ADDR (entry pa perm) = pa.
Proof.
  intros Hp Hf. rewrite PTE_ADDR_mod, entry_sum by done.
  pose proof (lor_P_range perm Hf) as Hr. unfold PGSIZE in *. Z.div_mod_to_equations. lia.
Qed.

Lemma entry_range pa perm :
  pa mod PGSIZE = 0 -> 0 <= perm < PGSIZE -> 0 <= pa < W32 -> 0 <= entry pa perm < W32.
Proof.
  intros Hp Hf Ha. rewrite entry_sum by done. pose proof (lor_P_range perm Hf).
  unfold W32, PGSIZE in *. Z.div_mod_to_equations. lia.
Qed.

(** ** Translation *)

Definition pde_at (m : mem) (pgdir i : Z) : Z := load32 m (pgdir + 4 * i).
Definition table (e : Z) : Z := P2V (PTE_ADDR e).
Definition pte_addr (m : mem) (pgdir va : Z) : option Z :=
  let e := pde_at m pgdir (PDX va) in
  if present e then Some (table e + 4 * PTX va) else None.

(** The entry for [va], 0 if there is no table for it. *)
Definition pte_of (m : mem) (pgdir va : Z) : Z :=
  match pte_addr m pgdir va with Some a => load32 m a | None => 0 end.

(** A page directory: it and its tables are distinct pages of the kernel's
    that are not free. *)
Record pgdir_ok (km : kmstate) (l : list Z) (pgdir : Z) : Prop := {
  pg_dir : page_ok km pgdir /\ pgdir ∉ l;
  pg_tab : forall i, 0 <= i < 1024 -> present (pde_at (km_mem km) pgdir i) = true ->
    page_ok km (table (pde_at (km_mem km) pgdir i)) /\
    table (pde_at (km_mem km) pgdir i) ∉ l /\
    table (pde_at (km_mem km) pgdir i) <> pgdir;
  pg_inj : forall i j, 0 <= i < 1024 -> 0 <= j < 1024 ->
    present (pde_at (km_mem km) pgdir i) = true ->
    present (pde_at (km_mem km) pgdir j) = true ->
    table (pde_at (km_mem km) pgdir i) = table (pde_at (km_mem km) pgdir j) -> i = j;
}.

(** Nothing but the directory and its tables was written. *)
Definition vm_frame (m m' : mem) (pgdir : Z) : Prop :=
  forall a, ~ pgdir <= a < pgdir + PGSIZE ->
    (forall i, 0 <= i < 1024 -> present (pde_at m' pgdir i) = true ->
       ~ table (pde_at m' pgdir i) <= a < table (pde_at m' pgdir i) + PGSIZE) ->
    m' a = m a.

(** Tables are never taken away. *)
Definition vm_grows (m m' : mem) (pgdir : Z) : Prop :=
  forall i, 0 <= i < 1024 -> present (pde_at m pgdir i) = true ->
    pde_at m' pgdir i = pde_at m pgdir i.

(** ** Words of pages *)

(** A word of one page lies outside every other page. *)
Lemma page_word p q j :
  p mod PGSIZE = 0 -> q mod PGSIZE = 0 -> p <> q -> 0 <= j < 1024 ->
  q + 4 * j + 4 <= p \/ p + PGSIZE <= q + 4 * j.
Proof.
  intros Hp Hq Hne Hj. destruct (page_disjoint p q Hp Hq Hne); unfold PGSIZE in *; lia.
Qed.

Lemma page_inside q j : 0 <= j < 1024 -> q <= q + 4 * j /\ q + 4 * j + 4 <= q + PGSIZE.
Proof. unfold PGSIZE. lia. Qed.

Lemma page_ok_align km p : page_ok km p -> p mod PGSIZE = 0.
Proof. by intros (H & _). Qed.

Lemma V2P_page km p : page_ok km p -> V2P p = p - KERNBASE /\ V2P p mod PGSIZE = 0 /\ 0 <= V2P p < W32.
Proof.
  intros (Ha & _ & Hp & Hk). unfold V2P, KERNBASE in *. rewrite u32_small by (unfold W32 in *; lia).
  split; [done|]. unfold PGSIZE, W32 in *. split; [Z.div_mod_to_equations; lia|lia].
Qed.

Lemma P2V_V2P km p : page_ok km p -> P2V (V2P p) = p.
Proof.
  intros H. destruct (V2P_page km p H) as (-> & _). destruct H as (_ & _ & _ & Hk).
  unfold P2V. rewrite u32_small; unfold KERNBASE, W32 in *; lia.
Qed.

(** ** The directory entry of a new table *)

Definition new_pde (p : Z) : Z := Z.lor (Z.lor (Z.lor (V2P p) PTE_P) PTE_W) PTE_U.

Lemma new_pde_entry p : new_pde p = entry (V2P p) (Z.lor PTE_W PTE_U).
Proof.
  unfold new_pde, entry. rewrite <- !Z.lor_assoc. f_equal.
Qed.

Lemma new_pde_ok km p : page_ok km p ->
  present (new_pde p) = true /\ table (new_pde p) = p /\ 0 <= new_pde p < W32.
Proof.
  intros H. destruct (V2P_page km p H) as (_ & Ha & Hr). rewrite new_pde_entry.
  assert (0 <= Z.lor PTE_W PTE_U < PGSIZE) as Hf by done.
  split; [apply entry_present|]. split; [|by apply entry_range].
  unfold table. rewrite entry_addr by done. by eapply P2V_V2P.
Qed.

(** Memory with the fresh table [p] for [va]. *)
Definition new_table (m : mem) (pgdir va p : Z) : mem :=
  store32 (memset m p 0 PGSIZE) (pgdir + 4 * PDX va) (new_pde p).

Section NewTable.
Context (m : mem) (km : kmstate) (pgdir va p : Z).
Context (Hd : page_ok km pgdir) (Hp : page_ok km p) (Hne : p <> pgdir).
Let m' := new_table m pgdir va p.

Lemma new_table_pde i : 0 <= i < 1024 ->
  pde_at m' pgdir i = if decide (i = PDX va) then new_pde p else pde_at m pgdir i.
Proof.
  intros Hi. pose proof (PDX_range va) as Hx. unfold pde_at, m', new_table.
  destruct (decide (i = PDX va)) as [->|Hni].
  - apply load32_store32_eq. by apply (new_pde_ok km).
  - rewrite load32_store32_ne by lia. apply load32_memset_ne; [done|].
    apply page_word; [by eapply page_ok_align..|done|done].
Qed.

Lemma new_table_other q j : page_ok km q -> q <> p -> q <> pgdir -> 0 <= j < 1024 ->
  load32 m' (q + 4 * j) = load32 m (q + 4 * j).
Proof.
  intros Hq H1 H2 Hj. pose proof (PDX_range va) as Hx. unfold m', new_table.
  rewrite load32_store32_ne.
  - apply load32_memset_ne; [done|]. apply page_word; [by eapply page_ok_align..|done|done].
  - pose proof (page_word pgdir q j (page_ok_align _ _ Hd) (page_ok_align _ _ Hq) ltac:(done) Hj).
    unfold PGSIZE in *. lia.
Qed.

Lemma new_table_zero j : 0 <= j < 1024 -> load32 m' (p + 4 * j) = 0.
Proof.
  intros Hj. pose proof (PDX_range va) as Hx. unfold m', new_table. rewrite load32_store32_ne.
  - rewrite load32_memset; [done|done|lia|unfold PGSIZE; lia].
  - pose proof (page_word pgdir p j (page_ok_align _ _ Hd) (page_ok_align _ _ Hp) ltac:(done) Hj).
    unfold PGSIZE in *. lia.
Qed.

Lemma new_table_byte a : ~ pgdir <= a < pgdir + PGSIZE -> ~ p <= a < p + PGSIZE -> m' a = m a.
Proof.
  intros H1 H2. pose proof (PDX_range va) as Hx. unfold m', new_table.
  rewrite store32_byte, decide_False by (unfold PGSIZE in *; lia).
  rewrite memset_byte by done. by rewrite decide_False.
Qed.
End NewTable.

(** The translation is the same with the new, empty table. *)
Lemma new_table_pte km l pgdir va p va' :
  pgdir_ok km (p :: l) pgdir -> page_ok km p ->
  present (pde_at (km_mem km) pgdir (PDX va)) = false ->
  pte_of (new_table (km_mem km) pgdir va p) pgdir va' = pte_of (km_mem km) pgdir va'.
Proof.
  intros [[Hd Hdl] Ht _] Hp Hab. assert (p <> pgdir) as Hne by set_solver.
  pose proof (PDX_range va') as Hx. pose proof (PTX_range va') as Hy.
  unfold pte_of, pte_addr. cbn zeta. rewrite (new_table_pde _ km) by done.
  destruct (decide (PDX va' = PDX va)) as [->|Hpd].
  - rewrite Hab. destruct (new_pde_ok km p Hp) as (-> & -> & _).
    by apply (new_table_zero _ km).
  - destruct (present (pde_at (km_mem km) pgdir (PDX va'))) eqn:E; [|done].
    destruct (Ht _ Hx E) as (H1 & H2 & H3).
    apply (new_table_other _ km); [done|done|done|done|set_solver|done|done].
Qed.

Lemma new_table_ok km l pgdir va p :
  pgdir_ok km (p :: l) pgdir -> page_ok km p -> p ∉ l ->
  present (pde_at (km_mem km) pgdir (PDX va)) = false ->
  pgdir_ok (set_km_mem (new_table (km_mem km) pgdir va p) (km_pop km p)) l pgdir.
Proof.
  intros [[Hd Hdl] Ht Hi] Hp Hpl Hab. assert (p <> pgdir) as Hne by set_solver.
  destruct (new_pde_ok km p Hp) as (N1 & N2 & _).
  split; cbn [km_mem set_km_mem km_pop set_km_freelist].
  - split; [done|set_solver].
  - intros i Hir. rewrite (new_table_pde _ km) by done. destruct (decide _) as [->|].
    + rewrite N2. intros _. done.
    + intros E. destruct (Ht i Hir E) as (H1 & H2 & H3). split; [done|]. split; [set_solver|done].
  - intros i j Hir Hjr. rewrite !(new_table_pde _ km) by done.
    destruct (decide (i = PDX va)) as [->|], (decide (j = PDX va)) as [->|]; rewrite ?N2; intros P1 P2 E.
    + done.
    + destruct (Ht j Hjr P2) as (_ & H2 & _). set_solver.
    + destruct (Ht i Hir P1) as (_ & H2 & _). set_solver.
    + by apply Hi.
Qed.

(** ** Writing an entry *)

Section SetPte.
Context (km : kmstate) (l : list Z) (pgdir va v : Z).
Context (Hok : pgdir_ok km l pgdir) (Hva : 0 <= va < W32) (Hv : 0 <= v < W32).
Let m := km_mem km.
Let e := pde_at m pgdir (PDX va).
Context (He : present e = true).
Let a := table e + 4 * PTX va.
Let km' := set_km_mem (store32 m a v) km.

Lemma pte_page : page_ok km (table e) /\ table e ∉ l /\ table e <> pgdir /\
  table e <= a /\ a + 4 <= table e + PGSIZE.
Proof.
  destruct (pg_tab _ _ _ Hok (PDX va) (PDX_range va) He) as (H1 & H2 & H3).
  split; [done|]. split; [done|]. split; [done|]. apply page_inside, PTX_range.
Qed.

Lemma set_pte_pde i : 0 <= i < 1024 -> pde_at (store32 m a v) pgdir i = pde_at m pgdir i.
Proof.
  intros Hi. destruct pte_page as (H1 & _ & H3 & H4 & H5). unfold pde_at.
  apply load32_store32_ne. destruct (pg_dir _ _ _ Hok) as [Hd _].
  pose proof (page_word (table e) pgdir i (page_ok_align _ _ H1) (page_ok_align _ _ Hd) H3 Hi).
  unfold PGSIZE in *. lia.
Qed.

Lemma set_pte_of va' : 0 <= va' < W32 ->
  pte_of (store32 m a v) pgdir va' = if decide (va' / PGSIZE = va / PGSIZE) then v else pte_of m pgdir va'.
Proof.
  intros Hva'. pose proof (PDX_range va') as Hx. pose proof (PTX_range va') as Hy.
  pose proof (PDX_range va) as Hx0. pose proof (PTX_range va) as Hy0.
  unfold pte_of, pte_addr. cbn zeta. rewrite set_pte_pde by done.
  destruct (decide (va' / PGSIZE = va / PGSIZE)) as [Heq|Hne].
  - apply same_page in Heq as [E1 E2]; [|done..]. rewrite E1, E2. fold e. rewrite He.
    by apply load32_store32_eq.
  - destruct (present (pde_at m pgdir (PDX va'))) eqn:E; [|done].
    apply load32_store32_ne. unfold a. destruct (decide (PDX va' = PDX va)) as [Ed|Ed].
    + rewrite Ed. fold e. assert (PTX va' <> PTX va); [|lia].
      intros Et. apply Hne. by apply same_page.
    + destruct pte_page as (H1 & _). destruct (pg_tab _ _ _ Hok (PDX va') Hx E) as (H2 & _).
      assert (table e <> table (pde_at m pgdir (PDX va'))) as Hd.
      { intros Et. apply Ed. symmetry. by apply (pg_inj _ _ _ Hok). }
      pose proof (page_word (table e) (table (pde_at m pgdir (PDX va'))) (PTX va')
        (page_ok_align _ _ H1) (page_ok_align _ _ H2) Hd Hy). unfold PGSIZE in *. lia.
Qed.

Lemma set_pte_ok : pgdir_ok km' l pgdir.
Proof.
  destruct Hok as [Hd Ht Hi]. split; cbn [km_mem km' set_km_mem]; fold m; [done| |].
  - intros i Hir. rewrite set_pte_pde by done. apply Ht. done.
  - intros i j Hir Hjr. rewrite !set_pte_pde by done. by apply Hi.
Qed.

Lemma set_pte_inv : kmem_inv km l -> kmem_inv km' l.
Proof.
  intros Hk. destruct pte_page as (H1 & H2 & _ & H4 & H5).
  eapply kmem_inv_store; [done|by eapply page_ok_align|done|done|done].
Qed.

Lemma set_pte_frame : vm_frame m (store32 m a v) pgdir.
Proof.
  intros x _ Ht. destruct pte_page as (_ & _ & _ & H4 & H5).
  specialize (Ht (PDX va) (PDX_range va)). rewrite set_pte_pde in Ht by apply PDX_range.
  rewrite store32_byte, decide_False; [done|]. intros Hx. apply Ht; [done|]. fold e. lia.
Qed.
End SetPte.

Lemma vm_frame_trans m1 m2 m3 pgdir :
  vm_frame m1 m2 pgdir -> vm_frame m2 m3 pgdir -> vm_grows m2 m3 pgdir -> vm_frame m1 m3 pgdir.
Proof.
  intros H1 H2 Hg x Hd Ht. rewrite (H2 x Hd Ht). apply H1; [done|].
  intros i Hi Hp. rewrite <- (Hg i Hi Hp). apply Ht; [done|]. by rewrite (Hg i Hi Hp).
Qed.

Lemma vm_grows_trans m1 m2 m3 pgdir :
  vm_grows m1 m2 pgdir -> vm_grows m2 m3 pgdir -> vm_grows m1 m3 pgdir.
Proof. intros H1 H2 i Hi Hp. rewrite <- (H1 i Hi Hp). apply H2; [done|]. by rewrite H1. Qed.

(** ** Walking *)

Section Walk.
Context (pt : ptstate) (bc : bcstate) (fs : fsstate) (cn : cnstate)
  (o : list (kstate -> kstate)).
Implicit Types (hw : hwstate) (km : kmstate).

Lemma walk_find hw km pgdir va :
  walkpgdir pgdir va false (W hw pt km bc fs cn o) =
  Ok (default 0 (pte_addr (km_mem km) pgdir va)) (W hw pt km bc fs cn o).
Proof.
  unfold walkpgdir, load_word. krun. unfold pte_addr, present, pde_at, table. cbn zeta.
  by destruct (_ =? _).
Qed.

Lemma walk_present hw km pgdir va b :
  present (pde_at (km_mem km) pgdir (PDX va)) = true ->
  walkpgdir pgdir va b (W hw pt km bc fs cn o) =
  Ok (table (pde_at (km_mem km) pgdir (PDX va)) + 4 * PTX va) (W hw pt km bc fs cn o).
Proof.
  unfold walkpgdir, load_word, present, pde_at, table. intros H. krun.
  by destruct (_ =? _).
Qed.

Lemma walk_oom hw km pgdir va i c :
  here hw i c -> kmem_ready hw km -> kmem_inv km [] ->
  present (pde_at (km_mem km) pgdir (PDX va)) = false ->
  walkpgdir pgdir va true (W hw pt km bc fs cn o) =
  Ok 0 (W (lk_touch (km_use_lock km) i hw) pt km bc fs cn o).
Proof.
  intros Hh Hr Hi Hp. unfold walkpgdir, load_word. krun.
  unfold present, pde_at in Hp. destruct (_ =? _); [|done]. cbn [negb].
  kcall kalloc_eq by done. pose proof (ki_linked _ _ Hi) as E. cbn in E. by rewrite E.
Qed.

Lemma walk_new hw km pgdir va i c p l :
  here hw i c -> kmem_ready hw km -> kmem_inv km (p :: l) ->
  present (pde_at (km_mem km) pgdir (PDX va)) = false ->
  walkpgdir pgdir va true (W hw pt km bc fs cn o) =
  Ok (p + 4 * PTX va) (W (lk_touch (km_use_lock km) i hw) pt
    (set_km_mem (new_table (km_mem km) pgdir va p) (km_pop km p)) bc fs cn o).
Proof.
  intros Hh Hr Hi Hp. unfold walkpgdir, load_word, k_memset, store_word. krun.
  unfold present, pde_at in Hp. destruct (_ =? _); [|done]. cbn [negb].
  kcall kalloc_eq by done. destruct (kmem_inv_alloc _ _ _ Hi) as (-> & Hpg & _).
  pose proof (page_pos _ _ Hpg). destruct (Z.eqb_spec p 0); [lia|]. krun. done.
Qed.
End Walk.

(** ** Filling in a range *)

(** The machine can walk and extend [pgdir]; the free pages are [l]. *)
Record vm_ready (hw : hwstate) (km : kmstate) (l : list Z) (i : nat) (pgdir : Z) : Prop := {
  vr_here : exists c, here hw i c;
  vr_ready : kmem_ready hw km;
  vr_inv : kmem_inv km l;
  vr_dir : pgdir_ok km l pgdir;
}.

(** What extending a page table leaves: at most [n] pages taken, only the
    tables written. *)
Record vm_step (n : nat) (km km' : kmstate) (l l' : list Z) (pgdir : Z) : Prop := {
  vs_pages : exists k, (k <= n)%nat /\ l' = drop k l;
  vs_grows : vm_grows (km_mem km) (km_mem km') pgdir;
  vs_frame : vm_frame (km_mem km) (km_mem km') pgdir;
}.

Lemma vm_step_refl km l pgdir : vm_step 0 km km l l pgdir.
Proof. split; [by exists 0%nat|by intros i|by intros a]. Qed.

Lemma vm_step_trans n n' km1 km2 km3 l1 l2 l3 pgdir :
  vm_step n km1 km2 l1 l2 pgdir -> vm_step n' km2 km3 l2 l3 pgdir ->
  vm_step (n + n') km1 km3 l1 l3 pgdir.
Proof.
  intros [(k1 & H1 & ->) G1 F1] [(k2 & H2 & ->) G2 F2]. split.
  - exists (k1 + k2)%nat. split; [lia|]. by rewrite drop_drop.
  - by eapply vm_grows_trans.
  - by eapply vm_frame_trans.
Qed.

Lemma vm_step_le n n' km km' l l' pgdir :
  (n <= n')%nat -> vm_step n km km' l l' pgdir -> vm_step n' km km' l l' pgdir.
Proof. intros Hn [(k & Hk & E) G F]. split; [exists k; split; [lia|done]|done|done]. Qed.

Section Map.
Context (pt : ptstate) (bc : bcstate) (fs : fsstate) (cn : cnstate)
  (o : list (kstate -> kstate)) (i : nat) (pgdir : Z).
Implicit Types (hw : hwstate) (km : kmstate).

Lemma walk_alloc hw km l va :
  vm_ready hw km l i pgdir -> 0 <= va < W32 ->
  exists r hw' km' l',
    walkpgdir pgdir va true (W hw pt km bc fs cn o) = Ok r (W hw' pt km' bc fs cn o) /\
    vm_ready hw' km' l' i pgdir /\ vm_step 1 km km' l l' pgdir /\
    (forall va', pte_of (km_mem km') pgdir va' = pte_of (km_mem km) pgdir va') /\
    (r = 0 /\ l = [] \/
     r <> 0 /\ present (pde_at (km_mem km') pgdir (PDX va)) = true /\
     r = table (pde_at (km_mem km') pgdir (PDX va)) + 4 * PTX va).
Proof.
  intros [[c Hh] Hr Hi Hd] Hva. pose proof (PDX_range va) as Hx. pose proof (PTX_range va) as Hy.
  assert (exists c', here (lk_touch (km_use_lock km) i hw) i c') as Hh'
    by (eexists; by apply here_lk_touch).
  destruct (present (pde_at (km_mem km) pgdir (PDX va))) eqn:E.
  - eexists _, hw, km, l. split; [by apply walk_present|]. split; [split; eauto|].
    split; [eapply vm_step_le, vm_step_refl; lia|]. split; [done|]. right.
    destruct (pg_tab _ _ _ Hd (PDX va) Hx E) as (Hp & _). pose proof (page_pos _ _ Hp).
    split; [lia|done].
  - destruct l as [|p l].
    + eexists 0, _, km, []. split; [by eapply walk_oom|]. split.
      { split; [done| |done|done]. unfold kmem_ready, lock_free. by rewrite locks_lk_touch. }
      split; [eapply vm_step_le, vm_step_refl; lia|]. split; [done|by left].
    + destruct (kmem_inv_alloc _ _ _ Hi) as (_ & Hp & Hpl & Hi').
      assert (p <> pgdir) as Hne by (destruct (pg_dir _ _ _ Hd); set_solver).
      destruct (pg_dir _ _ _ Hd) as [Hdp _]. destruct (new_pde_ok km p Hp) as (N1 & N2 & N3).
      assert (pde_at (new_table (km_mem km) pgdir va p) pgdir (PDX va) = new_pde p) as En.
      { rewrite (new_table_pde _ km) by done. by rewrite decide_True. }
      eexists _, _, _, l. split; [by eapply walk_new|]. split; [split; [done| | |]|].
      * unfold kmem_ready, lock_free. by rewrite locks_lk_touch.
      * pose proof (pg_dir _ _ _ (new_table_ok km l pgdir va p Hd Hp Hpl E)) as [_ Hdl].
        apply (kmem_inv_store (set_km_mem (memset (km_mem km) p 0 PGSIZE) (km_pop km p)) l pgdir);
          [|by eapply page_ok_align|done|lia|unfold PGSIZE; lia].
        apply (kmem_inv_memset (km_pop km p)); [done|by eapply page_ok_align|done].
      * by apply new_table_ok.
      * split; [split; [by exists 1%nat| |]|split; [intros va'; by eapply new_table_pte|right]].
        -- intros j Hj Hpj. cbn. rewrite (new_table_pde _ km) by done.
           rewrite decide_False; [done|]. intros ->. congruence.
        -- intros x Hx1 Hx2. cbn. specialize (Hx2 (PDX va) Hx). cbn in Hx2. rewrite En, N2 in Hx2.
           eapply new_table_byte; [done..|by apply Hx2].
        -- cbn. rewrite En, N2. pose proof (page_pos _ _ Hp). split; [lia|done].
Qed.

Lemma map_page hw km l a pa perm last :
  vm_ready hw km l i pgdir -> 0 <= a < W32 -> pa mod PGSIZE = 0 -> 0 <= pa < W32 ->
  0 <= perm < PGSIZE -> present (pte_of (km_mem km) pgdir a) = false ->
  exists hw' km' l', vm_ready hw' km' l' i pgdir /\ vm_step 1 km km' l l' pgdir /\
    (map_step pgdir perm last (a, pa) (W hw pt km bc fs cn o) =
       Ok (inr (-1)) (W hw' pt km' bc fs cn o) /\ l = [] /\
     (forall va', pte_of (km_mem km') pgdir va' = pte_of (km_mem km) pgdir va') \/
     map_step pgdir perm last (a, pa) (W hw pt km bc fs cn o) =
       Ok (if a =? last then inr 0 else inl (u32 (a + PGSIZE), u32 (pa + PGSIZE)))
          (W hw' pt km' bc fs cn o) /\
     (forall va', 0 <= va' < W32 -> pte_of (km_mem km') pgdir va' =
        if decide (va' / PGSIZE = a / PGSIZE) then entry pa perm
        else pte_of (km_mem km) pgdir va')).
Proof.
  intros Hr Ha Hpa Hpr Hf Hab. unfold map_step.
  destruct (walk_alloc hw km l a Hr Ha) as (r & hw1 & km1 & l1 & E & Hr1 & Hs1 & Hsame & Hres).
  erewrite bind_ok by exact E. destruct Hres as [[-> ->]|(Hnz & Hpres & ->)].
  - exists hw1, km1, l1. split; [done|]. split; [done|]. left. done.
  - destruct (Z.eqb_spec (table (pde_at (km_mem km1) pgdir (PDX a)) + 4 * PTX a) 0); [done|].
    assert (load32 (km_mem km1) (table (pde_at (km_mem km1) pgdir (PDX a)) + 4 * PTX a) =
      pte_of (km_mem km1) pgdir a) as Ept.
    { unfold pte_of, pte_addr. cbn zeta. by rewrite Hpres. }
    unfold load_word, store_word. krun. rewrite Ept, Hsame. unfold present in Hab.
    destruct (Z.land (pte_of (km_mem km) pgdir a) PTE_P =? 0); [|done]. cbn [negb].
    pose proof (entry_range pa perm Hpa Hf Hpr) as Hv. destruct Hr1 as [Hh1 Hk1 Hi1 Hd1].
    exists hw1, (set_km_mem (store32 (km_mem km1)
      (table (pde_at (km_mem km1) pgdir (PDX a)) + 4 * PTX a) (entry pa perm)) km1), l1.
    split; [split; [done|done|by apply (set_pte_inv km1 l1 pgdir a)|by apply (set_pte_ok km1 l1 pgdir a)]|].
    split.
    + destruct Hs1 as [P1 G1 F1].
      assert (vm_grows (km_mem km1) (store32 (km_mem km1)
        (table (pde_at (km_mem km1) pgdir (PDX a)) + 4 * PTX a) (entry pa perm)) pgdir) as G2
        by (intros j Hj _; by apply (set_pte_pde km1 l1)).
      split; [done|by eapply vm_grows_trans|]. eapply vm_frame_trans; [done| |done].
      by apply (set_pte_frame km1 l1).
    + right. split; [by destruct (a =? last)|]. intros va' Hva'. cbn.
      rewrite (set_pte_of km1 l1 pgdir a) by done. by rewrite Hsame.
Qed.

(** The entries after [k] pages from [a] were mapped to frames from [pa]. *)
Definition mapped (m : mem) (a pa perm : Z) (k : nat) (va' : Z) : Z :=
  if decide (a <= va' < a + Z.of_nat k * PGSIZE)
  then entry (pa + (PGROUNDDOWN va' - a)) perm else pte_of m pgdir va'.

Lemma mapped_step m m' a pa perm k va' :
  a mod PGSIZE = 0 -> 0 <= va' < W32 ->
  (forall v, 0 <= v < W32 -> pte_of m' pgdir v =
     if decide (v / PGSIZE = a / PGSIZE) then entry pa perm else pte_of m pgdir v) ->
  mapped m' (a + PGSIZE) (pa + PGSIZE) perm k va' = mapped m a pa perm (S k) va'.
Proof.
  intros Ha Hv Hm. unfold mapped. rewrite Hm by done. rewrite PGROUNDDOWN_mod.
  unfold PGSIZE in *.
  destruct (decide (a + 4096 <= va' < a + 4096 + Z.of_nat k * 4096)).
  - rewrite decide_True by lia. f_equal. lia.
  - destruct (decide (va' / 4096 = a / 4096)).
    + rewrite decide_True by (Z.div_mod_to_equations; lia). f_equal. Z.div_mod_to_equations. lia.
    + rewrite decide_False; [done|]. Z.div_mod_to_equations. lia.
Qed.

Lemma map_loop n hw km l a pa perm last :
  vm_ready hw km l i pgdir -> a mod PGSIZE = 0 -> 0 <= a -> pa mod PGSIZE = 0 -> 0 <= pa ->
  last = a + Z.of_nat n * PGSIZE -> last + PGSIZE <= W32 ->
  pa + Z.of_nat (S n) * PGSIZE <= W32 -> 0 <= perm < PGSIZE ->
  (forall va', a <= va' < last + PGSIZE -> present (pte_of (km_mem km) pgdir va') = false) ->
  exists r k hw' km' l',
    loop_ (S n) (map_step pgdir perm last) (a, pa) (W hw pt km bc fs cn o) =
      Ok r (W hw' pt km' bc fs cn o) /\
    vm_ready hw' km' l' i pgdir /\ vm_step (S n) km km' l l' pgdir /\
    (r = 0 /\ k = S n \/ r = -1 /\ (k <= n)%nat /\ (length l <= n)%nat) /\
    forall va', 0 <= va' < W32 -> pte_of (km_mem km') pgdir va' = mapped (km_mem km) a pa perm k va'.
Proof.
  revert hw km l a pa. induction n as [|n IH]; intros hw km l a pa Hr Ha Ha0 Hpa Hp0 Hl Hw Hpw Hf Hab;
    cbn [loop_].
  all: destruct (map_page hw km l a pa perm last Hr) as (hw1 & km1 & l1 & Hr1 & Hs1 & Hres);
    [unfold W32, PGSIZE in *; lia|done|unfold W32, PGSIZE in *; lia|done|apply Hab; unfold PGSIZE in *; lia|].
  all: destruct Hres as [(E & -> & Hsame)|(E & Hmap)].
  all: erewrite bind_ok by exact E; cbn match.
  - eexists _, 0%nat, hw1, km1, l1. split; [done|]. split; [done|]. split; [done|].
    split; [right; cbn; lia|]. intros va' Hv. unfold mapped. rewrite decide_False by lia. apply Hsame.
  - destruct (Z.eqb_spec a last); [|unfold PGSIZE in *; lia].
    eexists _, 1%nat, hw1, km1, l1. split; [done|]. split; [done|]. split; [done|].
    split; [left; done|]. intros va' Hv.
    rewrite <- (mapped_step _ (km_mem km1)) by done. unfold mapped. by rewrite decide_False by lia.
  - eexists _, 0%nat, hw1, km1, l1. split; [done|]. split; [done|].
    split; [eapply vm_step_le; [|done]; lia|].
    split; [right; cbn; lia|]. intros va' Hv. unfold mapped. rewrite decide_False by lia. apply Hsame.
  - destruct (Z.eqb_spec a last); [unfold PGSIZE in *; lia|].
    rewrite !u32_small by (unfold W32, PGSIZE in *; lia).
    destruct (IH hw1 km1 l1 (a + PGSIZE) (pa + PGSIZE)) as (r & k & hw2 & km2 & l2 & E2 & Hr2 & Hs2 & Hk & Hm2);
      [done|unfold PGSIZE in *; Z.div_mod_to_equations; lia|unfold PGSIZE; lia
      |unfold PGSIZE in *; Z.div_mod_to_equations; lia|unfold PGSIZE; lia
      |lia|done|lia|done| |].
    { intros va' Hv. rewrite Hmap by (unfold W32, PGSIZE in *; lia).
      rewrite decide_False; [apply Hab; unfold PGSIZE in *; lia|].
      unfold PGSIZE in *. Z.div_mod_to_equations. lia. }
    exists r, (S k), hw2, km2, l2. split; [exact E2|]. split; [done|].
    split; [by eapply (vm_step_trans 1 (S n))|]. split.
    { destruct Hk as [[-> ->]|(-> & H1 & H2)]; [by left|right]. split; [done|]. split; [lia|].
      destruct (vs_pages _ _ _ _ _ _ Hs1) as (j & Hj & ->). rewrite length_drop in H2. lia. }
    intros va' Hv. rewrite Hm2 by done. by apply mapped_step.
Qed.
End Map.

(** ** Copying to user memory *)

Definition user (e : Z) : bool := present e && negb (Z.land e PTE_U =? 0).

(** The kernel address of the frame an entry maps. *)
Definition frame (e : Z) : Z := P2V (PTE_ADDR e).

(** The user pages have frames of their own, which are neither the directory
    nor one of its tables. *)
Record user_frames (m : mem) (pgdir : Z) : Prop := {
  uf_dir : pgdir mod PGSIZE = 0;
  uf_tab : forall i, 0 <= i < 1024 -> present (pde_at m pgdir i) = true ->
    table (pde_at m pgdir i) mod PGSIZE = 0;
  uf_frame : forall va, 0 <= va < W32 -> user (pte_of m pgdir va) = true ->
    let f := frame (pte_of m pgdir va) in
    f mod PGSIZE = 0 /\ f <> 0 /\ f <> pgdir /\
    forall i, 0 <= i < 1024 -> present (pde_at m pgdir i) = true -> f <> table (pde_at m pgdir i);
  uf_inj : forall va va', 0 <= va < W32 -> 0 <= va' < W32 ->
    user (pte_of m pgdir va) = true -> user (pte_of m pgdir va') = true ->
    frame (pte_of m pgdir va) = frame (pte_of m pgdir va') -> va / PGSIZE = va' / PGSIZE;
}.

(** The kernel address of the user byte [va]. *)
Definition uaddr (m : mem) (pgdir va : Z) : Z := frame (pte_of m pgdir va) + va mod PGSIZE.

Lemma store_bytes_byte m a l x :
  store_bytes m a l x =
  if decide (a <= x < a + Z.of_nat (length l)) then u8 (default 0 (l !! Z.to_nat (x - a))) else m x.
Proof.
  revert m a. induction l as [|b l IH]; intros m a; cbn [store_bytes length].
  - by rewrite decide_False by lia.
  - rewrite IH. unfold store8, fn_upd.
    destruct (decide (a + 1 <= x < a + 1 + Z.of_nat (length l))).
    + rewrite decide_True by lia. replace (Z.to_nat (x - a)) with (S (Z.to_nat (x - (a + 1)))) by lia. done.
    + destruct (decide (x = a)) as [->|].
      * rewrite decide_True by lia. by rewrite Z.sub_diag.
      * by rewrite decide_False by lia.
Qed.

Lemma load32_store_bytes_ne m a l x :
  x + 4 <= a \/ a + Z.of_nat (length l) <= x -> load32 (store_bytes m a l) x = load32 m x.
Proof. intros H. apply load32_ext. intros b Hb. rewrite store_bytes_byte, decide_False by lia. done. Qed.

Lemma page_div_mod va : va / PGSIZE * PGSIZE + va mod PGSIZE = va.
Proof. unfold PGSIZE. Z.div_mod_to_equations. lia. Qed.

(** The entry depends on the page only. *)
Lemma pte_of_page m pgdir va va' :
  0 <= va < W32 -> 0 <= va' < W32 -> va / PGSIZE = va' / PGSIZE ->
  pte_of m pgdir va = pte_of m pgdir va'.
Proof.
  intros H H' E. apply same_page in E as [E1 E2]; [|done..]. unfold pte_of, pte_addr. by rewrite E1, E2.
Qed.

(** Writing into the frame of a user page leaves every translation alone. *)
Lemma write_frame_pte m pgdir va l off va' :
  user_frames m pgdir -> 0 <= va < W32 -> user (pte_of m pgdir va) = true ->
  0 <= off -> off + Z.of_nat (length l) <= PGSIZE ->
  let m' := store_bytes m (frame (pte_of m pgdir va) + off) l in
  (forall i, 0 <= i < 1024 -> pde_at m' pgdir i = pde_at m pgdir i) /\
  pte_of m' pgdir va' = pte_of m pgdir va'.
Proof.
  intros [Hd Ht Hf _] Hva Hu Ho Hl m'. destruct (Hf va Hva Hu) as (F1 & _ & F2 & F3).
  assert (forall q j, q mod PGSIZE = 0 -> frame (pte_of m pgdir va) <> q -> 0 <= j < 1024 ->
    load32 m' (q + 4 * j) = load32 m (q + 4 * j)) as Hq.
  { intros q j Hq Hne Hj. apply load32_store_bytes_ne.
    pose proof (page_word _ q j F1 Hq Hne Hj). unfold PGSIZE in *. lia. }
  assert (forall i, 0 <= i < 1024 -> pde_at m' pgdir i = pde_at m pgdir i) as Hp
    by (intros i Hi; by apply Hq).
  split; [done|]. pose proof (PDX_range va'). pose proof (PTX_range va').
  unfold pte_of, pte_addr. cbn zeta. rewrite Hp by done.
  destruct (present (pde_at m pgdir (PDX va'))) eqn:E; [|done]. apply Hq; [by apply Ht|by apply F3|done].
Qed.

Lemma user_frames_ext m m' pgdir :
  (forall i, 0 <= i < 1024 -> pde_at m' pgdir i = pde_at m pgdir i) ->
  (forall va, pte_of m' pgdir va = pte_of m pgdir va) ->
  user_frames m pgdir -> user_frames m' pgdir.
Proof.
  intros Ep Ev [H1 H2 H3 H4]. split; [done| | |].
  - intros i Hi. rewrite Ep by done. by apply H2.
  - intros va Hva. rewrite Ev. intros Hu. destruct (H3 va Hva Hu) as (F1 & F2 & F3 & F4).
    split; [done|]. split; [done|]. split; [done|]. intros i Hi. rewrite Ep by done. by apply F4.
  - intros va va' Hva Hva'. rewrite !Ev. by apply H4.
Qed.

Section Copyout.
Context (pt : ptstate) (bc : bcstate) (fs : fsstate) (cn : cnstate)
  (o : list (kstate -> kstate)) (hw : hwstate) (pgdir : Z).
Implicit Types (km : kmstate).

Lemma uva2ka_eq km va a :
  pte_addr (km_mem km) pgdir va = Some a -> a <> 0 ->
  uva2ka pgdir va (W hw pt km bc fs cn o) =
  Ok (if user (pte_of (km_mem km) pgdir va) then frame (pte_of (km_mem km) pgdir va) else 0)
     (W hw pt km bc fs cn o).
Proof.
  intros Ha Hz. unfold uva2ka. kcall walk_find. rewrite Ha. cbn [default from_option id].
  destruct (Z.eqb_spec a 0); [done|]. unfold load_word. krun.
  unfold pte_of. rewrite Ha. unfold user, present, frame.
  destruct (_ =? _); [done|]. by destruct (_ =? _).
Qed.

(** The loop of [copyout]. *)
Definition copyout_body (pgdir : Z) : Z * list Z -> K (Z * list Z + Z) :=
  fun '(va, buf) =>
    match buf with
    | [] => ret (inr 0)
    | _ =>
      let va0 := PGROUNDDOWN va in
      pa0 <- uva2ka pgdir va0 ;;
      if pa0 =? 0 then ret (inr (-1)) else
      let n := Z.min (PGSIZE - (va - va0)) (Z.of_nat (length buf)) in
      k_write (pa0 + (va - va0)) (take (Z.to_nat n) buf) ;;
      ret (inl (u32 (va0 + PGSIZE), drop (Z.to_nat n) buf))
    end.

(** The first [k] bytes of [buf] are at [va], and nothing else has changed. *)
Definition copied (m m' : mem) (va : Z) (buf : list Z) (k : nat) : Prop :=
  (forall j b, (j < k)%nat -> buf !! j = Some b ->
     m' (uaddr m pgdir (va + Z.of_nat j)) = u8 b) /\
  (forall x, (forall j, (j < k)%nat -> x <> uaddr m pgdir (va + Z.of_nat j)) -> m' x = m x) /\
  (forall va', pte_of m' pgdir va' = pte_of m pgdir va').

Lemma uaddr_inj m va va' :
  user_frames m pgdir -> 0 <= va < W32 -> 0 <= va' < W32 ->
  user (pte_of m pgdir va) = true -> user (pte_of m pgdir va') = true ->
  uaddr m pgdir va = uaddr m pgdir va' -> va = va'.
Proof.
  intros Hf Hva Hva' Hu Hu' E. unfold uaddr in E.
  destruct (uf_frame _ _ Hf va Hva Hu) as (F1 & _). destruct (uf_frame _ _ Hf va' Hva' Hu') as (F2 & _).
  assert (frame (pte_of m pgdir va) = frame (pte_of m pgdir va')) as Ef
    by (unfold PGSIZE in *; Z.div_mod_to_equations; lia).
  pose proof (uf_inj _ _ Hf va va' Hva Hva' Hu Hu' Ef) as Ep.
  rewrite <- (page_div_mod va), <- (page_div_mod va'), Ep. lia.
Qed.

(** One page's worth of bytes. *)
Lemma copied_page m va buf n :
  user_frames m pgdir -> 0 <= va < W32 -> user (pte_of m pgdir va) = true ->
  (n <= length buf)%nat -> va mod PGSIZE + Z.of_nat n <= PGSIZE -> va + Z.of_nat n <= W32 ->
  let m' := store_bytes m (frame (pte_of m pgdir va) + va mod PGSIZE) (take n buf) in
  copied m m' va buf n /\ (forall i, 0 <= i < 1024 -> pde_at m' pgdir i = pde_at m pgdir i).
Proof.
  intros Hf Hva Hu Hn Hp Hw m'.
  assert (0 <= va mod PGSIZE) as Ho by (apply Z.mod_pos_bound; done).
  assert (length (take n buf) = n) as Hl by (rewrite length_take; lia).
  assert (forall j, (j < n)%nat -> uaddr m pgdir (va + Z.of_nat j) =
    frame (pte_of m pgdir va) + va mod PGSIZE + Z.of_nat j) as Hu'.
  { intros j Hj. unfold uaddr.
    assert ((va + Z.of_nat j) / PGSIZE = va / PGSIZE) as E by (unfold PGSIZE in *; Z.div_mod_to_equations; lia).
    rewrite (pte_of_page m pgdir (va + Z.of_nat j) va) by (done || lia).
    unfold PGSIZE in *. Z.div_mod_to_equations. lia. }
  split; [|intros j Hj; eapply (write_frame_pte m pgdir va (take n buf) (va mod PGSIZE) 0); (done || lia)].
  split; [|split].
  - intros j b Hj Hb. rewrite Hu' by done. unfold m'. rewrite store_bytes_byte, decide_True by lia.
    replace (Z.to_nat _) with j by lia. by rewrite lookup_take_lt, Hb.
  - intros x Hx. unfold m'. rewrite store_bytes_byte, decide_False; [done|]. rewrite Hl. intros Hr.
    apply (Hx (Z.to_nat (x - (frame (pte_of m pgdir va) + va mod PGSIZE)))); [lia|]. rewrite Hu' by lia. lia.
  - intros va'. eapply (write_frame_pte m pgdir va (take n buf) (va mod PGSIZE) va'); (done || lia).
Qed.

(** Pages one after the other. *)
Lemma copied_app m m1 m2 va buf n k :
  user_frames m pgdir -> 0 <= va -> va + Z.of_nat (n + k) <= W32 ->
  (forall j, (j < n + k)%nat -> user (pte_of m pgdir (va + Z.of_nat j)) = true) ->
  copied m m1 va buf n -> copied m1 m2 (va + Z.of_nat n) (drop n buf) k ->
  copied m m2 va buf (n + k).
Proof.
  intros Hf Hva Hw Hu (A1 & A2 & A3) (B1 & B2 & B3).
  assert (forall x, uaddr m1 pgdir x = uaddr m pgdir x) as Eu by (intros x; unfold uaddr; by rewrite A3).
  split; [|split; [|intros va'; by rewrite B3, A3]].
  - intros j b Hj Hb. destruct (decide (j < n)%nat) as [Hjn|Hjn].
    + rewrite B2; [by apply A1|]. intros j' Hj'. rewrite Eu. intros E.
      apply uaddr_inj in E; [lia|done|lia|lia|by apply Hu|]. 
      replace (va + Z.of_nat n + Z.of_nat j') with (va + Z.of_nat (n + j')) by lia. apply Hu. lia.
    + replace (va + Z.of_nat j) with (va + Z.of_nat n + Z.of_nat (j - n)) by lia.
      rewrite <- Eu. apply B1; [lia|]. rewrite lookup_drop. by replace (n + (j - n))%nat with j by lia.
  - intros x Hx. rewrite B2; [apply A2|].
    + intros j Hj. apply Hx. lia.
    + intros j Hj. rewrite Eu. replace (va + Z.of_nat n + Z.of_nat j) with (va + Z.of_nat (n + j)) by lia.
      apply Hx. lia.
Qed.

(** One turn of the loop. *)
Lemma copyout_body_eq km va buf a :
  let off := va mod PGSIZE in
  let n := Z.to_nat (Z.min (PGSIZE - off) (Z.of_nat (length buf))) in
  let e := pte_of (km_mem km) pgdir va in
  buf <> [] -> 0 <= va < W32 -> pte_addr (km_mem km) pgdir va = Some a -> a <> 0 ->
  (user e = true -> frame e <> 0) ->
  copyout_body pgdir (va, buf) (W hw pt km bc fs cn o) =
  if user e
  then Ok (inl (u32 (va - off + PGSIZE), drop n buf))
         (W hw pt (set_km_mem (store_bytes (km_mem km) (frame e + off) (take n buf)) km) bc fs cn o)
  else Ok (inr (-1)) (W hw pt km bc fs cn o).
Proof.
  intros off n e Hb Hva Ea Ha Hf. destruct buf as [|b0 buf0]; [done|]. unfold copyout_body.
  assert (0 <= off < PGSIZE) as Hoff by (apply Z.mod_pos_bound; done).
  assert (off <= va) as Hov by (apply Z.mod_le; unfold PGSIZE; lia).
  assert (PGROUNDDOWN va = va - off) as -> by apply PGROUNDDOWN_mod.
  assert ((va - off) / PGSIZE = va / PGSIZE) as Epg
    by (unfold off, PGSIZE in *; Z.div_mod_to_equations; lia).
  assert (pte_of (km_mem km) pgdir (va - off) = e) as Ept
    by (apply pte_of_page; (done || unfold PGSIZE in *; lia)).
  assert (pte_addr (km_mem km) pgdir (va - off) = Some a) as Ea'.
  { apply same_page in Epg as [E1 E2]; [|unfold PGSIZE in *; lia..].
    unfold pte_addr in *. by rewrite E1, E2. }
  cbn zeta. kcall uva2ka_eq by done. rewrite Ept. replace (va - (va - off)) with off by lia.
  destruct (user e); [|done]. destruct (Z.eqb_spec (frame e) 0); [by destruct (Hf eq_refl)|].
  unfold k_write. krun. done.
Qed.

Lemma copyout_loop fuel km va buf :
  (length buf < fuel)%nat -> user_frames (km_mem km) pgdir -> 0 <= va ->
  va + Z.of_nat (length buf) <= W32 ->
  (forall x, 0 <= x < W32 -> pte_addr (km_mem km) pgdir x <> Some 0) ->
  (forall x, va <= x < va + Z.of_nat (length buf) -> pte_addr (km_mem km) pgdir x <> None) ->
  exists r k m',
    loop_ fuel (copyout_body pgdir) (va, buf) (W hw pt km bc fs cn o) =
      Ok r (W hw pt (set_km_mem m' km) bc fs cn o) /\
    copied (km_mem km) m' va buf k /\
    (forall j, (j < k)%nat -> user (pte_of (km_mem km) pgdir (va + Z.of_nat j)) = true) /\
    (r = 0 /\ k = length buf \/
     r = -1 /\ (k < length buf)%nat /\ user (pte_of (km_mem km) pgdir (va + Z.of_nat k)) = false).
Proof.
  revert km va buf. induction fuel as [|fuel IH]; intros km va buf Hfu Hf Hva Hw Hz Hex; [lia|].
  assert (forall m va buf, copied m m va buf 0) as Hnone by (intros; split; [lia|done]).
  cbn [loop_]. destruct buf as [|b0 buf0].
  { exists 0, 0%nat, (km_mem km). split; [by destruct km|]. split; [done|]. split; [lia|]. by left. }
  set (buf := b0 :: buf0) in *. assert (0 < length buf)%nat as Hlen by (cbn; lia).
  assert (0 <= va < W32) as Hvw by lia.
  destruct (pte_addr (km_mem km) pgdir va) as [a|] eqn:Ea; [|destruct (Hex va); (done || lia)].
  assert (a <> 0) as Ha by (intros ->; by apply (Hz va)).
  pose proof (copyout_body_eq km va buf a ltac:(done) Hvw Ea Ha
    (fun Hu => proj1 (proj2 (uf_frame _ _ Hf va Hvw Hu)))) as Hbody. cbn zeta in Hbody.
  set (off := va mod PGSIZE) in *. assert (0 <= off < PGSIZE) as Hoff by (apply Z.mod_pos_bound; done).
  assert (off <= va) as Hov by (apply Z.mod_le; unfold PGSIZE; lia).
  destruct (user (pte_of (km_mem km) pgdir va)) eqn:Hu.
  2: { exists (-1), 0%nat, (km_mem km). split; [erewrite bind_ok by exact Hbody; by destruct km|].
       split; [done|]. split; [lia|]. right. rewrite Z.add_0_r. done. }
  set (n := Z.to_nat (Z.min (PGSIZE - off) (Z.of_nat (length buf)))) in *.
  assert (n <= length buf)%nat as Hn by (unfold n; lia).
  assert (off + Z.of_nat n <= PGSIZE) as Hn2 by (unfold n; lia).
  destruct (copied_page (km_mem km) va buf n Hf ltac:(lia) Hu Hn Hn2 ltac:(lia)) as [Hc1 Hp1].
  fold off in Hc1, Hp1. erewrite bind_ok by exact Hbody.
  set (m1 := store_bytes _ _ _) in *. pose proof Hc1 as (_ & _ & Hpt1).
  assert (forall j, (j < n)%nat -> user (pte_of (km_mem km) pgdir (va + Z.of_nat j)) = true) as Hun.
  { intros j Hj. rewrite <- Hu. f_equal. apply pte_of_page; [lia|lia|].
    unfold off, PGSIZE in *. Z.div_mod_to_equations. lia. }
  destruct (decide (n = length buf)) as [En|En].
  - rewrite drop_ge by lia. destruct fuel as [|fuel]; [lia|]. cbn [loop_]. unfold copyout_body at 1.
    exists 0, n, m1. split; [done|]. split; [done|]. split; [done|]. by left.
  - assert (n = Z.to_nat (PGSIZE - off)) as En' by (unfold n in *; lia).
    rewrite u32_small by (unfold W32, PGSIZE in *; lia).
    replace (va - off + PGSIZE) with (va + Z.of_nat n) by lia.
    assert (forall x, pte_addr m1 pgdir x = pte_addr (km_mem km) pgdir x) as Epa.
    { intros x. unfold pte_addr. rewrite Hp1; [done|apply PDX_range]. }
    assert (length (drop n buf) = length buf - n)%nat as Ld by apply length_drop.
    destruct (IH (set_km_mem m1 km) (va + Z.of_nat n) (drop n buf)) as (r & k & m2 & E2 & Hc2 & Hu2 & Hr2).
    + assert (0 < n)%nat by (unfold PGSIZE in *; lia). lia.
    + by eapply user_frames_ext.
    + lia.
    + lia.
    + intros x Hx. cbn. rewrite Epa. by apply Hz.
    + intros x Hx. cbn. rewrite Epa. apply Hex. lia.
    + cbn [km_mem set_km_mem] in *.
      assert (k <= length (drop n buf))%nat as Hk by (destruct Hr2 as [[_ ->]|(_ & ? & _)]; lia).
      assert (forall j, (j < n + k)%nat ->
        user (pte_of (km_mem km) pgdir (va + Z.of_nat j)) = true) as Hall.
      { intros j Hj. destruct (decide (j < n)%nat); [by apply Hun|].
        rewrite <- Hpt1. replace (va + Z.of_nat j) with (va + Z.of_nat n + Z.of_nat (j - n)) by lia.
        apply Hu2. lia. }
      exists r, (n + k)%nat, m2. split; [rewrite E2; by destruct km|].
      split; [eapply copied_app; try done; lia|]. split; [done|].
      destruct Hr2 as [[-> ->]|(-> & Hk2 & Hnu)]; [left; split; [done|lia]|right].
      split; [done|]. split; [lia|]. rewrite <- Hpt1, <- Hnu. do 2 f_equal. lia.
Qed.
End Copyout.

(** ** What the operations promise *)

(** The number of pages the range [va, va + size) touches. *)
Definition pages_of (va size : Z) : nat :=
  S (Z.to_nat ((PGROUNDDOWN (va + size - 1) - PGROUNDDOWN va) / PGSIZE)).

(** C13: [mappages] on a range none of whose pages is mapped never panics and
    ends.  It returns 0 with exactly the pages the range touches translated
    to the consecutive frames from [pa] with the given permissions, every
    other translation unchanged; or it returns -1, which it does only when
    fewer pages are free than the range touches, with a prefix of the range
    translated.  It takes at most one page table per page from the free list,
    never replaces a table, and writes nothing but the directory and its
    tables. *)
Theorem mappages_translates pt bc fs cn o i hw km l pgdir va size pa perm :
  vm_ready hw km l i pgdir ->
  0 <= va -> 0 < size -> va + size <= W32 ->
  pa mod PGSIZE = 0 -> 0 <= pa -> pa + Z.of_nat (pages_of va size) * PGSIZE <= W32 ->
  0 <= perm < PGSIZE ->
  (forall va', PGROUNDDOWN va <= va' < PGROUNDDOWN va + Z.of_nat (pages_of va size) * PGSIZE ->
     present (pte_of (km_mem km) pgdir va') = false) ->
  exists r k hw' km' l',
    mappages pgdir va size pa perm (W hw pt km bc fs cn o) = Ok r (W hw' pt km' bc fs cn o) /\
    vm_ready hw' km' l' i pgdir /\ vm_step (pages_of va size) km km' l l' pgdir /\
    (r = 0 /\ k = pages_of va size \/
     r = -1 /\ (k < pages_of va size)%nat /\ (length l < pages_of va size)%nat) /\
    forall va', 0 <= va' < W32 ->
      pte_of (km_mem km') pgdir va' = mapped pgdir (km_mem km) (PGROUNDDOWN va) pa perm k va'.
Proof.
  intros Hr Hva Hsz Hw Hpa Hp0 Hpw Hf Hab. unfold mappages. cbn zeta.
  unfold pages_of in *. rewrite (u32_small (va + size - 1)) by lia.
  rewrite !PGROUNDDOWN_mod in *. set (a := va - va mod PGSIZE) in *.
  set (last := va + size - 1 - (va + size - 1) mod PGSIZE) in *.
  assert (a mod PGSIZE = 0 /\ last mod PGSIZE = 0 /\ 0 <= a <= last /\ last + PGSIZE <= W32)
    as (Ha & Hl & Hal & Hlw) by (unfold a, last, W32, PGSIZE in *; Z.div_mod_to_equations; lia).
  rewrite u32_small by (unfold PGSIZE in *; lia).
  set (n := Z.to_nat ((last - a) / PGSIZE)) in *.
  assert (last = a + Z.of_nat n * PGSIZE) as El
    by (unfold n, PGSIZE in *; Z.div_mod_to_equations; lia).
  destruct (map_loop pt bc fs cn o i pgdir n hw km l a pa perm last)
    as (r & k & hw' & km' & l' & E & Hr' & Hs' & Hk & Hm); try done; try lia.
  { intros va' Hv. apply Hab. lia. }
  exists r, k, hw', km', l'. split; [done|]. split; [done|]. split; [done|]. split; [|done].
  destruct Hk as [?|(? & ? & ?)]; [by left|right; lia].
Qed.

(** C14: [copyout] to a range of user memory of a page table whose user pages
    have frames of their own always ends.  It returns 0 with every byte of the
    buffer at its user address, or stops with -1 at the first page that is
    not present and user accessible, with the bytes before that page
    copied.  No other byte of memory changes and no translation does. *)
Theorem copyout_writes pt bc fs cn o hw km pgdir va buf :
  user_frames (km_mem km) pgdir -> 0 <= va -> va + Z.of_nat (length buf) <= W32 ->
  (forall x, 0 <= x < W32 -> pte_addr (km_mem km) pgdir x <> Some 0) ->
  (forall x, va <= x < va + Z.of_nat (length buf) -> pte_addr (km_mem km) pgdir x <> None) ->
  exists r k m',
    copyout pgdir va buf (W hw pt km bc fs cn o) =
      Ok r (W hw pt (set_km_mem m' km) bc fs cn o) /\
    copied pgdir (km_mem km) m' va buf k /\
    (forall j, (j < k)%nat -> user (pte_of (km_mem km) pgdir (va + Z.of_nat j)) = true) /\
    (r = 0 /\ k = length buf \/
     r = -1 /\ (k < length buf)%nat /\ user (pte_of (km_mem km) pgdir (va + Z.of_nat k)) = false).
Proof. intros Hf Hva Hw Hz Hex. by apply copyout_loop; try lia. Qed.

(** ** The properties at work *)

Lemma km_one_zero x : ~ page_a <= x < page_a + PGSIZE -> km_mem km_one x = 0.
Proof.
  intros Hx. unfold km_one, freed. cbn [km_mem set_km_freelist set_km_mem km0].
  rewrite store32_byte. rewrite decide_False by (unfold page_a, PGSIZE in *; lia).
  rewrite memset_byte by done. by rewrite decide_False.
Qed.

Lemma vm_ready_ex : vm_ready hw_run km_one [page_a] 0 page_b.
Proof.
  assert (forall i, 0 <= i < 1024 -> pde_at (km_mem km_one) page_b i = 0) as Hz.
  { intros i Hi. unfold pde_at, load32.
    rewrite !km_one_zero by (unfold page_a, page_b, PGSIZE; lia). done. }
  split; [eexists; apply here_run|apply ready_run|apply km_one_inv|].
  split; [split; [apply page_b_ok|]| |].
  - intros [E|E%not_elem_of_nil]%elem_of_cons; [discriminate E|done].
  - intros i Hi. rewrite Hz by done. done.
  - intros i j Hi Hj. rewrite Hz by done. done.
Qed.

Lemma mappages_translates_witness :
  exists r k hw' km' l',
    mappages page_b 0 1 0x117000 6 (W hw_run pt0 km_one bc0 fs0 cn0 []) =
      Ok r (W hw' pt0 km' bc0 fs0 cn0 []) /\ vm_ready hw' km' l' 0 page_b /\
    (r = 0 /\ k = 1%nat \/ r = -1 /\ (k < 1)%nat /\ (1 < 1)%nat).
Proof.
  destruct (mappages_translates pt0 bc0 fs0 cn0 [] 0 hw_run km_one [page_a] page_b 0 1 0x117000 6
    vm_ready_ex) as (r & k & hw' & km' & l' & E & Hr & _ & Hk & _);
    [lia|lia|unfold W32; lia|done|lia|by vm_compute|by vm_compute| |].
  { change (pages_of 0 1) with 1%nat. change (PGROUNDDOWN 0) with 0. intros va' Hv.
    unfold pte_of, pte_addr. cbn zeta. rewrite PDX_div.
    assert (va' / 4194304 = 0) as -> by (unfold PGSIZE in *; Z.div_mod_to_equations; lia).
    change (0 mod 1024) with 0. unfold pde_at, load32.
    by rewrite !km_one_zero by (unfold page_a, page_b, PGSIZE; lia). }
  exists r, k, hw', km', l'. split; [exact E|]. split; [exact Hr|exact Hk].
Defined.

(** A directory with one table, which maps page 0 to a frame of its own. *)
Definition page_c : Z := 0x80117000.
Definition user_mem : mem :=
  store32 (store32 (fun _ => 0) page_b (entry (V2P page_a) 6)) page_a (entry (V2P page_c) 6).

Lemma user_mem_at x j : x = page_b \/ x = page_a -> 0 <= j < 1024 ->
  load32 user_mem (x + 4 * j) =
  if decide (j = 0) then entry (V2P (if decide (x = page_b) then page_a else page_c)) 6 else 0.
Proof.
  unfold user_mem. intros Hx Hj. destruct (decide (j = 0)) as [->|].
  - destruct Hx as [-> | ->]; [|by vm_compute]. by vm_compute.
  - rewrite !load32_store32_ne by (unfold page_a, page_b in *; lia). done.
Qed.

Lemma user_pte va :
  0 <= va < W32 -> pte_of user_mem page_b va =
  if decide (va / PGSIZE = 0) then entry (V2P page_c) 6 else 0.
Proof.
  intros Hva. unfold pte_of, pte_addr, pde_at. cbn zeta. pose proof (PDX_range va). pose proof (PTX_range va).
  rewrite user_mem_at by (done || by left). destruct (same_page va 0 Hva ltac:(done)) as [H1 H2].
  change (PDX 0) with 0 in *. change (PTX 0) with 0 in *. change (0 / PGSIZE) with 0 in *.
  destruct (decide (PDX va = 0)).
  - rewrite decide_True by done. rewrite entry_present.
    change (table (entry (V2P page_a) 6)) with page_a. rewrite user_mem_at by (done || by right).
    rewrite (decide_False (P := page_a = page_b)) by done.
    destruct (decide (PTX va = 0)); [rewrite decide_True by auto; done|].
    rewrite decide_False; [done|]. intros E. by destruct (H2 E).
  - rewrite decide_False; [done|]. intros E. by destruct (H2 E).
Qed.

Lemma user_pde i : 0 <= i < 1024 -> present (pde_at user_mem page_b i) = true ->
  i = 0 /\ table (pde_at user_mem page_b i) = page_a.
Proof.
  intros Hi. unfold pde_at. rewrite user_mem_at by (done || by left).
  by destruct (decide (i = 0)).
Qed.

Lemma user_frames_ex : user_frames user_mem page_b.
Proof.
  split; [done| | |].
  - intros i Hi Hp. by destruct (user_pde i Hi Hp) as [_ ->].
  - intros va Hva. rewrite user_pte by done. destruct (decide (va / PGSIZE = 0)); [|done]. intros _.
    cbn zeta. split; [done|]. split; [done|]. split; [done|].
    intros i Hi Hp. by destruct (user_pde i Hi Hp) as [_ ->].
  - intros va va' Hva Hva'. rewrite !user_pte by done.
    destruct (decide (va / PGSIZE = 0)); [|done]. by destruct (decide (va' / PGSIZE = 0)); [congruence|].
Qed.

Lemma copyout_writes_witness :
  exists r k m',
    copyout page_b 4090 [1; 2; 3] (W hw_run pt0 (set_km_mem user_mem km0) bc0 fs0 cn0 []) =
      Ok r (W hw_run pt0 (set_km_mem m' (set_km_mem user_mem km0)) bc0 fs0 cn0 []) /\
    copied page_b user_mem m' 4090 [1; 2; 3] k.
Proof.
  destruct (copyout_writes pt0 bc0 fs0 cn0 [] hw_run (set_km_mem user_mem km0) page_b 4090 [1; 2; 3]
    user_frames_ex) as (r & k & m' & E & Hc & _); [lia|by vm_compute| | |].
  - intros x Hx. unfold pte_addr. cbn [km_mem set_km_mem].
    destruct (present _) eqn:E; [|done]. apply user_pde in E as [_ ->]; [|apply PDX_range].
    intros [= E]. pose proof (PTX_range x). unfold page_a in E. lia.
  - intros x Hx. unfold pte_addr. cbn [km_mem set_km_mem length] in *. rewrite PDX_div.
    assert (x / 4194304 = 0) as -> by (Z.div_mod_to_equations; lia).
    change (0 mod 1024) with 0. unfold pde_at. rewrite user_mem_at by (lia || by left).
    cbv zeta. rewrite decide_True, entry_present by done. discriminate.
  - exists r, k, m'. split; [exact E|exact Hc].
Defined.
