(* ===== verification/Sched.v ===== *)
(** * The process table and the scheduler

    The part of [proc.c] that allocates table entries and moves threads
    between states: [allocproc], [tallocproc], [sched], [yield], [sleep],
    [wakeup], [kill], the loop of [scheduler], the process metrics and
    [procdump].  [swtch] (assembly) is the moment the rest of the machine
    runs: [others_run]. *)

From stdpp Require Import prelude list gmap strings.
From Stdlib Require Import ZArith Lia.
From S2P Require Import Prelude State Boot Spinlock Str Kalloc Cprintf Vm.
#[local] Open Scope c_scope.

Definition pinit : K unit :=
  initlock LPtable "ptable" ;;
  initlock LSltable "sltable" ;;
  initlock LSemtable "semtable".

Definition is_state (s : procstate) (p : proc) : bool := bool_decide (p_state p = s).

Definition init_proc_metrics (p : nat) : K unit :=
  t <- getpt pt_ticks ;;
  updp p (set_p_startTime t) ;;
  updp p (set_p_waitTime 0) ;;
  updp p (set_p_lastWait 0).

(** The sizes of the structures on the kernel stack. *)
Definition sizeof_trapframe : Z := 76.
Definition sizeof_context : Z := 20.

(** [for(p = ptable.proc; ...; p++) if(p->state == UNUSED) goto found;] *)
Definition find_unused : K (option nat) :=
  for_ NPROC 0 (fun i =>
    p <- getp i ;; ret (if is_state UNUSED p then Some i else None)).

(** The second half of [allocproc] and [tallocproc]: the kernel stack. *)
Definition setup_kstack (p : nat) : K (option nat) :=
  ks <- kalloc ;;
  updp p (set_p_kstack ks) ;;
  if ks =? 0 then updp p (set_p_state UNUSED) ;; ret None else
  let sp := ks + KSTACKSIZE in
  let sp := sp - sizeof_trapframe in
  updp p (set_p_tfp sp) ;;
  let sp := sp - 4 in
  tr <- getkm km_trapret ;;
  store_word sp tr ;;
  let sp := sp - sizeof_context in
  updp p (set_p_contextp sp) ;;
  fr <- getkm km_forkret ;;
  updp p (set_p_context (set_x_eip fr (mk_context 0 0 0 0 0))) ;;
  ret (Some p).

(** Look in the process table for an UNUSED proc. *)
Definition allocproc : K (option nat) :=
  acquire LPtable ;;
  r <- find_unused ;;
  match r with
  | None => release LPtable ;; ret None
  | Some p =>
    updp p (set_p_state EMBRYO) ;;
    n <- getpt pt_nextpid ;;
    updp p (set_p_pid n) ;;
    updpt (set_pt_nextpid (n + 1)) ;;
    init_proc_metrics p ;;
    release LPtable ;;
    setup_kstack p
  end.

(** The same for a thread, which keeps its creator's pid. *)
Definition tallocproc : K (option nat) :=
  acquire LPtable ;;
  r <- find_unused ;;
  match r with
  | None => release LPtable ;; ret None
  | Some p =>
    updp p (set_p_state EMBRYO) ;;
    init_proc_metrics p ;;
    release LPtable ;;
    setup_kstack p
  end.

(** ** Context switches *)

(** Enter the scheduler; must hold only ptable.lock and have changed
    proc->state. *)
Definition sched : K unit :=
  p <- myproc ;;
  h <- holding LPtable ;;
  if negb h then panic "sched ptable.lock" else
  i <- mycpu ;;
  c <- getcpu i ;;
  if negb (c_ncli c =? 1) then panic "sched locks" else
  pi <- deref "sched: no process" p ;;
  pr <- getp pi ;;
  if is_state RUNNING pr then panic "sched running" else
  e <- readeflags ;;
  if negb (Z.land e FL_IF =? 0) then panic "sched interruptible" else
  i <- mycpu ;;
  c <- getcpu i ;;
  let intena := c_intena c in
  others_run (fun w => Asleep w) ;;
  i <- mycpu ;;
  updcpu i (set_c_intena intena).

(** Give up the CPU for one scheduling round. *)
Definition yield : K unit :=
  p <- myproc ;;
  (match p with
   | None => ret tt
   | Some _ =>
     t <- getpt pt_ticks ;;
     p <- myproc ;;
     p <- deref "yield" p ;;
     updp p (set_p_lastWait t)
   end) ;;
  acquire LPtable ;;
  p <- myproc ;;
  p <- deref "yield" p ;;
  updp p (set_p_state RUNNABLE) ;;
  sched ;;
  release LPtable.

(** Atomically release lock and sleep on [ch]; reacquires lock when
    awakened. *)
Definition sleep (ch : chan) (lk : option lockid) : K unit :=
  p <- myproc ;;
  match p with
  | None => panic "sleep"
  | Some p =>
    match lk with
    | None => panic "sleep without lk"
    | Some lk =>
      (if decide (lk = LPtable) then ret tt
       else acquire LPtable ;; release lk) ;;
      updp p (set_p_chan ch) ;;
      updp p (set_p_state SLEEPING) ;;
      sched ;;
      updp p (set_p_chan ChNull) ;;
      (if decide (lk = LPtable) then ret tt
       else release LPtable ;; acquire lk)
    end
  end.

(** Wake up all processes sleeping on [ch]; the ptable lock must be held. *)
Definition wakeup1 (ch : chan) : K unit :=
  each_ NPROC 0 (fun i =>
    p <- getp i ;;
    if is_state SLEEPING p && bool_decide (p_chan p = ch)
    then updp i (set_p_state RUNNABLE) else ret tt).

Definition wakeup (ch : chan) : K unit :=
  acquire LPtable ;;
  wakeup1 ch ;;
  release LPtable.

(** Kill the process with the given pid. *)
Definition kill (pid : Z) : K Z :=
  acquire LPtable ;;
  r <- for_ NPROC 0 (fun i =>
    p <- getp i ;;
    if p_pid p =? pid then
      updp i (set_p_killed 1) ;;
      p <- getp i ;;
      (if is_state SLEEPING p then updp i (set_p_state RUNNABLE) else ret tt) ;;
      release LPtable ;;
      ret (Some 0)
    else ret None) ;;
  match r with
  | Some z => ret z
  | None => release LPtable ;; ret (-1)
  end.

(** The body of the scheduler's loop over the table, for entry [i]. *)
Definition sched_entry (c : nat) (i : nat) : K unit :=
  p <- getp i ;;
  if negb (is_state RUNNABLE p) then ret tt else
  (if negb (p_lastWait p =? 0) then
     t <- getpt pt_ticks ;;
     let waitDiff := u32 (t - p_lastWait p) in
     updp i (fun p => set_p_waitTime (u32 (p_waitTime p + waitDiff)) p) ;;
     t <- getpt pt_ticks ;;
     updp i (set_p_lastWait t)
   else ret tt) ;;
  updcpu c (set_c_proc (Some i)) ;;
  switchuvm (Some i) ;;
  updp i (set_p_state RUNNING) ;;
  others_run (fun w => Asleep w) ;;
  switchkvm ;;
  updcpu c (set_c_proc None).

(** [n] rounds of the scheduler's endless loop. *)
Definition scheduler (n : nat) : K unit :=
  c <- mycpu ;;
  updcpu c (set_c_proc None) ;;
  each_ n 0 (fun _ =>
    sti ;;
    acquire LPtable ;;
    each_ NPROC 0 (sched_entry c) ;;
    release LPtable).

(** ** Metrics and the process listing *)

(** The elapsed and the waiting time [retrieve_process_statistics] reports, or
    its error. *)
Definition process_times : K (option (Z * Z)) :=
  p <- myproc ;;
  p <- deref "retrieve_process_statistics" p ;;
  cp <- getp p ;;
  endTime <- getpt pt_ticks ;;
  if (endTime <? p_startTime cp) || (p_startTime cp =? 0) then ret None else
  ret (Some (u32 (endTime - p_startTime cp), p_waitTime cp)).

Definition state_name (s : procstate) : list Z :=
  match s with
  | UNUSED => s2b "unused" | EMBRYO => s2b "embryo" | SLEEPING => s2b "sleep "
  | RUNNABLE => s2b "runble" | RUNNING => s2b "run   " | ZOMBIE => s2b "zombie"
  | SEM_SLEEPING => s2b "???"
  end.

(** The bytes of a C string up to the NUL. *)
Fixpoint upto_nul (l : list Z) : list Z :=
  match l with
  | [] => []
  | c :: l' => if c =? 0 then [] else c :: upto_nul l'
  end.

Definition procdump : K unit :=
  each_ NPROC 0 (fun i =>
    p <- getp i ;;
    if is_state UNUSED p then ret tt else
    cprintf (s2b "%d %s %s")
      [AInt (p_pid p); AStr (Some (state_name (p_state p)));
       AStr (Some (upto_nul (p_name p)))] ;;
    (if is_state SLEEPING p then
       m <- getkm km_mem ;;
       let pc := getcallerpcs (load32 m) (u32 (x_ebp (p_context p) + 8)) in
       r <- for_ 10 0 (fun i =>
         let v := default 0 (pc !! i) in
         if v =? 0 then ret (Some tt)
         else cprintf (s2b " %p") [AInt v] ;; ret None) ;;
       ret tt
     else ret tt) ;;
    cprintf nl []).

(** ** Equations *)

Section Equations.
Context (bc : bcstate) (fs : fsstate) (cn : cnstate).
Implicit Types (hw : hwstate) (pt : ptstate) (km : kmstate)
  (o : list (kstate -> kstate)).

(** The machine as [sched] requires it: thread [p] runs on processor [i],
    holds ptable.lock and no other lock, and has left [RUNNING]. *)
Record sched_ready (hw : hwstate) (pt : ptstate) (i : nat) (c : cpu)
    (p : nat) (x : proc) : Prop := {
  sr_here : here hw i c;
  sr_lock : lock_mine hw LPtable i;
  sr_ncli : c_ncli c = 1;
  sr_proc : c_proc c = Some p;
  sr_entry : pt_proc pt !! p = Some x;
  sr_state : p_state x <> RUNNING;
}.

(** Up to the switch, [sched] changes nothing. *)
Lemma sched_switch hw pt km o i c p x :
  sched_ready hw pt i c p x ->
  sched (W hw pt km bc fs cn o) =
  (others_run (fun w => Asleep w) ;;
   i <- mycpu ;; updcpu i (set_c_intena (c_intena c)))%c (W hw pt km bc fs cn o).
Proof.
  intros [Hh [Hl1 Hl2] Hn Hp Hx Hs]. pose proof Hh as (Hc & _ & Ho).
  assert (irq_off hw) as Hoff by (apply Ho; lia).
  assert (touch i hw = hw) as Ht by (eapply touch_id; [done|lia]).
  unfold sched. kcall myproc_ok by done. rewrite Ht. kcall holding_ok by done.
  rewrite Ht, Hl1, Hl2, bool_decide_eq_true_2 by done. cbn [Z.eqb negb andb].
  kcall mycpu_ok by done. kcall getcpu_ok by apply Hc. rewrite Hn. cbn [Z.eqb negb Pos.eqb].
  rewrite Hp. cbn [deref]. krun. kcall getp_ok by done.
  unfold is_state. rewrite bool_decide_eq_false_2 by done.
  unfold readeflags. krun. unfold irq_off in Hoff. rewrite Hoff. cbn [Z.eqb negb].
  kcall mycpu_ok by done. kcall getcpu_ok by apply Hc. done.
Qed.

(** When no one ever switches back, the thread sleeps in the state it left. *)
Lemma sched_asleep hw pt km i c p x :
  sched_ready hw pt i c p x ->
  sched (W hw pt km bc fs cn []) = Asleep (W hw pt km bc fs cn []).
Proof. intros H. by erewrite sched_switch. Qed.

(** When the others bring the machine to state [k'] and switch back on
    processor [j], the thread goes on there with its own saved flag. *)
Lemma sched_resume hw pt km o i c p x f hw' pt' km' bc' fs' cn' j c' :
  sched_ready hw pt i c p x ->
  f (mk_k hw pt km bc fs cn) = mk_k hw' pt' km' bc' fs' cn' ->
  cpu_here hw' j c' -> irq_off hw' ->
  sched (W hw pt km bc fs cn (f :: o)) =
  Ok tt (W (set_hw_cpus (alter (set_c_intena (c_intena c)) j (hw_cpus hw')) hw')
           pt' km' bc' fs' cn' o).
Proof.
  intros H Hf Hj Ho. erewrite sched_switch by done.
  erewrite bind_ok; [|unfold others_run; cbn; by rewrite Hf].
  kcall mycpu_ok by done. unfold updcpu. by krun.
Qed.
(** ** Loops over the process table *)

Definition procs_ok (pt : ptstate) : Prop := length (pt_proc pt) = NPROC.

Lemma each_procs hw pt km o (P : proc -> bool) f :
  procs_ok pt ->
  each_ NPROC 0 (fun i => p <- getp i ;; if P p then updp i f else ret tt)%c
    (W hw pt km bc fs cn o) =
  Ok tt (W hw (set_pt_proc (map_if P f <$> pt_proc pt) pt) km bc fs cn o).
Proof.
  intros <-. destruct pt as [l ??????]. cbn [pt_proc set_pt_proc].
  apply (each_table (fun l => W hw (mk_pt l _ _ _ _ _ _) km bc fs cn o) _ _ [] l).
  clear l. intros l j x Hx. kcall getp_ok by exact Hx. rewrite (alter_map_if _ _ _ _ _ Hx).
  by destruct (P x).
Qed.

(** The threads a wakeup of channel [ch] concerns. *)
Definition sleeps_on (ch : chan) (p : proc) : bool :=
  is_state SLEEPING p && bool_decide (p_chan p = ch).
Definition woken (ch : chan) : proc -> proc := map_if (sleeps_on ch) (set_p_state RUNNABLE).
Definition wakeup_pt (ch : chan) (pt : ptstate) : ptstate :=
  set_pt_proc (woken ch <$> pt_proc pt) pt.

Lemma wakeup1_eq hw pt km o ch :
  procs_ok pt ->
  wakeup1 ch (W hw pt km bc fs cn o) = Ok tt (W hw (wakeup_pt ch pt) km bc fs cn o).
Proof. apply each_procs. Qed.

Lemma wakeup_eq hw pt km o i c ch :
  here hw i c -> lock_free hw LPtable -> procs_ok pt ->
  wakeup ch (W hw pt km bc fs cn o) =
  Ok tt (W (touch i hw) (wakeup_pt ch pt) km bc fs cn o).
Proof.
  intros Hh Hl Hp. unfold wakeup. kcall acquire_ok by (done || apply Hl).
  kcall wakeup1_eq by done. by eapply release_acquired.
Qed.

(** ** Searching the table *)

Lemma find_unused_eq hw pt km o :
  procs_ok pt ->
  find_unused (W hw pt km bc fs cn o) =
  Ok (find_idx (is_state UNUSED) (pt_proc pt)) (W hw pt km bc fs cn o).
Proof.
  intros Hn. apply for_find; [done|]. intros j x Hx. kcall getp_ok by exact Hx. done.
Qed.

(** What [kill] does to the entry it finds. *)
Definition killed (p : proc) : proc :=
  map_if (is_state SLEEPING) (set_p_state RUNNABLE) (set_p_killed 1 p).

Definition kill_body (pid : Z) (i : nat) : K (option Z) :=
  p <- getp i ;;
  if p_pid p =? pid then
    updp i (set_p_killed 1) ;;
    p <- getp i ;;
    (if is_state SLEEPING p then updp i (set_p_state RUNNABLE) else ret tt) ;;
    release LPtable ;;
    ret (Some 0)
  else ret None.

Lemma kill_body_found hw pt km o i c j x pid :
  here hw i c -> lock_free hw LPtable -> pt_proc pt !! j = Some x -> p_pid x = pid ->
  kill_body pid j (W (hw_acquire LPtable i hw) pt km bc fs cn o) =
  Ok (Some 0) (W (touch i hw) (set_pt_proc (alter killed j (pt_proc pt)) pt) km bc fs cn o).
Proof.
  intros Hh Hl Hx <-. unfold kill_body. kcall getp_ok by exact Hx. rewrite Z.eqb_refl.
  unfold updp at 1. krun.
  kcall getp_ok by (cbn; by rewrite list_lookup_alter_eq, Hx).
  assert (alter killed j (pt_proc pt) =
    alter (map_if (is_state SLEEPING) (set_p_state RUNNABLE)) j
      (alter (set_p_killed 1) j (pt_proc pt))) as ->.
  { rewrite list_alter_alter_eq. done. }
  rewrite (alter_map_if _ _ _ _ (set_p_killed 1 x)) by (by rewrite list_lookup_alter_eq, Hx).
  destruct (is_state SLEEPING (set_p_killed 1 x)); unfold updp; krun;
    (kcall release_acquired by done); done.
Qed.

Lemma kill_loop hw km pid i c pt o n k :
  here hw i c -> lock_free hw LPtable -> (length (pt_proc pt) = k + n)%nat ->
  (forall j x, (j < k)%nat -> pt_proc pt !! j = Some x -> p_pid x <> pid) ->
  for_ n k (kill_body pid) (W (hw_acquire LPtable i hw) pt km bc fs cn o) =
  match find_idx (fun p => p_pid p =? pid) (pt_proc pt) with
  | Some j => Ok (Some 0) (W (touch i hw) (set_pt_proc (alter killed j (pt_proc pt)) pt)
                             km bc fs cn o)
  | None => Ok None (W (hw_acquire LPtable i hw) pt km bc fs cn o)
  end.
Proof.
  intros Hh Hl. revert k. induction n as [|n IH]; intros k Hlen Hk; cbn [for_].
  - rewrite (proj2 (find_from_None _ _ _)); [done|].
    intros x [j Hj]%list_elem_of_lookup. apply Z.eqb_neq, (Hk j); [|done].
    apply lookup_lt_Some in Hj. lia.
  - destruct (lookup_lt_is_Some_2 (pt_proc pt) k) as [x Hx]; [lia|].
    destruct (decide (p_pid x = pid)) as [E|E].
    + erewrite bind_ok by (by eapply kill_body_found).
      rewrite (find_first (fun p => p_pid p =? pid) _ k x Hx); [done|by apply Z.eqb_eq|].
      intros j y Hj Hy. by apply Z.eqb_neq, (Hk j).
    + erewrite bind_ok.
      2: { unfold kill_body. kcall getp_ok by exact Hx.
           destruct (Z.eqb_spec (p_pid x) pid); done. }
      apply IH; [lia|]. intros j y Hj Hy. destruct (decide (j = k)) as [->|]; [by simplify_eq|].
      apply (Hk j); [lia|done].
Qed.

Lemma kill_eq hw pt km o i c pid :
  here hw i c -> lock_free hw LPtable -> procs_ok pt ->
  kill pid (W hw pt km bc fs cn o) =
  match find_idx (fun p => p_pid p =? pid) (pt_proc pt) with
  | Some j => Ok 0 (W (touch i hw) (set_pt_proc (alter killed j (pt_proc pt)) pt)
                      km bc fs cn o)
  | None => Ok (-1) (W (touch i hw) pt km bc fs cn o)
  end.
Proof.
  intros Hh Hl Hp. unfold kill. kcall acquire_ok by (done || apply Hl).
  fold (kill_body pid). unfold bind at 1. erewrite kill_loop; [|done..|lia].
  destruct (find_idx _ _); [done|]. kcall release_acquired by done. done.
Qed.
(** ** Allocating an entry *)

(** The entry [allocproc] takes, before it has a kernel stack. *)
Definition embryo (pid t : Z) (x : proc) : proc :=
  x |> set_p_state EMBRYO |> set_p_pid pid |> set_p_startTime t
    |> set_p_waitTime 0 |> set_p_lastWait 0.
Definition take_pt (p : nat) (pt : ptstate) : ptstate :=
  pt |> set_pt_proc (alter (embryo (pt_nextpid pt) (pt_ticks pt)) p (pt_proc pt))
     |> set_pt_nextpid (pt_nextpid pt + 1).

(** The entry with its kernel stack page [ks]. *)
Definition stacked (ks fr : Z) (x : proc) : proc :=
  x |> set_p_kstack ks |> set_p_tfp (ks + KSTACKSIZE - sizeof_trapframe)
    |> set_p_contextp (ks + KSTACKSIZE - sizeof_trapframe - 4 - sizeof_context)
    |> set_p_context (mk_context 0 0 0 0 fr).
Definition trapret_slot (ks : Z) : Z := ks + KSTACKSIZE - sizeof_trapframe - 4.

Lemma allocproc_full hw pt km o i c :
  here hw i c -> lock_free hw LPtable -> procs_ok pt ->
  find_idx (is_state UNUSED) (pt_proc pt) = None ->
  allocproc (W hw pt km bc fs cn o) = Ok None (W (touch i hw) pt km bc fs cn o).
Proof.
  intros Hh Hl Hp Hf. unfold allocproc. kcall acquire_ok by (done || apply Hl).
  kcall find_unused_eq by done. rewrite Hf. kcall release_acquired by done. done.
Qed.

Lemma allocproc_take hw pt km o i c p :
  here hw i c -> lock_free hw LPtable -> procs_ok pt ->
  find_idx (is_state UNUSED) (pt_proc pt) = Some p ->
  allocproc (W hw pt km bc fs cn o) =
  setup_kstack p (W (touch i hw) (take_pt p pt) km bc fs cn o).
Proof.
  intros Hh Hl Hp Hf. unfold allocproc. kcall acquire_ok by (done || apply Hl).
  kcall find_unused_eq by done. rewrite Hf. unfold init_proc_metrics, updp. krun.
  kcall release_acquired by done. unfold take_pt, set_pt_proc, set_pt_nextpid. cbn.
  rewrite !list_alter_alter_eq. done.
Qed.

Lemma setup_kstack_ok hw pt km o i c p ks l :
  here hw i c -> kmem_ready hw km -> kmem_inv km (ks :: l) ->
  setup_kstack p (W hw pt km bc fs cn o) =
  Ok (Some p)
     (W (lk_touch (km_use_lock km) i hw)
        (set_pt_proc (alter (stacked ks (km_forkret km)) p (pt_proc pt)) pt)
        (set_km_mem (store32 (km_mem km) (trapret_slot ks) (km_trapret km)) (km_pop km ks))
        bc fs cn o).
Proof.
  intros Hh Hr Hi. unfold setup_kstack, store_word, updp. kcall kalloc_eq by done.
  destruct (kmem_inv_alloc _ _ _ Hi) as (-> & Hp & _). pose proof (page_pos _ _ Hp).
  destruct (Z.eqb_spec ks 0); [lia|]. krun. rewrite !list_alter_alter_eq. done.
Qed.

Lemma setup_kstack_none hw pt km o i c p :
  here hw i c -> kmem_ready hw km -> kmem_inv km [] ->
  setup_kstack p (W hw pt km bc fs cn o) =
  Ok None (W (lk_touch (km_use_lock km) i hw)
     (set_pt_proc (alter (fun x => x |> set_p_kstack 0 |> set_p_state UNUSED) p (pt_proc pt)) pt)
     km bc fs cn o).
Proof.
  intros Hh Hr Hi. unfold setup_kstack, updp. kcall kalloc_eq by done.
  pose proof (ki_linked _ _ Hi) as E. cbn in E. rewrite E. cbn [Z.eqb]. krun.
  rewrite !list_alter_alter_eq. done.
Qed.

(** ** Sleeping *)

(** Thread [p] runs on processor [i] and holds exactly the lock [lk], which it
    took in state [hw]. *)
Record sleep_ready (hw : hwstate) (pt : ptstate) (i : nat) (c : cpu)
    (lk : lockid) (p : nat) (x : proc) : Prop := {
  sl_here : here hw i c;
  sl_ncli : c_ncli c = 0;
  sl_proc : c_proc c = Some p;
  sl_entry : pt_proc pt !! p = Some x;
  sl_lk : lock_free hw lk;
  sl_ptable : lock_free hw LPtable;
  sl_ne : lk <> LPtable;
}.

Definition asleep_pt (p : nat) (ch : chan) (pt : ptstate) : ptstate :=
  set_pt_proc (alter (fun x => x |> set_p_chan ch |> set_p_state SLEEPING) p (pt_proc pt)) pt.

Lemma touch_acquire lk i hw c : here hw i c -> touch i (hw_acquire lk i hw) = hw_acquire lk i hw.
Proof.
  intros Hh. eapply touch_id; [by apply here_acquire|]. destruct Hh as (_ & ? & _). cbn. lia.
Qed.

(** [sleep] gives up its lock, and marks itself as sleeping under ptable.lock
    before it enters the scheduler. *)
Lemma sleep_enter hw pt km o i c lk p x ch :
  sleep_ready hw pt i c lk p x ->
  sleep ch (Some lk) (W (hw_acquire lk i hw) pt km bc fs cn o) =
  (sched ;; updp p (set_p_chan ChNull) ;; release LPtable ;; acquire lk)%c
    (W (hw_acquire LPtable i hw) (asleep_pt p ch pt) km bc fs cn o).
Proof.
  intros [Hh Hn Hp Hx Hl Ht Hne]. unfold sleep.
  kcall myproc_ok by (by apply here_acquire). cbn [c_proc pushed set_c_intena set_c_ncli].
  rewrite Hp. erewrite touch_acquire by done. rewrite decide_False by done. krun.
  kcall acquire_ok by
    first [by apply here_acquire | cbn; rewrite fn_upd_ne by done; apply Ht].
  kcall release_outer by done. unfold updp at 1 2. krun.
  unfold asleep_pt. rewrite list_alter_alter_eq. unfold compose.
  apply bind_ext. intros [] w. apply bind_ext. intros [] w'. rewrite decide_False by done. done.
Qed.

Lemma sleep_sched_ready hw pt i c lk p x ch :
  sleep_ready hw pt i c lk p x ->
  sched_ready (hw_acquire LPtable i hw) (asleep_pt p ch pt) i (pushed hw c) p
    (x |> set_p_chan ch |> set_p_state SLEEPING).
Proof.
  intros [Hh Hn Hp Hx Hl Ht Hne]. split; [by apply here_acquire|apply lock_mine_acquire| | | |].
  - cbn. by rewrite Hn.
  - done.
  - cbn. by rewrite list_lookup_alter_eq, Hx.
  - done.
Qed.
End Equations.

(** Leaving the only critical section of processor [j]. *)
Lemma here_pop_last hw j c :
  here hw j c -> c_ncli c = 1 -> here (hw_pop j c hw) j (set_c_ncli 0 c).
Proof.
  intros (Hc & _ & _) Hn. split; [|split; [done|cbn; lia]].
  replace (set_c_ncli 0 c) with (set_c_ncli (c_ncli c - 1) c) by (rewrite Hn; done).
  apply (cpu_here_alter (set_hw_eflags _ hw) j c (fun c => set_c_ncli (c_ncli c - 1) c)); done.
Qed.

(** The way back from [sleep]: switched back to on processor [j], the thread
    passes from ptable.lock to its own lock. *)
Lemma sleep_resume bc fs cn hw pt km o i c lk p x ch f hw' pt' km' bc' fs' cn' j c' :
  sleep_ready hw pt i c lk p x ->
  f (mk_k (hw_acquire LPtable i hw) (asleep_pt p ch pt) km bc fs cn) =
    mk_k hw' pt' km' bc' fs' cn' ->
  here hw' j c' -> c_ncli c' = 1 -> lock_mine hw' LPtable j -> lock_free hw' lk ->
  exists hw2 c2,
    sleep ch (Some lk) (W (hw_acquire lk i hw) pt km bc fs cn (f :: o)) =
      Ok tt (W (hw_acquire lk j hw2)
               (set_pt_proc (alter (set_p_chan ChNull) p (pt_proc pt')) pt')
               km' bc' fs' cn' o) /\
    here hw2 j c2 /\ c_ncli c2 = 0 /\ c_proc c2 = c_proc c' /\
    lock_free hw2 LPtable /\ lock_free hw2 lk.
Proof.
  intros Hs Hf Hh Hn Hm Hlk. pose proof (sl_ne _ _ _ _ _ _ _ Hs) as Hne.
  pose proof (sleep_sched_ready hw pt i c lk p x ch Hs) as Hready.
  rewrite (sleep_enter _ _ _ _ _ _ _ _ _ _ _ _ _ Hs). pose proof Hh as (Hcpu & _ & Ho).
  erewrite bind_ok by (eapply sched_resume; [done|done|done|apply Ho; lia]).
  set (hwr := set_hw_cpus _ hw'). set (v := c_intena (pushed hw c)).
  assert (here hwr j (set_c_intena v c')) as Hr.
  { split; [by apply (cpu_here_alter hw')|]. split; [cbn; lia|exact Ho]. }
  unfold updp. krun. kcall release_ok by (exact Hr || (cbn; lia) || exact Hm).
  set (hwu := set_hw_locks _ hwr).
  pose proof (here_pop_last hwu j _ Hr Hn) as Hpop.
  assert (lock_free hwu lk) as Hfr by (unfold lock_free; cbn; by rewrite fn_upd_ne).
  eexists _, _. split; [eapply acquire_ok; [exact Hpop|apply Hfr]|].
  split; [exact Hpop|]. split; [done|]. split; [done|]. split; [|exact Hfr].
  unfold lock_free. cbn. by rewrite fn_upd_eq.
Qed.

(** ** Properties *)

(** [wakeup(ch)] makes exactly the threads that sleep on [ch] runnable:
    no entry sleeps on [ch] afterwards, every other entry (a thread that waits
    for a semaphore among them) is unchanged, and so is the rest of the
    machine. *)
Theorem wakeup_exact bc fs cn hw pt km o i c ch :
  here hw i c -> lock_free hw LPtable -> procs_ok pt ->
  exists pt',
    wakeup ch (W hw pt km bc fs cn o) = Ok tt (W (touch i hw) pt' km bc fs cn o) /\
    forall j x, pt_proc pt !! j = Some x ->
      exists x', pt_proc pt' !! j = Some x' /\
        (p_state x = SLEEPING -> p_chan x = ch -> x' = set_p_state RUNNABLE x) /\
        (p_state x <> SLEEPING \/ p_chan x <> ch -> x' = x).
Proof.
  intros Hh Hl Hp. exists (wakeup_pt ch pt). split; [by eapply wakeup_eq|].
  intros j x Hx. exists (woken ch x). cbn. rewrite list_lookup_fmap, Hx. split; [done|].
  unfold woken, map_if, sleeps_on, is_state. split.
  - intros -> ->. by rewrite !bool_decide_eq_true_2.
  - intros [H|H]; rewrite (bool_decide_eq_false_2 _ H); [done|by rewrite andb_false_r].
Qed.

(** [kill(pid)] marks the first entry with that pid and wakes it if it
    sleeps on a channel, and returns 0; it leaves every other entry alone, so
    that of several threads with one pid only the first is killed.  When no
    entry has the pid it returns -1 and changes nothing. *)
Theorem kill_first bc fs cn hw pt km o i c pid :
  here hw i c -> lock_free hw LPtable -> procs_ok pt ->
  (exists j x, pt_proc pt !! j = Some x /\ p_pid x = pid /\
     (forall k y, (k < j)%nat -> pt_proc pt !! k = Some y -> p_pid y <> pid) /\
     kill pid (W hw pt km bc fs cn o) =
       Ok 0 (W (touch i hw) (set_pt_proc (<[j := killed x]> (pt_proc pt)) pt) km bc fs cn o)) \/
  (Forall (fun x => p_pid x <> pid) (pt_proc pt) /\
   kill pid (W hw pt km bc fs cn o) = Ok (-1) (W (touch i hw) pt km bc fs cn o)).
Proof.
  intros Hh Hl Hp. rewrite (kill_eq _ _ _ _ _ _ _ _ _ _ Hh Hl Hp).
  destruct (find_idx _ _) as [j|] eqn:E.
  - left. apply find_from_Some in E as (_ & (x & Hx & HP) & Hm). rewrite Nat.sub_0_r in *.
    exists j, x. split; [done|]. split; [by apply Z.eqb_eq|]. split.
    + intros k y Hk Hy. by apply Z.eqb_neq, (Hm k).
    + do 4 f_equal. rewrite list_insert_alter.
      apply list_alter_ext; [|done]. intros y Hy. by simplify_eq.
  - right. split; [|done]. apply Forall_forall. intros x Hx.
    by apply Z.eqb_neq, (proj1 (find_from_None _ _ _) E).
Qed.

(** C28: [allocproc] takes the first unused entry, or returns 0 when there is
    none.  The entry becomes an embryo with the next pid and a kernel stack: a
    page of the allocator, on which the context returns to [forkret] and the
    word above it to [trapret].  When no page is left the entry is unused
    again.  The other entries do not change. *)
Theorem allocproc_spec bc fs cn hw pt km o i c l :
  here hw i c -> lock_free hw LPtable -> procs_ok pt ->
  kmem_ready hw km -> kmem_inv km l -> 0 <= km_trapret km < W32 ->
  match find_idx (is_state UNUSED) (pt_proc pt), l with
  | None, _ => allocproc (W hw pt km bc fs cn o) = Ok None (W (touch i hw) pt km bc fs cn o)
  | Some p, [] => exists x,
      allocproc (W hw pt km bc fs cn o) =
        Ok None (W (touch i hw) (set_pt_nextpid (pt_nextpid pt + 1)
          (set_pt_proc (alter (fun _ => x) p (pt_proc pt)) pt)) km bc fs cn o) /\
      p_state x = UNUSED
  | Some p, ks :: l' => exists x km',
      allocproc (W hw pt km bc fs cn o) =
        Ok (Some p) (W (touch i hw) (set_pt_nextpid (pt_nextpid pt + 1)
          (set_pt_proc (alter (fun _ => x) p (pt_proc pt)) pt)) km' bc fs cn o) /\
      p_state x = EMBRYO /\ p_pid x = pt_nextpid pt /\ p_startTime x = pt_ticks pt /\
      p_kstack x = ks /\ p_tfp x = ks + KSTACKSIZE - 76 /\ p_contextp x = p_tfp x - 24 /\
      x_eip (p_context x) = km_forkret km /\
      load32 (km_mem km') (p_tfp x - 4) = km_trapret km /\ kmem_inv km' l'
  end.
Proof.
  intros Hh Hl Hp Hr Hi Ht.
  assert (kmem_ready (touch i hw) km) as Hr' by exact Hr.
  pose proof (here_touch _ _ _ Hh) as Hh'.
  assert (lk_touch (km_use_lock km) i (touch i hw) = touch i hw) as Htt
    by (destruct (km_use_lock km); [apply touch_touch|done]).
  destruct (find_idx _ _) as [p|] eqn:E; [|by eapply allocproc_full].
  destruct (find_from_Some _ _ _ _ E) as (_ & (y & Hy & _) & _). rewrite Nat.sub_0_r in Hy.
  rewrite (allocproc_take _ _ _ _ _ _ _ _ _ _ Hh Hl Hp E). destruct l as [|ks l'].
  - erewrite setup_kstack_none by done. rewrite Htt. unfold take_pt.
    cbn [pt_proc set_pt_proc set_pt_nextpid].
    rewrite (alter_alter_lookup _ _ _ _ _ Hy). eexists. split; done.
  - erewrite setup_kstack_ok by done. rewrite Htt. unfold take_pt.
    cbn [pt_proc set_pt_proc set_pt_nextpid].
    rewrite (alter_alter_lookup _ _ _ _ _ Hy). eexists _, _. split; [reflexivity|].
    do 4 (split; [done|]). split; [done|].
    split; [cbn; unfold sizeof_trapframe, sizeof_context; lia|]. split; [done|].
    destruct (kmem_inv_alloc _ _ _ Hi) as (_ & (Hpg & _) & Hn & Hi'). split.
    + apply load32_store32_eq. done.
    + eapply (kmem_inv_store (km_pop km ks)); [exact Hi'|exact Hpg|done| |];
        unfold trapret_slot, KSTACKSIZE, sizeof_trapframe, PGSIZE; lia.
Qed.

(** [sleep] does not miss a wakeup.  The thread gives up its lock only
    once it holds ptable.lock, and enters the scheduler marked as sleeping on
    [ch]: from there a [wakeup] of [ch] makes it runnable.  When the others
    switch back to it, on any processor, it returns with the lock held again,
    ptable.lock free and no channel. *)
Theorem sleep_wakeup bc fs cn hw pt km o i c lk p x ch f hw' pt' km' bc' fs' cn' j c' :
  sleep_ready hw pt i c lk p x ->
  f (mk_k (hw_acquire LPtable i hw) (asleep_pt p ch pt) km bc fs cn) =
    mk_k hw' pt' km' bc' fs' cn' ->
  here hw' j c' -> c_ncli c' = 1 -> lock_mine hw' LPtable j -> lock_free hw' lk ->
  sleep ch (Some lk) (W (hw_acquire lk i hw) pt km bc fs cn []) =
    Asleep (W (hw_acquire LPtable i hw) (asleep_pt p ch pt) km bc fs cn []) /\
  lock_free (hw_acquire LPtable i hw) lk /\
  pt_proc (wakeup_pt ch (asleep_pt p ch pt)) !! p =
    Some (x |> set_p_chan ch |> set_p_state RUNNABLE) /\
  exists hw2 c2,
    sleep ch (Some lk) (W (hw_acquire lk i hw) pt km bc fs cn (f :: o)) =
      Ok tt (W hw2 (set_pt_proc (alter (set_p_chan ChNull) p (pt_proc pt')) pt')
               km' bc' fs' cn' o) /\
    here hw2 j c2 /\ lock_mine hw2 lk j /\ lock_free hw2 LPtable.
Proof.
  intros Hs Hf Hh Hn Hm Hlk. pose proof (sl_ne _ _ _ _ _ _ _ Hs) as Hne.
  pose proof (sleep_sched_ready hw pt i c lk p x ch Hs) as Hready.
  split; [rewrite (sleep_enter _ _ _ _ _ _ _ _ _ _ _ _ _ Hs); unfold bind;
          by erewrite sched_asleep|].
  split; [apply lock_free_other; [done|apply Hs]|]. split.
  { cbn. rewrite list_lookup_fmap, list_lookup_alter_eq, (sl_entry _ _ _ _ _ _ _ Hs).
    cbn. unfold woken, map_if, sleeps_on, is_state. cbn.
    by rewrite !bool_decide_eq_true_2. }
  destruct (sleep_resume bc fs cn hw pt km o i c lk p x ch f hw' pt' km' bc' fs' cn' j c')
    as (hw2 & c2 & E & H2 & _ & _ & Hp2 & _); try done.
  eexists _, _. split; [exact E|]. split; [apply here_acquire, H2|]. split; [apply lock_mine_acquire|].
  by apply lock_free_other.
Qed.

(** ** The properties at work *)

Definition pt_sleeper : ptstate :=
  set_pt_proc (alter (fun p => p |> set_p_state SLEEPING |> set_p_chan ChTicks |> set_p_pid 2)
    1%nat (pt_proc pt_run)) pt_run.

Lemma wakeup_exact_witness :
  exists pt', wakeup ChTicks (W hw_run pt_sleeper km0 bc0 fs0 cn0 []) =
    Ok tt (W (touch 0 hw_run) pt' km0 bc0 fs0 cn0 []).
Proof.
  destruct (wakeup_exact bc0 fs0 cn0 hw_run pt_sleeper km0 [] 0 c_run ChTicks here_run)
    as (pt' & E & _); [done|reflexivity|]. exists pt'. exact E.
Defined.

Lemma kill_first_witness :
  exists w z, kill 2 (W hw_run pt_sleeper km0 bc0 fs0 cn0 []) = Ok z w.
Proof.
  destruct (kill_first bc0 fs0 cn0 hw_run pt_sleeper km0 [] 0 c_run 2 here_run)
    as [(j & x & _ & _ & _ & E)|[_ E]]; [done|reflexivity| |]; eexists _, _; exact E.
Defined.

Lemma allocproc_spec_witness :
  exists km' x, allocproc (W hw_run pt_run km_one bc0 fs0 cn0 []) =
    Ok (Some 1%nat) (W (touch 0 hw_run) (set_pt_nextpid 2
      (set_pt_proc (alter (fun _ => x) 1%nat (pt_proc pt_run)) pt_run)) km' bc0 fs0 cn0 []) /\
    p_kstack x = page_a /\ kmem_inv km' [].
Proof.
  destruct (allocproc_spec bc0 fs0 cn0 hw_run pt_run km_one [] 0 c_run [page_a] here_run)
    as (x & km' & E & _ & _ & _ & H1 & _ & _ & _ & _ & H2);
    [done|reflexivity|apply ready_run|apply km_one_inv|split; vm_compute; [discriminate|reflexivity]|].
  exists km', x. split; [exact E|]. split; [exact H1|exact H2].
Defined.

(** Thread 0 sleeps on the clock holding tickslock, and is switched back to at
    once. *)
Lemma sleep_wakeup_witness :
  sleep ChTicks (Some LTicks) (W (hw_acquire LTicks 0 hw_run) pt_run km0 bc0 fs0 cn0 []) =
    Asleep (W (hw_acquire LPtable 0 hw_run) (asleep_pt 0 ChTicks pt_run) km0 bc0 fs0 cn0 []).
Proof.
  eapply (sleep_wakeup bc0 fs0 cn0 hw_run pt_run km0 [] 0 c_run LTicks 0 proc_run ChTicks
    (fun k => k) (hw_acquire LPtable 0 hw_run) (asleep_pt 0 ChTicks pt_run) km0 bc0 fs0 cn0 0
    (pushed hw_run c_run));
    [|reflexivity|apply here_acquire, here_run|reflexivity|apply lock_mine_acquire
    |apply lock_free_other; done].
  constructor; try done. apply here_run.
Defined.
