(* ===== verification/Sema.v ===== *)
(** * Semaphores for kernel threads

    The queue and the semaphores of [proc.c]: a circular buffer of at most
    [MAXQ] sleeping threads per semaphore, the table of semaphores, and the
    wait and signal operations that move threads between [SEM_SLEEPING] and
    [RUNNABLE]. *)

From stdpp Require Import prelude list gmap strings.
From Stdlib Require Import ZArith Lia FunctionalExtensionality.
From S2P Require Import Prelude State Boot Spinlock Str Kalloc Cprintf Vm Sched.
#[local] Open Scope c_scope.

(** ** The queue *)

Definition isEmpty (que : queue) : bool := q_count que =? 0.
Definition isFull (que : queue) : bool := q_count que =? MAXQ.

Definition push_back (que : queue) (p : nat) : queue :=
  if negb (isFull que) then
    let que := if q_back que =? MAXQ - 1 then set_q_back (-1) que else que in
    let que := set_q_back (q_back que + 1) que in
    let que := set_q_q (<[Z.to_nat (q_back que) := Some p]> (q_q que)) que in
    set_q_count (q_count que + 1) que
  else que.

Definition pop_front (que : queue) : option nat * queue :=
  if isEmpty que then (None, que) else
  let p := default None (q_q que !! Z.to_nat (q_front que)) in
  let que := set_q_front (q_front que + 1) que in
  let que := if q_front que =? MAXQ then set_q_front 0 que else que in
  (p, set_q_count (q_count que - 1) que).

(** ** Semaphores *)

Definition upd_queue (s : nat) (f : queue -> queue) : K unit :=
  updsem s (fun x => set_sem_queue (f (sem_queue x)) x).

(** The writes of [sem_init] apart from the lock's. *)
Definition sem_fresh (initCount : Z) (s : semaphore) : semaphore :=
  s |> set_sem_count initCount
    |> set_sem_queue (sem_queue s |> set_q_count 0 |> set_q_front 0
                        |> set_q_back (-1)
                        |> set_q_q (replicate (Z.to_nat MAXQ) None))
    |> set_sem_state EMBRYO.

Definition sem_init (s : nat) (initCount : Z) : K unit :=
  initlock (LSem s) "semaphore lock" ;;
  updsem s (sem_fresh initCount).

(** Finds an unused semaphore in the semtable and initializes it. *)
Definition sem_initialize (initCount : Z) : K Z :=
  acquire LSemtable ;;
  r <- for_ KT_TABLESIZE 0 (fun i =>
    s <- getsem i ;;
    if negb (bool_decide (sem_state s = UNUSED)) then ret None else
    sem_init i initCount ;;
    release LSemtable ;;
    ret (Some (Z.of_nat i))) ;;
  match r with
  | Some i => ret i
  | None => release LSemtable ;; ret (-1)
  end.

(** Places the current thread in the sleeping queue of semaphore [s]. *)
Definition sem_sleep (s : nat) : K unit :=
  p <- myproc ;;
  match p with
  | None => panic "sem_sleep"
  | Some p =>
    acquire LPtable ;;
    upd_queue s (fun q => push_back q p) ;;
    release (LSem s) ;;
    updp p (set_p_state SEM_SLEEPING) ;;
    popcli ;;
    sched ;;
    pushcli ;;
    release LPtable ;;
    acquire (LSem s)
  end.

(** Wakes the thread at the front of the queue of [s], if there is one. *)
Definition sem_wakeup (s : nat) : K unit :=
  acquire LPtable ;;
  x <- getsem s ;;
  let (p, q) := pop_front (sem_queue x) in
  upd_queue s (fun _ => q) ;;
  (match p with
   | Some p => updp p (set_p_state RUNNABLE)
   | None => ret tt
   end) ;;
  release LPtable.

(** The count is an [int]: it wraps around at 32 bits. *)
Definition sem_signal (index : nat) : K Z :=
  s <- getsem index ;;
  if bool_decide (sem_state s = UNUSED) then ret (-1) else
  acquire (LSem index) ;;
  updsem index (fun s => set_sem_count (s32 (sem_count s + 1)) s) ;;
  sem_wakeup index ;;
  release (LSem index) ;;
  ret 0.

Definition sem_wait (index : nat) : K Z :=
  s <- getsem index ;;
  if bool_decide (sem_state s = UNUSED) then ret (-1) else
  acquire (LSem index) ;;
  s <- getsem index ;;
  (if sem_count s <=? 0
   then updsem index (fun s => set_sem_count (s32 (sem_count s - 1)) s) ;;
        sem_sleep index
   else updsem index (fun s => set_sem_count (s32 (sem_count s - 1)) s)) ;;
  release (LSem index) ;;
  ret 0.

(** Sets the semtable entry to unused. *)
Definition sem_free (index : nat) : K unit :=
  s <- getsem index ;;
  acquire (LSem index) ;;
  updsem index (set_sem_state UNUSED) ;;
  release (LSem index).

(** The calls the system calls make: interrupts stay off around them. *)
Definition sem_wait_call (index : nat) : K Z :=
  pushcli ;; r <- sem_wait index ;; popcli ;; ret r.
Definition sem_signal_call (index : nat) : K Z :=
  pushcli ;; r <- sem_signal index ;; popcli ;; ret r.

(** ** The queue is a bounded FIFO *)

(** [que] holds the threads [l], oldest first, from [front] on, wrapping
    around at [MAXQ]. *)
Record queue_rep (que : queue) (l : list nat) : Prop := {
  qr_len : length (q_q que) = 7%nat;
  qr_front : 0 <= q_front que < 7;
  qr_back : -1 <= q_back que < 7;
  qr_count : q_count que = Z.of_nat (length l);
  qr_max : (length l <= 7)%nat;
  qr_mod : (q_front que + Z.of_nat (length l) - 1 - q_back que) mod 7 = 0;
  qr_elem : forall k p, l !! k = Some p ->
    q_q que !! Z.to_nat ((q_front que + Z.of_nat k) mod 7) = Some (Some p);
}.

Lemma queue_rep_fresh n s : queue_rep (sem_queue (sem_fresh n s)) [].
Proof. constructor; cbn; try done; lia. Qed.

Lemma push_back_full que l p :
  queue_rep que l -> length l = 7%nat -> push_back que p = que.
Proof.
  intros [] Hl. unfold push_back, isFull. rewrite qr_count0, Hl. done.
Qed.

Lemma push_back_rep que l p :
  queue_rep que l -> (length l < 7)%nat ->
  queue_rep (push_back que p) (l ++ [p]).
Proof.
  intros [Hlen Hf Hb Hc Hm Hmod He] Hlt. unfold push_back, isFull.
  rewrite Hc. unfold MAXQ. destruct (Z.eqb_spec (Z.of_nat (length l)) 7); [lia|].
  cbn [negb]. set (b := if q_back que =? 7 - 1 then -1 else q_back que).
  assert (-1 <= b < 6 /\ (q_front que + Z.of_nat (length l)) mod 7 = b + 1) as [Hb' Hbm].
  { unfold b. destruct (Z.eqb_spec (q_back que) (7 - 1)); Z.div_mod_to_equations; lia. }
  set (que' := if q_back que =? 7 - 1 then _ else _).
  assert (q_back que' = b) as Eb by (unfold que', b; by destruct (_ =? _)).
  assert (q_q que' = q_q que /\ q_front que' = q_front que /\ q_count que' = q_count que)
    as (Eq & Ef & Ec) by (unfold que'; by destruct (_ =? _)).
  constructor; cbn; rewrite ?Eb, ?Eq, ?Ef, ?Ec, ?length_app, ?length_insert; cbn; try lia.
  - Z.div_mod_to_equations. lia.
  - intros k x Hk. apply lookup_app_Some in Hk as [Hk|[Hk1 Hk2]].
    + pose proof (lookup_lt_Some _ _ _ Hk) as Hkl.
      rewrite list_lookup_insert_ne; [by apply He|].
      intros Heq. apply Z2Nat.inj in Heq; [|lia|Z.div_mod_to_equations; lia].
      Z.div_mod_to_equations. lia.
    + apply list_lookup_singleton_Some in Hk2 as [Hk2 <-].
      replace k with (length l) by lia. rewrite Hbm.
      apply list_lookup_insert_eq. lia.
Qed.

Lemma pop_front_rep que l :
  queue_rep que l ->
  match l with
  | [] => pop_front que = (None, que)
  | p :: l' => exists que', pop_front que = (Some p, que') /\ queue_rep que' l'
  end.
Proof.
  intros [Hlen Hf Hb Hc Hm Hmod He]. unfold pop_front, isEmpty. rewrite Hc.
  destruct l as [|p l]; [done|]. cbn [length] in *.
  destruct (Z.eqb_spec (Z.of_nat (S (length l))) 0); [lia|].
  pose proof (He 0%nat p eq_refl) as H0. rewrite Z.add_0_r, Z.mod_small in H0 by lia.
  rewrite H0. cbn [default]. eexists. split; [done|].
  set (f := if q_front que + 1 =? 7 then 0 else q_front que + 1).
  set (que' := if _ =? _ then _ else _).
  assert (q_front que' = f /\ q_q que' = q_q que /\ q_back que' = q_back que /\
          q_count que' = q_count que) as (Ef & Eq & Eb & Ec).
  { unfold que', f, MAXQ. cbn. by destruct (_ =? _). }
  assert (0 <= f < 7 /\ (q_front que + 1) mod 7 = f) as [Hf' Hfm].
  { unfold f. destruct (Z.eqb_spec (q_front que + 1) 7); Z.div_mod_to_equations; lia. }
  constructor; cbn; rewrite ?Ef, ?Eq, ?Eb, ?Ec; try lia.
  - Z.div_mod_to_equations. lia.
  - intros k x Hk. rewrite <- (He (S k) x Hk). f_equal. f_equal.
    rewrite <- Hfm, Z.add_mod_idemp_l by lia. f_equal. lia.
Qed.

(** ** Equations *)

(** The effect of a signal on the tables. *)
Definition signal_sem (x : semaphore) : semaphore :=
  x |> set_sem_count (s32 (sem_count x + 1))
    |> set_sem_queue (snd (pop_front (sem_queue x))).
Definition signal_pt (s : nat) (x : semaphore) (pt : ptstate) : ptstate :=
  let pt' := set_pt_sem (alter (fun _ => signal_sem x) s (pt_sem pt)) pt in
  match fst (pop_front (sem_queue x)) with
  | Some p => set_pt_proc (alter (set_p_state RUNNABLE) p (pt_proc pt)) pt'
  | None => pt'
  end.

Lemma signal_pt_sem s x pt :
  pt_sem (signal_pt s x pt) = alter (fun _ => signal_sem x) s (pt_sem pt).
Proof. unfold signal_pt. by destruct (fst _). Qed.

(** The effect of a wait that blocks, up to the context switch. *)
Definition block_sem (p : nat) (x : semaphore) : semaphore :=
  x |> set_sem_count (s32 (sem_count x - 1))
    |> set_sem_queue (push_back (sem_queue x) p).
Definition block_pt (s p : nat) (x : semaphore) (pt : ptstate) : ptstate :=
  pt |> set_pt_sem (alter (fun _ => block_sem p x) s (pt_sem pt))
     |> set_pt_proc (alter (set_p_state SEM_SLEEPING) p (pt_proc pt)).

Section Equations.
Context (km : kmstate) (bc : bcstate) (fs : fsstate)
  (cn : cnstate) (o : list (kstate -> kstate)).
Implicit Types (hw : hwstate) (pt : ptstate).

Lemma sem_wakeup_eq hw pt i c s x :
  here hw i c -> lock_free hw LPtable -> pt_sem pt !! s = Some x ->
  sem_wakeup s (W hw pt km bc fs cn o) =
  Ok tt (W (touch i hw)
    (let pt' := set_pt_sem (alter (set_sem_queue (snd (pop_front (sem_queue x)))) s
                  (pt_sem pt)) pt in
     match fst (pop_front (sem_queue x)) with
     | Some p => set_pt_proc (alter (set_p_state RUNNABLE) p (pt_proc pt)) pt'
     | None => pt'
     end) km bc fs cn o).
Proof.
  intros Hh Hf Hx. unfold sem_wakeup. kcall acquire_ok by (done || apply Hh || apply Hf).
  kcall getsem_ok by done. destruct (pop_front (sem_queue x)) as [p q]. cbn [fst snd].
  unfold upd_queue, updsem, updp. krun.
  destruct p as [p|]; krun; erewrite release_acquired by (done || apply Hh); done.
Qed.

Lemma sem_signal_eq hw pt i c s x :
  here hw i c -> lock_free hw LPtable -> lock_free hw (LSem s) ->
  pt_sem pt !! s = Some x -> sem_state x <> UNUSED ->
  sem_signal s (W hw pt km bc fs cn o) =
  Ok 0 (W (touch i hw) (signal_pt s x pt) km bc fs cn o).
Proof.
  intros Hh Hf Hfs Hx Hu. unfold sem_signal. kcall getsem_ok by done.
  rewrite bool_decide_eq_false_2 by done.
  kcall acquire_ok by (done || apply Hh || apply Hfs). unfold updsem. krun.
  pose proof (here_acquire hw (LSem s) i c Hh) as Hh'.
  kcall sem_wakeup_eq by (apply Hh' || (by apply lock_free_other) ||
    (ksimpl; rewrite list_lookup_alter_eq, Hx; done)).
  rewrite (touch_id _ _ _ Hh') by (destruct Hh as (_ & ? & _); cbn; lia).
  kcall release_acquired by (done || apply Hh). unfold ret.
  unfold signal_pt, signal_sem. ksimpl. rewrite (alter_alter_lookup _ _ _ _ x) by done.
  by destruct (pop_front (sem_queue x)) as [[p|] q].
Qed.

Lemma sem_signal_unused hw pt s x :
  pt_sem pt !! s = Some x -> sem_state x = UNUSED ->
  sem_signal s (W hw pt km bc fs cn o) = Ok (-1) (W hw pt km bc fs cn o).
Proof.
  intros Hx Hu. unfold sem_signal. kcall getsem_ok by done.
  by rewrite bool_decide_eq_true_2.
Qed.

Lemma sem_wait_go_eq hw pt i c s x :
  here hw i c -> lock_free hw (LSem s) ->
  pt_sem pt !! s = Some x -> sem_state x <> UNUSED -> 0 < sem_count x ->
  sem_wait s (W hw pt km bc fs cn o) =
  Ok 0 (W (touch i hw)
    (set_pt_sem (alter (fun s => set_sem_count (s32 (sem_count s - 1)) s) s (pt_sem pt)) pt)
    km bc fs cn o).
Proof.
  intros Hh Hfs Hx Hu Hc. unfold sem_wait. kcall getsem_ok by done.
  rewrite bool_decide_eq_false_2 by done.
  kcall acquire_ok by (done || apply Hh || apply Hfs). kcall getsem_ok by done.
  destruct (Z.leb_spec (sem_count x) 0); [lia|]. unfold updsem. krun.
  kcall release_acquired by (done || apply Hh). done.
Qed.

(** The machine a system call starts from: thread [p] on processor [i],
    outside of every critical section, entry [s] of the semaphore table in
    use. *)
Record sem_call (hw : hwstate) (pt : ptstate) (i : nat) (c : cpu) (p s : nat)
    (pr : proc) (x : semaphore) : Prop := {
  sc_here : here hw i c;
  sc_ncli : c_ncli c = 0;
  sc_proc : c_proc c = Some p;
  sc_entry : pt_proc pt !! p = Some pr;
  sc_sem : pt_sem pt !! s = Some x;
  sc_used : sem_state x <> UNUSED;
  sc_pt_free : lock_free hw LPtable;
  sc_sem_free : lock_free hw (LSem s);
}.

Lemma sem_sleep_ready hw pt i c p s pr x :
  sem_call hw pt i c p s pr x ->
  sched_ready (hw_acquire LPtable i hw) (block_pt s p x pt) i (pushed hw c) p
    (set_p_state SEM_SLEEPING pr).
Proof.
  intros []. constructor;
    [by apply here_acquire|apply lock_mine_acquire|cbn; lia|done| |done].
  cbn. by rewrite list_lookup_alter_eq, sc_entry0.
Qed.

(** A wait that must block runs up to the context switch. *)
Lemma sem_wait_block_eq hw pt i c p s pr x :
  sem_call hw pt i c p s pr x -> sem_count x <= 0 ->
  sem_wait_call s (W hw pt km bc fs cn o) =
  (sched ;; pushcli ;; release LPtable ;; acquire (LSem s) ;; release (LSem s) ;;
   popcli ;; ret 0)
  (W (hw_acquire LPtable i hw) (block_pt s p x pt) km bc fs cn o).
Proof.
  intros [Hh Hn Hp Hpr Hx Hu Hf Hfs] Hc. unfold sem_wait_call, sem_wait, sem_sleep.
  kcall pushcli_ok by apply Hh. pose proof (here_push hw i c Hh) as H1.
  rewrite !bind_assoc. kcall getsem_ok by done. rewrite bool_decide_eq_false_2 by done.
  rewrite !bind_assoc. kcall acquire_ok by (done || apply Hfs).
  pose proof (here_acquire _ (LSem s) _ _ H1) as H2.
  rewrite !bind_assoc. kcall getsem_ok by done.
  destruct (Z.leb_spec (sem_count x) 0); [|lia].
  unfold updsem. krun. kcall myproc_ok by apply H2.
  rewrite (touch_id _ _ _ H2) by (cbn; lia). change (c_proc _) with (c_proc c). rewrite Hp. krun.
  kcall acquire_ok by (apply H2 || (apply lock_free_other; [done|apply Hf])).
  unfold upd_queue, updsem, updp. krun.
  kcall release_outer by (apply H1 || apply Hfs || done). krun.
  pose proof (here_acquire _ LPtable _ _ H1) as H3.
  destruct H3 as (H3 & _ & Ho3). kcall popcli_ok by (exact H3 || (apply Ho3; cbn; lia) || (cbn; lia)).
  rewrite (hw_pop_inner _ _ _ _ Hh). unfold block_pt, block_sem. ksimpl.
  rewrite (alter_alter_lookup _ _ _ _ x) by done. rewrite bind_assoc.
  apply bind_ext. intros [] w. rewrite !bind_assoc. apply bind_ext. intros [] w'.
  rewrite !bind_assoc. apply bind_ext. intros [] w''. apply bind_ext. intros [] w3.
  rewrite bind_assoc. apply bind_ext. done.
Qed.

(** The way back from the context switch: the thread has ptable.lock, gives
    it up, passes through the semaphore's lock and leaves the system call's
    critical section. *)
Lemma sem_resume_eq hw pt j c s :
  here hw j c -> c_ncli c = 1 -> lock_mine hw LPtable j -> lock_free hw (LSem s) ->
  (pushcli ;; release LPtable ;; acquire (LSem s) ;; release (LSem s) ;;
   popcli ;; ret 0) (W hw pt km bc fs cn o) =
  (release LPtable ;; ret 0) (W hw pt km bc fs cn o).
Proof.
  intros Hh Hn Hl Hs. pose proof (here_push hw j c Hh) as H1.
  kcall pushcli_ok by apply Hh. kcall release_ok by (apply H1 || (cbn; lia) || apply Hl).
  change (hw_locks (hw_push j hw)) with (hw_locks hw).
  set (L := fn_upd LPtable _ _).
  change (set_hw_locks L (hw_push j hw)) with (hw_push j (set_hw_locks L hw)).
  change (pushed hw c) with (pushed (set_hw_locks L hw) c).
  assert (here (set_hw_locks L hw) j c) as HL by done.
  rewrite (hw_pop_push _ _ _ HL), (touch_id _ _ _ HL) by lia.
  assert (lock_free (set_hw_locks L hw) (LSem s)) as HLs.
  { unfold lock_free, L. cbn. by rewrite fn_upd_ne. }
  kcall acquire_ok by (apply HL || apply HLs).
  kcall release_acquired by (apply HL || apply HLs). rewrite (touch_id _ _ _ HL) by lia.
  kcall popcli_ok by ((apply HL; lia) || lia).
  kcall release_ok by (apply Hh || lia || apply Hl). done.
Qed.

(** The system calls as a whole. *)
Lemma sem_wait_call_go hw pt i c p s pr x :
  sem_call hw pt i c p s pr x -> 0 < sem_count x ->
  sem_wait_call s (W hw pt km bc fs cn o) =
  Ok 0 (W (touch i hw)
    (set_pt_sem (alter (fun s => set_sem_count (s32 (sem_count s - 1)) s) s (pt_sem pt)) pt)
    km bc fs cn o).
Proof.
  intros [Hh Hn Hp Hpr Hx Hu Hf Hfs] Hc. unfold sem_wait_call.
  kcall pushcli_ok by apply Hh. pose proof (here_push hw i c Hh) as H1.
  kcall sem_wait_go_eq by (apply H1 || done).
  rewrite (touch_id _ _ _ H1) by (cbn; lia).
  kcall popcli_ok by ((apply H1; cbn; lia) || (cbn; lia)). by rewrite hw_pop_push.
Qed.

Lemma sem_signal_call_eq hw pt i c s x :
  here hw i c -> lock_free hw LPtable -> lock_free hw (LSem s) ->
  pt_sem pt !! s = Some x -> sem_state x <> UNUSED ->
  sem_signal_call s (W hw pt km bc fs cn o) =
  Ok 0 (W (touch i hw) (signal_pt s x pt) km bc fs cn o).
Proof.
  intros Hh Hf Hfs Hx Hu. unfold sem_signal_call. pose proof Hh as (_ & Hn & _).
  kcall pushcli_ok by apply Hh. pose proof (here_push hw i c Hh) as H1.
  kcall sem_signal_eq by (apply H1 || done).
  rewrite (touch_id _ _ _ H1) by (cbn; lia).
  kcall popcli_ok by ((apply H1; cbn; lia) || (cbn; lia)). by rewrite hw_pop_push.
Qed.
End Equations.

(** ** The semaphore under interleaving

    The system calls of all threads on one semaphore [s], in any order, with
    anything else the kernel does in between.  The ghost fields say how many
    waits went through ([sy_passed]: at once, or woken by a signal), how many
    signals were given, and which threads went to sleep without a place in the
    queue. *)

Record sem_sys := mk_sys {
  sy_hw : hwstate; sy_pt : ptstate;
  sy_passed : Z; sy_signals : Z; sy_lost : list nat;
}.

Definition INT_MAX : Z := 2147483647.

Definition asleep (pt : ptstate) (p : nat) : Prop :=
  exists pr, pt_proc pt !! p = Some pr /\ p_state pr = SEM_SLEEPING.

Section Interleaving.
Context (km : kmstate) (bc : bcstate) (fs : fsstate) (cn : cnstate) (s : nat).
Implicit Types (hw : hwstate) (pt : ptstate).

(** A wait that finds no permit leaves the thread asleep. *)
Lemma sem_wait_call_sleep hw pt i c p pr x :
  sem_call hw pt i c p s pr x -> sem_count x <= 0 ->
  sem_wait_call s (W hw pt km bc fs cn []) =
  Asleep (W (hw_acquire LPtable i hw) (block_pt s p x pt) km bc fs cn []).
Proof.
  intros Hs Hc. rewrite (sem_wait_block_eq _ _ _ _ _ _ _ _ _ _ _ _ _ Hs Hc).
  unfold bind at 1. by erewrite sched_asleep by (by eapply sem_sleep_ready).
Qed.

(** The threads that sleep on the semaphore: those in its queue and those that
    found it full. *)
Definition sleeper pt (lo : list nat) (p : nat) : Prop :=
  p ∈ lo \/ exists x l, pt_sem pt !! s = Some x /\ queue_rep (sem_queue x) l /\ p ∈ l.

(** The rest of the kernel leaves the semaphore alone and does not touch the
    state of the threads that sleep on it: only [sem_wakeup] ends
    [SEM_SLEEPING]. *)
Inductive sem_step : sem_sys -> sem_sys -> Prop :=
| wait_passes hw pt pa sg lo i c p pr x hw' pt' :
    sem_call hw pt i c p s pr x ->
    sem_wait_call s (W hw pt km bc fs cn []) = Ok 0 (W hw' pt' km bc fs cn []) ->
    sem_step (mk_sys hw pt pa sg lo) (mk_sys hw' pt' (pa + 1) sg lo)
| wait_blocks hw pt pa sg lo i c p pr x hw' pt' :
    sem_call hw pt i c p s pr x -> p_state pr = RUNNING ->
    sem_wait_call s (W hw pt km bc fs cn []) = Asleep (W hw' pt' km bc fs cn []) ->
    sem_step (mk_sys hw pt pa sg lo)
      (mk_sys hw' pt' pa sg (if isFull (sem_queue x) then p :: lo else lo))
| signal_step hw pt pa sg lo i c p pr x hw' pt' r :
    sem_call hw pt i c p s pr x ->
    sem_signal_call s (W hw pt km bc fs cn []) = Ok r (W hw' pt' km bc fs cn []) ->
    sem_step (mk_sys hw pt pa sg lo)
      (mk_sys hw' pt' (if isEmpty (sem_queue x) then pa else pa + 1) (sg + 1) lo)
| other_step hw pt pa sg lo hw' pt' :
    pt_sem pt' !! s = pt_sem pt !! s -> procs_ok pt' ->
    (forall p, sleeper pt lo p -> asleep pt p -> asleep pt' p) ->
    sem_step (mk_sys hw pt pa sg lo) (mk_sys hw' pt' pa sg lo).

(** The semaphore has just been initialized with [n]. *)
Definition sem_start (n : Z) (y : sem_sys) : Prop :=
  (exists x, pt_sem (sy_pt y) !! s = Some (sem_fresh n x)) /\ procs_ok (sy_pt y) /\
  sy_passed y = 0 /\ sy_signals y = 0 /\ sy_lost y = [].

Definition sem_reach (n : Z) (y : sem_sys) : Prop :=
  exists y0, sem_start n y0 /\ rtc sem_step y0 y.

(** The permits left, as an integer that does not wrap around. *)
Definition permits (n : Z) (l : list nat) (y : sem_sys) : Z :=
  n + sy_signals y - sy_passed y - Z.of_nat (length (l ++ sy_lost y)).

(** What holds at every point: the threads that sleep on the semaphore are
    different entries of the process table; no more waits went through than
    permits were given; the count is what was given minus what was taken, up to
    the wrap-around; and while the permits given fit in an [int], a thread is
    queued only while the count is negative, and never more than the count is
    below zero. *)
Record sem_acc (n : Z) (x : semaphore) (l : list nat) (y : sem_sys) : Prop := {
  ac_queue : queue_rep (sem_queue x) l;
  ac_procs : procs_ok (sy_pt y);
  ac_distinct : NoDup (l ++ sy_lost y);
  ac_asleep : Forall (asleep (sy_pt y)) (l ++ sy_lost y);
  ac_passed : 0 <= sy_passed y <= n + sy_signals y;
  ac_count : sem_count x = s32 (permits n l y);
  ac_bound : n + sy_signals y <= INT_MAX ->
    Z.max 0 (- permits n l y) - Z.of_nat (length (sy_lost y)) <= Z.of_nat (length l) <= Z.max 0 (- permits n l y);
}.

Definition sem_inv (n : Z) (y : sem_sys) : Prop :=
  exists x l, pt_sem (sy_pt y) !! s = Some x /\ sem_acc n x l y.

Lemma sem_start_inv n y : 0 <= n <= INT_MAX -> sem_start n y -> sem_inv n y.
Proof.
  intros Hn ([x Hx] & Ho & Hp & Hs & Hl). exists (sem_fresh n x), []. split; [done|].
  split; unfold permits; rewrite ?Hp, ?Hs, ?Hl; cbn; [apply (queue_rep_fresh n x)|done|constructor|constructor|lia| |lia].
  rewrite s32_small; unfold INT_MAX in *; lia.
Qed.

(** There are at most [NPROC] sleepers, so that the count does not wrap around
    from below. *)
Lemma sleepers_bound pt l : procs_ok pt -> NoDup l -> Forall (asleep pt) l -> (length l <= 128)%nat.
Proof.
  intros Hp Hn Ha. transitivity (length (seq 0 128)); [|by rewrite length_seq].
  apply submseteq_length, NoDup_submseteq; [done|].
  intros q Hq. rewrite Forall_forall in Ha. destruct (Ha q Hq) as (pr & Hpr & _).
  apply lookup_lt_Some in Hpr. rewrite Hp in Hpr. apply elem_of_seq. change NPROC with 128%nat in Hpr. lia.
Qed.

Lemma permits_low n x l y : sem_acc n x l y -> -128 <= permits n l y.
Proof.
  intros [_ A2 A3 A4 A5 _ _]. pose proof (sleepers_bound _ _ A2 A3 A4). unfold permits. lia.
Qed.

Lemma s32_pos a : -128 <= a -> 0 < s32 a -> 0 < a.
Proof. intros Ha Hs. destruct (Z.le_gt_cases a 0); [|done]. rewrite s32_small in Hs; lia. Qed.

Lemma s32_add a b : s32 (s32 a + b) = s32 (a + b).
Proof. unfold s32, W32. Z.div_mod_to_equations. lia. Qed.

Lemma sem_pass_acc n x l pa sg lo hw pt hw' sems :
  0 < sem_count x -> sem_acc n x l (mk_sys hw pt pa sg lo) ->
  sem_acc n (set_sem_count (s32 (sem_count x - 1)) x) l (mk_sys hw' (set_pt_sem sems pt) (pa + 1) sg lo).
Proof.
  intros H Ha. pose proof (permits_low _ _ _ _ Ha) as Hlow. destruct Ha as [A1 A2 A3 A4 A5 A6 A7]. rewrite A6 in H.
  apply s32_pos in H; [|done]. unfold permits in *. cbn [sy_hw sy_pt sy_passed sy_signals sy_lost] in *.
  split; unfold permits; cbn [sy_hw sy_pt sy_passed sy_signals sy_lost]; try done; [lia| |lia].
  cbn. rewrite A6. replace (n + sg - (pa + 1)) with (n + sg - pa + -1) by lia. rewrite <- Z.add_opp_r, s32_add. f_equal. lia.
Qed.

Lemma asleep_other pt p q : asleep pt q -> p <> q -> forall f sems,
  asleep (pt |> set_pt_sem sems |> set_pt_proc (alter f p (pt_proc pt))) q.
Proof. intros (pr & Hpr & Hs) Hne f sems. exists pr. cbn. by rewrite list_lookup_alter_ne. Qed.

Lemma sem_block_acc n x l p pr pa sg lo hw pt hw' :
  sem_count x <= 0 -> pt_proc pt !! p = Some pr -> p_state pr = RUNNING -> sem_acc n x l (mk_sys hw pt pa sg lo) ->
  exists l', sem_acc n (block_sem p x) l'
    (mk_sys hw' (block_pt s p x pt) pa sg (if isFull (sem_queue x) then p :: lo else lo)).
Proof.
  intros H Hp Hrun Ha. pose proof (permits_low _ _ _ _ Ha) as Hlow. destruct Ha as [A1 A2 A3 A4 A5 A6 A7].
  cbn [sy_hw sy_pt sy_passed sy_signals sy_lost] in *. pose proof (qr_max _ _ A1) as Hm.
  assert (p ∉ l ++ lo) as Hnp.
  { intros Hin. rewrite Forall_forall in A4. destruct (A4 p Hin) as (pr' & Hp' & Hs'). congruence. }
  assert (Forall (asleep (block_pt s p x pt)) (l ++ lo)) as Hal.
  { apply Forall_forall. intros q Hq. rewrite Forall_forall in A4. apply asleep_other; [by apply A4|]. by intros ->. }
  assert (asleep (block_pt s p x pt) p) as Hap.
  { exists (set_p_state SEM_SLEEPING pr). cbn. by rewrite list_lookup_alter_eq, Hp. }
  assert (procs_ok (block_pt s p x pt)) as Hpo by (unfold procs_ok in *; cbn; by rewrite length_alter).
  assert (isFull (sem_queue x) = (Z.of_nat (length l) =? 7)) as Hfull by (unfold isFull; by rewrite (qr_count _ _ A1)).
  assert (s32 (sem_count x - 1) = s32 (permits n l (mk_sys hw pt pa sg lo) + -1)) as Ec
    by (by rewrite A6, <- Z.add_opp_r, s32_add).
  assert (n + sg <= INT_MAX -> permits n l (mk_sys hw pt pa sg lo) <= 0) as Hle.
  { intros Hmax. rewrite A6, s32_small in H; [done|]. unfold permits, INT_MAX in *. cbn in *. lia. }
  unfold permits in *. cbn [sy_hw sy_pt sy_passed sy_signals sy_lost] in *. rewrite length_app in *.
  destruct (Z.eqb_spec (Z.of_nat (length l)) 7) as [E|E]; rewrite Hfull; [exists l|exists (l ++ [p])];
    (split; unfold permits; cbn [sy_hw sy_pt sy_passed sy_signals sy_lost]; rewrite ?length_app; cbn [length]; try done).
  - unfold block_sem. cbn. by rewrite (push_back_full _ l) by (done || lia).
  - by apply NoDup_Permutation_proper with (p :: l ++ lo); [rewrite Permutation_middle|constructor].
  - rewrite <- Permutation_middle. by constructor.
  - cbn. rewrite Ec. f_equal. lia.
  - intros Hmax. specialize (A7 Hmax). specialize (Hle Hmax). lia.
  - unfold block_sem. cbn. apply push_back_rep; [done|lia].
  - rewrite <- app_assoc. cbn. rewrite <- Permutation_middle. by constructor.
  - rewrite <- app_assoc. cbn. rewrite <- Permutation_middle. by constructor.
  - cbn. rewrite Ec. f_equal. lia.
  - intros Hmax. specialize (A7 Hmax). specialize (Hle Hmax). lia.
Qed.

Lemma sem_signal_acc n x l pa sg lo hw pt hw' :
  sem_acc n x l (mk_sys hw pt pa sg lo) ->
  sem_acc n (signal_sem x) (tail l)
    (mk_sys hw' (signal_pt s x pt) (if isEmpty (sem_queue x) then pa else pa + 1) (sg + 1) lo).
Proof.
  intros [A1 A2 A3 A4 A5 A6 A7]. cbn [sy_hw sy_pt sy_passed sy_signals sy_lost] in *.
  pose proof (pop_front_rep _ _ A1) as Hp.
  assert (s32 (sem_count x + 1) = s32 (permits n l (mk_sys hw pt pa sg lo) + 1)) as Ec by (by rewrite A6, s32_add).
  assert (isEmpty (sem_queue x) = bool_decide (l = [])) as He.
  { unfold isEmpty. rewrite (qr_count _ _ A1). by destruct l. }
  unfold permits in *. cbn [sy_hw sy_pt sy_passed sy_signals sy_lost] in *. rewrite length_app in *. rewrite He.
  destruct l as [|p l]; [rewrite bool_decide_eq_true_2 by done|rewrite bool_decide_eq_false_2 by done; destruct Hp as (q' & Ep & Hq')];
    unfold signal_pt; rewrite ?Hp, ?Ep; cbn [fst];
    (split; unfold permits; cbn [sy_hw sy_pt sy_passed sy_signals sy_lost tail]; rewrite ?length_app; cbn [length] in *; try done; try lia).
  - cbn. by rewrite Hp.
  - cbn [sem_count signal_sem set_sem_count set_sem_queue]. unfold signal_sem. cbn. rewrite Ec. f_equal. lia.
  - unfold signal_sem. cbn. by rewrite Ep.
  - unfold procs_ok in *. cbn. by rewrite length_alter.
  - by apply NoDup_cons in A3 as [_ A3].
  - apply NoDup_cons in A3 as [Hnp _]. apply Forall_cons in A4 as [_ A4]. apply Forall_forall. intros q Hq.
    rewrite Forall_forall in A4. destruct (A4 q Hq) as (pr & Hpr & Hs). exists pr. cbn.
    rewrite list_lookup_alter_ne; [done|]. by intros ->.
  - unfold signal_sem. cbn. rewrite Ec. f_equal. lia.
Qed.

Lemma sem_step_inv n y y' : sem_step y y' -> sem_inv n y -> sem_inv n y'.
Proof.
  intros [hw pt pa sg lo i c p pr x hw' pt' Hs Hw
         |hw pt pa sg lo i c p pr x hw' pt' Hs Hrun Hw
         |hw pt pa sg lo i c p pr x hw' pt' r Hs Hw
         |hw pt pa sg lo hw' pt' Hs Hpo Hsl] (x0 & l & Hx & Ha).
  4: { exists x0, l. cbn in *. rewrite Hs. split; [done|]. destruct Ha as [A1 A2 A3 A4 A5 A6 A7]. split; try done. cbn in *.
       apply Forall_forall. intros q Hq. rewrite Forall_forall in A4. apply Hsl; [|by apply A4].
       apply elem_of_app in Hq as [Hq|Hq]; [right; by exists x0, l|by left]. }
  all: pose proof (sc_sem _ _ _ _ _ _ _ _ Hs) as Hx'; cbn in Hx; simplify_eq.
  - destruct (Z.le_gt_cases (sem_count x0) 0) as [Hc|Hc].
    { by rewrite (sem_wait_call_sleep _ _ _ _ _ _ _ Hs Hc) in Hw. }
    rewrite (sem_wait_call_go _ _ _ _ _ _ _ _ _ _ _ _ _ Hs Hc) in Hw. simplify_eq.
    eexists _, l. split; [cbn; by rewrite list_lookup_alter_eq, Hx|].
    by eapply sem_pass_acc.
  - destruct (Z.le_gt_cases (sem_count x0) 0) as [Hc|Hc].
    2: { by rewrite (sem_wait_call_go _ _ _ _ _ _ _ _ _ _ _ _ _ Hs Hc) in Hw. }
    rewrite (sem_wait_call_sleep _ _ _ _ _ _ _ Hs Hc) in Hw. simplify_eq.
    edestruct (sem_block_acc n x0 l p) as [l' Hl']; [done|apply Hs|done|exact Ha|].
    eexists _, l'. split; [cbn; by rewrite list_lookup_alter_eq, Hx|]. exact Hl'.
  - rewrite (sem_signal_call_eq _ _ _ _ _ hw pt i c s x0) in Hw by apply Hs. simplify_eq.
    eexists _, (tail l). split; [cbn; by rewrite signal_pt_sem, list_lookup_alter_eq, Hx|].
    by eapply sem_signal_acc.
Qed.

Lemma sem_reach_inv n y : 0 <= n <= INT_MAX -> sem_reach n y -> sem_inv n y.
Proof.
  intros Hn (y0 & H0 & H). apply sem_start_inv in H0; [|done].
  induction H; [done|]. eauto using sem_step_inv.
Qed.

Lemma sem_reach_signals n y : sem_reach n y -> 0 <= sy_signals y.
Proof.
  intros (y0 & (_ & _ & _ & Hs & _) & H). assert (0 <= sy_signals y0) as H0 by lia. clear Hs.
  induction H as [|y0 y1 y2 Hst _ IH]; [done|]. apply IH. destruct Hst; cbn in *; lia.
Qed.
End Interleaving.

(** ** The thread that finds the queue full *)

(** [k] signals in a row. *)
Definition signals (s : nat) (k : nat) : K unit :=
  each_ k 0 (fun _ => sem_signal_call s ;; ret tt).

Lemma signal_pt_proc s x pt p :
  fst (pop_front (sem_queue x)) <> Some p ->
  pt_proc (signal_pt s x pt) !! p = pt_proc pt !! p.
Proof.
  intros H. unfold signal_pt. destruct (fst _) as [q|]; [|done]. cbn.
  rewrite list_lookup_alter_ne; [done|congruence].
Qed.

(** Thread [p] sleeps, and is not in the queue of semaphore [s]. *)
Definition stuck (s p : nat) (pt : ptstate) : Prop :=
  (exists pr, pt_proc pt !! p = Some pr /\ p_state pr = SEM_SLEEPING) /\
  exists x l, pt_sem pt !! s = Some x /\ sem_state x <> UNUSED /\
    queue_rep (sem_queue x) l /\ p ∉ l.

Lemma signal_stuck s p x pt :
  pt_sem pt !! s = Some x -> stuck s p pt -> stuck s p (signal_pt s x pt).
Proof.
  intros Hx ((pr & Hp & Hs) & x' & l & Hx' & Hu & Hq & Hl). simplify_eq.
  pose proof (pop_front_rep _ _ Hq) as Hpop. split.
  - exists pr. rewrite signal_pt_proc; [done|].
    destruct l as [|q l]; [by rewrite Hpop|]. destruct Hpop as (? & -> & _). cbn. set_solver.
  - exists (signal_sem x), (tail l). rewrite signal_pt_sem, list_lookup_alter_eq, Hx.
    split; [done|]. split; [done|]. unfold signal_sem. cbn.
    destruct l as [|q l]; [by rewrite Hpop|]. destruct Hpop as (? & -> & ?). cbn.
    split; [done|set_solver].
Qed.

Section Stuck.
Context (km : kmstate) (bc : bcstate) (fs : fsstate) (cn : cnstate) (s p : nat).

Definition stuck_world (w : world) : Prop :=
  exists hw pt i c o, w = W hw pt km bc fs cn o /\ here hw i c /\
    lock_free hw LPtable /\ lock_free hw (LSem s) /\ stuck s p pt.

Lemma signals_stuck k w :
  stuck_world w -> wp (signals s k) (fun _ w' => stuck_world w') w.
Proof.
  intros H. apply (wp_each k (fun _ => stuck_world)); [done|].
  intros _ w' _ (hw & pt & i & c & o & -> & Hh & Hf & Hfs & Hst).
  pose proof Hst as (_ & x & l & Hx & Hu & _).
  apply wp_bind. eapply wp_ok; [by eapply sem_signal_call_eq|].
  exists (touch i hw), (signal_pt s x pt), i, (touched hw c), o.
  split; [done|]. split; [by apply here_touch|]. eauto using signal_stuck.
Qed.
End Stuck.

(** ** Properties *)

(** C2: semaphores are safe.  For a semaphore initialized with [n] permits,
    [n] not negative, and however the threads' [sem_wait] and [sem_signal] calls
    on it interleave with each other and with the rest of the kernel, the number
    of waits that have gone through never exceeds the initial count plus the
    number of signals, also when the count wraps around. *)
Theorem sem_safety km bc fs cn s n y :
  0 <= n <= INT_MAX -> sem_reach km bc fs cn s n y -> sy_passed y <= n + sy_signals y.
Proof.
  intros Hn Hr. apply sem_reach_inv in Hr as (x & l & _ & Ha); [|done]. apply Ha.
Qed.

(** C4: no permit is withheld.  For a semaphore initialized with [n] permits,
    [n] not negative, as long as the initial count plus the signals fit in an
    [int] and no thread went to sleep on a full queue, a thread is queued only
    when all permits are taken: the waits that have gone through are exactly
    the initial count plus the signals, and the semaphore's counter is minus
    the number of threads in its queue. *)
Theorem sem_no_lost_wakeup km bc fs cn s n y x :
  0 <= n -> sem_reach km bc fs cn s n y -> n + sy_signals y <= INT_MAX -> sy_lost y = [] ->
  pt_sem (sy_pt y) !! s = Some x -> isEmpty (sem_queue x) = false ->
  sy_passed y = n + sy_signals y /\ q_count (sem_queue x) = - sem_count x.
Proof.
  intros Hn Hr Hmax Hl Hx He. assert (0 <= sy_signals y) as Hsg by (by eapply sem_reach_signals).
  apply sem_reach_inv in Hr as (x' & l & Hx' & [A1 A2 A3 A4 A5 A6 A7]); [|lia]. simplify_eq.
  specialize (A7 Hmax). unfold permits in *. rewrite Hl, app_nil_r in *. cbn [length] in A7.
  unfold isEmpty in He. rewrite (qr_count _ _ A1) in *. apply Z.eqb_neq in He. pose proof (qr_max _ _ A1).
  assert (n + sy_signals y - sy_passed y = 0) as E0 by lia. rewrite A6, E0, s32_small by lia. lia.
Qed.

(** Past [INT_MAX] the count wraps around: a signal then makes it negative, and
    the next wait sleeps although a permit is left. *)
Lemma sem_signal_overflow km bc fs cn hw pt i c p s pr x :
  sem_call hw pt i c p s pr x -> sem_count x = INT_MAX -> isEmpty (sem_queue x) = true ->
  exists hw1 pt1 w, sem_signal_call s (W hw pt km bc fs cn []) = Ok 0 (W hw1 pt1 km bc fs cn []) /\
    sem_wait_call s (W hw1 pt1 km bc fs cn []) = Asleep w.
Proof.
  intros Hs Hc He. eexists _, _, _. split; [eapply (sem_signal_call_eq _ _ _ _ _ hw pt i c s x); apply Hs|].
  assert (pop_front (sem_queue x) = (None, sem_queue x)) as Ep by (unfold pop_front; by rewrite He).
  assert (signal_pt s x pt = set_pt_sem (alter (fun _ => signal_sem x) s (pt_sem pt)) pt) as Ept by (unfold signal_pt; by rewrite Ep).
  eapply (sem_wait_call_sleep km bc fs cn s (touch i hw) _ i (touched hw c) p pr (signal_sem x)).
  - destruct Hs as [H1 H2 H3 H4 H5 H6 H7 H8]. rewrite Ept. constructor; try done; [by apply here_touch|].
    cbn. by rewrite list_lookup_alter_eq, H5.
  - unfold signal_sem. cbn. by rewrite Hc.
Qed.

(** [sem_wait] without a permit.  The counter goes down by one, the
    calling thread is put at the end of the queue and marked [SEM_SLEEPING],
    and the thread goes to sleep holding only ptable.lock, once; when it is
    switched back to, on any processor and in any state the others left, it
    only gives up ptable.lock, which restores the interrupt flag of the
    caller, and returns 0. *)
Theorem sem_wait_blocks_and_resumes km bc fs cn hw pt i c p s pr x f o
    hw' pt' km' bc' fs' cn' j c' :
  sem_call hw pt i c p s pr x -> sem_count x <= 0 ->
  f (mk_k (hw_acquire LPtable i hw) (block_pt s p x pt) km bc fs cn) =
    mk_k hw' pt' km' bc' fs' cn' ->
  here hw' j c' -> c_ncli c' = 1 -> lock_mine hw' LPtable j ->
  lock_free hw' (LSem s) ->
  sem_wait_call s (W hw pt km bc fs cn []) =
    Asleep (W (hw_acquire LPtable i hw) (block_pt s p x pt) km bc fs cn []) /\
  sem_wait_call s (W hw pt km bc fs cn (f :: o)) =
    (release LPtable ;; ret 0)
    (W (set_hw_cpus (alter (set_c_intena (Z.land (hw_eflags hw) FL_IF)) j
                       (hw_cpus hw')) hw') pt' km' bc' fs' cn' o).
Proof.
  intros Hs Hc Hf Hh Hn Hl Hfr. split; [by eapply sem_wait_call_sleep|].
  rewrite (sem_wait_block_eq _ _ _ _ _ _ _ _ _ _ _ _ _ Hs Hc).
  pose proof Hh as (Hcpu & _ & Ho).
  erewrite bind_ok; [|eapply sched_resume; [by eapply sem_sleep_ready|done|done|]].
  2: { apply Ho. lia. }
  unfold pushed. cbn [c_intena set_c_intena set_c_ncli].
  rewrite (sc_ncli _ _ _ _ _ _ _ _ Hs). cbn [Z.eqb].
  eapply (sem_resume_eq _ _ _ _ _ _ _ _ (set_c_intena _ c')); try done.
  split; [by apply (cpu_here_alter hw')|]. split; [cbn; lia|exact Ho].
Qed.


(** C5: a thread that waits while [MAXQ] threads are queued is lost.  It is
    put to sleep, but [push_back] drops it; no number of signals on the
    semaphore wakes it. *)
Theorem sem_wait_full_queue_lost km bc fs cn hw pt i c p s pr x l :
  sem_call hw pt i c p s pr x -> sem_count x <= 0 ->
  queue_rep (sem_queue x) l -> length l = 7%nat -> p ∉ l ->
  exists hw1 pt1,
    sem_wait_call s (W hw pt km bc fs cn []) = Asleep (W hw1 pt1 km bc fs cn []) /\
    forall hw2 j c2 o k,
      here hw2 j c2 /\ lock_free hw2 LPtable /\ lock_free hw2 (LSem s) ->
      wp (signals s k) (fun _ w =>
        exists pr', pt_proc (k_pt (w_k w)) !! p = Some pr' /\ p_state pr' = SEM_SLEEPING)
        (W hw2 pt1 km bc fs cn o).
Proof.
  intros Hs Hc Hq Hl Hp. eexists _, _. split; [by eapply sem_wait_call_sleep|].
  intros hw2 j c2 o k (Hh & Hf & Hfs). eapply wp_mono.
  - apply (signals_stuck km bc fs cn s p).
    exists hw2, (block_pt s p x pt), j, c2, o. do 4 (split; [done|]). split.
    + exists (set_p_state SEM_SLEEPING pr). cbn.
      rewrite list_lookup_alter_eq, (sc_entry _ _ _ _ _ _ _ _ Hs). done.
    + exists (block_sem p x), l. cbn. rewrite list_lookup_alter_eq, (sc_sem _ _ _ _ _ _ _ _ Hs).
      rewrite (push_back_full _ l) by done. split; [done|]. split; [apply Hs|done].
  - intros [] w (hw' & pt' & i' & c' & o' & -> & _ & _ & _ & (pr' & ? & ?) & _).
    by exists pr'.
Qed.

(** ** The properties at work

    Thread 0 on processor 0, semaphore 3 freshly initialized. *)

Definition pt_sem_n (n : Z) : ptstate :=
  set_pt_sem (alter (sem_fresh n) 3%nat (pt_sem pt_run)) pt_run.
Definition pt_sem_after (n : Z) : ptstate :=
  let pt := pt_sem_n n in
  set_pt_sem (alter (fun s => set_sem_count (s32 (sem_count s - 1)) s) 3%nat (pt_sem pt)) pt.


Lemma sem_call_run n :
  sem_call hw_run (pt_sem_n n) 0 c_run 0 3 proc_run (sem_fresh n zsem).
Proof. constructor; try done. apply here_run. Qed.
Lemma sem_call_touched n :
  sem_call (touch 0 hw_run) (pt_sem_after n) 0 (touched hw_run c_run) 0 3 proc_run
    (set_sem_count (s32 (n - 1)) (sem_fresh n zsem)).
Proof. constructor; try done. apply here_touch, here_run. Qed.

(** One permit: the first wait goes through, the second blocks. *)
Definition sys_example : sem_sys :=
  mk_sys (hw_acquire LPtable 0 (touch 0 hw_run))
    (block_pt 3 0 (set_sem_count 0 (sem_fresh 1 zsem)) (pt_sem_after 1)) 1 0 [].

Lemma sem_reach_example : sem_reach km0 bc0 fs0 cn0 3 1 sys_example.
Proof.
  exists (mk_sys hw_run (pt_sem_n 1) 0 0 []). split.
  { split; [|done]. by exists zsem. }
  eapply rtc_l.
  { eapply (wait_passes _ _ _ _ _ hw_run (pt_sem_n 1)); [apply sem_call_run|].
    eapply sem_wait_call_go; [apply sem_call_run|done]. }
  apply rtc_once.
  apply (wait_blocks _ _ _ _ _ (touch 0 hw_run) (pt_sem_after 1) 1 0 []
    0 (touched hw_run c_run) 0 proc_run (set_sem_count 0 (sem_fresh 1 zsem))).
  { apply sem_call_touched. }
  { done. }
  eapply sem_wait_call_sleep; [apply sem_call_touched|done].
Qed.

Lemma sem_safety_witness :
  0 <= 1 <= INT_MAX /\ sem_reach km0 bc0 fs0 cn0 3 1 sys_example /\ sy_passed sys_example <= 1 + 0.
Proof.
  split; [done|]. split; [apply sem_reach_example|].
  apply (sem_safety km0 bc0 fs0 cn0 3 1 sys_example); [done|apply sem_reach_example].
Defined.

Lemma sem_no_lost_wakeup_witness :
  sy_passed sys_example = 1 + 0 /\
  q_count (sem_queue (block_sem 0 (set_sem_count 0 (sem_fresh 1 zsem)))) = 1.
Proof.
  apply (sem_no_lost_wakeup km0 bc0 fs0 cn0 3 1 sys_example
    (block_sem 0 (set_sem_count 0 (sem_fresh 1 zsem))));
    [lia|apply sem_reach_example|done|reflexivity|reflexivity|reflexivity].
Defined.

(** The scheduler, for one turn: it finds the thread woken and switches back
    to it on the same processor. *)
Definition back (k : kstate) : kstate := k.

Lemma sem_wait_blocks_and_resumes_witness :
  sem_wait_call 3 (W hw_run (pt_sem_n 0) km0 bc0 fs0 cn0 []) =
    Asleep (W (hw_acquire LPtable 0 hw_run)
      (block_pt 3 0 (sem_fresh 0 zsem) (pt_sem_n 0)) km0 bc0 fs0 cn0 []).
Proof.
  eapply (sem_wait_blocks_and_resumes km0 bc0 fs0 cn0 hw_run (pt_sem_n 0) 0 c_run 0 3
    proc_run (sem_fresh 0 zsem) back [] (hw_acquire LPtable 0 hw_run)
    (block_pt 3 0 (sem_fresh 0 zsem) (pt_sem_n 0)) km0 bc0 fs0 cn0 0
    (pushed hw_run c_run));
    [apply sem_call_run|reflexivity|reflexivity|apply here_acquire, here_run
    |reflexivity|apply lock_mine_acquire|apply lock_free_other; done].
Defined.

(** Seven threads queued: 1 to 7. *)
Definition sem_full : semaphore :=
  mk_semaphore (mk_queue (Some <$> [1;2;3;4;5;6;7]%nat) 0 6 7) (-7) EMBRYO.
Definition pt_full : ptstate :=
  set_pt_sem (alter (fun _ => sem_full) 3%nat (pt_sem pt_run)) pt_run.

Lemma sem_wait_full_queue_lost_witness :
  exists hw1 pt1,
    sem_wait_call 3 (W hw_run pt_full km0 bc0 fs0 cn0 []) =
      Asleep (W hw1 pt1 km0 bc0 fs0 cn0 []).
Proof.
  assert (sem_call hw_run pt_full 0 c_run 0 3 proc_run sem_full) as H.
  { constructor; try done. apply here_run. }
  assert (queue_rep (sem_queue sem_full) [1;2;3;4;5;6;7]%nat) as Hq.
  { constructor; cbn; try done; try lia. intros k p Hk.
    do 7 (destruct k as [|k]; [by inversion Hk|]). done. }
  destruct (sem_wait_full_queue_lost km0 bc0 fs0 cn0 hw_run pt_full 0 c_run 0 3 proc_run
    sem_full [1;2;3;4;5;6;7]%nat H) as (hw1 & pt1 & E & _);
    [vm_compute; discriminate|exact Hq|reflexivity|set_solver|].
  exists hw1, pt1. exact E.
Defined.
