(* ===== verification/Sleeplock.v ===== *)
(** * Sleeping locks

    [sleeplock.c]: locks whose waiters sleep instead of spinning.  A sleep
    lock is embedded in a buffer or in an in-memory inode; its address is the
    [lockid] of the spin lock inside it. *)

From stdpp Require Import prelude list gmap strings.
From Stdlib Require Import ZArith Lia.
From S2P Require Import Prelude State Boot Spinlock Str Kalloc Cprintf Vm Sched.
#[local] Open Scope c_scope.

(** The fields of the sleep lock at address [lk]. *)
Definition getsleep (lk : lockid) : K sleeplock :=
  match lk with
  | LBuf i => b <- getb i ;; ret (b_lock b)
  | LInode i => ip <- geti i ;; ret (i_lock ip)
  | _ => fault "not a sleep lock"
  end.
Definition updsleep (lk : lockid) (f : sleeplock -> sleeplock) : K unit :=
  match lk with
  | LBuf i => updb i (fun b => set_b_lock (f (b_lock b)) b)
  | LInode i => updi i (fun ip => set_i_lock (f (i_lock ip)) ip)
  | _ => fault "not a sleep lock"
  end.

Definition initsleeplock (lk : lockid) (name : string) : K unit :=
  initlock lk "sleep lock" ;;
  updsleep lk (set_sl_name name) ;;
  updsleep lk (set_sl_locked 0) ;;
  updsleep lk (set_sl_pid 0).

(** [myproc()->pid] *)
Definition mypid : K Z :=
  p <- myproc ;;
  p <- deref "myproc()" p ;;
  x <- getp p ;;
  ret (p_pid x).

Definition acquiresleep (lk : lockid) : K unit :=
  acquire lk ;;
  wait_loop (fun _ : unit =>
    l <- getsleep lk ;;
    if negb (sl_locked l =? 0)
    then sleep (ChSleep lk) (Some lk) ;; ret (inl tt)
    else ret (inr tt)) tt ;;
  updsleep lk (set_sl_locked 1) ;;
  pid <- mypid ;;
  updsleep lk (set_sl_pid pid) ;;
  release lk.

Definition releasesleep (lk : lockid) : K unit :=
  acquire lk ;;
  updsleep lk (set_sl_locked 0) ;;
  updsleep lk (set_sl_pid 0) ;;
  wakeup (ChSleep lk) ;;
  release lk.

Definition holdingsleep (lk : lockid) : K bool :=
  acquire lk ;;
  l <- getsleep lk ;;
  r <- (if sl_locked l =? 0 then ret false
        else pid <- mypid ;; ret (sl_pid l =? pid)) ;;
  release lk ;;
  ret r.

(** ** Uncontended sleep locks

    [calm hw pt i p pid]: thread [p] of process [pid] runs on processor [i]
    outside every critical section, its saved interrupt flag is up to date
    (as after any [release]), and the spin locks of the buffer cache are
    free. *)

Definition bio_lock (lk : lockid) : Prop :=
  lk = LBcache \/ lk = LPtable \/ exists b, lk = LBuf b.

Record calm (hw : hwstate) (pt : ptstate) (i p : nat) (pid : Z) : Prop := {
  cm_here : exists c, here hw i c /\ c_proc c = Some p;
  cm_touch : touch i hw = hw;
  cm_locks : forall lk, bio_lock lk -> lock_free hw lk;
  cm_procs : procs_ok pt;
  cm_entry : exists x, pt_proc pt !! p = Some x /\ p_pid x = pid /\ p_state x <> SLEEPING;
}.

Lemma calm_wakeup hw pt i p pid ch :
  calm hw pt i p pid -> calm hw (wakeup_pt ch pt) i p pid.
Proof.
  intros [H1 H2 H3 H4 (x & Hx & Hp & Hs)]. split; [done..| |].
  - unfold procs_ok, wakeup_pt in *. cbn. by rewrite length_fmap.
  - exists x. split; [|done]. cbn. rewrite list_lookup_fmap, Hx. cbn. f_equal.
    unfold woken, map_if, sleeps_on, is_state. by rewrite bool_decide_eq_false_2.
Qed.

Section Calm.
Context (km : kmstate) (fs : fsstate) (cn : cnstate) (o : list (kstate -> kstate)).
Context (hw : hwstate) (i p : nat) (pid : Z).
Implicit Types (pt : ptstate) (bc : bcstate).

(** Critical sections of a calm machine: [hw] in and out. *)
Lemma calm_acquire pt bc lk :
  calm hw pt i p pid -> bio_lock lk ->
  acquire lk (W hw pt km bc fs cn o) = Ok tt (W (hw_acquire lk i hw) pt km bc fs cn o).
Proof. intros [(c & Hh & _) _ Hl _ _] Hb. eapply acquire_ok; [done|by apply Hl]. Qed.

Lemma calm_release pt pt' bc lk :
  calm hw pt i p pid -> bio_lock lk ->
  release lk (W (hw_acquire lk i hw) pt' km bc fs cn o) = Ok tt (W hw pt' km bc fs cn o).
Proof.
  intros [(c & Hh & _) Ht Hl _ _] Hb. erewrite release_acquired by (done || by apply Hl).
  by rewrite Ht.
Qed.

(** [myproc()->pid] inside a critical section. *)
Lemma calm_mypid pt bc lk :
  calm hw pt i p pid ->
  mypid (W (hw_acquire lk i hw) pt km bc fs cn o) =
  Ok pid (W (hw_acquire lk i hw) pt km bc fs cn o).
Proof.
  intros [(c & Hh & Hp) Ht _ _ (x & Hx & <- & _)]. unfold mypid.
  kcall myproc_ok by (by apply here_acquire). erewrite touch_acquire by done.
  cbn [c_proc pushed set_c_intena set_c_ncli]. rewrite Hp. cbn [deref]. krun.
  kcall getp_ok by exact Hx. done.
Qed.

Lemma calm_wakeup_in pt bc lk ch :
  calm hw pt i p pid -> bio_lock lk -> lk <> LPtable ->
  wakeup ch (W (hw_acquire lk i hw) pt km bc fs cn o) =
  Ok tt (W (hw_acquire lk i hw) (wakeup_pt ch pt) km bc fs cn o).
Proof.
  intros [(c & Hh & _) Ht Hl Hn _] Hb Hne. erewrite wakeup_eq.
  - by erewrite touch_acquire.
  - by apply here_acquire.
  - apply lock_free_other; [done|]. apply Hl. right. by left.
  - done.
Qed.

Lemma acquiresleep_buf pt bc j b :
  calm hw pt i p pid -> bc_buf bc !! j = Some b -> sl_locked (b_lock b) = 0 ->
  acquiresleep (LBuf j) (W hw pt km bc fs cn o) =
  Ok tt (W hw pt km (set_bc_buf (alter (fun b =>
    set_b_lock (mk_sleeplock 1 (sl_name (b_lock b)) pid) b) j (bc_buf bc)) bc) fs cn o).
Proof.
  intros Hc Hb Hl. assert (bio_lock (LBuf j)) as Hlk by (right; right; by exists j).
  unfold acquiresleep. kcall calm_acquire by done.
  erewrite bind_ok.
  2: { unfold wait_loop. cbn [loop_]. unfold getsleep. krun.
       kcall getb_ok by exact Hb. krun. rewrite Hl. done. }
  unfold updsleep, updb. krun. kcall calm_mypid by done. krun.
  erewrite calm_release by done. rewrite list_alter_alter_eq. done.
Qed.

Lemma holdingsleep_buf pt bc j b :
  calm hw pt i p pid -> bc_buf bc !! j = Some b ->
  holdingsleep (LBuf j) (W hw pt km bc fs cn o) =
  Ok (negb (sl_locked (b_lock b) =? 0) && (sl_pid (b_lock b) =? pid))
     (W hw pt km bc fs cn o).
Proof.
  intros Hc Hb. assert (bio_lock (LBuf j)) as Hlk by (right; right; by exists j).
  unfold holdingsleep. kcall calm_acquire by done. unfold getsleep. krun.
  kcall getb_ok by exact Hb. krun. destruct (sl_locked (b_lock b) =? 0); krun.
  - kcall calm_release by done. done.
  - kcall calm_mypid by done. krun. kcall calm_release by done. done.
Qed.

Lemma releasesleep_buf pt bc j b :
  calm hw pt i p pid -> bc_buf bc !! j = Some b ->
  releasesleep (LBuf j) (W hw pt km bc fs cn o) =
  Ok tt (W hw (wakeup_pt (ChSleep (LBuf j)) pt) km (set_bc_buf (alter (fun b =>
    set_b_lock (mk_sleeplock 0 (sl_name (b_lock b)) 0) b) j (bc_buf bc)) bc) fs cn o).
Proof.
  intros Hc Hb. assert (bio_lock (LBuf j)) as Hlk by (right; right; by exists j).
  unfold releasesleep. kcall calm_acquire by done. unfold updsleep, updb. krun.
  kcall calm_wakeup_in by done. erewrite calm_release by done.
  rewrite list_alter_alter_eq. done.
Qed.
End Calm.
