(* ===== verification/Bio.v ===== *)
(** * The buffer cache

    [bio.c], over a disk driver.  The driver is an interface ([DiskDriver]),
    with the synchronous disk of [memide.c] as an instance.  The cache is the
    array of [NBUF] buffers and the list head, linked both ways; the links are
    indices into the array, the head being entry [NBUF]. *)

From stdpp Require Import prelude list gmap strings.
From Stdlib Require Import ZArith Lia FunctionalExtensionality.
From S2P Require Import Prelude State Boot Spinlock Str Kalloc Cprintf Vm Sched Sleeplock.
#[local] Open Scope c_scope.

(** ** The disk driver *)

Class DiskDriver := { iderw : nat -> K unit; ideintr : K unit }.

(** [memide.c]: the disk is an array of blocks in memory. *)
Module Memide.

Definition disksize : K Z := d <- getbc bc_disk ;; ret (Z.of_nat (length d)).

Definition iderw (i : nat) : K unit :=
  h <- holdingsleep (LBuf i) ;;
  if negb h then panic "iderw: buf not locked" else
  b <- getb i ;;
  if Z.land (b_flags b) (Z.lor B_VALID B_DIRTY) =? B_VALID
  then panic "iderw: nothing to do" else
  if negb (b_dev b =? 1) then panic "iderw: request not for disk 1" else
  n <- disksize ;;
  if n <=? b_blockno b then panic "iderw: block out of range" else
  let p := Z.to_nat (b_blockno b) in
  (if negb (Z.land (b_flags b) B_DIRTY =? 0) then
     updb i (fun b => set_b_flags (Z.land (b_flags b) (Z.lnot B_DIRTY)) b) ;;
     updbc (fun t => t |> set_bc_hist (bc_disk t :: bc_hist t)
                       |> set_bc_disk (<[p := b_data b]> (bc_disk t)))
   else
     d <- getbc bc_disk ;;
     d <- at_ "memdisk" d p ;;
     updb i (set_b_data d)) ;;
  updb i (fun b => set_b_flags (Z.lor (b_flags b) B_VALID) b).

Definition ideintr : K unit := ret tt.

#[export] Instance driver : DiskDriver :=
  {| Bio.iderw := iderw; Bio.ideintr := ideintr |}.
End Memide.

(** ** The cache *)

Definition bhead : nat := NBUF.

Definition binit : K unit :=
  initlock LBcache "bcache" ;;
  updb bhead (set_b_prev bhead) ;;
  updb bhead (set_b_next bhead) ;;
  each_ NBUF 0 (fun i =>
    h <- getb bhead ;;
    updb i (set_b_next (b_next h)) ;;
    updb i (set_b_prev bhead) ;;
    initsleeplock (LBuf i) "buffer" ;;
    h <- getb bhead ;;
    updb (b_next h) (set_b_prev i) ;;
    updb bhead (set_b_next i)).

(** The walk of the list in one direction, from entry [i] until the head;
    [NBUF] entries are enough for the list [binit] builds. *)
Fixpoint scan_bufs (fuel : nat) (step : buf -> nat) (ok : buf -> bool) (i : nat)
    : K (option nat) :=
  match fuel with
  | O => fun _ => Diverge
  | S n =>
    if Nat.eqb i bhead then ret None else
    b <- getb i ;;
    if ok b then ret (Some i) else scan_bufs n step ok (step b)
  end.

(** Look through the buffer cache for a block; recycle an unused buffer when
    it is not there.  In either case, return a locked buffer. *)
Definition bget (dev blockno : Z) : K nat :=
  acquire LBcache ;;
  h <- getb bhead ;;
  r <- scan_bufs (S NBUF) b_next
         (fun b => (b_dev b =? dev) && (b_blockno b =? blockno)) (b_next h) ;;
  match r with
  | Some i =>
    updb i (fun b => set_b_refcnt (u32 (b_refcnt b + 1)) b) ;;
    release LBcache ;;
    acquiresleep (LBuf i) ;;
    ret i
  | None =>
    h <- getb bhead ;;
    r <- scan_bufs (S NBUF) b_prev
           (fun b => (b_refcnt b =? 0) && (Z.land (b_flags b) B_DIRTY =? 0)) (b_prev h) ;;
    match r with
    | Some i =>
      updb i (set_b_dev dev) ;;
      updb i (set_b_blockno blockno) ;;
      updb i (set_b_flags 0) ;;
      updb i (set_b_refcnt 1) ;;
      release LBcache ;;
      acquiresleep (LBuf i) ;;
      ret i
    | None => panic "bget: no buffers"
    end
  end.

Section Driver.
Context `{DiskDriver}.

(** A locked buffer with the contents of the block. *)
Definition bread (dev blockno : Z) : K nat :=
  i <- bget dev blockno ;;
  b <- getb i ;;
  (if Z.land (b_flags b) B_VALID =? 0 then iderw i else ret tt) ;;
  ret i.

(** Write the contents to disk.  Must be locked. *)
Definition bwrite (i : nat) : K unit :=
  h <- holdingsleep (LBuf i) ;;
  if negb h then panic "bwrite" else
  updb i (fun b => set_b_flags (Z.lor (b_flags b) B_DIRTY) b) ;;
  iderw i.
End Driver.

(** Release a locked buffer; move it to the head of the MRU list. *)
Definition brelse (i : nat) : K unit :=
  h <- holdingsleep (LBuf i) ;;
  if negb h then panic "brelse" else
  releasesleep (LBuf i) ;;
  acquire LBcache ;;
  updb i (fun b => set_b_refcnt (u32 (b_refcnt b - 1)) b) ;;
  b <- getb i ;;
  (if b_refcnt b =? 0 then
     updb (b_next b) (set_b_prev (b_prev b)) ;;
     b <- getb i ;;
     updb (b_prev b) (set_b_next (b_next b)) ;;
     h <- getb bhead ;;
     updb i (set_b_next (b_next h)) ;;
     updb i (set_b_prev bhead) ;;
     h <- getb bhead ;;
     updb (b_next h) (set_b_prev i) ;;
     updb bhead (set_b_next i)
   else ret tt) ;;
  release LBcache.

(** ** The ring of buffers

    [seg nx pv a l b]: the links lead from [a] through [l] to [b], forwards by
    [nx] and backwards by [pv]. *)

Fixpoint seg (nx pv : nat -> nat) (a : nat) (l : list nat) (b : nat) : Prop :=
  match l with
  | [] => nx a = b /\ pv b = a
  | x :: l' => nx a = x /\ pv x = a /\ seg nx pv x l' b
  end.

Lemma seg_app nx pv a l1 x l2 b :
  seg nx pv a (l1 ++ x :: l2) b <-> seg nx pv a l1 x /\ seg nx pv x l2 b.
Proof.
  revert a. induction l1 as [|y l1 IH]; intros a; cbn [app seg]; [tauto|].
  rewrite IH. tauto.
Qed.

Lemma seg_ext nx pv nx' pv' a l b :
  seg nx pv a l b ->
  (forall x, x ∈ a :: l -> nx' x = nx x) -> (forall x, x ∈ l ++ [b] -> pv' x = pv x) ->
  seg nx' pv' a l b.
Proof.
  revert a. induction l as [|y l IH]; intros a; cbn [seg app].
  - intros [H1 H2] Hn Hp. rewrite (Hn a), (Hp b) by set_solver. done.
  - intros (H1 & Hy & Hs) Hn Hp. rewrite (Hn a), (Hp y) by set_solver. do 2 (split; [done|]).
    apply IH; [done| |]; intros x Hx; [apply Hn|apply Hp]; set_solver.
Qed.

(** The last and the first element of a segment, seen from its ends. *)
Lemma seg_last nx pv a l b : seg nx pv a l b ->
  pv b = default a (last l) /\ nx (default a (last l)) = b.
Proof.
  revert a. induction l as [|x l IH]; intros a; [by intros [H1 H2]|].
  intros (_ & _ & Hs). apply IH in Hs. rewrite last_cons. by destruct (last l).
Qed.
Lemma seg_head nx pv a l b : seg nx pv a l b ->
  nx a = default b (head l) /\ pv (default b (head l)) = a.
Proof. destruct l; cbn; tauto. Qed.

(** Replacing the end of a segment by another node. *)
Lemma seg_relink nx pv a l b b' :
  seg nx pv a l b -> NoDup (a :: l) -> b' ∉ l ->
  seg (fn_upd (default a (last l)) b' nx) (fn_upd b' (default a (last l)) pv) a l b'.
Proof.
  induction l as [|x l IH] using rev_ind; intros Hs Hn Hb.
  - cbn. by rewrite !fn_upd_eq.
  - rewrite last_snoc. cbn [default]. rewrite seg_app in *. destruct Hs as [Hs Hx].
    rewrite app_comm_cons in Hn. apply NoDup_app in Hn as (Hn & Hd & _). split.
    + eapply seg_ext; [exact Hs| |]; intros y Hy; apply fn_upd_ne.
      * specialize (Hd y). set_solver.
      * set_solver.
    + cbn. by rewrite !fn_upd_eq.
Qed.

(** Unlinking [i], as [brelse] does. *)
Lemma seg_remove nx pv h l1 i l2 :
  seg nx pv h (l1 ++ i :: l2) h -> NoDup (h :: l1 ++ i :: l2) ->
  seg (fn_upd (pv i) (nx i) nx) (fn_upd (nx i) (pv i) pv) h (l1 ++ l2) h.
Proof.
  intros [H1 H2]%seg_app Hn.
  apply seg_last in H1 as E1. apply seg_head in H2 as E2.
  destruct E1 as [-> _], E2 as [-> _].
  rewrite NoDup_cons, NoDup_app, NoDup_cons in Hn.
  destruct Hn as (Hh & Hn1 & Hd & Hi & Hn2).
  destruct l2 as [|y l2]; cbn [head default].
  - rewrite app_nil_r. eapply seg_relink; [exact H1| |set_solver]. apply NoDup_cons. set_solver.
  - rewrite seg_app. split.
    + eapply seg_relink; [exact H1| |].
      * apply NoDup_cons. set_solver.
      * intros Hy. apply (Hd y Hy). set_solver.
    + destruct H2 as (_ & _ & H2). apply NoDup_cons in Hn2 as [Hy Hn2].
      eapply seg_ext; [exact H2| |]; intros z Hz; apply fn_upd_ne.
      * intros ->. destruct l1 as [|w l1 _] using rev_ind; cbn in Hz; [set_solver|].
        rewrite last_snoc in Hz. cbn in Hz. apply (Hd w); set_solver.
      * intros ->. set_solver.
Qed.

(** Linking [i] in after the head. *)
Lemma seg_push nx pv h l i :
  seg nx pv h l h -> NoDup (h :: l) -> i ∉ h :: l ->
  seg (fn_upd h i (fn_upd i (nx h) nx)) (fn_upd (nx h) i (fn_upd i h pv)) h (i :: l) h.
Proof.
  intros Hs Hn Hi. apply seg_head in Hs as E. destruct E as [-> _].
  assert (i <> h) as Hih by set_solver. cbn [seg]. split; [by rewrite fn_upd_eq|].
  split.
  { rewrite fn_upd_ne, fn_upd_eq; [done|]. destruct l; cbn; set_solver. }
  destruct l as [|y l]; cbn [head default].
  - cbn. rewrite fn_upd_ne, !fn_upd_eq by done. done.
  - destruct Hs as (_ & _ & Hs). cbn [seg].
    rewrite (fn_upd_ne h i i) by done. rewrite !fn_upd_eq. do 2 (split; [done|]).
    apply NoDup_cons in Hn as [Hh Hn]. apply NoDup_cons in Hn as [Hy Hn].
    eapply seg_ext; [exact Hs| |]; intros z Hz; rewrite !fn_upd_ne; set_solver.
Qed.

Lemma seg_rev nx pv a l b : seg nx pv a l b -> seg pv nx b (reverse l) a.
Proof.
  revert a. induction l as [|x l IH]; intros a; [by intros [H1 H2]|].
  intros (H1 & H2 & Hs). rewrite reverse_cons, seg_app. split; [by apply IH|done].
Qed.

(** The buffers as a total function of the index, and their links. *)
Definition bufat (bs : list buf) (j : nat) : buf := default zbuf (bs !! j).
Definition nx (bs : list buf) (j : nat) : nat := b_next (bufat bs j).
Definition pv (bs : list buf) (j : nat) : nat := b_prev (bufat bs j).

Lemma bufat_lookup bs j : (j < length bs)%nat -> bs !! j = Some (bufat bs j).
Proof. intros [b H]%lookup_lt_is_Some_2. unfold bufat. by rewrite H. Qed.

Lemma bufat_alter bs f j k :
  (j < length bs)%nat ->
  bufat (alter f j bs) k = if decide (k = j) then f (bufat bs j) else bufat bs k.
Proof.
  intros [b Hb]%lookup_lt_is_Some_2. unfold bufat. destruct (decide (k = j)) as [->|Hne].
  - by rewrite list_lookup_alter_eq, Hb.
  - by rewrite list_lookup_alter_ne.
Qed.

Section Scan.
Context (hw : hwstate) (pt : ptstate) (km : kmstate) (bc : bcstate)
  (fs : fsstate) (cn : cnstate) (o : list (kstate -> kstate)).

(** The walk finds the first buffer that qualifies in the order of the ring. *)
Lemma scan_bufs_eq step back ok a l fuel :
  seg (fun j => step (bufat (bc_buf bc) j)) back a l bhead ->
  Forall (fun j => j < NBUF)%nat l -> length (bc_buf bc) = S NBUF ->
  (length l < fuel)%nat ->
  scan_bufs fuel step ok (step (bufat (bc_buf bc) a)) (W hw pt km bc fs cn o) =
  Ok (List.find (fun j => ok (bufat (bc_buf bc) j)) l) (W hw pt km bc fs cn o).
Proof.
  intros Hs Hl Hn. revert a fuel Hs. induction l as [|x l IH]; intros a fuel Hs Hf;
    (destruct fuel as [|fuel]; [lia|]); cbn [scan_bufs].
  - destruct Hs as [-> _]. by rewrite Nat.eqb_refl.
  - destruct Hs as (-> & _ & Hs). apply Forall_cons in Hl as [Hx Hl].
    destruct (Nat.eqb_spec x bhead); [unfold bhead in *; lia|].
    kcall getb_ok by (apply bufat_lookup; lia). cbn [List.find].
    destruct (ok (bufat (bc_buf bc) x)); [done|]. apply IH; [done|done|]. cbn in Hf. lia.
Qed.
End Scan.

Lemma find_split {A} (P : A -> bool) l x :
  List.find P l = Some x ->
  exists l1 l2, l = l1 ++ x :: l2 /\ P x = true /\ Forall (fun y => P y = false) l1.
Proof.
  induction l as [|y l IH]; cbn; [done|]. destruct (P y) eqn:E.
  - intros [= ->]. by exists [], l.
  - intros (l1 & l2 & -> & Hx & Ha)%IH. exists (y :: l1), l2. split; [done|]. split; [done|].
    by constructor.
Qed.

(** ** What the cache maintains

    [cache pid bc l H X]: the buffers are linked in order [l] (most recently
    released first), the running process holds exactly the buffers [H], and
    of the buffers that are not marked dirty only those in [X] may differ from
    the disk. *)

Definition bdirty (b : buf) : Prop := Z.land (b_flags b) B_DIRTY <> 0.

Record buf_ok (pid : Z) (disk : list (list Z)) (held changed : Prop) (b : buf) : Prop := {
  bk_ref : b_refcnt b = 0 /\ ~ held \/ b_refcnt b = 1 /\ held;
  bk_lock : sl_locked (b_lock b) = 0 /\ ~ held \/
            sl_locked (b_lock b) = 1 /\ sl_pid (b_lock b) = pid /\ held;
  bk_flags : b_dev b <> 1 /\ b_flags b = 0 \/
    b_dev b = 1 /\ (b_flags b = B_VALID \/ b_flags b = Z.lor B_VALID B_DIRTY);
  bk_range : b_dev b = 1 -> 0 <= b_blockno b < Z.of_nat (length disk);
  bk_clean : b_dev b = 1 -> b_flags b = B_VALID -> ~ changed ->
    disk !! Z.to_nat (b_blockno b) = Some (b_data b);
}.

Record cache (pid : Z) (bc : bcstate) (l H X : list nat) : Prop := {
  ca_len : length (bc_buf bc) = S NBUF;
  ca_ring : seg (nx (bc_buf bc)) (pv (bc_buf bc)) bhead l bhead;
  ca_perm : l ≡ₚ seq 0 NBUF;
  ca_bufs : forall j, (j < NBUF)%nat ->
    buf_ok pid (bc_disk bc) (j ∈ H) (j ∈ X) (bufat (bc_buf bc) j);
  ca_uniq : forall j k, (j < NBUF)%nat -> (k < NBUF)%nat ->
    b_dev (bufat (bc_buf bc) j) = 1 -> b_dev (bufat (bc_buf bc) k) = 1 ->
    b_blockno (bufat (bc_buf bc) j) = b_blockno (bufat (bc_buf bc) k) -> j = k;
  ca_held : Forall (fun j => j < NBUF)%nat H;
  ca_changed : X ⊆ H;
}.

(** Buffer [j] holds block [bn] of disk 1. *)
Definition holds_block (bs : list buf) (bn : Z) (j : nat) : Prop :=
  (j < NBUF)%nat /\ b_dev (bufat bs j) = 1 /\ b_blockno (bufat bs j) = bn.

(** The contents of a block as the kernel sees them: the buffer's if the block
    is in the cache, else the disk's. *)
Definition contents (bc : bcstate) (bn : Z) : option (list Z) :=
  match List.find (fun j => (b_dev (bufat (bc_buf bc) j) =? 1) &&
                            (b_blockno (bufat (bc_buf bc) j) =? bn)) (seq 0 NBUF) with
  | Some j => Some (b_data (bufat (bc_buf bc) j))
  | None => bc_disk bc !! Z.to_nat bn
  end.

(** The block is in the cache and newer than on disk. *)
Definition dirty (bc : bcstate) (bn : Z) : Prop :=
  exists j, holds_block (bc_buf bc) bn j /\
    b_flags (bufat (bc_buf bc) j) = Z.lor B_VALID B_DIRTY.

(** A buffer can be recycled. *)
Definition has_room (bc : bcstate) : Prop :=
  exists j, (j < NBUF)%nat /\ b_refcnt (bufat (bc_buf bc) j) = 0 /\
    ~ bdirty (bufat (bc_buf bc) j).

Lemma cache_ring_lt pid bc l H X : cache pid bc l H X -> Forall (fun j => j < NBUF)%nat l.
Proof.
  intros Hc. apply Forall_forall. intros j Hj. rewrite (ca_perm _ _ _ _ _ Hc) in Hj.
  apply elem_of_seq in Hj. lia.
Qed.

Lemma cache_ring_in pid bc l H X j : cache pid bc l H X -> (j < NBUF)%nat -> j ∈ l.
Proof. intros Hc Hj. rewrite (ca_perm _ _ _ _ _ Hc). apply elem_of_seq. lia. Qed.

Lemma cache_ring_len pid bc l H X : cache pid bc l H X -> length l = NBUF.
Proof. intros Hc. rewrite (ca_perm _ _ _ _ _ Hc). apply length_seq. Qed.

(** The buffers [bget] looks for. *)
Definition is_block (dev bn : Z) (b : buf) : bool := (b_dev b =? dev) && (b_blockno b =? bn).
Definition is_free (b : buf) : bool :=
  (b_refcnt b =? 0) && (Z.land (b_flags b) B_DIRTY =? 0).
Definition lookup_block (bs : list buf) (bn : Z) (l : list nat) : option nat :=
  List.find (fun j => is_block 1 bn (bufat bs j)) l.
Definition lookup_free (bs : list buf) (l : list nat) : option nat :=
  List.find (fun j => is_free (bufat bs j)) (reverse l).

Lemma lookup_block_Some pid bc l H X bn j :
  cache pid bc l H X ->
  lookup_block (bc_buf bc) bn l = Some j <-> holds_block (bc_buf bc) bn j.
Proof.
  intros Hc. unfold lookup_block, is_block. split.
  - intros [Hin Hb]%List.find_some. zb. split; [|done].
    pose proof (cache_ring_lt _ _ _ _ _ Hc) as Hl. rewrite Forall_forall in Hl.
    by apply Hl, list_elem_of_In.
  - intros (Hj & Hd & Hb). destruct (List.find _ _) as [k|] eqn:E.
    + apply List.find_some in E as [Hin Hk]. zb. f_equal.
      eapply (ca_uniq _ _ _ _ _ Hc); [|done|done|done|congruence].
      pose proof (cache_ring_lt _ _ _ _ _ Hc) as Hl. rewrite Forall_forall in Hl.
      by apply Hl, list_elem_of_In.
    + eapply List.find_none in E; [|by apply list_elem_of_In, (cache_ring_in _ _ _ _ _ j Hc)].
      rewrite Hd, Hb, !Z.eqb_refl in E. done.
Qed.

Lemma lookup_free_Some pid bc l H X j :
  cache pid bc l H X -> lookup_free (bc_buf bc) l = Some j ->
  (j < NBUF)%nat /\ j ∉ H /\ b_refcnt (bufat (bc_buf bc) j) = 0 /\ ~ bdirty (bufat (bc_buf bc) j).
Proof.
  intros Hc [Hin Hb]%List.find_some. unfold is_free in Hb. zb.
  apply list_elem_of_In in Hin. rewrite elem_of_reverse in Hin.
  pose proof (cache_ring_lt _ _ _ _ _ Hc) as Hl. rewrite Forall_forall in Hl.
  split; [by apply Hl|]. split; [|split; [done|unfold bdirty; congruence]].
  destruct (bk_ref _ _ _ _ _ (ca_bufs _ _ _ _ _ Hc j (Hl j Hin))) as [[_ ?]|[? _]]; [done|lia].
Qed.

Lemma lookup_free_room pid bc l H X :
  cache pid bc l H X -> has_room bc -> exists j, lookup_free (bc_buf bc) l = Some j.
Proof.
  intros Hc (j & Hj & Hr & Hd). unfold lookup_free.
  destruct (List.find _ _) as [k|] eqn:E; [by exists k|].
  eapply List.find_none in E; [|apply list_elem_of_In, elem_of_reverse, (cache_ring_in _ _ _ _ _ j Hc Hj)].
  unfold is_free in E. rewrite Hr in E. unfold bdirty in Hd. cbn in E.
  destruct (Z.eqb_spec (Z.land (b_flags (bufat (bc_buf bc) j)) B_DIRTY) 0); done.
Qed.

(** A buffer taken by the running process. *)
Definition grabbed (pid : Z) (b : buf) : buf :=
  b |> set_b_refcnt 1 |> set_b_lock (mk_sleeplock 1 (sl_name (b_lock b)) pid).
Definition recycled (bn : Z) (b : buf) : buf :=
  b |> set_b_dev 1 |> set_b_blockno bn |> set_b_flags 0.
Definition filled (d : list Z) (b : buf) : buf := b |> set_b_data d |> set_b_flags B_VALID.

Definition bset (f : buf -> buf) (j : nat) (bc : bcstate) : bcstate :=
  set_bc_buf (alter f j (bc_buf bc)) bc.

(** A change of one buffer that leaves the links alone keeps the cache in
    order when the buffer is. *)
Lemma cache_bset pid bc l H X H' X' f j :
  cache pid bc l H X -> (j < NBUF)%nat ->
  (forall b, b_next (f b) = b_next b) -> (forall b, b_prev (f b) = b_prev b) ->
  buf_ok pid (bc_disk bc) (j ∈ H') (j ∈ X') (f (bufat (bc_buf bc) j)) ->
  (forall k, k <> j -> (k ∈ H' <-> k ∈ H) /\ (k ∈ X' <-> k ∈ X)) ->
  (forall k, (k < NBUF)%nat -> k <> j -> b_dev (bufat (bc_buf bc) k) = 1 ->
     b_dev (f (bufat (bc_buf bc) j)) = 1 ->
     b_blockno (bufat (bc_buf bc) k) <> b_blockno (f (bufat (bc_buf bc) j))) ->
  Forall (fun j => j < NBUF)%nat H' -> X' ⊆ H' ->
  cache pid (bset f j bc) l H' X'.
Proof.
  intros Hc Hj Hfn Hfp Hok Hother Hu HH HX. pose proof (ca_len _ _ _ _ _ Hc) as Hn.
  assert (j < length (bc_buf bc))%nat as Hj' by (rewrite Hn; lia).
  split; cbn [bset bc_buf set_bc_buf bc_disk]; [by rewrite length_alter| | | | |done|done].
  - eapply seg_ext; [apply Hc| |]; intros x _; unfold nx, pv; rewrite bufat_alter by done;
      destruct (decide _) as [->|]; auto.
  - apply Hc.
  - intros k Hk. rewrite bufat_alter by done. destruct (decide (k = j)) as [->|Hne]; [done|].
    destruct (Hother k Hne) as [E1 E2]. destruct (ca_bufs _ _ _ _ _ Hc k Hk) as [? ? ? ? Hcl].
    split; [tauto|tauto|done|done|]. intros ? ? ?. apply Hcl; tauto.
  - intros k1 k2 Hk1 Hk2. rewrite !bufat_alter by done.
    destruct (decide (k1 = j)) as [->|Hne1], (decide (k2 = j)) as [->|Hne2]; intros H1 H2 H3.
    + done.
    + exfalso. by apply (Hu k2).
    + exfalso. by apply (Hu k1).
    + by apply (ca_uniq _ _ _ _ _ Hc).
Qed.

Section Calls.
Context (km : kmstate) (fs : fsstate) (cn : cnstate) (o : list (kstate -> kstate)).
Context (hw : hwstate) (i p : nat) (pid : Z).
Implicit Types (pt : ptstate) (bc : bcstate).

Lemma bio_bcache : bio_lock LBcache.
Proof. by left. Qed.

(** The two walks of the ring, inside the critical section. *)
Lemma scan_block pt hw' bc l H X bn :
  cache pid bc l H X ->
  scan_bufs (S NBUF) b_next (fun b => (b_dev b =? 1) && (b_blockno b =? bn))
    (b_next (bufat (bc_buf bc) bhead)) (W hw' pt km bc fs cn o) =
  Ok (lookup_block (bc_buf bc) bn l) (W hw' pt km bc fs cn o).
Proof.
  intros Hc. eapply scan_bufs_eq; [apply (ca_ring _ _ _ _ _ Hc)| |apply Hc|].
  - by eapply cache_ring_lt.
  - rewrite (cache_ring_len _ _ _ _ _ Hc). lia.
Qed.

Lemma scan_free pt hw' bc l H X :
  cache pid bc l H X ->
  scan_bufs (S NBUF) b_prev
    (fun b => (b_refcnt b =? 0) && (Z.land (b_flags b) B_DIRTY =? 0))
    (b_prev (bufat (bc_buf bc) bhead)) (W hw' pt km bc fs cn o) =
  Ok (lookup_free (bc_buf bc) l) (W hw' pt km bc fs cn o).
Proof.
  intros Hc. eapply scan_bufs_eq; [apply seg_rev, (ca_ring _ _ _ _ _ Hc)| |apply Hc|].
  - apply Forall_reverse. by eapply cache_ring_lt.
  - rewrite length_reverse, (cache_ring_len _ _ _ _ _ Hc). lia.
Qed.

Lemma getb_at hw' pt bc j :
  (j < length (bc_buf bc))%nat ->
  getb j (W hw' pt km bc fs cn o) = Ok (bufat (bc_buf bc) j) (W hw' pt km bc fs cn o).
Proof. intros H. apply getb_ok, bufat_lookup, H. Qed.

Lemma bget_hit pt bc l H X bn j :
  calm hw pt i p pid -> cache pid bc l H X -> holds_block (bc_buf bc) bn j -> j ∉ H ->
  bget 1 bn (W hw pt km bc fs cn o) =
  Ok j (W hw pt km (bset (grabbed pid) j bc) fs cn o).
Proof.
  intros Hm Hc Hb Hj. pose proof (ca_len _ _ _ _ _ Hc) as Hn. pose proof Hb as (Hlt & _ & _).
  unfold bget. kcall calm_acquire by (done || apply bio_bcache).
  kcall getb_at by (rewrite Hn; unfold bhead; lia). kcall scan_block by done.
  rewrite (proj2 (lookup_block_Some _ _ _ _ _ _ _ Hc) Hb). unfold updb at 1. krun.
  kcall calm_release by (done || apply bio_bcache).
  destruct (ca_bufs _ _ _ _ _ Hc j Hlt) as [[[Hr _]|[_ ?]] [[Hl _]|(_ & _ & ?)] _ _ _]; try done.
  kcall acquiresleep_buf by first [done | cbn; rewrite list_lookup_alter_eq, bufat_lookup by lia;
    reflexivity | exact Hl].
  unfold ret, bset, set_bc_buf. cbn. rewrite list_alter_alter_eq. do 4 f_equal.
  apply list_alter_ext; [|done].
  intros b E. rewrite bufat_lookup in E by lia. simplify_eq. unfold compose, grabbed. cbn.
  by rewrite Hr.
Qed.

Lemma bget_miss pt bc l H X bn j :
  calm hw pt i p pid -> cache pid bc l H X ->
  (forall j, ~ holds_block (bc_buf bc) bn j) -> lookup_free (bc_buf bc) l = Some j ->
  bget 1 bn (W hw pt km bc fs cn o) =
  Ok j (W hw pt km (bset (fun b => grabbed pid (recycled bn b)) j bc) fs cn o).
Proof.
  intros Hm Hc Hb Hf. pose proof (ca_len _ _ _ _ _ Hc) as Hn.
  destruct (lookup_free_Some _ _ _ _ _ _ Hc Hf) as (Hlt & Hj & Hr & Hd).
  unfold bget. kcall calm_acquire by (done || apply bio_bcache).
  kcall getb_at by (rewrite Hn; unfold bhead; lia). kcall scan_block by done.
  destruct (lookup_block _ _ _) as [k|] eqn:E.
  { exfalso. by apply (Hb k), (lookup_block_Some _ _ _ _ _ _ _ Hc). }
  kcall getb_at by (rewrite Hn; unfold bhead; lia). kcall scan_free by done. rewrite Hf.
  unfold updb. krun. kcall calm_release by (done || apply bio_bcache).
  destruct (ca_bufs _ _ _ _ _ Hc j Hlt) as [_ [[Hl _]|(_ & _ & ?)] _ _ _]; [|done].
  rewrite !list_alter_alter_eq.
  kcall acquiresleep_buf by first [done | cbn; rewrite list_lookup_alter_eq, bufat_lookup by lia;
    reflexivity | exact Hl].
  unfold bset, set_bc_buf. cbn. rewrite list_alter_alter_eq. done.
Qed.

(** The disk of [memide.c]. *)
Lemma iderw_read pt bc j b d :
  calm hw pt i p pid -> bc_buf bc !! j = Some b ->
  sl_locked (b_lock b) = 1 -> sl_pid (b_lock b) = pid -> b_flags b = 0 -> b_dev b = 1 ->
  0 <= b_blockno b < Z.of_nat (length (bc_disk bc)) ->
  bc_disk bc !! Z.to_nat (b_blockno b) = Some d ->
  Memide.iderw j (W hw pt km bc fs cn o) = Ok tt (W hw pt km (bset (filled d) j bc) fs cn o).
Proof.
  intros Hm Hb Hl Hp Hf Hd Hr Hdk. unfold Memide.iderw.
  kcall holdingsleep_buf by done. rewrite Hl, Hp, Z.eqb_refl. cbn [Z.eqb negb andb].
  kcall getb_ok by exact Hb. rewrite Hf, Hd.
  change (Z.land 0 (Z.lor B_VALID B_DIRTY) =? B_VALID) with false. change (Z.land 0 B_DIRTY =? 0) with true.
  cbn [negb Z.eqb Pos.eqb]. unfold Memide.disksize. krun.
  destruct (Z.leb_spec (Z.of_nat (length (bc_disk bc))) (b_blockno b)); [lia|]. krun.
  erewrite bind_at by exact Hdk. unfold updb. krun. unfold bset. rewrite list_alter_alter_eq. unfold set_bc_buf. cbn. do 4 f_equal.
  apply list_alter_ext; [|done]. intros x Hx. simplify_eq. unfold compose, filled. cbn.
  by rewrite Hf.
Qed.

(** The write to disk; [bc_hist] remembers the disk before it. *)
Definition disk_write (bn : Z) (d : list Z) (bc : bcstate) : bcstate :=
  bc |> set_bc_hist (bc_disk bc :: bc_hist bc)
     |> set_bc_disk (<[Z.to_nat bn := d]> (bc_disk bc)).

Lemma bwrite_eq pt bc j b :
  calm hw pt i p pid -> bc_buf bc !! j = Some b ->
  sl_locked (b_lock b) = 1 -> sl_pid (b_lock b) = pid ->
  b_flags b = B_VALID \/ b_flags b = Z.lor B_VALID B_DIRTY -> b_dev b = 1 ->
  0 <= b_blockno b < Z.of_nat (length (bc_disk bc)) ->
  bwrite (H := Memide.driver) j (W hw pt km bc fs cn o) =
  Ok tt (W hw pt km (disk_write (b_blockno b) (b_data b) (bset (set_b_flags B_VALID) j bc))
    fs cn o).
Proof.
  intros Hm Hb Hl Hp Hf Hd Hr. unfold bwrite. kcall holdingsleep_buf by done.
  rewrite Hl, Hp, Z.eqb_refl. cbn [Z.eqb negb andb]. unfold updb at 1. krun.
  change (@iderw Memide.driver) with Memide.iderw. unfold Memide.iderw.
  kcall holdingsleep_buf by first [done | cbn; by rewrite list_lookup_alter_eq, Hb].
  cbn [b_lock set_b_flags]. rewrite Hl, Hp, Z.eqb_refl. cbn [Z.eqb negb andb].
  kcall getb_ok by (cbn; by rewrite list_lookup_alter_eq, Hb).
  assert (Z.lor (b_flags b) B_DIRTY = 6) as E by (by destruct Hf as [-> | ->]).
  cbn [b_flags set_b_flags b_dev b_blockno b_data]. rewrite E, Hd.
  change (Z.land 6 (Z.lor B_VALID B_DIRTY) =? B_VALID) with false.
  change (Z.land 6 B_DIRTY =? 0) with false. cbn [negb Z.eqb Pos.eqb].
  unfold Memide.disksize. krun.
  destruct (Z.leb_spec (Z.of_nat (length (bc_disk bc))) (b_blockno b)); [lia|].
  unfold updb. krun. rewrite !list_alter_alter_eq. unfold disk_write, bset.
  unfold set_bc_hist, set_bc_disk, set_bc_buf. cbn. do 4 f_equal.
  apply list_alter_ext; [|done]. intros x Hx. simplify_eq. unfold compose. cbn.
  by rewrite E.
Qed.
End Calls.

(** ** Releasing a buffer *)

(** The six link updates of [brelse]. *)
Definition relinked (i : nat) (bs : list buf) : list buf :=
  let bs := alter (set_b_prev (pv bs i)) (nx bs i) bs in
  let bs := alter (set_b_next (nx bs i)) (pv bs i) bs in
  let bs := alter (set_b_next (nx bs bhead)) i bs in
  let bs := alter (set_b_prev bhead) i bs in
  let bs := alter (set_b_prev i) (nx bs bhead) bs in
  alter (set_b_next i) bhead bs.

(** Everything of a buffer but its links. *)
Definition core (b : buf) : buf := b |> set_b_next 0 |> set_b_prev 0.

Section Links.
Context (bs : list buf) (j : nat) (v : nat) (Hj : (j < length bs)%nat).

Lemma nx_set_next : nx (alter (set_b_next v) j bs) = fn_upd j v (nx bs).
Proof.
  apply functional_extensionality. intros k. unfold nx, fn_upd. rewrite bufat_alter by done.
  by destruct (decide _).
Qed.
Lemma nx_set_prev : nx (alter (set_b_prev v) j bs) = nx bs.
Proof.
  apply functional_extensionality. intros k. unfold nx. rewrite bufat_alter by done.
  by destruct (decide _) as [->|].
Qed.
Lemma pv_set_prev : pv (alter (set_b_prev v) j bs) = fn_upd j v (pv bs).
Proof.
  apply functional_extensionality. intros k. unfold pv, fn_upd. rewrite bufat_alter by done.
  by destruct (decide _).
Qed.
Lemma pv_set_next : pv (alter (set_b_next v) j bs) = pv bs.
Proof.
  apply functional_extensionality. intros k. unfold pv. rewrite bufat_alter by done.
  by destruct (decide _) as [->|].
Qed.
End Links.

Lemma core_alter_next bs j v k : core (bufat (alter (set_b_next v) j bs) k) = core (bufat bs k).
Proof.
  destruct (decide (j < length bs)%nat) as [Hj|Hj].
  - rewrite bufat_alter by done. by destruct (decide _) as [->|].
  - unfold bufat. rewrite list_lookup_alter. destruct (decide _) as [->|]; [|done].
    rewrite (lookup_ge_None_2 bs k) by lia. done.
Qed.
Lemma core_alter_prev bs j v k : core (bufat (alter (set_b_prev v) j bs) k) = core (bufat bs k).
Proof.
  destruct (decide (j < length bs)%nat) as [Hj|Hj].
  - rewrite bufat_alter by done. by destruct (decide _) as [->|].
  - unfold bufat. rewrite list_lookup_alter. destruct (decide _) as [->|]; [|done].
    rewrite (lookup_ge_None_2 bs k) by lia. done.
Qed.

Lemma relinked_core i bs k : core (bufat (relinked i bs) k) = core (bufat bs k).
Proof. unfold relinked. by rewrite !core_alter_next, !core_alter_prev, !core_alter_next, !core_alter_prev. Qed.

Lemma relinked_length i bs : length (relinked i bs) = length bs.
Proof. unfold relinked. by rewrite !length_alter. Qed.

(** The links after the six updates. *)
Lemma relinked_links i bs :
  let nx' := fn_upd (pv bs i) (nx bs i) (nx bs) in
  let pv' := fn_upd (nx bs i) (pv bs i) (pv bs) in
  length bs = S NBUF -> (i < NBUF)%nat -> (pv bs i < S NBUF)%nat -> (nx bs i < S NBUF)%nat ->
  nx bs i <> i -> (nx' NBUF < S NBUF)%nat ->
  nx (relinked i bs) = fn_upd NBUF i (fn_upd i (nx' NBUF) nx') /\
  pv (relinked i bs) = fn_upd (nx' NBUF) i (fn_upd i NBUF pv').
Proof.
  intros nx' pv' Hlen Hi Hp Hn Hne Hh'. subst nx' pv'.
  unfold relinked, bhead.
  set (bs1 := alter _ _ bs). assert (length bs1 = S NBUF) as L1 by (by unfold bs1; rewrite length_alter).
  assert (nx bs1 = nx bs) as N1 by (apply nx_set_prev; lia).
  assert (pv bs1 = fn_upd (nx bs i) (pv bs i) (pv bs)) as P1 by (apply pv_set_prev; lia).
  assert (pv bs1 i = pv bs i) as P1i by (rewrite P1; by apply fn_upd_ne). rewrite P1i, N1.
  set (bs2 := alter _ _ bs1). assert (length bs2 = S NBUF) as L2 by (by unfold bs2; rewrite length_alter).
  assert (nx bs2 = fn_upd (pv bs i) (nx bs i) (nx bs)) as N2
    by (unfold bs2; rewrite nx_set_next, N1; [done|lia]).
  assert (pv bs2 = pv bs1) as P2 by (apply pv_set_next; lia).
  set (bs3 := alter _ _ bs2). assert (length bs3 = S NBUF) as L3 by (by unfold bs3; rewrite length_alter).
  assert (nx bs3 = fn_upd i (nx bs2 NBUF) (nx bs2)) as N3 by (apply nx_set_next; lia).
  assert (pv bs3 = pv bs2) as P3 by (apply pv_set_next; lia).
  set (bs4 := alter _ _ bs3). assert (length bs4 = S NBUF) as L4 by (by unfold bs4; rewrite length_alter).
  assert (nx bs4 = nx bs3) as N4 by (apply nx_set_prev; lia).
  assert (pv bs4 = fn_upd i NBUF (pv bs3)) as P4 by (apply pv_set_prev; lia).
  assert (nx bs4 NBUF = nx bs2 NBUF) as N4h by (rewrite N4, N3; apply fn_upd_ne; lia).
  rewrite nx_set_next, pv_set_next by (rewrite length_alter; lia).
  rewrite nx_set_prev, pv_set_prev by (rewrite N4h, N2; lia).
  rewrite N4h, N4, N3, P4, P3, P2, P1, N2. done.
Qed.

(** The released buffer moves to the front of the ring. *)
Lemma relinked_ring i bs l1 l2 :
  length bs = S NBUF -> Forall (fun j => j < NBUF)%nat (l1 ++ i :: l2) ->
  NoDup (l1 ++ i :: l2) ->
  seg (nx bs) (pv bs) bhead (l1 ++ i :: l2) bhead ->
  seg (nx (relinked i bs)) (pv (relinked i bs)) bhead (i :: l1 ++ l2) bhead.
Proof.
  intros Hlen Hlt Hnd Hs. rewrite Forall_forall in Hlt. unfold bhead in *.
  assert (NBUF ∉ l1 ++ i :: l2) as Hh by (intros Hin; apply Hlt in Hin; lia).
  assert (i < NBUF)%nat as Hi by (apply Hlt; set_solver).
  assert (NoDup (NBUF :: l1 ++ i :: l2)) as Hnd' by (by apply NoDup_cons).
  pose proof (seg_remove _ _ _ _ _ _ Hs Hnd') as Hr.
  apply seg_app in Hs as [H1 H2]. apply seg_last in H1 as [E1 _]. apply seg_head in H2 as [E2 _].
  assert (pv bs i < S NBUF)%nat as Hp.
  { rewrite E1. destruct (last l1) eqn:E; cbn; [|lia]. apply last_Some_elem_of in E.
    specialize (Hlt n). set_solver by lia. }
  assert (nx bs i < S NBUF)%nat as Hn.
  { rewrite E2. destruct l2; cbn; [lia|]. specialize (Hlt n). set_solver by lia. }
  assert (nx bs i <> i) as Hne.
  { rewrite E2. apply NoDup_app in Hnd as (_ & _ & Hnd). destruct l2; cbn; [lia|].
    apply NoDup_cons in Hnd as [Hnd _]. set_solver. }
  assert (fn_upd (pv bs i) (nx bs i) (nx bs) NBUF < S NBUF)%nat as Hh'.
  { apply seg_head in Hr as [-> _]. destruct (l1 ++ l2) as [|y l] eqn:E; cbn; [lia|].
    assert (y ∈ l1 ++ l2) as Hy by (rewrite E; set_solver).
    assert (y < NBUF)%nat; [|lia]. apply Hlt. set_solver. }
  assert (NoDup (NBUF :: l1 ++ l2)) as Hnd2.
  { apply NoDup_cons. split; [set_solver|].
    apply (sublist_NoDup _ (l1 ++ i :: l2)); [done|]. apply sublist_app; [done|]. by constructor. }
  assert (i ∉ NBUF :: l1 ++ l2) as Hi2.
  { rewrite NoDup_app, NoDup_cons in Hnd. destruct Hnd as (_ & Hd & Hi2 & _).
    rewrite elem_of_cons, elem_of_app. intros [->|[Hin|Hin]]; [lia| |done].
    apply (Hd i Hin). set_solver. }
  pose proof (seg_push _ _ _ _ i Hr Hnd2 Hi2) as Hq.
  destruct (relinked_links i bs) as [-> ->]; done.
Qed.

Definition released (b : buf) : buf :=
  b |> set_b_lock (mk_sleeplock 0 (sl_name (b_lock b)) 0) |> set_b_refcnt 0.
Definition brelsed (j : nat) (bc : bcstate) : bcstate :=
  set_bc_buf (relinked j (alter released j (bc_buf bc))) bc.

Section Release.
Context (km : kmstate) (fs : fsstate) (cn : cnstate) (o : list (kstate -> kstate)).
Context (hw : hwstate) (i p : nat) (pid : Z).
Implicit Types (pt : ptstate) (bc : bcstate).

Lemma brelse_eq pt bc l H X j :
  calm hw pt i p pid -> cache pid bc l H X -> j ∈ H ->
  brelse j (W hw pt km bc fs cn o) =
  Ok tt (W hw (wakeup_pt (ChSleep (LBuf j)) pt) km (brelsed j bc) fs cn o).
Proof.
  intros Hm Hc Hj. pose proof (ca_len _ _ _ _ _ Hc) as Hn.
  pose proof (ca_held _ _ _ _ _ Hc) as Hh. rewrite Forall_forall in Hh. pose proof (Hh j Hj) as Hlt.
  destruct (ca_bufs _ _ _ _ _ Hc j Hlt)
    as [[[_ ?]|[Hr _]] [[_ ?]|(Hl & Hp & _)] _ _ _]; try done.
  assert (bc_buf bc !! j = Some (bufat (bc_buf bc) j)) as Hb by (apply bufat_lookup; lia).
  unfold brelse. kcall holdingsleep_buf by done. rewrite Hl, Hp, Z.eqb_refl. cbn [Z.eqb negb andb].
  kcall releasesleep_buf by done.
  pose proof (calm_wakeup _ _ _ _ _ (ChSleep (LBuf j)) Hm) as Hm'.
  kcall calm_acquire by (done || apply bio_bcache). unfold updb at 1. krun.
  rewrite list_alter_alter_eq.
  assert (alter (compose (fun b => set_b_refcnt (u32 (b_refcnt b - 1)) b)
      (fun b => set_b_lock (mk_sleeplock 0 (sl_name (b_lock b)) 0) b)) j (bc_buf bc) =
    alter released j (bc_buf bc)) as E.
  { apply list_alter_ext; [|done]. intros b Hb'. rewrite Hb in Hb'. simplify_eq.
    unfold released, compose. cbn. by rewrite Hr. }
  rewrite E. set (bs := alter released j (bc_buf bc)).
  assert (length bs = S NBUF) as Hlen by (unfold bs; by rewrite length_alter).
  assert (b_refcnt (bufat bs j) = 0) as Hr0.
  { unfold bs. rewrite bufat_alter, decide_True by (done || lia). done. }
  kcall getb_at by (cbn; lia). cbn [bc_buf set_bc_buf]. rewrite Hr0. cbn [Z.eqb]. unfold updb.
  repeat first [progress krun | kcall getb_at by
    (cbn [bc_buf set_bc_buf]; rewrite ?length_alter, Hlen; unfold bhead; lia)].
  erewrite calm_release by (done || apply bio_bcache).
  unfold brelsed, relinked. fold bs. unfold set_bc_buf. cbn. done.
Qed.

Lemma buf_ok_core held held' changed changed' d b b' :
  core b = core b' -> (held <-> held') -> (changed <-> changed') ->
  buf_ok pid d held changed b -> buf_ok pid d held' changed' b'.
Proof.
  intros E Eh Ex [H1 H2 H3 H4 H5].
  pose proof (f_equal b_flags E) as E1. pose proof (f_equal b_dev E) as E2.
  pose proof (f_equal b_blockno E) as E3. pose proof (f_equal b_lock E) as E4.
  pose proof (f_equal b_refcnt E) as E5. pose proof (f_equal b_data E) as E6. cbn in *.
  rewrite E1, E2, E3, E4, E5, E6 in *. split; tauto.
Qed.

Lemma brelsed_core bc j k :
  (j < length (bc_buf bc))%nat ->
  core (bufat (bc_buf (brelsed j bc)) k) =
  core (if decide (k = j) then released (bufat (bc_buf bc) j) else bufat (bc_buf bc) k).
Proof. intros Hj. change (bc_buf (brelsed j bc)) with (relinked j (alter released j (bc_buf bc))). rewrite relinked_core, bufat_alter by done. done. Qed.

(** The order of the ring after a release. *)
Definition to_front (j : nat) (l : list nat) : list nat := j :: filter (fun k => k <> j) l.

Lemma filter_keep {A} (P : A -> Prop) `{!forall x, Decision (P x)} (l : list A) :
  Forall P l -> filter P l = l.
Proof. induction 1; [done|]. rewrite filter_cons_True by done. by f_equal. Qed.

Lemma to_front_split j l1 l2 : NoDup (l1 ++ j :: l2) -> to_front j (l1 ++ j :: l2) = j :: l1 ++ l2.
Proof.
  intros Hn. unfold to_front. f_equal. rewrite filter_app, filter_cons, decide_False by naive_solver.
  rewrite NoDup_app, NoDup_cons in Hn. destruct Hn as (_ & Hd & Hj & _).
  f_equal; apply filter_keep; apply Forall_forall; intros k Hk ->; [|done].
  apply (Hd j Hk). set_solver.
Qed.

(** The order of the ring is independent of the rest. *)
Lemma cache_relink bc l l' H X bs :
  cache pid bc l H X -> length bs = S NBUF -> seg (nx bs) (pv bs) bhead l' bhead ->
  l' ≡ₚ l -> (forall k, core (bufat bs k) = core (bufat (bc_buf bc) k)) ->
  cache pid (set_bc_buf bs bc) l' H X.
Proof.
  intros Hc Hl Hs Hp E. split; cbn [bc_buf set_bc_buf bc_disk]; [done|done| | | |apply Hc|apply Hc].
  - rewrite Hp. apply Hc.
  - intros j Hj. eapply buf_ok_core; [symmetry; apply E|done|done|]. by apply (ca_bufs _ _ _ _ _ Hc).
  - intros j k Hj Hk. pose proof (f_equal b_dev (E j)) as E1. pose proof (f_equal b_dev (E k)) as E2.
    pose proof (f_equal b_blockno (E j)) as E3. pose proof (f_equal b_blockno (E k)) as E4.
    cbn in *. rewrite E1, E2, E3, E4. by apply (ca_uniq _ _ _ _ _ Hc).
Qed.

Lemma cache_brelse bc l H X j :
  cache pid bc l H X -> j ∈ H ->
  (j ∉ X \/ b_flags (bufat (bc_buf bc) j) = Z.lor B_VALID B_DIRTY) ->
  cache pid (brelsed j bc) (to_front j l) (filter (fun k => k <> j) H)
    (filter (fun k => k <> j) X).
Proof.
  intros Hc Hj Hx. pose proof (ca_len _ _ _ _ _ Hc) as Hn.
  pose proof (ca_held _ _ _ _ _ Hc) as Hh. rewrite Forall_forall in Hh. pose proof (Hh j Hj) as Hlt.
  assert (NoDup l) as Hnd by (rewrite (ca_perm _ _ _ _ _ Hc); apply NoDup_seq).
  assert (cache pid (bset released j bc) l (filter (fun k => k <> j) H)
    (filter (fun k => k <> j) X)) as Hr.
  { apply (cache_bset pid bc l H X); [done|done|done|done| | | | |].
    - destruct (ca_bufs _ _ _ _ _ Hc j Hlt) as [_ _ H3 H4 H5].
      assert (j ∉ filter (fun k => k <> j) H) as Hnot by (rewrite list_elem_of_filter; tauto).
      split; cbn; [by left|by left|done|done|].
      intros Hd Hf _. apply H5; [done|done|]. destruct Hx as [Hx|Hx]; [done|]. by rewrite Hf in Hx.
    - intros k Hk. rewrite !list_elem_of_filter. tauto.
    - intros k Hk Hne. cbn. intros D1 D2 E. apply Hne. by apply (ca_uniq _ _ _ _ _ Hc).
    - apply Forall_forall. intros k Hk. apply list_elem_of_filter in Hk as [_ Hk]. by apply Hh.
    - intros k. rewrite !list_elem_of_filter. pose proof (ca_changed _ _ _ _ _ Hc). set_solver. }
  destruct (list_elem_of_split l j) as (l1 & l2 & El); [by eapply cache_ring_in|].
  change (brelsed j bc) with (set_bc_buf (relinked j (bc_buf (bset released j bc)))
    (bset released j bc)).
  eapply cache_relink; [exact Hr| | | |].
  - rewrite relinked_length. apply Hr.
  - pose proof (cache_ring_lt _ _ _ _ _ Hr). rewrite El in *. rewrite to_front_split by done.
    apply relinked_ring; [apply Hr|done|done|apply Hr].
  - rewrite El in *. rewrite to_front_split by done. apply Permutation_middle.
  - intros k. apply relinked_core.
Qed.
End Release.

(** ** The cache as its clients see it *)

Lemma holds_core bs bs' bn j :
  core (bufat bs' j) = core (bufat bs j) ->
  holds_block bs' bn j <-> holds_block bs bn j.
Proof.
  intros E. unfold holds_block. pose proof (f_equal b_dev E) as E1.
  pose proof (f_equal b_blockno E) as E2. cbn in *. by rewrite E1, E2.
Qed.

Lemma contents_cached pid bc l H X bn j :
  cache pid bc l H X -> holds_block (bc_buf bc) bn j ->
  contents bc bn = Some (b_data (bufat (bc_buf bc) j)).
Proof.
  intros Hc (Hj & Hd & Hb). unfold contents.
  destruct (List.find _ _) as [k|] eqn:E.
  - apply List.find_some in E as [Hin Hk]. zb. apply list_elem_of_In, elem_of_seq in Hin.
    by rewrite (ca_uniq _ _ _ _ _ Hc j k) by (done || lia || congruence).
  - eapply List.find_none in E; [|apply list_elem_of_In, elem_of_seq; split; [apply Nat.le_0_l|exact Hj]].
    cbn in E. rewrite Hd, Hb, !Z.eqb_refl in E. done.
Qed.

Lemma contents_uncached bc bn :
  (forall j, ~ holds_block (bc_buf bc) bn j) -> contents bc bn = bc_disk bc !! Z.to_nat bn.
Proof.
  intros Hn. unfold contents. destruct (List.find _ _) as [k|] eqn:E; [|done].
  apply List.find_some in E as [Hin Hk]. zb. apply list_elem_of_In, elem_of_seq in Hin.
  exfalso. apply (Hn k). split; [lia|done].
Qed.

Lemma cached_dec bc bn :
  (exists j, holds_block (bc_buf bc) bn j) \/ (forall j, ~ holds_block (bc_buf bc) bn j).
Proof.
  destruct (List.find (fun j => (b_dev (bufat (bc_buf bc) j) =? 1) &&
    (b_blockno (bufat (bc_buf bc) j) =? bn)) (seq 0 NBUF)) as [k|] eqn:E.
  - apply List.find_some in E as [Hin Hk]. zb. apply list_elem_of_In, elem_of_seq in Hin.
    left. exists k. split; [lia|done].
  - right. intros j (Hj & Hd & Hb).
    eapply List.find_none in E; [|apply list_elem_of_In, elem_of_seq; split; [apply Nat.le_0_l|exact Hj]].
    cbn in E. rewrite Hd, Hb, !Z.eqb_refl in E. done.
Qed.

(** A block that is clean in the cache, or not there at all, is as on disk. *)
Lemma contents_clean pid bc l H X bn :
  cache pid bc l H X -> ~ dirty bc bn -> (forall j, j ∈ X -> ~ holds_block (bc_buf bc) bn j) ->
  contents bc bn = bc_disk bc !! Z.to_nat bn.
Proof.
  intros Hc Hd Hx. destruct (cached_dec bc bn) as [[j Hj]|Hn]; [|by apply contents_uncached].
  rewrite (contents_cached _ _ _ _ _ _ _ Hc Hj). pose proof Hj as (Hlt & Hdev & <-).
  destruct (ca_bufs _ _ _ _ _ Hc j Hlt) as [_ _ [[? _]|[_ Hf]] _ H5]; [done|].
  destruct Hf as [Hf|Hf]; [|exfalso; apply Hd; by exists j].
  symmetry. apply H5; [done|done|]. intros Hin. by apply (Hx j Hin).
Qed.

(** The two states show every block alike, and agree on the disk and the log. *)
Record bsame (bc bc' : bcstate) : Prop := {
  bs_contents : forall bn, contents bc' bn = contents bc bn;
  bs_dirty : forall bn, dirty bc' bn <-> dirty bc bn;
  bs_disk : bc_disk bc' = bc_disk bc;
  bs_hist : bc_hist bc' = bc_hist bc;
  bs_log : bc_log bc' = bc_log bc;
}.

Lemma bsame_trans bc1 bc2 bc3 : bsame bc1 bc2 -> bsame bc2 bc3 -> bsame bc1 bc3.
Proof.
  intros [H1 H2 H3 H4 H5] [G1 G2 G3 G4 G5]. split; [|naive_solver|congruence..].
  intros bn. by rewrite G1.
Qed.

(** Two caches with the same buffers, up to links, locks and counts. *)
Lemma bsame_view pid bc bc' l H X l' H' X' :
  cache pid bc l H X -> cache pid bc' l' H' X' ->
  (forall k, b_flags (bufat (bc_buf bc') k) = b_flags (bufat (bc_buf bc) k) /\
     b_dev (bufat (bc_buf bc') k) = b_dev (bufat (bc_buf bc) k) /\
     b_blockno (bufat (bc_buf bc') k) = b_blockno (bufat (bc_buf bc) k) /\
     b_data (bufat (bc_buf bc') k) = b_data (bufat (bc_buf bc) k)) ->
  bc_disk bc' = bc_disk bc -> bc_hist bc' = bc_hist bc -> bc_log bc' = bc_log bc ->
  bsame bc bc'.
Proof.
  intros Hc Hc' E Ed Eh El.
  assert (forall bn j, holds_block (bc_buf bc') bn j <-> holds_block (bc_buf bc) bn j) as Ehb.
  { intros bn j. unfold holds_block. destruct (E j) as (_ & -> & -> & _). done. }
  split; [| |done..]; intros bn.
  - destruct (cached_dec bc bn) as [[j Hj]|Hn].
    + rewrite (contents_cached _ _ _ _ _ _ _ Hc Hj).
      rewrite (contents_cached _ _ _ _ _ _ _ Hc' (proj2 (Ehb _ _) Hj)). f_equal. apply E.
    + rewrite !contents_uncached; [by rewrite Ed|done|]. intros j. rewrite Ehb. apply Hn.
  - unfold dirty. split; intros (j & Hj & Hf); exists j; (split; [by apply Ehb|]);
      destruct (E j) as (E1 & _); congruence.
Qed.

Lemma bset_length f j bc : length (bc_buf (bset f j bc)) = length (bc_buf bc).
Proof. apply length_alter. Qed.

Lemma bset_at f j bc k :
  (j < length (bc_buf bc))%nat ->
  bufat (bc_buf (bset f j bc)) k =
  if decide (k = j) then f (bufat (bc_buf bc) j) else bufat (bc_buf bc) k.
Proof. apply bufat_alter. Qed.

Lemma bset_bset f g j bc : bset f j (bset g j bc) = bset (fun b => f (g b)) j bc.
Proof. unfold bset, set_bc_buf. cbn. by rewrite list_alter_alter_eq. Qed.

(** Taking a buffer that already holds the block. *)
Lemma grab_hit pid bc l H X bn j :
  cache pid bc l H X -> holds_block (bc_buf bc) bn j -> j ∉ H ->
  cache pid (bset (grabbed pid) j bc) l (j :: H) X /\ bsame bc (bset (grabbed pid) j bc).
Proof.
  intros Hc Hb Hj. pose proof Hb as (Hlt & Hd & Hbn).
  pose proof (ca_len _ _ _ _ _ Hc) as Hn.
  assert (cache pid (bset (grabbed pid) j bc) l (j :: H) X) as Hc'.
  { apply (cache_bset pid bc l H X); [done|done|done|done| | | | |].
    - destruct (ca_bufs _ _ _ _ _ Hc j Hlt) as [_ _ H3 H4 H5].
      split; cbn; [right; set_solver|right; set_solver|done|done|done].
    - intros k Hk. set_solver.
    - intros k Hk Hne. cbn. intros D1 D2 E. apply Hne. by apply (ca_uniq _ _ _ _ _ Hc).
    - constructor; [done|apply Hc].
    - pose proof (ca_changed _ _ _ _ _ Hc). set_solver. }
  split; [done|]. eapply bsame_view; [exact Hc|exact Hc'| |done..].
  intros k. rewrite bset_at by lia. by destruct (decide _) as [->|].
Qed.

(** Taking a free, clean buffer for a block that is not in the cache. *)
Definition loaded (pid bn : Z) (d : list Z) (b : buf) : buf :=
  filled d (grabbed pid (recycled bn b)).

Lemma grab_miss pid bc l H X bn j d :
  cache pid bc l H X -> (forall j, ~ holds_block (bc_buf bc) bn j) ->
  (j < NBUF)%nat -> j ∉ H -> ~ bdirty (bufat (bc_buf bc) j) ->
  0 <= bn < Z.of_nat (length (bc_disk bc)) -> bc_disk bc !! Z.to_nat bn = Some d ->
  cache pid (bset (loaded pid bn d) j bc) l (j :: H) X /\ bsame bc (bset (loaded pid bn d) j bc).
Proof.
  intros Hc Hb Hlt Hj Hdj Hbn Hd. pose proof (ca_len _ _ _ _ _ Hc) as Hn.
  pose proof (ca_changed _ _ _ _ _ Hc) as HX.
  set (bc' := bset (loaded pid bn d) j bc).
  assert (cache pid bc' l (j :: H) X) as Hc'.
  { apply (cache_bset pid bc l H X); [done|done|done|done| | | | |].
    - split; cbn; [right; set_solver|right; set_solver|right; by split; [|left]|done|done].
    - intros k Hk. set_solver.
    - intros k Hk Hne. cbn. intros D1 _ E. apply (Hb k). by split.
    - constructor; [done|apply Hc].
    - set_solver. }
  assert (forall k, bufat (bc_buf bc') k = if decide (k = j) then loaded pid bn d (bufat (bc_buf bc) j)
    else bufat (bc_buf bc) k) as Ek by (intros k; apply bset_at; lia).
  split; [done|]. split; [| |done..]; intros bn'.
  - destruct (decide (bn' = bn)) as [->|Hne].
    { rewrite (contents_uncached bc) by done. rewrite Hd.
      rewrite (contents_cached _ _ _ _ _ _ j Hc'); [by rewrite Ek, decide_True|].
      unfold holds_block. by rewrite Ek, decide_True. }
    destruct (cached_dec bc' bn') as [[k Hk]|Hno].
    + pose proof Hk as (Hk1 & Hk2 & Hk3). rewrite Ek in Hk2, Hk3.
      rewrite (contents_cached _ _ _ _ _ _ _ Hc' Hk), Ek.
      destruct (decide (k = j)) as [->|Hkj]; [cbn in Hk3; congruence|].
      symmetry. eapply contents_cached; [exact Hc|done].
    + rewrite contents_uncached by done. change (bc_disk bc') with (bc_disk bc). symmetry.
      assert (forall k, holds_block (bc_buf bc) bn' k -> k = j) as Honly.
      { intros k (Hk1 & Hk2 & Hk3). destruct (decide (k = j)); [done|].
        exfalso. apply (Hno k). unfold holds_block. by rewrite Ek, decide_False. }
      eapply contents_clean; [exact Hc| |].
      * intros (k & Hk & Hf). rewrite (Honly k Hk) in Hf. apply Hdj. unfold bdirty. by rewrite Hf.
      * intros k Hk Hh. rewrite (Honly k Hh) in Hk. set_solver.
  - unfold dirty, holds_block. split; intros (k & (Hk1 & Hk2 & Hk3) & Hf); exists k.
    + rewrite Ek in *. destruct (decide (k = j)) as [->|]; [done|]. done.
    + assert (k <> j) as Hne by (intros ->; apply Hdj; unfold bdirty; by rewrite Hf).
      rewrite Ek, decide_False by done. done.
Qed.

Section Client.
Context (km : kmstate) (fs : fsstate) (cn : cnstate) (o : list (kstate -> kstate)).
Context (hw : hwstate) (i p : nat) (pid : Z).
Implicit Types (pt : ptstate) (bc : bcstate).
#[local] Existing Instance Memide.driver.

Lemma bread_ok pt bc l H X bn :
  calm hw pt i p pid -> cache pid bc l H X ->
  0 <= bn < Z.of_nat (length (bc_disk bc)) ->
  (forall j, j ∈ H -> ~ holds_block (bc_buf bc) bn j) ->
  (exists j, holds_block (bc_buf bc) bn j) \/ has_room bc ->
  exists j bc',
    bread 1 bn (W hw pt km bc fs cn o) = Ok j (W hw pt km bc' fs cn o) /\
    cache pid bc' l (j :: H) X /\ bsame bc bc' /\ j ∉ H /\ holds_block (bc_buf bc') bn j /\
    contents bc bn = Some (b_data (bufat (bc_buf bc') j)) /\
    forall k, k ∈ H -> bufat (bc_buf bc') k = bufat (bc_buf bc) k.
Proof.
  intros Hm Hc Hbn Hnh Hroom. pose proof (ca_len _ _ _ _ _ Hc) as Hn.
  assert (forall j bc', cache pid bc' l (j :: H) X /\ bsame bc bc' ->
    holds_block (bc_buf bc') bn j -> contents bc bn = Some (b_data (bufat (bc_buf bc') j))) as Hdata.
  { intros j bc' [Hc' Hs] Hb. rewrite <- (bs_contents _ _ Hs). by eapply contents_cached. }
  destruct (cached_dec bc bn) as [[j Hj]|Hno].
  - assert (j ∉ H) as HjH by (intros Hin; by apply (Hnh j Hin)).
    pose proof (grab_hit _ _ _ _ _ _ _ Hc Hj HjH) as Hg. pose proof Hj as (Hlt & Hd & Hb).
    exists j, (bset (grabbed pid) j bc). unfold bread.
    assert (holds_block (bc_buf (bset (grabbed pid) j bc)) bn j) as Hh.
    { unfold holds_block. rewrite bset_at, decide_True by (done || lia). done. }
    split; [|split; [apply Hg|split; [apply Hg|split; [done|split; [done|split; [by apply Hdata|]]]]]].
    + kcall bget_hit by done. kcall getb_at by (rewrite bset_length; lia).
      rewrite bset_at, decide_True by (done || lia). cbn [b_flags grabbed set_b_lock set_b_refcnt].
      destruct (ca_bufs _ _ _ _ _ Hc j Hlt) as [_ _ [[? _]|[_ [-> | ->]]] _ _]; done.
    + intros k Hk. rewrite bset_at, decide_False by (lia || set_solver). done.
  - destruct Hroom as [[j Hj]|Hroom]; [by apply Hno in Hj|].
    destruct (lookup_free_room _ _ _ _ _ Hc Hroom) as [j Hf].
    destruct (lookup_free_Some _ _ _ _ _ _ Hc Hf) as (Hlt & HjH & Hr & Hd).
    destruct (lookup_lt_is_Some_2 (bc_disk bc) (Z.to_nat bn)) as [d Hdk]; [lia|].
    pose proof (grab_miss _ _ _ _ _ _ _ _ Hc Hno Hlt HjH Hd Hbn Hdk) as Hg.
    exists j, (bset (loaded pid bn d) j bc).
    assert (holds_block (bc_buf (bset (loaded pid bn d) j bc)) bn j) as Hh.
    { unfold holds_block. rewrite bset_at, decide_True by (done || lia). done. }
    split; [|split; [apply Hg|split; [apply Hg|split; [done|split; [done|split; [by apply Hdata|]]]]]].
    + unfold bread. kcall bget_miss by done. kcall getb_at by (rewrite bset_length; lia).
      rewrite bset_at, decide_True by (done || lia). cbn [b_flags grabbed recycled set_b_flags set_b_lock
        set_b_refcnt]. change (Z.land 0 B_VALID =? 0) with true. cbn match.
      kcall iderw_read by first [exact Hm | apply bufat_lookup; rewrite bset_length; lia
        | rewrite bset_at, decide_True by (done || lia); (reflexivity || exact Hbn || exact Hdk)].
      unfold ret. by rewrite bset_bset.
    + intros k Hk. rewrite bset_at, decide_False by (lia || set_solver). done.
Qed.

(** Changing the data of a held buffer. *)
Lemma bdata_ok bc l H X bn j d :
  cache pid bc l H X -> holds_block (bc_buf bc) bn j -> j ∈ H ->
  let bc' := bset (set_b_data d) j bc in
  cache pid bc' l H (j :: X) /\ contents bc' bn = Some d /\
  (forall bn', bn' <> bn -> contents bc' bn' = contents bc bn') /\
  (forall bn', dirty bc' bn' <-> dirty bc bn') /\ holds_block (bc_buf bc') bn j /\
  (forall k, k <> j -> bufat (bc_buf bc') k = bufat (bc_buf bc) k).
Proof.
  intros Hc Hb Hj bc'. pose proof Hb as (Hlt & Hd & Hbn). pose proof (ca_len _ _ _ _ _ Hc) as Hn.
  assert (forall k, bufat (bc_buf bc') k = if decide (k = j) then set_b_data d (bufat (bc_buf bc) j)
    else bufat (bc_buf bc) k) as Ek by (intros k; apply bset_at; lia).
  assert (forall bn k, holds_block (bc_buf bc') bn k <-> holds_block (bc_buf bc) bn k) as Eh.
  { intros bn' k. unfold holds_block. rewrite Ek. by destruct (decide _) as [->|]. }
  assert (cache pid bc' l H (j :: X)) as Hc'.
  { apply (cache_bset pid bc l H X); [done|done|done|done| | | |apply Hc|].
    - destruct (ca_bufs _ _ _ _ _ Hc j Hlt) as [H1 H2 H3 H4 H5].
      split; cbn; [done|done|done|done|]. set_solver.
    - intros k Hk. set_solver.
    - intros k Hk Hne. cbn. intros D1 D2 E. apply Hne. by apply (ca_uniq _ _ _ _ _ Hc).
    - pose proof (ca_changed _ _ _ _ _ Hc). set_solver. }
  split; [done|]. split.
  { rewrite (contents_cached _ _ _ _ _ _ _ Hc' (proj2 (Eh _ _) Hb)), Ek, decide_True; done. }
  split; [|split; [|split; [by apply Eh|]]].
  - intros bn' Hne. destruct (cached_dec bc bn') as [[k Hk]|Hno].
    + rewrite (contents_cached _ _ _ _ _ _ _ Hc Hk).
      rewrite (contents_cached _ _ _ _ _ _ _ Hc' (proj2 (Eh _ _) Hk)), Ek.
      destruct (decide (k = j)) as [->|]; [|done]. destruct Hk as (_ & _ & Hk). congruence.
    + rewrite !contents_uncached; [done|done|]. intros k. rewrite Eh. apply Hno.
  - intros bn'. unfold dirty. split; intros (k & Hk & Hf); exists k; (split; [by apply Eh|]);
      rewrite Ek in *; by destruct (decide _) as [->|].
  - intros k Hk. by rewrite Ek, decide_False.
Qed.

(** Writing a buffer's data to its block makes it clean. *)
Lemma cache_disk_write bc l H X bn j :
  cache pid bc l H X -> holds_block (bc_buf bc) bn j ->
  cache pid (disk_write bn (b_data (bufat (bc_buf bc) j)) bc) l H (filter (fun k => k <> j) X).
Proof.
  intros Hc Hb. pose proof Hb as (Hlt & Hd & Hbn).
  split; cbn [bc_buf bc_disk disk_write set_bc_disk set_bc_hist]; try apply Hc.
  - intros k Hk. destruct (ca_bufs _ _ _ _ _ Hc k Hk) as [H1 H2 H3 H4 H5].
    split; [done|done|done|by rewrite length_insert|]. intros Hdk Hfk Hx.
    destruct (decide (k = j)) as [->|Hne].
    + rewrite Hbn, list_lookup_insert_eq; [done|].
      destruct (ca_bufs _ _ _ _ _ Hc j Hlt) as [_ _ _ Hr _]. specialize (Hr Hd). lia.
    + rewrite list_lookup_insert_ne.
      * apply H5; [done|done|]. intros Hin. apply Hx. by apply list_elem_of_filter.
      * intros E. apply Hne, (ca_uniq _ _ _ _ _ Hc); [done|done|done|done|].
        destruct (ca_bufs _ _ _ _ _ Hc j Hlt) as [_ _ _ Hr _]. specialize (Hr Hd). specialize (H4 Hdk). lia.
  - intros k Hk. apply list_elem_of_filter in Hk as [_ Hk]. by apply (ca_changed _ _ _ _ _ Hc).
Qed.

Lemma bwrite_ok pt bc l H X bn j :
  calm hw pt i p pid -> cache pid bc l H X -> holds_block (bc_buf bc) bn j -> j ∈ H ->
  let bc' := disk_write bn (b_data (bufat (bc_buf bc) j)) (bset (set_b_flags B_VALID) j bc) in
  bwrite j (W hw pt km bc fs cn o) = Ok tt (W hw pt km bc' fs cn o) /\
  cache pid bc' l H (filter (fun k => k <> j) X) /\
  (forall bn', 0 <= bn' -> contents bc' bn' = contents bc bn') /\
  (forall bn', dirty bc' bn' <-> dirty bc bn' /\ bn' <> bn) /\
  holds_block (bc_buf bc') bn j /\
  (forall k, k <> j -> bufat (bc_buf bc') k = bufat (bc_buf bc) k).
Proof.
  intros Hm Hc Hb Hj bc'. pose proof Hb as (Hlt & Hd & Hbn). pose proof (ca_len _ _ _ _ _ Hc) as Hn.
  assert (forall k, bufat (bc_buf bc') k = if decide (k = j) then set_b_flags B_VALID (bufat (bc_buf bc) j)
    else bufat (bc_buf bc) k) as Ek by (intros k; apply bset_at; lia).
  assert (forall bn k, holds_block (bc_buf bc') bn k <-> holds_block (bc_buf bc) bn k) as Eh.
  { intros bn' k. unfold holds_block. rewrite Ek. by destruct (decide _) as [->|]. }
  destruct (ca_bufs _ _ _ _ _ Hc j Hlt) as [H1 [[_ ?]|(Hl & Hp & _)] [[? _]|[_ Hfl]] H4 H5]; try done.
  assert (cache pid bc' l H (filter (fun k => k <> j) X)) as Hc'.
  { unfold bc'. replace (filter (fun k => k <> j) X) with (filter (fun k => k <> j) (j :: X))
      by (rewrite filter_cons_False by naive_solver; done).
    pose proof (ca_changed _ _ _ _ _ Hc).
    assert (cache pid (bset (set_b_flags B_VALID) j bc) l H (j :: X)) as Hs.
    { apply (cache_bset pid bc l H X); [done|done|done|done| | | |apply Hc|set_solver].
      - split; cbn; [done|by right|right; by split; [|left]|done|]. set_solver.
      - intros k Hk. set_solver.
      - intros k Hk Hne. cbn. intros D1 D2 E. apply Hne. by apply (ca_uniq _ _ _ _ _ Hc). }
    pose proof (cache_disk_write _ _ _ _ bn j Hs (proj2 (Eh bn j) Hb)) as Hs'.
    rewrite bset_at, decide_True in Hs' by (done || lia). exact Hs'. }
  split; [unfold bc'; rewrite <- Hbn; eapply bwrite_eq; (done || auto || (apply bufat_lookup; lia))|].
  split; [done|]. split; [|split; [|split; [by apply Eh|intros k Hk; by rewrite Ek, decide_False]]].
  - intros bn' H0. destruct (cached_dec bc bn') as [[k Hk]|Hno].
    + rewrite (contents_cached _ _ _ _ _ _ _ Hc Hk).
      rewrite (contents_cached _ _ _ _ _ _ _ Hc' (proj2 (Eh _ _) Hk)), Ek.
      by destruct (decide (k = j)) as [->|].
    + rewrite !contents_uncached; [|done|intros k; rewrite Eh; apply Hno].
      cbn. rewrite list_lookup_insert_ne; [done|]. intros E. apply (Hno j). specialize (H4 Hd).
      replace bn' with bn by lia. done.
  - intros bn'. unfold dirty. split.
    + intros (k & Hk & Hf). rewrite Ek in Hf. destruct (decide (k = j)) as [->|Hne]; [done|].
      apply Eh in Hk. split; [by exists k|]. intros ->. apply Hne.
      destruct Hk as (? & ? & ?). apply (ca_uniq _ _ _ _ _ Hc); congruence.
    + intros [(k & Hk & Hf) Hne]. exists k. split; [by apply Eh|]. rewrite Ek, decide_False; [done|].
      intros ->. destruct Hk as (_ & _ & Hk). congruence.
Qed.

Lemma brelse_ok pt bc l H X j :
  calm hw pt i p pid -> cache pid bc l H X -> j ∈ H ->
  (j ∉ X \/ b_flags (bufat (bc_buf bc) j) = Z.lor B_VALID B_DIRTY) ->
  exists pt' bc',
    brelse j (W hw pt km bc fs cn o) = Ok tt (W hw pt' km bc' fs cn o) /\
    calm hw pt' i p pid /\
    cache pid bc' (to_front j l) (filter (fun k => k <> j) H) (filter (fun k => k <> j) X) /\
    bsame bc bc' /\
    (forall k, k <> j -> core (bufat (bc_buf bc') k) = core (bufat (bc_buf bc) k)).
Proof.
  intros Hm Hc Hj Hx. pose proof (ca_len _ _ _ _ _ Hc) as Hn.
  pose proof (ca_held _ _ _ _ _ Hc) as Hh. rewrite Forall_forall in Hh. pose proof (Hh j Hj) as Hlt.
  eexists _, _. split; [by eapply brelse_eq|]. split; [by apply calm_wakeup|].
  pose proof (cache_brelse _ _ _ _ _ _ Hc Hj Hx) as Hc'.
  assert (forall k, core (bufat (bc_buf (brelsed j bc)) k) =
    core (if decide (k = j) then released (bufat (bc_buf bc) j) else bufat (bc_buf bc) k)) as E
    by (intros k; apply brelsed_core; lia).
  split; [exact Hc'|]. split.
  - eapply bsame_view; [exact Hc|exact Hc'| |done..]. intros k. specialize (E k).
    pose proof (f_equal b_flags E) as E1. pose proof (f_equal b_dev E) as E2.
    pose proof (f_equal b_blockno E) as E3. pose proof (f_equal b_data E) as E4.
    cbn [core b_flags b_dev b_blockno b_data set_b_next set_b_prev] in *. rewrite E1, E2, E3, E4.
    by destruct (decide _) as [->|].
  - intros k Hk. by rewrite E, decide_False.
Qed.
End Client.


(** With fewer than [NBUF] buffers held or dirty, one can be recycled. *)
Lemma room_count pid bc l H X (D : list Z) :
  cache pid bc l H X -> (forall bn, dirty bc bn -> bn ∈ D) ->
  (length H + length D < NBUF)%nat -> has_room bc.
Proof.
  intros Hc HD Hlen. set (bs := bc_buf bc).
  set (busy := filter (fun j => j ∉ H) (seq 0 NBUF)).
  destruct (decide (Exists (fun j => b_refcnt (bufat bs j) = 0 /\
    Z.land (b_flags (bufat bs j)) B_DIRTY = 0) (seq 0 NBUF))) as [He|He].
  { apply Exists_exists in He as (j & Hj & Hr & Hd). apply elem_of_seq in Hj.
    exists j. split; [lia|]. split; [done|]. unfold bdirty. fold bs. congruence. }
  exfalso. rewrite <- Forall_Exists_neg, Forall_forall in He.
  assert (forall j, (j < NBUF)%nat -> j ∉ H -> exists bn, b_blockno (bufat bs j) = bn /\ dirty bc bn /\
    b_dev (bufat bs j) = 1) as Hdirty.
  { intros j Hj HjH. destruct (ca_bufs _ _ _ _ _ Hc j Hj) as [H1 _ H3 _ _]. fold bs in H1, H3.
    destruct H1 as [[Hr _]|[_ ?]]; [|done].
    assert (Z.land (b_flags (bufat bs j)) B_DIRTY <> 0) as Hf.
    { intros E. apply (He j); [apply elem_of_seq; lia|done]. }
    destruct H3 as [[_ E]|[Hd [E|E]]]; rewrite E in Hf; try done.
    eexists. split; [done|]. split; [|done]. exists j. done. }
  assert (length busy <= length D)%nat as Hb.
  { rewrite <- (length_fmap (fun j => b_blockno (bufat bs j)) busy).
    apply submseteq_length, NoDup_submseteq.
    - apply NoDup_fmap_2_strong; [|apply NoDup_filter, NoDup_seq].
      intros j k (Hj & Hj')%list_elem_of_filter (Hk & Hk')%list_elem_of_filter E.
      apply elem_of_seq in Hj', Hk'.
      destruct (Hdirty j) as (_ & _ & _ & D1); [lia|done|].
      destruct (Hdirty k) as (_ & _ & _ & D2); [lia|done|].
      apply (ca_uniq _ _ _ _ _ Hc); (lia || done).
    - intros bn (j & -> & Hj)%list_elem_of_fmap. apply list_elem_of_filter in Hj as [Hj Hj'].
      apply elem_of_seq in Hj'. destruct (Hdirty j) as (bn & <- & Hd & _); [lia|done|]. by apply HD. }
  assert (NBUF <= length H + length busy)%nat as Hn.
  { rewrite <- length_app. rewrite <- (length_seq NBUF 0) at 1.
    apply submseteq_length, NoDup_submseteq; [apply NoDup_seq|]. intros j Hj.
    rewrite elem_of_app. destruct (decide (j ∈ H)); [by left|right]. by apply list_elem_of_filter. }
  lia.
Qed.

(** ** Properties *)

Section Properties.
#[local] Existing Instance Memide.driver.

(** C29: [bread] is coherent when nobody contends for the cache: its locks are
    free and no other process holds a buffer.  Whatever the cache holds, reading
    a block that the process does not hold already, with a buffer to spare,
    returns a buffer
    locked by the process with the current contents of the block: the cached
    ones if there are any, else the disk's.  No block, no dirty mark and nothing
    on disk changes, and the cache stays in order. *)
Theorem bread_coherent km fs cn o hw pt bc i p pid l H X bn :
  calm hw pt i p pid -> cache pid bc l H X ->
  0 <= bn < Z.of_nat (length (bc_disk bc)) ->
  (forall j, j ∈ H -> ~ holds_block (bc_buf bc) bn j) -> has_room bc ->
  exists j bc',
    bread 1 bn (W hw pt km bc fs cn o) = Ok j (W hw pt km bc' fs cn o) /\
    j ∉ H /\ cache pid bc' l (j :: H) X /\ holds_block (bc_buf bc') bn j /\
    contents bc bn = Some (b_data (bufat (bc_buf bc') j)) /\ bsame bc bc'.
Proof.
  intros Hm Hc Hbn Hh Hr.
  destruct (bread_ok km fs cn o hw i p pid pt bc l H X bn Hm Hc Hbn Hh (or_intror Hr))
    as (j & bc' & E & Hc' & Hs & Hj & Hb & Hd & _).
  exists j, bc'. done.
Qed.

(** a written block is read back.  After a process has changed the data of
    a buffer it holds, written it and released it, the block is that data on
    disk and for every later reader, all other blocks are as they were, and the
    buffer can be had again. *)
Theorem bwrite_roundtrip km fs cn o hw pt bc i p pid l H X bn j d :
  calm hw pt i p pid -> cache pid bc l H X -> j ∈ H -> holds_block (bc_buf bc) bn j ->
  exists pt' bc',
    (updb j (set_b_data d) ;; bwrite j ;; brelse j)%c (W hw pt km bc fs cn o) =
      Ok tt (W hw pt' km bc' fs cn o) /\
    calm hw pt' i p pid /\
    cache pid bc' (to_front j l) (filter (fun k => k <> j) H)
      (filter (fun k => k <> j) (filter (fun k => k <> j) (j :: X))) /\
    bc_disk bc' = <[Z.to_nat bn := d]> (bc_disk bc) /\ contents bc' bn = Some d /\
    forall bn', 0 <= bn' -> bn' <> bn -> contents bc' bn' = contents bc bn'.
Proof.
  intros Hm Hc Hj Hb. pose proof (ca_len _ _ _ _ _ Hc) as Hn. pose proof Hb as (Hlt & _ & _).
  destruct (bdata_ok pid bc l H X bn j d Hc Hb Hj) as (Hc1 & C1 & C1' & _ & Hb1 & _).
  destruct (bwrite_ok km fs cn o hw i p pid pt _ _ _ _ bn j Hm Hc1 Hb1 Hj)
    as (E2 & Hc2 & C2 & _ & Hb2 & _).
  destruct (brelse_ok km fs cn o hw i p pid pt _ _ _ _ j Hm Hc2 Hj)
    as (pt' & bc' & E3 & Hm' & Hc3 & S3 & _).
  { left. rewrite list_elem_of_filter. tauto. }
  exists pt', bc'. split.
  { unfold updb. krun. erewrite bind_ok by exact E2. exact E3. }
  split; [done|]. split; [done|]. split.
  { rewrite (bs_disk _ _ S3). unfold disk_write. cbn [bc_disk set_bc_disk set_bc_hist]. by rewrite bset_at, decide_True by (done || lia). }
  split.
  - rewrite (bs_contents _ _ S3), C2; [done|].
    destruct (ca_bufs _ _ _ _ _ Hc j Hlt) as [_ _ _ Hr _]. destruct Hb as (_ & Hd & <-). by apply Hr.
  - intros bn' H0 Hne. rewrite (bs_contents _ _ S3), C2 by done. by apply C1'.
Qed.

(** replacement is least recently used.  On a miss [bget] recycles the
    buffer that was released longest ago among those that are not in use and
    not dirty, and panics when there is none; a released buffer becomes the
    most recently used one. *)
Theorem bget_lru km fs cn o hw pt bc i p pid l H X bn :
  calm hw pt i p pid -> cache pid bc l H X -> (forall j, ~ holds_block (bc_buf bc) bn j) ->
  (Forall (fun j => is_free (bufat (bc_buf bc) j) = false) l /\
   bget 1 bn (W hw pt km bc fs cn o) = Panic "bget: no buffers") \/
  exists l1 j l2 bc',
    l = l1 ++ j :: l2 /\ is_free (bufat (bc_buf bc) j) = true /\
    Forall (fun k => is_free (bufat (bc_buf bc) k) = false) l2 /\
    bget 1 bn (W hw pt km bc fs cn o) = Ok j (W hw pt km bc' fs cn o) /\
    seg (nx (bc_buf (brelsed j bc'))) (pv (bc_buf (brelsed j bc'))) bhead (j :: l1 ++ l2) bhead.
Proof.
  intros Hm Hc Hno. pose proof (ca_len _ _ _ _ _ Hc) as Hn.
  destruct (lookup_free (bc_buf bc) l) as [j|] eqn:E.
  - right. pose proof (lookup_free_Some _ _ _ _ _ _ Hc E) as (Hlt & _ & _).
    destruct (find_split _ _ _ E) as (r1 & r2 & Er & Hfr & Hall).
    assert (l = reverse r2 ++ j :: reverse r1) as El.
    { rewrite <- (reverse_involutive l), Er, reverse_app, reverse_cons, <- app_assoc. done. }
    exists (reverse r2), j, (reverse r1), (bset (fun b => grabbed pid (recycled bn b)) j bc).
    split; [done|]. split; [done|]. split; [by apply Forall_reverse|].
    split; [by eapply bget_miss|].
    assert (NoDup l) as Hnd by (rewrite (ca_perm _ _ _ _ _ Hc); apply NoDup_seq).
    pose proof (cache_ring_lt _ _ _ _ _ Hc) as Hl. rewrite El in Hnd, Hl.
    apply relinked_ring; [by rewrite length_alter, bset_length|done|done|].
    eapply seg_ext; [rewrite <- El; apply (ca_ring _ _ _ _ _ Hc)| |]; intros k _; unfold nx, pv;
      unfold bset; cbn [bc_buf set_bc_buf]; rewrite !bufat_alter by (rewrite ?length_alter; lia);
      repeat case_decide; subst; done.
  - left. split.
    + apply Forall_forall. intros j Hj. eapply List.find_none in E; [exact E|].
      by apply list_elem_of_In, elem_of_reverse.
    + unfold bget. kcall calm_acquire by (done || apply bio_bcache).
      kcall getb_at by (rewrite Hn; unfold bhead; lia). kcall scan_block by done.
      destruct (lookup_block _ _ _) as [k|] eqn:Ek.
      { exfalso. by apply (Hno k), (lookup_block_Some _ _ _ _ _ _ _ Hc). }
      kcall getb_at by (rewrite Hn; unfold bhead; lia). kcall scan_free by done. by rewrite E.
Qed.
End Properties.

(** ** The properties at work *)

Section Examples.
#[local] Existing Instance Memide.driver.

(** The cache as [binit] leaves it, over a disk [d]. *)
Definition bc_boot (d : list (list Z)) : bcstate :=
  match binit (W hw_run pt_run km0 (set_bc_disk d bc0) fs0 cn0 []) with
  | Ok _ w => k_bc (w_k w)
  | _ => bc0
  end.
Definition disk_ex : list (list Z) := replicate 64 [1; 2; 3].

Lemma bc_boot_len d : length (bc_buf (bc_boot d)) = S NBUF.
Proof. vm_compute. reflexivity. Qed.

Lemma bc_boot_bufs d :
  Forall (fun b => b_flags b = 0 /\ b_dev b = 0 /\ b_refcnt b = 0 /\ sl_locked (b_lock b) = 0)
    (bc_buf (bc_boot d)).
Proof. vm_compute. repeat constructor. Qed.

Lemma buf_ok_unused pid d (j : nat) b :
  b_flags b = 0 /\ b_dev b = 0 /\ b_refcnt b = 0 /\ sl_locked (b_lock b) = 0 ->
  buf_ok pid d (j ∈ []) (j ∈ []) b.
Proof.
  intros (H1 & H2 & H3 & H4). assert (j ∉ []) as Hj by set_solver.
  split; rewrite ?H1, ?H2, ?H3, ?H4; [by left|by left|by left|done|done].
Qed.

Lemma bc_boot_cache d : cache 1 (bc_boot d) (reverse (seq 0 NBUF)) [] [].
Proof.
  pose proof (bc_boot_len d) as Hn.
  assert (forall j, (j < NBUF)%nat -> let b := bufat (bc_buf (bc_boot d)) j in
    b_flags b = 0 /\ b_dev b = 0 /\ b_refcnt b = 0 /\ sl_locked (b_lock b) = 0) as Hb.
  { intros j Hj. pose proof (bc_boot_bufs d) as Hf. rewrite Forall_forall in Hf.
    apply Hf. apply (list_elem_of_lookup_2 _ j), bufat_lookup. rewrite Hn. lia. }
  split; [done| | | | |constructor|done].
  - vm_compute. repeat split.
  - apply reverse_Permutation.
  - intros j Hj. by apply buf_ok_unused, Hb.
  - intros j k Hj _ D. destruct (Hb j Hj) as (_ & H2 & _). congruence.
Qed.

Lemma calm_run : calm (touch 0 hw_run) pt_run 0 0 1.
Proof.
  split.
  - eexists. split; [apply here_touch, here_run|done].
  - apply touch_touch.
  - done.
  - reflexivity.
  - by exists proc_run.
Qed.

Lemma bc_boot_room d : has_room (bc_boot d).
Proof.
  exists 0%nat. split; [vm_compute; lia|]. split; [vm_compute; reflexivity|]. vm_compute. auto.
Qed.

Lemma bc_boot_uncached d bn j : ~ holds_block (bc_buf (bc_boot d)) bn j.
Proof.
  intros (Hj & Hd & _). pose proof (bc_boot_bufs d) as Hf. rewrite Forall_forall in Hf.
  destruct (Hf (bufat (bc_buf (bc_boot d)) j)) as (_ & E & _); [|congruence].
  apply (list_elem_of_lookup_2 _ j), bufat_lookup.
  rewrite bc_boot_len. lia.
Qed.

Lemma bread_coherent_witness :
  exists j bc', bread 1 7 (W (touch 0 hw_run) pt_run km0 (bc_boot disk_ex) fs0 cn0 []) =
    Ok j (W (touch 0 hw_run) pt_run km0 bc' fs0 cn0 []) /\
    Some [1; 2; 3] = Some (b_data (bufat (bc_buf bc') j)).
Proof.
  destruct (bread_coherent km0 fs0 cn0 [] (touch 0 hw_run) pt_run (bc_boot disk_ex) 0 0 1 _ _ _ 7
    calm_run (bc_boot_cache disk_ex)) as (j & bc' & E & _ & _ & _ & D & _).
  - vm_compute. split; [discriminate|reflexivity].
  - intros j Hj. inversion Hj.
  - apply bc_boot_room.
  - exists j, bc'. split; [exact E|]. rewrite <- D. vm_compute. reflexivity.
Defined.

(** Block 7 in buffer 0, held by the process. *)
Definition bc_held : bcstate := bset (loaded 1 7 [1; 2; 3]) 0 (bc_boot disk_ex).

Lemma bc_held_cache : cache 1 bc_held (reverse (seq 0 NBUF)) [0%nat] [].
Proof.
  apply (grab_miss 1 (bc_boot disk_ex) _ [] []); [apply bc_boot_cache|apply bc_boot_uncached
    |vm_compute; lia|set_solver|vm_compute; auto|vm_compute; split; [discriminate|reflexivity]
    |vm_compute; reflexivity].
Qed.

Lemma bwrite_roundtrip_witness :
  exists pt' bc',
    (updb 0 (set_b_data [9]) ;; bwrite 0 ;; brelse 0)%c
      (W (touch 0 hw_run) pt_run km0 bc_held fs0 cn0 []) =
      Ok tt (W (touch 0 hw_run) pt' km0 bc' fs0 cn0 []) /\ contents bc' 7 = Some [9].
Proof.
  destruct (bwrite_roundtrip km0 fs0 cn0 [] (touch 0 hw_run) pt_run bc_held 0 0 1 _ _ _ 7 0 [9]
    calm_run bc_held_cache) as (pt' & bc' & E & _ & _ & _ & C & _).
  - set_solver.
  - split; [vm_compute; lia|split; vm_compute; reflexivity].
  - exists pt', bc'. split; [exact E|exact C].
Defined.

Lemma bget_lru_witness :
  (Forall (fun j => is_free (bufat (bc_buf (bc_boot disk_ex)) j) = false) (reverse (seq 0 NBUF)) /\
   bget 1 7 (W (touch 0 hw_run) pt_run km0 (bc_boot disk_ex) fs0 cn0 []) =
     Panic "bget: no buffers") \/
  exists j w, bget 1 7 (W (touch 0 hw_run) pt_run km0 (bc_boot disk_ex) fs0 cn0 []) = Ok j w.
Proof.
  destruct (bget_lru km0 fs0 cn0 [] (touch 0 hw_run) pt_run (bc_boot disk_ex) 0 0 1 _ _ _ 7
    calm_run (bc_boot_cache disk_ex) (bc_boot_uncached disk_ex 7))
    as [H|(l1 & j & l2 & bc' & _ & _ & _ & E & _)].
  - left. exact H.
  - right. exists j, (W (touch 0 hw_run) pt_run km0 bc' fs0 cn0 []). exact E.
Defined.
End Examples.
