(* ===== verification/Ide.v ===== *)
(** * The IDE driver

    [ide.c]: the interrupt-driven disk.  Requests are buffers chained through
    [qnext]; the head of the queue is the active one.  The controller itself
    is hardware: its ports are the operations of [IdeController]. *)

From stdpp Require Import prelude list gmap strings.
From Stdlib Require Import ZArith Lia.
From S2P Require Import Prelude State Boot Spinlock Str Kalloc Cprintf Vm Sched Sleeplock Bio.
#[local] Open Scope c_scope.

Class IdeController := {
  inb : Z -> K Z;             (* read a port *)
  outb : Z -> Z -> K unit;    (* write a port *)
  insl : K (list Z);          (* the data of a sector *)
  outsl : list Z -> K unit;
}.

Module Ide.
Definition IDE_BSY : Z := 0x80.
Definition IDE_DRDY : Z := 0x40.
Definition IDE_DF : Z := 0x20.
Definition IDE_ERR : Z := 0x01.
Definition IDE_CMD_READ : Z := 0x20.
Definition IDE_CMD_WRITE : Z := 0x30.

Section Ide.
Context `{IdeController}.

(** Wait for the disk to become ready; each turn of the polling loop lets the
    rest of the machine run. *)
Definition idewait (checkerr : bool) : K Z :=
  r <- wait_loop (fun _ : unit =>
    r <- inb 0x1f7 ;;
    if Z.land r (Z.lor IDE_BSY IDE_DRDY) =? IDE_DRDY then ret (inr r)
    else others_run (fun _ => Diverge) ;; ret (inl tt)) tt ;;
  ret (if checkerr && negb (Z.land r (Z.lor IDE_DF IDE_ERR) =? 0) then -1 else 0).

(** The part of [ideinit] that looks for the second disk. *)
Definition ide_probe : K unit :=
  idewait false ;;
  outb 0x1f6 (Z.lor 0xe0 (Z.shiftl 1 4)) ;;
  for_ 1000 0 (fun _ =>
    r <- inb 0x1f7 ;;
    if negb (r =? 0) then updbc (set_bc_havedisk1 true) ;; ret (Some tt)
    else ret None) ;;
  outb 0x1f6 (Z.lor 0xe0 (Z.shiftl 0 4)).

(** Start the request for the buffer; the block is one sector. *)
Definition idestart (b : option nat) : K unit :=
  match b with
  | None => panic "idestart"
  | Some i =>
    b <- getb i ;;
    if FSSIZE <=? b_blockno b then panic "incorrect blockno" else
    let sector := s32 (b_blockno b) in
    idewait false ;;
    outb 0x3f6 0 ;;
    outb 0x1f2 1 ;;
    outb 0x1f3 (Z.land sector 0xff) ;;
    outb 0x1f4 (Z.land (Z.shiftr sector 8) 0xff) ;;
    outb 0x1f5 (Z.land (Z.shiftr sector 16) 0xff) ;;
    outb 0x1f6 (Z.lor (Z.lor 0xe0 (Z.shiftl (Z.land (b_dev b) 1) 4))
                  (Z.land (Z.shiftr sector 24) 0x0f)) ;;
    if negb (Z.land (b_flags b) B_DIRTY =? 0) then
      outb 0x1f7 IDE_CMD_WRITE ;; outsl (b_data b)
    else outb 0x1f7 IDE_CMD_READ
  end.

(** Interrupt handler. *)
Definition ideintr : K unit :=
  acquire LIde ;;
  q <- getbc bc_idequeue ;;
  match q with
  | None => release LIde
  | Some i =>
    b <- getb i ;;
    updbc (set_bc_idequeue (b_qnext b)) ;;
    (if Z.land (b_flags b) B_DIRTY =? 0 then
       e <- idewait true ;;
       if 0 <=? e then d <- insl ;; updb i (set_b_data d) else ret tt
     else ret tt) ;;
    updb i (fun b => set_b_flags (Z.lor (b_flags b) B_VALID) b) ;;
    updb i (fun b => set_b_flags (Z.land (b_flags b) (Z.lnot B_DIRTY)) b) ;;
    wakeup (ChBuf i) ;;
    q <- getbc bc_idequeue ;;
    (match q with Some _ => idestart q | None => ret tt end) ;;
    release LIde
  end.

(** The walk along [qnext] to the end of the queue: the last buffer of the
    queue that starts at [i]. *)
Fixpoint queue_last (fuel i : nat) : K nat :=
  match fuel with
  | O => fun _ => Diverge
  | S n => b <- getb i ;;
           match b_qnext b with Some j => queue_last n j | None => ret i end
  end.

(** Sync the buffer with disk. *)
Definition iderw (i : nat) : K unit :=
  h <- holdingsleep (LBuf i) ;;
  if negb h then panic "iderw: buf not locked" else
  b <- getb i ;;
  if Z.land (b_flags b) (Z.lor B_VALID B_DIRTY) =? B_VALID
  then panic "iderw: nothing to do" else
  d1 <- getbc bc_havedisk1 ;;
  if negb (b_dev b =? 0) && negb d1 then panic "iderw: ide disk 1 not present" else
  acquire LIde ;;
  updb i (set_b_qnext None) ;;
  q <- getbc bc_idequeue ;;
  (match q with
   | None => updbc (set_bc_idequeue (Some i))
   | Some j => l <- queue_last (S NBUF) j ;; updb l (set_b_qnext (Some i))
   end) ;;
  q <- getbc bc_idequeue ;;
  (if bool_decide (q = Some i) then idestart (Some i) else ret tt) ;;
  wait_loop (fun _ : unit =>
    b <- getb i ;;
    if Z.land (b_flags b) (Z.lor B_VALID B_DIRTY) =? B_VALID then ret (inr tt)
    else sleep (ChBuf i) (Some LIde) ;; ret (inl tt)) tt ;;
  release LIde.

#[export] Instance driver : DiskDriver :=
  {| Bio.iderw := iderw; Bio.ideintr := ideintr |}.
End Ide.
End Ide.
