(* ===== verification/Log.v ===== *)
(** * The log

    [log.c]: file-system calls write their blocks to a log on disk, write a
    header that commits them, copy them to their home locations and erase the
    header.  The header block is [n] followed by the block numbers. *)

From stdpp Require Import prelude list gmap strings.
From Stdlib Require Import ZArith Lia.
From S2P Require Import Prelude State Boot Spinlock Str Kalloc Cprintf Vm Sched Sleeplock Bio.
#[local] Open Scope c_scope.

Definition getlog {A} (f : log_t -> A) : K A := getbc (fun b => f (bc_log b)).
Definition updlog (f : log_t -> log_t) : K unit :=
  updbc (fun b => set_bc_log (f (bc_log b)) b).

(** [log.lh.block[i]] *)
Definition getblock (i : nat) : K Z :=
  l <- getlog lg_block ;; at_ "log.lh.block" l i.
Definition setblock (i : nat) (v : Z) : K unit :=
  l <- getlog lg_block ;;
  _ <- at_ "log.lh.block" l i ;;
  updlog (set_lg_block (<[i := v]> l)).

(** [for(i = 0; i < log.lh.n; i++) body]: an index beyond the array stops
    the loop with a fault in every body that uses it. *)
Definition for_log (body : nat -> K unit) : K unit :=
  for_ (S (Z.to_nat LOGSIZE)) 0 (fun i =>
    n <- getlog lg_n ;;
    if Z.of_nat i <? n then body i ;; ret None else ret (Some tt)) ;;
  ret tt.

Section Driver.
Context `{DiskDriver}.

(** [memmove(a->data, b->data, BSIZE)] *)
Definition copy_data (dst src : nat) : K unit :=
  b <- getb src ;; updb dst (set_b_data (b_data b)).

(** Copy committed blocks from log to their home location. *)
Definition install_trans : K unit :=
  for_log (fun tail =>
    dev <- getlog lg_dev ;;
    start <- getlog lg_start ;;
    lbuf <- bread (u32 dev) (u32 (start + Z.of_nat tail + 1)) ;;
    dev <- getlog lg_dev ;;
    bn <- getblock tail ;;
    dbuf <- bread (u32 dev) (u32 bn) ;;
    copy_data dbuf lbuf ;;
    bwrite dbuf ;;
    brelse lbuf ;;
    brelse dbuf).

(** Read the log header from disk into the in-memory log header. *)
Definition read_head : K unit :=
  dev <- getlog lg_dev ;;
  start <- getlog lg_start ;;
  buf <- bread (u32 dev) (u32 start) ;;
  b <- getb buf ;;
  updlog (set_lg_n (s32 (le32 0 (b_data b)))) ;;
  for_log (fun i =>
    b <- getb buf ;;
    setblock i (s32 (le32 (4 + 4 * i) (b_data b)))) ;;
  brelse buf.

(** Write in-memory log header to disk. *)
Definition write_head : K unit :=
  dev <- getlog lg_dev ;;
  start <- getlog lg_start ;;
  buf <- bread (u32 dev) (u32 start) ;;
  n <- getlog lg_n ;;
  updb buf (fun b => set_b_data (splice 0 (enc32 n) (b_data b)) b) ;;
  for_log (fun i =>
    v <- getblock i ;;
    updb buf (fun b => set_b_data (splice (4 + 4 * i) (enc32 v) (b_data b)) b)) ;;
  bwrite buf ;;
  brelse buf.

Definition recover_from_log : K unit :=
  read_head ;;
  install_trans ;;
  updlog (set_lg_n 0) ;;
  write_head.

(** Copy modified blocks from cache to log. *)
Definition write_log : K unit :=
  for_log (fun tail =>
    dev <- getlog lg_dev ;;
    start <- getlog lg_start ;;
    to <- bread (u32 dev) (u32 (start + Z.of_nat tail + 1)) ;;
    dev <- getlog lg_dev ;;
    bn <- getblock tail ;;
    from <- bread (u32 dev) (u32 bn) ;;
    copy_data to from ;;
    bwrite to ;;
    brelse from ;;
    brelse to).

Definition commit : K unit :=
  n <- getlog lg_n ;;
  if 0 <? n then
    write_log ;;
    write_head ;;
    install_trans ;;
    updlog (set_lg_n 0) ;;
    write_head
  else ret tt.

(** Called at the start of each FS system call. *)
Definition begin_op : K unit :=
  acquire LLog ;;
  wait_loop (fun _ : unit =>
    l <- getlog id ;;
    if negb (lg_committing l =? 0) then
      sleep ChLog (Some LLog) ;; ret (inl tt)
    else if LOGSIZE <? lg_n l + (lg_outstanding l + 1) * MAXOPBLOCKS then
      sleep ChLog (Some LLog) ;; ret (inl tt)
    else
      updlog (fun l => set_lg_outstanding (lg_outstanding l + 1) l) ;;
      release LLog ;;
      ret (inr tt)) tt.

(** Called at the end of each FS system call; commits if this was the last
    outstanding operation. *)
Definition end_op : K unit :=
  acquire LLog ;;
  updlog (fun l => set_lg_outstanding (lg_outstanding l - 1) l) ;;
  l <- getlog id ;;
  if negb (lg_committing l =? 0) then panic "log.committing" else
  do_commit <- (if lg_outstanding l =? 0
                then updlog (set_lg_committing 1) ;; ret true
                else wakeup ChLog ;; ret false) ;;
  release LLog ;;
  if do_commit : bool then
    commit ;;
    acquire LLog ;;
    updlog (set_lg_committing 0) ;;
    wakeup ChLog ;;
    release LLog
  else ret tt.

(** The caller has modified the buffer's data and is done with it: record the
    block number and pin the buffer in the cache. *)
Definition log_write (b : nat) : K unit :=
  l <- getlog id ;;
  if (LOGSIZE <=? lg_n l) || (lg_size l - 1 <=? lg_n l)
  then panic "too big a transaction" else
  if lg_outstanding l <? 1 then panic "log_write outside of trans" else
  acquire LLog ;;
  x <- getb b ;;
  n <- getlog lg_n ;;
  r <- for_ (Z.to_nat n) 0 (fun i =>
    v <- getblock i ;;
    ret (if u32 v =? b_blockno x then Some i else None)) ;;
  let i := default (Z.to_nat n) r in
  setblock i (s32 (b_blockno x)) ;;
  (if Z.of_nat i =? n then updlog (fun l => set_lg_n (lg_n l + 1) l) else ret tt) ;;
  updb b (fun b => set_b_flags (Z.lor (b_flags b) B_DIRTY) b) ;;
  release LLog.
End Driver.

(** ** Disks and sequences of block writes *)

Abbreviation diskT := (list (list Z)).

Definition dset (d : diskT) (bn : Z) (v : list Z) : diskT := <[Z.to_nat bn := v]> d.
Definition dget (d : diskT) (bn : Z) : list Z := default [] (d !! Z.to_nat bn).

Abbreviation writes := (list (Z * list Z)).

Definition apply_writes (d : diskT) (ws : writes) : diskT :=
  foldl (fun d w => dset d w.1 w.2) d ws.

(** The disks before each of the writes, newest first, on top of [h]. *)
Fixpoint hist_writes (d : diskT) (ws : writes) (h : list diskT) : list diskT :=
  match ws with
  | [] => h
  | w :: ws' => hist_writes (dset d w.1 w.2) ws' (d :: h)
  end.

(** What the writes leave in block [bn], if they write it. *)
Fixpoint wlast (ws : writes) (bn : Z) : option (list Z) :=
  match ws with
  | [] => None
  | w :: ws' => match wlast ws' bn with
                | Some v => Some v
                | None => if w.1 =? bn then Some w.2 else None
                end
  end.

Definition in_disk (d : diskT) (bn : Z) : Prop := 0 <= bn < Z.of_nat (length d).

Lemma apply_writes_app d ws ws' :
  apply_writes d (ws ++ ws') = apply_writes (apply_writes d ws) ws'.
Proof. apply foldl_app. Qed.

Lemma hist_writes_app d ws ws' h :
  hist_writes d (ws ++ ws') h = hist_writes (apply_writes d ws) ws' (hist_writes d ws h).
Proof. revert d h. induction ws as [|w ws IH]; intros d h; [done|]. apply IH. Qed.

Lemma hist_writes_split d ws h : hist_writes d ws h = hist_writes d ws [] ++ h.
Proof.
  revert d h. induction ws as [|w ws IH]; intros d h; [done|]. cbn [hist_writes].
  rewrite IH, (IH _ [d]), <- app_assoc. done.
Qed.

Lemma hist_writes_elem d ws d' :
  d' ∈ hist_writes d ws [] -> exists k, (k < length ws)%nat /\ d' = apply_writes d (take k ws).
Proof.
  revert d. induction ws as [|w ws IH]; intros d; cbn [hist_writes]; [set_solver|].
  rewrite hist_writes_split, elem_of_app. intros [(k & Hk & ->)%IH|Hin].
  - exists (S k). cbn. split; [lia|done].
  - apply list_elem_of_singleton in Hin as ->. exists 0%nat. cbn. split; [lia|done].
Qed.

Lemma length_apply d ws : length (apply_writes d ws) = length d.
Proof.
  revert d. induction ws as [|w ws IH]; intros d; [done|]. cbn. rewrite IH. apply length_insert.
Qed.

Lemma wlast_app ws ws' bn :
  wlast (ws ++ ws') bn = match wlast ws' bn with Some v => Some v | None => wlast ws bn end.
Proof.
  induction ws as [|w ws IH]; cbn; [by destruct (wlast ws' bn)|]. rewrite IH.
  by destruct (wlast ws' bn).
Qed.

Lemma wlast_None ws bn : bn ∉ ws.*1 -> wlast ws bn = None.
Proof.
  induction ws as [|w ws IH]; cbn; [done|]. intros [H1 H2]%not_elem_of_cons.
  rewrite IH by done. destruct (Z.eqb_spec w.1 bn); [congruence|done].
Qed.

Lemma wlast_Some ws bn v : wlast ws bn = Some v -> bn ∈ ws.*1.
Proof.
  intros H. destruct (decide (bn ∈ ws.*1)); [done|]. by rewrite wlast_None in H.
Qed.

Lemma wlast_in ws bn v : wlast ws bn = Some v -> exists t, ws !! t = Some (bn, v).
Proof.
  induction ws as [|[b x] ws IH]; cbn; [done|]. destruct (wlast ws bn) as [y|].
  - intros E. destruct (IH E) as [t Ht]. by exists (S t).
  - destruct (Z.eqb_spec b bn); [|done]. intros [= <-]. subst. by exists 0%nat.
Qed.

Lemma dget_dset d bn v bn' :
  in_disk d bn -> 0 <= bn' -> dget (dset d bn v) bn' = if bn =? bn' then v else dget d bn'.
Proof.
  unfold in_disk, dget, dset. intros H H'. destruct (Z.eqb_spec bn bn') as [->|Hne].
  - rewrite list_lookup_insert_eq by lia. done.
  - rewrite list_lookup_insert_ne by lia. done.
Qed.

Lemma dget_apply d ws bn :
  Forall (in_disk d) ws.*1 -> 0 <= bn ->
  dget (apply_writes d ws) bn = default (dget d bn) (wlast ws bn).
Proof.
  intros Hw Hbn. revert d Hw. induction ws as [|w ws IH]; intros d Hw; [done|].
  cbn [fmap list_fmap] in Hw. apply Forall_cons in Hw as [H1 H2]. cbn [apply_writes foldl wlast].
  rewrite IH.
  - destruct (wlast ws bn); [done|]. cbn. rewrite dget_dset by done. by destruct (_ =? _).
  - eapply Forall_impl; [exact H2|]. intros b. unfold in_disk, dset. by rewrite length_insert.
Qed.

(** Repeating writes after a prefix of them. *)
Lemma wlast_redo ws m bn : wlast (take m ws ++ ws) bn = wlast ws bn.
Proof.
  rewrite wlast_app. destruct (wlast ws bn) eqn:E; [done|]. apply wlast_None. intros Hin.
  assert (bn ∈ ws.*1) as Hin'.
  { rewrite fmap_take in Hin. apply list_elem_of_lookup in Hin as [k Hk].
    apply lookup_take_Some in Hk as [Hk _]. by eapply list_elem_of_lookup_2. }
  clear -E Hin'. induction ws as [|w ws IH]; cbn in *; [set_solver|].
  destruct (wlast ws bn); [done|]. destruct (Z.eqb_spec w.1 bn); [done|].
  apply elem_of_cons in Hin' as [->|Hin']; [done|]. by apply IH.
Qed.

(** ** The header block *)

(** [n] and the first [k] block numbers written over the block [old]. *)
Fixpoint put_blocks (bl : list Z) (k : nat) (b : list Z) : list Z :=
  match k with
  | O => b
  | S k' => splice (4 + 4 * k') (enc32 (default 0 (bl !! k'))) (put_blocks bl k' b)
  end.
Definition put_head (bl : list Z) (old : list Z) : list Z :=
  put_blocks bl (length bl) (splice 0 (enc32 (Z.of_nat (length bl))) old).

Definition head_n (hb : list Z) : Z := s32 (le32 0 hb).
Definition head_block (hb : list Z) (i : nat) : Z := s32 (le32 (4 + 4 * i) hb).
Definition head_blocks (hb : list Z) : list Z :=
  head_block hb <$> seq 0 (Z.to_nat (head_n hb)).

Lemma length_put_blocks bl k b :
  (4 + 4 * k <= length b)%nat -> length (put_blocks bl k b) = length b.
Proof.
  induction k as [|k IH]; intros H; cbn [put_blocks]; [done|].
  rewrite length_splice; [apply IH; lia|]. cbn [length enc32]. rewrite IH; lia.
Qed.

Lemma length_put_head bl old :
  (4 + 4 * length bl <= length old)%nat -> length (put_head bl old) = length old.
Proof.
  intros H. unfold put_head. rewrite length_put_blocks; rewrite length_splice; cbn [length enc32]; lia.
Qed.

Lemma put_blocks_n bl k b :
  (4 + 4 * k <= length b)%nat -> le32 0 (put_blocks bl k b) = le32 0 b.
Proof.
  induction k as [|k IH]; intros H; cbn [put_blocks]; [done|].
  rewrite le32_splice_ne; [apply IH; lia|cbn [length enc32]|lia].
  rewrite length_put_blocks; lia.
Qed.

Lemma put_blocks_block bl k b i :
  (4 + 4 * k <= length b)%nat -> (i < k)%nat ->
  le32 (4 + 4 * i) (put_blocks bl k b) = u32 (default 0 (bl !! i)).
Proof.
  induction k as [|k IH]; intros H Hi; [lia|]. cbn [put_blocks].
  assert (length (put_blocks bl k b) = length b) as Hl by (apply length_put_blocks; lia).
  destruct (decide (i = k)) as [->|Hne].
  - apply le32_splice_eq. lia.
  - rewrite le32_splice_ne; [apply IH; lia|cbn [length enc32]; lia|cbn [length enc32]; lia].
Qed.

Definition int_ok (z : Z) : Prop := -2147483648 <= z < 2147483648.

(** What [write_head] writes, [read_head] reads. *)
Lemma head_put bl old :
  (4 + 4 * length bl <= length old)%nat -> Forall int_ok bl -> int_ok (Z.of_nat (length bl)) ->
  head_n (put_head bl old) = Z.of_nat (length bl) /\ head_blocks (put_head bl old) = bl.
Proof.
  intros H Hb Hn. set (old' := splice 0 (enc32 (Z.of_nat (length bl))) old).
  assert (length old' = length old) as Hl by (apply length_splice; cbn [length enc32]; lia).
  assert (head_n (put_head bl old) = Z.of_nat (length bl)) as En.
  { unfold head_n, put_head. rewrite put_blocks_n by (fold old'; lia).
    rewrite le32_splice_eq by lia. by apply s32_u32. }
  split; [done|]. unfold head_blocks. rewrite En, Nat2Z.id. apply list_eq. intros i.
  rewrite list_lookup_fmap. destruct (decide (i < length bl)%nat) as [Hi|Hi].
  - rewrite lookup_seq_lt by done. cbn. unfold head_block, put_head.
    rewrite put_blocks_block by (fold old'; lia).
    destruct (lookup_lt_is_Some_2 bl i Hi) as [b Eb]. rewrite Eb. cbn. f_equal. apply s32_u32.
    by eapply Forall_lookup in Hb.
  - rewrite lookup_seq_ge by lia. rewrite lookup_ge_None_2 by lia. done.
Qed.

(** ** Crashes, on disks *)

Section Crash.
Context (st size : Z).

Definition in_log (bn : Z) : Prop := st <= bn < st + size.

(** The two disks agree on every block outside the log. *)
Definition home_eq (d d' : diskT) : Prop :=
  forall bn, 0 <= bn -> ~ in_log bn -> dget d bn = dget d' bn.

(** The blocks of a transaction: on disk, outside the log, fewer than the log
    has room for. *)
Record blocks_ok (d : diskT) (bl : list Z) : Prop := {
  bo_disk : Forall (in_disk d) bl;
  bo_home : Forall (fun b => ~ in_log b) bl;
  bo_int : Forall int_ok bl;
  bo_size : Z.of_nat (length bl) < size;
}.

(** The log fits on the disk, and its header in a block. *)
Record log_fits (d : diskT) : Prop := {
  lf_start : 0 <= st;
  lf_end : st + size <= Z.of_nat (length d);
  lf_size : 0 < size <= LOGSIZE;
  lf_head : (124 <= length (dget d st))%nat;
}.

Definition log_writes (vs : list (list Z)) : writes :=
  imap (fun t v => (st + 1 + Z.of_nat t, v)) vs.

(** The disk writes of [recover_from_log] and their effect. *)
Definition logged (d : diskT) (n : nat) : list (list Z) :=
  (fun t => dget d (st + 1 + Z.of_nat t)) <$> seq 0 n.
Definition install_writes (bl : list Z) (d : diskT) : writes := zip bl (logged d (length bl)).
Definition recover_writes (d : diskT) : writes :=
  install_writes (head_blocks (dget d st)) d ++ [(st, put_head [] (dget d st))].
Definition recovered (d : diskT) : diskT := apply_writes d (recover_writes d).

(** The disk writes of [commit]. *)
Definition commit_writes (bl : list Z) (vs : list (list Z)) (hb : list Z) : writes :=
  log_writes vs ++ [(st, put_head bl hb)] ++ zip bl vs ++ [(st, put_head [] (put_head bl hb))].

Lemma elem_log_writes vs k bn :
  bn ∈ (take k (log_writes vs)).*1 -> st + 1 <= bn < st + 1 + Z.of_nat (length vs).
Proof.
  rewrite fmap_take. intros [i Hi]%list_elem_of_lookup. apply lookup_take_Some in Hi as [Hi _].
  unfold log_writes in Hi. rewrite list_lookup_fmap, list_lookup_imap in Hi.
  destruct (vs !! i) eqn:E; [|done]. apply lookup_lt_Some in E. cbn in Hi. simplify_eq. lia.
Qed.

Lemma fst_zip_sub (bl : list Z) (vs : list (list Z)) k bn :
  bn ∈ (take k (zip bl vs)).*1 -> bn ∈ bl.
Proof.
  rewrite fmap_take. intros [i Hi]%list_elem_of_lookup. apply lookup_take_Some in Hi as [Hi _].
  rewrite list_lookup_fmap in Hi. destruct (zip bl vs !! i) as [[b v]|] eqn:E; [|done].
  cbn in Hi. simplify_eq. apply lookup_zip_Some in E as [E _]. by eapply list_elem_of_lookup_2.
Qed.

Lemma wlast_log_writes vs t v :
  vs !! t = Some v -> wlast (log_writes vs) (st + 1 + Z.of_nat t) = Some v.
Proof.
  intros Hv. rewrite <- (take_drop_middle _ _ _ Hv). set (l1 := take t vs).
  assert (length l1 = t) as Hl by (apply lookup_lt_Some in Hv; unfold l1; rewrite length_take; lia).
  unfold log_writes. rewrite imap_app, wlast_app. cbn [imap wlast fst snd]. rewrite Hl, Nat.add_0_r.
  rewrite wlast_None; [by rewrite Z.eqb_refl|].
  intros [i Hi]%list_elem_of_lookup. rewrite list_lookup_fmap, list_lookup_imap in Hi.
  destruct (drop (S t) vs !! i); cbn in Hi; [simplify_eq; lia|done].
Qed.

Lemma home_refl d : home_eq d d.
Proof. done. Qed.

Lemma home_trans d1 d2 d3 : home_eq d1 d2 -> home_eq d2 d3 -> home_eq d1 d3.
Proof. intros H1 H2 bn Hp Hn. by rewrite H1, H2. Qed.

(** Writes inside the log do not change the home blocks. *)
Lemma home_log_writes d ws :
  Forall (in_disk d) ws.*1 -> Forall in_log ws.*1 -> home_eq (apply_writes d ws) d.
Proof.
  intros Hd Hl bn Hp Hn. rewrite dget_apply by done. rewrite wlast_None; [done|].
  intros Hin. rewrite Forall_forall in Hl. by apply Hn, Hl.
Qed.

(** Recovering a disk with an erased header changes no home block. *)
Lemma recovered_erased d : log_fits d -> head_n (dget d st) = 0 -> home_eq (recovered d) d.
Proof.
  intros [H1 H2 H3 _] Hn. unfold recovered, recover_writes, head_blocks. rewrite Hn. cbn [Z.to_nat seq].
  apply home_log_writes; repeat constructor; unfold in_disk, in_log; cbn; lia.
Qed.

Lemma logged_eq d vs :
  (forall t v, vs !! t = Some v -> dget d (st + 1 + Z.of_nat t) = v) ->
  logged d (length vs) = vs.
Proof.
  intros H. apply list_eq. intros t. unfold logged. rewrite list_lookup_fmap.
  destruct (vs !! t) as [v|] eqn:E.
  - rewrite lookup_seq_lt by (by eapply lookup_lt_Some). cbn. by rewrite (H t v).
  - rewrite lookup_seq_ge by (by apply lookup_ge_None_1). done.
Qed.

Lemma in_disk_zip d bl (vs : list (list Z)) : Forall (in_disk d) bl -> Forall (in_disk d) (zip bl vs).*1.
Proof.
  intros H. rewrite Forall_forall in *. intros bn Hin. apply H, (fst_zip_sub bl vs (length (zip bl vs))).
  by rewrite take_ge.
Qed.

(** Recovering a committed disk installs the transaction. *)
Lemma recovered_committed d bl vs :
  log_fits d -> blocks_ok d bl -> length vs = length bl -> head_blocks (dget d st) = bl ->
  (forall t v, vs !! t = Some v -> dget d (st + 1 + Z.of_nat t) = v) ->
  home_eq (recovered d) (apply_writes d (zip bl vs)).
Proof.
  intros [H1 H2 H3 _] [Hd Hh _ Hs] Hl Hbl Hv bn Hp Hn. unfold recovered, recover_writes, install_writes.
  rewrite Hbl, <- Hl, logged_eq by done. pose proof (in_disk_zip d bl vs Hd) as Hz.
  rewrite !dget_apply; [|done|done| |done].
  - rewrite wlast_app. cbn. destruct (Z.eqb_spec st bn); [|done]. exfalso. apply Hn. unfold in_log. lia.
  - rewrite fmap_app, Forall_app. split; [done|]. repeat constructor; cbn; lia.
Qed.

Section Commit.
Context (d : diskT) (bl : list Z) (vs : list (list Z)).
Context (Hfit : log_fits d) (Hbl : blocks_ok d bl) (Hlen : length vs = length bl).
Let hb := dget d st.

(** The disk after [k] writes to the log, or after all of them, the header and
    [m] home blocks. *)
Let dlog k := apply_writes d (take k (log_writes vs)).
Let dhome m := apply_writes d (log_writes vs ++ [(st, put_head bl hb)] ++ take m (zip bl vs)).

Lemma log_writes_in k : Forall (in_disk d) (take k (log_writes vs)).*1.
Proof.
  destruct Hfit as [H1 H2 H3 _], Hbl as [_ _ _ H4].
  apply Forall_forall. intros bn Hin%elem_log_writes. unfold in_disk. lia.
Qed.

Lemma head_fits : (4 + 4 * length bl <= length hb)%nat.
Proof.
  destruct Hfit as [_ _ H3 H4], Hbl as [_ _ _ H5]. fold hb in H4. unfold LOGSIZE, MAXOPBLOCKS in *. lia.
Qed.

Lemma head_committed :
  head_n (put_head bl hb) = Z.of_nat (length bl) /\ head_blocks (put_head bl hb) = bl.
Proof.
  destruct Hfit as [_ _ H3 _], Hbl as [_ _ H4 H5]. apply head_put; [apply head_fits|done|].
  unfold int_ok, LOGSIZE, MAXOPBLOCKS in *. lia.
Qed.

Lemma dlog_head k : dget (dlog k) st = hb.
Proof.
  destruct Hfit as [H1 H2 H3 _]. unfold dlog. rewrite dget_apply by (done || apply log_writes_in).
  rewrite wlast_None; [done|]. intros Hin%elem_log_writes. lia.
Qed.

Lemma home_writes_in m :
  Forall (in_disk d) (log_writes vs ++ [(st, put_head bl hb)] ++ take m (zip bl vs)).*1.
Proof.
  destruct Hfit as [H1 H2 H3 _]. rewrite !fmap_app, !Forall_app. split; [|split].
  - rewrite <- (take_ge (log_writes vs) _ (Nat.le_refl _)). apply log_writes_in.
  - repeat constructor; cbn; unfold in_disk; lia.
  - apply Forall_forall. intros bn Hin%fst_zip_sub. destruct Hbl as [Hd _ _ _].
    rewrite Forall_forall in Hd. by apply Hd.
Qed.

Lemma dhome_get m bn : 0 <= bn ->
  dget (dhome m) bn = match wlast (take m (zip bl vs)) bn with
    | Some v => v
    | None => if st =? bn then put_head bl hb else default (dget d bn) (wlast (log_writes vs) bn)
    end.
Proof.
  intros Hp. unfold dhome. rewrite dget_apply by (done || apply home_writes_in).
  rewrite !wlast_app. destruct (wlast (take m (zip bl vs)) bn); [done|]. cbn.
  by destruct (_ =? _).
Qed.

(** A block of the log is not a home block of the transaction. *)
Lemma not_home m bn : in_log bn -> wlast (take m (zip bl vs)) bn = None.
Proof.
  intros Hin. apply wlast_None. intros Hb%fst_zip_sub. destruct Hbl as [_ Hh _ _].
  rewrite Forall_forall in Hh. by apply (Hh bn).
Qed.

Lemma dhome_head m : dget (dhome m) st = put_head bl hb.
Proof.
  destruct Hfit as [H1 H2 H3 _]. rewrite dhome_get by done.
  rewrite not_home by (unfold in_log; lia). by rewrite Z.eqb_refl.
Qed.

Lemma dhome_logged m t v : vs !! t = Some v -> dget (dhome m) (st + 1 + Z.of_nat t) = v.
Proof.
  intros Hv. pose proof (lookup_lt_Some _ _ _ Hv) as Ht.
  destruct Hfit as [H1 H2 H3 _], Hbl as [_ _ _ H5]. rewrite dhome_get by lia.
  rewrite not_home by (unfold in_log; lia). destruct (Z.eqb_spec st (st + 1 + Z.of_nat t)); [lia|].
  by rewrite (wlast_log_writes vs t v).
Qed.

Lemma dhome_home m : home_eq (dhome m) (apply_writes d (take m (zip bl vs))).
Proof.
  intros bn Hp Hn. destruct Hfit as [H1 H2 H3 _], Hbl as [Hd _ _ H5]. rewrite dhome_get by done.
  rewrite dget_apply; [|apply Forall_forall; intros b Hb%fst_zip_sub; rewrite Forall_forall in Hd; by apply Hd|done].
  destruct (wlast (take m (zip bl vs)) bn); [done|]. cbn.
  destruct (Z.eqb_spec st bn); [exfalso; apply Hn; unfold in_log; lia|].
  rewrite wlast_None; [done|]. rewrite <- (take_ge (log_writes vs) _ (Nat.le_refl _)).
  intros Hin%elem_log_writes. apply Hn. unfold in_log. lia.
Qed.

(** Outside the log, what [commit] writes is the transaction's data. *)
Lemma wlast_commit hb' bn v :
  0 <= bn -> ~ in_log bn -> wlast (commit_writes bl vs hb') bn = Some v ->
  exists t b, bn = b /\ bl !! t = Some b /\ vs !! t = Some v.
Proof.
  intros Hp Hn. destruct Hfit as [H1 H2 H3 _], Hbl as [_ _ _ H5].
  assert (st <> bn) as Hne by (intros ->; apply Hn; unfold in_log; lia).
  unfold commit_writes. rewrite !wlast_app. cbn. destruct (Z.eqb_spec st bn); [done|].
  destruct (wlast (zip bl vs) bn) as [v'|] eqn:E.
  - intros [= ->]. apply wlast_in in E as [t Ht]. apply lookup_zip_Some in Ht as [Ht1 Ht2].
    by exists t, bn.
  - rewrite wlast_None; [done|]. rewrite <- (take_ge (log_writes vs) _ (Nat.le_refl _)).
    intros Hin%elem_log_writes. exfalso. apply Hn. unfold in_log. lia.
Qed.

Definition committed : diskT := apply_writes d (zip bl vs).

Lemma fits_apply ws : dget (apply_writes d ws) st = hb \/
  dget (apply_writes d ws) st = put_head bl hb -> log_fits (apply_writes d ws).
Proof.
  intros H. pose proof head_fits as Hh. destruct Hfit as [H1 H2 H3 H4].
  split; [done|by rewrite length_apply|done|]. fold hb in H4.
  destruct H as [-> | ->]; [done|]. by rewrite length_put_head.
Qed.

(** The disk while the home blocks are being written, recovered. *)
Lemma dhome_recovered m : home_eq (recovered (dhome m)) committed.
Proof.
  destruct head_committed as [_ Hb]. pose proof Hbl as [Hd Hh Hi Hs].
  eapply home_trans.
  { apply (recovered_committed (dhome m) bl vs); [|split; try done| |by rewrite dhome_head|apply dhome_logged].
    - apply fits_apply. right. apply dhome_head.
    - eapply Forall_impl; [exact Hd|]. intros b. unfold in_disk, dhome. by rewrite length_apply.
    - done. }
  intros bn Hp Hn. unfold committed. rewrite dget_apply.
  - rewrite (dget_apply d) by (done || by apply in_disk_zip).
    rewrite (dhome_home m bn Hp Hn), dget_apply;
      [|apply Forall_forall; intros b Hb'%fst_zip_sub; rewrite Forall_forall in Hd; by apply Hd|done].
    pose proof (wlast_redo (zip bl vs) m bn) as Hr. rewrite wlast_app in Hr.
    destruct (wlast (zip bl vs) bn); [done|]. by rewrite Hr.
  - eapply Forall_impl; [apply (in_disk_zip d), Hd|]. intros b. unfold in_disk, dhome. by rewrite length_apply.
  - done.
Qed.

Lemma head_erased old : (4 <= length old)%nat -> head_n (put_head [] old) = 0.
Proof.
  intros H. destruct (head_put [] old) as [E _]; [cbn; lia|constructor|split; cbn; lia|exact E].
Qed.

(** The disk after the last write of [commit]. *)
Lemma dfinal_recovered :
  let d' := apply_writes d (commit_writes bl vs hb) in
  home_eq d' committed /\ home_eq (recovered d') committed /\ head_n (dget d' st) = 0 /\ log_fits d'.
Proof.
  intros d'. pose proof head_fits as Hhf. pose proof Hfit as [H1 H2 H3 H4]. fold hb in H4.
  assert (d' = dset (dhome (length bl)) st (put_head [] (put_head bl hb))) as Ed.
  { unfold d', commit_writes, dhome. rewrite (take_ge (zip bl vs)) by (rewrite length_zip; lia).
    rewrite !app_assoc, apply_writes_app. done. }
  assert (in_disk (dhome (length bl)) st) as Hin by (unfold in_disk, dhome; rewrite length_apply; lia).
  assert (dget d' st = put_head [] (put_head bl hb)) as Eh.
  { rewrite Ed, dget_dset by done. by rewrite Z.eqb_refl. }
  assert (head_n (dget d' st) = 0) as En.
  { rewrite Eh. apply head_erased. rewrite length_put_head; lia. }
  assert (home_eq d' committed) as Hc.
  { intros bn Hp Hn. rewrite Ed, dget_dset by done.
    destruct (Z.eqb_spec st bn); [exfalso; apply Hn; unfold in_log; lia|].
    rewrite (dhome_home _ bn Hp Hn). unfold committed.
    by rewrite (take_ge (zip bl vs)) by (rewrite length_zip; lia). }
  assert (log_fits d') as Hf'.
  { split; [done|by unfold d'; rewrite length_apply|done|].
    rewrite Eh, length_put_head; rewrite length_put_head; cbn [length]; lia. }
  split; [done|]. split; [|done]. by eapply home_trans; [apply recovered_erased|exact Hc].
Qed.

(** However many of the writes of [commit] reached the disk, recovery yields
    the old home blocks or the new ones. *)
Lemma commit_crash k :
  head_n hb = 0 ->
  let d' := recovered (apply_writes d (take k (commit_writes bl vs hb))) in
  home_eq d' d \/ home_eq d' committed.
Proof.
  intros Hn d'. assert (length (log_writes vs) = length vs) as Hll by apply length_imap.
  destruct (decide (k <= length vs)%nat) as [Hk|Hk].
  - left. unfold d', commit_writes. rewrite take_app_le by lia. fold (dlog k).
    eapply home_trans; [apply recovered_erased|].
    + apply fits_apply. left. apply dlog_head.
    + by rewrite dlog_head.
    + apply home_log_writes; [apply log_writes_in|]. apply Forall_forall.
      intros bn Hin%elem_log_writes. destruct Hbl as [_ _ _ H5]. unfold in_log. lia.
  - right. destruct (decide (k <= length vs + 1 + length vs)%nat) as [Hk'|Hk'].
    + unfold d', commit_writes. rewrite take_app_ge by lia. rewrite Hll.
      destruct (k - length vs)%nat as [|m] eqn:E; [lia|]. cbn [app take].
      rewrite take_app_le by (rewrite length_zip; lia). apply (dhome_recovered m).
    + unfold d'. rewrite take_ge; [apply dfinal_recovered|].
      unfold commit_writes. rewrite !length_app, Hll, length_zip. cbn. lia.
Qed.
End Commit.

(** Recovery can itself be interrupted and started again. *)
Lemma recover_crash d bl k :
  log_fits d -> blocks_ok d bl -> head_blocks (dget d st) = bl ->
  home_eq (recovered (apply_writes d (take k (recover_writes d)))) (recovered d).
Proof.
  intros Hfit Hbl Hb. pose proof Hfit as [H1 H2 H3 H4]. pose proof Hbl as [Hd Hh Hi Hs].
  set (vs := logged d (length bl)). assert (length vs = length bl) as Hlen
    by (unfold vs, logged; by rewrite length_fmap, length_seq).
  assert (forall t v, vs !! t = Some v -> dget d (st + 1 + Z.of_nat t) = v) as Hv.
  { intros t v Ht. unfold vs, logged in Ht. rewrite list_lookup_fmap in Ht.
    destruct (seq 0 (length bl) !! t) eqn:E; [|done]. apply lookup_seq in E as [-> _]. cbn in Ht. congruence. }
  assert (recover_writes d = zip bl vs ++ [(st, put_head [] (dget d st))]) as Ew
    by (unfold recover_writes, install_writes; by rewrite Hb).
  pose proof (recovered_committed d bl vs Hfit Hbl Hlen Hb Hv) as Hrec.
  destruct (decide (k <= length bl)%nat) as [Hk|Hk].
  - rewrite Ew, take_app_le by (rewrite length_zip; lia).
    set (dk := apply_writes d (take k (zip bl vs))).
    assert (forall bn, in_log bn -> dget dk bn = dget d bn) as Hlogd.
    { intros bn Hin. unfold dk. rewrite dget_apply.
      - by rewrite (not_home d bl vs Hbl k bn Hin).
      - apply Forall_forall. intros b Hb'%fst_zip_sub. rewrite Forall_forall in Hd. by apply Hd.
      - unfold in_log in Hin. lia. }
    assert (dget dk st = dget d st) as Est by (apply Hlogd; unfold in_log; lia).
    assert (length dk = length d) as Ln by apply length_apply.
    eapply home_trans.
    { apply (recovered_committed dk bl vs); [split; rewrite ?Ln, ?Est; done|split; try done|done|by rewrite Est|].
      - unfold in_disk. rewrite Ln. exact Hd.
      - intros t v Ht. rewrite Hlogd; [by apply Hv|]. apply lookup_lt_Some in Ht. unfold in_log. lia. }
    intros bn Hp Hn. rewrite (Hrec bn Hp Hn). pose proof (in_disk_zip d bl vs Hd) as Hz.
    unfold dk. rewrite <- apply_writes_app, !dget_apply; [by rewrite wlast_redo|done|done| |done].
    rewrite fmap_app, Forall_app. split; [|done].
    apply Forall_forall. intros b Hb'%fst_zip_sub. rewrite Forall_forall in Hd. by apply Hd.
  - rewrite take_ge by (rewrite Ew, length_app, length_zip; cbn; lia). fold (recovered d).
    assert (dget (recovered d) st = put_head [] (dget d st)) as Eh.
    { unfold recovered. rewrite Ew, apply_writes_app. cbn. rewrite dget_dset, Z.eqb_refl; [done| |done].
      unfold in_disk. rewrite length_apply. lia. }
    apply recovered_erased.
    + split; [done|unfold recovered; by rewrite length_apply|done|].
      rewrite Eh, length_put_head; [done|]. cbn [length]. lia.
    + rewrite Eh. destruct (head_put [] (dget d st)) as [E _]; [cbn; lia|constructor|split; cbn; lia|exact E].
Qed.
End Crash.

(** ** The code of the log on a calm machine *)

Section Machine.
Context (km : kmstate) (fs : fsstate) (cn : cnstate) (o : list (kstate -> kstate)).
Context (hw : hwstate) (i p : nat) (pid : Z).
Implicit Types (pt : ptstate) (bc : bcstate).
#[local] Existing Instance Memide.driver.

(** One block was written: [v] to block [t]. *)
Record wrote (t : Z) (v : list Z) (bc bc' : bcstate) : Prop := {
  wr_disk : bc_disk bc' = dset (bc_disk bc) t v;
  wr_hist : bc_hist bc' = bc_disk bc :: bc_hist bc;
  wr_log : bc_log bc' = bc_log bc;
  wr_contents : forall bn, 0 <= bn ->
    contents bc' bn = if t =? bn then Some v else contents bc bn;
  wr_dirty : forall bn, dirty bc' bn <-> dirty bc bn /\ bn <> t;
}.

Lemma wrote_same t v bc0 bc1 bc2 bc3 :
  bsame bc0 bc1 -> wrote t v bc1 bc2 -> bsame bc2 bc3 -> wrote t v bc0 bc3.
Proof.
  intros [A1 A2 A3 A4 A5] [B1 B2 B3 B4 B5] [C1 C2 C3 C4 C5]. split; [congruence..| |].
  - intros bn Hp. rewrite C1, B4, A1 by done. done.
  - intros bn. rewrite C2, B5, A2. done.
Qed.

(** Change the data of a held buffer and write it. *)
Lemma set_bwrite pt bc l H bn j d :
  calm hw pt i p pid -> cache pid bc l H [] -> holds_block (bc_buf bc) bn j -> j ∈ H ->
  exists bc',
    bwrite j (W hw pt km (bset (set_b_data d) j bc) fs cn o) = Ok tt (W hw pt km bc' fs cn o) /\
    cache pid bc' l H [] /\ wrote bn d bc bc' /\ holds_block (bc_buf bc') bn j /\
    (forall k, k <> j -> bufat (bc_buf bc') k = bufat (bc_buf bc) k).
Proof.
  intros Hm Hc Hb Hj. pose proof (ca_len _ _ _ _ _ Hc) as Hn. pose proof Hb as (Hlt & Hd & Hbn).
  destruct (bdata_ok pid bc l H [] bn j d Hc Hb Hj) as (Hc1 & C1 & C1' & D1 & Hb1 & F1).
  destruct (bwrite_ok km fs cn o hw i p pid pt _ _ _ _ bn j Hm Hc1 Hb1 Hj)
    as (E2 & Hc2 & C2 & D2 & Hb2 & F2).
  rewrite (bset_at _ _ bc), decide_True in * by (done || lia).
  eexists. split; [exact E2|]. split.
  { rewrite filter_cons_False in Hc2 by naive_solver. exact Hc2. }
  split; [|split; [exact Hb2|intros k Hk; by rewrite F2, F1]].
  split; [done|done|done| |].
  - intros bn' Hp. rewrite C2 by done. destruct (Z.eqb_spec bn bn') as [<-|Hne]; [done|].
    by apply C1'.
  - intros bn'. rewrite D2, D1. done.
Qed.

Lemma filter_both (x y : nat) l :
  (forall z, z ∈ l -> z = x \/ z = y) ->
  filter (fun k => k <> x) (filter (fun k => k <> y) l) = [].
Proof.
  intros H. destruct (filter _ _) as [|z l'] eqn:E; [done|].
  assert (z ∈ z :: l') as Hz by set_solver. rewrite <- E, !list_elem_of_filter in Hz.
  destruct Hz as (? & ? & Hz). destruct (H z Hz); done.
Qed.

Lemma copy_pair pt bc l H s t src dst v :
  calm hw pt i p pid -> cache pid bc l H [] -> src ∈ H -> dst ∈ H -> src <> dst ->
  holds_block (bc_buf bc) s src -> holds_block (bc_buf bc) t dst -> contents bc s = Some v ->
  exists pt' bc' l',
    (copy_data dst src ;; bwrite dst ;; brelse src ;; brelse dst)%c (W hw pt km bc fs cn o) =
      Ok tt (W hw pt' km bc' fs cn o) /\
    calm hw pt' i p pid /\
    cache pid bc' l' (filter (fun k => k <> dst) (filter (fun k => k <> src) H)) [] /\
    wrote t v bc bc'.
Proof.
  intros Hm Hc Hs Hd Hne Hsb Hdb Hv. pose proof (ca_len _ _ _ _ _ Hc) as Hn.
  pose proof Hsb as (Hslt & _ & _).
  assert (b_data (bufat (bc_buf bc) src) = v) as Ev.
  { rewrite (contents_cached _ _ _ _ _ _ _ Hc Hsb) in Hv. by simplify_eq. }
  destruct (set_bwrite pt bc l H t dst v Hm Hc Hdb Hd) as (bc1 & E1 & Hc1 & W1 & _).
  destruct (brelse_ok km fs cn o hw i p pid pt bc1 l H [] src Hm Hc1 Hs)
    as (pt2 & bc2 & E2 & Hm2 & Hc2 & S2 & _); [left; set_solver|].
  destruct (brelse_ok km fs cn o hw i p pid pt2 bc2 _ _ _ dst Hm2 Hc2)
    as (pt3 & bc3 & E3 & Hm3 & Hc3 & S3 & _).
  { apply list_elem_of_filter. naive_solver. }
  { left. set_solver. }
  exists pt3, bc3, (to_front dst (to_front src l)). split.
  { unfold copy_data. rewrite bind_assoc. kcall getb_at by lia. unfold updb. krun. rewrite Ev.
    erewrite bind_ok by exact E1. erewrite bind_ok by exact E2. exact E3. }
  split; [done|]. split; [exact Hc3|].
  eapply wrote_same; [|exact W1|by eapply bsame_trans]. by split.
Qed.

(** Room in the cache for two buffers, the second for block [b]: the dirty
    blocks are among [D], and [b] is one of them or there is one more buffer. *)
Record room_for (bc : bcstate) (D : list Z) (b : Z) : Prop := {
  rf_dirty : forall bn, dirty bc bn -> bn ∈ D;
  rf_one : (length D < NBUF)%nat;
  rf_two : dirty bc b \/ (S (length D) < NBUF)%nat;
}.

(** Reading two different blocks. *)
Lemma two_breads pt bc l D a b :
  calm hw pt i p pid -> cache pid bc l [] [] -> room_for bc D b ->
  in_disk (bc_disk bc) a -> in_disk (bc_disk bc) b -> a <> b ->
  exists j1 j2 bc1 bc2,
    bread 1 a (W hw pt km bc fs cn o) = Ok j1 (W hw pt km bc1 fs cn o) /\
    bread 1 b (W hw pt km bc1 fs cn o) = Ok j2 (W hw pt km bc2 fs cn o) /\
    cache pid bc2 l [j2; j1] [] /\ bsame bc bc1 /\ bsame bc bc2 /\ j1 <> j2 /\
    holds_block (bc_buf bc2) a j1 /\ holds_block (bc_buf bc2) b j2.
Proof.
  intros Hm Hc [Hd H1 H2] Ha Hb Hne.
  destruct (bread_ok km fs cn o hw i p pid pt bc l [] [] a Hm Hc Ha)
    as (j1 & bc1 & E1 & Hc1 & S1 & _ & B1 & _).
  { set_solver. }
  { right. by eapply room_count. }
  assert (holds_block (bc_buf bc1) b j1 -> False) as Hnb.
  { intros (_ & _ & E). destruct B1 as (_ & _ & E'). congruence. }
  destruct (bread_ok km fs cn o hw i p pid pt bc1 l [j1] [] b Hm Hc1)
    as (j2 & bc2 & E2 & Hc2 & S2 & N2 & B2 & _ & F2).
  { by rewrite (bs_disk _ _ S1). }
  { intros j Hj. apply list_elem_of_singleton in Hj as ->. exact Hnb. }
  { destruct H2 as [H2|H2].
    - left. apply (bs_dirty _ _ S1) in H2 as (j & Hj & _). by exists j.
    - right. eapply room_count; [exact Hc1| |cbn [length]; exact H2].
      intros bn Hbn. by apply Hd, (bs_dirty _ _ S1). }
  exists j1, j2, bc1, bc2. do 3 (split; [done|]). split; [done|].
  split; [by eapply bsame_trans|]. split; [set_solver|]. split; [|done].
  unfold holds_block in *. by rewrite F2 by set_solver.
Qed.

(** The log on disk: device 1, blocks [st] to [st + size - 1]; the transaction
    [bl] in memory. *)
Record log_is (bc : bcstate) (st size : Z) (bl : list Z) : Prop := {
  li_dev : lg_dev (bc_log bc) = 1;
  li_start : lg_start (bc_log bc) = st;
  li_n : lg_n (bc_log bc) = Z.of_nat (length bl);
  li_bl : take (length bl) (lg_block (bc_log bc)) = bl;
  li_len : length (lg_block (bc_log bc)) = Z.to_nat LOGSIZE;
  li_small : Z.of_nat (length (bc_disk bc)) <= W32;
}.

Lemma log_is_block bc st size bl t b :
  log_is bc st size bl -> bl !! t = Some b -> lg_block (bc_log bc) !! t = Some b.
Proof. intros [_ _ _ H _ _] Hb. rewrite <- H in Hb. by apply lookup_take_Some in Hb as [Hb _]. Qed.

Lemma log_is_eq bc bc' st size bl :
  bc_log bc' = bc_log bc -> length (bc_disk bc') = length (bc_disk bc) ->
  log_is bc st size bl -> log_is bc' st size bl.
Proof. intros E1 E2 [H1 H2 H3 H4 H5 H6]. split; rewrite ?E1, ?E2; done. Qed.

Lemma getblock_eq hw' pt bc t b :
  lg_block (bc_log bc) !! t = Some b ->
  getblock t (W hw' pt km bc fs cn o) = Ok b (W hw' pt km bc fs cn o).
Proof. intros H. unfold getblock, getlog. krun. unfold at_. by rewrite H. Qed.

Definition write_log_body (tail : nat) : K unit :=
  dev <- getlog lg_dev ;;
  start <- getlog lg_start ;;
  to <- bread (u32 dev) (u32 (start + Z.of_nat tail + 1)) ;;
  dev <- getlog lg_dev ;;
  bn <- getblock tail ;;
  from <- bread (u32 dev) (u32 bn) ;;
  copy_data to from ;;
  bwrite to ;;
  brelse from ;;
  brelse to.

Definition install_body (tail : nat) : K unit :=
  dev <- getlog lg_dev ;;
  start <- getlog lg_start ;;
  lbuf <- bread (u32 dev) (u32 (start + Z.of_nat tail + 1)) ;;
  dev <- getlog lg_dev ;;
  bn <- getblock tail ;;
  dbuf <- bread (u32 dev) (u32 bn) ;;
  copy_data dbuf lbuf ;;
  bwrite dbuf ;;
  brelse lbuf ;;
  brelse dbuf.

(** One turn of the two loops: block [b] to or from the log's block [a]. *)
Section Turn.
Context (pt : ptstate) (bc : bcstate) (l : list nat) (st size : Z) (bl D : list Z) (t : nat) (b : Z).
Let a := st + 1 + Z.of_nat t.
Context (Hm : calm hw pt i p pid) (Hc : cache pid bc l [] []) (Hl : log_is bc st size bl)
  (Hr : room_for bc D b) (Ha : in_disk (bc_disk bc) a) (Hb : in_disk (bc_disk bc) b)
  (Hab : a <> b) (Ht : bl !! t = Some b).

Lemma turn_start (f : nat -> nat -> K unit) :
  exists j1 j2 bc2,
    (dev <- getlog lg_dev ;;
     start <- getlog lg_start ;;
     x <- bread (u32 dev) (u32 (start + Z.of_nat t + 1)) ;;
     dev <- getlog lg_dev ;;
     bn <- getblock t ;;
     y <- bread (u32 dev) (u32 bn) ;; f x y)%c (W hw pt km bc fs cn o) =
    f j1 j2 (W hw pt km bc2 fs cn o) /\
    cache pid bc2 l [j2; j1] [] /\ bsame bc bc2 /\ j1 <> j2 /\
    holds_block (bc_buf bc2) a j1 /\ holds_block (bc_buf bc2) b j2.
Proof.
  destruct (two_breads pt bc l D a b Hm Hc Hr Ha Hb Hab)
    as (j1 & j2 & bc1 & bc2 & E1 & E2 & Hc2 & S1 & S2 & N & B1 & B2).
  exists j1, j2, bc2. split; [|done]. destruct Hl as [L1 L2 L3 L4 L5 L6]. unfold in_disk, W32 in *.
  unfold getlog. krun. rewrite L1, L2. change (u32 1) with 1.
  replace (u32 (st + Z.of_nat t + 1)) with a by (rewrite u32_small; unfold W32; unfold a in *; lia).
  erewrite bind_ok by exact E1. krun. rewrite (bs_log _ _ S1), L1.
  kcall getblock_eq by (rewrite (bs_log _ _ S1); by eapply log_is_block).
  change (u32 1) with 1. rewrite (u32_small b) by (unfold W32; lia).
  erewrite bind_ok by exact E2. done.
Qed.

Lemma write_turn v :
  contents bc b = Some v ->
  exists pt' bc' l',
    write_log_body t (W hw pt km bc fs cn o) = Ok tt (W hw pt' km bc' fs cn o) /\
    calm hw pt' i p pid /\ cache pid bc' l' [] [] /\ wrote a v bc bc'.
Proof.
  intros Hv. destruct (turn_start (fun to from => copy_data to from ;; bwrite to ;; brelse from ;; brelse to)%c)
    as (j1 & j2 & bc2 & E & Hc2 & S2 & N & B1 & B2).
  destruct (copy_pair pt bc2 l [j2; j1] b a j2 j1 v Hm Hc2) as (pt' & bc' & l' & E' & Hm' & Hc' & Hw);
    [set_solver..|done|done|done|by rewrite (bs_contents _ _ S2)|].
  exists pt', bc', l'. split; [unfold write_log_body; rewrite E; exact E'|]. split; [done|]. split.
  - by rewrite filter_both in Hc' by set_solver.
  - eapply wrote_same; [exact S2|exact Hw|by split].
Qed.

Lemma install_turn v :
  contents bc a = Some v ->
  exists pt' bc' l',
    install_body t (W hw pt km bc fs cn o) = Ok tt (W hw pt' km bc' fs cn o) /\
    calm hw pt' i p pid /\ cache pid bc' l' [] [] /\ wrote b v bc bc'.
Proof.
  intros Hv. destruct (turn_start (fun lb db => copy_data db lb ;; bwrite db ;; brelse lb ;; brelse db)%c)
    as (j1 & j2 & bc2 & E & Hc2 & S2 & N & B1 & B2).
  destruct (copy_pair pt bc2 l [j2; j1] a b j1 j2 v Hm Hc2) as (pt' & bc' & l' & E' & Hm' & Hc' & Hw);
    [set_solver..|done|done|done|by rewrite (bs_contents _ _ S2)|].
  exists pt', bc', l'. split; [unfold install_body; rewrite E; exact E'|]. split; [done|]. split.
  - by rewrite filter_both in Hc' by set_solver.
  - eapply wrote_same; [exact S2|exact Hw|by split].
Qed.
End Turn.

(** A sequence of blocks was written. *)
Record wrotes (ws : writes) (bc bc' : bcstate) : Prop := {
  ws_disk : bc_disk bc' = apply_writes (bc_disk bc) ws;
  ws_hist : bc_hist bc' = hist_writes (bc_disk bc) ws (bc_hist bc);
  ws_contents : forall bn, 0 <= bn ->
    contents bc' bn = match wlast ws bn with Some v => Some v | None => contents bc bn end;
  ws_dirty : forall bn, dirty bc' bn <-> dirty bc bn /\ bn ∉ ws.*1;
}.

Lemma wrotes_nil bc : wrotes [] bc bc.
Proof. split; [done..|]. intros bn. set_solver. Qed.

Lemma wrotes_app ws ws' bc bc' bc'' :
  wrotes ws bc bc' -> wrotes ws' bc' bc'' -> wrotes (ws ++ ws') bc bc''.
Proof.
  intros [A1 A2 A3 A4] [B1 B2 B3 B4]. split.
  - by rewrite B1, A1, apply_writes_app.
  - by rewrite B2, A1, A2, hist_writes_app.
  - intros bn Hp. rewrite B3, A3, wlast_app by done. by destruct (wlast ws' bn).
  - intros bn. rewrite B4, A4, fmap_app, not_elem_of_app. tauto.
Qed.

Lemma wrote_wrotes t v bc bc' : wrote t v bc bc' -> wrotes [(t, v)] bc bc'.
Proof.
  intros [A1 A2 A3 A4 A5]. split; [done|done| |].
  - intros bn Hp. rewrite A4 by done. cbn. by destruct (_ =? _).
  - intros bn. rewrite A5. cbn. rewrite not_elem_of_cons. set_solver.
Qed.

Lemma wrotes_log ws bc bc' f g :
  wrotes ws bc bc' ->
  wrotes ws (set_bc_log f bc) (set_bc_log g bc').
Proof. intros [A1 A2 A3 A4]. by split. Qed.

(** The kernel is calm, holds no buffer, and its cache and disk satisfy [R]. *)
Definition lworld (R : bcstate -> Prop) (w : world) : Prop :=
  exists pt bc l, w = W hw pt km bc fs cn o /\ calm hw pt i p pid /\
    cache pid bc l [] [] /\ R bc.

Lemma for_log_ok (n : nat) (P : nat -> world -> Prop) body w :
  (forall t w, P t w -> lg_n (bc_log (k_bc (w_k w))) = Z.of_nat n) -> (n <= 30)%nat ->
  P 0%nat w ->
  (forall t w, (t < n)%nat -> P t w -> wp (body t) (fun _ w' => P (S t) w') w) ->
  wp (for_log body) (fun _ w' => P n w') w.
Proof.
  intros Hn Hle H0 Hstep. unfold for_log. apply wp_bind. eapply wp_mono.
  { apply (wp_for _ (fun t w => P t w /\ (t <= n)%nat) (fun _ w => P n w)); [split; [done|lia]|].
    intros t w' _ [HP Ht]. apply wp_bind. unfold getlog, getbc, getk. apply wp_gets.
    rewrite (Hn t w' HP). destruct (Z.ltb_spec (Z.of_nat t) (Z.of_nat n)).
    - apply wp_bind. eapply wp_mono; [apply Hstep; [lia|done]|]. intros [] w'' HP'.
      apply wp_ret. split; [done|lia].
    - apply wp_ret. by replace n with t by lia. }
  intros [[]|] w' HQ; apply wp_ret; [done|]. destruct HQ as [_ HQ].
  change (Z.to_nat LOGSIZE) with 30%nat in HQ. lia.
Qed.

(** Copying the transaction's blocks to the log. *)
Lemma write_log_ok pt bc l st size bl vs :
  calm hw pt i p pid -> cache pid bc l [] [] -> log_is bc st size bl ->
  log_fits st size (bc_disk bc) -> blocks_ok st size (bc_disk bc) bl ->
  (forall b, dirty bc b <-> b ∈ bl) ->
  length vs = length bl ->
  (forall t b v, bl !! t = Some b -> vs !! t = Some v -> contents bc b = Some v) ->
  wp write_log (fun _ => lworld (fun bc' => bc_log bc' = bc_log bc /\ wrotes (log_writes st vs) bc bc'))
    (W hw pt km bc fs cn o).
Proof.
  intros Hm Hc Hl [F1 F2 F3 _] [O1 O2 O3 O4] Hd Hlen Hv. unfold LOGSIZE, MAXOPBLOCKS in *.
  rewrite Forall_forall in O1, O2.
  assert (length (log_writes st vs) = length bl) as Hll by (unfold log_writes; by rewrite length_imap).
  change write_log with (for_log write_log_body).
  eapply wp_mono; [apply (for_log_ok (length bl) (fun t => lworld (fun bc' =>
    bc_log bc' = bc_log bc /\ wrotes (take t (log_writes st vs)) bc bc')))|].
  - intros t w (? & bc' & ? & -> & _ & _ & E & _). cbn. rewrite E. apply Hl.
  - lia.
  - exists pt, bc, l. split; [done|]. split; [done|]. split; [done|]. split; [done|].
    rewrite take_0. apply wrotes_nil.
  - intros t w Ht (pt' & bc' & l' & -> & Hm' & Hc' & E & Hw). pose proof Hw as [W1 W2 W3 W4].
    destruct (lookup_lt_is_Some_2 bl t Ht) as [b Eb].
    destruct (lookup_lt_is_Some_2 vs t) as [v Ev]; [lia|].
    assert (b ∈ bl) as Hb by (by eapply list_elem_of_lookup_2).
    assert (forall b, b ∈ bl -> b ∉ (take t (log_writes st vs)).*1) as Hnl.
    { intros b' Hb' Hin%elem_log_writes. apply (O2 b' Hb'). unfold in_log. lia. }
    assert (length (bc_disk bc') = length (bc_disk bc)) as Ld by (rewrite W1; apply length_apply).
    destruct (write_turn pt' bc' l' st size bl bl t b Hm' Hc') with (v := v)
      as (pt2 & bc2 & l2 & E2 & Hm2 & Hc2 & Hw2).
    + by eapply log_is_eq.
    + split; [|unfold NBUF; lia|left; apply W4; split; [by apply Hd|by apply Hnl]].
      intros bn [Hbn _]%W4. by apply Hd.
    + unfold in_disk. rewrite Ld. lia.
    + unfold in_disk. rewrite Ld. by apply O1.
    + intros Eq. apply (O2 b Hb). unfold in_log. lia.
    + done.
    + rewrite W3 by (by apply O1). rewrite wlast_None by (by apply Hnl). by eapply Hv.
    + unfold wp. rewrite E2. exists pt2, bc2, l2. split; [done|]. split; [done|]. split; [done|].
      split; [rewrite (wr_log _ _ _ _ Hw2); done|].
      erewrite take_S_r; [by eapply wrotes_app, wrote_wrotes|].
      unfold log_writes. by rewrite list_lookup_imap, Ev.
  - intros [] w (pt' & bc' & l' & -> & Hm' & Hc' & E & Hw). exists pt', bc', l'.
    by rewrite take_ge in Hw by lia.
Qed.

(** Copying the log's blocks home: the dirty blocks are the transaction's (in
    [commit]), or there are none (in recovery). *)
Lemma install_ok pt bc l st size bl vs :
  calm hw pt i p pid -> cache pid bc l [] [] -> log_is bc st size bl ->
  log_fits st size (bc_disk bc) -> blocks_ok st size (bc_disk bc) bl ->
  NoDup bl /\ (forall b, dirty bc b <-> b ∈ bl) \/ (forall b, ~ dirty bc b) ->
  length vs = length bl ->
  (forall t v, vs !! t = Some v -> contents bc (st + 1 + Z.of_nat t) = Some v) ->
  wp install_trans (fun _ => lworld (fun bc' => bc_log bc' = bc_log bc /\ wrotes (zip bl vs) bc bc'))
    (W hw pt km bc fs cn o).
Proof.
  intros Hm Hc Hl [F1 F2 F3 _] [O1 O2 O3 O4] Hd Hlen Hv. unfold LOGSIZE, MAXOPBLOCKS in *.
  rewrite Forall_forall in O1, O2.
  assert (length (zip bl vs) = length bl) as Hll by (rewrite length_zip; lia).
  change install_trans with (for_log install_body).
  eapply wp_mono; [apply (for_log_ok (length bl) (fun t => lworld (fun bc' =>
    bc_log bc' = bc_log bc /\ wrotes (take t (zip bl vs)) bc bc')))|].
  - intros t w (? & bc' & ? & -> & _ & _ & E & _). cbn. rewrite E. apply Hl.
  - lia.
  - exists pt, bc, l. split; [done|]. split; [done|]. split; [done|]. split; [done|].
    rewrite take_0. apply wrotes_nil.
  - intros t w Ht (pt' & bc' & l' & -> & Hm' & Hc' & E & Hw). pose proof Hw as [W1 W2 W3 W4].
    destruct (lookup_lt_is_Some_2 bl t Ht) as [b Eb].
    destruct (lookup_lt_is_Some_2 vs t) as [v Ev]; [lia|].
    assert (b ∈ bl) as Hb by (by eapply list_elem_of_lookup_2).
    assert (length (bc_disk bc') = length (bc_disk bc)) as Ld by (rewrite W1; apply length_apply).
    assert (exists D, room_for bc' D b) as [D HD].
    { destruct Hd as [[Hnd Hd]|Hd].
      - exists bl. split; [intros bn [Hbn _]%W4; by apply Hd|unfold NBUF; lia|left].
        apply W4. split; [by apply Hd|]. rewrite fmap_take, fst_zip by lia.
        intros [k Hk]%list_elem_of_lookup. apply lookup_take_Some in Hk as [Hk Hkt].
        pose proof (NoDup_lookup _ _ _ _ Hnd Hk Eb). lia.
      - exists []. split; [|cbn; unfold NBUF; lia|right; cbn; unfold NBUF; lia].
        intros bn [Hbn _]%W4. by apply Hd in Hbn. }
    destruct (install_turn pt' bc' l' st size bl D t b Hm' Hc') with (v := v)
      as (pt2 & bc2 & l2 & E2 & Hm2 & Hc2 & Hw2).
    + by eapply log_is_eq.
    + done.
    + unfold in_disk. rewrite Ld. lia.
    + unfold in_disk. rewrite Ld. by apply O1.
    + intros Eq. apply (O2 b Hb). unfold in_log. lia.
    + done.
    + rewrite W3 by lia. rewrite wlast_None; [by apply Hv|].
      intros Hin%fst_zip_sub. apply (O2 _ Hin). unfold in_log. lia.
    + unfold wp. rewrite E2. exists pt2, bc2, l2. split; [done|]. split; [done|]. split; [done|].
      split; [rewrite (wr_log _ _ _ _ Hw2); done|].
      erewrite take_S_r; [by eapply wrotes_app, wrote_wrotes|].
      apply lookup_zip_with_Some. by exists b, v.
  - intros [] w (pt' & bc' & l' & -> & Hm' & Hc' & E & Hw). exists pt', bc', l'.
    by rewrite take_ge in Hw by lia.
Qed.

(** The loop of [write_head] over the buffer of the header. *)
Lemma head_loop pt bc st size bl j b0 old :
  log_is bc st size bl -> (length bl <= 30)%nat -> bc_buf bc !! j = Some b0 ->
  wp (for_log (fun i => v <- getblock i ;;
        updb j (fun b => set_b_data (splice (4 + 4 * i) (enc32 v) (b_data b)) b))%c)
    (fun _ w => w = W hw pt km (bset (set_b_data (put_blocks bl (length bl) old)) j bc) fs cn o)
    (W hw pt km (bset (set_b_data old) j bc) fs cn o).
Proof.
  intros Hl Hn Hj.
  apply (for_log_ok (length bl) (fun t w =>
    w = W hw pt km (bset (set_b_data (put_blocks bl t old)) j bc) fs cn o)).
  - intros t w ->. apply Hl.
  - done.
  - done.
  - intros t w Ht ->. destruct (lookup_lt_is_Some_2 bl t Ht) as [b Eb].
    unfold wp. kcall getblock_eq by exact (log_is_block _ _ _ _ _ _ Hl Eb). unfold updb. krun. cbn [put_blocks].
    rewrite Eb. cbn [default from_option id].
    change (set_bc_buf _ _) with (bset (fun b0 => set_b_data (splice (4 + 4 * t) (enc32 b) (b_data b0)) b0)
      j (bset (set_b_data (put_blocks bl t old)) j bc)).
    rewrite bset_bset. done.
Qed.

Lemma write_head_ok pt bc l st size bl hb D :
  calm hw pt i p pid -> cache pid bc l [] [] -> log_is bc st size bl -> (length bl <= 30)%nat ->
  in_disk (bc_disk bc) st -> contents bc st = Some hb ->
  (forall bn, dirty bc bn -> bn ∈ D) -> (length D < NBUF)%nat ->
  wp write_head (fun _ => lworld (fun bc' => bc_log bc' = bc_log bc /\
      wrotes [(st, put_head bl hb)] bc bc')) (W hw pt km bc fs cn o).
Proof.
  intros Hm Hc Hl Hn Hst Hhb HD HDn. pose proof Hl as [L1 L2 L3 L4 L5 L6].
  destruct (bread_ok km fs cn o hw i p pid pt bc l [] [] st Hm Hc Hst)
    as (j & bc1 & E1 & Hc1 & S1 & _ & B1 & C1 & _).
  { set_solver. }
  { right. by eapply room_count. }
  pose proof (ca_len _ _ _ _ _ Hc1) as Hlen. pose proof B1 as (Hlt & _ & _).
  assert (log_is bc1 st size bl) as Hl1
    by (eapply log_is_eq; [apply S1|by rewrite (bs_disk _ _ S1)|done]).
  assert (b_data (bufat (bc_buf bc1) j) = hb) as Ehb by congruence.
  assert (bc_buf bc1 !! j = Some (bufat (bc_buf bc1) j)) as Hj by (apply bufat_lookup; lia).
  destruct (set_bwrite pt bc1 l [j] st j (put_head bl hb) Hm Hc1 B1) as (bc2 & E2 & Hc2 & Hw & _);
    [set_solver|].
  destruct (brelse_ok km fs cn o hw i p pid pt bc2 l [j] [] j Hm Hc2)
    as (pt3 & bc3 & E3 & Hm3 & Hc3 & S3 & _); [set_solver|left; set_solver|].
  unfold wp, write_head. unfold getlog at 1 2. krun. rewrite L1, L2. change (u32 1) with 1.
  unfold in_disk, W32 in *. rewrite (u32_small st) by (unfold W32; lia).
  erewrite bind_ok by exact E1. unfold getlog at 1. krun.
  rewrite (bs_log _ _ S1), L3. unfold updb at 1. krun.
  assert (set_bc_buf (alter (fun b => set_b_data (splice 0 (enc32 (Z.of_nat (length bl))) (b_data b)) b)
    j (bc_buf bc1)) bc1 = bset (set_b_data (splice 0 (enc32 (Z.of_nat (length bl))) hb)) j bc1) as ->.
  { unfold bset. f_equal. apply list_alter_ext; [|done]. intros x Hx. simplify_eq. done. }
  pose proof (head_loop pt bc1 st size bl j _ (splice 0 (enc32 (Z.of_nat (length bl))) hb) Hl1 Hn Hj)
    as (a & w & Ea & ->)%wp_inv.
  erewrite bind_ok by exact Ea. erewrite bind_ok by exact E2. rewrite E3.
  exists pt3, bc3, (to_front j l). split; [done|]. split; [done|]. split.
  { by rewrite filter_cons_False, filter_nil in Hc3 by naive_solver. }
  split; [by rewrite (bs_log _ _ S3), (wr_log _ _ _ _ Hw), (bs_log _ _ S1)|].
  apply wrote_wrotes. by eapply wrote_same.
Qed.

Lemma cache_log bc l H X f : cache pid bc l H X -> cache pid (set_bc_log f bc) l H X.
Proof. by intros [? ? ? ? ? ? ?]. Qed.

Lemma blocks_ok_length st size d d' bl :
  length d' = length d -> blocks_ok st size d bl -> blocks_ok st size d' bl.
Proof. intros E [H1 H2 H3 H4]. split; try done. unfold in_disk in *. by rewrite E. Qed.

Lemma wrotes_length ws bc bc' : wrotes ws bc bc' -> length (bc_disk bc') = length (bc_disk bc).
Proof. intros [-> _ _ _]. apply length_apply. Qed.

(** A block that is not dirty, seen through an idle cache. *)
Lemma contents_idle bc l bn :
  cache pid bc l [] [] -> ~ dirty bc bn -> in_disk (bc_disk bc) bn ->
  contents bc bn = Some (dget (bc_disk bc) bn).
Proof.
  intros Hc Hd [H1 H2]. erewrite contents_clean; [|done|done|set_solver].
  unfold dget. destruct (lookup_lt_is_Some_2 (bc_disk bc) (Z.to_nat bn)) as [v ->]; [lia|done].
Qed.

(** The transaction in memory, ready to be committed. *)
Record txn (bc : bcstate) (st size : Z) (bl : list Z) (vs : list (list Z)) : Prop := {
  tx_log : log_is bc st size bl;
  tx_fits : log_fits st size (bc_disk bc);
  tx_blocks : blocks_ok st size (bc_disk bc) bl;
  tx_nodup : NoDup bl;
  tx_dirty : forall b, dirty bc b <-> b ∈ bl;
  tx_len : length vs = length bl;
  tx_data : forall t b v, bl !! t = Some b -> vs !! t = Some v -> contents bc b = Some v;
}.

Lemma txn_not_log bc st size bl vs b : txn bc st size bl vs -> b ∈ bl -> ~ in_log st size b.
Proof. intros [_ _ [_ H _ _] _ _ _ _] Hb. rewrite Forall_forall in H. by apply H. Qed.

Lemma txn_small bc st size bl vs : txn bc st size bl vs -> (length bl < NBUF)%nat.
Proof.
  intros [_ [_ _ H _] [_ _ _ H'] _ _ _ _]. unfold LOGSIZE, MAXOPBLOCKS, NBUF in *. lia.
Qed.

(** Up to the header: the transaction is on disk, in the log. *)
Lemma commit_log pt bc l st size bl vs :
  calm hw pt i p pid -> cache pid bc l [] [] -> txn bc st size bl vs ->
  let hb := dget (bc_disk bc) st in
  wp (write_log ;; write_head)%c (fun _ => lworld (fun bc' => bc_log bc' = bc_log bc /\
    wrotes (log_writes st vs ++ [(st, put_head bl hb)]) bc bc')) (W hw pt km bc fs cn o).
Proof.
  intros Hm Hc Ht hb. pose proof (txn_small _ _ _ _ _ Ht) as Hsm.
  pose proof Ht as [Hl Hf Hb Hnd Hd Hlen Hv]. pose proof Hf as [F1 F2 F3 _].
  assert (in_log st size st) as Hst by (unfold in_log; lia).
  apply wp_bind. eapply wp_mono; [by eapply write_log_ok|].
  intros [] w (pt1 & bc1 & l1 & -> & Hm1 & Hc1 & E1 & W1).
  assert (st ∉ (log_writes st vs).*1) as Hns.
  { rewrite <- (take_ge (log_writes st vs) _ (Nat.le_refl _)). intros Hin%elem_log_writes. lia. }
  eapply wp_mono; [eapply (write_head_ok pt1 bc1 l1 st size bl hb bl Hm1 Hc1)|].
  - eapply log_is_eq; [done|by eapply wrotes_length|done].
  - unfold NBUF in Hsm. lia.
  - unfold in_disk. rewrite (wrotes_length _ _ _ W1). lia.
  - rewrite (ws_contents _ _ _ W1) by done. rewrite wlast_None by done.
    eapply contents_idle; [done| |unfold in_disk; lia].
    intros Hds%Hd. by apply (txn_not_log _ _ _ _ _ _ Ht Hds).
  - intros bn [Hbn _]%(ws_dirty _ _ _ W1). by apply Hd.
  - done.
  - intros [] w (pt2 & bc2 & l2 & -> & Hm2 & Hc2 & E2 & W2). exists pt2, bc2, l2.
    split; [done|]. split; [done|]. split; [done|]. split; [congruence|]. by eapply wrotes_app.
Qed.

(** The home blocks, and the header again. *)
Lemma commit_install pt bc bc1 l st size bl vs :
  let hb := dget (bc_disk bc) st in
  calm hw pt i p pid -> cache pid bc1 l [] [] -> txn bc st size bl vs ->
  bc_log bc1 = bc_log bc -> wrotes (log_writes st vs ++ [(st, put_head bl hb)]) bc bc1 ->
  wp (install_trans ;; updlog (set_lg_n 0) ;; write_head)%c (fun _ => lworld (fun bc' =>
    bc_log bc' = set_lg_n 0 (bc_log bc) /\
    wrotes (zip bl vs ++ [(st, put_head [] (put_head bl hb))]) bc1 bc')) (W hw pt km bc1 fs cn o).
Proof.
  intros hb Hm Hc Ht El W1. pose proof (txn_small _ _ _ _ _ Ht) as Hsm.
  pose proof Ht as [Hl Hf Hb Hnd Hd Hlen Hv]. pose proof Hf as [F1 F2 F3 F4].
  pose proof (wrotes_length _ _ _ W1) as Ld.
  assert (in_log st size st) as Hst by (unfold in_log; lia).
  assert (contents bc1 st = Some (put_head bl hb)) as Chb.
  { rewrite (ws_contents _ _ _ W1), wlast_app by done. cbn. by rewrite Z.eqb_refl. }
  assert (forall b, dirty bc1 b <-> b ∈ bl) as Hd1.
  { intros b. rewrite (ws_dirty _ _ _ W1), Hd. split; [tauto|]. intros Hin. split; [done|].
    pose proof (txn_not_log _ _ _ _ _ _ Ht Hin) as Hnl. rewrite fmap_app, not_elem_of_app. split.
    - rewrite <- (take_ge (log_writes st vs) _ (Nat.le_refl _)). intros Hx%elem_log_writes.
      apply Hnl. unfold in_log. destruct Hb. lia.
    - cbn. rewrite list_elem_of_singleton. by intros ->. }
  assert (~ dirty bc1 st) as Nst.
  { intros Hds%Hd1. by apply (txn_not_log _ _ _ _ _ _ Ht Hds). }
  assert (dget (bc_disk bc1) st = put_head bl hb) as Dhb.
  { rewrite (contents_idle bc1 l st) in Chb; [by simplify_eq|done|done|unfold in_disk; lia]. }
  assert (4 + 4 * length bl <= length hb)%nat as Hfit by (unfold NBUF, hb in *; lia).
  apply wp_bind. eapply wp_mono; [apply (install_ok pt bc1 l st size bl vs Hm Hc)|].
  - by eapply log_is_eq.
  - split; rewrite ?Ld, ?Dhb, ?length_put_head; done.
  - by eapply blocks_ok_length.
  - by left.
  - done.
  - intros t v Htv. rewrite (ws_contents _ _ _ W1), wlast_app by lia. cbn.
    destruct (Z.eqb_spec st (st + 1 + Z.of_nat t)); [lia|]. by rewrite (wlast_log_writes st vs t v).
  - intros [] w (pt2 & bc2 & l2 & -> & Hm2 & Hc2 & E2 & W2).
    unfold wp, updlog. krun. set (bc3 := set_bc_log _ bc2).
    assert (contents bc3 st = Some (put_head bl hb)) as C3.
    { change (contents bc3 st) with (contents bc2 st). rewrite (ws_contents _ _ _ W2) by done.
      rewrite wlast_None; [done|]. rewrite <- (take_ge (zip bl vs) _ (Nat.le_refl _)).
      intros Hin%fst_zip_sub. by apply (txn_not_log _ _ _ _ _ _ Ht Hin). }
    pose proof (write_head_ok pt2 bc3 l2 st size [] (put_head bl hb) [] Hm2 (cache_log _ _ _ _ _ Hc2)) as Hwh.
    eapply wp_mono; [apply Hwh|].
    + destruct Hl as [L1 L2 L3 L4 L5 L6]. split; cbn; rewrite ?E2, ?El; try done.
      rewrite (wrotes_length _ _ _ W2), Ld. done.
    + cbn. lia.
    + unfold in_disk. cbn. rewrite (wrotes_length _ _ _ W2). lia.
    + done.
    + intros bn Hbn. change (dirty bc2 bn) in Hbn. apply (ws_dirty _ _ _ W2) in Hbn as [Hbn Hx].
      exfalso. apply Hx. rewrite fst_zip by lia. by apply Hd1.
    + cbn. unfold NBUF. lia.
    + intros [] w (pt4 & bc4 & l4 & -> & Hm4 & Hc4 & E4 & W4). exists pt4, bc4, l4.
      split; [done|]. split; [done|]. split; [done|]. split; [rewrite E4; cbn; by rewrite E2, El|].
      eapply wrotes_app; [exact W2|]. destruct W4 as [A1 A2 A3 A4]. by split.
Qed.

Lemma commit_ok pt bc l st size bl vs :
  calm hw pt i p pid -> cache pid bc l [] [] -> txn bc st size bl vs -> bl <> [] ->
  wp commit (fun _ => lworld (fun bc' => bc_log bc' = set_lg_n 0 (bc_log bc) /\
    wrotes (commit_writes st bl vs (dget (bc_disk bc) st)) bc bc')) (W hw pt km bc fs cn o).
Proof.
  intros Hm Hc Ht Hne. unfold commit, wp, getlog. krun.
  rewrite (li_n _ _ _ _ (tx_log _ _ _ _ _ Ht)).
  destruct (Z.ltb_spec 0 (Z.of_nat (length bl))); [|destruct bl; [done|cbn in *; lia]].
  rewrite <- bind_assoc. apply wp_bind. eapply wp_mono; [by eapply commit_log|].
  intros [] w (pt1 & bc1 & l1 & -> & Hm1 & Hc1 & E1 & W1).
  eapply wp_mono; [by eapply (commit_install pt1 bc bc1 l1)|].
  intros [] w (pt2 & bc2 & l2 & -> & Hm2 & Hc2 & E2 & W2).
  exists pt2, bc2, l2. split; [done|]. split; [done|]. split; [done|]. split; [done|].
  unfold commit_writes. rewrite app_assoc. by eapply wrotes_app.
Qed.

(** The loop of [read_head] over the buffer [j] of the header [hb]. *)
Lemma read_loop pt bc j hb lg :
  bc_buf bc !! j = Some (bufat (bc_buf bc) j) -> b_data (bufat (bc_buf bc) j) = hb ->
  0 <= head_n hb <= LOGSIZE -> length (lg_block lg) = Z.to_nat LOGSIZE ->
  let lg' b := set_lg_block b (set_lg_n (head_n hb) lg) in
  wp (for_log (fun i => b <- getb j ;; setblock i (s32 (le32 (4 + 4 * i) (b_data b))))%c)
    (fun _ w => exists b, w = W hw pt km (set_bc_log (lg' b) bc) fs cn o /\
      length b = Z.to_nat LOGSIZE /\ take (Z.to_nat (head_n hb)) b = head_blocks hb)
    (W hw pt km (set_bc_log (lg' (lg_block lg)) bc) fs cn o).
Proof.
  intros Hj Hd Hn Hlen lg'. unfold LOGSIZE, MAXOPBLOCKS in *.
  eapply wp_mono; [apply (for_log_ok (Z.to_nat (head_n hb)) (fun t w => exists b,
    w = W hw pt km (set_bc_log (lg' b) bc) fs cn o /\ length b = Z.to_nat (10 * 3) /\
    take t b = head_block hb <$> seq 0 t))|].
  - intros t w (b & -> & _). cbn. lia.
  - lia.
  - exists (lg_block lg). done.
  - intros t w Ht (b & -> & Hb & Hp). destruct (lookup_lt_is_Some_2 b t) as [x Hx]; [lia|].
    unfold wp. kcall getb_ok by exact Hj. rewrite Hd. unfold setblock, getlog. krun.
    erewrite bind_at by exact Hx. unfold updlog. krun.
    exists (<[t := head_block hb t]> b). split; [done|]. split; [by rewrite length_insert|].
    erewrite take_S_r by (apply list_lookup_insert_eq; lia).
    rewrite take_insert_ge by lia. rewrite Hp, seq_S, fmap_app. done.
  - intros [] w (b & -> & Hb & Hp). by exists b.
Qed.

Lemma read_head_ok pt bc l st size :
  let hb := dget (bc_disk bc) st in
  calm hw pt i p pid -> cache pid bc l [] [] ->
  lg_dev (bc_log bc) = 1 -> lg_start (bc_log bc) = st ->
  length (lg_block (bc_log bc)) = Z.to_nat LOGSIZE -> Z.of_nat (length (bc_disk bc)) <= W32 ->
  in_disk (bc_disk bc) st -> (forall b, ~ dirty bc b) -> 0 <= head_n hb <= LOGSIZE ->
  wp read_head (fun _ => lworld (fun bc' => log_is bc' st size (head_blocks hb) /\
    (forall b, ~ dirty bc' b) /\ wrotes [] bc bc' /\ 
    lg_size (bc_log bc') = lg_size (bc_log bc))) (W hw pt km bc fs cn o).
Proof.
  intros hb Hm Hc L1 L2 L3 L4 Hst Hnd Hn.
  destruct (bread_ok km fs cn o hw i p pid pt bc l [] [] st Hm Hc Hst)
    as (j & bc1 & E1 & Hc1 & S1 & _ & B1 & C1 & _).
  { set_solver. }
  { right. eapply (room_count _ _ _ _ _ []); [done| |cbn; unfold NBUF; lia]. intros bn Hbn. by apply Hnd in Hbn. }
  pose proof (ca_len _ _ _ _ _ Hc1) as Hlen. pose proof B1 as (Hlt & _ & _).
  assert (b_data (bufat (bc_buf bc1) j) = hb) as Ehb.
  { rewrite (contents_idle bc l st Hc (Hnd st) Hst) in C1. unfold hb. congruence. }
  assert (bc_buf bc1 !! j = Some (bufat (bc_buf bc1) j)) as Hj by (apply bufat_lookup; lia).
  pose proof (read_loop pt bc1 j hb (bc_log bc1) Hj Ehb Hn) as Hloop. cbn zeta in Hloop.
  rewrite (bs_log _ _ S1) in Hloop. specialize (Hloop L3).
  destruct (wp_inv _ _ _ Hloop) as ([] & w & Er & b & -> & Hb & Hp).
  set (lg := set_lg_block b (set_lg_n (head_n hb) (bc_log bc))) in *.
  destruct (brelse_ok km fs cn o hw i p pid pt (set_bc_log lg bc1) l [j] [] j Hm (cache_log _ _ _ _ _ Hc1))
    as (pt3 & bc3 & E3 & Hm3 & Hc3 & S3 & _); [set_solver|left; set_solver|].
  unfold wp, read_head. unfold getlog at 1 2. krun. rewrite L1, L2. change (u32 1) with 1.
  unfold in_disk, W32 in *. rewrite (u32_small st) by (unfold W32; lia).
  erewrite bind_ok by exact E1. kcall getb_ok by exact Hj. rewrite Ehb. unfold updlog at 1. krun.
  rewrite (bs_log _ _ S1).
  replace (set_lg_n (s32 (le32 0 hb)) (bc_log bc)) with
    (set_lg_block (lg_block (bc_log bc)) (set_lg_n (head_n hb) (bc_log bc)))
    by (by destruct (bc_log bc)).
  erewrite bind_ok by exact Er. rewrite E3. exists pt3, bc3, (to_front j l).
  split; [done|]. split; [done|]. split; [by rewrite filter_cons_False, filter_nil in Hc3 by naive_solver|].
  pose proof (bs_log _ _ S3) as El. cbn in El. pose proof (bs_disk _ _ S3) as Ed. cbn in Ed.
  pose proof (bs_disk _ _ S1) as Ed1.
  assert (length (head_blocks hb) = Z.to_nat (head_n hb)) as Ln
    by (unfold head_blocks; by rewrite length_fmap, length_seq).
  split; [|split; [|split]].
  - split; rewrite ?El; unfold lg; cbn; try done.
    + lia.
    + by rewrite Ln.
    + by rewrite Ed, Ed1.
  - intros x Hx. apply (bs_dirty _ _ S3) in Hx. change (dirty bc1 x) in Hx.
    by apply (bs_dirty _ _ S1), Hnd in Hx.
  - split.
    + by rewrite Ed, Ed1.
    + rewrite (bs_hist _ _ S3). cbn. apply (bs_hist _ _ S1).
    + intros bn _. rewrite (bs_contents _ _ S3). apply (bs_contents _ _ S1).
    + intros bn. rewrite (bs_dirty _ _ S3). change (dirty (set_bc_log lg bc1) bn) with (dirty bc1 bn).
      rewrite (bs_dirty _ _ S1). set_solver.
  - by rewrite El.
Qed.

(** Recovery performs the writes of [recover_writes]. *)
Lemma recover_ok pt bc l st size :
  let hb := dget (bc_disk bc) st in
  calm hw pt i p pid -> cache pid bc l [] [] ->
  lg_dev (bc_log bc) = 1 -> lg_start (bc_log bc) = st ->
  length (lg_block (bc_log bc)) = Z.to_nat LOGSIZE -> Z.of_nat (length (bc_disk bc)) <= W32 ->
  log_fits st size (bc_disk bc) -> blocks_ok st size (bc_disk bc) (head_blocks hb) ->
  (forall b, ~ dirty bc b) -> 0 <= head_n hb ->
  wp recover_from_log (fun _ => lworld (fun bc' => lg_n (bc_log bc') = 0 /\
    wrotes (recover_writes st (bc_disk bc)) bc bc')) (W hw pt km bc fs cn o).
Proof.
  intros hb Hm Hc L1 L2 L3 L4 Hf Hb Hnd Hn. pose proof Hf as [F1 F2 F3 F4].
  pose proof Hb as [O1 O2 O3 O4].
  assert (length (head_blocks hb) = Z.to_nat (head_n hb)) as Ln
    by (unfold head_blocks; by rewrite length_fmap, length_seq).
  assert (in_disk (bc_disk bc) st) as Hst by (unfold in_disk; lia).
  set (bl := head_blocks hb) in *. set (vs := logged st (bc_disk bc) (length bl)).
  assert (length vs = length bl) as Hlen by (unfold vs, logged; by rewrite length_fmap, length_seq).
  unfold recover_from_log. apply wp_bind.
  eapply wp_mono; [apply (read_head_ok pt bc l st size Hm Hc L1 L2 L3 L4 Hst Hnd); fold hb; unfold LOGSIZE, MAXOPBLOCKS in *; lia|].
  intros [] w (pt1 & bc1 & l1 & -> & Hm1 & Hc1 & Hl1 & Hnd1 & W1 & _). fold hb in Hl1. fold bl in Hl1.
  pose proof (ws_disk _ _ _ W1) as D1. cbn in D1.
  apply wp_bind. eapply wp_mono; [apply (install_ok pt1 bc1 l1 st size bl vs Hm1 Hc1 Hl1)|].
  - by rewrite D1.
  - by rewrite D1.
  - by right.
  - done.
  - intros t v Ht. pose proof (lookup_lt_Some _ _ _ Ht) as Htl. unfold vs, logged in Ht.
    rewrite list_lookup_fmap, lookup_seq_lt in Ht by lia. cbn in Ht. simplify_eq.
    rewrite (contents_idle bc1 l1); [by rewrite D1|done|apply Hnd1|rewrite D1; unfold in_disk; lia].
  - intros [] w (pt2 & bc2 & l2 & -> & Hm2 & Hc2 & E2 & W2).
    unfold wp, updlog. krun. set (bc3 := set_bc_log _ bc2).
    pose proof (write_head_ok pt2 bc3 l2 st size [] hb [] Hm2 (cache_log _ _ _ _ _ Hc2)) as Hwh.
    eapply wp_mono; [apply Hwh|].
    + destruct Hl1 as [M1 M2 M3 M4 M5 M6]. split; cbn; rewrite ?E2; try done.
      rewrite (wrotes_length _ _ _ W2). done.
    + cbn. lia.
    + unfold in_disk. cbn. rewrite (wrotes_length _ _ _ W2), D1. lia.
    + change (contents bc3 st) with (contents bc2 st). rewrite (ws_contents _ _ _ W2) by done.
      rewrite wlast_None; [rewrite (contents_idle bc1 l1); [by rewrite D1|done|apply Hnd1|by rewrite D1]|].
      rewrite <- (take_ge (zip bl vs) _ (Nat.le_refl _)). intros Hin%fst_zip_sub.
      rewrite Forall_forall in O2. apply (O2 _ Hin). unfold in_log. lia.
    + intros bn Hbn. change (dirty bc2 bn) in Hbn. apply (ws_dirty _ _ _ W2) in Hbn as [Hbn _].
      by apply Hnd1 in Hbn.
    + cbn. unfold NBUF. lia.
    + intros [] w (pt4 & bc4 & l4 & -> & Hm4 & Hc4 & E4 & W4). exists pt4, bc4, l4.
      split; [done|]. split; [done|]. split; [done|]. split; [rewrite E4; done|].
      unfold recover_writes, install_writes. fold hb. fold bl. fold vs.
      apply (wrotes_app [] _ _ _ _ W1). eapply wrotes_app; [exact W2|].
      destruct W4 as [A1 A2 A3 A4]. by split.
Qed.

(** The search of [log_write] for the block. *)
Lemma find_logged pt hw' bc st size bl bn :
  log_is bc st size bl ->
  for_ (length bl) 0 (fun i => v <- getblock i ;; ret (if u32 v =? bn then Some i else None))%c
    (W hw' pt km bc fs cn o) =
  Ok (find_idx (fun v => u32 v =? bn) bl) (W hw' pt km bc fs cn o).
Proof.
  intros Hl. apply for_find; [done|]. intros j x Hx.
  kcall getblock_eq by (by eapply log_is_block). done.
Qed.

(** Marking a held buffer dirty. *)
Lemma mark_dirty bc l H X bn j :
  cache pid bc l H X -> holds_block (bc_buf bc) bn j -> j ∈ H ->
  let bc' := bset (fun b => set_b_flags (Z.lor (b_flags b) B_DIRTY) b) j bc in
  cache pid bc' l H (filter (fun k => k <> j) X) /\
  (forall b, dirty bc' b <-> dirty bc b \/ b = bn) /\
  (forall b, contents bc' b = contents bc b).
Proof.
  intros Hc Hb Hj bc'. pose proof Hb as (Hlt & Hd & Hbn). pose proof (ca_len _ _ _ _ _ Hc) as Hn.
  assert (forall k, bufat (bc_buf bc') k = if decide (k = j)
    then set_b_flags (Z.lor (b_flags (bufat (bc_buf bc) j)) B_DIRTY) (bufat (bc_buf bc) j)
    else bufat (bc_buf bc) k) as Ek by (intros k; unfold bc'; rewrite bset_at by lia; done).
  assert (forall bn k, holds_block (bc_buf bc') bn k <-> holds_block (bc_buf bc) bn k) as Eh.
  { intros bn' k. unfold holds_block. rewrite Ek. by destruct (decide _) as [->|]. }
  destruct (ca_bufs _ _ _ _ _ Hc j Hlt) as [H1 H2 [[? _]|[_ Hfl]] H4 H5]; [done|].
  assert (Z.lor (b_flags (bufat (bc_buf bc) j)) B_DIRTY = Z.lor B_VALID B_DIRTY) as Ef
    by (by destruct Hfl as [-> | ->]).
  assert (cache pid bc' l H (filter (fun k => k <> j) X)) as Hc'.
  { apply (cache_bset pid bc l H X); [done|done|done|done| | | |apply Hc|].
    - split; cbn; [done|done|right; split; [done|by right]|done|]. rewrite Ef. done.
    - intros k Hk. rewrite !list_elem_of_filter. tauto.
    - intros k Hk Hne. cbn. intros D1 D2 E. apply Hne. by apply (ca_uniq _ _ _ _ _ Hc).
    - intros k. rewrite list_elem_of_filter. pose proof (ca_changed _ _ _ _ _ Hc). set_solver. }
  split; [done|]. split; intros b.
  - unfold dirty. split.
    + intros (k & Hk & Hf). rewrite Ek in Hf. apply Eh in Hk. destruct (decide (k = j)) as [->|].
      * right. destruct Hk as (_ & _ & <-). done.
      * left. by exists k.
    + intros [(k & Hk & Hf)| ->].
      * exists k. split; [by apply Eh|]. rewrite Ek. destruct (decide (k = j)) as [->|]; [|done]. exact Ef.
      * exists j. split; [by apply Eh|]. rewrite Ek, decide_True by done. exact Ef.
  - destruct (cached_dec bc b) as [[k Hk]|Hno].
    + rewrite (contents_cached _ _ _ _ _ _ _ Hc Hk).
      rewrite (contents_cached _ _ _ _ _ _ _ Hc' (proj2 (Eh _ _) Hk)), Ek.
      by destruct (decide (k = j)) as [->|].
    + rewrite !contents_uncached; [done|done|]. intros k. rewrite Eh. apply Hno.
Qed.

(** The list of logged blocks after [log_write]. *)
Definition absorb (bn : Z) (bl : list Z) : list Z := if decide (bn ∈ bl) then bl else bl ++ [bn].

(** The log after the block was recorded in entry [k]. *)
Definition log_add (k : nat) (bn : Z) (lg : log_t) : log_t :=
  let lg1 := set_lg_block (<[k := s32 bn]> (lg_block lg)) lg in
  if Z.of_nat k =? lg_n lg then set_lg_n (lg_n lg + 1) lg1 else lg1.

Lemma log_is_absorb bc st size bl bn :
  log_is bc st size bl -> Z.of_nat (length bl) < LOGSIZE -> int_ok bn ->
  Forall (fun b => 0 <= b < W32) bl -> 0 <= bn ->
  let k := default (length bl) (find_idx (fun v => u32 v =? bn) bl) in
  (k < Z.to_nat LOGSIZE)%nat /\
  log_is (set_bc_log (log_add k bn (bc_log bc)) bc) st size (absorb bn bl).
Proof.
  intros [L1 L2 L3 L4 L5 L6] Hn Hi Hb Hp. unfold absorb, log_add. rewrite Forall_forall in Hb.
  assert (s32 bn = bn) as Es by (by apply s32_small).
  unfold LOGSIZE, MAXOPBLOCKS in *. rewrite L3, Es.
  destruct (find_idx _ _) as [k|] eqn:E.
  - apply find_from_Some in E as (_ & (x & Hx & HP) & _). rewrite Nat.sub_0_r in Hx.
    assert (x ∈ bl) as Hin by (by eapply list_elem_of_lookup_2). specialize (Hb x Hin).
    apply Z.eqb_eq in HP. rewrite u32_small in HP by lia. subst x.
    pose proof (lookup_lt_Some _ _ _ Hx) as Hk. rewrite decide_True by done. cbn [default from_option id].
    destruct (Z.eqb_spec (Z.of_nat k) (Z.of_nat (length bl))); [lia|].
    rewrite list_insert_id; [split; [lia|by split]|].
    rewrite <- L4 in Hx. by apply lookup_take_Some in Hx as [Hx _].
  - assert (bn ∉ bl) as Hnin.
    { intros Hin. pose proof (proj1 (find_from_None _ _ _) E bn Hin) as HP. cbn beta in HP.
      rewrite u32_small, Z.eqb_refl in HP by (by apply Hb). done. }
    rewrite decide_False by done. cbn [default from_option id]. rewrite Z.eqb_refl.
    split; [lia|]. split; cbn; [done|done| | |by rewrite length_insert|done].
    + rewrite length_app. cbn. lia.
    + rewrite length_app. cbn. rewrite Nat.add_1_r.
      erewrite take_S_r by (apply list_lookup_insert_eq; lia).
      rewrite take_insert_ge by lia. by rewrite L4.
Qed.

Lemma NoDup_absorb bn bl : NoDup bl -> NoDup (absorb bn bl).
Proof.
  intros H. unfold absorb. destruct (decide _); [done|]. apply NoDup_app. split; [done|].
  split; [set_solver|apply NoDup_singleton].
Qed.

Lemma elem_absorb b bn bl : b ∈ absorb bn bl <-> b ∈ bl \/ b = bn.
Proof. unfold absorb. destruct (decide _); set_solver. Qed.

Lemma log_write_eq pt bc st size bl bn j c :
  here hw i c -> touch i hw = hw -> lock_free hw LLog ->
  (j < length (bc_buf bc))%nat -> b_blockno (bufat (bc_buf bc) j) = bn ->
  log_is bc st size bl -> lg_size (bc_log bc) = size -> 1 <= lg_outstanding (bc_log bc) ->
  Z.of_nat (length bl) < LOGSIZE -> Z.of_nat (length bl) < size - 1 ->
  let k := default (length bl) (find_idx (fun v => u32 v =? bn) bl) in
  (k < Z.to_nat LOGSIZE)%nat ->
  log_write j (W hw pt km bc fs cn o) =
  Ok tt (W hw pt km (bset (fun b => set_b_flags (Z.lor (b_flags b) B_DIRTY) b) j
    (set_bc_log (log_add k bn (bc_log bc)) bc)) fs cn o).
Proof.
  intros Hh Ht Hlk Hj Hbn Hl Hs Ho Hn1 Hn2 k Hk.
  pose proof (li_n _ _ _ _ Hl) as L3. pose proof (li_len _ _ _ _ Hl) as L5.
  destruct (lookup_lt_is_Some_2 (lg_block (bc_log bc)) k) as [y Hy]; [by rewrite L5|].
  unfold log_write, getlog. krun. change (id (bc_log bc)) with (bc_log bc). rewrite L3, Hs.
  destruct (Z.leb_spec LOGSIZE (Z.of_nat (length bl))); [lia|].
  destruct (Z.leb_spec (size - 1) (Z.of_nat (length bl))); [lia|]. cbn [orb].
  destruct (Z.ltb_spec (lg_outstanding (bc_log bc)) 1); [lia|].
  kcall acquire_ok by (done || apply Hlk). kcall getb_at by lia. krun. rewrite L3, Nat2Z.id, Hbn.
  kcall find_logged by done. fold k. unfold setblock, getlog. krun.
  erewrite bind_at by exact Hy. unfold log_add. rewrite L3. unfold updlog.
  destruct (Z.of_nat k =? Z.of_nat (length bl)); unfold updb; krun;
    (erewrite release_acquired by done); rewrite Ht, ?L3; done.
Qed.
(** [log_write] on a held buffer. *)
Lemma log_write_ok pt bc l H X st size bl bn j c :
  calm hw pt i p pid -> here hw i c -> lock_free hw LLog ->
  cache pid bc l H X -> j ∈ H -> holds_block (bc_buf bc) bn j ->
  log_is bc st size bl -> lg_size (bc_log bc) = size -> 1 <= lg_outstanding (bc_log bc) ->
  Z.of_nat (length bl) < LOGSIZE -> Z.of_nat (length bl) < size - 1 ->
  Forall (fun b => 0 <= b < W32) bl -> int_ok bn -> 0 <= bn ->
  NoDup bl -> (forall b, dirty bc b <-> b ∈ bl) ->
  exists bc',
    log_write j (W hw pt km bc fs cn o) = Ok tt (W hw pt km bc' fs cn o) /\
    log_is bc' st size (absorb bn bl) /\ NoDup (absorb bn bl) /\
    (forall b, dirty bc' b <-> b ∈ absorb bn bl) /\
    (forall b, contents bc' b = contents bc b) /\ bc_disk bc' = bc_disk bc /\
    cache pid bc' l H (filter (fun k => k <> j) X) /\
    lg_size (bc_log bc') = size /\ lg_outstanding (bc_log bc') = lg_outstanding (bc_log bc) /\
    (forall b k, holds_block (bc_buf bc') b k <-> holds_block (bc_buf bc) b k) /\
    bc_hist bc' = bc_hist bc /\ lg_committing (bc_log bc') = lg_committing (bc_log bc).
Proof.
  intros Hm Hh Hlk Hc Hj Hb Hl Hs Ho Hn1 Hn2 Hbl Hi Hp Hnd Hd.
  pose proof (ca_len _ _ _ _ _ Hc) as Hlen. pose proof Hb as (Hlt & Hdev & Hbn).
  destruct (log_is_absorb bc st size bl bn Hl Hn1 Hi Hbl Hp) as [Hk Hl'].
  cbn zeta in Hk, Hl'. set (k := default _ _) in *.
  destruct (mark_dirty (set_bc_log (log_add k bn (bc_log bc)) bc) l H X bn j
    (cache_log _ _ _ _ _ Hc) Hb Hj) as (Hc' & Hd' & Hct).
  exists (bset (fun b => set_b_flags (Z.lor (b_flags b) B_DIRTY) b) j
    (set_bc_log (log_add k bn (bc_log bc)) bc)).
  split; [eapply log_write_eq; try done; [apply Hm|lia]|].
  split; [eapply log_is_eq; [| |exact Hl']; done|]. split; [by apply NoDup_absorb|]. split.
  { intros b. rewrite Hd', elem_absorb, <- Hd. done. }
  split; [done|]. split; [done|]. split; [exact Hc'|].
  split; [cbn; unfold log_add; by destruct (_ =? _)|]. split; [cbn; unfold log_add; by destruct (_ =? _)|].
  split; [|split; [done|cbn; unfold log_add; by destruct (_ =? _)]].
  intros b k'. unfold holds_block. rewrite bset_at by (cbn; lia). by destruct (decide _) as [->|].
Qed.
End Machine.

(** ** Properties *)

Section Properties.
Context (km : kmstate) (fs : fsstate) (cn : cnstate) (o : list (kstate -> kstate)).
Context (hw : hwstate) (i p : nat) (pid : Z).
Implicit Types (pt : ptstate) (bc : bcstate).
#[local] Existing Instance Memide.driver.

(** [commit] of a transaction, with every disk on the way. *)
Lemma commit_all pt bc l st size bl vs :
  calm hw pt i p pid -> cache pid bc l [] [] -> txn bc st size bl vs -> bl <> [] ->
  head_n (dget (bc_disk bc) st) = 0 ->
  exists pt' bc' l',
    commit (W hw pt km bc fs cn o) = Ok tt (W hw pt' km bc' fs cn o) /\
    calm hw pt' i p pid /\ cache pid bc' l' [] [] /\ bc_log bc' = set_lg_n 0 (bc_log bc) /\
    length (bc_disk bc') = length (bc_disk bc) /\ log_fits st size (bc_disk bc') /\
    (forall b, ~ dirty bc' b) /\
    (forall bn, 0 <= bn -> ~ in_log st size bn -> contents bc' bn = contents bc bn) /\
    home_eq st size (bc_disk bc') (committed (bc_disk bc) bl vs) /\
    head_n (dget (bc_disk bc') st) = 0 /\
    exists crash, bc_hist bc' = crash ++ bc_hist bc /\
      forall d, d ∈ bc_disk bc' :: crash ->
        home_eq st size (recovered st d) (bc_disk bc) \/
        home_eq st size (recovered st d) (committed (bc_disk bc) bl vs).
Proof.
  intros Hm Hc Ht Hne Hh.
  pose proof (commit_ok km fs cn o hw i p pid pt bc l st size bl vs Hm Hc Ht Hne) as Hw.
  destruct (wp_inv _ _ _ Hw) as ([] & w & E & pt' & bc' & l' & -> & Hm' & Hc' & El & [A1 A2 A3 A4]).
  pose proof Ht as [_ Hf Hb _ Hd Hlen Hv].
  destruct (dfinal_recovered st size (bc_disk bc) bl vs Hf Hb Hlen) as (D1 & D2 & D3 & D4).
  exists pt', bc', l'. split; [done|]. split; [done|]. split; [done|]. split; [done|].
  split; [by rewrite A1, length_apply|]. split; [by rewrite A1|].
  split; [|split; [|split; [by rewrite A1|split; [by rewrite A1|]]]].
  - intros b [Hb1 Hb2]%A4. apply Hb2. unfold commit_writes. rewrite !fmap_app, fst_zip by lia.
    apply Hd in Hb1. set_solver.
  - intros bn Hp Hn. rewrite A3 by done. destruct (wlast _ bn) as [v|] eqn:Ew; [|done].
    unfold commit_writes in Ew. apply (wlast_commit st size (bc_disk bc) bl vs) in Ew; [|done..].
    destruct Ew as (t & b & -> & Hb1 & Hb2). symmetry. by eapply Hv.
  - eexists. split; [rewrite A2; apply hist_writes_split|]. intros d [->|Hin]%elem_of_cons.
    + right. by rewrite A1.
    + apply hist_writes_elem in Hin as (k & _ & ->). by apply commit_crash.
Qed.

(** C1: commit is atomic.  For a transaction in memory, [commit] returns with
    its blocks on disk and none dirty, and shows every block outside the log as
    before.  Every disk the machine could have crashed with on the way, when
    recovered, has all home blocks as before the transaction or all as after
    it. *)
Theorem commit_atomic pt bc l st size bl vs :
  calm hw pt i p pid -> cache pid bc l [] [] -> txn bc st size bl vs -> bl <> [] ->
  head_n (dget (bc_disk bc) st) = 0 ->
  exists pt' bc' l',
    commit (W hw pt km bc fs cn o) = Ok tt (W hw pt' km bc' fs cn o) /\
    calm hw pt' i p pid /\ cache pid bc' l' [] [] /\ lg_n (bc_log bc') = 0 /\
    (forall b, ~ dirty bc' b) /\
    (forall bn, 0 <= bn -> ~ in_log st size bn -> contents bc' bn = contents bc bn) /\
    home_eq st size (bc_disk bc') (committed (bc_disk bc) bl vs) /\
    head_n (dget (bc_disk bc') st) = 0 /\
    exists crash, bc_hist bc' = crash ++ bc_hist bc /\
      forall d, d ∈ bc_disk bc' :: crash ->
        home_eq st size (recovered st d) (bc_disk bc) \/
        home_eq st size (recovered st d) (committed (bc_disk bc) bl vs).
Proof.
  intros Hm Hc Ht Hne Hh. destruct (commit_all pt bc l st size bl vs Hm Hc Ht Hne Hh)
    as (pt' & bc' & l' & E & Hm' & Hc' & El & _ & _ & A).
  exists pt', bc', l'. split; [done|]. split; [done|]. split; [done|]. split; [by rewrite El|done].
Qed.

(** C3: recovery.  On a machine whose cache holds nothing newer than the disk,
    [recover_from_log] returns; the home blocks are those of the disk with the
    logged transaction installed, or unchanged when the header is empty, and
    the header is erased.  A crash during recovery does no harm: every disk on
    the way recovers to the same home blocks. *)
Theorem recovery_restartable pt bc l st size :
  let hb := dget (bc_disk bc) st in
  calm hw pt i p pid -> cache pid bc l [] [] ->
  lg_dev (bc_log bc) = 1 -> lg_start (bc_log bc) = st ->
  length (lg_block (bc_log bc)) = Z.to_nat LOGSIZE -> Z.of_nat (length (bc_disk bc)) <= W32 ->
  log_fits st size (bc_disk bc) -> blocks_ok st size (bc_disk bc) (head_blocks hb) ->
  (forall b, ~ dirty bc b) -> 0 <= head_n hb ->
  exists pt' bc' l',
    recover_from_log (W hw pt km bc fs cn o) = Ok tt (W hw pt' km bc' fs cn o) /\
    cache pid bc' l' [] [] /\ lg_n (bc_log bc') = 0 /\ (forall b, ~ dirty bc' b) /\
    bc_disk bc' = recovered st (bc_disk bc) /\
    exists crash, bc_hist bc' = crash ++ bc_hist bc /\
      forall d, d ∈ bc_disk bc' :: crash -> home_eq st size (recovered st d) (bc_disk bc').
Proof.
  intros hb Hm Hc L1 L2 L3 L4 Hf Hb Hnd Hn.
  pose proof (recover_ok km fs cn o hw i p pid pt bc l st size Hm Hc L1 L2 L3 L4 Hf Hb Hnd Hn) as Hw.
  destruct (wp_inv _ _ _ Hw) as ([] & w & E & pt' & bc' & l' & -> & Hm' & Hc' & El & [A1 A2 A3 A4]).
  exists pt', bc', l'. split; [done|]. split; [done|]. split; [done|]. split.
  { intros b [Hb' _]%A4. by apply Hnd in Hb'. }
  split; [done|]. eexists. split; [rewrite A2; apply hist_writes_split|].
  rewrite A1. fold (recovered st (bc_disk bc)). intros d [->|Hin]%elem_of_cons.
  - pose proof (recover_crash st size (bc_disk bc) (head_blocks hb)
      (length (recover_writes st (bc_disk bc))) Hf Hb eq_refl) as Hr.
    by rewrite take_ge in Hr.
  - apply hist_writes_elem in Hin as (k & _ & ->). by eapply recover_crash.
Qed.

(** [log_write] absorbs.  On a buffer the process holds, inside an
    operation and with room in the log, it records the block once, however
    often it is written, and pins the buffer by marking it dirty: afterwards
    the dirty blocks are again exactly the logged ones, each logged once, and no
    block and nothing on disk has changed. *)
Theorem log_write_absorbs pt bc l H X st size bl bn j c :
  calm hw pt i p pid -> here hw i c -> lock_free hw LLog ->
  cache pid bc l H X -> j ∈ H -> holds_block (bc_buf bc) bn j ->
  log_is bc st size bl -> lg_size (bc_log bc) = size -> 1 <= lg_outstanding (bc_log bc) ->
  Z.of_nat (length bl) < LOGSIZE -> Z.of_nat (length bl) < size - 1 ->
  Forall (fun b => 0 <= b < W32) bl -> int_ok bn -> 0 <= bn ->
  NoDup bl -> (forall b, dirty bc b <-> b ∈ bl) ->
  exists bc',
    log_write j (W hw pt km bc fs cn o) = Ok tt (W hw pt km bc' fs cn o) /\
    log_is bc' st size (absorb bn bl) /\ NoDup (absorb bn bl) /\
    (forall b, dirty bc' b <-> b ∈ absorb bn bl) /\
    (forall b, contents bc' b = contents bc b) /\ bc_disk bc' = bc_disk bc /\
    cache pid bc' l H (filter (fun k => k <> j) X).
Proof.
  intros Hm Hh Hlk Hc Hj Hb Hl Hs Ho Hn1 Hn2 Hbl Hi Hp Hnd Hd.
  destruct (log_write_ok km fs cn o hw i p pid pt bc l H X st size bl bn j c) as (bc' & A); try done.
  exists bc'. naive_solver.
Qed.

(** What an operation may need fits in the log. *)
Definition fits (lg : log_t) : Prop :=
  lg_n lg + (lg_outstanding lg + 1) * MAXOPBLOCKS <= LOGSIZE.

Lemma begin_op_admit pt bc c :
  here hw i c -> lock_free hw LLog -> lg_committing (bc_log bc) = 0 -> fits (bc_log bc) ->
  begin_op (W hw pt km bc fs cn o) =
  Ok tt (W (touch i hw) pt km
    (set_bc_log (set_lg_outstanding (lg_outstanding (bc_log bc) + 1) (bc_log bc)) bc) fs cn o).
Proof.
  intros Hh Hl Hc Hf. unfold begin_op. kcall acquire_ok by (done || apply Hl).
  unfold wait_loop. cbn [loop_ w_others]. unfold getlog. krun. change (id (bc_log bc)) with (bc_log bc).
  rewrite Hc. cbn [Z.eqb negb]. unfold fits in Hf.
  destruct (Z.ltb_spec LOGSIZE (lg_n (bc_log bc) + (lg_outstanding (bc_log bc) + 1) * MAXOPBLOCKS)); [lia|].
  unfold updlog. krun. kcall release_acquired by done. done.
Qed.

(** admission to the log.  [begin_op] lets an operation in, counting it,
    exactly when no commit is in progress and the log has room for what all
    operations may write; otherwise the thread goes to sleep on the log,
    without the log's lock, until a commit ends. *)
Theorem begin_op_admission pt bc c x :
  sleep_ready hw pt i c LLog p x ->
  (lg_committing (bc_log bc) = 0 -> fits (bc_log bc) ->
   begin_op (W hw pt km bc fs cn o) =
     Ok tt (W (touch i hw) pt km
       (set_bc_log (set_lg_outstanding (lg_outstanding (bc_log bc) + 1) (bc_log bc)) bc) fs cn o)) /\
  (lg_committing (bc_log bc) <> 0 \/ ~ fits (bc_log bc) ->
   begin_op (W hw pt km bc fs cn []) =
     Asleep (W (hw_acquire LPtable i hw) (asleep_pt p ChLog pt) km bc fs cn [])).
Proof.
  intros Hs. pose proof Hs as [Hh Hn Hp Hx Hl Ht Hne].
  split; [intros Hc Hf; by eapply begin_op_admit|]. intros Hcf. unfold begin_op.
  kcall acquire_ok by (done || apply Hl). unfold wait_loop. cbn [loop_ w_others].
  assert (sleep ChLog (Some LLog) (W (hw_acquire LLog i hw) pt km bc fs cn []) =
    Asleep (W (hw_acquire LPtable i hw) (asleep_pt p ChLog pt) km bc fs cn [])) as Hsl.
  { rewrite (sleep_enter _ _ _ _ _ _ _ _ _ _ _ _ _ Hs). unfold bind.
    by erewrite sched_asleep by (by eapply sleep_sched_ready). }
  unfold getlog. krun. change (id (bc_log bc)) with (bc_log bc).
  destruct (Z.eqb_spec (lg_committing (bc_log bc)) 0); cbn [negb].
  - destruct Hcf as [?|Hf]; [done|]. unfold fits in Hf.
    destruct (Z.ltb_spec LOGSIZE (lg_n (bc_log bc) + (lg_outstanding (bc_log bc) + 1) * MAXOPBLOCKS)); [|lia].
    rewrite bind_assoc. unfold bind at 1. by rewrite Hsl.
  - rewrite bind_assoc. unfold bind at 1. by rewrite Hsl.
Qed.

(** The blocks in the buffers [js] are logged one after the other. *)
Fixpoint log_all (js : list nat) : K unit :=
  match js with [] => ret tt | j :: js => log_write j ;; log_all js end.
Definition block_of bc (j : nat) : Z := b_blockno (bufat (bc_buf bc) j).

Lemma log_all_ok pt c st js : here hw i c -> touch i hw = hw -> lock_free hw LLog -> forall bc bl,
  log_is bc st LOGSIZE bl -> lg_size (bc_log bc) = LOGSIZE -> 1 <= lg_outstanding (bc_log bc) ->
  Forall (fun j => (j < length (bc_buf bc))%nat) js -> Forall (fun b => 0 <= b /\ int_ok b) (bl ++ (block_of bc <$> js)) ->
  NoDup (bl ++ (block_of bc <$> js)) -> Z.of_nat (length bl + length js) < LOGSIZE ->
  exists bc', log_all js (W hw pt km bc fs cn o) = Ok tt (W hw pt km bc' fs cn o) /\
    log_is bc' st LOGSIZE (bl ++ (block_of bc <$> js)) /\ lg_size (bc_log bc') = LOGSIZE /\
    lg_outstanding (bc_log bc') = lg_outstanding (bc_log bc).
Proof.
  intros Hh Ht Hlk. induction js as [|j js IH]; intros bc bl Hl Hs Ho Hj Hb Hnd Hlen.
  { exists bc. by rewrite app_nil_r. }
  apply Forall_cons in Hj as [Hj Hjs]. cbn [fmap list_fmap length] in *.
  assert (Forall (fun b => 0 <= b < W32) bl) as Hbl.
  { apply Forall_app in Hb as [Hb _]. eapply Forall_impl; [exact Hb|]. intros b [H1 H2]. unfold int_ok, W32 in *. lia. }
  pose proof (proj1 (Forall_forall _ _) Hb (block_of bc j) ltac:(set_solver)) as [Hb0 Hbi].
  assert (block_of bc j ∉ bl) as Hnin by (apply NoDup_app in Hnd as (_ & Hd & _); intros Hin; apply (Hd _ Hin); left).
  destruct (log_is_absorb bc st LOGSIZE bl (block_of bc j) Hl ltac:(lia) Hbi Hbl Hb0) as [Hk Hl'].
  cbn zeta in Hk, Hl'. set (k := default _ _) in *. unfold absorb in Hl'. rewrite decide_False in Hl' by done.
  set (bc1 := bset (fun b => set_b_flags (Z.lor (b_flags b) B_DIRTY) b) j (set_bc_log (log_add k (block_of bc j) (bc_log bc)) bc)).
  assert (forall j', block_of bc1 j' = block_of bc j') as Hblk.
  { intros j'. unfold block_of, bc1. rewrite bset_at by done. by destruct (decide _) as [->|]. }
  assert (block_of bc1 <$> js = block_of bc <$> js) as Hbs by (apply list_fmap_ext; intros; apply Hblk).
  assert (lg_size (bc_log bc1) = lg_size (bc_log bc) /\ lg_outstanding (bc_log bc1) = lg_outstanding (bc_log bc)) as [E1 E2]
    by (cbn; unfold log_add; by destruct (_ =? _)).
  destruct (IH bc1 (bl ++ [block_of bc j])) as (bc' & E & L & S1 & O1).
  - by eapply log_is_eq; [| |exact Hl'].
  - congruence.
  - lia.
  - eapply Forall_impl; [exact Hjs|]. intros j' Hj'. by unfold bc1; rewrite bset_length.
  - by rewrite Hbs, <- app_assoc.
  - by rewrite Hbs, <- app_assoc.
  - rewrite length_app. cbn. lia.
  - exists bc'. rewrite Hbs, <- app_assoc in L. split; [|split; [done|]; split; [done|congruence]].
    cbn [log_all]. erewrite bind_ok; [exact E|]. eapply log_write_eq; try done; lia.
Qed.

(** C30: the reservation is one block too generous for the log that mkfs lays
    out ([nlog = LOGSIZE]).  Three operations of [MAXOPBLOCKS] blocks each are
    let in together, and [log_write] panics when the log holds one block less
    than they may write.  Together: after the three have come in and logged that
    many different blocks, all of which succeeds, logging any other block, or one
    of them again, panics. *)
Theorem log_reservation_one_short pt bc c :
  here hw i c -> touch i hw = hw -> lock_free hw LLog ->
  lg_committing (bc_log bc) = 0 -> lg_n (bc_log bc) = 0 -> lg_outstanding (bc_log bc) = 0 ->
  lg_size (bc_log bc) = LOGSIZE ->
  (exists bc', (begin_op ;; begin_op ;; begin_op)%c (W hw pt km bc fs cn o) =
     Ok tt (W hw pt km bc' fs cn o) /\ lg_outstanding (bc_log bc') = 3) /\
  (forall pt' bc' j, lg_size (bc_log bc') = LOGSIZE -> lg_n (bc_log bc') = 3 * MAXOPBLOCKS - 1 ->
    log_write j (W hw pt' km bc' fs cn o) = Panic "too big a transaction") /\
  (forall st js, log_is bc st LOGSIZE [] -> Z.of_nat (length js) = 3 * MAXOPBLOCKS - 1 ->
    Forall (fun j => (j < length (bc_buf bc))%nat /\ 0 <= block_of bc j /\ int_ok (block_of bc j)) js ->
    NoDup (block_of bc <$> js) ->
    exists bc', (begin_op ;; begin_op ;; begin_op ;; log_all js)%c (W hw pt km bc fs cn o) =
        Ok tt (W hw pt km bc' fs cn o) /\ lg_outstanding (bc_log bc') = 3 /\
      forall j, log_write j (W hw pt km bc' fs cn o) = Panic "too big a transaction").
Proof.
  intros Hh Ht Hl Hc Hn Ho Hsz.
  assert (forall pt' bc' j, lg_size (bc_log bc') = LOGSIZE -> lg_n (bc_log bc') = 3 * MAXOPBLOCKS - 1 ->
    log_write j (W hw pt' km bc' fs cn o) = Panic "too big a transaction") as Hfull.
  { intros pt' bc' j Hs' Hn'. unfold log_write, getlog. krun. change (id (bc_log bc')) with (bc_log bc'). by rewrite Hs', Hn'. }
  set (in_ n := set_bc_log (set_lg_outstanding n (bc_log bc)) bc).
  assert (forall n, 0 <= n < 3 -> begin_op (W hw pt km (in_ n) fs cn o) = Ok tt (W hw pt km (in_ (n + 1)) fs cn o)) as Hin.
  { intros n Hlt. erewrite begin_op_admit; [by rewrite Ht|done|done|done|]. unfold fits. cbn. rewrite Hn. unfold LOGSIZE, MAXOPBLOCKS. lia. }
  assert (in_ 0 = bc) as E0 by (unfold in_; rewrite <- Ho; by destruct bc as [? ? ? ? ? []]).
  split; [|split; [exact Hfull|]].
  - exists (in_ 3). split; [|done]. rewrite <- E0 at 1. rewrite (bind_ok _ _ _ _ _ (Hin 0 ltac:(lia))), (bind_ok _ _ _ _ _ (Hin 1 ltac:(lia))). by apply (Hin 2).
  - intros st js Hlog Hlen Hjs Hnd. apply Forall_and in Hjs as [Hj Hb].
    destruct (log_all_ok pt c st js Hh Ht Hl (in_ 3) []) as (bc' & E & L & S1 & O1); try done.
    + destruct Hlog; by split.
    + by apply Forall_fmap.
    + cbn. unfold LOGSIZE, MAXOPBLOCKS in *. lia.
    + exists bc'. rewrite <- E0 at 1.
      rewrite (bind_ok _ _ _ _ _ (Hin 0 ltac:(lia))), (bind_ok _ _ _ _ _ (Hin 1 ltac:(lia))), (bind_ok _ _ _ _ _ (Hin 2 ltac:(lia))). split; [exact E|]. split; [by rewrite O1|]. intros j. apply Hfull; [done|].
      rewrite (li_n _ _ _ _ L). cbn [app]. by rewrite length_fmap.
Qed.
End Properties.

(** ** The properties at work

    A disk of 64 blocks with the log in blocks 2 to 31; block 40 is dirty in
    buffer 0 and logged. *)

Section Examples.
#[local] Existing Instance Memide.driver.

#[local] Opaque bc_boot.

Definition disk_log : diskT := replicate 64 (replicate 512 0).
Definition buf_40 (flags : Z) (b : buf) : buf :=
  b |> set_b_dev 1 |> set_b_blockno 40 |> set_b_flags flags |> set_b_data [7].
Definition log_40 : log_t := mk_log 2 30 1 0 1 1 (40 :: replicate 29 0).
Definition bc_tx : bcstate :=
  set_bc_log log_40 (bset (buf_40 (Z.lor B_VALID B_DIRTY)) 0 (bc_boot disk_log)).

Lemma set_log_buf lg bc : bc_buf (set_bc_log lg bc) = bc_buf bc.
Proof. reflexivity. Qed.
Lemma set_log_disk lg bc : bc_disk (set_bc_log lg bc) = bc_disk bc.
Proof. reflexivity. Qed.
Lemma bset_disk f j bc : bc_disk (bset f j bc) = bc_disk bc.
Proof. reflexivity. Qed.

Lemma bc_boot_unused d j : (j < NBUF)%nat ->
  b_flags (bufat (bc_buf (bc_boot d)) j) = 0 /\ b_dev (bufat (bc_buf (bc_boot d)) j) = 0 /\
  b_refcnt (bufat (bc_buf (bc_boot d)) j) = 0 /\ sl_locked (b_lock (bufat (bc_buf (bc_boot d)) j)) = 0.
Proof.
  intros Hj. pose proof (bc_boot_bufs d) as Hf. rewrite Forall_forall in Hf.
  apply Hf, (list_elem_of_lookup_2 _ j), bufat_lookup. rewrite bc_boot_len. lia.
Qed.

Lemma bc_tx_at k : bufat (bc_buf bc_tx) k =
  if decide (k = 0%nat) then buf_40 (Z.lor B_VALID B_DIRTY) (bufat (bc_buf (bc_boot disk_log)) 0)
  else bufat (bc_buf (bc_boot disk_log)) k.
Proof.
  unfold bc_tx. rewrite set_log_buf, bset_at; [reflexivity|]. rewrite bc_boot_len. lia.
Qed.

Lemma bc_boot_disk d : bc_disk (bc_boot d) = d.
Proof. vm_compute. reflexivity. Qed.

Lemma bc_tx_cache : cache 1 bc_tx (reverse (seq 0 NBUF)) [] [].
Proof.
  apply cache_log, (cache_bset 1 (bc_boot disk_log) _ [] []);
    [apply bc_boot_cache|unfold NBUF; lia|done|done| | | |constructor|done].
  - destruct (bc_boot_unused disk_log 0) as (_ & _ & H3 & H4); [unfold NBUF; lia|].
    assert (0%nat ∉ []) as Hn by apply not_elem_of_nil.
    split; [left; split; [exact H3|done]|left; split; [exact H4|done]| | |].
    + right. split; [reflexivity|by right].
    + intros _. rewrite bc_boot_disk. split; [discriminate|reflexivity].
    + intros _ Hf. discriminate Hf.
  - done.
  - intros k Hk _ Hd. destruct (bc_boot_unused disk_log k Hk) as (_ & E & _). congruence.
Qed.

Lemma bc_tx_dirty b : dirty bc_tx b <-> b ∈ [40].
Proof.
  rewrite list_elem_of_singleton. split.
  - intros (j & (Hj & _ & Hb) & Hf). rewrite bc_tx_at in *. destruct (decide (j = 0%nat)); [done|].
    destruct (bc_boot_unused disk_log j Hj) as (E & _). rewrite E in Hf. discriminate Hf.
  - intros ->. exists 0%nat. unfold holds_block. rewrite bc_tx_at. split; [|done].
    split; [unfold NBUF; lia|done].
Qed.

Lemma disk_log_fits : log_fits 2 30 disk_log.
Proof. split; vm_compute; (discriminate || split || lia); done. Qed.

Lemma bc_tx_disk : bc_disk bc_tx = disk_log.
Proof. unfold bc_tx. by rewrite set_log_disk, bset_disk, bc_boot_disk. Qed.

Lemma bc_tx_log : log_is bc_tx 2 30 [40].
Proof. split; try reflexivity. rewrite bc_tx_disk. discriminate. Qed.

Lemma bc_tx_blocks : blocks_ok 2 30 disk_log [40].
Proof.
  split; [| | |done]; (constructor; [|constructor]).
  - split; [discriminate|reflexivity].
  - unfold in_log. lia.
  - unfold int_ok. lia.
Qed.

Lemma bc_tx_txn : txn bc_tx 2 30 [40] [[7]].
Proof.
  split; [apply bc_tx_log|rewrite bc_tx_disk; apply disk_log_fits|rewrite bc_tx_disk; apply bc_tx_blocks
    |apply NoDup_singleton|apply bc_tx_dirty|reflexivity|].
  intros [|t] b v Hb Hv; [|done]. cbn in *. simplify_eq.
  rewrite (contents_cached 1 bc_tx _ [] [] 40 0 bc_tx_cache).
  - by rewrite bc_tx_at.
  - unfold holds_block. rewrite bc_tx_at. split; [unfold NBUF; lia|done].
Qed.

Lemma commit_atomic_witness :
  exists pt' bc',
    commit (W (touch 0 hw_run) pt_run km0 bc_tx fs0 cn0 []) =
      Ok tt (W (touch 0 hw_run) pt' km0 bc' fs0 cn0 []) /\
    home_eq 2 30 (bc_disk bc') (committed (bc_disk bc_tx) [40] [[7]]).
Proof.
  destruct (commit_atomic km0 fs0 cn0 [] (touch 0 hw_run) 0 0 1 pt_run bc_tx _ 2 30 [40] [[7]]
    calm_run bc_tx_cache bc_tx_txn) as (pt' & bc' & l' & E & _ & _ & _ & _ & _ & H & _).
  - discriminate.
  - rewrite bc_tx_disk. vm_compute. reflexivity.
  - exists pt', bc'. split; [exact E|exact H].
Defined.

(** After a crash: the header names block 40, the log's first block has its data. *)
Definition disk_crash : diskT :=
  <[3%nat := [7]]> (<[2%nat := put_head [40] (replicate 512 0)]> disk_log).
Definition bc_crash : bcstate :=
  set_bc_log (mk_log 2 30 0 0 1 0 (replicate 30 0)) (bc_boot disk_crash).

Lemma bc_crash_disk : bc_disk bc_crash = disk_crash.
Proof. unfold bc_crash. by rewrite set_log_disk, bc_boot_disk. Qed.

Lemma recovery_restartable_witness :
  exists pt' bc',
    recover_from_log (W (touch 0 hw_run) pt_run km0 bc_crash fs0 cn0 []) =
      Ok tt (W (touch 0 hw_run) pt' km0 bc' fs0 cn0 []) /\
    bc_disk bc' = recovered 2 (bc_disk bc_crash).
Proof.
  destruct (recovery_restartable km0 fs0 cn0 [] (touch 0 hw_run) 0 0 1 pt_run bc_crash
    (reverse (seq 0 NBUF)) 2 30 calm_run) as (pt' & bc' & l' & E & _ & _ & _ & D & _);
    rewrite ?bc_crash_disk.
  - apply cache_log, bc_boot_cache.
  - reflexivity.
  - reflexivity.
  - reflexivity.
  - vm_compute. discriminate.
  - split; vm_compute; (discriminate || split || lia); done.
  - replace (head_blocks (dget disk_crash 2)) with [40] by (vm_compute; reflexivity).
    destruct bc_tx_blocks as [B1 B2 B3 B4]. split; [|exact B2|exact B3|exact B4].
    constructor; [vm_compute; split; [discriminate|reflexivity]|constructor].
  - intros b (j & (Hj & Hd & _) & _). destruct (bc_boot_unused disk_crash j Hj) as (_ & E & _).
    unfold bc_crash in Hd. rewrite set_log_buf in Hd. congruence.
  - vm_compute. discriminate.
  - exists pt', bc'. split; [exact E|rewrite <- bc_crash_disk; exact D].
Defined.

(** Block 40 in buffer 0, held, and an empty log. *)
Definition bc_lw : bcstate :=
  set_bc_log (mk_log 2 30 1 0 1 0 (replicate 30 0))
    (bset (loaded 1 40 (replicate 512 0)) 0 (bc_boot disk_log)).

Lemma bc_lw_cache : cache 1 bc_lw (reverse (seq 0 NBUF)) [0%nat] [].
Proof.
  apply cache_log. apply (grab_miss 1 (bc_boot disk_log) _ [] []);
    [apply bc_boot_cache|apply bc_boot_uncached|unfold NBUF; lia|set_solver
    |vm_compute; auto|rewrite bc_boot_disk; vm_compute; split; [discriminate|reflexivity]
    |rewrite bc_boot_disk; reflexivity].
Qed.

Lemma bc_lw_at k : bufat (bc_buf bc_lw) k =
  if decide (k = 0%nat) then loaded 1 40 (replicate 512 0) (bufat (bc_buf (bc_boot disk_log)) 0)
  else bufat (bc_buf (bc_boot disk_log)) k.
Proof.
  unfold bc_lw. rewrite set_log_buf, bset_at; [reflexivity|]. rewrite bc_boot_len. lia.
Qed.

Lemma log_write_absorbs_witness :
  exists bc', log_write 0 (W (touch 0 hw_run) pt_run km0 bc_lw fs0 cn0 []) =
      Ok tt (W (touch 0 hw_run) pt_run km0 bc' fs0 cn0 []) /\ log_is bc' 2 30 [40].
Proof.
  destruct (log_write_absorbs km0 fs0 cn0 [] (touch 0 hw_run) 0 0 1 pt_run bc_lw
    (reverse (seq 0 NBUF)) [0%nat] [] 2 30 [] 40 0 (touched hw_run c_run) calm_run)
    as (bc' & E & L & _).
  - apply here_touch, here_run.
  - split; reflexivity.
  - apply bc_lw_cache.
  - set_solver.
  - unfold holds_block. rewrite bc_lw_at. split; [unfold NBUF; lia|split; reflexivity].
  - split; try reflexivity. unfold bc_lw. rewrite set_log_disk, bset_disk, bc_boot_disk. discriminate.
  - reflexivity.
  - discriminate.
  - reflexivity.
  - reflexivity.
  - constructor.
  - split; vm_compute; [discriminate|reflexivity].
  - discriminate.
  - constructor.
  - intros b. split; [|set_solver]. intros (j & (Hj & _ & Hb) & Hf). rewrite bc_lw_at in *.
    destruct (decide (j = 0%nat)); [discriminate|].
    destruct (bc_boot_unused disk_log j Hj) as (E & _). rewrite E in Hf. discriminate Hf.
  - exists bc'. split; [exact E|exact L].
Defined.

Lemma begin_op_admission_witness :
  exists w, begin_op (W hw_run pt_run km0 (bc_boot disk_log) fs0 cn0 []) = Ok tt w.
Proof.
  eexists. apply (begin_op_admission km0 fs0 cn0 [] hw_run 0 0 pt_run (bc_boot disk_log) c_run proc_run).
  - constructor; try done. apply here_run.
  - vm_compute. reflexivity.
  - vm_compute. discriminate.
Defined.

(** Thirty buffers with different blocks. *)
Definition bc_idle : bcstate :=
  mk_bc ((fun k => set_b_blockno (40 + Z.of_nat k) zbuf) <$> seq 0 30) disk_log [] None false
    (mk_log 2 30 0 0 1 0 (replicate 30 0)).

Lemma log_reservation_one_short_witness :
  exists bc', (begin_op ;; begin_op ;; begin_op ;; log_all (seq 0 29))%c
      (W (touch 0 hw_run) pt_run km0 bc_idle fs0 cn0 []) =
    Ok tt (W (touch 0 hw_run) pt_run km0 bc' fs0 cn0 []) /\ lg_outstanding (bc_log bc') = 3 /\
    log_write 29 (W (touch 0 hw_run) pt_run km0 bc' fs0 cn0 []) = Panic "too big a transaction".
Proof.
  destruct (log_reservation_one_short km0 fs0 cn0 [] (touch 0 hw_run) 0 pt_run bc_idle (touched hw_run c_run)
    ltac:(apply here_touch, here_run) ltac:(apply touch_touch) ltac:(split; reflexivity) eq_refl eq_refl eq_refl eq_refl)
    as (_ & _ & H).
  destruct (H 2 (seq 0 29)) as (bc' & E & Ho & Hp).
  - by split.
  - reflexivity.
  - apply Forall_forall. intros j [_ Hj]%elem_of_seq. change (length (bc_buf bc_idle)) with 30%nat.
    unfold block_of, bufat. cbn [bc_idle bc_buf]. rewrite list_lookup_fmap, lookup_seq_lt by lia. cbn. unfold int_ok. lia.
  - apply (bool_decide_unpack _). vm_compute. done.
  - exists bc'. split; [exact E|]. split; [exact Ho|apply Hp].
Defined.
End Examples.
