(* ===== verification/Fs.v ===== *)
(** * The file system

    [fs.c] and [initlog] of [log.c]: the block allocator, in-memory and
    on-disk inodes, file contents, directories and path names.  A buffer that
    [readi] fills or [writei] takes is passed as the list of its bytes.  The
    device switch is the table [fs_devsw]; its only functions are the
    console's, which come from [console.c] through [ConsoleDev]. *)

From stdpp Require Import prelude list gmap strings.
From Stdlib Require Import ZArith Lia.
From S2P Require Import Prelude State Boot Spinlock Str Kalloc Cprintf Vm Sched Sleeplock Bio Log.
#[local] Open Scope c_scope.

Class ConsoleDev := {
  consoleread : nat -> Z -> K (Z * list Z);
  consolewrite : nat -> list Z -> K Z;
}.

(** ** fs.h *)

Definition IPB : Z := BSIZE / 64.
Definition IBLOCK (i : Z) (sb : superblock) : Z := u32 (i / IPB + sb_inodestart sb).
Definition BPB : Z := BSIZE * 8.
Definition BBLOCK (b : Z) (sb : superblock) : Z := u32 (b / BPB + sb_bmapstart sb).

Definition superblock_at (d : list Z) : superblock :=
  mk_superblock (le32 0 d) (le32 4 d) (le32 8 d) (le32 12 d) (le32 16 d)
    (le32 20 d) (le32 24 d).

(** [struct dinode] and [struct dirent] in a byte array. *)
Definition dinode_off (inum : Z) : nat := Z.to_nat (64 * (inum mod IPB)).
Definition enc_dinode (ip : inode) : list Z :=
  enc16 (i_type ip) ++ enc16 (i_major ip) ++ enc16 (i_minor ip) ++
  enc16 (i_nlink ip) ++ enc32 (i_size ip) ++ mjoin (enc32 <$> i_addrs ip).
Definition dec_dinode (o : nat) (d : list Z) (ip : inode) : inode :=
  ip |> set_i_type (s16 (le16 o d)) |> set_i_major (s16 (le16 (o + 2) d))
     |> set_i_minor (s16 (le16 (o + 4) d)) |> set_i_nlink (s16 (le16 (o + 6) d))
     |> set_i_size (le32 (o + 8) d)
     |> set_i_addrs ((fun i => le32 (o + 12 + 4 * i) d) <$> seq 0 13).
Definition DIRENT : Z := 16.
Definition de_inum (de : list Z) : Z := le16 0 de.
Definition de_name (de : list Z) : list Z := drop 2 de.

Section Fs.
Context `{DiskDriver} `{ConsoleDev}.

(** Read the super block. *)
Definition readsb (dev : Z) : K superblock :=
  bp <- bread (u32 dev) 1 ;;
  b <- getb bp ;;
  brelse bp ;;
  ret (superblock_at (b_data b)).

Definition initlog (dev : Z) : K unit :=
  initlock LLog "log" ;;
  sb <- readsb dev ;;
  updlog (set_lg_start (s32 (sb_logstart sb))) ;;
  updlog (set_lg_size (s32 (sb_nlog sb))) ;;
  updlog (set_lg_dev dev) ;;
  recover_from_log.

(** Zero a block. *)
Definition bzero (dev bno : Z) : K unit :=
  bp <- bread (u32 dev) (u32 bno) ;;
  updb bp (set_b_data (replicate (Z.to_nat BSIZE) 0)) ;;
  log_write bp ;;
  brelse bp.

(** The bit of block [bi] in a bitmap block, and the block with the bit set
    or cleared. *)
Definition bit_mask (bi : Z) : Z := Z.shiftl 1 (bi mod 8).
Definition bmap_byte (bi : Z) (d : list Z) : Z := from d (Z.to_nat (bi / 8)).
Definition bmap_set (bi v : Z) (d : list Z) : list Z :=
  <[Z.to_nat (bi / 8) := v]> d.

(** Allocate a zeroed disk block. *)
Definition balloc (dev : Z) : K Z :=
  sb <- getfs fs_sb ;;
  r <- for_ (Z.to_nat ((sb_size sb + BPB - 1) / BPB)) 0 (fun k =>
    let b := Z.of_nat k * BPB in
    bp <- bread dev (BBLOCK b sb) ;;
    r <- for_ (Z.to_nat (Z.min BPB (sb_size sb - b))) 0 (fun bi =>
      let bi := Z.of_nat bi in
      let m := bit_mask bi in
      x <- getb bp ;;
      if Z.land (bmap_byte bi (b_data x)) m =? 0 then
        updb bp (set_b_data (bmap_set bi (Z.lor (bmap_byte bi (b_data x)) m) (b_data x))) ;;
        log_write bp ;;
        brelse bp ;;
        bzero dev (b + bi) ;;
        ret (Some (b + bi))
      else ret None) ;;
    match r with
    | Some a => ret (Some a)
    | None => brelse bp ;; ret None
    end) ;;
  match r with Some a => ret a | None => panic "balloc: out of blocks" end.

(** Free a disk block. *)
Definition bfree (dev b : Z) : K unit :=
  sb <- getfs fs_sb ;;
  bp <- bread (u32 dev) (BBLOCK b sb) ;;
  let bi := b mod BPB in
  let m := bit_mask bi in
  x <- getb bp ;;
  if Z.land (bmap_byte bi (b_data x)) m =? 0 then panic "freeing free block" else
  updb bp (set_b_data
    (bmap_set bi (Z.land (bmap_byte bi (b_data x)) (Z.lnot m)) (b_data x))) ;;
  log_write bp ;;
  brelse bp.

(** ** Inodes *)

Definition iinit (dev : Z) : K unit :=
  initlock LIcache "icache" ;;
  each_ NINODE 0 (fun i => initsleeplock (LInode i) "inode") ;;
  sb <- readsb dev ;;
  updfs (set_fs_sb sb) ;;
  cprintf (s2b "sb: size %d nblocks %d ninodes %d nlog %d logstart %d inodestart %d bmap start %d" ++ nl)
    [AInt (sb_size sb); AInt (sb_nblocks sb); AInt (sb_ninodes sb); AInt (sb_nlog sb);
     AInt (sb_logstart sb); AInt (sb_inodestart sb); AInt (sb_bmapstart sb)].

(** Find the inode with number [inum] on device [dev] and return the
    in-memory copy; does not lock the inode and does not read it from disk. *)
Definition iget (dev inum : Z) : K nat :=
  acquire LIcache ;;
  r <- loop_ (S NINODE) (fun '(i, empty) =>
    if (NINODE <=? i)%nat then ret (inr (inr empty)) else
    ip <- geti i ;;
    if (0 <? i_ref ip) && (i_dev ip =? dev) && (i_inum ip =? inum) then
      updi i (fun ip => set_i_ref (i_ref ip + 1) ip) ;;
      release LIcache ;;
      ret (inr (inl i))
    else
      ret (inl (S i, match empty with
                     | None => if i_ref ip =? 0 then Some i else None
                     | Some _ => empty
                     end))) (0%nat, None : option nat) ;;
  match r with
  | inl i => ret i
  | inr None => panic "iget: no inodes"
  | inr (Some ip) =>
    updi ip (set_i_dev dev) ;;
    updi ip (set_i_inum inum) ;;
    updi ip (set_i_ref 1) ;;
    updi ip (set_i_valid 0) ;;
    release LIcache ;;
    ret ip
  end.

(** Allocate an inode on device [dev]; returns an unlocked but allocated and
    referenced inode. *)
Definition ialloc (dev type : Z) : K nat :=
  sb <- getfs fs_sb ;;
  r <- for_ (Z.to_nat (sb_ninodes sb - 1)) 1 (fun inum =>
    let inum := Z.of_nat inum in
    bp <- bread dev (IBLOCK inum sb) ;;
    b <- getb bp ;;
    if s16 (le16 (dinode_off inum) (b_data b)) =? 0 then
      updb bp (fun b => set_b_data
        (splice (dinode_off inum) (enc16 type ++ replicate 62 0) (b_data b)) b) ;;
      log_write bp ;;
      brelse bp ;;
      ip <- iget dev inum ;;
      ret (Some ip)
    else brelse bp ;; ret None) ;;
  match r with Some ip => ret ip | None => panic "ialloc: no inodes" end.

(** Copy a modified in-memory inode to disk. *)
Definition iupdate (ip : nat) : K unit :=
  sb <- getfs fs_sb ;;
  x <- geti ip ;;
  bp <- bread (i_dev x) (IBLOCK (i_inum x) sb) ;;
  x <- geti ip ;;
  updb bp (fun b => set_b_data
    (splice (dinode_off (i_inum x)) (enc_dinode x) (b_data b)) b) ;;
  log_write bp ;;
  brelse bp.

(** Increment reference count for [ip]. *)
Definition idup (ip : nat) : K nat :=
  acquire LIcache ;;
  updi ip (fun x => set_i_ref (i_ref x + 1) x) ;;
  release LIcache ;;
  ret ip.

(** Lock the given inode; reads the inode from disk if necessary. *)
Definition ilock (ip : option nat) : K unit :=
  match ip with
  | None => panic "ilock"
  | Some ip =>
    x <- geti ip ;;
    if i_ref x <? 1 then panic "ilock" else
    acquiresleep (LInode ip) ;;
    x <- geti ip ;;
    if i_valid x =? 0 then
      sb <- getfs fs_sb ;;
      bp <- bread (i_dev x) (IBLOCK (i_inum x) sb) ;;
      b <- getb bp ;;
      updi ip (fun x => dec_dinode (dinode_off (i_inum x)) (b_data b) x) ;;
      brelse bp ;;
      updi ip (set_i_valid 1) ;;
      x <- geti ip ;;
      if i_type x =? 0 then panic "ilock: no type" else ret tt
    else ret tt
  end.

(** Unlock the given inode. *)
Definition iunlock (ip : option nat) : K unit :=
  match ip with
  | None => panic "iunlock"
  | Some ip =>
    h <- holdingsleep (LInode ip) ;;
    if negb h then panic "iunlock" else
    x <- geti ip ;;
    if i_ref x <? 1 then panic "iunlock" else
    releasesleep (LInode ip)
  end.

(** Truncate inode (discard contents). *)
Definition itrunc (ip : nat) : K unit :=
  each_ (Z.to_nat NDIRECT) 0 (fun i =>
    x <- geti ip ;;
    a <- at_ "ip->addrs" (i_addrs x) i ;;
    if a =? 0 then ret tt else
    bfree (i_dev x) a ;;
    updi ip (fun x => set_i_addrs (<[i := 0]> (i_addrs x)) x)) ;;
  x <- geti ip ;;
  a <- at_ "ip->addrs" (i_addrs x) (Z.to_nat NDIRECT) ;;
  (if a =? 0 then ret tt else
   bp <- bread (i_dev x) a ;;
   each_ (Z.to_nat NINDIRECT) 0 (fun j =>
     b <- getb bp ;;
     let a := le32 (4 * j) (b_data b) in
     if a =? 0 then ret tt else x <- geti ip ;; bfree (i_dev x) a) ;;
   brelse bp ;;
   x <- geti ip ;;
   a <- at_ "ip->addrs" (i_addrs x) (Z.to_nat NDIRECT) ;;
   bfree (i_dev x) a ;;
   updi ip (fun x => set_i_addrs (<[Z.to_nat NDIRECT := 0]> (i_addrs x)) x)) ;;
  updi ip (set_i_size 0) ;;
  iupdate ip.

(** Drop a reference to an in-memory inode; if that was the last one and the
    inode has no links to it, free the inode (and its content) on disk. *)
Definition iput (ip : nat) : K unit :=
  acquiresleep (LInode ip) ;;
  x <- geti ip ;;
  (if negb (i_valid x =? 0) && (i_nlink x =? 0) then
     acquire LIcache ;;
     x <- geti ip ;;
     let r := i_ref x in
     release LIcache ;;
     if r =? 1 then
       itrunc ip ;;
       updi ip (set_i_type 0) ;;
       iupdate ip ;;
       updi ip (set_i_valid 0)
     else ret tt
   else ret tt) ;;
  releasesleep (LInode ip) ;;
  acquire LIcache ;;
  updi ip (fun x => set_i_ref (i_ref x - 1) x) ;;
  release LIcache.

(** Common idiom: unlock, then put. *)
Definition iunlockput (ip : nat) : K unit :=
  iunlock (Some ip) ;; iput ip.

(** ** Inode content *)

(** The disk block address of the nth block in inode [ip]; if there is no such
    block, [bmap] allocates one. *)
Definition bmap (ip : nat) (bn : Z) : K Z :=
  x <- geti ip ;;
  if bn <? NDIRECT then
    addr <- at_ "ip->addrs" (i_addrs x) (Z.to_nat bn) ;;
    if addr =? 0 then
      addr <- balloc (i_dev x) ;;
      updi ip (fun x => set_i_addrs (<[Z.to_nat bn := addr]> (i_addrs x)) x) ;;
      ret addr
    else ret addr
  else
  let bn := bn - NDIRECT in
  if bn <? NINDIRECT then
    addr <- at_ "ip->addrs" (i_addrs x) (Z.to_nat NDIRECT) ;;
    addr <- (if addr =? 0 then
               addr <- balloc (i_dev x) ;;
               updi ip (fun x => set_i_addrs (<[Z.to_nat NDIRECT := addr]> (i_addrs x)) x) ;;
               ret addr
             else ret addr) ;;
    x <- geti ip ;;
    bp <- bread (i_dev x) addr ;;
    b <- getb bp ;;
    let addr := le32 (Z.to_nat (4 * bn)) (b_data b) in
    addr <- (if addr =? 0 then
               x <- geti ip ;;
               addr <- balloc (i_dev x) ;;
               updb bp (fun b => set_b_data
                 (splice (Z.to_nat (4 * bn)) (enc32 addr) (b_data b)) b) ;;
               log_write bp ;;
               ret addr
             else ret addr) ;;
    brelse bp ;;
    ret addr
  else panic "bmap: out of range".

(** [struct stat] as [stati] fills it. *)
Record stat := mk_stat {
  st_type : Z; st_dev : Z; st_ino : Z; st_nlink : Z; st_size : Z;
}.

Definition stati (ip : nat) : K stat :=
  x <- geti ip ;;
  ret (mk_stat (i_type x) (s32 (i_dev x)) (i_inum x) (i_nlink x) (i_size x)).

(** The device's entry in the switch, when it has one. *)
Definition has_dev (major : Z) : K bool :=
  t <- getfs fs_devsw ;;
  ret (if (major <? 0) || (NDEV <=? major) then false
       else default false (t !! Z.to_nat major)).

(** Iterations that [n] bytes can take, one block each. *)
Definition io_fuel (n : Z) : nat := Z.to_nat (n / BSIZE + 3).

(** Read data from inode: the return value and the bytes stored at [dst]. *)
Definition readi (ip : nat) (off n : Z) : K (Z * list Z) :=
  x <- geti ip ;;
  if i_type x =? T_DEV then
    h <- has_dev (i_major x) ;;
    if negb h then ret (-1, []) else consoleread ip (s32 n)
  else
  if (i_size x <? off) || (u32 (off + n) <? off) then ret (-1, []) else
  let n := if i_size x <? u32 (off + n) then i_size x - off else n in
  bs <- loop_ (io_fuel n) (fun '(tot, off, dst) =>
    if n <=? tot then ret (inr dst) else
    x <- geti ip ;;
    bn <- bmap ip (off / BSIZE) ;;
    bp <- bread (i_dev x) bn ;;
    let m := Z.min (n - tot) (BSIZE - off mod BSIZE) in
    b <- getb bp ;;
    let chunk := sub_ (Z.to_nat (off mod BSIZE)) (Z.to_nat m) (b_data b) in
    brelse bp ;;
    ret (inl (tot + m, off + m, dst ++ chunk))) (0, off, []) ;;
  ret (n, bs).

(** Write the bytes [src] to inode at offset [off]. *)
Definition writei (ip : nat) (src : list Z) (off : Z) : K Z :=
  let n := Z.of_nat (length src) in
  x <- geti ip ;;
  if i_type x =? T_DEV then
    h <- has_dev (i_major x) ;;
    if negb h then ret (-1) else consolewrite ip src
  else
  if (i_size x <? off) || (u32 (off + n) <? off) then ret (-1) else
  if MAXFILE * BSIZE <? u32 (off + n) then ret (-1) else
  off <- loop_ (io_fuel n) (fun '(tot, off, src) =>
    if n <=? tot then ret (inr off) else
    x <- geti ip ;;
    bn <- bmap ip (off / BSIZE) ;;
    bp <- bread (i_dev x) bn ;;
    let m := Z.min (n - tot) (BSIZE - off mod BSIZE) in
    updb bp (fun b => set_b_data
      (splice (Z.to_nat (off mod BSIZE)) (take (Z.to_nat m) src) (b_data b)) b) ;;
    log_write bp ;;
    brelse bp ;;
    ret (inl (tot + m, off + m, drop (Z.to_nat m) src))) (0, off, src) ;;
  x <- geti ip ;;
  (if (0 <? n) && (i_size x <? off) then
     updi ip (set_i_size off) ;; iupdate ip
   else ret tt) ;;
  ret n.

(** ** Directories *)

Definition namecmp (s t : cstr) : Z := strncmp s t (Z.to_nat DIRSIZ).

(** The [k]-th entry of directory [dp]. *)
Definition read_dirent (dp : nat) (k : nat) (msg : string) : K (list Z) :=
  let! p := readi dp (DIRENT * Z.of_nat k) DIRENT in
  if negb (fst p =? DIRENT) then panic msg else ret (snd p).

(** Number of entries of a directory. *)
Definition dir_entries (dp : inode) : nat :=
  Z.to_nat ((i_size dp + DIRENT - 1) / DIRENT).

(** Look for a directory entry in a directory: the inode and the byte offset
    of the entry. *)
Definition dirlookup (dp : nat) (name : cstr) : K (option (nat * Z)) :=
  x <- geti dp ;;
  if negb (i_type x =? T_DIR) then panic "dirlookup not DIR" else
  for_ (dir_entries x) 0 (fun k =>
    de <- read_dirent dp k "dirlookup read" ;;
    if de_inum de =? 0 then ret None else
    if namecmp name (from (de_name de)) =? 0 then
      x <- geti dp ;;
      ip <- iget (i_dev x) (de_inum de) ;;
      ret (Some (ip, DIRENT * Z.of_nat k))
    else ret None).

(** Write a new directory entry (name, inum) into the directory [dp]. *)
Definition dirlink (dp : nat) (name : cstr) (inum : Z) : K Z :=
  r <- dirlookup dp name ;;
  match r with
  | Some (ip, _) => iput ip ;; ret (-1)
  | None =>
    x <- geti dp ;;
    r <- for_ (dir_entries x) 0 (fun k =>
      de <- read_dirent dp k "dirlink read" ;;
      ret (if de_inum de =? 0 then Some k else None)) ;;
    let off := DIRENT * Z.of_nat (default (dir_entries x) r) in
    let de := enc16 inum ++ strncpy name (Z.to_nat DIRSIZ) in
    w <- writei dp de off ;;
    if negb (w =? DIRENT) then panic "dirlink" else ret 0
  end.

(** ** Paths *)

Definition slash : Z := 47.
Fixpoint skip_slashes (path : list Z) : list Z :=
  match path with
  | c :: p => if c =? slash then skip_slashes p else path
  | [] => []
  end.
(** The bytes before the next slash, and the rest. *)
Fixpoint path_elem (path : list Z) : list Z * list Z :=
  match path with
  | c :: p => if c =? slash then ([], path)
              else let (s, rest) := path_elem p in (c :: s, rest)
  | [] => ([], [])
  end.

(** Copy the next path element from [path] into [name]; the path that follows
    it and the new contents of [name], or [None] if there is no element. *)
Definition skipelem (path name : list Z) : option (list Z * list Z) :=
  match skip_slashes path with
  | [] => None
  | path =>
    let (s, rest) := path_elem path in
    let len := length s in
    let name := if (Z.to_nat DIRSIZ <=? len)%nat then splice 0 (take (Z.to_nat DIRSIZ) s) name
                else splice 0 (s ++ [0]) name in
    Some (skip_slashes rest, name)
  end.

(** Look up the inode for a path name, one element per turn. *)
Fixpoint namex_loop (fuel : nat) (nameiparent : bool) (ip : nat) (path name : list Z)
    : K (option nat * list Z) :=
  match fuel with
  | O => fun _ => Diverge
  | S n =>
    match skipelem path name with
    | None =>
      if nameiparent then iput ip ;; ret (None, name) else ret (Some ip, name)
    | Some (path, name) =>
      ilock (Some ip) ;;
      x <- geti ip ;;
      if negb (i_type x =? T_DIR) then iunlockput ip ;; ret (None, name) else
      if nameiparent && bool_decide (path = []) then
        iunlock (Some ip) ;; ret (Some ip, name)
      else
      r <- dirlookup ip (from name) ;;
      match r with
      | None => iunlockput ip ;; ret (None, name)
      | Some (next, _) => iunlockput ip ;; namex_loop n nameiparent next path name
      end
    end
  end.

Definition namex (path : list Z) (nameiparent : bool) (name : list Z)
    : K (option nat * list Z) :=
  ip <- (if default 0 (head path) =? slash then iget ROOTDEV ROOTINO
         else p <- myproc ;;
              p <- deref "myproc()" p ;;
              x <- getp p ;;
              cwd <- deref "cwd" (p_cwd x) ;;
              idup cwd) ;;
  namex_loop (S (length path)) nameiparent ip path name.

Definition namei (path : list Z) : K (option nat) :=
  r <- namex path false (replicate (Z.to_nat DIRSIZ) 0) ;; ret (fst r).
Definition nameiparent (path name : list Z) : K (option nat * list Z) :=
  namex path true name.
End Fs.
