(* ===== verification/Fsview.v ===== *)
(** * The file system's blocks inside an operation

    Between [begin_op] and [end_op] the code of [fs.c] reads and changes blocks
    through the buffer cache and the log.  This file gives the rules to reason
    about it on the view of the blocks only: a function from block numbers to
    contents, the blocks held and the blocks logged so far.  On top of them are
    the block allocator ([balloc], [bfree]) and the on-disk inodes ([iupdate],
    [ilock]). *)

From stdpp Require Import prelude list gmap.
From Stdlib Require Import ZArith Lia.
From S2P Require Import Prelude State Boot Spinlock Str Kalloc Cprintf Vm Sched Sleeplock Bio Log Fs.
#[local] Open Scope c_scope.

Abbreviation view := (Z -> option (list Z)).

Section View.
Context (km : kmstate) (cn : cnstate) (o : list (kstate -> kstate)).
Context (hw : hwstate) (i p : nat) (pid st size : Z) (dsk : diskT).
Context (hist : list diskT) (nops : Z).
Implicit Types (pt : ptstate) (bc : bcstate) (fs : fsstate) (v : view) (w : world) (H : list (nat * Z)).
#[local] Existing Instance Memide.driver.

(** The machine inside an operation: the process holds the buffers [H], paired
    with the blocks in them, the transaction so far is [bl], [nops] operations
    are under way, and [hist] are the disks that were. *)
Record in_op pt bc (l : list nat) H (bl : list Z) : Prop := {
  io_calm : calm hw pt i p pid;
  io_lock : lock_free hw LLog;
  io_cache : cache pid bc l H.*1 [];
  io_held : forall j bn, (j, bn) ∈ H -> holds_block (bc_buf bc) bn j;
  io_distinct : NoDup H.*1;
  io_log : log_is bc st size bl;
  io_size : lg_size (bc_log bc) = size;
  io_out : lg_outstanding (bc_log bc) = nops;
  io_idle : lg_committing (bc_log bc) = 0;
  io_fits : log_fits st size (bc_disk bc);
  io_blocks : blocks_ok st size (bc_disk bc) bl;
  io_nodup : NoDup bl;
  io_dirty : forall b, dirty bc b <-> b ∈ bl;
  io_disk : bc_disk bc = dsk;
  io_hist : bc_hist bc = hist;
}.

(** The state as the file system sees it. *)
Definition sees fs H bl v w : Prop :=
  exists pt bc l, w = W hw pt km bc fs cn o /\ in_op pt bc l H bl /\
    forall bn, contents bc bn = v bn.

(** A block the file system may write: on disk and not in the log. *)
Definition home (bn : Z) : Prop := in_disk dsk bn /\ ~ in_log st size bn /\ int_ok bn.

(** There is room in the log for [k] more blocks. *)
Definition room (bl : list Z) (k : nat) : Prop := Z.of_nat (length bl + k) <= size - 1.

Lemma bread_v fs H bl v w bn Q :
  sees fs H bl v w -> in_disk dsk bn -> bn ∉ H.*2 -> (length H + length bl < NBUF)%nat ->
  (forall j w', sees fs ((j, bn) :: H) bl v w' -> Q j w') ->
  wp (bread 1 bn) Q w.
Proof.
  intros (pt & bc & l & -> & Hop & Hv) Hd Hn Hr HQ.
  pose proof Hop as [O1 O2 O3 O4 O5 O6 O7 O8 O8b O9 O10 O11 O12 O13 O14].
  destruct (bread_ok km fs cn o hw i p pid pt bc l H.*1 [] bn O1 O3) as
    (j & bc' & E & Hc & Hs & Hj & Hb & _ & Hsame).
  - by rewrite O13.
  - intros j ([j' b'] & -> & Hin)%list_elem_of_fmap Hb. cbn in Hb. apply Hn.
    destruct (O4 _ _ Hin) as (_ & _ & <-). destruct Hb as (_ & _ & <-).
    apply list_elem_of_fmap. by exists (j', b_blockno (bufat (bc_buf bc) j')).
  - right. eapply room_count; [exact O3|by intros b ?%O12|by rewrite length_fmap].
  - unfold wp. rewrite E. apply HQ. exists pt, bc', l. split; [done|].
    pose proof Hs as [S1 S2 S3 S4 S5]. split; [|intros b; by rewrite S1].
    split; try done; rewrite ?S3, ?S4, ?S5; try done.
    + intros k b [[= -> ->]|Hin]%elem_of_cons; [done|]. unfold holds_block.
      rewrite Hsame; [by apply O4|]. apply list_elem_of_fmap. by exists (k, b).
    + cbn. by constructor.
    + eapply log_is_eq; [exact S5|by rewrite S3|done].
    + intros b. by rewrite S2.
Qed.

Lemma brelse_v fs j bn H bl v w Q :
  sees fs ((j, bn) :: H) bl v w -> (forall w', sees fs H bl v w' -> Q tt w') ->
  wp (brelse j) Q w.
Proof.
  intros (pt & bc & l & -> & Hop & Hv) HQ.
  pose proof Hop as [O1 O2 O3 O4 O5 O6 O7 O8 O8b O9 O10 O11 O12 O13 O14].
  destruct (brelse_ok km fs cn o hw i p pid pt bc l ((j, bn) :: H).*1 [] j O1 O3) as
    (pt' & bc' & E & Hm & Hc & Hs & Hsame); [left|left; set_solver|].
  unfold wp. rewrite E. apply HQ. exists pt', bc', (to_front j l). split; [done|].
  pose proof Hs as [S1 S2 S3 S4 S5]. split; [|intros b; by rewrite S1].
  cbn [fmap list_fmap fst] in Hc, O5. apply NoDup_cons in O5 as [O5 O5'].
  rewrite filter_cons_False in Hc by (intros []; done).
  rewrite (filter_keep (fun k => k <> j) H.*1) in Hc.
  2:{ apply Forall_forall. intros k Hk ->. done. }
  split; try done; rewrite ?S3, ?S4, ?S5; try done.
  - intros k b Hin. assert (k <> j) as Hne by (intros ->; apply O5, list_elem_of_fmap; by exists (j, b)).
    apply (holds_core (bc_buf bc)); [by apply Hsame|]. apply O4. by right.
  - eapply log_is_eq; [exact S5|by rewrite S3|done].
  - intros b. by rewrite S2.
Qed.

Lemma getb_v {A} fs H bl v w j bn d (k : buf -> K A) Q :
  sees fs H bl v w -> (j, bn) ∈ H -> v bn = Some d ->
  (forall b, b_data b = d -> wp (k b) Q w) -> wp (b <- getb j ;; k b) Q w.
Proof.
  intros (pt & bc & l & -> & Hop & Hv) Hin Hd HQ. pose proof (io_cache _ _ _ _ _ Hop) as Hc.
  pose proof (io_held _ _ _ _ _ Hop _ _ Hin) as Hb. pose proof Hb as (Hlt & _ & _).
  unfold wp. erewrite bind_ok by (apply getb_at; rewrite (ca_len _ _ _ _ _ Hc); lia).
  apply HQ. rewrite <- Hv, (contents_cached _ _ _ _ _ _ _ Hc Hb) in Hd. by injection Hd.
Qed.

(** The view with the contents of a block changed. *)
Definition vset (bn : Z) (d : list Z) (v : view) : view := fn_upd bn (Some d) v.

Lemma length_absorb bn bl : (length (absorb bn bl) <= S (length bl))%nat.
Proof. unfold absorb. destruct (decide _); [lia|]. rewrite length_app. cbn. lia. Qed.

(** Changing a held block, inside an operation. *)
Context (Hops : 1 <= nops).

Lemma write_v {A} fs H bl v w j bn d f (k : K A) Q :
  sees fs H bl v w -> (j, bn) ∈ H -> v bn = Some d -> home bn -> room bl 1 ->
  (forall w', sees fs H (absorb bn bl) (vset bn (f d) v) w' -> wp k Q w') ->
  wp (updb j (fun b => set_b_data (f (b_data b)) b) ;; log_write j ;; k) Q w.
Proof.
  intros (pt & bc & l & -> & Hop & Hv) Hin Hd (Hb1 & Hb2 & Hb3) Hr HQ.
  pose proof Hop as [O1 O2 O3 O4 O5 O6 O7 O8 O8b O9 O10 O11 O12 O13 O14].
  pose proof (O4 _ _ Hin) as Hb. pose proof Hb as (Hlt & _ & _).
  assert (j ∈ H.*1) as HjH by (apply list_elem_of_fmap; by exists (j, bn)).
  pose proof (ca_len _ _ _ _ _ O3) as Hlen. destruct (O1.(cm_here _ _ _ _ _)) as (c & Hh & _).
  rewrite <- Hv, (contents_cached _ _ _ _ _ _ _ O3 Hb) in Hd. injection Hd as Hd.
  destruct (bdata_ok pid bc l H.*1 [] bn j (f d) O3 Hb HjH) as (C1 & C2 & C3 & C4 & C5 & C6).
  set (bc1 := bset (set_b_data (f d)) j bc) in *.
  unfold room in Hr. destruct O9 as [F1 F2 F3 F4]. destruct O10 as [G1 G2 G3 G4].
  destruct (log_write_ok km fs cn o hw i p pid pt bc1 l H.*1 [j] st size bl bn j c)
    as (bc2 & E & L1 & L2 & L3 & L4 & L5 & L6 & L7 & L8 & L9 & L10 & L11); try done; try (cbn; lia).
  { by eapply log_is_eq; [| |exact O6]. }
  { apply Forall_forall. intros b Hbl. rewrite Forall_forall in G1. specialize (G1 b Hbl).
    unfold in_disk in G1. pose proof (li_small _ _ _ _ O6). lia. }
  { apply Hb1. }
  { intros b. by rewrite C4. }
  unfold wp. unfold updb at 1. rewrite bind_updbc.
  replace (set_bc_buf _ bc) with bc1.
  2:{ unfold bc1, bset. f_equal. apply list_alter_ext; [|done]. intros b Hbj.
      f_equal. rewrite <- Hd. unfold bufat. by rewrite Hbj. }
  rewrite (bind_ok _ _ _ _ _ E). apply HQ. exists pt, bc2, l. split; [done|]. split.
  - split; try done.
    + rewrite filter_cons_False in L6 by (intros []; done). exact L6.
    + intros k' b Hk'. apply L9. unfold holds_block, bc1. rewrite bset_at by lia.
      pose proof (O4 _ _ Hk') as (? & ? & ?). destruct (decide _) as [->|]; [|done]. by cbn.
    + rewrite L8. exact O8.
    + rewrite L11. exact O8b.
    + rewrite L5. done.
    + rewrite L5. pose proof (length_absorb bn bl). change (bc_disk bc1) with (bc_disk bc).
      split; [| | |lia]; apply Forall_forall; intros b [Hbl| ->]%elem_absorb;
        rewrite ?O13 in *; rewrite Forall_forall in *; auto.
    + by rewrite L5.
    + by rewrite L10.
  - intros b. rewrite L4. unfold vset, fn_upd. destruct (decide (b = bn)) as [->|Hne]; [done|].
    by rewrite C3, Hv.
Qed.

Lemma getfs_v {A B} fs H bl v w (g : fsstate -> A) (k : A -> K B) Q :
  sees fs H bl v w -> wp (k (g fs)) Q w -> wp (x <- getfs g ;; k x) Q w.
Proof. intros (pt & bc & l & -> & _) HQ. unfold wp. by rewrite bind_getfs. Qed.

Lemma geti_v {B} fs H bl v w ip x (k : inode -> K B) Q :
  sees fs H bl v w -> fs_inode fs !! ip = Some x -> wp (k x) Q w -> wp (x <- geti ip ;; k x) Q w.
Proof. intros (pt & bc & l & -> & _) Hx HQ. unfold wp. by erewrite bind_ok by (by apply geti_ok). Qed.

(** The file system state with an in-memory inode changed. *)
Definition iset (ip : nat) (f : inode -> inode) (fs : fsstate) : fsstate :=
  set_fs_inode (alter f ip (fs_inode fs)) fs.

Lemma updi_v fs H bl v w ip f Q :
  sees fs H bl v w -> (forall w', sees (iset ip f fs) H bl v w' -> Q tt w') -> wp (updi ip f) Q w.
Proof.
  intros (pt & bc & l & -> & Hop & Hv) HQ. unfold wp, updi. rewrite updfs_W. apply HQ.
  by exists pt, bc, l.
Qed.

Lemma sees_ext fs H bl v v' w : (forall b, v b = v' b) -> sees fs H bl v w -> sees fs H bl v' w.
Proof. intros E (pt & bc & l & -> & Hop & Hv). exists pt, bc, l. split; [done|]. split; [done|]. intros b. by rewrite Hv. Qed.

Lemma sees_size fs H bl v w : sees fs H bl v w -> size <= LOGSIZE.
Proof. intros (pt & bc & l & -> & Hop & Hv). apply (lf_size _ _ _ (io_fits _ _ _ _ _ Hop)). Qed.

Lemma room_nbuf fs H bl v w k n : sees fs H bl v w -> room bl k -> (n <= k)%nat -> (n + length bl < NBUF)%nat.
Proof. intros Hs Hr Hn. pose proof (sees_size _ _ _ _ _ Hs). unfold room, LOGSIZE, MAXOPBLOCKS, NBUF in *. lia. Qed.

Lemma room_absorb bl bn k : room bl (S k) -> room (absorb bn bl) k.
Proof. pose proof (length_absorb bn bl). unfold room. lia. Qed.

Lemma room_le bl k k' : room bl k -> (k' <= k)%nat -> room bl k'.
Proof. unfold room. lia. Qed.

(** ** The bitmap *)

Definition bit_at (d : list Z) (bi : Z) : bool := Z.testbit (bmap_byte bi d) (bi mod 8).
Definition bit (sb : superblock) v (b : Z) : bool := bit_at (default [] (v (BBLOCK b sb))) (b mod BPB).

Lemma bit_test d bi : (Z.land (bmap_byte bi d) (bit_mask bi) =? 0) = negb (bit_at d bi).
Proof.
  unfold bit_mask, bit_at. pose proof (Z.mod_pos_bound bi 8 ltac:(lia)) as Hb.
  rewrite Z.shiftl_1_l. destruct (Z.testbit _ _) eqn:E; cbn.
  - apply Z.eqb_neq. intros E0. apply (f_equal (fun x => Z.testbit x (bi mod 8))) in E0.
    rewrite Z.land_spec, E, Z.pow2_bits_true, Z.bits_0 in E0 by lia. done.
  - apply Z.eqb_eq. apply Z.bits_inj'. intros n Hn. rewrite Z.land_spec, Z.bits_0.
    destruct (decide (n = bi mod 8)) as [->|Hne]; [by rewrite E|].
    rewrite Z.pow2_bits_false by lia. apply andb_false_r.
Qed.

(** A bitmap block with the byte of [bi] changed. *)
Lemma bit_set d bi bi' x :
  length d = Z.to_nat BSIZE -> 0 <= bi < BPB -> 0 <= bi' < BPB ->
  bit_at (bmap_set bi x d) bi' =
  if decide (bi / 8 = bi' / 8) then Z.testbit x (bi' mod 8) else bit_at d bi'.
Proof.
  intros Hl Hb Hb'. unfold BPB, BSIZE in *. unfold bit_at, bmap_byte, bmap_set, from.
  assert (0 <= bi / 8 < 512) by (split; [apply Z.div_pos; lia|apply Z.div_lt_upper_bound; lia]).
  assert (0 <= bi' / 8 < 512) by (split; [apply Z.div_pos; lia|apply Z.div_lt_upper_bound; lia]).
  destruct (decide _) as [E|E].
  - rewrite <- E, list_lookup_insert_eq by lia. done.
  - rewrite list_lookup_insert_ne by lia. done.
Qed.

(** Setting the bit of [bi], and clearing it. *)
Definition set_bit (d : list Z) (bi : Z) : list Z := bmap_set bi (Z.lor (bmap_byte bi d) (bit_mask bi)) d.
Definition clear_bit (d : list Z) (bi : Z) : list Z :=
  bmap_set bi (Z.land (bmap_byte bi d) (Z.lnot (bit_mask bi))) d.

Lemma bit_index bi bi' : bi / 8 = bi' / 8 -> bi' mod 8 = bi mod 8 -> bi' = bi.
Proof. intros. rewrite (Z.div_mod bi 8), (Z.div_mod bi' 8); lia. Qed.

Lemma bit_set_bit d bi bi' :
  length d = Z.to_nat BSIZE -> 0 <= bi < BPB -> 0 <= bi' < BPB ->
  bit_at (set_bit d bi) bi' = if decide (bi' = bi) then true else bit_at d bi'.
Proof.
  intros Hl Hb Hb'. unfold set_bit. rewrite bit_set by done. unfold bit_mask. rewrite Z.shiftl_1_l.
  pose proof (Z.mod_pos_bound bi 8 ltac:(lia)). pose proof (Z.mod_pos_bound bi' 8 ltac:(lia)).
  destruct (decide (bi / 8 = bi' / 8)) as [E|E].
  - rewrite Z.lor_spec. destruct (decide (bi' = bi)) as [->|Hne].
    + rewrite Z.pow2_bits_true by lia. apply orb_true_r.
    + rewrite Z.pow2_bits_false by (intros E'; apply Hne; by apply bit_index). rewrite orb_false_r.
      unfold bit_at, bmap_byte. by rewrite E.
  - rewrite decide_False by congruence. done.
Qed.

Lemma bit_clear_bit d bi bi' :
  length d = Z.to_nat BSIZE -> 0 <= bi < BPB -> 0 <= bi' < BPB ->
  bit_at (clear_bit d bi) bi' = if decide (bi' = bi) then false else bit_at d bi'.
Proof.
  intros Hl Hb Hb'. unfold clear_bit. rewrite bit_set by done. unfold bit_mask. rewrite Z.shiftl_1_l.
  pose proof (Z.mod_pos_bound bi 8 ltac:(lia)). pose proof (Z.mod_pos_bound bi' 8 ltac:(lia)).
  destruct (decide (bi / 8 = bi' / 8)) as [E|E].
  - rewrite Z.land_spec, Z.lnot_spec by lia. destruct (decide (bi' = bi)) as [->|Hne].
    + rewrite Z.pow2_bits_true by lia. apply andb_false_r.
    + rewrite Z.pow2_bits_false by (intros E'; apply Hne; by apply bit_index). rewrite andb_true_r.
      unfold bit_at, bmap_byte. by rewrite E.
  - rewrite decide_False by congruence. done.
Qed.

(** ** The layout of the disk

    The file system has [sb_size sb] blocks, the data blocks from [ds] on; the
    blocks below, the bitmap's among them, are marked as taken. *)
Record layout (sb : superblock) (ds : Z) v : Prop := {
  ly_size : sb_size sb <= W32;
  ly_map : forall b, 0 <= b < sb_size sb ->
    home (BBLOCK b sb) /\ BBLOCK b sb < ds /\
    exists d, v (BBLOCK b sb) = Some d /\ length d = Z.to_nat BSIZE;
  ly_data : forall b, ds <= b < sb_size sb ->
    home b /\ exists d, v b = Some d /\ length d = Z.to_nat BSIZE;
  ly_low : forall b, 0 <= b < ds -> b < sb_size sb -> bit sb v b = true;
}.

Lemma BBLOCK_chunk sb b b' : b / BPB = b' / BPB -> BBLOCK b sb = BBLOCK b' sb.
Proof. unfold BBLOCK. by intros ->. Qed.

Lemma BBLOCK_inj sb b b' : sb_size sb <= W32 -> 0 <= b < sb_size sb -> 0 <= b' < sb_size sb ->
  BBLOCK b sb = BBLOCK b' sb -> b / BPB = b' / BPB.
Proof.
  unfold BBLOCK, u32, BPB, BSIZE. intros Hs Hb Hb' E.
  assert (0 <= b / (512 * 8) < W32) by (split; [apply Z.div_pos; lia|apply Z.div_lt_upper_bound; unfold W32 in *; lia]).
  assert (0 <= b' / (512 * 8) < W32) by (split; [apply Z.div_pos; lia|apply Z.div_lt_upper_bound; unfold W32 in *; lia]).
  revert E. generalize (b / (512 * 8)) (b' / (512 * 8)) (sb_bmapstart sb) H H0. unfold W32. intros.
  Z.div_mod_to_equations. lia.
Qed.

Section Alloc.
Context (sb : superblock) (ds : Z).

(** The view with the bit of block [b] set or cleared. *)
Definition vbit (on : bool) (b : Z) v : view :=
  let d := default [] (v (BBLOCK b sb)) in
  vset (BBLOCK b sb) (if on then set_bit d (b mod BPB) else clear_bit d (b mod BPB)) v.

Lemma BPB_pos : 0 < BPB.
Proof. done. Qed.

Lemma bit_vbit v on b b' :
  layout sb ds v -> 0 <= b < sb_size sb -> 0 <= b' < sb_size sb ->
  bit sb (vbit on b v) b' = if decide (b' = b) then on else bit sb v b'.
Proof.
  intros [L1 L2 L3 L4] Hb Hb'. destruct (L2 b Hb) as (_ & _ & d & Hd & Hl).
  pose proof (Z.mod_pos_bound b BPB BPB_pos). pose proof (Z.mod_pos_bound b' BPB BPB_pos).
  unfold vbit, bit, vset. rewrite Hd. cbn [default from_option id].
  destruct (decide (b' / BPB = b / BPB)) as [E|E].
  - rewrite (BBLOCK_chunk sb b' b E), fn_upd_eq, Hd. cbn [default from_option id].
    assert (b' mod BPB = b mod BPB <-> b' = b) as Hm.
    { split; [|by intros ->]. intros Em. rewrite (Z.div_mod b' BPB), (Z.div_mod b BPB), E, Em; done. }
    destruct on; [rewrite bit_set_bit by done|rewrite bit_clear_bit by done];
      destruct (decide (b' mod BPB = _)) as [Em|Em]; destruct (decide (b' = b)); tauto || done.
  - rewrite fn_upd_ne by (intros E'; apply E; by eapply BBLOCK_inj).
    by rewrite decide_False by congruence.
Qed.

Lemma layout_vset v b d :
  layout sb ds v -> ds <= b -> length d = Z.to_nat BSIZE -> layout sb ds (vset b d v).
Proof.
  intros [L1 L2 L3 L4] Hb Hd. assert (forall b', 0 <= b' < sb_size sb -> vset b d v (BBLOCK b' sb) = v (BBLOCK b' sb)) as E.
  { intros b' Hb'. apply fn_upd_ne. destruct (L2 b' Hb') as (_ & ? & _). lia. }
  split; [done| | |].
  - intros b' Hb'. rewrite E by done. by apply L2.
  - intros b' Hb'. destruct (L3 b' Hb') as (Hh & d' & Hd' & Hl). split; [done|]. unfold vset, fn_upd.
    destruct (decide (b' = b)); [by exists d|by exists d'].
  - intros b' Hb' Hs. unfold bit. rewrite E by lia. by apply L4.
Qed.

Lemma length_bmap_set bi x d : length (bmap_set bi x d) = length d.
Proof. apply length_insert. Qed.

Lemma layout_vbit v on b :
  layout sb ds v -> ds <= b < sb_size sb -> 0 <= b -> layout sb ds (vbit on b v).
Proof.
  intros HL Hb H0. pose proof HL as [L1 L2 L3 L4]. split; [done| | |].
  - intros b' Hb'. destruct (L2 b' Hb') as (Hh & Hlt & d' & Hd' & Hl'). split; [done|]. split; [done|].
    destruct (L2 b) as (_ & _ & d & Hd & Hl); [lia|]. unfold vbit, vset, fn_upd. rewrite Hd. cbn [default from_option id].
    destruct (decide (BBLOCK b' sb = BBLOCK b sb)); [|by exists d']. eexists. split; [done|].
    destruct on; unfold set_bit, clear_bit; by rewrite length_bmap_set.
  - intros b' Hb'. destruct (L3 b' Hb') as (Hh & d' & Hd' & Hl). split; [done|]. exists d'. split; [|done].
    unfold vbit, vset. rewrite fn_upd_ne; [done|]. destruct (L2 b) as (_ & ? & _); lia.
  - intros b' Hb' Hs. rewrite bit_vbit by (done || lia). rewrite decide_False by lia. by apply L4.
Qed.

Context `{CD : ConsoleDev}.

Definition zeros : list Z := replicate (Z.to_nat BSIZE) 0.

Lemma from_zeros j : from zeros j = 0.
Proof. unfold from, zeros. destruct (_ !! j) as [z|] eqn:E; [|done]. by apply lookup_replicate in E as [-> _]. Qed.

Lemma home_u32 b : home b -> u32 b = b.
Proof. intros ([H0 _] & _ & [_ H1]). apply u32_small. unfold W32. lia. Qed.

Lemma bzero_v fs H bl v w b d Q :
  sees fs H bl v w -> home b -> b ∉ H.*2 -> v b = Some d -> room bl 1 -> (length H <= 1)%nat ->
  (forall w', sees fs H (absorb b bl) (vset b zeros v) w' -> Q tt w') -> wp (bzero 1 b) Q w.
Proof.
  intros Hs Hb Hn Hd Hr Hl HQ. unfold bzero. rewrite (home_u32 b Hb). change (u32 1) with 1.
  apply wp_bind. eapply bread_v; [exact Hs|apply Hb|done|by eapply room_nbuf|]. intros j w1 H1.
  eapply (write_v fs ((j, b) :: H) bl v w1 j b d (fun _ => zeros)); [done|left|done..|]. intros w2 H2.
  eapply brelse_v; [exact H2|]. exact HQ.
Qed.

(** The inner loop of [balloc], on the bitmap block that starts with block [c]. *)
Definition scan_bit (j : nat) (c : Z) (bi : nat) : K (option Z) :=
  let bi := Z.of_nat bi in
  let m := bit_mask bi in
  x <- getb j ;;
  if Z.land (bmap_byte bi (b_data x)) m =? 0 then
    updb j (set_b_data (bmap_set bi (Z.lor (bmap_byte bi (b_data x)) m) (b_data x))) ;;
    log_write j ;;
    brelse j ;;
    bzero 1 (c + bi) ;;
    ret (Some (c + bi))
  else ret None.

(** The result of an allocation. *)
Definition allocated fs H bl v b0 w : Prop :=
  sees fs H (absorb b0 (absorb (BBLOCK b0 sb) bl)) (vset b0 zeros (vbit true b0 v)) w.

Lemma free_is_data v b0 : layout sb ds v -> 0 <= b0 < sb_size sb -> bit sb v b0 = false -> ds <= b0.
Proof.
  intros HL Hb0 Hfree. destruct (Z.le_gt_cases ds b0); [done|]. rewrite (ly_low _ _ _ HL) in Hfree by lia. done.
Qed.

Section Scan.
Context (fs : fsstate) (H : list (nat * Z)) (bl : list Z) (v : view) (b0 : Z).
Context (HL : layout sb ds v) (Hmap : forall b, 0 <= b < sb_size sb -> BBLOCK b sb ∉ H.*2).
Context (Hn0 : b0 ∉ H.*2) (Hl : (length H <= 1)%nat) (Hr : room bl 2).
Context (Hb0 : 0 <= b0 < sb_size sb) (Hfree : bit sb v b0 = false).
Context (Hfirst : forall b, 0 <= b < b0 -> bit sb v b = true).

Lemma chunk_bit k bi : 0 <= k -> 0 <= bi < BPB -> k * BPB + bi < sb_size sb ->
  BBLOCK (k * BPB + bi) sb = BBLOCK (k * BPB) sb /\
  bit sb v (k * BPB + bi) = bit_at (default [] (v (BBLOCK (k * BPB) sb))) bi.
Proof.
  intros Hk Hb Hs. assert (BBLOCK (k * BPB + bi) sb = BBLOCK (k * BPB) sb) as E.
  { apply BBLOCK_chunk. rewrite Z.div_add_l, Z.div_mul, Z.div_small; (lia || done). }
  split; [done|]. unfold bit. rewrite E. f_equal.
  rewrite Z.add_comm, Z.mod_add, Z.mod_small; (lia || done).
Qed.

Lemma scan_found j k bi w :
  0 <= k -> b0 = k * BPB + Z.of_nat bi -> Z.of_nat bi < BPB ->
  sees fs ((j, BBLOCK (k * BPB) sb) :: H) bl v w ->
  wp (scan_bit j (k * BPB) bi) (fun r w' => r = Some b0 /\ allocated fs H bl v b0 w') w.
Proof.
  intros Hk E Hbi Hs. destruct (chunk_bit k (Z.of_nat bi)) as [Eb Ebit]; [done|lia|lia|].
  rewrite <- E in Eb, Ebit. pose proof HL as [L1 L2 L3 L4]. destruct (L2 b0 Hb0) as (Hh & Hlt & d & Hd & Hlen).
  rewrite <- Eb in Hs, Ebit. rewrite Hd in Ebit. unfold scan_bit. cbn zeta.
  eapply getb_v; [exact Hs|left|exact Hd|]. intros b <-.
  rewrite bit_test. cbn [default from_option id] in Ebit. rewrite <- Ebit, Hfree. cbn [negb].
  eapply (write_v fs _ bl v w j _ (b_data b) (fun _ => set_bit (b_data b) (Z.of_nat bi)));
    [exact Hs|left|done|done|by eapply room_le; [exact Hr|lia]|].
  intros w1 H1. apply wp_bind. eapply brelse_v; [exact H1|]. intros w2 H2.
  apply wp_bind. rewrite <- E. pose proof (free_is_data v b0 HL Hb0 Hfree) as Hds. destruct (L3 b0) as (Hh0 & d0 & Hd0 & _); [lia|].
  eapply bzero_v; [exact H2|done|done| |by apply room_absorb|done|].
  { unfold vset. rewrite fn_upd_ne by lia. exact Hd0. }
  intros w3 H3. apply wp_ret. split; [done|]. unfold allocated, vbit. rewrite Hd. cbn [default from_option id].
  replace (b0 mod BPB) with (Z.of_nat bi); [exact H3|].
  rewrite E, Z.add_comm, Z.mod_add, Z.mod_small; (lia || done).
Qed.

Lemma scan_taken j k bi w :
  0 <= k -> k * BPB + Z.of_nat bi < b0 -> Z.of_nat bi < BPB ->
  sees fs ((j, BBLOCK (k * BPB) sb) :: H) bl v w ->
  wp (scan_bit j (k * BPB) bi) (fun r w' => r = None /\ w' = w) w.
Proof.
  intros Hk Hlt Hbi Hs. destruct (chunk_bit k (Z.of_nat bi)) as [Eb Ebit]; [done|lia|lia|].
  pose proof HL as [L1 L2 L3 L4]. destruct (L2 (k * BPB)) as (_ & _ & d & Hd & _); [unfold BPB, BSIZE in *; lia|].
  unfold scan_bit. cbn zeta. eapply getb_v; [exact Hs|left|exact Hd|]. intros b <-.
  rewrite bit_test. rewrite Hd in Ebit. cbn [default from_option id] in Ebit.
  rewrite <- Ebit, Hfirst by (unfold BPB, BSIZE in *; lia). done.
Qed.

Lemma scan_bits j (k : Z) w :
  0 <= k -> k * BPB <= b0 -> sees fs ((j, BBLOCK (k * BPB) sb) :: H) bl v w ->
  wp (for_ (Z.to_nat (Z.min BPB (sb_size sb - k * BPB))) 0 (scan_bit j (k * BPB)))
    (fun r w' => match r with
     | Some a => a = b0 /\ allocated fs H bl v b0 w'
     | None => sees fs ((j, BBLOCK (k * BPB) sb) :: H) bl v w' /\ (k + 1) * BPB <= b0
     end) w.
Proof.
  intros Hk Hle Hs. pose proof BPB_pos as HB.
  set (Inv := fun (bi : nat) w' => sees fs ((j, BBLOCK (k * BPB) sb) :: H) bl v w' /\ k * BPB + Z.of_nat bi <= b0).
  eapply wp_mono; [eapply (wp_for _ Inv (fun a w' => a = b0 /\ allocated fs H bl v b0 w'))|].
  - split; [done|lia].
  - intros bi w' Hbi [Hw Hbi']. destruct (decide (b0 = k * BPB + Z.of_nat bi)) as [E|E].
    + eapply wp_mono; [eapply scan_found; [exact Hk|exact E|lia|exact Hw]|]. intros r w2 [-> Ha]. done.
    + eapply wp_mono; [eapply scan_taken; [exact Hk| |lia|exact Hw]; lia|]. intros r w2 [-> ->].
      split; [done|lia].
  - intros [a|] w'; [done|]. intros [Hw Hn]. split; [done|]. lia.
Qed.
End Scan.

(** [balloc] takes the first block whose bit is clear, zeroed. *)
Lemma balloc_v fs H bl v w b0 Q :
  sees fs H bl v w -> fs_sb fs = sb -> layout sb ds v ->
  (forall b, 0 <= b < sb_size sb -> BBLOCK b sb ∉ H.*2) -> b0 ∉ H.*2 -> (length H <= 1)%nat ->
  0 <= b0 < sb_size sb -> bit sb v b0 = false -> (forall b, 0 <= b < b0 -> bit sb v b = true) ->
  room bl 2 -> (forall w', allocated fs H bl v b0 w' -> Q b0 w') -> wp (balloc 1) Q w.
Proof.
  intros Hs Hsb HL Hmap Hn0 Hl Hb0 Hfree Hfirst Hr HQ. pose proof HL as [L1 L2 L3 L4]. pose proof BPB_pos as HB.
  unfold balloc. eapply getfs_v; [exact Hs|]. rewrite Hsb. apply wp_bind.
  set (Inv := fun (k : nat) w' => sees fs H bl v w' /\ Z.of_nat k * BPB <= b0).
  eapply wp_mono; [eapply (wp_for _ Inv (fun a w' => a = b0 /\ allocated fs H bl v b0 w'))|].
  - split; [done|lia].
  - intros k w' Hk [Hw Hkb]. destruct (L2 (Z.of_nat k * BPB)) as (Hh & _); [lia|].
    apply wp_bind. eapply bread_v; [exact Hw|apply Hh|apply Hmap; lia|eapply room_nbuf; [exact Hw|exact Hr|lia]|].
    intros j w1 H1. apply wp_bind.
    eapply wp_mono; [eapply (scan_bits fs H bl v b0); try done; lia|].
    intros [a|] w2.
    + intros [-> Ha]. apply wp_ret. done.
    + intros [H2 Hn]. apply wp_bind. eapply brelse_v; [exact H2|]. intros w3 H3. apply wp_ret.
      split; [done|]. lia.
  - intros [a|] w'.
    + intros [-> Ha]. apply wp_ret. by apply HQ.
    + intros [_ Hk]. exfalso. cbn [Nat.add] in Hk.
      assert (0 <= (sb_size sb + BPB - 1) / BPB) by (apply Z.div_pos; lia).
      rewrite Z2Nat.id in Hk by done.
      pose proof (Z.mul_succ_div_gt (sb_size sb + BPB - 1) BPB HB). lia.
Qed.

(** [bfree] clears the bit of an allocated block. *)
Lemma bfree_v fs H bl v w b Q :
  sees fs H bl v w -> fs_sb fs = sb -> layout sb ds v -> 0 <= b < sb_size sb ->
  BBLOCK b sb ∉ H.*2 -> (length H <= 1)%nat -> bit sb v b = true -> room bl 1 ->
  (forall w', sees fs H (absorb (BBLOCK b sb) bl) (vbit false b v) w' -> Q tt w') ->
  wp (bfree 1 b) Q w.
Proof.
  intros Hs Hsb HL Hb Hn Hl Hbit Hr HQ. destruct (ly_map _ _ _ HL b Hb) as (Hh & _ & d & Hd & _).
  unfold bfree. eapply getfs_v; [exact Hs|]. rewrite Hsb. change (u32 1) with 1.
  apply wp_bind. eapply bread_v; [exact Hs|apply Hh|done|by eapply room_nbuf|]. intros j w1 H1.
  eapply getb_v; [exact H1|left|exact Hd|]. intros x Ex. rewrite bit_test.
  unfold bit in Hbit. rewrite Hd in Hbit. cbn [default from_option id] in Hbit.
  rewrite Ex, Hbit. cbn [negb].
  eapply (write_v fs _ bl v w1 j _ d (fun _ => clear_bit d (b mod BPB))); [exact H1|left|done..|].
  intros w2 H2. eapply brelse_v; [exact H2|]. intros w3 H3. apply HQ. unfold vbit. by rewrite Hd.
Qed.
End Alloc.

(** ** Inodes on disk *)

(** The fields of an inode that are on disk fit there. *)
Record fields_ok (x : inode) : Prop := {
  fo_type : -32768 <= i_type x < 32768;
  fo_major : -32768 <= i_major x < 32768;
  fo_minor : -32768 <= i_minor x < 32768;
  fo_nlink : -32768 <= i_nlink x < 32768;
  fo_size : 0 <= i_size x < W32;
  fo_len : length (i_addrs x) = 13%nat;
  fo_addrs : Forall (fun a => 0 <= a < W32) (i_addrs x);
}.

(** [y] with the on-disk fields of [x]. *)
Definition with_fields (x y : inode) : inode :=
  y |> set_i_type (i_type x) |> set_i_major (i_major x) |> set_i_minor (i_minor x)
    |> set_i_nlink (i_nlink x) |> set_i_size (i_size x) |> set_i_addrs (i_addrs x).

Lemma length_enc_dinode x : fields_ok x -> length (enc_dinode x) = 64%nat.
Proof. intros Hx. unfold enc_dinode. rewrite !length_app, length_array, (fo_len _ Hx). done. Qed.

Lemma dec_enc_dinode o' d x y :
  fields_ok x -> (o' + 64 <= length d)%nat ->
  dec_dinode o' (splice o' (enc_dinode x) d) y = with_fields x y.
Proof.
  intros Hx Hd. pose proof (length_enc_dinode x Hx) as Hl. pose proof Hx as [F1 F2 F3 F4 F5 F6 F7].
  assert (forall k, (k + 2 <= 64)%nat -> le16 (o' + k)%nat (splice o' (enc_dinode x) d) = le16 k (enc_dinode x)) as E16
    by (intros k Hk; apply le16_in_splice; lia).
  assert (forall k, (k + 4 <= 64)%nat -> le32 (o' + k)%nat (splice o' (enc_dinode x) d) = le32 k (enc_dinode x)) as E32
    by (intros k Hk; apply le32_in_splice; lia).
  pose proof (E16 0%nat ltac:(lia)) as E0. rewrite Nat.add_0_r in E0.
  unfold dec_dinode, with_fields. rewrite E0, !E16, E32 by lia.
  replace ((fun k => le32 (o' + 12 + 4 * k)%nat _) <$> seq 0 13) with (i_addrs x).
  2:{ apply list_eq. intros k. rewrite list_lookup_fmap. destruct (decide (k < 13)%nat) as [Hk|Hk].
      - rewrite lookup_seq_lt by done. cbn [fmap option_fmap option_map].
        destruct (lookup_lt_is_Some_2 (i_addrs x) k) as [z Hz]; [lia|]. rewrite Hz. f_equal.
        rewrite <- Nat.add_assoc, E32 by lia. unfold enc_dinode. rewrite !app_assoc.
        match goal with |- _ = le32 _ (?h ++ ?r) => change (z = le32 (length h + 4 * k)%nat (h ++ r)) end.
        rewrite le32_app_r. symmetry. by apply le32_array.
      - rewrite lookup_seq_ge, lookup_ge_None_2 by lia. done. }
  unfold enc_dinode.
  change (le16 2 (enc16 (i_type x) ++ ?l)) with (le16 0 l).
  change (le16 4 (enc16 (i_type x) ++ enc16 (i_major x) ++ ?l)) with (le16 0 l).
  change (le16 6 (enc16 (i_type x) ++ enc16 (i_major x) ++ enc16 (i_minor x) ++ ?l)) with (le16 0 l).
  change (le32 8 (enc16 (i_type x) ++ enc16 (i_major x) ++ enc16 (i_minor x) ++ enc16 (i_nlink x) ++ ?l))
    with (le32 0 l).
  by rewrite !le16_enc, le32_enc by done.
Qed.

(** The inode table on disk. *)
Definition dinode_at (sb : superblock) v (inum : Z) (y : inode) : inode :=
  dec_dinode (dinode_off inum) (default [] (v (IBLOCK inum sb))) y.

Lemma dinode_off_lt inum : (dinode_off inum + 64 <= Z.to_nat BSIZE)%nat.
Proof.
  unfold dinode_off, BSIZE. change IPB with 8. pose proof (Z.mod_pos_bound inum 8 ltac:(lia)). lia.
Qed.

(** Other inodes of the block keep their place. *)
Lemma dec_enc_other d x y inum inum' :
  fields_ok x -> length d = Z.to_nat BSIZE -> dinode_off inum' <> dinode_off inum ->
  dec_dinode (dinode_off inum') (splice (dinode_off inum) (enc_dinode x) d) y = dec_dinode (dinode_off inum') d y.
Proof.
  intros Hx Hd Hne. pose proof (length_enc_dinode x Hx) as Hl.
  pose proof (dinode_off_lt inum) as Hi. pose proof (dinode_off_lt inum') as Hi'.
  assert (dinode_off inum' + 64 <= dinode_off inum \/ dinode_off inum + 64 <= dinode_off inum')%nat as Ho.
  { revert Hne. unfold dinode_off. change IPB with 8. pose proof (Z.mod_pos_bound inum 8 ltac:(lia)).
    pose proof (Z.mod_pos_bound inum' 8 ltac:(lia)). lia. }
  set (o' := dinode_off inum') in *. set (o0 := dinode_off inum) in *.
  assert (forall k, (k < 64)%nat -> from (splice o0 (enc_dinode x) d) (o' + k)%nat = from d (o' + k)%nat) as E.
  { intros k Hk. rewrite from_splice, decide_False by lia. done. }
  assert (forall k, (k + 2 <= 64)%nat -> le16 (o' + k)%nat (splice o0 (enc_dinode x) d) = le16 (o' + k)%nat d) as E16.
  { intros k Hk. unfold le16. rewrite <- Nat.add_succ_r. by rewrite !E by lia. }
  assert (forall k, (k + 4 <= 64)%nat -> le32 (o' + k)%nat (splice o0 (enc_dinode x) d) = le32 (o' + k)%nat d) as E32.
  { intros k Hk. rewrite !le32_bytes, <- !Nat.add_assoc. by rewrite !E by lia. }
  pose proof (E16 0%nat ltac:(lia)) as E0. rewrite Nat.add_0_r in E0.
  unfold dec_dinode. rewrite E0, !E16, E32 by lia. f_equal.
  apply list_fmap_ext. intros k z Hz. rewrite lookup_seq in Hz. destruct Hz as [-> Hz].
  rewrite <- Nat.add_assoc. apply E32. lia.
Qed.

Section Inodes.
Context (sb : superblock).
Context `{CD : ConsoleDev}.

(** [iupdate] stores the inode in its slot of the inode table. *)
Definition vinode x v : view :=
  let b := IBLOCK (i_inum x) sb in
  vset b (splice (dinode_off (i_inum x)) (enc_dinode x) (default [] (v b))) v.

Lemma iupdate_v fs H bl v w ip x d Q :
  sees fs H bl v w -> fs_sb fs = sb -> fs_inode fs !! ip = Some x -> i_dev x = 1 ->
  let b := IBLOCK (i_inum x) sb in
  home b -> v b = Some d -> b ∉ H.*2 -> (length H <= 1)%nat -> room bl 1 ->
  (forall w', sees fs H (absorb b bl) (vinode x v) w' -> Q tt w') ->
  wp (iupdate ip) Q w.
Proof.
  intros Hs Hsb Hx Hdev b Hh Hd Hn Hl Hr HQ. unfold iupdate. eapply getfs_v; [exact Hs|].
  eapply geti_v; [exact Hs|exact Hx|]. rewrite Hdev, Hsb. apply wp_bind.
  eapply bread_v; [exact Hs|apply Hh|done|by eapply room_nbuf|]. intros j w1 H1.
  eapply geti_v; [exact H1|exact Hx|].
  eapply (write_v fs _ bl v w1 j b d (fun d => splice (dinode_off (i_inum x)) (enc_dinode x) d));
    [exact H1|left|done..|].
  intros w2 H2. eapply brelse_v; [exact H2|]. intros w3 H3. apply HQ. unfold vinode. fold b. by rewrite Hd.
Qed.
End Inodes.
End View.
