(* ===== verification/Content.v ===== *)
(** * The contents of files

    [bmap], [readi] and [writei] of [fs.c] on the view of the blocks: where the
    blocks of a file are, what its bytes are, and what writing does to them and
    to the blocks of the rest of the file system. *)

From stdpp Require Import prelude list gmap.
From Stdlib Require Import ZArith Lia.
From S2P Require Import Prelude State Boot Spinlock Str Kalloc Cprintf Vm Sched Sleeplock Bio Log Fs Fsview.
#[local] Open Scope c_scope.

Section Content.
Context (sb : superblock) (ds : Z) (Hds : 0 < ds).
Implicit Types (v : view) (addrs : list Z).

(** ** The free blocks *)

(** The free blocks, in order. *)
Definition free v : list Z := filter (fun b => bit sb v b = false) (seqZ 0 (sb_size sb)).

Lemma elem_free v b : b ∈ free v <-> 0 <= b < sb_size sb /\ bit sb v b = false.
Proof. unfold free. rewrite list_elem_of_filter, elem_of_seqZ. naive_solver lia. Qed.

Lemma NoDup_free v : NoDup (free v).
Proof. apply NoDup_filter, NoDup_seqZ. Qed.

(** The head of a filtered list comes after no element that passes. *)
Lemma filter_first {A} (P : A -> Prop) `{!forall x, Decision (P x)} (l : list A) x r :
  filter P l = x :: r -> exists l1 l2, l = l1 ++ x :: l2 /\ P x /\ Forall (fun y => ~ P y) l1.
Proof.
  induction l as [|y l IH]; [done|]. destruct (decide (P y)) as [Hy|Hy].
  - rewrite filter_cons_True by done. intros [= <- _]. by exists [], l.
  - rewrite filter_cons_False by done. intros (l1 & l2 & -> & Hx & Hl)%IH.
    exists (y :: l1), l2. split; [done|]. split; [done|]. by constructor.
Qed.

Lemma free_first v b r : free v = b :: r ->
  0 <= b < sb_size sb /\ bit sb v b = false /\ forall b', 0 <= b' < b -> bit sb v b' = true.
Proof.
  intros E. assert (b ∈ free v) as Hb by (rewrite E; left). apply elem_free in Hb as [Hb Hbit].
  split; [done|]. split; [done|]. intros b' Hb'. apply filter_first in E as (l1 & l2 & E & _ & Hl).
  destruct (bit sb v b') eqn:Eb; [done|]. exfalso. rewrite Forall_forall in Hl. apply (Hl b'); [|done].
  assert (b' ∈ seqZ 0 (sb_size sb)) as Hin by (apply elem_of_seqZ; lia). rewrite E in Hin.
  apply elem_of_app in Hin as [?|Hin]; [done|]. exfalso.
  assert (seqZ 0 (sb_size sb) !! length l1 = Some b) as H1 by (by rewrite E, list_lookup_middle).
  apply list_elem_of_lookup in Hin as [k Hk].
  assert (seqZ 0 (sb_size sb) !! (length l1 + k)%nat = Some b') as H2
    by (rewrite E, lookup_app_r, Nat.add_comm, Nat.add_sub by lia; done).
  apply lookup_seqZ in H1, H2. lia.
Qed.

(** ** What an operation does to the blocks

    The blocks [new] are taken from the free ones, and of the data blocks only
    those of [touched] have new contents. *)
Context (st size : Z) (dsk : diskT).
Abbreviation layout := (Fsview.layout st size dsk sb ds).

Definition is_map (b : Z) : Prop := exists c, 0 <= c < sb_size sb /\ b = BBLOCK c sb.

Record changes v v' (new touched : list Z) : Prop := {
  ch_layout : layout v';
  ch_data : forall b, ds <= b < sb_size sb -> b ∉ touched -> v' b = v b;
  ch_meta : forall b, b < ds \/ sb_size sb <= b -> ~ is_map b -> v' b = v b;
  ch_bits : forall b, 0 <= b < sb_size sb -> bit sb v' b = bool_decide (b ∈ new) || bit sb v b;
  ch_new : free v = new ++ free v';
}.

Lemma changes_refl v : layout v -> changes v v [] [].
Proof. by split. Qed.

Lemma changes_trans v1 v2 v3 new1 new2 t1 t2 :
  changes v1 v2 new1 t1 -> changes v2 v3 new2 t2 -> changes v1 v3 (new1 ++ new2) (t1 ++ t2).
Proof.
  intros [A1 A2 A3 A4 A5] [B1 B2 B3 B4 B5]. split; [done| | | |].
  - intros b Hb Ht. rewrite B2, A2 by set_solver. done.
  - intros b Hb Hm. by rewrite B3, A3.
  - intros b Hb. rewrite B4, A4 by done. rewrite orb_assoc. f_equal.
    do 3 case_bool_decide; done || set_solver.
  - by rewrite A5, B5, app_assoc.
Qed.

Lemma free_ext v v' : (forall b, 0 <= b < sb_size sb -> bit sb v' b = bit sb v b) -> free v' = free v.
Proof.
  intros E. unfold free. assert (Forall (fun b => bit sb v' b = bit sb v b) (seqZ 0 (sb_size sb))) as HF.
  { apply Forall_forall. intros b Hb%elem_of_seqZ. apply E. lia. }
  induction HF as [|b l Hb Hl IH]; [done|]. rewrite !filter_cons, Hb, IH. done.
Qed.

(** Writing a data block. *)
Lemma changes_write v b d :
  layout v -> ds <= b < sb_size sb -> length d = Z.to_nat BSIZE -> changes v (vset b d v) [] [b].
Proof.
  intros HL Hb Hd. assert (forall b', 0 <= b' < sb_size sb -> bit sb (vset b d v) b' = bit sb v b') as Hbits.
  { intros b' Hb'. unfold bit, vset. rewrite fn_upd_ne; [done|].
    destruct (ly_map _ _ _ _ _ _ HL b' Hb') as (_ & ? & _). lia. }
  split.
  - apply layout_vset; done || lia.
  - intros b' _ Ht. apply fn_upd_ne. set_solver.
  - intros b' Hb' _. apply fn_upd_ne. lia.
  - intros b' Hb'. rewrite bool_decide_eq_false_2 by set_solver. by apply Hbits.
  - cbn. symmetry. by apply free_ext.
Qed.

(** Taking the first free block. *)
Lemma changes_alloc v b r :
  layout v -> free v = b :: r ->
  ds <= b < sb_size sb /\ changes v (vset b zeros (vbit sb true b v)) [b] [b].
Proof.
  intros HL Hf. destruct (free_first _ _ _ Hf) as (Hb & Hbit & Hfirst).
  assert (ds <= b) as Hb1. { by eapply free_is_data. }
  assert (layout (vbit sb true b v)) as HL1 by (apply layout_vbit; done || lia).
  pose proof (changes_write _ b zeros HL1 ltac:(lia) eq_refl) as [C1 C2 C3 C4 C5].
  assert (forall b', 0 <= b' < sb_size sb -> bit sb (vset b zeros (vbit sb true b v)) b' =
    bool_decide (b' ∈ [b]) || bit sb v b') as Hbits.
  { intros b' Hb'. rewrite C4 by done. rewrite bool_decide_eq_false_2 by set_solver. cbn [orb].
    erewrite bit_vbit by done. destruct (decide (b' = b)) as [->|Hne].
    - by rewrite bool_decide_eq_true_2 by set_solver.
    - by rewrite bool_decide_eq_false_2 by set_solver. }
  split; [lia|]. split; [done| | |done|].
  - intros b' Hb' Ht. rewrite C2 by done. unfold vbit, vset. rewrite fn_upd_ne; [done|].
    destruct (ly_map _ _ _ _ _ _ HL b Hb) as (_ & ? & _). lia.
  - intros b' Hb' Hm. rewrite C3 by done. unfold vbit, vset. rewrite fn_upd_ne; [done|].
    intros ->. apply Hm. by exists b.
  - cbn [app]. assert (b ∉ r) as Hr by (pose proof (NoDup_free v) as Hn; rewrite Hf in Hn; by apply NoDup_cons in Hn as [? _]).
    transitivity (b :: filter (fun b' => b' <> b) (free v)).
    { rewrite Hf, filter_cons_False by (intros []; done). f_equal. symmetry. apply filter_keep.
      apply Forall_forall. intros x Hx ->. done. }
    f_equal. unfold free. rewrite list_filter_filter. symmetry.
    assert (Forall (fun x => 0 <= x < sb_size sb) (seqZ 0 (sb_size sb))) as HF.
    { apply Forall_forall. intros x Hx%elem_of_seqZ. lia. }
    clear -HF Hbits. induction HF as [|x l Hx Hl IH]; [done|]. rewrite !filter_cons, IH, Hbits by done.
    destruct (decide (x = b)) as [->|Hne].
    + rewrite bool_decide_eq_true_2 by set_solver. cbn [orb]. rewrite !decide_False by naive_solver. done.
    + rewrite bool_decide_eq_false_2 by set_solver. cbn [orb].
      destruct (decide (bit sb v x = false)); [rewrite decide_True|rewrite decide_False]; naive_solver.
Qed.

(** ** The blocks of a file *)

(** The indirect block, and its entry [k]. *)
Definition ind addrs : Z := default 0 (addrs !! Z.to_nat NDIRECT).
Definition ientry v (a k : Z) : Z := le32 (Z.to_nat (4 * k)) (default [] (v a)).

(** The block of the file's bytes from [bn * BSIZE] on; 0 if there is none. *)
Definition addr_of v addrs (bn : Z) : Z :=
  if bn <? NDIRECT then default 0 (addrs !! Z.to_nat bn)
  else if ind addrs =? 0 then 0 else ientry v (ind addrs) (bn - NDIRECT).

Definition taken v (b : Z) : Prop := ds <= b < sb_size sb /\ bit sb v b = true.

(** The blocks of a file are marked as taken in the bitmap, and no block has
    two uses in it. *)
Record file_ok v addrs : Prop := {
  fk_len : length addrs = 13%nat;
  fk_ind : ind addrs = 0 \/ taken v (ind addrs);
  fk_blk : forall bn, 0 <= bn < MAXFILE -> addr_of v addrs bn = 0 \/ taken v (addr_of v addrs bn);
  fk_inj : forall bn bn', 0 <= bn < MAXFILE -> 0 <= bn' < MAXFILE ->
    addr_of v addrs bn = addr_of v addrs bn' -> addr_of v addrs bn <> 0 -> bn = bn';
  fk_ne : forall bn, 0 <= bn < MAXFILE -> addr_of v addrs bn <> 0 -> addr_of v addrs bn <> ind addrs;
}.

Lemma changes_taken v v' new t b : changes v v' new t -> taken v b -> taken v' b.
Proof.
  intros HC [Hb Hbit]. split; [done|]. rewrite (ch_bits _ _ _ _ HC) by lia. rewrite Hbit. apply orb_true_r.
Qed.

Lemma changes_new v v' new t b : changes v v' new t -> layout v -> b ∈ new -> ~ taken v b /\ taken v' b.
Proof.
  intros HC HL Hb. assert (b ∈ free v) as [Hr Hf]%elem_free.
  { rewrite (ch_new _ _ _ _ HC). apply elem_of_app. by left. }
  pose proof (free_is_data _ _ _ _ _ _ _ HL Hr Hf). split; [intros [_ ?]; congruence|]. split; [lia|].
  rewrite (ch_bits _ _ _ _ HC) by lia. by rewrite bool_decide_eq_true_2.
Qed.

(** A file after one of its block numbers, or its indirect block, got a new
    block. *)
Lemma file_ok_grow v v' new t addrs addrs' bn :
  layout v -> file_ok v addrs -> changes v v' new t -> 0 <= bn < MAXFILE -> length addrs' = 13%nat ->
  (forall bn', 0 <= bn' < MAXFILE -> bn' <> bn -> addr_of v' addrs' bn' = addr_of v addrs bn') ->
  (addr_of v' addrs' bn = addr_of v addrs bn \/ addr_of v' addrs' bn ∈ new) ->
  (ind addrs' = ind addrs \/ ind addrs' ∈ new /\ ind addrs' <> addr_of v' addrs' bn) ->
  file_ok v' addrs'.
Proof.
  intros HL [F1 F2 F3 F4 F5] HC Hbn Hlen Hsame Ha Hi.
  assert (forall b, b ∈ new -> b <> 0 /\ ~ taken v b /\ taken v' b) as Hnew.
  { intros b Hb. destruct (changes_new _ _ _ _ _ HC HL Hb) as [N1 N2]. split; [|done]. destruct N2. lia. }
  assert (forall bn', 0 <= bn' < MAXFILE -> addr_of v addrs bn' ∈ new -> False) as Hold.
  { intros bn' Hb' Hin. destruct (Hnew _ Hin) as (N1 & N2 & _). destruct (F3 bn' Hb'); done. }
  assert (forall bn', 0 <= bn' < MAXFILE -> addr_of v' addrs' bn' = addr_of v addrs bn' \/
    bn' = bn /\ addr_of v' addrs' bn ∈ new) as Hcase.
  { intros bn' Hb'. destruct (decide (bn' = bn)) as [->|Hne]; [|by left; apply Hsame]. tauto. }
  split; [done| | | |].
  - destruct Hi as [-> | [Hi _]]; [|right; by apply Hnew]. destruct F2 as [?|?]; [by left|right].
    by eapply changes_taken.
  - intros bn' Hb'. destruct (Hcase bn' Hb') as [-> | [-> Hin]]; [|right; by apply Hnew].
    destruct (F3 bn' Hb') as [?|?]; [by left|right]. by eapply changes_taken.
  - intros b1 b2 H1 H2 E N. destruct (Hcase b1 H1) as [E1 | [-> I1]]; destruct (Hcase b2 H2) as [E2 | [-> I2]].
    + apply F4; congruence.
    + exfalso. apply (Hold b1 H1). congruence.
    + exfalso. apply (Hold b2 H2). congruence.
    + done.
  - intros b1 H1 N E. destruct Hi as [Ei | [Ii Ni]].
    + destruct (Hcase b1 H1) as [E1 | [-> I1]]; [apply (F5 b1 H1); congruence|].
      destruct (Hnew _ I1) as (N1 & N2 & _). destruct F2; congruence.
    + destruct (Hcase b1 H1) as [E1 | [-> I1]]; [|congruence]. apply (Hold b1 H1). congruence.
Qed.

(** ** The bytes of a file *)

Definition fbyte v addrs (k : Z) : Z :=
  from (default [] (v (addr_of v addrs (k / BSIZE)))) (Z.to_nat (k mod BSIZE)).
Definition file_bytes v addrs (off n : Z) : list Z :=
  (fun k => fbyte v addrs (off + Z.of_nat k)) <$> seq 0 (Z.to_nat n).

Lemma file_bytes_app v addrs off n m : 0 <= n -> 0 <= m ->
  file_bytes v addrs off (n + m) = file_bytes v addrs off n ++ file_bytes v addrs (off + n) m.
Proof.
  intros Hn Hm. unfold file_bytes. rewrite Z2Nat.inj_add, seq_app, fmap_app by done. f_equal. cbn [Nat.add].
  replace (seq (Z.to_nat n) (Z.to_nat m)) with (Nat.add (Z.to_nat n) <$> seq 0 (Z.to_nat m))
    by (by rewrite fmap_add_seq, Nat.add_0_r).
  rewrite <- list_fmap_compose. apply list_fmap_ext. intros k z _.
  cbn. f_equal. lia.
Qed.

(** The bytes from one block. *)
Lemma file_bytes_chunk v addrs off m d : 0 <= off -> 0 <= m <= BSIZE - off mod BSIZE ->
  v (addr_of v addrs (off / BSIZE)) = Some d -> length d = Z.to_nat BSIZE ->
  sub_ (Z.to_nat (off mod BSIZE)) (Z.to_nat m) d = file_bytes v addrs off m.
Proof.
  intros Ho Hm Hd Hl. unfold BSIZE in *. pose proof (Z.mod_pos_bound off 512 ltac:(lia)) as Hb.
  apply list_eq. intros k. unfold sub_, file_bytes. rewrite list_lookup_fmap.
  destruct (decide (k < Z.to_nat m)%nat) as [Hk|Hk].
  - rewrite lookup_take_lt, lookup_drop, lookup_seq_lt by lia. cbn. unfold fbyte, BSIZE.
    assert ((off + Z.of_nat k) / 512 = off / 512 /\ (off + Z.of_nat k) mod 512 = off mod 512 + Z.of_nat k) as [-> ->].
    { Z.div_mod_to_equations. lia. }
    rewrite Hd. cbn [default from_option id]. unfold from.
    destruct (lookup_lt_is_Some_2 d (Z.to_nat (off mod 512) + k)) as [z Hz]; [lia|]. rewrite Hz.
    replace (Z.to_nat (off mod 512 + Z.of_nat k)) with (Z.to_nat (off mod 512) + k)%nat by lia. by rewrite Hz.
  - rewrite lookup_take_ge, lookup_seq_ge by lia. done.
Qed.

(** ** [bmap] and [readi] *)

Section Machine.
Context (km : kmstate) (cn : cnstate) (o : list (kstate -> kstate)).
Context (hw : hwstate) (i p : nat) (pid : Z) (hist : list diskT) (nops : Z).
Context `{CD : ConsoleDev}.
#[local] Existing Instance Memide.driver.
Abbreviation sees := (Fsview.sees km cn o hw i p pid st size dsk hist nops).
Implicit Types (fs : fsstate) (w : world) (bl : list Z).

Lemma sees_small fs H bl v w : sees fs H bl v w -> (length bl < NBUF)%nat.
Proof.
  intros (pt & bc & l & -> & Hop & _). pose proof (bo_size _ _ _ _ (io_blocks _ _ _ _ _ _ _ _ _ _ _ _ _ _ Hop)).
  pose proof (lf_size _ _ _ (io_fits _ _ _ _ _ _ _ _ _ _ _ _ _ _ Hop)). unfold LOGSIZE, MAXOPBLOCKS, NBUF in *. lia.
Qed.

Lemma at_v {A B} what (l : list A) k a (f : A -> K B) Q w :
  l !! k = Some a -> wp (f a) Q w -> wp (x <- at_ what l k ;; f x) Q w.
Proof. intros Hk HQ. unfold at_. rewrite Hk. exact HQ. Qed.

Lemma addr_direct v addrs bn : length addrs = 13%nat -> 0 <= bn < NDIRECT ->
  addrs !! Z.to_nat bn = Some (addr_of v addrs bn).
Proof.
  intros Hl Hb. unfold addr_of. destruct (Z.ltb_spec bn NDIRECT); [|lia].
  destruct (lookup_lt_is_Some_2 addrs (Z.to_nat bn)) as [a Ha]; [unfold NDIRECT in *; lia|]. by rewrite Ha.
Qed.

Lemma ind_at addrs : length addrs = 13%nat -> addrs !! Z.to_nat NDIRECT = Some (ind addrs).
Proof.
  intros Hl. unfold ind. destruct (lookup_lt_is_Some_2 addrs (Z.to_nat NDIRECT)) as [a Ha];
    [unfold NDIRECT; lia|]. by rewrite Ha.
Qed.

Lemma addr_indirect v addrs bn : NDIRECT <= bn -> ind addrs <> 0 ->
  addr_of v addrs bn = ientry v (ind addrs) (bn - NDIRECT).
Proof.
  intros Hb Hi. unfold addr_of. destruct (Z.ltb_spec bn NDIRECT); [lia|].
  destruct (Z.eqb_spec (ind addrs) 0); [done|]. done.
Qed.

Lemma bmap_found fs bl v w ip x bn Q :
  sees fs [] bl v w -> fs_inode fs !! ip = Some x -> i_dev x = 1 -> layout v ->
  file_ok v (i_addrs x) -> 0 <= bn < MAXFILE -> addr_of v (i_addrs x) bn <> 0 ->
  (forall w', sees fs [] bl v w' -> Q (addr_of v (i_addrs x) bn) w') -> wp (bmap ip bn) Q w.
Proof.
  intros Hs Hx Hdev HL [F1 F2 F3 F4 F5] Hbn Ha HQ. unfold bmap. eapply geti_v; [exact Hs|exact Hx|].
  destruct (Z.ltb_spec bn NDIRECT) as [Hlt|Hge].
  - eapply at_v; [apply (addr_direct v); [done|lia]|]. destruct (Z.eqb_spec (addr_of v (i_addrs x) bn) 0); [done|].
    apply wp_ret. by apply HQ.
  - assert (ind (i_addrs x) <> 0) as Hi.
    { intros E. apply Ha. unfold addr_of. destruct (Z.ltb_spec bn NDIRECT); [lia|]. by rewrite E. }
    destruct (Z.ltb_spec (bn - NDIRECT) NINDIRECT); [|unfold MAXFILE in *; lia].
    eapply at_v; [by apply ind_at|]. destruct (Z.eqb_spec (ind (i_addrs x)) 0); [done|].
    apply wp_bind, wp_ret. eapply geti_v; [exact Hs|exact Hx|]. rewrite Hdev.
    destruct F2 as [?|[Hr _]]; [done|]. destruct (ly_data _ _ _ _ _ _ HL _ Hr) as (Hh & d & Hd & Hl).
    apply wp_bind. eapply bread_v; [exact Hs|apply Hh|set_solver|by eapply sees_small|]. intros j w1 H1.
    eapply getb_v; [exact H1|left|exact Hd|]. intros b Eb.
    rewrite (addr_indirect v _ bn) in * by done. unfold ientry in *. rewrite Hd in *. rewrite Eb.
    cbn [default from_option id] in *.
    destruct (Z.eqb_spec (le32 (Z.to_nat (4 * (bn - NDIRECT))) d) 0); [done|].
    apply wp_bind, wp_ret, wp_bind. eapply brelse_v; [exact H1|]. intros w2 H2. apply wp_ret. by apply HQ.
Qed.

(** Every byte of the file below its size has a block. *)
Definition filled v x : Prop :=
  forall k, 0 <= k < i_size x -> k / BSIZE < MAXFILE /\ addr_of v (i_addrs x) (k / BSIZE) <> 0.

(** A turn of the loops of [readi] and [writei] handles [m] bytes of one block. *)
Lemma chunk_bounds off n tot : 0 <= off -> tot < n ->
  let m := Z.min (n - tot) (BSIZE - off mod BSIZE) in 0 < m <= BSIZE - off mod BSIZE /\ tot + m <= n.
Proof. intros Ho Hn m. unfold m, BSIZE. pose proof (Z.mod_pos_bound off 512 ltac:(lia)). lia. Qed.

(** Turns enough: those left cover the bytes left and those before them in the
    first block. *)
Definition turns (fuel : nat) (off n tot : Z) : Prop :=
  (1 <= fuel)%nat /\ (tot < n -> n - tot + off mod BSIZE <= (Z.of_nat fuel - 1) * BSIZE).

Lemma turns_start off n : 0 <= off -> 0 <= n -> turns (io_fuel n) off n 0.
Proof.
  intros Ho Hn. unfold turns, io_fuel, BSIZE. pose proof (Z.mod_pos_bound off 512 ltac:(lia)).
  pose proof (Z.div_mod n 512 ltac:(lia)). pose proof (Z.mod_pos_bound n 512 ltac:(lia)).
  assert (0 <= n / 512) by (apply Z.div_pos; lia). lia.
Qed.

Lemma turns_step fuel off n tot : 0 <= off -> tot < n -> turns (S fuel) off n tot ->
  let m := Z.min (n - tot) (BSIZE - off mod BSIZE) in turns fuel (off + m) n (tot + m).
Proof.
  intros Ho Hn [H1 H2] m. specialize (H2 Hn). unfold turns, m, BSIZE in *.
  pose proof (Z.mod_pos_bound off 512 ltac:(lia)) as Hb. split; [lia|]. intros Hlt.
  rewrite Z.min_r in * by lia. replace ((off + (512 - off mod 512)) mod 512) with 0; [lia|].
  Z.div_mod_to_equations. lia.
Qed.

Definition read_turn (ip : nat) (n : Z) '(tot, off, dst) : K (Z * Z * list Z + list Z) :=
  if n <=? tot then ret (inr dst) else
  x <- geti ip ;;
  bn <- bmap ip (off / BSIZE) ;;
  bp <- bread (i_dev x) bn ;;
  let m := Z.min (n - tot) (BSIZE - off mod BSIZE) in
  b <- getb bp ;;
  let chunk := sub_ (Z.to_nat (off mod BSIZE)) (Z.to_nat m) (b_data b) in
  brelse bp ;;
  ret (inl (tot + m, off + m, dst ++ chunk)).

Section Read.
Context (fs : fsstate) (bl : list Z) (v : view) (ip : nat) (x : inode).
Context (Hx : fs_inode fs !! ip = Some x) (Hdev : i_dev x = 1).
Context (HL : layout v) (HF : file_ok v (i_addrs x)) (Hfill : filled v x).

Lemma readi_loop off n fuel tot dst w Q :
  sees fs [] bl v w -> 0 <= off -> 0 <= tot <= n -> off + (n - tot) <= i_size x -> turns fuel off n tot ->
  (forall w', sees fs [] bl v w' -> Q (dst ++ file_bytes v (i_addrs x) off (n - tot)) w') ->
  wp (loop_ fuel (read_turn ip n) (tot, off, dst)) Q w.
Proof.
  revert off tot dst w. induction fuel as [|fuel IH]; intros off tot dst w Hs Ho Ht Hsz Hf HQ; [destruct Hf; lia|].
  cbn [loop_]. unfold read_turn at 1. destruct (Z.leb_spec n tot).
  { apply wp_bind, wp_ret, wp_ret. replace (n - tot) with 0 in HQ by lia.
    rewrite app_nil_r in HQ. by apply HQ. }
  rewrite wp_bind. eapply geti_v; [exact Hs|exact Hx|]. apply wp_bind.
  destruct (Hfill off) as [Hmax Ha]; [lia|]. assert (0 <= off / BSIZE) by (apply Z.div_pos; done || lia).
  eapply bmap_found; [exact Hs|done..|lia|done|]. intros w1 H1. rewrite Hdev. apply wp_bind.
  destruct (fk_blk _ _ HF (off / BSIZE)) as [?|[Hr _]]; [lia|done|].
  destruct (ly_data _ _ _ _ _ _ HL _ Hr) as (Hh & d & Hd & Hl).
  eapply bread_v; [exact H1|apply Hh|set_solver|by eapply sees_small|]. intros j w2 H2.
  eapply getb_v; [exact H2|left|exact Hd|]. intros b Eb. apply wp_bind.
  eapply brelse_v; [exact H2|]. intros w3 H3. apply wp_ret.
  destruct (chunk_bounds off n tot) as [Hm1 Hm2]; [lia|lia|]. cbn zeta in Hm1, Hm2.
  set (m := Z.min _ _) in *. apply IH; [done|lia|lia|lia|by apply turns_step|].
  intros w' Hw. rewrite <- app_assoc, Eb, (file_bytes_chunk v (i_addrs x) off m d) by (done || lia).
  rewrite <- file_bytes_app by lia. replace (m + (n - (tot + m))) with (n - tot) by lia. by apply HQ.
Qed.

Lemma readi_v off n w Q :
  sees fs [] bl v w -> i_type x <> T_DEV -> 0 <= off <= i_size x -> 0 <= n -> off + n < W32 ->
  let k := Z.min n (i_size x - off) in
  (forall w', sees fs [] bl v w' -> Q (k, file_bytes v (i_addrs x) off k) w') ->
  wp (readi ip off n) Q w.
Proof.
  intros Hs Ht Ho Hn Hw k HQ. unfold readi. eapply geti_v; [exact Hs|exact Hx|].
  destruct (Z.eqb_spec (i_type x) T_DEV); [done|]. rewrite u32_small by lia.
  destruct (Z.ltb_spec (i_size x) off); [lia|]. destruct (Z.ltb_spec (off + n) off); [lia|]. cbn [orb].
  replace (if i_size x <? off + n then i_size x - off else n) with k
    by (unfold k; destruct (Z.ltb_spec (i_size x) (off + n)); lia).
  apply wp_bind. apply (readi_loop off k (io_fuel k) 0 []); [done|lia|lia|lia|apply turns_start; lia|].
  intros w' H'. rewrite Z.sub_0_r. apply wp_ret. by apply HQ.
Qed.
End Read.

(** ** [bmap] when the block is missing *)

Context (Hops : 1 <= nops).

(** The view after [balloc] took block [b]. *)
Definition valloc (b : Z) v : view := vset b zeros (vbit sb true b v).
Definition lalloc (b : Z) bl : list Z := absorb b (absorb (BBLOCK b sb) bl).

Lemma alloc_v fs H bl v w b r Q :
  sees fs H bl v w -> fs_sb fs = sb -> layout v -> free v = b :: r ->
  Forall (fun b' => ds <= b') H.*2 -> b ∉ H.*2 -> (length H <= 1)%nat -> room size bl 2 ->
  (forall w', sees fs H (lalloc b bl) (valloc b v) w' -> Q b w') -> wp (balloc 1) Q w.
Proof.
  intros Hs Hsb HL Hf HH Hn Hl Hr HQ. destruct (free_first _ _ _ Hf) as (Hb & Hbit & Hfirst).
  eapply balloc_v; [exact Hops|exact Hs|exact Hsb|exact HL| |done..]. intros b' Hb' Hin.
  rewrite Forall_forall in HH. specialize (HH _ Hin).
  destruct (ly_map _ _ _ _ _ _ HL b' Hb') as (_ & ? & _). lia.
Qed.

Definition bmap_tail (ip : nat) (k addr : Z) : K Z :=
  x <- geti ip ;;
  bp <- bread (i_dev x) addr ;;
  b <- getb bp ;;
  let addr := le32 (Z.to_nat (4 * k)) (b_data b) in
  addr <- (if addr =? 0 then
             x <- geti ip ;;
             addr <- balloc (i_dev x) ;;
             updb bp (fun b => set_b_data (splice (Z.to_nat (4 * k)) (enc32 addr) (b_data b)) b) ;;
             log_write bp ;;
             ret addr
           else ret addr) ;;
  brelse bp ;;
  ret addr.

(** Entry [k] of the indirect block [a] set to [b]. *)
Definition ventry (a k b : Z) v : view := vset a (splice (Z.to_nat (4 * k)) (enc32 b) (default [] (v a))) v.

Lemma tail_alloc fs bl v w ip x k b r Q :
  sees fs [] bl v w -> fs_inode fs !! ip = Some x -> i_dev x = 1 -> fs_sb fs = sb -> layout v ->
  taken v (ind (i_addrs x)) -> ientry v (ind (i_addrs x)) k = 0 -> free v = b :: r -> room size bl 3 ->
  (forall w', sees fs [] (absorb (ind (i_addrs x)) (lalloc b bl)) (ventry (ind (i_addrs x)) k b (valloc b v)) w' ->
    Q b w') ->
  wp (bmap_tail ip k (ind (i_addrs x))) Q w.
Proof.
  intros Hs Hx Hdev Hsb HL [Hr Hbit] Hz Hf Hroom HQ. set (a := ind (i_addrs x)) in *.
  destruct (ly_data _ _ _ _ _ _ HL _ Hr) as (Hh & d & Hd & Hl).
  destruct (free_first _ _ _ Hf) as (Hb & Hbf & _).
  assert (a <> b) as Hab by (intros ->; congruence).
  unfold bmap_tail. eapply geti_v; [exact Hs|exact Hx|]. rewrite Hdev. apply wp_bind.
  eapply bread_v; [exact Hs|apply Hh|set_solver|by eapply sees_small|]. intros j w1 H1.
  eapply getb_v; [exact H1|left|exact Hd|]. intros y Ey.
  unfold ientry in Hz. rewrite Hd in Hz. cbn [default from_option id] in Hz. rewrite Ey, Hz. cbn [Z.eqb].
  rewrite wp_bind. eapply geti_v; [exact H1|exact Hx|]. rewrite Hdev. apply wp_bind.
  eapply alloc_v; [exact H1|done|done|exact Hf| | |cbn; lia|by eapply room_le; [exact Hroom|lia]|].
  { repeat constructor. cbn. lia. }
  { cbn. intros [?|[]%elem_of_nil]%elem_of_cons. congruence. }
  intros w2 H2.
  assert (valloc b v a = Some d) as Hd2.
  { destruct (changes_alloc v b r HL Hf) as [Hbr HC]. unfold valloc.
    rewrite (ch_data _ _ _ _ HC a) by (done || set_solver). exact Hd. }
  eapply (write_v _ _ _ _ _ _ _ _ _ _ _ _ Hops fs _ _ _ w2 j a d
    (fun d => splice (Z.to_nat (4 * k)) (enc32 b) d)); [exact H2|left|exact Hd2|exact Hh| |].
  { do 2 apply room_absorb. exact Hroom. }
  intros w3 H3. apply wp_ret, wp_bind. eapply brelse_v; [exact H3|]. intros w4 H4. apply wp_ret, HQ.
  unfold ventry. by rewrite Hd2.
Qed.

Lemma addr_ext v v' addrs bn :
  (ind addrs <> 0 -> v' (ind addrs) = v (ind addrs)) -> addr_of v' addrs bn = addr_of v addrs bn.
Proof.
  intros E. unfold addr_of, ientry. destruct (bn <? NDIRECT); [done|].
  destruct (Z.eqb_spec (ind addrs) 0); [done|]. by rewrite E.
Qed.

Lemma addr_alloc v b r addrs bn :
  layout v -> free v = b :: r -> file_ok v addrs -> addr_of (valloc b v) addrs bn = addr_of v addrs bn.
Proof.
  intros HL Hf [_ F2 _ _ _]. apply addr_ext. intros Hi. destruct F2 as [?|[Hr Hbit]]; [done|].
  destruct (changes_alloc v b r HL Hf) as [_ HC]. unfold valloc. apply (ch_data _ _ _ _ HC); [done|].
  destruct (free_first _ _ _ Hf) as (_ & Hbf & _). intros ?%list_elem_of_singleton. congruence.
Qed.

Lemma addr_insert v addrs bn b bn' :
  length addrs = 13%nat -> 0 <= bn < NDIRECT -> 0 <= bn' ->
  addr_of v (<[Z.to_nat bn := b]> addrs) bn' = if decide (bn' = bn) then b else addr_of v addrs bn'.
Proof.
  intros Hl Hb Hb'. unfold NDIRECT in *. assert (ind (<[Z.to_nat bn := b]> addrs) = ind addrs) as Ei.
  { unfold ind. by rewrite list_lookup_insert_ne by (unfold NDIRECT; lia). }
  unfold addr_of. rewrite Ei. unfold NDIRECT. destruct (Z.ltb_spec bn' 12).
  - destruct (decide (bn' = bn)) as [->|Hne]; [by rewrite list_lookup_insert_eq by lia|].
    by rewrite list_lookup_insert_ne by lia.
  - by rewrite decide_False by lia.
Qed.

Lemma addr_ventry v addrs k b bn d :
  ind addrs <> 0 -> v (ind addrs) = Some d -> length d = Z.to_nat BSIZE ->
  0 <= k < NINDIRECT -> 0 <= b < W32 -> 0 <= bn < MAXFILE ->
  addr_of (ventry (ind addrs) k b v) addrs bn = if decide (bn = NDIRECT + k) then b else addr_of v addrs bn.
Proof.
  intros Hi Hd Hl Hk Hb Hbn. unfold MAXFILE in Hbn. change NINDIRECT with 128 in *. change NDIRECT with 12 in *.
  unfold BSIZE in *. unfold addr_of. change NDIRECT with 12.
  destruct (Z.ltb_spec bn 12); [by rewrite decide_False by lia|]. destruct (Z.eqb_spec (ind addrs) 0); [done|].
  unfold ientry, ventry, vset. rewrite fn_upd_eq, Hd. cbn [default from_option id].
  destruct (decide (bn = 12 + k)) as [->|Hne].
  - replace (12 + k - 12) with k by lia. rewrite le32_splice_eq by lia. by apply u32_small.
  - apply le32_splice_ne; cbn [length enc32]; lia.
Qed.

Lemma addr_new_ind v addrs b bn :
  length addrs = 13%nat -> ind addrs = 0 -> b <> 0 -> v b = Some zeros -> 0 <= bn ->
  addr_of v (<[Z.to_nat NDIRECT := b]> addrs) bn = addr_of v addrs bn.
Proof.
  intros Hl Hi Hb Hz Hbn. assert (ind (<[Z.to_nat NDIRECT := b]> addrs) = b) as Ei.
  { unfold ind. by rewrite list_lookup_insert_eq by (unfold NDIRECT; lia). }
  unfold addr_of. rewrite Ei, Hi. destruct (Z.ltb_spec bn NDIRECT).
  - by rewrite list_lookup_insert_ne by (unfold NDIRECT in *; lia).
  - destruct (Z.eqb_spec b 0); [done|]. cbn [Z.eqb]. unfold ientry. rewrite Hz. cbn [default from_option id].
    rewrite le32_bytes. pose proof from_zeros as Ez.
    by rewrite !Ez.
Qed.

(** ** What [bmap] does *)

Definition icredit addrs bl : nat := if decide (ind addrs <> 0 /\ ind addrs ∈ bl) then 0 else 2.

Definition missing (a : Z) : nat := if decide (a = 0) then 1 else 0.

(** Block [bn] of the file has a block now: the one it had, or a new one.
    The log has grown by at most two blocks, once by two more for the indirect
    block. *)
Record bmapped v addrs bl (bn : Z) v' addrs' bl' : Prop := {
  bm_ok : file_ok v' addrs';
  bm_addr : addr_of v' addrs' bn <> 0;
  bm_same : forall bn', 0 <= bn' < MAXFILE -> bn' <> bn -> addr_of v' addrs' bn' = addr_of v addrs bn';
  bm_old : addr_of v addrs bn <> 0 -> addr_of v' addrs' bn = addr_of v addrs bn;
  bm_keep : addr_of v addrs bn <> 0 -> addrs' = addrs;
  bm_logged : addr_of v addrs bn = 0 -> addr_of v' addrs' bn ∈ bl';
  bm_log : (length bl' + icredit addrs' bl' <=
            length bl + icredit addrs bl + 2 * missing (addr_of v addrs bn))%nat;
  bm_change : exists new touched, changes v v' new touched /\
    (forall b, b ∈ touched -> b ∈ new \/ b = ind addrs /\ b <> 0) /\
    (length new + missing (ind addrs') <= missing (addr_of v addrs bn) + missing (ind addrs))%nat /\
    (addr_of v addrs bn = 0 -> addr_of v' addrs' bn ∈ new) /\
    (ind addrs' = ind addrs \/ ind addrs' ∈ new);
  bm_zero : addr_of v addrs bn = 0 -> v' (addr_of v' addrs' bn) = Some zeros;
}.

Lemma bmapped_id v addrs bl bn :
  layout v -> file_ok v addrs -> addr_of v addrs bn <> 0 -> bmapped v addrs bl bn v addrs bl.
Proof.
  intros HL HF Ha. split; try done; [lia|]. exists [], []. split; [by apply changes_refl|].
  split; [by intros b ?%elem_of_nil|]. split; [cbn; lia|]. split; [done|by left].
Qed.

Lemma lalloc_in b bl : b ∈ lalloc b bl.
Proof. apply elem_absorb. by right. Qed.
Lemma lalloc_sub b bl b' : b' ∈ bl -> b' ∈ lalloc b bl.
Proof. intros Hb. apply elem_absorb. left. apply elem_absorb. by left. Qed.
Lemma length_lalloc b bl : (length (lalloc b bl) <= 2 + length bl)%nat.
Proof. unfold lalloc. pose proof (length_absorb b (absorb (BBLOCK b sb) bl)). pose proof (length_absorb (BBLOCK b sb) bl). lia. Qed.

Lemma icredit_le addrs bl bl' : (forall b, b ∈ bl -> b ∈ bl') -> (icredit addrs bl' <= icredit addrs bl)%nat.
Proof.
  intros Hs. unfold icredit. destruct (decide (_ /\ _ ∈ bl)) as [[H1 H2]|]; [|destruct (decide _); lia].
  rewrite decide_True; [done|]. auto.
Qed.

Lemma free_block v b r : layout v -> free v = b :: r -> b <> 0 /\ 0 <= b < W32.
Proof.
  intros HL Hf. destruct (free_first _ _ _ Hf) as (Hb & Hbit & _).
  pose proof (free_is_data _ _ _ _ _ _ _ HL Hb Hbit). pose proof (ly_size _ _ _ _ _ _ HL). lia.
Qed.

(** A missing direct block. *)
Lemma bmapped_direct v addrs bl bn b r :
  layout v -> file_ok v addrs -> 0 <= bn < NDIRECT -> addr_of v addrs bn = 0 -> free v = b :: r ->
  addr_of (valloc b v) (<[Z.to_nat bn := b]> addrs) bn = b /\
  bmapped v addrs bl bn (valloc b v) (<[Z.to_nat bn := b]> addrs) (lalloc b bl).
Proof.
  intros HL HF Hbn Ha Hf. pose proof (fk_len _ _ HF) as Hlen. destruct (changes_alloc v b r HL Hf) as [Hr HC].
  destruct (free_block _ _ _ HL Hf) as [Hb0 Hbw].
  assert (ind (<[Z.to_nat bn := b]> addrs) = ind addrs) as Ei.
  { unfold ind. by rewrite list_lookup_insert_ne by (unfold NDIRECT in *; lia). }
  assert (forall bn', 0 <= bn' -> addr_of (valloc b v) (<[Z.to_nat bn := b]> addrs) bn' =
    if decide (bn' = bn) then b else addr_of v addrs bn') as E.
  { intros bn' Hb'. rewrite addr_insert by done. destruct (decide _); [done|]. by eapply addr_alloc. }
  assert (addr_of (valloc b v) (<[Z.to_nat bn := b]> addrs) bn = b) as Eb by (rewrite E, decide_True by lia; done).
  split; [done|]. split.
  - apply (file_ok_grow v _ [b] [b] addrs _ bn); try done.
    + unfold MAXFILE. change NINDIRECT with 128. lia.
    + by rewrite length_insert.
    + intros bn' Hb' Hne. rewrite E, decide_False by lia. done.
    + right. rewrite Eb. left.
    + by left.
  - by rewrite Eb.
  - intros bn' Hb' Hne. rewrite E, decide_False by lia. done.
  - done.
  - done.
  - intros _. rewrite Eb. apply lalloc_in.
  - pose proof (length_lalloc b bl). pose proof (icredit_le addrs bl (lalloc b bl) (lalloc_sub b bl)).
    unfold icredit in *. rewrite Ei, Ha. change (missing 0) with 1%nat. lia.
  - exists [b], [b]. split; [done|]. split; [auto|]. rewrite Ei, Ha, Eb. cbn [length]. change (missing 0) with 1%nat.
    split; [lia|]. split; [left|by left].
  - intros _. rewrite Eb. unfold valloc, vset. by rewrite fn_upd_eq.
Qed.

(** A missing block in an indirect block that is there. *)
Lemma bmapped_indirect v addrs bl k b r :
  layout v -> file_ok v addrs -> 0 <= k < NINDIRECT -> ind addrs <> 0 -> addr_of v addrs (NDIRECT + k) = 0 ->
  free v = b :: r ->
  addr_of (ventry (ind addrs) k b (valloc b v)) addrs (NDIRECT + k) = b /\
  bmapped v addrs bl (NDIRECT + k) (ventry (ind addrs) k b (valloc b v)) addrs (absorb (ind addrs) (lalloc b bl)).
Proof.
  intros HL HF Hk Hi Ha Hf. destruct (changes_alloc v b r HL Hf) as [Hr HC]. destruct (free_block _ _ _ HL Hf) as [Hb0 Hbw].
  destruct (fk_ind _ _ HF) as [?|[Hri Hbit]]; [done|]. destruct (ly_data _ _ _ _ _ _ HL _ Hri) as (Hh & d & Hd & Hl).
  destruct (free_first _ _ _ Hf) as (_ & Hbf & _). assert (ind addrs <> b) as Hne by congruence.
  assert (valloc b v (ind addrs) = Some d) as Hd1.
  { unfold valloc. rewrite (ch_data _ _ _ _ HC) by (done || set_solver). done. }
  assert (forall bn', 0 <= bn' < MAXFILE -> addr_of (ventry (ind addrs) k b (valloc b v)) addrs bn' =
    if decide (bn' = NDIRECT + k) then b else addr_of v addrs bn') as E.
  { intros bn' Hb'. erewrite addr_ventry by done. destruct (decide _); [done|]. by eapply addr_alloc. }
  assert (0 <= NDIRECT + k < MAXFILE) as Hbn by (unfold MAXFILE, NDIRECT in *; lia).
  assert (addr_of (ventry (ind addrs) k b (valloc b v)) addrs (NDIRECT + k) = b) as Eb
    by (rewrite E, decide_True by done; done).
  assert (changes v (ventry (ind addrs) k b (valloc b v)) ([b] ++ []) ([b] ++ [ind addrs])) as HC2.
  { eapply changes_trans; [exact HC|]. apply changes_write; [apply HC|done|].
    fold (valloc b v). rewrite Hd1. cbn [default from_option id]. unfold NINDIRECT, BSIZE in *.
    rewrite length_splice; [done|]. cbn [length enc32]. change (512 / 4) with 128 in Hk. lia. }
  split; [done|]. split; try done.
  - apply (file_ok_grow v _ ([b] ++ []) _ addrs _ (NDIRECT + k) HL HF HC2); [done|apply HF| | |by left].
    + intros bn' Hb' Hn'. rewrite E, decide_False by done. done.
    + right. rewrite Eb. left.
  - by rewrite Eb.
  - intros bn' Hb' Hn'. rewrite E, decide_False by done. done.
  - intros _. rewrite Eb. apply elem_absorb. left. apply lalloc_in.
  - unfold icredit. rewrite (decide_True (P := _ /\ ind addrs ∈ absorb _ _)).
    2:{ split; [done|]. apply elem_absorb. by right. }
    pose proof (length_lalloc b bl). pose proof (length_absorb (ind addrs) (lalloc b bl)). rewrite Ha. change (missing 0) with 1%nat.
    destruct (decide (_ /\ ind addrs ∈ bl)) as [[_ Hin]|]; [|lia].
    unfold absorb at 1. rewrite decide_True by (by apply lalloc_sub). lia.
  - eexists _, _. split; [exact HC2|]. split; [set_solver|]. rewrite Ha, Eb. cbn [length app]. change (missing 0) with 1%nat.
    split; [lia|]. split; [left|by left].
  - intros _. rewrite Eb. unfold ventry, valloc, vset. rewrite fn_upd_ne by done. by rewrite fn_upd_eq.
Qed.

(** A new indirect block: no block of the file changes its place. *)
Lemma new_ind_ok v addrs b r :
  layout v -> file_ok v addrs -> ind addrs = 0 -> free v = b :: r ->
  let addrs1 := <[Z.to_nat NDIRECT := b]> addrs in
  file_ok (valloc b v) addrs1 /\ ind addrs1 = b /\
  (forall bn, 0 <= bn -> addr_of (valloc b v) addrs1 bn = addr_of v addrs bn) /\ free (valloc b v) = r.
Proof.
  intros HL HF Hi Hf addrs1. destruct (changes_alloc v b r HL Hf) as [Hr HC]. destruct (free_block _ _ _ HL Hf) as [Hb0 Hbw].
  pose proof (fk_len _ _ HF) as Hlen. assert (ind addrs1 = b) as Ei.
  { unfold ind, addrs1. by rewrite list_lookup_insert_eq by (unfold NDIRECT; lia). }
  assert (forall bn, 0 <= bn -> addr_of (valloc b v) addrs1 bn = addr_of v addrs bn) as E.
  { intros bn Hbn. unfold addrs1. rewrite addr_new_ind; [by eapply addr_alloc|done..| |done].
    unfold valloc, vset. by rewrite fn_upd_eq. }
  split; [|split; [done|split; [done|]]].
  - apply (file_ok_grow v _ [b] [b] addrs _ NDIRECT); try done.
    + unfold addrs1. by rewrite length_insert.
    + intros bn' Hb' _. apply E. lia.
    + left. by apply E.
    + right. rewrite Ei. split; [left|]. rewrite E by done. unfold addr_of. rewrite Hi. exact Hb0.
  - pose proof (ch_new _ _ _ _ HC) as Hfr. fold (valloc b v) in Hfr. rewrite Hf in Hfr. by injection Hfr.
Qed.

Lemma bmapped_new_ind v addrs bl bn b r v' addrs' bl' :
  layout v -> file_ok v addrs -> ind addrs = 0 -> free v = b :: r -> NDIRECT <= bn < MAXFILE ->
  bmapped (valloc b v) (<[Z.to_nat NDIRECT := b]> addrs) (lalloc b bl) bn v' addrs' bl' ->
  bmapped v addrs bl bn v' addrs' bl'.
Proof.
  intros HL HF Hi Hf Hbn [B1 B2 B3 B4 Bk B5 B6 (new & t & C & Ht & Hn & Hfa & Hfi) Bz].
  destruct (new_ind_ok v addrs b r HL HF Hi Hf) as (_ & Ei & E & _). destruct (changes_alloc v b r HL Hf) as [Hr HC].
  destruct (free_block _ _ _ HL Hf) as [Hb0 _]. unfold NDIRECT in Hbn.
  assert (addr_of v addrs bn = 0) as Ha.
  { unfold addr_of, NDIRECT. destruct (Z.ltb_spec bn 12); [lia|]. by rewrite Hi. }
  rewrite E in * by lia. rewrite Ei in *. rewrite Ha in *.
  split; try done.
  - intros bn' Hb' Hne. rewrite B3, E by (done || lia). done.
  - intros _. by apply B5.
  - rewrite Ha. pose proof (length_lalloc b bl).
    assert (icredit (<[Z.to_nat NDIRECT := b]> addrs) (lalloc b bl) = 0%nat) as E1.
    { unfold icredit. rewrite Ei, decide_True; [done|]. split; [done|apply lalloc_in]. }
    assert (icredit addrs bl = 2%nat) as E2 by (unfold icredit; rewrite decide_False; [done|]; rewrite Hi; tauto).
    rewrite E1 in B6. rewrite E2. lia.
  - exists ([b] ++ new), ([b] ++ t). split; [by eapply changes_trans|]. split; [set_solver|].
    rewrite Ha, Hi. change (missing 0) with 1%nat in *. replace (missing b) with 0%nat in Hn.
    + cbn [app length]. split; [lia|]. split; [set_solver|]. right. destruct Hfi as [-> |]; set_solver.
    + unfold missing. by rewrite decide_False.
  - intros _. by apply Bz.
Qed.

Lemma iset_id ip x fs : fs_inode fs !! ip = Some x -> iset ip (set_i_addrs (i_addrs x)) fs = fs.
Proof.
  intros Hx. unfold iset. rewrite (list_alter_ext _ id _ (fs_inode fs)); [|intros y Hy|done].
  - rewrite list_alter_id by done. by destruct fs.
  - simplify_eq. by destruct x.
Qed.

Lemma iset_at ip f x fs : fs_inode fs !! ip = Some x -> fs_inode (iset ip f fs) !! ip = Some (f x).
Proof. intros Hx. cbn. by rewrite list_lookup_alter_eq, Hx. Qed.

Lemma iset_ext ip f g x fs : fs_inode fs !! ip = Some x -> f x = g x -> iset ip f fs = iset ip g fs.
Proof.
  intros Hx E. unfold iset. f_equal. apply list_alter_ext; [|done]. intros y Hy. by simplify_eq.
Qed.

Lemma iset_addrs ip a a' fs : iset ip (set_i_addrs a) (iset ip (set_i_addrs a') fs) = iset ip (set_i_addrs a) fs.
Proof. unfold iset. cbn. rewrite list_alter_alter_eq. reflexivity. Qed.

(** What [bmap] promises to its caller. *)
Definition bmap_post fs ip v addrs bl bn (Q : Z -> world -> Prop) : Prop :=
  forall w' v' addrs' bl', sees (iset ip (set_i_addrs addrs') fs) [] bl' v' w' ->
    bmapped v addrs bl bn v' addrs' bl' -> Q (addr_of v' addrs' bn) w'.

(** An entry missing in the indirect block. *)
Lemma tail_v fs bl v w ip x k b r Q :
  sees fs [] bl v w -> fs_inode fs !! ip = Some x -> i_dev x = 1 -> fs_sb fs = sb -> layout v ->
  file_ok v (i_addrs x) -> 0 <= k < NINDIRECT -> ind (i_addrs x) <> 0 ->
  addr_of v (i_addrs x) (NDIRECT + k) = 0 -> free v = b :: r -> room size bl 3 ->
  bmap_post fs ip v (i_addrs x) bl (NDIRECT + k) Q -> wp (bmap_tail ip k (ind (i_addrs x))) Q w.
Proof.
  intros Hs Hx Hdev Hsb HL HF Hk Hi Ha Hf Hroom HQ. destruct (fk_ind _ _ HF) as [?|HT]; [done|].
  destruct (bmapped_indirect v (i_addrs x) bl k b r HL HF Hk Hi Ha Hf) as [Eb HB].
  eapply tail_alloc; [exact Hs|done..| |exact Hf|exact Hroom|].
  - rewrite addr_indirect in Ha by (done || lia). by replace (NDIRECT + k - NDIRECT) with k in Ha by lia.
  - intros w3 H3. rewrite <- Eb. eapply HQ; [by rewrite (iset_id ip x)|exact HB].
Qed.

(** The indirect block itself missing. *)
Definition bmap_new_ind (ip : nat) (x : inode) (k : Z) : K Z :=
  addr <- (addr <- balloc (i_dev x) ;;
           updi ip (fun x => set_i_addrs (<[Z.to_nat NDIRECT := addr]> (i_addrs x)) x) ;;
           ret addr) ;;
  bmap_tail ip k addr.

Lemma new_ind_v fs bl v w ip x k b b1 r Q :
  sees fs [] bl v w -> fs_inode fs !! ip = Some x -> i_dev x = 1 -> fs_sb fs = sb -> layout v ->
  file_ok v (i_addrs x) -> 0 <= k < NINDIRECT -> ind (i_addrs x) = 0 -> free v = b :: b1 :: r -> room size bl 5 ->
  bmap_post fs ip v (i_addrs x) bl (NDIRECT + k) Q -> wp (bmap_new_ind ip x k) Q w.
Proof.
  intros Hs Hx Hdev Hsb HL HF Hk Hi Hf Hroom HQ. destruct (free_block _ _ _ HL Hf) as [Hb0 _].
  destruct (new_ind_ok v (i_addrs x) b (b1 :: r) HL HF Hi Hf) as (HF1 & Ei & E & Hf1).
  destruct (changes_alloc v b _ HL Hf) as [_ HC]. fold (valloc b v) in HC.
  unfold bmap_new_ind. rewrite Hdev, wp_bind, wp_bind.
  eapply alloc_v; [exact Hs|done|done|exact Hf|constructor|set_solver|cbn; lia|by eapply room_le; [exact Hroom|lia]|].
  intros w1 H1. apply wp_bind. eapply updi_v; [exact H1|]. intros w2 H2. apply wp_ret.
  rewrite (iset_ext ip _ (set_i_addrs (<[Z.to_nat NDIRECT := b]> (i_addrs x))) x fs Hx) in H2 by reflexivity.
  set (x1 := set_i_addrs (<[Z.to_nat NDIRECT := b]> (i_addrs x)) x).
  enough (wp (bmap_tail ip k (ind (i_addrs x1))) Q w2) as Hw by (cbn [x1 i_addrs set_i_addrs] in Hw; by rewrite Ei in Hw).
  eapply (tail_v _ _ _ _ ip x1 k b1 r);
    [exact H2|exact (iset_at ip (set_i_addrs _) x fs Hx)|done|done|apply HC|done|done| | |done| |].
  - cbn. by rewrite Ei.
  - cbn [x1 i_addrs set_i_addrs]. rewrite E by (unfold NDIRECT; lia). unfold addr_of.
    destruct (Z.ltb_spec (NDIRECT + k) NDIRECT); [lia|]. by rewrite Hi.
  - do 2 apply room_absorb. exact Hroom.
  - intros w3 v3 addrs3 bl3 H3 HB. rewrite iset_addrs in H3.
    apply (bmapped_new_ind v _ bl _ b (b1 :: r)) in HB; [|done..|unfold MAXFILE, NDIRECT in *; lia]. by eapply HQ.
Qed.

(** [bmap] of the file's block [bn]. *)
Lemma bmap_v fs bl v w ip x bn Q :
  sees fs [] bl v w -> fs_inode fs !! ip = Some x -> i_dev x = 1 -> fs_sb fs = sb -> layout v ->
  file_ok v (i_addrs x) -> 0 <= bn < MAXFILE ->
  (addr_of v (i_addrs x) bn = 0 -> room size bl (icredit (i_addrs x) bl + 3) /\
    (1 + missing (ind (i_addrs x)) <= length (free v))%nat) ->
  bmap_post fs ip v (i_addrs x) bl bn Q -> wp (bmap ip bn) Q w.
Proof.
  intros Hs Hx Hdev Hsb HL HF Hbn Hnew HQ. destruct (decide (addr_of v (i_addrs x) bn = 0)) as [Ha|Ha].
  2:{ eapply bmap_found; [exact Hs|done..|]. intros w' Hw. apply (HQ w' v _ bl); [by rewrite (iset_id ip x)|].
      by apply bmapped_id. }
  destruct (Hnew Ha) as [Hroom Hfree]. destruct (free v) as [|b r] eqn:Hf; [cbn in Hfree; lia|].
  pose proof (fk_len _ _ HF) as Hlen.
  unfold bmap. eapply geti_v; [exact Hs|exact Hx|]. destruct (Z.ltb_spec bn NDIRECT) as [Hlt|Hge].
  { eapply at_v; [apply (addr_direct v); [done|lia]|]. rewrite Ha, Hdev. cbn [Z.eqb]. apply wp_bind.
    eapply alloc_v; [exact Hs|done|done|exact Hf|constructor|set_solver|cbn; lia|by eapply room_le; [exact Hroom|lia]|].
    intros w1 H1. apply wp_bind. eapply updi_v; [exact H1|]. intros w2 H2. apply wp_ret.
    destruct (bmapped_direct v (i_addrs x) bl bn b r HL HF ltac:(lia) Ha Hf) as [Eb HB].
    rewrite <- Eb at 1. eapply HQ; [|exact HB].
    rewrite (iset_ext ip _ (set_i_addrs (<[Z.to_nat bn := b]> (i_addrs x))) x fs Hx) in H2 by reflexivity. exact H2. }
  destruct (Z.ltb_spec (bn - NDIRECT) NINDIRECT) as [Hk|]; [|unfold MAXFILE in *; lia].
  assert (bn = NDIRECT + (bn - NDIRECT)) as Ebn by lia. set (k := bn - NDIRECT) in *. clearbody k. subst bn.
  eapply at_v; [by apply ind_at|]. destruct (Z.eqb_spec (ind (i_addrs x)) 0) as [Hi|Hi].
  - destruct r as [|b1 r]; [rewrite Hi in Hfree; change (missing 0) with 1%nat in Hfree; cbn in Hfree; lia|].
    assert (icredit (i_addrs x) bl = 2%nat) as E2 by (unfold icredit; rewrite decide_False; [done|]; rewrite Hi; tauto).
    rewrite E2 in Hroom. fold (bmap_tail ip k). fold (bmap_new_ind ip x k).
    eapply new_ind_v; [exact Hs|done..| |exact Hi|exact Hf|exact Hroom|done]. lia.
  - apply wp_bind, wp_ret. fold (bmap_tail ip k (ind (i_addrs x))).
    eapply tail_v; [exact Hs|done..| |exact Hi|exact Ha|exact Hf|eapply room_le; [exact Hroom|lia]|done]. lia.
Qed.

(** ** Writing into a block of the file *)

(** The blocks a file uses. *)
Definition owned v addrs (b : Z) : Prop :=
  b <> 0 /\ (b = ind addrs \/ exists bn, 0 <= bn < MAXFILE /\ b = addr_of v addrs bn).

(** [bs] was written at [off]: the bytes are there, the file's other bytes are
    as they were, and outside the file only free blocks were taken. *)
Record wrote v addrs (off : Z) (bs : list Z) v' addrs' : Prop := {
  wr_ok : file_ok v' addrs';
  wr_new : forall k, off <= k < off + Z.of_nat (length bs) ->
    addr_of v' addrs' (k / BSIZE) <> 0 /\ fbyte v' addrs' k = from bs (Z.to_nat (k - off));
  wr_addr : forall bn, 0 <= bn < MAXFILE -> addr_of v addrs bn <> 0 -> addr_of v' addrs' bn = addr_of v addrs bn;
  wr_keep : (forall k, off <= k < off + Z.of_nat (length bs) -> addr_of v addrs (k / BSIZE) <> 0) -> addrs' = addrs;
  wr_old : forall k, 0 <= k -> k / BSIZE < MAXFILE -> addr_of v addrs (k / BSIZE) <> 0 ->
    ~ off <= k < off + Z.of_nat (length bs) -> fbyte v' addrs' k = fbyte v addrs k;
  wr_zero : forall k, 0 <= k -> k / BSIZE < MAXFILE -> addr_of v addrs (k / BSIZE) = 0 ->
    addr_of v' addrs' (k / BSIZE) <> 0 -> ~ off <= k < off + Z.of_nat (length bs) -> fbyte v' addrs' k = 0;
  wr_change : exists new touched, changes v v' new touched /\
    (forall b, b ∈ touched -> b ∈ new \/ owned v addrs b) /\
    (forall b, owned v' addrs' b -> b ∈ new \/ owned v addrs b);
}.

Lemma wrote_layout v addrs off bs v' addrs' : wrote v addrs off bs v' addrs' -> layout v'.
Proof. intros [_ _ _ _ _ _ (new & t & C & _)]. apply C. Qed.

Lemma wrote_nil v addrs off : layout v -> file_ok v addrs -> wrote v addrs off [] v addrs.
Proof.
  intros HL HF. split; try done.
  - cbn. lia.
  - exists [], []. split; [by apply changes_refl|]. split; [by intros b ?%elem_of_nil|]. auto.
Qed.

Lemma wrote_app v addrs off bs v1 addrs1 bs' v2 addrs2 :
  wrote v addrs off bs v1 addrs1 -> wrote v1 addrs1 (off + Z.of_nat (length bs)) bs' v2 addrs2 ->
  0 <= off -> off + Z.of_nat (length bs + length bs') <= MAXFILE * BSIZE ->
  wrote v addrs off (bs ++ bs') v2 addrs2.
Proof.
  intros [A1 A2 A3 Ak A4 Az (n1 & t1 & A5 & A6 & A7)] [B1 B2 B3 Bk B4 Bz (n2 & t2 & B5 & B6 & B7)] Ho Hmax.
  assert (forall k, k < off + Z.of_nat (length bs + length bs') -> k / BSIZE < MAXFILE) as Hk.
  { intros k Hk. apply Z.div_lt_upper_bound; [done|]. lia. }
  split; [done| | | | | |].
  - intros k Hr. rewrite length_app in Hr. destruct (decide (k < off + Z.of_nat (length bs))) as [Hlt|Hge].
    + destruct (A2 k) as [Ha Hb]; [lia|]. assert (0 <= k / BSIZE) by (apply Z.div_pos; [lia|done]).
      rewrite B3, B4, Hb by (done || lia || (split; [done|]; apply Hk; lia) || (apply Hk; lia)). split; [done|].
      unfold from. by rewrite lookup_app_l by lia.
    + destruct (B2 k) as [Ha Hb]; [lia|]. split; [done|]. rewrite Hb. unfold from.
      rewrite lookup_app_r by lia. do 2 f_equal. lia.
  - intros bn Hbn Ha. by rewrite B3, A3 by (done || by rewrite A3).
  - intros Hall. rewrite length_app in Hall. assert (addrs1 = addrs) as E1 by (apply Ak; intros k Hr; apply Hall; lia).
    rewrite <- E1. apply Bk. intros k Hr. assert (0 <= k / BSIZE) by (apply Z.div_pos; [lia|done]).
    rewrite A3 by ((split; [done|]; apply Hk; lia) || (apply Hall; lia)). apply Hall. lia.
  - intros k H0 Hm Ha Hout. rewrite length_app in Hout. assert (0 <= k / BSIZE) by (apply Z.div_pos; [lia|done]).
    rewrite B4, A4 by (done || lia || by rewrite A3). done.
  - intros k H0 Hm Ha Ha' Hout. rewrite length_app in Hout.
    destruct (decide (addr_of v1 addrs1 (k / BSIZE) = 0)) as [E|E]; [apply Bz; done || lia|].
    rewrite B4 by (done || lia). apply Az; done || lia.
  - exists (n1 ++ n2), (t1 ++ t2). split; [by eapply changes_trans|]. split.
    + intros b. rewrite !elem_of_app. intros [Hb|Hb]; [destruct (A6 b Hb); tauto|].
      destruct (B6 b Hb) as [?|Hb']; [tauto|]. destruct (A7 b Hb'); tauto.
    + intros b Hb. rewrite elem_of_app. destruct (B7 b Hb) as [?|Hb']; [tauto|]. destruct (A7 b Hb'); tauto.
Qed.

(** The place of a byte. *)
Lemma byte_place off k m : 0 <= off -> 0 <= m <= BSIZE - off mod BSIZE -> off <= k < off + m ->
  k / BSIZE = off / BSIZE /\ k mod BSIZE = off mod BSIZE + (k - off).
Proof. unfold BSIZE. intros. Z.div_mod_to_equations. lia. Qed.

Lemma byte_outside off k m : 0 <= off -> k / BSIZE = off / BSIZE -> ~ off <= k < off + m ->
  k mod BSIZE < off mod BSIZE \/ off mod BSIZE + m <= k mod BSIZE.
Proof. unfold BSIZE. intros. Z.div_mod_to_equations. lia. Qed.

Section Chunk.
Context (v : view) (addrs bl : list Z) (v' : view) (addrs' bl' : list Z) (off : Z) (bs : list Z).
Context (HL : layout v) (HF : file_ok v addrs) (HB : bmapped v addrs bl (off / BSIZE) v' addrs' bl').
Context (Ho : 0 <= off) (Hmax : off / BSIZE < MAXFILE).
Context (Hm : 0 < Z.of_nat (length bs) <= BSIZE - off mod BSIZE).

(** The block of the chunk, and its contents with the chunk written. *)
Definition cblk : Z := addr_of v' addrs' (off / BSIZE).
Definition cdata : list Z := default [] (v' cblk).
Definition cview : view := vset cblk (splice (Z.to_nat (off mod BSIZE)) bs cdata) v'.

Lemma bn_range : 0 <= off / BSIZE < MAXFILE.
Proof. split; [by apply Z.div_pos|done]. Qed.

Lemma cblk_ok : layout v' /\ ds <= cblk < sb_size sb /\ v' cblk = Some cdata /\ length cdata = Z.to_nat BSIZE.
Proof.
  destruct HB as [B1 B2 B3 B4 Bk B5 B6 (new & t & C & _) _]. pose proof (ch_layout _ _ _ _ C) as HL'. split; [done|].
  destruct (fk_blk _ _ B1 _ bn_range) as [?|[Hr _]]; [done|]. split; [done|].
  destruct (ly_data _ _ _ _ _ _ HL' _ Hr) as (_ & d & Hd & Hl). unfold cdata, cblk. by rewrite Hd.
Qed.

Lemma cview_addr bn : addr_of cview addrs' bn = addr_of v' addrs' bn.
Proof.
  apply addr_ext. intros _. unfold cview, vset. apply fn_upd_ne.
  destruct HB as [B1 B2 _ _ _ _ _ _ _]. intros E. apply (fk_ne _ _ B1 _ bn_range B2). by symmetry.
Qed.

Lemma cview_at b : b <> cblk -> cview b = v' b.
Proof. intros Hb. unfold cview, vset. by apply fn_upd_ne. Qed.

Lemma length_cdata : length (splice (Z.to_nat (off mod BSIZE)) bs cdata) = Z.to_nat BSIZE.
Proof.
  destruct cblk_ok as (_ & _ & _ & Hl). unfold BSIZE in *. pose proof (Z.mod_pos_bound off 512 ltac:(lia)).
  rewrite length_splice; lia.
Qed.

Lemma cview_byte k : 0 <= k -> k / BSIZE = off / BSIZE ->
  fbyte cview addrs' k = if decide (off <= k < off + Z.of_nat (length bs)) then from bs (Z.to_nat (k - off))
                         else from cdata (Z.to_nat (k mod BSIZE)).
Proof.
  intros Hk E. destruct cblk_ok as (_ & _ & _ & Hl). unfold fbyte. rewrite cview_addr, E. fold cblk.
  unfold cview, vset. rewrite fn_upd_eq. cbn [default from_option id].
  pose proof (Z.mod_pos_bound off BSIZE eq_refl). pose proof (Z.mod_pos_bound k BSIZE eq_refl).
  rewrite from_splice by (unfold BSIZE in *; lia). destruct (decide (off <= k < _)) as [Hr|Hr].
  - destruct (byte_place off k (Z.of_nat (length bs))) as [_ Ek]; [done|lia|done|].
    rewrite Ek, decide_True by lia. f_equal. lia.
  - pose proof (byte_outside off k (Z.of_nat (length bs)) Ho E Hr). rewrite decide_False by lia. done.
Qed.

(** A block of the file before the write, other than the one written, is as it was. *)
Lemma old_block bn : 0 <= bn < MAXFILE -> addr_of v addrs bn <> 0 ->
  addr_of v' addrs' bn = addr_of v addrs bn /\ v' (addr_of v addrs bn) = v (addr_of v addrs bn).
Proof.
  intros Hbn Ha. pose proof HB as [B1 B2 B3 B4 Bk B5 B6 (new & t & C & Ht & _) _]. split.
  - destruct (decide (bn = off / BSIZE)) as [->|]; [by apply B4|by apply B3].
  - destruct (fk_blk _ _ HF bn Hbn) as [?|HT]; [done|]. apply (ch_data _ _ _ _ C); [apply HT|].
    intros [Hn|[E _]]%Ht; [|by apply (fk_ne _ _ HF bn)].
    destruct (changes_new _ _ _ _ _ C HL Hn). done.
Qed.

Lemma old_byte k : 0 <= k -> k / BSIZE < MAXFILE -> addr_of v addrs (k / BSIZE) <> 0 ->
  ~ off <= k < off + Z.of_nat (length bs) -> fbyte cview addrs' k = fbyte v addrs k.
Proof.
  intros Hk Hm' Ha Hout. assert (0 <= k / BSIZE < MAXFILE) as Hbn by (split; [by apply Z.div_pos|done]).
  destruct (old_block _ Hbn Ha) as [E1 E2]. destruct (decide (k / BSIZE = off / BSIZE)) as [E|E].
  - rewrite cview_byte, decide_False by done. unfold fbyte, cdata, cblk. rewrite <- E, E1, E2. done.
  - unfold fbyte. rewrite cview_addr, E1, cview_at, E2; [done|]. unfold cblk. rewrite <- E1. intros E0.
    apply E. eapply (fk_inj _ _ (bm_ok _ _ _ _ _ _ _ HB)); [done|apply bn_range|exact E0|by rewrite E1].
Qed.

(** A new block is zero where nothing was written. *)
Lemma new_byte k : 0 <= k -> k / BSIZE < MAXFILE -> addr_of v addrs (k / BSIZE) = 0 ->
  addr_of cview addrs' (k / BSIZE) <> 0 -> ~ off <= k < off + Z.of_nat (length bs) -> fbyte cview addrs' k = 0.
Proof.
  intros Hk Hm' Ha Hn Hout. rewrite cview_addr in Hn. destruct (decide (k / BSIZE = off / BSIZE)) as [E|E].
  - rewrite cview_byte, decide_False by done. unfold cdata, cblk. rewrite (bm_zero _ _ _ _ _ _ _ HB) by (by rewrite <- E).
    apply from_zeros.
  - rewrite (bm_same _ _ _ _ _ _ _ HB) in Hn; [done|split; [by apply Z.div_pos|done]|done].
Qed.

Lemma owned_grow (new : list Z) b :
  (addr_of v addrs (off / BSIZE) = 0 -> addr_of v' addrs' (off / BSIZE) ∈ new) ->
  (ind addrs' = ind addrs \/ ind addrs' ∈ new) -> owned v' addrs' b -> b ∈ new \/ owned v addrs b.
Proof.
  intros Ha Hi [H0 Hb]. destruct HB as [B1 B2 B3 B4 Bk B5 B6 _ _]. destruct Hb as [->|(bn & Hbn & ->)].
  - destruct Hi as [E|?]; [|by left]. right. split; [done|]. left. done.
  - destruct (decide (bn = off / BSIZE)) as [->|Hne].
    + destruct (decide (addr_of v addrs (off / BSIZE) = 0)) as [E|E]; [left; auto|].
      right. split; [done|]. right. exists (off / BSIZE). split; [done|]. by apply B4.
    + right. split; [done|]. right. exists bn. split; [done|]. by apply B3.
Qed.

Lemma wrote_chunk : wrote v addrs off bs cview addrs'.
Proof.
  pose proof HB as [B1 B2 B3 B4 Bk B5 B6 (new & t & C & Ht & Hlen & Ha & Hi) _].
  destruct cblk_ok as (HL' & Hr & Hd & Hl).
  pose proof (changes_write v' cblk _ HL' Hr length_cdata) as Cw. fold cview in Cw.
  assert (file_ok cview addrs') as Hok.
  { destruct B1 as [F1 F2 F3 F4 F5].
    split; [done| |intros bn|intros bn bn'|intros bn]; rewrite ?cview_addr; [|intros Hbn|by auto..].
    - destruct F2 as [?|F2]; [by left|right]. by eapply changes_taken.
    - destruct (F3 bn Hbn) as [?|F3']; [by left|right]. by eapply changes_taken. }
  split; [done| | | | | |].
  - intros k Hk. destruct (byte_place off k (Z.of_nat (length bs))) as [E _]; [done|lia|done|].
    rewrite cview_addr, cview_byte, decide_True by (done || lia). rewrite E. done.
  - intros bn Hbn Hz. rewrite cview_addr. by apply old_block.
  - intros Hall. apply Bk. apply Hall. lia.
  - intros k H0 Hm' Hz Hout. by apply old_byte.
  - intros k H0 Hm' Hz Hn Hout. by apply new_byte.
  - exists (new ++ []), (t ++ [cblk]). split; [by eapply changes_trans|].
    assert (forall b, owned v' addrs' b -> b ∈ new ++ [] \/ owned v addrs b) as Hown.
    { intros b Hb. rewrite app_nil_r. by apply owned_grow. }
    split.
    + intros b [Hb|Hb]%elem_of_app.
      * rewrite app_nil_r. destruct (Ht b Hb) as [?|[Eb Hb0]]; [by left|]. right. split; [done|by left].
      * apply list_elem_of_singleton in Hb as ->. apply Hown. split; [done|]. right. exists (off / BSIZE).
        split; [apply bn_range|done].
    + intros b [Hb0 Hb]. apply Hown. split; [done|]. destruct Hb as [?|(bn & Hbn & ->)]; [by left|].
      right. exists bn. by rewrite cview_addr.
Qed.
End Chunk.

(** ** [writei] *)

(** The blocks that [len] bytes from [off] on touch, and the blocks that
    writing them may add to the log: the block and its bitmap block each, but
    the first block of an unaligned write is there. *)
Definition nblk (off len : Z) : Z := if len <=? 0 then 0 else (off mod BSIZE + len + BSIZE - 1) / BSIZE.
Definition wcost (off len : Z) : Z :=
  2 * nblk off len - if (0 <? len) && negb (off mod BSIZE =? 0) then 1 else 0.

Lemma cost_step off len : 0 <= off -> 0 < len ->
  let m := Z.min len (BSIZE - off mod BSIZE) in
  1 <= nblk off len /\ nblk (off + m) (len - m) = nblk off len - 1 /\
  wcost (off + m) (len - m) = 2 * (nblk off len - 1) /\ (m < len -> (off + m) mod BSIZE = 0).
Proof.
  intros Ho Hlen m. unfold BSIZE in *. pose proof (Z.mod_pos_bound off 512 ltac:(lia)) as Hb.
  assert (m < len -> (off + m) mod 512 = 0) as Hal.
  { intros Hlt. unfold m in *. rewrite Z.min_r by lia. Z.div_mod_to_equations. lia. }
  assert (1 <= nblk off len /\ nblk (off + m) (len - m) = nblk off len - 1) as [N1 N2].
  { unfold nblk, BSIZE. destruct (Z.leb_spec len 0); [lia|]. destruct (Z.leb_spec (len - m) 0) as [Hle|Hgt].
    - unfold m in *. Z.div_mod_to_equations. lia.
    - rewrite Hal by lia. unfold m in *. rewrite Z.min_r in * by lia. Z.div_mod_to_equations. lia. }
  split; [done|]. split; [done|]. split; [|done]. unfold wcost. rewrite N2. unfold BSIZE.
  destruct (Z.ltb_spec 0 (len - m)); cbn [andb]; [|lia]. rewrite Hal by lia. cbn. lia.
Qed.

Definition write_turn (ip : nat) (n : Z) '(tot, off, src) : K (Z * Z * list Z + Z) :=
  if n <=? tot then ret (inr off) else
  x <- geti ip ;;
  bn <- bmap ip (off / BSIZE) ;;
  bp <- bread (i_dev x) bn ;;
  let m := Z.min (n - tot) (BSIZE - off mod BSIZE) in
  updb bp (fun b => set_b_data
    (splice (Z.to_nat (off mod BSIZE)) (take (Z.to_nat m) src) (b_data b)) b) ;;
  log_write bp ;;
  brelse bp ;;
  ret (inl (tot + m, off + m, drop (Z.to_nat m) src)).

(** The blocks that writing [len] bytes at [off] has to allocate. *)
Definition gaps v addrs (bns : list Z) : nat := length (filter (fun bn => addr_of v addrs bn = 0) bns).
Definition lacks v addrs (off len : Z) : nat := gaps v addrs (seqZ (off / BSIZE) (nblk off len)).
Definition supply v addrs (off len : Z) : Prop :=
  (lacks v addrs off len + missing (ind addrs) <= length (free v))%nat.

Lemma gaps_ext v addrs v' addrs' bns :
  (forall bn, bn ∈ bns -> addr_of v' addrs' bn = addr_of v addrs bn) -> gaps v' addrs' bns = gaps v addrs bns.
Proof.
  intros E. unfold gaps. f_equal. induction bns as [|bn l IH]; [done|].
  rewrite !filter_cons, E, IH; [done| |left]. intros b Hb. apply E. by right.
Qed.

Lemma gaps_cons v addrs bn bns : gaps v addrs (bn :: bns) = (missing (addr_of v addrs bn) + gaps v addrs bns)%nat.
Proof. unfold gaps, missing. rewrite filter_cons. by destruct (decide _). Qed.

Lemma nblk_range off len bn : 0 <= off -> off + len <= MAXFILE * BSIZE ->
  off / BSIZE <= bn < off / BSIZE + nblk off len -> 0 <= bn < MAXFILE.
Proof.
  intros Ho Hm Hbn. unfold nblk, BSIZE in *. change (MAXFILE * 512) with 71680 in Hm. change MAXFILE with 140.
  destruct (Z.leb_spec len 0); Z.div_mod_to_equations; lia.
Qed.

Lemma nblk_step off m len : 0 <= off -> 0 < m <= BSIZE - off mod BSIZE -> m <= len ->
  0 < nblk off len /\
  (len = m \/ 0 < nblk (off + m) (len - m) /\
    ((off + m) / BSIZE = off / BSIZE /\ nblk (off + m) (len - m) = nblk off len \/
     (off + m) / BSIZE = off / BSIZE + 1 /\ nblk (off + m) (len - m) = nblk off len - 1)).
Proof.
  intros Ho Hm Hl. unfold nblk, BSIZE in *. destruct (Z.leb_spec len 0); [lia|].
  pose proof (Z.mod_pos_bound off 512 ltac:(lia)). pose proof (Z.mod_pos_bound (off + m) 512 ltac:(lia)).
  split; [apply Z.div_str_pos; lia|]. destruct (Z.eq_dec len m) as [->|Hne]; [by left|].
  right. destruct (Z.leb_spec (len - m) 0); [lia|]. split.
  - apply Z.div_str_pos. lia.
  - destruct (Z.eq_dec m (512 - off mod 512)) as [Em|Em]; [right|left].
    + assert ((off + m) / 512 = off / 512 + 1 /\ (off + m) mod 512 = 0) as [E1 E2] by (Z.div_mod_to_equations; lia).
      split; [done|]. rewrite E2. replace (off mod 512 + len + 512 - 1) with (0 + (len - m) + 512 - 1 + 1 * 512) by lia.
      rewrite Z.div_add by done. lia.
    + assert ((off + m) / 512 = off / 512 /\ (off + m) mod 512 = off mod 512 + m) as [E1 E2]
        by (Z.div_mod_to_equations; lia).
      split; [done|]. rewrite E2. f_equal. lia.
Qed.

(** After a block of the range was mapped, the rest of the range lacks what it
    lacked. *)
Lemma lacks_step v addrs bl off m len v' addrs' bl' :
  0 <= off -> 0 < m <= BSIZE - off mod BSIZE -> m <= len -> off + len <= MAXFILE * BSIZE ->
  bmapped v addrs bl (off / BSIZE) v' addrs' bl' ->
  (lacks v' addrs' (off + m) (len - m) + missing (addr_of v addrs (off / BSIZE)) <= lacks v addrs off len)%nat.
Proof.
  intros Ho Hm Hl Hmax HB. destruct (nblk_step off m len Ho Hm Hl) as (Hn & Hcase).
  set (bn := off / BSIZE) in *. set (rest := seqZ (bn + 1) (nblk off len - 1)).
  assert (seqZ bn (nblk off len) = bn :: rest) as Er by (unfold rest; rewrite seqZ_cons by done; f_equal; f_equal; lia).
  assert (gaps v' addrs' rest = gaps v addrs rest) as Eg.
  { apply gaps_ext. intros b Hb%elem_of_seqZ. apply (bm_same _ _ _ _ _ _ _ HB); [|lia].
    apply (nblk_range off len b Ho Hmax). fold bn. lia. }
  unfold lacks. fold bn. rewrite Er, gaps_cons. destruct Hcase as [->|(Hn' & [[E1 E2]|[E1 E2]])].
  - rewrite Z.sub_diag. change (seqZ _ (nblk (off + m) 0)) with (@nil Z). change (gaps v' addrs' []) with 0%nat. lia.
  - rewrite E1, E2. fold bn. rewrite Er, gaps_cons, Eg. unfold missing at 1.
    rewrite decide_False by apply (bm_addr _ _ _ _ _ _ _ HB). lia.
  - rewrite E1, E2. fold rest. rewrite Eg. lia.
Qed.

(** What is needed to write [len] bytes at [off], with [rest] more to come in
    later operations: the log has room, there are the free blocks for all, and
    the first block of an unaligned write is there. *)
Record can_write v addrs bl (off len rest : Z) : Prop := {
  cw_log : Z.of_nat (length bl + icredit addrs bl) + wcost off len + 1 <= size - 1;
  cw_free : supply v addrs off (len + rest);
  cw_first : 0 < len -> off mod BSIZE <> 0 -> addr_of v addrs (off / BSIZE) <> 0;
}.

Lemma supply_step v addrs bl off m len v' addrs' bl' v'' :
  0 <= off -> 0 < m <= BSIZE - off mod BSIZE -> m <= len -> off + len <= MAXFILE * BSIZE ->
  supply v addrs off len -> bmapped v addrs bl (off / BSIZE) v' addrs' bl' ->
  free v'' = free v' -> (forall bn, addr_of v'' addrs' bn = addr_of v' addrs' bn) ->
  supply v'' addrs' (off + m) (len - m).
Proof.
  intros Ho Hm Hl Hmax Hs HB Ef Ea. pose proof (lacks_step v addrs bl off m len v' addrs' bl' Ho Hm Hl Hmax HB) as Hk.
  destruct (bm_change _ _ _ _ _ _ _ HB) as (new & t & C & _ & Hn & _).
  pose proof (f_equal length (ch_new _ _ _ _ C)) as Hfr. rewrite length_app in Hfr.
  unfold supply in *. rewrite Ef. unfold lacks in *. rewrite (gaps_ext v' addrs' v'') by (intros bn _; apply Ea). lia.
Qed.

Lemma can_write_step v addrs bl off len rest v' addrs' bl' v'' :
  let m := Z.min len (BSIZE - off mod BSIZE) in
  0 <= off -> 0 < len -> 0 <= rest -> off + (len + rest) <= MAXFILE * BSIZE ->
  can_write v addrs bl off len rest -> bmapped v addrs bl (off / BSIZE) v' addrs' bl' ->
  free v'' = free v' -> (forall bn, addr_of v'' addrs' bn = addr_of v' addrs' bn) ->
  Z.of_nat (length bl' + 1) <= size - 1 /\
  can_write v'' addrs' (absorb (addr_of v' addrs' (off / BSIZE)) bl') (off + m) (len - m) rest.
Proof.
  intros m Ho Hlen Hrest Hmax [C1 C2 C3] HB Ef Ea. pose proof HB as [B1 B2 B3 B4 Bk B5 B6 _].
  destruct (cost_step off len Ho Hlen) as (N1 & N2 & N3 & N4). cbn zeta in N2, N3, N4. fold m in N2, N3, N4.
  pose proof (Z.mod_pos_bound off BSIZE ltac:(done)) as Hmb.
  assert (supply v'' addrs' (off + m) (len - m + rest)) as Hsup.
  { replace (len - m + rest) with (len + rest - m) by lia. eapply supply_step; try done; unfold m; lia. }
  set (a := addr_of v' addrs' (off / BSIZE)) in *.
  pose proof (icredit_le addrs' bl' (absorb a bl') ltac:(intros b Hb; apply elem_absorb; by left)) as Hic.
  pose proof (length_absorb a bl') as Hla. unfold missing in B6.
  specialize (C3 Hlen). unfold wcost in C1. destruct (Z.ltb_spec 0 len); [|lia]. cbn [andb] in C1.
  assert (0 < len - m -> (off + m) mod BSIZE <> 0 -> addr_of v'' addrs' ((off + m) / BSIZE) <> 0) as Hfirst.
  { intros H1 H2. exfalso. apply H2, N4. lia. }
  destruct (decide (addr_of v addrs (off / BSIZE) = 0)) as [E|E].
  - assert (off mod BSIZE = 0) as Eo by (destruct (Z.eq_dec (off mod BSIZE) 0); [done|]; tauto).
    rewrite Eo in C1. cbn in C1. assert (absorb a bl' = bl') as Hab by (unfold absorb; rewrite decide_True by auto; done).
    rewrite Hab in *. split; [lia|]. split; rewrite ?N3; [lia|done|done].
  - destruct (negb _) in C1; (split; [lia|]; split; rewrite ?N3; [lia|done|done]).
Qed.

Definition write_post fs ip v addrs off src rest (Q : Z -> world -> Prop) : Prop :=
  forall w' v' addrs' bl', sees (iset ip (set_i_addrs addrs') fs) [] bl' v' w' ->
    wrote v addrs off src v' addrs' -> room size bl' 1 ->
    supply v' addrs' (off + Z.of_nat (length src)) rest -> Q (off + Z.of_nat (length src)) w'.

Lemma write_room v addrs bl off len rest :
  0 <= off -> 0 < len -> 0 <= rest -> can_write v addrs bl off len rest -> addr_of v addrs (off / BSIZE) = 0 ->
  room size bl (icredit addrs bl + 3) /\ (1 + missing (ind addrs) <= length (free v))%nat.
Proof.
  intros Ho Hlen Hrest [C1 C2 C3] Ea. destruct (cost_step off len Ho Hlen) as (N1 & _).
  assert (off mod BSIZE = 0) as Eo by (destruct (Z.eq_dec (off mod BSIZE) 0); [done|]; exfalso; by apply C3).
  unfold wcost in C1. rewrite Eo, andb_false_r in C1. unfold room. split; [lia|].
  pose proof (Z.mod_pos_bound off BSIZE ltac:(done)).
  destruct (nblk_step off 1 (len + rest) Ho ltac:(unfold BSIZE in *; lia) ltac:(lia)) as (Hn & _).
  unfold supply, lacks in C2. rewrite seqZ_cons, gaps_cons, Ea in C2 by done. change (missing 0) with 1%nat in C2. lia.
Qed.

Lemma write_turn_v ip n tot off src rest fs bl v x w :
  let m := Z.min (n - tot) (BSIZE - off mod BSIZE) in
  sees fs [] bl v w -> fs_inode fs !! ip = Some x -> i_dev x = 1 -> fs_sb fs = sb -> layout v ->
  file_ok v (i_addrs x) -> 0 <= off -> tot < n -> n - tot = Z.of_nat (length src) ->
  0 <= rest -> off + (Z.of_nat (length src) + rest) <= MAXFILE * BSIZE -> can_write v (i_addrs x) bl off (n - tot) rest ->
  wp (write_turn ip n (tot, off, src)) (fun r w' =>
    exists v' addrs' bl', r = inl (tot + m, off + m, drop (Z.to_nat m) src) /\
      sees (iset ip (set_i_addrs addrs') fs) [] bl' v' w' /\
      wrote v (i_addrs x) off (take (Z.to_nat m) src) v' addrs' /\
      can_write v' addrs' bl' (off + m) (n - (tot + m)) rest) w.
Proof.
  intros m Hs Hx Hdev Hsb HL HF Ho Hlt Hlen Hrest Hmax Hcan.
  destruct (chunk_bounds off n tot Ho Hlt) as [Hm1 Hm2]. cbn zeta in Hm1, Hm2. fold m in Hm1, Hm2.
  assert (0 <= off / BSIZE < MAXFILE) as Hbn.
  { split; [by apply Z.div_pos|]. apply Z.div_lt_upper_bound; [done|lia]. }
  unfold write_turn. destruct (Z.leb_spec n tot); [lia|]. eapply geti_v; [exact Hs|exact Hx|]. apply wp_bind.
  eapply bmap_v; [exact Hs|done..|apply (write_room _ _ _ _ (n - tot) rest); [done|lia|done|done]|].
  intros w1 v1 addrs1 bl1 H1 HB. rewrite Hdev. fold m. set (bs := take (Z.to_nat m) src).
  assert (Z.of_nat (length bs) = m) as Elen by (unfold bs; rewrite length_take; lia).
  assert (0 < Z.of_nat (length bs) <= BSIZE - off mod BSIZE) as Hbs by lia.
  destruct (cblk_ok v (i_addrs x) bl v1 addrs1 bl1 off HB Ho (proj2 Hbn)) as (HL1 & Hr1 & Hd1 & Hl1).
  destruct (ly_data _ _ _ _ _ _ HL1 _ Hr1) as (Hh & _).
  destruct (can_write_step v (i_addrs x) bl off (n - tot) rest v1 addrs1 bl1 (cview v1 addrs1 off bs) Ho ltac:(lia) Hrest ltac:(lia) Hcan HB)
    as [Hroom Hcan'].
  { symmetry. pose proof (changes_write v1 _ _ HL1 Hr1 (length_cdata v _ bl v1 addrs1 bl1 off bs HB Ho (proj2 Hbn) Hbs)) as Cw.
    exact (ch_new _ _ _ _ Cw). }
  { exact (cview_addr v (i_addrs x) bl v1 addrs1 bl1 off bs HB Ho (proj2 Hbn)). }
  fold m in Hcan'. replace (n - tot - m) with (n - (tot + m)) in Hcan' by lia.
  apply wp_bind. eapply bread_v; [exact H1|apply Hh|set_solver|by eapply sees_small|]. intros j w2 H2.
  eapply (write_v _ _ _ _ _ _ _ _ _ _ _ _ Hops _ _ _ _ w2 j _ _ (fun d => splice (Z.to_nat (off mod BSIZE)) bs d));
    [exact H2|left|exact Hd1|exact Hh|exact Hroom|].
  intros w3 H3. apply wp_bind. eapply brelse_v; [exact H3|]. intros w4 H4. apply wp_ret.
  eexists _, addrs1, _. split; [done|]. split; [exact H4|]. split; [|exact Hcan'].
  exact (wrote_chunk v (i_addrs x) bl v1 addrs1 bl1 off bs HL HF HB Ho (proj2 Hbn) Hbs).
Qed.

Lemma can_write_done v addrs bl off len rest : len <= 0 -> can_write v addrs bl off len rest -> room size bl 1.
Proof.
  intros Hlen [C1 _ _]. unfold wcost, nblk in C1. destruct (Z.leb_spec len 0); [|lia].
  destruct (Z.ltb_spec 0 len); [lia|]. cbn in C1. unfold room. lia.
Qed.

Lemma write_loop ip n : forall fuel tot off src rest fs bl v x w Q,
  sees fs [] bl v w -> fs_inode fs !! ip = Some x -> i_dev x = 1 -> fs_sb fs = sb -> layout v ->
  file_ok v (i_addrs x) -> 0 <= off -> n - tot = Z.of_nat (length src) ->
  0 <= rest -> off + (Z.of_nat (length src) + rest) <= MAXFILE * BSIZE -> turns fuel off n tot ->
  can_write v (i_addrs x) bl off (n - tot) rest -> write_post fs ip v (i_addrs x) off src rest Q ->
  wp (loop_ fuel (write_turn ip n) (tot, off, src)) Q w.
Proof.
  induction fuel as [|fuel IH]; intros tot off src rest fs bl v x w Q Hs Hx Hdev Hsb HL HF Ho Hlen Hrest Hmax Hfu Hcan HQ;
    [destruct Hfu; lia|].
  cbn [loop_]. apply wp_bind. destruct (Z.le_gt_cases n tot) as [Hle|Hlt].
  { unfold write_turn. destruct (Z.leb_spec n tot); [|lia]. apply wp_ret, wp_ret.
    assert (src = []) as -> by (destruct src; [done|cbn in Hlen; lia]).
    replace off with (off + Z.of_nat (length (@nil Z))) by (cbn; lia).
    eapply HQ; [by rewrite (iset_id ip x)|by apply wrote_nil|eapply can_write_done; [|exact Hcan]; lia|].
    cbn [length Z.of_nat]. rewrite Z.add_0_r. pose proof (cw_free _ _ _ _ _ _ Hcan) as Hsup.
    by replace (n - tot + rest) with rest in Hsup by (cbn in Hlen; lia). }
  destruct (chunk_bounds off n tot Ho Hlt) as [Hm1 Hm2]. cbn zeta in Hm1, Hm2.
  eapply wp_mono; [by eapply write_turn_v|]. set (m := Z.min _ _) in *.
  intros r w4 (v1 & addrs1 & bl1 & -> & H4 & Hw & Hcan').
  assert (length (take (Z.to_nat m) src) = Z.to_nat m) as Elen by (rewrite length_take; lia).
  eapply (IH (tot + m) (off + m) (drop (Z.to_nat m) src) rest _ _ _ (set_i_addrs addrs1 x));
    [exact H4|exact (iset_at ip (set_i_addrs _) x fs Hx)|done|done|by eapply wrote_layout|
     apply (wr_ok _ _ _ _ _ _ Hw)|lia|rewrite length_drop; lia|done|rewrite length_drop; lia|by apply turns_step|exact Hcan'|].
  intros w5 v5 addrs5 bl5 H5 Hw5 Hr5 Hsup5. rewrite iset_addrs in H5.
  replace (off + m + Z.of_nat (length (drop (Z.to_nat m) src))) with (off + Z.of_nat (length src)) in *
    by (rewrite length_drop; lia).
  eapply HQ; [exact H5| |exact Hr5|exact Hsup5]. rewrite <- (take_drop (Z.to_nat m) src).
  eapply wrote_app; [exact Hw| |done|]; rewrite Elen.
  - by rewrite Z2Nat.id by lia.
  - rewrite length_drop. lia.
Qed.

(** *** Writing a block of the inode table *)

Section Meta.
Context (v : view) (ib : Z) (d : list Z).
Context (HL : layout v) (Hib : ib < ds) (Hmap : ~ is_map ib).

Lemma meta_at b : b <> ib -> vset ib d v b = v b.
Proof. intros Hb. unfold vset. by apply fn_upd_ne. Qed.

Lemma meta_bit b : 0 <= b < sb_size sb -> bit sb (vset ib d v) b = bit sb v b.
Proof. intros Hb. unfold bit. rewrite meta_at; [done|]. intros E. apply Hmap. by exists b. Qed.

Lemma meta_layout : layout (vset ib d v).
Proof.
  destruct HL as [L1 L2 L3 L4]. split; [done| | |].
  - intros b Hb. destruct (L2 b Hb) as (Hh & Hlt & Hd). split; [done|]. split; [done|].
    rewrite meta_at; [done|]. intros E. apply Hmap. by exists b.
  - intros b Hb. destruct (L3 b Hb) as (Hh & Hd). split; [done|]. rewrite meta_at by lia. done.
  - intros b Hb Hs. rewrite meta_bit by lia. by apply L4.
Qed.

Lemma meta_taken b : taken (vset ib d v) b <-> taken v b.
Proof.
  unfold taken. split; intros [Hr Hb]; (split; [done|]); [rewrite meta_bit in Hb by lia|rewrite meta_bit by lia]; done.
Qed.

Lemma meta_addr addrs bn : file_ok v addrs -> addr_of (vset ib d v) addrs bn = addr_of v addrs bn.
Proof.
  intros HF. apply addr_ext. intros Hi. apply meta_at. destruct (fk_ind _ _ HF) as [?|[Hr _]]; [done|lia].
Qed.

Lemma meta_file addrs : file_ok v addrs -> file_ok (vset ib d v) addrs.
Proof.
  intros HF. pose proof HF as [F1 F2 F3 F4 F5].
  split; [done| |intros bn|intros bn bn'|intros bn]; rewrite ?meta_taken, ?meta_addr by done; auto.
Qed.

Lemma meta_supply addrs off len : file_ok v addrs -> supply v addrs off len -> supply (vset ib d v) addrs off len.
Proof.
  intros HF. unfold supply, lacks. rewrite (gaps_ext v addrs (vset ib d v)) by (intros bn _; by apply meta_addr).
  rewrite (free_ext v (vset ib d v)) by (apply meta_bit). done.
Qed.

Lemma meta_byte addrs k : file_ok v addrs -> 0 <= k -> k / BSIZE < MAXFILE -> addr_of v addrs (k / BSIZE) <> 0 ->
  fbyte (vset ib d v) addrs k = fbyte v addrs k.
Proof.
  intros HF Hk Hm Ha. unfold fbyte. rewrite meta_addr by done. rewrite meta_at; [done|].
  destruct (fk_blk _ _ HF (k / BSIZE)) as [?|[Hr _]]; [split; [by apply Z.div_pos|done]|done|lia].
Qed.
End Meta.

(** The inode is on disk as it is in memory. *)
Definition synced v x : Prop := forall y, dinode_at sb v (i_inum x) y = with_fields x y.

Lemma file_ok_addrs v addrs : layout v -> file_ok v addrs -> Forall (fun a => 0 <= a < W32) addrs.
Proof.
  intros HL HF. pose proof (ly_size _ _ _ _ _ _ HL) as Hs. pose proof (fk_len _ _ HF) as Hlen.
  apply Forall_lookup. intros k a Hk. pose proof (lookup_lt_Some _ _ _ Hk) as Hlt.
  assert (a = 0 \/ taken v a) as [->|[Hr _]]; [|done|lia].
  destruct (decide (k = 12%nat)) as [->|Hne].
  - pose proof (fk_ind _ _ HF) as Hi. unfold ind in Hi. change (Z.to_nat NDIRECT) with 12%nat in Hi. by rewrite Hk in Hi.
  - pose proof (fk_blk _ _ HF (Z.of_nat k)) as Hb. pose proof (addr_direct v addrs (Z.of_nat k) Hlen) as Hd.
    rewrite Nat2Z.id, Hk in Hd. specialize (Hd ltac:(unfold NDIRECT; lia)). injection Hd as Ha.
    rewrite <- Ha in Hb. apply Hb.
    unfold MAXFILE, NDIRECT. change NINDIRECT with 128. lia.
Qed.

(** The block of the inode table that has the inode [inum]. *)
Record itable_ok v (inum : Z) : Prop := {
  it_home : Fsview.home st size dsk (IBLOCK inum sb);
  it_low : IBLOCK inum sb < ds;
  it_map : ~ is_map (IBLOCK inum sb);
  it_data : exists d, v (IBLOCK inum sb) = Some d /\ length d = Z.to_nat BSIZE;
}.

(** What [writei] promises: the size, the bytes of the file, its inode on disk,
    and that the blocks and inodes of the rest of the file system stay as they
    are. *)
Record written v x (off : Z) (src : list Z) v' x' : Prop := {
  wn_size : i_size x' = Z.max (i_size x) (off + Z.of_nat (length src));
  wn_inode : x' = set_i_size (i_size x') (set_i_addrs (i_addrs x') x);
  wn_layout : layout v';
  wn_file : file_ok v' (i_addrs x');
  wn_filled : filled v' x';
  wn_fields : fields_ok x';
  wn_table : itable_ok v' (i_inum x');
  wn_synced : synced v' x';
  wn_bytes : forall k, 0 <= k < i_size x' -> fbyte v' (i_addrs x') k =
    if decide (off <= k < off + Z.of_nat (length src)) then from src (Z.to_nat (k - off)) else fbyte v (i_addrs x) k;
  wn_blocks : forall b, taken v b -> taken v' b /\ (~ owned v (i_addrs x) b -> v' b = v b);
  wn_owned : forall b, owned v' (i_addrs x') b -> owned v (i_addrs x) b \/ ~ taken v b;
  wn_meta : forall b, b < ds \/ sb_size sb <= b -> ~ is_map b -> b <> IBLOCK (i_inum x) sb -> v' b = v b;
  wn_inodes : forall inum y, IBLOCK inum sb <> IBLOCK (i_inum x) sb /\ IBLOCK inum sb < ds /\ ~ is_map (IBLOCK inum sb) \/
    IBLOCK inum sb = IBLOCK (i_inum x) sb /\ dinode_off inum <> dinode_off (i_inum x) ->
    dinode_at sb v' inum y = dinode_at sb v inum y;
  wn_tail : forall k, i_size x' <= k -> k / BSIZE < MAXFILE -> addr_of v' (i_addrs x') (k / BSIZE) <> 0 ->
    fbyte v' (i_addrs x') k = 0 \/ addr_of v (i_addrs x) (k / BSIZE) <> 0 /\ fbyte v' (i_addrs x') k = fbyte v (i_addrs x) k;
}.

Section Written.
Context (v : view) (x : inode) (off : Z) (src : list Z) (v1 : view) (addrs1 : list Z).
Context (Hfill : filled v x) (Hf : fields_ok x) (Hit : itable_ok v (i_inum x)).
Context (Ho : 0 <= off <= i_size x) (Hmax : off + Z.of_nat (length src) <= MAXFILE * BSIZE).
Context (HW : wrote v (i_addrs x) off src v1 addrs1).

Lemma wrote_meta b : b < ds \/ sb_size sb <= b -> ~ is_map b -> v1 b = v b.
Proof. intros Hb Hm. destruct (wr_change _ _ _ _ _ _ HW) as (new & t & C & _). by apply (ch_meta _ _ _ _ C). Qed.

Lemma wrote_iblock : v1 (IBLOCK (i_inum x) sb) = v (IBLOCK (i_inum x) sb).
Proof. apply wrote_meta; [left|]; apply Hit. Qed.

Lemma wrote_blocks b : taken v b -> taken v1 b /\ (~ owned v (i_addrs x) b -> v1 b = v b).
Proof.
  intros Hb. destruct (wr_change _ _ _ _ _ _ HW) as (new & t & C & Ht & _). split; [by eapply changes_taken|].
  intros Hno. apply (ch_data _ _ _ _ C); [apply Hb|]. intros [Hn|?]%Ht; [|done].
  assert (b ∈ free v) as Hfr by (rewrite (ch_new _ _ _ _ C); set_solver). apply elem_free in Hfr as [_ Hfr].
  destruct Hb as [_ Hb]. congruence.
Qed.

Lemma wrote_owned b : owned v1 addrs1 b -> owned v (i_addrs x) b \/ ~ taken v b.
Proof.
  destruct (wr_change _ _ _ _ _ _ HW) as (new & t & C & _ & Ho'). intros [Hn|?]%Ho'; [right|by left].
  intros [_ Hb]. assert (b ∈ free v) as Hfr by (rewrite (ch_new _ _ _ _ C); set_solver).
  apply elem_free in Hfr as [_ Hfr]. congruence.
Qed.

Lemma wrote_bytes k : 0 <= k < Z.max (i_size x) (off + Z.of_nat (length src)) ->
  (k / BSIZE < MAXFILE /\ addr_of v1 addrs1 (k / BSIZE) <> 0) /\
  fbyte v1 addrs1 k = if decide (off <= k < off + Z.of_nat (length src)) then from src (Z.to_nat (k - off))
                      else fbyte v (i_addrs x) k.
Proof.
  intros Hk. destruct (decide _) as [Hin|Hout].
  - destruct (wr_new _ _ _ _ _ _ HW k Hin) as [Ha Hb]. split; [split; [|done]|done].
    apply Z.div_lt_upper_bound; [done|lia].
  - destruct (Hfill k ltac:(lia)) as [Hm Ha]. split; [|by apply (wr_old _ _ _ _ _ _ HW); try lia].
    split; [done|]. rewrite (wr_addr _ _ _ _ _ _ HW); [done| |done]. split; [apply Z.div_pos; [lia|done]|done].
Qed.

Lemma wrote_tail k : Z.max (i_size x) (off + Z.of_nat (length src)) <= k -> k / BSIZE < MAXFILE ->
  addr_of v1 addrs1 (k / BSIZE) <> 0 ->
  fbyte v1 addrs1 k = 0 \/ addr_of v (i_addrs x) (k / BSIZE) <> 0 /\ fbyte v1 addrs1 k = fbyte v (i_addrs x) k.
Proof.
  intros Hk Hm Ha. destruct (decide (addr_of v (i_addrs x) (k / BSIZE) = 0)) as [E|E].
  - left. apply (wr_zero _ _ _ _ _ _ HW); done || lia.
  - right. split; [done|]. apply (wr_old _ _ _ _ _ _ HW); done || lia.
Qed.

Lemma written_inside : synced v x -> off + Z.of_nat (length src) <= i_size x -> written v x off src v1 (set_i_addrs addrs1 x).
Proof.
  intros Hsy Hle. pose proof wrote_blocks as HB. pose proof wrote_owned as HO. pose proof wrote_meta as HM. pose proof wrote_bytes as HY. pose proof wrote_tail as HT.
  pose proof wrote_iblock as HI. pose proof (wr_ok _ _ _ _ _ _ HW) as HF1. pose proof (wrote_layout _ _ _ _ _ _ HW) as HL1.
  assert (addrs1 = i_addrs x) as E.
  { apply (wr_keep _ _ _ _ _ _ HW). intros k Hk. apply Hfill. lia. }
  rewrite E in *. replace (set_i_addrs (i_addrs x) x) with x by (by destruct x).
  split; [lia|by destruct x|done|done| |done| | | |done|done| | |].
  - intros k Hk. apply HY. lia.
  - destruct Hit as [T1 T2 T3 T4]. split; [done..|]. by rewrite HI.
  - intros y. unfold dinode_at. rewrite HI. apply Hsy.
  - intros k Hk. apply HY. lia.
  - intros b Hb Hm _. by apply HM.
  - intros inum y [(_ & Hl & Hm)|[E' _]]; unfold dinode_at; [by rewrite HM by auto|by rewrite E', HI].
  - intros k Hk. apply HT. lia.
Qed.

(** Past the old end, the new size goes to the inode and the inode to disk. *)
Lemma written_grows : i_size x < off + Z.of_nat (length src) ->
  let x2 := set_i_size (off + Z.of_nat (length src)) (set_i_addrs addrs1 x) in
  written v x off src (vinode sb x2 v1) x2.
Proof.
  intros Hgt x2. destruct (it_data _ _ Hit) as (d & Hd & Hdl). pose proof wrote_iblock as HI. rewrite <- HI in Hd.
  pose proof (wrote_layout _ _ _ _ _ _ HW) as HL1. pose proof (wr_ok _ _ _ _ _ _ HW) as HF1.
  assert (fields_ok x2) as Hf2.
  { destruct Hf as [F1 F2 F3 F4 F5 F6 F7]. split; try done; [|apply HF1|by eapply file_ok_addrs].
    cbn. change (MAXFILE * BSIZE) with 71680 in Hmax. unfold W32. lia. }
  unfold vinode. cbn [i_inum x2 set_i_size set_i_addrs]. set (ib := IBLOCK (i_inum x) sb) in *. rewrite Hd. cbn [default from_option id].
  set (d2 := splice _ _ d). pose proof (it_low _ _ Hit) as Hlow. pose proof (it_map _ _ Hit) as Hmap. fold ib in Hlow, Hmap.
  split; [cbn; lia|by destruct x|by apply meta_layout|by apply meta_file| |done| | | | | | | |].
  - intros k Hk. cbn in Hk |- *. rewrite meta_addr by done. apply wrote_bytes. lia.
  - split; [apply Hit|done|done|]. exists d2. change (IBLOCK _ sb) with ib. unfold vset. rewrite fn_upd_eq. split; [done|].
    unfold d2. rewrite length_splice; [done|]. rewrite length_enc_dinode, Hdl by done. apply dinode_off_lt.
  - intros y. unfold dinode_at. cbn [i_inum x2 set_i_size set_i_addrs]. fold ib. unfold vset. rewrite fn_upd_eq. cbn.
    apply dec_enc_dinode; [done|]. rewrite Hdl. apply dinode_off_lt.
  - intros k Hk. cbn in Hk |- *. destruct (wrote_bytes k ltac:(lia)) as [[Hm Ha] Hb].
    rewrite meta_byte by (done || lia). done.
  - intros b Hb. destruct (wrote_blocks b Hb) as [H1 H2]. split; [by apply meta_taken|].
    intros Hno. rewrite meta_at by (destruct Hb; lia). by apply H2.
  - intros b [Hb Ho']. apply wrote_owned. split; [done|]. destruct Ho' as [?|(bn & Hbn & ->)]; [by left|].
    right. exists bn. split; [done|]. by apply meta_addr.
  - intros b Hb Hm Hne. rewrite meta_at by done. by apply wrote_meta.
  - intros inum y [(Hne & Hl & Hm)|[E Hoff]]; unfold dinode_at.
    + rewrite meta_at by done. by rewrite wrote_meta by auto.
    + rewrite E. fold ib. unfold vset. rewrite fn_upd_eq, <- HI, Hd. cbn. by apply dec_enc_other.
  - intros k Hk Hm Ha. cbn in Hk, Ha |- *. rewrite meta_addr in Ha by done.
    rewrite meta_byte by (done || lia). apply wrote_tail; done || lia.
Qed.
End Written.

Lemma iset_iset ip f g fs : iset ip g (iset ip f fs) = iset ip (fun x => g (f x)) fs.
Proof. unfold iset. cbn. rewrite list_alter_alter_eq. reflexivity. Qed.

Lemma writei_v fs bl v w ip x off src rest Q :
  sees fs [] bl v w -> fs_inode fs !! ip = Some x -> i_dev x = 1 -> fs_sb fs = sb -> i_type x <> T_DEV ->
  layout v -> file_ok v (i_addrs x) -> filled v x -> fields_ok x -> itable_ok v (i_inum x) -> synced v x ->
  0 <= off <= i_size x -> 0 <= rest -> off + (Z.of_nat (length src) + rest) <= MAXFILE * BSIZE ->
  can_write v (i_addrs x) bl off (Z.of_nat (length src)) rest ->
  (forall w' v' x' bl', sees (iset ip (fun _ => x') fs) [] bl' v' w' -> written v x off src v' x' ->
    supply v' (i_addrs x') (off + Z.of_nat (length src)) rest -> Q (Z.of_nat (length src)) w') ->
  wp (writei ip src off) Q w.
Proof.
  intros Hs Hx Hdev Hsb Hty HL HF Hfill Hf Hit Hsy Ho Hrest Hmax Hcan HQ. unfold writei.
  assert (u32 (off + Z.of_nat (length src)) = off + Z.of_nat (length src)) as Eu.
  { apply Z.mod_small. change (MAXFILE * BSIZE) with 71680 in Hmax. unfold W32. lia. }
  eapply geti_v; [exact Hs|exact Hx|]. destruct (Z.eqb_spec (i_type x) T_DEV); [done|]. rewrite Eu.
  destruct (Z.ltb_spec (i_size x) off); [lia|]. destruct (Z.ltb_spec (off + Z.of_nat (length src)) off); [lia|].
  cbn [orb]. destruct (Z.ltb_spec (MAXFILE * BSIZE) (off + Z.of_nat (length src))); [lia|]. apply wp_bind.
  eapply (write_loop ip _ _ 0 off src rest fs bl v x);
    [exact Hs|done..|lia|lia|done|done|apply turns_start; lia|by rewrite Z.sub_0_r|].
  intros w1 v1 addrs1 bl1 Hs1 HW Hr Hsup. set (x1 := set_i_addrs addrs1 x).
  pose proof (iset_at ip (set_i_addrs addrs1) x fs Hx) as Hx1. fold x1 in Hx1.
  eapply geti_v; [exact Hs1|exact Hx1|]. change (i_size x1) with (i_size x).
  destruct (Z.ltb_spec (i_size x) (off + Z.of_nat (length src))) as [Hlt|Hge].
  - destruct (Z.ltb_spec 0 (Z.of_nat (length src))); [|lia]. cbn [andb].
    apply wp_bind, wp_bind. eapply updi_v; [exact Hs1|]. intros w2 Hs2. rewrite iset_iset in Hs2.
    set (x2 := set_i_size (off + Z.of_nat (length src)) x1).
    destruct (it_data _ _ Hit) as (d & Hd & _). rewrite <- (wrote_iblock v x off src v1 addrs1 Hit HW) in Hd.
    eapply (iupdate_v _ _ _ _ _ _ _ _ _ _ _ _ Hops sb _ [] bl1 v1 w2 ip x2 d);
      [exact Hs2|done|exact (iset_at ip (fun x => set_i_size _ (set_i_addrs addrs1 x)) x fs Hx)|done|apply Hit|exact Hd|set_solver|cbn; lia|done|].
    intros w3 Hs3. apply wp_ret. eapply HQ; [|eapply (written_grows v x off src v1 addrs1); done || lia|].
    + erewrite (iset_ext ip (fun _ => _) _ x fs Hx); [exact Hs3|done].
    + apply meta_supply; [apply Hit|apply Hit|apply HW|done].
  - rewrite andb_false_r. apply wp_bind, wp_ret, wp_ret. eapply HQ; [|eapply (written_inside v x off src v1 addrs1); done || lia|done].
    erewrite (iset_ext ip (fun _ => _) _ x fs Hx); [exact Hs1|done].
Qed.
End Machine.
End Content.
