(* ===== verification/File.v ===== *)
(** * Open files and pipes

    [file.c] and [pipe.c].  A pipe lives in a page of its own; [fs_pipe] maps
    the page's address to the structure.  The bytes a call reads from or
    stores into the caller's buffer are passed as lists. *)

From stdpp Require Import prelude list gmap strings.
From Stdlib Require Import ZArith Lia.
From S2P Require Import Prelude State Boot Spinlock Str Kalloc Cprintf Vm Sched Sleeplock Bio Log Fs.
#[local] Open Scope c_scope.

Definition getpipe (p : Z) : K pipe :=
  t <- getfs fs_pipe ;; match t !! p with Some x => ret x | None => fault "pipe" end.
Definition updpipe (p : Z) (f : pipe -> pipe) : K unit :=
  updfs (fun t => set_fs_pipe (alter f p (fs_pipe t)) t).

(** [myproc()->killed] *)
Definition mykilled : K bool :=
  p <- myproc ;;
  p <- deref "myproc()" p ;;
  x <- getp p ;;
  ret (negb (p_killed x =? 0)).

(** ** pipe.c *)

Definition pipeclose (p writable : Z) : K unit :=
  acquire (LPipe p) ;;
  (if negb (writable =? 0) then
     updpipe p (set_pi_writeopen 0) ;; wakeup (ChPipeR p)
   else
     updpipe p (set_pi_readopen 0) ;; wakeup (ChPipeW p)) ;;
  x <- getpipe p ;;
  if (pi_readopen x =? 0) && (pi_writeopen x =? 0) then
    release (LPipe p) ;;
    updfs (fun t => set_fs_pipe (delete p (fs_pipe t)) t) ;;
    kfree p
  else release (LPipe p).

(** Write the bytes [src]: the number written, or -1. *)
Definition pipewrite (p : Z) (src : list Z) : K Z :=
  acquire (LPipe p) ;;
  r <- for_ (length src) 0 (fun i =>
    r <- wait_loop (fun _ : unit =>
      x <- getpipe p ;;
      if pi_nwrite x =? u32 (pi_nread x + PIPESIZE) then
        stop <- (if pi_readopen x =? 0 then ret true else mykilled) ;;
        if stop : bool then
          release (LPipe p) ;; ret (inr (Some (-1)))
        else
          wakeup (ChPipeR p) ;;
          sleep (ChPipeW p) (Some (LPipe p)) ;;
          ret (inl tt)
      else ret (inr None)) tt ;;
    match r with
    | Some e => ret (Some e)
    | None =>
      updpipe p (fun x => x
        |> set_pi_data (<[Z.to_nat (pi_nwrite x mod PIPESIZE) := from src i]> (pi_data x))
        |> set_pi_nwrite (u32 (pi_nwrite x + 1))) ;;
      ret None
    end) ;;
  match r with
  | Some e => ret e
  | None =>
    wakeup (ChPipeR p) ;;
    release (LPipe p) ;;
    ret (Z.of_nat (length src))
  end.

(** Take up to [n] bytes out of the pipe. *)
Fixpoint pipe_take (p : Z) (n : nat) : K (list Z) :=
  match n with
  | O => ret []
  | S n' =>
    x <- getpipe p ;;
    if pi_nread x =? pi_nwrite x then ret [] else
    let c := from (pi_data x) (Z.to_nat (pi_nread x mod PIPESIZE)) in
    updpipe p (fun x => set_pi_nread (u32 (pi_nread x + 1)) x) ;;
    l <- pipe_take p n' ;;
    ret (c :: l)
  end.

(** Read up to [n] bytes: the return value and the bytes. *)
Definition piperead (p n : Z) : K (Z * list Z) :=
  acquire (LPipe p) ;;
  r <- wait_loop (fun _ : unit =>
    x <- getpipe p ;;
    if (pi_nread x =? pi_nwrite x) && negb (pi_writeopen x =? 0) then
      k <- mykilled ;;
      if k : bool then release (LPipe p) ;; ret (inr true)
      else sleep (ChPipeR p) (Some (LPipe p)) ;; ret (inl tt)
    else ret (inr false)) tt ;;
  if r : bool then ret (-1, []) else
  l <- pipe_take p (Z.to_nat n) ;;
  wakeup (ChPipeW p) ;;
  release (LPipe p) ;;
  ret (Z.of_nat (length l), l).

(** ** file.c *)

Definition fileinit : K unit := initlock LFtable "ftable".

(** Allocate a file structure. *)
Definition filealloc : K (option nat) :=
  acquire LFtable ;;
  r <- for_ NFILE 0 (fun i =>
    f <- getf i ;;
    if f_ref f =? 0 then
      updf i (set_f_ref 1) ;;
      release LFtable ;;
      ret (Some i)
    else ret None) ;;
  match r with
  | Some i => ret (Some i)
  | None => release LFtable ;; ret None
  end.

(** Increment ref count for file [f]. *)
Definition filedup (f : nat) : K nat :=
  acquire LFtable ;;
  x <- getf f ;;
  if f_ref x <? 1 then panic "filedup" else
  updf f (fun x => set_f_ref (f_ref x + 1) x) ;;
  release LFtable ;;
  ret f.

Section File.
Context `{DiskDriver} `{ConsoleDev}.

(** Close file [f]: decrement ref count, close when it reaches 0. *)
Definition fileclose (f : nat) : K unit :=
  acquire LFtable ;;
  x <- getf f ;;
  if f_ref x <? 1 then panic "fileclose" else
  updf f (fun x => set_f_ref (f_ref x - 1) x) ;;
  ff <- getf f ;;
  if 0 <? f_ref ff then release LFtable else
  updf f (set_f_ref 0) ;;
  updf f (set_f_type FD_NONE) ;;
  release LFtable ;;
  match f_type ff with
  | FD_PIPE => pipeclose (f_pipe ff) (f_writable ff)
  | FD_INODE =>
    begin_op ;;
    ip <- deref "iput" (f_ip ff) ;;
    iput ip ;;
    end_op
  | FD_NONE => ret tt
  end.

(** Get metadata about file [f]. *)
Definition filestat (f : nat) : K (option stat) :=
  x <- getf f ;;
  match f_type x with
  | FD_INODE =>
    ilock (f_ip x) ;;
    x <- getf f ;;
    ip <- deref "stati" (f_ip x) ;;
    st <- stati ip ;;
    iunlock (f_ip x) ;;
    ret (Some st)
  | _ => ret None
  end.

(** Read from file [f]: the return value and the bytes. *)
Definition fileread (f : nat) (n : Z) : K (Z * list Z) :=
  x <- getf f ;;
  if f_readable x =? 0 then ret (-1, []) else
  match f_type x with
  | FD_PIPE => piperead (f_pipe x) n
  | FD_INODE =>
    ilock (f_ip x) ;;
    x <- getf f ;;
    ip <- deref "readi" (f_ip x) ;;
    r <- readi ip (f_off x) (u32 n) ;;
    (if 0 <? fst r then updf f (fun x => set_f_off (u32 (f_off x + fst r)) x)
     else ret tt) ;;
    x <- getf f ;;
    iunlock (f_ip x) ;;
    ret r
  | FD_NONE => panic "fileread"
  end.

Definition filewrite_max : Z := ((MAXOPBLOCKS - 1 - 1 - 2) / 2) * 512.

(** Write the bytes [src] to file [f], a few blocks per transaction. *)
Definition filewrite (f : nat) (src : list Z) : K Z :=
  let n := Z.of_nat (length src) in
  x <- getf f ;;
  if f_writable x =? 0 then ret (-1) else
  match f_type x with
  | FD_PIPE => pipewrite (f_pipe x) src
  | FD_INODE =>
    i <- loop_ (Z.to_nat (n / filewrite_max + 2)) (fun i =>
      if n <=? i then ret (inr i) else
      let n1 := n - i in
      let n1 := if filewrite_max <? n1 then filewrite_max else n1 in
      begin_op ;;
      x <- getf f ;;
      ilock (f_ip x) ;;
      x <- getf f ;;
      ip <- deref "writei" (f_ip x) ;;
      r <- writei ip (sub_ (Z.to_nat i) (Z.to_nat n1) src) (f_off x) ;;
      (if 0 <? r then updf f (fun x => set_f_off (u32 (f_off x + r)) x)
       else ret tt) ;;
      x <- getf f ;;
      iunlock (f_ip x) ;;
      end_op ;;
      if r <? 0 then ret (inr i) else
      if negb (r =? n1) then panic "short filewrite" else
      ret (inl (i + r))) 0 ;;
    ret (if i =? n then n else -1)
  | FD_NONE => panic "filewrite"
  end.

(** [struct pipe] in the fresh page at [p]: the data array is what the page
    held. *)
Definition fresh_pipe (m : mem) (p : Z) : pipe :=
  mk_pipe ((fun i => m (p + 52 + Z.of_nat i)) <$> seq 0 (Z.to_nat PIPESIZE)) 0 0 1 1.

Definition pipealloc : K (option (nat * nat)) :=
  f0 <- filealloc ;;
  f1 <- match f0 with Some _ => filealloc | None => ret None end ;;
  match f0, f1 with
  | Some a, Some b =>
    p <- kalloc ;;
    if p =? 0 then fileclose a ;; fileclose b ;; ret None else
    m <- getkm km_mem ;;
    updfs (fun t => set_fs_pipe (<[p := fresh_pipe m p]> (fs_pipe t)) t) ;;
    initlock (LPipe p) "pipe" ;;
    updf a (fun f => f |> set_f_type FD_PIPE |> set_f_readable 1
                       |> set_f_writable 0 |> set_f_pipe p) ;;
    updf b (fun f => f |> set_f_type FD_PIPE |> set_f_readable 0
                       |> set_f_writable 1 |> set_f_pipe p) ;;
    ret (Some (a, b))
  | Some a, None => fileclose a ;; ret None
  | None, _ => ret None
  end.
End File.
