(* ===== verification/Waiting.v ===== *)
(** * Waiting under a spin lock

    The pattern of [pipe.c], [console.c] and the sleep locks: a thread that
    holds a spin lock tests a condition and, while it does not hold, sleeps on
    a channel and takes the lock again.  The lemmas describe one such wait from
    inside the critical section: the state the other threads get, and the state
    the thread continues in. *)

From stdpp Require Import prelude list gmap strings.
From Stdlib Require Import ZArith Lia.
From S2P Require Import Prelude State Boot Spinlock Str Kalloc Cprintf Vm Sched Sleeplock Bio Log Fs File.
#[local] Open Scope c_scope.

Lemma woken_killed ch pr : p_killed (woken ch pr) = p_killed pr.
Proof. unfold woken, map_if. by destruct (sleeps_on ch pr). Qed.

(** No process sleeps on the channel [ch]. *)
Definition nobody (ch : chan) (pt : ptstate) : Prop := Forall (fun x => sleeps_on ch x = false) (pt_proc pt).

Lemma nobody_wakeup ch pt : nobody ch (wakeup_pt ch pt).
Proof.
  apply Forall_fmap, Forall_true. intros x. unfold compose, woken, map_if.
  destruct (sleeps_on ch x) eqn:E; [done|exact E].
Qed.

Lemma nobody_asleep ch ch' me pt : ch <> ch' -> nobody ch pt -> nobody ch (asleep_pt me ch' pt).
Proof.
  intros Hne Hn. apply Forall_lookup. intros j x. cbn. destruct (decide (j = me)) as [->|Hj].
  - rewrite list_lookup_alter_eq. intros (y & _ & ->)%fmap_Some. unfold sleeps_on. cbn.
    by rewrite bool_decide_eq_false_2 by congruence.
  - rewrite list_lookup_alter_ne by done. by apply (proj1 (Forall_lookup _ _) Hn).
Qed.

Section Waiting.
Context (lk : lockid) (me : nat).
Implicit Types (k : kstate) (f : kstate -> kstate).

(** Thread [me], not killed, is in the critical section of [lk]. *)
Definition inside k : Prop :=
  exists hw i c pr, k_hw k = hw_acquire lk i hw /\ sleep_ready hw (k_pt k) i c lk me pr /\
    procs_ok (k_pt k) /\ p_killed pr = 0.

(** Thread [me] has just been switched back to, or has just switched away:
    its processor holds ptable.lock once. *)
Definition switched k : Prop :=
  exists j c pr, here (k_hw k) j c /\ c_ncli c = 1 /\ c_proc c = Some me /\
    lock_mine (k_hw k) LPtable j /\ lock_free (k_hw k) lk /\
    procs_ok (k_pt k) /\ pt_proc (k_pt k) !! me = Some pr /\ p_killed pr = 0.

Lemma mykilled_in hw pt i c pr km bc fs cn o :
  sleep_ready hw pt i c lk me pr ->
  mykilled (W (hw_acquire lk i hw) pt km bc fs cn o) =
  Ok (negb (p_killed pr =? 0)) (W (hw_acquire lk i hw) pt km bc fs cn o).
Proof.
  intros [Hh Hn Hp Hx Hl Ht Hne]. unfold mykilled.
  kcall myproc_ok by (by apply here_acquire). erewrite touch_acquire by done.
  cbn [c_proc pushed set_c_intena set_c_ncli]. rewrite Hp. cbn [deref]. krun.
  kcall getp_ok by exact Hx. done.
Qed.

Lemma wakeup_in hw pt i c pr ch km bc fs cn o :
  sleep_ready hw pt i c lk me pr -> procs_ok pt ->
  wakeup ch (W (hw_acquire lk i hw) pt km bc fs cn o) =
    Ok tt (W (hw_acquire lk i hw) (wakeup_pt ch pt) km bc fs cn o) /\
  sleep_ready hw (wakeup_pt ch pt) i c lk me (woken ch pr) /\ procs_ok (wakeup_pt ch pt).
Proof.
  intros [Hh Hn Hp Hx Hl Ht Hne] Hpo. split; [|split; [split; try done|]].
  - erewrite wakeup_eq; [by erewrite touch_acquire|by apply here_acquire| |done].
    by apply lock_free_other.
  - cbn. by rewrite list_lookup_fmap, Hx.
  - unfold procs_ok, wakeup_pt in *. cbn. by rewrite length_fmap.
Qed.

(** Going to sleep: the state the others get, and the state the thread
    continues in, with what the others made of the rest of the machine. *)
Lemma lock_sleep hw pt i c pr ch km bc fs cn :
  sleep_ready hw pt i c lk me pr -> procs_ok pt -> p_killed pr = 0 ->
  let k0 := mk_k (hw_acquire LPtable i hw) (asleep_pt me ch pt) km bc fs cn in
  switched k0 /\
  sleep ch (Some lk) (W (hw_acquire lk i hw) pt km bc fs cn []) = Asleep (mk_world k0 []) /\
  forall f o, switched (f k0) ->
    exists k', sleep ch (Some lk) (W (hw_acquire lk i hw) pt km bc fs cn (f :: o)) = Ok tt (mk_world k' o) /\
      inside k' /\ k_km k' = k_km (f k0) /\ k_bc k' = k_bc (f k0) /\ k_fs k' = k_fs (f k0) /\ k_cn k' = k_cn (f k0).
Proof.
  intros Hs Hpo Hk k0. pose proof Hs as [Hh Hn Hp He Hl Ht Hne]. split; [|split].
  - exists i, (pushed hw c), (pr |> set_p_chan ch |> set_p_state SLEEPING).
    split; [by apply here_acquire|]. split; [cbn; by rewrite Hn|]. split; [done|].
    split; [apply lock_mine_acquire|]. split; [by apply lock_free_other|].
    split; [unfold procs_ok in *; cbn; by rewrite length_alter|].
    split; [cbn; by rewrite list_lookup_alter_eq, He|done].
  - rewrite (sleep_enter _ _ _ _ _ _ _ _ _ _ _ _ _ Hs). unfold bind.
    by erewrite sched_asleep by (by eapply sleep_sched_ready).
  - intros f o (j & c' & pr' & H1 & H2 & H3 & H4 & H5 & H6 & H7 & H8).
    destruct (f k0) as [hw' pt' km' bc' fs' cn'] eqn:Ef. cbn [k_hw k_pt k_fs] in *.
    destruct (sleep_resume bc fs cn hw pt km o i c lk me pr ch f hw' pt' km' bc' fs' cn' j c'
      Hs Ef H1 H2 H4 H5) as (hw2 & c2 & E & R1 & R2 & R3 & R4 & R5).
    eexists. split; [exact E|]. split; [|done]. exists hw2, j, c2, (set_p_chan ChNull pr').
    split; [done|]. split; [|split; [unfold procs_ok in *; cbn; by rewrite length_alter|done]].
    split; try done; [by rewrite R3|]. cbn. by rewrite list_lookup_alter_eq, H7.
Qed.
End Waiting.
