(* ===== verification/Pipe.v ===== *)
(** * Pipes as byte streams

    [pipewrite] and [piperead] of [pipe.c] implement a bounded first-in
    first-out queue of bytes: what is read is what was written, in order,
    nothing lost, repeated or invented, although the free-running counters
    [nread] and [nwrite] wrap around at 2^32 and the data array at PIPESIZE,
    and although a call sleeps while the pipe is full or empty and others use
    the pipe in between. *)

From stdpp Require Import prelude list gmap strings.
From Stdlib Require Import ZArith Lia.
From S2P Require Import Prelude State Boot Spinlock Str Kalloc Cprintf Vm Sched Sleeplock Bio Log Fs File Waiting.
#[local] Open Scope c_scope.

(** ** The bytes in a pipe *)

(** The pipe [x] holds the bytes [q], oldest first. *)
Record pipe_rep (x : pipe) (q : list Z) : Prop := {
  pr_data : length (pi_data x) = 512%nat;
  pr_len : (length q <= 512)%nat;
  pr_nread : 0 <= pi_nread x < W32;
  pr_nwrite : pi_nwrite x = u32 (pi_nread x + Z.of_nat (length q));
  pr_elem : forall k b, q !! k = Some b ->
    pi_data x !! Z.to_nat ((pi_nread x + Z.of_nat k) mod PIPESIZE) = Some b;
}.

(** The counters wrap around at a multiple of the size. *)
Lemma u32_slot a : u32 a mod PIPESIZE = a mod PIPESIZE.
Proof. unfold u32, W32, PIPESIZE. Z.div_mod_to_equations. lia. Qed.

Lemma u32_add_u32 a b : u32 (u32 a + b) = u32 (a + b).
Proof. unfold u32. by rewrite Zplus_mod_idemp_l. Qed.

Lemma u32_add_inj a m n : 0 <= m < W32 -> 0 <= n < W32 -> u32 (a + m) = u32 (a + n) -> m = n.
Proof. unfold u32, W32. intros. Z.div_mod_to_equations. lia. Qed.

Lemma pipe_full x q :
  pipe_rep x q -> (pi_nwrite x =? u32 (pi_nread x + PIPESIZE)) = bool_decide (length q = 512%nat).
Proof.
  intros [_ Hl _ Hw _]. rewrite Hw. destruct (Z.eqb_spec (u32 (pi_nread x + Z.of_nat (length q)))
    (u32 (pi_nread x + PIPESIZE))) as [E|E]; symmetry.
  - apply bool_decide_eq_true_2. apply u32_add_inj in E; unfold W32, PIPESIZE in *; lia.
  - apply bool_decide_eq_false_2. intros F. by rewrite F in E.
Qed.

Lemma pipe_empty x q :
  pipe_rep x q -> (pi_nread x =? pi_nwrite x) = bool_decide (q = []).
Proof.
  intros [_ Hl Hr Hw _]. rewrite Hw. destruct (Z.eqb_spec (pi_nread x)
    (u32 (pi_nread x + Z.of_nat (length q)))) as [E|E]; symmetry.
  - apply bool_decide_eq_true_2, nil_length_inv.
    rewrite <- (u32_small (pi_nread x)) in E at 1 by done.
    rewrite <- (Z.add_0_r (pi_nread x)) in E at 1.
    apply u32_add_inj in E; unfold W32 in *; lia.
  - apply bool_decide_eq_false_2. intros ->. cbn in E. rewrite Z.add_0_r, u32_small in E; done.
Qed.

(** [p->data[p->nwrite++ % PIPESIZE] = b] *)
Definition pipe_push (b : Z) (x : pipe) : pipe :=
  x |> set_pi_data (<[Z.to_nat (pi_nwrite x mod PIPESIZE) := b]> (pi_data x))
    |> set_pi_nwrite (u32 (pi_nwrite x + 1)).

Lemma pipe_push_rep x q b :
  pipe_rep x q -> (length q < 512)%nat -> pipe_rep (pipe_push b x) (q ++ [b]).
Proof.
  intros [Hd Hl Hr Hw He] Hlt. unfold pipe_push. split; cbn.
  - by rewrite length_insert.
  - rewrite length_app. cbn. lia.
  - done.
  - rewrite Hw, u32_add_u32, length_app. f_equal. cbn. lia.
  - rewrite Hw, u32_slot. intros k a Hk.
    assert (k < length (q ++ [b]))%nat as Hk2 by (by eapply lookup_lt_Some).
    rewrite length_app in Hk2. cbn in Hk2.
    destruct (decide (k = length q)) as [->|Hne].
    + rewrite list_lookup_insert_eq; [|rewrite Hd; unfold PIPESIZE; Z.div_mod_to_equations; lia].
      rewrite lookup_app_r, Nat.sub_diag in Hk by lia. done.
    + rewrite lookup_app_l in Hk by lia. rewrite list_lookup_insert_ne; [by apply He|].
      unfold PIPESIZE in *. Z.div_mod_to_equations. lia.
Qed.

(** [p->data[p->nread++ % PIPESIZE]] *)
Definition pipe_pop (x : pipe) : pipe := set_pi_nread (u32 (pi_nread x + 1)) x.

Lemma pipe_pop_rep x b q :
  pipe_rep x (b :: q) ->
  from (pi_data x) (Z.to_nat (pi_nread x mod PIPESIZE)) = b /\ pipe_rep (pipe_pop x) q.
Proof.
  intros [Hd Hl Hr Hw He]. split.
  - unfold from. pose proof (He 0%nat b eq_refl) as H0. rewrite Z.add_0_r in H0. by rewrite H0.
  - unfold pipe_pop. split; cbn; [done|cbn in Hl; lia|apply u32_range| |].
    + rewrite Hw, u32_add_u32. f_equal. cbn. lia.
    + intros k a Hk. rewrite <- (He (S k) a) by done.
      rewrite Z.add_mod, u32_slot, <- Z.add_mod by done. f_equal. f_equal. f_equal. lia.
Qed.

(** ** A caller that holds the pipe's lock *)

Section Pipe.
Context (p : Z) (me : nat).
Abbreviation lk := (LPipe p).
Implicit Types (k : kstate) (x : pipe) (q : list Z) (f : kstate -> kstate).

(** Thread [me] is in the critical section of the pipe, which holds [q]. *)
Definition holds k x q : Prop :=
  exists hw i c pr, k_hw k = hw_acquire lk i hw /\ sleep_ready hw (k_pt k) i c lk me pr /\
    procs_ok (k_pt k) /\ p_killed pr = 0 /\ fs_pipe (k_fs k) !! p = Some x /\ pipe_rep x q.

Abbreviation switched := (Waiting.switched lk me).

(** Going to sleep on the pipe: the state the others get, and the state the
    thread continues in. *)
Lemma pipe_sleep hw pt i c pr ch km bc fs cn :
  sleep_ready hw pt i c lk me pr -> procs_ok pt -> p_killed pr = 0 ->
  let k0 := mk_k (hw_acquire LPtable i hw) (asleep_pt me ch pt) km bc fs cn in
  switched k0 /\
  sleep ch (Some lk) (W (hw_acquire lk i hw) pt km bc fs cn []) = Asleep (mk_world k0 []) /\
  forall f o x' q', switched (f k0) -> fs_pipe (k_fs (f k0)) !! p = Some x' -> pipe_rep x' q' ->
    exists k', sleep ch (Some lk) (W (hw_acquire lk i hw) pt km bc fs cn (f :: o)) =
      Ok tt (mk_world k' o) /\ holds k' x' q'.
Proof.
  intros Hs Hpo Hk k0. destruct (lock_sleep lk me hw pt i c pr ch km bc fs cn Hs Hpo Hk) as (H1 & H2 & H3).
  split; [done|]. split; [done|]. intros f o x' q' Hf Hx' Hr'.
  destruct (H3 f o Hf) as (k' & E & (hw2 & j & c2 & pr2 & R1 & R2 & R3 & R4) & _ & _ & Efs & _).
  exists k'. split; [exact E|]. exists hw2, j, c2, pr2. by rewrite Efs.
Qed.

(** ** Writing *)

(** The wait of [pipewrite] for room, and one turn of its loop. *)
Definition room_body : unit -> K (unit + option Z) := fun _ =>
  x <- getpipe p ;;
  if pi_nwrite x =? u32 (pi_nread x + PIPESIZE) then
    stop <- (if pi_readopen x =? 0 then ret true else mykilled) ;;
    if stop : bool then
      release (LPipe p) ;; ret (inr (Some (-1)))
    else
      wakeup (ChPipeR p) ;;
      sleep (ChPipeW p) (Some (LPipe p)) ;;
      ret (inl tt)
  else ret (inr None).
Definition put_byte (src : list Z) (i : nat) : K (option Z) :=
  r <- wait_loop room_body tt ;;
  match r with
  | Some e => ret (Some e)
  | None => updpipe p (pipe_push (from src i)) ;; ret None
  end.

Lemma pipewrite_loop src :
  pipewrite p src =
  (acquire (LPipe p) ;;
   r <- for_ (length src) 0 (put_byte src) ;;
   match r with
   | Some e => ret e
   | None => wakeup (ChPipeR p) ;; release (LPipe p) ;; ret (Z.of_nat (length src))
   end).
Proof. reflexivity. Qed.

Lemma getpipe_ok hw pt km bc fs cn o x :
  fs_pipe fs !! p = Some x ->
  getpipe p (W hw pt km bc fs cn o) = Ok x (W hw pt km bc fs cn o).
Proof. intros H. unfold getpipe. krun. by rewrite H. Qed.

(** What the others do to a full pipe while the writer sleeps, provided that no
    reader has been left asleep: read at least [m] bytes, without closing it. *)
Definition reads (m : nat) f : Prop :=
  forall k x q, switched k -> nobody (ChPipeR p) (k_pt k) -> fs_pipe (k_fs k) !! p = Some x -> pipe_rep x q ->
    length q = 512%nat -> pi_readopen x <> 0 ->
  exists x' n, switched (f k) /\ fs_pipe (k_fs (f k)) !! p = Some x' /\ pipe_rep x' (drop n q) /\
    (m <= n <= length q)%nat /\ pi_nread x' = u32 (pi_nread x + Z.of_nat n) /\ pi_readopen x' <> 0.

(** The thread asleep for good on a full pipe holding [q], with no reader asleep. *)
Definition stays_full (w : world) x q : Prop :=
  w_others w = [] /\ nobody (ChPipeR p) (k_pt (w_k w)) /\ fs_pipe (k_fs (w_k w)) !! p = Some x /\ pipe_rep x q /\ length q = 512%nat.

(** Reading [n] bytes takes [x] to [x']. *)
Definition advanced (n : nat) x x' : Prop :=
  pi_nread x' = u32 (pi_nread x + Z.of_nat n) /\ pi_readopen x' <> 0.

Lemma advanced_trans n n' x1 x2 x3 :
  advanced n x1 x2 -> advanced n' x2 x3 -> advanced (n + n') x1 x3.
Proof.
  intros [H1 _] [H2 H3]. split; [|done]. rewrite H2, H1, u32_add_u32. f_equal. lia.
Qed.

Lemma holds_len k x q : holds k x q -> (length q <= 512)%nat.
Proof. intros (? & ? & ? & ? & _ & _ & _ & _ & _ & H). apply H. Qed.
Lemma holds_adv k x q : holds k x q -> pi_readopen x <> 0 -> advanced 0 x x.
Proof.
  intros (? & ? & ? & ? & _ & _ & _ & _ & _ & H) Ho. split; [|done].
  rewrite Z.add_0_r, u32_small; [done|apply H].
Qed.

(** With room there is no wait. *)
Lemma room_ok k x q o :
  holds k x q -> length q <> 512%nat -> room_body tt (mk_world k o) = Ok (inr None) (mk_world k o).
Proof.
  intros (hw & i & c & pr & _ & _ & _ & _ & Hx & Hr) Hq. destruct k. cbn in Hx.
  unfold room_body. kcall getpipe_ok by exact Hx.
  by rewrite (pipe_full x q Hr), bool_decide_eq_false_2 by done.
Qed.

(** One turn of the wait on a full pipe. *)
Lemma room_turn m k x q o :
  holds k x q -> length q = 512%nat -> pi_readopen x <> 0 -> Forall (reads m) o ->
  match o with
  | [] => exists w, room_body tt (mk_world k []) = Asleep w /\ stays_full w x q
  | f :: o' => exists k' x' n, room_body tt (mk_world k o) = Ok (inl tt) (mk_world k' o') /\
      holds k' x' (drop n q) /\ (m <= n <= length q)%nat /\ advanced n x x'
  end.
Proof.
  intros (hw & i & c & pr & Eh & Hs & Hpo & Hk & Hx & Hr) Hq Hop Ho.
  destruct k as [hw0 pt km bc fs cn]. cbn [k_hw k_pt k_fs] in *. subst hw0.
  destruct (wakeup_in lk me hw pt i c pr (ChPipeR p) km bc fs cn o Hs Hpo) as (Hw & Hs' & Hpo').
  destruct (pipe_sleep hw _ i c _ (ChPipeW p) km bc fs cn Hs' Hpo') as (Hsw & Hsl & Hres);
    [by rewrite woken_killed|].
  pose proof (nobody_asleep (ChPipeR p) (ChPipeW p) me _ ltac:(done) (nobody_wakeup (ChPipeR p) pt)) as Hnb.
  assert (forall o, room_body tt (W (hw_acquire lk i hw) pt km bc fs cn o) =
    (wakeup (ChPipeR p) ;; sleep (ChPipeW p) (Some lk) ;; ret (inl tt))
      (W (hw_acquire lk i hw) pt km bc fs cn o)) as Eb.
  { intros o'. unfold room_body. cbv beta. kcall getpipe_ok by exact Hx.
    rewrite (pipe_full x q Hr), bool_decide_eq_true_2 by done.
    destruct (Z.eqb_spec (pi_readopen x) 0); [done|]. kcall mykilled_in by exact Hs. by rewrite Hk. }
  destruct o as [|f o]; rewrite Eb.
  - eexists. erewrite bind_ok by exact Hw. unfold bind at 1. rewrite Hsl. split; [done|]. done.
  - apply Forall_cons_1 in Ho as [Hf Ho].
    destruct (Hf _ x q Hsw Hnb Hx Hr Hq Hop) as (x' & n & F1 & F2 & F3 & F4 & F5 & F6).
    destruct (Hres f o x' _ F1 F2 F3) as (k' & E & Hk').
    exists k', x', n. split; [erewrite bind_ok by exact Hw; by kcall E|]. done.
Qed.

Lemma wait_room m o k x q :
  holds k x q -> pi_readopen x <> 0 -> Forall (reads m) o ->
  (exists k' x' n o1 o', wait_loop room_body tt (mk_world k o) = Ok None (mk_world k' o') /\
     holds k' x' (drop n q) /\ (length (drop n q) < 512)%nat /\ advanced n x x' /\
     o = o1 ++ o' /\ (m * length o1 <= n <= length q)%nat) \/
  (exists w x' n, wait_loop room_body tt (mk_world k o) = Asleep w /\
     stays_full w x' (drop n q) /\ (m * length o <= n <= length q)%nat).
Proof.
  unfold wait_loop. cbn [w_others]. revert k x q.
  induction o as [|f o IH]; intros k x q Hh Hop Ho; cbn [length];
    destruct (decide (length q = 512%nat)) as [Hq|Hq].
  2, 4: left; eexists k, x, 0%nat, [], _; rewrite drop_0; split;
    [cbn [loop_]; by rewrite (bind_ok _ _ _ _ _ (room_ok _ _ _ _ Hh Hq))|];
    pose proof (holds_len _ _ _ Hh); pose proof (holds_adv _ _ _ Hh Hop);
    do 2 (split; [done || lia|]); (split; [done|]); split; [done|cbn; lia].
  all: pose proof (room_turn m k x q _ Hh Hq Hop Ho) as Ht; cbv beta match in Ht.
  - right. destruct Ht as (w & E & Hw). exists w, x, 0%nat. cbn [loop_].
    unfold bind at 1. rewrite E. split; [done|]. split; [done|]. cbn. lia.
  - destruct Ht as (k' & x' & n & E & Hh' & Hn & Ha). apply Forall_cons_1 in Ho as [_ Ho].
    cbn [loop_] in *. rewrite (bind_ok _ _ _ _ _ E).
    destruct (IH k' x' (drop n q) Hh' (proj2 Ha) Ho)
      as [(k2 & x2 & n2 & o1 & o' & E2 & Hh2 & Hl2 & Ha2 & -> & Hn2)|(w & x2 & n2 & E2 & Hw2 & Hn2)];
      rewrite length_drop in Hn2; rewrite drop_drop in *.
    + left. exists k2, x2, (n + n2)%nat, (f :: o1), o'. split; [exact E2|]. split; [done|]. split; [done|].
      split; [by eapply advanced_trans|]. split; [done|]. cbn. lia.
    + right. exists w, x2, (n + n2)%nat. split; [exact E2|]. split; [done|]. cbn. lia.
Qed.

Lemma push_ok k x q b o :
  holds k x q -> (length q < 512)%nat ->
  exists k', updpipe p (pipe_push b) (mk_world k o) = Ok tt (mk_world k' o) /\
    holds k' (pipe_push b x) (q ++ [b]).
Proof.
  intros (hw & i & c & pr & Eh & Hs & Hpo & Hk & Hx & Hr) Hq. destruct k as [hw0 pt km bc fs cn].
  eexists. split; [unfold updpipe; krun; done|]. exists hw, i, c, pr. cbn in *.
  do 4 (split; [done|]). split; [by rewrite lookup_alter_eq, Hx|by apply pipe_push_rep].
Qed.

Lemma put_ok m o k x q src i b :
  holds k x q -> pi_readopen x <> 0 -> Forall (reads m) o -> src !! i = Some b ->
  (exists k' x' n o1 o', put_byte src i (mk_world k o) = Ok None (mk_world k' o') /\
     holds k' x' (drop n q ++ [b]) /\ advanced n x x' /\
     o = o1 ++ o' /\ (m * length o1 <= n <= length q)%nat) \/
  (exists w x' n, put_byte src i (mk_world k o) = Asleep w /\
     stays_full w x' (drop n q) /\ (m * length o <= n <= length q)%nat).
Proof.
  intros Hh Hop Ho Hb. unfold put_byte, from. rewrite Hb.
  destruct (wait_room m o k x q Hh Hop Ho)
    as [(k' & x' & n & o1 & o' & E & Hh' & Hl & Ha & Eo & Hn)|(w & x' & n & E & Hw)].
  - left. destruct (push_ok k' x' _ b o' Hh' Hl) as (k2 & E2 & Hh2).
    exists k2, (pipe_push b x'), n, o1, o'. split; [|done].
    rewrite (bind_ok _ _ _ _ _ E). cbn match. by rewrite (bind_ok _ _ _ _ _ E2).
  - right. exists w, x', n. split; [|done]. unfold bind. by rewrite E.
Qed.

(** The loop over the bytes from the [i]th on. *)
Lemma put_loop m src rest : forall i o k x q,
  drop i src = rest -> holds k x q -> pi_readopen x <> 0 -> Forall (reads m) o ->
  (exists k' x' n o1 o',
     for_ (length rest) i (put_byte src) (mk_world k o) = Ok None (mk_world k' o') /\
     holds k' x' (drop n (q ++ rest)) /\ advanced n x x' /\
     o = o1 ++ o' /\ (m * length o1 <= n <= length q + length rest)%nat) \/
  (exists w x' n j,
     for_ (length rest) i (put_byte src) (mk_world k o) = Asleep w /\
     stays_full w x' (drop n (q ++ take j rest)) /\
     (j < length rest)%nat /\ (m * length o <= n <= length q + j)%nat).
Proof.
  induction rest as [|b rest IH]; intros i o k x q Hd Hh Hop Ho; cbn [length for_].
  { left. exists k, x, 0%nat, [], o. split; [done|]. rewrite drop_0, app_nil_r. split; [done|].
    split; [by eapply holds_adv|]. split; [done|cbn; lia]. }
  assert (src !! i = Some b) as Hb by (by rewrite <- (Nat.add_0_r i), <- lookup_drop, Hd).
  assert (drop (S i) src = rest) as Hd' by (by rewrite <- Nat.add_1_r, <- drop_drop, Hd).
  destruct (put_ok m o k x q src i b Hh Hop Ho Hb)
    as [(k' & x' & n & o1 & o' & E & Hh' & Ha & -> & Hn)|(w & x' & n & E & Hw & Hn)].
  2: { right. exists w, x', n, 0%nat. split; [unfold bind; by rewrite E|]. rewrite take_0, app_nil_r.
       split; [done|]. lia. }
  rewrite (bind_ok _ _ _ _ _ E). cbn match. apply Forall_app in Ho as [_ Ho'].
  destruct (IH (S i) o' k' x' _ Hd' Hh' (proj2 Ha) Ho')
    as [(k2 & x2 & n2 & o2 & o3 & E2 & Hh2 & Ha2 & -> & Hn2)|(w & x2 & n2 & j & E2 & Hw2 & Hj & Hn2)];
    rewrite length_app, length_drop in Hn2; cbn [length] in Hn2;
    rewrite <- app_assoc, <- (drop_app_le q) , drop_drop in * by lia.
  - left. exists k2, x2, (n + n2)%nat, (o1 ++ o2), o3. split; [exact E2|]. split; [done|].
    split; [by eapply advanced_trans|]. split; [apply app_assoc|]. rewrite length_app. lia.
  - right. exists w, x2, (n + n2)%nat, (S j). split; [exact E2|]. split; [done|].
    split; [lia|]. rewrite length_app. lia.
Qed.

(** ** Reading *)

(** The wait of [piperead] for bytes. *)
Definition data_body : unit -> K (unit + bool) := fun _ =>
  x <- getpipe p ;;
  if (pi_nread x =? pi_nwrite x) && negb (pi_writeopen x =? 0) then
    k <- mykilled ;;
    if k : bool then release (LPipe p) ;; ret (inr true)
    else sleep (ChPipeR p) (Some (LPipe p)) ;; ret (inl tt)
  else ret (inr false).

Lemma piperead_loop n :
  piperead p n =
  (acquire (LPipe p) ;;
   r <- wait_loop data_body tt ;;
   if r : bool then ret (-1, []) else
   l <- pipe_take p (Z.to_nat n) ;;
   wakeup (ChPipeW p) ;;
   release (LPipe p) ;;
   ret (Z.of_nat (length l), l)).
Proof. reflexivity. Qed.

(** What the others do to an empty pipe while the reader sleeps: write the
    bytes [add]; they may close it. *)
Definition writes (add : list Z) f : Prop :=
  forall k x, switched k -> fs_pipe (k_fs k) !! p = Some x -> pipe_rep x [] ->
  exists x', switched (f k) /\ fs_pipe (k_fs (f k)) !! p = Some x' /\ pipe_rep x' add /\
    pi_nread x' = pi_nread x.

Lemma take_ok n : forall k x q o,
  holds k x q ->
  exists k' x', pipe_take p n (mk_world k o) = Ok (take n q) (mk_world k' o) /\
    holds k' x' (drop n q) /\ pi_writeopen x' = pi_writeopen x /\
    pi_nread x' = u32 (pi_nread x + Z.of_nat (length (take n q))).
Proof.
  induction n as [|n IH]; intros k x q o Hh; cbn [pipe_take];
    destruct Hh as (hw & i & c & pr & Eh & Hs & Hpo & Hk & Hx & Hr).
  { exists k, x. rewrite take_0, drop_0. split; [done|]. split; [by exists hw, i, c, pr|].
    split; [done|]. cbn. rewrite Z.add_0_r, u32_small; [done|apply Hr]. }
  destruct k as [hw0 pt km bc fs cn]. cbn [k_hw k_pt k_fs] in *.
  kcall getpipe_ok by exact Hx. rewrite (pipe_empty x q Hr).
  destruct q as [|b q].
  - rewrite bool_decide_eq_true_2 by done. exists (mk_k hw0 pt km bc fs cn), x.
    split; [done|]. split; [by exists hw, i, c, pr|]. split; [done|].
    cbn. rewrite Z.add_0_r, u32_small; [done|apply Hr].
  - rewrite bool_decide_eq_false_2 by done. cbn zeta. destruct (pipe_pop_rep x b q Hr) as [Eb Hr'].
    unfold updpipe at 1. krun.
    destruct (IH (mk_k hw0 pt km bc (set_fs_pipe (alter pipe_pop p (fs_pipe fs)) fs) cn)
      (pipe_pop x) q o) as (k' & x' & E & Hh' & Ho' & Hn').
    { exists hw, i, c, pr. cbn. do 4 (split; [done|]). split; [by rewrite lookup_alter_eq, Hx|done]. }
    exists k', x'. split; [by rewrite (bind_ok _ _ _ _ _ E), Eb|]. split; [done|]. split; [done|].
    rewrite Hn'. cbn. rewrite u32_add_u32. f_equal. lia.
Qed.

(** One turn of the wait. *)
Lemma data_turn k x o :
  holds k x [] -> pi_writeopen x <> 0 ->
  match o with
  | [] => exists w, data_body tt (mk_world k []) = Asleep w /\ w_others w = [] /\
      fs_pipe (k_fs (w_k w)) !! p = Some x
  | f :: o' => forall add, writes add f ->
      exists k' x', data_body tt (mk_world k o) = Ok (inl tt) (mk_world k' o') /\
      holds k' x' add /\ pi_nread x' = pi_nread x
  end.
Proof.
  intros (hw & i & c & pr & Eh & Hs & Hpo & Hk & Hx & Hr) Hop.
  destruct k as [hw0 pt km bc fs cn]. cbn [k_hw k_pt k_fs] in *. subst hw0.
  destruct (pipe_sleep hw _ i c _ (ChPipeR p) km bc fs cn Hs Hpo Hk) as (Hsw & Hsl & Hres).
  assert (forall o, data_body tt (W (hw_acquire lk i hw) pt km bc fs cn o) =
    (sleep (ChPipeR p) (Some lk) ;; ret (inl tt))
      (W (hw_acquire lk i hw) pt km bc fs cn o)) as Eb.
  { intros o'. unfold data_body. cbv beta. kcall getpipe_ok by exact Hx.
    rewrite (pipe_empty x [] Hr), bool_decide_eq_true_2 by done.
    destruct (Z.eqb_spec (pi_writeopen x) 0); [done|]. cbn [andb negb].
    kcall mykilled_in by exact Hs. by rewrite Hk. }
  destruct o as [|f o]; [|intros add Hf]; rewrite Eb.
  - eexists. unfold bind at 1. rewrite Hsl. done.
  - destruct (Hf _ x Hsw Hx Hr) as (x' & F1 & F2 & F3 & F4).
    destruct (Hres f o x' _ F1 F2 F3) as (k' & E & Hk').
    exists k', x'. split; [by kcall E|done].
Qed.

Lemma data_ok k x q o :
  holds k x q -> ~ (q = [] /\ pi_writeopen x <> 0) ->
  data_body tt (mk_world k o) = Ok (inr false) (mk_world k o).
Proof.
  intros (hw & i & c & pr & _ & _ & _ & _ & Hx & Hr) Hq. destruct k. cbn in Hx.
  unfold data_body. kcall getpipe_ok by exact Hx. rewrite (pipe_empty x q Hr).
  destruct (decide (q = [])) as [->|Hne]; [|by rewrite bool_decide_eq_false_2].
  rewrite bool_decide_eq_true_2 by done. destruct (Z.eqb_spec (pi_writeopen x) 0); [done|].
  by destruct Hq.
Qed.

Lemma data_now n adds k x q o :
  holds k x q -> ~ (q = [] /\ pi_writeopen x <> 0) ->
  exists k' x' q' o1 o', loop_ (S n) data_body tt (mk_world k o) = Ok false (mk_world k' o') /\
     holds k' x' q' /\ o = o1 ++ o' /\ q' = q ++ concat (take (length o1) adds) /\
     (q' = [] -> pi_writeopen x' = 0) /\ pi_nread x' = pi_nread x.
Proof.
  intros Hh Hq. exists k, x, q, [], o. cbn [length take concat]. rewrite app_nil_r.
  split; [cbn [loop_]; by rewrite (bind_ok _ _ _ _ _ (data_ok _ _ _ _ Hh Hq))|].
  do 3 (split; [done|]). split; [|done]. intros ->.
  destruct (decide (pi_writeopen x = 0)); [done|]. by destruct Hq.
Qed.

Lemma wait_data o : forall adds k x q,
  holds k x q -> Forall2 writes adds o ->
  (exists k' x' q' o1 o', wait_loop data_body tt (mk_world k o) = Ok false (mk_world k' o') /\
     holds k' x' q' /\ o = o1 ++ o' /\ q' = q ++ concat (take (length o1) adds) /\
     (q' = [] -> pi_writeopen x' = 0) /\ pi_nread x' = pi_nread x) \/
  (exists w, wait_loop data_body tt (mk_world k o) = Asleep w /\
     q = [] /\ concat adds = [] /\ w_others w = [] /\
     exists x', fs_pipe (k_fs (w_k w)) !! p = Some x' /\ pi_writeopen x' <> 0).
Proof.
  unfold wait_loop. cbn [w_others]. induction o as [|f o IH]; intros adds k x q Hh Ha; cbn [length];
    (destruct (decide (q = [] /\ pi_writeopen x <> 0)) as [[-> Hop]|Hq];
      [|left; by apply data_now]).
  - apply Forall2_nil_inv_r in Ha as ->. right.
    destruct (data_turn k x [] Hh Hop) as (w & E & Hw & Hx). exists w. cbn [loop_]. unfold bind at 1.
    rewrite E. do 4 (split; [done|]). by exists x.
  - apply Forall2_cons_inv_r in Ha as (add & adds' & Hf & Ha & ->).
    destruct (data_turn k x (f :: o) Hh Hop add Hf) as (k' & x' & E & Hh' & Hn).
    cbn [loop_] in *. rewrite (bind_ok _ _ _ _ _ E). cbn match.
    destruct (IH adds' k' x' add Hh' Ha)
      as [(k2 & x2 & q2 & o1 & o' & E2 & Hh2 & -> & Eq & Hc & Hn2)|(w & E2 & Hq & Hc & Hw)].
    + left. exists k2, x2, q2, (f :: o1), o'. split; [exact E2|]. split; [done|]. split; [done|].
      split; [exact Eq|]. split; [done|congruence].
    + right. exists w. split; [exact E2|]. split; [done|]. split; [|done].
      cbn. by rewrite Hq, Hc.
Qed.
End Pipe.

(** ** Properties *)

(** C15: [pipewrite] on an open pipe holding [q].  While it sleeps on a full
    pipe the others may read, at least [m] bytes each time.  If it returns it
    returns the number of bytes given, the lock is free again, and the pipe
    holds [q ++ src] without the [n] oldest bytes, [n] being exactly what the
    read counter advanced by: every byte was written once, in order, none
    overwritten before it was read.  It fails to return only if the others
    never make room for all the bytes, and then it sleeps on a full pipe that
    holds a prefix of them.  No reader is left asleep: all are awake when it
    returns, and each time that it goes to sleep itself, so that the others
    are relied on to read only with every reader awake. *)
Theorem pipewrite_stream km bc fs cn o p me m hw pt i c pr x q src :
  sleep_ready hw pt i c (LPipe p) me pr -> procs_ok pt -> p_killed pr = 0 ->
  fs_pipe fs !! p = Some x -> pipe_rep x q -> pi_readopen x <> 0 ->
  Forall (reads p me m) o ->
  (exists k' x' n o',
     pipewrite p src (W hw pt km bc fs cn o) = Ok (Z.of_nat (length src)) (mk_world k' o') /\
     lock_free (k_hw k') (LPipe p) /\ nobody (ChPipeR p) (k_pt k') /\
     fs_pipe (k_fs k') !! p = Some x' /\ pipe_rep x' (drop n (q ++ src)) /\
     (n <= length q + length src)%nat /\ pi_nread x' = u32 (pi_nread x + Z.of_nat n)) \/
  (exists w x' n j,
     pipewrite p src (W hw pt km bc fs cn o) = Asleep w /\
     stays_full p w x' (drop n (q ++ take j src)) /\ (j < length src)%nat /\
     (512 + m * length o < length q + length src)%nat).
Proof.
  intros Hs Hpo Hk Hx Hr Hop Ho. rewrite pipewrite_loop.
  kcall acquire_ok by (apply Hs || apply (sl_lk _ _ _ _ _ _ _ Hs)).
  destruct (put_loop p me m src src 0 o (mk_k (hw_acquire (LPipe p) i hw) pt km bc fs cn) x q)
    as [(k' & x' & n & o1 & o' & E & Hh & Ha & _ & Hn)|(w & x' & n & j & E & Hw & Hj & Hn)];
    [done|by exists hw, i, c, pr|done|done| |].
  - left. rewrite (bind_ok _ _ _ _ _ E). cbn match.
    destruct Hh as (hw' & i' & c' & pr' & Eh & Hs' & Hpo' & _ & Hx' & Hr').
    destruct k' as [hw0 pt' km' bc' fs' cn']. cbn [k_hw k_pt k_fs] in *. subst hw0.
    destruct (wakeup_in (LPipe p) me hw' pt' i' c' pr' (ChPipeR p) km' bc' fs' cn' o' Hs' Hpo') as (Ew & _ & _).
    eexists _, x', n, o'. split.
    { rewrite (bind_ok _ _ _ _ _ Ew). kcall release_acquired by (apply Hs' || apply (sl_lk _ _ _ _ _ _ _ Hs')).
      done. }
    split; [exact (sl_lk _ _ _ _ _ _ _ Hs')|]. split; [apply nobody_wakeup|].
    split; [done|]. split; [done|]. split; [lia|apply Ha].
  - right. exists w, x', n, j. split; [unfold bind; by rewrite E|]. split; [done|]. split; [done|].
    destruct Hw as (_ & _ & _ & _ & Hl). rewrite length_drop, length_app, length_take in Hl. lia.
Qed.

(** C16: [piperead] on a pipe holding [q].  While it sleeps on an empty pipe
    the others may write, [adds] being what each of them wrote.  If it returns
    it returns a number of bytes and exactly that many of the oldest bytes,
    as many as were asked for if there are that many, and the rest stays in
    the pipe: the bytes returned followed by those left are those that were in
    it followed by those written meanwhile.  It returns no bytes only when the
    write end is closed or none were asked for.  It fails to return only if
    nothing is ever written to the empty pipe.  When it returns no writer is
    left asleep. *)
Theorem piperead_stream km bc fs cn o p me hw pt i c pr x q n adds :
  sleep_ready hw pt i c (LPipe p) me pr -> procs_ok pt -> p_killed pr = 0 ->
  fs_pipe fs !! p = Some x -> pipe_rep x q -> Forall2 (writes p me) adds o ->
  (exists k' x' l q' o1 o',
     piperead p n (W hw pt km bc fs cn o) = Ok (Z.of_nat (length l), l) (mk_world k' o') /\
     lock_free (k_hw k') (LPipe p) /\ nobody (ChPipeW p) (k_pt k') /\
     fs_pipe (k_fs k') !! p = Some x' /\ pipe_rep x' q' /\
     o = o1 ++ o' /\ l ++ q' = q ++ concat (take (length o1) adds) /\
     length l = Nat.min (Z.to_nat n) (length (l ++ q')) /\
     (l = [] -> n <= 0 \/ pi_writeopen x' = 0) /\
     pi_nread x' = u32 (pi_nread x + Z.of_nat (length l))) \/
  (exists w, piperead p n (W hw pt km bc fs cn o) = Asleep w /\ q = [] /\ concat adds = [] /\
     exists x', fs_pipe (k_fs (w_k w)) !! p = Some x' /\ pi_writeopen x' <> 0).
Proof.
  intros Hs Hpo Hk Hx Hr Ha. rewrite piperead_loop.
  kcall acquire_ok by (apply Hs || apply (sl_lk _ _ _ _ _ _ _ Hs)).
  destruct (wait_data p me o adds (mk_k (hw_acquire (LPipe p) i hw) pt km bc fs cn) x q)
    as [(k1 & x1 & q1 & o1 & o' & E & Hh & Eo & Eq & Hc & Hn1)|(w & E & Hq & Hc & _ & Hw)];
    [by exists hw, i, c, pr|done| |].
  2: { right. exists w. split; [unfold bind; by rewrite E|done]. }
  left. rewrite (bind_ok _ _ _ _ _ E). cbn match.
  destruct (take_ok p me (Z.to_nat n) k1 x1 q1 o' Hh) as (k2 & x2 & E2 & Hh2 & Hop2 & Hn2).
  rewrite (bind_ok _ _ _ _ _ E2).
  destruct Hh2 as (hw' & i' & c' & pr' & Eh & Hs' & Hpo' & _ & Hx' & Hr').
  destruct k2 as [hw0 pt' km' bc' fs' cn']. cbn [k_hw k_pt k_fs] in *. subst hw0.
  destruct (wakeup_in (LPipe p) me hw' pt' i' c' pr' (ChPipeW p) km' bc' fs' cn' o' Hs' Hpo') as (Ew & _ & _).
  eexists _, x2, (take (Z.to_nat n) q1), (drop (Z.to_nat n) q1), o1, o'. split.
  { rewrite (bind_ok _ _ _ _ _ Ew). kcall release_acquired by (apply Hs' || apply (sl_lk _ _ _ _ _ _ _ Hs')).
    done. }
  rewrite take_drop. split; [exact (sl_lk _ _ _ _ _ _ _ Hs')|]. split; [apply nobody_wakeup|]. do 4 (split; [done|]).
  split; [by rewrite length_take|]. split; [|by rewrite Hn2, Hn1].
  intros El. destruct (Z.to_nat n) as [|n'] eqn:En; [left; lia|right].
  rewrite Hop2. apply Hc. by destruct q1.
Qed.

(** ** The properties at work

    A full pipe, and a reader that takes the oldest byte; an empty pipe, and
    a writer that puts one byte in. *)

Definition pipe_page : Z := 0x80115000.
Definition pipe_ex (q : list Z) : pipe :=
  mk_pipe (q ++ replicate (512 - length q) 0) 0 (Z.of_nat (length q)) 1 1.
Definition fs_pipe_ex (x : pipe) : fsstate := set_fs_pipe {[pipe_page := x]} fs0.
Definition on_pipe (f : pipe -> pipe) (k : kstate) : kstate :=
  mk_k (k_hw k) (k_pt k) (k_km k) (k_bc k)
    (set_fs_pipe (alter f pipe_page (fs_pipe (k_fs k))) (k_fs k)) (k_cn k).

Lemma pipe_ex_rep q : (length q <= 512)%nat -> pipe_rep (pipe_ex q) q.
Proof.
  intros Hq. unfold pipe_ex. split; cbn.
  - rewrite length_app, length_replicate. lia.
  - done.
  - done.
  - rewrite u32_small; [done|unfold W32; lia].
  - intros k b Hk. pose proof (lookup_lt_Some _ _ _ Hk). change (0 + Z.of_nat k) with (Z.of_nat k).
    rewrite Z.mod_small by (unfold PIPESIZE; lia). rewrite Nat2Z.id. by apply lookup_app_l_Some.
Qed.

Lemma sleep_ready_pipe : sleep_ready hw_run pt_run 0 c_run (LPipe pipe_page) 0 proc_run.
Proof. split; try done. apply here_run. Qed.

Lemma reads_pop : reads pipe_page 0 1 (on_pipe pipe_pop).
Proof.
  intros k x q Hs _ Hx Hr Hq Ho. destruct q as [|b q]; [done|]. destruct (pipe_pop_rep x b q Hr) as [_ Hr'].
  exists (pipe_pop x), 1%nat. split; [exact Hs|]. split; [cbn; by rewrite lookup_alter_eq, Hx|].
  split; [done|]. split; [cbn; lia|]. done.
Qed.

Lemma writes_push b : writes pipe_page 0 [b] (on_pipe (pipe_push b)).
Proof.
  intros k x Hs Hx Hr. exists (pipe_push b x). split; [exact Hs|].
  split; [cbn; by rewrite lookup_alter_eq, Hx|]. split; [|done].
  by apply (pipe_push_rep x []); [|cbn; lia].
Qed.

Lemma pipewrite_stream_witness :
  exists k' o', pipewrite pipe_page [1]
    (W hw_run pt_run km0 bc0 (fs_pipe_ex (pipe_ex (replicate 512 7))) cn0 [on_pipe pipe_pop]) =
    Ok 1 (mk_world k' o').
Proof.
  assert (length (replicate 512 7%Z) <= 512)%nat as Hl by (rewrite length_replicate; lia).
  destruct (pipewrite_stream km0 bc0 (fs_pipe_ex (pipe_ex (replicate 512 7))) cn0 [on_pipe pipe_pop]
    pipe_page 0 1 hw_run pt_run 0 c_run proc_run (pipe_ex (replicate 512 7)) (replicate 512 7) [1]
    sleep_ready_pipe eq_refl eq_refl (lookup_singleton_eq _ _) (pipe_ex_rep _ Hl) ltac:(discriminate)
    (Forall_cons_2 _ _ _ reads_pop (Forall_nil_2 _)))
    as [(k' & _ & _ & o' & E & _)|(_ & _ & _ & _ & _ & _ & _ & Hc)].
  - exists k', o'. exact E.
  - exfalso. rewrite length_replicate in Hc. cbn [length] in Hc. lia.
Defined.

Lemma piperead_stream_witness :
  exists k' l o', piperead pipe_page 4
    (W hw_run pt_run km0 bc0 (fs_pipe_ex (pipe_ex [])) cn0 [on_pipe (pipe_push 9)]) =
    Ok (Z.of_nat (length l), l) (mk_world k' o').
Proof.
  destruct (piperead_stream km0 bc0 (fs_pipe_ex (pipe_ex [])) cn0 [on_pipe (pipe_push 9)]
    pipe_page 0 hw_run pt_run 0 c_run proc_run (pipe_ex []) [] 4 [[9]]
    sleep_ready_pipe eq_refl eq_refl (lookup_singleton_eq _ _) (pipe_ex_rep [] ltac:(cbn; lia))
    ltac:(repeat constructor; apply writes_push))
    as [(k' & _ & l & _ & _ & o' & E & _)|(_ & _ & _ & Hc & _)].
  - exists k', l, o'. exact E.
  - discriminate Hc.
Defined.
