(* ===== verification/Kthread.v ===== *)
(** * Processes and kernel threads

    The rest of [proc.c]: the first process, [growproc], [fork], the kernel
    threads ([KT_Create], [clone], [clear_psl], [KT_Join]), [exit] and [wait].
    The threads of a process share its page table; the [psl] entry of the
    process says which of the eight user stacks below the kernel are taken. *)

From stdpp Require Import prelude list gmap strings.
From Stdlib Require Import ZArith Lia.
From S2P Require Import Prelude State Boot Spinlock Str Kalloc Cprintf Vm Sched Sleeplock Bio Log Fs File.
#[local] Open Scope c_scope.

(** [struct proc *curproc = myproc();], used as a pointer. *)
Definition curproc : K nat := p <- myproc ;; deref "myproc()" p.

(** Grow current process's memory by [n] bytes. *)
Definition growproc (n : Z) : K Z :=
  p <- curproc ;;
  x <- getp p ;;
  let sz := p_sz x in
  r <- (if 0 <? n then
          sz <- allocuvm (p_pgdir x) sz (u32 (sz + n)) ;;
          ret (if sz =? 0 then None else Some sz)
        else if n <? 0 then
          sz <- deallocuvm (p_pgdir x) sz (u32 (sz + n)) ;;
          ret (if sz =? 0 then None else Some sz)
        else ret (Some sz)) ;;
  match r with
  | None => ret (-1)
  | Some sz =>
    updp p (set_p_sz sz) ;;
    switchuvm (Some p) ;;
    ret 0
  end.

(** [for(i = 0; i < NOFILE; i++) if(from->ofile[i]) to->ofile[i] =
    filedup(from->ofile[i]); to->cwd = idup(from->cwd);] *)
Definition dup_files (src dst : nat) : K unit :=
  each_ NOFILE 0 (fun i =>
    x <- getp src ;;
    f <- at_ "ofile" (p_ofile x) i ;;
    match f with
    | Some f =>
      f <- filedup f ;;
      updp dst (fun y => set_p_ofile (<[i := Some f]> (p_ofile y)) y)
    | None => ret tt
    end) ;;
  x <- getp src ;;
  cwd <- deref "idup" (p_cwd x) ;;
  cwd <- idup cwd ;;
  updp dst (set_p_cwd (Some cwd)).

(** Create a new process copying the current one. *)
Definition fork : K Z :=
  p <- curproc ;;
  r <- allocproc ;;
  match r with
  | None => ret (-1)
  | Some np =>
    x <- getp p ;;
    let slindex := match p_psl x with Some _ => p_slindex x | None => 0 end in
    pg <- copyuvm (p_pgdir x) (p_sz x) slindex ;;
    updp np (set_p_pgdir pg) ;;
    if pg =? 0 then
      y <- getp np ;;
      kfree (p_kstack y) ;;
      updp np (set_p_kstack 0) ;;
      updp np (set_p_state UNUSED) ;;
      ret (-1)
    else
    x <- getp p ;;
    updp np (set_p_sz (p_sz x)) ;;
    updp np (set_p_parent (Some p)) ;;
    updp np (set_p_tf (p_tf x)) ;;
    updp np (fun y => set_p_tf (set_t_eax 0 (p_tf y)) y) ;;
    updp np (fun y => set_p_tf (set_t_esp (u32 (t_esp (p_tf y) + slindex * 2 * PGSIZE))
                                  (p_tf y)) y) ;;
    dup_files p np ;;
    x <- getp p ;;
    updp np (fun y => set_p_name (safestrcpy (p_name y) (from (p_name x)) 16) y) ;;
    y <- getp np ;;
    let pid := p_pid y in
    acquire LPtable ;;
    updp np (set_p_state RUNNABLE) ;;
    release LPtable ;;
    ret pid
  end.

(** ** User stacks *)

(** [psl->stackz[i]] *)
Definition stackz_idx (i : Z) : K nat :=
  if (0 <=? i) && (i <? 8) then ret (Z.to_nat i) else fault "psl->stackz".
Definition set_stackz (s : nat) (i v : Z) : K unit :=
  k <- stackz_idx i ;;
  updsl s (fun x => set_s_stackz (<[k := v]> (s_stackz x)) x).

(** The top of stack [i], and its bottom: two pages further down. *)
Definition stack_top (i : Z) : Z := u32 (STACKBOTTOM - i * 2 * PGSIZE).
Definition stack_low (i : Z) : Z := u32 (STACKBOTTOM - 2 * PGSIZE - i * 2 * PGSIZE).

(** The ways out of the allocation of a stack. *)
Inductive kt_stack := KtBad | KtFull | KtStack (sp : Z) (slindex : Z).

(** The process has no stack list yet: take an entry of the table, stack 0
    for the current thread and stack 1 for the new one. *)
Definition first_stack (p : nat) : K kt_stack :=
  r <- for_ KT_TABLESIZE 0 (fun s =>
    sl <- getsl s ;;
    if negb (bool_decide (s_state sl = UNUSED)) then ret None else
    updsl s (set_s_state EMBRYO) ;;
    updp p (set_p_psl (Some s)) ;;
    set_stackz s 0 1 ;;
    updp p (set_p_slindex 0) ;;
    updsl s (set_s_thread_count 2) ;;
    x <- getp p ;;
    sp <- allocuvm (p_pgdir x) (STACKBOTTOM - 4 * PGSIZE) (STACKBOTTOM - 2 * PGSIZE) ;;
    if sp =? 0 then ret (Some KtBad) else
    x <- getp p ;;
    clearpteu (p_pgdir x) (u32 (sp - 4 * PGSIZE)) ;;
    set_stackz s 1 1 ;;
    ret (Some (KtStack sp 1))) ;;
  ret (default (KtStack 0 (-1)) r).

(** The process has stack list [s]: take its first free stack. *)
Definition next_stack (p s : nat) : K kt_stack :=
  sl <- getsl s ;;
  if s_thread_count sl =? 8 then release LSltable ;; ret KtFull else
  updsl s (fun x => set_s_thread_count (s_thread_count x + 1) x) ;;
  r <- for_ 8 0 (fun i =>
    sl <- getsl s ;;
    z <- at_ "psl->stackz" (s_stackz sl) i ;;
    if negb (z =? 0) then ret None else
    x <- getp p ;;
    sp <- allocuvm (p_pgdir x) (stack_low (Z.of_nat i)) (stack_top (Z.of_nat i)) ;;
    if sp =? 0 then ret (Some KtBad) else
    x <- getp p ;;
    clearpteu (p_pgdir x) (u32 (sp - 2 * PGSIZE)) ;;
    set_stackz s (Z.of_nat i) 1 ;;
    ret (Some (KtStack sp (Z.of_nat i)))) ;;
  ret (default (KtStack 0 (-1)) r).

Section Threads.
Context `{DiskDriver} `{ConsoleDev}.

(** Clone initializes the table entry and the user stack of a new thread. *)
Definition clone (sp slindex fnc arg : Z) : K Z :=
  p <- curproc ;;
  r <- tallocproc ;;
  match r with
  | None => ret (-1)
  | Some nt =>
    x <- getp p ;;
    updp nt (set_p_pthread (Some p)) ;;
    updp nt (set_p_psl (p_psl x)) ;;
    updp nt (set_p_slindex slindex) ;;
    updp nt (set_p_pgdir (p_pgdir x)) ;;
    updp nt (set_p_sz (p_sz x)) ;;
    updp nt (set_p_tf (p_tf x)) ;;
    dup_files p nt ;;
    x <- getp p ;;
    updp nt (fun y => set_p_name (safestrcpy (p_name y) (from (p_name x)) 16) y) ;;
    updp nt (set_p_pid (p_pid x)) ;;
    updp nt (set_p_tid (p_tid x + 1)) ;;
    let ustack := enc32 0xffffffff ++ enc32 arg in
    let sp := u32 (sp - 2 * 4) in
    y <- getp nt ;;
    e <- copyout (p_pgdir y) sp ustack ;;
    if e <? 0 then ret (-1) else
    updp nt (fun y => set_p_tf (set_t_eip fnc (p_tf y)) y) ;;
    updp nt (fun y => set_p_tf (set_t_esp sp (p_tf y)) y) ;;
    acquire LPtable ;;
    updp nt (set_p_state RUNNABLE) ;;
    release LPtable ;;
    y <- getp nt ;;
    ret (p_tid y)
  end.

(** Generates a new kernel level thread that runs [fnc(arg)]. *)
Definition KT_Create (fnc arg : Z) : K Z :=
  if fnc =? 0 then ret (-1) else
  p <- curproc ;;
  acquire LSltable ;;
  x <- getp p ;;
  r <- match p_psl x with
       | None => first_stack p
       | Some s => next_stack p s
       end ;;
  match r with
  | KtFull => ret (-1)
  | KtBad =>
    release LSltable ;;
    x <- getp p ;;
    (if negb (p_pgdir x =? 0) then freevm (p_pgdir x) else ret tt) ;;
    ret (-1)
  | KtStack sp slindex =>
    release LSltable ;;
    clone sp slindex fnc arg
  end.

(** Frees the user stack of thread [p] and its place in the stack list. *)
Definition clear_psl (p : nat) : K unit :=
  acquire LSltable ;;
  x <- getp p ;;
  s <- deref "clear_psl" (p_psl x) ;;
  set_stackz s (p_slindex x) 0 ;;
  deallocuvm (p_pgdir x) (stack_top (p_slindex x)) (stack_low (p_slindex x)) ;;
  updp p (set_p_slindex 0) ;;
  updsl s (fun y => set_s_thread_count (s_thread_count y - 1) y) ;;
  sl <- getsl s ;;
  (if s_thread_count sl =? 0 then updsl s (set_s_state UNUSED) else ret tt) ;;
  release LSltable.

(** ** Exit and wait *)

Definition proc_chan (p : option nat) : chan :=
  match p with Some i => ChProc i | None => ChNull end.
Definition psl_chan (s : option nat) : chan :=
  match s with Some i => ChPsl i | None => ChNull end.

(** Exit the current process; does not return. *)
Definition exit : K unit :=
  p <- curproc ;;
  i <- getpt pt_initproc ;;
  if bool_decide (Some p = i) then panic "init exiting" else
  each_ NOFILE 0 (fun fd =>
    x <- getp p ;;
    f <- at_ "ofile" (p_ofile x) fd ;;
    match f with
    | Some f =>
      fileclose f ;;
      updp p (fun x => set_p_ofile (<[fd := None]> (p_ofile x)) x)
    | None => ret tt
    end) ;;
  begin_op ;;
  x <- getp p ;;
  cwd <- deref "iput" (p_cwd x) ;;
  iput cwd ;;
  end_op ;;
  updp p (set_p_cwd None) ;;
  acquire LPtable ;;
  x <- getp p ;;
  wakeup1 (proc_chan (p_parent x)) ;;
  x <- getp p ;;
  (match p_psl x with Some s => wakeup1 (ChPsl s) | None => ret tt end) ;;
  each_ NPROC 0 (fun q =>
    y <- getp q ;;
    if bool_decide (p_parent y = Some p) then
      i <- getpt pt_initproc ;;
      updp q (set_p_parent i) ;;
      y <- getp q ;;
      if is_state ZOMBIE y then wakeup1 (proc_chan i) else ret tt
    else ret tt) ;;
  updp p (set_p_state ZOMBIE) ;;
  sched ;;
  panic "zombie exit".

(** The fields [wait] and [KT_Join] reset when they reap entry [p]. *)
Definition reset_proc (p : nat) : K unit :=
  updp p (set_p_pid 0) ;;
  updp p (set_p_parent None) ;;
  updp p (fun y => set_p_name (<[0%nat := 0]> (p_name y)) y) ;;
  updp p (set_p_killed 0) ;;
  updp p (set_p_tid 0) ;;
  updp p (set_p_pthread None) ;;
  updp p (set_p_psl None) ;;
  updp p (set_p_slindex 0) ;;
  updp p (set_p_state UNUSED).

(** Scan through the table for exited children: [inl] the value to return, or
    [inr] whether there are children at all. *)
Definition scan_kids (kid : proc -> bool) (reap : nat -> K Z) : K (Z + bool) :=
  loop_ (S NPROC) (fun '(i, havekids) =>
    if (NPROC <=? i)%nat then ret (inr (inr havekids)) else
    y <- getp i ;;
    if negb (kid y) then ret (inl (S i, havekids)) else
    if is_state ZOMBIE y then r <- reap i ;; ret (inr (inl r))
    else ret (inl (S i, true))) (0%nat, false).

(** [wait]'s part for a zombie child [p]. *)
Definition reap_process (p : nat) : K Z :=
  y <- getp p ;;
  let pid := p_pid y in
  kfree (p_kstack y) ;;
  updp p (set_p_kstack 0) ;;
  y <- getp p ;;
  (match p_psl y with Some _ => clear_psl p | None => ret tt end) ;;
  y <- getp p ;;
  (match p_psl y with None => freevm (p_pgdir y) | Some _ => ret tt end) ;;
  reset_proc p ;;
  release LPtable ;;
  ret pid.

(** Wait for a child process to exit and return its pid. *)
Definition wait : K Z :=
  p <- curproc ;;
  acquire LPtable ;;
  wait_loop (fun _ : unit =>
    r <- scan_kids (fun y => bool_decide (p_parent y = Some p)) reap_process ;;
    match r with
    | inl pid => ret (inr pid)
    | inr havekids =>
      x <- getp p ;;
      if negb havekids || negb (p_killed x =? 0) then
        release LPtable ;; ret (inr (-1))
      else sleep (ChProc p) (Some LPtable) ;; ret (inl tt)
    end) tt.

(** [KT_Join]'s part for a zombie thread [p]. *)
Definition reap_thread (p : nat) : K Z :=
  y <- getp p ;;
  let tid := p_tid y in
  kfree (p_kstack y) ;;
  updp p (set_p_kstack 0) ;;
  y <- getp p ;;
  n <- match p_psl y with
       | None => ret 0
       | Some s => sl <- getsl s ;; ret (s_thread_count sl)
       end ;;
  (if n =? 0 then freevm (p_pgdir y) else ret tt) ;;
  y <- getp p ;;
  (match p_psl y with Some _ => clear_psl p | None => ret tt end) ;;
  reset_proc p ;;
  release LPtable ;;
  ret tid.

(** Wait for a thread this thread created to exit and return its tid. *)
Definition KT_Join : K Z :=
  p <- curproc ;;
  acquire LPtable ;;
  wait_loop (fun _ : unit =>
    r <- scan_kids (fun y => bool_decide (p_pthread y = Some p)) reap_thread ;;
    match r with
    | inl tid => ret (inr tid)
    | inr havekids =>
      x <- getp p ;;
      if negb havekids || negb (p_killed x =? 0) then
        release LPtable ;; ret (inr (-1))
      else
        x <- getp p ;;
        sleep (psl_chan (p_psl x)) (Some LPtable) ;; ret (inl tt)
    end) tt.

(** ** The first process *)

(** [initcode] is the binary of initcode.S. *)
Definition userinit (initcode : list Z) : K unit :=
  r <- allocproc ;;
  updpt (set_pt_initproc r) ;;
  p <- deref "userinit" r ;;
  pg <- setupkvm ;;
  updp p (set_p_pgdir pg) ;;
  if pg =? 0 then panic "userinit: out of memory?" else
  inituvm pg initcode ;;
  updp p (set_p_sz PGSIZE) ;;
  let ucode := Z.lor (Z.shiftl SEG_UCODE 3) DPL_USER in
  let udata := Z.lor (Z.shiftl SEG_UDATA 3) DPL_USER in
  updp p (set_p_tf (ztrapframe |> set_t_cs ucode |> set_t_ds udata |> set_t_es udata
    |> set_t_ss udata |> set_t_eflags FL_IF |> set_t_esp PGSIZE |> set_t_eip 0)) ;;
  updp p (fun y => set_p_name (safestrcpy (p_name y) (from (s2b "initcode")) 16) y) ;;
  cwd <- namei (s2b "/") ;;
  updp p (set_p_cwd cwd) ;;
  acquire LPtable ;;
  updp p (set_p_state RUNNABLE) ;;
  release LPtable.

(** A fork child's very first scheduling will switch here. *)
Definition forkret : K unit :=
  release LPtable ;;
  first <- getpt pt_first ;;
  if first : bool then
    updpt (set_pt_first false) ;;
    iinit ROOTDEV ;;
    initlog ROOTDEV
  else ret tt.
End Threads.
