(* ===== verification/Exec.v ===== *)
(** * Loading programs

    [exec.c] and [loaduvm] of [vm.c].  The ELF headers are read out of the
    bytes of the file. *)

From stdpp Require Import prelude list gmap strings.
From Stdlib Require Import ZArith Lia.
From S2P Require Import Prelude State Boot Spinlock Str Kalloc Cprintf Vm Sched Sleeplock Bio Log Fs File Kthread.
#[local] Open Scope c_scope.

(** ** elf.h *)

Definition ELF_MAGIC : Z := 0x464C457F.
Definition ELF_PROG_LOAD : Z := 1.
Definition sizeof_elfhdr : Z := 52.
Definition sizeof_proghdr : Z := 32.

Record elfhdr := mk_elfhdr { elf_magic : Z; elf_entry : Z; elf_phoff : Z; elf_phnum : Z }.
Definition elfhdr_at (d : list Z) : elfhdr :=
  mk_elfhdr (le32 0 d) (le32 24 d) (le32 28 d) (le16 44 d).

Record proghdr := mk_proghdr {
  ph_type : Z; ph_off : Z; ph_vaddr : Z; ph_filesz : Z; ph_memsz : Z;
}.
Definition proghdr_at (d : list Z) : proghdr :=
  mk_proghdr (le32 0 d) (le32 4 d) (le32 8 d) (le32 16 d) (le32 20 d).

(** The component of a path after its last slash. *)
Fixpoint last_elem (last s : list Z) : list Z :=
  match s with
  | [] => last
  | c :: s' => last_elem (if c =? slash then s' else last) s'
  end.

Section Exec.
Context `{DiskDriver} `{ConsoleDev}.

(** Load a program segment into [pgdir]. *)
Definition loaduvm (pgdir addr : Z) (ip : nat) (offset sz : Z) : K Z :=
  if negb (addr mod PGSIZE =? 0) then panic "loaduvm: addr must be page aligned" else
  loop_ (S (Z.to_nat ((sz + PGSIZE - 1) / PGSIZE))) (fun i =>
    if negb (i <? sz) then ret (inr 0) else
    pte <- walkpgdir pgdir (u32 (addr + i)) false ;;
    if pte =? 0 then panic "loaduvm: address should exist" else
    v <- load_word pte ;;
    let pa := PTE_ADDR v in
    let n := if sz - i <? PGSIZE then sz - i else PGSIZE in
    r <- readi ip (u32 (offset + i)) n ;;
    k_write (P2V pa) (snd r) ;;
    if negb (u32 (fst r) =? n) then ret (inr (-1))
    else ret (inl (u32 (i + PGSIZE)))) 0.

(** Load the program's segments: the size they reach, or [None] for a bad
    file. *)
Definition load_segments (ip : nat) (pgdir : Z) (elf : elfhdr) : K (option Z) :=
  r <- loop_ (S (Z.to_nat (elf_phnum elf))) (fun '(i, off, sz) =>
    if negb (i <? elf_phnum elf) then ret (inr (Some sz)) else
    r <- readi ip (u32 off) sizeof_proghdr ;;
    if negb (fst r =? sizeof_proghdr) then ret (inr None) else
    let ph := proghdr_at (snd r) in
    if negb (ph_type ph =? ELF_PROG_LOAD)
    then ret (inl (i + 1, s32 (off + sizeof_proghdr), sz)) else
    if ph_memsz ph <? ph_filesz ph then ret (inr None) else
    if u32 (ph_vaddr ph + ph_memsz ph) <? ph_vaddr ph then ret (inr None) else
    sz <- allocuvm pgdir sz (u32 (ph_vaddr ph + ph_memsz ph)) ;;
    if sz =? 0 then ret (inr None) else
    if negb (ph_vaddr ph mod PGSIZE =? 0) then ret (inr None) else
    l <- loaduvm pgdir (ph_vaddr ph) ip (ph_off ph) (ph_filesz ph) ;;
    if l <? 0 then ret (inr None)
    else ret (inl (i + 1, s32 (off + sizeof_proghdr), sz)))
    (0, s32 (elf_phoff elf), 0) ;;
  ret r.

(** Push the argument strings; the new stack pointer and the strings'
    addresses. *)
Fixpoint push_args (pgdir : Z) (argc : Z) (argv : list (list Z)) (sp : Z)
    : K (option (Z * list Z)) :=
  match argv with
  | [] => ret (Some (sp, []))
  | s :: argv' =>
    if MAXARG <=? argc then ret None else
    let sp := Z.land (u32 (sp - (Z.of_nat (length s) + 1))) (Z.lnot 3) in
    e <- copyout pgdir sp (s ++ [0]) ;;
    if e <? 0 then ret None else
    r <- push_args pgdir (argc + 1) argv' sp ;;
    ret (match r with Some (sp', l) => Some (sp', sp :: l) | None => None end)
  end.

(** Allocate the user stack below the kernel and fill it. *)
Definition setup_stack (pgdir : Z) (argv : list (list Z)) : K (option Z) :=
  sp <- allocuvm pgdir (STACKBOTTOM - 2 * PGSIZE) STACKBOTTOM ;;
  if sp =? 0 then ret None else
  clearpteu pgdir (u32 (sp - 2 * PGSIZE)) ;;
  r <- push_args pgdir 0 argv sp ;;
  match r with
  | None => ret None
  | Some (sp, addrs) =>
    let argc := Z.of_nat (length argv) in
    let ustack := [0xffffffff; argc; u32 (sp - (argc + 1) * 4)] ++ addrs ++ [0] in
    let sp := u32 (sp - (3 + argc + 1) * 4) in
    e <- copyout pgdir sp (mjoin (enc32 <$> ustack)) ;;
    ret (if e <? 0 then None else Some sp)
  end.

(** [bad:] while the file is still locked. *)
Definition exec_bad_ip (pgdir : Z) (ip : nat) : K Z :=
  (if negb (pgdir =? 0) then freevm pgdir else ret tt) ;;
  iunlockput ip ;;
  end_op ;;
  ret (-1).

Definition exec (path : list Z) (argv : list (list Z)) : K Z :=
  p <- curproc ;;
  begin_op ;;
  r <- namei path ;;
  match r with
  | None => end_op ;; cprintf (s2b "exec: fail" ++ nl) [] ;; ret (-1)
  | Some ip =>
    ilock (Some ip) ;;
    r <- readi ip 0 sizeof_elfhdr ;;
    if negb (fst r =? sizeof_elfhdr) then exec_bad_ip 0 ip else
    let elf := elfhdr_at (snd r) in
    if negb (elf_magic elf =? ELF_MAGIC) then exec_bad_ip 0 ip else
    pgdir <- setupkvm ;;
    if pgdir =? 0 then exec_bad_ip 0 ip else
    r <- load_segments ip pgdir elf ;;
    match r with
    | None => exec_bad_ip pgdir ip
    | Some sz =>
      iunlockput ip ;;
      end_op ;;
      let sz := PGROUNDUP sz in
      r <- setup_stack pgdir argv ;;
      match r with
      | None => freevm pgdir ;; ret (-1)
      | Some sp =>
        updp p (fun x => set_p_name (safestrcpy (p_name x) (from (last_elem path path)) 16) x) ;;
        x <- getp p ;;
        let oldpgdir := p_pgdir x in
        updp p (set_p_pgdir pgdir) ;;
        updp p (set_p_sz sz) ;;
        updp p (fun x => set_p_tf (set_t_eip (elf_entry elf) (p_tf x)) x) ;;
        updp p (fun x => set_p_tf (set_t_esp sp (p_tf x)) x) ;;
        t <- getpt pt_ticks ;;
        updp p (set_p_startTime t) ;;
        updp p (set_p_waitTime 0) ;;
        updp p (set_p_lastWait 0) ;;
        switchuvm (Some p) ;;
        freevm oldpgdir ;;
        ret 0
      end
    end
  end.
End Exec.
