(* ===== verification/Syscall.v ===== *)
(** * System calls

    [syscall.c], [sysproc.c] and [sysfile.c]: fetching the arguments from
    user memory, the handlers and the dispatch.  User memory is reached
    through the page table the processor has loaded; an access the table does
    not allow is a page fault inside the kernel.  A string or buffer argument
    is read when the handler fetches it. *)

From stdpp Require Import prelude list gmap strings.
From Stdlib Require Import ZArith Lia.
From S2P Require Import Prelude State Boot Spinlock Str Kalloc Cprintf Vm Sched Sema Sleeplock Bio Log Fs File Kthread Exec Pgtable.
#[local] Open Scope c_scope.

(** ** User memory *)

(** The kernel address behind user address [va], for a read or a write. *)
Definition user_ka (va : Z) (write : bool) : K Z :=
  cr3 <- gethw hw_cr3 ;;
  pte <- walkpgdir (P2V cr3) va false ;;
  if pte =? 0 then fault "page fault in the kernel" else
  v <- load_word pte ;;
  if Z.land v PTE_P =? 0 then fault "page fault in the kernel" else
  if write && (Z.land v PTE_W =? 0) then fault "page fault in the kernel" else
  ret (P2V (PTE_ADDR v) + va mod PGSIZE).

Definition user_load8 (va : Z) : K Z :=
  a <- user_ka va false ;; m <- getkm km_mem ;; ret (m a).
Definition user_store8 (va v : Z) : K unit :=
  a <- user_ka va true ;; k_write a [v].

Fixpoint user_load (va : Z) (n : nat) : K (list Z) :=
  match n with
  | O => ret []
  | S n' => c <- user_load8 va ;; l <- user_load (u32 (va + 1)) n' ;; ret (c :: l)
  end.
Fixpoint user_store (va : Z) (l : list Z) : K unit :=
  match l with
  | [] => ret tt
  | c :: l' => user_store8 va c ;; user_store (u32 (va + 1)) l'
  end.

(** ** syscall.c: the arguments *)

(** Fetch the int at [addr] from the current process. *)
Definition fetchint (addr : Z) : K (option Z) :=
  if (KERNBASE <=? addr) || (KERNBASE <? u32 (addr + 4)) then ret None else
  l <- user_load addr 4 ;;
  ret (Some (s32 (le32 0 l))).

(** Fetch the nul-terminated string at [addr] from the current process. *)
Definition fetchstr (addr : Z) : K (option (list Z)) :=
  if KERNBASE <=? addr then ret None else
  r <- loop2_ 31 (fun '(s, l) =>
    if KERNBASE <=? s then ret (inr None) else
    c <- user_load8 s ;;
    if c =? 0 then ret (inr (Some (rev l)))
    else ret (inl (s + 1, c :: l))) (addr, []) ;;
  ret (match r with inl _ => None | inr x => x end).

(** Fetch the nth 32-bit system call argument. *)
Definition argint (n : Z) : K (option Z) :=
  p <- curproc ;;
  x <- getp p ;;
  fetchint (u32 (t_esp (p_tf x) + 4 + 4 * n)).

(** Fetch the nth argument as a pointer to a block of [size] bytes. *)
Definition argptr (n size : Z) : K (option Z) :=
  r <- argint n ;;
  match r with
  | None => ret None
  | Some i =>
    if (size <? 0) || (KERNBASE <=? u32 i) || (KERNBASE <? u32 (u32 i + size))
    then ret None else ret (Some (u32 i))
  end.

(** Fetch the nth argument as a string. *)
Definition argstr (n : Z) : K (option (list Z)) :=
  r <- argint n ;;
  match r with
  | None => ret None
  | Some addr => fetchstr (u32 addr)
  end.

(** [if(arg... < 0) return -1;] *)
Definition or_fail {A} (m : K (option A)) (k : A -> K Z) : K Z :=
  r <- m ;; match r with None => ret (-1) | Some a => k a end.
Notation "x <-? m ;; k" := (or_fail m%c (fun x => k%c))
  (at level 100, m at next level, right associativity) : c_scope.

(** ** sysproc.c *)

Definition sys_kill : K Z := pid <-? argint 0 ;; kill pid.
Definition sys_getpid : K Z := mypid.
Definition sys_sbrk : K Z :=
  n <-? argint 0 ;;
  p <- curproc ;;
  x <- getp p ;;
  let addr := s32 (p_sz x) in
  r <- growproc n ;;
  ret (if r <? 0 then -1 else addr).
Definition sys_sleep : K Z :=
  n <-? argint 0 ;;
  acquire LTicks ;;
  ticks0 <- getpt pt_ticks ;;
  wait_loop (fun _ : unit =>
    t <- getpt pt_ticks ;;
    if u32 (t - ticks0) <? u32 n then
      k <- mykilled ;;
      if k : bool then release LTicks ;; ret (inr (-1))
      else sleep ChTicks (Some LTicks) ;; ret (inl tt)
    else release LTicks ;; ret (inr 0)) tt.
Definition sys_uptime : K Z :=
  acquire LTicks ;;
  t <- getpt pt_ticks ;;
  release LTicks ;;
  ret (s32 t).
Definition sys_sem_initialize : K Z :=
  n <-? argint 0 ;;
  if (n <=? 0) && (6 <=? n) then ret (-1) else sem_initialize n.
Definition sys_sem_wait : K Z :=
  index <-? argint 0 ;;
  if (index <? 0) || (Z.of_nat NPROC <=? index) then ret (-1) else
  sem_wait_call (Z.to_nat index).
Definition sys_sem_signal : K Z :=
  index <-? argint 0 ;;
  if (index <? 0) || (Z.of_nat NPROC <? index) then ret (-1) else
  sem_signal_call (Z.to_nat index).
Definition sys_sem_free : K Z :=
  index <-? argint 0 ;;
  if (index <? 0) || (Z.of_nat NPROC <? index) then ret (-1) else
  sem_free (Z.to_nat index) ;;
  ret 0.
(** [retrieve_process_statistics] of proc.c: the results go through user
    pointers, and the run time is computed from the stored elapsed time. *)
Definition retrieve_process_statistics (totalElapsedTime totalRunTime totalWaitTime : Z)
    : K Z :=
  r <- process_times ;;
  match r with
  | None => ret (-1)
  | Some (elapsed, wait) =>
    user_store totalElapsedTime (enc32 elapsed) ;;
    user_store totalWaitTime (enc32 wait) ;;
    l <- user_load totalElapsedTime 4 ;;
    user_store totalRunTime (enc32 (le32 0 l - wait)) ;;
    ret 0
  end.

Definition sys_retrieve_process_statistics : K Z :=
  a <-? argptr 0 4 ;;
  b <-? argptr 1 4 ;;
  c <-? argptr 2 4 ;;
  retrieve_process_statistics a b c.

Section Handlers.
Context `{DiskDriver} `{ConsoleDev}.

Definition sys_fork : K Z := fork.
Definition sys_exit : K Z := exit ;; ret 0.
Definition sys_wait : K Z := wait.
Definition sys_kt_create : K Z :=
  fnc <-? argptr 0 4 ;;
  arg <-? argptr 1 0 ;;
  KT_Create fnc arg.
Definition sys_kt_join : K Z := KT_Join.

(** ** sysfile.c *)

(** The nth argument as a file descriptor: the descriptor and the file. *)
Definition argfd (n : Z) : K (option (Z * nat)) :=
  r <- argint n ;;
  match r with
  | None => ret None
  | Some fd =>
    if (fd <? 0) || (Z.of_nat NOFILE <=? fd) then ret None else
    p <- curproc ;;
    x <- getp p ;;
    f <- at_ "ofile" (p_ofile x) (Z.to_nat fd) ;;
    ret (match f with Some f => Some (fd, f) | None => None end)
  end.

(** Allocate a file descriptor for the given file. *)
Definition fdalloc (f : nat) : K Z :=
  p <- curproc ;;
  r <- for_ NOFILE 0 (fun fd =>
    x <- getp p ;;
    g <- at_ "ofile" (p_ofile x) fd ;;
    match g with
    | Some _ => ret None
    | None =>
      updp p (fun x => set_p_ofile (<[fd := Some f]> (p_ofile x)) x) ;;
      ret (Some (Z.of_nat fd))
    end) ;;
  ret (default (-1) r).

(** [myproc()->ofile[fd] = 0;] *)
Definition fdclear (fd : Z) : K unit :=
  p <- curproc ;;
  updp p (fun x => set_p_ofile (<[Z.to_nat fd := None]> (p_ofile x)) x).

Definition sys_dup : K Z :=
  a <-? argfd 0 ;;
  fd <- fdalloc (snd a) ;;
  if fd <? 0 then ret (-1) else
  filedup (snd a) ;;
  ret fd.

Definition sys_read : K Z :=
  a <-? argfd 0 ;;
  n <-? argint 2 ;;
  p <-? argptr 1 n ;;
  r <- fileread (snd a) n ;;
  user_store p (snd r) ;;
  ret (fst r).

Definition sys_write : K Z :=
  a <-? argfd 0 ;;
  n <-? argint 2 ;;
  p <-? argptr 1 n ;;
  x <- getf (snd a) ;;
  src <- (if f_writable x =? 0 then ret [] else user_load p (Z.to_nat n)) ;;
  filewrite (snd a) src.

Definition sys_close : K Z :=
  a <-? argfd 0 ;;
  fdclear (fst a) ;;
  fileclose (snd a) ;;
  ret 0.

(** [struct stat] of stat.h in user memory. *)
Definition store_stat (p : Z) (st : stat) : K unit :=
  user_store (u32 (p + 4)) (enc32 (st_dev st)) ;;
  user_store (u32 (p + 8)) (enc32 (st_ino st)) ;;
  user_store p (enc16 (st_type st)) ;;
  user_store (u32 (p + 12)) (enc16 (st_nlink st)) ;;
  user_store (u32 (p + 16)) (enc32 (st_size st)).

Definition sys_fstat : K Z :=
  a <-? argfd 0 ;;
  p <-? argptr 1 20 ;;
  r <- filestat (snd a) ;;
  match r with
  | None => ret (-1)
  | Some st => store_stat p st ;; ret 0
  end.

Definition no_name : list Z := replicate (Z.to_nat DIRSIZ) 0.

(** The [bad:] exit of [sys_link]. *)
Definition link_bad (ip : nat) : K Z :=
  ilock (Some ip) ;;
  updi ip (fun x => set_i_nlink (s16 (i_nlink x - 1)) x) ;;
  iupdate ip ;;
  iunlockput ip ;;
  end_op ;;
  ret (-1).

(** Create the path [new] as a link to the same inode as [old]. *)
Definition sys_link : K Z :=
  old <-? argstr 0 ;;
  new <-? argstr 1 ;;
  begin_op ;;
  r <- namei old ;;
  match r with
  | None => end_op ;; ret (-1)
  | Some ip =>
    ilock (Some ip) ;;
    x <- geti ip ;;
    if i_type x =? T_DIR then iunlockput ip ;; end_op ;; ret (-1) else
    updi ip (fun x => set_i_nlink (s16 (i_nlink x + 1)) x) ;;
    iupdate ip ;;
    iunlock (Some ip) ;;
    let! q := nameiparent new no_name in
    match fst q with
    | None => link_bad ip
    | Some dp =>
      ilock (Some dp) ;;
      y <- geti dp ;;
      x <- geti ip ;;
      r <- (if negb (i_dev y =? i_dev x) then ret (-1)
            else dirlink dp (from (snd q)) (i_inum x)) ;;
      if r <? 0 then iunlockput dp ;; link_bad ip else
      iunlockput dp ;;
      iput ip ;;
      end_op ;;
      ret 0
    end
  end.

(** Is the directory [dp] empty except for . and .. ? *)
Definition isdirempty (dp : nat) : K bool :=
  x <- geti dp ;;
  r <- for_ (dir_entries x - 2) 2 (fun k =>
    de <- read_dirent dp k "isdirempty: readi" ;;
    ret (if negb (de_inum de =? 0) then Some tt else None)) ;;
  ret (match r with Some _ => false | None => true end).

(** The [bad:] exit of [sys_unlink]. *)
Definition unlink_bad (dp : nat) : K Z :=
  iunlockput dp ;; end_op ;; ret (-1).

Definition sys_unlink : K Z :=
  path <-? argstr 0 ;;
  begin_op ;;
  let! q := nameiparent path no_name in
  match fst q with
  | None => end_op ;; ret (-1)
  | Some dp =>
    let name := from (snd q) in
    ilock (Some dp) ;;
    if (namecmp name (from (s2b ".")) =? 0) || (namecmp name (from (s2b "..")) =? 0)
    then unlink_bad dp else
    r <- dirlookup dp name ;;
    match r with
    | None => unlink_bad dp
    | Some (ip, off) =>
      ilock (Some ip) ;;
      x <- geti ip ;;
      if i_nlink x <? 1 then panic "unlink: nlink < 1" else
      busy <- (if i_type x =? T_DIR then e <- isdirempty ip ;; ret (negb e)
               else ret false) ;;
      if busy : bool then iunlockput ip ;; unlink_bad dp else
      w <- writei dp (replicate 16 0) off ;;
      if negb (w =? DIRENT) then panic "unlink: writei" else
      x <- geti ip ;;
      (if i_type x =? T_DIR then
         updi dp (fun x => set_i_nlink (s16 (i_nlink x - 1)) x) ;; iupdate dp
       else ret tt) ;;
      iunlockput dp ;;
      updi ip (fun x => set_i_nlink (s16 (i_nlink x - 1)) x) ;;
      iupdate ip ;;
      iunlockput ip ;;
      end_op ;;
      ret 0
    end
  end.

(** Create an inode for [path], or return the existing file; locked. *)
Definition create (path : list Z) (type major minor : Z) : K (option nat) :=
  let! q := nameiparent path no_name in
  match fst q with
  | None => ret None
  | Some dp =>
    let name := from (snd q) in
    ilock (Some dp) ;;
    r <- dirlookup dp name ;;
    match r with
    | Some (ip, _) =>
      iunlockput dp ;;
      ilock (Some ip) ;;
      x <- geti ip ;;
      if (type =? T_FILE) && (i_type x =? T_FILE) then ret (Some ip)
      else iunlockput ip ;; ret None
    | None =>
      y <- geti dp ;;
      ip <- ialloc (i_dev y) type ;;
      ilock (Some ip) ;;
      updi ip (set_i_major major) ;;
      updi ip (set_i_minor minor) ;;
      updi ip (set_i_nlink 1) ;;
      iupdate ip ;;
      (if type =? T_DIR then
         updi dp (fun x => set_i_nlink (s16 (i_nlink x + 1)) x) ;;
         iupdate dp ;;
         x <- geti ip ;;
         r <- dirlink ip (from (s2b ".")) (i_inum x) ;;
         if r <? 0 then panic "create dots" else
         y <- geti dp ;;
         r <- dirlink ip (from (s2b "..")) (i_inum y) ;;
         if r <? 0 then panic "create dots" else ret tt
       else ret tt) ;;
      x <- geti ip ;;
      r <- dirlink dp name (i_inum x) ;;
      if r <? 0 then panic "create: dirlink" else
      iunlockput dp ;;
      ret (Some ip)
    end
  end.

Definition O_WRONLY : Z := 0x001.
Definition O_RDWR : Z := 0x002.
Definition O_CREATE : Z := 0x200.
Definition flag (m b : Z) : bool := negb (Z.land m b =? 0).

(** The inode [sys_open] opens, locked; on failure the transaction is over. *)
Definition open_inode (path : list Z) (omode : Z) : K (option nat) :=
  if flag omode O_CREATE then
    r <- create path T_FILE 0 0 ;;
    match r with
    | None => end_op ;; ret None
    | Some ip => ret (Some ip)
    end
  else
    r <- namei path ;;
    match r with
    | None => end_op ;; ret None
    | Some ip =>
      ilock (Some ip) ;;
      x <- geti ip ;;
      if (i_type x =? T_DIR) && negb (omode =? 0) then
        iunlockput ip ;; end_op ;; ret None
      else ret (Some ip)
    end.

Definition sys_open : K Z :=
  path <-? argstr 0 ;;
  omode <-? argint 1 ;;
  begin_op ;;
  ip <-? open_inode path omode ;;
  f <- filealloc ;;
  fd <- match f with Some f => fdalloc f | None => ret (-1) end ;;
  if fd <? 0 then
    (match f with Some f => fileclose f | None => ret tt end) ;;
    iunlockput ip ;;
    end_op ;;
    ret (-1)
  else
    f <- deref "sys_open" f ;;
    iunlock (Some ip) ;;
    end_op ;;
    updf f (fun x => x |> set_f_type FD_INODE |> set_f_ip (Some ip) |> set_f_off 0
      |> set_f_readable (if flag omode O_WRONLY then 0 else 1)
      |> set_f_writable (if flag omode O_WRONLY || flag omode O_RDWR then 1 else 0)) ;;
    ret fd.

Definition sys_mkdir : K Z :=
  begin_op ;;
  a <- argstr 0 ;;
  r <- match a with
       | None => ret None
       | Some path => create path T_DIR 0 0
       end ;;
  match r with
  | None => end_op ;; ret (-1)
  | Some ip => iunlockput ip ;; end_op ;; ret 0
  end.

Definition sys_mknod : K Z :=
  begin_op ;;
  a <- argstr 0 ;;
  b <- match a with Some _ => argint 1 | None => ret None end ;;
  c <- match b with Some _ => argint 2 | None => ret None end ;;
  r <- match a, b, c with
       | Some path, Some major, Some minor => create path T_DEV (s16 major) (s16 minor)
       | _, _, _ => ret None
       end ;;
  match r with
  | None => end_op ;; ret (-1)
  | Some ip => iunlockput ip ;; end_op ;; ret 0
  end.

Definition sys_chdir : K Z :=
  p <- curproc ;;
  begin_op ;;
  a <- argstr 0 ;;
  r <- match a with None => ret None | Some path => namei path end ;;
  match r with
  | None => end_op ;; ret (-1)
  | Some ip =>
    ilock (Some ip) ;;
    x <- geti ip ;;
    if negb (i_type x =? T_DIR) then iunlockput ip ;; end_op ;; ret (-1) else
    iunlock (Some ip) ;;
    x <- getp p ;;
    cwd <- deref "iput" (p_cwd x) ;;
    iput cwd ;;
    end_op ;;
    updp p (set_p_cwd (Some ip)) ;;
    ret 0
  end.

(** The argument vector of [sys_exec], from entry [i] on. *)
Fixpoint fetch_argv (n : nat) (uargv i : Z) : K (option (list (list Z))) :=
  match n with
  | O => ret None
  | S n' =>
    r <- fetchint (u32 (uargv + 4 * i)) ;;
    match r with
    | None => ret None
    | Some uarg =>
      if uarg =? 0 then ret (Some []) else
      s <- fetchstr (u32 uarg) ;;
      match s with
      | None => ret None
      | Some s =>
        l <- fetch_argv n' uargv (i + 1) ;;
        ret (match l with Some l => Some (s :: l) | None => None end)
      end
    end
  end.

Definition sys_exec : K Z :=
  path <-? argstr 0 ;;
  uargv <-? argint 1 ;;
  argv <-? fetch_argv (Z.to_nat MAXARG) (u32 uargv) 0 ;;
  exec path argv.

Definition sys_pipe : K Z :=
  fd <-? argptr 0 8 ;;
  r <- pipealloc ;;
  match r with
  | None => ret (-1)
  | Some (rf, wf) =>
    fd0 <- fdalloc rf ;;
    fd1 <- (if fd0 <? 0 then ret (-1) else fdalloc wf) ;;
    if fd1 <? 0 then
      (if 0 <=? fd0 then fdclear fd0 else ret tt) ;;
      fileclose rf ;;
      fileclose wf ;;
      ret (-1)
    else
      user_store fd (enc32 fd0) ;;
      user_store (u32 (fd + 4)) (enc32 fd1) ;;
      ret 0
  end.

(** ** The dispatch *)

Definition syscalls (num : Z) : option (K Z) :=
  if num =? 1 then Some sys_fork else if num =? 2 then Some sys_exit else
  if num =? 3 then Some sys_wait else if num =? 4 then Some sys_pipe else
  if num =? 5 then Some sys_read else if num =? 6 then Some sys_kill else
  if num =? 7 then Some sys_exec else if num =? 8 then Some sys_fstat else
  if num =? 9 then Some sys_chdir else if num =? 10 then Some sys_dup else
  if num =? 11 then Some sys_getpid else if num =? 12 then Some sys_sbrk else
  if num =? 13 then Some sys_sleep else if num =? 14 then Some sys_uptime else
  if num =? 15 then Some sys_open else if num =? 16 then Some sys_write else
  if num =? 17 then Some sys_mknod else if num =? 18 then Some sys_unlink else
  if num =? 19 then Some sys_link else if num =? 20 then Some sys_mkdir else
  if num =? 21 then Some sys_close else if num =? 22 then Some sys_kt_create else
  if num =? 23 then Some sys_sem_initialize else if num =? 24 then Some sys_sem_wait else
  if num =? 25 then Some sys_sem_signal else if num =? 26 then Some sys_sem_free else
  if num =? 27 then Some sys_kt_join else
  if num =? 28 then Some sys_retrieve_process_statistics else None.

Definition syscall : K unit :=
  p <- curproc ;;
  x <- getp p ;;
  let num := s32 (t_eax (p_tf x)) in
  match syscalls num with
  | Some call =>
    r <- call ;;
    updp p (fun x => set_p_tf (set_t_eax (u32 r) (p_tf x)) x)
  | None =>
    cprintf (s2b "%d %s: unknown sys call %d" ++ nl)
      [AInt (p_pid x); AStr (Some (upto_nul (p_name x))); AInt num] ;;
    updp p (fun x => set_p_tf (set_t_eax (u32 (-1)) (p_tf x)) x)
  end.
End Handlers.

(** ** Arguments in user memory *)

(** User address [va] has a page. *)
Definition has_page (m : mem) (pgdir va : Z) : Prop :=
  present (pte_of m pgdir va) = true /\ pte_addr m pgdir va <> Some 0.
Definition user_byte (m : mem) (pgdir va : Z) : Z := m (uaddr m pgdir va).
(** The int at [va]. *)
Definition user_word (m : mem) (pgdir va : Z) : Z := s32 (load32 (user_byte m pgdir) va).

Section Arguments.
Context (bc : bcstate) (fs : fsstate) (cn : cnstate) (o : list (kstate -> kstate)).
Implicit Types (hw : hwstate) (pt : ptstate) (km : kmstate).

Lemma user_ka_ok hw pt km pgdir va :
  P2V (hw_cr3 hw) = pgdir -> has_page (km_mem km) pgdir va ->
  user_ka va false (W hw pt km bc fs cn o) = Ok (uaddr (km_mem km) pgdir va) (W hw pt km bc fs cn o).
Proof.
  intros Hcr [Hp Ha]. unfold user_ka. krun. rewrite Hcr. kcall walk_find. unfold pte_of in Hp. unfold uaddr, pte_of.
  destruct (pte_addr (km_mem km) pgdir va) as [a|]; [|done]. cbn [default from_option id].
  destruct (Z.eqb_spec a 0) as [->|_]; [done|]. unfold load_word. krun. unfold present in Hp.
  destruct (_ =? 0); [done|]. done.
Qed.

Lemma user_load_ok hw pt km pgdir n : forall va,
  P2V (hw_cr3 hw) = pgdir -> 0 <= va -> va + Z.of_nat n < W32 ->
  (forall k, 0 <= k < Z.of_nat n -> has_page (km_mem km) pgdir (va + k)) ->
  user_load va n (W hw pt km bc fs cn o) =
  Ok ((fun k => user_byte (km_mem km) pgdir (va + Z.of_nat k)) <$> seq 0 n) (W hw pt km bc fs cn o).
Proof.
  induction n as [|n IH]; intros va Hcr Hva Hn Hp; [done|]. cbn [user_load]. unfold user_load8. rewrite bind_assoc.
  rewrite (bind_ok _ _ _ _ _ (user_ka_ok hw pt km pgdir va Hcr ltac:(rewrite <- (Z.add_0_r va); apply Hp; lia))). krun.
  rewrite u32_small by lia. rewrite (bind_ok _ _ _ _ _ (IH (va + 1) Hcr ltac:(lia) ltac:(lia)
    ltac:(intros k Hk; replace (va + 1 + k) with (va + (k + 1)) by lia; apply Hp; lia))).
  unfold ret. f_equal. cbn [seq fmap list_fmap]. rewrite Z.add_0_r. f_equal. rewrite <- seq_shift, <- list_fmap_compose.
  apply list_fmap_ext. intros k j _. cbn. f_equal. lia.
Qed.

(** The state of a system call of thread [p]: the processor runs on the page
    directory of the thread, whose arguments lie above its stack pointer. *)
Record in_call hw pt km (i : nat) (c : cpu) (p : nat) (x : proc) (pgdir : Z) (n : Z) : Prop := {
  ic_here : here hw i c;
  ic_proc : c_proc c = Some p;
  ic_entry : pt_proc pt !! p = Some x;
  ic_cr3 : P2V (hw_cr3 hw) = pgdir;
  ic_esp : 0 <= t_esp (p_tf x) /\ t_esp (p_tf x) + 4 + 4 * n <= KERNBASE;
  ic_pages : forall k, 4 <= k < 4 + 4 * n -> has_page (km_mem km) pgdir (t_esp (p_tf x) + k);
}.

Lemma curproc_ok hw pt km i c p : here hw i c -> c_proc c = Some p ->
  curproc (W hw pt km bc fs cn o) = Ok p (W (touch i hw) pt km bc fs cn o).
Proof. intros Hh Hp. unfold curproc. kcall myproc_ok by done. by rewrite Hp. Qed.

Lemma argint_ok hw pt km i c p x pgdir n k :
  in_call hw pt km i c p x pgdir n -> 0 <= k < n ->
  argint k (W hw pt km bc fs cn o) =
  Ok (Some (user_word (km_mem km) pgdir (t_esp (p_tf x) + 4 + 4 * k))) (W (touch i hw) pt km bc fs cn o).
Proof.
  intros [Hh Hp Hx Hcr [He1 He2] Hpg] Hk. unfold argint. kcall curproc_ok by done. kcall getp_ok by done.
  change KERNBASE with 2147483648 in *. rewrite u32_small by (unfold W32; lia). unfold fetchint.
  change KERNBASE with 2147483648. rewrite u32_small by (unfold W32; lia).
  rewrite (proj2 (Z.leb_gt _ _)), (proj2 (Z.ltb_ge _ _)) by lia. cbn [orb].
  erewrite bind_ok by (apply user_load_ok; [exact Hcr|lia|unfold W32; lia|
    intros j Hj; replace (t_esp (p_tf x) + 4 + 4 * k + j) with (t_esp (p_tf x) + (4 + 4 * k + j)) by lia; apply Hpg; lia]).
  unfold ret, user_word. f_equal. f_equal. f_equal. unfold le32, load32. cbn. rewrite Z.add_0_r. done.
Qed.
End Arguments.

(** The limit each of the three calls on semaphores checks its index against. *)
Definition sem_limit (call : Z) : Z := if decide (call = 24) then Z.of_nat NPROC else Z.of_nat NPROC + 1.

Lemma sem_call_out `{DiskDriver} `{ConsoleDev} bc fs cn o hw pt km i c p x pgdir call :
  in_call hw pt km i c p x pgdir 1 -> length (pt_sem pt) = KT_TABLESIZE -> call ∈ [24; 25; 26] ->
  let n := user_word (km_mem km) pgdir (t_esp (p_tf x) + 4) in
  exists f, syscalls call = Some f /\
    (n < 0 \/ sem_limit call <= n -> f (W hw pt km bc fs cn o) = Ok (-1) (W (touch i hw) pt km bc fs cn o)) /\
    (Z.of_nat KT_TABLESIZE <= n < sem_limit call -> f (W hw pt km bc fs cn o) = Fault "semtable.sem").
Proof.
  intros Hc Hl Hcall n. pose proof (argint_ok bc fs cn o _ _ _ _ _ _ _ _ 1 0 Hc ltac:(lia)) as E.
  rewrite Z.mul_0_r, Z.add_0_r in E. fold n in E. pose proof (here_touch _ _ _ (ic_here _ _ _ _ _ _ _ _ _ Hc)) as [Hcpu _].
  assert (forall hw', Z.of_nat KT_TABLESIZE <= n -> getsem (Z.to_nat n) (W hw' pt km bc fs cn o) = Fault "semtable.sem") as Hout.
  { intros hw' Hn. unfold getsem. krun. unfold at_. by rewrite lookup_ge_None_2 by lia. }
  repeat (apply elem_of_cons in Hcall as [->|Hcall]); [..|by apply elem_of_nil in Hcall];
    eexists; (split; [reflexivity|]); unfold sys_sem_wait, sys_sem_signal, sys_sem_free, or_fail;
    rewrite (bind_ok _ _ _ _ _ E); (split; intros Hn).
  all: change (Z.of_nat NPROC) with 128; change (Z.of_nat KT_TABLESIZE) with 64 in *;
    change (sem_limit 24) with 128 in Hn; change (sem_limit 25) with 129 in Hn; change (sem_limit 26) with 129 in Hn.
  1, 3, 5: rewrite (proj2 (orb_true_iff _ _)) by lia; done.
  all: rewrite (proj2 (orb_false_iff _ _)) by lia.
  all: unfold sem_wait_call, sem_signal_call, sem_wait, sem_signal, sem_free.
  1, 2: kcall pushcli_ok by exact Hcpu.
  all: unfold bind; by rewrite Hout by lia.
Qed.

(** C37: The calls on semaphores accept an index past the end of the table.  The
    system calls check the index against [NPROC], the size of the process
    table, but the table of semaphores has [KT_TABLESIZE] entries, half as many:
    a thread that calls [sem_wait] with an index from [KT_TABLESIZE] to
    [NPROC - 1], or [sem_signal] or [sem_free] with one up to [NPROC], makes the
    kernel access memory outside the table, while an index that fails the check
    is answered with -1. *)
Theorem sem_index_bounds `{DiskDriver} `{ConsoleDev} bc fs cn o hw pt km i c p x pgdir call :
  in_call hw pt km i c p x pgdir 1 -> length (pt_sem pt) = KT_TABLESIZE ->
  call ∈ [24; 25; 26] -> t_eax (p_tf x) = call ->
  let n := user_word (km_mem km) pgdir (t_esp (p_tf x) + 4) in
  (n < 0 \/ sem_limit call <= n -> syscall (W hw pt km bc fs cn o) =
    Ok tt (W (touch i hw) (set_pt_proc (alter (fun x => set_p_tf (set_t_eax (u32 (-1)) (p_tf x)) x) p (pt_proc pt)) pt) km bc fs cn o)) /\
  (Z.of_nat KT_TABLESIZE <= n < sem_limit call -> syscall (W hw pt km bc fs cn o) = Fault "semtable.sem").
Proof.
  intros Hc Hl Hcall Heax n. pose proof Hc as [Hh Hp Hx Hcr He Hpg].
  destruct (sem_call_out bc fs cn o (touch i hw) pt km i (touched hw c) p x pgdir call) as (f & Ef & Hbad & Hout);
    [split; try done; by apply here_touch|done|done|]. rewrite touch_touch in Hbad.
  assert (syscall (W hw pt km bc fs cn o) =
    (r <- f ;; updp p (fun x => set_p_tf (set_t_eax (u32 r) (p_tf x)) x)) (W (touch i hw) pt km bc fs cn o)) as ->.
  { unfold syscall. kcall curproc_ok by done. kcall getp_ok by done. rewrite Heax.
    assert (s32 call = call) as -> by (repeat (apply elem_of_cons in Hcall as [->|Hcall]; [done|]); by apply elem_of_nil in Hcall).
    by rewrite Ef. }
  split; intros Hn.
  - rewrite (bind_ok _ _ _ _ _ (Hbad Hn)). done.
  - unfold bind. by rewrite (Hout Hn).
Qed.

(** ** The properties at work *)

#[local] Existing Instance Memide.driver.
#[local] Instance no_console : ConsoleDev :=
  {| consoleread := fun _ _ => ret (0, []); consolewrite := fun _ l => ret (Z.of_nat (length l)) |}.

(** A thread with one page calls [sem_signal] with index 64. *)
Definition km_call : kmstate := set_km_mem (store32 user_mem (page_c + 104) 64) km0.
Definition hw_call : hwstate := set_hw_cr3 (V2P page_b) hw_run.
Definition proc_call : proc := set_p_tf (set_t_esp 100 (set_t_eax 25 (p_tf proc_run))) proc_run.
Definition pt_call : ptstate := set_pt_proc (alter (fun _ => proc_call) 0%nat (pt_proc pt0)) pt0.

Lemma in_call_ex : in_call hw_call pt_call km_call 0 c_run 0 proc_call page_b 1.
Proof.
  split; try done.
  - split; [apply here_run|split; done].
  - intros k Hk. assert (k = 4 \/ k = 5 \/ k = 6 \/ k = 7) as [E|[E|[E|E]]] by lia; subst k;
      (split; [by vm_compute|]; apply (bool_decide_unpack _); by vm_compute).
Qed.

Lemma sem_index_bounds_witness : syscall (W hw_call pt_call km_call bc0 fs0 cn0 []) = Fault "semtable.sem".
Proof.
  apply (sem_index_bounds bc0 fs0 cn0 [] hw_call pt_call km_call 0 c_run 0 proc_call page_b 25 in_call_ex eq_refl
    ltac:(right; by left) eq_refl). by vm_compute.
Defined.
