(* ===== verification/Console.v ===== *)
(** * Console and keyboard input

    The input half of [console.c] and [kbd.c].  The line discipline keeps a
    circular buffer with a read, a write and an edit index; an interrupt
    delivers the characters its device has ready.  The module also supplies
    the console device of the file system. *)

From stdpp Require Import prelude list gmap strings.
From Stdlib Require Import ZArith Lia.
From S2P Require Import Prelude State Boot Spinlock Str Kalloc Cprintf Vm Sched Sleeplock Bio Log Fs File.
#[local] Open Scope c_scope.

(** ** kbd.c *)
Module Kbd.
Definition SHIFT : Z := 1.
Definition CTL : Z := 2.
Definition ALT : Z := 4.
Definition CAPSLOCK : Z := 8.
Definition NUMLOCK : Z := 16.
Definition SCROLLLOCK : Z := 32.
Definition E0ESC : Z := 64.

(** A 256-entry table from its leading entries and the designated ones. *)
Definition table (l : list Z) (more : list (Z * Z)) : list Z :=
  foldr (fun '(i, v) t => <[Z.to_nat i := v]> t) (l ++ replicate (256 - length l) 0) more.

Definition shiftcode : list Z :=
  table [] [(0x1D, CTL); (0x2A, SHIFT); (0x36, SHIFT); (0x38, ALT);
            (0x9D, CTL); (0xB8, ALT)].
Definition togglecode : list Z :=
  table [] [(0x3A, CAPSLOCK); (0x45, NUMLOCK); (0x46, SCROLLLOCK)].
Definition special : list (Z * Z) :=
  [(0xC8, 0xE2); (0xD0, 0xE3); (0xC9, 0xE6); (0xD1, 0xE7); (0xCB, 0xE4);
   (0xCD, 0xE5); (0x97, 0xE0); (0xCF, 0xE1); (0xD2, 0xE8); (0xD3, 0xE9)].
Definition keypad : list Z := replicate 13 0 ++ s2b "789-456+1230.".
Definition normalmap : list Z :=
  table ([0; 0x1B] ++ s2b "1234567890-=" ++ [8; 9] ++ s2b "qwertyuiop[]" ++ [10; 0]
    ++ s2b "asdfghjkl;'`" ++ [0; 92] ++ s2b "zxcvbnm,./" ++ [0; 42; 0; 32] ++ keypad)
    ([(0x9C, 10); (0xB5, 47)] ++ special).
Definition shiftmap : list Z :=
  table ([0; 27] ++ s2b "!@#$%^&*()_+" ++ [8; 9] ++ s2b "QWERTYUIOP{}" ++ [10; 0]
    ++ s2b "ASDFGHJKL:" ++ [34] ++ s2b "~" ++ [0; 124] ++ s2b "ZXCVBNM<>?"
    ++ [0; 42; 0; 32] ++ keypad)
    ([(0x9C, 10); (0xB5, 47)] ++ special).
Definition C (c : Z) : Z := c - 64.
(** Control characters are bytes: [C('/')] is negative. *)
Definition ctlmap : list Z :=
  table (replicate 16 0 ++ map C (s2b "QWERTYUIOP") ++ [0; 0; 13; 0]
    ++ map C (s2b "ASDFGHJKL") ++ [0; 0; 0; 0] ++ [C 92] ++ map C (s2b "ZXCVBNM")
    ++ [0; 0; u8 (C 47); 0; 0])
    ([(0x9C, 13); (0xB5, u8 (C 47))] ++ special).

Definition charcode (k : Z) : list Z :=
  if k =? 0 then normalmap else if k =? 1 then shiftmap else ctlmap.
Definition tbl (t : list Z) (i : Z) : Z := default 0 (t !! Z.to_nat i).

(** One call of [kbdgetc], from the modifier state, the controller's status
    and the byte in its buffer: the new state and the result. *)
Definition kbdgetc (shift st data : Z) : Z * Z :=
  if Z.land st 1 =? 0 then (shift, -1) else
  if data =? 0xE0 then (Z.lor shift E0ESC, 0) else
  if negb (Z.land data 0x80 =? 0) then
    let data := if negb (Z.land shift E0ESC =? 0) then data else Z.land data 0x7F in
    (Z.ldiff shift (Z.lor (tbl shiftcode data) E0ESC), 0)
  else
  let '(data, shift) := if negb (Z.land shift E0ESC =? 0)
                        then (Z.lor data 0x80, Z.ldiff shift E0ESC)
                        else (data, shift) in
  let shift := Z.lor shift (tbl shiftcode data) in
  let shift := Z.lxor shift (tbl togglecode data) in
  let c := tbl (charcode (Z.land shift (Z.lor CTL SHIFT))) data in
  let c := if negb (Z.land shift CAPSLOCK =? 0) then
             if (97 <=? c) && (c <=? 122) then c + (65 - 97)
             else if (65 <=? c) && (c <=? 90) then c + (97 - 65) else c
           else c in
  (shift, c).

(** The characters of a sequence of scan codes. *)
Fixpoint kbdchars (shift : Z) (codes : list Z) : Z * list Z :=
  match codes with
  | [] => (shift, [])
  | d :: ds =>
    let '(shift, c) := kbdgetc shift 1 d in
    let '(shift, cs) := kbdchars shift ds in (shift, c :: cs)
  end.
End Kbd.

(** ** console.c *)

Definition INPUT_BUF : Z := 128.
Definition input_at (b : list Z) (i : Z) : Z := from b (Z.to_nat (i mod INPUT_BUF)).

(** [while(input.e != input.w && input.buf[(input.e-1) % INPUT_BUF] != '\n')] *)
Definition kill_line : K unit :=
  loop_ (S (Z.to_nat INPUT_BUF)) (fun _ : unit =>
    s <- getcn id ;;
    if negb (cn_e s =? cn_w s) &&
       negb (input_at (cn_buf s) (u32 (cn_e s - 1)) =? 10)
    then updcn (fun s => set_cn_e (u32 (cn_e s - 1)) s) ;;
         consputc BACKSPACE ;; ret (inl tt)
    else ret (inr tt)) tt.

(** One character of [consoleintr]; [true] asks for a process listing. *)
Definition consoleintr1 (c : Z) : K bool :=
  if c =? 16 then ret true else
  if c =? 21 then kill_line ;; ret false else
  if (c =? 8) || (c =? 0x7f) then
    s <- getcn id ;;
    (if negb (cn_e s =? cn_w s) then
       updcn (fun s => set_cn_e (u32 (cn_e s - 1)) s) ;; consputc BACKSPACE
     else ret tt) ;;
    ret false
  else
  s <- getcn id ;;
  (if negb (c =? 0) && (u32 (cn_e s - cn_r s) <? INPUT_BUF) then
     let c := if c =? 13 then 10 else c in
     updcn (fun s => s
       |> set_cn_buf (<[Z.to_nat (cn_e s mod INPUT_BUF) := u8 c]> (cn_buf s))
       |> set_cn_e (u32 (cn_e s + 1))) ;;
     consputc c ;;
     s <- getcn id ;;
     if (c =? 10) || (c =? 4) || (cn_e s =? u32 (cn_r s + INPUT_BUF)) then
       updcn (fun s => set_cn_w (cn_e s) s) ;;
       wakeup ChInput
     else ret tt
   else ret tt) ;;
  ret false.

Section Console.
Context `{DiskDriver}.

(** The loop of [consoleread]: whether the process was killed, and the bytes
    stored so far. *)
Fixpoint console_take (target n : nat) : K (bool * list Z) :=
  match n with
  | O => ret (false, [])
  | S n' =>
    k <- wait_loop (fun _ : unit =>
      s <- getcn id ;;
      if cn_r s =? cn_w s then
        k <- mykilled ;;
        if k : bool then release LCons ;; ret (inr true)
        else sleep ChInput (Some LCons) ;; ret (inl tt)
      else ret (inr false)) tt ;;
    if k : bool then ret (true, []) else
    s <- getcn id ;;
    let c := input_at (cn_buf s) (cn_r s) in
    updcn (fun s => set_cn_r (u32 (cn_r s + 1)) s) ;;
    if c =? 4 then
      (if (n <? target)%nat then updcn (fun s => set_cn_r (u32 (cn_r s - 1)) s)
       else ret tt) ;;
      ret (false, [])
    else if c =? 10 then ret (false, [c])
    else
      r <- console_take target n' ;;
      ret (fst r, c :: snd r)
  end.

(** The part of [consoleread] under the console's lock. *)
Definition console_get (n : Z) : K (bool * list Z) :=
  acquire LCons ;;
  r <- console_take (Z.to_nat n) (Z.to_nat n) ;;
  if fst r : bool then ret r else
  release LCons ;;
  ret r.

(** The inode operations do not depend on the device switch. *)
Definition consoleread (ip : nat) (n : Z) : K (Z * list Z) :=
  iunlock (Some ip) ;;
  r <- console_get n ;;
  ilock (Some ip) ;;
  ret (if fst r : bool then -1 else Z.of_nat (length (snd r)), snd r).

Definition consolewrite (ip : nat) (buf : list Z) : K Z :=
  iunlock (Some ip) ;;
  acquire LCons ;;
  consputs (map (fun c => Z.land c 0xff) buf) ;;
  release LCons ;;
  ilock (Some ip) ;;
  ret (Z.of_nat (length buf)).

#[export] Instance console : ConsoleDev :=
  {| Fs.consoleread := consoleread; Fs.consolewrite := consolewrite |}.
End Console.

(** [consoleinit] but for its interrupt, which the I/O APIC routes. *)
Definition console_setup : K unit :=
  initlock LCons "console" ;;
  updfs (fun t => set_fs_devsw (<[Z.to_nat CONSOLE := true]> (fs_devsw t)) t) ;;
  updcn (set_cn_locking true).
