(* ===== verification/Tty.v ===== *)
(** * The console as a terminal

    The line discipline of [console.c].  A terminal is a sequence of finished
    characters, ready to be read, and the line being edited; [typed] says what
    a typed character does to it.  The theorems show that [consoleintr]
    implements it on the circular buffer, that the cursor never leaves the
    screen, and that [consoleread] returns the finished characters up to the
    end of a line or a control-D, sleeping for as long as there is none. *)

From stdpp Require Import prelude list gmap strings.
From Stdlib Require Import ZArith Lia.
From S2P Require Import Prelude State Boot Spinlock Str Kalloc Cprintf Vm Sched Sleeplock Bio Log Fs File Waiting Pipe Console.
#[local] Open Scope c_scope.

(** ** The screen *)

(** The text memory and the cursor, on one of its first 24 lines. *)
Record screen_ok (cn : cnstate) : Prop := {
  sc_cells : length (cn_crt cn) = 2000%nat;
  sc_pos : 0 <= cn_pos cn < 24 * 80;
  sc_alive : cn_panicked cn = false;
}.

(** The bytes the serial port gets for a character. *)
Definition echo (c : Z) : list Z := if c =? BACKSPACE then [8; 32; 8] else [u8 c].

(** [cs] were put on the console; the input is as it was. *)
Record shown (cs : list Z) (cn cn' : cnstate) : Prop := {
  sh_screen : screen_ok cn';
  sh_out : cn_out cn' = cn_out cn ++ if cn_uart cn then concat (echo <$> cs) else [];
  sh_uart : cn_uart cn' = cn_uart cn;
  sh_locking : cn_locking cn' = cn_locking cn;
  sh_buf : cn_buf cn' = cn_buf cn;
  sh_r : cn_r cn' = cn_r cn;
  sh_w : cn_w cn' = cn_w cn;
  sh_e : cn_e cn' = cn_e cn;
}.

Lemma shown_nil cn : screen_ok cn -> shown [] cn cn.
Proof. intros H. split; try done. cbn. destruct (cn_uart cn); by rewrite app_nil_r. Qed.

Lemma shown_app cs cs' cn cn1 cn2 : shown cs cn cn1 -> shown cs' cn1 cn2 -> shown (cs ++ cs') cn cn2.
Proof.
  intros [A1 A2 A3 A4 A5 A6 A7 A8] [B1 B2 B3 B4 B5 B6 B7 B8]. split; try congruence.
  rewrite B2, A2, A3, fmap_app, concat_app, <- app_assoc. by destruct (cn_uart cn).
Qed.

Section Screen.
Context (hw : hwstate) (pt : ptstate) (km : kmstate) (bc : bcstate) (fs : fsstate) (o : list (kstate -> kstate)).
Implicit Types (cn : cnstate) (c : Z).

Lemma length_scroll pos crt : length crt = 2000%nat -> 0 <= pos <= 1920 -> length (crt_scroll pos crt) = 2000%nat.
Proof.
  intros Hl Hp. unfold crt_scroll. rewrite !length_app, length_take, length_replicate, !length_drop, length_app, length_take, !length_drop. lia.
Qed.

Lemma crt_set_ok cn pos v : length (cn_crt cn) = 2000%nat -> 0 <= pos < 2000 ->
  crt_set pos v (W hw pt km bc fs cn o) = Ok tt (W hw pt km bc fs (set_cn_crt (<[Z.to_nat pos := v]> (cn_crt cn)) cn) o).
Proof.
  intros Hl Hp. unfold crt_set. krun. destruct (Z.leb_spec 0 pos); [|lia]. destruct (Z.ltb_spec pos (Z.of_nat (length (cn_crt cn)))); [|lia].
  krun. done.
Qed.

(** What [cgaputc] leaves alone. *)
Definition same_but_screen cn cn' : Prop :=
  exists crt pos, cn' = cn |> set_cn_crt crt |> set_cn_pos pos.

Lemma same_crt cn crt : same_but_screen cn (set_cn_crt crt cn).
Proof. exists crt, (cn_pos cn). by destruct cn. Qed.

Lemma cga_move cn c : screen_ok cn ->
  exists cn1 pos, 0 <= pos <= 24 * 80 /\ length (cn_crt cn1) = 2000%nat /\ same_but_screen cn cn1 /\
    forall k : Z -> K unit,
    (pos <- getcn cn_pos ;;
     pos <- (if c =? 10 then ret (pos + (80 - pos mod 80))
             else if c =? BACKSPACE then ret (if 0 <? pos then pos - 1 else pos)
             else crt_set pos (Z.lor (Z.land c 0xff) 0x0700) ;; ret (pos + 1)) ;;
     k pos) (W hw pt km bc fs cn o) = k pos (W hw pt km bc fs cn1 o).
Proof.
  intros [H1 H2 H3]. assert (same_but_screen cn cn) as Hid by (exists (cn_crt cn), (cn_pos cn); by destruct cn).
  pose proof (Z.mod_pos_bound (cn_pos cn) 80 ltac:(lia)) as Hm. destruct (Z.eqb_spec c 10) as [->|Hn].
  { exists cn, (cn_pos cn + (80 - cn_pos cn mod 80)). split; [|split; [done|split; [done|]]].
    - Z.div_mod_to_equations. lia.
    - intros k. krun. done. }
  destruct (Z.eqb_spec c BACKSPACE) as [->|Hb].
  { exists cn, (if 0 <? cn_pos cn then cn_pos cn - 1 else cn_pos cn). split; [|split; [done|split; [done|]]].
    - destruct (Z.ltb_spec 0 (cn_pos cn)); lia.
    - intros k. krun. done. }
  eexists _, (cn_pos cn + 1). split; [lia|]. split; [|split; [|]].
  3:{ intros k. krun. kcall crt_set_ok by (done || lia). krun. done. }
  - cbn. by rewrite length_insert.
  - apply same_crt.
Qed.

Lemma cgaputc_ok cn c : screen_ok cn ->
  exists cn', cgaputc c (W hw pt km bc fs cn o) = Ok tt (W hw pt km bc fs cn' o) /\ screen_ok cn' /\ same_but_screen cn cn'.
Proof.
  intros Hs. destruct (cga_move cn c Hs) as (cn1 & pos & Hp & Hl & (crt1 & pos1 & ->) & E). pose proof (sc_alive _ Hs) as Ha.
  unfold cgaputc. rewrite E. destruct (Z.ltb_spec pos 0); [lia|]. destruct (Z.ltb_spec (25 * 80) pos); [lia|]. cbn [orb]. cbn in Hl.
  destruct (Z.leb_spec 24 (pos / 80)) as [Hsc|Hsc]; krun.
  - assert (pos = 1920) as -> by (Z.div_mod_to_equations; lia).
    eexists. erewrite crt_set_ok; [split; [reflexivity|]|cbn; by rewrite length_scroll|lia]. split.
    + split; cbn; [by rewrite length_insert, length_scroll|lia|done].
    + by eexists _, _.
  - assert (pos < 1920) by (Z.div_mod_to_equations; lia).
    eexists. erewrite crt_set_ok; [split; [reflexivity|]|done|lia]. split.
    + split; cbn; [by rewrite length_insert|lia|done].
    + by eexists _, _.
Qed.

Lemma uartputc_ok cn c :
  uartputc c (W hw pt km bc fs cn o) =
  Ok tt (W hw pt km bc fs (set_cn_out (cn_out cn ++ if cn_uart cn then [u8 c] else []) cn) o).
Proof.
  unfold uartputc, when. krun. destruct (cn_uart cn) eqn:E; krun; [done|]. unfold ret. rewrite app_nil_r. by destruct cn.
Qed.

Lemma consputc_ok cn c : screen_ok cn ->
  exists cn', consputc c (W hw pt km bc fs cn o) = Ok tt (W hw pt km bc fs cn' o) /\ shown [c] cn cn'.
Proof.
  intros Hs. unfold consputc. krun. rewrite (sc_alive _ Hs).
  set (cn1 := set_cn_out (cn_out cn ++ if cn_uart cn then echo c else []) cn).
  assert ((if c =? BACKSPACE then uartputc 8 ;; uartputc 32 ;; uartputc 8 else uartputc c) (W hw pt km bc fs cn o) =
    Ok tt (W hw pt km bc fs cn1 o)) as E1.
  { unfold cn1, echo. destruct (c =? BACKSPACE); [|by rewrite uartputc_ok]. kcall uartputc_ok by done. kcall uartputc_ok by done.
    rewrite uartputc_ok. cbn. destruct (cn_uart cn); [by rewrite <- !app_assoc|by rewrite !app_nil_r]. }
  destruct (cgaputc_ok cn1 c) as (cn2 & E2 & Hs2 & (crt & pos & ->)); [by destruct Hs|].
  eexists. split; [rewrite (bind_ok _ _ _ _ _ E1); exact E2|]. split; try done. cbn. by destruct (cn_uart cn); rewrite ?app_nil_r.
Qed.
End Screen.

(** ** The line discipline *)

(** Characters ready to be read, and the line being edited. *)
Record tty := mk_tty { t_done : list Z; t_line : list Z }.
Definition t_len (t : tty) : nat := (length (t_done t) + length (t_line t))%nat.

Definition ctl (c : Z) : Z := c - 64.
Definition CR : Z := 13.
Definition NL : Z := 10.
Definition EOT : Z := 4.
Definition DEL : Z := 127.
Definition ends_line (c : Z) : bool := (c =? NL) || (c =? EOT).

(** Erasing the last character of the line: the new terminal, the characters
    shown, and that no line was finished. *)
Definition erased (t : tty) : tty * list Z * bool :=
  match t_line t with
  | [] => (t, [], false)
  | l => (mk_tty (t_done t) (removelast l), [BACKSPACE], false)
  end.

(** What typing [c] does: the new terminal, the characters shown, and whether
    a line was finished. *)
Definition typed (c : Z) (t : tty) : tty * list Z * bool :=
  if c =? ctl 80 then (t, [], false) else
  if c =? ctl 85 then (mk_tty (t_done t) [], replicate (length (t_line t)) BACKSPACE, false) else
  if (c =? ctl 72) || (c =? DEL) then erased t
  else if negb (c =? 0) && (t_len t <? 128)%nat then
    let c := if c =? CR then NL else c in
    let line := t_line t ++ [u8 c] in
    if ends_line c || (S (t_len t) =? 128)%nat then (mk_tty (t_done t ++ line) [], [c], true)
    else (mk_tty (t_done t) line, [c], false)
  else (t, [], false).

(** A sequence of characters. *)
Fixpoint types (cs : list Z) (t : tty) : tty * list Z * bool :=
  match cs with
  | [] => (t, [], false)
  | c :: cs =>
    let '(t, out, e) := typed c t in
    let '(t, out', e') := types cs t in (t, out ++ out', e || e')
  end.

(** The buffer and its three indices hold [t]; a line being edited has no end
    of line in it. *)
Record ring_rep (cn : cnstate) (t : tty) : Prop := {
  tr_len : length (cn_buf cn) = 128%nat;
  tr_r : 0 <= cn_r cn < W32;
  tr_w : cn_w cn = u32 (cn_r cn + Z.of_nat (length (t_done t)));
  tr_e : cn_e cn = u32 (cn_r cn + Z.of_nat (t_len t));
  tr_room : (t_len t <= 128)%nat;
  tr_at : forall k b, (t_done t ++ t_line t) !! k = Some b ->
    cn_buf cn !! Z.to_nat ((cn_r cn + Z.of_nat k) mod INPUT_BUF) = Some b;
}.
Definition tty_rep (cn : cnstate) (t : tty) : Prop := ring_rep cn t /\ Forall (fun b => b <> NL) (t_line t).

Lemma u32_buf a : u32 a mod INPUT_BUF = a mod INPUT_BUF.
Proof. unfold u32, INPUT_BUF. rewrite Z.mod_mod_divide; [done|]. exists 33554432. reflexivity. Qed.

Lemma ring_shown cs cn cn' t : shown cs cn cn' -> ring_rep cn t -> ring_rep cn' t.
Proof. intros [_ _ _ _ S1 S2 S3 S4] [T1 T2 T3 T4 T5 T6]. split; rewrite ?S1, ?S2, ?S3, ?S4; done. Qed.

(** The tests of the source, on the terminal. *)
Lemma rep_no_line cn t : ring_rep cn t -> (cn_e cn =? cn_w cn) = bool_decide (t_line t = []).
Proof.
  intros [T1 T2 T3 T4 T5 T6]. rewrite T3, T4. unfold t_len in *. apply eq_bool_prop_intro.
  rewrite !Is_true_true, Z.eqb_eq, bool_decide_eq_true. split.
  - intros E%u32_add_inj; [|unfold W32; lia..]. apply length_zero_iff_nil. lia.
  - intros ->. cbn [length]. f_equal. lia.
Qed.

Lemma rep_nothing cn t : ring_rep cn t -> (cn_r cn =? cn_w cn) = bool_decide (t_done t = []).
Proof.
  intros [T1 T2 T3 T4 T5 T6]. rewrite T3. unfold t_len in *. apply eq_bool_prop_intro.
  rewrite !Is_true_true, Z.eqb_eq, bool_decide_eq_true.
  rewrite <- (u32_small (cn_r cn)) at 1 by done. rewrite <- (Z.add_0_r (cn_r cn)) at 1. split.
  - intros E%u32_add_inj; [|unfold W32; lia..]. apply length_zero_iff_nil. lia.
  - intros ->. done.
Qed.

Lemma rep_used cn t : ring_rep cn t -> u32 (cn_e cn - cn_r cn) = Z.of_nat (t_len t).
Proof.
  intros [T1 T2 T3 T4 T5 T6]. rewrite T4. unfold u32. rewrite Zminus_mod_idemp_l.
  replace (cn_r cn + Z.of_nat (t_len t) - cn_r cn) with (Z.of_nat (t_len t)) by lia. apply Z.mod_small. unfold W32. lia.
Qed.

Lemma rep_full cn t : ring_rep cn t -> (cn_e cn =? u32 (cn_r cn + INPUT_BUF)) = (t_len t =? 128)%nat.
Proof.
  intros [T1 T2 T3 T4 T5 T6]. rewrite T4. apply eq_bool_prop_intro.
  rewrite !Is_true_true, Z.eqb_eq, Nat.eqb_eq. split; [|by intros ->].
  intros E%u32_add_inj; unfold W32, INPUT_BUF in *; lia.
Qed.

(** The last character of the line goes. *)
Lemma rep_erase cn done line b : ring_rep cn (mk_tty done (line ++ [b])) ->
  ring_rep (set_cn_e (u32 (cn_e cn - 1)) cn) (mk_tty done line) /\
  input_at (cn_buf cn) (u32 (cn_e cn - 1)) = b.
Proof.
  intros [T1 T2 T3 T4 T5 T6]. unfold t_len in *. cbn in *. rewrite length_app in *. cbn [length] in *.
  assert (u32 (cn_e cn - 1) = u32 (cn_r cn + Z.of_nat (length done + length line))) as E.
  { rewrite T4. unfold u32. rewrite Zminus_mod_idemp_l. f_equal. lia. }
  split.
  - split; unfold t_len; cbn; [done..|exact E|lia|].
    intros k c Hk. apply T6. rewrite app_assoc. by apply lookup_app_l_Some.
  - unfold input_at, from. rewrite E, u32_buf. rewrite (T6 (length done + length line)%nat b); [done|].
    rewrite app_assoc, lookup_app_r, length_app, Nat.sub_diag by (rewrite length_app; lia). done.
Qed.

(** A character goes onto the end of the line. *)
Lemma rep_push cn t b : ring_rep cn t -> (t_len t < 128)%nat ->
  ring_rep (cn |> set_cn_buf (<[Z.to_nat (cn_e cn mod INPUT_BUF) := b]> (cn_buf cn)) |> set_cn_e (u32 (cn_e cn + 1)))
    (mk_tty (t_done t) (t_line t ++ [b])).
Proof.
  intros [T1 T2 T3 T4 T5 T6] Hl. unfold t_len in *. split; unfold t_len; cbn; rewrite ?length_app; cbn [length]; [|done|done| |lia|].
  - by rewrite length_insert.
  - rewrite T4, u32_add_u32. f_equal. lia.
  - rewrite T4, u32_buf. intros k c Hk. rewrite app_assoc in Hk. apply lookup_app_Some in Hk as [Hk|[Hk1 Hk2]].
    + pose proof (lookup_lt_Some _ _ _ Hk) as Hlt. rewrite length_app in Hlt. rewrite list_lookup_insert_ne; [by apply T6|].
      unfold INPUT_BUF. intros E%Z2Nat.inj; [|by apply Z.mod_pos_bound..]. Z.div_mod_to_equations. lia.
    + rewrite length_app in *. destruct (k - _)%nat eqn:Ek; [|done]. injection Hk2 as <-.
      replace k with (length (t_done t) + length (t_line t))%nat by lia. apply list_lookup_insert_eq.
      rewrite T1. pose proof (Z.mod_pos_bound (cn_r cn + Z.of_nat (length (t_done t) + length (t_line t))) INPUT_BUF eq_refl).
      unfold INPUT_BUF in *. lia.
Qed.

(** The line is finished. *)
Lemma rep_commit cn t : ring_rep cn t -> ring_rep (set_cn_w (cn_e cn) cn) (mk_tty (t_done t ++ t_line t) []).
Proof.
  intros [T1 T2 T3 T4 T5 T6]. unfold t_len in *. split; unfold t_len; cbn; rewrite ?length_app, ?app_nil_r; cbn [length]; try done.
  - by rewrite T4, Nat.add_0_r.
  - lia.
Qed.

(** A finished character is read. *)
Lemma rep_take cn b done line : ring_rep cn (mk_tty (b :: done) line) ->
  input_at (cn_buf cn) (cn_r cn) = b /\ ring_rep (set_cn_r (u32 (cn_r cn + 1)) cn) (mk_tty done line).
Proof.
  intros [T1 T2 T3 T4 T5 T6]. unfold t_len in *. cbn in *. split.
  - unfold input_at, from. pose proof (T6 0%nat b eq_refl) as H. rewrite Z.add_0_r in H. by rewrite H.
  - split; unfold t_len; cbn; [done|apply u32_range| | |lia|].
    + rewrite T3, u32_add_u32. f_equal. lia.
    + rewrite T4, u32_add_u32. f_equal. lia.
    + intros k c Hk. rewrite <- (T6 (S k) c Hk). f_equal. f_equal. rewrite <- Zplus_mod_idemp_l, u32_buf, Zplus_mod_idemp_l. f_equal. lia.
Qed.

(** ** Typing *)

Section Typing.
Context (km : kmstate) (bc : bcstate) (fs : fsstate) (o : list (kstate -> kstate)) (hw : hwstate) (i : nat) (c0 : cpu).
Context (Hh : here hw i c0) (Hcons : lock_free hw LCons) (Hpt : lock_free hw LPtable).
Abbreviation st pt cn := (W (hw_acquire LCons i hw) pt km bc fs cn o).
Implicit Types (pt : ptstate) (cn : cnstate) (t : tty).

(** The threads that a finished line wakes. *)
Definition woken_if (e : bool) pt : ptstate := if e then wakeup_pt ChInput pt else pt.

Lemma woken_procs e pt : procs_ok pt -> procs_ok (woken_if e pt).
Proof. intros H. destruct e; [|done]. unfold procs_ok, woken_if, wakeup_pt in *. cbn. by rewrite length_fmap. Qed.

Lemma wakeup_pt_twice ch pt : wakeup_pt ch (wakeup_pt ch pt) = wakeup_pt ch pt.
Proof.
  assert (forall l : list proc, woken ch <$> (woken ch <$> l) = woken ch <$> l) as E.
  { intros l. rewrite <- list_fmap_compose. apply list_fmap_ext. intros k x _. cbn. unfold woken, map_if.
    destruct (sleeps_on ch x) eqn:E; [|by rewrite E]. unfold sleeps_on, is_state. cbn. by rewrite bool_decide_eq_false_2. }
  unfold wakeup_pt. destruct pt. cbn. by rewrite E.
Qed.

Lemma woken_twice e e' pt : woken_if e' (woken_if e pt) = woken_if (e || e') pt.
Proof. destruct e, e'; try done. apply wakeup_pt_twice. Qed.

Lemma wakeup_held pt cn : procs_ok pt ->
  wakeup ChInput (st pt cn) = Ok tt (st (wakeup_pt ChInput pt) cn).
Proof.
  intros Hp. erewrite wakeup_eq; [by erewrite touch_acquire|by apply here_acquire| |done].
  by apply lock_free_other.
Qed.

(** The body of the loop of [kill_line]. *)
Definition kill_turn : unit -> K (unit + unit) := fun _ =>
  s <- getcn id ;;
  if negb (cn_e s =? cn_w s) &&
     negb (input_at (cn_buf s) (u32 (cn_e s - 1)) =? 10)
  then updcn (fun s => set_cn_e (u32 (cn_e s - 1)) s) ;;
       consputc BACKSPACE ;; ret (inl tt)
  else ret (inr tt).

(** The input after [t] was typed into, and the output [out]. *)
Record now (cn : cnstate) (out : list Z) (cn' : cnstate) (t : tty) : Prop := {
  nw_rep : ring_rep cn' t;
  nw_screen : screen_ok cn';
  nw_uart : cn_uart cn' = cn_uart cn;
  nw_out : cn_out cn' = cn_out cn ++ if cn_uart cn then concat (echo <$> out) else [];
}.

Lemma now_id cn t : ring_rep cn t -> screen_ok cn -> now cn [] cn t.
Proof. intros. split; try done. cbn. destruct (cn_uart cn); by rewrite app_nil_r. Qed.

(** The input changes, a character is shown, and [more] follows. *)
Lemma now_shown cn cn1 c cn2 out cn3 t t' :
  ring_rep cn1 t -> cn_out cn1 = cn_out cn -> cn_uart cn1 = cn_uart cn -> shown [c] cn1 cn2 ->
  (ring_rep cn2 t -> screen_ok cn2 -> now cn2 out cn3 t') -> now cn (c :: out) cn3 t'.
Proof.
  intros HR Ho Hu Hsh Hn. destruct (Hn (ring_shown _ _ _ _ Hsh HR) (sh_screen _ _ _ Hsh)) as [N1 N2 N3 N4].
  destruct Hsh as [S1 S2 S3 S4 S5 S6 S7 S8]. split; [done|done|congruence|]. rewrite N4, S2, S3, Ho, Hu.
  destruct (cn_uart cn); [|by rewrite !app_nil_r]. cbn [fmap list_fmap concat]. by rewrite app_nil_r, <- app_assoc.
Qed.

Lemma kill_line_ok line : forall fuel pt cn done,
  ring_rep cn (mk_tty done line) -> Forall (fun b => b <> NL) line -> screen_ok cn -> (length line < fuel)%nat ->
  exists cn', loop_ fuel kill_turn tt (st pt cn) = Ok tt (st pt cn') /\
    now cn (replicate (length line) BACKSPACE) cn' (mk_tty done []).
Proof.
  induction line as [|b line IH] using rev_ind; intros fuel pt cn done HR HN Hs Hf; (destruct fuel as [|fuel]; [lia|]); cbn [loop_].
  - exists cn. split; [|by apply now_id]. unfold kill_turn at 1. krun. cbn [id]. by rewrite (rep_no_line _ _ HR).
  - rewrite length_app, Nat.add_comm in *. cbn in Hf. apply Forall_app in HN as [HN [Hb _]%Forall_cons].
    destruct (rep_erase cn done line b HR) as [HR1 Eb].
    destruct (consputc_ok (hw_acquire LCons i hw) pt km bc fs o (set_cn_e (u32 (cn_e cn - 1)) cn) BACKSPACE) as (cn1 & E1 & Hsh);
      [by destruct Hs|].
    destruct (IH fuel pt cn1 done) as (cn2 & E2 & Hnow); [by eapply ring_shown|done|apply Hsh|lia|].
    exists cn2. split.
    + unfold kill_turn at 1. krun. cbn [id]. rewrite (rep_no_line _ _ HR), Eb, bool_decide_eq_false_2 by (cbn; by destruct line).
      destruct (Z.eqb_spec b 10); [done|]. cbn [negb andb]. krun. rewrite (bind_ok _ _ _ _ _ E1). krun. exact E2.
    + by eapply (now_shown cn _ BACKSPACE).
Qed.
(** Erasing a character. *)
Lemma erase_ok pt cn t : tty_rep cn t -> screen_ok cn ->
  let '(t', out, e) := erased t in
  exists cn', (s <- getcn id ;;
    (if negb (cn_e s =? cn_w s) then
       updcn (fun s => set_cn_e (u32 (cn_e s - 1)) s) ;; consputc BACKSPACE
     else ret tt) ;;
    ret false) (st pt cn) = Ok false (st (woken_if e pt) cn') /\ now cn out cn' t' /\ Forall (fun b => b <> NL) (t_line t').
Proof.
  intros [HR HN] Hs. destruct t as [done line]. cbn [t_line] in HN.
  unfold erased. cbn [t_line t_done].
  destruct (decide (line = [])) as [->|Hne].
  - exists cn. split; [|by split; [apply now_id|]]. krun. cbn [id]. by rewrite (rep_no_line _ _ HR).
  - destruct (exists_last Hne) as (line' & b & ->). apply Forall_app in HN as [HN _].
    destruct (rep_erase cn done line' b HR) as [HR1 Eb].
    destruct (consputc_ok (hw_acquire LCons i hw) pt km bc fs o (set_cn_e (u32 (cn_e cn - 1)) cn) BACKSPACE) as (cn1 & E1 & Hsh);
      [by destruct Hs|].
    destruct (line' ++ [b]) eqn:E; [by destruct line'|]. rewrite <- E, removelast_last in *. clear E.
    exists cn1. split; [|split; [|done]].
    + krun. cbn [id]. rewrite (rep_no_line _ _ HR), bool_decide_eq_false_2 by (cbn; by destruct line'). cbn [negb]. krun.
      by rewrite (bind_ok _ _ _ _ _ E1).
    + eapply (now_shown cn _ BACKSPACE); [exact HR1|done|done|exact Hsh|apply now_id].
Qed.
(** An ordinary character. *)
Definition entered (c : Z) t : tty * list Z * bool :=
  let line := t_line t ++ [u8 c] in
  if ends_line c || (S (t_len t) =? 128)%nat then (mk_tty (t_done t ++ line) [], [c], true)
  else (mk_tty (t_done t) line, [c], false).

Lemma enter_ok pt cn t c : procs_ok pt -> tty_rep cn t -> screen_ok cn -> (t_len t < 128)%nat -> 0 <= c < 256 ->
  let '(t', out, e) := entered c t in
  exists cn', (updcn (fun s => s
       |> set_cn_buf (<[Z.to_nat (cn_e s mod INPUT_BUF) := u8 c]> (cn_buf s))
       |> set_cn_e (u32 (cn_e s + 1))) ;;
     consputc c ;;
     s <- getcn id ;;
     if (c =? 10) || (c =? 4) || (cn_e s =? u32 (cn_r s + INPUT_BUF)) then
       updcn (fun s => set_cn_w (cn_e s) s) ;;
       wakeup ChInput
     else ret tt) (st pt cn) = Ok tt (st (woken_if e pt) cn') /\ now cn out cn' t' /\ Forall (fun b => b <> NL) (t_line t').
Proof.
  intros Hp [HR HN] Hs Hlt Hc. pose proof (rep_push cn t (u8 c) HR Hlt) as HR1. set (cn1 := set_cn_e _ _) in HR1.
  destruct (consputc_ok (hw_acquire LCons i hw) pt km bc fs o cn1 c) as (cn2 & E2 & Hsh); [by destruct Hs|].
  pose proof (ring_shown _ _ _ _ Hsh HR1) as HR2. pose proof (sh_screen _ _ _ Hsh) as Hs2.
  assert (ends_line c || (S (t_len t) =? 128)%nat =
    (c =? 10) || (c =? 4) || (cn_e cn2 =? u32 (cn_r cn2 + INPUT_BUF))) as Eb.
  { rewrite (rep_full _ _ HR2). unfold ends_line, t_len. cbn [t_done t_line]. rewrite length_app. cbn [length].
    by rewrite Nat.add_1_r, Nat.add_succ_r. }
  unfold entered. rewrite Eb. destruct ((c =? 10) || (c =? 4) || _) eqn:Ee.
  - exists (set_cn_w (cn_e cn2) cn2). split; [|split; [|done]].
    + krun. fold cn1. rewrite (bind_ok _ _ _ _ _ E2). krun. cbn [id]. rewrite Ee. krun. by rewrite wakeup_held.
    + eapply (now_shown cn cn1 c cn2); [exact HR1|done|done|exact Hsh|]. intros _ _. split; [by apply rep_commit in HR2|by destruct Hs2|done|].
      cbn. destruct (cn_uart cn2); by rewrite app_nil_r.
  - exists cn2. split; [|split; [|]].
    + krun. fold cn1. rewrite (bind_ok _ _ _ _ _ E2). krun. cbn [id]. by rewrite Ee.
    + eapply (now_shown cn cn1 c cn2); [exact HR1|done|done|exact Hsh|apply now_id].
    + apply Forall_app. split; [done|]. constructor; [|done]. rewrite u8_small by done. unfold NL. intros ->. done.
Qed.

Lemma typed_ok pt cn t c : procs_ok pt -> tty_rep cn t -> screen_ok cn -> 0 <= c < 256 ->
  let '(t', out, e) := typed c t in
  exists cn', consoleintr1 c (st pt cn) = Ok (c =? ctl 80) (st (woken_if e pt) cn') /\
    now cn out cn' t' /\ Forall (fun b => b <> NL) (t_line t').
Proof.
  intros Hp [HR HN] Hs Hc. unfold typed, consoleintr1. change (ctl 80) with 16. change (ctl 85) with 21. change (ctl 72) with 8. unfold DEL.
  destruct (c =? 16) eqn:E1; [exists cn; split; [done|]; split; [by apply now_id|done]|].
  destruct (c =? 21) eqn:E2.
  { destruct t as [done line]. destruct (kill_line_ok line (S (Z.to_nat INPUT_BUF)) pt cn done) as (cn' & E & Hnow); [done..| |].
    { pose proof (tr_room _ _ HR) as Hr. unfold t_len in Hr. cbn in Hr |- *. unfold INPUT_BUF. lia. }
    exists cn'. split; [|done]. unfold kill_line. fold kill_turn. by rewrite (bind_ok _ _ _ _ _ E). }
  destruct ((c =? 8) || (c =? 127)) eqn:E3; [by apply erase_ok|].
  assert ((u32 (cn_e cn - cn_r cn) <? INPUT_BUF) = (t_len t <? 128)%nat) as Eu.
  { rewrite (rep_used _ _ HR). unfold INPUT_BUF. destruct (Z.ltb_spec (Z.of_nat (t_len t)) 128), (Nat.ltb_spec (t_len t) 128); done || lia. }
  destruct (negb (c =? 0) && (t_len t <? 128)%nat) eqn:E4.
  - apply andb_prop in E4 as [E4 E5]. apply Nat.ltb_lt in E5. change CR with 13. change NL with 10. set (c' := if c =? 13 then 10 else c).
    assert (0 <= c' < 256) as Hc' by (unfold c'; destruct (c =? 13); lia).
    pose proof (enter_ok pt cn t c' Hp (conj HR HN) Hs E5 Hc') as He. unfold entered in He.
    destruct (ends_line c' || (S (t_len t) =? 128)%nat); destruct He as (cn' & E & Hnow & Hf);
      (exists cn'; split; [|done]); krun; cbn [id]; rewrite Eu, E4, (proj2 (Nat.ltb_lt _ _) E5); cbn [andb]; fold c';
      by rewrite (bind_ok _ _ _ _ _ E).
  - exists cn. split; [|split; [by apply now_id|done]]. krun. cbn [id]. by rewrite Eu, E4.
Qed.
Lemma now_app cn out cn1 t1 out' cn2 t2 : now cn out cn1 t1 -> now cn1 out' cn2 t2 -> now cn (out ++ out') cn2 t2.
Proof.
  intros [A1 A2 A3 A4] [B1 B2 B3 B4]. split; [done|done|congruence|]. rewrite B4, A4, A3, fmap_app, concat_app, <- app_assoc.
  by destruct (cn_uart cn).
Qed.

(** The characters [cs], one after the other; whether one of them asked for a
    process listing. *)
Fixpoint type_all (cs : list Z) (d : bool) : K bool :=
  match cs with
  | [] => ret d
  | c :: cs => d' <- consoleintr1 c ;; type_all cs (d || d')
  end.

Lemma types_ok cs : forall pt cn t d, procs_ok pt -> tty_rep cn t -> screen_ok cn -> Forall (fun c => 0 <= c < 256) cs ->
  let '(t', out, e) := types cs t in
  exists cn', type_all cs d (st pt cn) = Ok (d || bool_decide (ctl 80 ∈ cs)) (st (woken_if e pt) cn') /\
    now cn out cn' t' /\ Forall (fun b => b <> NL) (t_line t').
Proof.
  induction cs as [|c cs IH]; intros pt cn t d Hp Ht Hs Hcs; cbn [types type_all].
  { exists cn. split; [by rewrite orb_false_r|]. split; [by apply now_id; [apply Ht|]|apply Ht]. }
  apply Forall_cons in Hcs as [Hc Hcs]. pose proof (typed_ok pt cn t c Hp Ht Hs Hc) as H1.
  destruct (typed c t) as [[t1 out1] e1]. destruct H1 as (cn1 & E1 & N1 & F1).
  pose proof (IH (woken_if e1 pt) cn1 t1 (d || (c =? ctl 80)) (woken_procs _ _ Hp) (conj (nw_rep _ _ _ _ N1) F1) (nw_screen _ _ _ _ N1) Hcs) as H2.
  destruct (types cs t1) as [[t2 out2] e2]. destruct H2 as (cn2 & E2 & N2 & F2). exists cn2. split; [|split; [by eapply now_app|done]].
  rewrite (bind_ok _ _ _ _ _ E1), E2, woken_twice. f_equal. rewrite <- orb_assoc. f_equal.
  apply eq_bool_prop_intro. rewrite !Is_true_true, orb_true_iff, !bool_decide_eq_true, Z.eqb_eq. set_solver.
Qed.
End Typing.

(** ** The process listing *)

(** The line of one process: its number, state and name, and for a sleeping one
    the return addresses on its kernel stack. *)
Definition proc_line (m : Z -> Z) (p : proc) : list Z :=
  if is_state UNUSED p then [] else
  printint_chars (s32 (p_pid p)) 10 true ++ [32] ++ state_name (p_state p) ++ [32] ++ upto_nul (p_name p) ++
  (if is_state SLEEPING p
   then concat ((fun v => 32 :: printint_chars (s32 v) 16 false) <$>
          upto_nul (getcallerpcs (load32 m) (u32 (x_ebp (p_context p) + 8))))
   else []) ++ [10].
Definition listing (m : Z -> Z) (ps : list proc) : list Z := concat (proc_line m <$> ps).

Section Listing.
Context (pt : ptstate) (km : kmstate) (bc : bcstate) (fs : fsstate) (o : list (kstate -> kstate)).
Implicit Types (hw : hwstate) (cn : cnstate).

(** [m] puts [out] on the console and does nothing else. *)
Definition prints hw (m : K unit) (out : list Z) : Prop :=
  forall cn, screen_ok cn -> exists cn', m (W hw pt km bc fs cn o) = Ok tt (W hw pt km bc fs cn' o) /\ shown out cn cn'.

Lemma prints_ret hw : prints hw (ret tt) [].
Proof. intros cn Hs. exists cn. split; [done|by apply shown_nil]. Qed.

Lemma prints_seq hw m m' out out' : prints hw m out -> prints hw m' out' -> prints hw (m ;; m') (out ++ out').
Proof.
  intros H H' cn Hs. destruct (H cn Hs) as (cn1 & E1 & S1). destruct (H' cn1 (sh_screen _ _ _ S1)) as (cn2 & E2 & S2).
  exists cn2. split; [by rewrite (bind_ok _ _ _ _ _ E1)|by eapply shown_app].
Qed.

Lemma prints_last hw m out : prints hw m out -> prints hw (m ;; ret tt) out.
Proof. intros H. rewrite <- (app_nil_r out). apply prints_seq; [done|apply prints_ret]. Qed.

Lemma prints_char hw c : prints hw (consputc c) [c].
Proof. intros cn Hs. by apply consputc_ok. Qed.

Lemma prints_str hw l : prints hw (consputs l) l.
Proof.
  induction l as [|c l IH]; [apply prints_ret|]. cbn [consputs]. apply (prints_seq _ _ _ [c] l); [apply prints_char|done].
Qed.

Section Locked.
Context (hw : hwstate) (i : nat) (c : cpu) (Hh : here hw i c) (Hcons : lock_free hw LCons) (Ht : touch i hw = hw).

(** With the lock of the console free, [cprintf] prints its text. *)
Lemma prints_cprintf fmt args out :
  (forall hw, prints hw (cprintf_loop (S (length fmt)) fmt args) out) -> prints hw (cprintf fmt args) out.
Proof.
  intros H cn Hs. unfold cprintf. rewrite bind_getcn. destruct (cn_locking cn) eqn:El; cbn [when].
  - destruct (H (hw_acquire LCons i hw) cn Hs) as (cn' & E & S1). exists cn'. split; [|done].
    kcall acquire_ok by (exact Hh || apply Hcons). rewrite (bind_ok _ _ _ _ _ E).
    erewrite release_acquired by (exact Hh || apply Hcons). by rewrite Ht.
  - destruct (H hw cn Hs) as (cn' & E & S1). exists cn'. split; [|done]. rewrite (bind_ok _ _ _ tt (W hw pt km bc fs cn o)) by done.
    by rewrite (bind_ok _ _ _ _ _ E).
Qed.

Lemma prints_pcs l : forall n k, (k + n = length l)%nat ->
  prints hw (for_ n k (fun i => let v := default 0 (l !! i) in
      if v =? 0 then ret (Some tt) else cprintf (s2b " %p") [AInt v] ;; ret None) ;; ret tt)
    (concat ((fun v => 32 :: printint_chars (s32 v) 16 false) <$> upto_nul (drop k l))).
Proof.
  induction n as [|n IH]; intros k Hk.
  - rewrite drop_ge by lia. apply prints_ret.
  - destruct (lookup_lt_is_Some_2 l k) as [v Hv]; [lia|]. cbn [for_]. rewrite Hv, (drop_S _ _ _ Hv). change (default 0 (Some v)) with v.
    cbn [upto_nul]. destruct (v =? 0); [apply prints_ret|]. cbn [fmap list_fmap concat]. intros cn Hs.
    destruct (prints_cprintf (s2b " %p") [AInt v] (32 :: printint_chars (s32 v) 16 false)) with (cn := cn) as (cn1 & E1 & S1); [|done|].
    + intros hw'. apply (prints_seq _ _ _ [32]); [apply prints_char|]. apply prints_last, prints_str.
    + destruct (IH (S k) ltac:(lia) cn1 (sh_screen _ _ _ S1)) as (cn2 & E2 & S2). exists cn2. split; [|by eapply shown_app].
      rewrite !bind_assoc, (bind_ok _ _ _ _ _ E1), bind_ret. exact E2.
Qed.

Lemma length_pcs load n : forall ebp, length (pcs_from load n ebp) = n.
Proof. induction n as [|n IH]; intros ebp; [done|]. cbn [pcs_from]. destruct (_ || _); [by rewrite length_replicate|]. cbn. by rewrite IH. Qed.

(** What [procdump] does with one entry. *)
Definition dump_one (i : nat) : K unit :=
  p <- getp i ;;
  if is_state UNUSED p then ret tt else
  cprintf (s2b "%d %s %s")
    [AInt (p_pid p); AStr (Some (state_name (p_state p)));
     AStr (Some (upto_nul (p_name p)))] ;;
  (if is_state SLEEPING p then
     m <- getkm km_mem ;;
     let pc := getcallerpcs (load32 m) (u32 (x_ebp (p_context p) + 8)) in
     r <- for_ 10 0 (fun i =>
       let v := default 0 (pc !! i) in
       if v =? 0 then ret (Some tt)
       else cprintf (s2b " %p") [AInt v] ;; ret None) ;;
     ret tt
   else ret tt) ;;
  cprintf nl [].

Lemma prints_line k p : pt_proc pt !! k = Some p -> prints hw (dump_one k) (proc_line (km_mem km) p).
Proof.
  intros Hk cn Hs. unfold dump_one, proc_line. kcall getp_ok by exact Hk. destruct (is_state UNUSED p); [by apply prints_ret|].
  revert cn Hs. match goal with |- forall cn, screen_ok cn -> exists cn', ?m _ = _ /\ shown ?l _ _ => change (prints hw m l) end.
  match goal with |- prints _ _ (?a ++ ?b ++ ?c ++ ?d ++ ?e ++ ?f ++ ?g) =>
    replace (a ++ b ++ c ++ d ++ e ++ f ++ g) with ((a ++ b ++ c ++ d ++ e) ++ f ++ g) by (by rewrite <- !app_assoc) end.
  apply prints_seq; [|apply prints_seq].
  - apply prints_cprintf. intros hw'. cbn [length s2b map String.list_ascii_of_string].
    apply prints_seq; [apply prints_str|]. apply (prints_seq _ _ _ [32]); [apply prints_char|].
    apply prints_seq; [apply prints_str|]. apply (prints_seq _ _ _ [32]); [apply prints_char|].
    apply prints_last, prints_str.
  - destruct (is_state SLEEPING p); [|apply prints_ret]. intros cn Hs. rewrite bind_getkm.
    apply (prints_pcs (getcallerpcs (load32 (km_mem km)) (u32 (x_ebp (p_context p) + 8))) 10 0); [|done]. unfold getcallerpcs. by rewrite length_pcs.
  - apply prints_cprintf. intros hw'. apply (prints_seq _ _ _ [10] []); [apply prints_char|apply prints_ret].
Qed.

(** [procdump] prints the listing. *)
Lemma prints_procdump : procs_ok pt -> prints hw procdump (listing (km_mem km) (pt_proc pt)).
Proof.
  intros Hp. change procdump with (each_ NPROC 0 dump_one). rewrite <- (drop_0 (pt_proc pt)) at 1.
  assert (0 + NPROC = length (pt_proc pt))%nat as Hn by (by rewrite Hp). revert Hn. generalize 0%nat. generalize NPROC.
  induction n as [|n IH]; intros k Hk.
  - rewrite drop_ge by lia. apply prints_ret.
  - destruct (lookup_lt_is_Some_2 (pt_proc pt) k) as [p Hv]; [lia|]. rewrite (drop_S _ _ _ Hv). unfold listing. cbn [each_ fmap list_fmap concat].
    apply prints_seq; [by apply prints_line|]. apply IH. lia.
Qed.
End Locked.
End Listing.

(** ** Reading *)

(** The next character to read from [t], when the characters [css] are typed
    while the reader sleeps: the character, the terminal and what is still to be
    typed. *)
Fixpoint next_char (css : list (list Z)) (t : tty) : option (Z * tty * list (list Z)) :=
  match t_done t with
  | b :: q => Some (b, mk_tty q (t_line t), css)
  | [] =>
    match css with
    | [] => None
    | cs :: css => next_char css (fst (fst (types cs t)))
    end
  end.

(** A read of [n] of [target] characters: up to a newline, which is part of
    what is read, or a control-D, which is not; it stays in the terminal when
    something was read before it. *)
Fixpoint tty_read (target n : nat) (t : tty) (css : list (list Z)) : option (list Z * tty * list (list Z)) :=
  match n with
  | O => Some ([], t, css)
  | S n' =>
    match next_char css t with
    | None => None
    | Some (b, t', css) =>
      if b =? EOT then Some ([], if (n <? target)%nat then mk_tty (b :: t_done t') (t_line t') else t', css)
      else if b =? NL then Some ([b], t', css)
      else match tty_read target n' t' css with
           | Some (l, t, css) => Some (b :: l, t, css)
           | None => None
           end
    end
  end.

Section Reading.
Context (me : nat).
Implicit Types (k : kstate) (t : tty) (f : kstate -> kstate).
Abbreviation inside := (Waiting.inside LCons me).
Abbreviation switched := (Waiting.switched LCons me).

(** Thread [me] is in the critical section of the console, which holds [t]. *)
Definition holds k t : Prop := inside k /\ tty_rep (k_cn k) t /\ screen_ok (k_cn k).

(** What the others do while the reader sleeps: [cs] are typed. *)
Definition typing (cs : list Z) f : Prop :=
  forall k t, switched k -> tty_rep (k_cn k) t -> screen_ok (k_cn k) ->
    switched (f k) /\ tty_rep (k_cn (f k)) (fst (fst (types cs t))) /\ screen_ok (k_cn (f k)) /\ k_fs (f k) = k_fs k.

(** The wait of [consoleread] for a character. *)
Definition char_turn : unit -> K (unit + bool) := fun _ =>
  s <- getcn id ;;
  if cn_r s =? cn_w s then
    k <- mykilled ;;
    if k : bool then release LCons ;; ret (inr true)
    else sleep ChInput (Some LCons) ;; ret (inl tt)
  else ret (inr false).

Lemma char_ready k t o : holds k t -> t_done t <> [] -> char_turn tt (mk_world k o) = Ok (inr false) (mk_world k o).
Proof.
  intros (_ & [HR _] & _) Hd. destruct k as [hw pt km bc fs cn]. cbn [k_cn] in HR. unfold char_turn. krun. cbn [id].
  by rewrite (rep_nothing _ _ HR), bool_decide_eq_false_2.
Qed.

Lemma char_wait k t o css : holds k t -> t_done t = [] -> Forall2 typing css o ->
  match css, o with
  | cs :: css', f :: o' => exists k', char_turn tt (mk_world k o) = Ok (inl tt) (mk_world k' o') /\
      holds k' (fst (fst (types cs t))) /\ k_fs k' = k_fs k
  | _, _ => exists w, char_turn tt (mk_world k o) = Asleep w
  end.
Proof.
  intros ((hw & i & c & pr & Eh & Hs & Hpo & Hk) & [HR HN] & Hsc) Hd HF. destruct k as [hw0 pt km bc fs cn]. cbn [k_hw k_pt k_cn] in *. subst hw0.
  destruct (lock_sleep LCons me hw pt i c pr ChInput km bc fs cn Hs Hpo Hk) as (Hsw & Hsl & Hres).
  assert (forall o, char_turn tt (W (hw_acquire LCons i hw) pt km bc fs cn o) =
    (sleep ChInput (Some LCons) ;; ret (inl tt)) (W (hw_acquire LCons i hw) pt km bc fs cn o)) as Eb.
  { intros o'. unfold char_turn. krun. cbn [id]. rewrite (rep_nothing _ _ HR), bool_decide_eq_true_2 by done.
    kcall mykilled_in by exact Hs. by rewrite Hk. }
  inversion HF as [|cs f css' o' Hf HF']; subst; rewrite Eb.
  - eexists. unfold bind. by rewrite Hsl.
  - destruct (Hf _ t Hsw (conj HR HN) Hsc) as (F1 & F2 & F3 & F4).
    destruct (Hres f o' F1) as (k' & E & Hin & _ & _ & Efs & Ecn). exists k'. split; [by rewrite (bind_ok _ _ _ _ _ E)|].
    split; [split; [done|by rewrite Ecn]|]. by rewrite Efs, F4.
Qed.

Lemma wait_char css : forall o k t, holds k t -> Forall2 typing css o ->
  match next_char css t with
  | Some (b, t', css') => exists k' o', wait_loop char_turn tt (mk_world k o) = Ok false (mk_world k' o') /\
      holds k' (mk_tty (b :: t_done t') (t_line t')) /\ Forall2 typing css' o' /\ k_fs k' = k_fs k
  | None => exists w, wait_loop char_turn tt (mk_world k o) = Asleep w
  end.
Proof.
  unfold wait_loop. cbn [w_others].
  assert (forall css fuel o k t b q, holds k t -> Forall2 typing css o -> t_done t = b :: q ->
    exists k' o', loop_ (S fuel) char_turn tt (mk_world k o) = Ok false (mk_world k' o') /\
      holds k' (mk_tty (b :: q) (t_line t)) /\ Forall2 typing css o' /\ k_fs k' = k_fs k) as Hnow.
  { intros css' fuel o k t b q Hh HF Hd. exists k, o. cbn [loop_].
    rewrite (bind_ok _ _ _ _ _ (char_ready k t o Hh ltac:(by rewrite Hd))). split; [done|]. split; [|done]. destruct t. cbn in *. by subst. }
  induction css as [|cs css IH]; intros o k t Hh HF; cbn [next_char]; destruct (t_done t) as [|b q] eqn:Hd; cbn [t_done t_line]; try by eapply Hnow.
  - apply Forall2_nil_inv_l in HF as ->. destruct (char_wait k t [] [] Hh Hd ltac:(by constructor)) as (w & E).
    exists w. cbn [length loop_]. unfold bind. by rewrite E.
  - apply Forall2_cons_inv_l in HF as (f & o' & Hf & HF & ->).
    destruct (char_wait k t (f :: o') (cs :: css) Hh Hd ltac:(by constructor)) as (k' & E & Hh' & Efs).
    specialize (IH o' k' _ Hh' HF). cbn [length]. destruct (next_char css _) as [[[b t'] css']|].
    + destruct IH as (k2 & o2 & E2 & H2 & H3 & H4). exists k2, o2. split; [|by rewrite H4].
      change (loop_ (S (S (length o'))) char_turn tt) with (bind (char_turn tt) (fun x => match x with inl a' => loop_ (S (length o')) char_turn a' | inr r => ret r end)).
      rewrite (bind_ok _ _ _ _ _ E). exact E2.
    + destruct IH as (w & E2). exists w.
      change (loop_ (S (S (length o'))) char_turn tt) with (bind (char_turn tt) (fun x => match x with inl a' => loop_ (S (length o')) char_turn a' | inr r => ret r end)).
      rewrite (bind_ok _ _ _ _ _ E). exact E2.
Qed.
(** Taking a character and putting it back. *)
Lemma untake cn b t : ring_rep cn t -> set_cn_r (u32 (u32 (cn_r cn + 1) - 1)) (set_cn_r b cn) = cn.
Proof.
  intros [_ Hr _ _ _ _]. unfold u32. rewrite Zminus_mod_idemp_l. replace (cn_r cn + 1 - 1) with (cn_r cn) by lia.
  rewrite Z.mod_small by done. by destruct cn.
Qed.

Lemma take_chars target n : forall css o k t, holds k t -> Forall2 typing css o ->
  match tty_read target n t css with
  | Some (l, t', css') => exists k' o', console_take target n (mk_world k o) = Ok (false, l) (mk_world k' o') /\
      holds k' t' /\ Forall2 typing css' o' /\ k_fs k' = k_fs k
  | None => exists w, console_take target n (mk_world k o) = Asleep w
  end.
Proof.
  induction n as [|n IH]; intros css o k t Hh HF; cbn [tty_read console_take]; [by exists k, o|].
  fold char_turn. pose proof (wait_char css o k t Hh HF) as Hw.
  destruct (next_char css t) as [[[b t'] css']|]; [|destruct Hw as (w & E); exists w; unfold bind at 1; by rewrite E].
  destruct Hw as (k' & o' & E & (Hin & [HR HN] & Hsc) & HF' & Efs). destruct k' as [hw pt km bc fs cn]. cbn [k_cn k_fs] in *.
  destruct (rep_take cn b (t_done t') (t_line t') HR) as [Eb HR']. cbn [t_line] in HN.
  assert (screen_ok (set_cn_r (u32 (cn_r cn + 1)) cn)) as Hsc' by (by destruct Hsc).
  set (k1 := mk_k hw pt km bc fs (set_cn_r (u32 (cn_r cn + 1)) cn)).
  assert (holds k1 t') as Hh1 by (split; [exact Hin|split; [split; [by destruct t'|done]|done]]).
  change EOT with 4. change NL with 10. destruct (b =? 4) eqn:E4; [|destruct (b =? 10) eqn:E10].
  - destruct (S n <? target)%nat eqn:Et.
    + exists (mk_k hw pt km bc fs cn), o'. split; [|done]. rewrite (bind_ok _ _ _ _ _ E). krun. cbn [id]. rewrite Eb, E4.
      krun. by rewrite (untake cn _ _ HR).
    + exists k1, o'. split; [|done]. rewrite (bind_ok _ _ _ _ _ E). krun. cbn [id]. by rewrite Eb, E4.
  - exists k1, o'. split; [|done]. rewrite (bind_ok _ _ _ _ _ E). krun. cbn [id]. by rewrite Eb, E4, E10.
  - specialize (IH css' o' k1 t' Hh1 HF'). destruct (tty_read target n t' css') as [[[l t2] css2]|].
    + destruct IH as (k2 & o2 & E2 & H2 & H3 & H4). exists k2, o2. split; [|by rewrite H4].
      rewrite (bind_ok _ _ _ _ _ E). krun. cbn [id]. rewrite Eb, E4, E10. by rewrite (bind_ok _ _ _ _ _ E2).
    + destruct IH as (w & E2). exists w. rewrite (bind_ok _ _ _ _ _ E). krun. cbn [id]. rewrite Eb, E4, E10. fold k1. unfold bind. by rewrite E2.
Qed.
End Reading.

(** C38: A read from the console implements [tty_read].  From a buffer that
    holds the terminal [t], with [css] the characters typed each time the reader
    sleeps, it returns the finished characters in order: up to the number asked
    for, or to the end of a line, or to a control-D, which ends the file and is
    kept for the next read when something was read before it.  What is left is
    what [tty_read] leaves.  It sleeps for ever only when the characters typed
    never finish a line. *)
Theorem console_reads me km bc fs o hw pt i c pr cn t css n :
  sleep_ready hw pt i c LCons me pr -> procs_ok pt -> p_killed pr = 0 ->
  tty_rep cn t -> screen_ok cn -> Forall2 (typing me) css o ->
  match tty_read (Z.to_nat n) (Z.to_nat n) t css with
  | Some (l, t', css') => exists k' o',
      console_get n (W hw pt km bc fs cn o) = Ok (false, l) (mk_world k' o') /\
      tty_rep (k_cn k') t' /\ screen_ok (k_cn k') /\ lock_free (k_hw k') LCons /\ k_fs k' = fs /\
      Forall2 (typing me) css' o'
  | None => exists w, console_get n (W hw pt km bc fs cn o) = Asleep w
  end.
Proof.
  intros Hs Hpo Hk Ht Hsc HF. unfold console_get.
  pose proof (take_chars me (Z.to_nat n) (Z.to_nat n) css o (mk_k (hw_acquire LCons i hw) pt km bc fs cn) t) as H.
  destruct (tty_read _ _ t css) as [[[l t'] css']|].
  - destruct H as (k' & o' & E & ((hw' & i' & c' & pr' & Eh & Hs' & _) & Ht' & Hsc') & HF' & Efs);
      [split; [by exists hw, i, c, pr|done]|done|].
    destruct k' as [hw0 pt' km' bc' fs' cn']. cbn [k_hw k_pt k_cn k_fs] in *. subst hw0.
    eexists _, o'. split.
    { kcall acquire_ok by (apply Hs || apply (sl_lk _ _ _ _ _ _ _ Hs)). rewrite (bind_ok _ _ _ _ _ E). cbn [fst].
      kcall release_acquired by (apply Hs' || apply (sl_lk _ _ _ _ _ _ _ Hs')). reflexivity. }
    cbn [k_hw k_cn k_fs]. split; [done|]. split; [done|]. split; [exact (sl_lk _ _ _ _ _ _ _ Hs')|done].
  - destruct H as (w & E); [split; [by exists hw, i, c, pr|done]|done|]. exists w.
    kcall acquire_ok by (apply Hs || apply (sl_lk _ _ _ _ _ _ _ Hs)). unfold bind. by rewrite E.
Qed.

(** ** The keyboard *)

(** Every modifier state with every scan code. *)
Definition kbd_cases : bool :=
  forallb (fun shift => forallb (fun data =>
    let '(shift', c) := Kbd.kbdgetc (Z.of_nat shift) 1 (Z.of_nat data) in
    (0 <=? shift') && (shift' <? 128) && (0 <=? c) && (c <? 256)) (seq 0 256)) (seq 0 128).

Lemma kbdgetc_ok shift data : 0 <= shift < 128 -> 0 <= data < 256 ->
  0 <= fst (Kbd.kbdgetc shift 1 data) < 128 /\ 0 <= snd (Kbd.kbdgetc shift 1 data) < 256.
Proof.
  intros Hs Hd. assert (kbd_cases = true) as H by (vm_compute; reflexivity). unfold kbd_cases in H.
  rewrite forallb_forall in H. specialize (H (Z.to_nat shift)). rewrite forallb_forall in H.
  specialize (H ltac:(apply in_seq; lia) (Z.to_nat data) ltac:(apply in_seq; lia)). rewrite !Z2Nat.id in H by lia.
  destruct (Kbd.kbdgetc shift 1 data) as [shift' c]. cbn [fst snd]. zb. lia.
Qed.

Lemma kbdchars_ok codes : forall shift, 0 <= shift < 128 -> Forall (fun d => 0 <= d < 256) codes ->
  0 <= fst (Kbd.kbdchars shift codes) < 128 /\ Forall (fun c => 0 <= c < 256) (snd (Kbd.kbdchars shift codes)).
Proof.
  induction codes as [|d codes IH]; intros shift Hs Hc; [done|]. apply Forall_cons in Hc as [Hd Hc]. cbn [Kbd.kbdchars].
  destruct (kbdgetc_ok shift d Hs Hd) as [H1 H2]. destruct (Kbd.kbdgetc shift 1 d) as [shift' c]. cbn [fst snd] in *.
  specialize (IH shift' H1 Hc). destruct (Kbd.kbdchars shift' codes) as [shift2 cs]. cbn [fst snd] in *. split; [apply IH|constructor; [done|apply IH]].
Qed.

(** ** The properties at work

    Someone types [a b], erases the [b], types [c] and ends the line; a read of
    ten characters gets [a c] and the newline, also when it had to wait for
    them. *)

Definition keys : list Z := [97; 98; 8; 99; 13].

Lemma tty_rep_0 : tty_rep cn0 (mk_tty [] []).
Proof. split; [split; cbn; try done; lia|constructor]. Qed.
Lemma screen_ok_0 : screen_ok cn0.
Proof. by split. Qed.

(** The keyboard's interrupts, while thread 0 sleeps. *)
Definition press (cs : list Z) (k : kstate) : kstate :=
  match type_all cs false (W (hw_acquire LCons 0 hw_run) pt_run km0 bc0 fs0 (k_cn k) []) with
  | Ok _ w => mk_k (k_hw k) (k_pt k) (k_km k) (k_bc k) (k_fs k) (k_cn (w_k w))
  | _ => k
  end.

Lemma typing_press cs : Forall (fun b => 0 <= b < 256) cs -> typing 0 cs (press cs).
Proof.
  intros Hcs k t Hsw Ht Hsc. pose proof (types_ok km0 bc0 fs0 [] hw_run 0 c_run here_run ltac:(done) ltac:(done) cs
    pt_run (k_cn k) t false ltac:(done) Ht Hsc Hcs) as H. destruct (types cs t) as [[t' out] e].
  destruct H as (cn' & E & [N1 N2 _ _] & F). unfold press. rewrite E. cbn. done.
Qed.

Lemma console_reads_witness :
  exists k' o', console_get 10 (W hw_run pt_run km0 bc0 fs0 cn0 [press keys]) = Ok (false, [97; 99; 10]) (mk_world k' o').
Proof.
  pose proof (console_reads 0 km0 bc0 fs0 [press keys] hw_run pt_run 0 c_run proc_run cn0 (mk_tty [] []) [keys] 10
    ltac:(split; try done; apply here_run) ltac:(done) ltac:(done) tty_rep_0 screen_ok_0
    ltac:(apply Forall2_cons; split; [|done]; apply typing_press; repeat (apply Forall_cons; split; [lia|]); done)) as H.
  cbn in H. destruct H as (k' & o' & E & _). exists k', o'. exact E.
Defined.
