(* ===== verification/Platform.v ===== *)
(** * Interrupt controllers, the serial port and the multiprocessor tables

    [mp.c], [lapic.c], [ioapic.c], [picirq.c] and the start-up half of [uart.c].
    The devices are reached through ports and through registers mapped into
    memory.  Every access is an event of the trace; what the devices answer to
    reads is a list fixed in advance, so that the theorems hold for any
    answers.  The BIOS tables lie in the kernel's memory. *)

From stdpp Require Import prelude list gmap strings.
From Stdlib Require Import ZArith Lia.
From S2P Require Import Prelude State Boot Spinlock Str Kalloc Cprintf Vm Sched Sleeplock Bio Log Fs File Console Tty.
#[local] Open Scope c_scope.

(** ** mmu.h: interrupt gates *)

Record gatedesc := mk_gatedesc {
  g_off_15_0 : Z; g_cs : Z; g_args : Z; g_rsv1 : Z; g_type : Z; g_s : Z;
  g_dpl : Z; g_p : Z; g_off_31_16 : Z;
}.

(** ** Accesses to devices *)

Inductive io :=
| In (port v : Z)      (* a byte read from a port *)
| Out (port v : Z)     (* a byte written to a port *)
| Rd (addr v : Z)      (* a device register read *)
| Wr (addr v : Z)      (* a device register written *)
| Lidt (table : list gatedesc).   (* the interrupt table loaded *)

(** The kernel, the global variables of [lapic.c], [ioapic.c] and [mp.c], the
    modifier state [kbdgetc] keeps in a static variable, the interrupt table of
    [trap.c], the accesses made so far, newest first, and the answers to come. *)
Record platform := mk_platform {
  pf_world : world;
  pf_lapic : Z;
  pf_ioapic : Z;
  pf_ioapicid : Z;
  pf_shift : Z;
  pf_idt : list gatedesc;
  pf_trace : list io;
  pf_in : list Z;
}.
Definition set_pf_world v s := mk_platform v (pf_lapic s) (pf_ioapic s) (pf_ioapicid s) (pf_shift s) (pf_idt s) (pf_trace s) (pf_in s).
Definition set_pf_lapic v s := mk_platform (pf_world s) v (pf_ioapic s) (pf_ioapicid s) (pf_shift s) (pf_idt s) (pf_trace s) (pf_in s).
Definition set_pf_ioapic v s := mk_platform (pf_world s) (pf_lapic s) v (pf_ioapicid s) (pf_shift s) (pf_idt s) (pf_trace s) (pf_in s).
Definition set_pf_ioapicid v s := mk_platform (pf_world s) (pf_lapic s) (pf_ioapic s) v (pf_shift s) (pf_idt s) (pf_trace s) (pf_in s).
Definition set_pf_shift v s := mk_platform (pf_world s) (pf_lapic s) (pf_ioapic s) (pf_ioapicid s) v (pf_idt s) (pf_trace s) (pf_in s).
Definition set_pf_idt v s := mk_platform (pf_world s) (pf_lapic s) (pf_ioapic s) (pf_ioapicid s) (pf_shift s) v (pf_trace s) (pf_in s).

Abbreviation B := (M platform).

(** Kernel code that touches no device. *)
Definition kern {A} (m : K A) : B A := fun s =>
  match m (pf_world s) with
  | Ok a w => Ok a (set_pf_world w s)
  | Asleep w => Asleep (set_pf_world w s)
  | Panic x => Panic x
  | Fault x => Fault x
  | Diverge => Diverge
  end.

Definition event (e : io) : B unit := fun s =>
  Ok tt (mk_platform (pf_world s) (pf_lapic s) (pf_ioapic s) (pf_ioapicid s) (pf_shift s) (pf_idt s) (e :: pf_trace s) (pf_in s)).
(** The next answer of a device; the run is described only as far as there
    are answers. *)
Definition answer (e : Z -> io) : B Z := fun s =>
  match pf_in s with
  | [] => Diverge
  | v :: vs => Ok v (mk_platform (pf_world s) (pf_lapic s) (pf_ioapic s) (pf_ioapicid s) (pf_shift s) (pf_idt s) (e v :: pf_trace s) vs)
  end.

Definition inb (port : Z) : B Z := answer (In port).
Definition outb (port v : Z) : B unit := event (Out port (u8 v)).
Definition rd (addr : Z) : B Z := answer (Rd addr).
Definition wr (addr v : Z) : B unit := event (Wr addr (u32 v)).

Definition T_IRQ0 : Z := 32.
Definition IRQ_TIMER : Z := 0.
Definition IRQ_KBD : Z := 1.
Definition IRQ_COM1 : Z := 4.
Definition IRQ_IDE : Z := 14.
Definition IRQ_ERROR : Z := 19.
Definition IRQ_SPURIOUS : Z := 31.

(** ** picirq.c *)

Definition IO_PIC1 : Z := 0x20.
Definition IO_PIC2 : Z := 0xA0.
Definition picinit : B unit :=
  outb (IO_PIC1 + 1) 0xFF ;;
  outb (IO_PIC2 + 1) 0xFF.

(** ** ioapic.c *)

Definition IOAPIC : Z := 0xFEC00000.
Definition REG_ID : Z := 0x00.
Definition REG_VER : Z := 0x01.
Definition REG_TABLE : Z := 0x10.
Definition INT_DISABLED : Z := 0x00010000.

(** The register window: [reg] at offset 0, [data] at offset 16. *)
Definition ioapicread (reg : Z) : B Z :=
  a <- gets pf_ioapic ;;
  wr a reg ;;
  rd (a + 16).
Definition ioapicwrite (reg data : Z) : B unit :=
  a <- gets pf_ioapic ;;
  wr a reg ;;
  wr (a + 16) data.

Definition ioapicinit : B unit :=
  upd (set_pf_ioapic IOAPIC) ;;
  ver <- ioapicread REG_VER ;;
  let maxintr := Z.land (Z.shiftr ver 16) 0xFF in
  r <- ioapicread REG_ID ;;
  let id := Z.shiftr r 24 in
  ioapicid <- gets pf_ioapicid ;;
  (if negb (id =? ioapicid)
   then kern (cprintf (s2b "ioapicinit: id isn't equal to ioapicid; not a MP" ++ nl) [])
   else ret tt) ;;
  each_ (S (Z.to_nat maxintr)) 0 (fun i =>
    let i := Z.of_nat i in
    ioapicwrite (REG_TABLE + 2 * i) (Z.lor INT_DISABLED (T_IRQ0 + i)) ;;
    ioapicwrite (REG_TABLE + 2 * i + 1) 0).

Definition ioapicenable (irq cpunum : Z) : B unit :=
  ioapicwrite (REG_TABLE + 2 * irq) (T_IRQ0 + irq) ;;
  ioapicwrite (REG_TABLE + 2 * irq + 1) (Z.shiftl cpunum 24).

(** ** lapic.c *)
Module Lapic.
(** Registers, as indices into an array of words. *)
Definition ID : Z := 0x0020 / 4.
Definition VER : Z := 0x0030 / 4.
Definition TPR : Z := 0x0080 / 4.
Definition EOI : Z := 0x00B0 / 4.
Definition SVR : Z := 0x00F0 / 4.
Definition ENABLE : Z := 0x00000100.
Definition ESR : Z := 0x0280 / 4.
Definition ICRLO : Z := 0x0300 / 4.
Definition INIT : Z := 0x00000500.
Definition STARTUP : Z := 0x00000600.
Definition DELIVS : Z := 0x00001000.
Definition ASSERT : Z := 0x00004000.
Definition LEVEL : Z := 0x00008000.
Definition BCAST : Z := 0x00080000.
Definition ICRHI : Z := 0x0310 / 4.
Definition TIMER : Z := 0x0320 / 4.
Definition X1 : Z := 0x0000000B.
Definition PERIODIC : Z := 0x00020000.
Definition PCINT : Z := 0x0340 / 4.
Definition LINT0 : Z := 0x0350 / 4.
Definition LINT1 : Z := 0x0360 / 4.
Definition ERROR : Z := 0x0370 / 4.
Definition MASKED : Z := 0x00010000.
Definition TICR : Z := 0x0380 / 4.
Definition TDCR : Z := 0x03E0 / 4.
End Lapic.
Import Lapic.

Definition lapicr (index : Z) : B Z :=
  a <- gets pf_lapic ;;
  rd (a + 4 * index).
Definition lapicw (index value : Z) : B unit :=
  a <- gets pf_lapic ;;
  wr (a + 4 * index) value ;;
  lapicr ID ;;
  ret tt.

(** [while(lapic[ICRLO] & DELIVS) ;] *)
Definition wait_delivery : B unit := fun s =>
  loop_ (S (length (pf_in s))) (fun _ : unit =>
    v <- lapicr ICRLO ;;
    ret (if Z.land v DELIVS =? 0 then inr tt else inl tt)) tt s.

Definition lapicinit : B unit :=
  lapic <- gets pf_lapic ;;
  if lapic =? 0 then ret tt else
  lapicw SVR (Z.lor ENABLE (T_IRQ0 + IRQ_SPURIOUS)) ;;
  lapicw TDCR X1 ;;
  lapicw TIMER (Z.lor PERIODIC (T_IRQ0 + IRQ_TIMER)) ;;
  lapicw TICR 10000000 ;;
  lapicw LINT0 MASKED ;;
  lapicw LINT1 MASKED ;;
  ver <- lapicr VER ;;
  (if 4 <=? Z.land (Z.shiftr ver 16) 0xFF then lapicw PCINT MASKED else ret tt) ;;
  lapicw ERROR (T_IRQ0 + IRQ_ERROR) ;;
  lapicw ESR 0 ;;
  lapicw ESR 0 ;;
  lapicw EOI 0 ;;
  lapicw ICRHI 0 ;;
  lapicw ICRLO (Z.lor (Z.lor BCAST INIT) LEVEL) ;;
  wait_delivery ;;
  lapicw TPR 0.

(** The register behind [lapicid] of the kernel's model of its processor. *)
Definition lapicid : B Z :=
  lapic <- gets pf_lapic ;;
  if lapic =? 0 then ret 0 else
  v <- lapicr ID ;;
  ret (Z.shiftr v 24).

Definition lapiceoi : B unit :=
  lapic <- gets pf_lapic ;;
  if negb (lapic =? 0) then lapicw EOI 0 else ret tt.

Definition microdelay (us : Z) : B unit := ret tt.

Definition CMOS_PORT : Z := 0x70.
Definition CMOS_RETURN : Z := 0x71.

(** Start additional processor running entry code at [addr]. *)
Definition lapicstartap (apicid addr : Z) : B unit :=
  outb CMOS_PORT 0xF ;;
  outb (CMOS_PORT + 1) 0x0A ;;
  let wrv := P2V (Z.lor (Z.shiftl 0x40 4) 0x67) in
  kern (updkm (fun k => set_km_mem (store8 (store8 (km_mem k) wrv 0) (wrv + 1) 0) k)) ;;
  kern (updkm (fun k => set_km_mem (store8 (store8 (km_mem k) (wrv + 2) (Z.shiftr addr 4))
                                           (wrv + 3) (Z.shiftr addr 12)) k)) ;;
  lapicw ICRHI (Z.shiftl apicid 24) ;;
  lapicw ICRLO (Z.lor (Z.lor INIT LEVEL) ASSERT) ;;
  microdelay 200 ;;
  lapicw ICRLO (Z.lor INIT LEVEL) ;;
  microdelay 100 ;;
  each_ 2 0 (fun _ =>
    lapicw ICRHI (Z.shiftl apicid 24) ;;
    lapicw ICRLO (Z.lor STARTUP (Z.shiftr addr 12)) ;;
    microdelay 200).

(** *** The clock *)

Definition CMOS_STATA : Z := 0x0a.
Definition CMOS_STATB : Z := 0x0b.
Definition CMOS_UIP : Z := Z.shiftl 1 7.
Definition SECS : Z := 0x00.
Definition MINS : Z := 0x02.
Definition HOURS : Z := 0x04.
Definition DAY : Z := 0x07.
Definition MONTH : Z := 0x08.
Definition YEAR : Z := 0x09.

Record rtcdate := mk_rtcdate {
  rt_second : Z; rt_minute : Z; rt_hour : Z; rt_day : Z; rt_month : Z; rt_year : Z;
}.
#[export] Instance rtcdate_eq_dec : EqDecision rtcdate.
Proof. solve_decision. Defined.

Definition cmos_read (reg : Z) : B Z :=
  outb CMOS_PORT reg ;;
  microdelay 200 ;;
  inb CMOS_RETURN.

Definition fill_rtcdate : B rtcdate :=
  s <- cmos_read SECS ;;
  m <- cmos_read MINS ;;
  h <- cmos_read HOURS ;;
  d <- cmos_read DAY ;;
  mo <- cmos_read MONTH ;;
  y <- cmos_read YEAR ;;
  ret (mk_rtcdate s m h d mo y).

(** [((x >> 4) * 10) + (x & 0xf)] *)
Definition CONV (x : Z) : Z := Z.shiftr x 4 * 10 + Z.land x 0xf.
Definition conv_date (t : rtcdate) : rtcdate :=
  mk_rtcdate (CONV (rt_second t)) (CONV (rt_minute t)) (CONV (rt_hour t)) (CONV (rt_day t))
    (CONV (rt_month t)) (CONV (rt_year t)).

(** One turn of the loop that reads the time twice. *)
Definition cmos_turn : unit -> B (unit + rtcdate) := fun _ =>
  t1 <- fill_rtcdate ;;
  a <- cmos_read CMOS_STATA ;;
  if negb (Z.land a CMOS_UIP =? 0) then ret (inl tt) else
  t2 <- fill_rtcdate ;;
  ret (if bool_decide (t1 = t2) then inr t1 else inl tt).

Definition cmostime : B rtcdate := fun s =>
  (sb <- cmos_read CMOS_STATB ;;
   let bcd := Z.land sb (Z.shiftl 1 2) =? 0 in
   t1 <- loop_ (S (length (pf_in s))) cmos_turn tt ;;
   let t1 := if bcd then conv_date t1 else t1 in
   ret (mk_rtcdate (rt_second t1) (rt_minute t1) (rt_hour t1) (rt_day t1) (rt_month t1)
          (u32 (rt_year t1 + 2000)))) s.

(** ** uart.c *)

Definition COM1 : Z := 0x3f8.

Definition uartinit : B unit :=
  outb (COM1 + 2) 0 ;;
  outb (COM1 + 3) 0x80 ;;
  outb (COM1 + 0) (115200 / 9600) ;;
  outb (COM1 + 1) 0 ;;
  outb (COM1 + 3) 0x03 ;;
  outb (COM1 + 4) 0 ;;
  outb (COM1 + 1) 0x01 ;;
  v <- inb (COM1 + 5) ;;
  if v =? 0xFF then ret tt else
  kern (updcn (set_cn_uart true)) ;;
  inb (COM1 + 2) ;;
  inb (COM1 + 0) ;;
  ioapicenable IRQ_COM1 0 ;;
  kern ((fix puts (l : list Z) : K unit := match l with [] => ret tt | c :: l => uartputc c ;; puts l end)
          (s2b "xv6..." ++ nl)).

Definition uartgetc : B Z :=
  u <- kern (getcn cn_uart) ;;
  if negb u then ret (-1) else
  v <- inb (COM1 + 5) ;;
  if Z.land v 0x01 =? 0 then ret (-1) else
  inb (COM1 + 0).

(** ** console.c: the interrupt handler

    [consoleintr] calls [getc] of the device, with the console locked, until it
    returns a negative number; each call takes at least one answer of the
    device. *)

Fixpoint consoleintr_loop (getc : B Z) (fuel : nat) (doprocdump : bool) : B bool :=
  match fuel with
  | O => fun _ => Diverge
  | S fuel =>
    c <- getc ;;
    if c <? 0 then ret doprocdump else
    d <- kern (consoleintr1 c) ;;
    consoleintr_loop getc fuel (doprocdump || d)
  end.

Definition consoleintr (getc : B Z) : B unit := fun s =>
  (kern (acquire LCons) ;;
   doprocdump <- consoleintr_loop getc (S (length (pf_in s))) false ;;
   kern (release LCons) ;;
   if doprocdump : bool then kern procdump else ret tt) s.

Definition uartintr : B unit := consoleintr uartgetc.

(** ** kbd.c: the ports of the keyboard's controller *)

Definition KBSTATP : Z := 0x64.
Definition KBS_DIB : Z := 0x01.
Definition KBDATAP : Z := 0x60.

Definition kbd_getc : B Z :=
  st <- inb KBSTATP ;;
  if Z.land st KBS_DIB =? 0 then ret (-1) else
  data <- inb KBDATAP ;;
  shift <- gets pf_shift ;;
  let '(shift, c) := Kbd.kbdgetc shift st data in
  upd (set_pf_shift shift) ;;
  ret c.
Definition kbdintr : B unit := consoleintr kbd_getc.

(** ** mp.c *)

Definition MPPROC : Z := 0x00.
Definition MPBUS : Z := 0x01.
Definition MPIOAPIC : Z := 0x02.
Definition MPIOINTR : Z := 0x03.
Definition MPLINTR : Z := 0x04.
Definition sizeof_mp : Z := 16.
Definition sizeof_mpconf : Z := 44.
Definition sizeof_mpproc : Z := 20.
Definition sizeof_mpioapic : Z := 8.

Section Tables.
(** The kernel's memory. *)
Context (m : mem).

Fixpoint sum_bytes (addr : Z) (len : nat) : Z :=
  match len with
  | O => 0
  | S len => m addr + sum_bytes (addr + 1) len
  end.
Definition sum (addr len : Z) : Z := u8 (sum_bytes addr (Z.to_nat len)).

(** [memcmp(p, s, 4) == 0] *)
Definition tagged (p : Z) (s : list Z) : bool :=
  bool_decide ((fun i => m (p + Z.of_nat i)) <$> seq 0 (length s) = s).

(** The fields of the two headers. *)
Definition mp_physaddr (p : Z) : Z := load32 m (p + 4).
Definition mp_imcrp (p : Z) : Z := m (p + 12).
Definition conf_length (c : Z) : Z := m (c + 4) + 2 ^ 8 * m (c + 5).
Definition conf_version (c : Z) : Z := m (c + 6).
Definition conf_lapicaddr (c : Z) : Z := load32 m (c + 36).

(** Look for an MP structure in the [len] bytes at [a]. *)
Fixpoint mpsearch_from (n : nat) (p : Z) : option Z :=
  match n with
  | O => None
  | S n =>
    if tagged p (s2b "_MP_") && (sum p sizeof_mp =? 0) then Some p
    else mpsearch_from n (p + sizeof_mp)
  end.
Definition mpsearch1 (a len : Z) : option Z :=
  mpsearch_from (Z.to_nat (len / sizeof_mp)) (P2V a).

Definition mpsearch : option Z :=
  let bda := P2V 0x400 in
  let p := Z.shiftl (Z.lor (Z.shiftl (m (bda + 0x0F)) 8) (m (bda + 0x0E))) 4 in
  let r := if negb (p =? 0) then mpsearch1 p 1024
           else let p := Z.lor (Z.shiftl (m (bda + 0x14)) 8) (m (bda + 0x13)) * 1024 in
                mpsearch1 (u32 (p - 1024)) 1024 in
  match r with
  | Some mp => Some mp
  | None => mpsearch1 0xF0000 0x10000
  end.

(** The floating pointer and the configuration table. *)
Definition mpconfig : option (Z * Z) :=
  match mpsearch with
  | None => None
  | Some mp =>
    if mp_physaddr mp =? 0 then None else
    let conf := P2V (mp_physaddr mp) in
    if negb (tagged conf (s2b "PCMP")) then None else
    if negb (conf_version conf =? 1) && negb (conf_version conf =? 4) then None else
    if negb (sum conf (conf_length conf) =? 0) then None else
    Some (mp, conf)
  end.
End Tables.

(** [if(ncpu < NCPU) { cpus[ncpu].apicid = apicid; ncpu++; }] *)
Definition add_cpu (apicid : Z) : K unit :=
  n <- gethw hw_ncpu ;;
  if (n <? NCPU)%nat then
    updhw (fun h => set_hw_cpus (alter (set_c_apicid apicid) n (hw_cpus h)) h) ;;
    updhw (set_hw_ncpu (S n))
  else ret tt.

(** One turn of the loop over the table's entries, at [p] below [e]; an
    unknown entry clears [ismp] and leaves [p] where it is. *)
Definition mp_turn (m : mem) (e : Z) '(p, ismp) : B (Z * bool + bool) :=
  if negb (p <? e) then ret (inr ismp) else
  let ty := m p in
  if ty =? MPPROC then
    kern (add_cpu (m (p + 1))) ;;
    ret (inl (u32 (p + sizeof_mpproc), ismp))
  else if ty =? MPIOAPIC then
    upd (set_pf_ioapicid (m (p + 1))) ;;
    ret (inl (u32 (p + sizeof_mpioapic), ismp))
  else if (ty =? MPBUS) || (ty =? MPIOINTR) || (ty =? MPLINTR) then
    ret (inl (u32 (p + 8), ismp))
  else ret (inl (p, false)).

(** [fuel] turns of the loop at most. *)
Definition mpinit_fuel (fuel : nat) : B unit :=
  m <- kern (getkm km_mem) ;;
  match mpconfig m with
  | None => panic "Expect to run on an SMP"
  | Some (mp, conf) =>
    upd (set_pf_lapic (conf_lapicaddr m conf)) ;;
    ismp <- loop_ fuel (mp_turn m (u32 (conf + conf_length m conf))) (u32 (conf + sizeof_mpconf), true) ;;
    if negb ismp then panic "Didn't find a suitable machine" else
    if negb (mp_imcrp m mp =? 0) then
      outb 0x22 0x70 ;;
      v <- inb 0x23 ;;
      outb 0x23 (Z.lor v 1)
    else ret tt
  end.

(** A table has 65535 bytes at most and an entry 8 at least. *)
Definition mpinit : B unit := mpinit_fuel (Z.to_nat 8193).

(** ** The I/O APIC's redirection table *)

(** What the writes of a trace leave in the I/O APIC: a write to the window's
    first word selects a register, one to its data word sets it. *)
Fixpoint ioapic_state (regs0 : Z -> Z) (tr : list io) : Z * (Z -> Z) :=
  match tr with
  | [] => (0, regs0)
  | e :: tr =>
    let '(sel, regs) := ioapic_state regs0 tr in
    match e with
    | Wr a v => if a =? IOAPIC then (v, regs)
                else if a =? IOAPIC + 16 then (sel, fn_upd sel v regs) else (sel, regs)
    | _ => (sel, regs)
    end
  end.
Definition ioapic_reg regs0 s (r : Z) : Z := snd (ioapic_state regs0 (pf_trace s)) r.

Section Ioapic.
Context (regs0 : Z -> Z).

Lemma ioapicwrite_ok s reg data : pf_ioapic s = IOAPIC -> 0 <= reg < W32 -> 0 <= data < W32 ->
  exists tr, ioapicwrite reg data s = Ok tt (mk_platform (pf_world s) (pf_lapic s) IOAPIC (pf_ioapicid s) (pf_shift s) (pf_idt s) tr (pf_in s)) /\
    snd (ioapic_state regs0 tr) = fn_upd reg data (snd (ioapic_state regs0 (pf_trace s))).
Proof.
  intros Ha Hr Hd. eexists. split.
  - unfold ioapicwrite, bind, gets, wr, event. rewrite Ha. cbn. rewrite !u32_small by done. reflexivity.
  - cbn. destruct (ioapic_state regs0 (pf_trace s)). done.
Qed.

Lemma ioapicread_ok s reg v vs : pf_ioapic s = IOAPIC -> pf_in s = v :: vs ->
  exists tr, ioapicread reg s = Ok v (mk_platform (pf_world s) (pf_lapic s) IOAPIC (pf_ioapicid s) (pf_shift s) (pf_idt s) tr vs).
Proof. intros Ha Hi. eexists. unfold ioapicread, bind, gets, wr, event, rd, answer. rewrite Ha. cbn. by rewrite Hi. Qed.

(** The entries [i], [i + 1], ... up to [i + n] masked. *)
Definition masked (i : Z) : Z := Z.lor INT_DISABLED (T_IRQ0 + i).
Definition mask_turn (i : nat) : B unit :=
  let i := Z.of_nat i in
  ioapicwrite (REG_TABLE + 2 * i) (masked i) ;;
  ioapicwrite (REG_TABLE + 2 * i + 1) 0.

Lemma masked_range i : 0 <= i < 256 -> 0 <= masked i < W32.
Proof.
  intros Hi. unfold masked, W32, INT_DISABLED, T_IRQ0. split; [apply Z.lor_nonneg; lia|].
  apply Z.log2_lt_cancel. rewrite Z.log2_lor by lia. change (Z.log2 4294967296) with 32.
  pose proof (Z.log2_le_mono (32 + i) 512 ltac:(lia)). change (Z.log2 512) with 9 in *. change (Z.log2 0x10000) with 16. lia.
Qed.

Lemma mask_loop n : forall i s, pf_ioapic s = IOAPIC -> (i + n <= 256)%nat ->
  exists tr, each_ n i mask_turn s = Ok tt (mk_platform (pf_world s) (pf_lapic s) IOAPIC (pf_ioapicid s) (pf_shift s) (pf_idt s) tr (pf_in s)) /\
    forall r, snd (ioapic_state regs0 tr) r =
      if decide (REG_TABLE + 2 * Z.of_nat i <= r < REG_TABLE + 2 * Z.of_nat (i + n))
      then if Z.even r then masked ((r - REG_TABLE) / 2) else 0 else ioapic_reg regs0 s r.
Proof.
  induction n as [|n IH]; intros i s Ha Hi; cbn [each_].
  { exists (pf_trace s). split; [unfold ret; rewrite <- Ha; by destruct s|]. intros r. rewrite decide_False by lia. done. }
  destruct (ioapicwrite_ok s (REG_TABLE + 2 * Z.of_nat i) (masked (Z.of_nat i)) Ha) as (tr1 & E1 & R1);
    [unfold REG_TABLE, W32; lia|apply masked_range; lia|].
  set (s1 := mk_platform _ _ _ _ _ _ tr1 _) in E1.
  destruct (ioapicwrite_ok s1 (REG_TABLE + 2 * Z.of_nat i + 1) 0 eq_refl) as (tr2 & E2 & R2); [unfold REG_TABLE, W32; lia|done|].
  set (s2 := mk_platform _ _ _ _ _ _ tr2 _) in E2. destruct (IH (S i) s2 eq_refl ltac:(lia)) as (tr3 & E3 & R3).
  exists tr3. split; [unfold bind at 1, mask_turn, bind; rewrite E1, E2; exact E3|]. intros r. rewrite R3. unfold ioapic_reg. cbn [pf_trace s2].
  rewrite R2. cbn [pf_trace s1] in *. rewrite R1. unfold REG_TABLE, fn_upd.
  destruct (decide (r = 16 + 2 * Z.of_nat i + 1)) as [->|H1]; [|destruct (decide (r = 16 + 2 * Z.of_nat i)) as [->|H2]].
  - rewrite decide_False, decide_True by lia. by replace (Z.even _) with false by (rewrite !Z.even_add, Z.even_mul; done).
  - rewrite decide_False, decide_True by lia. replace (Z.even _) with true by (rewrite Z.even_add, Z.even_mul; done).
    f_equal. replace (16 + 2 * Z.of_nat i - 16) with (Z.of_nat i * 2) by lia. by rewrite Z.div_mul.
  - destruct (decide (16 + 2 * Z.of_nat (S i) <= r < _)); [rewrite decide_True by lia; done|]. by rewrite decide_False by lia.
Qed.
End Ioapic.

(** After [ioapicinit] and [ioapicenable irq cpunum] the I/O APIC delivers
    exactly [irq]: its entry of the redirection table is unmasked, with vector
    [T_IRQ0 + irq] and the given processor as its target, and every other entry
    the controller has is masked and routed to no processor.  The kernel's own
    state is not touched.  [ver] and [idv] are the controller's answers for its
    version register, which holds the number of entries, and its identifier. *)
Theorem ioapic_routes regs0 s ver idv vs irq cpunum :
  pf_in s = ver :: idv :: vs -> Z.shiftr idv 24 = pf_ioapicid s ->
  let maxintr := Z.land (Z.shiftr ver 16) 0xFF in
  0 <= irq <= maxintr -> 0 <= cpunum < 256 ->
  exists s', (ioapicinit ;; ioapicenable irq cpunum) s = Ok tt s' /\
    pf_world s' = pf_world s /\ pf_in s' = vs /\
    forall i, 0 <= i <= maxintr ->
      (ioapic_reg regs0 s' (REG_TABLE + 2 * i), ioapic_reg regs0 s' (REG_TABLE + 2 * i + 1)) =
      if decide (i = irq) then (T_IRQ0 + irq, Z.shiftl cpunum 24) else (masked i, 0).
Proof.
  intros Hin Hid maxintr Hirq Hcpu.
  assert (0 <= maxintr < 256) as Hmax.
  { unfold maxintr. change 0xFF with (Z.ones 8). rewrite Z.land_ones by done. by apply Z.mod_pos_bound. }
  destruct (ioapicread_ok (set_pf_ioapic IOAPIC s) REG_VER ver (idv :: vs) eq_refl Hin) as (tr1 & E1). set (s1 := mk_platform _ _ _ _ _ _ tr1 _) in E1.
  destruct (ioapicread_ok s1 REG_ID idv vs eq_refl eq_refl) as (tr2 & E2). set (s2 := mk_platform _ _ _ _ _ _ tr2 _) in E2.
  destruct (mask_loop regs0 (S (Z.to_nat maxintr)) 0 s2 eq_refl ltac:(lia)) as (tr3 & E3 & R3). set (s3 := mk_platform _ _ _ _ _ _ tr3 _) in E3.
  destruct (ioapicwrite_ok regs0 s3 (REG_TABLE + 2 * irq) (T_IRQ0 + irq) eq_refl) as (tr4 & E4 & R4);
    [unfold REG_TABLE, W32; lia|unfold T_IRQ0, W32; lia|]. set (s4 := mk_platform _ _ _ _ _ _ tr4 _) in E4.
  destruct (ioapicwrite_ok regs0 s4 (REG_TABLE + 2 * irq + 1) (Z.shiftl cpunum 24) eq_refl) as (tr5 & E5 & R5);
    [unfold REG_TABLE, W32; lia|rewrite Z.shiftl_mul_pow2 by done; unfold W32; lia|].
  exists (mk_platform (pf_world s) (pf_lapic s) IOAPIC (pf_ioapicid s) (pf_shift s) (pf_idt s) tr5 vs). split; [|split; [done|split; [done|]]].
  - assert (ioapicinit s = Ok tt s3) as E0.
    { unfold ioapicinit. rewrite bind_upd, (bind_ok _ _ _ _ _ E1), (bind_ok _ _ _ _ _ E2), bind_gets.
      cbn [pf_ioapicid s2 s1 set_pf_ioapic]. rewrite Hid, Z.eqb_refl. cbn [negb]. rewrite bind_ret. exact E3. }
    unfold ioapicenable. by rewrite (bind_ok _ _ _ _ _ E0), (bind_ok _ _ _ _ _ E4).
  - intros i Hi. unfold ioapic_reg. cbn [pf_trace]. rewrite R5. cbn [pf_trace s4]. rewrite R4. cbn [pf_trace s3].
    unfold fn_upd, REG_TABLE in *. rewrite !R3, !(decide_True (P := _ <= _ < _)) by lia.
    replace (Z.even (16 + 2 * i)) with true by (rewrite Z.even_add, Z.even_mul; done).
    replace (Z.even (16 + 2 * i + 1)) with false by (rewrite !Z.even_add, Z.even_mul; done).
    replace ((16 + 2 * i - 16) / 2) with i by (replace (16 + 2 * i - 16) with (i * 2) by lia; by rewrite Z.div_mul).
    destruct (decide (i = irq)) as [->|Hne]; repeat first [rewrite decide_True by lia | rewrite decide_False by lia]; done.
Qed.

(** ** The clock *)

Definition bcd (x : Z) : Z := 16 * (x / 10) + x mod 10.
Definition map_date (f : Z -> Z) (t : rtcdate) : rtcdate :=
  mk_rtcdate (f (rt_second t)) (f (rt_minute t)) (f (rt_hour t)) (f (rt_day t)) (f (rt_month t)) (f (rt_year t)).
Definition date_fields (t : rtcdate) : list Z :=
  [rt_second t; rt_minute t; rt_hour t; rt_day t; rt_month t; rt_year t].

(** The clock's registers when it shows [d], by its status register B. *)
Definition clock_regs (sb : Z) (d : rtcdate) : rtcdate :=
  if Z.land sb (Z.shiftl 1 2) =? 0 then map_date bcd d else d.

(** The answers of a turn in which the clock was being updated, or changed. *)
Definition unstable (r : list Z) : Prop :=
  (exists t a, r = date_fields t ++ [a] /\ Z.land a CMOS_UIP <> 0) \/
  (exists t1 a t2, r = date_fields t1 ++ a :: date_fields t2 /\ Z.land a CMOS_UIP = 0 /\ t1 <> t2).

Lemma CONV_bcd x : 0 <= x < 100 -> CONV (bcd x) = x.
Proof.
  intros Hx. assert (forallb (fun k => CONV (bcd (Z.of_nat k)) =? Z.of_nat k) (seq 0 100) = true) as H by (vm_compute; reflexivity).
  rewrite forallb_forall in H. specialize (H (Z.to_nat x) ltac:(apply in_seq; lia)). rewrite Z2Nat.id in H by lia. by apply Z.eqb_eq.
Qed.

Lemma cmos_read_ok s reg v vs : pf_in s = v :: vs ->
  exists tr, cmos_read reg s = Ok v (mk_platform (pf_world s) (pf_lapic s) (pf_ioapic s) (pf_ioapicid s) (pf_shift s) (pf_idt s) tr vs).
Proof. intros H. eexists. unfold cmos_read, bind, outb, event, microdelay, ret, inb, answer. cbn. by rewrite H. Qed.

(** Run the next access of the goal; [H] says what the first answers are. *)
Ltac read_next lem H :=
  match goal with
  | |- context [bind _ _ ?st] =>
    let E := fresh "E" in
    edestruct (lem st) as (? & E); [first [exact H | reflexivity]|]; rewrite (bind_ok _ _ _ _ _ E); clear E
  end.

Lemma fill_ok s t vs : pf_in s = date_fields t ++ vs ->
  exists tr, fill_rtcdate s = Ok t (mk_platform (pf_world s) (pf_lapic s) (pf_ioapic s) (pf_ioapicid s) (pf_shift s) (pf_idt s) tr vs).
Proof.
  intros H. cbn [date_fields app] in H. unfold fill_rtcdate. do 6 read_next cmos_read_ok H. eexists. destruct t. reflexivity.
Qed.

(** A turn that is repeated, and the one that is not. *)
Lemma cmos_again s r vs : unstable r -> pf_in s = r ++ vs ->
  exists tr, cmos_turn tt s = Ok (inl tt) (mk_platform (pf_world s) (pf_lapic s) (pf_ioapic s) (pf_ioapicid s) (pf_shift s) (pf_idt s) tr vs).
Proof.
  intros [(t & a & -> & Ha)|(t1 & a & t2 & -> & Ha & Hne)] Hin; rewrite <- app_assoc in Hin; unfold cmos_turn.
  - read_next fill_ok Hin. read_next cmos_read_ok Hin. destruct (Z.eqb_spec (Z.land a CMOS_UIP) 0); [done|]. by eexists.
  - read_next fill_ok Hin. read_next cmos_read_ok Hin. rewrite Ha. cbn [Z.eqb negb].
    read_next fill_ok Hin. rewrite bool_decide_eq_false_2 by done. by eexists.
Qed.

Lemma cmos_done s t a vs : Z.land a CMOS_UIP = 0 -> pf_in s = date_fields t ++ a :: date_fields t ++ vs ->
  exists tr, cmos_turn tt s = Ok (inr t) (mk_platform (pf_world s) (pf_lapic s) (pf_ioapic s) (pf_ioapicid s) (pf_shift s) (pf_idt s) tr vs).
Proof.
  intros Ha Hin. unfold cmos_turn. read_next fill_ok Hin. read_next cmos_read_ok Hin. rewrite Ha. cbn [Z.eqb negb].
  read_next fill_ok Hin. rewrite bool_decide_eq_true_2 by done. by eexists.
Qed.

Lemma cmos_loop t a vs rounds : forall fuel s, Forall unstable rounds -> Z.land a CMOS_UIP = 0 -> (length rounds < fuel)%nat ->
  pf_in s = concat rounds ++ date_fields t ++ a :: date_fields t ++ vs ->
  exists tr, loop_ fuel cmos_turn tt s = Ok t (mk_platform (pf_world s) (pf_lapic s) (pf_ioapic s) (pf_ioapicid s) (pf_shift s) (pf_idt s) tr vs).
Proof.
  induction rounds as [|r rounds IH]; intros fuel s HF Ha Hf Hin; (destruct fuel as [|fuel]; [cbn in Hf; lia|]); cbn [loop_].
  - destruct (cmos_done s t a vs Ha Hin) as (tr & E). rewrite (bind_ok _ _ _ _ _ E). by eexists.
  - apply Forall_cons in HF as [Hr HF]. cbn [concat] in Hin. rewrite <- app_assoc in Hin.
    destruct (cmos_again s r _ Hr Hin) as (tr & E). rewrite (bind_ok _ _ _ _ _ E).
    destruct (IH fuel (mk_platform (pf_world s) (pf_lapic s) (pf_ioapic s) (pf_ioapicid s) (pf_shift s) (pf_idt s) tr
      (concat rounds ++ date_fields t ++ a :: date_fields t ++ vs)) HF Ha ltac:(cbn in Hf; lia) eq_refl) as (tr' & E').
    exists tr'. exact E'.
Qed.

Lemma unstable_length r : unstable r -> (1 <= length r)%nat.
Proof. intros [(t & a & -> & _)|(t1 & a & t2 & -> & _)]; cbn; lia. Qed.

(** [cmostime] returns a date the clock showed: after any number of turns in
    which the clock was being updated or changed between the two readings, the
    first date that is read twice the same with no update in progress is the
    result, decoded from binary-coded decimal when the clock uses it, with the
    year counted from 0.  [d] is what the clock shows, each field below 100. *)
Theorem cmostime_reads s sb rounds d a vs :
  Forall unstable rounds -> Z.land a CMOS_UIP = 0 -> Forall (fun x => 0 <= x < 100) (date_fields d) ->
  let t := clock_regs sb d in
  pf_in s = sb :: concat rounds ++ date_fields t ++ a :: date_fields t ++ vs ->
  exists s', cmostime s =
      Ok (mk_rtcdate (rt_second d) (rt_minute d) (rt_hour d) (rt_day d) (rt_month d) (rt_year d + 2000)) s' /\
    pf_in s' = vs /\ pf_world s' = pf_world s.
Proof.
  intros HF Ha Hd t Hin. unfold cmostime. rewrite Hin. read_next cmos_read_ok Hin.
  match goal with |- context [loop_ ?f _ _] => destruct (cmos_loop t a vs rounds f
    (mk_platform (pf_world s) (pf_lapic s) (pf_ioapic s) (pf_ioapicid s) (pf_shift s) (pf_idt s) x (concat rounds ++ date_fields t ++ a :: date_fields t ++ vs)) HF Ha)
    as (tr & E); [|done|] end.
  { cbn [length]. rewrite length_app. assert (length rounds <= length (concat rounds))%nat; [|lia].
    clear Hin. induction HF as [|r rounds Hr HF IH]; [done|]. cbn [concat length]. rewrite length_app. pose proof (unstable_length r Hr). lia. }
  rewrite (bind_ok _ _ _ _ _ E). exists (mk_platform (pf_world s) (pf_lapic s) (pf_ioapic s) (pf_ioapicid s) (pf_shift s) (pf_idt s) tr vs).
  split; [|done]. cbn [pf_in pf_world pf_lapic pf_ioapic pf_ioapicid]. unfold ret. f_equal.
  unfold date_fields in Hd. repeat (apply Forall_cons in Hd as [? Hd]).
  unfold t, clock_regs. destruct (Z.land sb (Z.shiftl 1 2) =? 0); cbn [conv_date map_date rt_second rt_minute rt_hour rt_day rt_month rt_year];
    rewrite ?CONV_bcd by done; rewrite u32_small by (unfold W32; lia); done.
Qed.

(** ** The multiprocessor table *)

(** The entries of a table: a processor or an I/O APIC with its identifier, or
    one of the kinds the kernel skips. *)
Inductive mp_entry :=
| EProc (apicid : Z) (rest : list Z)
| EIoapic (apicno : Z) (rest : list Z)
| EOther (ty : Z) (rest : list Z).

Definition mp_enc (e : mp_entry) : list Z :=
  match e with
  | EProc a r => MPPROC :: a :: r
  | EIoapic a r => MPIOAPIC :: a :: r
  | EOther ty r => ty :: r
  end.
Definition mp_entry_ok (e : mp_entry) : Prop :=
  match e with
  | EProc _ r => length r = 18%nat
  | EIoapic _ r => length r = 6%nat
  | EOther ty r => ty ∈ [MPBUS; MPIOINTR; MPLINTR] /\ length r = 7%nat
  end.

(** What the entries say. *)
Definition mp_procs (es : list mp_entry) : list Z :=
  omap (fun e => match e with EProc a _ => Some a | _ => None end) es.
Definition mp_ioapic (id : Z) (es : list mp_entry) : Z :=
  foldl (fun id e => match e with EIoapic a _ => a | _ => id end) id es.

(** The bytes [bs] lie in memory at [p]. *)
Definition at_mem (m : mem) (p : Z) (bs : list Z) : Prop :=
  forall i b, bs !! i = Some b -> m (p + Z.of_nat i) = b.

Lemma at_mem_app m p bs bs' : at_mem m p (bs ++ bs') -> at_mem m p bs /\ at_mem m (p + Z.of_nat (length bs)) bs'.
Proof.
  intros H. split; intros i b Hi.
  - apply H. by apply lookup_app_l_Some.
  - replace (p + Z.of_nat (length bs) + Z.of_nat i) with (p + Z.of_nat (length bs + i)) by lia. apply H.
    rewrite lookup_app_r by lia. by replace (length bs + i - length bs)%nat with i by lia.
Qed.

(** The processors after one more entry, and after all of them. *)
Definition add_proc (h : hwstate) (a : Z) : hwstate :=
  if (hw_ncpu h <? NCPU)%nat
  then set_hw_ncpu (S (hw_ncpu h)) (set_hw_cpus (alter (set_c_apicid a) (hw_ncpu h) (hw_cpus h)) h) else h.

Lemma add_cpu_ok hw pt km bc fs cn o a :
  add_cpu a (W hw pt km bc fs cn o) = Ok tt (W (add_proc hw a) pt km bc fs cn o).
Proof. unfold add_cpu, add_proc. krun. destruct (hw_ncpu hw <? NCPU)%nat; [krun; done|done]. Qed.

Lemma add_procs_cpus ps : forall h, length (hw_cpus h) = NCPU -> (hw_ncpu h <= NCPU)%nat ->
  let h' := foldl add_proc h ps in
  hw_ncpu h' = Nat.min NCPU (hw_ncpu h + length ps) /\
  (forall k, (k < hw_ncpu h)%nat -> hw_cpus h' !! k = hw_cpus h !! k) /\
  (forall k a, ps !! k = Some a -> (hw_ncpu h + k < NCPU)%nat ->
    exists c, hw_cpus h' !! (hw_ncpu h + k)%nat = Some c /\ c_apicid c = a).
Proof.
  induction ps as [|a ps IH]; intros h Hl Hn; cbn [foldl length].
  { split; [lia|]. split; [done|]. by intros k b Hk. }
  destruct (decide (hw_ncpu h < NCPU)%nat) as [Hlt|Hge].
  - assert (add_proc h a = set_hw_ncpu (S (hw_ncpu h)) (set_hw_cpus (alter (set_c_apicid a) (hw_ncpu h) (hw_cpus h)) h)) as E
      by (unfold add_proc; by rewrite (proj2 (Nat.ltb_lt _ _) Hlt)).
    destruct (IH (add_proc h a)) as (I1 & I2 & I3); [by rewrite E; cbn; rewrite length_alter|by rewrite E; cbn; lia|].
    rewrite E in *. cbn [hw_ncpu hw_cpus set_hw_ncpu set_hw_cpus] in *. split; [lia|]. split.
    + intros k Hk. rewrite I2 by lia. by rewrite list_lookup_alter_ne by lia.
    + intros [|k] b Hk Hb.
      * injection Hk as <-. destruct (lookup_lt_is_Some_2 (hw_cpus h) (hw_ncpu h)) as [c Hc]; [lia|].
        exists (set_c_apicid a c). rewrite Nat.add_0_r, I2 by lia. by rewrite list_lookup_alter_eq, Hc.
      * replace (hw_ncpu h + S k)%nat with (S (hw_ncpu h) + k)%nat by lia. apply I3; [done|lia].
  - apply Nat.nlt_ge in Hge.
    assert (add_proc h a = h) as -> by (unfold add_proc; by rewrite (proj2 (Nat.ltb_ge _ _) Hge)).
    destruct (IH h Hl Hn) as (I1 & I2 & I3). split; [lia|]. split; [done|]. intros k b Hk Hb. lia.
Qed.

Lemma mp_turn_ok m e p ismp en bs hw pt km bc fs cn o lap ioa id sh it tr vs :
  mp_entry_ok en -> at_mem m p (mp_enc en ++ bs) -> 0 <= p -> p + Z.of_nat (length (mp_enc en ++ bs)) = e -> e < W32 ->
  mp_turn m e (p, ismp) (mk_platform (W hw pt km bc fs cn o) lap ioa id sh it tr vs) =
  Ok (inl (p + Z.of_nat (length (mp_enc en)), ismp))
    (mk_platform (W (foldl add_proc hw (mp_procs [en])) pt km bc fs cn o) lap ioa (mp_ioapic id [en]) sh it tr vs).
Proof.
  intros Hok Hm Hp He HW. apply at_mem_app in Hm as [Hm _]. rewrite length_app in He.
  assert (p < e) as Hlt by (destruct en; cbn in He |- *; lia). unfold mp_turn. rewrite (proj2 (Z.ltb_lt _ _) Hlt). cbn [negb].
  destruct en as [a r|a r|ty r]; cbn [mp_enc mp_entry_ok length] in *.
  - pose proof (Hm 0%nat _ eq_refl) as E0. pose proof (Hm 1%nat _ eq_refl) as E1. rewrite Z.add_0_r in E0. change (Z.of_nat 1) with 1 in E1.
    rewrite E0, E1. cbn [Z.eqb MPPROC]. unfold bind, kern. cbn [pf_world]. rewrite add_cpu_ok. unfold ret.
    rewrite u32_small by (unfold sizeof_mpproc; lia). rewrite Hok. done.
  - pose proof (Hm 0%nat _ eq_refl) as E0. pose proof (Hm 1%nat _ eq_refl) as E1. rewrite Z.add_0_r in E0. change (Z.of_nat 1) with 1 in E1.
    rewrite E0, E1. unfold bind, upd, ret. cbn -[u32]. rewrite u32_small by (unfold sizeof_mpioapic; lia). rewrite Hok. done.
  - destruct Hok as [Hty Hr]. pose proof (Hm 0%nat _ eq_refl) as E0. rewrite Z.add_0_r in E0. rewrite E0, Hr.
    assert ((ty =? MPPROC) = false /\ (ty =? MPIOAPIC) = false /\ (ty =? MPBUS) || (ty =? MPIOINTR) || (ty =? MPLINTR) = true) as (-> & -> & ->).
    { repeat (apply elem_of_cons in Hty as [->|Hty]; [done|]). by apply elem_of_nil in Hty. }
    rewrite u32_small by lia. done.
Qed.

Lemma mp_loop m e pt km bc fs cn o lap ioa sh it tr vs es : forall k p ismp hw id bs,
  Forall mp_entry_ok es -> at_mem m p (concat (mp_enc <$> es) ++ bs) -> 0 <= p ->
  p + Z.of_nat (length (concat (mp_enc <$> es) ++ bs)) = e -> e < W32 ->
  loop_ (length es + k) (mp_turn m e) (p, ismp) (mk_platform (W hw pt km bc fs cn o) lap ioa id sh it tr vs) =
  loop_ k (mp_turn m e) (p + Z.of_nat (length (concat (mp_enc <$> es))), ismp)
    (mk_platform (W (foldl add_proc hw (mp_procs es)) pt km bc fs cn o) lap ioa (mp_ioapic id es) sh it tr vs).
Proof.
  induction es as [|en es IH]; intros k p ismp hw id bs Hok Hm Hp He HW.
  { cbn. by rewrite Z.add_0_r. }
  apply Forall_cons in Hok as [Hen Hok]. cbn [fmap list_fmap concat] in *. rewrite <- app_assoc in *.
  cbn [length Nat.add loop_]. rewrite (bind_ok _ _ _ _ _ (mp_turn_ok m e p ismp en _ hw pt km bc fs cn o lap ioa id sh it tr vs Hen Hm Hp He HW)).
  apply at_mem_app in Hm as [_ Hm]. rewrite (IH k _ ismp _ _ bs Hok Hm); [|lia|rewrite length_app in He; lia|done].
  rewrite length_app, Nat2Z.inj_add, Z.add_assoc. unfold mp_procs, mp_ioapic. cbn [omap list_omap foldl].
  destruct en; reflexivity.
Qed.

Lemma mp_enc_length e : mp_entry_ok e -> (8 <= length (mp_enc e))%nat.
Proof. destruct e; cbn; [|intros ->; lia|intros [_ ->]; lia]. intros ->. lia. Qed.
Lemma mp_entries_length es : Forall mp_entry_ok es -> (8 * length es <= length (concat (mp_enc <$> es)))%nat.
Proof.
  induction 1 as [|e es He _ IH]; [done|]. cbn [fmap list_fmap concat length]. rewrite length_app.
  pose proof (mp_enc_length e He). lia.
Qed.

(** The table at [conf] holds the bytes [bs] after its header. *)
Record mp_table (m : mem) (mp conf : Z) (bs : list Z) : Prop := mk_mp_table {
  mt_found : mpconfig m = Some (mp, conf);
  mt_length : conf_length m conf = sizeof_mpconf + Z.of_nat (length bs);
  mt_short : sizeof_mpconf + Z.of_nat (length bs) < 2 ^ 16;
  mt_fits : 0 <= conf /\ conf + sizeof_mpconf + Z.of_nat (length bs) < W32;
  mt_bytes : at_mem m (conf + sizeof_mpconf) bs;
}.

(** C39: [mpinit] reads the BIOS's table: for every table of processors, I/O
    APICs and entries of the three kinds it skips, it ends with the first [NCPU]
    processors counted and their APIC identifiers in [cpus] in the table's order,
    [ioapicid] that of the last I/O APIC and [lapic] the address in the table's
    header.  Nothing else of the kernel changes. *)
Theorem mpinit_reads hw pt km bc fs cn o lap ioa id sh it tr vs mp conf es :
  mp_table (km_mem km) mp conf (concat (mp_enc <$> es)) -> Forall mp_entry_ok es ->
  hw_ncpu hw = 0%nat -> length (hw_cpus hw) = NCPU ->
  mp_imcrp (km_mem km) mp = 0 \/ vs <> [] ->
  exists hw' tr' vs',
    mpinit (mk_platform (W hw pt km bc fs cn o) lap ioa id sh it tr vs) =
      Ok tt (mk_platform (W hw' pt km bc fs cn o) (conf_lapicaddr (km_mem km) conf) ioa (mp_ioapic id es) sh it tr' vs') /\
    hw_ncpu hw' = Nat.min NCPU (length (mp_procs es)) /\
    forall k a, mp_procs es !! k = Some a -> (k < NCPU)%nat ->
      exists c, hw_cpus hw' !! k = Some c /\ c_apicid c = a.
Proof.
  intros [Hc Hl Hs [Hf1 Hf2] Hb] Hok Hn Hcpus Himcr.
  destruct (add_procs_cpus (mp_procs es) hw Hcpus ltac:(rewrite Hn; lia)) as (P1 & _ & P3). rewrite Hn in P1, P3.
  pose proof (mp_entries_length es Hok) as Hlen.
  assert (forall tr' vs', loop_ (Z.to_nat 8193) (mp_turn (km_mem km) (u32 (conf + conf_length (km_mem km) conf))) (u32 (conf + sizeof_mpconf), true)
    (mk_platform (W hw pt km bc fs cn o) (conf_lapicaddr (km_mem km) conf) ioa id sh it tr' vs') = Ok true
    (mk_platform (W (foldl add_proc hw (mp_procs es)) pt km bc fs cn o) (conf_lapicaddr (km_mem km) conf) ioa (mp_ioapic id es) sh it tr' vs')) as HL.
  { intros tr' vs'. rewrite Hl, Z.add_assoc. unfold sizeof_mpconf in *. rewrite !u32_small by lia.
    replace (Z.to_nat 8193) with (length es + S (Z.to_nat 8192 - length es))%nat by lia.
    rewrite (mp_loop _ _ pt km bc fs cn o _ ioa sh it tr' vs' es _ _ true hw id []); rewrite ?app_nil_r; [|done|done|lia|lia|lia].
    cbn [loop_]. unfold mp_turn, bind at 1. by rewrite Z.ltb_irrefl. }
  assert (mpinit (mk_platform (W hw pt km bc fs cn o) lap ioa id sh it tr vs) =
    (if negb (mp_imcrp (km_mem km) mp =? 0) then outb 0x22 0x70 ;; v <- inb 0x23 ;; outb 0x23 (Z.lor v 1) else ret tt)
    (mk_platform (W (foldl add_proc hw (mp_procs es)) pt km bc fs cn o) (conf_lapicaddr (km_mem km) conf) ioa (mp_ioapic id es) sh it tr vs)) as ->.
  { unfold mpinit, mpinit_fuel.
    rewrite (bind_ok _ _ _ (km_mem km) (mk_platform (W hw pt km bc fs cn o) lap ioa id sh it tr vs)) by reflexivity.
    rewrite Hc, bind_upd. unfold set_pf_lapic. cbn [pf_world pf_ioapic pf_ioapicid pf_trace pf_in].
    rewrite (bind_ok _ _ _ _ _ (HL tr vs)). done. }
  exists (foldl add_proc hw (mp_procs es)).
  destruct (mp_imcrp (km_mem km) mp =? 0) eqn:Ei; cbn [negb]; [by exists tr, vs|].
  destruct Himcr as [Hz|Hne]; [by rewrite Hz in Ei|]. destruct vs as [|v vs]; [done|].
  exists (Out 0x23 (u8 (Z.lor v 1)) :: In 0x23 v :: Out 0x22 (u8 0x70) :: tr), vs. done.
Qed.

Lemma mp_hangs m e pt km bc fs cn o lap ioa sh it tr vs ty rest fuel :
  ty ∉ [MPPROC; MPBUS; MPIOAPIC; MPIOINTR; MPLINTR] -> e < W32 -> forall es p ismp hw id,
  Forall mp_entry_ok es -> at_mem m p (concat (mp_enc <$> es) ++ ty :: rest) -> 0 <= p ->
  p + Z.of_nat (length (concat (mp_enc <$> es) ++ ty :: rest)) = e ->
  loop_ fuel (mp_turn m e) (p, ismp) (mk_platform (W hw pt km bc fs cn o) lap ioa id sh it tr vs) = Diverge.
Proof.
  intros Hty HW. induction fuel as [|fuel IH]; [done|]. intros es p ismp hw id Hok Hm Hp He. cbn [loop_].
  destruct es as [|en es].
  - cbn [fmap list_fmap concat app] in *. pose proof (Hm 0%nat _ eq_refl) as E0. rewrite Z.add_0_r in E0.
    rewrite (bind_ok _ _ _ (inl (p, false)) (mk_platform (W hw pt km bc fs cn o) lap ioa id sh it tr vs)); [by apply (IH [])|].
    unfold mp_turn. rewrite (proj2 (Z.ltb_lt p e)) by (cbn [length] in He; lia). cbn [negb]. rewrite E0.
    repeat (apply not_elem_of_cons in Hty as [?%Z.eqb_neq Hty]). rewrite H, H0, H1, H2, H3. done.
  - apply Forall_cons in Hok as [Hen Hok]. cbn [fmap list_fmap concat] in *. rewrite <- app_assoc in *.
    rewrite (bind_ok _ _ _ _ _ (mp_turn_ok m e p ismp en _ hw pt km bc fs cn o lap ioa id sh it tr vs Hen Hm Hp He HW)).
    apply at_mem_app in Hm as [_ Hm]. apply (IH es); [done|done|lia|]. rewrite length_app in He. lia.
Qed.

(** C40: When the table holds an entry of a kind the kernel does not know,
    [mpinit] never returns and never panics: the [break] of the default case
    leaves the [switch] and not the loop, which runs on at the same entry
    whatever the number of turns. *)
Theorem mpinit_unknown_hangs hw pt km bc fs cn o lap ioa id sh it tr vs mp conf es ty rest fuel :
  ty ∉ [MPPROC; MPBUS; MPIOAPIC; MPIOINTR; MPLINTR] ->
  mp_table (km_mem km) mp conf (concat (mp_enc <$> es) ++ ty :: rest) -> Forall mp_entry_ok es ->
  mpinit_fuel fuel (mk_platform (W hw pt km bc fs cn o) lap ioa id sh it tr vs) = Diverge.
Proof.
  intros Hty [Hc Hl Hs [Hf1 Hf2] Hb] Hok. unfold mpinit_fuel.
  rewrite (bind_ok _ _ _ (km_mem km) (mk_platform (W hw pt km bc fs cn o) lap ioa id sh it tr vs)) by reflexivity.
  rewrite Hc, bind_upd. unfold set_pf_lapic. cbn [pf_world pf_ioapic pf_ioapicid pf_trace pf_in].
  unfold bind at 1. rewrite Hl, Z.add_assoc. unfold sizeof_mpconf in *. rewrite !u32_small by lia.
  rewrite (mp_hangs _ _ pt km bc fs cn o _ ioa sh it tr vs ty rest fuel Hty Hf2 es); [done|done|done|lia|lia].
Qed.

(** ** The keyboard and the end of an interrupt *)

Lemma lapiceoi_ok s v vs : pf_lapic s <> 0 -> pf_in s = v :: vs ->
  lapiceoi s = Ok tt (mk_platform (pf_world s) (pf_lapic s) (pf_ioapic s) (pf_ioapicid s) (pf_shift s) (pf_idt s)
    (Rd (pf_lapic s + 4 * ID) v :: Wr (pf_lapic s + 4 * EOI) 0 :: pf_trace s) vs).
Proof.
  intros Hl Hin. unfold lapiceoi. rewrite bind_gets. rewrite (proj2 (Z.eqb_neq _ _) Hl). cbn [negb].
  unfold lapicw, lapicr, wr, rd, event, answer, bind, gets, ret. cbn [pf_in pf_lapic]. by rewrite Hin.
Qed.

(** What the controller answers while it has the scan codes [codes]: its
    status with the data bit set, then the code. *)
Definition kbd_answers (codes : list Z) : list Z := concat ((fun d => [KBS_DIB; d]) <$> codes).

Lemma length_kbd_answers codes : length (kbd_answers codes) = (2 * length codes)%nat.
Proof. induction codes as [|d codes IH]; [done|]. cbn [length kbd_answers fmap list_fmap concat app] in *. unfold kbd_answers in IH. lia. Qed.

Lemma kbd_getc_ok w lap ioa id sh it tr d rest :
  let '(sh', c) := Kbd.kbdgetc sh KBS_DIB d in
  kbd_getc (mk_platform w lap ioa id sh it tr (KBS_DIB :: d :: rest)) =
    Ok c (mk_platform w lap ioa id sh' it (In KBDATAP d :: In KBSTATP KBS_DIB :: tr) rest).
Proof.
  destruct (Kbd.kbdgetc sh KBS_DIB d) as [sh1 c] eqn:Eg. unfold kbd_getc.
  rewrite (bind_ok _ _ _ KBS_DIB (mk_platform w lap ioa id sh it (In KBSTATP KBS_DIB :: tr) (d :: rest))) by reflexivity.
  change (Z.land KBS_DIB KBS_DIB =? 0) with false. cbv iota.
  rewrite (bind_ok _ _ _ d (mk_platform w lap ioa id sh it (In KBDATAP d :: In KBSTATP KBS_DIB :: tr) rest)) by reflexivity.
  rewrite bind_gets. cbn [pf_shift]. rewrite Eg. done.
Qed.

Lemma kern_ok {A} (m : K A) s a w : m (pf_world s) = Ok a w -> kern m s = Ok a (set_pf_world w s).
Proof. intros E. unfold kern. by rewrite E. Qed.

(** The reads of these codes, the last one first. *)
Definition kbd_reads (codes : list Z) : list io :=
  In KBSTATP 0 :: concat ((fun d => [In KBDATAP d; In KBSTATP KBS_DIB]) <$> reverse codes).

Lemma kbd_reads_cons d codes tr :
  kbd_reads codes ++ In KBDATAP d :: In KBSTATP KBS_DIB :: tr = kbd_reads (d :: codes) ++ tr.
Proof. unfold kbd_reads. by rewrite reverse_cons, fmap_app, concat_app, <- !app_comm_cons, <- app_assoc. Qed.

(** The loop of the handler types the translated characters. *)
Lemma kbd_loop_ok vs codes : forall fuel w lap ioa id sh it tr d r w',
  0 <= sh < 128 -> Forall (fun d => 0 <= d < 256) codes -> (length codes < fuel)%nat ->
  type_all (snd (Kbd.kbdchars sh codes)) d w = Ok r w' ->
  consoleintr_loop kbd_getc fuel d (mk_platform w lap ioa id sh it tr (kbd_answers codes ++ 0 :: vs)) =
    Ok r (mk_platform w' lap ioa id (fst (Kbd.kbdchars sh codes)) it (kbd_reads codes ++ tr) vs).
Proof.
  induction codes as [|x codes IH]; intros [|fuel] w lap ioa id sh it tr d r w' Hsh Hc Hf E; cbn [length] in Hf; try lia.
  { injection E as <- <-. reflexivity. }
  apply Forall_cons in Hc as [Hx Hc]. destruct (kbdgetc_ok sh x Hsh Hx) as (K1 & K2).
  pose proof (kbd_getc_ok w lap ioa id sh it tr x (kbd_answers codes ++ 0 :: vs)) as G. unfold KBS_DIB in G at 1.
  cbn [Kbd.kbdchars] in *. destruct (Kbd.kbdgetc sh 1 x) as [sh1 c]. cbn [fst snd] in K1, K2.
  specialize (IH fuel). destruct (Kbd.kbdchars sh1 codes) as [sh2 cs] eqn:Ek. cbn [fst snd type_all] in *.
  unfold bind in E. destruct (consoleintr1 c w) as [d1 w1| | | |] eqn:E1; try done. cbn [consoleintr_loop]. change (kbd_answers (x :: codes) ++ 0 :: vs) with (KBS_DIB :: x :: kbd_answers codes ++ 0 :: vs).
  rewrite (bind_ok _ _ _ _ _ G), (proj2 (Z.ltb_ge _ _)) by lia.
  erewrite bind_ok by (apply kern_ok; exact E1).
  specialize (IH w1 lap ioa id sh1 it (In KBDATAP x :: In KBSTATP KBS_DIB :: tr) (d || d1) r w' K1 Hc ltac:(lia)).
  rewrite Ek in IH. specialize (IH E). rewrite kbd_reads_cons in IH. exact IH.
Qed.

(** The keyboard's interrupt: [out] is the echo of the characters, followed by
    the listing of the processes when one of them is a control-P. *)
Lemma kbdintr_ok hw i c pt km bc fs cn o t lap ioa id sh it tr codes vs :
  here hw i c -> lock_free hw LCons -> lock_free hw LPtable -> procs_ok pt ->
  tty_rep cn t -> screen_ok cn -> 0 <= sh < 128 -> Forall (fun d => 0 <= d < 256) codes ->
  let cs := snd (Kbd.kbdchars sh codes) in
  let '(t', out, e) := types cs t in
  exists cn', kbdintr (mk_platform (W hw pt km bc fs cn o) lap ioa id sh it tr (kbd_answers codes ++ 0 :: vs)) =
      Ok tt (mk_platform (W (touch i hw) (woken_if e pt) km bc fs cn' o) lap ioa id (fst (Kbd.kbdchars sh codes)) it
        (kbd_reads codes ++ tr) vs) /\
    tty_rep cn' t' /\ screen_ok cn' /\
    cn_out cn' = cn_out cn ++ if cn_uart cn then
      concat (echo <$> out ++ if bool_decide (ctl 80 ∈ cs) then listing (km_mem km) (pt_proc (woken_if e pt)) else [])
      else [].
Proof.
  intros Hh Hl Hpt Hp Ht Hs Hsh Hc. cbv zeta. destruct (kbdchars_ok codes sh Hsh Hc) as [K1 K2].
  pose proof (types_ok km bc fs o hw i c Hh Hl Hpt _ pt cn t false Hp Ht Hs K2) as H.
  destruct (types _ t) as [[t' out] e]. destruct H as (cn1 & E & [N1 N2 N3 N4] & F). cbn [orb] in E.
  assert (forall d cn', kern (if d : bool then procdump else ret tt) (mk_platform (W (touch i hw) (woken_if e pt) km bc fs cn1 o) lap ioa id (fst (Kbd.kbdchars sh codes)) it
        (kbd_reads codes ++ tr) vs) = Ok tt cn' -> d = bool_decide (ctl 80 ∈ snd (Kbd.kbdchars sh codes)) ->
    kbdintr (mk_platform (W hw pt km bc fs cn o) lap ioa id sh it tr (kbd_answers codes ++ 0 :: vs)) = Ok tt cn') as Hrun.
  { intros d s' E' ->. unfold kbdintr, consoleintr. cbn [pf_in].
    erewrite bind_ok by (apply kern_ok, (acquire_ok _ _ _ _ _ _ _ _ _ _ Hh); apply Hl). unfold set_pf_world at 1; cbn [pf_lapic pf_ioapic pf_ioapicid pf_shift pf_idt pf_trace pf_in].
    erewrite bind_ok by (apply kbd_loop_ok; [done..| |exact E]; rewrite length_app, length_kbd_answers; cbn [length]; lia).
    erewrite bind_ok by (apply kern_ok; cbn [pf_world]; erewrite release_acquired by (exact Hh || apply Hl); reflexivity). by destruct (bool_decide _). }
  destruct (bool_decide _).
  - destruct (prints_procdump (woken_if e pt) km bc fs o (touch i hw) i (touched hw c) (here_touch _ _ _ Hh)) with (cn := cn1) as (cn2 & E2 & S2);
      [done|apply touch_touch|by apply woken_procs|done|].
    exists cn2. split; [apply (Hrun true); [|done]; apply kern_ok, E2|]. split; [|split; [apply S2|]].
    + split; [by eapply ring_shown|done].
    + rewrite (sh_out _ _ _ S2), N4, N3, fmap_app, concat_app, <- app_assoc. by destruct (cn_uart cn).
  - exists cn1. split; [by apply (Hrun false)|]. split; [done|]. split; [done|]. by rewrite app_nil_r.
Qed.

(** ** The properties at work *)

(** Before [mpinit] no processor is known. *)
Definition hw_cold : hwstate := set_hw_ncpu 0 hw0.
Definition pf_ex (km : kmstate) (vs : list Z) : platform := mk_platform (W hw_cold pt0 km bc0 fs0 cn0 []) 0 0 0 0 [] [] vs.

(** A controller with 24 entries, of which line 1 goes to processor 0. *)
Lemma ioapic_routes_witness :
  exists s', (ioapicinit ;; ioapicenable 1 0) (pf_ex km0 [0x170011; 0]) = Ok tt s' /\
    forall i, 0 <= i <= 23 -> ioapic_reg (fun _ => 0) s' (REG_TABLE + 2 * i) = if decide (i = 1) then 33 else masked i.
Proof.
  destruct (ioapic_routes (fun _ => 0) (pf_ex km0 [0x170011; 0]) 0x170011 0 [] 1 0 eq_refl eq_refl
    ltac:(split; [lia|by vm_compute]) ltac:(lia)) as (s' & E & _ & _ & H).
  exists s'. split; [exact E|]. intros i Hi. pose proof (f_equal fst (H i Hi)) as H'. cbn [fst] in H'. rewrite H'.
  by destruct (decide (i = 1)).
Defined.

(** 23:59:59 on the last day of 2019, read after one turn that met an update:
    the clock counts in binary-coded decimal. *)
Definition date_ex : rtcdate := mk_rtcdate 59 59 23 31 12 19.
Lemma cmostime_reads_witness :
  exists s', cmostime (pf_ex km0 (0 :: concat [date_fields date_ex ++ [CMOS_UIP]] ++
      [0x59; 0x59; 0x23; 0x31; 0x12; 0x19] ++ 0 :: [0x59; 0x59; 0x23; 0x31; 0x12; 0x19] ++ [])) =
    Ok (mk_rtcdate 59 59 23 31 12 2019) s'.
Proof.
  destruct (cmostime_reads (pf_ex km0 (0 :: concat [date_fields date_ex ++ [CMOS_UIP]] ++
      [0x59; 0x59; 0x23; 0x31; 0x12; 0x19] ++ 0 :: [0x59; 0x59; 0x23; 0x31; 0x12; 0x19] ++ []))
    0 [date_fields date_ex ++ [CMOS_UIP]] date_ex 0 []
    ltac:(apply Forall_singleton; left; by exists date_ex, CMOS_UIP) eq_refl
    ltac:(unfold date_fields, date_ex; cbn; repeat (apply Forall_cons; split; [lia|]); done) eq_refl) as (s' & E & _).
  exists s'. exact E.
Defined.

(** Two processors, an I/O APIC and a bus; the table lies at [0xE0000] and the
    pointer to it at [0xF0000]. *)
Definition entries_ex : list mp_entry :=
  [EProc 0 (replicate 18 0); EOther MPBUS (replicate 7 0); EIoapic 2 (replicate 6 0); EProc 3 (replicate 18 0)].
Definition mp_ex : list Z := [95; 77; 80; 95; 0; 0; 0x0E; 0; 1; 4; 146; 0; 0; 0; 0; 0].
(** A table with the bytes [bs], with the checksum that makes its sum zero. *)
Definition conf_ex (bs : list Z) : list Z :=
  let header c := [80; 67; 77; 80; 44 + Z.of_nat (length bs); 0; 4; c] ++ replicate 28 0 ++ [0; 0; 0xE0; 0xFE; 0; 0; 0; 0] in
  header (u8 (- foldr Z.add 0 (header 0 ++ bs))) ++ bs.
Definition mem_ex (bs : list Z) : mem := fun a =>
  if (P2V 0xF0000 <=? a) && (a <? P2V 0xF0010) then nth (Z.to_nat (a - P2V 0xF0000)) mp_ex 0 else
  if P2V 0xE0000 <=? a then nth (Z.to_nat (a - P2V 0xE0000)) (conf_ex bs) 0 else 0.

Lemma at_mem_check m p bs : (fun i => m (p + Z.of_nat i)) <$> seq 0 (length bs) = bs -> at_mem m p bs.
Proof.
  intros E i b Hi. rewrite <- E, list_lookup_fmap, fmap_Some in Hi. destruct Hi as (j & Hj & ->).
  by apply lookup_seq in Hj as [-> _].
Qed.

Lemma entries_ex_ok : Forall mp_entry_ok entries_ex.
Proof. repeat constructor. Qed.

Lemma mp_table_ex : mp_table (mem_ex (concat (mp_enc <$> entries_ex))) (P2V 0xF0000) (P2V 0xE0000) (concat (mp_enc <$> entries_ex)).
Proof. split; [by vm_compute..|by vm_compute|]. apply at_mem_check. by vm_compute. Qed.

Lemma mpinit_reads_witness :
  exists hw' tr' vs', mpinit (pf_ex (set_km_mem (mem_ex (concat (mp_enc <$> entries_ex))) km0) []) =
    Ok tt (mk_platform (W hw' pt0 (set_km_mem (mem_ex (concat (mp_enc <$> entries_ex))) km0) bc0 fs0 cn0 []) 0xFEE00000 0 2 0 [] tr' vs') /\
    hw_ncpu hw' = 2%nat /\ c_apicid <$> hw_cpus hw' !! 1%nat = Some 3.
Proof.
  destruct (mpinit_reads hw_cold pt0 (set_km_mem (mem_ex (concat (mp_enc <$> entries_ex))) km0) bc0 fs0 cn0 [] 0 0 0 0 [] [] []
    (P2V 0xF0000) (P2V 0xE0000) entries_ex mp_table_ex
    entries_ex_ok eq_refl eq_refl ltac:(left; by vm_compute))
    as (hw' & tr' & vs' & E & En & Ea).
  exists hw', tr', vs'. split; [exact E|]. split; [exact En|].
  destruct (Ea 1%nat 3 eq_refl ltac:(unfold NCPU; lia)) as (c & Hc & Hap). rewrite Hc. cbn. by rewrite Hap.
Defined.

Lemma mpinit_unknown_hangs_witness :
  mpinit (pf_ex (set_km_mem (mem_ex (concat (mp_enc <$> [EProc 0 (replicate 18 0)]) ++ [9; 0])) km0) []) = Diverge.
Proof.
  apply (mpinit_unknown_hangs hw_cold pt0 (set_km_mem (mem_ex (concat (mp_enc <$> [EProc 0 (replicate 18 0)]) ++ [9; 0])) km0) bc0 fs0 cn0 [] 0 0 0 0 [] [] []
    (P2V 0xF0000) (P2V 0xE0000) [EProc 0 (replicate 18 0)] 9 [0] (Z.to_nat 8193)).
  - apply (bool_decide_unpack _). by vm_compute.
  - split; [by vm_compute..|by vm_compute|]. apply at_mem_check. by vm_compute.
  - by repeat constructor.
Defined.
