(* ===== verification/Fileio.v ===== *)
(** * Reading and writing files, through the log to the disk

    [begin_op] and [end_op] of [log.c], [ilock] and [iunlock] of [fs.c] on the
    view of the blocks, and on top of them [fileread] and [filewrite] of
    [file.c]: what a write leaves on disk, also when the machine stops on the
    way. *)

From stdpp Require Import prelude list gmap strings.
From Stdlib Require Import ZArith Lia.
From S2P Require Import Prelude State Boot Spinlock Str Kalloc Cprintf Vm Sched Sleeplock Bio Log Fs Fsview Content File Console.
#[local] Open Scope c_scope.

Section Fileio.
Context (km : kmstate) (cn : cnstate) (o : list (kstate -> kstate)).
Context (hw : hwstate) (i p : nat) (pid st size : Z).
Context `{CD : ConsoleDev}.
#[local] Existing Instance Memide.driver.
Implicit Types (fs : fsstate) (v : view) (w : world) (bl : list Z) (dsk : diskT) (hist : list diskT).
Abbreviation sees := (Fsview.sees km cn o hw i p pid st size).
Abbreviation home_eq := (Log.home_eq st size).

(** ** Operations *)

(** Between operations: nothing is held or logged, and the log on disk is
    empty. *)
Definition quiet dsk hist fs v w : Prop := sees dsk hist 0 fs [] [] v w /\ head_n (dget dsk st) = 0.

(** Then the disk has what the file system sees. *)
Lemma quiet_disk dsk hist fs v w b : quiet dsk hist fs v w -> home st size dsk b -> v b = Some (dget dsk b).
Proof.
  intros [(pt & bc & l & -> & Hop & Hv) _] [Hb _]. rewrite <- Hv, <- (io_disk _ _ _ _ _ _ _ _ _ _ _ _ _ _ Hop).
  eapply contents_idle; [apply (io_cache _ _ _ _ _ _ _ _ _ _ _ _ _ _ Hop)| |].
  - rewrite (io_dirty _ _ _ _ _ _ _ _ _ _ _ _ _ _ Hop). set_solver.
  - by rewrite (io_disk _ _ _ _ _ _ _ _ _ _ _ _ _ _ Hop).
Qed.

Lemma begin_op_v dsk hist fs v w Q :
  quiet dsk hist fs v w -> (forall w', sees dsk hist 1 fs [] [] v w' -> Q tt w') -> wp begin_op Q w.
Proof.
  intros [(pt & bc & l & -> & Hop & Hv) _] HQ.
  pose proof Hop as [O1 O2 O3 O4 O5 O6 O7 O8 O8b O9 O10 O11 O12 O13 O14]. pose proof O1 as [(c & Hh & _) Ht _ _ _].
  unfold wp. erewrite begin_op_admit; [|done|done|done|].
  - rewrite Ht. apply HQ. eexists pt, _, l. split; [done|]. split; [|exact Hv].
    split; try done; [by apply cache_log|by destruct O6; split|]. cbn. by rewrite O8.
  - unfold fits. rewrite (li_n _ _ _ _ O6), O8. done.
Qed.

(** What [end_op] makes of a state of the file system: the same blocks, now
    on the disk [dsk']; every disk on the way recovers to the one or the other. *)
Definition end_post dsk hist fs v (Q : unit -> world -> Prop) : Prop :=
  forall w' v' dsk' crash, quiet dsk' (crash ++ hist) fs v' w' -> length dsk' = length dsk ->
    (forall b, 0 <= b -> ~ in_log st size b -> v' b = v b) ->
    (forall d, d ∈ dsk' :: crash -> home_eq (recovered st d) dsk \/ home_eq (recovered st d) dsk') -> Q tt w'.

(** The part of [end_op] after the commit. *)
Lemma end_tail pt bc fs Q :
  calm hw pt i p pid -> lock_free hw LLog ->
  Q tt (W hw (wakeup_pt ChLog pt) km (set_bc_log (set_lg_committing 0 (bc_log bc)) bc) fs cn o) ->
  wp (acquire LLog ;; updlog (set_lg_committing 0) ;; wakeup ChLog ;; release LLog) Q (W hw pt km bc fs cn o).
Proof.
  intros Hm Hl HQ. pose proof Hm as [(c & Hh & _) Ht Hlk Hp _]. unfold wp.
  kcall acquire_ok by (done || apply Hl). unfold updlog. krun.
  erewrite bind_ok.
  2:{ eapply wakeup_eq; [by apply here_acquire|apply lock_free_other; [done|apply Hlk; right; by left]|done]. }
  erewrite touch_acquire by done. erewrite release_acquired by done. by rewrite Ht.
Qed.

(** [end_op] of the last operation begins: the log is marked and left alone. *)
Definition committing (bc : bcstate) : bcstate :=
  set_bc_log (set_lg_committing 1 (set_lg_outstanding 0 (bc_log bc))) bc.

Lemma end_start pt bc fs Q :
  calm hw pt i p pid -> lock_free hw LLog -> lg_outstanding (bc_log bc) = 1 -> lg_committing (bc_log bc) = 0 ->
  wp (commit ;; acquire LLog ;; updlog (set_lg_committing 0) ;; wakeup ChLog ;; release LLog) Q
    (W hw pt km (committing bc) fs cn o) ->
  wp end_op Q (W hw pt km bc fs cn o).
Proof.
  intros Hm Hl Ho Hc HQ. pose proof Hm as [(c & Hh & _) Ht Hlk Hp _]. unfold wp, end_op.
  kcall acquire_ok by (done || apply Hl). unfold getlog, updlog at 1. krun.
  change (id (?f ?x)) with (f x). cbn [bc_log set_bc_log lg_committing lg_outstanding set_lg_outstanding].
  rewrite Hc, Ho. change (1 - 1) with 0. cbn [Z.eqb negb]. unfold updlog at 1. krun.
  kcall release_acquired by done. rewrite Ht. exact HQ.
Qed.

(** The transaction of an operation. *)
Lemma sees_txn dsk hist pt bc l bl v :
  Fsview.in_op hw i p pid st size dsk hist 1 pt bc l [] bl -> (forall b, contents bc b = v b) ->
  txn (committing bc) st size bl ((fun b => default [] (v b)) <$> bl).
Proof.
  intros [O1 O2 O3 O4 O5 O6 O7 O8 O8b O9 O10 O11 O12 O13 O14] Hv.
  split; [by destruct O6; split|done|done|done|done|by rewrite length_fmap|].
  intros t b d Hb Hd. rewrite list_lookup_fmap, Hb in Hd. injection Hd as <-.
  change (contents (committing bc) b) with (contents bc b).
  assert (dirty bc b) as (j & Hj & _) by (apply O12; by eapply list_elem_of_lookup_2).
  rewrite <- Hv, (contents_cached _ _ _ _ _ _ _ O3 Hj). done.
Qed.

Lemma end_op_v dsk hist fs bl v w Q :
  sees dsk hist 1 fs [] bl v w -> head_n (dget dsk st) = 0 -> end_post dsk hist fs v Q -> wp end_op Q w.
Proof.
  intros (pt & bc & l & -> & Hop & Hv) Hhead HQ. pose proof (sees_txn _ _ _ _ _ _ _ Hop Hv) as Htx.
  pose proof Hop as [O1 O2 O3 O4 O5 O6 O7 O8 O8b O9 O10 O11 O12 O13 O14]. apply end_start; [done..|].
  pose proof O9 as Hfits. destruct O9 as [F1 F2 F3 F4]. apply wp_bind. destruct (decide (bl = [])) as [->|Hne].
  - unfold commit, wp at 1, getlog. krun. change (bc_log (committing bc)) with (set_lg_committing 1 (set_lg_outstanding 0 (bc_log bc))).
    cbn [lg_n set_lg_committing set_lg_outstanding]. rewrite (li_n _ _ _ _ O6). cbn [length Z.of_nat Z.ltb Z.compare].
    apply end_tail; [done|done|]. eapply (HQ _ v dsk []); [|done|done|].
    + split; [|done]. eexists _, _, l. split; [done|]. split; [|exact Hv].
      split; try done; [by apply calm_wakeup|by apply cache_log, cache_log|by destruct O6; split].
    + intros d [->|?%elem_of_nil]%elem_of_cons; [|done]. left. apply recovered_erased; [by rewrite <- O13|done].
  - destruct (commit_all km fs cn o hw i p pid pt (committing bc) l st size bl _ O1 (cache_log _ _ _ _ _ _ O3) Htx Hne)
      as (pt' & bc' & l' & E & Hm' & Hc' & El & Edl & Hf' & Hnd & Hct & Hhe & Hhd & crash & Eh & Hcr).
    { by change (bc_disk (committing bc)) with (bc_disk bc); rewrite O13. }
    change (bc_disk (committing bc)) with (bc_disk bc) in *. change (bc_hist (committing bc)) with (bc_hist bc) in *.
    rewrite O13 in *. unfold wp at 1. rewrite E. apply end_tail; [done|done|].
    eapply (HQ _ (contents bc') (bc_disk bc') crash); [|done| |].
    + split; [|done]. eexists _, _, l'. split; [done|]. split; [|done].
      split; try done; [by apply calm_wakeup|by apply cache_log|set_solver| | | | |constructor| |cbn; congruence].
      * destruct O6 as [L1 L2 L3 L4 L5 L6]. split; cbn; rewrite ?El, ?Edl, <- ?O13; done.
      * cbn. by rewrite El.
      * cbn. by rewrite El.
      * split; [constructor..|cbn; lia].
      * intros b. split; [intros Hd; by destruct (Hnd b)|set_solver].
    + intros b H1 H2. rewrite (Hct b H1 H2). apply Hv.
    + intros d Hd. destruct (Hcr d Hd) as [?|Hr]; [by left|right]. intros b H1 H2. by rewrite Hr, Hhe.
Qed.

(** ** Inode locks *)

Definition ilocked (x : inode) : inode := set_i_lock (mk_sleeplock 1 (sl_name (i_lock x)) pid) x.
Definition iunlocked (x : inode) : inode := set_i_lock (mk_sleeplock 0 (sl_name (i_lock x)) 0) x.

Section Lock.
Context (dsk : diskT) (hist : list diskT) (nops : Z) (fs : fsstate) (H : list (nat * Z)) (bl : list Z) (v : view).
Context (ip : nat) (x : inode) (Hx : fs_inode fs !! ip = Some x) (Hlk : lock_free hw (LInode ip)).

Lemma acquiresleep_v w Q :
  sees dsk hist nops fs H bl v w -> sl_locked (i_lock x) = 0 ->
  (forall w', sees dsk hist nops (iset ip ilocked fs) H bl v w' -> Q tt w') -> wp (acquiresleep (LInode ip)) Q w.
Proof.
  intros (pt & bc & l & -> & Hop & Hv) Hf HQ. pose proof (io_calm _ _ _ _ _ _ _ _ _ _ _ _ _ _ Hop) as Hm.
  pose proof Hm as [(c & Hh & _) Ht _ _ _]. unfold wp, acquiresleep. kcall acquire_ok by (done || apply Hlk).
  erewrite bind_ok.
  2:{ unfold wait_loop. cbn [loop_]. unfold getsleep. krun. kcall geti_ok by exact Hx. krun. by rewrite Hf. }
  unfold updsleep, updi. krun. kcall calm_mypid by done. krun. erewrite release_acquired by done. rewrite Ht.
  apply HQ. exists pt, bc, l. split; [|done]. f_equal. unfold iset. cbn. by rewrite list_alter_alter_eq.
Qed.

Lemma holdingsleep_v {A} w (k : bool -> K A) Q :
  sees dsk hist nops fs H bl v w ->
  wp (k (negb (sl_locked (i_lock x) =? 0) && (sl_pid (i_lock x) =? pid))) Q w ->
  wp (h <- holdingsleep (LInode ip) ;; k h) Q w.
Proof.
  intros (pt & bc & l & -> & Hop & Hv) HQ. pose proof (io_calm _ _ _ _ _ _ _ _ _ _ _ _ _ _ Hop) as Hm.
  pose proof Hm as [(c & Hh & _) Ht _ _ _]. apply wp_bind. unfold wp at 1, holdingsleep.
  kcall acquire_ok by (done || apply Hlk). unfold getsleep. krun. kcall geti_ok by exact Hx. krun.
  destruct (sl_locked (i_lock x) =? 0); krun.
  - kcall release_acquired by done. rewrite Ht. krun. exact HQ.
  - kcall calm_mypid by done. krun. kcall release_acquired by done. rewrite Ht. krun. exact HQ.
Qed.

Lemma releasesleep_v w Q :
  sees dsk hist nops fs H bl v w ->
  (forall w', sees dsk hist nops (iset ip iunlocked fs) H bl v w' -> Q tt w') -> wp (releasesleep (LInode ip)) Q w.
Proof.
  intros (pt & bc & l & -> & Hop & Hv) HQ. pose proof (io_calm _ _ _ _ _ _ _ _ _ _ _ _ _ _ Hop) as Hm.
  pose proof Hm as [(c & Hh & _) Ht Hl Hp _]. unfold wp, releasesleep. kcall acquire_ok by (done || apply Hlk).
  unfold updsleep, updi. krun. erewrite bind_ok.
  2:{ eapply wakeup_eq; [by apply here_acquire|apply lock_free_other; [done|apply Hl; right; by left]|done]. }
  erewrite touch_acquire by done. erewrite release_acquired by done. rewrite Ht. apply HQ.
  exists (wakeup_pt (ChSleep (LInode ip)) pt), bc, l.
  split; [unfold iset; cbn; by rewrite list_alter_alter_eq|]. split; [|done].
  destruct Hop. split; try done. by apply calm_wakeup.
Qed.

Lemma ilock_v w Q :
  sees dsk hist nops fs H bl v w -> 1 <= i_ref x -> i_valid x <> 0 -> sl_locked (i_lock x) = 0 ->
  (forall w', sees dsk hist nops (iset ip ilocked fs) H bl v w' -> Q tt w') -> wp (ilock (Some ip)) Q w.
Proof.
  intros Hs Hr Hva Hf HQ. unfold ilock. eapply geti_v; [exact Hs|exact Hx|].
  destruct (Z.ltb_spec (i_ref x) 1); [lia|]. apply wp_bind. eapply acquiresleep_v; [done..|].
  intros w1 H1. eapply geti_v; [exact H1|by apply iset_at|]. cbn [i_valid ilocked set_i_lock].
  destruct (Z.eqb_spec (i_valid x) 0); [done|]. apply wp_ret. by apply HQ.
Qed.

Lemma iunlock_v w Q :
  sees dsk hist nops fs H bl v w -> 1 <= i_ref x -> sl_locked (i_lock x) <> 0 -> sl_pid (i_lock x) = pid ->
  (forall w', sees dsk hist nops (iset ip iunlocked fs) H bl v w' -> Q tt w') -> wp (iunlock (Some ip)) Q w.
Proof.
  intros Hs Hr Hl Hpid HQ. unfold iunlock. eapply holdingsleep_v; [exact Hs|]. rewrite Hpid, Z.eqb_refl.
  destruct (Z.eqb_spec (sl_locked (i_lock x)) 0); [done|]. cbn [negb andb].
  eapply geti_v; [exact Hs|exact Hx|]. destruct (Z.ltb_spec (i_ref x) 1); [lia|]. by eapply releasesleep_v.
Qed.
End Lock.

(** ** Files on disk *)

Context (sb : superblock) (ds : Z) (Hds : 0 < ds).
Abbreviation file_ok := (Content.file_ok sb ds).

(** The contents of file [inum], as found on a disk. *)
Definition dview (d : diskT) : view := fun b => Some (dget d b).
Definition disk_file (d : diskT) (inum : Z) : list Z :=
  let x := dinode_at sb (dview d) inum zinode in file_bytes (dview d) (i_addrs x) 0 (i_size x).

(** A file in good order: its blocks are its own and cover its size, and its
    inode is on disk as it is in memory. *)
Record good dsk v x : Prop := {
  gd_layout : Fsview.layout st size dsk sb ds v;
  gd_file : file_ok v (i_addrs x);
  gd_filled : filled v x;
  gd_fields : fields_ok x;
  gd_table : itable_ok sb ds st size dsk v (i_inum x);
  gd_synced : synced sb v x;
}.
Definition bytes v x : list Z := file_bytes v (i_addrs x) 0 (i_size x).

Lemma home_length dsk dsk' b : length dsk' = length dsk -> home st size dsk b -> home st size dsk' b.
Proof. unfold home, in_disk. by intros ->. Qed.

(** Views that agree on the blocks outside the log. *)
Definition agree dsk v v' : Prop := forall b, home st size dsk b -> v' b = v b.

Section Agree.
Context (dsk dsk' : diskT) (v v' : view) (Hlen : length dsk' = length dsk) (HA : agree dsk v v').
Context (HL : Fsview.layout st size dsk sb ds v).

Lemma agree_bit b : 0 <= b < sb_size sb -> bit sb v' b = bit sb v b.
Proof. intros Hb. unfold bit. rewrite HA; [done|]. by destruct (ly_map _ _ _ _ _ _ HL b Hb). Qed.

Lemma agree_layout : Fsview.layout st size dsk' sb ds v'.
Proof.
  pose proof HL as [L1 L2 L3 L4]. split; [done| | |].
  - intros b Hb. destruct (L2 b Hb) as (Hh & Hd). rewrite HA by done. split; [by eapply home_length|done].
  - intros b Hb. destruct (L3 b Hb) as (Hh & Hd). rewrite HA by done. split; [by eapply home_length|done].
  - intros b Hb Hs. rewrite agree_bit by lia. by apply L4.
Qed.

Lemma agree_taken b : taken sb ds v' b <-> taken sb ds v b.
Proof. unfold taken. split; intros [Hr Hb]; (split; [done|]); [rewrite agree_bit in Hb by lia|rewrite agree_bit by lia]; done. Qed.

Lemma agree_at b : taken sb ds v b -> v' b = v b.
Proof. intros [Hb _]. apply HA. by apply (ly_data _ _ _ _ _ _ HL). Qed.

Lemma agree_addr addrs bn : file_ok v addrs -> addr_of v' addrs bn = addr_of v addrs bn.
Proof. intros HF. apply addr_ext. intros Hi. apply agree_at. by destruct (fk_ind _ _ _ _ HF). Qed.

Lemma agree_file addrs : file_ok v addrs -> file_ok v' addrs.
Proof.
  intros HF. pose proof HF as [F1 F2 F3 F4 F5].
  split; [done| |intros bn|intros bn bn'|intros bn]; rewrite ?agree_taken, ?agree_addr by done; auto.
Qed.

Lemma agree_supply addrs off len : file_ok v addrs -> supply sb v addrs off len -> supply sb v' addrs off len.
Proof.
  intros HF. unfold supply, lacks. rewrite (gaps_ext v addrs v') by (intros bn _; by apply agree_addr).
  rewrite (free_ext sb v v') by (apply agree_bit). done.
Qed.

Lemma agree_bytes x : file_ok v (i_addrs x) -> filled v x -> bytes v' x = bytes v x.
Proof.
  intros HF Hfill. unfold bytes, file_bytes. apply list_fmap_ext. intros j k Hk. apply lookup_seq in Hk as [-> Hk].
  unfold fbyte. rewrite agree_addr by done. rewrite agree_at; [done|].
  destruct (Hfill (0 + Z.of_nat j) ltac:(lia)) as [Hm Ha].
  destruct (fk_blk _ _ _ _ HF ((0 + Z.of_nat j) / BSIZE)) as [?|?]; [split; [apply Z.div_pos; [lia|done]|done]|done|done].
Qed.

Lemma agree_good x : good dsk v x -> good dsk' v' x.
Proof.
  intros [G1 G2 G3 G4 G5 G6]. split; [apply agree_layout|by apply agree_file| |done| |].
  - intros k Hk. rewrite agree_addr by done. by apply G3.
  - destruct G5 as [T1 T2 T3 (d & T4 & T5)]. split; [by eapply home_length|done|done|].
    exists d. by rewrite HA.
  - intros y. unfold dinode_at. rewrite HA by apply G5. apply G6.
Qed.
End Agree.

(** A good file is read off the disk. *)
Lemma disk_file_good dsk v x d :
  good dsk v x -> (forall b, home st size dsk b -> v b = Some (dget d b)) -> disk_file d (i_inum x) = bytes v x.
Proof.
  intros Hg Hd. assert (agree dsk v (dview d)) as HA by (intros b Hb; by rewrite Hd).
  pose proof (agree_good dsk dsk v (dview d) eq_refl HA (gd_layout _ _ _ Hg) x Hg) as Hg'.
  unfold disk_file. rewrite (gd_synced _ _ _ Hg'). cbn [with_fields i_addrs i_size].
  rewrite <- (agree_bytes dsk dsk v (dview d) eq_refl HA (gd_layout _ _ _ Hg) x); [done|apply Hg|apply Hg].
Qed.
(** ** One write *)

(** The bytes [old] with [src] written over them at [off]. *)
Definition overlay (off : Z) (src old : list Z) : list Z :=
  take (Z.to_nat off) old ++ src ++ drop (Z.to_nat off + length src) old.

Lemma overlay_app off s1 s2 old : 0 <= off <= Z.of_nat (length old) ->
  overlay (off + Z.of_nat (length s1)) s2 (overlay off s1 old) = overlay off (s1 ++ s2) old.
Proof.
  intros Ho. unfold overlay. rewrite Z2Nat.inj_add, Nat2Z.id by lia. set (a := Z.to_nat off).
  assert (length (take a old) = a) as Ha by (rewrite length_take; unfold a; lia).
  rewrite (app_assoc (take a old)). rewrite take_app_length' by (rewrite length_app; lia).
  rewrite drop_app_ge by (rewrite length_app; lia). rewrite drop_drop, !length_app, Ha, <- !app_assoc.
  do 4 f_equal. lia.
Qed.

Lemma length_bytes v x : 0 <= i_size x -> Z.of_nat (length (bytes v x)) = i_size x.
Proof. intros Hx. unfold bytes, file_bytes. rewrite length_fmap, length_seq. lia. Qed.

Lemma lookup_bytes v x k : Z.of_nat k < i_size x -> bytes v x !! k = Some (fbyte v (i_addrs x) (Z.of_nat k)).
Proof. intros Hk. unfold bytes, file_bytes. rewrite list_lookup_fmap, lookup_seq_lt by lia. done. Qed.

Abbreviation written := (Content.written sb ds st size).

Lemma written_overlay dsk v x off src v' x' :
  0 <= off <= i_size x -> written dsk v x off src v' x' -> bytes v' x' = overlay off src (bytes v x).
Proof.
  intros Ho HW. pose proof (wn_size _ _ _ _ _ _ _ _ _ _ _ HW) as Hsz. pose proof (length_bytes v x ltac:(lia)) as Hl.
  apply list_eq. intros k. destruct (decide (Z.of_nat k < i_size x')) as [Hk|Hk].
  - rewrite lookup_bytes, (wn_bytes _ _ _ _ _ _ _ _ _ _ _ HW) by lia. unfold overlay.
    assert (length (take (Z.to_nat off) (bytes v x)) = Z.to_nat off) as Ha by (rewrite length_take; lia).
    destruct (decide (Z.of_nat k < off)) as [H1|H1].
    { rewrite decide_False, lookup_app_l, lookup_take_lt, lookup_bytes by lia. done. }
    rewrite lookup_app_r, Ha by lia. destruct (decide _) as [H2|H2].
    + rewrite lookup_app_l, from_lookup by lia. do 2 f_equal. lia.
    + rewrite lookup_app_r, lookup_drop, lookup_bytes by lia. do 2 f_equal. lia.
  - rewrite lookup_ge_None_2, lookup_ge_None_2; [done| |pose proof (length_bytes v' x'); lia].
    unfold overlay. rewrite !length_app, length_take, length_drop. lia.
Qed.

Lemma written_good dsk v x off src v' x' : written dsk v x off src v' x' -> good dsk v' x'.
Proof. intros []. by split. Qed.

(** Two files that share neither a block nor a slot of the inode table. *)
Definition slot (x : inode) : Z * nat := (IBLOCK (i_inum x) sb, dinode_off (i_inum x)).
Definition apart v x x2 : Prop :=
  slot x2 <> slot x /\ forall b, owned v (i_addrs x2) b -> ~ owned v (i_addrs x) b.

Section Other.
Context (dsk : diskT) (v v' : view) (x x' x2 : inode) (off : Z) (src : list Z).
Context (HW : written dsk v x off src v' x') (Hg : good dsk v x2) (Hap : apart v x x2).

Lemma other_taken b : owned v (i_addrs x2) b -> taken sb ds v b.
Proof.
  intros (Hb & [->|(bn & Hbn & ->)]); [by destruct (fk_ind _ _ _ _ (gd_file _ _ _ Hg))|].
  by destruct (fk_blk _ _ _ _ (gd_file _ _ _ Hg) bn Hbn).
Qed.

Lemma other_at b : owned v (i_addrs x2) b -> v' b = v b.
Proof.
  intros Hb. apply (wn_blocks _ _ _ _ _ _ _ _ _ _ _ HW); [by apply other_taken|]. by apply Hap.
Qed.

Lemma other_addr bn : addr_of v' (i_addrs x2) bn = addr_of v (i_addrs x2) bn.
Proof. apply addr_ext. intros Hi. apply other_at. split; [done|by left]. Qed.

Lemma other_good : good dsk v' x2.
Proof.
  pose proof Hg as [G1 G2 G3 G4 G5 G6]. pose proof HW as [W1 W2 W3 W4 W5 W6 W7 W8 W9 W10 W11 W12 W13 _].
  assert (forall b, taken sb ds v b -> taken sb ds v' b) as Ht by (intros b Hb; by apply W10).
  assert (i_inum x' = i_inum x) as Ei by (by rewrite W2).
  split; [done| | |done| |].
  - pose proof G2 as [F1 F2 F3 F4 F5].
    split; [done|destruct F2; auto|intros bn Hbn|intros bn bn'|intros bn]; rewrite ?other_addr; auto.
    destruct (F3 bn Hbn); auto.
  - intros k Hk. rewrite other_addr. by apply G3.
  - destruct G5 as [T1 T2 T3 T4]. split; [done..|].
    destruct (decide (IBLOCK (i_inum x2) sb = IBLOCK (i_inum x) sb)) as [E|E].
    + rewrite E, <- Ei. apply W7.
    + rewrite W12 by auto. done.
  - intros y. rewrite W13; [apply G6|]. destruct Hap as [Hs _]. unfold slot in Hs.
    destruct (decide (IBLOCK (i_inum x2) sb = IBLOCK (i_inum x) sb)) as [E|E]; [right|left].
    + split; [done|]. congruence.
    + split; [done|]. split; apply G5.
Qed.

Lemma other_byte k : 0 <= k -> k / BSIZE < MAXFILE -> addr_of v (i_addrs x2) (k / BSIZE) <> 0 ->
  fbyte v' (i_addrs x2) k = fbyte v (i_addrs x2) k.
Proof.
  intros Hk Hm Ha. unfold fbyte. rewrite other_addr. rewrite other_at; [done|]. split; [done|]. right.
  eexists. split; [|done]. split; [by apply Z.div_pos|done].
Qed.

Lemma other_bytes : bytes v' x2 = bytes v x2.
Proof.
  unfold bytes, file_bytes. apply list_fmap_ext. intros j k Hk. apply lookup_seq in Hk as [-> Hk].
  destruct (gd_filled _ _ _ Hg (0 + Z.of_nat j) ltac:(lia)) as [Hm Ha]. apply other_byte; done || lia.
Qed.

Lemma other_apart : apart v' x' x2.
Proof.
  pose proof (wn_inode _ _ _ _ _ _ _ _ _ _ _ HW) as E. destruct Hap as [Hs Hb]. split.
  - unfold slot in *. by rewrite E.
  - intros b [Hb0 Hb2]. assert (owned v (i_addrs x2) b) as Hb3.
    { split; [done|]. destruct Hb2 as [?|(bn & Hbn & ->)]; [by left|right]. exists bn. by rewrite other_addr. }
    intros [Ho|Hn]%(wn_owned _ _ _ _ _ _ _ _ _ _ _ HW); [by apply (Hb b)|]. by apply Hn, other_taken.
Qed.
End Other.

Lemma agree_apart dsk dsk' v v' x x2 :
  length dsk' = length dsk -> agree dsk v v' -> good dsk v x -> good dsk v x2 -> apart v x x2 -> apart v' x x2.
Proof.
  intros Hl HA [L F _ _ _ _] [_ F2 _ _ _ _] [Hs Hb]. split; [done|].
  assert (forall addrs b, file_ok v addrs -> owned v' addrs b -> owned v addrs b) as E.
  { intros addrs b HF [H0 H1]. split; [done|]. destruct H1 as [?|(bn & Hbn & ->)]; [by left|right].
    exists bn. split; [done|]. by eapply agree_addr. }
  intros b H1%E H2%E; [|done..]. by apply (Hb b).
Qed.

(** ** A transaction that writes *)

(** From one quiet state to a later one: [src] was written at [off] to the
    file [x], and no other file was touched. *)
Record moved dsk v x (off : Z) (src : list Z) dsk' v' x' : Prop := {
  mv_good : good dsk' v' x';
  mv_inum : i_inum x' = i_inum x;
  mv_size : i_size x' = Z.max (i_size x) (off + Z.of_nat (length src));
  mv_bytes : bytes v' x' = overlay off src (bytes v x);
  mv_other : forall x2, good dsk v x2 -> apart v x x2 -> good dsk' v' x2 /\ bytes v' x2 = bytes v x2 /\ apart v' x' x2;
}.

Lemma moved_written dsk v x off src v1 x' dsk' v' :
  0 <= off <= i_size x -> written dsk v x off src v1 x' -> length dsk' = length dsk -> agree dsk v1 v' ->
  moved dsk v x off src dsk' v' x'.
Proof.
  intros Ho HW Hl HA. pose proof (written_good _ _ _ _ _ _ _ HW) as Hg. pose proof (gd_layout _ _ _ Hg) as HL.
  split; [by eapply agree_good|by rewrite (wn_inode _ _ _ _ _ _ _ _ _ _ _ HW)|apply HW| |].
  - rewrite (agree_bytes dsk dsk' v1 v' Hl HA HL x'); [by eapply written_overlay|apply Hg|apply Hg].
  - intros x2 Hg2 Hap. pose proof (other_good dsk v v1 x x' x2 off src HW Hg2 Hap) as Hg2'.
    split; [by eapply agree_good|]. split.
    + rewrite (agree_bytes dsk dsk' v1 v' Hl HA HL x2); [by eapply other_bytes|apply Hg2'|apply Hg2'].
    + apply (agree_apart dsk dsk' v1 v'); [done|done|done|done|]. by eapply other_apart.
Qed.

Lemma moved_app dsk v x off s1 dsk1 v1 x1 s2 dsk2 v2 x2 :
  0 <= off <= i_size x -> moved dsk v x off s1 dsk1 v1 x1 ->
  moved dsk1 v1 x1 (off + Z.of_nat (length s1)) s2 dsk2 v2 x2 -> moved dsk v x off (s1 ++ s2) dsk2 v2 x2.
Proof.
  intros Ho [A1 A2 A3 A4 A5] [B1 B2 B3 B4 B5]. split; [done|congruence|rewrite length_app; lia| |].
  - rewrite B4, A4. apply overlay_app. by rewrite length_bytes by lia.
  - intros y Hy Hap. destruct (A5 y Hy Hap) as (H1 & H2 & H3). destruct (B5 y H1 H3) as (H4 & H5 & H6).
    split; [done|]. split; [congruence|done].
Qed.

Lemma moved_nil dsk v x off : good dsk v x -> 0 <= off <= i_size x -> moved dsk v x off [] dsk v x.
Proof.
  intros Hg Ho. split; [done|done|cbn; lia| |done]. unfold overlay. cbn. by rewrite Nat.add_0_r, take_drop.
Qed.

(** The machine stopped with the disk [d]: after recovery the file is as after
    writing [src], and no other file has changed. *)
Definition survives dsk v x (off : Z) (src : list Z) (d : diskT) : Prop :=
  disk_file (recovered st d) (i_inum x) = overlay off src (bytes v x) /\
  forall x2, good dsk v x2 -> apart v x x2 -> disk_file (recovered st d) (i_inum x2) = bytes v x2.

Lemma moved_survives dsk v x off src dsk' v' x' d :
  moved dsk v x off src dsk' v' x' -> (forall b, home st size dsk' b -> v' b = Some (dget dsk' b)) ->
  home_eq (recovered st d) dsk' -> survives dsk v x off src d.
Proof.
  intros [A1 A2 A3 A4 A5] Hv Hd. assert (forall b, home st size dsk' b -> v' b = Some (dget (recovered st d) b)) as Hr.
  { intros b Hb. rewrite Hd; [by apply Hv|apply Hb|apply Hb]. }
  split; [rewrite <- A2, <- A4; by eapply disk_file_good|].
  intros x2 Hg2 Hap. destruct (A5 x2 Hg2 Hap) as (H1 & H2 & _). rewrite <- H2. by eapply disk_file_good.
Qed.

Lemma survives_app dsk v x off s1 dsk1 v1 x1 s2 d :
  0 <= off <= i_size x -> moved dsk v x off s1 dsk1 v1 x1 ->
  survives dsk1 v1 x1 (off + Z.of_nat (length s1)) s2 d -> survives dsk v x off (s1 ++ s2) d.
Proof.
  intros Ho [A1 A2 A3 A4 A5] [B1 B2]. split.
  - rewrite <- A2, B1, A4. apply overlay_app. by rewrite length_bytes by lia.
  - intros y Hy Hap. destruct (A5 y Hy Hap) as (H1 & <- & H3). by apply B2.
Qed.

(** ** [filewrite] *)

(** The file table with an entry changed. *)
Definition fset (f : nat) (g : file -> file) (fs : fsstate) : fsstate := set_fs_file (alter g f (fs_file fs)) fs.

Lemma fset_eq f g y fs : (forall x, fs_file fs !! f = Some x -> g x = y) -> fset f g fs = fset f (fun _ => y) fs.
Proof. intros E. unfold fset. f_equal. apply list_alter_ext; [|done]. intros x Hx. by apply E. Qed.

Lemma getf_v {B} dsk hist nops fs H bl v w f y (k : file -> K B) Q :
  sees dsk hist nops fs H bl v w -> fs_file fs !! f = Some y -> wp (k y) Q w -> wp (x <- getf f ;; k x) Q w.
Proof. intros (pt & bc & l & -> & _) Hx HQ. unfold wp. by erewrite bind_ok by (by apply getf_ok). Qed.

Lemma updf_v dsk hist nops fs H bl v w f g Q :
  sees dsk hist nops fs H bl v w -> (forall w', sees dsk hist nops (fset f g fs) H bl v w' -> Q tt w') ->
  wp (updf f g) Q w.
Proof.
  intros (pt & bc & l & -> & Hop & Hv) HQ. unfold wp, updf. rewrite updfs_W. apply HQ. by exists pt, bc, l.
Qed.

(** Entry [f] of the file table is the inode [x], which nobody holds. *)
Record opened fs (f : nat) (y : file) (ip : nat) (x : inode) : Prop := {
  op_file : fs_file fs !! f = Some y;
  op_type : f_type y = FD_INODE;
  op_ip : f_ip y = Some ip;
  op_inode : fs_inode fs !! ip = Some x;
  op_dev : i_dev x = 1;
  op_kind : i_type x <> T_DEV;
  op_ref : 1 <= i_ref x;
  op_valid : i_valid x <> 0;
  op_unlocked : sl_locked (i_lock x) = 0;
  op_spin : lock_free hw (LInode ip);
  op_sb : fs_sb fs = sb;
}.

Lemma good_fields dsk v x x' :
  good dsk v x -> i_inum x' = i_inum x -> with_fields x' zinode = with_fields x zinode -> good dsk v x'.
Proof.
  intros [G1 G2 G3 G4 G5 G6] E1 E2. unfold with_fields in E2. cbn in E2. injection E2 as T1 T2 T3 T4 T5 T6.
  split; [done|by rewrite T6| | |by rewrite E1|].
  - unfold filled in *. by rewrite T5, T6.
  - destruct G4. by split; rewrite ?T1, ?T2, ?T3, ?T4, ?T5, ?T6.
  - intros y. rewrite E1, G6. unfold with_fields. by rewrite T1, T2, T3, T4, T5, T6.
Qed.

(** A write of at most [filewrite_max] bytes fits what [begin_op] reserved. *)
Lemma wcost_max off n : 0 <= off -> n <= filewrite_max -> wcost off n + 3 <= MAXOPBLOCKS.
Proof.
  intros Ho Hn. change filewrite_max with 1536 in Hn. change MAXOPBLOCKS with 10. unfold wcost, nblk, BSIZE.
  pose proof (Z.mod_pos_bound off 512 ltac:(lia)) as Hm.
  destruct (Z.leb_spec n 0); [destruct (Z.ltb_spec 0 n); [lia|]; cbn; lia|].
  destruct (Z.ltb_spec 0 n); [|lia]. cbn [andb]. destruct (Z.eqb_spec (off mod 512) 0) as [E|E]; cbn [negb].
  - rewrite E. assert ((0 + n + 512 - 1) / 512 < 4) by (apply Z.div_lt_upper_bound; lia). lia.
  - assert ((off mod 512 + n + 512 - 1) / 512 < 5) by (apply Z.div_lt_upper_bound; lia). lia.
Qed.

Lemma can_write_start dsk v x off n rest :
  11 <= size -> good dsk v x -> 0 <= off <= i_size x -> n <= filewrite_max -> supply sb v (i_addrs x) off (n + rest) ->
  can_write sb size v (i_addrs x) [] off n rest.
Proof.
  intros Hsz Hg Ho Hn Hsup. split; [|done|].
  - unfold icredit. rewrite decide_False by set_solver. pose proof (wcost_max off n ltac:(lia) Hn) as Hw.
    change MAXOPBLOCKS with 10 in Hw. cbn. lia.
  - intros Hp Hm. assert (0 < off) as Hpos.
    { destruct (Z.eq_dec off 0) as [->|]; [done|lia]. }
    destruct (gd_filled _ _ _ Hg (off - 1) ltac:(lia)) as [_ Ha].
    replace (off / BSIZE) with ((off - 1) / BSIZE); [done|]. unfold BSIZE in *. Z.div_mod_to_equations. lia.
Qed.

Definition filewrite_turn (f : nat) (src : list Z) (n i : Z) : K (Z + Z) :=
  if n <=? i then ret (inr i) else
  let n1 := n - i in
  let n1 := if filewrite_max <? n1 then filewrite_max else n1 in
  begin_op ;;
  x <- getf f ;;
  ilock (f_ip x) ;;
  x <- getf f ;;
  ip <- deref "writei" (f_ip x) ;;
  r <- writei ip (sub_ (Z.to_nat i) (Z.to_nat n1) src) (f_off x) ;;
  (if 0 <? r then updf f (fun x => set_f_off (u32 (f_off x + r)) x)
   else ret tt) ;;
  x <- getf f ;;
  iunlock (f_ip x) ;;
  end_op ;;
  if r <? 0 then ret (inr i) else
  if negb (r =? n1) then panic "short filewrite" else
  ret (inl (i + r)).

(** The state of the file system after [m] bytes were written. *)
Definition advanced fs (f : nat) (y : file) (ip : nat) (m : Z) (x' : inode) : fsstate :=
  iset ip (fun _ => x') (fset f (fun _ => set_f_off (f_off y + m) y) fs).

Lemma opened_advanced fs f y ip x m x' :
  opened fs f y ip x -> i_dev x' = 1 -> i_type x' = i_type x -> i_ref x' = i_ref x -> i_valid x' = i_valid x ->
  sl_locked (i_lock x') = 0 -> opened (advanced fs f y ip m x') f (set_f_off (f_off y + m) y) ip x'.
Proof.
  intros [P1 P2 P3 P4 P5 P6 P7 P8 P9 P10 P11] E1 E2 E3 E4 E5. split; try done; try congruence.
  - cbn. by rewrite list_lookup_alter_eq, P1.
  - cbn. by rewrite list_lookup_alter_eq, P4.
Qed.

Lemma advanced_twice fs f y ip m1 x1 m2 x2 :
  advanced (advanced fs f y ip m1 x1) f (set_f_off (f_off y + m1) y) ip m2 x2 = advanced fs f y ip (m1 + m2) x2.
Proof.
  unfold advanced, iset, fset. cbn. rewrite !list_alter_alter_eq. unfold set_f_off. cbn. by rewrite Z.add_assoc.
Qed.

(** What a transaction of [filewrite] leaves behind. *)
Definition turn_post dsk hist fs f y ip v x (src : list Z) (rest : Z) (Q : world -> Prop) : Prop :=
  forall w' dsk' crash v' x', let m := Z.of_nat (length src) in
    quiet dsk' (crash ++ hist) (advanced fs f y ip m x') v' w' ->
    opened (advanced fs f y ip m x') f (set_f_off (f_off y + m) y) ip x' ->
    moved dsk v x (f_off y) src dsk' v' x' -> supply sb v' (i_addrs x') (f_off y + m) rest ->
    (forall d, d ∈ dsk' :: crash -> survives dsk v x (f_off y) [] d \/ survives dsk v x (f_off y) src d) -> Q w'.

Lemma turn_done dsk hist fs f y ip v x src rest v3 x3 w w6 v6 dsk6 crash Q :
  let m := Z.of_nat (length src) in
  quiet dsk hist fs v w -> opened fs f y ip x -> good dsk v x -> 0 <= f_off y <= i_size x ->
  written dsk v (ilocked x) (f_off y) src v3 x3 -> supply sb v3 (i_addrs x3) (f_off y + m) rest ->
  quiet dsk6 (crash ++ hist)
    (iset ip iunlocked (fset f (fun _ => set_f_off (f_off y + m) y) (iset ip (fun _ => x3) fs))) v6 w6 ->
  length dsk6 = length dsk -> (forall b, 0 <= b -> ~ in_log st size b -> v6 b = v3 b) ->
  (forall d, d ∈ dsk6 :: crash -> home_eq (recovered st d) dsk \/ home_eq (recovered st d) dsk6) ->
  turn_post dsk hist fs f y ip v x src rest Q -> Q w6.
Proof.
  intros m Hq Hop Hg Ho HW Hsup Hq6 Hl6 Hv6 Hcr HQ. set (x6 := iunlocked x3).
  pose proof (wn_inode _ _ _ _ _ _ _ _ _ _ _ HW) as Ex3.
  assert (agree dsk v3 v6) as HA by (intros b (H1 & H2 & H3); apply Hv6; [apply H1|done]).
  pose proof (written_good _ _ _ _ _ _ _ HW) as Hg3.
  pose proof (moved_written dsk v (ilocked x) (f_off y) src v3 x3 dsk6 v6 Ho HW Hl6 HA) as Hmv.
  assert (moved dsk v x (f_off y) src dsk6 v6 x6) as Hmv'.
  { destruct Hmv as [M1 M2 M3 M4 M5]. split; [|done..]. by eapply good_fields. }
  assert (iset ip iunlocked (fset f (fun _ => set_f_off (f_off y + m) y) (iset ip (fun _ => x3) fs)) =
    advanced fs f y ip m x6) as Ef.
  { unfold advanced, iset, fset. cbn. by rewrite list_alter_alter_eq. }
  rewrite Ef in Hq6. eapply (HQ w6 dsk6 crash v6 x6); [exact Hq6| |exact Hmv'| |].
  - eapply opened_advanced; [exact Hop|unfold x6; rewrite Ex3; try apply Hop; done..].
  - change (i_addrs x6) with (i_addrs x3).
    eapply (agree_supply dsk v3 v6); [exact HA|apply Hg3|apply Hg3|exact Hsup].
  - intros d [Hd|Hd]%Hcr.
    + left. eapply moved_survives; [by apply moved_nil| |exact Hd]. intros b Hb. by eapply quiet_disk.
    + right. eapply moved_survives; [exact Hmv'| |exact Hd]. intros b Hb. by eapply quiet_disk.
Qed.

Lemma filewrite_turn_v dsk hist fs f y ip v x src i0 w Q :
  let n := Z.of_nat (length src) in
  let n1 := Z.min (n - i0) filewrite_max in
  let bs := sub_ (Z.to_nat i0) (Z.to_nat n1) src in
  let rest := n - i0 - n1 in
  11 <= size -> quiet dsk hist fs v w -> opened fs f y ip x -> good dsk v x ->
  0 <= f_off y <= i_size x -> 0 <= i0 < n -> f_off y + (n - i0) <= MAXFILE * BSIZE ->
  supply sb v (i_addrs x) (f_off y) (n - i0) ->
  turn_post dsk hist fs f y ip v x bs rest (Q (inl (i0 + n1))) ->
  wp (filewrite_turn f src n i0) Q w.
Proof.
  intros n n1 bs rest Hsize Hq Hop Hg Ho Hi Hmax Hsup HQ. pose proof Hop as [P1 P2 P3 P4 P5 P6 P7 P8 P9 P10 P11].
  assert (0 < n1 <= filewrite_max /\ n1 <= n - i0) as [Hn1 Hn1'] by (change filewrite_max with 1536 in *; lia).
  assert (Z.of_nat (length bs) = n1) as Hbs.
  { unfold bs, sub_. rewrite length_take, length_drop. lia. }
  unfold filewrite_turn. destruct (Z.leb_spec n i0); [lia|].
  replace (if filewrite_max <? n - i0 then filewrite_max else n - i0) with n1
    by (unfold n1; destruct (Z.ltb_spec filewrite_max (n - i0)); lia).
  cbn zeta. apply wp_bind. eapply begin_op_v; [exact Hq|]. intros w1 H1. eapply getf_v; [exact H1|exact P1|].
  rewrite P3. apply wp_bind. eapply (ilock_v _ _ _ _ _ _ _ _ x); [exact P4|exact P10|exact H1|done..|].
  intros w2 H2. eapply getf_v; [exact H2|exact P1|]. rewrite P3. cbn [deref].
  apply wp_bind, wp_ret, wp_bind. fold bs.
  pose proof (iset_at ip ilocked x fs P4) as Hx1.
  pose proof (good_fields dsk v x (ilocked x) Hg eq_refl eq_refl) as [G1 G2 G3 G4 G5 G6].
  assert (n - i0 = n1 + rest) as Esum by (unfold rest; lia). rewrite Esum in *.
  eapply (writei_v sb ds Hds st size dsk km cn o hw i p pid hist 1 (Z.le_refl 1) _ [] v w2 ip (ilocked x) (f_off y) bs rest);
    [exact H2|exact Hx1|done..|lia|by rewrite Hbs|rewrite Hbs; apply (can_write_start dsk v x); done || lia|].
  rewrite Hbs. intros w3 v3 x3 bl3 H3 HW Hsup3. rewrite iset_iset in H3.
  pose proof (wn_inode _ _ _ _ _ _ _ _ _ _ _ HW) as Ex3.
  apply wp_bind. destruct (Z.ltb_spec 0 n1); [|lia]. eapply updf_v; [exact H3|]. intros w4 H4.
  set (y' := set_f_off (f_off y + n1) y).
  assert (u32 (f_off y + n1) = f_off y + n1) as Eu.
  { apply Z.mod_small. change (MAXFILE * BSIZE) with 71680 in Hmax. unfold W32. lia. }
  rewrite (fset_eq f _ y') in H4 by (intros y0 Hy0; cbn in Hy0; unfold y'; rewrite P1 in Hy0; injection Hy0 as <-; by rewrite Eu).
  eapply (getf_v _ _ _ _ _ _ _ _ f y'); [exact H4|cbn; by rewrite list_lookup_alter_eq, P1|].
  change (f_ip y') with (f_ip y). rewrite P3. apply wp_bind.
  eapply (iunlock_v _ _ _ _ _ _ _ ip x3); [| |exact H4|by rewrite Ex3..|];
    [cbn; by rewrite list_lookup_alter_eq, P4|exact P10|].
  intros w5 H5. apply wp_bind. eapply end_op_v; [exact H5|apply Hq|].
  intros w6 v6 dsk6 crash Hq6 Hl6 Hv6 Hcr. destruct (Z.ltb_spec n1 0); [lia|]. rewrite Z.eqb_refl. cbn [negb]. apply wp_ret.
  eapply (turn_done dsk hist fs f y ip v x bs rest v3 x3 w w6 v6 dsk6 crash (Q (inl (i0 + n1)))); rewrite ?Hbs; done.
Qed.

Definition wmax : nat := Z.to_nat filewrite_max.

(** What writing all of [src] leaves behind: the bytes are in the file, and
    every disk on the way recovers to the file with some of the chunks
    written. *)
Definition write_done dsk hist fs f y ip v x (src : list Z) (Q : world -> Prop) : Prop :=
  forall w' dsk' crash v' x', let m := Z.of_nat (length src) in
    quiet dsk' (crash ++ hist) (advanced fs f y ip m x') v' w' ->
    opened (advanced fs f y ip m x') f (set_f_off (f_off y + m) y) ip x' ->
    moved dsk v x (f_off y) src dsk' v' x' ->
    (forall d, d ∈ dsk' :: crash -> exists j, survives dsk v x (f_off y) (take (j * wmax) src) d) -> Q w'.

Lemma advanced_zero fs f y ip x : opened fs f y ip x -> advanced fs f y ip 0 x = fs.
Proof.
  intros [P1 _ _ P4 _ _ _ _ _ _ _]. unfold advanced, iset, fset. cbn.
  rewrite (list_alter_ext _ id _ (fs_inode fs)), (list_alter_ext _ id _ (fs_file fs)); try done.
  - rewrite !list_alter_id by done. by destruct fs.
  - intros z Hz. rewrite P1 in Hz. injection Hz as <-. rewrite Z.add_0_r. by destruct y.
  - intros z Hz. rewrite P4 in Hz. by injection Hz as <-.
Qed.

Lemma quiet_erased dsk hist fs v w : quiet dsk hist fs v w -> home_eq (recovered st dsk) dsk.
Proof.
  intros [(pt & bc & l & -> & Hop & _) Hh]. apply recovered_erased; [|done].
  rewrite <- (io_disk _ _ _ _ _ _ _ _ _ _ _ _ _ _ Hop). apply Hop.
Qed.

Lemma write_nothing dsk hist fs f y ip v x w Q :
  quiet dsk hist fs v w -> opened fs f y ip x -> good dsk v x -> 0 <= f_off y <= i_size x ->
  write_done dsk hist fs f y ip v x [] Q -> Q w.
Proof.
  intros Hq Hop Hg Ho HQ. pose proof (moved_nil dsk v x (f_off y) Hg Ho) as Hmv.
  assert (set_f_off (f_off y + 0) y = y) as Ey by (rewrite Z.add_0_r; by destruct y).
  pose proof (advanced_zero fs f y ip x Hop) as Ea.
  pose proof (HQ w dsk [] v x) as HQ'. cbn zeta in HQ'. cbn [length Z.of_nat app] in HQ'.
  change (Z.of_nat 0) with 0 in HQ'. rewrite Ea, Ey in HQ'.
  apply HQ'; [done..|].
  intros d [->|?%elem_of_nil]%elem_of_cons; [|done]. exists 0%nat. cbn.
  eapply moved_survives; [exact Hmv| |by eapply quiet_erased]. intros b Hb. by eapply quiet_disk.
Qed.

(** A chunk, then the rest. *)
Lemma write_more dsk hist fs f y ip v x s1 s2 dsk1 crash1 v1 x1 Q :
  let m := Z.of_nat (length s1) in
  length s1 = wmax \/ s2 = [] -> (length s1 <= wmax)%nat -> 0 <= f_off y <= i_size x ->
  moved dsk v x (f_off y) s1 dsk1 v1 x1 ->
  (forall d, d ∈ dsk1 :: crash1 -> survives dsk v x (f_off y) [] d \/ survives dsk v x (f_off y) s1 d) ->
  write_done dsk hist fs f y ip v x (s1 ++ s2) Q ->
  write_done dsk1 (crash1 ++ hist) (advanced fs f y ip m x1) f (set_f_off (f_off y + m) y) ip v1 x1 s2 Q.
Proof.
  intros m Hfull Hle Ho Hmv Hcr HQ w' dsk' crash v' x' m2 Hq Hop Hmv2 Hcr2.
  assert (take wmax (s1 ++ s2) = s1) as Et.
  { destruct Hfull as [<-| ->]; [apply take_app_length|]. rewrite app_nil_r. by apply take_ge. }
  unfold m2 in *. rewrite advanced_twice in *. replace (m + Z.of_nat (length s2)) with (Z.of_nat (length (s1 ++ s2))) in *
    by (rewrite length_app; unfold m; lia).
  eapply (HQ w' dsk' (crash ++ crash1) v' x').
  - by rewrite <- app_assoc.
  - cbn [f_off set_f_off] in Hop. unfold set_f_off in *. cbn in Hop. rewrite <- Z.add_assoc in Hop.
    by replace (m + Z.of_nat (length s2)) with (Z.of_nat (length (s1 ++ s2))) in Hop by (rewrite length_app; unfold m; lia).
  - by eapply moved_app.
  - intros d Hd. assert (d ∈ dsk' :: crash \/ d ∈ dsk1 :: crash1) as [Hd2|Hd1].
    { apply elem_of_cons in Hd as [->|[Hd|Hd]%elem_of_app]; [left; left|left; by right|right; by right]. }
    + destruct (Hcr2 d Hd2) as (j & Hj). exists (S j).
      pose proof (survives_app dsk v x (f_off y) s1 dsk1 v1 x1 _ d Ho Hmv Hj) as Hs.
      replace (take (S j * wmax) (s1 ++ s2)) with (s1 ++ take (j * wmax) s2); [done|].
      rewrite Nat.mul_succ_l, Nat.add_comm, <- take_take_drop, Et. f_equal.
      destruct Hfull as [<-| ->]; [by rewrite drop_app_length|]. rewrite app_nil_r, take_nil, drop_ge by done. by rewrite take_nil.
    + destruct (Hcr d Hd1) as [Hs|Hs]; [by exists 0%nat|]. exists 1%nat. by rewrite Nat.mul_1_l, Et.
Qed.

Lemma filewrite_loop f ip src : forall fuel i0 dsk hist fs y v x w Q,
  let n := Z.of_nat (length src) in
  11 <= size -> quiet dsk hist fs v w -> opened fs f y ip x -> good dsk v x ->
  0 <= f_off y <= i_size x -> 0 <= i0 <= n -> f_off y + (n - i0) <= MAXFILE * BSIZE ->
  supply sb v (i_addrs x) (f_off y) (n - i0) ->
  (1 <= fuel)%nat -> n - i0 <= (Z.of_nat fuel - 1) * filewrite_max ->
  write_done dsk hist fs f y ip v x (drop (Z.to_nat i0) src) (Q n) ->
  wp (loop_ fuel (filewrite_turn f src n) i0) Q w.
Proof.
  induction fuel as [|fuel IH]; intros i0 dsk hist fs y v x w Q n Hsize Hq Hop Hg Ho Hi Hmax Hsup Hf1 Hf2 HQ; [lia|].
  cbn [loop_]. apply wp_bind. destruct (Z.eq_dec i0 n) as [->|Hne].
  { unfold filewrite_turn. rewrite Z.leb_refl. apply wp_ret, wp_ret. eapply write_nothing; [exact Hq|exact Hop|done..|].
    rewrite drop_ge in HQ by (unfold n; lia). exact HQ. }
  assert (1 <= fuel)%nat as Hf3 by (change filewrite_max with 1536 in Hf2; lia).
  eapply filewrite_turn_v; [done|exact Hq|exact Hop|exact Hg|done|lia|done|done|].
  fold n. set (n1 := Z.min (n - i0) filewrite_max). set (bs := sub_ _ _ _).
  assert (0 < n1 <= filewrite_max /\ n1 <= n - i0) as [Hn1 Hn1'] by (change filewrite_max with 1536 in *; lia).
  assert (Z.of_nat (length bs) = n1) as Hbs by (unfold bs, sub_; rewrite length_take, length_drop; lia).
  intros w1 dsk1 crash1 v1 x1 m Hq1 Hop1 Hmv Hsup1 Hcr. unfold m in *. rewrite Hbs in *.
  pose proof (mv_size _ _ _ _ _ _ _ _ Hmv) as Hsz. rewrite Hbs in Hsz.
  eapply (IH (i0 + n1) dsk1); [done|exact Hq1|exact Hop1|apply Hmv|cbn; lia|lia|cbn; lia| |done| |].
  - cbn [f_off set_f_off]. by rewrite Z.sub_add_distr.
  - fold n. unfold n1. change filewrite_max with 1536 in *. lia.
  - rewrite <- Hbs in *. rewrite Z2Nat.inj_add, Nat2Z.id, <- drop_drop by lia.
    eapply (write_more dsk hist fs f y ip v x bs); [| |done|done|done|].
    + destruct (Z.le_gt_cases (n - i0) filewrite_max) as [Hle|Hgt]; [right|left; unfold wmax; lia].
      apply drop_ge. rewrite length_drop. lia.
    + unfold wmax. lia.
    + replace (length bs) with (Z.to_nat n1) by lia. unfold bs, sub_. by rewrite take_drop.
Qed.

Lemma filewrite_v dsk hist fs f y ip v x src w Q :
  let n := Z.of_nat (length src) in
  11 <= size -> quiet dsk hist fs v w -> opened fs f y ip x -> f_writable y <> 0 -> good dsk v x ->
  0 <= f_off y <= i_size x -> f_off y + n <= MAXFILE * BSIZE -> supply sb v (i_addrs x) (f_off y) n ->
  write_done dsk hist fs f y ip v x src (Q n) -> wp (filewrite f src) Q w.
Proof.
  intros n Hsize Hq Hop Hw Hg Ho Hmax Hsup HQ. unfold filewrite. eapply getf_v; [apply Hq|apply Hop|].
  destruct (Z.eqb_spec (f_writable y) 0); [done|]. rewrite (op_type _ _ _ _ _ Hop). fold n. apply wp_bind.
  assert (0 <= n) as Hn by (unfold n; lia).
  eapply (filewrite_loop f ip src _ 0 dsk hist fs y v x); fold n; rewrite ?Z.sub_0_r; try done.
  - pose proof (Z.div_pos n filewrite_max Hn ltac:(done)). lia.
  - change filewrite_max with 1536. pose proof (Z.div_pos n 1536 Hn ltac:(done)). Z.div_mod_to_equations. lia.
  - intros w' dsk' crash v' x' m Hq' Hop' Hmv Hcr. apply wp_ret. rewrite Z.eqb_refl. by eapply HQ.
Qed.

(** *** [fileread] *)

Lemma good_size dsk v x : good dsk v x -> 0 <= i_size x <= MAXFILE * BSIZE.
Proof.
  intros Hg. pose proof (fo_size _ (gd_fields _ _ _ Hg)) as Hs. split; [lia|].
  destruct (Z.eq_dec (i_size x) 0) as [->|Hne]; [done|].
  destruct (gd_filled _ _ _ Hg (i_size x - 1) ltac:(lia)) as [Hm _]. unfold BSIZE in *. Z.div_mod_to_equations. lia.
Qed.

Lemma sub_bytes v x off n : 0 <= off <= i_size x -> 0 <= n ->
  file_bytes v (i_addrs x) off (Z.min n (i_size x - off)) = sub_ (Z.to_nat off) (Z.to_nat n) (bytes v x).
Proof.
  intros Ho Hn. apply list_eq. intros k. unfold sub_, file_bytes at 1. rewrite list_lookup_fmap.
  destruct (decide (Z.of_nat k < Z.min n (i_size x - off))) as [Hk|Hk].
  - rewrite lookup_seq_lt, lookup_take_lt, lookup_drop, lookup_bytes by lia. cbn. do 2 f_equal. lia.
  - rewrite lookup_seq_ge by lia. symmetry. apply lookup_ge_None_2. rewrite length_take, length_drop.
    pose proof (length_bytes v x). lia.
Qed.

(** The step of the offset after a read. *)
Lemma step_off_v dsk hist nops fs H bl v w f y k Q :
  sees dsk hist nops fs H bl v w -> fs_file fs !! f = Some y -> 0 <= k -> 0 <= f_off y -> f_off y + k < W32 ->
  (forall w', sees dsk hist nops (fset f (fun _ => set_f_off (f_off y + k) y) fs) H bl v w' -> Q tt w') ->
  wp (if 0 <? k then updf f (fun x => set_f_off (u32 (f_off x + k)) x) else ret tt) Q w.
Proof.
  intros Hs Hy Hk Ho Hw HQ. destruct (Z.ltb_spec 0 k).
  - eapply updf_v; [exact Hs|]. intros w' Hs'.
    rewrite (fset_eq f _ (set_f_off (f_off y + k) y)) in Hs'; [by apply HQ|]. intros z Hz. rewrite Hy in Hz.
    injection Hz as <-. rewrite u32_small by lia. done.
  - apply wp_ret, HQ. replace k with 0 by lia. rewrite Z.add_0_r.
    replace (fset f _ fs) with fs; [done|]. rewrite <- (fset_eq f id).
    + unfold fset. rewrite list_alter_id by done. by destruct fs.
    + intros z Hz. rewrite Hy in Hz. injection Hz as <-. by destruct y.
Qed.

Lemma fileread_v dsk hist fs f y ip v x n w Q :
  quiet dsk hist fs v w -> opened fs f y ip x -> f_readable y <> 0 -> good dsk v x ->
  0 <= f_off y <= i_size x -> 0 <= n < 2147483648 ->
  let k := Z.min n (i_size x - f_off y) in
  (forall w', quiet dsk hist (advanced fs f y ip k (iunlocked x)) v w' ->
    Q (k, sub_ (Z.to_nat (f_off y)) (Z.to_nat n) (bytes v x)) w') ->
  wp (fileread f n) Q w.
Proof.
  intros Hq Hop Hr Hg Ho Hn k HQ. pose proof Hop as [P1 P2 P3 P4 P5 P6 P7 P8 P9 P10 P11]. pose proof Hq as [H0 Hh].
  unfold fileread. eapply getf_v; [exact H0|exact P1|]. destruct (Z.eqb_spec (f_readable y) 0); [done|].
  rewrite P2, P3. apply wp_bind. eapply (ilock_v _ _ _ _ _ _ _ _ x); [exact P4|exact P10|exact H0|done..|].
  intros w1 H1. eapply getf_v; [exact H1|exact P1|]. rewrite P3. cbn [deref]. apply wp_bind, wp_ret, wp_bind.
  pose proof (iset_at ip ilocked x fs P4) as Hx1. pose proof (gd_fields _ _ _ Hg) as Hf.
  pose proof (good_size _ _ _ Hg) as Hsz. change (MAXFILE * BSIZE) with 71680 in Hsz.
  rewrite u32_small by (unfold W32; lia).
  pose proof (good_fields dsk v x (ilocked x) Hg eq_refl eq_refl) as [G1 G2 G3 G4 G5 G6].
  eapply (readi_v sb ds Hds st size dsk km cn o hw i p pid hist 0 _ [] v ip (ilocked x));
    [exact Hx1|exact P5|done..|exact H1|exact P6|done|lia|unfold W32; lia|].
  cbn [i_size i_addrs ilocked set_i_lock]. fold k. intros w2 H2. 
  pose proof (sub_bytes v x (f_off y) n Ho ltac:(lia)) as Eb. fold k in Eb. rewrite Eb. cbn [fst].
  apply wp_bind. eapply (step_off_v _ _ _ _ _ _ _ _ f y k); [exact H2|exact P1|lia|lia|unfold W32; lia|]. intros w3 H3.
  eapply getf_v; [exact H3|cbn; by rewrite list_lookup_alter_eq, P1|].
  cbn [f_ip set_f_off]. rewrite P3. apply wp_bind.
  eapply (iunlock_v _ _ _ _ _ _ _ ip (ilocked x)); [| |exact H3|done..|]; [cbn; by rewrite list_lookup_alter_eq, P4|exact P10|].
  intros w4 H4. apply wp_ret. apply HQ. split; [|done].
  replace (advanced _ _ _ _ _ _) with (iset ip iunlocked (fset f (fun _ => set_f_off (f_off y + k) y) (iset ip ilocked fs)));
    [done|].
  unfold advanced. rewrite (iset_ext ip (fun _ => iunlocked x) (fun x => iunlocked (ilocked x)) x); [|exact P4|done].
  unfold fset, iset. cbn. by rewrite list_alter_alter_eq.
Qed.

Lemma sub_overlay off src old : 0 <= off <= Z.of_nat (length old) ->
  sub_ (Z.to_nat off) (length src) (overlay off src old) = src.
Proof.
  intros Ho. unfold sub_, overlay. rewrite drop_app_length' by (rewrite length_take; lia). apply take_app_length.
Qed.

Lemma opened_other fs f y ip x g y2 m x' :
  opened fs f y ip x -> opened fs g y2 ip x -> f <> g -> opened (advanced fs f y ip m x') f (set_f_off (f_off y + m) y) ip x' ->
  opened (advanced fs f y ip m x') g y2 ip x'.
Proof.
  intros _ [A1 A2 A3 _ _ _ _ _ _ _ _] Hne [B1 B2 B3 B4 B5 B6 B7 B8 B9 B10 B11]. split; try done.
  cbn. by rewrite list_lookup_alter_ne.
Qed.

(** C7: a write to a file survives a crash.  [filewrite] through an open file
    on a good file system with room returns the number of bytes; the bytes are
    in the file at the offset, the old ones around them, in memory and on disk,
    and no other file has changed.  Every disk the machine could have stopped
    with on the way recovers to the file with some of the chunks written, in
    order and each whole, and every other file as it was. *)
Theorem filewrite_crash_safe dsk hist fs f y ip v x src w :
  let n := Z.of_nat (length src) in
  11 <= size -> quiet dsk hist fs v w -> opened fs f y ip x -> f_writable y <> 0 -> good dsk v x ->
  0 <= f_off y <= i_size x -> f_off y + n <= MAXFILE * BSIZE -> supply sb v (i_addrs x) (f_off y) n ->
  exists w' dsk' crash v' x',
    filewrite f src w = Ok n w' /\ quiet dsk' (crash ++ hist) (advanced fs f y ip n x') v' w' /\
    good dsk' v' x' /\ bytes v' x' = overlay (f_off y) src (bytes v x) /\
    disk_file dsk' (i_inum x) = overlay (f_off y) src (bytes v x) /\
    (forall x2, good dsk v x2 -> apart v x x2 -> good dsk' v' x2 /\ bytes v' x2 = bytes v x2) /\
    forall d, d ∈ dsk' :: crash -> exists j, survives dsk v x (f_off y) (take (j * wmax) src) d.
Proof.
  intros n Hsize Hq Hop Hw Hg Ho Hmax Hsup.
  assert (wp (filewrite f src) (fun r w' => r = n /\ exists dsk' crash v' x',
    quiet dsk' (crash ++ hist) (advanced fs f y ip n x') v' w' /\ moved dsk v x (f_off y) src dsk' v' x' /\
    forall d, d ∈ dsk' :: crash -> exists j, survives dsk v x (f_off y) (take (j * wmax) src) d) w) as Hwp.
  { eapply filewrite_v; [done|exact Hq|exact Hop|done..|]. intros w' dsk' crash v' x' m Hq' _ Hmv Hcr.
    split; [done|]. by exists dsk', crash, v', x'. }
  destruct (wp_inv _ _ _ Hwp) as (r & w' & E & -> & dsk' & crash & v' & x' & Hq' & Hmv & Hcr).
  exists w', dsk', crash, v', x'. pose proof Hmv as [M1 M2 M3 M4 M5].
  split; [done|]. split; [done|]. split; [done|]. split; [done|]. split; [|split; [|done]].
  - rewrite <- M2, <- M4. eapply disk_file_good; [exact M1|]. intros b Hb. by eapply quiet_disk.
  - intros x2 Hg2 Hap. destruct (M5 x2 Hg2 Hap) as (? & ? & _). done.
Qed.

(** reading a file.  [fileread] through an open file returns the bytes from
    the offset on, as many as asked for or as there are, moves the offset past
    them and changes nothing else. *)
Theorem fileread_reads dsk hist fs f y ip v x n w :
  quiet dsk hist fs v w -> opened fs f y ip x -> f_readable y <> 0 -> good dsk v x ->
  0 <= f_off y <= i_size x -> 0 <= n < 2147483648 ->
  let k := Z.min n (i_size x - f_off y) in
  exists w', fileread f n w = Ok (k, sub_ (Z.to_nat (f_off y)) (Z.to_nat n) (bytes v x)) w' /\
    quiet dsk hist (advanced fs f y ip k (iunlocked x)) v w'.
Proof.
  intros Hq Hop Hr Hg Ho Hn k.
  assert (wp (fileread f n) (fun r w' => r = (k, sub_ (Z.to_nat (f_off y)) (Z.to_nat n) (bytes v x)) /\
    quiet dsk hist (advanced fs f y ip k (iunlocked x)) v w') w) as Hwp by (by eapply fileread_v).
  destruct (wp_inv _ _ _ Hwp) as (r & w' & E & -> & Hq'). by exists w'.
Qed.

(** C8: what is written is read back.  After [filewrite], a read of as many
    bytes at the same offset through another open file of the same inode
    returns the bytes written. *)
Theorem write_read_back dsk hist fs f y g y2 ip v x src w :
  let n := Z.of_nat (length src) in
  11 <= size -> quiet dsk hist fs v w -> opened fs f y ip x -> opened fs g y2 ip x -> f <> g ->
  f_writable y <> 0 -> f_readable y2 <> 0 -> f_off y2 = f_off y -> good dsk v x ->
  0 <= f_off y <= i_size x -> f_off y + n <= MAXFILE * BSIZE -> supply sb v (i_addrs x) (f_off y) n ->
  exists w', (filewrite f src ;; fileread g n) w = Ok (n, src) w'.
Proof.
  intros n Hsize Hq Hop Hop2 Hne Hw Hr Hoff Hg Ho Hmax Hsup.
  assert (wp (filewrite f src ;; fileread g n) (fun r _ => r = (n, src)) w) as Hwp.
  { apply wp_bind. eapply filewrite_v; [done|exact Hq|exact Hop|done..|]. intros w' dsk' crash v' x' m Hq' Hop' Hmv _.
    pose proof (mv_size _ _ _ _ _ _ _ _ Hmv) as Hsz. fold n in Hsz. change (MAXFILE * BSIZE) with 71680 in Hmax.
    eapply fileread_v; [exact Hq'|by eapply (opened_other fs f y ip x g y2)|done|apply Hmv|lia|lia|].
    intros w'' _. rewrite (mv_bytes _ _ _ _ _ _ _ _ Hmv), Hoff. f_equal; [lia|].
    unfold n. rewrite Nat2Z.id. apply sub_overlay. rewrite length_bytes by lia. done. }
  destruct (wp_inv _ _ _ Hwp) as (r & w' & E & ->). by exists w'.
Qed.
End Fileio.

(** ** The properties at work

    A disk of 64 blocks: the log in blocks 2 to 31, the inode table in 32, the
    bitmap in 33, data from 34 on; file 1 has the three bytes 1, 2, 3. *)

Section Examples.
#[local] Existing Instance Memide.driver.

#[local] Opaque bc_boot.

Definition sb_w : superblock := mk_superblock 64 30 8 30 2 32 33.
Definition inode_w : inode :=
  mk_inode 1 1 1 zsleeplock 1 2 0 0 1 3 (34 :: replicate 12 0).
Definition disk_w : diskT :=
  <[32%nat := splice 64 (enc_dinode inode_w) (replicate 512 0)]>
  (<[33%nat := [255; 255; 255; 255; 7] ++ replicate 507 0]>
  (<[34%nat := [1; 2; 3] ++ replicate 509 0]> disk_log)).
Definition bc_w : bcstate := set_bc_log (mk_log 2 30 0 0 1 0 (replicate 30 0)) (bc_boot disk_w).
Definition view_w : view := fun b => disk_w !! Z.to_nat b.
Definition file_w (r w off : Z) : file := mk_file FD_INODE 1 r w 0 (Some 0%nat) off.
Definition fs_w : fsstate :=
  set_fs_file [file_w 0 1 1; file_w 1 0 1] (set_fs_inode [inode_w] (set_fs_sb sb_w fs0)).
Definition world_w : world := W (touch 0 hw_run) pt_run km0 bc_w fs_w cn0 [].

Lemma bc_w_disk : bc_disk bc_w = disk_w.
Proof. unfold bc_w. by rewrite set_log_disk, bc_boot_disk. Qed.

Lemma bc_w_unused j : (j < NBUF)%nat -> b_dev (bufat (bc_buf bc_w) j) = 0 /\ b_flags (bufat (bc_buf bc_w) j) = 0.
Proof.
  intros Hj. unfold bc_w. rewrite set_log_buf.
  destruct (bc_boot_unused disk_w j Hj) as (H1 & H2 & _). split; [exact H2|exact H1].
Qed.

Lemma bc_w_contents b : contents bc_w b = view_w b.
Proof.
  rewrite contents_uncached; [by rewrite bc_w_disk|]. intros j (Hj & Hd & _). destruct (bc_w_unused j Hj). congruence.
Qed.

Lemma disk_w_length : length disk_w = 64%nat.
Proof. vm_compute. reflexivity. Qed.

Lemma disk_w_fits : log_fits 2 30 disk_w.
Proof. split; [done|rewrite disk_w_length; done|done|]. vm_compute. lia. Qed.

Lemma quiet_w : quiet km0 cn0 [] (touch 0 hw_run) 0 0 1 2 30 disk_w (bc_hist bc_w) fs_w view_w world_w.
Proof.
  split; [|vm_compute; reflexivity]. exists pt_run, bc_w, (reverse (seq 0 NBUF)). split; [done|]. split; [|apply bc_w_contents].
  split.
  - apply calm_run.
  - split; reflexivity.
  - apply cache_log, bc_boot_cache.
  - intros j bn Hj. by apply elem_of_nil in Hj.
  - constructor.
  - split; try reflexivity. rewrite bc_w_disk, disk_w_length. discriminate.
  - reflexivity.
  - reflexivity.
  - reflexivity.
  - rewrite bc_w_disk. apply disk_w_fits.
  - split; [constructor..|reflexivity].
  - constructor.
  - intros b. split; [|set_solver]. intros (j & (Hj & Hd & _) & _). destruct (bc_w_unused j Hj). congruence.
  - apply bc_w_disk.
  - reflexivity.
Qed.

Lemma map_w b : 0 <= b < 64 -> BBLOCK b sb_w = 33.
Proof. intros Hb. unfold BBLOCK. by rewrite Z.div_small by (unfold BPB, BSIZE; lia). Qed.

Lemma home_w b : 32 <= b < 64 -> home 2 30 disk_w b.
Proof. intros Hb. unfold home, in_disk, in_log, int_ok. rewrite disk_w_length. lia. Qed.

Lemma check_all {A} (P : A -> bool) l x : forallb P l = true -> x ∈ l -> P x = true.
Proof. intros H Hx. rewrite forallb_forall in H. by apply H, list_elem_of_In. Qed.

Lemma view_w_block b : 0 <= b < 64 -> exists d, view_w b = Some d /\ length d = Z.to_nat BSIZE.
Proof.
  intros Hb. assert (forallb (fun d => Nat.eqb (length d) 512) disk_w = true) as HF by (vm_compute; reflexivity).
  destruct (lookup_lt_is_Some_2 disk_w (Z.to_nat b)) as [d Hd]; [rewrite disk_w_length; lia|].
  exists d. split; [done|]. apply (check_all _ _ d) in HF; [|by eapply list_elem_of_lookup_2].
  by apply Nat.eqb_eq in HF.
Qed.

Lemma layout_w : layout 2 30 disk_w sb_w 34 view_w.
Proof.
  split; [done| | |].
  - intros b Hb. rewrite map_w by done. split; [by apply home_w|]. split; [done|]. by apply view_w_block.
  - intros b Hb. cbn in Hb. split; [apply home_w; lia|apply view_w_block; lia].
  - intros b Hb _. apply (check_all (bit sb_w view_w) (seqZ 0 34)); [vm_compute; reflexivity|]. apply elem_of_seqZ. lia.
Qed.

Lemma addr_w bn : 0 <= bn -> addr_of view_w (i_addrs inode_w) bn = if bn =? 0 then 34 else 0.
Proof.
  intros Hb. unfold addr_of. destruct (Z.ltb_spec bn NDIRECT) as [Hd|Hd].
  - pose proof (check_all (fun bn => default 0 (i_addrs inode_w !! Z.to_nat bn) =? if bn =? 0 then 34 else 0)
      (seqZ 0 12) bn) as HF. apply Z.eqb_eq, HF; [vm_compute; reflexivity|]. apply elem_of_seqZ. unfold NDIRECT in *. lia.
  - destruct (Z.eqb_spec bn 0); [unfold NDIRECT in *; lia|]. reflexivity.
Qed.

Lemma good_w : good 2 30 sb_w 34 disk_w view_w inode_w.
Proof.
  split; [apply layout_w| | | | |].
  - split; [reflexivity|left; reflexivity| | |].
    + intros bn Hb. rewrite addr_w by lia. destruct (bn =? 0); [right|left; reflexivity]. split; [done|vm_compute; reflexivity].
    + intros bn bn' H1 H2. rewrite !addr_w by lia. destruct (Z.eqb_spec bn 0), (Z.eqb_spec bn' 0); (done || lia).
    + intros bn H1. rewrite addr_w by lia. destruct (bn =? 0); done.
  - intros k Hk. cbn in Hk. rewrite Z.div_small by (unfold BSIZE; lia). split; [done|]. by rewrite addr_w.
  - split; try (by cbn); repeat constructor; lia.
  - split; [by apply home_w|done| |by apply view_w_block]. intros (c & Hc & E). rewrite map_w in E by done. discriminate E.
  - intros y. destruct y. vm_compute. reflexivity.
Qed.

Lemma opened_w : opened (touch 0 hw_run) sb_w fs_w 0 (file_w 0 1 1) 0 inode_w.
Proof. split; done. Qed.

Lemma opened_w2 : opened (touch 0 hw_run) sb_w fs_w 1 (file_w 1 0 1) 0 inode_w.
Proof. split; done. Qed.

Lemma supply_w n : n = 4 -> supply sb_w view_w (i_addrs inode_w) 1 n.
Proof. intros ->. vm_compute. lia. Qed.

Lemma filewrite_crash_safe_witness :
  exists w' dsk', filewrite 0 [9; 8; 7; 6] world_w = Ok 4 w' /\ disk_file sb_w dsk' 1 = [1; 9; 8; 7; 6].
Proof.
  destruct (filewrite_crash_safe km0 cn0 [] (touch 0 hw_run) 0 0 1 2 30 sb_w 34 eq_refl disk_w (bc_hist bc_w) fs_w 0
    (file_w 0 1 1) 0 view_w inode_w [9; 8; 7; 6] world_w) as (w' & dsk' & crash & v' & x' & E & _ & _ & _ & D & _).
  - done.
  - apply quiet_w.
  - apply opened_w.
  - done.
  - apply good_w.
  - done.
  - done.
  - by apply supply_w.
  - exists w', dsk'. split; [exact E|]. exact D.
Defined.

Lemma fileread_reads_witness : exists w', fileread 1 10 world_w = Ok (2, [2; 3]) w'.
Proof.
  destruct (fileread_reads km0 cn0 [] (touch 0 hw_run) 0 0 1 2 30 sb_w 34 eq_refl disk_w (bc_hist bc_w) fs_w 1
    (file_w 1 0 1) 0 view_w inode_w 10 world_w quiet_w opened_w2) as (w' & E & _).
  - done.
  - apply good_w.
  - done.
  - done.
  - exists w'. exact E.
Defined.

Lemma write_read_back_witness :
  exists w', (filewrite 0 [9; 8; 7; 6] ;; fileread 1 4) world_w = Ok (4, [9; 8; 7; 6]) w'.
Proof.
  apply (write_read_back km0 cn0 [] (touch 0 hw_run) 0 0 1 2 30 sb_w 34 eq_refl disk_w (bc_hist bc_w) fs_w 0
    (file_w 0 1 1) 1 (file_w 1 0 1) 0 view_w inode_w [9; 8; 7; 6] world_w);
    first [done | apply quiet_w | apply opened_w | apply opened_w2 | apply good_w | by apply supply_w].
Defined.
End Examples.
