(* ===== verification/Dir.v ===== *)
(** * Directories and paths

    The inode cache, directories and path names of [fs.c] on the view of the
    blocks: [iget] keeps one entry per inode, [dirlink] enters a name that
    [dirlookup] finds, and [namei] walks the tree that is on disk and leaves no
    reference behind. *)

From stdpp Require Import prelude list gmap strings.
From Stdlib Require Import ZArith Lia.
From S2P Require Import Prelude State Boot Spinlock Str Kalloc Cprintf Vm Sched Sleeplock Bio Log Fs Fsview Content File Console Fileio.
#[local] Open Scope c_scope.

(** ** Path names *)

(** The strings between the slashes of a path, and those that are names. *)
Fixpoint pieces (path : list Z) : list (list Z) :=
  match path with
  | [] => [[]]
  | c :: p => if c =? slash then [] :: pieces p
              else match pieces p with s :: r => (c :: s) :: r | [] => [[c]] end
  end.
Definition elems (path : list Z) : list (list Z) := filter (fun s => s <> []) (pieces path).

Lemma elems_skip path : elems (skip_slashes path) = elems path.
Proof.
  induction path as [|c p IH]; [done|]. cbn [skip_slashes]. destruct (Z.eqb_spec c slash) as [->|Hc]; [|done].
  rewrite IH. unfold elems. cbn [pieces]. rewrite Z.eqb_refl, filter_cons_False; [done|]. by intros [].
Qed.

Lemma pieces_elem path : pieces path = (path_elem path).1 ::
  match (path_elem path).2 with [] => [] | _ :: r => pieces r end.
Proof.
  induction path as [|c p IH]; [done|]. cbn [pieces path_elem]. destruct (c =? slash) eqn:E; [done|].
  destruct (path_elem p) as [s rest]. cbn in *. by rewrite IH.
Qed.

Lemma path_elem_rest path : (path_elem path).2 = [] \/ exists r, (path_elem path).2 = slash :: r.
Proof.
  induction path as [|c p IH]; [by left|]. cbn [path_elem]. destruct (Z.eqb_spec c slash) as [->|E].
  - right. by exists p.
  - by destruct (path_elem p).
Qed.

Lemma path_elem_le path : (length (path_elem path).2 <= length path)%nat.
Proof.
  induction path as [|c p IH]; [done|]. cbn [path_elem]. destruct (c =? slash); [done|].
  destruct (path_elem p). cbn in *. lia.
Qed.

Lemma skip_slashes_le path : (length (skip_slashes path) <= length path)%nat.
Proof. induction path as [|c p IH]; [done|]. cbn [skip_slashes]. destruct (c =? slash); cbn [length]; lia. Qed.

Lemma skip_slashes_head path : skip_slashes path = [] \/ exists c p, skip_slashes path = c :: p /\ c <> slash.
Proof.
  induction path as [|c p IH]; [by left|]. cbn [skip_slashes]. destruct (Z.eqb_spec c slash); [done|]. right. by exists c, p.
Qed.

(** A path that starts with a name: the name, and what follows it. *)
Lemma elems_elem c p : c <> slash ->
  (path_elem (c :: p)).1 <> [] /\ elems (c :: p) = (path_elem (c :: p)).1 :: elems (path_elem (c :: p)).2.
Proof.
  intros Hc. assert ((path_elem (c :: p)).1 <> []) as Hne.
  { cbn [path_elem]. destruct (Z.eqb_spec c slash); [done|]. by destruct (path_elem p). }
  split; [done|]. unfold elems at 1. rewrite pieces_elem, filter_cons_True by done. f_equal.
  destruct (path_elem_rest (c :: p)) as [-> | [r ->]]; [done|].
  unfold elems. cbn [pieces]. rewrite Z.eqb_refl, filter_cons_False; [done|]. by intros [].
Qed.

Lemma strncmp_agree p p' q n : Str.agree p p' n -> strncmp p q n = strncmp p' q n.
Proof.
  revert p p' q. induction n as [|n IH]; intros p p' q Ha; [done|]. cbn [strncmp].
  assert (p 0%nat = p' 0%nat) as E0 by (apply Ha; lia). rewrite <- E0.
  destruct (Z.eqb_spec (p 0%nat) 0) as [E|E]; [done|]. cbn [negb andb]. destruct (_ =? _); [|done].
  apply IH. intros i Hi Hj. apply (Ha (S i)); [lia|]. intros [|j] Hlt; [done|]. apply (Hj j). lia.
Qed.

(** The name [skipelem] leaves in the buffer, as [strncmp] sees it. *)
Definition stored (s name : list Z) : list Z :=
  if (Z.to_nat DIRSIZ <=? length s)%nat then splice 0 (take (Z.to_nat DIRSIZ) s) name else splice 0 (s ++ [0]) name.

Lemma stored_name s name : (Z.to_nat DIRSIZ <= length name)%nat ->
  length (stored s name) = length name /\ Str.agree (from (stored s name)) (from s) (Z.to_nat DIRSIZ).
Proof.
  change (Z.to_nat DIRSIZ) with 14%nat. intros Hn. unfold stored. change (Z.to_nat DIRSIZ) with 14%nat.
  destruct (Nat.leb_spec 14 (length s)) as [Hs|Hs].
  - assert (length (take 14 s) = 14%nat) as Hl by (rewrite length_take; lia).
    split; [rewrite length_splice; lia|].
    intros i Hi _. rewrite from_splice, decide_True by lia. unfold from. by rewrite Nat.sub_0_r, lookup_take_lt by lia.
  - assert (length (s ++ [0]) = S (length s)) as Hl by (rewrite length_app; cbn; lia).
    split; [rewrite length_splice; lia|].
    assert (forall i, (i <= length s)%nat -> from (splice 0 (s ++ [0]) name) i = from s i) as E.
    { intros i Hi. rewrite from_splice, decide_True, Nat.sub_0_r by lia. unfold from.
      destruct (decide (i = length s)) as [->|]; [|by rewrite lookup_app_l by lia].
      rewrite lookup_app_r, Nat.sub_diag, (lookup_ge_None_2 s) by lia. done. }
    intros i Hi Hj. destruct (decide (i <= length s)%nat); [by apply E|]. exfalso. apply (Hj (length s)); [lia|].
    rewrite E by lia. unfold from. by rewrite lookup_ge_None_2.
Qed.

(** [skipelem] takes the names off a path one by one. *)
Lemma skipelem_elems path name : (Z.to_nat DIRSIZ <= length name)%nat ->
  match elems path with
  | [] => skipelem path name = None
  | s :: r => exists path' name', skipelem path name = Some (path', name') /\ elems path' = r /\
      (length path' < length path)%nat /\ (path' = [] <-> r = []) /\ length name' = length name /\
      Str.agree (from name') (from s) (Z.to_nat DIRSIZ)
  end.
Proof.
  intros Hn. rewrite <- elems_skip. unfold skipelem. pose proof (skip_slashes_le path) as Hle.
  destruct (skip_slashes_head path) as [-> | (c & p & E & Hc)]; [done|]. rewrite E in Hle |- *.
  destruct (elems_elem c p Hc) as [Hne ->]. pose proof (path_elem_le p) as Hlp.
  assert (length (path_elem (c :: p)).2 < length (c :: p))%nat as Hlt.
  { cbn [path_elem]. destruct (Z.eqb_spec c slash); [done|]. destruct (path_elem p). cbn in *. lia. }
  destruct (path_elem (c :: p)) as [s rest]. cbn [fst snd] in *. fold (stored s name).
  destruct (stored_name s name Hn) as [S1 S2]. pose proof (skip_slashes_le rest).
  exists (skip_slashes rest), (stored s name). split_and!; [done|apply elems_skip|lia| |done|done].
  rewrite <- elems_skip. destruct (skip_slashes_head rest) as [-> | (c' & p' & -> & Hc')]; [done|].
  destruct (elems_elem c' p' Hc') as [_ ->]. done.
Qed.

(** ** The contents of a directory *)

(** The entries in the bytes of a directory, the one with a name, and the
    inode it names. *)
Definition dents (bs : list Z) : list (list Z) :=
  (fun k => sub_ (16 * k) 16 bs) <$> seq 0 (length bs / 16).
Definition named (name : cstr) (de : list Z) : bool :=
  negb (de_inum de =? 0) && (namecmp name (from (de_name de)) =? 0).
Definition dfind (bs : list Z) (name : cstr) : option nat := find_idx (named name) (dents bs).
Definition dnum (bs : list Z) (name : cstr) : option Z :=
  match dfind bs name with Some k => de_inum <$> dents bs !! k | None => None end.

Lemma lookup_dents bs k : (k < length bs / 16)%nat -> dents bs !! k = Some (sub_ (16 * k) 16 bs).
Proof. intros Hk. unfold dents. by rewrite list_lookup_fmap, lookup_seq_lt by done. Qed.

Lemma length_dents bs : length (dents bs) = (length bs / 16)%nat.
Proof. unfold dents. by rewrite length_fmap, length_seq. Qed.

Lemma dfind_Some bs name k : dfind bs name = Some k ->
  exists de, dents bs !! k = Some de /\ named name de = true /\ dnum bs name = Some (de_inum de).
Proof.
  intros E. pose proof E as (_ & (de & Hde & Hn) & _)%find_from_Some. rewrite Nat.sub_0_r in Hde.
  exists de. split_and!; [done..|]. unfold dnum. by rewrite E, Hde.
Qed.

Lemma dnum_None bs name : dnum bs name = None <-> dfind bs name = None.
Proof.
  unfold dnum. destruct (dfind bs name) as [k|] eqn:E; [|done]. destruct (dfind_Some _ _ _ E) as (de & Hde & _).
  by rewrite Hde.
Qed.

(** An entry written over another, or at the end. *)
Lemma dents_overlay bs k de : (16 * (length bs / 16))%nat = length bs -> length de = 16%nat -> (k <= length bs / 16)%nat ->
  dents (overlay (DIRENT * Z.of_nat k) de bs) =
    if decide (k < length bs / 16)%nat then <[k := de]> (dents bs) else dents bs ++ [de].
Proof.
  set (n := (length bs / 16)%nat). intros Hb Hd Hk. unfold overlay.
  replace (Z.to_nat (DIRENT * Z.of_nat k)) with (16 * k)%nat by (unfold DIRENT; lia). rewrite Hd.
  set (bs' := take (16 * k) bs ++ de ++ drop (16 * k + 16) bs).
  assert (length (take (16 * k) bs) = (16 * k)%nat) as Ht by (rewrite length_take; lia).
  assert (length bs' / 16 = Nat.max n (S k))%nat as Hn.
  { unfold bs'. rewrite !length_app, Ht, Hd, length_drop, <- Hb.
    replace (_ + _)%nat with (Nat.max n (S k) * 16)%nat by lia. by rewrite Nat.div_mul. }
  assert (forall j, j <> k -> (j < n)%nat -> sub_ (16 * j) 16 bs' = sub_ (16 * j) 16 bs) as Eo.
  { intros j Hj Hjn. apply list_eq. intros t. unfold sub_. destruct (decide (t < 16)%nat) as [Htt|];
      [|rewrite !lookup_ge_None_2 by (rewrite length_take; lia); done].
    rewrite !lookup_take_lt, !lookup_drop by done. unfold bs'. destruct (decide (j < k)%nat).
    - rewrite lookup_app_l, lookup_take_lt by lia. done.
    - rewrite !lookup_app_r, lookup_drop by lia. rewrite Ht, Hd. f_equal. lia. }
  assert (sub_ (16 * k) 16 bs' = de) as Ek.
  { unfold sub_, bs'. rewrite drop_app_length', take_app_length' by done. done. }
  apply list_eq. intros j. destruct (decide (j < Nat.max n (S k))%nat) as [Hj|Hj].
  - rewrite lookup_dents by lia. destruct (decide (k < n)%nat) as [Hkn|Hkn].
    + destruct (decide (j = k)) as [->|Hne].
      * rewrite Ek, list_lookup_insert_eq by (rewrite length_dents; done). done.
      * rewrite list_lookup_insert_ne, lookup_dents, Eo by lia. done.
    + destruct (decide (j = k)) as [->|Hne].
      * rewrite Ek, lookup_app_r, length_dents by (rewrite length_dents; lia). by replace (k - _)%nat with 0%nat by lia.
      * rewrite lookup_app_l, lookup_dents, Eo by (rewrite ?length_dents; lia). done.
  - rewrite lookup_ge_None_2 by (rewrite length_dents; lia). symmetry. apply lookup_ge_None_2.
    destruct (decide _); rewrite ?length_insert, ?length_app, length_dents; cbn [length]; lia.
Qed.

(** The entry [dirlink] writes, and where. *)
Definition entry (name : cstr) (inum : Z) : list Z := enc16 inum ++ strncpy name (Z.to_nat DIRSIZ).
Definition dslot (bs : list Z) : nat := default (length bs / 16)%nat (find_idx (fun de => de_inum de =? 0) (dents bs)).

Lemma length_entry name inum : length (entry name inum) = 16%nat.
Proof. unfold entry. by rewrite length_app, length_strncpy. Qed.

Lemma entry_inum name inum : 0 <= inum < 65536 -> de_inum (entry name inum) = inum.
Proof.
  intros Hi. unfold entry, de_inum, le16. cbn [from app enc16 lookup list_lookup default from_option id].
  rewrite !Z.shiftr_div_pow2 by lia. unfold u8. change (2 ^ 8) with 256. Z.div_mod_to_equations. lia.
Qed.

Lemma entry_named p name inum : chars_ok p -> chars_ok name -> 0 < inum < 65536 ->
  named p (entry name inum) = true <-> Str.agree p name (Z.to_nat DIRSIZ).
Proof.
  intros Hp Ht Hi. unfold named. rewrite entry_inum by lia. destruct (Z.eqb_spec inum 0); [lia|]. cbn [negb andb].
  rewrite Z.eqb_eq. unfold namecmp, entry, de_name. cbn [drop app enc16]. by apply strncmp_strncpy.
Qed.

Lemma named_agree p name de : Str.agree p name (Z.to_nat DIRSIZ) -> named p de = named name de.
Proof. intros Ha. unfold named, namecmp. by rewrite (strncmp_agree p name). Qed.

Lemma find_insert {A} (P : A -> bool) (l : list A) k x y i :
  l !! k = Some x -> P x = false -> P y = false -> find_from P i (<[k := y]> l) = find_from P i l.
Proof.
  revert k i. induction l as [|a l IH]; intros k i Hx Px Py; [done|]. destruct k as [|k]; cbn in Hx |- *.
  - simplify_eq. by rewrite Px, Py.
  - destruct (P a); [done|]. by apply IH.
Qed.

Lemma find_app {A} (P : A -> bool) (l : list A) y i : P y = false -> find_from P i (l ++ [y]) = find_from P i l.
Proof. revert i. induction l as [|a l IH]; intros i Py; cbn; [by rewrite Py|]. destruct (P a); [done|]. by apply IH. Qed.

Lemma dslot_le bs : (dslot bs <= length bs / 16)%nat.
Proof.
  unfold dslot. destruct (find_idx _ _) as [k|] eqn:E; [|done]. cbn [from_option id].
  apply find_from_Some in E as (_ & (x & Hx & _) & _). rewrite Nat.sub_0_r in Hx. apply lookup_lt_Some in Hx.
  rewrite length_dents in Hx. lia.
Qed.

(** A directory with a name entered: it is found at its place under every
    spelling that agrees with it, and the other names are where they were. *)
Section Linked.
Context (bs : list Z) (name : cstr) (inum : Z).
Context (Hb : (16 * (length bs / 16))%nat = length bs) (Hc : chars_ok name) (Hi : 0 < inum < 65536).
Definition linked : list Z := overlay (DIRENT * Z.of_nat (dslot bs)) (entry name inum) bs.

Lemma dents_linked : dents linked =
  if decide (dslot bs < length bs / 16)%nat then <[dslot bs := entry name inum]> (dents bs) else dents bs ++ [entry name inum].
Proof. apply dents_overlay; [done|apply length_entry|apply dslot_le]. Qed.

Lemma dslot_unused p de : dents bs !! dslot bs = Some de -> named p de = false.
Proof.
  intros Hd. pose proof (lookup_lt_Some _ _ _ Hd) as Hlt. rewrite length_dents in Hlt. unfold dslot in Hd, Hlt.
  destruct (find_idx _ _) as [k|] eqn:E; cbn [from_option id] in Hd, Hlt; [|lia].
  apply find_from_Some in E as (_ & (x & Hx & Hz) & _). rewrite Nat.sub_0_r in Hx. simplify_eq.
  unfold named. by rewrite Hz.
Qed.

Lemma linked_here : dents linked !! dslot bs = Some (entry name inum).
Proof.
  rewrite dents_linked. pose proof (dslot_le bs). destruct (decide _).
  - apply list_lookup_insert_eq. by rewrite length_dents.
  - rewrite lookup_app_r, length_dents by (rewrite length_dents; lia). by replace (_ - _)%nat with 0%nat by lia.
Qed.

Lemma linked_there k : k <> dslot bs -> dents linked !! k = dents bs !! k.
Proof.
  intros Hk. rewrite dents_linked. pose proof (dslot_le bs). destruct (decide _); [by rewrite list_lookup_insert_ne|].
  destruct (decide (k < length bs / 16)%nat); [by rewrite lookup_app_l by (rewrite length_dents; lia)|].
  rewrite !lookup_ge_None_2; [done|rewrite length_dents; lia|rewrite length_app, length_dents; cbn [length]; lia].
Qed.

Lemma dfind_linked p : chars_ok p -> dfind bs name = None -> Str.agree p name (Z.to_nat DIRSIZ) ->
  dfind linked p = Some (dslot bs).
Proof.
  intros Hp Hn Ha. eapply find_first; [apply linked_here|by apply entry_named|].
  intros j de Hj. rewrite linked_there by lia. intros Hd. rewrite (named_agree p name) by done.
  apply (proj1 (find_from_None _ _ _) Hn). by eapply list_elem_of_lookup_2.
Qed.

Lemma dnum_linked p : chars_ok p -> dfind bs name = None ->
  (Str.agree p name (Z.to_nat DIRSIZ) -> dnum linked p = Some inum) /\
  (~ Str.agree p name (Z.to_nat DIRSIZ) -> dnum linked p = dnum bs p).
Proof.
  intros Hp Hn. split; intros Ha.
  - unfold dnum. rewrite dfind_linked, linked_here by done. change (Some (de_inum (entry name inum)) = Some inum). by rewrite entry_inum by lia.
  - assert (named p (entry name inum) = false) as Hf by (apply not_true_is_false; by rewrite entry_named).
    assert (dfind linked p = dfind bs p) as E.
    { unfold dfind. rewrite dents_linked. destruct (decide _) as [Hd|Hd]; [|by apply find_app].
      rewrite <- length_dents in Hd. apply lookup_lt_is_Some_2 in Hd as [de Hd].
      eapply find_insert; [exact Hd|by apply dslot_unused|done]. }
    unfold dnum. rewrite E. destruct (dfind bs p) as [k|] eqn:Ek; [|done].
    destruct (dfind_Some _ _ _ Ek) as (de & Hde & Hnm & _). rewrite linked_there; [done|].
    intros ->. by rewrite (dslot_unused p de Hde) in Hnm.
Qed.

Lemma length_linked : (16 * (length linked / 16))%nat = length linked.
Proof.
  pose proof (dslot_le bs). unfold linked, overlay. rewrite !length_app, length_take, length_drop, length_entry.
  replace (Z.to_nat (DIRENT * Z.of_nat (dslot bs))) with (16 * dslot bs)%nat by (unfold DIRENT; lia).
  replace (_ + _)%nat with (16 * Nat.max (length bs / 16) (S (dslot bs)))%nat by lia.
  rewrite (Nat.mul_comm 16 (Nat.max _ _)), Nat.div_mul by lia. lia.
Qed.
End Linked.

(** ** The inode cache *)

Definition holds (dev inum : Z) (x : inode) : bool := (0 <? i_ref x) && (i_dev x =? dev) && (i_inum x =? inum).
Definition unused (x : inode) : bool := i_ref x =? 0.
Definition more (x : inode) : inode := set_i_ref (i_ref x + 1) x.
Definition less (x : inode) : inode := set_i_ref (i_ref x - 1) x.
Definition recycled (dev inum : Z) (x : inode) : inode :=
  set_i_valid 0 (set_i_ref 1 (set_i_inum inum (set_i_dev dev x))).

(** What [iget] makes of the cache: the entry of the inode if there is one,
    else an unused one. *)
Definition igot (dev inum : Z) fs (ip : nat) fs' : Prop :=
  exists x, fs_inode fs !! ip = Some x /\
    (holds dev inum x = true /\ fs' = iset ip more fs \/
     (forall y, y ∈ fs_inode fs -> holds dev inum y = false) /\ unused x = true /\
     fs' = iset ip (recycled dev inum) fs).

Section Machine.
Context (km : kmstate) (cn : cnstate) (o : list (kstate -> kstate)).
Context (hw : hwstate) (i p : nat) (pid st size : Z).
Context `{CD : ConsoleDev}.
#[local] Existing Instance Memide.driver.
Implicit Types (fs : fsstate) (v : view) (w : world) (bl : list Z) (pt : ptstate) (bc : bcstate).

Definition iget_turn (dev inum : Z) '(k, empty) : K (nat * option nat + (nat + option nat)) :=
    if (NINODE <=? k)%nat then ret (inr (inr empty)) else
    ip <- geti k ;;
    if (0 <? i_ref ip) && (i_dev ip =? dev) && (i_inum ip =? inum) then
      updi k (fun ip => set_i_ref (i_ref ip + 1) ip) ;;
      release LIcache ;;
      ret (inr (inl k))
    else
      ret (inl (S k, match empty with
                     | None => if i_ref ip =? 0 then Some k else None
                     | Some _ => empty
                     end)).

Lemma loop_step {A R} n (body : A -> K (A + R)) a :
  loop_ (S n) body a = bind (body a) (fun x => match x with inl a' => loop_ n body a' | inr r => ret r end).
Proof. done. Qed.

Lemma iget_scan dev inum pt bc fs c : here hw i c -> touch i hw = hw -> lock_free hw LIcache ->
  length (fs_inode fs) = NINODE -> forall n k e, (k + n = NINODE)%nat ->
  loop_ (S n) (iget_turn dev inum) (k, e) (W (hw_acquire LIcache i hw) pt km bc fs cn o) =
    match find_from (holds dev inum) k (drop k (fs_inode fs)) with
    | Some j => Ok (inl j) (W hw pt km bc (iset j more fs) cn o)
    | None => Ok (inr (match e with Some _ => e | None => find_from unused k (drop k (fs_inode fs)) end))
        (W (hw_acquire LIcache i hw) pt km bc fs cn o)
    end.
Proof.
  intros Hh Ht Hl Hlen. induction n as [|n IH]; intros k e Hk; rewrite loop_step; unfold iget_turn at 1.
  - destruct (Nat.leb_spec NINODE k); [|lia]. krun. rewrite drop_ge by lia. cbn. by destruct e.
  - destruct (Nat.leb_spec NINODE k); [lia|]. destruct (lookup_lt_is_Some_2 (fs_inode fs) k) as [x Hx]; [lia|].
    rewrite (drop_S _ x) by done. cbn [find_from]. unfold holds at 1. rewrite bind_assoc. kcall geti_ok by exact Hx.
    destruct ((0 <? i_ref x) && _ && _).
    + unfold updi. krun. kcall release_acquired by done. rewrite Ht. krun. done.
    + rewrite bind_ret, IH by lia. unfold unused at 2. destruct e; [done|]. by destruct (i_ref x =? 0).
Qed.

Lemma iget_eq dev inum pt bc fs c : here hw i c -> touch i hw = hw -> lock_free hw LIcache ->
  length (fs_inode fs) = NINODE -> (exists x, x ∈ fs_inode fs /\ (holds dev inum x = true \/ unused x = true)) ->
  exists ip fs', iget dev inum (W hw pt km bc fs cn o) = Ok ip (W hw pt km bc fs' cn o) /\ igot dev inum fs ip fs'.
Proof.
  intros Hh Ht Hl Hlen (x & Hin & Hx). unfold iget. kcall acquire_ok by (done || apply Hl).
  change (loop_ (S NINODE) _) with (loop_ (S NINODE) (iget_turn dev inum)).
  pose proof (iget_scan dev inum pt bc fs c Hh Ht Hl Hlen NINODE 0 None eq_refl) as E. rewrite drop_0 in E.
  destruct (find_from (holds dev inum) 0 (fs_inode fs)) as [j|] eqn:Ej.
  { erewrite bind_ok by exact E. exists j, (iset j more fs). split; [done|].
    apply find_from_Some in Ej as (_ & (y & Hy & HP) & _). rewrite Nat.sub_0_r in Hy. exists y. auto. }
  erewrite bind_ok by exact E. rewrite find_from_None in Ej.
  destruct Hx as [Hx|Hx]; [by rewrite Ej in Hx|].
  destruct (find_from unused 0 (fs_inode fs)) as [j|] eqn:Eu; [|by rewrite (proj1 (find_from_None _ _ _) Eu) in Hx].
  unfold updi. krun. kcall release_acquired by done. rewrite Ht. krun.
  eexists j, _. split; [done|]. apply find_from_Some in Eu as (_ & (y & Hy & HP) & _). rewrite Nat.sub_0_r in Hy.
  exists y. split; [done|]. right. split_and!; [done..|]. unfold iset. cbn. by rewrite !list_alter_alter_eq.
Qed.

Context (dsk : diskT) (hist : list diskT) (nops : Z).
Abbreviation sees := (Fsview.sees km cn o hw i p pid st size dsk hist nops).

Lemma iget_v dev inum fs H bl v w Q : sees fs H bl v w -> lock_free hw LIcache ->
  length (fs_inode fs) = NINODE -> (exists x, x ∈ fs_inode fs /\ (holds dev inum x = true \/ unused x = true)) ->
  (forall ip fs' w', igot dev inum fs ip fs' -> sees fs' H bl v w' -> Q ip w') -> wp (iget dev inum) Q w.
Proof.
  intros (pt & bc & l & -> & Hop & Hv) Hl Hlen Hx HQ. pose proof (io_calm _ _ _ _ _ _ _ _ _ _ _ _ _ _ Hop) as Hm.
  pose proof Hm as [(c & Hh & _) Ht _ _ _].
  destruct (iget_eq dev inum pt bc fs c Hh Ht Hl Hlen Hx) as (ip & fs' & E & Hg). unfold wp. rewrite E.
  eapply HQ; [exact Hg|]. by exists pt, bc, l.
Qed.

(** A change to a cache entry under the lock of the cache. *)
Lemma icache_v ip f fs H bl v w Q : sees fs H bl v w -> lock_free hw LIcache ->
  (forall w', sees (iset ip f fs) H bl v w' -> Q tt w') -> wp (acquire LIcache ;; updi ip f ;; release LIcache) Q w.
Proof.
  intros (pt & bc & l & -> & Hop & Hv) Hl HQ. pose proof (io_calm _ _ _ _ _ _ _ _ _ _ _ _ _ _ Hop) as Hm.
  pose proof Hm as [(c & Hh & _) Ht _ _ _]. unfold wp. kcall acquire_ok by (done || apply Hl). unfold updi. krun.
  erewrite release_acquired by done. rewrite Ht. apply HQ. by exists pt, bc, l.
Qed.

Abbreviation ilocked := (Fileio.ilocked pid).

(** [iput] of an inode that stays on disk. *)
Lemma iput_v ip x fs H bl v w Q : sees fs H bl v w -> lock_free hw LIcache -> lock_free hw (LInode ip) ->
  fs_inode fs !! ip = Some x -> sl_locked (i_lock x) = 0 -> (i_valid x = 0 \/ i_nlink x <> 0) ->
  (forall w', sees (iset ip (fun _ => less (iunlocked x)) fs) H bl v w' -> Q tt w') -> wp (iput ip) Q w.
Proof.
  intros Hs Hl Hli Hx Hf Hk HQ. unfold iput. apply wp_bind. eapply acquiresleep_v; [done..|].
  intros w1 H1. eapply geti_v; [exact H1|by apply iset_at|].
  replace (negb (i_valid (ilocked x) =? 0) && (i_nlink (ilocked x) =? 0)) with false.
  2:{ cbn. destruct (Z.eqb_spec (i_valid x) 0); [done|]. destruct (Z.eqb_spec (i_nlink x) 0); [|done]. by destruct Hk. }
  apply wp_bind, wp_ret, wp_bind. eapply releasesleep_v; [exact Hli|exact H1|]. intros w2 H2.
  eapply icache_v; [exact H2|done|]. intros w3 H3. apply HQ. rewrite !iset_iset in H3.
  by erewrite iset_ext; [exact H3|exact Hx|].
Qed.

(** [ilock] of an inode that is not in memory yet reads it from its block. *)
Definition loaded sb v (x : inode) : inode := set_i_valid 1 (dinode_at sb v (i_inum x) (ilocked x)).

Lemma ilock_load_v sb ip x fs bl v w Q : sees fs [] bl v w -> fs_sb fs = sb -> lock_free hw (LInode ip) ->
  fs_inode fs !! ip = Some x -> sl_locked (i_lock x) = 0 -> 1 <= i_ref x -> i_dev x = 1 -> i_valid x = 0 ->
  in_disk dsk (IBLOCK (i_inum x) sb) -> is_Some (v (IBLOCK (i_inum x) sb)) -> i_type (loaded sb v x) <> 0 ->
  (forall w', sees (iset ip (loaded sb v) fs) [] bl v w' -> Q tt w') -> wp (ilock (Some ip)) Q w.
Proof.
  intros Hs Hsb Hli Hx Hf Hr Hdev Hva Hd [d Hv] Hty HQ. unfold ilock. eapply geti_v; [exact Hs|exact Hx|].
  destruct (Z.ltb_spec (i_ref x) 1); [lia|]. apply wp_bind. eapply acquiresleep_v; [done..|].
  intros w1 H1. eapply geti_v; [exact H1|by apply iset_at|].
  change (i_valid (ilocked x)) with (i_valid x). change (i_dev (ilocked x)) with (i_dev x).
  change (i_inum (ilocked x)) with (i_inum x). rewrite Hva, Hdev. cbn [Z.eqb].
  eapply getfs_v; [exact H1|]. change (fs_sb (iset ip ilocked fs)) with (fs_sb fs). rewrite Hsb.
  apply wp_bind. eapply bread_v; [exact H1|done|set_solver|by eapply sees_small|].
  intros j w2 H2. eapply getb_v; [exact H2|by left|exact Hv|]. intros b Hb. rewrite Hb.
  apply wp_bind. eapply updi_v; [exact H2|]. intros w3 H3. apply wp_bind. eapply brelse_v; [exact H3|]. intros w4 H4.
  apply wp_bind. eapply updi_v; [exact H4|]. intros w5 H5. rewrite !iset_iset in H5.
  erewrite (iset_ext _ _ (loaded sb v)) in H5 by (exact Hx || (unfold loaded, dinode_at; by rewrite Hv)).
  eapply geti_v; [exact H5|by apply iset_at|]. destruct (Z.eqb_spec (i_type (loaded sb v x)) 0); [done|].
  apply wp_ret. by apply HQ.
Qed.

(** ** Reading a directory *)

Context (sb : superblock) (ds : Z) (Hds : 0 < ds).
Abbreviation layout := (Fsview.layout st size dsk sb ds).

(** A directory whose blocks are in order and hold whole entries. *)
Record dir_ok v (x : inode) : Prop := {
  do_type : i_type x = T_DIR;
  do_file : file_ok sb ds v (i_addrs x);
  do_filled : filled v x;
  do_size : 0 <= i_size x;
  do_whole : i_size x mod DIRENT = 0;
}.

Section Dir.
Context (fs : fsstate) (bl : list Z) (v : view) (dp : nat) (x : inode).
Context (Hx : fs_inode fs !! dp = Some x) (Hdev : i_dev x = 1) (HL : layout v) (HD : dir_ok v x).

Lemma dir_size : i_size x <= MAXFILE * BSIZE /\ (16 * (length (bytes v x) / 16))%nat = length (bytes v x) /\
  dir_entries x = (length (bytes v x) / 16)%nat.
Proof.
  pose proof HD as [D1 D2 D3 D4 D5]. pose proof (length_bytes v x D4) as Hl. unfold dir_entries, DIRENT in *.
  split; [|split].
  - destruct (Z.eq_dec (i_size x) 0) as [->|Hne]; [done|]. destruct (D3 (i_size x - 1) ltac:(lia)) as [Hm _].
    unfold BSIZE in *. Z.div_mod_to_equations. lia.
  - pose proof (Nat.div_mod_eq (length (bytes v x)) 16) as E.
    assert (Z.of_nat (length (bytes v x) mod 16) = 0) by (rewrite Nat2Z.inj_mod, Hl; exact D5). lia.
  - apply Nat2Z.inj. rewrite Nat2Z.inj_div, Hl. rewrite Z2Nat.id by (apply Z.div_pos; lia).
    change (Z.of_nat 16) with 16. Z.div_mod_to_equations. lia.
Qed.

Lemma read_dirent_v k msg w Q : sees fs [] bl v w -> (k < dir_entries x)%nat ->
  (forall w' de, sees fs [] bl v w' -> dents (bytes v x) !! k = Some de -> Q de w') -> wp (read_dirent dp k msg) Q w.
Proof.
  intros Hs Hk HQ. destruct dir_size as (S1 & S2 & S3). pose proof HD as [D1 D2 D3 D4 D5].
  pose proof (length_bytes v x D4) as Hl. change (MAXFILE * BSIZE) with 71680 in S1.
  unfold read_dirent. apply wp_bind.
  eapply (readi_v sb ds Hds st size dsk km cn o hw i p pid hist nops fs bl v dp x); [done..|by rewrite D1|unfold DIRENT; lia|done|unfold DIRENT, W32; lia|].
  intros w' Hs'. rewrite sub_bytes by (unfold DIRENT; lia). cbn [fst snd].
  replace (Z.min DIRENT _) with DIRENT by (unfold DIRENT in *; lia). rewrite Z.eqb_refl. apply wp_ret, HQ; [done|].
  rewrite lookup_dents by lia. do 2 f_equal. unfold DIRENT. lia.
Qed.

(** [dirlookup] finds the entry with the name, and takes a reference to its
    inode. *)
Lemma dirlookup_v name w Q : sees fs [] bl v w -> lock_free hw LIcache -> length (fs_inode fs) = NINODE ->
  (forall n, dnum (bytes v x) name = Some n -> exists y, y ∈ fs_inode fs /\ (holds 1 n y = true \/ unused y = true)) ->
  (forall w', sees fs [] bl v w' -> dfind (bytes v x) name = None -> Q None w') ->
  (forall k n ip fs' w', dfind (bytes v x) name = Some k -> dnum (bytes v x) name = Some n -> igot 1 n fs ip fs' ->
    sees fs' [] bl v w' -> Q (Some (ip, DIRENT * Z.of_nat k)) w') ->
  wp (dirlookup dp name) Q w.
Proof.
  intros Hs Hl Hlen Hroom HN HS. destruct dir_size as (_ & _ & He). unfold dirlookup.
  eapply geti_v; [exact Hs|exact Hx|]. rewrite (do_type _ _ HD), Z.eqb_refl. cbn [negb].
  set (l := dents (bytes v x)) in *.
  eapply wp_mono; [apply (wp_for _ (fun k w' => sees fs [] bl v w' /\ forall j de, (j < k)%nat -> l !! j = Some de -> named name de = false)
    (fun r w' => Q (Some r) w'))|].
  3:{ intros [r|] w'; [done|]. intros [Hs' Hno]. apply HN; [done|]. apply find_from_None. intros de [j Hj]%list_elem_of_lookup_1.
    eapply Hno; [|exact Hj]. apply lookup_lt_Some in Hj. unfold l in Hj. rewrite length_dents in Hj. lia. }
  - split; [done|]. intros j de. lia.
  - intros k w' Hk [Hs' Hno]. apply wp_bind. eapply read_dirent_v; [exact Hs'|lia|]. intros w1 de H1 Hde. fold l in Hde.
    assert (named name de = false -> forall j de', (j < S k)%nat -> l !! j = Some de' -> named name de' = false) as Hnext.
    { intros Hf j de' Hj Hd. destruct (decide (j = k)) as [->|]; [by simplify_eq|]. eapply Hno; [|exact Hd]. lia. }
    unfold named at 1 in Hnext. destruct (Z.eqb_spec (de_inum de) 0) as [E0|E0]; [apply wp_ret; split; [done|by apply Hnext]|].
    destruct (Z.eqb_spec (namecmp name (from (de_name de))) 0) as [E1|E1]; [|apply wp_ret; split; [done|by apply Hnext]].
    assert (dfind (bytes v x) name = Some k) as Ef.
    { eapply find_first; [exact Hde| |exact Hno]. unfold named. destruct (Z.eqb_spec (de_inum de) 0); [done|].
      by rewrite E1. }
    assert (dnum (bytes v x) name = Some (de_inum de)) as En by (unfold dnum; rewrite Ef; fold l; by rewrite Hde).
    eapply geti_v; [exact H1|exact Hx|]. rewrite Hdev. apply wp_bind.
    eapply iget_v; [exact H1|done|done|by apply Hroom|]. intros ip fs' w2 Hg H2. apply wp_ret. by eapply HS.
Qed.

(** [dirlink] of a name that is not there: it is entered in the first free
    entry, or after the last one. *)
Lemma dirlink_slot msg w Q : sees fs [] bl v w ->
  (forall w', sees fs [] bl v w' -> Q (find_idx (fun de => de_inum de =? 0) (dents (bytes v x))) w') ->
  wp (for_ (dir_entries x) 0 (fun k => de <- read_dirent dp k msg ;; ret (if de_inum de =? 0 then Some k else None))) Q w.
Proof.
  intros Hs HQ. destruct dir_size as (_ & _ & He). set (l := dents (bytes v x)) in *.
  eapply wp_mono; [apply (wp_for _ (fun k w' => sees fs [] bl v w' /\
      forall j de, (j < k)%nat -> l !! j = Some de -> (de_inum de =? 0) = false)
    (fun r w' => sees fs [] bl v w' /\ find_idx (fun de => de_inum de =? 0) l = Some r))|].
  3:{ intros [r|] w'; intros [Hs' Hno]; [rewrite <- Hno; by apply HQ|].
    rewrite <- (proj2 (find_from_None (fun de => de_inum de =? 0) l 0)); [by apply HQ|]. intros de [j Hj]%list_elem_of_lookup_1.
    eapply Hno; [|exact Hj]. apply lookup_lt_Some in Hj. unfold l in Hj. rewrite length_dents in Hj. lia. }
  - split; [done|]. intros j de. lia.
  - intros k w' Hk [Hs' Hno]. apply wp_bind. eapply read_dirent_v; [exact Hs'|lia|]. intros w1 de H1 Hde. fold l in Hde.
    apply wp_ret. destruct (de_inum de =? 0) eqn:E; (split; [done|]).
    + by eapply find_first.
    + intros j de' Hj Hd. destruct (decide (j = k)) as [->|]; [by simplify_eq|]. eapply Hno; [|exact Hd]. lia.
Qed.

Context (Hops : 1 <= nops) (Hsb : fs_sb fs = sb) (HG : good st size sb ds dsk v x).

Lemma dirlink_v name inum w Q : sees fs [] bl v w -> lock_free hw LIcache -> length (fs_inode fs) = NINODE ->
  dnum (bytes v x) name = None -> let off := DIRENT * Z.of_nat (dslot (bytes v x)) in
  off + DIRENT <= MAXFILE * BSIZE -> can_write sb size v (i_addrs x) bl off DIRENT 0 ->
  (forall w' v' x' bl', sees (iset dp (fun _ => x') fs) [] bl' v' w' -> good st size sb ds dsk v' x' ->
    bytes v' x' = linked (bytes v x) name inum -> x' = set_i_size (i_size x') (set_i_addrs (i_addrs x') x) -> Q 0 w') ->
  wp (dirlink dp name inum) Q w.
Proof.
  intros Hs Hl Hlen Hn off Hmax Hcan HQ. unfold dirlink. apply wp_bind.
  eapply dirlookup_v; [exact Hs|done|done|by rewrite Hn| |by rewrite Hn]. intros w1 H1 _.
  eapply geti_v; [exact H1|exact Hx|]. apply wp_bind. eapply dirlink_slot; [exact H1|]. intros w2 H2.
  destruct dir_size as (_ & Hw & ->). fold (dslot (bytes v x)). fold off. cbn zeta. fold (entry name inum). apply wp_bind.
  pose proof HG as [G1 G2 G3 G4 G5 G6]. pose proof (dslot_le (bytes v x)) as Hk.
  pose proof (length_bytes v x (do_size _ _ HD)) as Hlb.
  assert (0 <= off <= i_size x) as Ho by (unfold off, DIRENT; lia).
  assert (Z.of_nat (length (entry name inum)) = DIRENT) as He by (by rewrite length_entry).
  eapply (writei_v sb ds Hds st size dsk km cn o hw i p pid hist nops Hops fs bl v w2 dp x off (entry name inum) 0);
    [exact H2|exact Hx|done|done|by rewrite (do_type _ _ HD)|done..|by rewrite He, Z.add_0_r|by rewrite He|].
  intros w3 v3 x3 bl3 H3 HW _. rewrite He, Z.eqb_refl. cbn [negb]. apply wp_ret.
  eapply HQ; [exact H3|by eapply written_good|by eapply written_overlay|apply HW].
Qed.
End Dir.

(** A directory that [dirlink] has written is one again. *)
Lemma good_dir_ok v x : good st size sb ds dsk v x -> i_type x = T_DIR -> (16 * (length (bytes v x) / 16))%nat = length (bytes v x) ->
  dir_ok v x.
Proof.
  intros Hg Ht Hw. pose proof Hg as [G1 G2 G3 G4 G5 G6]. pose proof (fo_size _ G4) as Hs. split; [done..|lia|].
  rewrite <- (length_bytes v x) by lia. unfold DIRENT. rewrite <- Hw, Nat2Z.inj_mul, Z.mul_comm. apply Z.mod_mul. lia.
Qed.

(** ** Names that are found *)

Definition inodes w : list inode := fs_inode (k_fs (w_k w)).

(** [dirlookup] on [dp] finds inode [n] under the name [q], and returns a
    reference to it. *)
Definition finds (dp : nat) (q : cstr) (n : Z) w : Prop :=
  exists ip off w' y, dirlookup dp q w = Ok (Some (ip, off)) w' /\
    inodes w' !! ip = Some y /\ i_dev y = 1 /\ i_inum y = n /\ 0 < i_ref y.

(** The state in which a directory is used: its inode is in memory and in
    order, and the cache has an entry to spare. *)
Record dir_open fs v (dp : nat) (x : inode) : Prop := {
  dn_at : fs_inode fs !! dp = Some x;
  dn_dev : i_dev x = 1;
  dn_ref : 0 < i_ref x;
  dn_sb : fs_sb fs = sb;
  dn_good : good st size sb ds dsk v x;
  dn_dir : dir_ok v x;
  dn_lock : lock_free hw LIcache;
  dn_len : length (fs_inode fs) = NINODE;
  dn_spare : exists y, y ∈ fs_inode fs /\ i_ref y = 0;
}.

Lemma igot_at dev n fs ip fs' : igot dev n fs ip fs' ->
  exists y, fs_inode fs' !! ip = Some y /\ i_dev y = dev /\ i_inum y = n /\ 0 < i_ref y.
Proof.
  intros (x & Hx & [[Hh ->] | (_ & Hu & ->)]).
  - exists (more x). split; [by apply iset_at|]. unfold holds in Hh. cbn. lia.
  - exists (recycled dev n x). split; [by apply iset_at|]. done.
Qed.

Lemma finds_dnum fs bl v dp x q n w : sees fs [] bl v w -> dir_open fs v dp x ->
  finds dp q n w <-> dnum (bytes v x) q = Some n.
Proof.
  intros Hs [D1 D2 D3 D4 D5 D6 D7 D8 (y & Hy & Hu)].
  assert (wp (dirlookup dp q) (fun r w' => match r with
    | None => dnum (bytes v x) q = None
    | Some (ip, _) => exists n' y, dnum (bytes v x) q = Some n' /\
        inodes w' !! ip = Some y /\ i_dev y = 1 /\ i_inum y = n' /\ 0 < i_ref y end) w) as Hwp.
  { eapply (dirlookup_v fs bl v dp x); [done|done|apply D5|done|done|done|done| | |].
    - intros n' _. exists y. split; [done|]. right. unfold unused. lia.
    - intros w' _ E. by apply dnum_None.
    - intros k n' ip fs' w' _ En Hg (pt & bc & l & -> & _). destruct (igot_at _ _ _ _ _ Hg) as (z & Hz & R).
      exists n', z. split; [done|]. split; [exact Hz|done]. }
  apply wp_inv in Hwp as (r & w' & E & HP). split.
  - intros (ip & off & w2 & z & E2 & Hz & R1 & R2 & R3). rewrite E in E2. injection E2 as -> ->.
    destruct HP as (n' & z' & -> & Hz' & _ & <- & _). congruence.
  - intros En. destruct r as [[ip off]|]; [|congruence]. destruct HP as (n' & z & En' & Hz & R1 & R2 & R3).
    exists ip, off, w', z. rewrite En in En'. injection En' as ->. done.
Qed.

(** C10: A name entered is found.  [dirlink] of a name that is not in the
    directory returns 0; then [dirlookup] finds the inode entered under every
    spelling that agrees with the name up to its end or to [DIRSIZ] bytes, and
    under every other name it finds what it found before, also when the entry
    took the place of a removed one or the directory grew.  The directory is
    locked by the caller and in good order, and the disk has the free blocks that
    its growth may take. *)
Theorem dirlink_found fs v dp x name inum w :
  11 <= size -> 1 <= nops -> sees fs [] [] v w -> dir_open fs v dp x ->
  chars_ok name -> 0 < inum < 65536 -> (forall n, ~ finds dp name n w) ->
  i_size x + DIRENT <= MAXFILE * BSIZE ->
  supply sb v (i_addrs x) (DIRENT * Z.of_nat (dslot (bytes v x))) DIRENT ->
  exists w', dirlink dp name inum w = Ok 0 w' /\ forall q, chars_ok q ->
    (Str.agree q name (Z.to_nat DIRSIZ) -> forall n, finds dp q n w' <-> n = inum) /\
    (~ Str.agree q name (Z.to_nat DIRSIZ) -> forall n, finds dp q n w' <-> finds dp q n w).
Proof.
  intros Hsz Hops Hs HO Hc Hi Hno Hmax Hsup. pose proof HO as [D1 D2 D3 D4 D5 D6 D7 D8 (z & Hz & Hu)].
  destruct (dir_size v x D6) as (_ & Hw & _). pose proof (dslot_le (bytes v x)) as Hk.
  pose proof (length_bytes v x (do_size _ _ D6)) as Hlb.
  assert (dnum (bytes v x) name = None) as En.
  { destruct (dnum (bytes v x) name) as [n|] eqn:E; [|done]. exfalso. eapply Hno. by eapply finds_dnum. }
  assert (wp (dirlink dp name inum) (fun r w' => r = 0 /\ exists v' x' bl', sees (iset dp (fun _ => x') fs) [] bl' v' w' /\
    bytes v' x' = linked (bytes v x) name inum /\ dir_open (iset dp (fun _ => x') fs) v' dp x') w) as Hwp.
  { eapply (dirlink_v fs [] v dp x); [done|done|apply D5|done|done|done|done|done|done|done|done|unfold DIRENT in *; lia| |].
    - eapply can_write_start; [exact Hds|done|exact D5|unfold DIRENT in *; lia|done|by rewrite Z.add_0_r].
    - intros w' v' x' bl' Hs' Hg Hb Ex. split; [done|]. exists v', x', bl'. split; [done|]. split; [done|].
      split; [by apply (iset_at dp (fun _ => x') x)|by rewrite Ex..|done|done| |done| |].
      + apply good_dir_ok; [done|rewrite Ex; apply D6|]. rewrite Hb. by apply length_linked.
      + cbn. by rewrite length_alter.
      + exists z. split; [|done]. apply list_elem_of_lookup_1 in Hz as [j Hj]. apply list_elem_of_lookup. exists j.
        cbn. rewrite list_lookup_alter_ne; [done|]. intros ->. rewrite D1 in Hj. injection Hj as ->. lia. }
  apply wp_inv in Hwp as (r & w' & E & -> & v' & x' & bl' & Hs' & Hb & HO'). exists w'. split; [done|]. intros q Hq.
  destruct (dnum_linked (bytes v x) name inum Hw Hc Hi q Hq) as [L1 L2]; [by apply dnum_None|].
  split; intros Ha n; rewrite (finds_dnum _ _ _ _ _ q n w' Hs' HO'), Hb.
  - rewrite L1 by done. split; congruence.
  - by rewrite L2, (finds_dnum _ _ _ _ _ q n w Hs HO).
Qed.

(** ** References *)

Definition weight (n : Z) (x : inode) : Z := if i_inum x =? n then i_ref x else 0.
(** The references to inode [n] that the cache counts. *)
Definition refs fs (n : Z) : Z := foldr (fun x s => weight n x + s) 0 (fs_inode fs).
Definition one (n m : Z) : Z := if m =? n then 1 else 0.
(** The inodes that have references. *)
Definition busy fs : list Z := i_inum <$> filter (fun x => 0 < i_ref x) (fs_inode fs).

Lemma refs_iset ip f x fs n : fs_inode fs !! ip = Some x -> refs (iset ip f fs) n = refs fs n - weight n x + weight n (f x).
Proof.
  unfold refs, iset. cbn [fs_inode set_fs_inode]. generalize (fs_inode fs). intros l. revert ip.
  induction l as [|y l IH]; intros ip Hx; [done|]. destruct ip as [|ip]; cbn in Hx |- *; [simplify_eq; lia|].
  change (list_alter f ip l) with (alter f ip l). rewrite (IH ip Hx). lia.
Qed.

Definition dnode v (n : Z) : inode := dinode_at sb v n zinode.
Definition same_fields (x y : inode) : Prop := with_fields x zinode = with_fields y zinode.

(** An entry of the cache: locked by this process or not at all; and in use for
    an inode of the disk, as the disk has it once it has been read. *)
Record entry_ok v (lk : Prop) (x : inode) : Prop := {
  eo_ref : 0 <= i_ref x;
  eo_held : lk -> sl_locked (i_lock x) <> 0 /\ sl_pid (i_lock x) = pid /\ 0 < i_ref x;
  eo_free : ~ lk -> sl_locked (i_lock x) = 0;
  eo_dev : 0 < i_ref x -> i_dev x = 1;
  eo_sync : 0 < i_ref x -> i_valid x <> 0 -> same_fields x (dnode v (i_inum x));
}.

(** The cache, with the entry [L] locked: no inode has two entries. *)
Record icache_ok v (L : option nat) fs : Prop := {
  ic_len : length (fs_inode fs) = NINODE;
  ic_sb : fs_sb fs = sb;
  ic_entry : forall j x, fs_inode fs !! j = Some x -> entry_ok v (L = Some j) x;
  ic_uniq : forall j k x y, fs_inode fs !! j = Some x -> fs_inode fs !! k = Some y ->
    0 < i_ref x -> 0 < i_ref y -> i_inum x = i_inum y -> j = k;
}.

Lemma lookup_iset ip f x fs j y : fs_inode fs !! ip = Some x -> fs_inode (iset ip f fs) !! j = Some y ->
  j = ip /\ y = f x \/ j <> ip /\ fs_inode fs !! j = Some y.
Proof.
  intros Hx. unfold iset. cbn [fs_inode set_fs_inode]. destruct (decide (j = ip)) as [->|Hne].
  - rewrite list_lookup_alter_eq, Hx. intros [= <-]. by left.
  - rewrite list_lookup_alter_ne by done. by right.
Qed.

(** A change of one entry that is for the same inode still. *)
Lemma icache_iset v L L' fs ip x f : icache_ok v L fs -> fs_inode fs !! ip = Some x ->
  (forall j, j <> ip -> L = Some j <-> L' = Some j) -> entry_ok v (L' = Some ip) (f x) ->
  (0 < i_ref (f x) -> 0 < i_ref x /\ i_inum (f x) = i_inum x) -> icache_ok v L' (iset ip f fs).
Proof.
  intros [C1 C2 C3 C4] Hx HL' He Hr. split; [cbn; by rewrite length_alter|done| |].
  - intros j y Hy. destruct (lookup_iset _ _ _ _ _ _ Hx Hy) as [[-> ->] | [Hne Hy']]; [done|].
    destruct (C3 j y Hy') as [E1 E2 E3 E4 E5]. by split; rewrite <- ?HL' by done.
  - intros j k y z Hy Hz Py Pz E.
    destruct (lookup_iset _ _ _ _ _ _ Hx Hy) as [[-> ->] | [Hj Hy']], (lookup_iset _ _ _ _ _ _ Hx Hz) as [[-> ->] | [Hk Hz']];
      [done| | |by eapply C4]; (destruct Hr as [Hr1 Hr2]; [done|]); rewrite Hr2 in E; by eapply C4.
Qed.

(** [iget] keeps the cache in order and counts the reference. *)
Lemma igot_ok v L n fs ip fs' : icache_ok v L fs -> igot 1 n fs ip fs' ->
  icache_ok v L fs' /\ forall m, refs fs' m = refs fs m + one n m.
Proof.
  intros HC (x & Hx & [[Hh ->] | (Hno & Hu & ->)]); pose proof (ic_entry _ _ _ HC _ _ Hx) as He.
  - unfold holds in Hh. assert (0 < i_ref x /\ i_inum x = n) as [Hr <-] by lia. split.
    + eapply icache_iset; [done|exact Hx|done| |cbn; lia]. destruct He as [E1 E2 E3 E4 E5]. split; cbn; auto with lia.
      intros Hl. destruct (E2 Hl) as (? & ? & ?). split_and!; [done..|lia].
    + intros m. rewrite (refs_iset _ _ x) by done. unfold weight, one. cbn. rewrite (Z.eqb_sym m).
      destruct (i_inum x =? m); lia.
  - unfold unused in Hu. assert (i_ref x = 0) as Hr by lia. split.
    + pose proof HC as [C1 C2 C3 C4]. split; [cbn; by rewrite length_alter|done| |].
      * intros j y Hy. destruct (lookup_iset _ _ _ _ _ _ Hx Hy) as [[-> ->] | [Hne Hy']]; [|by apply C3].
        destruct He as [E1 E2 E3 E4 E5]. split; cbn; try done. intros Hl. destruct (E2 Hl). lia.
      * assert (forall k y, fs_inode fs !! k = Some y -> 0 < i_ref y -> i_inum y <> n) as Hn.
        { intros k y Hy Hry E. pose proof (Hno y ltac:(by eapply list_elem_of_lookup_2)) as Hf. unfold holds in Hf.
          pose proof (eo_dev _ _ _ (C3 _ _ Hy) Hry). lia. }
        intros j k y z Hy Hz Py Pz E.
        destruct (lookup_iset _ _ _ _ _ _ Hx Hy) as [[-> ->] | [Hj Hy']], (lookup_iset _ _ _ _ _ _ Hx Hz) as [[-> ->] | [Hk Hz']];
          [done| | |by eapply C4]; cbn in E; exfalso; by eapply Hn.
    + intros m. rewrite (refs_iset _ _ x) by done. unfold weight, one. cbn. rewrite (Z.eqb_sym m), Hr.
      destruct (i_inum x =? m), (n =? m); lia.
Qed.

Lemma refs_nonneg fs m : (forall x, x ∈ fs_inode fs -> 0 <= i_ref x) -> 0 <= refs fs m.
Proof.
  unfold refs. induction (fs_inode fs) as [|x l IH]; intros Hr; [done|]. cbn. pose proof (Hr x ltac:(left)).
  specialize (IH ltac:(intros y ?; apply Hr; by right)). unfold weight at 1. destruct (_ =? _); lia.
Qed.

Lemma refs_has fs x : (forall x, x ∈ fs_inode fs -> 0 <= i_ref x) -> x ∈ fs_inode fs -> i_ref x <= refs fs (i_inum x).
Proof.
  intros Hr. pose proof (fun l (H : forall x, x ∈ l -> 0 <= i_ref x) => refs_nonneg (set_fs_inode l fs) (i_inum x) H) as Hn.
  unfold refs in *. cbn [fs_inode set_fs_inode] in Hn. revert Hr. induction (fs_inode fs) as [|y l IH]; intros Hr; [by intros ?%elem_of_nil|].
  assert (forall x, x ∈ l -> 0 <= i_ref x) as Hl by (intros z ?; apply Hr; by right). pose proof (Hn l Hl). pose proof (Hr y ltac:(left)).
  cbn [foldr]. intros [-> | Hin]%elem_of_cons.
  - unfold weight at 1. rewrite Z.eqb_refl. lia.
  - specialize (IH Hl Hin). unfold weight at 1. destruct (_ =? _); lia.
Qed.

Lemma refs_busy fs m : 0 < refs fs m -> m ∈ busy fs.
Proof.
  unfold refs, busy. induction (fs_inode fs) as [|x l IH]; [done|]. cbn [foldr]. unfold weight at 1.
  rewrite filter_cons. destruct (Z.eqb_spec (i_inum x) m) as [<-|]; destruct (decide (0 < i_ref x)); cbn; intros H.
  - by left.
  - apply IH. lia.
  - right. by apply IH.
  - by apply IH.
Qed.

(** While few inodes are in use, an entry of the cache is not. *)
Lemma spare v L fs (B : list Z) : icache_ok v L fs -> (forall m, 0 < refs fs m -> m ∈ B) -> (length B < NINODE)%nat ->
  exists y, y ∈ fs_inode fs /\ unused y = true.
Proof.
  intros [C1 C2 C3 C4] HB Hlen. destruct (find_idx unused (fs_inode fs)) as [j|] eqn:E.
  { apply find_from_Some in E as (_ & (y & Hy & HP) & _). exists y. split; [by eapply list_elem_of_lookup_2|done]. }
  exfalso. rewrite find_from_None in E.
  assert (forall x, x ∈ fs_inode fs -> 0 < i_ref x) as Hr.
  { intros x Hin. pose proof (E x Hin) as Hu. unfold unused in Hu. apply list_elem_of_lookup_1 in Hin as [j Hj].
    pose proof (eo_ref _ _ _ (C3 j x Hj)). lia. }
  assert (i_inum <$> fs_inode fs ⊆+ B) as Hsub%submseteq_length.
  { apply NoDup_submseteq.
    - apply NoDup_alt. intros j k n. rewrite !list_lookup_fmap. intros (x & Hx & ->)%fmap_Some (y & Hy & Exy)%fmap_Some.
      eapply C4; [exact Hx|exact Hy|apply Hr; by eapply list_elem_of_lookup_2..|done].
    - intros n (x & -> & Hin)%list_elem_of_fmap. apply HB. pose proof (Hr x Hin).
      pose proof (refs_has fs x ltac:(intros z Hz; specialize (Hr z Hz); lia) Hin). lia. }
  rewrite length_fmap in Hsub. lia.
Qed.

(** ** The tree on disk *)

(** An inode of the tree: it is in use, linked, and in order if it is a
    directory. *)
Record node_ok v (n : Z) : Prop := {
  no_block : in_disk dsk (IBLOCK n sb) /\ is_Some (v (IBLOCK n sb));
  no_type : i_type (dnode v n) <> 0;
  no_nlink : i_nlink (dnode v n) <> 0;
  no_dir : i_type (dnode v n) = T_DIR -> dir_ok v (dnode v n);
}.
(** The inode under a name of a directory, and a set of inodes that no name
    leads out of. *)
Definition child v (n : Z) (q : cstr) : option Z := dnum (bytes v (dnode v n)) q.
Definition tree v (N : Z -> Prop) : Prop :=
  forall n, N n -> node_ok v n /\ (i_type (dnode v n) = T_DIR -> forall q m, child v n q = Some m -> N m).

(** The inode a sequence of names leads to; the directory that has the last of
    them. *)
Fixpoint resolve v (n : Z) (names : list (list Z)) : option Z :=
  match names with
  | [] => Some n
  | s :: r => if i_type (dnode v n) =? T_DIR
              then match child v n (from s) with Some m => resolve v m r | None => None end else None
  end.
Definition parent v (n : Z) (names : list (list Z)) : option Z :=
  match names with
  | [] => None
  | _ => match resolve v n (removelast names) with
         | Some d => if i_type (dnode v d) =? T_DIR then Some d else None
         | None => None
         end
  end.

Lemma dnum_agree bs q q' : Str.agree q q' (Z.to_nat DIRSIZ) -> dnum bs q = dnum bs q'.
Proof.
  intros Ha. unfold dnum. replace (dfind bs q) with (dfind bs q'); [done|]. unfold dfind.
  generalize 0%nat. induction (dents bs) as [|de l IH]; intros k; [done|].
  cbn. rewrite (named_agree q q') by done. destruct (named q' de); [done|]. apply IH.
Qed.

Section Walk.
Context (Hli : lock_free hw LIcache) (Hlk : forall j, lock_free hw (LInode j)).
Context (v : view) (bl : list Z) (N : Z -> Prop) (HL : layout v) (HT : tree v N).

(** A reference to inode [n]. *)
Definition refers fs (ip : nat) (n : Z) : Prop :=
  exists x, fs_inode fs !! ip = Some x /\ i_inum x = n /\ 0 < i_ref x.
(** The locked inode [n]. *)
Definition locked fs (ip : nat) (n : Z) : Prop :=
  exists x, fs_inode fs !! ip = Some x /\ i_inum x = n /\ 0 < i_ref x /\ i_valid x <> 0.

Lemma walk_lock fs ip n w Q : sees fs [] bl v w -> icache_ok v None fs -> refers fs ip n -> N n ->
  (forall fs' w', sees fs' [] bl v w' -> icache_ok v (Some ip) fs' -> locked fs' ip n ->
    (forall m, refs fs' m = refs fs m) -> Q tt w') -> wp (ilock (Some ip)) Q w.
Proof.
  intros Hs HC (x & Hx & <- & Hr) Hn HQ. pose proof (ic_entry _ _ _ HC _ _ Hx) as He.
  pose proof (eo_free _ _ _ He ltac:(done)) as Hf.
  destruct (HT _ Hn) as [[[B1 B2] B3 B4 B5] _].
  assert (forall f, i_inum (f x) = i_inum x -> i_ref (f x) = i_ref x -> i_dev (f x) = i_dev x -> i_valid (f x) <> 0 ->
    i_lock (f x) = i_lock (ilocked x) -> same_fields (f x) (dnode v (i_inum x)) ->
    forall w', sees (iset ip f fs) [] bl v w' -> Q tt w') as Hdone.
  { intros f E1 E2 E3 E4 E5 E6 w' Hs'. eapply HQ; [exact Hs'| | |].
    - eapply icache_iset; [exact HC|exact Hx|naive_solver| |by rewrite E1, E2].
      destruct He. split; rewrite ?E1, ?E2, ?E3, ?E5; try done.
    - exists (f x). rewrite E1, E2. split; [by apply iset_at|done].
    - intros m. rewrite (refs_iset _ _ x) by done. unfold weight. rewrite E1, E2. lia. }
  destruct (Z.eq_dec (i_valid x) 0) as [Hva|Hva].
  - eapply (ilock_load_v sb ip x); [exact Hs|apply HC|done|exact Hx|done|lia|by apply He|done|done|done|done|].
    apply Hdone; done.
  - eapply (ilock_v km cn o hw i p pid st size dsk hist nops fs [] bl v ip x); [done|apply Hlk|done|lia|done|done|].
    apply Hdone; try done. by apply He.
Qed.

Lemma node_fields fs L ip n x : icache_ok v L fs -> fs_inode fs !! ip = Some x -> i_inum x = n -> 0 < i_ref x -> i_valid x <> 0 ->
  i_type x = i_type (dnode v n) /\ i_nlink x = i_nlink (dnode v n) /\ i_size x = i_size (dnode v n) /\ i_addrs x = i_addrs (dnode v n).
Proof.
  intros HC Hx <- Hr Hva. pose proof (eo_sync _ _ _ (ic_entry _ _ _ HC _ _ Hx) Hr Hva) as E.
  unfold same_fields, with_fields in E. cbn in E. by injection E.
Qed.

Lemma walk_unlock fs ip n w Q : sees fs [] bl v w -> icache_ok v (Some ip) fs -> locked fs ip n ->
  (forall fs' x w', sees fs' [] bl v w' -> icache_ok v None fs' -> fs' = iset ip iunlocked fs ->
    fs_inode fs' !! ip = Some x -> i_inum x = n -> 0 < i_ref x -> i_valid x <> 0 ->
    (forall m, refs fs' m = refs fs m) -> Q tt w') -> wp (iunlock (Some ip)) Q w.
Proof.
  intros Hs HC (x & Hx & Hn & Hr & Hva) HQ. pose proof (ic_entry _ _ _ HC _ _ Hx) as He.
  destruct (eo_held _ _ _ He eq_refl) as (H1 & H2 & _).
  eapply (iunlock_v km cn o hw i p pid st size dsk hist nops fs [] bl v ip x); [done|apply Hlk|done|lia|done|done|].
  intros w' Hs'. eapply (HQ _ (iunlocked x)); [exact Hs'| |done|by apply iset_at|done..|].
  - eapply icache_iset; [exact HC|exact Hx|naive_solver| |done]. destruct He. by split.
  - intros m. rewrite (refs_iset _ _ x) by done. unfold weight. cbn. lia.
Qed.

(** [iput] gives the reference back. *)
Lemma walk_put fs ip n w Q : sees fs [] bl v w -> icache_ok v None fs -> refers fs ip n -> N n ->
  (forall fs' w', sees fs' [] bl v w' -> icache_ok v None fs' -> (forall m, refs fs' m = refs fs m - one n m) ->
    (forall j m, refers fs j m -> (j = ip -> exists x, fs_inode fs !! ip = Some x /\ 1 < i_ref x) -> refers fs' j m) -> Q tt w') ->
  wp (iput ip) Q w.
Proof.
  intros Hs HC (x & Hx & <- & Hr) Hn HQ. pose proof (ic_entry _ _ _ HC _ _ Hx) as He.
  destruct (HT _ Hn) as [[_ B3 B4 B5] _].
  eapply (iput_v ip x); [exact Hs|done|apply Hlk|exact Hx|by apply He| |].
  { destruct (Z.eq_dec (i_valid x) 0) as [|Hva]; [by left|right].
    by destruct (node_fields fs None ip _ x HC Hx eq_refl Hr Hva) as (_ & -> & _). }
  intros w' Hs'. eapply HQ; [exact Hs'| | |].
  - eapply icache_iset; [exact HC|exact Hx|done| |cbn; lia]. destruct He as [E1 E2 E3 E4 E5].
    split; cbn; try done; [lia|intros _; by apply E4|intros _; by apply E5].
  - intros m. rewrite (refs_iset _ _ x) by done. unfold weight, one. cbn. rewrite (Z.eqb_sym m). destruct (_ =? _); lia.
  - intros j m (y & Hy & <- & Hry) Hj. destruct (decide (j = ip)) as [->|Hne].
    + destruct (Hj eq_refl) as (z & Hz & Hrz). rewrite Hx in Hy, Hz. simplify_eq. eexists. split; [by apply iset_at|]. cbn. split; [done|lia].
    + exists y. split; [|done]. cbn. by rewrite list_lookup_alter_ne.
Qed.

Definition twice fs (ip : nat) : Prop := exists x, fs_inode fs !! ip = Some x /\ 1 < i_ref x.

Lemma walk_leave fs ip n w Q : sees fs [] bl v w -> icache_ok v (Some ip) fs -> locked fs ip n -> N n ->
  (forall fs' w', sees fs' [] bl v w' -> icache_ok v None fs' -> (forall m, refs fs' m = refs fs m - one n m) ->
    (forall j m, refers fs j m -> (j = ip -> twice fs ip) -> refers fs' j m) -> Q tt w') ->
  wp (iunlockput ip) Q w.
Proof.
  intros Hs HC Hl Hn HQ. pose proof Hl as (x0 & Hx0 & _). unfold iunlockput. apply wp_bind.
  eapply walk_unlock; [exact Hs|done|exact Hl|].
  intros fs1 x w1 H1 C1 E1 Hx Hxn Hr Hva R1. eapply (walk_put fs1 ip n); [exact H1|done|by exists x|done|].
  intros fs2 w2 H2 C2 R2 K2. eapply HQ; [exact H2|done|intros m; by rewrite R2, R1|].
  intros j m (y & Hy & Hym & Hry) Hj. apply K2; rewrite E1 in *.
  - destruct (decide (j = ip)) as [->|Hne].
    + exists (iunlocked y). split; [by apply iset_at|done].
    + exists y. split; [|done]. cbn. by rewrite list_lookup_alter_ne.
  - intros Ej. destruct (Hj Ej) as (z & Hz & Hrz). exists (iunlocked z). split; [by apply iset_at|done].
Qed.

(** [dirlookup] on a directory of the tree. *)
Lemma walk_lookup fs ip n q (B : list Z) w Q : sees fs [] bl v w -> icache_ok v (Some ip) fs -> locked fs ip n -> N n ->
  i_type (dnode v n) = T_DIR -> (forall m, 0 < refs fs m -> m ∈ B) -> (length B < NINODE)%nat ->
  (forall w', sees fs [] bl v w' -> child v n q = None -> Q None w') ->
  (forall fs' next off m w', sees fs' [] bl v w' -> icache_ok v (Some ip) fs' -> locked fs' ip n -> child v n q = Some m ->
    refers fs' next m -> (next = ip -> twice fs' ip) -> (forall m', refs fs' m' = refs fs m' + one m m') ->
    Q (Some (next, off)) w') ->
  wp (dirlookup ip q) Q w.
Proof.
  intros Hs HC (x & Hx & Hn & Hr & Hva) HN Hd HB Hlen HQ0 HQ1.
  destruct (node_fields _ _ _ _ _ HC Hx Hn Hr Hva) as (E1 & E2 & E3 & E4).
  destruct (HT _ HN) as [[_ _ _ HD] _]. destruct (HD Hd) as [D1 D2 D3 D4 D5].
  assert (bytes v x = bytes v (dnode v n)) as Eb by (unfold bytes; by rewrite E3, E4).
  destruct (spare _ _ _ _ HC HB Hlen) as (y & Hy & Hu).
  eapply (dirlookup_v fs bl v ip x); [done|apply (ic_entry _ _ _ HC _ _ Hx); done|done| |exact Hs|done|apply HC| | |].
  - split; rewrite ?E1, ?E3, ?E4; try done. unfold filled in *. by rewrite E3, E4.
  - intros m _. exists y. auto.
  - intros w' Hs' E. apply HQ0; [done|]. unfold child. rewrite <- Eb. by apply dnum_None.
  - intros k m next fs' w' _ Em Hg Hs'. destruct (igot_ok _ _ _ _ _ _ HC Hg) as [HC' R'].
    destruct (igot_at _ _ _ _ _ Hg) as (z & Hz & _ & Hzm & Hrz). rewrite Eb in Em.
    eapply HQ1; [exact Hs'|exact HC'| |exact Em|by exists z| |done].
    + destruct Hg as (y1 & Hy1 & [[_ ->] | (_ & Hu1 & ->)]); (destruct (decide (next = ip)) as [->|Hne];
        [rewrite Hx in Hy1; injection Hy1 as <-|exists x; split; [cbn; by rewrite list_lookup_alter_ne|done]]).
      * exists (more x). split; [by apply iset_at|]. split_and!; [done|cbn; lia|done].
      * unfold unused in Hu1. lia.
    + intros ->. destruct Hg as (y1 & Hy1 & [[_ ->] | (_ & Hu1 & ->)]); rewrite Hx in Hy1; injection Hy1 as <-.
      * exists (more x). split; [by apply iset_at|cbn; lia].
      * unfold unused in Hu1. lia.
Qed.

(** Where a walk ends: at inode [t] with a reference to it, or nowhere; the
    references are otherwise what they were. *)
Definition arrives fs0 (t : option Z) (r : option nat) w : Prop :=
  exists fs, sees fs [] bl v w /\ icache_ok v None fs /\
    match t, r with
    | Some n, Some ip => refers fs ip n /\ N n /\ forall m, refs fs m = refs fs0 m + one n m
    | None, None => forall m, refs fs m = refs fs0 m
    | _, _ => False
    end.

(** The end of a path for [namei] and for [nameiparent]. *)
Definition target (nip : bool) (n : Z) (names : list (list Z)) : option Z := if nip then parent v n names else resolve v n names.

Lemma target_cons nip n s r : target nip n (s :: r) =
  if i_type (dnode v n) =? T_DIR then
    if nip && bool_decide (r = []) then Some n
    else match child v n (from s) with Some m => target nip m r | None => None end
  else None.
Proof.
  unfold target. destruct nip; [|done]. destruct r as [|s' r]; [done|].
  rewrite bool_decide_eq_false_2 by done. cbn [andb].
  change (parent v n (s :: s' :: r)) with (match resolve v n (s :: removelast (s' :: r)) with
    | Some d => if i_type (dnode v d) =? T_DIR then Some d else None | None => None end).
  cbn [resolve]. destruct (i_type (dnode v n) =? T_DIR); [|done]. by destruct (child v n (from s)).
Qed.

(** What [namex] leaves in [name]. *)
Definition last_name (nip : bool) (names : list (list Z)) (r : option nat * list Z) : Prop :=
  nip = true -> r.1 <> None -> Str.agree (from r.2) (from (default [] (last names))) (Z.to_nat DIRSIZ).

Lemma walk_path fs0 nip : (S (length (busy fs0)) < NINODE)%nat -> forall fuel fs ip n path name w,
  sees fs [] bl v w -> icache_ok v None fs -> refers fs ip n -> N n -> (forall m, refs fs m = refs fs0 m + one n m) ->
  (length path < fuel)%nat -> (Z.to_nat DIRSIZ <= length name)%nat ->
  wp (namex_loop fuel nip ip path name)
    (fun r w' => arrives fs0 (target nip n (elems path)) r.1 w' /\ last_name nip (elems path) r) w.
Proof.
  intros Hroom. induction fuel as [|fuel IH]; intros fs ip n path name w Hs HC Hr HN HR Hf Hname; [lia|].
  cbn [namex_loop]. pose proof (skipelem_elems path name Hname) as Hsk. destruct (elems path) as [|s r].
  { rewrite Hsk. destruct nip; [|apply wp_ret; split; [by exists fs|done]]. apply wp_bind.
    eapply walk_put; [exact Hs|done|exact Hr|done|]. intros fs1 w1 H1 C1 R1 _. apply wp_ret. split; [|by intros _ []].
    exists fs1. split_and!; [done|done|]. intros m. rewrite R1, HR. lia. }
  destruct Hsk as (path' & name' & -> & <- & Hlt & Hend & Hn' & Ha). apply wp_bind.
  eapply walk_lock; [exact Hs|done|exact Hr|done|]. intros fs1 w1 H1 C1 L1 R1.
  pose proof L1 as (x1 & Hx1 & Hxn & Hr1 & Hva). eapply geti_v; [exact H1|exact Hx1|].
  destruct (node_fields _ _ _ _ _ C1 Hx1 Hxn Hr1 Hva) as (-> & _). rewrite target_cons.
  destruct (Z.eqb_spec (i_type (dnode v n)) T_DIR) as [Hd|Hd]; cbn [negb].
  2:{ apply wp_bind. eapply walk_leave; [exact H1|done|exact L1|done|]. intros fs2 w2 H2 C2 R2 _. apply wp_ret. split; [|by intros _ []].
      exists fs2. split_and!; [done|done|]. intros m. rewrite R2, R1, HR. lia. }
  rewrite (bool_decide_ext _ _ Hend). destruct (nip && bool_decide (elems path' = [])) eqn:Elast.
  { apply andb_true_iff in Elast as [-> ->%bool_decide_eq_true]. apply wp_bind.
    eapply walk_unlock; [exact H1|done|exact L1|]. intros fs2 x w2 H2 C2 _ Hx2 Hxn2 Hr2 _ R2. apply wp_ret. split.
    - exists fs2. split_and!; [done|done|]. split_and!; [by exists x|done|]. intros m. by rewrite R2, R1, HR.
    - by intros _ _. }
  apply wp_bind. eapply (walk_lookup fs1 ip n (from name') (n :: busy fs0)); [exact H1|done|exact L1|done|done| |cbn; lia| |].
  { intros m. rewrite R1, HR. unfold one. destruct (Z.eqb_spec m n) as [->|]; [left|]. right. apply refs_busy. lia. }
  - intros w2 H2 E. apply wp_bind. eapply walk_leave; [exact H2|done|exact L1|done|]. intros fs3 w3 H3 C3 R3 _. apply wp_ret.
    unfold child in *. rewrite <- (dnum_agree _ _ _ Ha), E. split; [|by intros _ []].
    exists fs3. split_and!; [done|done|]. intros m. rewrite R3, R1, HR. lia.
  - intros fs2 next off m w2 H2 C2 L2 E Hnext Htw R2. apply wp_bind.
    eapply walk_leave; [exact H2|done|exact L2|done|]. intros fs3 w3 H3 C3 R3 K3.
    unfold child in *. rewrite <- (dnum_agree _ _ _ Ha), E.
    eapply wp_mono; [eapply (IH fs3 next m); [done|done|by apply K3| | |lia|lia]|].
    + destruct (HT _ HN) as [_ HT']. by eapply HT'.
    + intros m'. rewrite R3, R2, R1, HR. lia.
    + intros rr w' [A1 A2]. split; [done|]. intros Hp Hrr. destruct (elems path') as [|s' r'] eqn:E'; [|by apply A2].
      rewrite Hp in Elast. by rewrite bool_decide_eq_true_2 in Elast.
Qed.

(** Where a path starts: at the root, or at the current directory of the
    process. *)
Definition starts fs w (path : list Z) (n : Z) : Prop :=
  if default 0 (head path) =? slash then n = ROOTINO
  else exists x c, pt_proc (k_pt (w_k w)) !! p = Some x /\ p_cwd x = Some c /\ refers fs c n.

Lemma idup_v fs c n w Q : sees fs [] bl v w -> icache_ok v None fs -> refers fs c n ->
  (forall fs' w', sees fs' [] bl v w' -> icache_ok v None fs' -> refers fs' c n ->
    (forall m, refs fs' m = refs fs m + one n m) -> Q c w') -> wp (idup c) Q w.
Proof.
  intros (pt & bc & l & -> & Hop & Hv) HC (x & Hx & Hn & Hr) HQ.
  pose proof (io_calm _ _ _ _ _ _ _ _ _ _ _ _ _ _ Hop) as Hm. pose proof Hm as [(cpu & Hh & _) Ht _ _ _].
  unfold wp, idup. kcall acquire_ok by (done || apply Hli). unfold updi. krun. kcall release_acquired by done. rewrite Ht. krun.
  assert (holds 1 n x = true) as Hhold.
  { unfold holds. pose proof (eo_dev _ _ _ (ic_entry _ _ _ HC _ _ Hx) Hr). lia. }
  assert (igot 1 n fs c (iset c more fs)) as Hg by (exists x; auto).
  destruct (igot_ok _ _ _ _ _ _ HC Hg) as [HC' R']. eapply HQ; [by exists pt, bc, l|exact HC'| |exact R'].
  exists (more x). split; [by apply iset_at|]. split; [done|cbn; lia].
Qed.

Lemma namex_v fs path nip name n w : (S (length (busy fs)) < NINODE)%nat -> sees fs [] bl v w -> icache_ok v None fs ->
  starts fs w path n -> N n -> (Z.to_nat DIRSIZ <= length name)%nat ->
  wp (namex path nip name) (fun r w' => arrives fs (target nip n (elems path)) r.1 w' /\ last_name nip (elems path) r) w.
Proof.
  intros Hroom Hs HC Hst HN Hname. unfold namex. apply wp_bind. unfold starts in Hst.
  destruct (default 0 (head path) =? slash).
  - subst n. destruct (spare v None fs (busy fs) HC (refs_busy fs) ltac:(lia)) as (y & Hy & Hu).
    eapply iget_v; [exact Hs|done|apply HC|by eauto|]. intros ip fs1 w1 Hg H1.
    destruct (igot_ok _ _ _ _ _ _ HC Hg) as [C1 R1]. destruct (igot_at _ _ _ _ _ Hg) as (z & Hz & _ & Hzn & Hrz).
    eapply walk_path; [done|exact H1|done|by exists z|done|done|lia|done].
  - destruct Hst as (x & c & Hx & Hcwd & Hc). pose proof Hs as (pt & bc & l & -> & Hop & Hv).
    pose proof (io_calm _ _ _ _ _ _ _ _ _ _ _ _ _ _ Hop) as Hm. pose proof Hm as [(cpu & Hh & Hcp) Ht _ _ _].
    unfold wp at 1. kcall myproc_ok by exact Hh. rewrite Ht, Hcp. cbn [deref]. krun. kcall getp_ok by exact Hx.
    rewrite Hcwd. cbn [deref]. krun. change (wp (idup c) (fun ip w' => wp (namex_loop (S (length path)) nip ip path name)
      (fun r w' => arrives fs (target nip n (elems path)) r.1 w' /\ last_name nip (elems path) r) w') (W hw pt km bc fs cn o)).
    eapply idup_v; [exact Hs|done|exact Hc|]. intros fs1 w1 H1 C1 Hc1 R1.
    eapply walk_path; [done|exact H1|done|exact Hc1|done|done|lia|done].
Qed.

(** C9: Path names lead where the tree on disk says.  [namei] returns the inode
    that the names between the slashes of the path lead to from the root, or
    from the current directory if the path does not start with a slash, and no
    inode when a name is missing or what has a name below it is no directory;
    [nameiparent] returns the directory of the last name and leaves that name,
    cut to [DIRSIZ] bytes, in its buffer.  The walk returns with no inode locked,
    with one reference more to the inode it returns and with no other reference
    changed, so that none is lost on any way out.  This is for a tree [N] whose
    inodes are linked, with no other process using the cache meanwhile and with
    two entries of it to spare. *)
Theorem namei_walks fs path n w :
  sees fs [] bl v w -> icache_ok v None fs -> starts fs w path n -> N n -> (S (length (busy fs)) < NINODE)%nat ->
  (exists r w', namei path w = Ok r w' /\ arrives fs (resolve v n (elems path)) r w') /\
  (forall name, (Z.to_nat DIRSIZ <= length name)%nat -> exists r name' w', nameiparent path name w = Ok (r, name') w' /\
    arrives fs (parent v n (elems path)) r w' /\
    (r <> None -> Str.agree (from name') (from (default [] (last (elems path)))) (Z.to_nat DIRSIZ))).
Proof.
  intros Hs HC Hst HN Hroom. split.
  - pose proof (namex_v fs path false (replicate (Z.to_nat DIRSIZ) 0) n w Hroom Hs HC Hst HN ltac:(by rewrite length_replicate)) as Hw.
    apply wp_inv in Hw as (r & w' & E & A & _). exists r.1, w'. split; [|done]. unfold namei. by erewrite bind_ok by exact E.
  - intros name Hname. pose proof (namex_v fs path true name n w Hroom Hs HC Hst HN Hname) as Hw.
    apply wp_inv in Hw as ([r name'] & w' & E & A & L). exists r, name', w'. split; [exact E|]. split; [done|]. by apply L.
Qed.
End Walk.
End Machine.

(** ** The properties at work *)

Section Examples.
#[local] Existing Instance Memide.driver.
#[local] Opaque bc_boot.

(** A disk with the tree [/], [/a], [/a/b]; the root has a removed entry. *)
Definition dnode_d (type size a : Z) : inode := mk_inode 0 0 0 zsleeplock 0 type 0 0 1 size (a :: replicate 12 0).
Definition itable_d : list Z :=
  splice 64 (enc_dinode (dnode_d 1 48 34)) (splice 128 (enc_dinode (dnode_d 1 16 35))
    (splice 192 (enc_dinode (dnode_d 2 0 0)) (replicate 512 0))).
Definition root_d : list Z := entry (from [46]) 1 ++ entry (from [120]) 0 ++ entry (from [97]) 2.
Definition disk_d : diskT :=
  <[32%nat := itable_d]> (<[33%nat := [255; 255; 255; 255; 15] ++ replicate 507 0]>
  (<[34%nat := root_d ++ replicate 464 0]> (<[35%nat := entry (from [98]) 3 ++ replicate 496 0]> disk_log))).
Definition view_d : view := fun b => disk_d !! Z.to_nat b.
Definition bc_d : bcstate := set_bc_log (mk_log 2 30 1 0 1 0 (replicate 30 0)) (bc_boot disk_d).
Definition fs_d (l : list inode) : fsstate := set_fs_inode l (set_fs_sb sb_w fs0).
Definition world_d (l : list inode) : world := W (touch 0 hw_run) pt_run km0 bc_d (fs_d l) cn0 [].
Abbreviation sees_d := (sees km0 cn0 [] (touch 0 hw_run) 0 0 1 2 30 disk_d (bc_hist bc_d) 1).

Lemma bc_d_unused j : (j < NBUF)%nat -> b_dev (bufat (bc_buf bc_d) j) = 0 /\ b_flags (bufat (bc_buf bc_d) j) = 0.
Proof.
  intros Hj. unfold bc_d. rewrite set_log_buf. destruct (bc_boot_unused disk_d j Hj) as (H1 & H2 & _). split; [exact H2|exact H1].
Qed.
Lemma bc_d_disk : bc_disk bc_d = disk_d.
Proof. unfold bc_d. by rewrite set_log_disk, bc_boot_disk. Qed.
Lemma disk_d_length : length disk_d = 64%nat.
Proof. vm_compute. reflexivity. Qed.

Lemma sees_d_ok l : sees_d (fs_d l) [] [] view_d (world_d l).
Proof.
  exists pt_run, bc_d, (reverse (seq 0 NBUF)). split; [done|]. split.
  2:{ intros b. rewrite contents_uncached; [by rewrite bc_d_disk|]. intros j (Hj & Hd & _). destruct (bc_d_unused j Hj). congruence. }
  split.
  - apply calm_run.
  - split; reflexivity.
  - apply cache_log, bc_boot_cache.
  - intros j bn Hj. by apply elem_of_nil in Hj.
  - constructor.
  - split; try reflexivity. rewrite bc_d_disk, disk_d_length. discriminate.
  - reflexivity.
  - reflexivity.
  - reflexivity.
  - rewrite bc_d_disk. split; [done|rewrite disk_d_length; done|done|]. vm_compute. lia.
  - split; [constructor..|reflexivity].
  - constructor.
  - intros b. split; [|set_solver]. intros (j & (Hj & Hd & _) & _). destruct (bc_d_unused j Hj). congruence.
  - apply bc_d_disk.
  - reflexivity.
Qed.

Lemma view_d_block b : 0 <= b < 64 -> exists d, view_d b = Some d /\ length d = Z.to_nat BSIZE.
Proof.
  intros Hb. assert (forallb (fun d => Nat.eqb (length d) 512) disk_d = true) as HF by (vm_compute; reflexivity).
  destruct (lookup_lt_is_Some_2 disk_d (Z.to_nat b)) as [d Hd]; [rewrite disk_d_length; lia|].
  exists d. split; [done|]. apply (check_all _ _ d) in HF; [|by eapply list_elem_of_lookup_2]. by apply Nat.eqb_eq in HF.
Qed.
Lemma home_d b : 32 <= b < 64 -> home 2 30 disk_d b.
Proof. intros Hb. unfold home, in_disk, in_log, int_ok. rewrite disk_d_length. lia. Qed.

Lemma layout_d : layout 2 30 disk_d sb_w 34 view_d.
Proof.
  split; [done| | |].
  - intros b Hb. rewrite map_w by done. split; [by apply home_d|]. split; [done|]. by apply view_d_block.
  - intros b Hb. cbn in Hb. split; [apply home_d; lia|apply view_d_block; lia].
  - intros b Hb _. apply (check_all (bit sb_w view_d) (seqZ 0 34)); [vm_compute; reflexivity|]. apply elem_of_seqZ. lia.
Qed.

(** A file of one block. *)
Lemma addr_d v a bn : 0 <= bn -> addr_of v (a :: replicate 12 0) bn = if bn =? 0 then a else 0.
Proof.
  intros Hb. unfold addr_of. destruct (Z.ltb_spec bn NDIRECT) as [Hd|Hd]; [|by destruct (Z.eqb_spec bn 0); [unfold NDIRECT in *; lia|]].
  destruct (Z.eqb_spec bn 0) as [->|Hne]; [done|]. replace (Z.to_nat bn) with (S (Z.to_nat (bn - 1))) by lia.
  change ((a :: replicate 12 0) !! S ?k) with (replicate 12 0 !! k). rewrite lookup_replicate_2 by (unfold NDIRECT in *; lia). done.
Qed.

Lemma file_ok_d a : a = 34 \/ a = 35 -> file_ok sb_w 34 view_d (a :: replicate 12 0).
Proof.
  intros Ha. assert (taken sb_w 34 view_d a) as Ht by (destruct Ha as [-> | ->]; (split; [done|vm_compute; reflexivity])).
  split; [reflexivity|left; reflexivity| | |].
  - intros bn Hb. rewrite addr_d by lia. destruct (bn =? 0); [by right|by left].
  - intros bn bn' H1 H2. rewrite !addr_d by lia. destruct (Z.eqb_spec bn 0), (Z.eqb_spec bn' 0); lia.
  - intros bn H1. rewrite addr_d by lia. change (ind (a :: replicate 12 0)) with 0. destruct (bn =? 0); lia.
Qed.

Lemma filled_d (x : inode) a : i_addrs x = a :: replicate 12 0 -> a <> 0 -> i_size x <= 512 -> filled view_d x.
Proof.
  intros Ea Ha Hs k Hk. rewrite Ea, Z.div_small by (unfold BSIZE; lia). split; [done|]. by rewrite addr_d.
Qed.

Definition nodes_d (n : Z) : Prop := n = 1 \/ n = 2 \/ n = 3.

Lemma dnode_d_at : dnode sb_w view_d 1 = dnode_d 1 48 34 /\ dnode sb_w view_d 2 = dnode_d 1 16 35 /\ dnode sb_w view_d 3 = dnode_d 2 0 0.
Proof. vm_compute. done. Qed.

Lemma dir_ok_d size a : a = 34 \/ a = 35 -> 0 <= size <= 512 -> size mod DIRENT = 0 -> dir_ok sb_w 34 view_d (dnode_d 1 size a).
Proof.
  intros Ha Hs Hm. split; [done|by apply file_ok_d|apply (filled_d _ a); [done|lia|cbn; lia]|cbn; lia|done].
Qed.

Lemma dnum_in bs q m : dnum bs q = Some m -> exists de, de ∈ dents bs /\ m = de_inum de /\ m <> 0.
Proof.
  intros E. destruct (dfind bs q) as [k|] eqn:Ek; [|by rewrite (proj2 (dnum_None bs q)) in E].
  destruct (dfind_Some _ _ _ Ek) as (de & Hde & Hn & E'). rewrite E in E'. injection E' as ->. exists de.
  split; [by eapply list_elem_of_lookup_2|]. split; [done|]. unfold named in Hn. lia.
Qed.

Lemma child_d n q m : nodes_d n -> child sb_w view_d n q = Some m -> nodes_d m.
Proof.
  intros Hn E. unfold child in E. apply dnum_in in E as (de & Hin & -> & Hne).
  assert (forallb (fun de => (0 <=? de_inum de) && (de_inum de <=? 3)) (dents (bytes view_d (dnode sb_w view_d n))) = true) as HF
    by (destruct Hn as [-> | [-> | ->]]; vm_compute; reflexivity).
  apply (check_all _ _ de) in HF; [|done]. cbn beta in HF. unfold nodes_d. lia.
Qed.

Lemma node_d n : nodes_d n -> IBLOCK n sb_w = 32 /\ exists type size a, dnode sb_w view_d n = dnode_d type size a /\
  (type = 1 /\ (a = 34 \/ a = 35) /\ 0 <= size <= 512 /\ size mod DIRENT = 0 \/ type = 2).
Proof.
  destruct dnode_d_at as (E1 & E2 & E3). intros [-> | [-> | ->]]; (split; [reflexivity|]).
  - exists 1, 48, 34. split; [exact E1|]. left. split; [reflexivity|]. split; [by left|]. split; [lia|reflexivity].
  - exists 1, 16, 35. split; [exact E2|]. left. split; [reflexivity|]. split; [by right|]. split; [lia|reflexivity].
  - exists 2, 0, 0. split; [exact E3|]. by right.
Qed.

Lemma tree_d : tree disk_d sb_w 34 view_d nodes_d.
Proof.
  intros n Hn. split; [|intros _ q m E; exact (child_d n q m Hn E)]. destruct (node_d n Hn) as (Eb & type & size & a & E & H).
  split; rewrite ?Eb, ?E.
  - split; [apply home_d; lia|]. destruct (view_d_block 32 ltac:(lia)) as (d & Hd & _). by exists d.
  - cbn. lia.
  - cbn. lia.
  - cbn [i_type dnode_d]. intros Ht. destruct H as [(-> & Ha & Hs & Hm)| ->]; [by apply dir_ok_d|discriminate Ht].
Qed.

Lemma icache_d : icache_ok 1 sb_w view_d None (fs_d (replicate NINODE zinode)).
Proof.
  split; [reflexivity|reflexivity| |].
  - intros j x [-> _]%lookup_replicate. by split.
  - intros j k x y [-> _]%lookup_replicate _ Hr. cbn in Hr. lia.
Qed.

Definition path_d : list Z := [47; 97; 47; 47; 98].

Lemma namei_walks_witness : exists ip w', namei path_d (world_d (replicate NINODE zinode)) = Ok (Some ip) w' /\
  exists x, inodes w' !! ip = Some x /\ i_inum x = 3.
Proof.
  destruct (namei_walks km0 cn0 [] (touch 0 hw_run) 0 0 1 2 30 disk_d (bc_hist bc_d) 1 sb_w 34 eq_refl
    ltac:(split; reflexivity) ltac:(intros j; split; reflexivity) view_d [] nodes_d layout_d tree_d
    (fs_d (replicate NINODE zinode)) path_d 1 (world_d (replicate NINODE zinode))) as [(r & w' & E & A) _].
  - apply sees_d_ok.
  - apply icache_d.
  - reflexivity.
  - by left.
  - vm_compute. lia.
  - assert (resolve sb_w view_d 1 (elems path_d) = Some 3) as Er by (vm_compute; reflexivity). rewrite Er in A.
    destruct A as (fs & (pt & bc & l & -> & _) & _ & A). destruct r as [ip|]; [|destruct A]. destruct A as [(x & Hx & Hn & _) _].
    exists ip, (W (touch 0 hw_run) pt km0 bc fs cn0 []). split; [exact E|]. exists x. split; [exact Hx|exact Hn].
Defined.

Definition inode_d : inode := with_fields (dnode_d 1 48 34) (mk_inode 1 1 1 (mk_sleeplock 1 "" 1) 1 0 0 0 0 0 []).
Definition inodes_d : list inode := inode_d :: replicate 49 zinode.

Lemma dir_open_d : dir_open (touch 0 hw_run) 2 30 disk_d sb_w 34 (fs_d inodes_d) view_d 0 inode_d.
Proof.
  split; try done.
  - split; [apply layout_d|apply file_ok_d; by left|by apply (filled_d _ 34)| | |].
    + split; try (by cbn); repeat constructor; lia.
    + split; [by apply home_d|done| |by apply view_d_block]. intros (c & Hc & E). rewrite map_w in E by done. discriminate E.
    + intros y. destruct y. vm_compute. reflexivity.
  - split; [done|apply file_ok_d; by left|by apply (filled_d _ 34)|done|done].
  - exists zinode. split; [by apply (list_elem_of_lookup_2 _ 1)|done].
Qed.

Lemma chars_ok_d c : 0 <= c < 256 -> chars_ok (from [c]).
Proof. intros Hc [|[|k]]; cbn; [exact Hc|lia..]. Qed.

Lemma dirlink_found_witness : exists w', dirlink 0 (from [99]) 5 (world_d inodes_d) = Ok 0 w' /\
  finds 0 (from [99]) 5 w' /\ finds 0 (from [97]) 2 w'.
Proof.
  assert (forall q n, finds 0 q n (world_d inodes_d) <-> dnum (bytes view_d inode_d) q = Some n) as FD
    by (intros q n; eapply finds_dnum; [|apply sees_d_ok|apply dir_open_d]; reflexivity).
  destruct (dirlink_found km0 cn0 [] (touch 0 hw_run) 0 0 1 2 30 disk_d (bc_hist bc_d) 1 sb_w 34 eq_refl
    (fs_d inodes_d) view_d 0 inode_d (from [99]) 5 (world_d inodes_d)) as (w' & E & F).
  - done.
  - done.
  - apply sees_d_ok.
  - apply dir_open_d.
  - by apply chars_ok_d.
  - done.
  - intros n Hf. apply FD in Hf. vm_compute in Hf. discriminate Hf.
  - done.
  - vm_compute. lia.
  - exists w'. split; [exact E|]. split.
    + apply (proj1 (F (from [99]) (chars_ok_d 99 ltac:(lia)))); [by intros k _ _|done].
    + apply (proj2 (F (from [97]) (chars_ok_d 97 ltac:(lia)))).
      * intros Ha. specialize (Ha 0%nat ltac:(vm_compute; lia) ltac:(lia)). discriminate Ha.
      * apply FD. vm_compute. reflexivity.
Defined.
End Examples.
