(* ===== verification/Mkfs.v ===== *)
(** * The file system image builder

    [mkfs.c], which runs on the build host: it lays out an empty file system
    in the image file, copies the files given to it into the root directory and
    marks the blocks used in the bitmap.  Module [Mkfs] has the program; the
    theorems show that the image is a file system in the sense of [Content] and
    [Fileio], with the files' contents. *)

From stdpp Require Import prelude list gmap strings.
From Stdlib Require Import ZArith Lia FunctionalExtensionality.
From S2P Require Import Prelude State Boot Spinlock Str Kalloc Cprintf Vm Sched Sleeplock Bio Log Fs Fsview Content File Console Fileio.
#[local] Open Scope c_scope.

Module Mkfs.

Definition NINODES : Z := 200.
Definition nbitmap : Z := FSSIZE / (BSIZE * 8) + 1.
Definition ninodeblocks : Z := NINODES / IPB + 1.
Definition nlog : Z := LOGSIZE.
Definition nmeta : Z := 2 + nlog + ninodeblocks + nbitmap.
Definition nblocks : Z := FSSIZE - nmeta.

(** The global variables, the image file as its sectors, and how the next
    operations on it will end: [false] for one that fails; all succeed when the
    list has run out. *)
Record mkstate := mk_mkstate {
  m_sb : superblock;
  m_freeinode : Z;
  m_freeblock : Z;
  m_img : list (list Z);
  m_io : list bool;
}.
Definition set_m_sb v s := mk_mkstate v (m_freeinode s) (m_freeblock s) (m_img s) (m_io s).
Definition set_m_freeinode v s := mk_mkstate (m_sb s) v (m_freeblock s) (m_img s) (m_io s).
Definition set_m_freeblock v s := mk_mkstate (m_sb s) (m_freeinode s) v (m_img s) (m_io s).
Definition set_m_img v s := mk_mkstate (m_sb s) (m_freeinode s) (m_freeblock s) v (m_io s).
Definition set_m_io v s := mk_mkstate (m_sb s) (m_freeinode s) (m_freeblock s) (m_img s) v.

Abbreviation T := (M mkstate).

Definition zeroes : list Z := replicate 512 0.

(** Convert to intel byte order, on a host of that byte order: the bytes are
    stored one by one and read as an integer. *)
Definition xshort (x : Z) : Z := le16 0 (enc16 x).
Definition xint (x : Z) : Z := le32 0 (enc32 x).

(** [perror(what); exit(1)] when the host's call fails. *)
Definition host (what : string) : T unit :=
  io <- gets m_io ;;
  upd (set_m_io (tail io)) ;;
  if default true (head io) then ret tt else panic what.

(** The sector at the byte offset [sec * BSIZE], an [unsigned]. *)
Definition sector (sec : Z) : nat := Z.to_nat (u32 (sec * BSIZE) / BSIZE).

(** Writing past the end of the file fills the gap with zeroes. *)
Definition put_sector (i : nat) (buf : list Z) (img : list (list Z)) : list (list Z) :=
  <[i := buf]> (img ++ replicate (S i - length img) zeroes).

Definition wsect (sec : Z) (buf : list Z) : T unit :=
  host "lseek" ;;
  host "write" ;;
  upd (fun s => set_m_img (put_sector (sector sec) buf (m_img s)) s).

Definition rsect (sec : Z) : T (list Z) :=
  host "lseek" ;;
  host "read" ;;
  img <- gets m_img ;;
  match img !! sector sec with
  | Some buf => ret buf
  | None => panic "read"
  end.

Definition winode (inum : Z) (ip : inode) : T unit :=
  sb <- gets m_sb ;;
  let bn := IBLOCK inum sb in
  buf <- rsect bn ;;
  wsect bn (splice (dinode_off inum) (enc_dinode ip) buf).

Definition rinode (inum : Z) : T inode :=
  sb <- gets m_sb ;;
  let bn := IBLOCK inum sb in
  buf <- rsect bn ;;
  ret (dec_dinode (dinode_off inum) buf zinode).

Definition ialloc (type : Z) : T Z :=
  inum <- gets m_freeinode ;;
  upd (set_m_freeinode (u32 (inum + 1))) ;;
  let din := zinode |> set_i_type (s16 (xshort type)) |> set_i_nlink (s16 (xshort 1)) |> set_i_size (xint 0) in
  winode inum din ;;
  ret inum.

(** [buf[i/8] = buf[i/8] | (0x1 << (i%8))] for the first [used] blocks *)
Fixpoint bitmap (used : nat) : list Z :=
  match used with
  | O => zeroes
  | S i => let buf := bitmap i in
           bmap_set (Z.of_nat i) (Z.lor (bmap_byte (Z.of_nat i) buf) (bit_mask (Z.of_nat i))) buf
  end.

Definition balloc (used : Z) : T unit :=
  if negb (used <? BSIZE * 8) then panic "assert" else
  sb <- gets m_sb ;;
  wsect (sb_bmapstart sb) (bitmap (Z.to_nat used)).

(** [freeblock++] *)
Definition next_block : T Z :=
  b <- gets m_freeblock ;;
  upd (set_m_freeblock (u32 (b + 1))) ;;
  ret b.

Definition addr (din : inode) (k : Z) : Z := default 0 (i_addrs din !! Z.to_nat k).
Definition set_addr (k a : Z) (din : inode) : inode := set_i_addrs (<[Z.to_nat k := a]> (i_addrs din)) din.

(** Entry [k] of the indirect block [a], allocated if there is none. *)
Definition indirect_block (a k : Z) : T Z :=
  indirect <- rsect a ;;
  let o := Z.to_nat (4 * k) in
  indirect <- (if le32 o indirect =? 0 then
                 b <- next_block ;;
                 let indirect := splice o (enc32 (xint b)) indirect in
                 wsect a indirect ;;
                 ret indirect
               else ret indirect) ;;
  ret (xint (le32 o indirect)).

(** The block of the file's bytes from [fbn * BSIZE] on, allocated if there is
    none. *)
Definition file_block (din : inode) (fbn : Z) : T (inode * Z) :=
  if fbn <? NDIRECT then
    din <- (if xint (addr din fbn) =? 0 then b <- next_block ;; ret (set_addr fbn (xint b) din) else ret din) ;;
    ret (din, xint (addr din fbn))
  else
    din <- (if xint (addr din NDIRECT) =? 0 then b <- next_block ;; ret (set_addr NDIRECT (xint b) din) else ret din) ;;
    x <- indirect_block (xint (addr din NDIRECT)) (fbn - NDIRECT) ;;
    ret (din, x).

(** A turn of the loop of [iappend]: the bytes that go into one block. *)
Definition append_turn '(din, off, p) : T (inode * Z * list Z + inode * Z) :=
  let n := Z.of_nat (length p) in
  if n <=? 0 then ret (inr (din, off)) else
  let fbn := off / BSIZE in
  if MAXFILE <=? fbn then panic "assert" else
  r <- file_block din fbn ;;
  let n1 := Z.min n (u32 ((fbn + 1) * BSIZE - off)) in
  buf <- rsect (snd r) ;;
  wsect (snd r) (splice (Z.to_nat (off - fbn * BSIZE)) (take (Z.to_nat n1) p) buf) ;;
  ret (inl (fst r, u32 (off + n1), drop (Z.to_nat n1) p)).

Definition iappend (inum : Z) (xp : list Z) : T unit :=
  din <- rinode inum ;;
  r <- loop_ (S (length xp)) append_turn (din, xint (i_size din), xp) ;;
  winode inum (set_i_size (xint (snd r)) (fst r)).

(** [struct superblock] and [struct dirent] in memory. *)
Definition enc_superblock (sb : superblock) : list Z :=
  enc32 (sb_size sb) ++ enc32 (sb_nblocks sb) ++ enc32 (sb_ninodes sb) ++ enc32 (sb_nlog sb) ++
  enc32 (sb_logstart sb) ++ enc32 (sb_inodestart sb) ++ enc32 (sb_bmapstart sb).
Definition dirent (inum : Z) (name : list Z) : list Z :=
  enc16 (xshort inum) ++ strncpy (from name) (Z.to_nat DIRSIZ).

Definition dot : Z := 46.
Definition underscore : Z := 95.

(** [while((cc = read(fd, buf, sizeof(buf))) > 0) iappend(inum, buf, cc);] where
    the calls of [read] return [chunks] before the last one. *)
Fixpoint append_all (inum : Z) (chunks : list (list Z)) : T unit :=
  match chunks with
  | [] => ret tt
  | buf :: chunks => iappend inum buf ;; append_all inum chunks
  end.

Section Main.
(** The build host: whether the image can be opened, and what [read] returns
    from the file of a name, if it can be opened. *)
Context (image_opens : list Z -> bool) (host_file : list Z -> option (list (list Z))).

Definition copy_file (rootino : Z) (arg : list Z) : T unit :=
  if bool_decide (slash ∈ arg) then panic "assert" else
  match host_file arg with
  | None => panic "open"
  | Some chunks =>
    let name := if default 0 (head arg) =? underscore then tail arg else arg in
    inum <- ialloc T_FILE ;;
    iappend rootino (dirent inum name) ;;
    append_all inum chunks
  end.

Fixpoint copy_files (rootino : Z) (args : list (list Z)) : T unit :=
  match args with
  | [] => ret tt
  | arg :: args => copy_file rootino arg ;; copy_files rootino args
  end.

Definition the_sb : superblock :=
  mk_superblock (xint FSSIZE) (xint nblocks) (xint NINODES) (xint nlog) (xint 2)
    (xint (2 + nlog)) (xint (2 + nlog + ninodeblocks)).

Definition main (argv : list (list Z)) : T unit :=
  if (length argv <? 2)%nat then panic "Usage: mkfs fs.img files..." else
  if negb (image_opens (default [] (argv !! 1%nat))) then panic "open" else
  upd (set_m_sb the_sb) ;;
  upd (set_m_freeblock nmeta) ;;
  each_ (Z.to_nat FSSIZE) 0 (fun i => wsect (Z.of_nat i) zeroes) ;;
  sb <- gets m_sb ;;
  wsect 1 (splice 0 (enc_superblock sb) zeroes) ;;
  rootino <- ialloc T_DIR ;;
  if negb (rootino =? ROOTINO) then panic "assert" else
  iappend rootino (dirent rootino [dot]) ;;
  iappend rootino (dirent rootino [dot; dot]) ;;
  copy_files rootino (drop 2 argv) ;;
  din <- rinode rootino ;;
  let off := xint (i_size din) in
  let off := u32 ((off / BSIZE + 1) * BSIZE) in
  winode rootino (set_i_size (xint off) din) ;;
  fb <- gets m_freeblock ;;
  balloc fb.
End Main.

(** The state a run of the program starts with. *)
Definition start (io : list bool) : mkstate := mk_mkstate (mk_superblock 0 0 0 0 0 0 0) 1 0 [] io.
End Mkfs.

(** ** The image as a file system

    While the image is built its bitmap is still empty; the blocks from
    [m_freeblock] on are the free ones.  [mview] shows the image with the
    bitmap that [balloc] will write, so that the invariants of [Content] and
    [Fileio] apply at every step. *)

Section Image.
Import Mkfs.
Implicit Types (img : list (list Z)) (fb fi : Z) (v : view).

Definition mdisk : diskT := replicate 1000 [].
Definition mview img fb : view := vset 58 (bitmap (Z.to_nat fb)) (fun b => img !! Z.to_nat b).
Definition mstate fi fb img : mkstate := mk_mkstate the_sb fi fb img [].

Record img_ok img fb : Prop := {
  im_len : length img = 1000%nat;
  im_sec : Forall (fun d => length d = 512%nat) img;
  im_low : nmeta <= fb <= FSSIZE;
  im_free : forall b, fb <= b < FSSIZE -> img !! Z.to_nat b = Some zeroes;
}.

Abbreviation layout := (Fsview.layout 2 30 mdisk the_sb nmeta).
Abbreviation file_ok := (Content.file_ok the_sb nmeta).
Abbreviation good := (Fileio.good 2 30 the_sb nmeta mdisk).
Abbreviation changes := (Content.changes the_sb nmeta 2 30 mdisk).

Lemma the_sb_eq : the_sb = mk_superblock 1000 941 200 30 2 32 58.
Proof. vm_compute. reflexivity. Qed.

Lemma mhome b : 32 <= b < 1000 -> home 2 30 mdisk b.
Proof. intros Hb. unfold home, in_disk, in_log, int_ok, mdisk. rewrite length_replicate. lia. Qed.

Lemma BBLOCK_m b : 0 <= b < 1000 -> BBLOCK b the_sb = 58.
Proof. intros Hb. rewrite the_sb_eq. unfold BBLOCK, BPB, BSIZE. rewrite Z.div_small by lia. done. Qed.

Lemma IBLOCK_m inum : 0 <= inum < 208 -> 32 <= IBLOCK inum the_sb < 58 /\ IBLOCK inum the_sb = inum / 8 + 32.
Proof.
  intros Hi. rewrite the_sb_eq. unfold IBLOCK. change IPB with 8. cbn [sb_inodestart].
  assert (0 <= inum / 8 < 26) by (split; [apply Z.div_pos; lia|apply Z.div_lt_upper_bound; lia]).
  rewrite u32_small by (unfold W32; lia). lia.
Qed.

Lemma length_bitmap n : length (bitmap n) = 512%nat.
Proof. induction n as [|n IH]; [done|]. cbn [bitmap]. unfold bmap_set. by rewrite length_insert. Qed.

Lemma bitmap_S n : bitmap (S n) = set_bit (bitmap n) (Z.of_nat n).
Proof. done. Qed.

Lemma bit_bitmap n b : (n <= 1000)%nat -> 0 <= b < 1000 -> bit_at (bitmap n) b = (b <? Z.of_nat n).
Proof.
  intros Hn Hb. induction n as [|n IH].
  - unfold bit_at, bmap_byte, from. cbn [bitmap]. unfold zeroes. destruct (Z.ltb_spec b (Z.of_nat 0)); [lia|].
    destruct (_ !! _) as [z|] eqn:E; cbn; [|apply Z.bits_0]. apply lookup_replicate in E as [-> _]. apply Z.bits_0.
  - rewrite bitmap_S, bit_set_bit; [|by rewrite length_bitmap|unfold BPB, BSIZE; lia..].
    destruct (decide (b = Z.of_nat n)) as [->|Hne]; [destruct (Z.ltb_spec (Z.of_nat n) (Z.of_nat (S n))); [done|lia]|].
    rewrite IH by lia. destruct (Z.ltb_spec b (Z.of_nat n)), (Z.ltb_spec b (Z.of_nat (S n))); done || lia.
Qed.

Lemma bit_m img fb b : 0 <= fb <= 1000 -> 0 <= b < 1000 -> bit the_sb (mview img fb) b = (b <? fb).
Proof.
  intros Hf Hb. unfold bit, mview, vset. rewrite BBLOCK_m, fn_upd_eq by done. cbn [default from_option id].
  rewrite Z.mod_small by (unfold BPB, BSIZE; lia). rewrite bit_bitmap by lia. by rewrite Z2Nat.id by lia.
Qed.

Lemma mview_at img fb b : b <> 58 -> mview img fb b = img !! Z.to_nat b.
Proof. intros Hb. unfold mview, vset. by rewrite fn_upd_ne. Qed.

Lemma mview_block img fb b : img_ok img fb -> 0 <= b < 1000 -> exists d, mview img fb b = Some d /\ length d = 512%nat.
Proof.
  intros [I1 I2 I3 I4] Hb. destruct (decide (b = 58)) as [->|Hne].
  - exists (bitmap (Z.to_nat fb)). split; [|apply length_bitmap]. unfold mview, vset. by rewrite fn_upd_eq.
  - rewrite mview_at by done. destruct (lookup_lt_is_Some_2 img (Z.to_nat b)) as [d Hd]; [lia|].
    exists d. split; [done|]. by eapply Forall_lookup_1 in I2.
Qed.

Lemma layout_m img fb : img_ok img fb -> layout (mview img fb).
Proof.
  intros HI. pose proof (im_low _ _ HI) as Hlow. change nmeta with 59 in *. change FSSIZE with 1000 in *.
  split; rewrite ?the_sb_eq; cbn [sb_size]; rewrite <- ?the_sb_eq; [done| | |].
  - intros b Hb. rewrite BBLOCK_m by done. split; [by apply mhome|]. split; [done|]. by apply mview_block.
  - intros b Hb. split; [apply mhome; lia|]. by apply mview_block; [|lia].
  - intros b Hb _. rewrite bit_m by lia. destruct (Z.ltb_spec b fb); [done|lia].
Qed.

Lemma filter_none {A} (P : A -> Prop) `{!forall x, Decision (P x)} (l : list A) : Forall (fun x => ~ P x) l -> filter P l = [].
Proof. induction 1; [done|]. by rewrite filter_cons_False. Qed.

Lemma free_m img fb : 0 <= fb <= 1000 -> free the_sb (mview img fb) = seqZ fb (1000 - fb).
Proof.
  intros Hf. unfold free. change (sb_size the_sb) with 1000.
  replace 1000 with (fb + (1000 - fb)) at 1 by lia. rewrite seqZ_app, filter_app, Z.add_0_l by lia.
  rewrite (filter_keep _ (seqZ fb _)).
  - rewrite filter_none; [done|]. apply Forall_forall. intros b Hb%elem_of_seqZ.
    rewrite bit_m by lia. destruct (Z.ltb_spec b fb); [done|lia].
  - apply Forall_forall. intros b Hb%elem_of_seqZ. rewrite bit_m by lia. destruct (Z.ltb_spec b fb); [lia|done].
Qed.

Lemma free_m_cons img fb : 0 <= fb < 1000 -> free the_sb (mview img fb) = fb :: seqZ (fb + 1) (999 - fb).
Proof. intros Hf. rewrite free_m, seqZ_cons by lia. f_equal. f_equal; lia. Qed.

(** Writing a sector, and taking the next free block. *)
Lemma mview_set img fb b d : 0 < b < 1000 -> b <> 58 -> length img = 1000%nat ->
  mview (<[Z.to_nat b := d]> img) fb = vset b d (mview img fb).
Proof.
  intros Hb Hne Hl. apply functional_extensionality. intros b'. unfold mview, vset, fn_upd.
  destruct (decide (b' = 58)) as [->|]; [by rewrite decide_False by lia|]. destruct (decide (b' = b)) as [->|Hb'].
  - apply list_lookup_insert_eq. lia.
  - apply list_lookup_insert_ne. lia.
Qed.

Lemma mview_alloc img fb : img_ok img fb -> fb < FSSIZE -> mview img (fb + 1) = valloc the_sb fb (mview img fb).
Proof.
  intros [I1 I2 I3 I4] Hfb. change nmeta with 59 in *. change FSSIZE with 1000 in *.
  apply functional_extensionality. intros b. unfold valloc, vbit. rewrite BBLOCK_m by lia.
  rewrite Z.mod_small by (unfold BPB, BSIZE; lia).
  destruct (decide (b = fb)) as [->|Hne].
  { rewrite mview_at by lia. unfold vset at 1. rewrite fn_upd_eq. apply I4. lia. }
  unfold vset at 1. rewrite fn_upd_ne by done. destruct (decide (b = 58)) as [->|Hb].
  - unfold mview, vset. rewrite !fn_upd_eq. cbn [default from_option id]. rewrite Z2Nat.inj_add by lia.
    change (Z.to_nat 1) with 1%nat. rewrite Nat.add_1_r, bitmap_S, Z2Nat.id by lia. done.
  - unfold vset. rewrite fn_upd_ne by done. by rewrite !mview_at by done.
Qed.

Lemma img_ok_alloc img fb : img_ok img fb -> fb < FSSIZE -> img_ok img (fb + 1).
Proof. intros [I1 I2 I3 I4] Hf. split; [done|done|lia|]. intros b Hb. apply I4. lia. Qed.

Lemma img_ok_set img fb b d : img_ok img fb -> 0 <= b < fb -> length d = 512%nat -> img_ok (<[Z.to_nat b := d]> img) fb.
Proof.
  intros [I1 I2 I3 I4] Hb Hd. split; [by rewrite length_insert| |done|].
  - by apply Forall_insert.
  - intros b' Hb'. rewrite list_lookup_insert_ne by lia. by apply I4.
Qed.

(** *** The host's file *)

Lemma sector_m sec : 0 <= sec < 1000 -> sector sec = Z.to_nat sec.
Proof.
  intros Hs. unfold sector, BSIZE. rewrite u32_small by (unfold W32; lia). by rewrite Z.div_mul.
Qed.

Lemma wsect_m fi fb img sec buf : length img = 1000%nat -> 0 <= sec < 1000 ->
  wsect sec buf (mstate fi fb img) = Ok tt (mstate fi fb (<[Z.to_nat sec := buf]> img)).
Proof.
  intros Hl Hs. unfold wsect, host, gets, upd, bind, ret, mstate. cbn.
  unfold set_m_img, set_m_io. cbn. rewrite sector_m by done. unfold put_sector.
  replace (S (Z.to_nat sec) - length img)%nat with 0%nat by lia. by rewrite app_nil_r.
Qed.

Lemma rsect_m fi fb img sec d : 0 <= sec < 1000 -> img !! Z.to_nat sec = Some d ->
  rsect sec (mstate fi fb img) = Ok d (mstate fi fb img).
Proof.
  intros Hs Hd. unfold rsect, host, gets, upd, bind, ret, mstate. cbn. rewrite sector_m by done.
  unfold set_m_io. cbn. by rewrite Hd.
Qed.

Lemma xint_small x : 0 <= x < W32 -> xint x = x.
Proof. intros Hx. unfold xint. rewrite <- (app_nil_r (enc32 x)). by apply le32_enc. Qed.

Lemma next_block_m fi fb img : 0 <= fb < 1000 -> next_block (mstate fi fb img) = Ok fb (mstate fi (fb + 1) img).
Proof. intros Hf. unfold next_block, bind, gets, upd, ret, mstate, set_m_freeblock. cbn. by rewrite u32_small by (unfold W32; lia). Qed.

Lemma taken_m img fb b : taken the_sb nmeta (mview img fb) b -> 59 <= b < 1000.
Proof. by intros [Hb _]. Qed.

Lemma taken_below img fb b : img_ok img fb -> taken the_sb nmeta (mview img fb) b -> b < fb.
Proof.
  intros HI [Hb Hbit]. change (nmeta <= b < 1000) in Hb. change nmeta with 59 in Hb. pose proof (im_low _ _ HI) as Hl.
  change nmeta with 59 in Hl. change FSSIZE with 1000 in Hl. rewrite bit_m in Hbit by lia. by apply Z.ltb_lt.
Qed.

Abbreviation bmapped := (Content.bmapped the_sb nmeta 2 30 mdisk).

Lemma indirect_m fi fb img addrs fbn bl :
  let v := mview img fb in
  img_ok img fb -> file_ok v addrs -> NDIRECT <= fbn < MAXFILE -> ind addrs <> 0 ->
  (addr_of v addrs fbn = 0 -> fb < 1000) ->
  exists img' fb' bl', let v' := mview img' fb' in
    indirect_block (ind addrs) (fbn - NDIRECT) (mstate fi fb img) = Ok (addr_of v' addrs fbn) (mstate fi fb' img') /\
    img_ok img' fb' /\ bmapped v addrs bl fbn v' addrs bl'.
Proof.
  intros v HI HF Hbn Hi Hsp. pose proof (layout_m _ _ HI) as HL. fold v in HL.
  destruct (fk_ind _ _ _ _ HF) as [?|Hti]; [done|]. pose proof (taken_m _ _ _ Hti) as Hir. pose proof (taken_below _ _ _ HI Hti) as Hib.
  destruct (mview_block img fb (ind addrs) HI ltac:(lia)) as (d & Hd & Hdl). pose proof Hd as Hd'. rewrite mview_at in Hd' by lia.
  pose proof (addr_indirect v addrs fbn ltac:(lia) Hi) as Ea. unfold ientry in Ea. unfold v at 2 in Ea. rewrite Hd in Ea. cbn in Ea.
  assert (0 <= fbn - NDIRECT < NINDIRECT) as Hk by (change MAXFILE with 140 in Hbn; unfold NDIRECT in *; change NINDIRECT with 128; lia).
  unfold indirect_block, bind. erewrite rsect_m by (done || lia). rewrite <- Ea.
  destruct (Z.eqb_spec (addr_of v addrs fbn) 0) as [E0|E0].
  - specialize (Hsp E0). pose proof (im_low _ _ HI) as Hlow. change nmeta with 59 in Hlow. change FSSIZE with 1000 in Hlow.
    rewrite next_block_m by lia. rewrite xint_small by (unfold W32; lia). set (o := Z.to_nat (4 * (fbn - NDIRECT))).
    rewrite wsect_m by (apply HI || lia). unfold ret.
    assert (o + 4 <= 512)%nat as Ho by (change NINDIRECT with 128 in Hk; unfold o; lia).
    assert (le32 o (splice o (enc32 fb) d) = fb) as El.
    { rewrite <- (Nat.add_0_r o) at 1. rewrite le32_in_splice by (cbn; lia). rewrite <- (app_nil_r (enc32 fb)).
      apply le32_enc. unfold W32. lia. }
    rewrite El, xint_small by (unfold W32; lia).
    exists (<[Z.to_nat (ind addrs) := splice o (enc32 fb) d]> img), (fb + 1), (absorb (ind addrs) (lalloc the_sb fb bl)).
    assert (mview (<[Z.to_nat (ind addrs) := splice o (enc32 fb) d]> img) (fb + 1) =
      ventry (ind addrs) (fbn - NDIRECT) fb (valloc the_sb fb v)) as Ev.
    { rewrite mview_set by (apply HI || lia). unfold ventry. fold o. unfold v. rewrite <- mview_alloc by (done || lia).
      rewrite mview_at by lia. by rewrite Hd'. }
    cbn zeta. rewrite Ev.
    destruct (bmapped_indirect the_sb nmeta eq_refl 2 30 mdisk 1 (Z.le_refl 1) v addrs bl (fbn - NDIRECT) fb (seqZ (fb + 1) (999 - fb)) HL HF Hk Hi)
      as [B1 B2]; [by replace (NDIRECT + (fbn - NDIRECT)) with fbn by lia|apply free_m_cons; lia|].
    replace (NDIRECT + (fbn - NDIRECT)) with fbn in B1, B2 by lia. rewrite B1. split; [done|]. split; [|exact B2].
    apply img_ok_set; [by apply img_ok_alloc|lia|]. rewrite length_splice; [done|]. cbn. lia.
  - exists img, fb, bl. unfold ret. rewrite <- Ea, xint_small.
    + split; [done|]. split; [done|]. by apply bmapped_id.
    + destruct (fk_blk _ _ _ _ HF fbn) as [?|Ht]; [unfold NDIRECT in *; lia|done|]. apply taken_m in Ht. unfold W32. lia.
Qed.

Lemma file_block_m fi fb img din fbn bl :
  let v := mview img fb in
  img_ok img fb -> file_ok v (i_addrs din) -> 0 <= fbn < MAXFILE ->
  (addr_of v (i_addrs din) fbn = 0 -> (1 + missing (ind (i_addrs din)) <= length (free the_sb v))%nat) ->
  exists img' fb' addrs' bl', let v' := mview img' fb' in
    file_block din fbn (mstate fi fb img) = Ok (set_i_addrs addrs' din, addr_of v' addrs' fbn) (mstate fi fb' img') /\
    img_ok img' fb' /\ bmapped v (i_addrs din) bl fbn v' addrs' bl' /\ (fbn < NDIRECT -> ind addrs' = ind (i_addrs din)).
Proof.
  intros v HI HF Hbn Hsp. set (addrs := i_addrs din) in *. pose proof (layout_m _ _ HI) as HL. fold v in HL.
  pose proof (im_low _ _ HI) as Hlow. change nmeta with 59 in Hlow. change FSSIZE with 1000 in Hlow.
  unfold v in Hsp. rewrite free_m, length_seqZ in Hsp by lia. fold v in Hsp.
  assert (forall b, b = 0 \/ taken the_sb nmeta v b -> 0 <= b < W32) as Hw.
  { intros b [->|Hb%taken_m]; unfold W32; lia. }
  unfold file_block. destruct (Z.ltb_spec fbn NDIRECT) as [Hd|Hd].
  - change (addr din fbn) with (default 0 (addrs !! Z.to_nat fbn)).
    assert (default 0 (addrs !! Z.to_nat fbn) = addr_of v addrs fbn) as Ea.
    { unfold addr_of. by destruct (Z.ltb_spec fbn NDIRECT); [|lia]. }
    rewrite Ea, (xint_small (addr_of _ _ _)) by (apply Hw, HF; lia).
    destruct (Z.eqb_spec (addr_of v addrs fbn) 0) as [E0|E0].
    + specialize (Hsp E0). assert (fb < FSSIZE) as Hfs by (change FSSIZE with 1000; lia).
      unfold bind at 1 2. rewrite next_block_m by lia. rewrite xint_small by (unfold W32; lia).
      destruct (bmapped_direct the_sb nmeta eq_refl 2 30 mdisk v addrs bl fbn fb (seqZ (fb + 1) (999 - fb)) HL HF)
        as [B1 B2]; [lia|done|apply free_m_cons; lia|].
      exists img, (fb + 1), (<[Z.to_nat fbn := fb]> addrs), (lalloc the_sb fb bl). cbn zeta.
      rewrite mview_alloc by (done || lia). fold v. rewrite B1. split; [|split; [by apply img_ok_alloc|split; [exact B2|]]].
      * unfold ret, addr, set_addr. cbn [i_addrs set_i_addrs]. fold addrs.
        rewrite list_lookup_insert_eq by (rewrite (fk_len _ _ _ _ HF); unfold NDIRECT in *; lia). cbn.
        by rewrite xint_small by (unfold W32; lia).
      * intros _. unfold ind. rewrite list_lookup_insert_ne; [done|]. unfold NDIRECT in *. lia.
    + exists img, fb, addrs, bl. cbn zeta. fold v. unfold bind at 1, ret. cbn [fst snd]. change (addr din fbn) with (default 0 (addrs !! Z.to_nat fbn)).
      rewrite Ea, xint_small by (apply Hw, HF; lia).
      split; [by destruct din|]. split; [done|]. split; [by apply bmapped_id|done].
  - change (addr din NDIRECT) with (ind addrs). rewrite (xint_small (ind addrs)) by (apply Hw, HF).
    destruct (Z.eqb_spec (ind addrs) 0) as [E0|E0].
    + assert (addr_of v addrs fbn = 0) as Ea.
      { unfold addr_of. destruct (Z.ltb_spec fbn NDIRECT); [lia|]. by rewrite E0. }
      specialize (Hsp Ea). rewrite E0 in Hsp. change (missing 0) with 1%nat in Hsp.
      assert (fb < FSSIZE) as Hfs by (change FSSIZE with 1000; lia).
      unfold bind at 1 2. rewrite next_block_m by lia. rewrite xint_small by (unfold W32; lia).
      destruct (new_ind_ok the_sb nmeta eq_refl 2 30 mdisk v addrs fb (seqZ (fb + 1) (999 - fb)) HL HF E0)
        as (N1 & N2 & N3 & _); [apply free_m_cons; lia|].
      set (addrs1 := <[Z.to_nat NDIRECT := fb]> addrs) in *.
      unfold v in N1, N3. rewrite <- mview_alloc in N1, N3 by done.
      destruct (indirect_m fi (fb + 1) img addrs1 fbn (lalloc the_sb fb bl) (img_ok_alloc _ _ HI Hfs) N1)
        as (img2 & fb2 & bl2 & E & HI2 & HB); [lia|lia|lia|].
      exists img2, fb2, addrs1, bl2. cbn zeta. split; [|split; [done|split; [|lia]]].
      * unfold ret at 1. change (addr (set_addr NDIRECT fb din) NDIRECT) with (ind addrs1).
        rewrite N2, xint_small by (unfold W32; lia). rewrite N2 in E. unfold bind. rewrite E. done.
      * rewrite mview_alloc in HB by done. eapply (bmapped_new_ind the_sb nmeta eq_refl 2 30 mdisk 1 (Z.le_refl 1)); [exact HL|done|done| |lia|exact HB].
        apply free_m_cons. lia.
    + destruct (indirect_m fi fb img addrs fbn bl HI HF) as (img2 & fb2 & bl2 & E & HI2 & HB); [lia|done|intros Ha; specialize (Hsp Ha); lia|].
      exists img2, fb2, addrs, bl2. cbn zeta. split; [|split; [done|split; [done|lia]]].
      unfold bind at 1, ret at 1. change (addr din NDIRECT) with (ind addrs). rewrite xint_small by (apply Hw, HF).
      unfold bind. rewrite E. unfold ret. by destruct din.
Qed.

Abbreviation wrote := (Content.wrote the_sb nmeta 2 30 mdisk).

(** The blocks that writing [len] bytes at [off] may take. *)
Definition need v addrs (off len : Z) : Z := Z.of_nat (lacks v addrs off len + missing (ind addrs)).

Lemma need_step img fb addrs bl off m len img' fb' addrs' bl' v'' :
  let v := mview img fb in let v' := mview img' fb' in
  0 <= off -> 0 < m <= BSIZE - off mod BSIZE -> m <= len -> off + len <= MAXFILE * BSIZE ->
  img_ok img fb -> img_ok img' fb' -> bmapped v addrs bl (off / BSIZE) v' addrs' bl' ->
  (forall bn, addr_of v'' addrs' bn = addr_of v' addrs' bn) ->
  fb' + need v'' addrs' (off + m) (len - m) <= fb + need v addrs off len.
Proof.
  intros v v' Ho Hm Hl Hmax HI HI' HB Ea.
  pose proof (lacks_step the_sb nmeta 2 30 mdisk v addrs bl off m len v' addrs' bl' Ho Hm Hl Hmax HB) as Hk.
  destruct (bm_change _ _ _ _ _ _ _ _ _ _ _ _ HB) as (new & t & C & _ & Hn & _).
  pose proof (f_equal length (ch_new _ _ _ _ _ _ _ _ _ C)) as Hfr. rewrite length_app in Hfr.
  pose proof (im_low _ _ HI) as L1. pose proof (im_low _ _ HI') as L2. change nmeta with 59 in *. change FSSIZE with 1000 in *.
  unfold v, v' in Hfr. rewrite !free_m, !length_seqZ in Hfr by lia.
  unfold need, lacks in *. rewrite (gaps_ext v' addrs' v'') by (intros bn _; apply Ea). lia.
Qed.

Lemma append_turn_m fi fb img din off p :
  let v := mview img fb in let len := Z.of_nat (length p) in
  let m := Z.min len (BSIZE - off mod BSIZE) in
  img_ok img fb -> file_ok v (i_addrs din) -> 0 <= off -> 0 < len -> off + len <= MAXFILE * BSIZE ->
  (off mod BSIZE <> 0 -> addr_of v (i_addrs din) (off / BSIZE) <> 0) ->
  fb + need v (i_addrs din) off len <= 1000 ->
  exists img' fb' addrs', let v' := mview img' fb' in
    append_turn (din, off, p) (mstate fi fb img) =
      Ok (inl (set_i_addrs addrs' din, off + m, drop (Z.to_nat m) p)) (mstate fi fb' img') /\
    img_ok img' fb' /\ wrote v (i_addrs din) off (take (Z.to_nat m) p) v' addrs' /\
    fb' + need v' addrs' (off + m) (len - m) <= fb + need v (i_addrs din) off len /\
    (off < NDIRECT * BSIZE -> ind addrs' = ind (i_addrs din)) /\
    (forall bn, 0 <= bn < MAXFILE -> off + m <= bn * BSIZE -> addr_of v' addrs' bn = addr_of v (i_addrs din) bn).
Proof.
  intros v len m HI HF Ho Hlen Hmax Hfirst Hneed.
  pose proof (Z.mod_pos_bound off BSIZE ltac:(done)) as Hmb. pose proof (Z.div_mod off BSIZE ltac:(done)) as Hdm.
  assert (0 < m <= BSIZE - off mod BSIZE /\ m <= len) as [Hm Hml] by (unfold BSIZE in *; lia).
  assert (0 <= off / BSIZE < MAXFILE) as Hbn.
  { split; [by apply Z.div_pos|]. apply Z.div_lt_upper_bound; [done|lia]. }
  pose proof Hmax as Hmax'. change (MAXFILE * BSIZE) with 71680 in Hmax.
  pose proof (im_low _ _ HI) as Hlow. change nmeta with 59 in Hlow. change FSSIZE with 1000 in Hlow.
  destruct (file_block_m fi fb img din (off / BSIZE) [] HI HF Hbn) as (img1 & fb1 & addrs1 & bl1 & E & HI1 & HB & Hind).
  { intros Ea. fold v. unfold v at 1. rewrite free_m, length_seqZ by lia. unfold need, lacks in Hneed.
    destruct (nblk_step off m len Ho Hm Hml) as [Hn _]. rewrite seqZ_cons, gaps_cons in Hneed by done.
    fold v in Ea. rewrite Ea in Hneed. change (missing 0) with 1%nat in Hneed. lia. }
  set (v1 := mview img1 fb1) in *. set (bs := take (Z.to_nat m) p).
  assert (Z.of_nat (length bs) = m) as Hbs by (unfold bs; rewrite length_take; lia).
  destruct (cblk_ok the_sb nmeta 2 30 mdisk v (i_addrs din) [] v1 addrs1 bl1 off HB Ho (proj2 Hbn)) as (HL1 & Hr & Hd & Hdl).
  change (nmeta <= cblk v1 addrs1 off < 1000) in Hr. change nmeta with 59 in Hr. unfold cblk in *. set (b := addr_of v1 addrs1 (off / BSIZE)) in *.
  pose proof Hd as Hd'. unfold v1 in Hd'. rewrite mview_at in Hd' by lia. set (d := cdata v1 addrs1 off) in *.
  assert (b < fb1) as Hbf.
  { apply (taken_below img1 fb1); [done|]. destruct (fk_blk _ _ _ _ (bm_ok _ _ _ _ _ _ _ _ _ _ _ _ HB) _ Hbn) as [E0|?]; [|done].
    by destruct (bm_addr _ _ _ _ _ _ _ _ _ _ _ _ HB). }
  pose proof (length_cdata the_sb nmeta 2 30 mdisk v (i_addrs din) [] v1 addrs1 bl1 off bs HB Ho (proj2 Hbn) ltac:(lia)) as Hcl. fold d in Hcl.
  exists (<[Z.to_nat b := splice (Z.to_nat (off mod BSIZE)) bs d]> img1), fb1, addrs1. cbn zeta.
  rewrite mview_set by (apply HI1 || lia). fold v1.
  change (vset b (splice (Z.to_nat (off mod BSIZE)) bs d) v1) with (cview v1 addrs1 off bs).
  split; [|split; [by apply img_ok_set; [|lia|]|split; [|split; [|split]]]].
  - unfold append_turn. fold len. destruct (Z.leb_spec len 0); [lia|]. destruct (Z.leb_spec MAXFILE (off / BSIZE)); [lia|].
    unfold bind at 1. rewrite E. cbn [fst snd].
    replace (u32 ((off / BSIZE + 1) * BSIZE - off)) with (BSIZE - off mod BSIZE)
      by (rewrite u32_small by (unfold BSIZE, W32 in *; lia); lia).
    fold m. unfold bind at 1. erewrite rsect_m by (exact Hd' || lia). replace (off - off / BSIZE * BSIZE) with (off mod BSIZE) by lia.
    unfold bind. rewrite wsect_m by (apply HI1 || lia). unfold ret. rewrite u32_small by (unfold BSIZE, W32 in *; lia). done.
  - exact (wrote_chunk the_sb nmeta eq_refl 2 30 mdisk v (i_addrs din) [] v1 addrs1 bl1 off bs (layout_m _ _ HI) HF HB Ho (proj2 Hbn) ltac:(lia)).
  - eapply (need_step img fb (i_addrs din) [] off m len img1 fb1); [done|done|done|exact Hmax'|done|done|exact HB|].
    exact (cview_addr the_sb nmeta 2 30 mdisk v (i_addrs din) [] v1 addrs1 bl1 off bs HB Ho (proj2 Hbn)).
  - intros Hlt. apply Hind. apply Z.div_lt_upper_bound; [done|lia].
  - intros bn Hb Hpast. rewrite (cview_addr the_sb nmeta 2 30 mdisk v (i_addrs din) [] v1 addrs1 bl1 off bs HB Ho (proj2 Hbn)).
    apply (bm_same _ _ _ _ _ _ _ _ _ _ _ _ HB); [done|]. intros ->. lia.
Qed.

Lemma append_loop fi : forall fuel din off p fb img,
  let v := mview img fb in let len := Z.of_nat (length p) in
  (length p < fuel)%nat -> img_ok img fb -> file_ok v (i_addrs din) -> 0 <= off -> off + len <= MAXFILE * BSIZE ->
  (0 < len -> off mod BSIZE <> 0 -> addr_of v (i_addrs din) (off / BSIZE) <> 0) ->
  fb + need v (i_addrs din) off len <= 1000 ->
  exists img' fb' addrs', let v' := mview img' fb' in
    loop_ fuel append_turn (din, off, p) (mstate fi fb img) = Ok (set_i_addrs addrs' din, off + len) (mstate fi fb' img') /\
    img_ok img' fb' /\ wrote v (i_addrs din) off p v' addrs' /\
    fb' + need v' addrs' (off + len) 0 <= fb + need v (i_addrs din) off len /\
    (off + len <= NDIRECT * BSIZE -> ind addrs' = ind (i_addrs din)) /\
    (forall bn, 0 <= bn < MAXFILE -> off + len <= bn * BSIZE -> addr_of v' addrs' bn = addr_of v (i_addrs din) bn).
Proof.
  induction fuel as [|fuel IH]; intros din off p fb img v len Hf HI HF Ho Hmax Hfirst Hneed; [lia|]. cbn [loop_].
  destruct (Z.eq_dec len 0) as [E0|Hne].
  { assert (p = []) as -> by (apply length_zero_iff_nil; unfold len in E0; lia). exists img, fb, (i_addrs din). cbn zeta. fold v.
    cbn [length Z.of_nat] in len. unfold len. rewrite Z.add_0_r. split; [|split; [done|split; [|split; [apply Z.le_refl|split; done]]]].
    - unfold bind, append_turn, ret. cbn. by destruct din.
    - apply wrote_nil; [by apply layout_m|done]. }
  destruct (append_turn_m fi fb img din off p HI HF Ho ltac:(lia) Hmax (Hfirst ltac:(lia)) Hneed)
    as (img1 & fb1 & addrs1 & E & HI1 & HW1 & Hn1 & Hi1 & Hp1). fold v len in HW1, Hn1, E, Hp1.
  pose proof (Z.mod_pos_bound off BSIZE ltac:(done)) as Hmb. pose proof (Z.div_mod off BSIZE ltac:(done)) as Hdm.
  set (m := Z.min len (BSIZE - off mod BSIZE)) in *. set (v1 := mview img1 fb1) in *.
  assert (0 < m <= len) as Hm by (unfold BSIZE in *; lia).
  assert (Z.of_nat (length (drop (Z.to_nat m) p)) = len - m) as Hd by (rewrite length_drop; lia).
  assert (length (take (Z.to_nat m) p) = Z.to_nat m) as Ht by (rewrite length_take; lia).
  destruct (IH (set_i_addrs addrs1 din) (off + m) (drop (Z.to_nat m) p) fb1 img1) as (img2 & fb2 & addrs2 & E2 & HI2 & HW2 & Hn2 & Hi2 & Hp2);
    rewrite ?Hd; cbn [i_addrs set_i_addrs]; [rewrite length_drop; lia|done|apply HW1|lia|lia| |fold v1; lia|].
  - intros Hpos Hna. exfalso. apply Hna. unfold m, BSIZE in *. rewrite Z.min_r by lia. Z.div_mod_to_equations. lia.
  - rewrite Hd in *. cbn [i_addrs set_i_addrs] in *. fold v1 in HW2, Hn2, Hi2, Hp2.
    replace (off + m + (len - m)) with (off + len) in * by lia.
    exists img2, fb2, addrs2. cbn zeta. split; [|split; [done|split; [|split; [lia|split]]]].
    + unfold bind. rewrite E. rewrite E2. by destruct din.
    + rewrite <- (take_drop (Z.to_nat m) p). eapply (wrote_app the_sb nmeta eq_refl 2 30 mdisk); [exact HW1| |done|].
      * rewrite Ht, Z2Nat.id by lia. exact HW2.
      * rewrite Ht, length_drop. lia.
    + intros Hle. rewrite Hi2 by done. apply Hi1. lia.
    + intros bn Hb Hpast. rewrite Hp2 by lia. apply Hp1; lia.
Qed.

(** *** The inode table *)

Abbreviation itable_ok := (Content.itable_ok the_sb nmeta 2 30 mdisk).
Abbreviation written := (Content.written the_sb nmeta 2 30 mdisk).

Lemma not_map b : b <> 58 -> ~ is_map the_sb b.
Proof. intros Hb (c & Hc & ->). change (0 <= c < 1000) in Hc. by rewrite BBLOCK_m in Hb. Qed.

Lemma itable_m img fb inum : img_ok img fb -> 0 <= inum < 208 -> itable_ok (mview img fb) inum.
Proof.
  intros HI Hi. destruct (IBLOCK_m inum Hi) as [Hb _]. split; [apply mhome; lia|change nmeta with 59; lia|apply not_map; lia|].
  apply mview_block; [done|lia].
Qed.

Lemma winode_m fi fb img ip x :
  img_ok img fb -> 0 <= i_inum x < 208 -> fields_ok x -> enc_dinode ip = enc_dinode x ->
  exists img', winode (i_inum x) ip (mstate fi fb img) = Ok tt (mstate fi fb img') /\
    img_ok img' fb /\ mview img' fb = vinode the_sb x (mview img fb).
Proof.
  intros HI Hi Hf Ee. destruct (IBLOCK_m _ Hi) as [Hb _]. set (ib := IBLOCK (i_inum x) the_sb) in *.
  destruct (mview_block img fb ib HI ltac:(lia)) as (d & Hd & Hdl). pose proof Hd as Hd'. rewrite mview_at in Hd' by lia.
  pose proof (im_low _ _ HI) as Hlow. change nmeta with 59 in Hlow.
  exists (<[Z.to_nat ib := splice (dinode_off (i_inum x)) (enc_dinode x) d]> img). split; [|split].
  - unfold winode, bind at 1, gets. cbn [m_sb mstate]. change (IBLOCK (i_inum x) the_sb) with ib.
    unfold bind. erewrite rsect_m by (exact Hd' || lia). rewrite Ee, wsect_m by (apply HI || lia). done.
  - apply img_ok_set; [done|lia|]. rewrite length_splice; [done|]. rewrite length_enc_dinode, Hdl by done. apply dinode_off_lt.
  - rewrite mview_set by (apply HI || lia). unfold vinode. fold ib. by rewrite Hd.
Qed.

Lemma rinode_m fi fb img x :
  img_ok img fb -> 0 <= i_inum x < 208 -> synced the_sb (mview img fb) x ->
  rinode (i_inum x) (mstate fi fb img) = Ok (with_fields x zinode) (mstate fi fb img).
Proof.
  intros HI Hi Hsy. destruct (IBLOCK_m _ Hi) as [Hb _].
  destruct (mview_block img fb (IBLOCK (i_inum x) the_sb) HI ltac:(lia)) as (d & Hd & Hdl). pose proof Hd as Hd'. rewrite mview_at in Hd' by lia.
  unfold rinode, bind, gets. cbn [m_sb mstate]. erewrite rsect_m by (exact Hd' || lia). unfold ret.
  rewrite <- (Hsy zinode). unfold dinode_at. by rewrite Hd.
Qed.

Lemma iappend_m fi fb img x src :
  let v := mview img fb in let len := Z.of_nat (length src) in
  img_ok img fb -> good v x -> 0 <= i_inum x < 208 -> 0 < len -> i_size x + len <= MAXFILE * BSIZE ->
  fb + need v (i_addrs x) (i_size x) len <= 1000 ->
  exists img' fb' x', let v' := mview img' fb' in
    iappend (i_inum x) src (mstate fi fb img) = Ok tt (mstate fi fb' img') /\
    img_ok img' fb' /\ written v x (i_size x) src v' x' /\
    fb' + Z.of_nat (missing (ind (i_addrs x'))) <= fb + need v (i_addrs x) (i_size x) len /\
    (i_size x + len <= NDIRECT * BSIZE -> ind (i_addrs x') = ind (i_addrs x)) /\
    (forall bn, 0 <= bn < MAXFILE -> i_size x + len <= bn * BSIZE -> addr_of v' (i_addrs x') bn = addr_of v (i_addrs x) bn).
Proof.
  intros v len HI Hg Hi Hlen Hmax Hneed. pose proof Hg as [G1 G2 G3 G4 G5 G6].
  pose proof (fo_size _ G4) as Hs. set (din := with_fields x zinode).
  destruct (append_loop fi (S (length src)) din (i_size x) src fb img) as (img1 & fb1 & addrs1 & E & HI1 & HW & Hn & Hind & Hpast);
    [lia|done|done|lia|done| |done|].
  { intros _ Hna. destruct (G3 (i_size x - 1)) as [_ Ha]; [destruct (Z.eq_dec (i_size x) 0) as [E0|]; [by rewrite E0 in Hna|lia]|].
    replace (i_size x / BSIZE) with ((i_size x - 1) / BSIZE); [done|]. unfold BSIZE in *. Z.div_mod_to_equations. lia. }
  cbn [i_addrs din with_fields set_i_addrs] in HW, Hn, Hind, Hpast. fold v len in HW, Hn, Hind, E, Hpast.
  pose proof (written_grows the_sb nmeta eq_refl 2 30 mdisk 1 (Z.le_refl 1) v x (i_size x) src (mview img1 fb1) addrs1
    G3 G4 G5 ltac:(lia) Hmax HW ltac:(lia)) as Hwn. cbn zeta in Hwn.
  set (x2 := set_i_size _ _) in Hwn.
  destruct (winode_m fi fb1 img1 (set_i_size (xint (i_size x + len)) (set_i_addrs addrs1 din)) x2) as (img2 & E2 & HI2 & Ev);
    [done|done|apply (wn_fields _ _ _ _ _ _ _ _ _ _ _ Hwn)|change (MAXFILE * BSIZE) with 71680 in Hmax; rewrite xint_small by (unfold W32; lia); done|].
  exists img2, fb1, x2. cbn zeta. rewrite Ev. split; [|split; [done|split; [done|split; [|split; [done|]]]]].
  - unfold iappend, bind. rewrite rinode_m by done. fold din. change (i_size din) with (i_size x).
    rewrite xint_small by done. rewrite E. exact E2.
  - change (i_addrs x2) with addrs1. unfold need at 1 in Hn. lia.
  - intros bn Hb Hle. change (i_addrs x2) with addrs1. rewrite <- Hpast by done. unfold vinode.
    apply (meta_addr the_sb nmeta); [done|apply G5|apply HW].
Qed.

(** Storing an inode: that inode is on disk, the others stay as they are. *)
Section Store.
Context (v : view) (x : inode) (HL : layout v) (Hf : fields_ok x) (Hit : itable_ok v (i_inum x)).
Lemma store_data : exists d, v (IBLOCK (i_inum x) the_sb) = Some d /\ length d = 512%nat.
Proof. apply Hit. Qed.

Lemma store_synced y : dinode_at the_sb (vinode the_sb x v) (i_inum x) y = with_fields x y.
Proof.
  destruct store_data as (d & Hd & Hdl). unfold vinode, dinode_at, vset. rewrite fn_upd_eq, Hd. apply dec_enc_dinode; [done|].
  cbn. rewrite Hdl. apply dinode_off_lt.
Qed.

Lemma store_good : file_ok v (i_addrs x) -> filled v x -> good (vinode the_sb x v) x.
Proof.
  intros HF Hfill. destruct store_data as (d & Hd & Hdl). pose proof Hit as [T1 T2 T3 _].
  unfold vinode. set (ib := IBLOCK (i_inum x) the_sb) in *. rewrite Hd. cbn [default from_option id].
  split; [by apply meta_layout|by apply meta_file| |done| |].
  - intros k Hk. rewrite (meta_addr the_sb nmeta eq_refl) by done. by apply Hfill.
  - split; [done..|]. eexists. fold ib. unfold vset. rewrite fn_upd_eq. split; [done|].
    rewrite length_splice; [done|]. rewrite length_enc_dinode, Hdl by done. apply dinode_off_lt.
  - intros y. unfold dinode_at. fold ib. unfold vset. rewrite fn_upd_eq. apply dec_enc_dinode; [done|].
    rewrite Hdl. apply dinode_off_lt.
Qed.

Lemma store_addr addrs bn : file_ok v addrs -> addr_of (vinode the_sb x v) addrs bn = addr_of v addrs bn.
Proof. intros HF. apply (meta_addr the_sb nmeta); [done|apply Hit|done]. Qed.

Lemma store_byte addrs k : file_ok v addrs -> 0 <= k -> k / BSIZE < MAXFILE -> addr_of v addrs (k / BSIZE) <> 0 ->
  fbyte (vinode the_sb x v) addrs k = fbyte v addrs k.
Proof. intros. apply (meta_byte the_sb nmeta); done || apply Hit. Qed.

Lemma store_bytes y : file_ok v (i_addrs y) -> filled v y -> bytes (vinode the_sb x v) y = bytes v y.
Proof.
  intros HF Hfill. unfold bytes, file_bytes. apply list_fmap_ext. intros j k Hk. apply lookup_seq in Hk as [-> Hk].
  destruct (Hfill (0 + Z.of_nat j) ltac:(lia)) as [Hm Ha]. apply store_byte; done || lia.
Qed.

Lemma store_other y : good v y -> slot the_sb y <> slot the_sb x -> good (vinode the_sb x v) y.
Proof.
  intros [G1 G2 G3 G4 G5 G6] Hsl. destruct store_data as (d & Hd & Hdl). pose proof Hit as [T1 T2 T3 _].
  unfold vinode. set (ib := IBLOCK (i_inum x) the_sb) in *. rewrite Hd. cbn [default from_option id]. unfold slot in Hsl.
  split; [by apply meta_layout|by apply meta_file| |done| |].
  - intros k Hk. rewrite (meta_addr the_sb nmeta eq_refl) by done. by apply G3.
  - destruct G5 as [U1 U2 U3 U4]. split; [done..|]. unfold vset, fn_upd. destruct (decide _) as [E|]; [|done].
    eexists. split; [done|]. rewrite length_splice; [done|]. rewrite length_enc_dinode, Hdl by done. apply dinode_off_lt.
  - intros z. unfold dinode_at, vset, fn_upd. rewrite <- G6. destruct (decide _) as [E|]; [|done].
    cbn [default from_option id]. unfold dinode_at. rewrite E, Hd. cbn [default from_option id].
    apply dec_enc_other; [done|by rewrite Hdl|]. fold ib in Hsl. congruence.
Qed.

Lemma store_owned addrs b : file_ok v addrs -> owned (vinode the_sb x v) addrs b <-> owned v addrs b.
Proof.
  intros HF. unfold owned. split; intros [H0 H1]; (split; [done|]);
    (destruct H1 as [?|(bn & Hbn & ->)]; [by left|right; exists bn; by rewrite store_addr]).
Qed.

Lemma store_apart y z : good v y -> good v z -> apart the_sb v y z -> apart the_sb (vinode the_sb x v) y z.
Proof.
  intros [_ F1 _ _ _ _] [_ F2 _ _ _ _] [Hs Hb]. split; [done|]. intros b. rewrite !store_owned by done. apply Hb.
Qed.
End Store.

(** *** The blocks of a file *)

(** The blocks a file of [n] bytes takes, the indirect block included. *)
Definition blocks_of (n : Z) : Z := (n + BSIZE - 1) / BSIZE + if NDIRECT * BSIZE <? n then 1 else 0.

Lemma blocks_mono n m : 0 <= n <= m -> 0 <= blocks_of n <= blocks_of m.
Proof.
  intros Hn. unfold blocks_of, BSIZE, NDIRECT. pose proof (Z.div_le_mono (n + 512 - 1) (m + 512 - 1) 512 ltac:(lia) ltac:(lia)).
  pose proof (Z.div_pos (n + 512 - 1) 512 ltac:(lia) ltac:(lia)).
  destruct (Z.ltb_spec (12 * 512) n), (Z.ltb_spec (12 * 512) m); lia.
Qed.

Lemma lacks_append v x len : filled v x -> 0 <= i_size x -> 0 < len ->
  Z.of_nat (lacks v (i_addrs x) (i_size x) len) <= (i_size x + len + BSIZE - 1) / BSIZE - (i_size x + BSIZE - 1) / BSIZE.
Proof.
  intros Hfill Hs Hlen. unfold lacks. set (s := i_size x) in *.
  assert (0 < nblk s len /\ s / BSIZE + nblk s len = (s + len + BSIZE - 1) / BSIZE) as [Hn En].
  { unfold nblk, BSIZE. destruct (Z.leb_spec len 0); [lia|]. split.
    - apply Z.div_str_pos. pose proof (Z.mod_pos_bound s 512 ltac:(lia)). lia.
    - rewrite <- Z.div_add_l by done. f_equal. pose proof (Z.div_mod s 512 ltac:(lia)). lia. }
  rewrite seqZ_cons, gaps_cons by done.
  assert (gaps v (i_addrs x) (seqZ (Z.succ (s / BSIZE)) (Z.pred (nblk s len))) <= Z.to_nat (nblk s len - 1))%nat as Hg.
  { unfold gaps. etransitivity; [apply length_filter|]. rewrite length_seqZ. lia. }
  assert ((s + BSIZE - 1) / BSIZE = s / BSIZE + if decide (s mod BSIZE = 0) then 0 else 1) as Ec.
  { unfold BSIZE. destruct (decide _) as [E|E]; Z.div_mod_to_equations; lia. }
  rewrite Ec. unfold missing. destruct (decide (s mod BSIZE = 0)) as [E|E]; [destruct (decide _); lia|].
  rewrite decide_False; [lia|]. destruct (Hfill (s - 1)) as [_ Ha].
  { destruct (Z.eq_dec s 0) as [E0|]; [by rewrite E0 in E|]. unfold s in *. lia. }
  replace (s / BSIZE) with ((s - 1) / BSIZE); [done|]. unfold BSIZE in *. Z.div_mod_to_equations. lia.
Qed.

(** A file as [mkfs] makes it: no indirect block before one is needed, no block
    past the end, and the last block is zero past the end. *)
Record tidy v x : Prop := {
  td_good : good v x;
  td_inum : 0 < i_inum x < 208;
  td_ind : i_size x <= NDIRECT * BSIZE -> ind (i_addrs x) = 0;
  td_tail : forall k, i_size x <= k -> k / BSIZE < MAXFILE -> addr_of v (i_addrs x) (k / BSIZE) <> 0 -> fbyte v (i_addrs x) k = 0;
  td_end : forall bn, 0 <= bn < MAXFILE -> i_size x <= bn * BSIZE -> addr_of v (i_addrs x) bn = 0;
}.

Lemma tidy_ind v x : tidy v x -> NDIRECT * BSIZE < i_size x -> ind (i_addrs x) <> 0.
Proof.
  intros [Hg _ _ _ _] Hs Hi. destruct (gd_filled _ _ _ _ _ _ _ Hg (NDIRECT * BSIZE)) as [_ Ha].
  { split; [done|]. done. }
  apply Ha. change (NDIRECT * BSIZE / BSIZE) with 12. unfold addr_of. cbn [Z.ltb]. by rewrite Hi.
Qed.

(** What an append takes. *)
Lemma append_need v x len : tidy v x -> 0 < len ->
  need v (i_addrs x) (i_size x) len <= blocks_of (i_size x + len) - blocks_of (i_size x) +
    (if i_size x + len <=? NDIRECT * BSIZE then 1 else 0).
Proof.
  intros Ht Hlen. pose proof (td_good _ _ Ht) as Hg. pose proof (fo_size _ (gd_fields _ _ _ _ _ _ _ Hg)) as Hs.
  pose proof (lacks_append v x len (gd_filled _ _ _ _ _ _ _ Hg) ltac:(lia) Hlen) as Hk. pose proof (tidy_ind v x Ht) as Hi.
  unfold need, blocks_of, missing in *. destruct (Z.ltb_spec (NDIRECT * BSIZE) (i_size x)) as [H1|H1].
  - rewrite decide_False by auto. destruct (Z.ltb_spec (NDIRECT * BSIZE) (i_size x + len)); [|lia].
    destruct (Z.leb_spec (i_size x + len) (NDIRECT * BSIZE)); lia.
  - destruct (decide _); destruct (Z.ltb_spec (NDIRECT * BSIZE) (i_size x + len)); destruct (Z.leb_spec (i_size x + len) (NDIRECT * BSIZE)); lia.
Qed.

(** *** The invariant *)

(** The files of the image, by inode number from 1 on: the inode and the
    contents. *)
Abbreviation files := (list (inode * list Z)).

Definition total (L : files) : Z := foldr (fun e a => blocks_of (Z.of_nat (length (snd e))) + a) 0 L.

Lemma total_app L L' : total (L ++ L') = total L + total L'.
Proof. unfold total. induction L as [|e L IH]; [done|]. cbn. rewrite IH. lia. Qed.

Lemma total_insert L k e e' : L !! k = Some e ->
  total (<[k := e']> L) = total L - blocks_of (Z.of_nat (length (snd e))) + blocks_of (Z.of_nat (length (snd e'))).
Proof.
  unfold total. revert k. induction L as [|a L IH]; intros [|k] Hk; [done..| |].
  - cbn in Hk |- *. simplify_eq. lia.
  - change (<[S k := e']> (a :: L)) with (a :: <[k := e']> L). cbn [foldr]. rewrite (IH k) by done. lia.
Qed.

Definition sb_block : list Z := splice 0 (enc_superblock the_sb) zeroes.

Record built fi fb img (L : files) : Prop := {
  bt_img : img_ok img fb;
  bt_file : forall k x c, L !! k = Some (x, c) ->
    tidy (mview img fb) x /\ i_inum x = Z.of_nat k + 1 /\ bytes (mview img fb) x = c;
  bt_apart : forall k k' x c x' c', L !! k = Some (x, c) -> L !! k' = Some (x', c') -> k <> k' ->
    apart the_sb (mview img fb) x x';
  bt_fi : fi = Z.of_nat (length L) + 1;
  bt_fb : fb <= nmeta + total L;
  bt_sb : img !! 1%nat = Some sb_block;
  bt_log : img !! 2%nat = Some zeroes;
}.

Lemma overlay_end old src : overlay (Z.of_nat (length old)) src old = old ++ src.
Proof. unfold overlay. rewrite Nat2Z.id, take_ge, drop_ge, app_nil_r by lia. done. Qed.

Lemma apart_sym v x y : apart the_sb v x y -> apart the_sb v y x.
Proof. intros [H1 H2]. split; [congruence|]. intros b Hx Hy. by apply (H2 b). Qed.

(** A write to [x] keeps two other files apart. *)
Lemma apart_others v v' x x' off src y z :
  written v x off src v' x' -> good v y -> good v z -> apart the_sb v x y -> apart the_sb v x z ->
  apart the_sb v y z -> apart the_sb v' y z.
Proof.
  intros HW Hy Hz Hxy Hxz [Hs Hb]. split; [done|].
  assert (forall t, good v t -> apart the_sb v x t -> forall b, owned v' (i_addrs t) b -> owned v (i_addrs t) b) as E.
  { intros t Ht Hxt b [H0 H1]. split; [done|]. destruct H1 as [?|(bn & Hbn & ->)]; [by left|right].
    exists bn. split; [done|]. by eapply (other_addr 2 30 the_sb nmeta mdisk v v' x x' t). }
  intros b H1%E H2%E; [|done..]. by apply (Hb b).
Qed.

Lemma meta_m img fb img' fb' x off src x' b d :
  written (mview img fb) x off src (mview img' fb') x' -> 0 < i_inum x < 208 -> 0 <= b < 32 ->
  img !! Z.to_nat b = Some d -> img' !! Z.to_nat b = Some d.
Proof.
  intros HW Hi Hb Hd. destruct (IBLOCK_m (i_inum x) ltac:(lia)) as [Hib _].
  pose proof (wn_meta _ _ _ _ _ _ _ _ _ _ _ HW b) as E. rewrite !mview_at in E by lia. rewrite E; [done| |apply not_map; lia|lia].
  left. change nmeta with 59. lia.
Qed.

(** The files after a write to one of them. *)
Lemma files_step v v' x x' src (L : files) (k : nat) c :
  written v x (i_size x) src v' x' -> L !! k = Some (x, c) -> tidy v' x' ->
  (forall k x c, L !! k = Some (x, c) -> tidy v x /\ i_inum x = Z.of_nat k + 1 /\ bytes v x = c) ->
  (forall k k' x c x' c', L !! k = Some (x, c) -> L !! k' = Some (x', c') -> k <> k' -> apart the_sb v x x') ->
  (forall j y cy, <[k := (x', c ++ src)]> L !! j = Some (y, cy) ->
    tidy v' y /\ i_inum y = Z.of_nat j + 1 /\ bytes v' y = cy) /\
  (forall j j' y cy z cz, <[k := (x', c ++ src)]> L !! j = Some (y, cy) -> <[k := (x', c ++ src)]> L !! j' = Some (z, cz) ->
    j <> j' -> apart the_sb v' y z).
Proof.
  intros HW Hk Ht' HF HA. destruct (HF k x c Hk) as (Ht & Hin & Hby). pose proof (lookup_lt_Some _ _ _ Hk) as Hlt.
  pose proof (fo_size _ (gd_fields _ _ _ _ _ _ _ (td_good _ _ Ht))) as Hs.
  pose proof (length_bytes v x ltac:(lia)) as Hlc. rewrite Hby in Hlc.
  destruct (moved_written 2 30 the_sb nmeta eq_refl mdisk v x (i_size x) src v' x' mdisk v' ltac:(lia) HW eq_refl ltac:(done)) as [M1 M2 M3 M4 M5].
  assert (forall j y cy, L !! j = Some (y, cy) -> j <> k -> good v y /\ apart the_sb v x y) as Ho.
  { intros j y cy Hj Hne. split; [by apply (HF j y cy)|]. by eapply (HA k j). }
  split.
  - intros j y cy. destruct (decide (j = k)) as [->|Hne].
    + rewrite list_lookup_insert_eq by done. intros [= <- <-]. split; [done|]. split; [congruence|].
      by rewrite M4, Hby, <- Hlc, overlay_end.
    + rewrite list_lookup_insert_ne by done. intros Hj. destruct (HF j y cy Hj) as ([T1 T2 T3 T4 T5] & Hiy & Hcy).
      destruct (Ho j y cy Hj Hne) as [Hgy Hay]. destruct (M5 y Hgy Hay) as (G & B & _).
      pose proof (fo_size _ (gd_fields _ _ _ _ _ _ _ T1)) as Hsy.
      split; [split; [done|done|done|intros q Hq Hqm|intros bn Hb Hq]|].
      2:{ erewrite (other_addr 2 30 the_sb nmeta mdisk v v' x x' y) by done. by apply T5. }
      { erewrite (other_addr 2 30 the_sb nmeta mdisk v v' x x' y) by done. intros Ha.
        erewrite (other_byte 2 30 the_sb nmeta mdisk v v' x x' y) by (done || lia). by apply T4. } split; [done|]. by rewrite B.
  - intros j j' y cy z cz. destruct (decide (j = k)) as [->|Hne], (decide (j' = k)) as [->|Hne']; [done| | |];
      rewrite ?list_lookup_insert_eq by done; rewrite ?list_lookup_insert_ne by done.
    + intros [= <- <-] Hz _. destruct (Ho j' z cz Hz Hne') as [? ?]. by apply M5.
    + intros Hy [= <- <-] _. destruct (Ho j y cy Hy Hne) as [? ?]. apply apart_sym. by apply M5.
    + intros Hy Hz Hjj. destruct (Ho j y cy Hy Hne), (Ho j' z cz Hz Hne'). eapply apart_others; [exact HW|done..|].
      by eapply (HA j j').
Qed.

Lemma built_append fi fb img L k x c src :
  let len := Z.of_nat (length src) in
  built fi fb img L -> L !! k = Some (x, c) -> 0 < len -> i_size x + len <= MAXFILE * BSIZE ->
  nmeta + total (<[k := (x, c ++ src)]> L) < FSSIZE ->
  exists img' fb' x', iappend (Z.of_nat k + 1) src (mstate fi fb img) = Ok tt (mstate fi fb' img') /\
    built fi fb' img' (<[k := (x', c ++ src)]> L) /\ i_type x' = i_type x /\ i_size x' = i_size x + len.
Proof.
  intros len [I1 I2 I3 I4 I5 I6 I7] Hk Hlen Hmax Htot. destruct (I2 k x c Hk) as (Ht & Hin & Hby).
  pose proof (td_good _ _ Ht) as Hg. pose proof (fo_size _ (gd_fields _ _ _ _ _ _ _ Hg)) as Hs.
  pose proof (length_bytes (mview img fb) x ltac:(lia)) as Hlc. rewrite Hby in Hlc.
  rewrite (total_insert _ _ _ _ Hk) in Htot. cbn [snd] in Htot. rewrite length_app in Htot.
  replace (Z.of_nat (length c + length src)) with (i_size x + len) in Htot by (unfold len; lia). rewrite Hlc in Htot.
  pose proof (append_need _ _ len Ht Hlen) as Hneed. change FSSIZE with 1000 in Htot.
  assert (i_size x + len <=? NDIRECT * BSIZE = true \/ NDIRECT * BSIZE < i_size x + len) as Hcase
    by (destruct (Z.leb_spec (i_size x + len) (NDIRECT * BSIZE)); [by left|by right]).
  destruct (iappend_m fi fb img x src I1 Hg ltac:(pose proof (td_inum _ _ Ht); lia) Hlen Hmax) as (img' & fb' & x' & E & HI' & HW & Hfb & Hind & Hpast).
  { fold len. destruct (i_size x + len <=? NDIRECT * BSIZE); lia. }
  fold len in Hfb, Hind, Hpast. set (v := mview img fb) in *. set (v' := mview img' fb') in *.
  assert (i_size x' = i_size x + len) as Esz by (rewrite (wn_size _ _ _ _ _ _ _ _ _ _ _ HW); unfold len; lia).
  assert (i_inum x' = i_inum x) as Ein by (by rewrite (wn_inode _ _ _ _ _ _ _ _ _ _ _ HW)).
  assert (tidy v' x') as Ht'.
  { split; [by eapply written_good|rewrite Ein; apply (td_inum _ _ Ht)|rewrite Esz; intros Hle; rewrite Hind by done| |].
    - apply (td_ind _ _ Ht). lia.
    - intros q Hq Hqm Ha. destruct (wn_tail _ _ _ _ _ _ _ _ _ _ _ HW q Hq Hqm Ha) as [?|[Ha' ->]]; [done|].
      apply (td_tail _ _ Ht); done || lia.
    - intros bn Hb Hle. rewrite Hpast by (done || lia). apply (td_end _ _ Ht); [done|lia]. }
  destruct (files_step v v' x x' src L k c HW Hk Ht' I2 I3) as [F1 F2].
  rewrite Hin in E. exists img', fb', x'. split; [done|].
  split; [|split; [by rewrite (wn_inode _ _ _ _ _ _ _ _ _ _ _ HW)|done]].
  split; [done|exact F1|exact F2|by rewrite length_insert| |eapply (meta_m _ _ _ _ _ _ _ _ 1); [exact HW|apply (td_inum _ _ Ht)|done|done]|
    eapply (meta_m _ _ _ _ _ _ _ _ 2); [exact HW|apply (td_inum _ _ Ht)|done|done]].
  rewrite (total_insert _ _ _ _ Hk). cbn [snd]. rewrite length_app.
  replace (Z.of_nat (length c + length src)) with (i_size x + len) by (unfold len; lia). rewrite Hlc.
  destruct Hcase as [Hle|Hgt].
  - rewrite Hle in Hneed. apply Z.leb_le in Hle. rewrite (td_ind _ _ Ht') in Hfb by lia. change (missing 0) with 1%nat in Hfb. lia.
  - destruct (Z.leb_spec (i_size x + len) (NDIRECT * BSIZE)); [lia|]. lia.
Qed.

(** *** New inodes *)

Definition new_inode (inum type : Z) : inode :=
  zinode |> set_i_inum inum |> set_i_type type |> set_i_nlink 1.

Lemma addr_none v bn : 0 <= bn -> addr_of v (replicate 13 0) bn = 0.
Proof.
  intros Hb. unfold addr_of. destruct (Z.ltb_spec bn NDIRECT) as [Hd|Hd]; [|done].
  destruct (_ !! _) as [z|] eqn:E; [|done]. by apply lookup_replicate in E as [-> _].
Qed.

Lemma file_none v : file_ok v (replicate 13 0).
Proof.
  split; [done|by left| | |].
  - intros bn Hb. left. apply addr_none. lia.
  - intros bn bn' Hb _ _ Hn. by rewrite addr_none in Hn by lia.
  - intros bn Hb Hn. by rewrite addr_none in Hn by lia.
Qed.

Lemma owned_none v b : ~ owned v (replicate 13 0) b.
Proof. intros [H0 [->|(bn & Hbn & ->)]]; [done|]. by rewrite addr_none in H0 by lia. Qed.

Lemma slot_m x y : 0 < i_inum x < 208 -> 0 < i_inum y < 208 -> i_inum x <> i_inum y -> slot the_sb x <> slot the_sb y.
Proof.
  intros Hx Hy Hne. unfold slot. destruct (IBLOCK_m (i_inum x) ltac:(lia)) as [_ ->]. destruct (IBLOCK_m (i_inum y) ltac:(lia)) as [_ ->].
  unfold dinode_off. change IPB with 8. intros [= E1 E2].
  pose proof (Z.mod_pos_bound (i_inum x) 8 ltac:(lia)). pose proof (Z.mod_pos_bound (i_inum y) 8 ltac:(lia)).
  apply Hne. rewrite (Z.div_mod (i_inum x) 8), (Z.div_mod (i_inum y) 8); lia.
Qed.

Lemma built_ialloc fi fb img L type :
  built fi fb img L -> (length L < 207)%nat -> type = T_DIR \/ type = T_FILE ->
  exists img', ialloc type (mstate fi fb img) = Ok fi (mstate (fi + 1) fb img') /\
    built (fi + 1) fb img' (L ++ [(new_inode fi type, [])]).
Proof.
  intros [I1 I2 I3 I4 I5 I6 I7] Hlt Hty. set (x := new_inode fi type). set (v := mview img fb) in *.
  assert (0 < i_inum x < 208) as Hi by (cbn; lia).
  assert (fields_ok x) as Hf by (destruct Hty as [->| ->]; split; (done || (repeat constructor; unfold W32; lia))).
  pose proof (itable_m img fb (i_inum x) I1 ltac:(lia)) as Hit. fold v in Hit. pose proof (layout_m img fb I1) as HL. fold v in HL.
  destruct (winode_m (fi + 1) fb img (zinode |> set_i_type (s16 (xshort type)) |> set_i_nlink (s16 (xshort 1)) |> set_i_size (xint 0)) x I1)
    as (img' & E & HI' & Ev); [lia|done|by destruct Hty as [->| ->]; vm_compute|]. fold v in Ev.
  exists img'. split.
  { unfold ialloc, bind, gets, upd, mstate, set_m_freeinode. cbn [m_freeinode m_sb m_freeblock m_img m_io].
    rewrite u32_small by (unfold W32; lia). change (i_inum x) with fi in E. unfold mstate in E. rewrite E. done. }
  assert (good (mview img' fb) x) as Hgx by (rewrite Ev; apply store_good; [done..|apply file_none|intros k Hk; cbn in Hk; lia]).
  assert (forall k y c, L !! k = Some (y, c) -> slot the_sb y <> slot the_sb x) as Hsl.
  { intros k y c Hk. destruct (I2 k y c Hk) as (Ht & Hin & _). apply slot_m; [apply (td_inum _ _ Ht)|done|].
    pose proof (lookup_lt_Some _ _ _ Hk). cbn. lia. }
  assert (forall b d, 0 <= b < 32 -> img !! Z.to_nat b = Some d -> img' !! Z.to_nat b = Some d) as Hlow.
  { intros b d Hb Hd. rewrite <- (mview_at img' fb), Ev by lia. unfold vinode, vset.
    destruct (IBLOCK_m (i_inum x) ltac:(lia)) as [Hib _]. rewrite fn_upd_ne by lia. unfold v. by rewrite mview_at by lia. }
  split; [done| | |rewrite length_app; cbn; lia|rewrite total_app; change (total [(x, [])]) with 0; lia| |].
  - intros k y c [Hk|[Hk E1]]%lookup_app_Some.
    + destruct (I2 k y c Hk) as ([T1 T2 T3 T4 T5] & Hin & Hby). rewrite Ev. split; [|split; [done|]].
      * split; [|done|done| |intros bn Hb Hle; rewrite store_addr by (done || apply T1); by apply T5];
          [apply store_other; [done..|]; by eapply Hsl|]. intros q Hq Hqm.
        pose proof (fo_size _ (gd_fields _ _ _ _ _ _ _ T1)). rewrite store_addr by (done || apply T1). intros Ha.
        rewrite store_byte by (done || lia || apply T1). by apply T4.
      * rewrite <- Hby. apply store_bytes; [done|apply T1|apply T1].
    + destruct (k - length L)%nat as [|j] eqn:Ek; [|done]. injection E1 as <- <-.
      split; [split; [done..| |]; [intros q Hq _ Ha; by rewrite addr_none in Ha by (apply Z.div_pos; [cbn in Hq; lia|done])|
        intros bn Hb _; apply addr_none; lia]|].
      split; [cbn; lia|done].
  - assert (forall y, apart the_sb (mview img' fb) y x \/ slot the_sb x = slot the_sb y) as Hnew.
    { intros y. destruct (decide (slot the_sb x = slot the_sb y)); [by right|left]. split; [done|]. intros b Hb. by apply owned_none in Hb. }
    assert (forall k y c, L !! k = Some (y, c) -> apart the_sb (mview img' fb) y x) as Hnx.
    { intros k y c Hk. destruct (Hnew y) as [?|Hs]; [done|]. by destruct (Hsl k y c Hk). }
    intros k k' y c z c' [Hk|[Hk E1]]%lookup_app_Some [Hk'|[Hk' E2]]%lookup_app_Some Hne.
    + rewrite Ev. apply store_apart; [done|by eapply I2|by eapply I2|]. by eapply (I3 k k').
    + destruct (k' - length L)%nat eqn:Ek; [|done]. injection E2 as <- <-. by eapply Hnx.
    + destruct (k - length L)%nat eqn:Ek; [|done]. injection E1 as <- <-. apply apart_sym. by eapply Hnx.
    + destruct (k - length L)%nat eqn:Ek; [|done]. destruct (k' - length L)%nat eqn:Ek'; [|done]. lia.
  - by apply Hlow with (b := 1).
  - by apply Hlow with (b := 2).
Qed.

(** *** Copying the files *)

Lemma built_size fi fb img L k x c : built fi fb img L -> L !! k = Some (x, c) -> i_size x = Z.of_nat (length c).
Proof.
  intros HB Hk. destruct (bt_file _ _ _ _ HB k x c Hk) as (Ht & _ & <-). symmetry. apply length_bytes.
  pose proof (fo_size _ (gd_fields _ _ _ _ _ _ _ (td_good _ _ Ht))). lia.
Qed.

Lemma total_grow L k x c c' : L !! k = Some (x, c) -> (length c <= length c')%nat -> total L <= total (<[k := (x, c')]> L).
Proof.
  intros Hk Hle. rewrite (total_insert _ _ _ _ Hk). cbn [snd].
  pose proof (blocks_mono (Z.of_nat (length c)) (Z.of_nat (length c'))). lia.
Qed.

Lemma total_inode L k x x' c : total (<[k := (x, c)]> L) = total (<[k := (x', c)]> L).
Proof.
  destruct (L !! k) as [e|] eqn:E; [by rewrite !(total_insert _ _ _ _ E)|].
  by rewrite !list_insert_ge by (by apply lookup_ge_None).
Qed.

Lemma built_append_all fi chunks : forall fb img L k x c,
  built fi fb img L -> L !! k = Some (x, c) -> Forall (fun b => b <> []) chunks ->
  Z.of_nat (length (c ++ concat chunks)) <= MAXFILE * BSIZE ->
  nmeta + total (<[k := (x, c ++ concat chunks)]> L) < FSSIZE ->
  exists img' fb' x', append_all (Z.of_nat k + 1) chunks (mstate fi fb img) = Ok tt (mstate fi fb' img') /\
    built fi fb' img' (<[k := (x', c ++ concat chunks)]> L) /\ i_type x' = i_type x.
Proof.
  induction chunks as [|b chunks IH]; intros fb img L k x c HB Hk Hne Hmax Htot.
  { cbn [concat] in *. rewrite app_nil_r in *. exists img, fb, x. by rewrite list_insert_id. }
  apply Forall_cons in Hne as [Hb Hne]. cbn [concat] in *. rewrite !app_assoc in *. rewrite length_app in Hmax.
  pose proof (lookup_lt_Some _ _ _ Hk) as Hlt. pose proof (built_size _ _ _ _ _ _ _ HB Hk) as Hs.
  assert (0 < Z.of_nat (length b)) as Hb0 by (destruct b; [done|cbn; lia]).
  destruct (built_append fi fb img L k x c b HB Hk Hb0) as (img1 & fb1 & x1 & E1 & HB1 & T1 & S1).
  { rewrite length_app in Hmax. lia. }
  { pose proof (total_grow (<[k := (x, c ++ b)]> L) k x (c ++ b) ((c ++ b) ++ concat chunks)) as Hg.
    rewrite list_insert_insert_eq in Hg. rewrite list_lookup_insert_eq in Hg by done. specialize (Hg eq_refl ltac:(rewrite !length_app; lia)). lia. }
  destruct (IH fb1 img1 _ k x1 (c ++ b) HB1) as (img2 & fb2 & x2 & E2 & HB2 & T2);
    [by apply list_lookup_insert_eq|done|rewrite length_app; lia|rewrite list_insert_insert_eq; by rewrite (total_inode L k x1 x)|].
  rewrite list_insert_insert_eq in HB2. exists img2, fb2, x2. split; [|split; [done|congruence]].
  cbn [append_all]. unfold bind. by rewrite E1.
Qed.

Section Files.
Context (image_opens : list Z -> bool) (host_file : list Z -> option (list (list Z))).

(** The name a file gets, and its contents. *)
Definition strip (arg : list Z) : list Z := if default 0 (head arg) =? underscore then tail arg else arg.
Definition data (arg : list Z) : list Z := concat (default [] (host_file arg)).

(** The directory entries of the files, the first with inode number [inum]. *)
Fixpoint entries (inum : Z) (args : list (list Z)) : list Z :=
  match args with
  | [] => []
  | arg :: args => dirent inum (strip arg) ++ entries (inum + 1) args
  end.

(** A file that can be copied. *)
Record arg_ok (arg : list Z) : Prop := {
  ar_slash : slash ∉ arg;
  ar_file : exists chunks, host_file arg = Some chunks /\ Forall (fun b => b <> []) chunks;
  ar_size : Z.of_nat (length (data arg)) <= MAXFILE * BSIZE;
}.

Lemma length_dirent inum name : length (dirent inum name) = 16%nat.
Proof. unfold dirent. rewrite length_app, length_strncpy. done. Qed.

Lemma length_entries args : forall inum, length (entries inum args) = (16 * length args)%nat.
Proof. induction args as [|a args IH]; intros inum; [done|]. cbn [entries]. rewrite length_app, length_dirent, IH. cbn. lia. Qed.

Lemma copy_file_m fi fb img r rc L arg :
  built fi fb img ((r, rc) :: L) -> arg_ok arg -> (S (length L) < 207)%nat ->
  Z.of_nat (length rc + 16) <= MAXFILE * BSIZE ->
  nmeta + blocks_of (Z.of_nat (length rc + 16)) + total L + blocks_of (Z.of_nat (length (data arg))) < FSSIZE ->
  exists img' fb' r' x', copy_file host_file 1 arg (mstate fi fb img) = Ok tt (mstate (fi + 1) fb' img') /\
    built (fi + 1) fb' img' ((r', rc ++ dirent fi (strip arg)) :: L ++ [(x', data arg)]) /\
    i_type r' = i_type r /\ i_type x' = T_FILE.
Proof.
  intros HB [A1 (chunks & Hc & Hne) A3] Hlt Hroot Htot. unfold data in *. rewrite Hc in *. cbn [default from_option id] in *.
  destruct (built_ialloc fi fb img _ T_FILE HB) as (img1 & E1 & HB1); [cbn; lia|by right|]. cbn [app] in HB1.
  pose proof (built_size _ _ _ _ 0%nat r rc HB1 eq_refl) as Hs. pose proof (length_dirent fi (strip arg)) as Hld.
  pose proof (blocks_mono 0 (Z.of_nat (length (concat chunks))) ltac:(lia)) as Hbm. change (blocks_of 0) with 0 in Hbm.
  destruct (built_append (fi + 1) fb img1 _ 0%nat r rc (dirent fi (strip arg)) HB1 eq_refl) as (img2 & fb2 & r2 & E2 & HB2 & T2 & S2).
  { rewrite Hld. done. }
  { rewrite Hld, Hs. lia. }
  { change (<[0%nat := ?e]> (_ :: ?l)) with (e :: l). cbn [total foldr snd]. fold (total (L ++ [(new_inode fi T_FILE, [])])).
    rewrite total_app, length_app, Hld. change (total [_]) with 0. lia. }
  change (<[0%nat := ?e]> (_ :: ?l)) with (e :: l) in HB2.
  set (L2 := (r2, rc ++ dirent fi (strip arg)) :: L ++ [(new_inode fi T_FILE, [])]) in *.
  assert (L2 !! S (length L) = Some (new_inode fi T_FILE, [])) as Hk.
  { unfold L2. rewrite lookup_cons. by rewrite lookup_app_r, Nat.sub_diag by lia. }
  assert (forall x c, <[S (length L) := (x, c)]> L2 = (r2, rc ++ dirent fi (strip arg)) :: L ++ [(x, c)]) as Ei.
  { intros x c. unfold L2. change (<[S ?n := ?e]> (?a :: ?l)) with (a :: <[n := e]> l). f_equal.
    by rewrite insert_app_r_alt, Nat.sub_diag by lia. }
  destruct (built_append_all (fi + 1) chunks fb2 img2 L2 (S (length L)) _ [] HB2 Hk Hne) as (img3 & fb3 & x3 & E3 & HB3 & T3).
  { done. }
  { rewrite Ei. cbn [total foldr snd app]. fold (total (L ++ [(new_inode fi T_FILE, concat chunks)])).
    rewrite total_app, length_app, Hld. cbn [total foldr snd]. lia. }
  rewrite Ei in HB3. cbn [app] in HB3. exists img3, fb3, r2, x3. split; [|by split; [done|split]].
  unfold copy_file. rewrite bool_decide_eq_false_2, Hc by done. fold (strip arg). unfold bind. rewrite E1.
  change (Z.of_nat 0 + 1) with 1 in E2. rewrite E2.
  pose proof (bt_fi _ _ _ _ HB) as Hfi. cbn [length] in Hfi. by rewrite <- Hfi in E3.
Qed.

Lemma copy_files_m args : forall fi fb img r rc L,
  built fi fb img ((r, rc) :: L) -> Forall arg_ok args -> (S (length L) + length args <= 207)%nat ->
  Z.of_nat (length rc + 16 * length args) <= MAXFILE * BSIZE ->
  nmeta + blocks_of (Z.of_nat (length rc + 16 * length args)) + total L +
    foldr (fun arg a => blocks_of (Z.of_nat (length (data arg))) + a) 0 args < FSSIZE ->
  exists img' fb' r' xs, copy_files host_file 1 args (mstate fi fb img) = Ok tt (mstate (fi + Z.of_nat (length args)) fb' img') /\
    built (fi + Z.of_nat (length args)) fb' img' ((r', rc ++ entries fi args) :: L ++ zip xs (data <$> args)) /\
    i_type r' = i_type r /\ length xs = length args /\ Forall (fun x => i_type x = T_FILE) xs.
Proof.
  induction args as [|arg args IH]; intros fi fb img r rc L HB Hok Hlt Hroot Htot.
  { exists img, fb, r, []. cbn [length Z.of_nat entries copy_files zip zip_with fmap list_fmap]. rewrite Z.add_0_r, !app_nil_r.
    split; [done|]. split; [done|]. split; [done|]. split; [done|constructor]. }
  apply Forall_cons in Hok as [Ha Hok]. cbn [foldr length] in *.
  set (rest := foldr _ 0 args) in *.
  assert (0 <= rest) as Hrest.
  { unfold rest. clear. induction args as [|a args IH]; cbn; [lia|]. pose proof (blocks_mono 0 (Z.of_nat (length (data a)))). lia. }
  pose proof (blocks_mono (Z.of_nat (length rc + 16)) (Z.of_nat (length rc + 16 * S (length args))) ltac:(lia)) as Hbm.
  destruct (copy_file_m fi fb img r rc L arg HB Ha) as (img1 & fb1 & r1 & x1 & E1 & HB1 & T1 & T1'); [lia|lia|lia|].
  pose proof (length_dirent fi (strip arg)) as Hld.
  destruct (IH (fi + 1) fb1 img1 r1 (rc ++ dirent fi (strip arg)) (L ++ [(x1, data arg)]) HB1 Hok)
    as (img2 & fb2 & r2 & xs & E2 & HB2 & T2 & Hlx & HT); rewrite ?length_app, ?Hld, ?total_app.
  - cbn [length]. lia.
  - lia.
  - cbn [total foldr snd]. replace (length rc + 16 + 16 * length args)%nat with (length rc + 16 * S (length args))%nat by lia. lia.
  - exists img2, fb2, r2, (x1 :: xs). replace (fi + Z.of_nat (S (length args))) with (fi + 1 + Z.of_nat (length args)) by lia.
    split; [|split; [|split; [congruence|split; [by cbn; rewrite Hlx|by constructor]]]].
    + cbn [copy_files]. unfold bind. by rewrite E1.
    + cbn [entries]. by rewrite <- !app_assoc in HB2.
Qed.
(** *** An empty image *)

Lemma format_m n : forall i, (i + n <= 1000)%nat ->
  each_ n i (fun i => wsect (Z.of_nat i) zeroes) (mstate 1 nmeta (replicate i zeroes)) =
  Ok tt (mstate 1 nmeta (replicate (i + n) zeroes)).
Proof.
  induction n as [|n IH]; intros i Hi; [by rewrite Nat.add_0_r|]. cbn [each_]. unfold bind at 1.
  assert (wsect (Z.of_nat i) zeroes (mstate 1 nmeta (replicate i zeroes)) = Ok tt (mstate 1 nmeta (replicate (S i) zeroes))) as ->.
  { unfold wsect, host, gets, upd, bind, ret, mstate, set_m_img, set_m_io. cbn [m_sb m_freeinode m_freeblock m_img m_io head tail default].
    rewrite sector_m, Nat2Z.id by lia. unfold put_sector. rewrite length_replicate. replace (S i - i)%nat with 1%nat by lia.
    rewrite insert_app_r_alt by (by rewrite length_replicate). rewrite length_replicate, Nat.sub_diag.
    change (<[0%nat := zeroes]> (replicate 1 zeroes)) with (replicate 1 zeroes). by rewrite <- replicate_add, Nat.add_1_r. }
  rewrite IH by lia. do 3 f_equal. lia.
Qed.

Definition empty_img : list (list Z) := <[1%nat := sb_block]> (replicate 1000 zeroes).

Lemma built_empty : built 1 nmeta empty_img [].
Proof.
  split; [|done|done|done|done| |].
  - change empty_img with (<[Z.to_nat 1 := sb_block]> (replicate 1000 zeroes)). apply img_ok_set; [|done|by vm_compute].
    split; [done|by apply Forall_replicate|done|]. intros b Hb. apply lookup_replicate_2. change FSSIZE with 1000 in Hb. lia.
  - apply list_lookup_insert_eq. rewrite length_replicate. lia.
  - unfold empty_img. rewrite list_lookup_insert_ne by done. apply lookup_replicate_2. lia.
Qed.

(** *** The size of the root directory *)

Definition rounded (n : Z) : Z := (n / BSIZE + 1) * BSIZE.
Definition padded (c : list Z) : list Z := c ++ replicate (Z.to_nat (rounded (Z.of_nat (length c))) - length c) 0.

Lemma tail_block s k : s mod BSIZE <> 0 -> s <= k < rounded s -> k / BSIZE = (s - 1) / BSIZE.
Proof. unfold rounded, BSIZE. intros. Z.div_mod_to_equations. lia. Qed.

Lemma rounded_range s : 0 <= s <= MAXFILE * BSIZE -> 0 <= s < rounded s /\ rounded s < W32.
Proof. change (MAXFILE * BSIZE) with 71680. unfold rounded, BSIZE, W32. intros. Z.div_mod_to_equations. lia. Qed.

Lemma root_fields v r : tidy v r -> i_size r <= MAXFILE * BSIZE -> fields_ok (set_i_size (rounded (i_size r)) r).
Proof.
  intros Ht Hs. destruct (gd_fields _ _ _ _ _ _ _ (td_good _ _ Ht)) as [F1 F2 F3 F4 F5 F6 F7]. split; try done. cbn.
  pose proof (rounded_range (i_size r)). lia.
Qed.

Section Root.
Context (v : view) (r : inode) (Ht : tidy v r) (Hs : i_size r <= MAXFILE * BSIZE) (Hpart : i_size r mod BSIZE <> 0).
Let r2 := set_i_size (rounded (i_size r)) r.

Lemma root_size : 0 < i_size r < rounded (i_size r) /\ rounded (i_size r) <= MAXFILE * BSIZE.
Proof.
  pose proof (fo_size _ (gd_fields _ _ _ _ _ _ _ (td_good _ _ Ht))). unfold rounded. change MAXFILE with 140 in *.
  unfold BSIZE in *. Z.div_mod_to_equations. lia.
Qed.

Lemma root_tail k : i_size r <= k < rounded (i_size r) -> k / BSIZE < MAXFILE /\ addr_of v (i_addrs r) (k / BSIZE) <> 0.
Proof.
  intros Hk. pose proof root_size. rewrite (tail_block (i_size r)) by done. apply (gd_filled _ _ _ _ _ _ _ (td_good _ _ Ht)). lia.
Qed.

Lemma root_filled : filled v r2.
Proof.
  intros k Hk. cbn in Hk |- *. destruct (decide (k < i_size r)); [apply (gd_filled _ _ _ _ _ _ _ (td_good _ _ Ht))|apply root_tail]; lia.
Qed.

Lemma root_bytes : bytes v r2 = padded (bytes v r).
Proof.
  pose proof root_size as Hr. unfold padded. rewrite length_bytes by lia. unfold bytes at 1. cbn [r2 i_size i_addrs set_i_size].
  replace (rounded (i_size r)) with (i_size r + (rounded (i_size r) - i_size r)) at 1 by lia.
  rewrite file_bytes_app by lia. f_equal. pose proof (length_bytes v r ltac:(lia)) as Hl.
  unfold file_bytes. replace (Z.to_nat (rounded (i_size r)) - length (bytes v r))%nat with (Z.to_nat (rounded (i_size r) - i_size r)) by lia.
  apply list_eq_same_length with (n := Z.to_nat (rounded (i_size r) - i_size r));
    [by rewrite length_replicate|by rewrite length_fmap, length_seq|].
  intros j y z Hj Hy Hz. apply lookup_replicate in Hz as [-> _]. apply list_lookup_fmap_Some in Hy as (i & -> & Hi).
  apply lookup_seq in Hi as [-> Hi]. destruct (root_tail (i_size r + Z.of_nat (0 + j)) ltac:(lia)) as [Hm Ha].
  apply (td_tail _ _ Ht); done || lia.
Qed.
End Root.
(** The files of an image, each good and on blocks of its own. *)
Definition files_in v (L : files) : Prop :=
  (forall k x c, L !! k = Some (x, c) -> good v x /\ i_inum x = Z.of_nat k + 1 /\ bytes v x = c) /\
  (forall k k' x c x' c', L !! k = Some (x, c) -> L !! k' = Some (x', c') -> k <> k' -> apart the_sb v x x').

Definition fix_root : T unit :=
  din <- rinode 1 ;;
  let off := xint (i_size din) in
  let off := u32 ((off / BSIZE + 1) * BSIZE) in
  winode 1 (set_i_size (xint off) din).

Lemma fix_root_m fi fb img r rc L :
  built fi fb img ((r, rc) :: L) -> Z.of_nat (length rc) <= MAXFILE * BSIZE ->
  let r2 := set_i_size (rounded (i_size r)) r in
  exists img', fix_root (mstate fi fb img) = Ok tt (mstate fi fb img') /\ img_ok img' fb /\
    mview img' fb = vinode the_sb r2 (mview img fb) /\
    (forall b, 0 <= b < 32 -> img' !! Z.to_nat b = img !! Z.to_nat b).
Proof.
  intros HB Hmax r2. pose proof (built_size _ _ _ _ 0%nat r rc HB eq_refl) as Hs. rewrite <- Hs in *.
  pose proof HB as [I1 I2 I3 I4 I5 I6 I7]. destruct (I2 0%nat r rc eq_refl) as (Ht & Hin & Hby). change (Z.of_nat 0 + 1) with 1 in Hin.
  pose proof (root_fields _ r Ht Hmax) as Hf2. fold r2 in Hf2. pose proof (td_good _ _ Ht) as Hg.
  pose proof (fo_size _ (gd_fields _ _ _ _ _ _ _ Hg)) as Hsz. destruct (rounded_range (i_size r) ltac:(lia)) as [Hr1 Hr2].
  destruct (winode_m fi fb img (set_i_size (rounded (i_size r)) (with_fields r zinode)) r2) as (img' & E & HI' & Ev);
    [done|cbn; lia|done|done|]. change (i_inum r2) with (i_inum r) in E.
  exists img'. split; [|split; [done|split; [done|]]].
  - unfold fix_root, bind. rewrite <- Hin at 1. rewrite rinode_m by (done || lia || apply Hg).
    change (i_size (with_fields r zinode)) with (i_size r). rewrite (xint_small (i_size r)) by lia.
    fold (rounded (i_size r)). rewrite u32_small, xint_small by lia. rewrite <- Hin. exact E.
  - intros b Hb. rewrite <- (mview_at img' fb), Ev by lia. unfold vinode, vset.
    destruct (IBLOCK_m (i_inum r2) ltac:(cbn; lia)) as [Hib _]. rewrite fn_upd_ne by lia. by rewrite mview_at by lia.
Qed.

Lemma built_root fi fb img r rc L img' :
  built fi fb img ((r, rc) :: L) -> (length L < 207)%nat ->
  Z.of_nat (length rc) <= MAXFILE * BSIZE -> Z.of_nat (length rc) mod BSIZE <> 0 ->
  mview img' fb = vinode the_sb (set_i_size (rounded (i_size r)) r) (mview img fb) ->
  files_in (mview img' fb) ((set_i_size (rounded (i_size r)) r, padded rc) :: L).
Proof.
  intros HB HlL Hmax Hpart Ev. pose proof (built_size _ _ _ _ 0%nat r rc HB eq_refl) as Hs. rewrite <- Hs in *.
  pose proof HB as [I1 I2 I3 I4 I5 I6 I7]. destruct (I2 0%nat r rc eq_refl) as (Ht & Hin & Hby). change (Z.of_nat 0 + 1) with 1 in Hin.
  set (r2 := set_i_size (rounded (i_size r)) r) in *. set (v := mview img fb) in *.
  pose proof (td_good _ _ Ht) as Hg. pose proof (root_fields v r Ht Hmax) as Hf2. fold r2 in Hf2.
  pose proof (root_filled v r Ht Hmax Hpart) as Hfl2. fold r2 in Hfl2.
  pose proof (gd_layout _ _ _ _ _ _ _ Hg) as HL.
  pose proof (gd_file _ _ _ _ _ _ _ Hg) as HF. pose proof (gd_table _ _ _ _ _ _ _ Hg) as Hit.
  assert (forall k x c, L !! k = Some (x, c) -> slot the_sb x <> slot the_sb r2) as Hsl.
  { intros k x c Hk. destruct (I2 (S k) x c Hk) as (Htx & Hix & _). apply slot_m; [apply Htx|cbn; lia|cbn; lia]. }
  assert (apart_ok : forall y z, good v y -> good v z -> apart the_sb v y z -> apart the_sb (vinode the_sb r2 v) y z)
    by (intros; apply store_apart; done).
  split.
  - intros [|k] x c Hk.
    + injection Hk as <- <-. rewrite Ev. split; [by apply store_good|]. split; [exact Hin|].
      rewrite store_bytes by done. unfold r2. by rewrite (root_bytes v r Ht Hmax Hpart), Hby.
    + destruct (I2 (S k) x c Hk) as (Htx & Hix & Hbx). pose proof (td_good _ _ Htx) as Hgx. rewrite Ev.
      split; [apply store_other; [done..|by eapply Hsl]|]. split; [done|]. by rewrite store_bytes by (done || apply Hgx).
  - intros k k' x c x' c' Hk Hk' Hne. rewrite Ev.
    assert (forall k x c, ((r, rc) :: L) !! k = Some (x, c) -> good v x) as Hgd by (intros j y d Hj; by apply (I2 j y d Hj)).
    destruct k as [|k], k' as [|k']; [done| | |].
    + injection Hk as <- <-. apply (apart_ok r x'); [done|by eapply (Hgd (S k'))|]. by eapply (I3 0%nat (S k')).
    + injection Hk' as <- <-. apply (apart_ok x r); [by eapply (Hgd (S k))|done|]. by eapply (I3 (S k) 0%nat).
    + apply apart_ok; [by eapply (Hgd (S k))|by eapply (Hgd (S k'))|]. by eapply (I3 (S k) (S k')).
Qed.

(** *** The finished image *)

(** The root directory on the finished image. *)
Lemma root_on_disk img0 fb img r d :
  let v := dview d in
  tidy (mview img0 fb) r -> i_inum r = 1 -> i_size r <= NDIRECT * BSIZE ->
  mview img fb = vinode the_sb (set_i_size (rounded (i_size r)) r) (mview img0 fb) ->
  (forall b, 0 <= b < 1000 -> mview img fb b = Some (dget d b)) ->
  dinode_at the_sb v 1 zinode = with_fields (set_i_size (rounded (i_size r)) r) zinode /\
  bytes v r = bytes (mview img0 fb) r /\
  (forall bn, addr_of v (i_addrs r) bn = addr_of (mview img0 fb) (i_addrs r) bn).
Proof.
  intros v Ht Hin Hs Ev Hv. pose proof (td_good _ _ Ht) as Hg. pose proof Hg as [G1 G2 G3 G4 G5 G6].
  set (r2 := set_i_size (rounded (i_size r)) r) in *. pose proof (fo_size _ G4) as Hsz.
  pose proof (root_fields _ r Ht ltac:(change (NDIRECT * BSIZE) with 6144 in Hs; change (MAXFILE * BSIZE) with 71680; lia)) as Hf2. fold r2 in Hf2.
  assert (forall bn, addr_of v (i_addrs r) bn = addr_of (mview img0 fb) (i_addrs r) bn) as Ha.
  { intros bn. apply addr_ext. intros Hi. by rewrite (td_ind _ _ Ht Hs) in Hi. }
  split; [|split; [|done]].
  - unfold dinode_at at 1. destruct (IBLOCK_m 1 ltac:(lia)) as [Hb _]. unfold v, dview. rewrite <- Hv by lia.
    rewrite Ev. rewrite <- Hin. change (i_inum r) with (i_inum r2). exact (store_synced _ r2 Hf2 G5 zinode).
  - unfold bytes, file_bytes. apply list_fmap_ext. intros j k Hk. apply lookup_seq in Hk as [-> Hk]. cbv beta.
    destruct (G3 (0 + Z.of_nat (0 + j)) ltac:(lia)) as [Hm Hne].
    rewrite <- (store_byte _ r2 G5 (i_addrs r) (0 + Z.of_nat (0 + j))) by (done || lia). unfold fbyte.
    rewrite Ha, (store_addr _ r2 G5) by done. rewrite <- Ev.
    assert (0 <= (0 + Z.of_nat (0 + j)) / BSIZE < MAXFILE) as Hbn by (split; [apply Z.div_pos; [lia|done]|done]).
    destruct (fk_blk _ _ _ _ G2 _ Hbn) as [?|Htk]; [done|]. apply taken_m in Htk. unfold v, dview. by rewrite <- Hv by lia.
Qed.

Lemma balloc_m fi fb img :
  img_ok img fb -> fb < FSSIZE ->
  let img' := <[58%nat := bitmap (Z.to_nat fb)]> img in
  balloc fb (mstate fi fb img) = Ok tt (mstate fi fb img') /\ length img' = 1000%nat /\
  (forall b, 0 <= b < 1000 -> mview img fb b = Some (dget img' b)).
Proof.
  intros HI Hfb img'. change FSSIZE with 1000 in Hfb. pose proof (im_len _ _ HI) as Hl.
  split; [|split; [by unfold img'; rewrite length_insert|]].
  - unfold balloc. destruct (Z.ltb_spec fb (BSIZE * 8)); [|unfold BSIZE in *; lia]. cbn [negb]. unfold bind, gets. cbn [m_sb mstate].
    change (sb_bmapstart the_sb) with 58. by apply wsect_m.
  - intros b Hb. unfold dget, img'. destruct (decide (b = 58)) as [->|Hne].
    + change (Z.to_nat 58) with 58%nat. rewrite list_lookup_insert_eq by lia. unfold mview, vset. by rewrite fn_upd_eq.
    + rewrite list_lookup_insert_ne by lia. destruct (mview_block img fb b HI Hb) as (d & Hd & _).
      rewrite Hd. rewrite mview_at in Hd by done. by rewrite Hd.
Qed.

(** A file on a disk: inode number, type and contents. *)
Definition stored (d : diskT) (x : inode) (inum type : Z) (c : list Z) : Prop :=
  i_inum x = inum /\ i_type x = type /\ Fileio.good 2 30 the_sb nmeta d (dview d) x /\ disk_file the_sb d inum = c.

Lemma files_stored img fb d L :
  length d = 1000%nat -> (forall b, 0 <= b < 1000 -> mview img fb b = Some (dget d b)) -> files_in (mview img fb) L ->
  (forall k x c, L !! k = Some (x, c) -> stored d x (Z.of_nat k + 1) (i_type x) c) /\
  (forall k k' x c x' c', L !! k = Some (x, c) -> L !! k' = Some (x', c') -> k <> k' -> apart the_sb (dview d) x x').
Proof.
  intros Hd Hv [HF HA]. assert (forall b, home 2 30 mdisk b -> mview img fb b = Some (dget d b)) as Hh.
  { intros b Hb. apply Hv. unfold home, in_disk, mdisk in Hb. rewrite length_replicate in Hb. lia. }
  assert (agree 2 30 mdisk (mview img fb) (dview d)) as Ha by (intros b Hb; by rewrite Hh).
  assert (length d = length mdisk) as El by (unfold mdisk; by rewrite length_replicate).
  split.
  - intros k x c Hk. destruct (HF k x c Hk) as (Hg & Hin & Hby). split; [done|]. split; [done|]. split.
    + eapply agree_good; [done|exact El|exact Ha|apply Hg|done].
    + rewrite <- Hin, <- Hby. exact (disk_file_good 2 30 the_sb nmeta eq_refl mdisk (mview img fb) x d Hg Hh).
  - intros k k' x c x' c' Hk Hk' Hne. eapply agree_apart; [exact El|exact Ha|by eapply HF|by eapply HF|by eapply (HA k k')].
Qed.
(** The entries of the root directory. *)
Definition root_entries (args : list (list Z)) : list Z :=
  dirent 1 [dot] ++ dirent 1 [dot; dot] ++ entries 2 args.

(** The root directory with its first two entries. *)
Lemma root_m :
  exists img1 fb2 img2 fb3 img3 r,
    ialloc T_DIR (mstate 1 nmeta empty_img) = Ok 1 (mstate 2 nmeta img1) /\
    iappend 1 (dirent 1 [dot]) (mstate 2 nmeta img1) = Ok tt (mstate 2 fb2 img2) /\
    iappend 1 (dirent 1 [dot; dot]) (mstate 2 fb2 img2) = Ok tt (mstate 2 fb3 img3) /\
    built 2 fb3 img3 [(r, dirent 1 [dot] ++ dirent 1 [dot; dot])] /\ i_type r = T_DIR.
Proof.
  destruct (built_ialloc 1 nmeta empty_img [] T_DIR built_empty) as (img1 & E1 & HB1); [cbn; lia|by left|].
  destruct (built_append _ _ _ _ 0%nat _ _ (dirent 1 [dot]) HB1 eq_refl) as (img2 & fb2 & r2 & E2 & HB2 & T2 & S2); [done..|].
  destruct (built_append _ _ _ _ 0%nat _ _ (dirent 1 [dot; dot]) HB2 eq_refl) as (img3 & fb3 & r3 & E3 & HB3 & T3 & S3);
    [done|by rewrite S2|done|].
  exists img1, fb2, img2, fb3, img3, r3. do 3 (split; [done|]). split; [exact HB3|]. by rewrite T3, T2.
Qed.

Lemma total_zip xs cs : length xs = length cs ->
  total (zip xs cs) = foldr (fun c a => blocks_of (Z.of_nat (length c)) + a) 0 cs.
Proof. revert cs. induction xs as [|x xs IH]; intros [|c cs] Hl; [done..|]. cbn in *. unfold total in IH. rewrite IH by lia. done. Qed.

(** [mkfs] up to the rewriting of the size of the root directory, and its end. *)
Lemma main_m name image args :
  image_opens image = true -> Forall arg_ok args -> (length args <= 198)%nat ->
  nmeta + blocks_of (16 * (2 + Z.of_nat (length args))) +
    foldr (fun arg a => blocks_of (Z.of_nat (length (data arg))) + a) 0 args < FSSIZE ->
  exists fi fb img r xs img',
    built fi fb img ((r, root_entries args) :: zip xs (data <$> args)) /\ fb < FSSIZE /\
    img_ok img' fb /\ mview img' fb = vinode the_sb (set_i_size (rounded (i_size r)) r) (mview img fb) /\
    img' !! 1%nat = Some sb_block /\ img' !! 2%nat = Some zeroes /\
    main image_opens host_file (name :: image :: args) (start []) = Ok tt (mstate fi fb (<[58%nat := bitmap (Z.to_nat fb)]> img')) /\
    length (root_entries args) = (32 + 16 * length args)%nat /\
    i_type r = T_DIR /\ length xs = length args /\ Forall (fun x => i_type x = T_FILE) xs.
Proof.
  intros Hop Hok Hn Htot. destruct root_m as (img0 & fb0 & imga & fb1 & img1 & r1 & Ea & Eb & Ec & HB1 & T1).
  pose proof (length_dirent 1 [dot]) as Hd1. pose proof (length_dirent 1 [dot; dot]) as Hd2.
  assert (length (dirent 1 [dot] ++ dirent 1 [dot; dot]) = 32%nat) as Hd by (rewrite length_app, Hd1, Hd2; done).
  replace (16 * (2 + Z.of_nat (length args))) with (Z.of_nat (32 + 16 * length args)) in * by lia.
  destruct (copy_files_m args 2 fb1 img1 r1 _ [] HB1 Hok) as (img2 & fb2 & r2 & xs & E2 & HB2 & T2 & Hlx & HT); rewrite ?Hd.
  { cbn [length]. lia. }
  { change (MAXFILE * BSIZE) with 71680. lia. }
  { cbn [total foldr]. lia. }
  rewrite <- app_assoc in HB2. cbn [app] in HB2. fold (root_entries args) in HB2.
  assert (length (root_entries args) = 32 + 16 * length args)%nat as Hle.
  { unfold root_entries. rewrite app_assoc, length_app, Hd, length_entries. lia. }
  destruct (fix_root_m _ _ _ _ _ _ HB2) as (img3 & E3 & HI3 & Ev & Hlow); [rewrite Hle; change (MAXFILE * BSIZE) with 71680; lia|].
  pose proof (bt_fb _ _ _ _ HB2) as Hfb. cbn [total foldr snd] in Hfb. fold (total (zip xs (data <$> args))) in Hfb.
  rewrite Hle, total_zip, foldr_fmap in Hfb by (rewrite length_fmap; done).
  exists (2 + Z.of_nat (length args)), fb2, img2, r2, xs, img3.
  split; [done|]. split; [lia|]. split; [done|]. split; [done|].
  split; [exact (eq_trans (Hlow 1 ltac:(done)) (bt_sb _ _ _ _ HB2))|].
  split; [exact (eq_trans (Hlow 2 ltac:(done)) (bt_log _ _ _ _ HB2))|]. split; [|split; [done|split; [congruence|done]]].
  unfold main. cbn [length Nat.ltb Nat.leb lookup list_lookup default from_option id drop]. rewrite Hop. cbn [negb].
  change (start []) with (mk_mkstate (mk_superblock 0 0 0 0 0 0 0) 1 0 [] []).
  unfold bind, upd, gets, set_m_sb, set_m_freeblock. cbn [m_sb m_freeinode m_freeblock m_img m_io].
  change (mk_mkstate the_sb 1 nmeta [] []) with (mstate 1 nmeta (replicate 0 zeroes)).
  rewrite format_m by done. change (m_sb (mstate _ _ _)) with the_sb. fold sb_block. rewrite wsect_m by done.
  change (<[Z.to_nat 1 := sb_block]> (replicate (0 + Z.to_nat FSSIZE) zeroes)) with empty_img.
  rewrite Ea. cbn [negb Z.eqb ROOTINO Pos.eqb]. rewrite Eb, Ec, drop_0, E2. unfold fix_root, bind in E3.
  destruct (rinode 1 _) as [din s| | | |]; [|done..]. rewrite E3. apply balloc_m; [done|lia].
Qed.
End Files.
End Image.

(** ** What [mkfs] builds *)

(** C11: [mkfs] run on at most 198 files that exist, have no slash in their names
    and fit on the disk, and whose entries in the root directory do not end on a
    block boundary, makes an image of [FSSIZE] blocks that the kernel can use.  Its
    superblock is [the_sb] and its log is empty.  Inode 1 is the root
    directory: it holds [.], [..] and one entry per file, padded with zero
    bytes, which are free entries, to the end of its block.  File number [k]
    has inode [k + 2] and exactly the bytes that were read from the host.  Each
    of these files is in the good order that the kernel's reads and writes rely
    on: its blocks are marked in the bitmap and shared with no other file.  What
    happens when the entries do end on a block boundary is
    [mkfs_root_hole]. *)
Theorem mkfs_builds image_opens host_file name image args :
  image_opens image = true -> Forall (arg_ok host_file) args -> (length args <= 198)%nat ->
  16 * (2 + Z.of_nat (length args)) mod BSIZE <> 0 ->
  Mkfs.nmeta + blocks_of (16 * (2 + Z.of_nat (length args))) +
    foldr (fun arg a => blocks_of (Z.of_nat (length (data host_file arg))) + a) 0 args < FSSIZE ->
  exists s r xs,
    Mkfs.main image_opens host_file (name :: image :: args) (Mkfs.start []) = Ok tt s /\
    let d := Mkfs.m_img s in
    length d = 1000%nat /\ superblock_at (dget d 1) = Mkfs.the_sb /\ head_n (dget d 2) = 0 /\
    stored d r 1 T_DIR (padded (root_entries args)) /\
    (forall k arg, args !! k = Some arg ->
      exists x, xs !! k = Some x /\ stored d x (Z.of_nat k + 2) T_FILE (data host_file arg)) /\
    (forall k k' x x', (r :: xs) !! k = Some x -> (r :: xs) !! k' = Some x' -> k <> k' -> apart Mkfs.the_sb (dview d) x x').
Proof.
  intros Hop Hok Hn Hpart Htot.
  destruct (main_m image_opens host_file name image args Hop Hok Hn Htot)
    as (fi & fb & img0 & r0 & xs & img & HB & Hfb & HI & Ev & Hsb & Hlog & E & Hle & Tr & Hlx & Tx).
  replace (16 * (2 + Z.of_nat (length args))) with (Z.of_nat (32 + 16 * length args)) in * by lia.
  assert (files_in (mview img fb) ((set_i_size (rounded (i_size r0)) r0, padded (root_entries args)) :: zip xs (data host_file <$> args))) as HF.
  { eapply built_root; [exact HB|rewrite length_zip, length_fmap; lia|rewrite Hle; change (MAXFILE * BSIZE) with 71680; lia|by rewrite Hle|done]. }
  set (r := set_i_size (rounded (i_size r0)) r0) in *. change (i_type r0) with (i_type r) in Tr.
  destruct (balloc_m fi fb img HI Hfb) as (_ & Hd & Hv). set (d := <[58%nat := _]> img) in *.
  destruct (files_stored img fb d _ Hd Hv HF) as [HS HA].
  assert (forall k x, xs !! k = Some x -> exists arg, args !! k = Some arg /\
    zip xs (data host_file <$> args) !! k = Some (x, data host_file arg)) as Hz.
  { intros k x Hx. destruct (lookup_lt_is_Some_2 args k) as [arg Ha]; [apply lookup_lt_Some in Hx; lia|].
    exists arg. split; [done|]. rewrite lookup_zip_with, Hx, list_lookup_fmap, Ha. done. }
  exists (mstate fi fb d), r, xs. split; [exact E|]. cbn [Mkfs.m_img mstate]. split; [done|].
  assert (forall b dat, b <> 58 -> img !! Z.to_nat b = Some dat -> dget d b = dat) as Hget.
  { intros b dat Hb Hb'. unfold dget, d. destruct (decide (Z.to_nat b = 58%nat)); [lia|]. by rewrite list_lookup_insert_ne, Hb' by done. }
  split; [rewrite (Hget 1 sb_block) by done; by vm_compute|].
  split; [rewrite (Hget 2 Mkfs.zeroes) by done; by vm_compute|].
  split; [rewrite <- Tr; exact (HS 0%nat r _ eq_refl)|]. split.
  - intros k arg Ha. destruct (lookup_lt_is_Some_2 xs k) as [x Hx]; [apply lookup_lt_Some in Ha; lia|].
    exists x. split; [done|]. destruct (Hz k x Hx) as (arg' & Ha' & Hk). simplify_eq.
    eapply Forall_lookup_1 in Tx; [|exact Hx]. rewrite <- Tx.
    replace (Z.of_nat k + 2) with (Z.of_nat (S k) + 1) by lia. by apply (HS (S k) x).
  - assert (forall k x, (r :: xs) !! k = Some x -> exists c,
      ((r, padded (root_entries args)) :: zip xs (data host_file <$> args)) !! k = Some (x, c)) as Hc.
    { intros [|k] x Hx; [injection Hx as <-; by eexists|]. destruct (Hz k x Hx) as (arg & _ & Hk). by eexists. }
    intros k k' x x' Hk Hk' Hne. destruct (Hc k x Hk) as [c Ec]. destruct (Hc k' x' Hk') as [c' Ec']. by eapply (HA k k').
Qed.

(** Two files, [_sh] of three bytes read in two parts and [README] of one. *)
Definition ex_sh : list Z := [95; 115; 104].
Definition ex_readme : list Z := [82; 69; 65; 68; 77; 69].
Definition ex_host (name : list Z) : option (list (list Z)) :=
  if decide (name = ex_sh) then Some [[1; 2]; [3]] else if decide (name = ex_readme) then Some [[7]] else None.

Lemma ex_args_ok : Forall (arg_ok ex_host) [ex_sh; ex_readme].
Proof.
  apply Forall_cons. split; [|apply Forall_cons; split; [|done]].
  - split; [apply (bool_decide_unpack _); by vm_compute|exists [[1; 2]; [3]]; split; [done|repeat constructor; done]|by vm_compute].
  - split; [apply (bool_decide_unpack _); by vm_compute|exists [[7]]; split; [done|repeat constructor; done]|by vm_compute].
Qed.

Lemma mkfs_builds_witness :
  exists s r xs,
    Mkfs.main (fun _ => true) ex_host ([] :: [] :: [ex_sh; ex_readme]) (Mkfs.start []) = Ok tt s /\
    let d := Mkfs.m_img s in
    length d = 1000%nat /\ superblock_at (dget d 1) = Mkfs.the_sb /\ head_n (dget d 2) = 0 /\
    stored d r 1 T_DIR (padded (root_entries [ex_sh; ex_readme])) /\
    (forall k arg, [ex_sh; ex_readme] !! k = Some arg ->
      exists x, xs !! k = Some x /\ stored d x (Z.of_nat k + 2) T_FILE (data ex_host arg)) /\
    (forall k k' x x', (r :: xs) !! k = Some x -> (r :: xs) !! k' = Some x' -> k <> k' -> apart Mkfs.the_sb (dview d) x x').
Proof.
  apply (mkfs_builds (fun _ => true) ex_host [] [] [ex_sh; ex_readme]); [reflexivity|exact ex_args_ok|cbn; lia|vm_compute; discriminate|].
  vm_compute. reflexivity.
Defined.

(** Files [a], [b], ... without contents. *)
Definition ex_many : list (list Z) := (fun k => [97 + Z.of_nat k]) <$> seq 0 30.

(** C12: When the entries of the root directory fill its blocks exactly, that is
    for 30 files, 62 files and so on up to the limit of 198, [mkfs] still rounds
    its size up by a block: the directory on the image has all its entries in
    its blocks, but its size is a block longer than they are, and that last
    block does not exist.  This is so for all files that exist, have no slash
    in their names and fit on the disk. *)
Theorem mkfs_root_hole image_opens host_file name image args :
  image_opens image = true -> Forall (arg_ok host_file) args -> (length args <= 198)%nat ->
  let len := 16 * (2 + Z.of_nat (length args)) in
  len mod BSIZE = 0 ->
  Mkfs.nmeta + blocks_of len +
    foldr (fun arg a => blocks_of (Z.of_nat (length (data host_file arg))) + a) 0 args < FSSIZE ->
  exists s,
    Mkfs.main image_opens host_file (name :: image :: args) (Mkfs.start []) = Ok tt s /\
    let v := dview (Mkfs.m_img s) in let r := dinode_at Mkfs.the_sb v ROOTINO zinode in
    i_type r = T_DIR /\ i_size r = len + BSIZE /\ file_bytes v (i_addrs r) 0 len = root_entries args /\
    (forall bn, 0 <= bn < len / BSIZE -> addr_of v (i_addrs r) bn <> 0) /\ addr_of v (i_addrs r) (len / BSIZE) = 0.
Proof.
  intros Hop Hok Hn len Hfull Htot.
  destruct (main_m image_opens host_file name image args Hop Hok Hn Htot)
    as (fi & fb & img0 & r & xs & img & HB & Hfb & HI & Ev & _ & _ & E & Hle & Tr & _).
  destruct (balloc_m fi fb img HI Hfb) as (_ & Hd & Hv). set (d := <[58%nat := _]> img) in *.
  pose proof (built_size _ _ _ _ 0%nat _ _ HB eq_refl) as Hs. rewrite Hle in Hs.
  replace (Z.of_nat (32 + 16 * length args)) with len in Hs by (unfold len; lia).
  destruct (bt_file _ _ _ _ HB 0%nat r _ eq_refl) as (Ht & Hin & Hby). change (Z.of_nat 0 + 1) with 1 in Hin.
  exists (mstate fi fb d). split; [exact E|]. cbn [Mkfs.m_img mstate].
  destruct (root_on_disk img0 fb img r d Ht Hin) as (H1 & H2 & H3); [rewrite Hs; change (NDIRECT * BSIZE) with 6144; unfold len; lia|done|done|].
  cbn zeta. change ROOTINO with 1. rewrite H1. change (i_size (with_fields ?y _)) with (i_size y). change (i_addrs (with_fields ?y _)) with (i_addrs r).
  split; [done|]. split; [|split; [|split]].
  - cbn. rewrite Hs. unfold rounded. pose proof (Z.div_mod len BSIZE ltac:(done)). lia.
  - rewrite <- Hs. fold (bytes (dview d) r). by rewrite H2.
  - intros bn Hb. rewrite H3. destruct (gd_filled _ _ _ _ _ _ _ (td_good _ _ Ht) (bn * BSIZE)) as [_ Ha].
    { rewrite Hs. pose proof (Z.div_mod len BSIZE ltac:(done)). unfold BSIZE in *. lia. }
    by rewrite Z.div_mul in Ha by done.
  - rewrite H3. apply (td_end _ _ Ht); rewrite ?Hs; pose proof (Z.div_mod len BSIZE ltac:(done)); [|lia].
    split; [apply Z.div_pos; [unfold len; lia|done]|]. apply Z.div_lt_upper_bound; [done|]. change (BSIZE * MAXFILE) with 71680. unfold len. lia.
Qed.

Lemma ex_many_ok : Forall (arg_ok (fun _ => Some [])) ex_many.
Proof.
  apply Forall_forall. intros arg Hin. split; [|by exists []|done].
  assert (forallb (fun arg => bool_decide (slash ∉ arg)) ex_many = true) as H by (vm_compute; reflexivity).
  apply (check_all _ _ arg) in H; [|done]. by apply bool_decide_eq_true in H.
Qed.

Lemma mkfs_root_hole_witness :
  exists s, Mkfs.main (fun _ => true) (fun _ => Some []) ([] :: [] :: ex_many) (Mkfs.start []) = Ok tt s /\
    let v := dview (Mkfs.m_img s) in let r := dinode_at Mkfs.the_sb v ROOTINO zinode in
    i_size r = 2 * BSIZE /\ addr_of v (i_addrs r) 1 = 0.
Proof.
  destruct (mkfs_root_hole (fun _ => true) (fun _ => Some []) [] [] ex_many) as (s & E & _ & H2 & _ & _ & H5);
    [reflexivity|exact ex_many_ok|vm_compute; lia|reflexivity|vm_compute; reflexivity|].
  exists s. split; [exact E|]. split; [exact H2|exact H5].
Defined.
