(* ===== verification/Trap.v ===== *)
(** * Traps and interrupts

    [trap] of [trap.c]: system calls, device interrupts and faults, the exit
    of killed processes and preemption on the clock tick. *)

From stdpp Require Import prelude list gmap strings.
From Stdlib Require Import ZArith Lia.
From S2P Require Import Prelude State Boot Spinlock Str Kalloc Cprintf Vm Sched Sema Sleeplock Bio Log Fs File Kthread Exec Syscall Console Tty Platform.
#[local] Open Scope c_scope.

Definition T_SYSCALL : Z := 64.

Definition SETGATE (istrap : bool) (sel off d : Z) : gatedesc :=
  mk_gatedesc (Z.land (u32 off) 0xffff) sel 0 0 (if istrap then 0xF else 0xE) 0 d 1
    (Z.shiftr (u32 off) 16).

(** The interrupt descriptor table; [vectors] are the entry points of the
    stubs that [vectors.pl] generates. *)
Definition setgate (i : nat) (g : gatedesc) : B unit := upd (fun s => set_pf_idt (<[i := g]> (pf_idt s)) s).
Definition tvinit (vectors : list Z) : B unit :=
  each_ 256 0 (fun i => setgate i (SETGATE false (Z.shiftl SEG_KCODE 3) (from vectors i) 0)) ;;
  setgate (Z.to_nat T_SYSCALL)
    (SETGATE true (Z.shiftl SEG_KCODE 3) (from vectors (Z.to_nat T_SYSCALL)) DPL_USER) ;;
  kern (initlock LTicks "time").

Definition idtinit : B unit :=
  t <- gets pf_idt ;;
  event (Lidt t).

Section Trap.
Context `{DiskDriver} `{ConsoleDev}.
(** The faulting address. *)
Context (cr2 : Z).

(** [myproc() && P(myproc())] *)
Definition cur_is (P : proc -> bool) : K bool :=
  p <- myproc ;;
  match p with
  | None => ret false
  | Some p => x <- getp p ;; ret (P x)
  end.
Definition is_killed (x : proc) : bool := negb (p_killed x =? 0).
Definition from_user (tf : trapframe) : bool := Z.land (t_cs tf) 3 =? DPL_USER.

(** [cprintf("unexpected trap ..."); panic("trap")] *)
Definition trap_unexpected (tf : trapframe) : K unit :=
  c <- cpuid ;;
  cprintf (s2b "unexpected trap %d from cpu %d eip %x (cr2=0x%x)" ++ nl)
    [AInt (t_trapno tf); AInt (Z.of_nat c); AInt (t_eip tf); AInt cr2] ;;
  panic "trap".

(** The switch on the trap number. *)
Definition trap_dispatch (tf : trapframe) : B unit :=
  let no := t_trapno tf in
  if no =? T_IRQ0 + IRQ_TIMER then
    kern (c <- cpuid ;;
          if Nat.eqb c 0 then
            acquire LTicks ;;
            updpt (fun t => set_pt_ticks (u32 (pt_ticks t + 1)) t) ;;
            wakeup ChTicks ;;
            release LTicks
          else ret tt) ;;
    lapiceoi
  else if no =? T_IRQ0 + IRQ_IDE then
    kern ideintr ;;
    lapiceoi
  else if no =? T_IRQ0 + IRQ_IDE + 1 then ret tt
  else if no =? T_IRQ0 + IRQ_KBD then
    kbdintr ;;
    lapiceoi
  else if no =? T_IRQ0 + IRQ_COM1 then
    uartintr ;;
    lapiceoi
  else if (no =? T_IRQ0 + 7) || (no =? T_IRQ0 + IRQ_SPURIOUS) then
    kern (c <- cpuid ;;
          cprintf (s2b "cpu%d: spurious interrupt at %x:%x" ++ nl)
            [AInt (Z.of_nat c); AInt (t_cs tf); AInt (t_eip tf)]) ;;
    lapiceoi
  else kern (
    p <- myproc ;;
    match p with
    | Some p =>
      if Z.land (t_cs tf) 3 =? 0 then trap_unexpected tf
      else
        x <- getp p ;;
        c <- cpuid ;;
        cprintf (s2b "pid %d %s: trap %d err %d on cpu %d eip 0x%x addr 0x%x--kill proc" ++ nl)
          [AInt (p_pid x); AStr (Some (upto_nul (p_name x))); AInt no; AInt (t_err tf);
           AInt (Z.of_nat c); AInt (t_eip tf); AInt cr2] ;;
        updp p (set_p_killed 1)
    | None => trap_unexpected tf
    end).

(** What follows the switch: a killed process leaves, a clock tick makes the
    thread give up its processor. *)
Definition trap_exit (tf : trapframe) : K unit :=
  k <- cur_is is_killed ;;
  (if k && from_user tf then exit else ret tt) ;;
  r <- cur_is (is_state RUNNING) ;;
  (if r && (t_trapno tf =? T_IRQ0 + IRQ_TIMER) then yield else ret tt) ;;
  k <- cur_is is_killed ;;
  if k && from_user tf then exit else ret tt.

Definition trap (tf : trapframe) : B unit :=
  if t_trapno tf =? T_SYSCALL then kern (
    k <- mykilled ;;
    (if k : bool then exit else ret tt) ;;
    p <- curproc ;;
    updp p (set_p_tf tf) ;;
    syscall ;;
    k <- mykilled ;;
    if k : bool then exit else ret tt)
  else
    trap_dispatch tf ;;
    kern (trap_exit tf).
End Trap.

(** ** Gates *)

(** The entry point a gate leads to. *)
Definition gate_entry (g : gatedesc) : Z := g_off_15_0 g + 2 ^ 16 * g_off_31_16 g.

Lemma gate_entry_set t sel off d : gate_entry (SETGATE t sel off d) = u32 off.
Proof.
  unfold gate_entry, SETGATE. cbn [g_off_15_0 g_off_31_16]. change 0xffff with (Z.ones 16).
  rewrite Z.land_ones, Z.shiftr_div_pow2 by lia. pose proof (Z_div_mod_eq_full (u32 off) (2 ^ 16)). lia.
Qed.

Lemma setgates_ok (g : nat -> gatedesc) n : forall i s, (i + n <= length (pf_idt s))%nat ->
  exists l, each_ n i (fun i => setgate i (g i)) s = Ok tt (set_pf_idt l s) /\ length l = length (pf_idt s) /\
    forall j, l !! j = if decide (i <= j < i + n)%nat then Some (g j) else pf_idt s !! j.
Proof.
  induction n as [|n IH]; intros i s Hl.
  { exists (pf_idt s). split; [by destruct s|]. split; [done|]. intros j. by rewrite decide_False by lia. }
  cbn [each_]. unfold setgate at 1. rewrite bind_upd. set (s1 := set_pf_idt _ s).
  destruct (IH (S i) s1) as (l & E & L1 & L2); [cbn; rewrite length_insert; lia|]. exists l.
  split; [by rewrite E; destruct s|]. split; [rewrite L1; apply length_insert|]. intros j. rewrite L2. cbn [pf_idt s1 set_pf_idt].
  destruct (decide (i = j)) as [<-|Hne].
  - rewrite decide_False, decide_True by lia. apply list_lookup_insert_eq. lia.
  - rewrite list_lookup_insert_ne by done. destruct (decide (S i <= j < S i + n)%nat); [by rewrite decide_True by lia|by rewrite decide_False by lia].
Qed.

(** After [tvinit] every vector of the interrupt table leads to its stub in
    the kernel's code segment, and the one gate that user code may call is the
    system call's: it alone has the user's privilege level and leaves interrupts
    enabled, while every other gate is for the processor only and disables
    them.  The stubs' addresses are the 32-bit words [u32 v] of [vectors]. *)
Theorem tvinit_gates vectors s :
  length (pf_idt s) = 256%nat -> length vectors = 256%nat ->
  exists s', tvinit vectors s = Ok tt s' /\
    forall i v, vectors !! i = Some v ->
      exists g, pf_idt s' !! i = Some g /\ gate_entry g = u32 v /\ g_cs g = Z.shiftl SEG_KCODE 3 /\ g_p g = 1 /\
        g_dpl g = (if decide (Z.of_nat i = T_SYSCALL) then DPL_USER else 0) /\
        g_type g = (if decide (Z.of_nat i = T_SYSCALL) then 0xF else 0xE).
Proof.
  intros Hl Hv. unfold tvinit.
  destruct (setgates_ok (fun i => SETGATE false (Z.shiftl SEG_KCODE 3) (from vectors i) 0) 256 0 s ltac:(lia)) as (l & E & L1 & L2).
  rewrite (bind_ok _ _ _ _ _ E). unfold setgate. rewrite bind_upd.
  eexists. split; [reflexivity|]. intros i v Hi. cbn [pf_idt set_pf_idt set_pf_world].
  pose proof (lookup_lt_Some _ _ _ Hi) as Hlt.
  assert (from vectors i = v) as Hfrom by (unfold from; by rewrite Hi).
  destruct (decide (i = Z.to_nat T_SYSCALL)) as [->|Hne].
  - exists (SETGATE true (Z.shiftl SEG_KCODE 3) (from vectors (Z.to_nat T_SYSCALL)) DPL_USER).
    rewrite list_lookup_insert_eq by (rewrite L1, Hl; unfold T_SYSCALL; lia). by rewrite gate_entry_set, Hfrom.
  - exists (SETGATE false (Z.shiftl SEG_KCODE 3) (from vectors i) 0).
    rewrite list_lookup_insert_ne, L2, decide_True by (done || lia). rewrite gate_entry_set, Hfrom.
    rewrite !(decide_False (P := Z.of_nat i = T_SYSCALL)) by (unfold T_SYSCALL in *; lia). done.
Qed.

(** ** Interrupts *)

Section Interrupts.
Context `{DiskDriver} `{ConsoleDev} (cr2 : Z).
Context (km : kmstate) (bc : bcstate) (fs : fsstate).
Implicit Types (hw : hwstate) (pt : ptstate) (cn : cnstate) (o : list (kstate -> kstate)).

(** The state of an interrupt's processor [i]: the gate has turned interrupts
    off, and the thread it met holds no lock and is not killed. *)
Record interrupted hw pt (i : nat) (c : cpu) (p : nat) (x : proc) : Prop := {
  in_here : here hw i c;
  in_off : irq_off hw;
  in_ncli : c_ncli c = 0;
  in_proc : c_proc c = Some p;
  in_entry : pt_proc pt !! p = Some x;
  in_state : p_state x = RUNNING;
  in_killed : p_killed x = 0;
  in_ptable : lock_free hw LPtable;
  in_procs : procs_ok pt;
}.

Lemma interrupted_touch hw pt i c p x : interrupted hw pt i c p x -> interrupted (touch i hw) pt i (touched hw c) p x.
Proof. intros [Hh Ho Hn Hp He Hs Hk Hl Hpo]. split; try done. by apply here_touch. Qed.

(** A thread that runs is not among those a wakeup changes. *)
Lemma interrupted_pt hw pt pt' i c p x : interrupted hw pt i c p x -> pt_proc pt' !! p = Some x -> procs_ok pt' ->
  interrupted hw pt' i c p x.
Proof. intros [Hh Ho Hn Hp He Hs Hk Hl Hpo]. by split. Qed.
Lemma woken_running ch x : p_state x = RUNNING -> woken ch x = x.
Proof. intros Hs. unfold woken, map_if, sleeps_on, is_state. by rewrite Hs. Qed.
Lemma interrupted_woken hw pt i c p x ch : interrupted hw pt i c p x -> interrupted hw (wakeup_pt ch pt) i c p x.
Proof.
  intros Hi. apply (interrupted_pt _ _ _ _ _ _ _ Hi).
  - cbn. rewrite list_lookup_fmap, (in_entry _ _ _ _ _ _ Hi). cbn. by rewrite woken_running by apply Hi.
  - unfold procs_ok, wakeup_pt in *. cbn. rewrite length_fmap. apply Hi.
Qed.

Lemma cur_is_ok o hw pt cn i c p x P : interrupted hw pt i c p x ->
  cur_is P (W hw pt km bc fs cn o) = Ok (P x) (W (touch i hw) pt km bc fs cn o).
Proof.
  intros [Hh Ho Hn Hp He Hs Hk Hl Hpo]. unfold cur_is. kcall myproc_ok by done. rewrite Hp. kcall getp_ok by done. done.
Qed.

(** After any interrupt but the clock's the thread goes on. *)
Lemma trap_exit_quiet o tf hw pt cn i c p x : interrupted hw pt i c p x -> t_trapno tf <> T_IRQ0 + IRQ_TIMER ->
  trap_exit tf (W hw pt km bc fs cn o) = Ok tt (W (touch i hw) pt km bc fs cn o).
Proof.
  intros Hi Hno. pose proof (interrupted_touch _ _ _ _ _ _ Hi) as Hi'. unfold trap_exit.
  rewrite (bind_ok _ _ _ _ _ (cur_is_ok _ _ _ _ _ _ _ _ is_killed Hi)).
  assert (is_killed x = false) as -> by (unfold is_killed; by rewrite (in_killed _ _ _ _ _ _ Hi)). cbn [andb]. rewrite bind_ret.
  rewrite (bind_ok _ _ _ _ _ (cur_is_ok _ _ _ _ _ _ _ _ (is_state RUNNING) Hi')), touch_touch.
  rewrite (proj2 (Z.eqb_neq _ _) Hno), andb_false_r, bind_ret.
  rewrite (bind_ok _ _ _ _ _ (cur_is_ok _ _ _ _ _ _ _ _ is_killed Hi')), touch_touch.
  unfold is_killed. by rewrite (in_killed _ _ _ _ _ _ Hi).
Qed.

(** The thread table after one tick of the clock, and after the interrupted
    thread has given up its processor. *)
Definition ticked pt : ptstate := wakeup_pt ChTicks (set_pt_ticks (u32 (pt_ticks pt + 1)) pt).
Definition yielded (p : nat) pt : ptstate :=
  set_pt_proc (alter (fun x => x |> set_p_lastWait (pt_ticks pt) |> set_p_state RUNNABLE) p (pt_proc pt)) pt.

Lemma yield_enter o hw pt cn i c p x : interrupted hw pt i c p x ->
  yield (W hw pt km bc fs cn o) =
  (sched ;; release LPtable)%c (W (hw_acquire LPtable i (touch i hw)) (yielded p pt) km bc fs cn o) /\
  sched_ready (hw_acquire LPtable i (touch i hw)) (yielded p pt) i (pushed (touch i hw) (touched hw c)) p
    (x |> set_p_lastWait (pt_ticks pt) |> set_p_state RUNNABLE).
Proof.
  intros Hi. pose proof (interrupted_touch _ _ _ _ _ _ Hi) as Hi'. destruct Hi as [Hh Ho Hn Hp He Hs Hk Hl Hpo].
  pose proof (in_here _ _ _ _ _ _ Hi') as Hh'. split.
  - unfold yield. kcall myproc_ok by exact Hh. rewrite Hp. krun. kcall myproc_ok by exact Hh'. rewrite touch_touch.
    change (c_proc (touched hw c)) with (c_proc c). rewrite Hp. cbn [deref]. unfold updp at 1. krun.
    kcall acquire_ok by (exact Hh' || apply Hl). kcall myproc_ok by (by apply here_acquire). erewrite touch_acquire by exact Hh'.
    change (c_proc (pushed (touch i hw) (touched hw c))) with (c_proc c). rewrite Hp. cbn [deref]. krun. unfold updp. krun.
    unfold yielded. rewrite list_alter_alter_eq. done.
  - split; [by apply here_acquire|apply lock_mine_acquire|cbn; by rewrite Hn|done| |done].
    cbn. by rewrite list_lookup_alter_eq, He.
Qed.

(** The way back from [yield]: switched back to on processor [j], the thread
    releases ptable.lock. *)
Lemma yield_resume o hw pt cn i c p x f hw' pt' km' bc' fs' cn' j c' : interrupted hw pt i c p x ->
  f (mk_k (hw_acquire LPtable i (touch i hw)) (yielded p pt) km bc fs cn) = mk_k hw' pt' km' bc' fs' cn' ->
  here hw' j c' -> c_ncli c' = 1 -> lock_mine hw' LPtable j ->
  exists hw2 c2,
    yield (W hw pt km bc fs cn (f :: o)) = Ok tt (W hw2 pt' km' bc' fs' cn' o) /\
    here hw2 j c2 /\ c_ncli c2 = 0 /\ c_proc c2 = c_proc c' /\ lock_free hw2 LPtable.
Proof.
  intros Hi Hf Hh Hn Hm. destruct (yield_enter (f :: o) hw pt cn i c p x Hi) as [-> Hready]. pose proof Hh as (Hcpu & _ & Ho).
  erewrite bind_ok by (eapply sched_resume; [done|done|done|apply Ho; lia]).
  set (hwr := set_hw_cpus _ hw'). set (v := c_intena (pushed (touch i hw) (touched hw c))).
  assert (here hwr j (set_c_intena v c')) as Hr.
  { split; [by apply (cpu_here_alter hw')|]. split; [cbn; lia|exact Ho]. }
  exists (hw_pop j (set_c_intena v c') (set_hw_locks (fn_upd LPtable (mk_spinlock 0 (l_name (hw_locks hwr LPtable)) None) (hw_locks hwr)) hwr)).
  eexists. split; [eapply release_ok; [exact Hr|cbn; lia|exact Hm]|]. 
  split; [apply here_pop_last; [exact Hr|exact Hn]|]. split; [done|]. split; [done|]. unfold lock_free. cbn. by rewrite fn_upd_eq.
Qed.

Lemma tick_ok o tf hw pt cn c p x lap ioa id sh it tr v vs :
  interrupted hw pt 0 c p x -> lock_free hw LTicks -> lap <> 0 -> t_trapno tf = T_IRQ0 + IRQ_TIMER ->
  trap_dispatch cr2 tf (mk_platform (W hw pt km bc fs cn o) lap ioa id sh it tr (v :: vs)) =
  Ok tt (mk_platform (W (touch 0 hw) (ticked pt) km bc fs cn o) lap ioa id sh it
    (Rd (lap + 4 * Lapic.ID) v :: Wr (lap + 4 * Lapic.EOI) 0 :: tr) vs).
Proof.
  intros [Hh Ho Hn Hp He Hs Hk Hl Hpo] Ht Hlap Hno. unfold trap_dispatch. rewrite Hno, Z.eqb_refl.
  rewrite (bind_ok _ _ _ tt (mk_platform (W (touch 0 hw) (ticked pt) km bc fs cn o) lap ioa id sh it tr (v :: vs))).
  { by erewrite lapiceoi_ok by done. }
  unfold kern. cbn [pf_world]. unfold cpuid. kcall mycpu_ok by (exact Ho || apply Hh). cbn [Nat.eqb].
  kcall acquire_ok by (exact Hh || apply Ht). krun.
  rewrite (bind_ok _ _ _ tt (W (hw_acquire LTicks 0 hw) (ticked pt) km bc fs cn o)).
  - erewrite release_acquired by (exact Hh || apply Ht). done.
  - erewrite wakeup_eq; [by erewrite touch_acquire|by apply here_acquire|by apply lock_free_other|done].
Qed.

Lemma interrupted_ticked hw pt i c p x : interrupted hw pt i c p x -> interrupted (touch i hw) (ticked pt) i (touched hw c) p x.
Proof.
  intros Hi. apply interrupted_touch, interrupted_woken. apply (interrupted_pt _ _ _ _ _ _ _ Hi); [apply Hi|].
  unfold procs_ok. apply Hi.
Qed.

(** Up to the context switch. *)
Lemma tick_yields o tf hw pt cn c p x lap ioa id sh it tr v vs :
  interrupted hw pt 0 c p x -> lock_free hw LTicks -> lap <> 0 -> t_trapno tf = T_IRQ0 + IRQ_TIMER ->
  trap cr2 tf (mk_platform (W hw pt km bc fs cn o) lap ioa id sh it tr (v :: vs)) =
  kern (yield ;; k <- cur_is is_killed ;; if k && from_user tf then exit else ret tt)%c
    (mk_platform (W (touch 0 hw) (ticked pt) km bc fs cn o) lap ioa id sh it
      (Rd (lap + 4 * Lapic.ID) v :: Wr (lap + 4 * Lapic.EOI) 0 :: tr) vs).
Proof.
  intros Hi Ht Hlap Hno. unfold trap. rewrite Hno. change (T_IRQ0 + IRQ_TIMER =? T_SYSCALL) with false. cbv iota.
  rewrite (bind_ok _ _ _ _ _ (tick_ok o tf hw pt cn c p x lap ioa id sh it tr v vs Hi Ht Hlap Hno)).
  unfold kern. cbn [pf_world]. unfold trap_exit. pose proof (interrupted_ticked _ _ _ _ _ _ Hi) as Hi'.
  rewrite (bind_ok _ _ _ _ _ (cur_is_ok _ _ _ _ _ _ _ _ is_killed Hi')), touch_touch.
  assert (is_killed x = false) as -> by (unfold is_killed; by rewrite (in_killed _ _ _ _ _ _ Hi)). cbn [andb]. rewrite bind_ret.
  rewrite (bind_ok _ _ _ _ _ (cur_is_ok _ _ _ _ _ _ _ _ (is_state RUNNING) Hi')), touch_touch.
  rewrite Hno, Z.eqb_refl. unfold is_state at 1. by rewrite (in_state _ _ _ _ _ _ Hi), bool_decide_eq_true_2.
Qed.
End Interrupts.

(** C35: A clock interrupt on the first processor preempts the thread it meets,
    one that is not killed, neither now nor when it runs again.  The tick count
    advances by one, the threads that sleep on it become runnable, the local APIC
    gets its end of interrupt, and the thread gives up the processor: it is left runnable under ptable.lock, with the tick recorded
    as the start of its wait, and the others run.  When they switch back to it,
    on whatever processor, the interrupt returns with their state, the lock
    released. *)
Theorem clock_preempts `{DiskDriver} `{ConsoleDev} cr2 tf hw pt km bc fs cn c p x lap ioa id sh it tr v vs :
  interrupted hw pt 0 c p x -> lock_free hw LTicks -> lap <> 0 -> t_trapno tf = T_IRQ0 + IRQ_TIMER ->
  let k0 := mk_k (hw_acquire LPtable 0 (touch 0 hw)) (yielded p (ticked pt)) km bc fs cn in
  let tr' := Rd (lap + 4 * Lapic.ID) v :: Wr (lap + 4 * Lapic.EOI) 0 :: tr in
  trap cr2 tf (mk_platform (W hw pt km bc fs cn []) lap ioa id sh it tr (v :: vs)) =
    Asleep (mk_platform (mk_world k0 []) lap ioa id sh it tr' vs) /\
  forall f o hw' pt' km' bc' fs' cn' j c' x',
    f k0 = mk_k hw' pt' km' bc' fs' cn' -> here hw' j c' -> c_ncli c' = 1 -> c_proc c' = Some p ->
    lock_mine hw' LPtable j -> pt_proc pt' !! p = Some x' -> p_killed x' = 0 ->
    exists hw2 c2,
      trap cr2 tf (mk_platform (W hw pt km bc fs cn (f :: o)) lap ioa id sh it tr (v :: vs)) =
        Ok tt (mk_platform (W hw2 pt' km' bc' fs' cn' o) lap ioa id sh it tr' vs) /\
      here hw2 j c2 /\ c_ncli c2 = 0 /\ c_proc c2 = Some p /\ lock_free hw2 LPtable.
Proof.
  intros Hi Ht Hlap Hno k0 tr'. pose proof (interrupted_ticked _ _ _ _ _ _ Hi) as Hi'. split.
  - erewrite tick_yields by done. unfold kern, bind. cbn [pf_world].
    destruct (yield_enter km bc fs [] _ _ cn _ _ _ _ Hi') as [-> Hr]. rewrite touch_touch in Hr |- *. unfold bind.
    by rewrite (sched_asleep _ _ _ _ _ _ _ _ _ _ Hr).
  - intros f o hw' pt' km' bc' fs' cn' j c' x' Hf Hh Hn Hp Hm Hx Hk. erewrite tick_yields by done.
    destruct (yield_resume km bc fs o _ _ cn _ _ _ _ f hw' pt' km' bc' fs' cn' j c' Hi') as (hw2 & c2 & E & Hh2 & Hn2 & Hp2 & Hl2);
      [by rewrite touch_touch|done..|].
    unfold kern. cbn [pf_world]. rewrite (bind_ok _ _ _ _ _ E). rewrite Hp in Hp2.
    exists (touch j hw2), (touched hw2 c2). split; [|by split; [apply here_touch|]].
    unfold cur_is. rewrite bind_assoc. kcall myproc_ok by exact Hh2. rewrite Hp2, bind_assoc. kcall getp_ok by exact Hx.
    unfold is_killed. rewrite Hk. done.
Qed.

(** C36: Whatever keys are pressed, the keyboard's interrupt does to the console
    what typing the translated characters means.  The interrupt meets a thread
    that is not killed, a modifier state in seven bits, a buffer that holds a
    terminal and a cursor on the screen.  It reads the scan codes the controller
    has ready, each a byte, until the controller has no more.  Then the buffer
    holds the terminal after the characters, the threads that wait for input have
    been woken exactly if a line was finished, and the serial port got the echo,
    followed by the listing of all processes if one of the characters was a
    control-P.  The modifier state and the cursor are in range again, the local
    APIC gets its end of interrupt and the interrupted thread goes on. *)
Theorem keyboard_typed `{DiskDriver} `{ConsoleDev} cr2 tf hw pt km bc fs cn o i c p x t lap ioa id sh it tr codes v vs :
  interrupted hw pt i c p x -> lock_free hw LCons -> tty_rep cn t -> screen_ok cn -> 0 <= sh < 128 ->
  Forall (fun d => 0 <= d < 256) codes -> lap <> 0 -> t_trapno tf = T_IRQ0 + IRQ_KBD ->
  let '(sh', cs) := Kbd.kbdchars sh codes in
  let '(t', out, e) := types cs t in
  let pt' := woken_if e pt in
  let dump := if bool_decide (ctl 80 ∈ cs) then listing (km_mem km) (pt_proc pt') else [] in
  exists cn',
    trap cr2 tf (mk_platform (W hw pt km bc fs cn o) lap ioa id sh it tr (kbd_answers codes ++ 0 :: v :: vs)) =
      Ok tt (mk_platform (W (touch i hw) pt' km bc fs cn' o) lap ioa id sh' it
        (Rd (lap + 4 * Lapic.ID) v :: Wr (lap + 4 * Lapic.EOI) 0 :: kbd_reads codes ++ tr) vs) /\
    tty_rep cn' t' /\ screen_ok cn' /\ 0 <= sh' < 128 /\
    cn_out cn' = cn_out cn ++ (if cn_uart cn then concat (echo <$> out ++ dump) else []) /\
    interrupted (touch i hw) pt' i (touched hw c) p x.
Proof.
  intros Hi Hl Ht Hs Hsh Hc Hlap Htf. destruct (kbdchars_ok codes sh Hsh Hc) as [K1 _].
  pose proof (kbdintr_ok hw i c pt km bc fs cn o t lap ioa id sh it tr codes (v :: vs) (in_here _ _ _ _ _ _ Hi) Hl
    (in_ptable _ _ _ _ _ _ Hi) (in_procs _ _ _ _ _ _ Hi) Ht Hs Hsh Hc) as HC. cbv zeta in HC.
  destruct (Kbd.kbdchars sh codes) as [sh' cs]. cbn [fst snd] in *.
  destruct (types cs t) as [[t' out] e]. destruct HC as (cn' & E & N1 & N2 & N3). cbv zeta.
  assert (interrupted hw (woken_if e pt) i c p x) as Hi' by (destruct e; [by apply interrupted_woken|done]).
  exists cn'. split; [|do 4 (split; [done|]); by apply interrupted_touch].
  unfold trap, trap_dispatch. rewrite Htf.
  change (T_IRQ0 + IRQ_KBD =? T_SYSCALL) with false. change (T_IRQ0 + IRQ_KBD =? T_IRQ0 + IRQ_TIMER) with false.
  change (T_IRQ0 + IRQ_KBD =? T_IRQ0 + IRQ_IDE) with false. change (T_IRQ0 + IRQ_KBD =? T_IRQ0 + IRQ_IDE + 1) with false.
  rewrite Z.eqb_refl. cbv iota. rewrite bind_assoc, (bind_ok _ _ _ _ _ E).
  erewrite bind_ok by (by apply lapiceoi_ok). apply kern_ok. cbn [pf_world].
  rewrite (trap_exit_quiet _ _ _ _ _ _ _ _ _ _ _ _ (interrupted_touch _ _ _ _ _ _ Hi')); [by rewrite touch_touch|by rewrite Htf].
Qed.

(** ** The properties at work *)

#[local] Existing Instance Memide.driver.

Definition pf_trap (hw : hwstate) (vs : list Z) (o : list (kstate -> kstate)) : platform :=
  mk_platform (W hw pt_run km0 bc0 fs0 cn0 o) 0xFEE00000 IOAPIC 0 0 (replicate 256 (mk_gatedesc 0 0 0 0 0 0 0 0 0)) [] vs.
Definition vectors_ex : list Z := (fun i => 0x80106000 + 10 * Z.of_nat i) <$> seq 0 256.

Lemma tvinit_gates_witness :
  exists s', tvinit vectors_ex (pf_trap hw_run [] []) = Ok tt s' /\
    exists g, pf_idt s' !! 64%nat = Some g /\ gate_entry g = 0x80106280 /\ g_dpl g = DPL_USER.
Proof.
  destruct (tvinit_gates vectors_ex (pf_trap hw_run [] []) eq_refl eq_refl) as (s' & E & H).
  exists s'. split; [exact E|]. destruct (H 64%nat 0x80106280 eq_refl) as (g & H1 & H2 & _ & _ & H3 & _). by exists g.
Defined.

(** Thread 0 runs in user mode when the interrupt comes. *)
Definition hw_intr : hwstate := set_hw_eflags 0 hw_run.
Definition tf_intr (no : Z) : trapframe := set_t_trapno no (p_tf zproc).
Lemma interrupted_ex : interrupted hw_intr pt_run 0 c_run 0 proc_run.
Proof. split; try done. split; [|done]. apply here_run. Qed.
Lemma lock_free_ex lk : lock_free hw_intr lk.
Proof. done. Qed.

(** The others run and switch back to it. *)
Definition switch_back (k : kstate) : kstate := k.
Lemma clock_preempts_witness :
  exists hw2, trap 0 (tf_intr 32) (pf_trap hw_intr [7] [switch_back]) =
    Ok tt (mk_platform (W hw2 (yielded 0 (ticked pt_run)) km0 bc0 fs0 cn0 []) 0xFEE00000 IOAPIC 0 0
      (replicate 256 (mk_gatedesc 0 0 0 0 0 0 0 0 0)) [Rd 0xFEE00020 7; Wr 0xFEE000B0 0] []).
Proof.
  destruct (clock_preempts 0 (tf_intr 32) hw_intr pt_run km0 bc0 fs0 cn0 c_run 0 proc_run 0xFEE00000 IOAPIC 0 0
    (replicate 256 (mk_gatedesc 0 0 0 0 0 0 0 0 0)) [] 7 [] interrupted_ex (lock_free_ex LTicks) ltac:(done) eq_refl) as [_ H].
  destruct (H switch_back [] _ _ _ _ _ _ 0%nat (pushed (touch 0 hw_intr) (touched hw_intr c_run))
    (proc_run |> set_p_lastWait 1 |> set_p_state RUNNABLE) eq_refl) as (hw2 & c2 & E & _).
  - apply here_acquire, here_touch, interrupted_ex.
  - done.
  - done.
  - apply lock_mine_acquire.
  - by vm_compute.
  - done.
  - exists hw2. exact E.
Defined.

(** Shift and [a], return, and control-P: the line is finished, and the one
    process is listed. *)
Definition cn_serial : cnstate := set_cn_uart true cn0.
Lemma tty_rep_serial : tty_rep cn_serial (mk_tty [] []).
Proof. split; [split; cbn; try done; lia|constructor]. Qed.

Definition keys_ex : list Z := [0x2A; 0x1E; 0xAA; 0x1C; 0x1D; 0x19].
Definition idt_ex : list gatedesc := replicate 256 (mk_gatedesc 0 0 0 0 0 0 0 0 0).

Lemma keyboard_typed_witness :
  exists cn', trap 0 (tf_intr 33) (mk_platform (W hw_intr pt_run km0 bc0 fs0 cn_serial []) 0xFEE00000 IOAPIC 0 0 idt_ex []
      (kbd_answers keys_ex ++ [0; 7])) =
    Ok tt (mk_platform (W (touch 0 hw_intr) (wakeup_pt ChInput pt_run) km0 bc0 fs0 cn' []) 0xFEE00000 IOAPIC 0 2 idt_ex
      (Rd 0xFEE00020 7 :: Wr 0xFEE000B0 0 :: kbd_reads keys_ex) []) /\
    tty_rep cn' (mk_tty [65; 10] []) /\ cn_out cn' = s2b "A" ++ nl ++ s2b "1 run    " ++ nl.
Proof.
  pose proof (keyboard_typed 0 (tf_intr 33) hw_intr pt_run km0 bc0 fs0 cn_serial [] 0 c_run 0 proc_run (mk_tty [] []) 0xFEE00000 IOAPIC 0 0
    idt_ex [] keys_ex 7 [] interrupted_ex (lock_free_ex LCons)
    tty_rep_serial ltac:(by split) ltac:(lia) ltac:(repeat (apply Forall_cons; split; [lia|]); done) ltac:(done) eq_refl) as H.
  replace (Kbd.kbdchars 0 keys_ex) with (2, [0; 65; 0; 10; 0; 16]) in H by (vm_compute; reflexivity).
  replace (types [0; 65; 0; 10; 0; 16] (mk_tty [] [])) with (mk_tty [65; 10] [], [65; 10], true) in H by (vm_compute; reflexivity).
  destruct H as (cn' & E & Ht & _ & _ & Ho & _). rewrite app_nil_r in E. exists cn'. split; [exact E|]. split; [exact Ht|].
  rewrite Ho. vm_compute. reflexivity.
Defined.
