(* ===== verification/Asm.v ===== *)
(** * Assembly

    The routines written in assembly, on a model of the part of the processor
    they use: [swtch.S], the entry and exit of traps in [trapasm.S] and the
    stubs of [vectors.pl], the system call stubs of [usys.S], the first user
    program [initcode.S] and the switch to paging in [entry.S] and
    [entryother.S].  Segments are flat and an instruction that would fault is
    not considered. *)

From stdpp Require Import prelude list gmap strings.
From Stdlib Require Import ZArith Lia.
From S2P Require Import Prelude State Boot Str Vm Platform Trap.
#[local] Open Scope c_scope.

(** ** The processor *)

Inductive reg := EAX | ECX | EDX | EBX | ESP | EBP | ESI | EDI.
Inductive sreg := CS | DS | ES | FS | GS | SS.
#[export] Instance reg_eq_dec : EqDecision reg.
Proof. solve_decision. Defined.
#[export] Instance sreg_eq_dec : EqDecision sreg.
Proof. solve_decision. Defined.

Record machine := mk_machine {
  m_reg : reg -> Z;
  m_seg : sreg -> Z;
  m_eip : Z;
  m_eflags : Z;
  m_cr : Z -> Z;
  m_mem : mem;
}.
Definition set_reg r v s := mk_machine (fn_upd r v (m_reg s)) (m_seg s) (m_eip s) (m_eflags s) (m_cr s) (m_mem s).
Definition set_seg g v s := mk_machine (m_reg s) (fn_upd g v (m_seg s)) (m_eip s) (m_eflags s) (m_cr s) (m_mem s).
Definition set_eip v s := mk_machine (m_reg s) (m_seg s) v (m_eflags s) (m_cr s) (m_mem s).
Definition set_eflags v s := mk_machine (m_reg s) (m_seg s) (m_eip s) v (m_cr s) (m_mem s).
Definition set_cr n v s := mk_machine (m_reg s) (m_seg s) (m_eip s) (m_eflags s) (fn_upd n v (m_cr s)) (m_mem s).
Definition set_mem m s := mk_machine (m_reg s) (m_seg s) (m_eip s) (m_eflags s) (m_cr s) m.

Definition push (v : Z) (s : machine) : machine :=
  let a := u32 (m_reg s ESP - 4) in
  set_mem (store32 (m_mem s) a v) (set_reg ESP a s).
(** The word on top of the stack. *)
Definition top (s : machine) : Z := load32 (m_mem s) (m_reg s ESP).
Definition drop4 (s : machine) : machine := set_reg ESP (u32 (m_reg s ESP + 4)) s.

Inductive instr :=
| Movi (imm : Z) (dst : reg)             (* movl $imm, %dst *)
| Mov (src dst : reg)                    (* movl %src, %dst *)
| Load (disp : Z) (base dst : reg)       (* movl disp(%base), %dst *)
| Store (src base : reg)                 (* movl %src, (%base) *)
| Loada (addr : Z) (dst : reg)           (* movl (addr), %dst *)
| Movwi (imm : Z) (dst : reg)            (* movw $imm, the low half of dst *)
| Movws (src : reg) (dst : sreg)         (* movw the low half of src, %dst *)
| Movfc (n : Z) (dst : reg)              (* movl %crn, %dst *)
| Movtc (src : reg) (n : Z)              (* movl %src, %crn *)
| Addi (imm : Z) (dst : reg)
| Ori (imm : Z) (dst : reg)
| Pushi (imm : Z)
| Push (src : reg)
| Pushs (src : sreg)
| Pushal
| Pop (dst : reg)
| Pops (dst : sreg)
| Popal
| Jmp (target : Z)
| Jmpr (src : reg)                       (* jmp *%src *)
| Call (target next : Z)                 (* next: the address after the call *)
| Calla (addr next : Z)                  (* call *(addr) *)
| Ret
| Iret.

Definition pop_reg (r : reg) (s : machine) : machine := set_reg r (top s) (drop4 s).

Definition step (i : instr) (s : machine) : machine :=
  match i with
  | Movi imm d => set_reg d imm s
  | Mov a d => set_reg d (m_reg s a) s
  | Load disp b d => set_reg d (load32 (m_mem s) (u32 (m_reg s b + disp))) s
  | Store a b => set_mem (store32 (m_mem s) (m_reg s b) (m_reg s a)) s
  | Loada a d => set_reg d (load32 (m_mem s) a) s
  | Movwi imm d => set_reg d (m_reg s d - u16 (m_reg s d) + imm) s
  | Movws a d => set_seg d (u16 (m_reg s a)) s
  | Movfc n d => set_reg d (m_cr s n) s
  | Movtc a n => set_cr n (m_reg s a) s
  | Addi imm d => set_reg d (u32 (m_reg s d + imm)) s
  | Ori imm d => set_reg d (Z.lor (m_reg s d) imm) s
  | Pushi imm => push imm s
  | Push a => push (m_reg s a) s
  | Pushs a => push (m_seg s a) s
  | Pushal =>
    let e := m_reg s ESP in
    s |> push (m_reg s EAX) |> push (m_reg s ECX) |> push (m_reg s EDX) |> push (m_reg s EBX)
      |> push e |> push (m_reg s EBP) |> push (m_reg s ESI) |> push (m_reg s EDI)
  | Pop d => pop_reg d s
  | Pops d => set_seg d (u16 (top s)) (drop4 s)
  | Popal =>
    s |> pop_reg EDI |> pop_reg ESI |> pop_reg EBP |> drop4
      |> pop_reg EBX |> pop_reg EDX |> pop_reg ECX |> pop_reg EAX
  | Jmp a => set_eip a s
  | Jmpr a => set_eip (m_reg s a) s
  | Call a next => set_eip a (push next s)
  | Calla a next => set_eip (load32 (m_mem s) a) (push next s)
  | Ret => set_eip (top s) (drop4 s)
  | Iret =>
    let ring := Z.land (m_seg s CS) 3 in
    let s := set_eip (top s) (drop4 s) in
    let s := set_seg CS (u16 (top s)) (drop4 s) in
    let s := set_eflags (top s) (drop4 s) in
    if Z.land (m_seg s CS) 3 =? ring then s else
    let e := top s in
    let s := drop4 s in
    set_reg ESP e (set_seg SS (u16 (top s)) s)
  end.

(** Instructions in sequence. *)
Definition exec (l : list instr) (s : machine) : machine := foldl (fun s i => step i s) s l.

(** ** The routines *)

(** [swtch.S] *)
Definition swtch : list instr :=
  [Load 4 ESP EAX; Load 8 ESP EDX;
   Push EBP; Push EBX; Push ESI; Push EDI;
   Store ESP EAX; Mov EDX ESP;
   Pop EDI; Pop ESI; Pop EBX; Pop EBP; Ret].

(** The stub of vector [i], which [vectors.pl] prints: the processor pushes an
    error code for some vectors, for the others the stub pushes 0. *)
Definition has_err (i : Z) : bool := (i =? 8) || ((10 <=? i) && (i <=? 14)) || (i =? 17).
Definition vector (alltraps i : Z) : list instr :=
  (if negb (has_err i) then [Pushi 0] else []) ++ [Pushi i; Jmp alltraps].

(** [alltraps] up to the call; [next] is the address after it. *)
Definition alltraps (trap next : Z) : list instr :=
  [Pushs DS; Pushs ES; Pushs FS; Pushs GS; Pushal;
   Movwi (Z.shiftl SEG_KDATA 3) EAX; Movws EAX DS; Movws EAX ES;
   Push ESP; Call trap next].
(** After the call, and from there on [trapret]. *)
Definition trapret : list instr :=
  [Popal; Pops GS; Pops FS; Pops ES; Pops DS; Addi 8 ESP; Iret].
Definition alltraps_return : list instr := Addi 4 ESP :: trapret.

(** What the processor does on an interrupt or trap through gate [g], with the
    task's kernel stack [ts], when it has an error code [err]. *)
Definition interrupt (g : gatedesc) (ts : taskstate) (err : option Z) (s : machine) : machine :=
  let '(e, ss, cs, fl) := (m_reg s ESP, m_seg s SS, m_seg s CS, m_eflags s) in
  let s := if Z.land cs 3 =? 0 then s
           else set_seg SS (ts_ss0 ts) (set_reg ESP (ts_esp0 ts) s) |> push ss |> push e in
  let s := s |> push fl |> push cs |> push (m_eip s) in
  let s := match err with Some v => push v s | None => s end in
  s |> set_seg CS (g_cs g) |> set_eip (gate_entry g)
    |> set_eflags (if g_type g =? 0xE then Z.ldiff fl FL_IF else fl).

(** The stubs of [usys.S] around the trap. *)
Definition usys_enter (num : Z) : list instr := [Movi num EAX].
Definition usys_leave : list instr := [Ret].

(** [initcode.S] up to its first trap. *)
Definition SYS_exec : Z := 7.
Definition initcode (init argv : Z) : list instr :=
  [Pushi argv; Pushi init; Pushi 0; Movi SYS_exec EAX].

(** [entry.S] and the 32-bit part of [entryother.S]. *)
Definition CR0_PE : Z := 0x00000001.
Definition CR0_WP : Z := 0x00010000.
Definition CR0_PG : Z := 0x80000000.
Definition CR4_PSE : Z := 0x00000010.
Definition entry (entrypgdir stack main : Z) : list instr :=
  [Movfc 4 EAX; Ori CR4_PSE EAX; Movtc EAX 4;
   Movi (V2P entrypgdir) EAX; Movtc EAX 3;
   Movfc 0 EAX; Ori (Z.lor CR0_PG CR0_WP) EAX; Movtc EAX 0;
   Movi (stack + KSTACKSIZE) ESP; Movi main EAX; Jmpr EAX].
Definition entryother (start next : Z) : list instr :=
  [Movwi (Z.shiftl SEG_KDATA 3) EAX; Movws EAX DS; Movws EAX ES; Movws EAX SS;
   Movwi 0 EAX; Movws EAX FS; Movws EAX GS;
   Movfc 4 EAX; Ori CR4_PSE EAX; Movtc EAX 4;
   Loada (start - 12) EAX; Movtc EAX 3;
   Movfc 0 EAX; Ori (Z.lor (Z.lor CR0_PE CR0_PG) CR0_WP) EAX; Movtc EAX 0;
   Loada (start - 4) ESP; Calla (start - 8) next].

(** ** Structures on the stack *)

(** [struct context] of [proc.h] and [struct trapframe] of [x86.h] at [a]; a
    [ushort] is followed by two bytes of padding. *)
Definition context_at (m : mem) (a : Z) : context :=
  let w i := load32 m (a + 4 * i) in mk_context (w 0) (w 1) (w 2) (w 3) (w 4).
Definition trapframe_at (m : mem) (a : Z) : trapframe :=
  let w i := load32 m (a + 4 * i) in
  let h i := u16 (load32 m (a + 4 * i)) in
  mk_trapframe (w 0) (w 1) (w 2) (w 3) (w 4) (w 5) (w 6) (w 7) (h 8) (h 9) (h 10) (h 11)
    (w 12) (w 13) (w 14) (h 15) (w 16) (w 17) (h 18).

(** The words [l] lie at [a], lowest address first. *)
Definition words_at (m : mem) (a : Z) (l : list Z) : Prop :=
  forall i v, l !! i = Some v -> load32 m (a + 4 * Z.of_nat i) = v.

Lemma words_push m a l v :
  words_at m a l -> 0 <= v < W32 -> words_at (store32 m (a - 4) v) (a - 4) (v :: l).
Proof.
  intros H Hv [|i] w Hw.
  - injection Hw as <-. rewrite Z.mul_0_r, Z.add_0_r. by apply load32_store32_eq.
  - rewrite load32_store32_ne by lia. replace (a - 4 + 4 * Z.of_nat (S i)) with (a + 4 * Z.of_nat i) by lia. by apply H.
Qed.

(** ** Pushing *)

Definition push_all (vs : list Z) (s : machine) : machine := foldl (fun s v => push v s) s vs.

(** [s'] is [s] after [vs] have been pushed. *)
Record pushed (vs : list Z) (s s' : machine) : Prop := {
  pu_esp : m_reg s' ESP = m_reg s ESP - 4 * Z.of_nat (length vs);
  pu_reg : forall r, r <> ESP -> m_reg s' r = m_reg s r;
  pu_seg : m_seg s' = m_seg s;
  pu_words : words_at (m_mem s') (m_reg s' ESP) (rev vs);
  pu_mem : forall x, x < m_reg s' ESP \/ m_reg s ESP <= x -> m_mem s' x = m_mem s x;
}.

Lemma words_ext m m' a l :
  (forall x, a <= x < a + 4 * Z.of_nat (length l) -> m' x = m x) -> words_at m a l -> words_at m' a l.
Proof.
  intros Hx H i v Hi. rewrite <- (H i v Hi). pose proof (lookup_lt_Some _ _ _ Hi). apply load32_ext. intros b Hb. apply Hx. lia.
Qed.
Lemma words_app m a l l' : words_at m a l -> words_at m (a + 4 * Z.of_nat (length l)) l' -> words_at m a (l ++ l').
Proof.
  intros H H' i v Hi. apply lookup_app_Some in Hi as [Hi|[Hle Hi]]; [by apply H|].
  rewrite <- (H' _ _ Hi). f_equal. lia.
Qed.

Lemma push_pushed v s : 4 <= m_reg s ESP < W32 -> 0 <= v < W32 -> pushed [v] s (push v s).
Proof.
  intros He Hv. assert (u32 (m_reg s ESP - 4) = m_reg s ESP - 4) as Hu by (apply u32_small; lia).
  unfold push. rewrite Hu. split; cbn [m_reg m_seg m_mem set_mem set_reg length rev app].
  - rewrite fn_upd_eq. lia.
  - intros r Hr. by rewrite fn_upd_ne.
  - done.
  - rewrite fn_upd_eq. by apply words_push; [|done]; intros i w Hi.
  - rewrite fn_upd_eq. intros x Hx. rewrite store32_byte, decide_False; [done|lia].
Qed.

Lemma pushed_trans vs vs' s s' s'' : pushed vs s s' -> pushed vs' s' s'' -> pushed (vs ++ vs') s s''.
Proof.
  intros [E1 R1 S1 W1 M1] [E2 R2 S2 W2 M2]. split.
  - rewrite E2, E1, length_app. lia.
  - intros r Hr. by rewrite R2, R1.
  - congruence.
  - rewrite rev_app_distr. apply words_app; [done|]. rewrite length_rev.
    replace (m_reg s'' ESP + 4 * Z.of_nat (length vs')) with (m_reg s' ESP) by lia.
    apply (words_ext (m_mem s')); [|done]. intros x Hx. apply M2. lia.
  - intros x Hx. rewrite M2, M1; [done|lia|lia].
Qed.

Lemma push_all_pushed vs : forall s, 4 * Z.of_nat (length vs) <= m_reg s ESP < W32 -> Forall (fun v => 0 <= v < W32) vs ->
  pushed vs s (push_all vs s).
Proof.
  induction vs as [|v vs IH]; intros s He Hv.
  { split; try done. cbn. lia. }
  apply Forall_cons in Hv as [Hv Hvs]. cbn [length] in He.
  pose proof (push_pushed v s ltac:(lia) Hv) as H1.
  apply (pushed_trans [v] vs s (push v s)); [done|]. apply IH; [|done]. rewrite (pu_esp _ _ _ H1). cbn [length]. lia.
Qed.

Lemma exec_cons i l s : exec (i :: l) s = exec l (step i s).
Proof. done. Qed.
Lemma exec_app l l' s : exec (l ++ l') s = exec l' (exec l s).
Proof. apply foldl_app. Qed.

(** Instructions that push values the pushing does not change. *)
Inductive pushes (s : machine) : list instr -> list Z -> Prop :=
| pushes_nil : pushes s [] []
| pushes_imm i l vs : pushes s l vs -> pushes s (Pushi i :: l) (i :: vs)
| pushes_reg r l vs : r <> ESP -> pushes s l vs -> pushes s (Push r :: l) (m_reg s r :: vs)
| pushes_seg g l vs : pushes s l vs -> pushes s (Pushs g :: l) (m_seg s g :: vs).

Lemma pushes_pushed s s' v l vs : pushed v s s' -> pushes s l vs -> pushes s' l vs.
Proof.
  intros Hp. induction 1 as [|i l vs _ IH|r l vs Hr _ IH|g l vs _ IH].
  - constructor.
  - by constructor.
  - rewrite <- (pu_reg _ _ _ Hp r Hr). by constructor.
  - rewrite <- (pu_seg _ _ _ Hp). by constructor.
Qed.

Lemma exec_pushes l : forall s vs, pushes s l vs -> 4 * Z.of_nat (length vs) <= m_reg s ESP < W32 ->
  Forall (fun v => 0 <= v < W32) vs -> pushed vs s (exec l s).
Proof.
  induction l as [|i l IH]; intros s0 vs Hp He Hv; inversion Hp as [|i' l' vs' Hp' E1 E2|r l' vs' Hr Hp' E1 E2|g l' vs' Hp' E1 E2]; subst.
  { split; try done. cbn. lia. }
  all: apply Forall_cons in Hv as [Hv Hvs]; cbn [length] in He;
    match goal with |- pushed (?v :: ?vs) ?s _ => pose proof (push_pushed v s ltac:(lia) Hv) as H1;
      apply (pushed_trans [v] vs s (push v s) _ H1); apply IH;
      [by apply (pushes_pushed s _ [v])|rewrite (pu_esp _ _ _ H1); cbn [length]; lia|done] end.
Qed.

(** ** Context switches *)

(** The registers and addresses of a machine are 32-bit values, its selectors
    16-bit ones. *)
Record machine_ok (s : machine) : Prop := {
  ok_reg : forall r, 0 <= m_reg s r < W32;
  ok_seg : forall g, 0 <= m_seg s g < 2 ^ 16;
  ok_eip : 0 <= m_eip s < W32;
  ok_eflags : 0 <= m_eflags s < W32;
}.

Lemma u32_add x k : u32 (u32 x + k) = u32 (x + k).
Proof. unfold u32. by rewrite Zplus_mod_idemp_l. Qed.
(** Repeated steps of a pointer as one. *)
Ltac flat32 := repeat (rewrite u32_add || rewrite <- Z.add_assoc).

(** The state in which [swtch(old, new)] is called: the return address and the
    arguments lie on the caller's stack, the context to switch to on another
    one, and the pointer to fill in in neither. *)
Record swtch_ready (s : machine) (ra old new : Z) : Prop := {
  sw_ok : machine_ok s;
  sw_args : words_at (m_mem s) (m_reg s ESP) [ra; old; new];
  sw_esp : 16 <= m_reg s ESP /\ m_reg s ESP + 12 < W32;
  sw_old : 0 <= old < W32 /\ (old + 4 <= m_reg s ESP - 16 \/ m_reg s ESP + 4 <= old) /\ (old + 4 <= new \/ new + 20 <= old);
  sw_new : 0 <= new /\ new + 20 < W32 /\ (new + 20 <= m_reg s ESP - 16 \/ m_reg s ESP <= new);
}.

(** Saving: the state before the stacks are switched. *)
Lemma swtch_save s ra old new : swtch_ready s ra old new ->
  exists s', pushed [m_reg s EBP; m_reg s EBX; m_reg s ESI; m_reg s EDI] (set_reg EDX new (set_reg EAX old s)) s' /\
    exec swtch s = exec [Store ESP EAX; Mov EDX ESP; Pop EDI; Pop ESI; Pop EBX; Pop EBP; Ret] s' .
Proof.
  intros [Hok Ha He Ho Hn]. set (s1 := set_reg EDX new (set_reg EAX old s)).
  exists (exec [Push EBP; Push EBX; Push ESI; Push EDI] s1). split.
  - apply exec_pushes; [|change (m_reg s1 ESP) with (m_reg s ESP); cbn [length]; lia|].
    2: by repeat (apply Forall_cons; split; [apply Hok|]).
    apply (pushes_reg s1 EBP); [done|]. apply (pushes_reg s1 EBX); [done|]. apply (pushes_reg s1 ESI); [done|].
    apply (pushes_reg s1 EDI); [done|constructor].
  - assert (exec [Load 4 ESP EAX; Load 8 ESP EDX] s = s1) as E.
    { change (exec [Load 4 ESP EAX; Load 8 ESP EDX] s) with
        (set_reg EDX (load32 (m_mem s) (u32 (m_reg s ESP + 8))) (set_reg EAX (load32 (m_mem s) (u32 (m_reg s ESP + 4))) s)).
      rewrite !u32_small by lia. rewrite (Ha 1%nat old eq_refl : load32 (m_mem s) (m_reg s ESP + 4) = old).
      by rewrite (Ha 2%nat new eq_refl : load32 (m_mem s) (m_reg s ESP + 8) = new). }
    rewrite <- E, <- !exec_app. reflexivity.
Qed.

(** Loading: the registers come from the context at the stack pointer. *)
Lemma swtch_load s a : m_reg s ESP = a -> 0 <= a -> a + 20 < W32 ->
  let s' := exec [Pop EDI; Pop ESI; Pop EBX; Pop EBP; Ret] s in
  mk_context (m_reg s' EDI) (m_reg s' ESI) (m_reg s' EBX) (m_reg s' EBP) (m_eip s') = context_at (m_mem s) a /\
  m_reg s' ESP = a + 20 /\ m_mem s' = m_mem s.
Proof.
  intros <- Ha Hw s'. split; [|split; [|done]].
  - transitivity (let w k := load32 (m_mem s) (m_reg s ESP + k) in mk_context (w 0) (w 4) (w 8) (w 12) (w 16)); [|done].
    change (mk_context (load32 (m_mem s) (m_reg s ESP)) (load32 (m_mem s) (u32 (m_reg s ESP + 4)))
      (load32 (m_mem s) (u32 (u32 (m_reg s ESP + 4) + 4))) (load32 (m_mem s) (u32 (u32 (u32 (m_reg s ESP + 4) + 4) + 4)))
      (load32 (m_mem s) (u32 (u32 (u32 (u32 (m_reg s ESP + 4) + 4) + 4) + 4))) =
      let w k := load32 (m_mem s) (m_reg s ESP + k) in mk_context (w 0) (w 4) (w 8) (w 12) (w 16)).
    flat32. cbv zeta. rewrite !u32_small by lia. by rewrite Z.add_0_r.
  - change (u32 (u32 (u32 (u32 (u32 (m_reg s ESP + 4) + 4) + 4) + 4) + 4) = m_reg s ESP + 20).
    flat32. by rewrite u32_small by lia.
Qed.

Lemma context_ext m m' a : (forall x, a <= x < a + 20 -> m' x = m x) -> context_at m' a = context_at m a.
Proof. intros H. unfold context_at. f_equal; apply load32_ext; intros b Hb; apply H; lia. Qed.

(** What [swtch] does: the caller's context is saved on its stack with its
    address in [*old], the registers, the stack pointer and the program counter
    come from [new]. *)
Record switched_over (s s' : machine) (ra old new : Z) : Prop := {
  so_saved : context_at (m_mem s') (m_reg s ESP - 16) = mk_context (m_reg s EDI) (m_reg s ESI) (m_reg s EBX) (m_reg s EBP) ra;
  so_old : load32 (m_mem s') old = m_reg s ESP - 16;
  so_regs : mk_context (m_reg s' EDI) (m_reg s' ESI) (m_reg s' EBX) (m_reg s' EBP) (m_eip s') = context_at (m_mem s) new;
  so_esp : m_reg s' ESP = new + 20;
  so_mem : forall x, ~ m_reg s ESP - 16 <= x < m_reg s ESP -> ~ old <= x < old + 4 -> m_mem s' x = m_mem s x;
}.

Lemma swtch_switches s ra old new : swtch_ready s ra old new -> switched_over s (exec swtch s) ra old new.
Proof.
  intros Hr. destruct (swtch_save s ra old new Hr) as (s1 & [E1 R1 _ W1 M1] & ->). pose proof Hr as [Hok Ha He Ho Hn].
  change (m_reg (set_reg EDX new (set_reg EAX old s)) ESP) with (m_reg s ESP) in *.
  change (m_mem (set_reg EDX new (set_reg EAX old s))) with (m_mem s) in *. cbn [length] in E1.
  assert (m_reg s1 ESP = m_reg s ESP - 16) as Es by lia. rewrite Es in *.
  pose proof (R1 EAX ltac:(done)) as EA. change (m_reg s1 EAX = old) in EA. pose proof (R1 EDX ltac:(done)) as ED. change (m_reg s1 EDX = new) in ED.
  set (m2 := store32 (m_mem s1) old (m_reg s ESP - 16)). set (s2 := set_reg ESP new (set_mem m2 s1)).
  assert (exec [Store ESP EAX; Mov EDX ESP; Pop EDI; Pop ESI; Pop EBX; Pop EBP; Ret] s1 = exec [Pop EDI; Pop ESI; Pop EBX; Pop EBP; Ret] s2) as ->.
  { transitivity (exec [Pop EDI; Pop ESI; Pop EBX; Pop EBP; Ret] (set_reg ESP (m_reg s1 EDX) (set_mem (store32 (m_mem s1) (m_reg s1 EAX) (m_reg s1 ESP)) s1)));
      [done|]. by rewrite ED, EA, Es. }
  destruct (swtch_load s2 new) as (L1 & L2 & L3); [done|lia|lia|]. change (m_mem s2) with m2 in *.
  assert (forall x, ~ old <= x < old + 4 -> m2 x = m_mem s1 x) as M2 by (intros x Hx; unfold m2; by rewrite store32_byte, decide_False).
  split.
  - rewrite L3, (context_ext (m_mem s1)) by (intros x Hx; apply M2; lia). unfold context_at.
    pose proof (Ha 0%nat ra eq_refl) as Era.
    f_equal; [apply (W1 0%nat); done|apply (W1 1%nat); done|apply (W1 2%nat); done|apply (W1 3%nat); done|].
    rewrite <- Era. replace (m_reg s ESP - 16 + 4 * 4) with (m_reg s ESP + 4 * Z.of_nat 0) by lia.
    apply load32_ext. intros x Hx. apply M1. lia.
  - rewrite L3. apply load32_store32_eq. lia.
  - rewrite L1. apply context_ext. intros x Hx. rewrite M2, M1; [done|lia|lia].
  - exact L2.
  - intros x H1 H2. rewrite L3, M2, M1; [done|lia|done].
Qed.

(** C32: A thread that calls [swtch] comes back as if nothing had happened.  The
    call leaves the thread's context on its stack with its address in [*old];
    when any later [swtch] on any stack is given that address and the words of
    the context and of the pointer's target have not changed, the thread
    continues after its call with the registers it must find preserved, its
    stack pointer and its program counter. *)
Theorem swtch_round_trip s ra old new s2 ra2 old2 :
  swtch_ready s ra old new ->
  let saved := m_reg s ESP - 16 in
  let s1 := exec swtch s in
  swtch_ready s2 ra2 old2 saved -> (forall x, saved <= x < saved + 20 -> m_mem s2 x = m_mem s1 x) ->
  let s3 := exec swtch s2 in
  load32 (m_mem s1) old = saved /\
  (forall r, r ∈ [EBX; EBP; ESI; EDI] -> m_reg s3 r = m_reg s r) /\
  m_reg s3 ESP = m_reg s ESP + 4 /\ m_eip s3 = ra.
Proof.
  intros Hr saved s1 Hr2 Hm s3. destruct (swtch_switches _ _ _ _ Hr) as [S1 S2 _ _ _].
  destruct (swtch_switches _ _ _ _ Hr2) as [_ _ T3 T4 _]. fold s1 saved in S1, S2. fold s3 in T3, T4.
  clearbody s1 s3.
  rewrite (context_ext (m_mem s1) _ _ Hm), S1 in T3. injection T3 as T_edi T_esi T_ebx T_ebp T_eip.
  split; [exact S2|]. split; [|split; [rewrite T4; unfold saved; lia|exact T_eip]].
  intros r Hin. repeat (apply elem_of_cons in Hin as [->|Hin]; [assumption|]). by apply elem_of_nil in Hin.
Qed.

(** ** Entering and leaving the kernel *)

(** The exceptions for which the processor pushes an error code, from its
    manual: double fault, invalid TSS, segment not present, stack fault, general
    protection, page fault and alignment check. *)
Definition error_vectors : list Z := [8; 10; 11; 12; 13; 14; 17].

Lemma has_err_hardware n : has_err n = bool_decide (n ∈ error_vectors).
Proof.
  apply eq_bool_prop_intro. rewrite bool_decide_spec. unfold has_err, error_vectors.
  rewrite Is_true_true, !elem_of_cons, elem_of_nil, !orb_true_iff, andb_true_iff, !Z.leb_le, !Z.eqb_eq. lia.
Qed.

(** What the processor pushes for vector [n], and the error code the frame
    gets. *)
Definition err_pushed (n : Z) (code : Z) : option Z := if bool_decide (n ∈ error_vectors) then Some code else None.
Definition err_code (n : Z) (code : Z) : Z := default 0 (err_pushed n code).

(** The state in which user code is interrupted; the kernel's stack has room
    for the frame. *)
Record user_mode (s : machine) (ts : taskstate) : Prop := {
  us_ok : machine_ok s;
  us_ring : Z.land (m_seg s CS) 3 = DPL_USER;
  us_stack : 84 <= ts_esp0 ts < W32;
}.

(** The frame of an interrupt of [s]. *)
Definition frame_of (s : machine) (ts : taskstate) (n code : Z) : trapframe :=
  mk_trapframe (m_reg s EDI) (m_reg s ESI) (m_reg s EBP) (ts_esp0 ts - 44) (m_reg s EBX) (m_reg s EDX) (m_reg s ECX) (m_reg s EAX)
    (m_seg s GS) (m_seg s FS) (m_seg s ES) (m_seg s DS) n (err_code n code)
    (m_eip s) (m_seg s CS) (m_eflags s) (m_reg s ESP) (m_seg s SS).

(** The registers the processor loads, before it pushes the old ones. *)
Definition entered (g : gatedesc) (ts : taskstate) (s : machine) : machine :=
  set_reg ESP (ts_esp0 ts) s |> set_seg SS (ts_ss0 ts) |> set_seg CS (g_cs g) |> set_eip (gate_entry g)
    |> set_eflags (if g_type g =? 0xE then Z.ldiff (m_eflags s) FL_IF else m_eflags s).

Lemma set_seg_push v g x s : set_seg g x (push v s) = push v (set_seg g x s).
Proof. done. Qed.
Lemma set_eip_push v x s : set_eip x (push v s) = push v (set_eip x s).
Proof. done. Qed.
Lemma set_eflags_push v x s : set_eflags x (push v s) = push v (set_eflags x s).
Proof. done. Qed.

(** What the processor and the stub push. *)
Lemma enter_hardware g ts n code at_ s : user_mode s ts ->
  exec (vector at_ n) (interrupt g ts (err_pushed n code) s) =
  push_all [m_seg s SS; m_reg s ESP; m_eflags s; m_seg s CS; m_eip s; err_code n code; n] (set_eip at_ (entered g ts s)).
Proof.
  intros [_ Hr _]. unfold interrupt. rewrite Hr. change (DPL_USER =? 0) with false. cbv iota.
  unfold vector, err_code, err_pushed, entered. rewrite has_err_hardware. destruct (bool_decide (n ∈ error_vectors)); cbn [negb app exec foldl step push_all];
    rewrite ?set_seg_push, ?set_eip_push, ?set_eflags_push, ?set_eip_push; reflexivity.
Qed.

Lemma movw_low v imm : 0 <= imm < 65536 -> u16 (v - u16 v + imm) = imm.
Proof.
  intros Hi. unfold u16. replace (v - v mod 65536 + imm) with (imm + v / 65536 * 65536) by (pose proof (Z_div_mod_eq_full v 65536); lia).
  rewrite Z_mod_plus_full. by apply Z.mod_small.
Qed.

(** The words of the frame, lowest address first. *)
Definition frame_words (s : machine) (ts : taskstate) (n code : Z) : list Z :=
  [m_reg s EDI; m_reg s ESI; m_reg s EBP; ts_esp0 ts - 44; m_reg s EBX; m_reg s EDX; m_reg s ECX; m_reg s EAX;
   m_seg s GS; m_seg s FS; m_seg s ES; m_seg s DS; n; err_code n code; m_eip s; m_seg s CS; m_eflags s; m_reg s ESP; m_seg s SS].

Lemma err_code_range n code : 0 <= code < W32 -> 0 <= err_code n code < W32.
Proof. intros H. unfold err_code, err_pushed. destruct (bool_decide _); cbn; [done|unfold W32; lia]. Qed.

(** Up to the last of them. *)
Lemma enter_pushes g ts n code at_ s : user_mode s ts -> 0 <= n < 256 -> 0 <= code < W32 ->
  exists s', exec [Pushs DS; Pushs ES; Pushs FS; Pushs GS; Pushal] (exec (vector at_ n) (interrupt g ts (err_pushed n code) s)) = s' /\
    pushed (rev (frame_words s ts n code)) (set_eip at_ (entered g ts s)) s'.
Proof.
  intros Hu Hn Hc. rewrite (enter_hardware _ _ _ _ _ _ Hu). destruct Hu as [[Or Os Oi Of] _ Hst].
  assert (forall sg, 0 <= m_seg s sg < W32) as Os' by (intros sg; specialize (Os sg); unfold W32; lia).
  set (s0 := set_eip at_ (entered g ts s)). assert (m_reg s0 ESP = ts_esp0 ts) as E0 by done.
  set (vs := [_; _; _; _; _; _; _]). assert (pushed vs s0 (push_all vs s0)) as H7.
  { apply push_all_pushed; [rewrite E0; cbn [length vs]; lia|].
    repeat (apply Forall_cons; split; [first [apply Or|apply Os'|apply Oi|apply Of|by apply err_code_range|unfold W32; lia]|]). done. }
  set (s7 := push_all vs s0) in *. clearbody s7.
  assert (pushed [m_seg s DS; m_seg s ES; m_seg s FS; m_seg s GS] s7 (exec [Pushs DS; Pushs ES; Pushs FS; Pushs GS] s7)) as H11.
  { apply exec_pushes.
    - assert (forall sg, sg <> CS -> sg <> SS -> m_seg s sg = m_seg s7 sg) as Es by (intros sg ? ?; rewrite (pu_seg _ _ _ H7); by destruct sg).
      rewrite !Es by done. repeat constructor.
    - rewrite (pu_esp _ _ _ H7), E0. cbn [length vs]. lia.
    - repeat (apply Forall_cons; split; [apply Os'|]). done. }
  change (exec [Pushs DS; Pushs ES; Pushs FS; Pushs GS; Pushal] s7) with (step Pushal (exec [Pushs DS; Pushs ES; Pushs FS; Pushs GS] s7)).
  pose proof (pushed_trans _ _ _ _ _ H7 H11) as H11'. set (s11 := exec _ s7) in *. clearbody s11.
  assert (m_reg s11 ESP = ts_esp0 ts - 44) as E11 by (rewrite (pu_esp _ _ _ H11'), E0; cbn [length app vs]; lia).
  assert (forall r, r <> ESP -> m_reg s11 r = m_reg s r) as R11 by (intros r Hr; rewrite (pu_reg _ _ _ H11') by done; by destruct r).
  exists (push_all [m_reg s11 EAX; m_reg s11 ECX; m_reg s11 EDX; m_reg s11 EBX; m_reg s11 ESP; m_reg s11 EBP; m_reg s11 ESI; m_reg s11 EDI] s11).
  split; [reflexivity|]. rewrite E11, !R11 by done.
  apply (pushed_trans (vs ++ [m_seg s DS; m_seg s ES; m_seg s FS; m_seg s GS]) [m_reg s EAX; m_reg s ECX; m_reg s EDX; m_reg s EBX; ts_esp0 ts - 44; m_reg s EBP; m_reg s ESI; m_reg s EDI] _ _ _ H11').
  apply push_all_pushed; [rewrite E11; cbn [length]; lia|].
  repeat (apply Forall_cons; split; [first [apply Or|lia]|]). done.
Qed.

Lemma u16_small v : 0 <= v < 2 ^ 16 -> u16 v = v.
Proof. intros H. unfold u16. by apply Z.mod_small. Qed.

Lemma frame_at m a s ts n code : machine_ok s ->
  words_at m a (frame_words s ts n code) -> trapframe_at m a = frame_of s ts n code.
Proof.
  intros [Or Os _ _] H. unfold trapframe_at, frame_of.
  assert (forall (i : nat) v, frame_words s ts n code !! i = Some v -> load32 m (a + 4 * Z.of_nat i) = v) as E by exact H.
  rewrite (E 0%nat _ eq_refl : load32 m (a + 4 * 0) = _), (E 1%nat _ eq_refl : load32 m (a + 4 * 1) = _),
    (E 2%nat _ eq_refl : load32 m (a + 4 * 2) = _), (E 3%nat _ eq_refl : load32 m (a + 4 * 3) = _),
    (E 4%nat _ eq_refl : load32 m (a + 4 * 4) = _), (E 5%nat _ eq_refl : load32 m (a + 4 * 5) = _),
    (E 6%nat _ eq_refl : load32 m (a + 4 * 6) = _), (E 7%nat _ eq_refl : load32 m (a + 4 * 7) = _),
    (E 8%nat _ eq_refl : load32 m (a + 4 * 8) = _), (E 9%nat _ eq_refl : load32 m (a + 4 * 9) = _),
    (E 10%nat _ eq_refl : load32 m (a + 4 * 10) = _), (E 11%nat _ eq_refl : load32 m (a + 4 * 11) = _),
    (E 12%nat _ eq_refl : load32 m (a + 4 * 12) = _), (E 13%nat _ eq_refl : load32 m (a + 4 * 13) = _),
    (E 14%nat _ eq_refl : load32 m (a + 4 * 14) = _), (E 15%nat _ eq_refl : load32 m (a + 4 * 15) = _),
    (E 16%nat _ eq_refl : load32 m (a + 4 * 16) = _), (E 17%nat _ eq_refl : load32 m (a + 4 * 17) = _),
    (E 18%nat _ eq_refl : load32 m (a + 4 * 18) = _).
  by rewrite !u16_small by apply Os.
Qed.

(** The call of [trap] with the address of the frame: everything is saved in
    it, and the data segments are the kernel's. *)
Lemma enter_frame g ts n code at_ trap next s : user_mode s ts -> 0 <= n < 256 -> 0 <= code < W32 -> 0 <= next < W32 ->
  let s' := exec (alltraps trap next) (exec (vector at_ n) (interrupt g ts (err_pushed n code) s)) in
  let a := ts_esp0 ts - 76 in
  trapframe_at (m_mem s') a = frame_of s ts n code /\
  words_at (m_mem s') (a - 8) [next; a] /\ m_reg s' ESP = a - 8 /\ m_eip s' = trap /\
  m_seg s' CS = g_cs g /\ m_seg s' DS = Z.shiftl SEG_KDATA 3 /\ m_seg s' ES = Z.shiftl SEG_KDATA 3.
Proof.
  intros Hu Hn Hc Hx s' a. destruct (enter_pushes g ts n code at_ s Hu Hn Hc) as (s1 & E1 & H1). pose proof Hu as [Hok _ Hst].
  set (s0 := set_eip at_ (entered g ts s)) in H1. assert (m_reg s0 ESP = ts_esp0 ts) as E0 by done.
  pose proof (pu_esp _ _ _ H1) as Ee. rewrite E0, length_rev in Ee. change (Z.of_nat (length (frame_words s ts n code))) with 19 in Ee.
  assert (m_reg s1 ESP = a) as Ea by (unfold a; lia). clear Ee.
  set (w := m_reg s1 EAX - u16 (m_reg s1 EAX) + Z.shiftl SEG_KDATA 3).
  set (s2 := set_seg ES (u16 w) (set_seg DS (u16 w) (set_reg EAX w s1))).
  assert (s' = set_eip trap (push_all [a; next] s2)) as Es.
  { unfold s'. rewrite <- Ea.
    transitivity (exec [Movwi (Z.shiftl SEG_KDATA 3) EAX; Movws EAX DS; Movws EAX ES; Push ESP; Call trap next]
      (exec [Pushs DS; Pushs ES; Pushs FS; Pushs GS; Pushal] (exec (vector at_ n) (interrupt g ts (err_pushed n code) s)))); [done|].
    rewrite E1. done. }
  assert (pushed [a; next] s2 (push_all [a; next] s2)) as H2.
  { apply push_all_pushed; [change (m_reg s2 ESP) with (m_reg s1 ESP); rewrite Ea; unfold a; cbn [length]; lia|].
    apply Forall_cons. split; [unfold a; lia|]. by apply Forall_singleton. }
  set (s3 := push_all [a; next] s2) in *. rewrite Es. clear s' Es.
  change (m_mem (set_eip trap s3)) with (m_mem s3). change (m_reg (set_eip trap s3)) with (m_reg s3).
  change (m_seg (set_eip trap s3)) with (m_seg s3). change (m_eip (set_eip trap s3)) with trap.
  clearbody s3. destruct H2 as [P1 P2 P3 P4 P5]. change (m_reg s2 ESP) with (m_reg s1 ESP) in *. rewrite Ea in *.
  cbn [length rev app] in *. assert (m_reg s3 ESP = a - 8) as E3 by lia. rewrite E3 in *.
  assert (u16 w = Z.shiftl SEG_KDATA 3) as Ew by (by apply movw_low).
  split; [|split; [exact P4|]; split; [done|]; split; [done|]].
  - apply (frame_at _ _ _ _ _ _ Hok). pose proof (pu_words _ _ _ H1) as HW. rewrite rev_involutive, Ea in HW.
    apply (words_ext (m_mem s1)); [|exact HW]. intros x Hx'. change (m_mem s1) with (m_mem s2). apply P5. lia.
  - rewrite P3. unfold s2. cbn [m_seg set_seg]. rewrite (fn_upd_ne ES), (fn_upd_ne DS) by done. cbn [m_seg set_reg].
    rewrite (pu_seg _ _ _ H1). split; [done|]. rewrite (fn_upd_ne ES DS), !fn_upd_eq by done. done.
Qed.

(** [iret] to user mode: the stack is switched too. *)
Lemma iret_user s b : m_reg s ESP = b -> 0 <= b -> b + 20 <= W32 ->
  Z.land (m_seg s CS) 3 = 0 -> Z.land (u16 (load32 (m_mem s) (b + 4))) 3 <> 0 ->
  let s' := step Iret s in
  m_eip s' = load32 (m_mem s) b /\ m_eflags s' = load32 (m_mem s) (b + 8) /\ m_mem s' = m_mem s /\
  (forall r, m_reg s' r = if decide (r = ESP) then load32 (m_mem s) (b + 12) else m_reg s r) /\
  (forall g, m_seg s' g = if decide (g = CS) then u16 (load32 (m_mem s) (b + 4)) else
    if decide (g = SS) then u16 (load32 (m_mem s) (b + 16)) else m_seg s g).
Proof.
  intros <- H0 Hw Hk Hu s'.
  set (f1 := set_eip (top s) (drop4 s)). set (f2 := set_seg CS (u16 (top f1)) (drop4 f1)). set (f3 := set_eflags (top f2) (drop4 f2)).
  assert (top f1 = load32 (m_mem s) (u32 (m_reg s ESP + 4))) as T1 by reflexivity.
  assert (top f2 = load32 (m_mem s) (u32 (u32 (m_reg s ESP + 4) + 4))) as T2 by reflexivity.
  assert (top f3 = load32 (m_mem s) (u32 (u32 (u32 (m_reg s ESP + 4) + 4) + 4))) as T3 by reflexivity.
  assert (top (drop4 f3) = load32 (m_mem s) (u32 (u32 (u32 (u32 (m_reg s ESP + 4) + 4) + 4) + 4))) as T4 by reflexivity.
  revert T1 T2 T3 T4. flat32. rewrite !u32_small by lia.
  replace (m_reg s ESP + (4 + 4)) with (m_reg s ESP + 8) by lia. replace (m_reg s ESP + (4 + (4 + 4))) with (m_reg s ESP + 12) by lia.
  replace (m_reg s ESP + (4 + (4 + (4 + 4)))) with (m_reg s ESP + 16) by lia. intros T1 T2 T3 T4.
  assert (s' = set_reg ESP (top f3) (set_seg SS (u16 (top (drop4 f3))) (drop4 f3))) as ->.
  { unfold s', step. fold f1. fold f2. fold f3. change (m_seg f3 CS) with (u16 (top f1)). rewrite T1, Hk.
    by rewrite (proj2 (Z.eqb_neq _ _) Hu). }
  rewrite T3, T4. split; [reflexivity|]. split; [exact T2|]. split; [reflexivity|]. rewrite <- T1. split.
  - intros r. by destruct r.
  - intros g. by destruct g.
Qed.

Section Leave.
Context (s : machine) (a : Z) (Ha : m_reg s ESP = a) (Ha0 : 0 <= a) (Haw : a + 76 <= W32).
#[local] Abbreviation w i := (load32 (m_mem s) (a + 4 * i)).

Lemma popal_ok : let s' := step Popal s in
  (m_reg s' EDI = w 0 /\ m_reg s' ESI = w 1 /\ m_reg s' EBP = w 2 /\ m_reg s' EBX = w 4 /\
   m_reg s' EDX = w 5 /\ m_reg s' ECX = w 6 /\ m_reg s' EAX = w 7) /\ m_reg s' ESP = a + 32 /\
  m_seg s' = m_seg s /\ m_mem s' = m_mem s.
Proof.
  intros s'. rewrite <- Ha in *.
  assert (m_reg s' ESP = u32 (u32 (u32 (u32 (u32 (u32 (u32 (u32 (m_reg s ESP + 4) + 4) + 4) + 4) + 4) + 4) + 4) + 4)) as E by done.
  assert (m_reg s' EAX = load32 (m_mem s) (u32 (u32 (u32 (u32 (u32 (u32 (u32 (m_reg s ESP + 4) + 4) + 4) + 4) + 4) + 4) + 4))) as E7 by done.
  assert (m_reg s' ECX = load32 (m_mem s) (u32 (u32 (u32 (u32 (u32 (u32 (m_reg s ESP + 4) + 4) + 4) + 4) + 4) + 4))) as E6 by done.
  assert (m_reg s' EDX = load32 (m_mem s) (u32 (u32 (u32 (u32 (u32 (m_reg s ESP + 4) + 4) + 4) + 4) + 4))) as E5 by done.
  assert (m_reg s' EBX = load32 (m_mem s) (u32 (u32 (u32 (u32 (m_reg s ESP + 4) + 4) + 4) + 4))) as E4 by done.
  assert (m_reg s' EBP = load32 (m_mem s) (u32 (u32 (m_reg s ESP + 4) + 4))) as E2 by done.
  assert (m_reg s' ESI = load32 (m_mem s) (u32 (m_reg s ESP + 4))) as E1 by done.
  assert (m_reg s' EDI = load32 (m_mem s) (m_reg s ESP)) as E0 by done.
  rewrite E, E0, E1, E2, E4, E5, E6, E7. flat32. rewrite !u32_small by lia.
  split; [|split; [lia|split; reflexivity]]. repeat split; f_equal; lia.
Qed.

(** [trapret] returns to user mode with the registers of the frame. *)
Lemma trapret_user : Z.land (m_seg s CS) 3 = 0 -> Z.land (t_cs (trapframe_at (m_mem s) a)) 3 <> 0 ->
  let tf := trapframe_at (m_mem s) a in
  let s' := exec trapret s in
  (m_reg s' EAX = t_eax tf /\ m_reg s' ECX = t_ecx tf /\ m_reg s' EDX = t_edx tf /\ m_reg s' EBX = t_ebx tf /\
   m_reg s' ESP = t_esp tf /\ m_reg s' EBP = t_ebp tf /\ m_reg s' ESI = t_esi tf /\ m_reg s' EDI = t_edi tf) /\
  (m_seg s' CS = t_cs tf /\ m_seg s' DS = t_ds tf /\ m_seg s' ES = t_es tf /\ m_seg s' FS = t_fs tf /\
   m_seg s' GS = t_gs tf /\ m_seg s' SS = t_ss tf) /\
  m_eip s' = t_eip tf /\ m_eflags s' = t_eflags tf /\ m_mem s' = m_mem s.
Proof.
  intros Hk Hu tf s'. destruct popal_ok as ((R0 & R1 & R2 & R4 & R5 & R6 & R7) & RE & RS & RM).
  assert (s' = step Iret (exec [Pops GS; Pops FS; Pops ES; Pops DS; Addi 8 ESP] (step Popal s))) as -> by (unfold s', trapret, exec; cbn [foldl]; reflexivity).
  set (s1 := step Popal s) in *. clearbody s1. set (s2 := exec [Pops GS; Pops FS; Pops ES; Pops DS; Addi 8 ESP] s1).
  assert (m_reg s2 ESP = u32 (u32 (u32 (u32 (u32 (m_reg s1 ESP + 4) + 4) + 4) + 4) + 8)) as E by done.
  assert (m_seg s2 DS = u16 (load32 (m_mem s1) (u32 (u32 (u32 (m_reg s1 ESP + 4) + 4) + 4)))) as ED by done.
  assert (m_seg s2 ES = u16 (load32 (m_mem s1) (u32 (u32 (m_reg s1 ESP + 4) + 4)))) as EE by done.
  assert (m_seg s2 FS = u16 (load32 (m_mem s1) (u32 (m_reg s1 ESP + 4)))) as EF by done.
  assert (m_seg s2 GS = u16 (load32 (m_mem s1) (m_reg s1 ESP))) as EG by done.
  assert (m_seg s2 CS = m_seg s1 CS) as EC by done. assert (m_mem s2 = m_mem s1) as EM by done.
  assert (forall r, r <> ESP -> m_reg s2 r = m_reg s1 r) as ER by (intros r Hr; by destruct r).
  clearbody s2. rewrite RE, RM, ?RS in *. revert E ED EE EF EG. flat32. rewrite !u32_small by lia. intros E ED EE EF EG.
  replace (a + 32 + (4 + (4 + (4 + (4 + 8))))) with (a + 4 * 14) in E by lia.
  replace (a + 32 + (4 + (4 + 4))) with (a + 4 * 11) in ED by lia. replace (a + 32 + (4 + 4)) with (a + 4 * 10) in EE by lia.
  replace (a + 32 + 4) with (a + 4 * 9) in EF by lia. replace (a + 32) with (a + 4 * 8) in EG by lia.
  destruct (iret_user s2 (a + 4 * 14) E ltac:(lia) ltac:(lia)) as (I1 & I2 & I3 & I4 & I5).
  { by rewrite EC. }
  { rewrite EM. replace (a + 4 * 14 + 4) with (a + 4 * 15) by lia. exact Hu. }
  rewrite EM in I1, I2, I3, I4, I5. replace (a + 4 * 14 + 4) with (a + 4 * 15) in I5 by lia. replace (a + 4 * 14 + 8) with (a + 4 * 16) in I2 by lia.
  replace (a + 4 * 14 + 12) with (a + 4 * 17) in I4 by lia. replace (a + 4 * 14 + 16) with (a + 4 * 18) in I5 by lia.
  set (s3 := step Iret s2) in *. clearbody s3.
  split; [|split; [|split; [exact I1|split; [exact I2|exact I3]]]].
  - assert (forall r, r <> ESP -> m_reg s3 r = m_reg s1 r) as R3 by (intros r Hr; rewrite I4, decide_False by done; by apply ER).
    rewrite (I4 ESP : m_reg s3 ESP = _), !R3 by done. rewrite R0, R1, R2, R4, R5, R6, R7. unfold tf, trapframe_at. repeat split.
  - rewrite !I5. rewrite ED, EE, EF, EG. unfold tf, trapframe_at. repeat split.
Qed.
End Leave.

(** A trap from user mode and back: the frame [trap] gets holds the state of
    the user, and the user continues with the registers in the frame. *)
Lemma trap_returns g ts n code at_ trap next s s2 :
  user_mode s ts -> 0 <= n < 256 -> 0 <= code < W32 -> 0 <= next < W32 -> Z.land (g_cs g) 3 = 0 ->
  let s1 := exec (alltraps trap next) (exec (vector at_ n) (interrupt g ts (err_pushed n code) s)) in
  let a := ts_esp0 ts - 76 in
  let tf := trapframe_at (m_mem s2) a in
  m_reg s2 ESP = a - 4 -> m_seg s2 CS = m_seg s1 CS -> t_cs tf = m_seg s CS ->
  let s3 := exec alltraps_return s2 in
  trapframe_at (m_mem s1) a = frame_of s ts n code /\ words_at (m_mem s1) (m_reg s1 ESP) [next; a] /\
  (m_reg s3 EAX = t_eax tf /\ m_reg s3 ECX = t_ecx tf /\ m_reg s3 EDX = t_edx tf /\ m_reg s3 EBX = t_ebx tf /\
   m_reg s3 ESP = t_esp tf /\ m_reg s3 EBP = t_ebp tf /\ m_reg s3 ESI = t_esi tf /\ m_reg s3 EDI = t_edi tf) /\
  (m_seg s3 CS = t_cs tf /\ m_seg s3 DS = t_ds tf /\ m_seg s3 ES = t_es tf /\ m_seg s3 FS = t_fs tf /\
   m_seg s3 GS = t_gs tf /\ m_seg s3 SS = t_ss tf) /\
  m_eip s3 = t_eip tf /\ m_eflags s3 = t_eflags tf /\ m_mem s3 = m_mem s2.
Proof.
  intros Hu Hn Hc Hx Hg s1 a tf He Hcs Htf s3.
  destruct (enter_frame g ts n code at_ trap next s Hu Hn Hc Hx) as (F1 & F2 & F3 & _ & F5 & _). fold s1 a in F1, F2, F3, F5.
  destruct Hu as [_ Hr Hst]. clearbody s1. rewrite F3. split; [exact F1|]. split; [exact F2|].
  set (s2' := set_reg ESP a s2).
  assert (s3 = exec trapret s2') as ->.
  { unfold s3, alltraps_return. rewrite exec_cons. cbn [step]. rewrite He. replace (a - 4 + 4) with a by lia. rewrite u32_small by (unfold a; lia). done. }
  apply (trapret_user s2' a); [done|unfold a; lia|unfold a; lia| |].
  - change (m_seg s2' CS) with (m_seg s2 CS). by rewrite Hcs, F5.
  - change (trapframe_at (m_mem s2') a) with tf. rewrite Htf, Hr. done.
Qed.

Lemma trap_back g ts n code at_ trap next s s2 r :
  user_mode s ts -> 0 <= n < 256 -> 0 <= code < W32 -> 0 <= next < W32 -> Z.land (g_cs g) 3 = 0 ->
  let s1 := exec (alltraps trap next) (exec (vector at_ n) (interrupt g ts (err_pushed n code) s)) in
  let a := ts_esp0 ts - 76 in
  m_reg s2 ESP = a - 4 -> m_seg s2 CS = m_seg s1 CS ->
  trapframe_at (m_mem s2) a = set_t_eax r (trapframe_at (m_mem s1) a) ->
  let s3 := exec alltraps_return s2 in
  trapframe_at (m_mem s1) a = frame_of s ts n code /\ words_at (m_mem s1) (m_reg s1 ESP) [next; a] /\
  (forall x, m_reg s3 x = if decide (x = EAX) then r else m_reg s x) /\
  (forall x, m_seg s3 x = m_seg s x) /\ m_eip s3 = m_eip s /\ m_eflags s3 = m_eflags s /\ m_mem s3 = m_mem s2.
Proof.
  intros Hu Hn Hc Hx Hg s1 a He Hcs Htf s3.
  destruct (enter_frame g ts n code at_ trap next s Hu Hn Hc Hx) as (F1 & _). fold s1 a in F1. rewrite F1 in Htf.
  destruct (trap_returns g ts n code at_ trap next s s2 Hu Hn Hc Hx Hg He Hcs) as
    (G1 & G2 & (E1 & E2 & E3 & E4 & E5 & E6 & E7 & E8) & (S1 & S2 & S3 & S4 & S5 & S6) & EI & EF & EM).
  { fold a. by rewrite Htf. }
  fold a s1 in G1, G2. fold a s3 in E1, E2, E3, E4, E5, E6, E7, E8, S1, S2, S3, S4, S5, S6, EI, EF. fold s3 in EM.
  clearbody s1 s3. rewrite Htf in E1, E2, E3, E4, E5, E6, E7, E8, S1, S2, S3, S4, S5, S6, EI, EF. split; [exact G1|]. split; [exact G2|].
  split; [|split; [|split; [exact EI|split; [exact EF|exact EM]]]]; intros x; destruct x; assumption.
Qed.

(** C31: A trap or interrupt of user code is invisible to it but for the result
    of a system call.  On every vector the processor, the stub and [alltraps]
    leave on the kernel's stack a trap frame that holds all of the user's
    registers, with the vector's number and error code, and call [trap] with its
    address: the stub pushes a zero for exactly the vectors for which the
    processor pushes no error code.  When [trap] returns with the frame unchanged but for [eax],
    [trapret] resumes the user with every register, selector, flag and the
    program counter as they were and with that value in [eax]. *)
Theorem trap_round_trip g ts n code at_ trap next s s2 r :
  user_mode s ts -> 0 <= n < 256 -> 0 <= code < W32 -> 0 <= next < W32 -> Z.land (g_cs g) 3 = 0 ->
  let s1 := exec (alltraps trap next) (exec (vector at_ n) (interrupt g ts (err_pushed n code) s)) in
  let a := ts_esp0 ts - 76 in
  m_reg s2 ESP = a - 4 -> m_seg s2 CS = m_seg s1 CS ->
  trapframe_at (m_mem s2) a = set_t_eax r (trapframe_at (m_mem s1) a) ->
  let s3 := exec alltraps_return s2 in
  trapframe_at (m_mem s1) a = frame_of s ts n code /\ words_at (m_mem s1) (m_reg s1 ESP) [next; a] /\
  (forall x, m_reg s3 x = if decide (x = EAX) then r else m_reg s x) /\
  (forall x, m_seg s3 x = m_seg s x) /\ m_eip s3 = m_eip s /\ m_eflags s3 = m_eflags s /\ m_mem s3 = m_mem s2.
Proof. apply trap_back. Qed.

(** ** System call stubs and the first program *)

Lemma usys_leave_ret s : exec usys_leave s = step Ret s.
Proof. done. Qed.

(** A stub of [usys.S], called with the arguments [args]: the kernel gets the
    call's number in [eax] and finds the arguments above the stack pointer of
    the frame, where [argint] looks for them; the caller gets back the
    kernel's answer [r] and every other register as it was. *)
Lemma usys_call g ts at_ trap next s s2 num ra args r :
  user_mode s ts -> m_reg s ESP + 4 < W32 -> words_at (m_mem s) (m_reg s ESP) (ra :: args) ->
  0 <= num < W32 -> 0 <= next < W32 -> Z.land (g_cs g) 3 = 0 ->
  let s0 := exec (usys_enter num) s in
  let s1 := exec (alltraps trap next) (exec (vector at_ T_SYSCALL) (interrupt g ts (err_pushed T_SYSCALL 0) s0)) in
  let a := ts_esp0 ts - 76 in
  let tf := trapframe_at (m_mem s1) a in
  m_reg s2 ESP = a - 4 -> m_seg s2 CS = m_seg s1 CS -> trapframe_at (m_mem s2) a = set_t_eax r tf ->
  load32 (m_mem s2) (m_reg s ESP) = ra ->
  let s4 := exec usys_leave (exec alltraps_return s2) in
  t_eax tf = num /\ t_trapno tf = T_SYSCALL /\
  (forall k v, args !! k = Some v -> load32 (m_mem s) (t_esp tf + 4 + 4 * Z.of_nat k) = v) /\
  (forall x, m_reg s4 x = if decide (x = EAX) then r else if decide (x = ESP) then m_reg s ESP + 4 else m_reg s x) /\
  m_eip s4 = ra /\ m_eflags s4 = m_eflags s.
Proof.
  intros Hu He Hw Hnum Hx Hg s0 s1 a tf He2 Hcs Htf Hra s4.
  assert (user_mode s0 ts) as Hu0.
  { destruct Hu as [[Or Os Oi Of] Hr Hst]. split; [|done|done]. split; [|done..]. intros x. destruct x; try apply Or. exact Hnum. }
  assert (forall x, m_reg s0 x = if decide (x = EAX) then num else m_reg s x) as R0 by (intros x; by destruct x).
  assert (m_eflags s0 = m_eflags s) as R0f by done. clearbody s0.
  destruct (trap_back g ts T_SYSCALL 0 at_ trap next s0 s2 r Hu0 ltac:(unfold T_SYSCALL; lia) ltac:(unfold W32; lia) Hx Hg He2 Hcs Htf)
    as (F1 & _ & E & _ & _ & EF & EM). fold s1 a tf in F1. clearbody tf. subst tf. unfold s4. rewrite usys_leave_ret. clear s4.
  set (s3 := exec alltraps_return s2) in *. clearbody s3. clear Htf Hcs.
  pose proof (R0 ESP) as Re. change (m_reg s0 ESP = m_reg s ESP) in Re. pose proof (ok_reg _ (us_ok _ _ Hu) ESP).
  pose proof (E ESP) as E5. change (m_reg s3 ESP = m_reg s0 ESP) in E5. rewrite Re in E5.
  split; [apply (R0 EAX)|]. split; [done|]. split.
  { intros k v Hk. change (t_esp (frame_of s0 ts T_SYSCALL 0)) with (m_reg s0 ESP). rewrite Re, <- (Hw (S k) v Hk). f_equal. lia. }
  split; [|split; [|change (m_eflags s3 = m_eflags s); by rewrite EF]].
  - intros x. destruct (decide (x = ESP)) as [->|Hx'].
    + change (u32 (m_reg s3 ESP + 4) = m_reg s ESP + 4). rewrite E5. apply u32_small. lia.
    + change (m_reg (step Ret s3) x) with (fn_upd ESP (u32 (m_reg s3 ESP + 4)) (m_reg s3) x). rewrite fn_upd_ne, E, R0 by done.
      by destruct (decide (x = EAX)).
  - change (load32 (m_mem s3) (m_reg s3 ESP) = ra). by rewrite EM, E5.
Qed.

(** [initcode.S] traps with the number of [exec] and its two arguments, the
    path and the vector, where [argint] looks for them. *)
Lemma initcode_execs s init argv : 12 <= m_reg s ESP < W32 -> 0 <= init < W32 -> 0 <= argv < W32 ->
  let s' := exec (initcode init argv) s in
  m_reg s' EAX = SYS_exec /\ words_at (m_mem s') (m_reg s' ESP) [0; init; argv].
Proof.
  intros He Hi Ha s'. split; [done|].
  assert (pushed [argv; init; 0] s (exec [Pushi argv; Pushi init; Pushi 0] s)) as H.
  { apply exec_pushes; [by repeat constructor|cbn [length]; lia|]. repeat (apply Forall_cons; split; [done || (unfold W32; lia)|]). done. }
  exact (pu_words _ _ _ H).
Qed.

(** ** Switching to paging *)

(** [entry] starts [main] with paging and write protection on, the boot page
    directory loaded and the boot stack empty. *)
Lemma entry_pages entrypgdir stack main s :
  let s' := exec (entry entrypgdir stack main) s in
  m_eip s' = main /\ m_reg s' ESP = stack + KSTACKSIZE /\ m_cr s' 3 = V2P entrypgdir /\
  m_cr s' 0 = Z.lor (m_cr s 0) (Z.lor CR0_PG CR0_WP) /\ m_cr s' 4 = Z.lor (m_cr s 4) CR4_PSE.
Proof. repeat split; reflexivity. Qed.

(** The code of [entryother] takes its page directory, stack and entry point
    from the words that [startothers] stores below it. *)
Lemma entryother_calls start next s : 4 <= load32 (m_mem s) (start - 4) < W32 ->
  let s' := exec (entryother start next) s in
  m_eip s' = load32 (m_mem s) (start - 8) /\ m_reg s' ESP = load32 (m_mem s) (start - 4) - 4 /\
  m_cr s' 3 = load32 (m_mem s) (start - 12) /\ m_cr s' 0 = Z.lor (m_cr s 0) (Z.lor (Z.lor CR0_PE CR0_PG) CR0_WP).
Proof.
  intros He s'. assert (m_reg s' ESP = u32 (load32 (m_mem s) (start - 4) - 4)) as E by reflexivity.
  rewrite E, u32_small by lia. repeat split; reflexivity.
Qed.

(** ** The properties at work *)

Lemma words_check m a l : (fun i => load32 m (a + 4 * Z.of_nat i)) <$> seq 0 (length l) = l -> words_at m a l.
Proof.
  intros E i v Hi. rewrite <- E, list_lookup_fmap, fmap_Some in Hi. destruct Hi as (j & Hj & ->).
  by apply lookup_seq in Hj as [-> _].
Qed.
Fixpoint store_words (m : mem) (a : Z) (l : list Z) : mem :=
  match l with [] => m | v :: l => store32 (store_words m (a + 4) l) a v end.
Lemma store_words_other m l x : forall a, x < a -> store_words m a l x = m x.
Proof. induction l as [|v l IH]; intros a Hx; [done|]. cbn. rewrite store32_byte, decide_False by lia. apply IH. lia. Qed.

(** One thread switches to the context at [0x2000], and is switched back to
    from another stack. *)
Definition regs_ex (esp : Z) (r : reg) : Z :=
  match r with ESP => esp | EBX => 11 | EBP => 12 | ESI => 13 | EDI => 14 | _ => 0 end.
Definition sw_one : machine :=
  mk_machine (regs_ex 0x1000) (fun _ => 16) 0x80104000 0 (fun _ => 0) (store_words (fun _ => 0) 0x1000 [0x80103000; 0x3000; 0x2000]).
Definition sw_two : machine :=
  mk_machine (regs_ex 0x2100) (fun _ => 16) 0x80104000 0 (fun _ => 0)
    (store_words (m_mem (exec swtch sw_one)) 0x2100 [0x80105000; 0x3004; 0x1000 - 16]).

Lemma machine_ok_ex esp ip fl cr m : 0 <= esp < W32 -> 0 <= ip < W32 -> 0 <= fl < W32 ->
  machine_ok (mk_machine (regs_ex esp) (fun _ => 16) ip fl cr m).
Proof. intros He Hi Hf. split; [|done..]. intros r. destruct r; cbn; unfold W32 in *; lia. Qed.

Lemma swtch_round_trip_witness :
  let s3 := exec swtch sw_two in m_reg s3 EBX = 11 /\ m_reg s3 ESP = 0x1004 /\ m_eip s3 = 0x80103000.
Proof.
  assert (swtch_ready sw_one 0x80103000 0x3000 0x2000) as H1.
  { split; [by apply machine_ok_ex|apply words_check; by vm_compute|cbn; unfold W32; lia..]. }
  assert (swtch_ready sw_two 0x80105000 0x3004 (0x1000 - 16)) as H2.
  { split; [by apply machine_ok_ex|apply words_check; by vm_compute|cbn; unfold W32; lia..]. }
  destruct (swtch_round_trip sw_one 0x80103000 0x3000 0x2000 sw_two 0x80105000 0x3004 H1 H2) as (_ & Hr & He & Hi).
  - intros x Hx. cbn in Hx. apply store_words_other. lia.
  - split; [|split; [exact He|exact Hi]]. apply (Hr EBX). by left.
Defined.

(** User code is interrupted by the clock, and [trap] returns. *)
Definition gate_ex : gatedesc := SETGATE false (Z.shiftl SEG_KCODE 3) 0x80106000 0.
Definition ts_ex : taskstate := mk_taskstate 0x9000 16 0.
Definition user_ex : machine :=
  mk_machine (regs_ex 0x4000) (fun g => if decide (g = CS) then 27 else 35) 0x100 FL_IF (fun _ => 0) (fun _ => 0).
Definition entered_ex : machine :=
  exec (alltraps 0x80107000 0x80106f00) (exec (vector 0x80106e00 32) (interrupt gate_ex ts_ex (err_pushed 32 0) user_ex)).
Definition returned_ex : machine := set_reg ESP (0x9000 - 80) entered_ex.

Lemma trap_round_trip_witness :
  (forall x, m_reg (exec alltraps_return returned_ex) x = m_reg user_ex x) /\ m_eip (exec alltraps_return returned_ex) = 0x100.
Proof.
  destruct (trap_round_trip gate_ex ts_ex 32 0 0x80106e00 0x80107000 0x80106f00 user_ex returned_ex 0) as (_ & _ & Hr & _ & Hi & _).
  - split; [|done|by vm_compute]. split; [| |by vm_compute..].
    + intros r. destruct r; by vm_compute.
    + intros g. destruct g; by vm_compute.
  - lia.
  - unfold W32; lia.
  - unfold W32; lia.
  - by vm_compute.
  - by vm_compute.
  - by vm_compute.
  - by vm_compute.
  - split; [|exact Hi]. intros x. rewrite Hr. by destruct x.
Defined.
