(* ===== verification/Bootmain.v ===== *)
(** * The boot loader

    [bootmain.c]: the kernel's ELF image is read from the disk, from sector 1
    on, sector by sector through the ports of the disk controller, and its
    segments are placed at their physical addresses.  The status the controller
    shows when it is polled is a list fixed in advance; what its data port
    delivers is a function of the values last written to its registers. *)

From stdpp Require Import prelude list gmap strings.
From Stdlib Require Import ZArith Lia.
From S2P Require Import Prelude State Boot Str Vm Pgtable.
#[local] Open Scope c_scope.

Record bootstate := mk_boot {
  bt_mem : mem;
  bt_port : Z -> Z;      (* the byte last written to each port *)
  bt_status : list Z;    (* the statuses the controller will show *)
}.
Definition set_bt_mem m s := mk_boot m (bt_port s) (bt_status s).

Definition SECTSIZE : Z := 512.
Definition ELF_MAGIC : Z := 0x464C457F.

Definition outb (port v : Z) : M bootstate unit :=
  upd (fun s => mk_boot (bt_mem s) (fn_upd port (u8 v) (bt_port s)) (bt_status s)).
(** The status register, port [0x1F7]. *)
Definition inb_status : M bootstate Z := fun s =>
  match bt_status s with
  | [] => Diverge
  | v :: vs => Ok v (mk_boot (bt_mem s) (bt_port s) vs)
  end.

Section Loader.
(** What the controller's data port delivers after a command. *)
Context (data : (Z -> Z) -> list Z).

Definition insl (dst : Z) (cnt : nat) : M bootstate unit :=
  upd (fun s => set_bt_mem (store_bytes (bt_mem s) dst (take (4 * cnt) (data (bt_port s)))) s).

(** [while((inb(0x1F7) & 0xC0) != 0x40) ;] *)
Definition waitdisk : M bootstate unit := fun s =>
  loop_ (S (length (bt_status s))) (fun _ : unit =>
    v <- inb_status ;;
    ret (if Z.land v 0xC0 =? 0x40 then inr tt else inl tt)) tt s.

Definition readsect (dst offset : Z) : M bootstate unit :=
  waitdisk ;;
  outb 0x1F2 1 ;;
  outb 0x1F3 offset ;;
  outb 0x1F4 (Z.shiftr offset 8) ;;
  outb 0x1F5 (Z.shiftr offset 16) ;;
  outb 0x1F6 (Z.lor (Z.shiftr offset 24) 0xE0) ;;
  outb 0x1F7 0x20 ;;
  waitdisk ;;
  insl dst (Z.to_nat (SECTSIZE / 4)).

(** The loop of [readseg], from [pa] and sector [offset] up to [epa]; a turn
    moves [pa] by a sector, so that [count / SECTSIZE + 2] turns are enough. *)
Definition readseg_turn (epa : Z) '(pa, offset) : M bootstate (Z * Z + unit) :=
  if negb (pa <? epa) then ret (inr tt) else
  readsect pa offset ;;
  ret (inl (u32 (pa + SECTSIZE), u32 (offset + 1))).
Definition readseg (pa count offset : Z) : M bootstate unit :=
  let epa := u32 (pa + count) in
  let pa := u32 (pa - offset mod SECTSIZE) in
  let offset := offset / SECTSIZE + 1 in
  loop_ (Z.to_nat (count / SECTSIZE) + 3) (readseg_turn epa) (pa, offset).

(** The fields of the ELF headers, in memory. *)
Definition elf : Z := 0x10000.
Definition elf_magic (m : mem) : Z := load32 m elf.
Definition elf_entry (m : mem) : Z := load32 m (elf + 24).
Definition elf_phoff (m : mem) : Z := load32 m (elf + 28).
Definition elf_phnum (m : mem) : Z := m (elf + 44) + 2 ^ 8 * m (elf + 45).
Definition ph_off (m : mem) (ph : Z) : Z := load32 m (ph + 4).
Definition ph_paddr (m : mem) (ph : Z) : Z := load32 m (ph + 12).
Definition ph_filesz (m : mem) (ph : Z) : Z := load32 m (ph + 16).
Definition ph_memsz (m : mem) (ph : Z) : Z := load32 m (ph + 20).
Definition sizeof_proghdr : Z := 32.

(** One turn of the loop over the program headers. *)
Definition load_segment (ph : Z) : M bootstate unit :=
  m <- gets bt_mem ;;
  let pa := ph_paddr m ph in
  readseg pa (ph_filesz m ph) (ph_off m ph) ;;
  m <- gets bt_mem ;;
  if ph_filesz m ph <? ph_memsz m ph
  then upd (fun s => set_bt_mem (stosb (bt_mem s) (u32 (pa + ph_filesz m ph)) 0
                                   (Z.to_nat (ph_memsz m ph - ph_filesz m ph))) s)
  else ret tt.

(** The entry point that is called, or none when there is no ELF image. *)
Definition bootmain : M bootstate (option Z) :=
  readseg elf 4096 0 ;;
  m <- gets bt_mem ;;
  if negb (elf_magic m =? ELF_MAGIC) then ret None else
  each_ (Z.to_nat (elf_phnum m)) 0 (fun i =>
    load_segment (u32 (elf + elf_phoff m + sizeof_proghdr * Z.of_nat i))) ;;
  m <- gets bt_mem ;;
  ret (Some (elf_entry m)).
End Loader.

(** ** Reading sectors *)

(** The controller is polled [n] times until it is ready. *)
Inductive polls : nat -> list Z -> list Z -> Prop :=
| polls_0 vs : polls 0 vs vs
| polls_S n busy r vs vs' : Forall (fun v => Z.land v 0xC0 <> 0x40) busy -> Z.land r 0xC0 = 0x40 ->
    polls n vs vs' -> polls (S n) (busy ++ r :: vs) vs'.

Lemma polls_split n n' vs vs'' : polls (n + n') vs vs'' -> exists vs', polls n vs vs' /\ polls n' vs' vs''.
Proof.
  revert vs. induction n as [|n IH]; intros vs H.
  - exists vs. split; [constructor|done].
  - inversion H as [|m busy r w w' Hb Hr Hp]; subst. destruct (IH w Hp) as (vs' & H1 & H2). exists vs'. by split; [constructor|].
Qed.

(** The controller delivers the sectors of the disk, on which [img] starts at
    sector 1: for the number of a sector in the four registers, as the interface
    of the disk defines them, and the command to read one sector. *)
Definition serves (data : (Z -> Z) -> list Z) (img : Z -> Z) : Prop :=
  forall off port, 1 <= off < 2 ^ 28 ->
    port 0x1F2 = 1 -> port 0x1F3 = u8 off -> port 0x1F4 = u8 (Z.shiftr off 8) -> port 0x1F5 = u8 (Z.shiftr off 16) ->
    port 0x1F6 = u8 (Z.lor (Z.shiftr off 24) 0xE0) -> port 0x1F7 = 0x20 ->
    data port = (fun i => img (SECTSIZE * (off - 1) + Z.of_nat i)) <$> seq 0 512.

Section Reading.
Context (data : (Z -> Z) -> list Z) (img : Z -> Z) (Hdata : serves data img) (Himg : forall x, 0 <= img x < 256).

Lemma waitdisk_ok s n vs' : polls (S n) (bt_status s) vs' ->
  exists vs, waitdisk s = Ok tt (mk_boot (bt_mem s) (bt_port s) vs) /\ polls n vs vs'.
Proof.
  intros H. inversion H as [|k busy r vs w Hb Hr Hp Ek Es Ew]; subst. exists vs. split; [|done].
  unfold waitdisk. rewrite <- Es. rewrite length_app. cbn [length]. rewrite Nat.add_succ_r.
  destruct s as [m p st]. cbn [bt_status bt_mem bt_port] in *. clear H Hp. revert st Es. generalize (length vs) as extra.
  induction Hb as [|v busy Hv Hb IH]; intros extra st <-; cbn [length Nat.add loop_].
  - unfold bind, inb_status. cbn. by rewrite Hr.
  - unfold bind at 1, bind at 1, inb_status at 1. cbn [bt_status app]. unfold ret at 1.
    rewrite (proj2 (Z.eqb_neq _ _) Hv). apply (IH _ _ eq_refl).
Qed.

(** One sector of the image. *)
Lemma readsect_ok s dst off n vs' : 1 <= off < 2 ^ 28 -> polls (2 + n) (bt_status s) vs' ->
  exists port vs, readsect data dst off s =
      Ok tt (mk_boot (store_bytes (bt_mem s) dst ((fun i => img (SECTSIZE * (off - 1) + Z.of_nat i)) <$> seq 0 512)) port vs) /\
    polls n vs vs'.
Proof.
  intros Ho Hp. destruct (waitdisk_ok s (S n) vs' Hp) as (vs1 & E1 & Hp1). unfold readsect.
  rewrite (bind_ok _ _ _ _ _ E1). unfold outb. rewrite !bind_upd. cbn [bt_mem bt_port bt_status].
  set (port := fn_upd 0x1F7 _ _). destruct (waitdisk_ok (mk_boot (bt_mem s) port vs1) n vs' Hp1) as (vs2 & E2 & Hp2).
  exists port, vs2. split; [|done]. rewrite (bind_ok _ _ _ _ _ E2). unfold insl, upd, set_bt_mem. cbn [bt_mem bt_port bt_status].
  rewrite (Hdata off port Ho) by done. rewrite take_ge; [done|]. rewrite length_fmap, length_seq. by vm_compute.
Qed.

(** The image's bytes from [off] on, [n] sectors of them at [lo]. *)
Definition loaded (lo off : Z) (n : nat) (m : mem) : mem := fun x =>
  if decide (lo <= x < lo + 512 * Z.of_nat n) then img (off + (x - lo)) else m x.

Lemma sector_loaded m lo off x : store_bytes m lo ((fun i => img (off + Z.of_nat i)) <$> seq 0 512) x = loaded lo off 1 m x.
Proof.
  rewrite store_bytes_byte, length_fmap, length_seq. unfold loaded. change (512 * Z.of_nat 1) with (Z.of_nat 512).
  destruct (decide (lo <= x < lo + Z.of_nat 512)) as [Hx|]; [|done].
  rewrite list_lookup_fmap, lookup_seq_lt by lia. cbn [fmap option_fmap option_map default from_option id].
  rewrite Nat.add_0_l, Z2Nat.id by lia. unfold u8. apply Z.mod_small. apply Himg.
Qed.

Lemma readseg_loop k : forall s fuel pa off epa vs', 0 <= pa -> 1 <= off -> off + Z.of_nat k < 2 ^ 28 ->
  (k < fuel)%nat -> epa <= pa + 512 * Z.of_nat k -> (k <> 0%nat -> pa + 512 * Z.of_nat (k - 1) < epa) ->
  pa + 512 * Z.of_nat k < W32 -> polls (2 * k) (bt_status s) vs' ->
  exists s', loop_ fuel (readseg_turn data epa) (pa, off) s = Ok tt s' /\ bt_status s' = vs' /\
    forall x, bt_mem s' x = loaded pa (SECTSIZE * (off - 1)) k (bt_mem s) x.
Proof.
  induction k as [|k IH]; intros s [|fuel] pa off epa vs' Hpa Ho1 Ho2 Hf He Hne Hw Hp; try lia; cbn [loop_].
  - exists s. unfold readseg_turn, bind. rewrite (proj2 (Z.ltb_ge _ _)) by lia. split; [done|].
    inversion Hp. split; [done|]. intros x. unfold loaded. by rewrite decide_False by lia.
  - specialize (Hne ltac:(done)). replace (2 * S k)%nat with (2 + 2 * k)%nat in Hp by lia.
    destruct (readsect_ok s pa off (2 * k) vs' ltac:(lia) Hp) as (port & vs & E & Hp').
    set (s1 := mk_boot _ port vs) in E.
    rewrite (bind_ok _ _ _ (inl (u32 (pa + SECTSIZE), u32 (off + 1))) s1).
    2:{ unfold readseg_turn. rewrite (proj2 (Z.ltb_lt _ _)) by lia. cbn [negb]. by rewrite (bind_ok _ _ _ _ _ E). }
    unfold SECTSIZE in *. rewrite !u32_small by (unfold W32 in *; lia).
    destruct (IH s1 fuel (pa + 512) (off + 1) epa vs') as (s' & E' & Hv & Hm); [lia|lia|lia|lia|lia|lia|lia|exact Hp'|].
    exists s'. split; [done|]. split; [done|]. intros x. rewrite Hm. unfold loaded at 1. cbn [bt_mem s1].
    rewrite sector_loaded. unfold loaded. destruct (decide (pa + 512 <= x < pa + 512 + 512 * Z.of_nat k)).
    + rewrite decide_True by lia. f_equal. lia.
    + destruct (decide (pa <= x < pa + 512 * Z.of_nat 1)); [by rewrite decide_True by lia|by rewrite decide_False by lia].
Qed.
End Reading.

(** ** Segments *)

(** Where [readseg] starts to write, and how many sectors it reads. *)
Definition seg_lo (pa off : Z) : Z := pa - off mod SECTSIZE.
Definition seg_sectors (count off : Z) : nat := Z.to_nat ((count + off mod SECTSIZE + 511) / SECTSIZE).

(** The headers of an image as they will lie in memory, the address of header
    [k], and the bytes [readseg] and [stosb] may write for it. *)
Definition image_mem (img : Z -> Z) : mem := fun x => img (x - elf).
Definition ph_at (img : Z -> Z) (k : nat) : Z := elf + elf_phoff (image_mem img) + sizeof_proghdr * Z.of_nat k.
Definition seg_off img k : Z := ph_off (image_mem img) (ph_at img k).
Definition seg_paddr img k : Z := ph_paddr (image_mem img) (ph_at img k).
Definition seg_filesz img k : Z := ph_filesz (image_mem img) (ph_at img k).
Definition seg_memsz img k : Z := ph_memsz (image_mem img) (ph_at img k).
Definition seg_first img k : Z := seg_lo (seg_paddr img k) (seg_off img k).
Definition seg_count img k : nat := seg_sectors (seg_filesz img k) (seg_off img k).
Definition seg_end img k : Z := Z.max (seg_first img k + 512 * Z.of_nat (seg_count img k)) (seg_paddr img k + seg_memsz img k).
Definition phnum (img : Z -> Z) : nat := Z.to_nat (elf_phnum (image_mem img)).

(** An image the loader can place: its headers fit into the first page, no
    segment touches the page they are read into, and none is disturbed by the
    whole sectors read for a later one. *)
Record good_image (img : Z -> Z) : Prop := {
  gi_bytes : forall x, 0 <= img x < 256;
  gi_magic : elf_magic (image_mem img) = ELF_MAGIC;
  gi_headers : elf_phoff (image_mem img) + sizeof_proghdr * Z.of_nat (phnum img) <= 4096;
  gi_range : forall k, (k < phnum img)%nat ->
    0 <= seg_first img k /\ seg_end img k < W32 /\ seg_off img k / SECTSIZE + 1 + Z.of_nat (seg_count img k) < 2 ^ 28;
  gi_page : forall k, (k < phnum img)%nat -> seg_end img k <= elf \/ elf + 4096 <= seg_first img k;
  gi_apart : forall j k x, (j < k < phnum img)%nat -> seg_first img k <= x < seg_end img k ->
    ~ seg_paddr img j <= x < seg_paddr img j + seg_memsz img j;
}.

(** Segment [k] is in place: the bytes of the file, then zeroes. *)
Definition in_place (img : Z -> Z) (m : mem) (k : nat) : Prop :=
  forall i, 0 <= i < seg_memsz img k ->
    m (seg_paddr img k + i) = if decide (i < seg_filesz img k) then img (seg_off img k + i) else 0.

Section Loading.
Context (data : (Z -> Z) -> list Z) (img : Z -> Z) (Hdata : serves data img) (Hg : good_image img).

Lemma readseg_ok s pa count off vs' :
  0 <= count -> 0 <= off -> 0 <= seg_lo pa off -> pa + count < W32 ->
  seg_lo pa off + 512 * Z.of_nat (seg_sectors count off) < W32 ->
  off / SECTSIZE + 1 + Z.of_nat (seg_sectors count off) < 2 ^ 28 ->
  polls (2 * seg_sectors count off) (bt_status s) vs' ->
  exists s', readseg data pa count off s = Ok tt s' /\ bt_status s' = vs' /\
    (forall x, bt_mem s' x = loaded img (seg_lo pa off) (SECTSIZE * (off / SECTSIZE)) (seg_sectors count off) (bt_mem s) x).
Proof.
  intros Hc Ho Hlo Hpa Hw Hs Hp. unfold readseg, seg_lo, seg_sectors, SECTSIZE in *.
  pose proof (Z.mod_pos_bound off 512 ltac:(lia)) as Hr. set (r := off mod 512) in *. clearbody r.
  assert (0 <= off / 512) by (apply Z.div_pos; lia).
  set (n := (count + r + 511) / 512) in *. assert (0 <= n) by (apply Z.div_pos; lia).
  assert (512 * n <= count + r + 511 < 512 * n + 512) as Hn by (unfold n; Z.div_mod_to_equations; lia).
  assert (count / 512 + 2 >= n) as Hf by (unfold n; Z.div_mod_to_equations; lia).
  assert (0 <= count / 512) by (apply Z.div_pos; lia). rewrite !u32_small by lia.
  destruct (readseg_loop data img Hdata (gi_bytes _ Hg) (Z.to_nat n) s (Z.to_nat (count / 512) + 3) (pa - r) (off / 512 + 1) (pa + count) vs')
    as (s' & E & Hv & Hm); [lia..|exact Hp|].
  exists s'. split; [done|]. split; [done|]. intros x. rewrite Hm. unfold SECTSIZE. by replace (off / 512 + 1 - 1) with (off / 512) by lia.
Qed.

Lemma seg_covers pa count off : 0 <= count -> pa + count <= seg_lo pa off + 512 * Z.of_nat (seg_sectors count off).
Proof.
  intros Hc. unfold seg_lo, seg_sectors, SECTSIZE. pose proof (Z.mod_pos_bound off 512 ltac:(lia)).
  rewrite Z2Nat.id by (apply Z.div_pos; lia). Z.div_mod_to_equations. lia.
Qed.

(** The page of the headers is as it was read. *)
Definition headers_read (m : mem) : Prop := forall x, elf <= x < elf + 4096 -> m x = image_mem img x.

Lemma image_bytes : bytes_ok (image_mem img).
Proof. intros x. apply (gi_bytes _ Hg). Qed.

Lemma header_at k : (k < phnum img)%nat -> elf <= ph_at img k /\ ph_at img k + 32 <= elf + 4096.
Proof.
  intros Hk. pose proof (gi_headers _ Hg) as Hh. pose proof (load32_range _ (elf + 28) image_bytes) as Hr.
  unfold ph_at, elf_phoff, sizeof_proghdr in *. lia.
Qed.

Lemma header_fields m k : headers_read m -> (k < phnum img)%nat ->
  ph_off m (ph_at img k) = seg_off img k /\ ph_paddr m (ph_at img k) = seg_paddr img k /\
  ph_filesz m (ph_at img k) = seg_filesz img k /\ ph_memsz m (ph_at img k) = seg_memsz img k.
Proof.
  intros Hm Hk. destruct (header_at k Hk).
  unfold seg_off, seg_paddr, seg_filesz, seg_memsz, ph_off, ph_paddr, ph_filesz, ph_memsz.
  repeat split; apply load32_ext; intros b Hb; apply Hm; lia.
Qed.

Lemma load_segment_ok s k vs' :
  (k < phnum img)%nat -> headers_read (bt_mem s) -> polls (2 * seg_count img k) (bt_status s) vs' ->
  exists s', load_segment data (ph_at img k) s = Ok tt s' /\ bt_status s' = vs' /\ in_place img (bt_mem s') k /\
    forall x, ~ seg_first img k <= x < seg_end img k -> bt_mem s' x = bt_mem s x.
Proof.
  intros Hk Hh Hp. destruct (gi_range _ Hg k Hk) as (R1 & R2 & R3). destruct (header_fields _ k Hh Hk) as (F1 & F2 & F3 & F4).
  pose proof (load32_range _ (ph_at img k + 16) image_bytes) as Hfs. change (load32 _ (ph_at img k + 16)) with (seg_filesz img k) in Hfs.
  pose proof (load32_range _ (ph_at img k + 20) image_bytes) as Hms. change (load32 _ (ph_at img k + 20)) with (seg_memsz img k) in Hms.
  pose proof (load32_range _ (ph_at img k + 4) image_bytes) as Hof. change (load32 _ (ph_at img k + 4)) with (seg_off img k) in Hof.
  pose proof (seg_covers (seg_paddr img k) (seg_filesz img k) (seg_off img k) ltac:(lia)) as Hcov.
  change (seg_lo _ _) with (seg_first img k) in Hcov. change (seg_sectors _ _) with (seg_count img k) in Hcov.
  assert (seg_first img k + 512 * Z.of_nat (seg_count img k) <= seg_end img k /\ seg_paddr img k + seg_memsz img k <= seg_end img k) as [He1 He2]
    by (unfold seg_end; lia).
  assert (seg_first img k <= seg_paddr img k) as Hfirst by (unfold seg_first, seg_lo, SECTSIZE; pose proof (Z.mod_pos_bound (seg_off img k) 512); lia).
  destruct (readseg_ok s (seg_paddr img k) (seg_filesz img k) (seg_off img k) vs') as (s1 & E1 & V1 & M1);
    [lia|lia|done|lia|unfold seg_first, seg_count in *; lia|done|done|].
  change (seg_lo _ _) with (seg_first img k) in M1. change (seg_sectors _ _) with (seg_count img k) in M1.
  assert (headers_read (bt_mem s1)) as Hh1.
  { intros x Hx. rewrite M1. unfold loaded. rewrite decide_False; [by apply Hh|]. destruct (gi_page _ Hg k Hk); lia. }
  destruct (header_fields _ k Hh1 Hk) as (_ & _ & G3 & G4).
  unfold load_segment. rewrite bind_gets, F1, F2, F3, (bind_ok _ _ _ _ _ E1), bind_gets, G3, G4.
  assert (forall i, 0 <= i < seg_filesz img k -> bt_mem s1 (seg_paddr img k + i) = img (seg_off img k + i)) as Hfile.
  { intros i Hi. rewrite M1. unfold loaded. rewrite decide_True by lia. f_equal. unfold seg_first, seg_lo, SECTSIZE.
    pose proof (Z_div_mod_eq_full (seg_off img k) 512). lia. }
  assert (forall x, ~ seg_first img k <= x < seg_end img k -> bt_mem s1 x = bt_mem s x) as Hout.
  { intros x Hx. rewrite M1. unfold loaded. by rewrite decide_False by lia. }
  destruct (Z.ltb_spec (seg_filesz img k) (seg_memsz img k)) as [Hlt|Hge].
  - rewrite u32_small by lia. exists (set_bt_mem (stosb (bt_mem s1) (seg_paddr img k + seg_filesz img k) 0 (Z.to_nat (seg_memsz img k - seg_filesz img k))) s1).
    split; [done|]. split; [done|]. cbn [bt_mem set_bt_mem]. split.
    + intros i Hi. rewrite stosb_byte. destruct (decide (i < seg_filesz img k)).
      * rewrite decide_False by lia. apply Hfile. lia.
      * by rewrite decide_True by lia.
    + intros x Hx. rewrite stosb_byte, decide_False by lia. by apply Hout.
  - exists s1. split; [done|]. split; [done|]. split; [|done]. intros i Hi. rewrite decide_True by lia. apply Hfile. lia.
Qed.
End Loading.

Section Booting.
Context (data : (Z -> Z) -> list Z) (img : Z -> Z) (Hdata : serves data img) (Hg : good_image img).

(** The sectors of the segments from [i] on. *)
Fixpoint sectors_from (n i : nat) : nat :=
  match n with O => 0%nat | S n => (seg_count img i + sectors_from n (S i))%nat end.

Lemma load_segments n : forall i s vs', (i + n = phnum img)%nat -> headers_read img (bt_mem s) ->
  (forall j, (j < i)%nat -> in_place img (bt_mem s) j) -> polls (2 * sectors_from n i) (bt_status s) vs' ->
  exists s', each_ n i (fun i => load_segment data (u32 (elf + elf_phoff (image_mem img) + sizeof_proghdr * Z.of_nat i))) s = Ok tt s' /\
    bt_status s' = vs' /\ headers_read img (bt_mem s') /\ forall j, (j < phnum img)%nat -> in_place img (bt_mem s') j.
Proof.
  induction n as [|n IH]; intros i s vs' Hi Hh Hj Hp.
  { exists s. inversion Hp. split; [done|]. split; [done|]. split; [done|]. intros j Hlt. apply Hj. lia. }
  cbn [each_ sectors_from] in *. rewrite Nat.mul_add_distr_l in Hp. destruct (polls_split _ _ _ _ Hp) as (vs1 & Hp1 & Hp2).
  assert (i < phnum img)%nat as Hlt by lia. destruct (header_at img Hg i Hlt) as [A1 A2].
  destruct (load_segment_ok data img Hdata Hg s i vs1 Hlt Hh Hp1) as (s1 & E1 & V1 & I1 & O1).
  fold (ph_at img i). rewrite u32_small by (change W32 with 4294967296; change elf with 65536 in *; lia).
  rewrite (bind_ok _ _ _ _ _ E1). destruct (gi_range _ Hg i Hlt) as (R1 & R2 & _).
  apply IH; [lia| | |by rewrite V1].
  - intros x Hx. rewrite O1; [by apply Hh|]. destruct (gi_page _ Hg i Hlt); lia.
  - intros j Hji. destruct (decide (j = i)) as [->|Hne]; [done|]. intros y Hy. rewrite O1; [by apply Hj; [lia|]|].
    intros Hx. apply (gi_apart _ Hg j i _ ltac:(lia) Hx). lia.
Qed.

(** C33: The boot loader places the kernel.  For every image whose headers lie in
    its first page and whose segments keep clear of each other and of that page,
    however often the disk is busy, [bootmain] reads the sectors it needs, loads
    every segment at its physical address, the bytes of the file followed by
    zeroes up to its size in memory, and jumps to the entry point of the ELF
    header. *)
Theorem bootmain_loads s vs' :
  polls (2 * (8 + sectors_from (phnum img) 0)) (bt_status s) vs' ->
  exists s', bootmain data s = Ok (Some (elf_entry (image_mem img))) s' /\ bt_status s' = vs' /\
    forall k, (k < phnum img)%nat -> in_place img (bt_mem s') k.
Proof.
  intros Hp. rewrite Nat.mul_add_distr_l in Hp. destruct (polls_split _ _ _ _ Hp) as (vs1 & Hp1 & Hp2).
  destruct (readseg_ok data img Hdata Hg s elf 4096 0 vs1) as (s1 & E1 & V1 & M1); [lia|lia|done|done|done|done|exact Hp1|].
  assert (headers_read img (bt_mem s1)) as Hh.
  { intros x Hx. rewrite M1. unfold loaded. change (seg_lo elf 0) with elf. change (512 * Z.of_nat (seg_sectors 4096 0)) with 4096.
    by rewrite decide_True by lia. }
  assert (forall a, elf <= a -> a + 4 <= elf + 4096 -> load32 (bt_mem s1) a = load32 (image_mem img) a) as Hw.
  { intros a Ha1 Ha2. apply load32_ext. intros b Hb. apply Hh. lia. }
  destruct (load_segments (phnum img) 0 s1 vs') as (s2 & E2 & V2 & Hh2 & I2); [lia|done|lia|by rewrite V1|].
  exists s2. split; [|done]. unfold bootmain. rewrite (bind_ok _ _ _ _ _ E1), bind_gets.
  unfold elf_magic, elf_phoff, elf_phnum. rewrite !Hw by (unfold elf; lia). rewrite !Hh by (unfold elf; lia).
  change (load32 (image_mem img) elf) with (elf_magic (image_mem img)). rewrite (gi_magic _ Hg), Z.eqb_refl. cbn [negb].
  rewrite (bind_ok _ _ _ _ _ E2), bind_gets. unfold ret. f_equal. f_equal.
  unfold elf_entry. apply load32_ext. intros b Hb. apply Hh2. unfold elf in *. lia.
Qed.
End Booting.

(** ** The property at work

    A disk that decodes the sector number from its registers, with an image of
    one segment: 100 bytes at [0x100000] from offset 4100 on, 200 in memory. *)

Definition lba (port : Z -> Z) : Z :=
  port 0x1F3 + 2 ^ 8 * port 0x1F4 + 2 ^ 16 * port 0x1F5 + 2 ^ 24 * Z.land (port 0x1F6) 15.
Definition disk_of (img : Z -> Z) (port : Z -> Z) : list Z :=
  (fun i => img (SECTSIZE * (lba port - 1) + Z.of_nat i)) <$> seq 0 512.

Lemma low_nibble x : 0 <= x < 16 -> Z.land (u8 (Z.lor x 0xE0)) 15 = x.
Proof.
  intros Hx. assert (forallb (fun k => Z.land (u8 (Z.lor (Z.of_nat k) 0xE0)) 15 =? Z.of_nat k) (seq 0 16) = true) as H by (vm_compute; reflexivity).
  rewrite forallb_forall in H. specialize (H (Z.to_nat x) ltac:(apply in_seq; lia)). rewrite Z2Nat.id in H by lia. by apply Z.eqb_eq.
Qed.

Lemma serves_disk_of img : serves (disk_of img) img.
Proof.
  intros off port Ho _ E3 E4 E5 E6 _. unfold disk_of.
  assert (lba port = off) as ->; [|done]. unfold lba. rewrite E3, E4, E5, E6. rewrite !Z.shiftr_div_pow2 by lia.
  rewrite low_nibble by (split; [apply Z.div_pos; lia|apply Z.div_lt_upper_bound; lia]). unfold u8.
  change (2 ^ 8) with 256. change (2 ^ 16) with 65536. change (2 ^ 24) with 16777216. Z.div_mod_to_equations. lia.
Qed.

Definition image_bytes_ex : list Z :=
  [127; 69; 76; 70] ++ replicate 20 0 ++ [12; 0; 16; 0] ++ [52; 0; 0; 0] ++ replicate 12 0 ++ [1; 0] ++ replicate 6 0 ++
  [1; 0; 0; 0] ++ [4; 16; 0; 0] ++ [0; 0; 16; 0] ++ [0; 0; 16; 0] ++ [100; 0; 0; 0] ++ [200; 0; 0; 0] ++ replicate 8 0.
Definition img_ex (x : Z) : Z :=
  if x <? 84 then from image_bytes_ex (Z.to_nat x) else if x <? 4100 then 0 else 7.

Lemma good_image_ex : good_image img_ex.
Proof.
  split.
  - intros x. unfold img_ex. destruct (x <? 84); [|by destruct (x <? 4100)].
    assert (forallb (fun v => (0 <=? v) && (v <? 256)) image_bytes_ex = true) as H by (vm_compute; reflexivity).
    rewrite forallb_forall in H. unfold from. destruct (image_bytes_ex !! Z.to_nat x) as [v|] eqn:E; cbn; [|lia].
    specialize (H v ltac:(apply list_elem_of_In; by eapply list_elem_of_lookup_2)). zb. lia.
  - by vm_compute.
  - by vm_compute.
  - intros k Hk. change (phnum img_ex) with 1%nat in Hk. assert (k = 0%nat) as -> by lia. by vm_compute.
  - intros k Hk. change (phnum img_ex) with 1%nat in Hk. assert (k = 0%nat) as -> by lia. right. by vm_compute.
  - intros j k x Hk. change (phnum img_ex) with 1%nat in Hk. lia.
Qed.

Lemma bootmain_loads_witness :
  exists s', bootmain (disk_of img_ex) (mk_boot (fun _ => 0) (fun _ => 0) (0x80 :: replicate 18 0x40)) = Ok (Some 0x10000c) s' /\
    in_place img_ex (bt_mem s') 0.
Proof.
  destruct (bootmain_loads (disk_of img_ex) img_ex (serves_disk_of img_ex) good_image_ex
    (mk_boot (fun _ => 0) (fun _ => 0) (0x80 :: replicate 18 0x40)) []) as (s' & E & _ & H).
  - change (2 * (8 + sectors_from img_ex (phnum img_ex) 0))%nat with 18%nat. cbn [bt_status].
    apply (polls_S 17 [0x80] 0x40 (replicate 17 0x40)); [by apply Forall_singleton|done|].
    cbn [replicate]. do 17 (apply (polls_S _ [] 0x40); [done|done|]). constructor.
  - exists s'. split; [exact E|]. apply H. by apply (bool_decide_unpack _).
Defined.
