(* ===== verification/Main.v ===== *)
(** * Start-up

    [main.c]: what the boot processor does before it runs the first process,
    the start of the other processors, and the page directory both begin with;
    [consoleinit] and [ideinit], which also set up an interrupt. *)

From stdpp Require Import prelude list gmap strings.
From Stdlib Require Import ZArith Lia.
From S2P Require Import Prelude State Boot Spinlock Str Kalloc Cprintf Vm Pgtable Sched Sema Sleeplock Bio Ide Log Fs File Kthread Exec Syscall Console Tty Platform Trap Asm.
#[local] Open Scope c_scope.

Definition consoleinit : B unit :=
  kern console_setup ;;
  ioapicenable IRQ_KBD 0.

(** The directory used until [kvmalloc]: 4-megabyte pages. *)
Definition PTE_PS : Z := 0x080.
Definition entrypgdir : list Z :=
  <[Z.to_nat (Z.shiftr KERNBASE PDXSHIFT) := Z.lor (Z.lor PTE_P PTE_W) PTE_PS]>
  (<[0%nat := Z.lor (Z.lor PTE_P PTE_W) PTE_PS]> (replicate 1024 0)).

Section Main.
Context `{IdeController} `{ConsoleDev}.
#[local] Existing Instance Ide.driver.

Definition ideinit : B unit :=
  kern (initlock LIde "ide") ;;
  n <- kern (gethw hw_ncpu) ;;
  ioapicenable IRQ_IDE (Z.of_nat n - 1) ;;
  kern Ide.ide_probe.

(** What the linker provides: the addresses of [mpenter] and [entrypgdir], the
    entry points of the trap stubs, the image of [entryother.S] with its
    address, and that of [initcode.S]. *)
Context (mpenter_addr entrypgdir_addr : Z) (vectors : list Z).
Context (entryother_start entryother_size : Z) (initcode : list Z).
(** The rounds of the scheduler's endless loop. *)
Context (rounds : nat).

(** Common CPU setup code. *)
Definition mpmain : B unit :=
  kern (c <- cpuid ;;
        c' <- cpuid ;;
        cprintf (s2b "cpu%d: starting %d" ++ nl) [AInt (Z.of_nat c); AInt (Z.of_nat c')]) ;;
  idtinit ;;
  kern (c <- mycpu ;; updcpu c (set_c_started 1)) ;;
  kern (scheduler rounds).

(** Other processors jump here from [entryother]. *)
Definition mpenter : B unit :=
  kern switchkvm ;;
  kern seginit ;;
  lapicinit ;;
  mpmain.

(** The page at physical address [0x7000]. *)
Definition code : Z := P2V 0x7000.

(** The turn of the loop of [startothers] for processor [k]; while it waits,
    the processor it has started runs. *)
Definition start_cpu (k : nat) : B unit :=
  stack <- kern kalloc ;;
  kern (store_word (code - 4) (stack + KSTACKSIZE)) ;;
  kern (store_word (code - 8) mpenter_addr) ;;
  kern (store_word (code - 12) (V2P entrypgdir_addr)) ;;
  c <- kern (getcpu k) ;;
  lapicstartap (c_apicid c) (V2P code) ;;
  kern (wait_loop (fun _ : unit =>
    c <- getcpu k ;;
    if c_started c =? 0 then others_run (fun _ => Diverge) ;; ret (inl tt)
    else ret (inr tt)) tt).

Definition startothers : B unit :=
  kern (updkm (fun k => set_km_mem (memmove (km_mem k) code entryother_start entryother_size) k)) ;;
  n <- kern (gethw hw_ncpu) ;;
  each_ n 0 (fun k =>
    me <- kern mycpu ;;
    if Nat.eqb k me then ret tt else start_cpu k).

(** Bootstrap processor starts running C code here. *)
Definition main : B unit :=
  e <- kern (getkm km_end) ;;
  kern (kinit1 e (P2V (4 * 1024 * 1024))) ;;
  kern kvmalloc ;;
  mpinit ;;
  lapicinit ;;
  kern seginit ;;
  picinit ;;
  ioapicinit ;;
  consoleinit ;;
  uartinit ;;
  kern pinit ;;
  tvinit vectors ;;
  kern binit ;;
  kern fileinit ;;
  ideinit ;;
  startothers ;;
  kern (kinit2 (P2V (4 * 1024 * 1024)) (P2V PHYSTOP)) ;;
  kern (userinit initcode) ;;
  mpmain.
End Main.

(** ** Starting a processor *)

Lemma lapicw_ok s i v a vs : pf_in s = a :: vs ->
  lapicw i v s = Ok tt (mk_platform (pf_world s) (pf_lapic s) (pf_ioapic s) (pf_ioapicid s) (pf_shift s) (pf_idt s)
    (Rd (pf_lapic s + 4 * Lapic.ID) a :: Wr (pf_lapic s + 4 * i) (u32 v) :: pf_trace s) vs).
Proof. intros Hin. unfold lapicw, lapicr, wr, rd, event, answer, bind, gets, ret. cbn [pf_in pf_lapic]. by rewrite Hin. Qed.

(** The device registers written, newest first. *)
Definition wr_of (e : io) : option (Z * Z) := match e with Wr a v => Some (a, v) | _ => None end.
Definition written_regs (tr : list io) : list (Z * Z) := omap wr_of tr.

(** The interprocessor interrupts of the start-up protocol, newest first: INIT
    is raised and lowered, then two STARTUPs follow. *)
Definition startup_ipis (lap apicid addr : Z) : list (Z * Z) :=
  let hi := (lap + 4 * Lapic.ICRHI, u32 (Z.shiftl apicid 24)) in
  let lo v := (lap + 4 * Lapic.ICRLO, v) in
  [lo (u32 (Z.lor Lapic.STARTUP (Z.shiftr addr 12))); hi; lo (u32 (Z.lor Lapic.STARTUP (Z.shiftr addr 12))); hi;
   lo (u32 (Z.lor Lapic.INIT Lapic.LEVEL)); lo (u32 (Z.lor (Z.lor Lapic.INIT Lapic.LEVEL) Lapic.ASSERT)); hi].

(** The warm reset vector. *)
Definition warm (m : mem) (addr : Z) : mem :=
  let wrv := P2V (Z.lor (Z.shiftl 0x40 4) 0x67) in
  store8 (store8 (store8 (store8 m wrv 0) (wrv + 1) 0) (wrv + 2) (Z.shiftr addr 4)) (wrv + 3) (Z.shiftr addr 12).

Lemma lapicstartap_ok hw pt km bc fs cn o lap ioa id sh it tr answers vs apicid addr : length answers = 7%nat ->
  exists tr', lapicstartap apicid addr (mk_platform (W hw pt km bc fs cn o) lap ioa id sh it tr (answers ++ vs)) =
    Ok tt (mk_platform (W hw pt (set_km_mem (warm (km_mem km) addr) km) bc fs cn o) lap ioa id sh it tr' vs) /\
  written_regs tr' = startup_ipis lap apicid addr ++ written_regs tr.
Proof.
  intros Hl. destruct answers as [|a1 [|a2 [|a3 [|a4 [|a5 [|a6 [|a7 [|]]]]]]]]; try done. cbn [app].
  set (ev := fun i v a => [Rd (lap + 4 * Lapic.ID) a; Wr (lap + 4 * i) (u32 v)]).
  set (hi := Z.shiftl apicid 24). set (start := Z.lor Lapic.STARTUP (Z.shiftr addr 12)).
  exists (ev Lapic.ICRLO start a7 ++ ev Lapic.ICRHI hi a6 ++ ev Lapic.ICRLO start a5 ++ ev Lapic.ICRHI hi a4 ++
    ev Lapic.ICRLO (Z.lor Lapic.INIT Lapic.LEVEL) a3 ++ ev Lapic.ICRLO (Z.lor (Z.lor Lapic.INIT Lapic.LEVEL) Lapic.ASSERT) a2 ++
    ev Lapic.ICRHI hi a1 ++ [Out (CMOS_PORT + 1) (u8 0x0A); Out CMOS_PORT (u8 0xF)] ++ tr).
  split; reflexivity.
Qed.

(** The words below the code of the other processors. *)
Definition boot_words (m : mem) (stack mpenter pgdir : Z) : mem :=
  store32 (store32 (store32 m (code - 4) (stack + KSTACKSIZE)) (code - 8) mpenter) (code - 12) (V2P pgdir).

Lemma boot_words_at m stack mpenter pgdir addr :
  0 <= stack + KSTACKSIZE < W32 -> 0 <= mpenter < W32 -> 0 <= V2P pgdir < W32 ->
  let m' := warm (boot_words m stack mpenter pgdir) addr in
  load32 m' (code - 4) = stack + KSTACKSIZE /\ load32 m' (code - 8) = mpenter /\ load32 m' (code - 12) = V2P pgdir.
Proof.
  intros Hs Hm Hp m'.
  assert (forall a, code - 12 <= a -> load32 m' a = load32 (boot_words m stack mpenter pgdir) a) as E.
  { intros a Ha. apply load32_ext. intros b Hb. unfold m', warm. change code with 2147512320 in Ha.
    rewrite !store8_ne by (change (P2V (Z.lor (Z.shiftl 0x40 4) 0x67)) with 2147484775; lia). done. }
  rewrite !E by lia. unfold boot_words. split; [|split].
  - rewrite !load32_store32_ne by lia. by apply load32_store32_eq.
  - rewrite load32_store32_ne by lia. by apply load32_store32_eq.
  - by apply load32_store32_eq.
Qed.

(** C34: [startothers] brings up a processor.  For processor [k] it takes a page
    for the stack, stores stack, entry point and page directory below the code
    at [0x7000] and sends the start-up interrupts to the processor's APIC; it
    goes on when the processor has said that it runs.  A processor that then
    executes the 32-bit part of [entryother.S], from [start32] on, on that memory
    gets to [mpenter] with paging on, the boot page directory loaded and its own stack. *)
Theorem start_cpu_launches mpenter pgdir hw pt km bc fs cn i c k ck f o lap ioa id sh it tr answers vs hw' pt' km' bc' fs' cn' ck' :
  here hw i c -> kmem_ready hw km -> km_freelist km <> 0 -> 0 <= km_freelist km + KSTACKSIZE < W32 -> 4 <= km_freelist km ->
  0 <= mpenter < W32 -> 0 <= V2P pgdir < W32 ->
  hw_cpus (lk_touch (km_use_lock km) i hw) !! k = Some ck -> c_started ck = 0 -> length answers = 7%nat ->
  let m1 := warm (boot_words (km_mem km) (km_freelist km) mpenter pgdir) 0x7000 in
  let k1 := mk_k (lk_touch (km_use_lock km) i hw) pt (set_km_mem m1 (km_pop km (km_freelist km))) bc fs cn in
  f k1 = mk_k hw' pt' km' bc' fs' cn' -> hw_cpus hw' !! k = Some ck' -> c_started ck' <> 0 ->
  (exists tr', start_cpu mpenter pgdir k (mk_platform (W hw pt km bc fs cn (f :: o)) lap ioa id sh it tr (answers ++ vs)) =
      Ok tt (mk_platform (W hw' pt' km' bc' fs' cn' o) lap ioa id sh it tr' vs) /\
    written_regs tr' = startup_ipis lap (c_apicid ck) 0x7000 ++ written_regs tr) /\
  forall s next, (forall x, 0x7000 - 12 <= x < 0x7000 -> m_mem s x = m1 (P2V x)) ->
    let s' := exec (entryother 0x7000 next) s in
    m_eip s' = mpenter /\ m_reg s' ESP = km_freelist km + KSTACKSIZE - 4 /\ m_cr s' 3 = V2P pgdir /\
    m_cr s' 0 = Z.lor (m_cr s 0) (Z.lor (Z.lor CR0_PE CR0_PG) CR0_WP).
Proof.
  intros Hh Hr Hf Hst Hst4 Hm Hp Hck Hs0 Hl m1 k1 Ef Hck' Hs1. split.
  - destruct (lapicstartap_ok (lk_touch (km_use_lock km) i hw) pt
      (set_km_mem (boot_words (km_mem km) (km_freelist km) mpenter pgdir) (km_pop km (km_freelist km))) bc fs cn (f :: o)
      lap ioa id sh it tr answers vs (c_apicid ck) 0x7000 Hl) as (tr' & E & Hw).
    exists tr'. split; [|done]. unfold start_cpu.
    rewrite (bind_ok _ _ _ (km_freelist km) (mk_platform (W (lk_touch (km_use_lock km) i hw) pt (km_pop km (km_freelist km)) bc fs cn (f :: o)) lap ioa id sh it tr (answers ++ vs))).
    2:{ unfold kern. cbn [pf_world]. erewrite kalloc_eq by done. by rewrite (proj2 (Z.eqb_neq _ _) Hf). }
    set (P := fun m => mk_platform (W (lk_touch (km_use_lock km) i hw) pt (set_km_mem m (km_pop km (km_freelist km))) bc fs cn (f :: o)) lap ioa id sh it tr (answers ++ vs)).
    rewrite (bind_ok _ _ _ tt (P (store32 (km_mem km) (code - 4) (km_freelist km + KSTACKSIZE)))) by reflexivity.
    rewrite (bind_ok _ _ _ tt (P (store32 (store32 (km_mem km) (code - 4) (km_freelist km + KSTACKSIZE)) (code - 8) mpenter))) by reflexivity.
    rewrite (bind_ok _ _ _ tt (P (boot_words (km_mem km) (km_freelist km) mpenter pgdir))) by reflexivity. unfold P.
    erewrite (bind_ok (kern (getcpu k))) by (unfold kern; cbn [pf_world]; erewrite getcpu_ok by exact Hck; reflexivity).
    erewrite bind_ok by exact E. unfold kern. cbn [pf_world]. unfold wait_loop. cbn [w_others length loop_].
    erewrite bind_ok by (erewrite bind_ok by (by apply getcpu_ok); rewrite Hs0; cbn [Z.eqb]; unfold others_run; cbn [w_others bind]; reflexivity).
    match goal with |- context [f ?x] => change x with k1 end. rewrite Ef.
    erewrite bind_ok by (erewrite bind_ok by (by apply getcpu_ok); rewrite (proj2 (Z.eqb_neq _ _) Hs1); reflexivity). done.
  - intros s next Hmem s'. destruct (boot_words_at (km_mem km) (km_freelist km) mpenter pgdir 0x7000 Hst Hm Hp) as (W1 & W2 & W3).
    assert (forall j, 0 <= j <= 8 -> load32 (m_mem s) (0x7000 - 12 + j) = load32 m1 (code - 12 + j)) as Hw.
    { intros j Hj. unfold load32. rewrite !Hmem by lia. fold m1.
      assert (forall x, 0x7000 - 12 <= x < 0x7000 -> P2V x = code - 0x7000 + x) as HP
        by (intros x Hx; unfold code, P2V; change KERNBASE with 2147483648; rewrite !u32_small by (unfold W32; lia); lia).
      replace (P2V (0x7000 - 12 + j)) with (code - 12 + j) by (rewrite HP; lia).
      replace (P2V (0x7000 - 12 + j + 1)) with (code - 12 + j + 1) by (rewrite HP; lia).
      replace (P2V (0x7000 - 12 + j + 2)) with (code - 12 + j + 2) by (rewrite HP; lia).
      by replace (P2V (0x7000 - 12 + j + 3)) with (code - 12 + j + 3) by (rewrite HP; lia). }
    pose proof (Hw 0 ltac:(lia)) as Hw0. pose proof (Hw 4 ltac:(lia)) as Hw4. pose proof (Hw 8 ltac:(lia)) as Hw8.
    replace (code - 12 + 0) with (code - 12) in Hw0 by lia. replace (code - 12 + 4) with (code - 8) in Hw4 by lia.
    replace (code - 12 + 8) with (code - 4) in Hw8 by lia. unfold m1 in Hw0, Hw4, Hw8. rewrite W3 in Hw0. rewrite W2 in Hw4. rewrite W1 in Hw8.
    destruct (entryother_calls 0x7000 next s) as (E1 & E2 & E3 & E4).
    { change (0x7000 - 4) with (0x7000 - 12 + 8). rewrite Hw8. unfold KSTACKSIZE in *. lia. }
    change (0x7000 - 8) with (0x7000 - 12 + 4) in E1. change (0x7000 - 4) with (0x7000 - 12 + 8) in E2. change (0x7000 - 12) with (0x7000 - 12 + 0) in E3.
    rewrite Hw4 in E1. rewrite Hw8 in E2. rewrite Hw0 in E3. done.
Qed.

(** ** The boot page directory *)

(** Translation through a directory of 4-megabyte pages. *)
Definition big_page (pgdir : list Z) (va : Z) : option Z :=
  e ← pgdir !! Z.to_nat (va / 2 ^ 22);
  if negb (Z.land e PTE_P =? 0) && negb (Z.land e PTE_PS =? 0) then Some (e / 2 ^ 22 * 2 ^ 22 + va mod 2 ^ 22) else None.

(** The directory maps the first four megabytes of memory at 0, where the code
    that loads it runs, and at [KERNBASE], where the kernel is linked, and
    nothing else. *)
Lemma entrypgdir_maps va : 0 <= va < W32 ->
  big_page entrypgdir va =
  if decide (va < 2 ^ 22) then Some va else
  if decide (KERNBASE <= va < KERNBASE + 2 ^ 22) then Some (va - KERNBASE) else None.
Proof.
  intros Hva. unfold big_page, entrypgdir. change (Z.to_nat (Z.shiftr KERNBASE PDXSHIFT)) with 512%nat.
  change KERNBASE with 2147483648. change (2 ^ 22) with 4194304. unfold W32 in Hva.
  assert (Z.to_nat (va / 4194304) < 1024)%nat as Hlt by (Z.div_mod_to_equations; lia).
  assert (0 <= va / 4194304) by (apply Z.div_pos; lia).
  destruct (decide (Z.to_nat (va / 4194304) = 512%nat)) as [E|E].
  - rewrite E, list_lookup_insert_eq by (rewrite length_insert, length_replicate; lia). 
    cbn [mbind option_bind]. change (Z.lor (Z.lor PTE_P PTE_W) PTE_PS) with 131. cbn [Z.land Pos.land Z.eqb negb andb Pos.eqb PTE_P PTE_PS].
    rewrite decide_False, decide_True by (Z.div_mod_to_equations; lia). f_equal. Z.div_mod_to_equations; lia.
  - rewrite list_lookup_insert_ne by done. destruct (decide (Z.to_nat (va / 4194304) = 0%nat)) as [E0|E0].
    + rewrite E0, list_lookup_insert_eq by (rewrite length_replicate; lia). 
      cbn [mbind option_bind]. change (Z.lor (Z.lor PTE_P PTE_W) PTE_PS) with 131. cbn [Z.land Pos.land Z.eqb negb andb Pos.eqb PTE_P PTE_PS].
      rewrite decide_True by (Z.div_mod_to_equations; lia). f_equal. Z.div_mod_to_equations; lia.
    + rewrite list_lookup_insert_ne, lookup_replicate_2 by done. cbn [mbind option_bind Z.land Z.eqb negb andb].
      rewrite !decide_False by (Z.div_mod_to_equations; lia). done.
Qed.

(** ** The property at work *)

(** The second processor sets its flag as soon as it runs. *)
Definition runs_one (k : kstate) : kstate :=
  mk_k (set_hw_cpus (alter (set_c_started 1) 1%nat (hw_cpus (k_hw k))) (k_hw k)) (k_pt k) (k_km k) (k_bc k) (k_fs k) (k_cn k).

Lemma start_cpu_launches_witness :
  exists k' tr', start_cpu 0x80103000 0x80109000 1 (mk_platform (W hw_run pt0 km_one bc0 fs0 cn0 [runs_one]) 0xFEE00000 IOAPIC 0 0 [] [] (replicate 7 0 ++ [])) =
    Ok tt (mk_platform (mk_world k' []) 0xFEE00000 IOAPIC 0 0 [] tr' []) /\ length (written_regs tr') = 7%nat.
Proof.
  destruct (start_cpu_launches 0x80103000 0x80109000 hw_run pt0 km_one bc0 fs0 cn0 0 c_run 1 zcpu runs_one [] 0xFEE00000 IOAPIC 0 0 [] []
    (replicate 7 0) [] (set_hw_cpus (alter (set_c_started 1) 1%nat (hw_cpus hw_run)) hw_run) pt0
    (set_km_mem (warm (boot_words (km_mem km_one) (km_freelist km_one) 0x80103000 0x80109000) 0x7000) (km_pop km_one (km_freelist km_one)))
    bc0 fs0 cn0 (set_c_started 1 zcpu) here_run (ready_run km_one) ltac:(done) ltac:(done) ltac:(done) ltac:(done) ltac:(done)
    eq_refl eq_refl eq_refl eq_refl eq_refl ltac:(done)) as [(tr' & E & Hw) _].
  eexists _, tr'. split; [exact E|]. rewrite Hw. reflexivity.
Defined.
