(* ===== verification/Ulib.v ===== *)
(** * The user library

    [ulib.c] and [printf.c].  Strings are the bytes before the NUL; [gets]
    takes the results of its calls of [read], [printf] gives the bytes it
    writes. *)

From stdpp Require Import prelude list strings.
From Stdlib Require Import ZArith Lia.
From S2P Require Import Prelude State Spinlock Str Cprintf.

(** ** ulib.c *)

(** The bytes [strcpy] stores: the string and its NUL. *)
Fixpoint strcpy (t : list Z) : list Z :=
  match t with
  | [] => [0]
  | c :: t' => c :: strcpy t'
  end.

Fixpoint strcmp (p q : list Z) : Z :=
  match p with
  | [] => 0 - u8 (default 0 (head q))
  | c :: p' =>
    match q with
    | d :: q' => if c =? d then strcmp p' q' else u8 c - u8 d
    | [] => u8 c
    end
  end.

(** The rest of the string from the first [c] on. *)
Fixpoint strchr (s : list Z) (c : Z) : option (list Z) :=
  match s with
  | [] => None
  | d :: s' => if d =? c then Some s else strchr s' c
  end.

(** [gets]: [reads] are the results of [read(0, &c, 1)], [None] for a result
    below 1. *)
Fixpoint gets_loop (reads : list (option Z)) (room : nat) : list Z :=
  match room with
  | O => []
  | S room =>
    match reads with
    | [] | None :: _ => []
    | Some c :: reads =>
      if (c =? 10) || (c =? 13) then [c] else c :: gets_loop reads room
    end
  end.
Definition gets (reads : list (option Z)) (max : Z) : list Z :=
  gets_loop reads (Z.to_nat (max - 1)).

Fixpoint atoi_loop (n : Z) (s : list Z) : Z :=
  match s with
  | c :: s' => if (48 <=? c) && (c <=? 57) then atoi_loop (s32 (n * 10 + c - 48)) s' else n
  | [] => n
  end.
Definition atoi (s : list Z) : Z := atoi_loop 0 s.

(** [memmove] of the user library copies upward, whatever the overlap. *)
Definition umemmove (m : mem) (dst src n : Z) : mem := copy_fwd m dst src (Z.to_nat n).
Definition umemset (m : mem) (dst c n : Z) : mem := stosb m dst c (Z.to_nat n).

(** ** printf.c *)

Definition udigits : list Z := s2b "0123456789ABCDEF".

Definition uprintint (xx base : Z) (sgn : bool) : list Z :=
  let neg := sgn && (xx <? 0) in
  let x := if neg then u32 (- xx) else u32 xx in
  let buf := digits_rev 16 udigits x base in
  reverse (if neg then buf ++ [45] else buf).

(** A word of the argument list and, for %s, the string it points to. *)
Inductive uarg := UInt (v : Z) | UStr (s : option (list Z)).

(** The bytes [printf] writes, with [state] set after a percent sign; [None]
    if the argument list is too short or of the wrong kind. *)
Fixpoint printf_loop (fmt : list Z) (state : bool) (ap : list uarg) : option (list Z) :=
  match fmt with
  | [] => Some []
  | c :: fmt =>
    if negb state then
      if c =? 37 then printf_loop fmt true ap
      else (app [c]) <$> printf_loop fmt false ap
    else
      if c =? 100 then
        match ap with
        | UInt v :: ap => app (uprintint (s32 v) 10 true) <$> printf_loop fmt false ap
        | _ => None
        end
      else if (c =? 120) || (c =? 112) then
        match ap with
        | UInt v :: ap => app (uprintint (s32 v) 16 false) <$> printf_loop fmt false ap
        | _ => None
        end
      else if c =? 115 then
        match ap with
        | UStr s :: ap => app (default (s2b "(null)") s) <$> printf_loop fmt false ap
        | _ => None
        end
      else if c =? 99 then
        match ap with
        | UInt v :: ap => app [u8 v] <$> printf_loop fmt false ap
        | _ => None
        end
      else if c =? 37 then app [c] <$> printf_loop fmt false ap
      else app [37; c] <$> printf_loop fmt false ap
  end.
Definition printf (fmt : list Z) (ap : list uarg) : option (list Z) := printf_loop fmt false ap.

(** ** Numbers survive printing and reading *)

(** The number a list of digit characters denotes, last digit first. *)
Fixpoint undigits (l : list Z) : Z :=
  match l with [] => 0 | c :: l' => (c - 48) + 10 * undigits l' end.

Definition is_digit (c : Z) : Prop := 48 <= c <= 57.

Lemma digit_char (tbl : list Z) d :
  (forall d, 0 <= d < 10 -> tbl !! Z.to_nat d = Some (48 + d)) ->
  0 <= d < 10 -> default 0 (tbl !! Z.to_nat d) = 48 + d.
Proof. intros H Hd. by rewrite H. Qed.

Lemma udigits_tbl d : 0 <= d < 10 -> udigits !! Z.to_nat d = Some (48 + d).
Proof.
  intros H. assert (exists n, d = Z.of_nat n /\ (n < 10)%nat) as (n & -> & Hn).
  { exists (Z.to_nat d). lia. }
  rewrite Nat2Z.id. do 10 (destruct n as [|n]; [done|]). lia.
Qed.

Lemma digits_rev_undigits fuel x :
  0 <= x < 10 ^ Z.of_nat fuel ->
  Forall is_digit (digits_rev fuel udigits x 10) /\
  undigits (digits_rev fuel udigits x 10) = x.
Proof.
  revert x. induction fuel as [|fuel IH]; intros x Hx.
  { cbn in Hx |- *. split; [done|lia]. }
  cbn [digits_rev undigits].
  assert (0 <= x mod 10 < 10) as Hm by (apply Z.mod_pos_bound; lia).
  rewrite (digit_char _ _ udigits_tbl Hm).
  rewrite Nat2Z.inj_succ, Z.pow_succ_r in Hx by lia.
  assert (0 <= x / 10 < 10 ^ Z.of_nat fuel) as Hd.
  { split; [apply Z.div_pos; lia|]. apply Z.div_lt_upper_bound; lia. }
  destruct (Z.eqb_spec (x / 10) 0) as [E|E].
  - split; [constructor; [split; lia|constructor]|]. cbn.
    Z.div_mod_to_equations. lia.
  - destruct (IH _ Hd) as [H1 H2]. split; [constructor; [split; lia|done]|].
    rewrite H2. Z.div_mod_to_equations. lia.
Qed.

(** The value of digits read from the left, after [n]. *)
Definition read_digits (n : Z) (l : list Z) : Z := foldl (fun n c => n * 10 + (c - 48)) n l.

Lemma read_digits_mono n l : 0 <= n -> Forall is_digit l -> n <= read_digits n l.
Proof.
  intros Hn Hl. revert n Hn. induction Hl as [|c l [H1 H2] _ IH]; intros n Hn; cbn; [lia|].
  etrans; [|apply IH; lia]. lia.
Qed.

Lemma read_digits_reverse l : read_digits 0 (reverse l) = undigits l.
Proof.
  unfold read_digits. induction l as [|c l IH]; [done|].
  rewrite reverse_cons, foldl_snoc, IH. cbn [undigits]. lia.
Qed.

Lemma atoi_loop_digits n l rest :
  Forall is_digit l -> (match rest with c :: _ => ~ is_digit c | [] => True end) ->
  0 <= n -> read_digits n l < 2147483648 ->
  atoi_loop n (l ++ rest) = read_digits n l.
Proof.
  intros Hl Hr. revert n. induction Hl as [|c l [H1 H2] Hl IH]; intros n Hn Hb.
  - destruct rest as [|c rest]; [done|]. cbn [app atoi_loop].
    destruct (Z.leb_spec 48 c), (Z.leb_spec c 57); try done. exfalso. apply Hr. by split.
  - cbn [app atoi_loop]. destruct (Z.leb_spec 48 c), (Z.leb_spec c 57); try lia. cbn [andb].
    change (read_digits n (c :: l)) with (read_digits (n * 10 + (c - 48)) l) in *.
    pose proof (read_digits_mono (n * 10 + (c - 48)) l ltac:(lia) Hl).
    rewrite s32_small by lia. replace (n * 10 + c - 48) with (n * 10 + (c - 48)) by lia.
    apply IH; [lia|done].
Qed.

(** ** Properties *)

(** what [printf] prints with %d, [atoi] reads back: the value, for
    every non-negative int, also when text that is not a digit follows. *)
Theorem atoi_printint x rest :
  0 <= x < 2147483648 -> (match rest with c :: _ => ~ is_digit c | [] => True end) ->
  printf (s2b "%d" ++ rest) [UInt x] = (app (uprintint x 10 true)) <$> printf rest [] /\
  atoi (uprintint x 10 true ++ rest) = x.
Proof.
  intros Hx Hr. split.
  { change (printf (s2b "%d" ++ rest) [UInt x]) with (app (uprintint (s32 x) 10 true) <$> printf rest []).
    by rewrite s32_small by lia. }
  unfold uprintint. destruct (Z.ltb_spec x 0); [lia|]. cbn [andb].
  rewrite u32_small by (unfold W32; lia).
  destruct (digits_rev_undigits 16 x) as [Hd Hu]; [lia|].
  unfold atoi. rewrite atoi_loop_digits; rewrite ?read_digits_reverse, ?Hu; try done; [|lia].
  by apply Forall_reverse.
Qed.

Lemma atoi_printint_witness : atoi (s2b "2026;") = 2026.
Proof. apply (atoi_printint 2026 (s2b ";")); [lia|].
  intros [_ H]. vm_compute in H. by apply H. Defined.
