(* ===== verification/Grep.v ===== *)
(** * grep

    [grep.c]: the regular expression matcher (characters, [.], [*], [^] and
    [$]) and the loop that reads lines and prints the matching ones. *)

From stdpp Require Import prelude list strings.
From Stdlib Require Import ZArith Lia.
From S2P Require Import Prelude State Spinlock Str Cprintf Ulib.

Definition STAR : Z := 42.
Definition DOLLAR : Z := 36.
Definition DOT : Z := 46.
Definition HAT : Z := 94.

(** [matchstar]: search for c*re at beginning of text; [here] is
    [matchhere(re, _)]. *)
Fixpoint matchstar (here : list Z -> bool) (c : Z) (text : list Z) : bool :=
  if here text then true else
  match text with
  | [] => false
  | t :: text' => if (t =? c) || (c =? DOT) then matchstar here c text' else false
  end.

(** [matchhere]: search for re at beginning of text. *)
Fixpoint matchhere (re : list Z) (text : list Z) : bool :=
  match re with
  | [] => true
  | c :: re1 =>
    let one := fun _ : unit =>
      if (c =? DOLLAR) && bool_decide (re1 = []) then bool_decide (text = [])
      else match text with
           | t :: text' => if (c =? DOT) || (c =? t) then matchhere re1 text' else false
           | [] => false
           end in
    match re1 with
    | s :: re2 => if s =? STAR then matchstar (matchhere re2) c text else one tt
    | [] => one tt
    end
  end.

(** The loop of [match]: at every suffix, the empty one included. *)
Fixpoint match_any (re : list Z) (text : list Z) : bool :=
  if matchhere re text then true else
  match text with [] => false | _ :: text' => match_any re text' end.

Definition match_ (re text : list Z) : bool :=
  match re with
  | c :: re' => if c =? HAT then matchhere re' text else match_any re text
  | [] => match_any re text
  end.

(** ** The loop over the input

    The successive results of [read(fd, buf+m, sizeof(buf)-m-1)] are a list of
    chunks; the end of the list is the end of the file. *)

Definition NL : Z := 10.
Definition BUFSZ : Z := 1024.

(** [q = strchr(p, '\n')]: the line before the newline and what comes after
    it.  A NUL ends the search. *)
Fixpoint split_line (p : list Z) : option (list Z * list Z) :=
  match p with
  | [] => None
  | c :: p' => if c =? 0 then None
               else if c =? NL then Some ([], p')
               else match split_line p' with
                    | Some (l, r) => Some (c :: l, r)
                    | None => None
                    end
  end.

(** [while((q = strchr(p, '\n')) != 0)]: what is written, and what [p] points
    to in the end. *)
Fixpoint grep_lines (fuel : nat) (re p : list Z) : list Z * list Z :=
  match fuel with
  | O => ([], p)
  | S n =>
    match split_line p with
    | None => ([], p)
    | Some (line, rest) =>
      let (out, last) := grep_lines n re rest in
      ((if match_ re line then line ++ [NL] else []) ++ out, last)
    end
  end.

(** [grep]: [buf] holds the bytes kept from the chunks before.  [None] if a
    chunk is longer than what [read] was asked for. *)
Fixpoint grep_loop (re : list Z) (chunks : list (list Z)) (buf : list Z)
    : option (list Z) :=
  match chunks with
  | [] | [] :: _ => Some []
  | chunk :: chunks =>
    if BUFSZ - Z.of_nat (length buf) - 1 <? Z.of_nat (length chunk) then None else
    let buf := buf ++ chunk in
    let (out, last) := grep_lines (S (length buf)) re buf in
    app out <$> grep_loop re chunks (if bool_decide (last = buf) then [] else last)
  end.
Definition grep (re : list Z) (chunks : list (list Z)) : option (list Z) :=
  grep_loop re chunks [].

(** ** What the patterns mean *)

(** [matches re text]: [re] matches at the beginning of [text]. *)
Inductive matches : list Z -> list Z -> Prop :=
| m_nil text : matches [] text
| m_end : matches [DOLLAR] []
| m_char c t re text :
    head re <> Some STAR -> ~ (c = DOLLAR /\ re = []) ->
    c = DOT \/ c = t -> matches re text -> matches (c :: re) (t :: text)
| m_star c re pre text :
    Forall (fun t => t = c \/ c = DOT) pre -> matches re text ->
    matches (c :: STAR :: re) (pre ++ text).

Lemma matchstar_spec (f : list Z -> bool) (P : list Z -> Prop) c text :
  (forall t, f t = true <-> P t) ->
  matchstar f c text = true <->
  exists pre post, text = pre ++ post /\ Forall (fun t => t = c \/ c = DOT) pre /\ P post.
Proof.
  intros Hf. induction text as [|t text IH]; cbn [matchstar].
  - destruct (f []) eqn:E.
    + split; [|done]. intros _. exists [], []. split; [done|]. split; [done|]. by apply Hf.
    + split; [done|]. intros (pre & post & Heq & _ & HP).
      symmetry in Heq. apply app_eq_nil in Heq as [-> ->]. apply Hf in HP. congruence.
  - destruct (f (t :: text)) eqn:E.
    { split; [|done]. intros _. exists [], (t :: text). split; [done|]. split; [done|]. by apply Hf. }
    destruct ((t =? c) || (c =? DOT)) eqn:Et.
    + rewrite IH. assert (t = c \/ c = DOT) as Ht.
      { apply orb_true_iff in Et as [H|H]; apply Z.eqb_eq in H; auto. }
      split.
      * intros (pre & post & -> & Hp & HP). exists (t :: pre), post. split; [done|].
        split; [by constructor|done].
      * intros ([|t' pre] & post & Heq & Hp & HP).
        { cbn in Heq. subst post. apply Hf in HP. congruence. }
        cbn in Heq. simplify_eq. inversion Hp; subst. by exists pre, post.
    + split; [done|]. intros ([|t' pre] & post & Heq & Hp & HP).
      { cbn in Heq. subst post. apply Hf in HP. congruence. }
      cbn in Heq. simplify_eq. inversion Hp as [|x l [-> | ->] _]; subst.
      * by rewrite Z.eqb_refl in Et.
      * by rewrite orb_true_r in Et.
Qed.

(** The last two tests of [matchhere]. *)
Lemma matchone_spec c re text :
  (forall text, matchhere re text = true <-> matches re text) ->
  head re <> Some STAR ->
  (if (c =? DOLLAR) && bool_decide (re = []) then bool_decide (text = [])
   else match text with
        | t :: text' => if (c =? DOT) || (c =? t) then matchhere re text' else false
        | [] => false
        end) = true <-> matches (c :: re) text.
Proof.
  intros IH Hs. destruct ((c =? DOLLAR) && bool_decide (re = [])) eqn:E.
  - apply andb_true_iff in E as [E1 E2]. apply Z.eqb_eq in E1. apply bool_decide_eq_true in E2.
    subst. rewrite bool_decide_eq_true. split; [intros ->; constructor|].
    intros H. inversion H; subst; naive_solver.
  - assert (~ (c = DOLLAR /\ re = [])) as Hn.
    { intros [-> ->]. by rewrite Z.eqb_refl, bool_decide_eq_true_2 in E. }
    destruct text as [|t text].
    { split; [done|]. intros H. inversion H; subst; naive_solver. }
    destruct ((c =? DOT) || (c =? t)) eqn:Ec.
    + rewrite IH. apply orb_true_iff in Ec. rewrite !Z.eqb_eq in Ec.
      split; [intros H; by constructor|]. intros H. inversion H; subst; naive_solver.
    + apply orb_false_iff in Ec. rewrite !Z.eqb_neq in Ec. split; [done|].
      intros H. inversion H; subst; naive_solver.
Qed.

Lemma matchhere_spec re text : matchhere re text = true <-> matches re text.
Proof.
  revert text. induction re as [re IH] using (induction_ltof1 _ (@length Z)); intros text.
  unfold ltof in IH. destruct re as [|c [|s re2]].
  - split; [constructor|done].
  - apply (matchone_spec c []); [|done]. intros t. apply IH. cbn. lia.
  - cbn [matchhere]. destruct (Z.eqb_spec s STAR) as [->|Hs].
    + rewrite (matchstar_spec _ (matches re2)) by (intros t; apply IH; cbn; lia). split.
      * intros (pre & post & -> & Hp & HP). by constructor.
      * intros H. inversion H; subst; [cbn in *; congruence|]. eauto.
    + apply (matchone_spec c (s :: re2)); [|cbn; congruence]. intros t. apply IH. cbn. lia.
Qed.

Lemma match_any_spec re text :
  match_any re text = true <-> exists pre post, text = pre ++ post /\ matches re post.
Proof.
  induction text as [|t text IH]; cbn [match_any].
  - destruct (matchhere re []) eqn:E.
    + split; [|done]. intros _. exists [], []. split; [done|]. by apply matchhere_spec.
    + split; [done|]. intros (pre & post & Heq & H). symmetry in Heq.
      apply app_eq_nil in Heq as [-> ->]. apply matchhere_spec in H. congruence.
  - destruct (matchhere re (t :: text)) eqn:E.
    { split; [|done]. intros _. exists [], (t :: text). split; [done|]. by apply matchhere_spec. }
    rewrite IH. split.
    + intros (pre & post & -> & H). by exists (t :: pre), post.
    + intros ([|t' pre] & post & Heq & H); cbn in Heq; simplify_eq.
      * apply matchhere_spec in H. congruence.
      * by exists pre, post.
Qed.

(** ** Lines *)

(** The lines [ls], each followed by a newline. *)
Definition join_lines (ls : list (list Z)) : list Z := mjoin ((fun l => l ++ [NL]) <$> ls).

Lemma join_lines_cons l ls : join_lines (l :: ls) = l ++ [NL] ++ join_lines ls.
Proof. unfold join_lines. cbn. by rewrite <- app_assoc. Qed.

Lemma join_lines_app ls ls' : join_lines (ls ++ ls') = join_lines ls ++ join_lines ls'.
Proof. unfold join_lines. by rewrite fmap_app, join_app. Qed.

(** A line of text: neither newline nor NUL. *)
Definition is_line (l : list Z) : Prop := NL ∉ l /\ 0 ∉ l.

Lemma split_line_eq line rest :
  is_line line -> split_line (line ++ [NL] ++ rest) = Some (line, rest).
Proof.
  unfold is_line. induction line as [|c line IH]; intros Hn; [done|]. cbn [app split_line].
  destruct (Z.eqb_spec c 0) as [->|]; [set_solver|].
  destruct (Z.eqb_spec c NL) as [->|]; [set_solver|]. cbn [app] in IH.
  rewrite IH by set_solver. done.
Qed.

Lemma split_line_none p : NL ∉ p -> split_line p = None.
Proof.
  induction p as [|c p IH]; intros Hn; [done|]. cbn [split_line]. destruct (c =? 0); [done|].
  destruct (Z.eqb_spec c NL) as [->|]; [set_solver|]. by rewrite IH by set_solver.
Qed.

Lemma grep_lines_spec re ls tail fuel :
  Forall is_line ls -> NL ∉ tail -> (length ls < fuel)%nat ->
  grep_lines fuel re (join_lines ls ++ tail) =
  (join_lines (filter (fun l => match_ re l = true) ls), tail).
Proof.
  intros Hl Ht. revert fuel. induction Hl as [|l ls Hl Hls IH]; intros [|fuel] Hf;
    cbn [length] in Hf; try lia; cbn [grep_lines].
  - change (join_lines [] ++ tail) with tail. by rewrite split_line_none.
  - rewrite join_lines_cons, <- !app_assoc, split_line_eq by done. rewrite IH by lia.
    rewrite filter_cons. destruct (match_ re l) eqn:E.
    + by rewrite decide_True, join_lines_cons, <- app_assoc by done.
    + by rewrite decide_False by done.
Qed.

Lemma join_lines_length ls : (length ls <= length (join_lines ls))%nat.
Proof.
  induction ls as [|l ls IH]; [done|].
  rewrite join_lines_cons, !length_app. cbn [length]. lia.
Qed.

(** ** Properties *)

(** C23: the matcher is correct.  [match(re, text)] holds exactly when the
    pattern matches at the beginning of the text (after a leading [^]) or
    somewhere in it, the empty suffix included, where [c*] stands for any number
    of [c], [.] for any character and a final [$] for the end of the text. *)
Theorem match_correct re text :
  match_ re text = true <->
  match re with
  | c :: re' => if c =? HAT then matches re' text
                else exists pre post, text = pre ++ post /\ matches re post
  | [] => True
  end.
Proof.
  destruct re as [|c re]; cbn [match_].
  - split; [done|]. intros _. destruct text; done.
  - destruct (c =? HAT); [apply matchhere_spec|apply match_any_spec].
Qed.

(** C24: [grep] prints the matching lines of a text without NUL bytes.  When
    every read ends at the end of a line and fits the buffer, the output is the
    lines of the input that match, in order, each with its newline. *)
Theorem grep_prints_matching_lines re chunks :
  Forall (fun ls => ls <> [] /\ Forall is_line ls /\
                    Z.of_nat (length (join_lines ls)) < BUFSZ) chunks ->
  grep re (join_lines <$> chunks) =
  Some (join_lines (filter (fun l => match_ re l = true) (mjoin chunks))).
Proof.
  unfold grep. induction 1 as [|ls chunks (Hne & Hl & Hlen) _ IH]; [done|].
  cbn [fmap list_fmap grep_loop mjoin list_join].
  pose proof (join_lines_length ls) as Hge.
  destruct (join_lines ls) as [|c cs] eqn:E.
  { destruct ls; [done|]. cbn in Hge. lia. }
  rewrite <- E in *. clear E. cbn [length app].
  destruct (Z.ltb_spec (BUFSZ - Z.of_nat 0 - 1) (Z.of_nat (length (join_lines ls)))); [lia|].
  rewrite <- (app_nil_r (join_lines ls)) at 2. rewrite (grep_lines_spec re ls []) by (set_solver || lia).
  destruct (bool_decide _); rewrite IH; cbn [fmap option_fmap option_map];
    by rewrite filter_app, join_lines_app.
Qed.

(** C25: [grep] forgets a line that a read cuts short.  A chunk at the start of
    the buffer that holds no newline is dropped, so the rest of the input is
    searched as if it had not been read; a last line without newline is never
    printed. *)
Theorem grep_forgets_partial_line re part chunks :
  part <> [] -> NL ∉ part -> Z.of_nat (length part) < BUFSZ ->
  grep re (part :: chunks) = grep re chunks.
Proof.
  intros Hne Hn Hlen. unfold grep. cbn [grep_loop]. destruct part as [|c part]; [done|].
  set (p := c :: part) in *. cbn [length app].
  destruct (Z.ltb_spec (BUFSZ - Z.of_nat 0 - 1) (Z.of_nat (length p))); [lia|].
  cbn [grep_lines]. rewrite split_line_none, bool_decide_eq_true_2 by done.
  by destruct (grep_loop re chunks []).
Qed.

Lemma grep_prints_matching_lines_witness :
  grep (s2b "^ab*c$") [join_lines [s2b "xabc"; s2b "abbc"]; join_lines [s2b "ac"; s2b "a"]] =
  Some (join_lines [s2b "abbc"; s2b "ac"]).
Proof.
  apply (grep_prints_matching_lines (s2b "^ab*c$")
    [[s2b "xabc"; s2b "abbc"]; [s2b "ac"; s2b "a"]]).
  repeat constructor; try discriminate; apply (bool_decide_unpack _); vm_compute; exact I.
Defined.

(** The line is abc, and a matches it. *)
Lemma grep_forgets_partial_line_witness :
  match_ (s2b "a") (s2b "abc") = true /\
  grep (s2b "a") [s2b "ab"; s2b "c" ++ [NL]] = Some [].
Proof.
  split; [reflexivity|].
  rewrite (grep_forgets_partial_line (s2b "a") (s2b "ab") [s2b "c" ++ [NL]]);
    [reflexivity|discriminate|apply (bool_decide_unpack _); vm_compute; exact I|reflexivity].
Defined.
