(* ===== verification/Wc.v ===== *)
(** * wc

    [wc.c]: counting the lines, words and characters of a file, read in
    chunks. *)

From stdpp Require Import prelude list strings.
From Stdlib Require Import ZArith Lia.
From S2P Require Import Prelude State Spinlock Str Cprintf Ulib.

Record counts := mk_counts { n_l : Z; n_w : Z; n_c : Z; inword : bool }.

(** [strchr] of the separators space, CR, tab, newline and vertical tab. *)
Definition wc_space (c : Z) : bool :=
  (c =? 32) || (c =? 13) || (c =? 9) || (c =? 10) || (c =? 11).

(** The body of the inner loop. *)
Definition wc_char (s : counts) (c : Z) : counts :=
  let s := mk_counts (n_l s) (n_w s) (n_c s + 1) (inword s) in
  let s := if c =? 10 then mk_counts (n_l s + 1) (n_w s) (n_c s) (inword s) else s in
  if wc_space c then mk_counts (n_l s) (n_w s) (n_c s) false
  else if negb (inword s) then mk_counts (n_l s) (n_w s + 1) (n_c s) true
  else s.

Definition wc (chunks : list (list Z)) : counts :=
  foldl (foldl wc_char) (mk_counts 0 0 0 false) chunks.

(** ** What is counted *)

(** The words of a text: its maximal runs of characters that are not
    separators. *)
Fixpoint words (cur : list Z) (text : list Z) : list (list Z) :=
  match text with
  | [] => if bool_decide (cur = []) then [] else [cur]
  | c :: text => if wc_space c then (if bool_decide (cur = []) then [] else [cur]) ++ words [] text
                 else words (cur ++ [c]) text
  end.

Lemma wc_counts s text cur :
  inword s = bool_decide (cur <> []) ->
  let s' := foldl wc_char s text in
  n_c s' = n_c s + Z.of_nat (length text) /\
  n_l s' = n_l s + Z.of_nat (length (filter (fun c => c = 10) text)) /\
  n_w s' = n_w s - (if inword s then 1 else 0) + Z.of_nat (length (words cur text)).
Proof.
  revert s cur. induction text as [|c text IH]; intros s cur Hs; cbn [foldl words].
  - rewrite Hs. destruct cur; cbn; lia.
  - destruct (wc_space c) eqn:Ec.
    + destruct (IH (wc_char s c) []) as (H1 & H2 & H3).
      { unfold wc_char. rewrite Ec. by destruct (c =? 10). }
      rewrite H1, H2, H3. unfold wc_char. rewrite Ec, filter_cons, length_app, Hs.
      destruct (Z.eqb_spec c 10); cbn; [rewrite decide_True by done|rewrite decide_False by done];
        destruct cur; cbn; lia.
    + destruct (IH (wc_char s c) (cur ++ [c])) as (H1 & H2 & H3).
      { unfold wc_char. rewrite Ec, bool_decide_eq_true_2 by (by destruct cur).
        destruct (c =? 10); cbn; by destruct (inword s) eqn:E. }
      rewrite H1, H2, H3. unfold wc_char. rewrite Ec, filter_cons.
      destruct (Z.eqb_spec c 10) as [->|]; [done|]. rewrite decide_False by done. cbn.
      destruct (inword s) eqn:E; cbn; rewrite ?E; lia.
Qed.

(** ** Properties *)

(** [wc] counts.  However the text is cut into reads, the three numbers
    are the number of newlines, the number of maximal runs of characters that
    are not white space, and the number of characters. *)
Theorem wc_correct chunks :
  let text := mjoin chunks in
  n_l (wc chunks) = Z.of_nat (length (filter (fun c => c = 10) text)) /\
  n_w (wc chunks) = Z.of_nat (length (words [] text)) /\
  n_c (wc chunks) = Z.of_nat (length text).
Proof.
  assert (wc chunks = foldl wc_char (mk_counts 0 0 0 false) (mjoin chunks)) as ->.
  { unfold wc. generalize (mk_counts 0 0 0 false). induction chunks as [|l chunks IH]; intros s; [done|].
    cbn [foldl mjoin list_join]. rewrite foldl_app. apply IH. }
  destruct (wc_counts (mk_counts 0 0 0 false) (mjoin chunks) []) as (H1 & H2 & H3); [done|].
  cbn in *. lia.
Qed.
