(* ===== verification/User.v ===== *)
(** * User programs as the system calls they make

    A run of a user program is a function of what the kernel answers: the
    state holds the answers still to come and the calls made so far.  A
    program whose answers are used up waits in its last call for ever, and so
    does one that has called [exit]; in both cases the calls made tell which.
    [fork] is answered like any other call: with 0 in the child. *)

From stdpp Require Import prelude list strings.
From Stdlib Require Import ZArith Lia.
From S2P Require Import Prelude State Spinlock Str Cprintf Ulib.
#[local] Open Scope c_scope.

(** The system calls of [user.h] that the programs use, with what the kernel
    gets to see of their arguments. *)
Inductive call :=
| CFork | CExit | CWait | CPipe
| CRead (fd n : Z) | CWrite (fd : Z) (bytes : list Z)
| COpen (path : list Z) (mode : Z) | CClose (fd : Z) | CDup (fd : Z) | CFstat (fd : Z)
| CExec (path : list Z) (argv : list (list Z))
| CMknod (path : list Z) (major minor : Z) | CMkdir (path : list Z)
| CUnlink (path : list Z) | CLink (old new : list Z) | CChdir (path : list Z)
| CKill (pid : Z) | CSleep (n : Z) | CSbrk (n : Z).

(** A return value and what the kernel stores for the caller: the bytes
    [read] reads, the two descriptors of [pipe], the fields of [struct stat]. *)
Record answer := mk_answer { a_ret : Z; a_data : list Z }.

Record ustate := mk_u { u_ans : list answer; u_calls : list call }.

Definition U : Type -> Type := M ustate.

Definition made (c : call) (u : ustate) : ustate := mk_u (u_ans u) (u_calls u ++ [c]).

Definition sys (c : call) : U answer := fun u =>
  match u_ans u with
  | [] => Asleep (made c u)
  | a :: l => Ok a (mk_u l (u_calls u ++ [c]))
  end.
(** A call used for its return value only. *)
Definition sys_ (c : call) : U Z := a <- sys c ;; ret (a_ret a).
Definition exit_ {A} : U A := fun u => Asleep (made CExit u).

(** A loop each turn of which makes a call. *)
Definition uloop {A R} (body : A -> U (A + R)) (a : A) : U R :=
  fun u => loop_ (S (length (u_ans u))) body a u.

(** [putc] of each byte: [write(fd, &c, 1)]. *)
Fixpoint putcs (fd : Z) (l : list Z) : U unit :=
  match l with
  | [] => ret tt
  | c :: l => sys_ (CWrite fd [c]) ;; putcs fd l
  end.
(** [printf(fd, fmt, ...)] *)
Definition fprintf (fd : Z) (fmt : list Z) (ap : list uarg) : U unit :=
  match printf fmt ap with
  | Some l => putcs fd l
  | None => fault "printf"
  end.

(** [gets(buf, max)] of [ulib.c]: the string read, without its NUL; [room] is
    [max - 1 - i]. *)
Fixpoint ugets_loop (room : nat) : U (list Z) :=
  match room with
  | O => ret []
  | S room =>
    a <- sys (CRead 0 1) ;;
    if a_ret a <? 1 then ret [] else
    let c := default 0 (head (a_data a)) in
    if (c =? 10) || (c =? 13) then ret [c] else
    l <- ugets_loop room ;; ret (c :: l)
  end.
Definition ugets (max : Z) : U (list Z) := ugets_loop (Z.to_nat (max - 1)).

(** [stat(n, st)] of [ulib.c]: the return value and what [fstat] stored. *)
Definition ustat (n : list Z) : U answer :=
  fd <- sys_ (COpen n 0) ;;
  if fd <? 0 then ret (mk_answer (-1) []) else
  r <- sys (CFstat fd) ;;
  sys_ (CClose fd) ;;
  ret r.

(** The string of a buffer: its bytes up to the first NUL. *)
Fixpoint cstring (l : list Z) : list Z :=
  match l with
  | [] => []
  | c :: l => if c =? 0 then [] else c :: cstring l
  end.

(** ** Reasoning about runs *)

Lemma sys_ok c a l t : sys c (mk_u (a :: l) t) = Ok a (mk_u l (t ++ [c])).
Proof. done. Qed.
Lemma sys__ok c a l t : sys_ c (mk_u (a :: l) t) = Ok (a_ret a) (mk_u l (t ++ [c])).
Proof. done. Qed.

Lemma putcs_ok fd bytes : forall ans l t,
  length ans = length bytes ->
  putcs fd bytes (mk_u (ans ++ l) t) = Ok tt (mk_u l (t ++ ((fun c => CWrite fd [c]) <$> bytes))).
Proof.
  induction bytes as [|c bytes IH]; intros [|a ans] l t H; try done.
  - by rewrite app_nil_r.
  - cbn [putcs app]. erewrite bind_ok by apply sys__ok. rewrite IH by (cbn in H; lia).
    by rewrite <- app_assoc.
Qed.

(** The bytes a run wrote to [fd]. *)
Definition wrote_to (fd : Z) (t : list call) : list Z :=
  mjoin ((fun c => match c with CWrite f l => if f =? fd then l else [] | _ => [] end) <$> t).

Lemma wrote_to_app fd t t' : wrote_to fd (t ++ t') = wrote_to fd t ++ wrote_to fd t'.
Proof. unfold wrote_to. by rewrite fmap_app, join_app. Qed.
