(* ===== verification/Progs.v ===== *)
(** * The small user programs

    [cat.c], [echo.c], [init.c], [kill.c], [ln.c], [ls.c], [mkdir.c], [rm.c],
    [zombie.c], [stressfs.c], [forktest.c] and the main functions of [grep.c]
    and [wc.c], as the system calls they make. *)

From stdpp Require Import prelude list strings.
From Stdlib Require Import ZArith Lia.
From S2P Require Import Prelude State Spinlock Str Cprintf Ulib Grep Wc User.
#[local] Open Scope c_scope.

(** A message and its newline. *)
Definition line (s : string) : list Z := s2b s ++ [10].

Definition O_RDONLY : Z := 0x000.
Definition O_WRONLY : Z := 0x001.
Definition O_RDWR : Z := 0x002.
Definition O_CREATE : Z := 0x200.

(** [for(i = 1; i < argc; i++)] over the arguments. *)
Fixpoint each_arg (args : list (list Z)) (f : list Z -> U unit) : U unit :=
  match args with
  | [] => ret tt
  | a :: args => f a ;; each_arg args f
  end.
(** The same when the body may break. *)
Fixpoint until_arg (args : list (list Z)) (f : list Z -> U bool) : U unit :=
  match args with
  | [] => ret tt
  | a :: args => stop <- f a ;; if stop : bool then ret tt else until_arg args f
  end.

Module Cat.
(** One turn of the loop; the value it is left with is the last [n]. *)
Definition cat_turn (fd : Z) (_ : unit) : U (unit + Z) :=
  a <- sys (CRead fd 512) ;;
  let n := a_ret a in
  if 0 <? n then
    w <- sys_ (CWrite 1 (take (Z.to_nat n) (a_data a))) ;;
    if negb (w =? n) then fprintf 1 (line "cat: write error") [] ;; exit_
    else ret (inl tt)
  else ret (inr n).

Definition cat (fd : Z) : U unit :=
  n <- uloop (cat_turn fd) tt ;;
  if n <? 0 then fprintf 1 (line "cat: read error") [] ;; exit_ else ret tt.

(** The body of the loop of [main]. *)
Definition cat_arg (arg : list Z) : U unit :=
  fd <- sys_ (COpen arg 0) ;;
  if fd <? 0 then fprintf 1 (line "cat: cannot open %s") [UStr (Some arg)] ;; exit_ else
  cat fd ;;
  sys_ (CClose fd) ;; ret tt.

Definition main (argv : list (list Z)) : U unit :=
  if Z.of_nat (length argv) <=? 1 then cat 0 ;; exit_ else
  each_arg (tail argv) cat_arg ;;
  exit_.
End Cat.

Module Echo.
Fixpoint echo (args : list (list Z)) : U unit :=
  match args with
  | [] => ret tt
  | a :: args =>
    fprintf 1 (s2b "%s%s") [UStr (Some a);
      UStr (Some (if Nat.ltb 0 (length args) then [32] else [10]))] ;;
    echo args
  end.
Definition main (argv : list (list Z)) : U unit := echo (tail argv) ;; exit_.
End Echo.

Module Init.
(** [while((wpid=wait()) >= 0 && wpid != pid)] *)
Definition reap (pid : Z) : U unit :=
  uloop (fun _ : unit =>
    wpid <- sys_ CWait ;;
    if (0 <=? wpid) && negb (wpid =? pid)
    then fprintf 1 (line "zombie!") [] ;; ret (inl tt) else ret (inr tt)) tt.

Definition main : U unit :=
  fd <- sys_ (COpen (s2b "console") O_RDWR) ;;
  (if fd <? 0 then
     sys_ (CMknod (s2b "console") 1 1) ;;
     sys_ (COpen (s2b "console") O_RDWR) ;; ret tt
   else ret tt) ;;
  sys_ (CDup 0) ;;
  sys_ (CDup 0) ;;
  uloop (fun _ : unit =>
    fprintf 1 (line "init: starting sh") [] ;;
    pid <- sys_ CFork ;;
    if pid <? 0 then fprintf 1 (line "init: fork failed") [] ;; exit_ else
    if pid =? 0 then
      sys_ (CExec (s2b "sh") [s2b "sh"]) ;;
      fprintf 1 (line "init: exec sh failed") [] ;;
      exit_
    else
      reap pid ;;
      ret (inl tt)) tt.
End Init.

Module Kill.
Definition main (argv : list (list Z)) : U unit :=
  if Z.of_nat (length argv) <? 2 then fprintf 2 (line "usage: kill pid...") [] ;; exit_ else
  each_arg (tail argv) (fun arg => sys_ (CKill (atoi arg)) ;; ret tt) ;;
  exit_.
End Kill.

Module Ln.
Definition main (argv : list (list Z)) : U unit :=
  match argv with
  | [_; old; new] =>
    r <- sys_ (CLink old new) ;;
    (if r <? 0 then fprintf 2 (line "link %s %s: failed") [UStr (Some old); UStr (Some new)]
     else ret tt) ;;
    exit_
  | _ => fprintf 2 (line "Usage: ln old new") [] ;; exit_
  end.
End Ln.

Module Mkdir.
Definition main (argv : list (list Z)) : U unit :=
  if Z.of_nat (length argv) <? 2 then fprintf 2 (line "Usage: mkdir files...") [] ;; exit_ else
  until_arg (tail argv) (fun arg =>
    r <- sys_ (CMkdir arg) ;;
    if r <? 0 then fprintf 2 (line "mkdir: %s failed to create") [UStr (Some arg)] ;; ret true
    else ret false) ;;
  exit_.
End Mkdir.

Module Rm.
Definition main (argv : list (list Z)) : U unit :=
  if Z.of_nat (length argv) <? 2 then fprintf 2 (line "Usage: rm files...") [] ;; exit_ else
  until_arg (tail argv) (fun arg =>
    r <- sys_ (CUnlink arg) ;;
    if r <? 0 then fprintf 2 (line "rm: %s failed to delete") [UStr (Some arg)] ;; ret true
    else ret false) ;;
  exit_.
End Rm.

Module Zombie.
Definition main : U unit :=
  pid <- sys_ CFork ;;
  (if 0 <? pid then sys_ (CSleep 5) ;; ret tt else ret tt) ;;
  exit_.
End Zombie.

Module Ls.
(** What comes after the last slash of [path]. *)
Fixpoint after_slash (path : list Z) : list Z :=
  match path with
  | [] => []
  | c :: p => if bool_decide (47 ∈ p) then after_slash p
              else if c =? 47 then p else path
  end.
(** The name printed: padded with blanks to DIRSIZ. *)
Definition fmtname (path : list Z) : list Z :=
  let p := after_slash path in
  if DIRSIZ <=? Z.of_nat (length p) then p
  else p ++ replicate (Z.to_nat DIRSIZ - length p) 32.

Definition show (path : list Z) (st : list Z) : U unit :=
  fprintf 1 (line "%s %d %d %d")
    [UStr (Some (fmtname path)); UInt (default 0 (st !! 0%nat)); UInt (default 0 (st !! 2%nat));
     UInt (default 0 (st !! 4%nat))].

(** A directory entry as [read] gives it: the two bytes of [inum] and the
    name. *)
Definition de_inum (de : list Z) : Z := default 0 (de !! 0%nat) + 256 * default 0 (de !! 1%nat).
Definition de_name (de : list Z) : list Z := take (Z.to_nat DIRSIZ) (drop 2 de).

Definition ls (path : list Z) : U unit :=
  fd <- sys_ (COpen path 0) ;;
  if fd <? 0 then fprintf 2 (line "ls: cannot open %s") [UStr (Some path)] else
  st <- sys (CFstat fd) ;;
  if a_ret st <? 0 then
    fprintf 2 (line "ls: cannot stat %s") [UStr (Some path)] ;;
    sys_ (CClose fd) ;; ret tt
  else
  let ty := default 0 (a_data st !! 0%nat) in
  (if ty =? T_FILE then show path (a_data st)
   else if ty =? T_DIR then
     if 512 <? Z.of_nat (length path) + 1 + DIRSIZ + 1
     then fprintf 1 (line "ls: path too long") [] else
     uloop (fun _ : unit =>
       de <- sys (CRead fd 16) ;;
       if negb (a_ret de =? 16) then ret (inr tt) else
       if de_inum (a_data de) =? 0 then ret (inl tt) else
       let buf := path ++ [47] ++ cstring (de_name (a_data de)) in
       st <- ustat buf ;;
       (if a_ret st <? 0 then fprintf 1 (line "ls: cannot stat %s") [UStr (Some buf)]
        else show buf (a_data st)) ;;
       ret (inl tt)) tt
   else ret tt) ;;
  sys_ (CClose fd) ;; ret tt.

Definition main (argv : list (list Z)) : U unit :=
  if Z.of_nat (length argv) <? 2 then ls (s2b ".") ;; exit_ else
  each_arg (tail argv) ls ;;
  exit_.
End Ls.

Module GrepMain.
(** The lines found in the buffer, written as they are found; what is left
    is returned. *)
Fixpoint lines (fuel : nat) (pattern p : list Z) : U (list Z) :=
  match fuel with
  | O => ret p
  | S n =>
    match split_line p with
    | None => ret p
    | Some (l, rest) =>
      (if match_ pattern l then sys_ (CWrite 1 (l ++ [NL])) ;; ret tt else ret tt) ;;
      lines n pattern rest
    end
  end.

(** [grep(pattern, fd)]; the loop variable is the part of the buffer in use. *)
Definition grep (pattern : list Z) (fd : Z) : U unit :=
  uloop (fun buf : list Z =>
    a <- sys (CRead fd (BUFSZ - Z.of_nat (length buf) - 1)) ;;
    if 0 <? a_ret a then
      let buf := buf ++ take (Z.to_nat (a_ret a)) (a_data a) in
      p <- lines (S (length buf)) pattern buf ;;
      ret (inl (if Nat.eqb (length p) (length buf) then [] else p))
    else ret (inr tt)) [].

Definition main (argv : list (list Z)) : U unit :=
  if Z.of_nat (length argv) <=? 1
  then fprintf 2 (line "usage: grep pattern [file ...]") [] ;; exit_ else
  let pattern := default [] (argv !! 1%nat) in
  if Z.of_nat (length argv) <=? 2 then grep pattern 0 ;; exit_ else
  each_arg (drop 2 argv) (fun arg =>
    fd <- sys_ (COpen arg 0) ;;
    if fd <? 0 then fprintf 1 (line "grep: cannot open %s") [UStr (Some arg)] ;; exit_ else
    grep pattern fd ;;
    sys_ (CClose fd) ;; ret tt) ;;
  exit_.
End GrepMain.

Module WcMain.
Definition wc (fd : Z) (name : list Z) : U unit :=
  r <- uloop (fun s : counts =>
    a <- sys (CRead fd 512) ;;
    let n := a_ret a in
    if 0 <? n then ret (inl (foldl wc_char s (take (Z.to_nat n) (a_data a))))
    else ret (inr (n, s))) (mk_counts 0 0 0 false) ;;
  let '(n, s) := r in
  if n <? 0 then fprintf 1 (line "wc: read error") [] ;; exit_ else
  fprintf 1 (line "%d %d %d %s") [UInt (n_l s); UInt (n_w s); UInt (n_c s); UStr (Some name)].

Definition main (argv : list (list Z)) : U unit :=
  if Z.of_nat (length argv) <=? 1 then wc 0 [] ;; exit_ else
  each_arg (tail argv) (fun arg =>
    fd <- sys_ (COpen arg 0) ;;
    if fd <? 0 then fprintf 1 (line "wc: cannot open %s") [UStr (Some arg)] ;; exit_ else
    wc fd arg ;;
    sys_ (CClose fd) ;; ret tt) ;;
  exit_.
End WcMain.

Module Stressfs.
(** [for(i = 0; i < 4; i++) if(fork() > 0) break;]: the final [i]. *)
Definition forks : U Z :=
  r <- for_ 4 0 (fun i => pid <- sys_ CFork ;; ret (if 0 <? pid then Some (Z.of_nat i) else None)) ;;
  ret (default 4 r).

Definition main : U unit :=
  fprintf 1 (line "stressfs starting") [] ;;
  let data := replicate 512 97 in
  i <- forks ;;
  fprintf 1 (line "write %d") [UInt i] ;;
  let path := s2b "stressfs" ++ [48 + i] in
  fd <- sys_ (COpen path (Z.lor O_CREATE O_RDWR)) ;;
  each_ 20 0 (fun _ => sys_ (CWrite fd data) ;; ret tt) ;;
  sys_ (CClose fd) ;;
  fprintf 1 (line "read") [] ;;
  fd <- sys_ (COpen path O_RDONLY) ;;
  each_ 20 0 (fun _ => sys_ (CRead fd 512) ;; ret tt) ;;
  sys_ (CClose fd) ;;
  sys_ CWait ;;
  exit_.
End Stressfs.

Module Forktest.
Definition N : nat := 1000.

(** This program's own [printf]: the format is written as it is. *)
Definition print (fd : Z) (s : list Z) : U unit := sys_ (CWrite fd s) ;; ret tt.

(** The first loop: how many times [fork] worked. *)
Definition forks : U nat :=
  r <- for_ N 0 (fun n =>
    pid <- sys_ CFork ;;
    if pid <? 0 then ret (Some n) else
    if pid =? 0 then exit_ else ret None) ;;
  ret (default N r).

Definition forktest : U unit :=
  print 1 (line "fork test") ;;
  n <- forks ;;
  if Nat.eqb n N then print 1 (line "fork claimed to work N times!") ;; exit_ else
  each_ n 0 (fun _ =>
    r <- sys_ CWait ;;
    if r <? 0 then print 1 (line "wait stopped early") ;; exit_ else ret tt) ;;
  r <- sys_ CWait ;;
  if negb (r =? -1) then print 1 (line "wait got too many") ;; exit_ else
  print 1 (line "fork test OK").

Definition main : U unit := forktest ;; exit_.
End Forktest.

(** ** cat writes what it reads *)

Section CatRuns.
(** The answers to reading a file in [chunks] and writing each in full. *)
Definition copy_answers (chunks : list (list Z)) : list answer :=
  mjoin ((fun c => [mk_answer (Z.of_nat (length c)) c; mk_answer (Z.of_nat (length c)) []]) <$> chunks)
  ++ [mk_answer 0 []].
Definition copy_calls (fd : Z) (chunks : list (list Z)) : list call :=
  mjoin ((fun c => [CRead fd 512; CWrite 1 c]) <$> chunks) ++ [CRead fd 512].

Lemma cat_loop fd chunks : forall n l t,
  Forall (fun c => c <> []) chunks -> (length chunks <= n)%nat ->
  loop_ (S n) (Cat.cat_turn fd) tt (mk_u (copy_answers chunks ++ l) t) =
  Ok 0 (mk_u l (t ++ copy_calls fd chunks)).
Proof.
  induction chunks as [|c chunks IH]; intros n l t Hc Hn; [done|].
  apply Forall_cons in Hc as [Hne Hc]. destruct n as [|n]; [cbn in Hn; lia|].
  assert (0 < Z.of_nat (length c)) by (destruct c; [done|cbn; lia]).
  assert (Cat.cat_turn fd tt (mk_u (copy_answers (c :: chunks) ++ l) t) =
    Ok (inl tt) (mk_u (copy_answers chunks ++ l) (t ++ [CRead fd 512; CWrite 1 c]))) as E.
  { unfold Cat.cat_turn. erewrite bind_ok by apply sys_ok. cbn [a_ret a_data].
    destruct (Z.ltb_spec 0 (Z.of_nat (length c))); [|lia].
    erewrite bind_ok by apply sys__ok. cbn [a_ret]. rewrite Z.eqb_refl, Nat2Z.id, firstn_all.
    by rewrite <- app_assoc. }
  cbn [loop_]. rewrite (bind_ok _ _ _ _ _ E). cbn match. cbn [length] in Hn.
  etrans; [apply (IH n l); [done|lia]|]. by rewrite <- app_assoc.
Qed.

Lemma length_copy chunks : length (copy_answers chunks) = (2 * length chunks + 1)%nat.
Proof.
  induction chunks as [|c chunks IH]; [done|].
  change (length (copy_answers (c :: chunks))) with (S (S (length (copy_answers chunks)))).
  cbn [length]. lia.
Qed.

Lemma cat_ok fd chunks l t :
  Forall (fun c => c <> []) chunks ->
  Cat.cat fd (mk_u (copy_answers chunks ++ l) t) = Ok tt (mk_u l (t ++ copy_calls fd chunks)).
Proof.
  intros Hc. unfold Cat.cat, uloop. cbn [u_ans]. erewrite bind_ok; [|apply cat_loop; [done|]]; [done|].
  cbn [u_ans]. rewrite length_app, length_copy. lia.
Qed.

Lemma wrote_copy fd chunks : wrote_to 1 (copy_calls fd chunks) = mjoin chunks.
Proof.
  induction chunks as [|c chunks IH]; [done|].
  change (copy_calls fd (c :: chunks)) with ([CRead fd 512; CWrite 1 c] ++ copy_calls fd chunks).
  rewrite wrote_to_app, IH. cbn. by rewrite app_nil_r.
Qed.

(** The answers [cat] gets for the files: a descriptor, the contents in
    chunks, and an answer to [close]. *)
Definition files_answers (files : list (Z * list (list Z) * Z)) : list answer :=
  mjoin ((fun '(fd, chunks, r) => mk_answer fd [] :: copy_answers chunks ++ [mk_answer r []]) <$> files).

Lemma cat_files args : forall files t,
  length args = length files ->
  Forall (fun '(fd, chunks, _) => 0 <= fd /\ Forall (fun c => c <> []) chunks) files ->
  exists t', each_arg args Cat.cat_arg (mk_u (files_answers files) t) = Ok tt (mk_u [] (t ++ t')) /\
    wrote_to 1 t' = mjoin ((fun '(_, chunks, _) => mjoin chunks) <$> files).
Proof.
  induction args as [|a args IH]; intros [|[[fd chunks] r] files] t Hl Hf; try done.
  { exists []. by rewrite app_nil_r. }
  apply Forall_cons in Hf as [[Hfd Hc] Hf].
  set (t1 := [COpen a 0] ++ copy_calls fd chunks ++ [CClose fd]).
  destruct (IH files (t ++ t1)) as (t' & E & Hw); [cbn in Hl; lia|done|].
  exists (t1 ++ t'). split.
  - cbn [each_arg]. rewrite app_assoc. erewrite bind_ok; [exact E|]. unfold Cat.cat_arg, files_answers.
    cbn [fmap list_fmap mjoin list_join app]. erewrite bind_ok by apply sys__ok. cbn [a_ret].
    destruct (Z.ltb_spec fd 0); [lia|]. rewrite <- app_assoc.
    erewrite bind_ok by (by apply cat_ok). cbn [app]. erewrite bind_ok by apply sys__ok.
    unfold t1. by rewrite <- !app_assoc.
  - unfold t1. rewrite !wrote_to_app, wrote_copy, Hw.
    change (wrote_to 1 [CClose fd]) with (@nil Z). by rewrite app_nil_r.
Qed.
End CatRuns.

(** [cat] with arguments writes the contents of the files, in the order
    of the arguments, to its standard output and exits, however the reads cut
    the contents into chunks. *)
Theorem cat_concatenates name args files t :
  args <> [] -> length args = length files ->
  Forall (fun '(fd, chunks, _) => 0 <= fd /\ Forall (fun c => c <> []) chunks) files ->
  exists t', Cat.main (name :: args) (mk_u (files_answers files) t) = Asleep (mk_u [] (t ++ t')) /\
    wrote_to 1 t' = mjoin ((fun '(_, chunks, _) => mjoin chunks) <$> files) /\
    last t' = Some CExit.
Proof.
  intros Hne Hl Hf. unfold Cat.main. cbn [tail]. destruct (Z.leb_spec (Z.of_nat (length (name :: args))) 1).
  { destruct args; [done|]. cbn in *. lia. }
  destruct (cat_files args files t Hl Hf) as (t' & E & Hw). rewrite (bind_ok _ _ _ _ _ E).
  exists (t' ++ [CExit]). split; [|split; [by rewrite wrote_to_app, Hw, app_nil_r|apply last_snoc]].
  unfold exit_, made. cbn. by rewrite <- app_assoc.
Qed.

Lemma cat_concatenates_witness :
  exists t', Cat.main [s2b "cat"; s2b "a"; s2b "b"]
      (mk_u (files_answers [(3, [[1; 2]; [3]], 0); (3, [[4]], 0)]) []) = Asleep (mk_u [] ([] ++ t')) /\
    wrote_to 1 t' = [1; 2; 3; 4] /\ last t' = Some CExit.
Proof.
  apply (cat_concatenates (s2b "cat") [s2b "a"; s2b "b"] [(3, [[1; 2]; [3]], 0); (3, [[4]], 0)] []);
    [discriminate|reflexivity|]. repeat constructor; (lia || discriminate).
Defined.
