(* ===== verification/Shell.v ===== *)
(** * The shell

    [sh.c]: the recursive-descent parser over the line read from the console,
    and the execution of the commands it yields as system calls.  The parser's
    state is the index [*ps] into the line; a token is the pair of indices [q]
    and [eq] around it. *)

From stdpp Require Import prelude list strings.
From Stdlib Require Import ZArith Lia.
From S2P Require Import Prelude State Spinlock Str Cprintf Ulib Grep Wc User Progs.
#[local] Open Scope c_scope.

(** ** Parsed commands *)

Definition MAXARGS : nat := 10.

(** A parsed command whose strings are of type [T]. *)
Inductive cmd (T : Type) : Type :=
| Exec (argv : list T)
| Redir (c : cmd T) (file : T) (mode fd : Z)
| PipeC (left right : cmd T)
| ListC (left right : cmd T)
| Back (c : cmd T).
Arguments Exec {T}.
Arguments Redir {T}.
Arguments PipeC {T}.
Arguments ListC {T}.
Arguments Back {T}.

(** The constructors of [sh.c]; they allocate with [malloc], which is taken to
    succeed, as in the source. *)
Definition execcmd {T} : cmd T := Exec [].
Definition redircmd {T} (subcmd : cmd T) (file : T) (mode fd : Z) : cmd T := Redir subcmd file mode fd.
Definition pipecmd {T} (left right : cmd T) : cmd T := PipeC left right.
Definition listcmd {T} (left right : cmd T) : cmd T := ListC left right.
Definition backcmd {T} (subcmd : cmd T) : cmd T := Back subcmd.

Fixpoint cmap {T T'} (f : T -> T') (c : cmd T) : cmd T' :=
  match c with
  | Exec argv => Exec (f <$> argv)
  | Redir c file mode fd => Redir (cmap f c) (f file) mode fd
  | PipeC l r => PipeC (cmap f l) (cmap f r)
  | ListC l r => ListC (cmap f l) (cmap f r)
  | Back c => Back (cmap f c)
  end.

(** [cmd->argv[argc] = q; argc++] where [cmd] is the command that the
    redirections parsed so far are wrapped around. *)
Fixpoint add_arg {T} (q : T) (c : cmd T) : cmd T :=
  match c with
  | Exec argv => Exec (argv ++ [q])
  | Redir c file mode fd => Redir (add_arg q c) file mode fd
  | _ => c
  end.

(** ** Tokens *)

Definition whitespace : list Z := [32; 9; 13; 10; 11].
Definition symbols : list Z := s2b "<|>&;()".

Definition has (set : list Z) (c : Z) : bool :=
  match strchr set c with Some _ => true | None => false end.

Section Parser.
(** The line and its length: [es] points to its NUL. *)
Context (b : nat -> Z) (es : nat).

(** [while(s < es && P( *s)) s++], from [s] with [n = es - s]. *)
Fixpoint skip_n (P : Z -> bool) (n s : nat) : nat :=
  match n with
  | O => s
  | S n => if P (b s) then skip_n P n (S s) else s
  end.
Definition skip_while (P : Z -> bool) (s : nat) : nat := skip_n P (es - s) s.
Definition skip_ws (s : nat) : nat := skip_while (has whitespace) s.
Definition skip_word (s : nat) : nat :=
  skip_while (fun c => negb (has whitespace c) && negb (has symbols c)) s.

(** The switch of [gettoken]: the kind of the token at [s] and its end. *)
Definition token_at (s : nat) : Z * nat :=
  let c := b s in
  if c =? 0 then (0, s)
  else if has (s2b "|();&<") c then (c, S s)
  else if c =? 62 then (if b (S s) =? 62 then (43, S (S s)) else (62, S s))
  else (97, skip_word s).

(** The kind of the token, [*q] and [*eq]. *)
Definition gettoken : M nat (Z * (nat * nat)) := fun ps =>
  let s := skip_ws ps in
  let (tok, e) := token_at s in
  Ok (tok, (s, e)) (skip_ws e).

Definition peek (toks : list Z) : M nat bool := fun ps =>
  let s := skip_ws ps in
  Ok (negb (b s =? 0) && has toks (b s)) s.

(** ** The parser *)

Abbreviation pcmd := (cmd (nat * nat)).

(** Every turn of a loop takes a token off the line, so that a loop has at
    most one turn per character and one more. *)
Definition ploop {A R} (body : A -> M nat (A + R)) (a : A) : M nat R := loop_ (S (S es)) body a.

Definition redirs_turn (c : pcmd) : M nat (pcmd + pcmd) :=
  p <- peek (s2b "<>") ;;
  if negb p then ret (inr c) else
  t <- gettoken ;;
  f <- gettoken ;;
  if negb (fst f =? 97) then panic "missing file for redirection" else
  ret (inl (
    if fst t =? 60 then redircmd c (snd f) O_RDONLY 0
    else if (fst t =? 62) || (fst t =? 43) then redircmd c (snd f) (Z.lor O_WRONLY O_CREATE) 1
    else c)).
Definition parseredirs (c : pcmd) : M nat pcmd := ploop redirs_turn c.

(** The loop over the arguments; [argc] is the number so far. *)
Definition args_turn (x : pcmd * nat) : M nat (pcmd * nat + pcmd) :=
  let '(ret_, argc) := x in
  p <- peek (s2b "|)&;") ;;
  if p : bool then ret (inr ret_) else
  t <- gettoken ;;
  if fst t =? 0 then ret (inr ret_) else
  if negb (fst t =? 97) then panic "syntax" else
  let ret_ := add_arg (snd t) ret_ in
  let argc := S argc in
  if Nat.leb MAXARGS argc then panic "too many args" else
  ret_ <- parseredirs ret_ ;;
  ret (inl (ret_, argc)).

(** [while(peek(ps, es, "&"))] *)
Definition back_turn (c : pcmd) : M nat (pcmd + pcmd) :=
  p <- peek (s2b "&") ;;
  if negb p then ret (inr c) else
  gettoken ;; ret (inl (backcmd c)).

Fixpoint parseline (fuel : nat) : M nat pcmd :=
  match fuel with
  | O => fun _ => Diverge
  | S n =>
    c <- parsepipe n ;;
    c <- ploop back_turn c ;;
    p <- peek (s2b ";") ;;
    if p : bool then gettoken ;; r <- parseline n ;; ret (listcmd c r) else ret c
  end
with parsepipe (fuel : nat) : M nat pcmd :=
  match fuel with
  | O => fun _ => Diverge
  | S n =>
    c <- parseexec n ;;
    p <- peek (s2b "|") ;;
    if p : bool then gettoken ;; r <- parsepipe n ;; ret (pipecmd c r) else ret c
  end
with parseexec (fuel : nat) : M nat pcmd :=
  match fuel with
  | O => fun _ => Diverge
  | S n =>
    p <- peek (s2b "(") ;;
    if p : bool then parseblock n else
    c <- parseredirs execcmd ;;
    ploop args_turn (c, 0%nat)
  end
with parseblock (fuel : nat) : M nat pcmd :=
  match fuel with
  | O => fun _ => Diverge
  | S n =>
    p <- peek (s2b "(") ;;
    if negb p then panic "parseblock" else
    gettoken ;;
    c <- parseline n ;;
    p <- peek (s2b ")") ;;
    if negb p then panic "syntax - missing )" else
    gettoken ;;
    parseredirs c
  end.
End Parser.

(** NUL-terminate all the counted strings. *)
Fixpoint nulterminate (c : cmd (nat * nat)) (b : nat -> Z) : nat -> Z :=
  match c with
  | Exec argv => foldl (fun b t => fn_upd (snd t) 0 b) b argv
  | Redir c file _ _ => fn_upd (snd file) 0 (nulterminate c b)
  | PipeC l r => nulterminate r (nulterminate l b)
  | ListC l r => nulterminate r (nulterminate l b)
  | Back c => nulterminate c b
  end.

(** The parser on the line [s]: the command and the line with the NULs, or
    [Panic] with the message the shell exits with. *)
Definition parsecmd (s : list Z) : res nat (cmd (nat * nat) * (nat -> Z)) :=
  let b := from s in
  let es := length s in
  (c <- parseline b es (4 * S es) ;;
   peek b es [] ;;
   ps <- Prelude.gets id ;;
   if negb (Nat.eqb ps es) then panic "syntax"
   else ret (c, nulterminate c b)) 0%nat.

(** The text of a token of the line [s]. *)
Definition token_text (s : list Z) (t : nat * nat) : list Z := take (snd t - fst t) (drop (fst t) s).

(** ** Running commands *)

(** [panic]: print the message and exit. *)
Definition panic_ {A} (msg : string) : U A := fprintf 2 (s2b "%s" ++ [10]) [UStr (Some (s2b msg))] ;; exit_.

Definition fork1 : U Z :=
  pid <- sys_ CFork ;;
  if pid =? -1 then panic_ "fork" else ret pid.

(** Execute the command.  Never returns. *)
Fixpoint runcmd (c : cmd (list Z)) : U unit :=
  match c with
  | Exec argv =>
    match argv with
    | [] => exit_
    | a :: _ =>
      sys_ (CExec a argv) ;;
      fprintf 2 (line "exec %s failed") [UStr (Some a)] ;;
      exit_
    end
  | Redir c file mode fd =>
    sys_ (CClose fd) ;;
    r <- sys_ (COpen file mode) ;;
    if r <? 0 then fprintf 2 (line "open %s failed") [UStr (Some file)] ;; exit_ else
    runcmd c ;;
    exit_
  | ListC l r =>
    pid <- fork1 ;;
    (if pid =? 0 then runcmd l else ret tt) ;;
    sys_ CWait ;;
    runcmd r ;;
    exit_
  | PipeC l r =>
    a <- sys CPipe ;;
    if a_ret a <? 0 then panic_ "pipe" else
    let p0 := default 0 (a_data a !! 0%nat) in
    let p1 := default 0 (a_data a !! 1%nat) in
    pid <- fork1 ;;
    (if pid =? 0 then
       sys_ (CClose 1) ;; sys_ (CDup p1) ;; sys_ (CClose p0) ;; sys_ (CClose p1) ;;
       runcmd l
     else ret tt) ;;
    pid <- fork1 ;;
    (if pid =? 0 then
       sys_ (CClose 0) ;; sys_ (CDup p0) ;; sys_ (CClose p0) ;; sys_ (CClose p1) ;;
       runcmd r
     else ret tt) ;;
    sys_ (CClose p0) ;;
    sys_ (CClose p1) ;;
    sys_ CWait ;;
    sys_ CWait ;;
    exit_
  | Back c =>
    pid <- fork1 ;;
    (if pid =? 0 then runcmd c else ret tt) ;;
    exit_
  end.

(** What [parsecmd] prints of a line it could not parse to its end. *)
Definition leftovers (s : list Z) : option (list Z) :=
  match (parseline (from s) (length s) (4 * S (length s)) ;; peek (from s) (length s) []) 0%nat with
  | Ok _ ps => if Nat.eqb ps (length s) then None else Some (drop ps s)
  | _ => None
  end.

(** [runcmd(parsecmd(buf))] in the child. *)
Definition run_line (s : list Z) : U unit :=
  match parsecmd s with
  | Ok (c, _) _ => runcmd (cmap (token_text s) c)
  | Panic e =>
    (match leftovers s with
     | Some l => fprintf 2 (line "leftovers: %s") [UStr (Some l)]
     | None => ret tt
     end) ;;
    panic_ e
  | _ => fault "parsecmd"
  end.

(** The line read, as the C string it is; [None] at the end of the input. *)
Definition getcmd (nbuf : Z) : U (option (list Z)) :=
  fprintf 2 (s2b "$ ") [] ;;
  l <- ugets nbuf ;;
  let buf := cstring l in
  ret (if bool_decide (buf = []) then None else Some buf).

Definition main : U unit :=
  uloop (fun _ : unit =>
    fd <- sys_ (COpen (s2b "console") O_RDWR) ;;
    if 0 <=? fd then
      if 3 <=? fd then sys_ (CClose fd) ;; ret (inr tt) else ret (inl tt)
    else ret (inr tt)) tt ;;
  uloop (fun _ : unit =>
    l <- getcmd 100 ;;
    match l with
    | None => ret (inr tt)
    | Some buf =>
      if bool_decide (take 3 buf = s2b "cd ") then
        let dir := drop 3 (take (length buf - 1) buf) in
        r <- sys_ (CChdir dir) ;;
        (if r <? 0 then fprintf 2 (line "cannot cd %s") [UStr (Some dir)] else ret tt) ;;
        ret (inl tt)
      else
        pid <- fork1 ;;
        (if pid =? 0 then run_line buf else ret tt) ;;
        sys_ CWait ;;
        ret (inl tt)
    end) tt ;;
  exit_.

(** ** Every line is parsed to an end *)

(** The characters of words. *)
Definition word_char (c : Z) : bool := negb (has whitespace c) && negb (has symbols c).

Lemma has_elem l c : has l c = bool_decide (c ∈ l).
Proof.
  unfold has. induction l as [|d l IH]; cbn [strchr].
  - by rewrite bool_decide_eq_false_2 by apply not_elem_of_nil.
  - destruct (Z.eqb_spec d c) as [->|Hn].
    + rewrite bool_decide_eq_true_2; [done|apply list_elem_of_here].
    + rewrite IH. apply bool_decide_ext. rewrite elem_of_cons. naive_solver.
Qed.

Lemma has_cons d l c : has (d :: l) c = (d =? c) || has l c.
Proof. unfold has. cbn [strchr]. by destruct (d =? c). Qed.

Lemma has_symbols c : has symbols c = has (s2b "|();&<") c || (62 =? c).
Proof.
  change symbols with [60; 124; 62; 38; 59; 40; 41].
  change (s2b "|();&<") with [124; 40; 41; 59; 38; 60]. rewrite !has_cons.
  repeat match goal with |- context [?a =? c] => destruct (a =? c); cbn [orb]; try done end.
Qed.

(** The messages of the parser's panics. *)
Definition parse_errors : list string :=
  ["syntax"; "missing file for redirection"; "too many args"; "parseblock"; "syntax - missing )"].

(** The tokens of a command. *)
Fixpoint tokens {T} (c : cmd T) : list T :=
  match c with
  | Exec argv => argv
  | Redir c file _ _ => tokens c ++ [file]
  | PipeC l r => tokens l ++ tokens r
  | ListC l r => tokens l ++ tokens r
  | Back c => tokens c
  end.

Section Total.
Context (b : nat -> Z) (es : nat).
Context (Hin : forall i, (i < es)%nat -> b i <> 0) (Hes : b es = 0).

Lemma skip_n_spec P n : forall s,
  (s <= skip_n b P n s <= s + n)%nat /\
  (forall i, (s <= i < skip_n b P n s)%nat -> P (b i) = true) /\
  ((skip_n b P n s < s + n)%nat -> P (b (skip_n b P n s)) = false).
Proof.
  induction n as [|n IH]; intros s; cbn [skip_n]; [split; [lia|split; intros; lia]|].
  destruct (P (b s)) eqn:E.
  - destruct (IH (S s)) as (H1 & H2 & H3). split; [lia|]. split.
    + intros i Hi. destruct (decide (i = s)) as [->|]; [done|]. apply H2. lia.
    + intros Hlt. apply H3. lia.
  - split; [lia|]. split; [intros; lia|done].
Qed.

Lemma skip_while_spec P s : (s <= es)%nat ->
  (s <= skip_while b es P s <= es)%nat /\
  (forall i, (s <= i < skip_while b es P s)%nat -> P (b i) = true) /\
  ((skip_while b es P s < es)%nat -> P (b (skip_while b es P s)) = false).
Proof.
  intros Hs. unfold skip_while. destruct (skip_n_spec P (es - s) s) as (H1 & H2 & H3).
  split; [lia|]. split; [done|]. intros H. apply H3. lia.
Qed.

(** A token of the kind 'a': a maximal word. *)
Record word_tok (t : nat * nat) : Prop := {
  wt_range : (fst t < snd t <= es)%nat;
  wt_chars : forall i, (fst t <= i < snd t)%nat -> word_char (b i) = true;
  wt_end : word_char (b (snd t)) = false \/ snd t = es;
}.

Lemma token_at_spec s : (s <= es)%nat -> (s < es -> has whitespace (b s) = false)%nat ->
  (s <= snd (token_at b es s) <= es)%nat /\
  (fst (token_at b es s) <> 0 -> (s < snd (token_at b es s))%nat) /\
  (fst (token_at b es s) = 97 -> word_tok (s, snd (token_at b es s))).
Proof.
  intros Hs Hw. unfold token_at. destruct (Z.eqb_spec (b s) 0) as [E|E]; cbn [fst snd]; [split; [lia|done]|].
  assert (s < es)%nat as Hlt by (destruct (decide (s = es)) as [->|]; [done|lia]).
  destruct (has (s2b "|();&<") (b s)) eqn:Eh; cbn [fst snd].
  { split; [lia|]. split; [lia|]. intros E97. rewrite E97 in Eh. done. }
  destruct (Z.eqb_spec (b s) 62) as [E62|E62]; cbn [fst snd].
  { destruct (Z.eqb_spec (b (S s)) 62) as [E2|E2]; cbn [fst snd]; [|split; [lia|split; [lia|done]]].
    assert (S s < es)%nat by (destruct (decide (S s = es)) as [F|]; [rewrite F in E2; congruence|lia]).
    split; [lia|split; [lia|done]]. }
  destruct (skip_while_spec word_char s Hs) as (H1 & H2 & H3). fold word_char.
  assert (word_char (b s) = true) as Hws.
  { unfold word_char. rewrite (Hw Hlt), has_symbols, Eh. by destruct (Z.eqb_spec 62 (b s)). }
  unfold skip_word. fold word_char.
  set (e := skip_while b es word_char s) in *.
  assert (s < e)%nat as Hse.
  { destruct (decide (e = s)) as [F|]; [|lia]. exfalso. rewrite F in H3.
    rewrite (H3 Hlt) in Hws. done. }
  split; [lia|]. split; [done|]. intros _. split; cbn; [lia|done|].
  destruct (decide (e = es)); [by right|left; apply H3; lia].
Qed.

(** [m] from [ps]: it returns with the index not before [ps], on the line, or
    panics with one of the messages. *)
Definition ends {A} (m : M nat A) (ps : nat) (Q : A -> nat -> Prop) : Prop :=
  match m ps with
  | Ok a ps' => (ps <= ps' <= es)%nat /\ Q a ps'
  | Panic e => e ∈ parse_errors
  | _ => False
  end.

Lemma ends_bind {A B} (m : M nat A) (f : A -> M nat B) ps Q :
  ends m ps (fun a ps' => ends (f a) ps' Q) -> ends (bind m f) ps Q.
Proof.
  unfold ends, bind. destruct (m ps) as [a ps'| | | |]; try done. intros [H1 H2].
  destruct (f a ps'); try done. destruct H2. split; [lia|done].
Qed.

Lemma ends_mono {A} (m : M nat A) ps (Q Q' : A -> nat -> Prop) :
  ends m ps Q -> (forall a ps', (ps <= ps' <= es)%nat -> Q a ps' -> Q' a ps') -> ends m ps Q'.
Proof. unfold ends. destruct (m ps); try done. intros [H1 H2] H. auto. Qed.

Lemma ends_ret {A} (a : A) ps (Q : A -> nat -> Prop) : (ps <= es)%nat -> Q a ps -> ends (ret a) ps Q.
Proof. done. Qed.
Lemma ends_panic {A} e ps (Q : A -> nat -> Prop) : e ∈ parse_errors -> ends (panic e) ps Q.
Proof. done. Qed.

(** A loop each turn of which moves the index. *)
Lemma ends_loop {A R} (body : A -> M nat (A + R)) (Inv : A -> Prop) (Q : R -> nat -> Prop) :
  (forall a ps, (ps <= es)%nat -> Inv a ->
     ends (body a) ps (fun x ps' => match x with inl a' => (ps < ps')%nat /\ Inv a' | inr r => Q r ps' end)) ->
  forall a ps, (ps <= es)%nat -> Inv a -> ends (ploop es body a) ps Q.
Proof.
  intros Hb. unfold ploop. assert (forall n a ps, (es - ps < n)%nat -> (ps <= es)%nat -> Inv a ->
    ends (loop_ n body a) ps Q) as H; [|intros; apply H; (done || lia)].
  induction n as [|n IH]; intros a ps Hn Hp Ha; [lia|]. cbn [loop_]. apply ends_bind.
  eapply ends_mono; [by apply Hb|]. intros [a'|r] ps' Hp'; [|intros; apply ends_ret; [lia|done]].
  intros [Hlt Ha']. apply IH; [lia|lia|done].
Qed.

Lemma ws_spec ps : (ps <= es)%nat ->
  (ps <= skip_ws b es ps <= es)%nat /\
  (skip_ws b es ps < es -> has whitespace (b (skip_ws b es ps)) = false)%nat.
Proof. intros H. destruct (skip_while_spec (has whitespace) ps H) as (H1 & _ & H3). done. Qed.

Lemma gettoken_ends ps : (ps <= es)%nat ->
  ends (gettoken b es) ps (fun '(tok, t) ps' =>
    (tok <> 0 -> (ps < ps')%nat) /\ (tok = 97 -> word_tok t)).
Proof.
  intros Hp. destruct (ws_spec ps Hp) as [H1 H2].
  destruct (token_at_spec _ (proj2 H1) H2) as (H3 & H4 & H5).
  unfold ends, gettoken. cbn zeta. destruct (token_at b es _) as [tok e]. cbn [fst snd] in *.
  destruct (ws_spec e (proj2 H3)) as [H6 _]. split; [lia|]. split; [|done]. intros Ht. specialize (H4 Ht). lia.
Qed.

(** After [peek] has found a token, [gettoken] moves on. *)
Lemma skip_ws_id s : (s <= es)%nat -> (s < es -> has whitespace (b s) = false)%nat -> skip_ws b es s = s.
Proof.
  intros Hs Hw. unfold skip_ws, skip_while. destruct (es - s)%nat as [|n] eqn:E; [done|].
  cbn [skip_n]. by rewrite Hw by lia.
Qed.

Lemma peek_ends toks ps : (ps <= es)%nat ->
  ends (peek b es toks) ps (fun r ps' => r = true -> ends (gettoken b es) ps' (fun _ ps2 => (ps' < ps2)%nat)).
Proof.
  intros Hp. destruct (ws_spec ps Hp) as [H1 H2]. unfold ends at 1, peek. cbn zeta. split; [done|].
  intros [Hn _]%andb_true_iff. set (s := skip_ws b es ps) in *.
  assert (fst (token_at b es s) <> 0) as Ht.
  { unfold token_at. destruct (Z.eqb_spec (b s) 0) as [|Hne]; [done|].
    destruct (has (s2b _) _); [exact Hne|]. destruct (b s =? 62); [|done]. by destruct (b (S s) =? 62). }
  destruct (token_at_spec s (proj2 H1) H2) as (H3 & H4 & _). specialize (H4 Ht).
  unfold ends, gettoken. rewrite skip_ws_id by (done || lia). cbn zeta.
  destruct (token_at b es s) as [tok e]. cbn [snd] in *.
  destruct (ws_spec e (proj2 H3)) as [H6 _]. lia.
Qed.

(** ** The parser's functions end *)

Definition toks_ok (c : cmd (nat * nat)) : Prop := Forall word_tok (tokens c).

Lemma add_arg_ok t c : word_tok t -> toks_ok c -> toks_ok (add_arg t c).
Proof.
  intros Ht. unfold toks_ok. induction c; cbn; try done.
  - rewrite Forall_app. intros H. split; [done|]. by constructor.
  - rewrite !Forall_app. naive_solver.
Qed.

Lemma redirs_ends c ps : (ps <= es)%nat -> toks_ok c ->
  ends (parseredirs b es c) ps (fun c' _ => toks_ok c').
Proof.
  apply (ends_loop _ toks_ok). clear c ps. intros c ps Hp Hc. unfold redirs_turn. apply ends_bind.
  eapply ends_mono; [by apply peek_ends|]. intros [] ps1 H1 Hk; cbn [negb]; [|by apply ends_ret; [lia|]].
  apply ends_bind. eapply ends_mono; [by apply Hk|]. intros [tok t] ps2 H2 Hlt. cbv beta in Hlt. apply ends_bind.
  eapply ends_mono; [apply gettoken_ends; lia|]. intros [tok' t'] ps3 H3 [_ Hw]. cbn [fst snd].
  destruct (Z.eqb_spec tok' 97) as [E|E]; cbn [negb]; [|apply ends_panic; set_solver].
  apply ends_ret; [lia|]. split; [lia|]. specialize (Hw E). unfold toks_ok in *.
  destruct (tok =? 60); [|destruct (_ || _)]; cbn; try done; apply Forall_app; split; try done;
    by constructor.
Qed.

Lemma args_ends x ps : (ps <= es)%nat -> toks_ok (fst x) ->
  ends (ploop es (args_turn b es) x) ps (fun c' _ => toks_ok c').
Proof.
  apply (ends_loop _ (fun x => toks_ok (fst x))). clear x ps. intros [c argc] ps Hp Hc.
  cbn [fst] in Hc. unfold args_turn. apply ends_bind. eapply ends_mono; [by apply peek_ends|].
  intros [] ps1 H1 _; [by apply ends_ret; [lia|]|]. apply ends_bind.
  eapply ends_mono; [apply gettoken_ends; lia|]. intros [tok t] ps2 H2 [Hlt Hw]. cbn [fst snd].
  destruct (Z.eqb_spec tok 0) as [|Hn]; [by apply ends_ret; [lia|]|].
  destruct (Z.eqb_spec tok 97) as [E|E]; cbn [negb]; [|apply ends_panic; set_solver]. cbn zeta.
  destruct (Nat.leb _ _); [apply ends_panic; set_solver|]. apply ends_bind.
  eapply ends_mono; [apply redirs_ends; [lia|by apply add_arg_ok; [apply Hw|]]|].
  intros c' ps3 H3 Hc'. apply ends_ret; [lia|]. split; [specialize (Hlt Hn); lia|done].
Qed.

Lemma back_ends c ps : (ps <= es)%nat -> toks_ok c ->
  ends (ploop es (back_turn b es) c) ps (fun c' _ => toks_ok c').
Proof.
  apply (ends_loop _ toks_ok). clear c ps. intros c ps Hp Hc. unfold back_turn. apply ends_bind.
  eapply ends_mono; [by apply peek_ends|]. intros [] ps1 H1 Hk; cbn [negb]; [|by apply ends_ret; [lia|]].
  apply ends_bind. eapply ends_mono; [by apply Hk|]. intros [tok t] ps2 H2 Hlt. cbv beta in Hlt.
  apply ends_ret; [lia|]. split; [lia|done].
Qed.

(** What a call with enough fuel does. *)
Definition parses (m : M nat (cmd (nat * nat))) (ps : nat) : Prop := ends m ps (fun c _ => toks_ok c).

(** An operator token and the rest after it. *)
Lemma ends_operator toks c (con : cmd (nat * nat) -> cmd (nat * nat) -> cmd (nat * nat))
    (rest : M nat (cmd (nat * nat))) ps :
  (ps <= es)%nat -> toks_ok c -> (forall c', toks_ok c' -> toks_ok (con c c')) ->
  (forall ps', (ps < ps' <= es)%nat -> parses rest ps') ->
  parses (p <- peek b es toks ;;
          if p : bool then gettoken b es ;; r <- rest ;; ret (con c r) else ret c) ps.
Proof.
  intros Hp Hc Hcon Hr. apply ends_bind. eapply ends_mono; [by apply peek_ends|].
  intros [] ps1 H1 Hk; [|by apply ends_ret; [lia|]].
  apply ends_bind. eapply ends_mono; [by apply Hk|]. intros t2 ps2 H2 Hlt. cbv beta in Hlt. apply ends_bind.
  eapply ends_mono; [apply Hr; lia|]. intros c' ps3 H3 Hc'. apply ends_ret; [lia|auto].
Qed.

Lemma parse_ends fuel : forall ps, (ps <= es)%nat ->
  ((4 * (es - ps) + 4 <= fuel)%nat -> parses (parseline b es fuel) ps) /\
  ((4 * (es - ps) + 3 <= fuel)%nat -> parses (parsepipe b es fuel) ps) /\
  ((4 * (es - ps) + 2 <= fuel)%nat -> parses (parseexec b es fuel) ps) /\
  ((4 * (es - ps) + 1 <= fuel)%nat -> parses (parseblock b es fuel) ps).
Proof.
  induction fuel as [|n IH]; intros ps Hp; [split_and!; lia|].
  split_and!; intros Hf; cbn [parseline parsepipe parseexec parseblock].
  - apply ends_bind. eapply ends_mono; [apply IH; lia|]. intros c ps1 H1 Hc. apply ends_bind.
    eapply ends_mono; [apply back_ends; [lia|done]|]. intros c2 ps2 H2 Hc2.
    apply (ends_operator _ c2 ListC); [lia|done| |].
    + intros c' Hc'. by apply Forall_app.
    + intros ps' Hps'. apply IH; lia.
  - apply ends_bind. eapply ends_mono; [apply IH; lia|]. intros c ps1 H1 Hc.
    apply (ends_operator _ c PipeC); [lia|done| |].
    + intros c' Hc'. by apply Forall_app.
    + intros ps' Hps'. apply IH; lia.
  - apply ends_bind. eapply ends_mono; [by apply peek_ends|]. intros [] ps1 H1 _.
    + eapply ends_mono; [apply IH; lia|]. done.
    + apply ends_bind. eapply ends_mono; [apply redirs_ends; [lia|by constructor]|].
      intros c ps2 H2 Hc. apply args_ends; [lia|done].
  - apply ends_bind. eapply ends_mono; [by apply peek_ends|]. intros [] ps1 H1 Hk; cbn [negb].
    2: apply ends_panic; set_solver.
    apply ends_bind. eapply ends_mono; [by apply Hk|]. intros t2 ps2 H2 Hlt. cbv beta in Hlt. apply ends_bind.
    eapply ends_mono; [apply IH; lia|]. intros c ps3 H3 Hc. apply ends_bind.
    eapply ends_mono; [apply peek_ends; lia|]. intros [] ps4 H4 Hk4; cbn [negb].
    2: apply ends_panic; set_solver.
    apply ends_bind. eapply ends_mono; [by apply Hk4|]. intros t5 ps5 H5 Hlt5. cbv beta in Hlt5. by apply redirs_ends; [lia|].
Qed.
End Total.

(** ** The strings of the parsed command *)

(** The C string at [q]. *)
Definition string_at (b : nat -> Z) (q : nat) (l : list Z) : Prop :=
  (forall i c, l !! i = Some c -> b (q + i)%nat = c /\ c <> 0) /\ b (q + length l)%nat = 0.

Lemma fold_nul l : forall b i,
  foldl (fun b (t : nat * nat) => fn_upd (snd t) 0 b) b l i =
  if decide (i ∈ l.*2) then 0 else b i.
Proof.
  induction l as [|t l IH]; intros b i; cbn [foldl].
  - rewrite decide_False; [done|apply not_elem_of_nil].
  - rewrite IH. cbn. destruct (decide (i ∈ l.*2)).
    + by rewrite decide_True by (by right).
    + unfold fn_upd. destruct (decide (i = snd t)) as [->|].
      * by rewrite decide_True by left.
      * rewrite decide_False; [done|]. by intros [?|?]%elem_of_cons.
Qed.

Lemma nul_spec c : forall b i,
  nulterminate c b i = if decide (i ∈ (tokens c).*2) then 0 else b i.
Proof.
  assert (forall (l l' : list (nat * nat)) i (x : Z),
    (if decide (i ∈ l'.*2) then 0 else if decide (i ∈ l.*2) then 0 else x) =
    if decide (i ∈ (l ++ l').*2) then 0 else x) as Happ.
  { intros l l' i x. rewrite fmap_app. destruct (decide (i ∈ l'.*2)), (decide (i ∈ l.*2));
      (rewrite decide_True by (apply elem_of_app; tauto); done) ||
      (rewrite decide_False by (rewrite elem_of_app; tauto); done). }
  induction c as [argv|c IH file mode fd|l IHl r IHr|l IHl r IHr|c IH]; intros b i; cbn [nulterminate tokens].
  - apply fold_nul.
  - unfold fn_upd. rewrite IH, <- Happ. f_equal. apply decide_ext. cbn.
    by rewrite list_elem_of_singleton.
  - by rewrite IHr, IHl, Happ.
  - by rewrite IHr, IHl, Happ.
  - apply IH.
Qed.

(** Ends of words lie outside words. *)
Lemma word_end_outside b es t t' :
  b es = 0 -> word_tok b es t -> word_tok b es t' -> ~ (fst t <= snd t' < snd t)%nat.
Proof.
  intros Hes [Hr Hc _] [Hr' _ He] Hin. specialize (Hc _ Hin). destruct He as [He|He]; [congruence|].
  lia.
Qed.

Lemma from_in s i c : s !! i = Some c -> from s i = c.
Proof. intros H. unfold from. by rewrite H. Qed.

Lemma nul_strings s c t :
  Forall (fun c => c <> 0) s ->
  toks_ok (from s) (length s) c -> t ∈ tokens c ->
  string_at (nulterminate c (from s)) (fst t) (token_text s t).
Proof.
  intros Hs Hc Ht. unfold toks_ok in Hc. rewrite Forall_forall in Hc. rewrite Forall_forall in Hs. pose proof (Hc t Ht) as Hw.
  pose proof (wt_range _ _ _ Hw) as Hr. unfold token_text. split.
  - intros i d Hi. apply lookup_take_Some in Hi as [Hi Hlt]. rewrite lookup_drop in Hi.
    split; [|apply Hs; by eapply list_elem_of_lookup_2]. rewrite nul_spec, decide_False; [by apply from_in|].
    intros (t' & E & Ht')%list_elem_of_fmap.
    apply (word_end_outside (from s) (length s) t t'); [|done|by apply Hc|lia].
    unfold from. by rewrite lookup_ge_None_2.
  - rewrite length_take, length_drop. replace (fst t + _)%nat with (snd t) by lia.
    rewrite nul_spec, decide_True; [done|]. apply list_elem_of_fmap. by exists t.
Qed.

(** C20: the shell's parser ends on every line.  It exits with one of its
    error messages, or yields a command each of whose argument and file
    strings is a nonempty piece of the line that [nulterminate] has terminated
    exactly at its end: no string is cut short or runs on, whatever else the
    NULs overwrote. *)
Theorem parsecmd_ends s :
  Forall (fun c => c <> 0) s ->
  match parsecmd s with
  | Ok (c, b') _ =>
    Forall (fun t => (fst t < snd t <= length s)%nat /\ string_at b' (fst t) (token_text s t)) (tokens c)
  | Panic e => e ∈ parse_errors
  | _ => False
  end.
Proof.
  intros Hs. unfold parsecmd. set (b := from s). set (es := length s). cbn zeta.
  assert (forall i, (i < es)%nat -> b i <> 0) as Hin.
  { intros i Hi. destruct (lookup_lt_is_Some_2 s i Hi) as [c Hc]. unfold b. rewrite (from_in _ _ _ Hc).
    rewrite Forall_forall in Hs. apply Hs. by eapply list_elem_of_lookup_2. }
  assert (b es = 0) as Hes by (unfold b, from; by rewrite lookup_ge_None_2).
  pose proof (proj1 (parse_ends b es Hin Hes (4 * S es) 0 ltac:(lia)) ltac:(lia)) as Hl.
  unfold parses, ends in Hl. unfold bind at 1. destruct (parseline b es _ 0%nat) as [c ps| | | |]; try done.
  destruct Hl as [_ Hc]. cbn [peek]. unfold bind, peek. cbn zeta. cbv [Prelude.gets id].
  destruct (Nat.eqb _ _); cbn [negb]; [|set_solver]. cbn [ret]. apply Forall_forall. intros t Ht.
  split; [|by apply nul_strings]. unfold toks_ok in Hc. rewrite Forall_forall in Hc. apply (Hc t Ht).
Qed.

(** ** Printing commands

    A command as text, with parentheses where the grammar needs them.  The
    level says what the parser will accept without them: 0 for [parseexec], 1
    for [parsepipe], 2 for what [parseline] takes before the semicolon, 3 for
    [parseline]. *)

Inductive token := TWord (w : list Z) | TSym (c : Z).

Definition tok_text (t : token) : list Z := match t with TWord w => w | TSym c => [c] end.
Definition text (l : list token) : list Z := mjoin ((fun t => tok_text t ++ [32]) <$> l).

Definition redir_sym (mode : Z) : Z := if mode =? O_RDONLY then 60 else 62.
Definition paren (yes : bool) (l : list token) : list token :=
  if yes then [TSym 40] ++ l ++ [TSym 41] else l.

Fixpoint pr (lvl : nat) (c : cmd (list Z)) : list token :=
  match c with
  | Exec argv => map TWord argv
  | Redir c file mode _ => pr 0 c ++ [TSym (redir_sym mode); TWord file]
  | PipeC l r => paren (Nat.ltb lvl 1) (pr 0 l ++ [TSym 124] ++ pr 1 r)
  | Back c => paren (Nat.ltb lvl 2) (pr 2 c ++ [TSym 38])
  | ListC l r => paren (Nat.ltb lvl 3) (pr 2 l ++ [TSym 59] ++ pr 3 r)
  end.
Definition print_cmd (c : cmd (list Z)) : list Z := text (pr 3 c).

(** Words the shell can read, and commands it can represent. *)
Definition good_word (w : list Z) : Prop := w <> [] /\ Forall (fun c => word_char c = true /\ c <> 0) w.
Fixpoint good (c : cmd (list Z)) : Prop :=
  match c with
  | Exec argv => (length argv < MAXARGS)%nat /\ Forall good_word argv
  | Redir c file mode fd => good c /\ good_word file /\
      (mode = O_RDONLY /\ fd = 0 \/ mode = Z.lor O_WRONLY O_CREATE /\ fd = 1)
  | PipeC l r => good l /\ good r
  | ListC l r => good l /\ good r
  | Back c => good c
  end.

#[global] Instance good_word_dec w : Decision (good_word w).
Proof. unfold good_word. apply _. Defined.
#[global] Instance good_dec c : Decision (good c).
Proof. induction c; cbn [good]; apply _. Defined.

Definition good_tok (t : token) : Prop :=
  match t with TWord w => good_word w | TSym c => has symbols c = true end.

Lemma paren_good yes l : Forall good_tok l -> Forall good_tok (paren yes l).
Proof.
  intros H. destruct yes; [|done]. constructor; [done|]. apply Forall_app. split; [done|].
  by constructor.
Qed.

Lemma pr_good c : forall lvl, good c -> Forall good_tok (pr lvl c).
Proof.
  induction c as [argv|c IH file mode fd|l IHl r IHr|l IHl r IHr|c IH]; intros lvl Hg; cbn [pr good] in *.
  - apply Forall_map. apply Hg.
  - destruct Hg as (Hg & Hf & _). apply Forall_app. split; [by apply IH|].
    constructor; [|by constructor]. unfold redir_sym. cbn. by destruct (mode =? O_RDONLY).
  - destruct Hg. apply paren_good, Forall_app. split; [by apply IHl|]. constructor; [done|]. by apply IHr.
  - destruct Hg. apply paren_good, Forall_app. split; [by apply IHl|]. constructor; [done|]. by apply IHr.
  - apply paren_good, Forall_app. split; [by apply IH|]. by constructor.
Qed.

(** ** Tokens of a printed line *)

Section RoundTrip.
Context (s : list Z).
Abbreviation b := (from s).
Abbreviation es := (length s).

(** What is left of the line at [ps] is the tokens [l]. *)
Definition at_toks (ps : nat) (l : list token) : Prop :=
  drop ps s = text l /\ (ps <= es)%nat /\ Forall good_tok l.

Lemma text_cons t l : text (t :: l) = tok_text t ++ [32] ++ text l.
Proof. unfold text. cbn. by rewrite <- app_assoc. Qed.

Lemma at_char ps l i : drop ps s = l -> b (ps + i)%nat = from l i.
Proof. intros <-. unfold from. by rewrite lookup_drop. Qed.

Lemma at_end ps : at_toks ps [] -> ps = es.
Proof.
  intros (H & Hp & _). assert (length (drop ps s) = 0)%nat as E by (by rewrite H).
  rewrite length_drop in E. lia.
Qed.

Lemma at_next ps t l : at_toks ps (t :: l) ->
  at_toks (ps + length (tok_text t) + 1) l /\ (ps + length (tok_text t) + 1 <= es)%nat.
Proof.
  intros (H & Hp & Hg). rewrite text_cons in H. apply Forall_cons in Hg as [_ Hg].
  assert (length (drop ps s) = length (tok_text t) + 1 + length (text l))%nat as E.
  { rewrite H, !length_app. cbn. lia. }
  rewrite length_drop in E. split; [|lia]. split; [|split; [lia|done]].
  rewrite <- Nat.add_assoc, <- drop_drop, H, app_assoc, drop_app_length'; [done|].
  rewrite length_app. cbn. lia.
Qed.

(** The first character of a token. *)
Lemma tok_head t : good_tok t ->
  exists c r, tok_text t = c :: r /\ c <> 0 /\ has whitespace c = false /\
    (match t with TSym d => c = d /\ r = [] | TWord _ => has symbols c = false end).
Proof.
  destruct t as [w|c]; cbn [tok_text good_tok].
  - intros [Hn Hf]. destruct w as [|c r]; [done|]. exists c, r. apply Forall_cons in Hf as [[Hc H0] _].
    unfold word_char in Hc. apply andb_true_iff in Hc as [H1 H2]. split; [done|]. split; [done|].
    split; [by destruct (has whitespace c)|by destruct (has symbols c)].
  - intros Hc. exists c, []. split; [done|]. rewrite has_elem in Hc. apply bool_decide_eq_true in Hc.
    change symbols with [60; 124; 62; 38; 59; 40; 41] in Hc.
    repeat (apply elem_of_cons in Hc as [->|Hc]; [done|]). by apply elem_of_nil in Hc.
Qed.

Lemma at_head ps t l : at_toks ps (t :: l) ->
  exists c r, tok_text t = c :: r /\ b ps = c /\ c <> 0 /\ has whitespace c = false /\
    (match t with TSym d => c = d /\ r = [] | TWord _ => has symbols c = false end).
Proof.
  intros (H & Hp & Hg). apply Forall_cons in Hg as [Ht _]. destruct (tok_head t Ht) as (c & r & E & H1).
  exists c, r. split; [done|]. split; [|done]. rewrite <- (Nat.add_0_r ps), (at_char _ _ 0 H), text_cons, E.
  done.
Qed.

Lemma at_skip_ws ps l : at_toks ps l -> skip_ws b es ps = ps.
Proof.
  intros H. pose proof H as (_ & Hp & _). apply skip_ws_id; [done|]. intros Hlt.
  destruct l as [|t l]; [apply at_end in H; lia|].
  by destruct (at_head _ _ _ H) as (c & r & _ & -> & _ & Hw & _).
Qed.

(** The blank after a token. *)
Lemma at_blank ps t l : at_toks ps (t :: l) ->
  b (ps + length (tok_text t))%nat = 32 /\
  skip_ws b es (ps + length (tok_text t)) = (ps + length (tok_text t) + 1)%nat.
Proof.
  intros H. destruct (at_next _ _ _ H) as [Hn Hle]. pose proof (at_skip_ws _ _ Hn) as Hw.
  destruct H as (H & _ & _). rewrite text_cons in H.
  assert (b (ps + length (tok_text t))%nat = 32) as E.
  { rewrite (at_char _ _ _ H). unfold from. cbn [app]. by rewrite list_lookup_middle. }
  split; [done|]. unfold skip_ws, skip_while in *.
  replace (es - (ps + length (tok_text t)))%nat with (S (es - (ps + length (tok_text t) + 1))) by lia.
  cbn [skip_n]. rewrite E. change (has whitespace 32) with true. cbn match.
  replace (S (ps + length (tok_text t)))%nat with (ps + length (tok_text t) + 1)%nat by lia. exact Hw.
Qed.

(** [gettoken] and [peek] on the tokens. *)
Definition kind (t : token) : Z := match t with TWord _ => 97 | TSym c => c end.

Lemma skip_n_block P n : forall fuel ps,
  (forall i, (i < n)%nat -> P (b (ps + i)%nat) = true) -> (n <= fuel)%nat ->
  P (b (ps + n)%nat) = false -> skip_n b P fuel ps = (ps + n)%nat.
Proof.
  induction n as [|n IH]; intros fuel ps Hin Hf Hout.
  - rewrite Nat.add_0_r in *. destruct fuel; [done|]. cbn [skip_n]. by rewrite Hout.
  - destruct fuel as [|fuel]; [lia|]. cbn [skip_n]. rewrite <- (Nat.add_0_r ps) at 1. rewrite Hin by lia.
    rewrite (IH fuel (S ps)); [lia| |lia|].
    + intros i Hi. replace (S ps + i)%nat with (ps + S i)%nat by lia. apply Hin. lia.
    + by replace (S ps + n)%nat with (ps + S n)%nat by lia.
Qed.

Lemma at_token ps t l : at_toks ps (t :: l) ->
  token_at b es ps = (kind t, (ps + length (tok_text t))%nat).
Proof.
  intros H. destruct (at_blank _ _ _ H) as [Eb _]. destruct (at_next _ _ _ H) as [_ Hle].
  destruct (at_head _ _ _ H) as (c & r & Et & E & H0 & Hw & Ht).
  unfold token_at. cbn zeta. rewrite E. destruct (Z.eqb_spec c 0); [done|]. destruct t as [w|d]; cbn [kind].
  - rewrite has_symbols in Ht. apply orb_false_iff in Ht as [-> H62]. rewrite Z.eqb_sym in H62. rewrite H62.
    f_equal. unfold skip_word, skip_while. destruct H as (H & _ & Hg).
    apply Forall_cons in Hg as [[_ Hg] _]. rewrite Forall_forall in Hg. cbn [tok_text] in *.
    apply skip_n_block; [|lia|by rewrite Eb].
    intros i Hi. destruct (lookup_lt_is_Some_2 w i Hi) as [x Hx]. rewrite (at_char _ _ _ H), text_cons.
    cbn [tok_text]. unfold from. rewrite (lookup_app_l_Some _ _ _ _ Hx). cbn.
    apply (Hg x). by eapply list_elem_of_lookup_2.
  - destruct Ht as [-> ->]. cbn [tok_text length] in *. rewrite Nat.add_1_r in *.
    destruct H as (_ & _ & Hg). apply Forall_cons in Hg as [Hg _]. cbn [good_tok] in Hg.
    destruct (has (s2b "|();&<") d) eqn:Eh; [done|]. rewrite has_symbols, Eh in Hg. cbn [orb] in Hg.
    apply Z.eqb_eq in Hg as <-. cbn [Z.eqb Pos.eqb]. by rewrite Eb.
Qed.

Lemma gettoken_at ps t l : at_toks ps (t :: l) ->
  gettoken b es ps =
    Ok (kind t, (ps, (ps + length (tok_text t))%nat)) (ps + length (tok_text t) + 1)%nat.
Proof.
  intros H. unfold gettoken. rewrite (at_skip_ws _ _ H). cbn zeta. rewrite (at_token _ _ _ H).
  by destruct (at_blank _ _ _ H) as [_ ->].
Qed.

(** The text of a token read is the token's. *)
Lemma at_text ps t l : at_toks ps (t :: l) ->
  token_text s (ps, (ps + length (tok_text t))%nat) = tok_text t.
Proof.
  intros (H & _ & _). unfold token_text. cbn [fst snd]. rewrite H, text_cons.
  replace (ps + length (tok_text t) - ps)%nat with (length (tok_text t)) by lia. apply take_app_length.
Qed.

Definition next_is (set : list Z) (l : list token) : bool :=
  match l with TSym c :: _ => has set c | _ => false end.

Lemma has_forallb (P : Z -> bool) set c : forallb P set = true -> has set c = true -> P c = true.
Proof.
  rewrite has_elem. intros H Hc%bool_decide_eq_true. rewrite forallb_forall in H. apply H.
  by apply list_elem_of_In.
Qed.

Lemma peek_at set ps l : at_toks ps l -> forallb (has symbols) set = true ->
  peek b es set ps = Ok (next_is set l) ps.
Proof.
  intros H Hset. unfold peek. rewrite (at_skip_ws _ _ H). cbn zeta. f_equal. destruct l as [|t l].
  - apply at_end in H as ->. unfold from. by rewrite lookup_ge_None_2.
  - destruct (at_head _ _ _ H) as (c & r & _ & -> & H0 & _ & Ht). destruct (Z.eqb_spec c 0); [done|].
    cbn [negb andb next_is]. destruct t as [w|d]; [|by destruct Ht as [-> _]].
    destruct (has set c) eqn:E; [|done]. apply (has_forallb _ _ _ Hset) in E. congruence.
Qed.

(** ** What may follow *)

Definition follow (set : list Z) (l : list token) : Prop := l = [] \/ next_is set l = true.

Lemma follow_not set set' l :
  forallb (fun c => negb (has set' c)) set = true -> follow set l -> next_is set' l = false.
Proof.
  intros H [->|Hl]; [done|]. destruct l as [|[w|c] l]; try done. cbn [next_is] in *.
  apply (has_forallb _ _ _ H) in Hl. by destruct (has set' c).
Qed.
Lemma follow_weaken set set' l : forallb (has set') set = true -> follow set l -> follow set' l.
Proof.
  intros H [->|Hl]; [by left|]. right. destruct l as [|[w|c] l]; try done. by apply (has_forallb _ _ _ H).
Qed.
Lemma follow_sym set c l : has set c = true -> follow set (TSym c :: l).
Proof. by right. Qed.

Lemma at_length ps l : at_toks ps l -> (length l <= es)%nat.
Proof.
  intros (H & _ & Hg). assert (length l <= length (text l))%nat as Hl.
  { clear H. induction Hg as [|t l Ht Hg IH]; [done|]. rewrite text_cons, !length_app. cbn. lia. }
  rewrite <- H, length_drop in Hl. lia.
Qed.

Lemma gettoken_end ps : at_toks ps [] -> gettoken b es ps = Ok (0, (ps, ps)) ps.
Proof.
  intros H. pose proof (at_skip_ws _ _ H) as Hw. unfold gettoken. rewrite Hw. cbn zeta.
  apply at_end in H as Hp. assert (token_at b es ps = (0, ps)) as ->; [|by rewrite Hw].
  unfold token_at. assert (b ps = 0) as -> by (rewrite Hp; unfold from; by rewrite lookup_ge_None_2). done.
Qed.

(** ** The parser on printed commands *)

(** [m] at [ps] yields a command that reads as [c] and leaves the tokens
    [rest]. *)
Definition yields (m : M nat (cmd (nat * nat))) (ps : nat) (c : cmd (list Z)) (rest : list token) : Prop :=
  exists c' ps', m ps = Ok c' ps' /\ cmap (token_text s) c' = c /\ at_toks ps' rest /\ (ps <= ps')%nat.

(** Redirections, outermost last. *)
Definition redir : Type := list Z * Z * Z.
Definition wrap (rs : list redir) (c : cmd (list Z)) : cmd (list Z) :=
  foldl (fun c '(f, m, d) => Redir c f m d) c rs.
Definition redir_toks (rs : list redir) : list token :=
  mjoin ((fun '(f, m, _) => [TSym (redir_sym m); TWord f]) <$> rs).
Definition good_redir (r : redir) : Prop :=
  let '(f, m, d) := r in
  good_word f /\ (m = O_RDONLY /\ d = 0 \/ m = Z.lor O_WRONLY O_CREATE /\ d = 1).

(** A turn of [parseredirs] on one redirection. *)
Lemma redir_turn_at ps f m d rest c : good_redir (f, m, d) ->
  at_toks ps (TSym (redir_sym m) :: TWord f :: rest) ->
  exists q ps', redirs_turn b es c ps = Ok (inl (Redir c q m d)) ps' /\
    token_text s q = f /\ at_toks ps' rest /\ (ps <= ps')%nat.
Proof.
  intros [_ Hm] H. destruct (at_next _ _ _ H) as [H1 _]. destruct (at_next _ _ _ H1) as [H2 _].
  unfold redirs_turn. rewrite (bind_ok _ _ _ _ _ (peek_at (s2b "<>") _ _ H eq_refl)).
  assert (next_is (s2b "<>") (TSym (redir_sym m) :: TWord f :: rest) = true) as ->
    by (cbn [next_is]; unfold redir_sym; by destruct (m =? O_RDONLY)).
  cbn [negb]. rewrite (bind_ok _ _ _ _ _ (gettoken_at _ _ _ H)).
  rewrite (bind_ok _ _ _ _ _ (gettoken_at _ _ _ H1)). cbn [kind fst snd Z.eqb Pos.eqb negb].
  eexists _, _. split; [|split; [exact (at_text _ _ _ H1)|split; [exact H2|cbn; lia]]].
  destruct Hm as [[-> ->]|[-> ->]]; reflexivity.
Qed.

Lemma redirs_at rs : forall n ps c rest,
  at_toks ps (redir_toks rs ++ rest) -> Forall good_redir rs -> next_is (s2b "<>") rest = false ->
  (length rs < n)%nat ->
  yields (loop_ n (redirs_turn b es) c) ps (wrap rs (cmap (token_text s) c)) rest.
Proof.
  induction rs as [|[[f m] d] rs IH]; intros n ps c rest H Hg Hr Hn; (destruct n as [|n]; [lia|]); cbn [loop_].
  - exists c, ps. split; [|done].
    erewrite bind_ok; [|unfold redirs_turn; rewrite (bind_ok _ _ _ _ _ (peek_at (s2b "<>") _ _ H eq_refl));
      cbn [redir_toks mjoin list_join fmap list_fmap app]; rewrite Hr; reflexivity]. done.
  - apply Forall_cons in Hg as [Hg1 Hg].
    destruct (redir_turn_at ps f m d (redir_toks rs ++ rest) c Hg1 H) as (q & ps1 & E & Et & H1 & Hle).
    destruct (IH n ps1 (Redir c q m d) rest H1 Hg Hr) as (c' & ps2 & E2 & Ec & H2 & Hle2); [cbn in Hn; lia|].
    exists c', ps2. split; [by rewrite (bind_ok _ _ _ _ _ E)|]. split; [|split; [done|lia]].
    rewrite Ec. cbn. by rewrite Et.
Qed.

Lemma length_redir_toks rs : length (redir_toks rs) = (2 * length rs)%nat.
Proof.
  induction rs as [|[[f m] d] rs IH]; [done|].
  change (length (redir_toks ((f, m, d) :: rs))) with (S (S (length (redir_toks rs)))). cbn [length]. lia.
Qed.

Lemma parseredirs_at rs ps c rest :
  at_toks ps (redir_toks rs ++ rest) -> Forall good_redir rs -> next_is (s2b "<>") rest = false ->
  yields (parseredirs b es c) ps (wrap rs (cmap (token_text s) c)) rest.
Proof.
  intros H Hg Hr. apply redirs_at; try done. pose proof (at_length _ _ H) as Hl.
  rewrite length_app, length_redir_toks in Hl. lia.
Qed.

Definition exec_follow : list Z := s2b "|)&;".

(** The loop over the arguments stops at what follows. *)
Lemma args_stop n ps c argc rest :
  at_toks ps rest -> follow exec_follow rest ->
  yields (loop_ (S n) (args_turn b es) (c, argc)) ps (cmap (token_text s) c) rest.
Proof.
  intros H Hf. exists c, ps. split; [|done]. cbn [loop_].
  assert (args_turn b es (c, argc) ps = Ok (inr c) ps) as E; [|by rewrite (bind_ok _ _ _ _ _ E)].
  unfold args_turn. rewrite (bind_ok _ _ _ _ _ (peek_at exec_follow _ _ H eq_refl)).
  destruct Hf as [-> | ->]; [|done]. cbn [next_is].
  by rewrite (bind_ok _ _ _ _ _ (gettoken_end _ H)).
Qed.

Lemma cmap_add_arg (f : nat * nat -> list Z) t c : cmap f (add_arg t c) = add_arg (f t) (cmap f c).
Proof. induction c; cbn; try done; [by rewrite fmap_app|by f_equal]. Qed.

(** One argument, and the redirections after it. *)
Lemma arg_turn_at ps c argc a rs rest :
  at_toks ps (TWord a :: redir_toks rs ++ rest) -> Forall good_redir rs ->
  next_is (s2b "<>") rest = false -> (S argc < MAXARGS)%nat ->
  exists c' ps', args_turn b es (c, argc) ps = Ok (inl (c', S argc)) ps' /\
    cmap (token_text s) c' = wrap rs (add_arg a (cmap (token_text s) c)) /\
    at_toks ps' rest /\ (ps <= ps')%nat.
Proof.
  intros H Hg Hr Hlt. destruct (at_next _ _ _ H) as [H1 _]. unfold args_turn.
  rewrite (bind_ok _ _ _ _ _ (peek_at exec_follow _ _ H eq_refl)). cbn [next_is].
  rewrite (bind_ok _ _ _ _ _ (gettoken_at _ _ _ H)). cbn [kind fst snd Z.eqb Pos.eqb negb].
  destruct (Nat.leb_spec MAXARGS (S argc)); [lia|].
  destruct (parseredirs_at rs _ (add_arg (ps, (ps + length (tok_text (TWord a)))%nat) c) rest H1 Hg Hr)
    as (c' & ps' & E & Ec & H' & Hle).
  exists c', ps'. split; [by rewrite (bind_ok _ _ _ _ _ E)|]. split; [|split; [done|lia]].
  by rewrite Ec, cmap_add_arg, (at_text _ _ _ H).
Qed.

(** All arguments; the redirections come after the last. *)
Lemma args_at args : forall n ps c argc done_ rs rest,
  at_toks ps (map TWord args ++ redir_toks rs ++ rest) -> Forall good_redir rs ->
  (args = [] -> rs = []) -> follow exec_follow rest ->
  cmap (token_text s) c = Exec done_ -> (argc + length args < MAXARGS)%nat -> (length args < n)%nat ->
  yields (loop_ n (args_turn b es) (c, argc)) ps (wrap rs (Exec (done_ ++ args))) rest.
Proof.
  induction args as [|a args IH]; intros n ps c argc done_ rs rest H Hg Hrs Hf Hc Hlt Hn;
    (destruct n as [|n]; [lia|]).
  { rewrite (Hrs eq_refl), app_nil_r in *. cbn [wrap foldl]. rewrite <- Hc. by apply args_stop. }
  pose proof (follow_not exec_follow (s2b "<>") rest eq_refl Hf) as Hr. cbn [length] in *.
  destruct args as [|a2 args].
  - destruct (arg_turn_at ps c argc a rs rest H Hg Hr) as (c1 & ps1 & E & Ec & H1 & Hle); [lia|].
    destruct n as [|n]; [cbn in Hn; lia|].
    destruct (args_stop n ps1 c1 (S argc) rest H1 Hf) as (c2 & ps2 & E2 & Ec2 & H2 & Hle2).
    exists c2, ps2. split; [cbn [loop_] in *; by rewrite (bind_ok _ _ _ _ _ E)|].
    split; [|split; [done|lia]]. by rewrite Ec2, Ec, Hc.
  - destruct (arg_turn_at ps c argc a [] (TWord a2 :: map TWord args ++ redir_toks rs ++ rest) H)
      as (c1 & ps1 & E & Ec & H1 & Hle); [by constructor|done|lia|].
    destruct (IH n ps1 c1 (S argc) (done_ ++ [a]) rs rest H1 Hg) as (c2 & ps2 & E2 & Ec2 & H2 & Hle2);
      [done|done|by rewrite Ec, Hc|lia|cbn in *; lia|].
    exists c2, ps2. split; [cbn [loop_] in *; by rewrite (bind_ok _ _ _ _ _ E)|].
    split; [|split; [done|lia]]. by rewrite Ec2, <- app_assoc.
Qed.

(** Simple commands with redirections. *)
Lemma exec_at fuel ps args rs rest :
  at_toks ps (map TWord args ++ redir_toks rs ++ rest) -> Forall good_redir rs ->
  (length args < MAXARGS)%nat -> follow exec_follow rest ->
  yields (parseexec b es (S fuel)) ps (wrap rs (Exec args)) rest.
Proof.
  intros H Hg Hlt Hf. pose proof (at_length _ _ H) as Hl. rewrite !length_app, length_map in Hl.
  cbn [parseexec].
  assert (next_is (s2b "(") (map TWord args ++ redir_toks rs ++ rest) = false) as Hp.
  { destruct args as [|a args]; [|done]. destruct rs as [|[[f m] d] rs].
    - by apply (follow_not exec_follow).
    - cbn [redir_toks fmap list_fmap mjoin list_join app next_is]. unfold redir_sym. by destruct (_ =? _). }
  unfold yields. rewrite (bind_ok _ _ _ _ _ (peek_at (s2b "(") _ _ H eq_refl)), Hp. cbn match.
  pose proof (follow_not exec_follow (s2b "<>") rest eq_refl Hf) as Hr.
  destruct args as [|a args].
  - destruct (parseredirs_at rs ps (Exec []) rest H Hg Hr) as (c1 & ps1 & E & Ec & H1 & Hle).
    rewrite (bind_ok _ _ _ _ _ E).
    destruct (args_stop (S es) ps1 c1 0 rest H1 Hf) as (c2 & ps2 & E2 & Ec2 & H2 & Hle2).
    exists c2, ps2. split; [exact E2|]. split; [by rewrite Ec2, Ec|]. split; [done|lia].
  - destruct (parseredirs_at [] ps (Exec []) (TWord a :: map TWord args ++ redir_toks rs ++ rest) H)
      as (c1 & ps1 & E & Ec & H1 & Hle); [by constructor|done|]. rewrite (bind_ok _ _ _ _ _ E).
    destruct (args_at (a :: args) (S (S es)) ps1 c1 0 [] rs rest H1 Hg) as (c2 & ps2 & E2 & Ec2 & H2 & Hle2);
      [done|done|done|done|lia|].
    exists c2, ps2. split; [exact E2|]. split; [done|]. split; [done|lia].
Qed.

(** The three levels, for the rest of the line that may follow each. *)
Definition line_follow : list Z := s2b ")".
Definition pipe_follow : list Z := s2b ")&;".
Definition exec_lvl (c : cmd (list Z)) : Prop := forall fuel ps rest,
  at_toks ps (pr 0 c ++ rest) -> follow exec_follow rest -> (4 * (es - ps) + 2 <= fuel)%nat ->
  yields (parseexec b es fuel) ps c rest.
Definition pipe_lvl (c : cmd (list Z)) : Prop := forall fuel ps rest,
  at_toks ps (pr 1 c ++ rest) -> follow pipe_follow rest -> (4 * (es - ps) + 3 <= fuel)%nat ->
  yields (parsepipe b es fuel) ps c rest.
Definition line_lvl (c : cmd (list Z)) : Prop := forall fuel ps rest,
  at_toks ps (pr 3 c ++ rest) -> follow line_follow rest -> (4 * (es - ps) + 4 <= fuel)%nat ->
  yields (parseline b es fuel) ps c rest.

(** A sequence of [&]. *)
Lemma backs_at k : forall n ps c rest,
  at_toks ps (replicate k (TSym 38) ++ rest) -> next_is (s2b "&") rest = false -> (k < n)%nat ->
  yields (loop_ n (back_turn b es) c) ps (Nat.iter k Back (cmap (token_text s) c)) rest.
Proof.
  induction k as [|k IH]; intros n ps c rest H Hr Hn; (destruct n as [|n]; [lia|]); cbn [loop_].
  - exists c, ps. split; [|done].
    assert (back_turn b es c ps = Ok (inr c) ps) as E; [|by rewrite (bind_ok _ _ _ _ _ E)].
    unfold back_turn. rewrite (bind_ok _ _ _ _ _ (peek_at (s2b "&") _ _ H eq_refl)).
    cbn [replicate app]. by rewrite Hr.
  - cbn [replicate app] in H. destruct (at_next _ _ _ H) as [H1 _].
    assert (back_turn b es c ps = Ok (inl (Back c)) (ps + 1 + 1)%nat) as E.
    { unfold back_turn. rewrite (bind_ok _ _ _ _ _ (peek_at (s2b "&") _ _ H eq_refl)).
      cbn [next_is]. change (has (s2b "&") 38) with true. cbn [negb].
      by rewrite (bind_ok _ _ _ _ _ (gettoken_at _ _ _ H)). }
    destruct (IH n _ (Back c) rest H1 Hr) as (c' & ps' & E' & Ec & H' & Hle); [lia|].
    exists c', ps'. split; [by rewrite (bind_ok _ _ _ _ _ E)|]. split; [|split; [done|cbn in Hle; lia]].
    rewrite Ec. cbn [cmap]. symmetry. apply Nat.iter_succ_r.
Qed.

(** A command as what stands before its [&]s. *)
Fixpoint core (c : cmd (list Z)) : cmd (list Z) := match c with Back c => core c | _ => c end.
Fixpoint depth (c : cmd (list Z)) : nat := match c with Back c => S (depth c) | _ => 0 end.

Lemma core_depth c : Nat.iter (depth c) Back (core c) = c.
Proof. induction c; cbn; try done. by f_equal. Qed.
Lemma pr_core c : pr 2 c = pr 1 (core c) ++ replicate (depth c) (TSym 38).
Proof.
  induction c; cbn [pr core depth replicate Nat.ltb Nat.leb paren]; try by rewrite app_nil_r.
  rewrite IHc. cbn [Nat.ltb Nat.leb paren]. rewrite <- app_assoc. f_equal.
  by rewrite <- replicate_S_end.
Qed.

(** What [parseline] takes before a semicolon. *)
Lemma backs_lvl c fuel ps rest :
  pipe_lvl (core c) -> at_toks ps (pr 2 c ++ rest) -> follow (s2b ");") rest ->
  (4 * (es - ps) + 3 <= fuel)%nat ->
  yields (c <- parsepipe b es fuel ;; ploop es (back_turn b es) c) ps c rest.
Proof.
  intros Hc H Hf Hfu. rewrite pr_core, <- app_assoc in H.
  destruct (Hc fuel ps _ H) as (c1 & ps1 & E1 & Ec1 & H1 & Hle1).
  { destruct (depth c); [by eapply follow_weaken; [|exact Hf]|by apply follow_sym]. }
  { done. }
  pose proof (at_length _ _ H1) as Hl. rewrite length_app, length_replicate in Hl.
  destruct (backs_at (depth c) (S (S es)) ps1 c1 rest H1) as (c2 & ps2 & E2 & Ec2 & H2 & Hle2);
    [by apply (follow_not (s2b ");"))|lia|].
  exists c2, ps2. split; [by rewrite (bind_ok _ _ _ _ _ E1)|].
  split; [by rewrite Ec2, Ec1, core_depth|]. split; [done|lia].
Qed.

(** A level from the one below, where the command is not of that level. *)
Lemma pipe_of_exec c : pr 1 c = pr 0 c -> exec_lvl c -> pipe_lvl c.
Proof.
  intros Epr Hc fuel ps rest H Hf Hfu. rewrite Epr in H. destruct fuel as [|n]; [lia|].
  destruct (Hc n ps rest H) as (c1 & ps1 & E1 & Ec1 & H1 & Hle1);
    [by eapply follow_weaken; [|exact Hf]|lia|].
  exists c1, ps1. split; [|done]. cbn [parsepipe]. rewrite (bind_ok _ _ _ _ _ E1).
  rewrite (bind_ok _ _ _ _ _ (peek_at (s2b "|") _ _ H1 eq_refl)).
  by rewrite (follow_not pipe_follow (s2b "|") rest eq_refl Hf).
Qed.

(** An operator and what it takes on its right. *)
Lemma operator_at set x (con : cmd (nat * nat) -> cmd (nat * nat) -> cmd (nat * nat))
    (con' : cmd (list Z) -> cmd (list Z) -> cmd (list Z)) m c1 r ps l rest :
  set = [x] -> has symbols x = true ->
  (forall a d, cmap (token_text s) (con a d) = con' (cmap (token_text s) a) (cmap (token_text s) d)) ->
  at_toks ps (TSym x :: l) -> (forall ps', (ps < ps')%nat -> at_toks ps' l -> yields m ps' r rest) ->
  yields (p <- peek b es set ;;
          if p : bool then gettoken b es ;; r <- m ;; ret (con c1 r) else ret c1) ps
    (con' (cmap (token_text s) c1) r) rest.
Proof.
  intros -> Hx Hcon H Hm. destruct (at_next _ _ _ H) as [H1 _].
  destruct (Hm (ps + length (tok_text (TSym x)) + 1)%nat) as (c2 & ps2 & E2 & Ec2 & H2 & Hle);
    [cbn; lia|done|].
  exists (con c1 c2), ps2. split; [|split; [by rewrite Hcon, Ec2|split; [done|cbn in Hle; lia]]].
  rewrite (bind_ok _ _ _ _ _ (peek_at [x] _ _ H ltac:(cbn [forallb]; by rewrite Hx))).
  cbn [next_is]. rewrite has_cons, Z.eqb_refl. cbn [orb].
  rewrite (bind_ok _ _ _ _ _ (gettoken_at _ _ _ H)). by rewrite (bind_ok _ _ _ _ _ E2).
Qed.

Lemma pipe_of_parts l r : exec_lvl l -> pipe_lvl r -> pipe_lvl (PipeC l r).
Proof.
  intros Hl Hr fuel ps rest H Hf Hfu. destruct fuel as [|n]; [lia|].
  cbn [pr Nat.ltb Nat.leb paren] in H. rewrite <- !app_assoc in H.
  destruct (Hl n ps _ H) as (c1 & ps1 & E1 & Ec1 & H1 & Hle1); [by apply follow_sym|lia|].
  destruct (operator_at (s2b "|") 124 PipeC PipeC (parsepipe b es n) c1 r ps1 (pr 1 r ++ rest) rest)
    as (c2 & ps2 & E2 & Ec2 & H2 & Hle2); try done.
  { intros ps' Hlt H'. pose proof H' as (_ & Hes & _). apply Hr; [done|done|]. lia. }
  exists c2, ps2. split; [cbn [parsepipe]; by rewrite (bind_ok _ _ _ _ _ E1)|].
  split; [by rewrite Ec2, Ec1|]. split; [done|lia].
Qed.

Lemma line_of_pipe c : pr 3 c = pr 2 c -> pipe_lvl (core c) -> line_lvl c.
Proof.
  intros Epr Hc fuel ps rest H Hf Hfu. rewrite Epr in H. destruct fuel as [|n]; [lia|].
  destruct (backs_lvl c n ps rest Hc H) as (c1 & ps1 & E1 & Ec1 & H1 & Hle1);
    [by eapply follow_weaken; [|exact Hf]|lia|].
  exists c1, ps1. split; [|done]. cbn [parseline]. rewrite <- bind_assoc, (bind_ok _ _ _ _ _ E1).
  rewrite (bind_ok _ _ _ _ _ (peek_at (s2b ";") _ _ H1 eq_refl)).
  by rewrite (follow_not line_follow (s2b ";") rest eq_refl Hf).
Qed.

Lemma line_of_parts l r : pipe_lvl (core l) -> line_lvl r -> line_lvl (ListC l r).
Proof.
  intros Hl Hr fuel ps rest H Hf Hfu. destruct fuel as [|n]; [lia|].
  cbn [pr Nat.ltb Nat.leb paren] in H. rewrite <- !app_assoc in H.
  destruct (backs_lvl l n ps _ Hl H) as (c1 & ps1 & E1 & Ec1 & H1 & Hle1);
    [by apply follow_sym|lia|].
  destruct (operator_at (s2b ";") 59 ListC ListC (parseline b es n) c1 r ps1 (pr 3 r ++ rest) rest)
    as (c2 & ps2 & E2 & Ec2 & H2 & Hle2); try done.
  { intros ps' Hlt H'. pose proof H' as (_ & Hes & _). apply Hr; [done|done|]. lia. }
  exists c2, ps2. split; [cbn [parseline]; by rewrite <- bind_assoc, (bind_ok _ _ _ _ _ E1)|].
  split; [by rewrite Ec2, Ec1|]. split; [done|lia].
Qed.

(** A block with redirections. *)
Lemma block_at c rs fuel ps rest :
  line_lvl c -> at_toks ps ([TSym 40] ++ pr 3 c ++ [TSym 41] ++ redir_toks rs ++ rest) ->
  Forall good_redir rs -> follow exec_follow rest -> (4 * (es - ps) + 2 <= fuel)%nat ->
  yields (parseexec b es fuel) ps (wrap rs c) rest.
Proof.
  intros Hc H Hg Hf Hfu. destruct fuel as [|[|n]]; [lia|lia|]. cbn [parseexec parseblock].
  destruct (at_next _ _ _ H) as [H1 Hle1].
  destruct (Hc n _ _ H1) as (c2 & ps2 & E2 & Ec2 & H2 & Hle2); [by apply follow_sym|cbn in *; lia|].
  destruct (at_next _ _ _ H2) as [H3 Hle3].
  destruct (parseredirs_at rs _ c2 rest H3 Hg) as (c4 & ps4 & E4 & Ec4 & H4 & Hle4);
    [by apply (follow_not exec_follow)|].
  exists c4, ps4. split; [|split; [by rewrite Ec4, Ec2|split; [done|cbn in *; lia]]].
  do 2 (rewrite (bind_ok _ _ _ _ _ (peek_at (s2b "(") _ _ H eq_refl));
        change (next_is (s2b "(") _) with true; cbn [negb]).
  rewrite (bind_ok _ _ _ _ _ (gettoken_at _ _ _ H)), (bind_ok _ _ _ _ _ E2).
  rewrite (bind_ok _ _ _ _ _ (peek_at (s2b ")") _ _ H2 eq_refl)).
  change (next_is (s2b ")") _) with true. cbn [negb].
  by rewrite (bind_ok _ _ _ _ _ (gettoken_at _ _ _ H2)).
Qed.

(** A command as what its redirections are wrapped around. *)
Fixpoint rcore (c : cmd (list Z)) : cmd (list Z) := match c with Redir c _ _ _ => rcore c | _ => c end.
Fixpoint rlist (c : cmd (list Z)) : list redir :=
  match c with Redir c f m d => rlist c ++ [(f, m, d)] | _ => [] end.

Lemma rcore_wrap c : wrap (rlist c) (rcore c) = c.
Proof.
  induction c as [| c IH f m d | | |]; try done. cbn [rlist rcore]. unfold wrap in *.
  by rewrite foldl_app, IH.
Qed.
Lemma redir_toks_snoc rs f m d :
  redir_toks (rs ++ [(f, m, d)]) = redir_toks rs ++ [TSym (redir_sym m); TWord f].
Proof. unfold redir_toks. by rewrite fmap_app, join_app. Qed.
Lemma pr_rcore c : pr 0 c = pr 0 (rcore c) ++ redir_toks (rlist c).
Proof.
  induction c as [| c IH f m d | | |]; cbn [rlist rcore]; try by rewrite app_nil_r.
  cbn [pr]. by rewrite IH, redir_toks_snoc, app_assoc.
Qed.
Lemma good_rcore c : good c -> good (rcore c) /\ Forall good_redir (rlist c).
Proof.
  induction c as [| c IH f m d | | |]; cbn [rlist rcore]; try (intros; split; [done|constructor]).
  intros (Hc & Hf & Hm). destruct (IH Hc). split; [done|]. apply Forall_app. split; [done|].
  by constructor.
Qed.

(** The constructors that need parentheses as a simple command. *)
Definition compound (c : cmd (list Z)) : Prop :=
  match c with Exec _ | Redir _ _ _ _ => False | _ => True end.
Lemma pr_compound c : compound c -> pr 0 c = [TSym 40] ++ pr 3 c ++ [TSym 41].
Proof. by destruct c. Qed.

Lemma exec_of_line c : compound c -> line_lvl c -> exec_lvl c.
Proof.
  intros Hk Hc fuel ps rest H Hf Hfu. rewrite (pr_compound c Hk), <- !app_assoc in H.
  by apply (block_at c [] fuel ps rest Hc H).
Qed.

Lemma exec_of_core c : good c -> (compound (rcore c) -> line_lvl (rcore c)) -> exec_lvl c.
Proof.
  intros Hg Hc fuel ps rest H Hf Hfu. destruct (good_rcore c Hg) as [Hgc Hgr].
  rewrite pr_rcore, <- app_assoc in H. rewrite <- (rcore_wrap c).
  assert (forall f m d c', rcore c <> Redir c' f m d) as Hnr
    by (clear; induction c; try done; cbn [rcore]; done).
  destruct (rcore c) as [args|c' f m d|l r|l r|c'] eqn:Ec.
  - destruct fuel as [|n]; [lia|]. apply exec_at; try done. apply Hgc.
  - by destruct (Hnr f m d c').
  - apply block_at; try done; [by apply Hc|]. rewrite pr_compound, <- !app_assoc in H by done. exact H.
  - apply block_at; try done; [by apply Hc|]. rewrite pr_compound, <- !app_assoc in H by done. exact H.
  - apply block_at; try done; [by apply Hc|]. rewrite pr_compound, <- !app_assoc in H by done. exact H.
Qed.

Fixpoint size (c : cmd (list Z)) : nat :=
  match c with
  | Exec _ => 0
  | Redir c _ _ _ => S (size c)
  | PipeC l r => S (size l + size r)
  | ListC l r => S (size l + size r)
  | Back c => S (size c)
  end.
Lemma size_core c : (size (core c) <= size c)%nat.
Proof. induction c; cbn [core size]; lia. Qed.
Lemma size_rcore c : (size (rcore c) <= size c)%nat.
Proof. induction c; cbn [rcore size]; lia. Qed.
Lemma good_core c : good c -> good (core c).
Proof. induction c; cbn [core good]; auto. Qed.

Lemma levels n : forall c, (size c < n)%nat -> good c -> exec_lvl c /\ pipe_lvl c /\ line_lvl c.
Proof.
  induction n as [|n IH]; intros c Hn Hg; [lia|].
  destruct c as [args|c f m d|l r|l r|c]; cbn [size good] in *.
  - assert (exec_lvl (Exec args)) as HE by (by apply exec_of_core).
    assert (pipe_lvl (Exec args)) as HP by (by apply pipe_of_exec).
    split; [done|]. split; [done|]. by apply line_of_pipe.
  - assert (exec_lvl (Redir c f m d)) as HE.
    { apply exec_of_core; [done|]. intros _. apply IH; [cbn [rcore]; pose proof (size_rcore c); lia|].
      apply good_rcore, Hg. }
    assert (pipe_lvl (Redir c f m d)) as HP by (by apply pipe_of_exec).
    split; [done|]. split; [done|]. by apply line_of_pipe.
  - destruct Hg. assert (pipe_lvl (PipeC l r)) as HP by (apply pipe_of_parts; apply IH; (done || lia)).
    assert (line_lvl (PipeC l r)) as HL by (by apply line_of_pipe).
    split; [by apply exec_of_line|done].
  - destruct Hg. assert (line_lvl (ListC l r)) as HL.
    { apply line_of_parts; [apply IH; [pose proof (size_core l); lia|by apply good_core]|].
      apply IH; [lia|done]. }
    assert (exec_lvl (ListC l r)) as HE by (by apply exec_of_line).
    split; [done|]. split; [by apply pipe_of_exec|done].
  - assert (line_lvl (Back c)) as HL.
    { apply line_of_pipe; [done|]. apply IH; [cbn [core]; pose proof (size_core c); lia|by apply good_core]. }
    assert (exec_lvl (Back c)) as HE by (by apply exec_of_line).
    split; [done|]. split; [by apply pipe_of_exec|done].
Qed.
End RoundTrip.

(** C19: printing and parsing.  Every command the shell can represent, printed
    with blanks between its tokens and parentheses where needed, is parsed
    back to the same tree with the same strings: pipes and lists nest to the
    right, a semicolon binds weaker than an ampersand and that weaker than a
    bar, and redirections apply in order. *)
Theorem parse_print c :
  good c ->
  exists c' b' ps, parsecmd (print_cmd c) = Ok (c', b') ps /\
    cmap (token_text (print_cmd c)) c' = c.
Proof.
  intros Hg. set (s := print_cmd c). destruct (levels s (S (size c)) c) as (_ & _ & HL); [lia|done|].
  assert (at_toks s 0 (pr 3 c ++ [])) as H0.
  { rewrite app_nil_r. split; [done|]. split; [lia|by apply pr_good]. }
  destruct (HL (4 * S (length s))%nat 0%nat [] H0) as (c' & ps & E & Ec & H & _); [by left|lia|].
  eexists c', _, ps. split; [|done]. unfold parsecmd. cbn zeta. rewrite (bind_ok _ _ _ _ _ E).
  rewrite (bind_ok _ _ _ _ _ (peek_at s [] ps [] H eq_refl)). cbv [Prelude.gets bind id].
  rewrite (at_end _ _ H), Nat.eqb_refl. reflexivity.
Qed.

(** ** The properties at work *)

Lemma parsecmd_ends_witness :
  match parsecmd (s2b "(ls;cat<f)|wc >> out&") with
  | Ok (c, b') _ =>
    Forall (fun t => (fst t < snd t <= 21)%nat /\
      string_at b' (fst t) (token_text (s2b "(ls;cat<f)|wc >> out&") t)) (tokens c)
  | Panic e => e ∈ parse_errors
  | _ => False
  end.
Proof.
  apply (parsecmd_ends (s2b "(ls;cat<f)|wc >> out&")).
  apply (bool_decide_unpack _). vm_compute. exact I.
Defined.

Definition cmd_ex : cmd (list Z) :=
  ListC (Back (PipeC (Redir (Exec [s2b "grep"; s2b "x"]) (s2b "in") O_RDONLY 0)
                     (Redir (ListC (Exec [s2b "wc"]) (Exec [])) (s2b "out") (Z.lor O_WRONLY O_CREATE) 1)))
        (Exec [s2b "ls"]).

Lemma parse_print_witness :
  exists c' b' ps, parsecmd (s2b "grep x < in | ( wc ; ) > out & ; ls ") = Ok (c', b') ps /\
    cmap (token_text (s2b "grep x < in | ( wc ; ) > out & ; ls ")) c' = cmd_ex.
Proof.
  apply (parse_print cmd_ex). apply (bool_decide_unpack _). vm_compute. exact I.
Defined.
