(* ===== verification/Umalloc.v ===== *)
(** * The memory allocator of the user library

    [umalloc.c]: the allocator of Kernighan and Ritchie.  The free blocks form
    a ring ordered by address, through [base], the static header.  A header
    is eight bytes, so that pointer arithmetic on headers counts in eights; the
    model keeps the headers as two functions from addresses to the fields.
    [sbrk] is a system call: a list of functions says what its calls return. *)

From stdpp Require Import prelude list.
From Stdlib Require Import ZArith Lia FunctionalExtensionality.
From S2P Require Import Prelude.
#[local] Open Scope c_scope.

Record heap := mk_heap {
  h_ptr : Z -> Z;    (* s.ptr of the header at an address *)
  h_size : Z -> Z;   (* s.size of the header, in headers *)
  h_freep : Z;
  h_sbrk : list (Z -> Z);   (* what the calls of sbrk to come return, from the number of bytes *)
}.

Definition H : Type -> Type := M heap.

Definition sizeof_Header : Z := 8.
(** [p + n] for a [Header *p] *)
Definition hadd (p n : Z) : Z := u32 (p + sizeof_Header * n).

Definition get_ptr (p : Z) : H Z := gets (fun h => h_ptr h p).
Definition get_size (p : Z) : H Z := gets (fun h => h_size h p).
Definition set_ptr (p v : Z) : H unit :=
  upd (fun h => mk_heap (fn_upd p v (h_ptr h)) (h_size h) (h_freep h) (h_sbrk h)).
Definition set_size (p v : Z) : H unit :=
  upd (fun h => mk_heap (h_ptr h) (fn_upd p v (h_size h)) (h_freep h) (h_sbrk h)).
Definition set_freep (v : Z) : H unit :=
  upd (fun h => mk_heap (h_ptr h) (h_size h) v (h_sbrk h)).
Definition sbrk (n : Z) : H Z := fun h =>
  match h_sbrk h with
  | [] => Asleep h
  | f :: l => Ok (f n) (mk_heap (h_ptr h) (h_size h) (h_freep h) l)
  end.

(** A loop with as many turns as there are addresses. *)
Definition hloop {A R} (body : A -> H (A + R)) (a : A) : H R :=
  x <- loop2_ 32 body a ;;
  match x with inr r => ret r | inl _ => fun _ => Diverge end.

(** The search of [free] for the block after which [bp] belongs. *)
Definition free_turn (bp p : Z) : H (Z + Z) :=
  q <- get_ptr p ;;
  if (p <? bp) && (bp <? q) then ret (inr p) else
  if (q <=? p) && ((p <? bp) || (bp <? q)) then ret (inr p) else
  ret (inl q).

Definition free (ap : Z) : H unit :=
  let bp := hadd ap (-1) in
  p <- gets h_freep ;;
  p <- hloop (free_turn bp) p ;;
  n <- get_size bp ;;
  q <- get_ptr p ;;
  (if hadd bp n =? q then
     k <- get_size q ;;
     set_size bp (u32 (n + k)) ;;
     r <- get_ptr q ;;
     set_ptr bp r
   else set_ptr bp q) ;;
  m <- get_size p ;;
  (if hadd p m =? bp then
     n <- get_size bp ;;
     set_size p (u32 (m + n)) ;;
     r <- get_ptr bp ;;
     set_ptr p r
   else set_ptr p bp) ;;
  set_freep p.

Definition morecore (nu : Z) : H Z :=
  let nu := if nu <? 4096 then 4096 else nu in
  p <- sbrk (u32 (nu * sizeof_Header)) ;;
  if p =? u32 (-1) then ret 0 else
  set_size p nu ;;
  free (hadd p 1) ;;
  gets h_freep.

(** The number of headers [malloc] looks for. *)
Definition units (nbytes : Z) : Z := u32 (nbytes + sizeof_Header - 1) / sizeof_Header + 1.

(** One turn of the loop of [malloc]; the loop variables are [prevp] and
    [p]. *)
Definition malloc_turn (nunits : Z) (x : Z * Z) : H (Z * Z + Z) :=
  let '(prevp, p) := x in
  k <- get_size p ;;
  if nunits <=? k then
    p <- (if k =? nunits then
            q <- get_ptr p ;; set_ptr prevp q ;; ret p
          else
            set_size p (k - nunits) ;;
            let p := hadd p (k - nunits) in
            set_size p nunits ;; ret p) ;;
    set_freep prevp ;;
    ret (inr (hadd p 1))
  else
    f <- gets h_freep ;;
    if p =? f then
      p <- morecore nunits ;;
      if p =? 0 then ret (inr 0) else
      q <- get_ptr p ;; ret (inl (p, q))
    else
      q <- get_ptr p ;; ret (inl (p, q)).

(** [base] is the address of the static header. *)
Definition malloc (base nbytes : Z) : H Z :=
  let nunits := units nbytes in
  prevp <- gets h_freep ;;
  prevp <- (if prevp =? 0 then
              set_freep base ;; set_ptr base base ;; set_size base 0 ;; ret base
            else ret prevp) ;;
  p <- get_ptr prevp ;;
  hloop (malloc_turn nunits) (prevp, p).

(** ** Loops that end *)

Section Runs.
Context {S A R : Type} (body : A -> M S (A + R)).

(** The loop leaves with [r] after [k] further turns. *)
Inductive runs : A -> S -> nat -> R -> S -> Prop :=
| runs_done a s r s' : body a s = Ok (inr r) s' -> runs a s 0 r s'
| runs_step a s a1 s1 k r s' :
    body a s = Ok (inl a1) s1 -> runs a1 s1 k r s' -> runs a s (Datatypes.S k) r s'.

Lemma loop2_runs n : forall a s k r s', runs a s k r s' ->
  if decide (k < 2 ^ n)%nat then loop2_ n body a s = Ok (inr r) s'
  else exists a1 s1, loop2_ n body a s = Ok (inl a1) s1 /\ runs a1 s1 (k - 2 ^ n) r s'.
Proof.
  induction n as [|n IH]; intros a s k r s' Hr; cbn [loop2_].
  - change (2 ^ 0)%nat with 1%nat. destruct Hr as [a s r s' E|a s a1 s1 k r s' E Hr].
    + by rewrite decide_True by lia.
    + rewrite decide_False by lia. exists a1, s1. split; [done|]. cbn. by rewrite Nat.sub_0_r.
  - pose proof (IH _ _ _ _ _ Hr) as H1. rewrite Nat.pow_succ_r'.
    destruct (decide (k < 2 ^ n)%nat) as [Hk|Hk].
    { rewrite decide_True by lia. by rewrite (bind_ok _ _ _ _ _ H1). }
    destruct H1 as (a1 & s1 & E1 & Hr1). pose proof (IH _ _ _ _ _ Hr1) as H2.
    rewrite (bind_ok _ _ _ _ _ E1). destruct (decide (k - 2 ^ n < 2 ^ n)%nat).
    + by rewrite decide_True by lia.
    + rewrite decide_False by lia. destruct H2 as (a2 & s2 & E2 & Hr2). exists a2, s2.
      split; [done|]. by replace (k - 2 * 2 ^ n)%nat with (k - 2 ^ n - 2 ^ n)%nat by lia.
Qed.
End Runs.

Lemma hloop_runs {A R} (body : A -> H (A + R)) a h k r h' :
  runs body a h k r h' -> Z.of_nat k < W32 -> hloop body a h = Ok r h'.
Proof.
  intros Hr Hk. unfold hloop. pose proof (loop2_runs body 32 _ _ _ _ _ Hr) as E.
  rewrite decide_True in E; [by rewrite (bind_ok _ _ _ _ _ E)|].
  apply Nat2Z.inj_lt. rewrite Nat2Z.inj_pow. change (Z.of_nat 2 ^ Z.of_nat 32) with W32. done.
Qed.

(** ** The ring of free blocks *)

Abbreviation blocks := (list (Z * Z)).

(** Following the pointers from [x] visits the headers of [l] and arrives at
    [y]. *)
Fixpoint chain (h : heap) (x y : Z) (l : blocks) : Prop :=
  match l with
  | [] => x = y
  | (a, n) :: l => x = a /\ h_size h a = n /\ chain h (h_ptr h a) y l
  end.

(** The blocks lie above [lo] in this order, with a gap before each. *)
Fixpoint gaps (lo : Z) (l : blocks) : Prop :=
  match l with
  | [] => True
  | (a, n) :: l => lo < a /\ 1 <= n /\ a + 8 * n < W32 /\ gaps (a + 8 * n) l
  end.

(** The free blocks of [h] are [l]. *)
Record ring (base : Z) (h : heap) (l : blocks) : Prop := {
  rg_base : 0 < base < W32;
  rg_seg : chain h base base ((base, 0) :: l);
  rg_gaps : gaps base l;
  rg_freep : h_freep h ∈ base :: l.*1;
}.

(** [x] is an address inside one of the blocks. *)
Definition inside (l : blocks) (x : Z) : Prop := exists a n, (a, n) ∈ l /\ a <= x < a + 8 * n.

Lemma chain_app h l1 : forall l2 x z,
  chain h x z (l1 ++ l2) <-> exists y, chain h x y l1 /\ chain h y z l2.
Proof.
  induction l1 as [|[a n] l1 IH]; intros l2 x z; cbn [app chain].
  - split; [intros Hs; by exists x|]. by intros (y & -> & Hs).
  - rewrite IH. naive_solver.
Qed.

Lemma chain_ext h h' l : forall x y,
  (forall a, a ∈ l.*1 -> h_ptr h' a = h_ptr h a /\ h_size h' a = h_size h a) ->
  chain h x y l -> chain h' x y l.
Proof.
  induction l as [|[a n] l IH]; intros x y He; cbn [chain]; [done|]. intros (-> & Hn & Hs).
  destruct (He a) as [-> ->]; [cbn; left|]. split; [done|]. split; [done|].
  apply IH; [|done]. intros b Hb. apply He. cbn. by right.
Qed.

Lemma gaps_weaken lo lo' l : gaps lo l -> lo' <= lo -> gaps lo' l.
Proof. destruct l as [|[a n] l]; [done|]. cbn. intros (? & ? & ? & ?) ?. split; [lia|done]. Qed.

Lemma gaps_app lo l1 l2 : gaps lo (l1 ++ l2) <-> gaps lo l1 /\ gaps (foldl (fun _ b => fst b + 8 * snd b) lo l1) l2.
Proof.
  revert lo. induction l1 as [|[a n] l1 IH]; intros lo; cbn [app gaps foldl fst snd]; [tauto|].
  rewrite IH. tauto.
Qed.

(** The blocks lie above [lo] and below the top. *)
Lemma gaps_in lo l a n : gaps lo l -> (a, n) ∈ l -> lo < a /\ 1 <= n /\ a + 8 * n < W32.
Proof.
  revert lo. induction l as [|[b k] l IH]; intros lo Hg Hin; [by apply elem_of_nil in Hin|].
  destruct Hg as (H1 & H2 & H3 & Hg). apply elem_of_cons in Hin as [[= -> ->]|Hin]; [lia|].
  destruct (IH _ Hg Hin). lia.
Qed.

Lemma gaps_above lo l a : gaps lo l -> a ∈ l.*1 -> lo < a.
Proof.
  intros Hg ([b n] & -> & Hin)%list_elem_of_fmap. by destruct (gaps_in _ _ _ _ Hg Hin).
Qed.

Lemma gaps_nodup lo l : gaps lo l -> NoDup (lo :: l.*1).
Proof.
  revert lo. induction l as [|[a n] l IH]; intros lo Hg; cbn; [by apply NoDup_singleton|].
  apply NoDup_cons. split.
  - intros Hin. pose proof (gaps_above lo ((a, n) :: l) lo Hg Hin). lia.
  - destruct Hg as (H1 & H2 & H3 & Hg). apply (IH a). eapply gaps_weaken; [done|lia].
Qed.

(** The ring seen from [freep]. *)
Lemma ring_from base h l f m pre post :
  ring base h l -> (base, 0) :: l = pre ++ (f, m) :: post ->
  chain h (h_ptr h f) base post /\ chain h base f pre /\ h_size h f = m.
Proof.
  intros [_ Hs _ _] E. rewrite E in Hs. apply chain_app in Hs as (y & H1 & H2). cbn in H2.
  destruct H2 as (-> & H2 & H3). done.
Qed.

Lemma chain_next h l1 a n q k l2 x y : chain h x y (l1 ++ (a, n) :: (q, k) :: l2) -> h_ptr h a = q.
Proof. rewrite chain_app. cbn. naive_solver. Qed.
Lemma chain_last h l1 a n x y : chain h x y (l1 ++ [(a, n)]) -> h_ptr h a = y.
Proof. rewrite chain_app. cbn. naive_solver. Qed.

Lemma gaps_sorted lo l1 a n l2 : gaps lo (l1 ++ (a, n) :: l2) ->
  (forall b, b ∈ l1.*1 -> b < a) /\ (forall b, b ∈ l2.*1 -> a + 8 * n < b) /\ lo < a.
Proof.
  revert lo. induction l1 as [|[b k] l1 IH]; intros lo Hg.
  - destruct Hg as (H1 & H2 & H3 & Hg). split; [intros b Hb; by apply elem_of_nil in Hb|].
    split; [intros b Hb; by eapply gaps_above|done].
  - destruct Hg as (H1 & H2 & H3 & Hg). destruct (IH _ Hg) as (I1 & I2 & I3).
    split; [|split; [done|lia]]. cbn. intros c [->|Hc]%elem_of_cons; [lia|auto].
Qed.

Lemma gaps_length lo l : gaps lo l -> 8 * Z.of_nat (length l) + lo <= Z.max lo W32.
Proof.
  revert lo. induction l as [|[a n] l IH]; intros lo Hg; cbn [length]; [lia|].
  destruct Hg as (H1 & H2 & H3 & Hg). specialize (IH _ Hg). lia.
Qed.

Lemma ring_length base h l : ring base h l -> 8 * Z.of_nat (length l) < W32.
Proof. intros [Hb _ Hg _]. apply gaps_length in Hg. unfold W32 in *. lia. Qed.

(** Blocks that follow each other in the ring are in order. *)
Lemma ring_next base h l l1 a n b k l2 :
  ring base h l -> (base, 0) :: l = l1 ++ (a, n) :: (b, k) :: l2 -> a < b.
Proof.
  intros Hring E. pose proof (rg_gaps _ _ _ Hring) as Hg. destruct l1 as [|c l1]; cbn in E; injection E as E0 E1.
  - intros. subst. apply (gaps_above a ((b, k) :: l2)); [done|]. left.
  - subst l. destruct (gaps_sorted _ _ _ _ _ Hg) as (_ & G & _).
    destruct (gaps_in _ _ a n Hg) as (? & ? & ?); [apply elem_of_app; right; left|].
    specialize (G b ltac:(cbn; left)). lia.
Qed.

(** A ring in which the part from [p] on has been replaced. *)
Lemma ring_replace base h l pre p m post m' post' h' :
  ring base h l -> (base, 0) :: l = pre ++ (p, m) :: post ->
  (p = base -> m' = 0) -> (base < p -> 1 <= m') -> p + 8 * m' < W32 -> gaps (p + 8 * m') post' ->
  chain h' base p pre -> h_size h' p = m' -> chain h' (h_ptr h' p) base post' ->
  h_freep h' ∈ (pre ++ (p, m') :: post').*1 ->
  exists l', (base, 0) :: l' = pre ++ (p, m') :: post' /\ ring base h' l'.
Proof.
  intros [Hb _ Hg _] E H0 H1 Hw Hg' Hs Hn Hs' Hf.
  assert (exists l', (base, 0) :: l' = pre ++ (p, m') :: post' /\ gaps base l') as (l' & E' & Hl').
  { destruct pre as [|c pre]; cbn in E; injection E as E0 E1.
    - intros. subst. rewrite (H0 eq_refl) in *. exists post'. split; [done|].
      by replace (p + 8 * 0) with p in Hg' by lia.
    - subst c l. exists (pre ++ (p, m') :: post'). split; [done|].
      apply gaps_app in Hg as [G1 G2]. apply gaps_app. split; [done|].
      destruct G2 as (G2 & G3 & G4 & G5). cbn. split; [done|]. split; [|done]. apply H1.
      eapply (gaps_sorted base pre p m post). apply gaps_app. done. }
  exists l'. split; [done|]. split; [done| |done|].
  - rewrite E'. apply chain_app. exists p. split; [done|]. cbn. done.
  - change (base :: l'.*1) with (((base, 0) :: l').*1). by rewrite E'.
Qed.

Lemma ring_gaps_post base h l pre p m post :
  ring base h l -> (base, 0) :: l = pre ++ (p, m) :: post -> gaps (p + 8 * m) post.
Proof.
  intros [_ _ Hg _] E. destruct pre as [|c pre]; cbn in E; injection E as E0 E1.
  - intros. subst. by replace (p + 8 * 0) with p by lia.
  - subst. by apply gaps_app in Hg as [_ (_ & _ & _ & ?)].
Qed.

Lemma inside_app l1 l2 x : inside (l1 ++ l2) x <-> inside l1 x \/ inside l2 x.
Proof. unfold inside. setoid_rewrite elem_of_app. naive_solver. Qed.
Lemma inside_cons a n l x : inside ((a, n) :: l) x <-> a <= x < a + 8 * n \/ inside l x.
Proof.
  unfold inside. setoid_rewrite elem_of_cons. split.
  - intros (a' & n' & [[= -> ->]|?] & ?); eauto 8.
  - intros [?|(a' & n' & ? & ?)]; eauto 8.
Qed.
Lemma inside_nil x : inside [] x <-> False.
Proof. split; [|done]. by intros (a & n & ?%elem_of_nil & _). Qed.
Lemma inside_ring base l x : inside ((base, 0) :: l) x <-> inside l x.
Proof. rewrite inside_cons. split; [intros [?|?]; [lia|done]|auto]. Qed.

(** ** Where [free] puts a block *)

Section Free.
Context (base : Z) (h : heap) (l : blocks) (bp : Z).
Context (Hring : ring base h l) (Hbp : base < bp) (Hout : bp ∉ l.*1).

(** The blocks before and after [bp]. *)
Lemma place : exists pre p m post,
  (base, 0) :: l = pre ++ (p, m) :: post /\ p < bp /\
  (forall a, a ∈ pre.*1 -> a < p) /\ (forall a, a ∈ post.*1 -> bp < a /\ p + 8 * m < a) /\
  (p = base /\ m = 0 /\ pre = [] \/ base < p /\ 1 <= m /\ p + 8 * m < W32).
Proof.
  assert (exists l1 l2, l = l1 ++ l2 /\ (forall a, a ∈ l1.*1 -> a < bp) /\ (forall a, a ∈ l2.*1 -> bp < a))
    as (l1 & l2 & El & H1 & H2).
  { pose proof (rg_gaps _ _ _ Hring) as Hg. generalize base Hg. clear Hring Hg Hbp. revert Hout.
    induction l as [|[a n] l' IH]; intros Hout' lo Hg.
    - exists [], []. split; [done|]. split; intros ? ?%elem_of_nil; done.
    - cbn in Hout'. apply not_elem_of_cons in Hout' as [Hne Hout']. pose proof Hg as (G1 & G2 & G3 & G4).
      destruct (Z.lt_ge_cases a bp) as [Hlt|Hge].
      + destruct (IH Hout' _ G4) as (l1 & l2 & -> & I1 & I2). exists ((a, n) :: l1), l2.
        split; [done|]. split; [|done]. cbn. intros b [->|Hb]%elem_of_cons; auto.
      + exists [], ((a, n) :: l'). split; [done|]. split; [intros ? ?%elem_of_nil; done|].
        intros b [->|Hb]%elem_of_cons; [cbn; lia|]. pose proof (gaps_above _ _ _ G4 Hb). lia. }
  pose proof (rg_gaps _ _ _ Hring) as Hg. destruct (decide (l1 = [])) as [->|Hne].
  - exists [], base, 0, l2. cbn in El. subst l. split; [done|]. split; [done|].
    split; [intros ? ?%elem_of_nil; done|]. split; [|by left].
    intros a Ha. split; [by apply H2|]. pose proof (gaps_above _ _ _ Hg Ha). lia.
  - destruct (exists_last Hne) as (l0 & [p m] & ->). exists ((base, 0) :: l0), p, m, l2.
    rewrite El, <- app_assoc in *. cbn [app] in *. destruct (gaps_sorted _ _ _ _ _ Hg) as (G1 & G2 & G3).
    split; [done|]. split; [apply H1; rewrite fmap_app, elem_of_app; right; by left|].
    split; [cbn; intros a [->|Ha]%elem_of_cons; auto|]. split; [auto|]. right.
    destruct (gaps_in _ _ p m Hg) as (? & ? & ?); [|done].
    apply elem_of_app. right. by left.
Qed.

(** The search passes over a stretch of blocks. *)
Lemma walk_free : forall l' x y k r,
  chain h x y l' ->
  (forall a, a ∈ l'.*1 -> free_turn bp a h = Ok (inl (h_ptr h a)) h) ->
  runs (free_turn bp) y h k r h -> runs (free_turn bp) x h (length l' + k) r h.
Proof.
  induction l' as [|[a n] l' IH]; intros x y k r Hs Ht Hr; cbn [length Nat.add chain] in *; [by subst|].
  destruct Hs as (-> & _ & Hs). eapply runs_step; [apply Ht; by left|].
  eapply IH; [done| |done]. intros b Hb. apply Ht. by right.
Qed.

Context (pre : blocks) (p m : Z) (post : blocks).
Context (El : (base, 0) :: l = pre ++ (p, m) :: post) (Hp : p < bp)
  (Hpre : forall a, a ∈ pre.*1 -> a < p) (Hpost : forall a, a ∈ post.*1 -> bp < a /\ p + 8 * m < a).

Lemma base_le a : a ∈ pre.*1 \/ a = p \/ a ∈ post.*1 -> base <= a.
Proof.
  intros Ha. assert (a ∈ ((base, 0) :: l).*1) as Hin.
  { rewrite El, fmap_app, elem_of_app. cbn. rewrite elem_of_cons. tauto. }
  cbn in Hin. apply elem_of_cons in Hin as [->|Hin]; [lia|].
  pose proof (gaps_above _ _ _ (rg_gaps _ _ _ Hring) Hin). lia.
Qed.

Lemma ring_chain : chain h base base (pre ++ (p, m) :: post).
Proof. rewrite <- El. apply (rg_seg _ _ _ Hring). Qed.

(** The block after [p]. *)
Lemma next_p : h_ptr h p = match post with [] => base | (q, _) :: _ => q end.
Proof.
  pose proof ring_chain as Hs. destruct post as [|[q k] post']; [by eapply chain_last|by eapply chain_next].
Qed.

Lemma turn_at_p : free_turn bp p h = Ok (inr p) h.
Proof.
  unfold free_turn. erewrite bind_ok by done. rewrite next_p. pose proof (base_le p ltac:(auto)).
  destruct (Z.ltb_spec p bp); [|lia]. destruct post as [|[q k] post'].
  - destruct (Z.ltb_spec bp base); [lia|]. destruct (Z.leb_spec base p); [done|lia].
  - destruct (Hpost q) as [Hq _]; [by left|]. destruct (Z.ltb_spec bp q); [done|lia].
Qed.

Lemma turn_before a : a ∈ pre.*1 -> free_turn bp a h = Ok (inl (h_ptr h a)) h.
Proof.
  intros Ha. pose proof Ha as ([a' n] & -> & Hin)%list_elem_of_fmap. cbn [fst] in *.
  pose proof ring_chain as Hs. apply list_elem_of_split in Hin as (l1 & l2 & E).
  assert (a' < h_ptr h a' <= p) as Hn.
  { rewrite E, <- app_assoc in Hs. destruct l2 as [|[b k] l2]; cbn in Hs;
      rewrite (chain_next _ _ _ _ _ _ _ _ _ Hs); [apply Hpre in Ha; lia|].
    assert (b ∈ pre.*1) as Hb.
    { rewrite E, fmap_app, elem_of_app. right. cbn. right. left. }
    split; [|apply Hpre in Hb; lia].
    eapply (ring_next base h l); [done|]. by rewrite El, E, <- app_assoc. }
  unfold free_turn. erewrite bind_ok by done. destruct (Z.ltb_spec bp (h_ptr h a')); [lia|].
  rewrite andb_false_r. destruct (Z.leb_spec (h_ptr h a') a'); [lia|done].
Qed.

Lemma turn_after a : a ∈ post.*1 -> free_turn bp a h = Ok (inl (h_ptr h a)) h.
Proof.
  intros Ha. destruct (Hpost a Ha) as [Hlt _].
  assert (a < h_ptr h a \/ h_ptr h a = base) as Hb.
  { apply list_elem_of_fmap in Ha as ([a' n] & -> & Hin). cbn [fst] in *.
    pose proof ring_chain as Hs. apply list_elem_of_split in Hin as (l1 & l2 & E).
    assert (pre ++ (p, m) :: post = (pre ++ (p, m) :: l1) ++ (a', n) :: l2) as E2
      by (rewrite E; by rewrite <- app_assoc).
    rewrite E2 in Hs. destruct l2 as [|[b k] l2]; [right; by eapply chain_last|left].
    rewrite (chain_next _ _ _ _ _ _ _ _ _ Hs).
    eapply (ring_next base h l); [done|]. by rewrite El, E2. }
  unfold free_turn. erewrite bind_ok by done. destruct (Z.ltb_spec a bp); [lia|]. cbn [andb orb].
  destruct (Z.leb_spec (h_ptr h a) a) as [Hle|]; [|done]. destruct Hb as [|Hb]; [lia|].
  rewrite Hb. destruct (Z.ltb_spec bp base); [lia|done].
Qed.

(** The search finds the place, wherever it starts. *)
Lemma search : exists k, runs (free_turn bp) (h_freep h) h k p h /\ (k <= 2 * length l)%nat.
Proof.
  assert (runs (free_turn bp) p h 0 p h) as Hdone by (apply runs_done, turn_at_p).
  pose proof (ring_from _ _ _ _ _ _ _ Hring El) as (Hs1 & Hs2 & _).
  assert (S (length l) = length pre + S (length post))%nat as Hlen.
  { change (S (length l)) with (length ((base, 0) :: l)). by rewrite El, length_app. }
  pose proof (rg_freep _ _ _ Hring) as Hf. change (base :: l.*1) with (((base, 0) :: l).*1) in Hf.
  rewrite El, fmap_app, elem_of_app in Hf. cbn in Hf. rewrite elem_of_cons in Hf.
  destruct Hf as [Hf|[Hf|Hf]].
  - apply list_elem_of_fmap in Hf as ([f n] & -> & Hin). cbn [fst]. apply list_elem_of_split in Hin as (l1 & l2 & E).
    rewrite E in Hs2. apply chain_app in Hs2 as (y & _ & Hs2). pose proof Hs2 as (-> & _).
    eexists. split; [eapply walk_free; [exact Hs2| |exact Hdone]|rewrite E, length_app in Hlen; cbn in *; lia].
    intros a Ha. apply turn_before. rewrite E, fmap_app, elem_of_app. by right.
  - rewrite Hf. exists 0%nat. split; [done|lia].
  - apply list_elem_of_fmap in Hf as ([f n] & -> & Hin). cbn [fst]. apply list_elem_of_split in Hin as (l1 & l2 & E).
    rewrite E in Hs1. apply chain_app in Hs1 as (y & _ & Hs1). pose proof Hs1 as (-> & _).
    eexists. split; [eapply walk_free; [exact Hs1| |eapply walk_free; [exact Hs2| |exact Hdone]]|].
    + intros a Ha. apply turn_after. rewrite E, fmap_app, elem_of_app. by right.
    + apply turn_before.
    + rewrite E, length_app in Hlen. cbn in *. lia.
Qed.

(** The address of the first block of a stretch, or of the base after it. *)
Definition first_of (l' : blocks) : Z := match l' with [] => base | (q, _) :: _ => q end.

Lemma chain_first h' l' x : chain h' x base l' -> x = first_of l'.
Proof. destruct l' as [|[q k] l']; cbn; [done|]. by intros [-> _]. Qed.

Context (Hpm : p = base /\ m = 0 /\ pre = [] \/ base < p /\ 1 <= m /\ p + 8 * m < W32).
Context (n : Z) (Hn : h_size h bp = n) (Hn1 : 1 <= n) (Hw : bp + 8 * n < W32).
Context (Hright : forall a, a ∈ post.*1 -> bp + 8 * n <= a) (Hleft : p + 8 * m <= bp).

(** Two heaps that differ only in headers of [s]. *)
Definition same_off (s : list Z) (h1 h2 : heap) : Prop :=
  h_freep h1 = h_freep h2 /\ h_sbrk h1 = h_sbrk h2 /\
  forall a, a ∉ s -> h_ptr h2 a = h_ptr h1 a /\ h_size h2 a = h_size h1 a.

Definition free_right : H unit :=
  n <- get_size bp ;;
  q <- get_ptr p ;;
  (if hadd bp n =? q then
     k <- get_size q ;;
     set_size bp (u32 (n + k)) ;;
     r <- get_ptr q ;;
     set_ptr bp r
   else set_ptr bp q).

Lemma free_right_ok : exists h1 n1 post1,
  free_right h = Ok tt h1 /\ same_off [bp] h h1 /\
  h_size h1 bp = n1 /\ chain h1 (h_ptr h1 bp) base post1 /\
  n <= n1 /\ bp + 8 * n1 < W32 /\ gaps (bp + 8 * n1) post1 /\
  (forall x, inside ((bp, n1) :: post1) x <-> inside ((bp, n) :: post) x).
Proof.
  pose proof (rg_base _ _ _ Hring) as Hb. pose proof (ring_gaps_post _ _ _ _ _ _ _ Hring El) as Hg.
  pose proof (ring_from _ _ _ _ _ _ _ Hring El) as (Hs & _ & _).
  assert (bp ∉ post.*1) as Hnp by (intros ?%Hpost; lia).
  assert (hadd bp n = bp + 8 * n) as Hh by (unfold hadd, sizeof_Header; apply u32_small; lia).
  unfold free_right. erewrite bind_ok by done. rewrite Hn. erewrite bind_ok by done. rewrite next_p, Hh.
  destruct post as [|[q k] post'] eqn:Ep; cbn [first_of].
  { destruct (Z.eqb_spec (bp + 8 * n) base); [lia|]. eexists _, n, []. split; [reflexivity|].
    split; [split; [done|split; [done|]]; intros a Ha; cbn; rewrite fn_upd_ne; [done|set_solver]|].
    cbn. rewrite fn_upd_eq. done. }
  cbn in Hg, Hs. destruct Hg as (G1 & G2 & G3 & G4). destruct Hs as (_ & Hsz & Hs).
  destruct (Hpost q) as [Hq1 Hq2]; [cbn; left|]. specialize (Hright q ltac:(cbn; left)).
  cbn in Hnp. apply not_elem_of_cons in Hnp as [Hnq Hnp].
  destruct (Z.eqb_spec (bp + 8 * n) q) as [Eq|Eq].
  - eexists _, (n + k), post'. unfold get_size, set_size, get_ptr, set_ptr.
    rewrite bind_gets, bind_upd, bind_gets. split; [reflexivity|]. cbn. rewrite !fn_upd_eq, Hsz.
    split; [split; [done|split; [done|]]; intros a Ha; cbn; rewrite !fn_upd_ne by set_solver; done|].
    split; [apply u32_small; lia|].
    split; [|split; [lia|split; [lia|split; [by replace (bp + 8 * (n + k)) with (q + 8 * k) by lia|]]]].
    + eapply chain_ext; [|exact Hs]. intros a Ha. cbn. by rewrite !fn_upd_ne by (intros ->; done).
    + intros x. rewrite !inside_cons. subst q. split; [intros [?|?]|intros [?|[?|?]]]; auto; lia.
  - eexists _, n, ((q, k) :: post'). split; [reflexivity|]. cbn. rewrite fn_upd_eq.
    split; [split; [done|split; [done|]]; intros a Ha; cbn; rewrite fn_upd_ne; [done|set_solver]|].
    split; [done|]. split; [|split; [lia|split; [lia|split; [split_and!; (done || lia)|done]]]].
    split; [done|]. split; [done|]. cbn. rewrite fn_upd_ne by done.
    eapply chain_ext; [|exact Hs]. intros a Ha. cbn. by rewrite !fn_upd_ne by (intros ->; done).
Qed.

Definition free_left : H unit :=
  m <- get_size p ;;
  (if hadd p m =? bp then
     n <- get_size bp ;;
     set_size p (u32 (m + n)) ;;
     r <- get_ptr bp ;;
     set_ptr p r
   else set_ptr p bp) ;;
  set_freep p.

(** The result of joining the block to its neighbours. *)
Lemma free_left_ok h1 n1 post1 :
  same_off [bp] h h1 -> h_size h1 bp = n1 -> chain h1 (h_ptr h1 bp) base post1 ->
  n <= n1 -> bp + 8 * n1 < W32 -> gaps (bp + 8 * n1) post1 ->
  exists h' l', free_left h1 = Ok tt h' /\ ring base h' l' /\ h_sbrk h' = h_sbrk h /\
    (forall x, inside l' x <-> inside (pre ++ [(p, m)]) x \/ inside ((bp, n1) :: post1) x) /\
    (forall a, a <> bp -> a <> p -> h_ptr h' a = h_ptr h a /\ h_size h' a = h_size h a) /\
    exists a k, (a, k) ∈ l' /\ n <= k.
Proof.
  intros (S1 & S2 & S3) Hb1 Hs1 Hnn Hw1 Hg1. pose proof (ring_from _ _ _ _ _ _ _ Hring El) as (_ & Hsp & Hm).
  destruct (S3 p) as [Ep1 Ep2]; [set_solver by lia|]. pose proof (rg_base _ _ _ Hring) as Hb.
  assert (hadd p m = p + 8 * m) as Hh by (unfold hadd, sizeof_Header; apply u32_small; lia).
  assert (forall a, a ∈ pre.*1 -> a <> bp /\ a <> p) as Hne by (intros a Ha%Hpre; lia).
  assert (bp ∉ post1.*1) as Hbq by (intros Ha%(gaps_above _ _ _ Hg1); lia).
  assert (p ∉ post1.*1) as Hpq by (intros Ha%(gaps_above _ _ _ Hg1); lia).
  unfold free_left. erewrite bind_ok by done. rewrite Ep2, Hm, Hh. destruct (Z.eqb_spec (p + 8 * m) bp) as [E|E].
  - set (h' := mk_heap (fn_upd p (h_ptr h1 bp) (h_ptr h1)) (fn_upd p (m + n1) (h_size h1)) p (h_sbrk h1)).
    destruct (ring_replace base h l pre p m post (m + n1) post1 h') as (l' & El' & Hr'); try done; try lia.
    { by replace (p + 8 * (m + n1)) with (bp + 8 * n1) by lia. }
    { eapply chain_ext; [|exact Hsp]. intros a Ha. destruct (Hne a Ha). cbn. rewrite !fn_upd_ne by done.
      apply S3. set_solver. }
    { cbn. by rewrite fn_upd_eq. }
    { cbn. rewrite fn_upd_eq. eapply chain_ext; [|exact Hs1]. intros a Ha. cbn.
      by rewrite !fn_upd_ne by (intros ->; done). }
    { rewrite fmap_app, elem_of_app. right. left. }
    exists h', l'. split; [|split; [done|split; [done|split; [|split]]]].
    + cbv [bind get_size set_size get_ptr set_ptr set_freep gets upd]. cbn. by rewrite Hb1, u32_small by lia.
    + intros x. rewrite <- (inside_ring base), El', !inside_app, !inside_cons, inside_nil.
      assert (p <= x < p + 8 * (m + n1) <-> p <= x < p + 8 * m \/ bp <= x < bp + 8 * n1) by lia. tauto.
    + intros a Ha Ha'. cbn. rewrite !fn_upd_ne by done. apply S3. set_solver.
    + exists p, (m + n1). split; [|lia]. assert ((p, m + n1) ∈ (base, 0) :: l') as Hin
        by (rewrite El'; apply elem_of_app; right; left).
      apply elem_of_cons in Hin as [[= ? ?]|Hin]; [lia|done].
  - set (h' := mk_heap (fn_upd p bp (h_ptr h1)) (h_size h1) p (h_sbrk h1)).
    destruct (ring_replace base h l pre p m post m ((bp, n1) :: post1) h') as (l' & El' & Hr'); try done; try lia.
    { cbn. split_and!; (done || lia). }
    { eapply chain_ext; [|exact Hsp]. intros a Ha. destruct (Hne a Ha). cbn. rewrite !fn_upd_ne by done.
      apply S3. set_solver. }
    { cbn. by rewrite Ep2. }
    { cbn. rewrite fn_upd_eq, fn_upd_ne by lia. split; [done|]. split; [done|].
      eapply chain_ext; [|exact Hs1]. intros a Ha. cbn. by rewrite !fn_upd_ne by (intros ->; done). }
    { rewrite fmap_app, elem_of_app. right. left. }
    exists h', l'. split; [done|]. split; [done|]. split; [done|]. split; [|split].
    + intros x. rewrite <- (inside_ring base), El', !inside_app, !inside_cons, inside_nil. tauto.
    + intros a Ha Ha'. cbn. rewrite !fn_upd_ne by done. apply S3. set_solver.
    + exists bp, n1. split; [|lia]. assert ((bp, n1) ∈ (base, 0) :: l') as Hin
        by (rewrite El'; apply elem_of_app; right; right; left).
      apply elem_of_cons in Hin as [[= ? ?]|Hin]; [lia|done].
Qed.
End Free.

Lemma free_eq ap : free ap =
  (let bp := hadd ap (-1) in
   p <- gets h_freep ;;
   p <- hloop (free_turn bp) p ;;
   free_right bp p ;;
   free_left bp p).
Proof.
  unfold free, free_right, free_left. cbn zeta. apply functional_extensionality. intros h.
  apply bind_ext. intros f h1. apply bind_ext. intros p h2.
  rewrite !bind_assoc. apply bind_ext. intros n h3. rewrite bind_assoc. apply bind_ext. done.
Qed.

(** [free] of a block: the free memory is what was free and the block. *)
Lemma free_ok base h l bp n :
  ring base h l -> base < bp -> h_size h bp = n -> 1 <= n -> bp + 8 * n < W32 ->
  (forall a k, (a, k) ∈ l -> bp + 8 * n <= a \/ a + 8 * k <= bp) ->
  exists h' l', free (bp + 8) h = Ok tt h' /\ ring base h' l' /\ h_sbrk h' = h_sbrk h /\
    (forall x, inside l' x <-> inside l x \/ bp <= x < bp + 8 * n) /\
    (forall a, a <> bp -> a ∉ base :: l.*1 -> h_ptr h' a = h_ptr h a /\ h_size h' a = h_size h a) /\
    exists a k, (a, k) ∈ l' /\ n <= k.
Proof.
  intros Hring Hbp Hn Hn1 Hw Hdis. pose proof (rg_base _ _ _ Hring) as Hb.
  pose proof (rg_gaps _ _ _ Hring) as Hg.
  assert (bp ∉ l.*1) as Hout.
  { intros ([a k] & -> & Hin)%list_elem_of_fmap. cbn in *. destruct (gaps_in _ _ _ _ Hg Hin).
    destruct (Hdis a k Hin); lia. }
  destruct (place base h l bp Hring Hbp Hout) as (pre & p & m & post & El & Hp & Hpre & Hpost & Hpm).
  assert (forall a k, (a, k) ∈ pre ++ (p, m) :: post -> (a, k) ∈ l \/ a = base /\ k = 0) as Hin.
  { intros a k Hin. rewrite <- El in Hin. apply elem_of_cons in Hin as [[= -> ->]|?]; auto. }
  assert (forall a, a ∈ post.*1 -> bp + 8 * n <= a) as Hright.
  { intros a Ha. pose proof (Hpost a Ha) as [Hlt _]. apply list_elem_of_fmap in Ha as ([a' k] & -> & Ha).
    cbn in *. destruct (Hin a' k) as [Hl|[-> _]]; [apply elem_of_app; right; by right| |lia].
    destruct (gaps_in _ _ _ _ Hg Hl). destruct (Hdis _ _ Hl); lia. }
  assert (p + 8 * m <= bp) as Hleft.
  { destruct (Hin p m) as [Hl|[-> ->]]; [apply elem_of_app; right; by left| |lia].
    destruct (Hdis _ _ Hl); [lia|done]. }
  destruct (search base h l bp Hring Hbp pre p m post El Hp Hpre Hpost) as (k & Hrun & Hk).
  destruct (free_right_ok base h l bp Hring Hbp Hout pre p m post El Hp Hpre Hpost Hpm n Hn Hn1 Hw Hright Hleft)
    as (h1 & n1 & post1 & E1 & Hoff & Hsz & Hseg & Hnn & Hw1 & Hg1 & Hfr).
  destruct (free_left_ok base h l bp Hring Hbp Hout pre p m post El Hp Hpre Hpost Hpm n Hn Hn1 Hw Hright Hleft
    h1 n1 post1 Hoff Hsz Hseg Hnn Hw1 Hg1) as (h' & l' & E2 & Hr' & Hsb & Hf' & Hsame & Hbig).
  exists h', l'. split; [|split; [done|split; [done|split; [|split; [|done]]]]].
  - rewrite free_eq. cbn zeta. replace (hadd (bp + 8) (-1)) with bp
      by (unfold hadd, sizeof_Header; rewrite u32_small; lia).
    rewrite bind_gets. pose proof (ring_length _ _ _ Hring).
    erewrite bind_ok by (eapply hloop_runs; [exact Hrun|lia]). by rewrite (bind_ok _ _ _ _ _ E1).
  - intros x. rewrite Hf', Hfr, !inside_app, !inside_cons, inside_nil, <- (inside_ring base l), El.
    rewrite inside_app, inside_cons. tauto.
  - intros a Ha Hl. apply Hsame; [done|]. intros ->. apply Hl.
    change (base :: l.*1) with (((base, 0) :: l).*1). rewrite El, fmap_app, elem_of_app. right. left.
Qed.

(** ** Taking a block *)

(** [p, p + 8n) has been cut out of the free memory [l], which leaves [l']. *)
Definition cut (l l' : blocks) (p n : Z) : Prop :=
  forall x, (inside l' x <-> inside l x /\ ~ p <= x < p + 8 * n) /\ (p <= x < p + 8 * n -> inside l x).

(** The header [prev] and the block after it. *)
Lemma ring_split_next base h l prev a :
  ring base h l -> prev ∈ base :: l.*1 -> h_ptr h prev = a -> a <> base ->
  exists pre mp k post, (base, 0) :: l = pre ++ (prev, mp) :: (a, k) :: post /\ h_size h a = k.
Proof.
  intros [_ Hs _ _] Hin Ha Hne. change (base :: l.*1) with (((base, 0) :: l).*1) in Hin.
  apply list_elem_of_fmap in Hin as ([prev' mp] & -> & Hin). cbn in Ha.
  apply list_elem_of_split in Hin as (pre & rest & E). rewrite E in Hs.
  apply chain_app in Hs as (y & _ & Hs). cbn in Hs. destruct Hs as (-> & _ & Hs).
  destruct rest as [|[b k] post]; cbn in Hs; [congruence|]. destruct Hs as (Eb & Hk & _).
  exists pre, mp, k, post. cbn [fst]. rewrite E. split; [by rewrite <- Ha, Eb|by rewrite <- Ha, Eb].
Qed.

Lemma ring_bounds base h l pre p m post :
  ring base h l -> (base, 0) :: l = pre ++ (p, m) :: post ->
  (p = base -> m = 0) /\ (base < p -> 1 <= m) /\ base <= p /\ 0 <= m /\ p + 8 * m < W32 /\
  (forall a, a ∈ pre.*1 -> a < p) /\ (forall a, a ∈ post.*1 -> p + 8 * m < a).
Proof.
  intros [Hb _ Hg _] E. destruct pre as [|c pre]; cbn in E; injection E as E0 E1.
  - intros. subst. split_and!; try lia.
    + intros a Ha%elem_of_nil. done.
    + intros a Ha. pose proof (gaps_above _ _ _ Hg Ha). lia.
  - subst. destruct (gaps_sorted _ _ _ _ _ Hg) as (G1 & G2 & G3).
    destruct (gaps_in _ _ p m Hg) as (? & ? & ?); [apply elem_of_app; right; left|].
    split_and!; try lia; [|done]. cbn. intros a [->|Ha]%elem_of_cons; auto.
Qed.

Section Take.
Context (base : Z) (h : heap) (l : blocks) (n prev a : Z).
Context (Hring : ring base h l) (Hn : 1 <= n).
Context (pre : blocks) (mp k : Z) (post : blocks).
Context (E : (base, 0) :: l = pre ++ (prev, mp) :: (a, k) :: post) (Hsz : h_size h a = k) (Hk : n <= k).

(** What taking [n] headers from the block [a] leaves. *)
Definition taken (p : Z) (h' : heap) (l' : blocks) : Prop :=
  ring base h' l' /\ h_sbrk h' = h_sbrk h /\ h_size h' p = n /\ base < p /\ p + 8 * n < W32 /\
  cut l l' p n /\ (forall b, ~ inside l b -> b <> base -> h_size h' b = h_size h b).

Lemma split_a : (base, 0) :: l = (pre ++ [(prev, mp)]) ++ (a, k) :: post.
Proof. by rewrite <- app_assoc. Qed.

Lemma take_free x :
  inside l x <-> inside (pre ++ [(prev, mp)]) x \/ a <= x < a + 8 * k \/ inside post x.
Proof. by rewrite <- (inside_ring base), split_a, inside_app, inside_cons. Qed.

Lemma take_low x : inside (pre ++ [(prev, mp)]) x -> x < a.
Proof.
  intros (b & j & Hin & Hx). apply list_elem_of_split in Hin as (q1 & q2 & Eq).
  assert ((base, 0) :: l = q1 ++ (b, j) :: q2 ++ (a, k) :: post) as Eb
    by (rewrite split_a, Eq, <- app_assoc; done).
  destruct (ring_bounds _ _ _ _ _ _ _ Hring Eb) as (_ & _ & _ & _ & _ & _ & C).
  specialize (C a). rewrite fmap_app, elem_of_app in C. specialize (C ltac:(right; left)). lia.
Qed.

Lemma take_high x : inside post x -> a + 8 * k < x.
Proof.
  intros (b & j & Hin & Hx). destruct (ring_bounds _ _ _ _ _ _ _ Hring split_a) as (_ & _ & _ & _ & _ & _ & A).
  specialize (A b). rewrite list_elem_of_fmap in A. specialize (A ltac:(by exists (b, j))). lia.
Qed.

(** The memory left when the block's end from [a + 8r] on is taken. *)
Lemma cut_tail l' r :
  0 <= r -> r + n = k ->
  (forall x, inside l' x <-> inside (pre ++ [(prev, mp)]) x \/ a <= x < a + 8 * r \/ inside post x) ->
  cut l l' (a + 8 * r) n.
Proof.
  intros Hr Ek Hl' x. rewrite Hl', take_free. pose proof (take_low x). pose proof (take_high x).
  split; [|intros Hx; right; left; lia].
  split; [intros [Hx|[Hx|Hx]]|intros [[Hx|[Hx|Hx]] Hnx]]; try tauto.
  - split; [tauto|]. specialize (H0 Hx). lia.
  - split; [right; left; lia|lia].
  - split; [tauto|]. specialize (H1 Hx). lia.
  - right. left. lia.
Qed.

(** The bounds of the blocks at hand. *)
Lemma take_bounds :
  base < a /\ a + 8 * k < W32 /\ prev + 8 * mp < a /\ gaps (a + 8 * k) post /\ prev ∉ post.*1 /\
  (forall b, b ∈ pre.*1 -> b < prev) /\ (forall b, b ∈ post.*1 -> a + 8 * k < b) /\
  chain h (h_ptr h a) base post /\ chain h base prev pre /\ h_size h prev = mp /\
  (prev = base -> mp = 0) /\ (base < prev -> 1 <= mp) /\ base <= prev /\ 0 <= mp.
Proof.
  destruct (ring_bounds _ _ _ _ _ _ _ Hring E) as (B0 & B1 & B2 & B3 & B4 & B5 & B6).
  destruct (ring_bounds _ _ _ _ _ _ _ Hring split_a) as (_ & _ & A2 & A3 & A4 & A5 & A6).
  pose proof (ring_gaps_post _ _ _ _ _ _ _ Hring E) as Hg. cbn in Hg. destruct Hg as (G1 & G2 & G3 & G4).
  destruct (ring_from _ _ _ _ _ _ _ Hring E) as (Hs1 & Hs2 & Hmp). cbn in Hs1. destruct Hs1 as (_ & _ & Hs1).
  split_and!; try done; try lia. intros Hin. specialize (B6 prev ltac:(cbn; by right)). lia.
Qed.

Lemma take_exact : n = k ->
  taken a (mk_heap (fn_upd prev (h_ptr h a) (h_ptr h)) (h_size h) prev (h_sbrk h))
    (tail (pre ++ (prev, mp) :: post)).
Proof.
  intros Enk. destruct take_bounds as (B1 & B2 & B3 & B4 & B5 & B6 & B7 & S1 & S2 & S3 & M0 & M1 & M2 & M3).
  destruct (ring_replace base h l pre prev mp ((a, k) :: post) mp post
    (mk_heap (fn_upd prev (h_ptr h a) (h_ptr h)) (h_size h) prev (h_sbrk h))) as (l' & El' & Hr');
    try done; try lia.
  { eapply gaps_weaken; [exact B4|lia]. }
  { eapply chain_ext; [|exact S2]. intros b Hb. cbn. rewrite fn_upd_ne; [done|]. intros ->.
    specialize (B6 _ Hb). lia. }
  { cbn. rewrite fn_upd_eq. eapply chain_ext; [|exact S1]. intros b Hb. cbn.
    rewrite fn_upd_ne; [done|]. by intros ->. }
  { rewrite fmap_app, elem_of_app. right. left. }
  rewrite <- El'. cbn [tail].
  split; [done|]. split; [done|]. split; [cbn; lia|]. split; [lia|]. split; [lia|]. split; [|done].
  replace a with (a + 8 * 0) by lia. apply cut_tail; [lia|lia|]. intros x.
  rewrite <- (inside_ring base l'), El'. replace (pre ++ (prev, mp) :: post) with ((pre ++ [(prev, mp)]) ++ post)
    by (by rewrite <- app_assoc). rewrite inside_app. split; [tauto|]. intros [?|[?|?]]; [tauto|lia|tauto].
Qed.

Lemma take_split : n < k ->
  taken (a + 8 * (k - n))
    (mk_heap (h_ptr h) (fn_upd (a + 8 * (k - n)) n (fn_upd a (k - n) (h_size h))) prev (h_sbrk h))
    (tail (pre ++ (prev, mp) :: (a, k - n) :: post)).
Proof.
  intros Enk. destruct take_bounds as (B1 & B2 & B3 & B4 & B5 & B6 & B7 & S1 & S2 & S3 & M0 & M1 & M2 & M3).
  set (h' := mk_heap (h_ptr h) (fn_upd (a + 8 * (k - n)) n (fn_upd a (k - n) (h_size h))) prev (h_sbrk h)).
  assert (forall b, b < a \/ a + 8 * k <= b -> h_ptr h' b = h_ptr h b /\ h_size h' b = h_size h b) as Hoff
    by (intros b Hb; cbn; rewrite !fn_upd_ne by lia; done).
  assert (h_ptr h prev = a) as Hpa.
  { pose proof (rg_seg _ _ _ Hring) as Hs. rewrite E in Hs. by eapply chain_next. }
  destruct (ring_replace base h l pre prev mp ((a, k) :: post) mp ((a, k - n) :: post) h') as (l' & El' & Hr');
    try done; try lia.
  { cbn. split_and!; try lia. eapply gaps_weaken; [exact B4|lia]. }
  { eapply chain_ext; [|exact S2]. intros b Hb. apply Hoff. specialize (B6 _ Hb). lia. }
  { destruct (Hoff prev) as [_ ->]; [lia|done]. }
  { cbn. rewrite Hpa. split; [done|]. rewrite fn_upd_ne, fn_upd_eq by lia. split; [done|].
    eapply chain_ext; [|exact S1]. intros b Hb. apply Hoff. right. specialize (B7 _ Hb). lia. }
  { rewrite fmap_app, elem_of_app. right. left. }
  rewrite <- El'. cbn [tail].
  split; [done|]. split; [done|]. split; [cbn; by rewrite fn_upd_eq|]. split; [lia|]. split; [lia|]. split.
  - apply cut_tail; [lia|lia|]. intros x. rewrite <- (inside_ring base l'), El'.
    replace (pre ++ (prev, mp) :: (a, k - n) :: post) with ((pre ++ [(prev, mp)]) ++ (a, k - n) :: post)
      by (by rewrite <- app_assoc). by rewrite inside_app, inside_cons.
  - intros b Hb Hnb. apply Hoff. rewrite take_free in Hb.
    destruct (Z.lt_ge_cases b a); [by left|]. right. destruct (Z.lt_ge_cases b (a + 8 * k)); [tauto|done].
Qed.
End Take.

Lemma take_turn base h l n prev a :
  ring base h l -> 1 <= n -> prev ∈ base :: l.*1 -> h_ptr h prev = a -> n <= h_size h a ->
  exists p h' l', malloc_turn n (prev, a) h = Ok (inr (p + 8)) h' /\ taken base h l n p h' l'.
Proof.
  intros Hring Hn Hprev Ha Hk. assert (a <> base) as Hab.
  { intros ->. rewrite (proj1 (proj2 (rg_seg _ _ _ Hring))) in Hk. lia. }
  destruct (ring_split_next base h l prev a Hring Hprev Ha Hab) as (pre & mp & k & post & E & Hsz).
  rewrite Hsz in Hk. edestruct (take_bounds base h l) as (B1 & B2 & _); [done..|].
  pose proof (rg_base _ _ _ Hring) as Hb.
  unfold malloc_turn. erewrite bind_ok by done. rewrite Hsz. destruct (Z.leb_spec n k); [|lia].
  destruct (Z.eqb_spec k n) as [Ek|Ek].
  - eexists a, _, _. split; [|eapply take_exact; try done; by symmetry].
    erewrite bind_ok by reflexivity. unfold hadd, sizeof_Header.
    replace (u32 (a + 8 * 1)) with (a + 8) by (rewrite u32_small; lia). reflexivity.
  - eexists (a + 8 * (k - n)), _, _. split; [|eapply take_split; try done; lia].
    erewrite bind_ok by reflexivity. unfold hadd, sizeof_Header.
    replace (u32 (a + 8 * (k - n))) with (a + 8 * (k - n)) by (rewrite u32_small; lia).
    replace (u32 (a + 8 * (k - n) + 8 * 1)) with (a + 8 * (k - n) + 8) by (rewrite u32_small; lia).
    reflexivity.
Qed.

(** ** The search of [malloc] *)

(** The search passes over blocks that are too small. *)
Lemma walk_malloc n h : forall l prev x y j r h',
  chain h x y l -> (forall a k, (a, k) ∈ l -> k < n /\ a <> h_freep h) ->
  runs (malloc_turn n) (default prev (last l.*1), y) h j r h' ->
  runs (malloc_turn n) (prev, x) h (length l + j) r h'.
Proof.
  induction l as [|[a k] l IH]; intros prev x y j r h' Hs Hl Hr; cbn [length Nat.add chain] in *; [by subst|].
  destruct Hs as (-> & Hk & Hs). destruct (Hl a k ltac:(left)) as [Hlt Hne].
  eapply runs_step.
  - unfold malloc_turn. erewrite bind_ok by done. rewrite Hk. destruct (Z.leb_spec n k); [lia|].
    erewrite bind_ok by done. destruct (Z.eqb_spec a (h_freep h)); [done|]. reflexivity.
  - eapply IH; [exact Hs| |]; [intros b j' Hb; apply Hl; by right|].
    replace (default a (last l.*1)) with (default prev (last (a :: l.*1))); [done|].
    destruct l as [|[b j'] l]; [done|]. cbn [fmap list_fmap fst]. rewrite last_cons_cons.
    destruct (last (b :: l.*1)) eqn:El; [done|]. by apply last_None in El.
Qed.

(** The ring as the search sees it: the blocks after [freep], then those up to
    it, [freep] last. *)
Lemma ring_rotate base h l : ring base h l ->
  exists r m, chain h (h_ptr h (h_freep h)) (h_freep h) r /\ h_size h (h_freep h) = m /\
    (forall a k, (a, k) ∈ r ++ [(h_freep h, m)] <-> (a, k) ∈ (base, 0) :: l) /\
    h_freep h ∉ r.*1 /\ length r = length l.
Proof.
  intros Hring. pose proof (rg_freep _ _ _ Hring) as Hf.
  change (base :: l.*1) with (((base, 0) :: l).*1) in Hf.
  apply list_elem_of_fmap in Hf as ([f m] & Ef & Hin). cbn in Ef.
  apply list_elem_of_split in Hin as (pre & post & E). rewrite <- Ef in E.
  destruct (ring_from _ _ _ _ _ _ _ Hring E) as (S1 & S2 & S3).
  destruct (ring_bounds _ _ _ _ _ _ _ Hring E) as (_ & _ & _ & B3 & _ & B5 & B6).
  exists (post ++ pre), m. split; [apply chain_app; by exists base|]. split; [done|]. split; [|split].
  - intros a k. rewrite E, !elem_of_app, !elem_of_cons, elem_of_nil. tauto.
  - rewrite fmap_app, elem_of_app. intros [Hin|Hin]; [specialize (B6 _ Hin)|specialize (B5 _ Hin)]; lia.
  - assert (S (length l) = length (pre ++ (h_freep h, m) :: post)) as El by (by rewrite <- E).
    rewrite !length_app in *. cbn in El. lia.
Qed.

(** The first block that is large enough. *)
Lemma first_fit n (l : blocks) : (exists a k, (a, k) ∈ l /\ n <= k) ->
  exists l1 a k l2, l = l1 ++ (a, k) :: l2 /\ n <= k /\ forall b j, (b, j) ∈ l1 -> j < n.
Proof.
  induction l as [|[b j] l IH]; intros (a & k & Hin & Hk); [by apply elem_of_nil in Hin|].
  destruct (Z.le_gt_cases n j) as [Hj|Hj].
  - exists [], b, j, l. split; [done|]. split; [done|]. by intros ? ? ?%elem_of_nil.
  - apply elem_of_cons in Hin as [[= -> ->]|Hin]; [lia|].
    destruct IH as (l1 & a1 & k1 & l2 & -> & H1 & H2); [by exists a, k|].
    exists ((b, j) :: l1), a1, k1, l2. split; [done|]. split; [done|].
    intros c i [[= -> ->]|?]%elem_of_cons; [done|eauto].
Qed.

Lemma before_last {A} (r : list A) x r1 y r2 : r ++ [x] = r1 ++ y :: r2 -> exists rest, r = r1 ++ rest.
Proof.
  intros E. assert (length r1 <= length r)%nat as Hle.
  { apply (f_equal length) in E. rewrite !length_app in E. cbn in E. lia. }
  exists (take (length r - length r1) (y :: r2)). apply (f_equal (take (length r))) in E.
  by rewrite take_app_length, take_app_ge in E by lia.
Qed.

(** With a block that is large enough the search takes one. *)
Lemma search_finds base h l n :
  ring base h l -> 1 <= n -> (exists a k, (a, k) ∈ l /\ n <= k) ->
  exists j p h' l', runs (malloc_turn n) (h_freep h, h_ptr h (h_freep h)) h j (p + 8) h' /\
    (j <= S (length l))%nat /\ taken base h l n p h' l'.
Proof.
  intros Hring Hn (a0 & k0 & Hin0 & Hk0). destruct (ring_rotate base h l Hring) as (r & m & Hs & Hm & Hr & Hf & Hlen).
  destruct (first_fit n (r ++ [(h_freep h, m)])) as (r1 & a & k & r2 & Er & Hk & Hsmall).
  { exists a0, k0. rewrite Hr, elem_of_cons. auto. }
  assert (chain h (h_ptr h (h_freep h)) (h_ptr h (h_freep h)) (r ++ [(h_freep h, m)])) as Hs2
    by (apply chain_app; exists (h_freep h); cbn; auto).
  rewrite Er in Hs2. apply chain_app in Hs2 as (y & Hs1 & Hs3). cbn in Hs3. destruct Hs3 as (-> & Hka & _).
  destruct (before_last _ _ _ _ _ Er) as [rest Erest].
  set (prev := default (h_freep h) (last r1.*1)).
  assert (h_ptr h prev = a /\ prev ∈ base :: l.*1) as [Hpa Hpin].
  { unfold prev. destruct (decide (r1 = [])) as [->|Hne].
    - cbn in *. split; [done|apply (rg_freep _ _ _ Hring)].
    - destruct (exists_last Hne) as (r0 & [b j] & E1). rewrite E1, fmap_app. cbn. rewrite last_snoc. cbn.
      rewrite E1 in Hs1. split; [by eapply chain_last|].
      assert ((b, j) ∈ (base, 0) :: l) as Hb.
      { apply Hr. rewrite Erest, E1, !elem_of_app. left. left. right. left. }
      change (base :: l.*1) with (((base, 0) :: l).*1). apply list_elem_of_fmap. by exists (b, j). }
  destruct (take_turn base h l n prev a Hring Hn Hpin Hpa) as (p & h' & l' & Et & Ht); [by rewrite Hka|].
  exists (length r1 + 0)%nat, p, h', l'. split; [|split; [|done]].
  - eapply walk_malloc; [exact Hs1| |by apply runs_done].
    intros b j Hb. split; [by eapply Hsmall|]. intros ->. apply Hf. rewrite Erest, fmap_app, elem_of_app. left.
    apply list_elem_of_fmap. by exists (h_freep h, j).
  - apply (f_equal length) in Erest. rewrite length_app in Erest. lia.
Qed.

(** ** More memory *)

Lemma ring_set_size base h l a v :
  ring base h l -> a ∉ base :: l.*1 ->
  ring base (mk_heap (h_ptr h) (fn_upd a v (h_size h)) (h_freep h) (tail (h_sbrk h))) l.
Proof.
  intros [Hb Hs Hg Hf] Ha. split; [done| |done|done]. eapply chain_ext; [|exact Hs].
  intros b Hin. cbn. rewrite fn_upd_ne; [done|]. intros ->. by apply Ha.
Qed.

(** What [sbrk] may answer to a request of [m] bytes: failure, or the address of
    memory above the base that is none of the free and the allocated blocks. *)
Definition sbrk_ok (base : Z) (l : blocks) (m a : Z) : Prop :=
  a = u32 (-1) \/
  base < a /\ a + m < W32 - 8 /\ forall x, a <= x < a + m -> ~ inside l x.

Definition grow (n : Z) : Z := if n <? 4096 then 4096 else n.

Lemma grow_ge n : n <= grow n /\ 4096 <= grow n.
Proof. unfold grow. destruct (Z.ltb_spec n 4096); lia. Qed.

(** Blocks that share no address lie one after the other. *)
Lemma apart_order l a m b k :
  (forall x, a <= x < a + 8 * m -> ~ inside l x) -> (b, k) ∈ l -> 1 <= m -> 1 <= k ->
  a + 8 * m <= b \/ b + 8 * k <= a.
Proof.
  intros Hd Hin Hm Hk. destruct (Z.le_gt_cases (a + 8 * m) b); [by left|].
  destruct (Z.le_gt_cases (b + 8 * k) a); [by right|].
  destruct (Hd (Z.max a b)); [lia|]. exists b, k. split; [done|lia].
Qed.

Lemma morecore_ok base h l n f rest :
  ring base h l -> 1 <= n -> 8 * grow n < W32 -> h_sbrk h = f :: rest -> f (8 * grow n) <> u32 (-1) ->
  sbrk_ok base l (8 * grow n) (f (8 * grow n)) ->
  exists h' l', morecore n h = Ok (h_freep h') h' /\ ring base h' l' /\ h_sbrk h' = rest /\
    (forall x, inside l' x <-> inside ([(f (8 * grow n), grow n)] ++ l) x) /\
    (forall b, ~ inside ([(f (8 * grow n), grow n)] ++ l) b -> b <> base -> h_size h' b = h_size h b) /\
    exists b k, (b, k) ∈ l' /\ n <= k.
Proof.
  intros Hring Hn Hmax Hsb Ha [?|(Hb & Hw & Hd)]; [done|]. pose proof (rg_base _ _ _ Hring) as Hbase.
  destruct (grow_ge n) as [Hg1 Hg2]. revert Ha Hb Hw Hd. set (a := f (8 * grow n)). intros Ha Hb Hw Hd.
  assert (forall b k, (b, k) ∈ l -> a + 8 * grow n <= b \/ b + 8 * k <= a) as Hord.
  { intros b k Hin. destruct (gaps_in _ _ _ _ (rg_gaps _ _ _ Hring) Hin).
    eapply apart_order; [exact Hd|exact Hin|lia..]. }
  assert (a ∉ base :: l.*1) as Hout.
  { intros [->|([b k] & -> & Hin)%list_elem_of_fmap]%elem_of_cons; [lia|]. cbn in *.
    destruct (gaps_in _ _ _ _ (rg_gaps _ _ _ Hring) Hin). destruct (Hord _ _ Hin); lia. }
  set (h1 := mk_heap (h_ptr h) (fn_upd a (grow n) (h_size h)) (h_freep h) rest).
  assert (ring base h1 l) as Hr1.
  { pose proof (ring_set_size base h l a (grow n) Hring Hout) as Hr. by rewrite Hsb in Hr. }
  destruct (free_ok base h1 l a (grow n) Hr1 Hb) as (h' & l' & E & Hr' & Hsb' & Hf & Hsame & Hbig); try lia.
  { cbn. by rewrite fn_upd_eq. }
  { done. }
  exists h', l'. split; [|split; [done|split; [done|split; [|split]]]].
  - unfold morecore. fold (grow n). unfold sizeof_Header. rewrite u32_small by lia. rewrite (Z.mul_comm (grow n)).
    erewrite bind_ok by (unfold sbrk; rewrite Hsb; reflexivity). fold a.
    destruct (Z.eqb_spec a (u32 (-1))); [done|]. erewrite bind_ok by reflexivity. cbn [h_ptr h_size h_freep h_sbrk].
    fold h1. replace (hadd a 1) with (a + 8) by (unfold hadd, sizeof_Header; rewrite u32_small; lia).
    by rewrite (bind_ok _ _ _ _ _ E).
  - intros x. rewrite Hf. cbn [app]. rewrite inside_cons. tauto.
  - intros b Hb1 Hb2. cbn [app] in Hb1. rewrite inside_cons in Hb1.
    assert (b <> a) by (intros ->; apply Hb1; left; lia). destruct (Hsame b) as [_ ->]; [done| |cbn; by rewrite fn_upd_ne].
    intros [?|([c k] & -> & Hin)%list_elem_of_fmap]%elem_of_cons; [done|]. apply Hb1. right. exists c, k. cbn.
    destruct (gaps_in _ _ _ _ (rg_gaps _ _ _ Hring) Hin). split; [done|lia].
  - destruct Hbig as (b & k & Hin & Hle). exists b, k. split; [done|lia].
Qed.

(** Without one the search comes round to [freep] and asks for memory. *)
Lemma search_asks base h l n j r h' :
  ring base h l -> 1 <= n -> (forall a k, (a, k) ∈ l -> k < n) ->
  (forall prev, runs (malloc_turn n) (prev, h_freep h) h j r h') ->
  runs (malloc_turn n) (h_freep h, h_ptr h (h_freep h)) h (length l + j) r h'.
Proof.
  intros Hring Hn Hsmall Hrun. destruct (ring_rotate base h l Hring) as (r0 & m & Hs & Hm & Hr & Hf & <-).
  eapply walk_malloc; [exact Hs| |apply Hrun]. intros a k Hin. split.
  - assert ((a, k) ∈ (base, 0) :: l) as Hl by (apply Hr, elem_of_app; by left).
    apply elem_of_cons in Hl as [[= -> ->]|Hl]; [lia|eauto].
  - intros ->. apply Hf, list_elem_of_fmap. by exists (h_freep h, k).
Qed.

Lemma ask_turn base h l n prev : ring base h l -> 1 <= n -> (forall a k, (a, k) ∈ l -> k < n) ->
  malloc_turn n (prev, h_freep h) h =
  (p <- morecore n ;; if p =? 0 then ret (inr 0) else q <- get_ptr p ;; ret (inl (p, q))) h.
Proof.
  intros Hring Hn Hsmall. destruct (ring_rotate base h l Hring) as (r0 & m & _ & Hm & Hr & _).
  unfold malloc_turn. erewrite bind_ok by done. rewrite Hm.
  assert ((h_freep h, m) ∈ (base, 0) :: l) as Hl by (apply Hr, elem_of_app; right; left).
  destruct (Z.leb_spec n m).
  - apply elem_of_cons in Hl as [[= _ ->]|Hl]; [lia|]. specialize (Hsmall _ _ Hl). lia.
  - erewrite bind_ok by done. by rewrite Z.eqb_refl.
Qed.

(** The loop of [malloc]: a block of the ring, or one of the ring with new
    memory, or none when [sbrk] fails. *)
Definition found (base : Z) (h : heap) (l : blocks) (n : Z) (extra : blocks) (p : Z) (h' : heap) (l' : blocks) : Prop :=
  ring base h' l' /\ h_size h' p = n /\ base < p /\ p + 8 * n < W32 /\ cut (extra ++ l) l' p n /\
  (forall b, ~ inside (extra ++ l) b -> b <> base -> h_size h' b = h_size h b).

Lemma loop_finds base h l n : ring base h l -> 1 <= n -> (exists a k, (a, k) ∈ l /\ n <= k) ->
  exists p h' l', hloop (malloc_turn n) (h_freep h, h_ptr h (h_freep h)) h = Ok (p + 8) h' /\
    h_sbrk h' = h_sbrk h /\ found base h l n [] p h' l'.
Proof.
  intros Hring Hn Hbig. destruct (search_finds base h l n Hring Hn Hbig) as (j & p & h' & l' & Hr & Hj & Ht).
  pose proof (ring_length _ _ _ Hring). destruct Ht as (T1 & T2 & T3 & T4 & T5 & T6 & T7). exists p, h', l'.
  split; [eapply hloop_runs; [exact Hr|unfold W32 in *; lia]|]. by split.
Qed.

Section Grow.
Context (base : Z) (h : heap) (l : blocks) (n : Z) (f : Z -> Z) (rest : list (Z -> Z)).
Context (Hring : ring base h l) (Hn : 1 <= n) (Hmax : 8 * grow n < W32).
Context (Hsmall : forall a k, (a, k) ∈ l -> k < n) (Hsb : h_sbrk h = f :: rest).

Lemma loop_fails : f (8 * grow n) = u32 (-1) ->
  hloop (malloc_turn n) (h_freep h, h_ptr h (h_freep h)) h = Ok 0 (mk_heap (h_ptr h) (h_size h) (h_freep h) rest).
Proof.
  intros Hf. destruct (grow_ge n). pose proof (ring_length _ _ _ Hring).
  eapply (hloop_runs _ _ _ (length l + 0)); [|lia]. eapply search_asks; [done..|]. intros prev. apply runs_done.
  rewrite (ask_turn base h l n prev Hring Hn Hsmall). unfold morecore. fold (grow n). unfold sizeof_Header.
  rewrite u32_small by lia. rewrite (Z.mul_comm (grow n)), bind_assoc.
  erewrite bind_ok by (unfold sbrk; rewrite Hsb; reflexivity). by rewrite Hf.
Qed.

Lemma loop_grows : f (8 * grow n) <> u32 (-1) -> sbrk_ok base l (8 * grow n) (f (8 * grow n)) ->
  exists p h' l', hloop (malloc_turn n) (h_freep h, h_ptr h (h_freep h)) h = Ok (p + 8) h' /\
    h_sbrk h' = rest /\ found base h l n [(f (8 * grow n), grow n)] p h' l'.
Proof.
  intros Hf Hok. destruct (morecore_ok base h l n f rest Hring Hn Hmax Hsb Hf Hok)
    as (h1 & l1 & E1 & Hr1 & Hs1 & Hin1 & Hsz1 & Hbig1).
  destruct (search_finds base h1 l1 n Hr1 Hn Hbig1) as (j & p & h' & l' & Hr & Hj & Ht).
  destruct Ht as (T1 & T2 & T3 & T4 & T5 & T6 & T7).
  pose proof (ring_length _ _ _ Hring). pose proof (ring_length _ _ _ Hr1).
  exists p, h', l'. split; [|split; [by rewrite T2|split_and!; try done]].
  - eapply (hloop_runs _ _ _ (length l + S j)); [|unfold W32 in *; lia].
    eapply search_asks; [done..|]. intros prev. eapply runs_step; [|exact Hr].
    rewrite (ask_turn base h l n prev Hring Hn Hsmall). erewrite bind_ok by exact E1.
    destruct (Z.eqb_spec (h_freep h1) 0) as [E0|_]; [|reflexivity].
    pose proof (rg_base _ _ _ Hr1). pose proof (rg_freep _ _ _ Hr1) as [?|Hin]%elem_of_cons; [lia|].
    pose proof (gaps_above _ _ _ (rg_gaps _ _ _ Hr1) Hin). lia.
  - intros x. destruct (T6 x) as [X1 X2]. rewrite <- Hin1. tauto.
  - intros b Hb1 Hb2. rewrite T7, Hsz1; [done..| |done]. by rewrite Hin1.
Qed.
End Grow.

(** ** The heap with the allocated blocks *)

Fixpoint apart (live : blocks) : Prop :=
  match live with
  | [] => True
  | (b, k) :: live => (forall x, b <= x < b + 8 * k -> ~ inside live x) /\ apart live
  end.

(** The free blocks are [l], the allocated ones [live]: their headers say their
    sizes, and no address is in two blocks. *)
Record heap_ok (base : Z) (h : heap) (l live : blocks) : Prop := {
  ok_ring : ring base h l;
  ok_live : forall b k, (b, k) ∈ live -> base < b /\ 1 <= k /\ b + 8 * k < W32 /\ h_size h b = k;
  ok_free : forall x, inside live x -> ~ inside l x;
  ok_apart : apart live;
}.

(** Before the first call of [malloc] there is no ring. *)
Definition ready (base : Z) (h : heap) (l live : blocks) : Prop :=
  heap_ok base h l live \/ h_freep h = 0 /\ 0 < base < W32 /\ l = [] /\ live = [].

Lemma apart_mid l1 b k l2 : apart (l1 ++ (b, k) :: l2) ->
  apart (l1 ++ l2) /\ forall x, b <= x < b + 8 * k -> ~ inside (l1 ++ l2) x.
Proof.
  induction l1 as [|[c j] l1 IH]; cbn [app apart]; [tauto|]. intros [Hc [IH1 IH2]%IH]. split.
  - split; [|done]. intros x Hx Hi. apply (Hc x Hx). rewrite inside_app, inside_cons in *. tauto.
  - intros x Hx. rewrite inside_cons. intros [Hx'|Hx']; [|by eapply IH2].
    apply (Hc x Hx'). rewrite inside_app, inside_cons. tauto.
Qed.

Lemma inside_in (l : blocks) b k : (b, k) ∈ l -> 1 <= k -> inside l b.
Proof. intros Hin Hk. exists b, k. split; [done|lia]. Qed.

Lemma inside_mid l1 b k l2 x :
  inside (l1 ++ (b, k) :: l2) x <-> inside (l1 ++ l2) x \/ b <= x < b + 8 * k.
Proof. rewrite !inside_app, inside_cons. tauto. Qed.

(** C18: [free] of an allocated block returns: the block leaves the allocated
    ones, its bytes join the free memory and nothing else does, and the heap
    stays well formed (the ring in address order, neighbours merged, the other
    allocated blocks and their headers untouched). *)
Theorem free_returns_block base h l l1 b k l2 : heap_ok base h l (l1 ++ (b, k) :: l2) ->
  exists h' l', free (b + 8) h = Ok tt h' /\ heap_ok base h' l' (l1 ++ l2) /\ h_sbrk h' = h_sbrk h /\
    forall x, inside l' x <-> inside l x \/ b <= x < b + 8 * k.
Proof.
  intros [Hr Hl Hf Ha]. destruct (Hl b k) as (Hb & Hk & Hw & Hsz); [apply elem_of_app; right; left|].
  destruct (apart_mid _ _ _ _ Ha) as [Ha' Hd].
  destruct (free_ok base h l b k Hr Hb Hsz Hk Hw) as (h' & l' & E & Hr' & Hs' & Hi & Hsame & _).
  { intros c j Hin. destruct (gaps_in _ _ _ _ (rg_gaps _ _ _ Hr) Hin).
    eapply apart_order; [|exact Hin|lia..]. intros x Hx. apply Hf. rewrite inside_mid. by right. }
  exists h', l'. split; [done|]. split; [|done]. split; [done| | |done].
  - intros c j Hin. destruct (Hl c j) as (X1 & X2 & X3 & X4).
    { rewrite elem_of_app in *. rewrite elem_of_cons. tauto. }
    split_and!; try done. destruct (Hsame c) as [_ ->]; [| |done].
    + intros ->. apply (Hd b); [lia|by eapply inside_in].
    + intros [->|([c' i] & -> & Hin')%list_elem_of_fmap]%elem_of_cons; [lia|]. cbn in *.
      destruct (gaps_in _ _ _ _ (rg_gaps _ _ _ Hr) Hin') as (_ & Hi1 & _).
      apply (Hf c'); [|by eapply inside_in]. apply inside_mid. left. by eapply inside_in.
  - intros x Hx. rewrite Hi. intros [Hx'|Hx']; [|by eapply Hd].
    apply (Hf x); [|done]. rewrite inside_mid. by left.
Qed.

Lemma apart_take base h l live n extra p h' l' :
  heap_ok base h l live -> 1 <= n -> (forall x, inside live x -> ~ inside (extra ++ l) x) ->
  found base h l n extra p h' l' -> heap_ok base h' l' ((p, n) :: live).
Proof.
  intros [Hr Hl Hf Ha] Hn Hx (F1 & F2 & F3 & F4 & F5 & F6). split; [done| | |].
  - intros b k [[= -> ->]|Hin]%elem_of_cons; [by split_and!|].
    destruct (Hl b k Hin) as (X1 & X2 & X3 & X4). split_and!; try done. rewrite F6; [done| |lia].
    apply Hx. by eapply inside_in.
  - intros x. rewrite inside_cons. destruct (F5 x) as [-> _]. intros [Hp|Hp]; [tauto|].
    intros [Hi _]. by apply (Hx x).
  - split; [|done]. intros x Hp Hi. apply (Hx x Hi). by apply F5.
Qed.

Lemma heap_ok_sbrk base h l live s : heap_ok base h l live ->
  heap_ok base (mk_heap (h_ptr h) (h_size h) (h_freep h) s) l live.
Proof.
  intros [[R1 R2 R3 R4] Hl Hf Ha]. split; [|done..]. split; [done| |done..]. by eapply chain_ext; [|exact R2].
Qed.

(** The first call makes the ring of the static header. *)
Lemma malloc_start base h l live nbytes : ready base h l live ->
  exists h0, heap_ok base h0 l live /\ h_sbrk h0 = h_sbrk h /\
    malloc base nbytes h = hloop (malloc_turn (units nbytes)) (h_freep h0, h_ptr h0 (h_freep h0)) h0.
Proof.
  unfold malloc. intros [Hok|(E & Hb & -> & ->)]; cbn zeta; rewrite bind_gets.
  - exists h. split; [done|]. split; [done|]. pose proof (ok_ring _ _ _ _ Hok) as Hr.
    pose proof (rg_base _ _ _ Hr). destruct (Z.eqb_spec (h_freep h) 0) as [E|_]; [|done].
    pose proof (rg_freep _ _ _ Hr) as [?|Hin]%elem_of_cons; [lia|].
    pose proof (gaps_above _ _ _ (rg_gaps _ _ _ Hr) Hin). lia.
  - rewrite E. change (0 =? 0) with true. cbv iota. erewrite bind_ok by reflexivity.
    exists (mk_heap (fn_upd base base (h_ptr h)) (fn_upd base 0 (h_size h)) base (h_sbrk h)).
    split; [|split; [done|reflexivity]]. split; [|by intros ? ? ?%elem_of_nil|by intros x ?%inside_nil|done].
    split; [done| |done|left]. cbn. by rewrite !fn_upd_eq.
Qed.

Lemma units_bounds nbytes : 0 <= nbytes <= 2 ^ 31 - 16 ->
  1 <= units nbytes /\ nbytes <= 8 * (units nbytes - 1) < nbytes + 8 /\ 8 * grow (units nbytes) < 2 ^ 31.
Proof.
  intros Hn. unfold units, sizeof_Header, grow. rewrite u32_small by (unfold W32; lia).
  pose proof (Z.div_mod (nbytes + 8 - 1) 8 ltac:(lia)). pose proof (Z.mod_pos_bound (nbytes + 8 - 1) 8 ltac:(lia)).
  destruct (Z.ltb_spec ((nbytes + 8 - 1) / 8 + 1) 4096); lia.
Qed.

(** C17: [malloc] returns for every heap that is well formed and every size up
    to 2^31 - 16.  Either it returns the address behind the header of a new
    allocated block, of the least number of headers that holds the request,
    cut out of the free memory or of the free memory with what one call of
    [sbrk] added, and the heap is well formed with the block among the
    allocated ones; or it returns 0, no free block was large enough, [sbrk]
    failed and the blocks are as before.  It asks for memory only when no free
    block is large enough. *)
Theorem malloc_allocates base h l live nbytes f rest :
  ready base h l live -> 0 <= nbytes <= 2 ^ 31 - 16 -> h_sbrk h = f :: rest ->
  (forall m, 0 < m < 2 ^ 31 -> sbrk_ok base (live ++ l) m (f m)) ->
  let n := units nbytes in
  nbytes <= 8 * (n - 1) < nbytes + 8 /\
  exists p h', malloc base nbytes h = Ok p h' /\
  ((exists b l' extra, p = b + 8 /\ heap_ok base h' l' ((b, n) :: live) /\ cut (extra ++ l) l' b n /\
     (extra = [] /\ h_sbrk h' = h_sbrk h \/
      extra = [(f (8 * grow n), grow n)] /\ h_sbrk h' = rest /\ forall a k, (a, k) ∈ l -> k < n)) \/
   (p = 0 /\ heap_ok base h' l live /\ h_sbrk h' = rest /\ f (8 * grow n) = u32 (-1) /\
     forall a k, (a, k) ∈ l -> k < n)).
Proof.
  intros Hready Hn Hsb Hf n. destruct (units_bounds nbytes Hn) as (U1 & U2 & U3). split; [done|].
  destruct (malloc_start base h l live nbytes Hready) as (h0 & Hok & Hsb0 & ->). fold n in U1, U2, U3 |- *.
  pose proof (ok_ring _ _ _ _ Hok) as Hr. rewrite Hsb in Hsb0. destruct (grow_ge n).
  destruct (decide (Exists (fun b => n <= snd b) l)) as [Hbig|Hsmall].
  { apply Exists_exists in Hbig as ([a k] & Hin & Hk).
    destruct (loop_finds base h0 l n Hr U1) as (p & h' & l' & E & Es & Hfound); [by exists a, k|].
    exists (p + 8), h'. split; [done|]. left. exists p, l', []. split; [done|].
    split; [|split; [apply Hfound|left; by rewrite Es, Hsb0, Hsb]].
    eapply apart_take; [done..| |exact Hfound]. by apply (ok_free _ _ _ _ Hok). }
  assert (forall a k, (a, k) ∈ l -> k < n) as Hlt.
  { intros a k Hin. destruct (Z.le_gt_cases n k); [|lia]. destruct Hsmall. apply Exists_exists. by exists (a, k). }
  destruct (decide (f (8 * grow n) = u32 (-1))) as [Hm|Hm].
  - eexists 0, _. split; [apply (loop_fails base h0 l n f rest); try done; unfold W32; lia|]. right.
    split; [done|]. split; [by apply heap_ok_sbrk|done].
  - destruct (Hf (8 * grow n)) as [?|(S1 & S2 & S3)]; [lia|done|].
    destruct (loop_grows base h0 l n f rest Hr U1) as (p & h' & l' & E & Es & Hfound); try done; [unfold W32; lia| |].
    { right. split; [done|]. split; [done|]. intros x Hx Hi. apply (S3 x Hx), inside_app. by right. }
    exists (p + 8), h'. split; [done|]. left. exists p, l', [(f (8 * grow n), grow n)]. split; [done|].
    split; [|split; [apply Hfound|by right]]. eapply apart_take; [done..| |exact Hfound].
    intros x Hx. cbn [app]. rewrite inside_cons. intros [Hi|Hi]; [|by eapply (ok_free _ _ _ _ Hok)].
    apply (S3 x Hi), inside_app. by left.
Qed.

(** ** Examples *)

Definition heap0 : heap := mk_heap (fun _ => 0) (fun _ => 0) 0 [fun _ => 8192].

Lemma malloc_allocates_witness : exists p h', malloc 4096 10 heap0 = Ok p h' /\ p = 40944.
Proof.
  destruct (malloc_allocates 4096 heap0 [] [] 10 (fun _ => 8192) []) as (_ & p & h' & E & _).
  - right. split; [done|]. split; [done|]. by split.
  - done.
  - done.
  - intros m [Hm1 Hm2]. right. split; [done|]. split; [|by intros x _ ?%inside_nil].
    unfold W32. change (2 ^ 31) with 2147483648 in Hm2. lia.
  - exists p, h'. split; [exact E|].
    assert (match malloc 4096 10 heap0 with Ok q _ => q | _ => 0 end = 40944) as Ec by (vm_compute; reflexivity).
    by rewrite E in Ec.
Defined.

(** Block 8192 is allocated, block 8208 behind it is free. *)
Definition heap1 : heap :=
  mk_heap (fun a => if a =? 4096 then 8208 else 4096)
    (fun a => if a =? 8192 then 2 else if a =? 8208 then 4 else 0) 4096 [].

Lemma free_returns_block_witness : exists h' l', free 8200 heap1 = Ok tt h' /\ heap_ok 4096 h' l' [].
Proof.
  destruct (free_returns_block 4096 heap1 [(8208, 4)] [] 8192 2 []) as (h' & l' & E & Hok & _).
  - split; [|intros b k [= -> ->]%list_elem_of_singleton; done| |].
    + split; [done| |done|left]. done.
    + intros x. cbn [app]. rewrite !inside_cons, !inside_nil. lia.
    + split; [|done]. by intros x _ ?%inside_nil.
  - by exists h', l'.
Defined.
