(* ===== verification/Uthread.v ===== *)
(** * User-level threads

    [uthread.c]: a table of eight threads, each with its stack, and a round
    robin scheduler that switches between their saved contexts.  [swtch]
    (assembly) stores the stack pointer of the running thread in the first
    thread's entry and continues with the second one's context; the thread that
    runs is always the one before [sched_index]. *)

From stdpp Require Import prelude list.
From Stdlib Require Import ZArith Lia.
From S2P Require Import Prelude State Spinlock Str Cprintf Ulib.

Definition UT_COUNT : nat := 8.
Definition PGSZ : Z := 4096.

(** ** ut_tcb.h *)

Inductive tpcbstate := T_UNUSED | T_USED.
#[export] Instance tpcbstate_eq_dec : EqDecision tpcbstate.
Proof. solve_decision. Defined.

(** [sp] is the array of 4096 pointers inside the entry: see [ut_stack]. *)
Record tpcb := mk_tpcb { t_utid : Z; t_context : Z; t_state : tpcbstate }.
Definition sizeof_tpcb : Z := 4 + 4 * 4096 + 4 + 4.
Definition sizeof_ucontext : Z := 20.

(** The global variables, and the memory the stacks are in. *)
Record utstate := mk_ut {
  u_tab : list tpcb;        (* utable->tpcb *)
  u_base : Z;               (* utable *)
  u_mem : mem;
  u_tid : Z;
  u_sched : nat;            (* sched_index *)
  u_count : Z;              (* uthread_count *)
}.
Definition with_tab (f : list tpcb -> list tpcb) (s : utstate) : utstate :=
  mk_ut (f (u_tab s)) (u_base s) (u_mem s) (u_tid s) (u_sched s) (u_count s).

Definition ut_state (i : nat) (s : utstate) : tpcbstate :=
  default T_UNUSED (t_state <$> u_tab s !! i).

(** Entry [i]'s stack, [t->sp]. *)
Definition ut_stack (base : Z) (i : nat) : Z := base + Z.of_nat i * sizeof_tpcb + 4.

(** ** uthread.c *)

(** [ap] is what [malloc] returned, [junk] what the memory held. *)
Definition UT_Init (ap : Z) (junk : list tpcb) (s : utstate) : Z * utstate :=
  if ap =? 0 then (-1, s) else
  let tab := (fun t => mk_tpcb (-1) (t_context t) T_UNUSED) <$> junk in
  let tab := alter (fun t => mk_tpcb (u_tid s) (t_context t) T_USED) 0%nat tab in
  (0, mk_ut tab ap (u_mem s) (u_tid s + 1) 1 1).

(** The stack of a new thread: the context below the fake return address and
    the argument.  [t->sp + PGSIZE-1] counts in pointers. *)
Definition ut_prepare (m : mem) (stack fnc arg : Z) : mem * Z :=
  let sp := stack + 4 * (PGSZ - 1) in
  let sp := sp - 2 * 4 in
  let m := store32 m sp 0xffffffff in
  let m := store32 m (sp + 4) arg in
  let sp := sp - sizeof_ucontext in
  let m := umemset m sp 0 sizeof_ucontext in
  let m := store32 m (sp + 16) fnc in
  let m := store32 m (sp + 12) (sp + 16 + 4) in
  (m, sp).

Definition UT_Create (fnc arg : Z) (s : utstate) : Z * utstate :=
  match find_idx (fun t => bool_decide (t_state t = T_UNUSED)) (u_tab s) with
  | None => (-1, s)
  | Some i =>
    let (m, sp) := ut_prepare (u_mem s) (ut_stack (u_base s) i) fnc arg in
    (u_tid s,
     mk_ut (alter (fun _ => mk_tpcb (u_tid s) sp T_USED) i (u_tab s)) (u_base s) m
       (u_tid s + 1) (u_sched s) (u_count s + 1))
  end.

Definition increment_sched_index (i : nat) : nat :=
  if Nat.eqb i (UT_COUNT - 1) then 0%nat else S i.

(** The entry before [sched_index], cyclically. *)
Definition curr_index (i : nat) : nat :=
  if Nat.eqb i 0 then (UT_COUNT - 1)%nat else (i - 1)%nat.

(** The loop of [UT_Scheduler]: the thread found and the new index. *)
Fixpoint ut_find (fuel : nat) (s : utstate) (i : nat) : option (nat * nat) :=
  match fuel with
  | O => None
  | S n => if bool_decide (ut_state i s = T_USED) then Some (i, increment_sched_index i)
           else ut_find n s (increment_sched_index i)
  end.

(** What a scheduling decision is: no switch, or a switch from one entry to
    another. *)
Inductive switch := NoSwitch | Switch (cur next : nat).

(** [None] when the loop would not end. *)
Definition UT_Scheduler (s : utstate) : option (switch * utstate) :=
  if (u_count s =? 1) && Nat.eqb (u_sched s) 1 then Some (NoSwitch, s) else
  match ut_find UT_COUNT s (u_sched s) with
  | None => None
  | Some (t, i) =>
    Some (Switch (curr_index (u_sched s)) t,
          mk_ut (u_tab s) (u_base s) (u_mem s) (u_tid s) i (u_count s))
  end.

Definition UT_yield := UT_Scheduler.

(** [swtch(&utable->tpcb[cur].context, utable->tpcb[next].context)] when the
    stack pointer is [esp]: the context the machine continues with. *)
Definition ut_swtch (sw : switch) (esp : Z) (s : utstate) : Z * utstate :=
  match sw with
  | NoSwitch => (esp, s)
  | Switch cur next =>
    (default 0 (t_context <$> u_tab s !! next),
     with_tab (alter (fun t => mk_tpcb (t_utid t) esp (t_state t)) cur) s)
  end.

(** One turn of the loop of [UT_shutdown]: it is over with a result, or it
    yields. *)
Definition UT_shutdown (s : utstate) : option (Z + switch * utstate) :=
  if Nat.eqb (u_sched s) 1 then
    if u_count s =? 1 then Some (inl 0)
    else inr <$> UT_yield s
  else Some (inl (-1)).

(** The rest of [UT_exit], for a thread that is not the root thread. *)
Definition UT_exit (s : utstate) : option (switch * utstate) :=
  let cur := curr_index (u_sched s) in
  let s := with_tab (alter (fun t => mk_tpcb (t_utid t) (t_context t) T_UNUSED) cur) s in
  UT_Scheduler (mk_ut (u_tab s) (u_base s) (u_mem s) (u_tid s) (u_sched s) (u_count s - 1)).

(** ** The scheduler is a round robin *)

Abbreviation used s i := (ut_state i s = T_USED).

(** Thread [cur] runs: its entry and the root thread's are in use, the index
    is the one after it, and the count is the number of entries in use. *)
Record ut_inv (s : utstate) (cur : nat) : Prop := {
  ui_len : length (u_tab s) = UT_COUNT;
  ui_cur : (cur < UT_COUNT)%nat;
  ui_sched : u_sched s = increment_sched_index cur;
  ui_root : used s 0%nat;
  ui_used : used s cur;
  ui_count : u_count s = Z.of_nat (length (filter (fun t => t_state t = T_USED) (u_tab s)));
}.

Lemma increment_mod i : (i < 8)%nat -> increment_sched_index i = ((i + 1) mod 8)%nat.
Proof.
  intros H. unfold increment_sched_index, UT_COUNT. cbn [Nat.sub].
  destruct (Nat.eqb_spec i 7) as [->|]; [done|]. rewrite Nat.mod_small by lia. lia.
Qed.

Lemma curr_increment i : (i < 8)%nat -> curr_index (increment_sched_index i) = i.
Proof. intros H. do 8 (destruct i as [|i]; [done|]). lia. Qed.

Lemma ut_find_spec s fuel i k :
  (i < 8)%nat -> (k < fuel)%nat -> used s ((i + k) mod 8)%nat ->
  exists j, (j <= k)%nat /\ used s ((i + j) mod 8)%nat /\
    (forall j', (j' < j)%nat -> ~ used s ((i + j') mod 8)%nat) /\
    ut_find fuel s i = Some ((i + j) mod 8, increment_sched_index ((i + j) mod 8))%nat.
Proof.
  revert i k. induction fuel as [|fuel IH]; intros i k Hi Hk Hu; [lia|]. cbn [ut_find].
  destruct (decide (used s i)) as [E|E].
  - exists 0%nat. rewrite Nat.add_0_r, Nat.mod_small by lia.
    rewrite bool_decide_eq_true_2 by done. split; [lia|]. split; [done|]. split; [lia|done].
  - rewrite bool_decide_eq_false_2 by done. destruct k as [|k].
    { rewrite Nat.add_0_r, Nat.mod_small in Hu by lia. done. }
    assert (forall n, (increment_sched_index i + n) mod 8 = (i + S n) mod 8)%nat as Hs.
    { intros n. rewrite increment_mod, Nat.Div0.add_mod_idemp_l by done. f_equal. lia. }
    destruct (IH (increment_sched_index i) k) as (j & Hj & Huj & Hmin & Hf).
    { rewrite increment_mod by done. apply Nat.mod_upper_bound. lia. }
    { lia. }
    { by rewrite Hs. }
    exists (S j). rewrite <- Hs. split; [lia|]. split; [done|]. split; [|done].
    intros [|j'] Hj'; [by rewrite Nat.add_0_r, Nat.mod_small by lia|].
    rewrite <- Hs. apply Hmin. lia.
Qed.

(** Entries in use and the count. *)
Lemma used_elem s i : used s i -> exists t, u_tab s !! i = Some t /\ t_state t = T_USED.
Proof. unfold ut_state. destruct (u_tab s !! i) as [t|]; [by exists t|done]. Qed.

Lemma count_one (l : list tpcb) i j ti tj :
  length (filter (fun t => t_state t = T_USED) l) = 1%nat ->
  l !! i = Some ti -> t_state ti = T_USED -> l !! j = Some tj -> t_state tj = T_USED -> i = j.
Proof.
  revert i j. induction l as [|t l IH]; intros i j Hc Hi Ti Hj Tj; [done|].
  rewrite filter_cons in Hc. destruct (decide (t_state t = T_USED)).
  - cbn in Hc. injection Hc as Hc. assert (filter (fun t => t_state t = T_USED) l = []) as E.
    { by destruct (filter _ l). }
    assert (forall k x, l !! k = Some x -> t_state x <> T_USED) as Hno.
    { intros k x Hk Hx. assert (x ∈ filter (fun t => t_state t = T_USED) l) as Hin.
      { apply list_elem_of_filter. split; [done|]. by eapply list_elem_of_lookup_2. }
      rewrite E in Hin. by apply elem_of_nil in Hin. }
    destruct i as [|i], j as [|j]; [done|..]; exfalso;
      [eapply (Hno j)|eapply (Hno i)|eapply (Hno i)]; done.
  - destruct i as [|i], j as [|j]; cbn in *; simplify_eq; f_equal; eauto.
Qed.

(** The cyclic distance from one entry to another. *)
Definition dist (a b : nat) : nat := ((b + 8 - a) mod 8)%nat.

Lemma dist_step a j : (a < 8)%nat -> (j < 7)%nat ->
  dist a ((increment_sched_index a + j) mod 8) = S j.
Proof.
  intros Ha Hj. unfold dist. rewrite increment_mod by done.
  rewrite Nat.Div0.add_mod_idemp_l.
  do 8 (destruct a as [|a]; [do 7 (destruct j as [|j]; [done|]); lia|]). lia.
Qed.

Lemma dist_sum a b c :
  (a < 8)%nat -> (b < 8)%nat -> (c < 8)%nat -> (dist a b <= dist a c)%nat ->
  (dist b c + dist a b = dist a c)%nat.
Proof.
  intros Ha Hb Hc H. unfold dist in *.
  destruct (Nat.lt_ge_cases b a), (Nat.lt_ge_cases c a), (Nat.lt_ge_cases c b);
    repeat match goal with
    | H : context [((?x + 8 - ?y) mod 8)%nat] |- _ =>
        first [ rewrite (Nat.mod_small (x + 8 - y)) in H by lia
              | replace (x + 8 - y)%nat with ((x - y) + 1 * 8)%nat in H by lia;
                rewrite Nat.Div0.mod_add, (Nat.mod_small (x - y)) in H by lia ]
    | |- context [((?x + 8 - ?y) mod 8)%nat] =>
        first [ rewrite (Nat.mod_small (x + 8 - y)) by lia
              | replace (x + 8 - y)%nat with ((x - y) + 1 * 8)%nat by lia;
                rewrite Nat.Div0.mod_add, (Nat.mod_small (x - y)) by lia ]
    end; lia.
Qed.

Lemma dist_zero a b : (a < 8)%nat -> (b < 8)%nat -> dist a b = 0%nat -> a = b.
Proof.
  intros Ha Hb. unfold dist. do 8 (destruct a as [|a]; [do 8 (destruct b as [|b]; [done|]); lia|]). lia.
Qed.

Lemma count_two (l : list tpcb) i :
  (2 <= length (filter (fun t => t_state t = T_USED) l))%nat ->
  exists j t, j <> i /\ l !! j = Some t /\ t_state t = T_USED.
Proof.
  revert i. induction l as [|t l IH]; intros i; [cbn; lia|].
  rewrite filter_cons. destruct (decide (t_state t = T_USED)) as [E|E].
  - intros Hc. destruct i as [|i]; [|by exists 0%nat, t].
    destruct (filter (fun t => t_state t = T_USED) l) as [|x f] eqn:Ef; [cbn in Hc; lia|].
    assert (x ∈ filter (fun t => t_state t = T_USED) l) as Hx by (rewrite Ef; left).
    apply list_elem_of_filter in Hx as [Hx (j & Hj)%list_elem_of_lookup_1].
    exists (S j), x. done.
  - intros Hc. destruct (IH (pred i) Hc) as (j & x & Hj & Hl & Hx).
    destruct i as [|i]; [by exists (S j), x|]. exists (S j), x. split; [cbn in Hj; lia|done].
Qed.

Lemma lookup_used s j t : u_tab s !! j = Some t -> t_state t = T_USED -> used s j.
Proof. intros Hj Ht. unfold ut_state. by rewrite Hj. Qed.

(** Another thread than the running one is in use, within seven steps. *)
Lemma ut_other s cur :
  ut_inv s cur -> ~ (u_count s = 1 /\ u_sched s = 1%nat) ->
  exists k, (k < 7)%nat /\ used s ((increment_sched_index cur + k) mod 8)%nat.
Proof.
  intros [Hlen Hc Hs Hr Hu Hn] Hno. unfold UT_COUNT in *.
  destruct (decide (cur = 0%nat)) as [->|Hne].
  - destruct (used_elem _ _ Hr) as (t0 & Ht0 & Hst0).
    destruct (count_two (u_tab s) 0) as (j & t & Hj & Hl & Ht).
    { destruct (length (filter _ (u_tab s))) as [|[|n]] eqn:E; [|exfalso|lia].
      - assert (t0 ∈ filter (fun t => t_state t = T_USED) (u_tab s)) as Hin.
        { apply list_elem_of_filter. split; [done|]. by eapply list_elem_of_lookup_2. }
        destruct (filter _ (u_tab s)); [by apply elem_of_nil in Hin|done].
      - apply Hno. split; [lia|]. by rewrite Hs. }
    exists (j - 1)%nat. pose proof (lookup_lt_Some _ _ _ Hl). split; [lia|].
    replace ((increment_sched_index 0 + (j - 1)) mod 8)%nat with j by (cbn [increment_sched_index];
      change (increment_sched_index 0) with 1%nat; rewrite Nat.mod_small; lia).
    by eapply lookup_used.
  - exists (7 - cur)%nat. split; [lia|].
    replace ((increment_sched_index cur + (7 - cur)) mod 8)%nat with 0%nat; [done|].
    rewrite increment_mod, Nat.Div0.add_mod_idemp_l by lia.
    replace (cur + 1 + (7 - cur))%nat with 8%nat by lia. done.
Qed.

(** The decision of the scheduler. *)
Lemma ut_sched_step s cur :
  ut_inv s cur ->
  (UT_Scheduler s = Some (NoSwitch, s) /\ cur = 0%nat /\ forall j, used s j -> j = 0%nat) \/
  (exists t s', UT_Scheduler s = Some (Switch cur t, s') /\ ut_inv s' t /\
     u_tab s' = u_tab s /\ used s t /\ t <> cur /\
     forall j, used s j -> j <> cur -> (dist cur t <= dist cur j)%nat).
Proof.
  intros Hi. pose proof Hi as [Hlen Hc Hs Hr Hu Hn]. unfold UT_Scheduler.
  destruct ((u_count s =? 1) && Nat.eqb (u_sched s) 1) eqn:E.
  - left. apply andb_true_iff in E as [E1 E2]. apply Z.eqb_eq in E1. apply Nat.eqb_eq in E2.
    assert (cur = 0%nat) as -> by (rewrite <- (curr_increment cur) by done; by rewrite <- Hs, E2).
    split; [done|]. split; [done|]. intros j Hj.
    destruct (used_elem _ _ Hr) as (t0 & ? & ?), (used_elem _ _ Hj) as (tj & ? & ?).
    symmetry. by eapply (count_one (u_tab s)); [lia|..].
  - right. destruct (ut_other s cur Hi) as (k & Hk & Hku).
    { intros [E1 E2]. by rewrite E1, E2 in E. }
    assert (increment_sched_index cur < 8)%nat as Hlt.
    { rewrite increment_mod by done. apply Nat.mod_upper_bound. lia. }
    destruct (ut_find_spec s UT_COUNT (increment_sched_index cur) k) as (j & Hj & Huj & Hmin & Hf);
      [done|unfold UT_COUNT; lia|done|].
    set (t := ((increment_sched_index cur + j) mod 8)%nat) in *.
    assert (dist cur t = S j) as Hd by (apply dist_step; [done|lia]).
    assert (t < 8)%nat as Ht by (apply Nat.mod_upper_bound; lia).
    exists t. eexists. rewrite Hs, Hf, curr_increment by done. split; [done|].
    split; [by constructor|]. split; [done|]. split; [done|]. split.
    { intros ->. unfold dist in Hd. rewrite Nat.add_comm, Nat.add_sub in Hd. done. }
    intros i Hui Hne. rewrite Hd. destruct (Nat.le_gt_cases (S j) (dist cur i)) as [|Hlt']; [done|].
    destruct (used_elem _ _ Hui) as (x & Hx & _). pose proof (lookup_lt_Some _ _ _ Hx) as Hil.
    rewrite Hlen in Hil. unfold UT_COUNT in *. exfalso.
    destruct (dist cur i) as [|d] eqn:Ed; [by apply dist_zero in Ed; [|done..]|].
    apply (Hmin d); [lia|].
    assert (i = (increment_sched_index cur + d) mod 8)%nat as <-; [|done].
    assert (d < 7)%nat as Hd7.
    { assert (dist cur i < 8)%nat by (apply Nat.mod_upper_bound; lia). lia. }
    pose proof (dist_step cur d Hc Hd7) as Eq. rewrite <- Ed in Eq.
    set (t' := ((increment_sched_index cur + d) mod 8)%nat) in *.
    assert (t' < 8)%nat by (apply Nat.mod_upper_bound; lia).
    pose proof (dist_sum cur t' i Hc ltac:(done) Hil ltac:(lia)).
    symmetry. apply dist_zero; [done|done|lia].
Qed.

(** ** Exit *)

Lemma count_alter_unused (l : list tpcb) i t :
  l !! i = Some t -> t_state t = T_USED ->
  S (length (filter (fun t => t_state t = T_USED)
       (alter (fun t => mk_tpcb (t_utid t) (t_context t) T_UNUSED) i l))) =
  length (filter (fun t => t_state t = T_USED) l).
Proof.
  revert i. induction l as [|x l IH]; intros i Hi Ht; [done|].
  destruct i as [|i]; cbn [alter list_alter]; rewrite !filter_cons.
  - cbn in Hi. simplify_eq. rewrite decide_False, decide_True by done. done.
  - cbn in Hi. destruct (decide (t_state x = T_USED)); cbn [length]; by rewrite IH.
Qed.

(** The table after the entry of [cur] is given up. *)
Definition exited (cur : nat) (s : utstate) : utstate :=
  with_tab (alter (fun t => mk_tpcb (t_utid t) (t_context t) T_UNUSED) cur) s.

Lemma exited_state cur s i : ut_state i (exited cur s) = if decide (i = cur) then T_UNUSED else ut_state i s.
Proof.
  unfold ut_state, exited. cbn. destruct (decide (i = cur)) as [->|Hne].
  - rewrite list_lookup_alter_eq. by destruct (u_tab s !! cur).
  - by rewrite list_lookup_alter_ne.
Qed.

Lemma ut_exit_step s cur :
  ut_inv s cur -> cur <> 0%nat ->
  exists t s', UT_exit s = Some (Switch cur t, s') /\ ut_inv s' t /\ t <> cur /\
    u_tab s' = u_tab (exited cur s) /\ u_count s' = u_count s - 1.
Proof.
  intros [Hlen Hc Hs Hr Hu Hn] Hne. unfold UT_COUNT in *.
  set (s1 := exited cur s).
  assert (increment_sched_index cur < 8)%nat as Hlt.
  { rewrite increment_mod by done. apply Nat.mod_upper_bound. lia. }
  destruct (ut_find_spec s1 UT_COUNT (increment_sched_index cur) (7 - cur)) as (j & Hj & Huj & _ & Hf).
  { done. }
  { unfold UT_COUNT. lia. }
  { rewrite increment_mod, Nat.Div0.add_mod_idemp_l by lia.
    replace (cur + 1 + (7 - cur))%nat with 8%nat by lia. change (8 mod 8)%nat with 0%nat.
    unfold s1. rewrite exited_state. by destruct (decide (0%nat = cur)). }
  set (t := ((increment_sched_index cur + j) mod 8)%nat) in *.
  assert (t < 8)%nat as Ht by (apply Nat.mod_upper_bound; lia).
  assert (t <> cur) as Htc.
  { intros E. unfold s1 in Huj. rewrite exited_state, decide_True in Huj by done. done. }
  unfold UT_exit, UT_Scheduler. cbn [u_sched with_tab u_count]. rewrite Hs.
  assert (Nat.eqb (increment_sched_index cur) 1 = false) as ->.
  { apply Nat.eqb_neq. intros E. apply Hne. rewrite <- (curr_increment cur) by done. by rewrite E. }
  rewrite andb_false_r, curr_increment by done.
  change (ut_find _ _ _) with (ut_find UT_COUNT s1 (increment_sched_index cur)) at 1.
  rewrite Hf. exists t. eexists. split; [done|].
  split; [|done]. destruct (used_elem _ _ Hu) as (x & Hx & Hxu).
  constructor; cbn; try done.
  - by rewrite length_alter.
  - change (used s1 0%nat). unfold s1. rewrite exited_state. by destruct (decide (0%nat = cur)).
  - pose proof (count_alter_unused (u_tab s) cur x Hx Hxu) as E. rewrite Hn. lia.
Qed.

(** ** Properties *)

(** [n] yields in a row, by whichever threads run, when thread [cur] runs at
    first: the thread whose context was switched to last. *)
Fixpoint ut_yields (n : nat) (cur : nat) (s : utstate) : option (nat * utstate) :=
  match n with
  | O => Some (cur, s)
  | S n =>
    match UT_yield s with
    | Some (NoSwitch, s') => ut_yields n cur s'
    | Some (Switch _ next, s') => ut_yields n next s'
    | None => None
    end
  end.

(** C26: the scheduler takes turns.  Whichever thread runs, every thread in
    use runs after fewer than [UT_COUNT] yields: the last of them switches to its
    context, and the scheduler's index is again the one after the running
    thread. *)
Theorem ut_round_robin s cur j :
  ut_inv s cur -> used s j ->
  exists n s', (n < UT_COUNT)%nat /\ ut_yields n cur s = Some (j, s') /\ ut_inv s' j.
Proof.
  intros Hi Hj. destruct (used_elem _ _ Hj) as (tj & Htj & _).
  pose proof (lookup_lt_Some _ _ _ Htj) as Hjl. rewrite (ui_len _ _ Hi) in Hjl.
  enough (exists n s', (n <= dist cur j)%nat /\ ut_yields n cur s = Some (j, s') /\ ut_inv s' j)
    as (n & s' & Hn & ? & ?).
  { exists n, s'. split; [|done]. assert (dist cur j < 8)%nat by (apply Nat.mod_upper_bound; lia).
    unfold UT_COUNT. lia. }
  clear Htj tj. remember (dist cur j) as d eqn:Hd. revert s cur Hi Hj Hd.
  induction d as [d IH] using lt_wf_ind. intros s cur Hi Hj Hd.
  pose proof (ui_cur _ _ Hi) as Hc. unfold UT_COUNT in *.
  destruct (decide (j = cur)) as [->|Hne]; [exists 0%nat, s; split; [lia|done]|].
  destruct (ut_sched_step s cur Hi) as [(_ & -> & H0)|(t & s' & Hs & Hi' & Htab & Hut & Htc & Hmin)];
    [by apply H0 in Hj|].
  specialize (Hmin j Hj Hne). pose proof (ui_cur _ _ Hi') as Ht. unfold UT_COUNT in Ht.
  pose proof (dist_sum cur t j Hc Ht Hjl Hmin) as Hsum.
  assert (dist cur t <> 0)%nat as Hnz by (intros E; apply dist_zero in E; [congruence|done|done]).
  destruct (IH (dist t j) ltac:(lia) s' t Hi') as (n & s'' & Hn & Hy & Hi''); [|done|].
  { unfold ut_state in *. by rewrite Htab. }
  exists (S n), s''. split; [lia|]. split; [|done]. cbn [ut_yields]. unfold UT_yield. by rewrite Hs.
Qed.

(** a switch never goes to the running thread.  [UT_Scheduler] ends; it
    returns without a switch exactly when the root thread runs alone, and
    otherwise switches to another thread in use, the next one in cyclic order,
    whose saved context is the one continued: the context the running thread
    stores does not get in the way. *)
Theorem ut_switches_to_another s cur esp :
  ut_inv s cur ->
  (UT_Scheduler s = Some (NoSwitch, s) /\ cur = 0%nat /\ forall j, used s j -> j = 0%nat) \/
  (exists t x s', UT_Scheduler s = Some (Switch cur t, s') /\ ut_inv s' t /\ t <> cur /\
     u_tab s !! t = Some x /\ t_state x = T_USED /\
     (forall j, used s j -> j <> cur -> (dist cur t <= dist cur j)%nat) /\
     fst (ut_swtch (Switch cur t) esp s') = t_context x /\
     t_context <$> u_tab (snd (ut_swtch (Switch cur t) esp s')) !! cur = Some esp).
Proof.
  intros Hi. destruct (ut_sched_step s cur Hi) as [H|(t & s' & Hs & Hi' & Htab & Hut & Htc & Hmin)];
    [by left|right].
  destruct (used_elem _ _ Hut) as (x & Hx & Hxu). exists t, x, s'. do 5 (split; [done|]).
  split; [done|]. cbn. rewrite Htab, Hx, list_lookup_alter_eq. split; [done|].
  destruct (used_elem _ _ (ui_used _ _ Hi)) as (y & -> & _). done.
Qed.

(** [UT_exit] of a thread other than the root gives up exactly its
    entry, and goes on with another thread in use. *)
Theorem ut_exit_gives_up_entry s cur :
  ut_inv s cur -> cur <> 0%nat ->
  exists t s', UT_exit s = Some (Switch cur t, s') /\ ut_inv s' t /\ t <> cur /\
    u_count s' = u_count s - 1 /\
    forall i, ut_state i s' = if decide (i = cur) then T_UNUSED else ut_state i s.
Proof.
  intros Hi Hne. destruct (ut_exit_step s cur Hi Hne) as (t & s' & He & Hi' & Ht & Htab & Hc).
  exists t, s'. do 4 (split; [done|]). intros i. rewrite <- exited_state.
  unfold ut_state. by rewrite Htab.
Qed.

(** ** New threads *)

Lemma load32_stosb_ne m d c n a :
  a + 4 <= d \/ d + Z.of_nat n <= a -> load32 (stosb m d c n) a = load32 m a.
Proof.
  intros H. apply load32_ext. intros k Hk. rewrite stosb_byte.
  destruct (decide _); [lia|done].
Qed.

(** The words of a stack prepared for [fnc(arg)], from the context up. *)
Lemma ut_prepare_words m stack fnc arg :
  0 <= fnc < W32 -> 0 <= arg < W32 -> 0 <= stack -> stack + sizeof_tpcb < W32 ->
  let (m', sp) := ut_prepare m stack fnc arg in
  sp = stack + 16352 /\
  load32 m' (sp + 12) = sp + 20 /\ load32 m' (sp + 16) = fnc /\
  load32 m' (sp + 20) = 0xffffffff /\ load32 m' (sp + 24) = arg /\
  forall a, ~ (sp <= a < sp + 28) -> m' a = m a.
Proof.
  intros Hf Ha Hs Hb. unfold ut_prepare, PGSZ, sizeof_ucontext, sizeof_tpcb, umemset in *.
  set (sp := stack + 4 * (4096 - 1) - 2 * 4 - 20). change (Z.to_nat 20) with 20%nat.
  split; [unfold sp; lia|].
  split; [rewrite load32_store32_eq by (unfold sp; lia); lia|].
  split; [rewrite load32_store32_ne, load32_store32_eq by lia; done|].
  split; [|split].
  - rewrite !load32_store32_ne, load32_stosb_ne by lia.
    rewrite load32_store32_ne by lia. replace (sp + 20) with (stack + 4 * (4096 - 1) - 2 * 4) by (unfold sp; lia).
    by rewrite load32_store32_eq.
  - rewrite !load32_store32_ne, load32_stosb_ne by lia.
    replace (sp + 24) with (stack + 4 * (4096 - 1) - 2 * 4 + 4) by (unfold sp; lia).
    by rewrite load32_store32_eq.
  - intros a Hn. rewrite !store32_byte.
    rewrite !decide_False by (unfold sp in *; lia). rewrite stosb_byte, decide_False by (unfold sp in *; lia).
    by rewrite !store32_byte, !decide_False by (unfold sp in *; lia).
Qed.

Lemma count_alter_used (l : list tpcb) i t t' :
  l !! i = Some t -> t_state t = T_UNUSED -> t_state t' = T_USED ->
  length (filter (fun t => t_state t = T_USED) (alter (fun _ => t') i l)) =
  S (length (filter (fun t => t_state t = T_USED) l)).
Proof.
  revert i. induction l as [|x l IH]; intros i Hi Ht Ht'; [done|].
  destruct i as [|i]; cbn [alter list_alter]; rewrite !filter_cons.
  - cbn in Hi. simplify_eq. rewrite decide_True, decide_False by congruence. done.
  - cbn in Hi. destruct (decide (t_state x = T_USED)); cbn [length]; by rewrite IH.
Qed.

(** C27: [UT_Create].  It fails exactly when all entries are in use; otherwise
    it takes the first free entry, and the context it leaves there starts [fnc]
    with [arg] above a fake return address.  All of it lies in the entry's own
    stack, and no other byte of memory changes. *)
Theorem ut_create_thread s cur fnc arg :
  ut_inv s cur -> 0 <= fnc < W32 -> 0 <= arg < W32 ->
  0 <= u_base s -> u_base s + 9 * sizeof_tpcb < W32 ->
  (UT_Create fnc arg s = (-1, s) /\ forall i, (i < UT_COUNT)%nat -> used s i) \/
  (exists i sp s', UT_Create fnc arg s = (u_tid s, s') /\ (i < UT_COUNT)%nat /\
     ut_state i s = T_UNUSED /\ (forall j, (j < i)%nat -> used s j) /\
     ut_inv s' cur /\ u_tab s' !! i = Some (mk_tpcb (u_tid s) sp T_USED) /\
     ut_stack (u_base s) i <= sp /\ sp + 28 <= ut_stack (u_base s) i + 4 * 4096 /\
     load32 (u_mem s') (sp + 16) = fnc /\ load32 (u_mem s') (sp + 20) = 0xffffffff /\
     load32 (u_mem s') (sp + 24) = arg /\
     forall a, ~ (sp <= a < sp + 28) -> u_mem s' a = u_mem s a).
Proof.
  intros [Hlen Hc Hs Hr Hu Hn] Hf Ha Hb Hb'. unfold UT_Create.
  destruct (find_idx _ (u_tab s)) as [i|] eqn:E.
  - right. apply find_from_Some in E as (_ & (t & Ht & Htu) & Hmin). rewrite Nat.sub_0_r in *.
    apply bool_decide_eq_true in Htu. pose proof (lookup_lt_Some _ _ _ Ht) as Hi.
    rewrite Hlen in Hi. unfold UT_COUNT in *.
    assert (forall j, ~ used s j -> ut_state j s = T_UNUSED) as Hus by (intros j; by destruct (ut_state j s)).
    pose proof (ut_prepare_words (u_mem s) (ut_stack (u_base s) i) fnc arg Hf Ha) as Hw.
    destruct (ut_prepare (u_mem s) (ut_stack (u_base s) i) fnc arg) as [m sp].
    destruct Hw as (Esp & _ & H1 & H2 & H3 & H4);
      [unfold ut_stack, sizeof_tpcb in *; lia|unfold ut_stack, sizeof_tpcb in *; nia|].
    eexists i, sp, _. split; [done|]. split; [done|]. split; [unfold ut_state; by rewrite Ht, <- Htu|].
    assert (forall j, used s j -> used (mk_ut (alter (fun _ => mk_tpcb (u_tid s) sp T_USED) i (u_tab s))
      (u_base s) m (u_tid s + 1) (u_sched s) (u_count s + 1)) j) as Hmono.
    { intros j Hj. unfold ut_state in *. cbn. destruct (decide (j = i)) as [->|].
      - by rewrite list_lookup_alter_eq, Ht.
      - by rewrite list_lookup_alter_ne. }
    split.
    { intros j Hj. destruct (lookup_lt_is_Some_2 (u_tab s) j) as [x Hx]; [lia|].
      specialize (Hmin j x Hj Hx). apply bool_decide_eq_false in Hmin.
      unfold ut_state. rewrite Hx. cbn. by destruct (t_state x). }
    split.
    { constructor; cbn; auto; [by rewrite length_alter|].
      rewrite (count_alter_used _ _ t) by done. lia. }
    cbn. split; [by rewrite list_lookup_alter_eq, Ht|]. split; [lia|]. split; [lia|]. done.
  - left. split; [done|]. intros i Hi. rewrite find_from_None in E.
    destruct (lookup_lt_is_Some_2 (u_tab s) i) as [x Hx]; [lia|].
    specialize (E x (list_elem_of_lookup_2 _ _ _ Hx)). apply bool_decide_eq_false in E.
    unfold ut_state. rewrite Hx. cbn. by destruct (t_state x).
Qed.

(** ** The properties at work *)

Definition ut_junk : list tpcb := replicate 8 (mk_tpcb 7 7 T_USED).
Definition ut_boot : utstate := mk_ut [] 0 (fun _ => 0) 0 1 0.
Definition ut_one : utstate := snd (UT_Init 0x10000 ut_junk ut_boot).
Definition ut_three : utstate := snd (UT_Create 100 1 (snd (UT_Create 100 0 ut_one))).

Lemma ut_one_inv : ut_inv ut_one 0.
Proof. constructor; try done. cbn. unfold UT_COUNT. lia. Qed.
Lemma ut_three_inv : ut_inv ut_three 0.
Proof. constructor; try done. cbn. unfold UT_COUNT. lia. Qed.
Lemma ut_three_inv2 : ut_inv (mk_ut (u_tab ut_three) 0x10000 (u_mem ut_three) 3 3 3) 2.
Proof. constructor; try done. cbn. unfold UT_COUNT. lia. Qed.

Lemma ut_round_robin_witness :
  exists n s', (n < UT_COUNT)%nat /\ ut_yields n 0 ut_three = Some (2%nat, s') /\ ut_inv s' 2.
Proof. apply (ut_round_robin ut_three 0 2 ut_three_inv). reflexivity. Defined.

Lemma ut_switches_to_another_witness :
  exists t s', UT_Scheduler ut_three = Some (Switch 0 t, s') /\ t <> 0%nat.
Proof.
  destruct (ut_switches_to_another ut_three 0 77 ut_three_inv)
    as [(_ & _ & H)|(t & x & s' & E & _ & Ht & _)].
  - exfalso. specialize (H 1%nat eq_refl). discriminate.
  - exists t, s'. split; [exact E|exact Ht].
Defined.

Lemma ut_exit_gives_up_entry_witness :
  exists t s', UT_exit (mk_ut (u_tab ut_three) 0x10000 (u_mem ut_three) 3 3 3) =
    Some (Switch 2 t, s') /\ t <> 2%nat.
Proof.
  destruct (ut_exit_gives_up_entry _ 2 ut_three_inv2) as (t & s' & E & _ & Ht & _);
    [discriminate|].
  exists t, s'. split; [exact E|exact Ht].
Defined.

Lemma ut_create_thread_witness :
  exists i sp s', UT_Create 100 5 ut_one = (1, s') /\
    u_tab s' !! i = Some (mk_tpcb 1 sp T_USED) /\ load32 (u_mem s') (sp + 24) = 5.
Proof.
  destruct (ut_create_thread ut_one 0 100 5 ut_one_inv) as [(E & _)|(i & sp & s' & E & H)].
  - unfold W32. lia.
  - unfold W32. lia.
  - cbn. lia.
  - cbn. unfold sizeof_tpcb, W32. lia.
  - vm_compute in E. discriminate.
  - exists i, sp, s'. split; [exact E|]. destruct H as (_ & _ & _ & _ & H1 & _ & _ & _ & _ & H2 & _).
    split; [exact H1|exact H2].
Defined.
